(* ===== verification/_CoqProject ===== *)
-Q . S2P
Prelude.v
GoText.v
Sorting.v
GoTime.v
Sha256.v
Json.v
Digests.v
Errors.v
Identity.v
Blobs.v
Lifecycle.v
Custody.v
Runs.v
Admission.v
Work.v
StrictJson.v
JsonGrammar.v
JsonNumbers.v
JsonDocuments.v
JsonRoundtrip.v
JsonObjects.v
ResourceGeneration.v
RateLimiter.v
RateAnswers.v
Sessions.v
Deliveries.v
Material.v
MaterialFold.v
MaterialTotal.v
Store.v
SessionStore.v
StoreEffects.v
SessionLog.v
SessionHistory.v
SessionProgress.v
SessionIsolation.v
SessionIndexes.v
SessionListing.v
Memberships.v
LifecycleTables.v
LifecycleStore.v
LifecycleInventory.v
LifecycleErase.v
LifecycleEffects.v
LifecycleSafety.v
InventoryExact.v
DeletionService.v
WorkerProtocol.v
WorkerFrames.v
WorkerReconnect.v
WorkerTranscripts.v
WorkerMachine.v
WorkerSnapshot.v
WorkerReducers.v
WorkerSample.v
WorkerMachineSafety.v
WorkerMachineRuns.v
WorkerMachineAttempts.v
WorkerMachineCommits.v
WorkerSignatures.v
WorkerRestore.v
WorkerDurable.v
WorkerStore.v
WorkerReplay.v
