(* ===== verification/Prelude.v ===== *)
(** * Sessionless: a verification development

    Sessionless is a control plane, written in Go, for conversations ("sessions")
    that frontends append to and workers execute runs for.  Canonical state is in
    YDB tables, large payloads are objects under tenant-scoped keys, and every
    record is validated on its way in and out.  This library models the core that
    the rest of the program relies on and proves it correct.  Paths below are
    under [src/internal].

    ** Parts and files

    - The language: [Prelude] (integers, validators, lists), [GoText] (strings,
      runes, decimal and path functions), [GoTime] (instants, calendar, RFC 3339),
      [Sorting], [Sha256], [Json] (what [json.Marshal] writes).
    - Domain records ([domain]): [Errors], [Identity], [Blobs] (object keys),
      [Lifecycle] (deletion, holds, inventory), [Digests] and [Custody] (retained
      metadata of a run), [Runs] (the run and its status machine), [Work]
      (attempts, leases, checkpoints, quota), [Sessions] (sessions, participants,
      bindings, events, snapshots, context inputs), [Deliveries] (projections and
      Telegram deliveries), [Memberships].
    - Strict JSON ([strictjson]): [StrictJson] is the scanner, the validators and
      [Parse]; [JsonGrammar] and [JsonNumbers] state the grammar and the values of
      numbers independently and relate the two; [JsonDocuments], [JsonRoundtrip] and [JsonObjects] treat whole documents,
      encoding followed by decoding, and objects decoded into records.
      [ResourceGeneration] ([domain/attached_resource_generation.go]) is a stored
      record that uses this codec.
    - Admission: [Admission] ([scheduler/policy.go], [domain/scheduling.go]).
    - Rate limiting: [RateLimiter] and [RateAnswers] ([runexplanationrate] and the
      rate part of [ydbstore/run_explanation_rated.go]).
    - Session material ([sessioncontext/material_prefix.go]): [Material],
      [MaterialFold], [MaterialTotal].
    - The session store ([ydbstore/sessions.go] with the helpers it calls):
      [Store] (tables, transactions), [SessionStore] (the operations),
      [StoreEffects] (what each changes), then [SessionLog], [SessionHistory],
      [SessionProgress], [SessionIsolation], [SessionIndexes], [SessionListing].
      Their sequences of operations are those of [sessions.go]; a session may be
      created at any position, and its log starts there.
    - Session deletion ([ydbstore/session_lifecycle.go] with the helpers it calls):
      [LifecycleTables] (the further tables and their transactions),
      [LifecycleStore] (holds, requesting and starting), [LifecycleInventory],
      [LifecycleErase] (completing), then [LifecycleEffects], [LifecycleSafety]
      (sequences of both kinds of operations) and [InventoryExact].  [DeletionService] is [sessionlifecycle/service.go].
    - The attached-worker protocol ([attachedworkerprotocol]): [WorkerProtocol]
      (errors, versions, manifest, records), [WorkerFrames] (validation and
      fingerprints), [WorkerReconnect] (reconciliation after a reconnect),
      [WorkerTranscripts] (what is signed), [WorkerMachine] (the machine both ends
      run over the frames, [machine.go]), then [WorkerMachineSafety] (the effect of one
      accepted frame), [WorkerMachineRuns], [WorkerMachineAttempts] and
      [WorkerMachineCommits] (whole conversations) and [WorkerSignatures];
      [WorkerSample] is a conversation their examples use.  The machine as the
      platform keeps it between frames ([durable.go]): [WorkerSnapshot] (snapshots,
      storing, restoring), [WorkerReducers] (the reducers and frame builders over
      them), then [WorkerRestore] and [WorkerDurable] (a restored machine is the one
      that was stored), [WorkerStore] (every stored machine) and [WorkerReplay].

    They interact as in the code: a store operation is one transaction that
    validates with the functions of [Sessions] and [Lifecycle], folds the material
    of an appended event with [Material], and writes the tables of [Store].  The
    deletion service calls the lifecycle store through an interface, a class whose
    laws the store's theorems discharge; other clients run between its calls.  The
    worker protocol shares only the language files with the rest: in the program its
    machine is driven by the transports of the platform and of the worker daemon.

    ** How code becomes definitions

    A struct is a record with prefixed fields, an enumeration an inductive type
    with a constructor for any other text, an identifier a string.  A validator
    returns [option error], a fallible function [error + A], and a method on a
    pointer takes an [option] and returns the receiver with the error, so that a
    failed call's effect on the receiver is visible.  Integers are [Z]; where the
    width matters the wrap-around or saturation is written out.  A transaction is
    a state and error monad over the tables that keeps its changes only on
    success; a column that holds the JSON of a record holds the record, with its
    integers exact (in YDB they are up to [2^53]).  A function that reads outside a
    transaction takes the tables each of its queries finds ([LifecycleTables.reads]),
    which may differ as other clients write between the queries.

    ** What the theorems show

    - The store: over every sequence of operations, failing ones included, the
      history of a session is one gap-free append-only log, an append that
      reported success is applied exactly once and one that should succeed does,
      listings are the newest-first list, indexes agree with what they index,
      and tenants are isolated.
    - Deletion, over sequences of store and lifecycle operations: only completing a
      deletion removes rows of the history; a tombstone freezes its session until
      the deletion completes, and what is erased then stays erased; an active legal
      hold keeps a session whatever runs beside it; a completed deletion has left no
      row of the session in the session tables nor a routing key that leads to it;
      the inventory lists only objects some read found and every object all reads
      find, exactly the session's objects when the tables do not change meanwhile,
      although its reads are bounded; and the service deletes only objects of the
      inventory the typed confirmation names, never under a hold, and completes only
      when all of them are deleted.
    - The worker protocol: a refused frame changes nothing and an exact repetition is
      acknowledged without effect; a connection is ready only after signed frames that
      verify for exactly that connection; a revocation is final and fences the open
      attempt; an attempt commits only with a terminal its worker reported, not
      overridden by a cancellation, and an acknowledgement that agrees; its
      lease binding never changes; a reconnect always starts from a valid
      snapshot.  A signature is good for one frame, and what is signed verifies.
    - Stored machines: a machine restored from its snapshot answers every further
      frame as the stored one would, so that applying frames to snapshots is the
      conversation of one machine; no reducer gives a snapshot that cannot be
      restored; and the platform's frames are given again exactly on a retry, the
      answer to a reconnect only when no terminal was held before it.
    - Records: lifecycles of sessions, bindings, runs, attempts, deliveries and
      deletions as invariants of sequences of calls; object keys stay in their
      namespaces; authorisation and validation characterised exactly; the material
      fold never rejects valid history.
    - Strict JSON: the scanner terminates and accepts exactly the documents of the
      grammar within the limits, [Parse] returns their tree, and encoding followed
      by parsing is the identity.  The stored head round-trips and fails closed.
    - Admission: exactly which runs are admitted, and that the slot written for a
      decision is well formed.
    - Rate limiting: committed debits of an identity are at most a burst of two
      and then one per interval, for any readings of the clock; a request on a
      reachable table is answered, and served after the wait it is given.

    ** Bounds and fuel

    The scanner recurses with fuel: [scan_fuel] is linear in the length of the
    input, and [JsonDocuments.scan_terminates] proves that it is never used up.
    The decoders of a scanned document ([decode_value], [raw_loop]) take the same
    fuel; it is enough for every accepted document ([JsonDocuments.decode_document])
    and for every object that was marshalled ([JsonObjects.raw_members_marshal]).
    [hash_blocks] has the number of words as fuel and consumes sixteen a step;
    [trim_zeros] has nine steps, the number of digits of a nanosecond count.  The
    page loops of the inventory have [page_fuel], two more than the row bound, and
    every page but the last charges a row ([InventoryExact.inventory_terminates]).  The
    remaining recursion is structural.  Limits (identifier lengths, row and
    document sizes, page sizes) are the constants of the source.

    ** Not modelled

    Of the store: its budgeted authority branch, the deletion of sessions with
    retained terminal custody, the transactions for frontend ingress, web identity,
    attached workers, outboxes, leases and quota, and failures of the database
    itself, which abort a transaction without effect.  The deletion reads a worker
    receipt as what its codec answers, and takes the answers of the checks of owned
    admissions as arguments ([LifecycleTables.unmodelled]).  Of the decoders: those of
    the material prefix, the retained metadata and the rate rows; [ProjectStrings].  Of
    admission: the transaction around the policy and the dispatcher.  Of the rated
    read: the authorization before and the resource read after the rate decision.  Of
    the worker protocol: its wire codec and the JSON text of a stored machine; a nil
    machine; ed25519, which is an argument ([verify]) with its laws as hypotheses
    ([WorkerSignatures.Ed25519Laws]).  What the platform answers to a reconnect is
    assumed to be its own record of the attempt where a theorem says so
    ([WorkerMachineCommits.authoritative], [WorkerMachineAttempts.cancels_once]), as
    the program builds it.  Not modelled at all are
    the worker daemon and harness adapters, the frontends, the clients of queues, object
    storage and providers, and the commands: they are I/O around the parts above,
    or records of further subsystems.  Error texts of libraries are placeholders
    that no theorem depends on. *)

From stdpp Require Export base numbers strings list gmap option relations.
From Stdlib Require Export ZArith Lia.

#[local] Open Scope Z_scope.

(** ** Machine integers

    A Go [uint64], [uint32] or [int64] is a [Z]; the conversions below write
    the wrap-around out.  [u64 x] says that [x] is a value of the type. *)

Definition max_u64 : Z := 18446744073709551615.
Definition max_u32 : Z := 4294967295.
Definition max_i64 : Z := 9223372036854775807.

Definition u64 (x : Z) : Prop := 0 <= x <= max_u64.
Definition u32 (x : Z) : Prop := 0 <= x <= max_u32.
Definition i64 (x : Z) : Prop := - max_i64 - 1 <= x <= max_i64.

Definition wrap_u64 (x : Z) : Z := x mod (max_u64 + 1).
Definition wrap_u32 (x : Z) : Z := x mod (max_u32 + 1).
Definition wrap_i64 (x : Z) : Z :=
  (x + max_i64 + 1) mod (max_u64 + 1) - (max_i64 + 1).

Lemma wrap_u64_small x : u64 x -> wrap_u64 x = x.
Proof. unfold u64, wrap_u64, max_u64. intros. apply Z.mod_small. lia. Qed.

Lemma wrap_u32_small x : u32 x -> wrap_u32 x = x.
Proof. unfold u32, wrap_u32, max_u32. intros. apply Z.mod_small. lia. Qed.

Lemma wrap_i64_small x : i64 x -> wrap_i64 x = x.
Proof.
  unfold i64, wrap_i64, max_i64, max_u64. intros.
  rewrite Z.mod_small; lia.
Qed.

Lemma wrap_u64_range x : u64 (wrap_u64 x).
Proof.
  unfold u64, wrap_u64, max_u64.
  pose proof (Z.mod_pos_bound x (18446744073709551615 + 1)). lia.
Qed.

Lemma wrap_u32_range x : u32 (wrap_u32 x).
Proof.
  unfold u32, wrap_u32, max_u32.
  pose proof (Z.mod_pos_bound x (4294967295 + 1)). lia.
Qed.

(** The successor used by counters and sequence numbers: [x + 1] in the type,
    which is [0] at the largest value. *)
Lemma wrap_u64_succ x : u64 x -> x <> max_u64 -> wrap_u64 (x + 1) = x + 1.
Proof. unfold max_u64. intros Hx ?. apply wrap_u64_small. unfold u64, max_u64 in *. lia. Qed.

Lemma wrap_u64_succ_max : wrap_u64 (max_u64 + 1) = 0.
Proof. reflexivity. Qed.

(** ** Errors as values

    A Go [error] result is an [option]: [None] is [nil].  The notations are the
    two shapes every validator is written with: an early return of the error of
    a call, and an early return when a condition holds. *)

Declare Scope go_scope.
Delimit Scope go_scope with go.
#[global] Open Scope go_scope.

Notation "'check' c ;! k" :=
  (match c with Some e => Some e | None => k end)
  (at level 10, c at level 100, k at level 200,
   format "'[v' 'check'  c  ;! '/' k ']'") : go_scope.

Notation "'reject' b 'with' e ;! k" :=
  (if b then Some e else k)
  (at level 10, b at level 100, e at level 100, k at level 200,
   format "'[v' 'reject'  b  'with'  e  ;! '/' k ']'") : go_scope.

(** The same two shapes in a method with a pointer receiver: [s] is the
    receiver at the point of return, so a failing call shows what it left. *)
Notation "'check' c 'leaving' s ;! k" :=
  (match c with Some e => (s, Some e) | None => k end)
  (at level 10, c at level 100, s at level 100, k at level 200) : go_scope.

Notation "'reject' b 'with' e 'leaving' s ;! k" :=
  (if b then (s, Some e) else k)
  (at level 10, b at level 100, e at level 100, s at level 100, k at level 200) : go_scope.

(** [isnil e]: the Go condition [err == nil]. *)
Definition isnil {A} (e : option A) : bool :=
  match e with None => true | Some _ => false end.

Definition notnil {A} (e : option A) : bool := negb (isnil e).

Lemma isnil_true {A} (e : option A) : isnil e = true <-> e = None.
Proof. by destruct e. Qed.

Lemma notnil_false {A} (e : option A) : notnil e = false <-> e = None.
Proof. by destruct e. Qed.

Lemma isnil_false {A} (e : option A) : isnil e = false <-> is_Some e.
Proof. destruct e; cbn; split; [done | eauto | done | by intros [? [=]]]. Qed.

(** ** Booleans

    [b2p] turns the boolean conditions of the code into propositions. *)

Lemma gtb_false x y : (x >? y) = false <-> x <= y.
Proof. rewrite Z.gtb_ltb. apply Z.ltb_ge. Qed.

Create HintDb go discriminated.
Create Rewrite HintDb b2p.

#[export] Hint Rewrite andb_true_iff andb_false_iff orb_true_iff orb_false_iff
  negb_true_iff negb_false_iff Z.eqb_eq Z.eqb_neq Z.ltb_lt Z.ltb_ge Z.leb_le Z.leb_gt
  Z.gtb_lt gtb_false Z.geb_le String.eqb_eq String.eqb_neq bool_decide_eq_true bool_decide_eq_false
  : b2p.

Ltac b2p :=
  repeat match goal with
         | H : _ |- _ => progress (autorewrite with b2p in H)
         end;
  autorewrite with b2p.

(** ** Peeling validators

    [peel H] turns a successful validator [H : check c1 ;! ... = None] into the
    facts its early returns establish, one hypothesis per check. *)

Ltac peel_step H :=
  lazymatch type of H with
  | (match ?c with Some e => Some e | None => _ end) = None =>
      let E := fresh "E" in
      destruct c eqn:E; [discriminate H | ]
  | (if ?b then Some _ else _) = None =>
      let E := fresh "E" in
      destruct b eqn:E; [discriminate H | ]
  | Some _ = None => discriminate H
  | None = None => clear H
  end.

Ltac peel H := repeat (peel_step H).

(** The same facts as equivalences, for a validator taken as a whole. *)
Lemma check_nil {E} (c k : option E) :
  match c with Some e => Some e | None => k end = None <-> c = None /\ k = None.
Proof. destruct c; naive_solver. Qed.

Lemma reject_nil {E} (b : bool) (e : E) (k : option E) :
  (if b then Some e else k) = None <-> b = false /\ k = None.
Proof. destruct b; naive_solver. Qed.

(** An optional field that is checked when it is present. *)
Lemma optional_nil {A E} (f : A -> option E) (o : option A) :
  match o with Some v => f v | None => None end = None <-> forall v, o = Some v -> f v = None.
Proof. destruct o; naive_solver. Qed.

Lemma optional_false {A} (f : A -> bool) (o : option A) :
  match o with Some v => f v | None => false end = false <-> forall v, o = Some v -> f v = false.
Proof. destruct o; naive_solver. Qed.

(** [peel_pair H] does the same for the methods with a receiver. *)
Ltac peel_pair_step H :=
  lazymatch type of H with
  | (match ?c with Some e => (_, Some e) | None => _ end) = (_, None) =>
      let E := fresh "E" in
      destruct c eqn:E; [discriminate H | ]
  | (if ?b then (_, Some _) else _) = (_, None) =>
      let E := fresh "E" in
      destruct b eqn:E; [discriminate H | ]
  | (_, Some _) = (_, None) => discriminate H
  end.

Ltac peel_pair H := repeat (peel_pair_step H).

(** [solve_checks] proves that a validator accepts, from hypotheses that state
    each of its checks. *)
Ltac solve_checks :=
  repeat match goal with
         | H : ?c = None |- context [match ?c with Some _ => _ | None => _ end] => rewrite H
         | H : ?b = true |- context [if ?b then _ else _] => rewrite H
         | H : ?b = false |- context [if ?b then _ else _] => rewrite H
         end.

(** ** Lists *)

Lemma forallb_Forall {A} (f : A -> bool) l :
  forallb f l = true <-> Forall (fun x => f x = true) l.
Proof.
  rewrite forallb_forall, List.Forall_forall. done.
Qed.

(** A partial function that is injective on a list keeps it duplicate free. *)
Lemma NoDup_omap_inj {A B} (f : A -> option B) l :
  (forall x y z, x ∈ l -> y ∈ l -> f x = Some z -> f y = Some z -> x = y) -> NoDup l -> NoDup (omap f l).
Proof.
  intros Hf Hn. induction Hn as [| x l Hx _ IH]; [constructor |].
  change (omap f (x :: l)) with (match f x with Some y => y :: omap f l | None => omap f l end).
  assert (NoDup (omap f l)) by (apply IH; intros a b z Ha Hb; apply Hf; by right).
  destruct (f x) as [y |] eqn:Hy; [| done]. constructor; [| done].
  rewrite list_elem_of_omap. intros (x' & Hin & Hx'). apply Hx.
  rewrite (Hf x x' y); [done | by left | by right | done | done].
Qed.

Lemma forallb_map {A B} (f : B -> bool) (g : A -> B) l : forallb f (map g l) = forallb (fun x => f (g x)) l.
Proof. induction l; cbn; [done | by f_equal]. Qed.
