(* ===== verification/GoText.v ===== *)
(** * Go strings and the text functions of the standard library

    A Go string is a byte sequence, and so is a Rocq [string].  This file holds
    what the sources use of [strings], [unicode/utf8], [encoding/hex],
    [strconv] and [path]: prefix tests, rune decoding, [TrimSpace], hexadecimal
    digests, decimal printing and [path.Clean], each executable, with the lemmas
    that the components share. *)

From S2P Require Import Prelude.
From stdpp Require Export pretty.
#[local] Open Scope Z_scope.

Abbreviation ascii := Ascii.ascii.

(** ** Bytes *)

Definition byte (a : ascii) : Z := Z.of_N (Ascii.N_of_ascii a).

Definition len (s : string) : Z := Z.of_nat (String.length s).

Definition in_range (lo hi b : Z) : bool := (lo <=? b) && (b <=? hi).

Lemma byte_range a : 0 <= byte a <= 255.
Proof.
  unfold byte. pose proof (Ascii.N_ascii_bounded a). lia.
Qed.

Lemma byte_inj a b : byte a = byte b -> a = b.
Proof.
  unfold byte. intros H%N2Z.inj.
  by rewrite <- (Ascii.ascii_N_embedding a), H, Ascii.ascii_N_embedding.
Qed.

Lemma len_nonneg s : 0 <= len s.
Proof. unfold len. lia. Qed.

Lemma string_length_app s t : String.length (s +:+ t) = (String.length s + String.length t)%nat.
Proof. induction s; simpl; [done | by rewrite IHs]. Qed.

Lemma len_app s t : len (s +:+ t) = len s + len t.
Proof. unfold len. rewrite string_length_app. lia. Qed.

Lemma len_zero s : len s = 0 <-> s = "".
Proof. unfold len. destruct s; simpl; split; intros; try done; lia. Qed.

(** [all_bytes f s]: [f] holds at every byte of [s]. *)
Fixpoint all_bytes (f : ascii -> bool) (s : string) : bool :=
  match s with
  | EmptyString => true
  | String a r => f a && all_bytes f r
  end.

Lemma all_bytes_app f s t : all_bytes f (s +:+ t) = all_bytes f s && all_bytes f t.
Proof. induction s as [| a s IH]; simpl; [done | by rewrite IH, andb_assoc]. Qed.

Lemma all_bytes_mono (f g : ascii -> bool) s :
  (forall a, f a = true -> g a = true) -> all_bytes f s = true -> all_bytes g s = true.
Proof. intros Hfg. induction s; simpl; [done |]. rewrite !andb_true_iff. intros [??]. auto. Qed.

Definition is_digit (a : ascii) : bool := in_range 48 57 (byte a).
Definition is_lower (a : ascii) : bool := in_range 97 122 (byte a).
Definition is_upper (a : ascii) : bool := in_range 65 90 (byte a).
Definition is_alphanumeric (a : ascii) : bool := is_upper a || is_lower a || is_digit a.

(** [strings.HasPrefix s p]. *)
Definition has_prefix (s p : string) : bool := String.prefix p s.

Lemma has_prefix_spec s p : has_prefix s p = true <-> exists r, s = p +:+ r.
Proof.
  unfold has_prefix. revert s. induction p as [| a p IH]; intros s.
  - split; [by exists s | by destruct s].
  - destruct s as [| b s]; simpl; [split; [done | by intros [? [=]]] |].
    destruct (Ascii.ascii_dec a b) as [<- | Hne].
    + rewrite IH. split; intros [r Hr]; exists r; [by rewrite Hr | by injection Hr].
    + split; [done | intros [r Hr]; by injection Hr].
Qed.

Lemma has_prefix_app p r : has_prefix (p +:+ r) p = true.
Proof. apply has_prefix_spec. by exists r. Qed.

Lemma string_app_assoc (a b c : string) : (a +:+ b) +:+ c = a +:+ (b +:+ c).
Proof. induction a as [| x a IH]; [done |]. change (String x ((a +:+ b) +:+ c) = String x (a +:+ (b +:+ c))). by rewrite IH. Qed.

Lemma string_app_nil_r (a : string) : a +:+ "" = a.
Proof. induction a as [| x a IH]; [done |]. change (String x (a +:+ "") = String x a). by rewrite IH. Qed.

Lemma string_app_inj_l (a b c : string) : a +:+ b = a +:+ c -> b = c.
Proof. induction a as [| x a IH]; [done |]. intros H. apply IH. by injection H. Qed.

Lemma string_app_cons c (a b : string) : String c a +:+ b = String c (a +:+ b).
Proof. reflexivity. Qed.

Lemma string_app_nil_l (b : string) : "" +:+ b = b.
Proof. reflexivity. Qed.

(** Normal form of a concatenation: constructors outside, appends to the right. *)
#[export] Hint Rewrite string_app_assoc string_app_cons string_app_nil_l string_app_nil_r : strapp.

(** The double quote, and what [%q] prints for a string of the identifier
    grammar (which has nothing to escape). *)
Definition dquote : string := String (Ascii.ascii_of_nat 34) "".
Definition quoted (s : string) : string := dquote +:+ s +:+ dquote.

(** ** Runes

    [runes s] is the sequence of runes a [range] loop visits, each with the
    bytes it was decoded from; [None] is an invalid byte, which the loop reports
    as U+FFFD with width one. *)

Definition cont (b : Z) : bool := in_range 128 191 b.

Definition two_bytes (b0 b1 : Z) : bool := in_range 194 223 b0 && cont b1.

Definition three_bytes (b0 b1 b2 : Z) : bool :=
  (((b0 =? 224) && in_range 160 191 b1)
   || (in_range 225 236 b0 && cont b1)
   || ((b0 =? 237) && in_range 128 159 b1)
   || (in_range 238 239 b0 && cont b1)) && cont b2.

Definition four_bytes (b0 b1 b2 b3 : Z) : bool :=
  (((b0 =? 240) && in_range 144 191 b1)
   || (in_range 241 243 b0 && cont b1)
   || ((b0 =? 244) && in_range 128 143 b1)) && cont b2 && cont b3.

Fixpoint runes (s : string) : list (option Z * string) :=
  match s with
  | EmptyString => []
  | String a r1 =>
      if byte a <? 128 then (Some (byte a), String a "") :: runes r1 else
      match r1 with
      | EmptyString => [(None, String a "")]
      | String b r2 =>
          if two_bytes (byte a) (byte b)
          then (Some ((byte a - 192) * 64 + (byte b - 128)), String a (String b "")) :: runes r2
          else
          match r2 with
          | EmptyString => (None, String a "") :: runes r1
          | String c r3 =>
              if three_bytes (byte a) (byte b) (byte c)
              then (Some ((byte a - 224) * 4096 + (byte b - 128) * 64 + (byte c - 128)),
                    String a (String b (String c ""))) :: runes r3
              else
              match r3 with
              | EmptyString => (None, String a "") :: runes r1
              | String d r4 =>
                  if four_bytes (byte a) (byte b) (byte c) (byte d)
                  then (Some ((byte a - 240) * 262144 + (byte b - 128) * 4096
                              + (byte c - 128) * 64 + (byte d - 128)),
                        String a (String b (String c (String d "")))) :: runes r4
                  else (None, String a "") :: runes r1
              end
          end
      end
  end.

(** [utf8.ValidString]. *)
Definition utf8_valid (s : string) : bool := forallb (fun r => notnil (fst r)) (runes s).

(** [utf8.RuneCountInString]. *)
Definition rune_count (s : string) : Z := Z.of_nat (length (runes s)).

(** [unicode.IsSpace] on a decoded rune. *)
Definition is_space (r : option Z) : bool :=
  match r with
  | None => false
  | Some c =>
      in_range 9 13 c || (c =? 32) || (c =? 133) || (c =? 160) || (c =? 5760)
      || in_range 8192 8202 c || (c =? 8232) || (c =? 8233) || (c =? 8239)
      || (c =? 8287) || (c =? 12288)
  end.

Fixpoint drop_spaces (l : list (option Z * string)) : list (option Z * string) :=
  match l with
  | [] => []
  | r :: t => if is_space (fst r) then drop_spaces t else l
  end.

Definition concat_bytes (l : list (option Z * string)) : string :=
  foldr (fun r acc => snd r +:+ acc) "" l.

(** [strings.TrimSpace]. *)
Definition trim_space (s : string) : string :=
  concat_bytes (rev (drop_spaces (rev (drop_spaces (runes s))))).

(** [strings.TrimSpace s == ""], the form the validators use. *)
Definition blank (s : string) : bool := String.eqb (trim_space s) "".

#[global] Arguments blank : simpl never.
#[global] Arguments trim_space : simpl never.

Example trim_space_ex1 : trim_space "  a b
 " = "a b".
Proof. reflexivity. Qed.

Example trim_space_ex2 : blank (String (Ascii.ascii_of_nat 194) (String (Ascii.ascii_of_nat 160) " ")) = true.
Proof. reflexivity. Qed.

(** A string of printable ASCII bytes decodes byte by byte. *)
Definition is_graphic (a : ascii) : bool := in_range 33 126 (byte a).

Fixpoint byte_runes (s : string) : list (option Z * string) :=
  match s with
  | EmptyString => []
  | String a r => (Some (byte a), String a "") :: byte_runes r
  end.

Lemma runes_ascii s : all_bytes (fun a => byte a <? 128) s = true -> runes s = byte_runes s.
Proof.
  induction s as [| a s IH]; [done |].
  cbn [all_bytes runes byte_runes]. intros [-> Hs]%andb_true_iff. by rewrite IH.
Qed.

(** ** Hexadecimal *)

Definition is_hex (a : ascii) : bool :=
  is_digit a || in_range 97 102 (byte a) || in_range 65 70 (byte a).

Definition is_lower_hex (a : ascii) : bool := is_digit a || in_range 97 102 (byte a).

(** [digest, err := hex.DecodeString s] with the test
    [err != nil || len(digest) != 32]: the decoder fails on an odd length and on
    a byte that is not a hexadecimal digit, and halves the length otherwise. *)
Definition hex_decodes_to (s : string) (n : Z) : bool :=
  Z.even (len s) && all_bytes is_hex s && (len s / 2 =? n).

Definition hex_digit (n : Z) : ascii :=
  Ascii.ascii_of_N (Z.to_N (if n <? 10 then 48 + n else 87 + n)).

(** ** Decimal numbers *)

(** [strconv.FormatUint(n, 10)] and [%d]. *)
Definition format_int (n : Z) : string := pretty n.

(** [%020d] on an unsigned number. *)
Fixpoint zeros (n : nat) : string :=
  match n with O => "" | S n => String (Ascii.ascii_of_nat 48) (zeros n) end.

Definition format_padded (width : nat) (n : Z) : string :=
  let s := format_int n in zeros (width - String.length s) +:+ s.

(** ** Slash-separated paths *)

Definition slash : ascii := Ascii.ascii_of_nat 47.

Definition not_slash (a : ascii) : bool := negb (Ascii.eqb a slash).

Definition slash_free (s : string) : bool := all_bytes not_slash s.

Fixpoint split_slash (s : string) : list string :=
  match s with
  | EmptyString => [""]
  | String a r =>
      if Ascii.eqb a slash then "" :: split_slash r
      else match split_slash r with
           | [] => [String a ""]
           | h :: t => String a h :: t
           end
  end.

Fixpoint join_slash (l : list string) : string :=
  match l with
  | [] => ""
  | [x] => x
  | x :: t => x +:+ String slash (join_slash t)
  end.

(** [path.Clean]: the elements are processed from the left; [out] is the
    cleaned prefix, most recent element first. *)
Definition clean_step (rooted : bool) (out : list string) (e : string) : list string :=
  if String.eqb e "" || String.eqb e "." then out
  else if String.eqb e ".." then
    match out with
    | [] => if rooted then [] else [".."]
    | h :: t => if String.eqb h ".." then ".." :: out else t
    end
  else e :: out.

Definition path_clean (p : string) : string :=
  if String.eqb p "" then "." else
  let rooted := has_prefix p "/" in
  let out := join_slash (rev (fold_left (clean_step rooted) (split_slash p) [])) in
  if rooted then String slash out else if String.eqb out "" then "." else out.

Example path_clean_ex1 : path_clean "a/./b//c/../d/" = "a/b/d".
Proof. reflexivity. Qed.
Example path_clean_ex2 : path_clean "../../a/../.." = "../../..".
Proof. reflexivity. Qed.
Example path_clean_ex3 : path_clean "/../a" = "/a".
Proof. reflexivity. Qed.
Example path_clean_ex4 : path_clean "a/.." = ".".
Proof. reflexivity. Qed.

(** *** Splitting and joining *)

Lemma split_slash_nonempty s : split_slash s <> [].
Proof.
  induction s as [| a s IH]; simpl; [done |].
  destruct (Ascii.eqb a slash); [done |]. by destruct (split_slash s).
Qed.

Lemma join_split s : join_slash (split_slash s) = s.
Proof.
  induction s as [| a s IH]; simpl; [done |].
  pose proof (split_slash_nonempty s) as Hne.
  destruct (Ascii.eqb_spec a slash) as [-> | _].
  - destruct (split_slash s) as [| h t]; [done |].
    change (String slash (join_slash (h :: t)) = String slash s). by rewrite IH.
  - destruct (split_slash s) as [| h [| h' t]]; [done | |].
    + by rewrite <- IH.
    + rewrite <- IH. reflexivity.
Qed.

Lemma split_slash_free s : slash_free s = true -> split_slash s = [s].
Proof.
  induction s as [| a s IH]; simpl; [done |].
  unfold slash_free in *. simpl. unfold not_slash at 1.
  intros [Ha Hs]%andb_true_iff. apply negb_true_iff in Ha.
  by rewrite Ha, IH.
Qed.

Lemma split_app_slash x r :
  slash_free x = true -> split_slash (x +:+ String slash r) = x :: split_slash r.
Proof.
  unfold slash_free. induction x as [| a x IH]; [done |].
  simpl. unfold not_slash at 1. intros [Ha Hs]%andb_true_iff. apply negb_true_iff in Ha.
  change (String a x +:+ String slash r) with (String a (x +:+ String slash r)).
  simpl. rewrite Ha. by rewrite (IH Hs).
Qed.

Lemma split_join l :
  l <> [] -> Forall (fun x => slash_free x = true) l -> split_slash (join_slash l) = l.
Proof.
  intros Hne Hl. induction Hl as [| x l Hx Hl IH]; [done |].
  destruct l as [| y l]; [by apply split_slash_free |].
  change (join_slash (x :: y :: l)) with (x +:+ String slash (join_slash (y :: l))).
  rewrite split_app_slash by done. f_equal. by apply IH.
Qed.

Lemma split_all_slash_free s : Forall (fun x => slash_free x = true) (split_slash s).
Proof.
  induction s as [| a s IH]; simpl; [by repeat constructor |].
  destruct (Ascii.eqb a slash) eqn:Ha; [by constructor |].
  destruct (split_slash s) as [| h t]; [repeat constructor |].
  - unfold slash_free. simpl. unfold not_slash. by rewrite Ha.
  - inversion IH; subst. constructor; [| done].
    unfold slash_free in *. simpl. unfold not_slash at 1. by rewrite Ha.
Qed.

(** *** Clean paths

    The output of [path.Clean] on a relative path: ordinary elements after a run
    of [..]. *)

Definition ordinary (e : string) : Prop := e <> "" /\ e <> "." /\ e <> "..".

Definition clean_stack (out : list string) : Prop :=
  exists body ups, out = body ++ ups /\ Forall ordinary body /\ Forall (.= "..") ups.

Lemma clean_step_stack out e : clean_stack out -> clean_stack (clean_step false out e).
Proof.
  intros (body & ups & -> & Hb & Hu). unfold clean_step.
  destruct (String.eqb_spec e "") as [-> | Hn]; simpl; [by exists body, ups |].
  destruct (String.eqb_spec e ".") as [-> | Hd]; simpl; [by exists body, ups |].
  destruct (String.eqb_spec e "..") as [-> | Hdd].
  - destruct body as [| h t]; simpl.
    + destruct ups as [| u ups]; [by exists [], [".."]; repeat constructor |].
      inversion Hu; subst. simpl. exists [], (".." :: ".." :: ups). by repeat constructor.
    + inversion Hb as [| ? ? (? & ? & Hh) Ht]; subst.
      destruct (String.eqb_spec h ".."); [done |]. by exists t, ups.
  - exists (e :: body), ups. by repeat constructor.
Qed.

Lemma clean_fold_stack l out :
  clean_stack out -> clean_stack (fold_left (clean_step false) l out).
Proof.
  revert out. induction l as [| e l IH]; intros out Hs; simpl; [done |].
  by apply IH, clean_step_stack.
Qed.

Lemma clean_step_slash_free rooted out e :
  Forall (fun x => slash_free x = true) out -> slash_free e = true ->
  Forall (fun x => slash_free x = true) (clean_step rooted out e).
Proof.
  intros Ho He. unfold clean_step.
  destruct (String.eqb e "" || String.eqb e "."); [done |].
  destruct (String.eqb e ".."); [| by constructor].
  destruct out as [| h t]; [destruct rooted; by repeat constructor |].
  inversion Ho; subst. destruct (String.eqb h ".."); [by repeat constructor | done].
Qed.

Lemma clean_fold_slash_free rooted l out :
  Forall (fun x => slash_free x = true) out -> Forall (fun x => slash_free x = true) l ->
  Forall (fun x => slash_free x = true) (fold_left (clean_step rooted) l out).
Proof.
  intros Ho Hl. revert out Ho. induction Hl; intros out Ho; simpl; [done |].
  by apply IHHl, clean_step_slash_free.
Qed.

(** A relative path that [path.Clean] leaves alone and that is not [.] has
    ordinary elements after its leading [..] elements. *)
Lemma path_clean_fixed p :
  p <> "" -> p <> "." -> has_prefix p "/" = false -> path_clean p = p ->
  exists body ups, split_slash p = ups ++ body /\ Forall ordinary body /\ Forall (.= "..") ups.
Proof.
  intros Hne Hdot Hroot. unfold path_clean.
  destruct (String.eqb_spec p ""); [done |]. rewrite Hroot.
  set (out := fold_left (clean_step false) (split_slash p) []).
  assert (Hst : clean_stack out) by (apply clean_fold_stack; by exists [], []).
  assert (Hsf : Forall (fun x => slash_free x = true) out)
    by (apply clean_fold_slash_free; [constructor | apply split_all_slash_free]).
  destruct (String.eqb_spec (join_slash (rev out)) "") as [He | He]; [done |].
  intros Hp. destruct Hst as (body & ups & Ho & Hb & Hu).
  exists (rev body), (rev ups). repeat split; [| by apply Forall_rev ..].
  rewrite <- Hp, split_join.
  - by rewrite Ho, rev_app_distr.
  - intros Hr. by rewrite Hr in He.
  - by apply Forall_rev.
Qed.

(** ** Printable strings are not blank *)

Lemma byte_runes_concat s : concat_bytes (byte_runes s) = s.
Proof.
  induction s as [| a s IH]; [done |]. cbn [byte_runes concat_bytes foldr snd].
  change (String a (concat_bytes (byte_runes s)) = String a s). by rewrite IH.
Qed.

Lemma graphic_not_space a : is_graphic a = true -> is_space (Some (byte a)) = false.
Proof.
  unfold is_graphic, is_space, in_range. intros H. b2p.
  repeat match goal with |- _ /\ _ => split | |- _ \/ _ => right; lia end; lia.
Qed.

Lemma drop_spaces_graphic l :
  Forall (fun r => is_space (fst r) = false) l -> drop_spaces l = l.
Proof. destruct 1 as [| r l Hr _]; simpl; [done | by rewrite Hr]. Qed.

Lemma byte_runes_not_space s :
  all_bytes is_graphic s = true -> Forall (fun r => is_space (fst r) = false) (byte_runes s).
Proof.
  induction s as [| a s IH]; simpl; [constructor |].
  intros [Ha Hs]%andb_true_iff. constructor; [by apply graphic_not_space | auto].
Qed.

Lemma graphic_ascii s :
  all_bytes is_graphic s = true -> all_bytes (fun a => byte a <? 128) s = true.
Proof.
  apply all_bytes_mono. intros a. unfold is_graphic, in_range. intros H. b2p. lia.
Qed.

Lemma trim_space_graphic s : all_bytes is_graphic s = true -> trim_space s = s.
Proof.
  intros Hs. unfold trim_space.
  rewrite runes_ascii by by apply graphic_ascii.
  pose proof (byte_runes_not_space s Hs) as Hn.
  rewrite (drop_spaces_graphic (byte_runes s)) by done.
  rewrite drop_spaces_graphic by by apply Forall_rev.
  by rewrite rev_involutive, byte_runes_concat.
Qed.

Lemma blank_graphic s : all_bytes is_graphic s = true -> s <> "" -> blank s = false.
Proof.
  intros Hs Hne. unfold blank. rewrite trim_space_graphic by done. by apply String.eqb_neq.
Qed.

(** ** Decimal numbers are short and printable *)

Lemma pretty_N_char_digit x : is_digit (pretty_N_char x) = true.
Proof. unfold pretty_N_char. by repeat case_match. Qed.

Lemma pretty_N_go_digits x s :
  all_bytes is_digit s = true -> all_bytes is_digit (pretty_N_go x s) = true.
Proof.
  revert s. induction (N.lt_wf_0 x) as [x _ IH]; intros s Hs.
  destruct (decide (x = 0)%N) as [-> | Hx]; [by rewrite pretty_N_go_0 |].
  rewrite pretty_N_go_step by lia. apply IH; [apply N.div_lt; lia |].
  cbn [all_bytes]. by rewrite pretty_N_char_digit.
Qed.

Lemma pretty_N_go_length k x s :
  (x < 10 ^ N.of_nat k)%N -> (String.length (pretty_N_go x s) <= k + String.length s)%nat.
Proof.
  revert x s. induction k as [| k IH]; intros x s Hx.
  - assert (x = 0)%N as -> by (cbn in Hx; lia). rewrite pretty_N_go_0. lia.
  - destruct (decide (x = 0)%N) as [-> | Hz]; [rewrite pretty_N_go_0; lia |].
    rewrite pretty_N_go_step by lia.
    etrans; [apply IH | cbn [String.length]; lia].
    apply N.Div0.div_lt_upper_bound. rewrite Nat2N.inj_succ, N.pow_succ_r' in Hx. lia.
Qed.

Lemma pretty_N_digits (x : N) : all_bytes is_digit (pretty x) = true.
Proof.
  unfold pretty, pretty_N. case_decide; [done |]. by apply pretty_N_go_digits.
Qed.

Lemma pretty_N_length (k : nat) (x : N) :
  (0 < k)%nat -> (x < 10 ^ N.of_nat k)%N -> (String.length (pretty x) <= k)%nat.
Proof.
  intros Hk Hx. unfold pretty, pretty_N. case_decide; [cbn; lia |].
  pose proof (pretty_N_go_length k x "" Hx) as H1. cbn [String.length] in H1. lia.
Qed.

Lemma pretty_N_go_nonempty x s : pretty_N_go x s = "" -> x = 0%N /\ s = "".
Proof.
  revert s. induction (N.lt_wf_0 x) as [x _ IH]; intros s Hs.
  destruct (decide (x = 0)%N) as [-> | Hx]; [by rewrite pretty_N_go_0 in Hs |].
  rewrite pretty_N_go_step in Hs by lia. apply IH in Hs as [_ [=]]. apply N.div_lt; lia.
Qed.

Lemma pretty_N_nonempty (x : N) : pretty x <> "".
Proof.
  unfold pretty, pretty_N. case_decide; [done |]. by intros [? _]%pretty_N_go_nonempty.
Qed.

Lemma digit_graphic a : is_digit a = true -> is_graphic a = true.
Proof. unfold is_digit, is_graphic, in_range. intros H. b2p. lia. Qed.

Lemma format_int_graphic n : all_bytes is_graphic (format_int n) = true /\ format_int n <> "".
Proof.
  unfold format_int, pretty, pretty_Z. destruct n as [| p | p]; [done | |].
  - split; [| apply pretty_N_nonempty].
    eapply all_bytes_mono; [apply digit_graphic | apply pretty_N_digits].
  - split; [| done]. rewrite all_bytes_app. apply andb_true_iff. split; [done |].
    eapply all_bytes_mono; [apply digit_graphic | apply pretty_N_digits].
Qed.

Lemma format_int_inj m n : format_int m = format_int n -> m = n.
Proof. apply pretty_Z_inj. Qed.

Lemma format_int_length n : i64 n \/ u64 n -> len (format_int n) <= 20.
Proof.
  unfold i64, u64, max_i64, max_u64. intros Hn. unfold len, format_int, pretty, pretty_Z.
  destruct n as [| p | p]; [cbn; lia | |].
  - pose proof (pretty_N_length 20 (N.pos p)) as H1. unfold pretty in *.
    specialize (H1 ltac:(lia)). change (10 ^ N.of_nat 20)%N with 100000000000000000000%N in H1.
    unfold pretty_positive, pretty. lia.
  - rewrite string_length_app.
    pose proof (pretty_N_length 19 (N.pos p)) as H1. unfold pretty in *.
    specialize (H1 ltac:(lia)). change (10 ^ N.of_nat 19)%N with 10000000000000000000%N in H1.
    unfold pretty_positive, pretty. cbn [String.length]. lia.
Qed.
