(* ===== verification/Sorting.v ===== *)
(** * Sorting

    [sort.Slice] with a strict order that is total on the elements sorted:
    whatever algorithm the library uses, the result is the one sorted
    permutation, which insertion sort computes. *)

From S2P Require Import Prelude GoText.
From Stdlib Require Import Sorting.Permutation Sorting.Sorted.
#[local] Open Scope Z_scope.

Section sort.
Context {A : Type} (lt : A -> A -> bool).

Fixpoint insert_by (x : A) (l : list A) : list A :=
  match l with
  | [] => [x]
  | y :: r => if lt y x then y :: insert_by x r else x :: l
  end.

Definition sort_by (l : list A) : list A := foldr insert_by [] l.

Lemma insert_by_permutation x l : Permutation (insert_by x l) (x :: l).
Proof.
  induction l as [| y l IH]; [done |]. cbn. destruct (lt y x); [| done].
  rewrite IH. apply perm_swap.
Qed.

Lemma sort_by_permutation l : Permutation (sort_by l) l.
Proof. induction l as [| x l IH]; [done |]. cbn. by rewrite insert_by_permutation, IH. Qed.

(** The order is transitive, and total on the elements that occur. *)
Definition strict : Prop :=
  (forall x, lt x x = false) /\ (forall x y z, lt x y = true -> lt y z = true -> lt x z = true).

Definition total_on (l : list A) : Prop :=
  forall x y, x ∈ l -> y ∈ l -> x = y \/ lt x y = true \/ lt y x = true.

Definition sorted (l : list A) : Prop := StronglySorted (fun x y => lt x y = true) l.

Lemma insert_by_sorted x l :
  strict -> total_on (x :: l) -> x ∉ l -> sorted l -> sorted (insert_by x l).
Proof.
  intros [Hirr Htr] Ht Hx Hs. induction Hs as [| y l Hs IH Hy]; cbn; [repeat constructor |].
  destruct (lt y x) eqn:Hyx.
  - constructor.
    + apply IH; [| rewrite elem_of_cons in Hx; tauto].
      intros a b. rewrite !elem_of_cons. intros. apply Ht; rewrite !elem_of_cons; tauto.
    + apply List.Forall_forall. intros z Hz.
      apply (Permutation_in _ (insert_by_permutation x l)) in Hz. destruct Hz as [-> | Hz]; [done |].
      by apply (proj1 (List.Forall_forall _ _) Hy).
  - assert (lt x y = true) as Hxy.
    { rewrite elem_of_cons in Hx. destruct (Ht x y) as [-> | [? | ?]]; rewrite ?elem_of_cons; tauto || congruence. }
    constructor; [by constructor |]. constructor; [done |].
    eapply List.Forall_impl; [| exact Hy]. cbn. eauto.
Qed.

Lemma total_on_mono l l' : (forall x, x ∈ l' -> x ∈ l) -> total_on l -> total_on l'.
Proof. unfold total_on. naive_solver. Qed.

Lemma sort_by_sorted l : strict -> total_on l -> NoDup l -> sorted (sort_by l).
Proof.
  intros Hst Ht Hnd. induction Hnd as [| x l Hx Hnd IH]; cbn; [constructor |].
  apply insert_by_sorted; [done | | |].
  - eapply total_on_mono; [| exact Ht]. intros y. rewrite !elem_of_cons, sort_by_permutation. done.
  - by rewrite sort_by_permutation.
  - apply IH. eapply total_on_mono; [| exact Ht]. intros y. rewrite elem_of_cons. tauto.
Qed.

(** Two sorted lists with the same elements are equal. *)
Lemma sorted_unique l l' : strict -> sorted l -> sorted l' -> Permutation l l' -> l = l'.
Proof.
  intros [Hirr Htr] Hs. revert l'. induction Hs as [| x l Hs IH Hx]; intros l' Hs' Hp.
  { symmetry. by apply Permutation_nil. }
  destruct Hs' as [| y l' Hs' Hy].
  { by apply Permutation_sym, Permutation_nil in Hp. }
  rewrite List.Forall_forall in Hx. rewrite List.Forall_forall in Hy.
  assert (x = y) as ->.
  { destruct (Permutation_in x Hp (or_introl eq_refl)) as [| Hin]; [done |].
    destruct (Permutation_in y (Permutation_sym Hp) (or_introl eq_refl)) as [| Hin']; [done |].
    specialize (Hirr x). rewrite (Htr x y x) in Hirr; [done | auto | auto]. }
  f_equal. apply IH; [done |]. by eapply Permutation_cons_inv.
Qed.

(** Sorting depends on the elements only, not on their order. *)
Lemma sort_by_unique l l' :
  strict -> total_on l -> NoDup l -> Permutation l l' -> sort_by l = sort_by l'.
Proof.
  intros Hst Ht Hnd Hp. apply sorted_unique; [done | by apply sort_by_sorted | |].
  - apply sort_by_sorted; [done | | by rewrite <- Hp].
    eapply total_on_mono; [| exact Ht]. intros x. by rewrite Hp.
  - by rewrite !sort_by_permutation.
Qed.

(** ** The first elements of a sorted list

    The first [k] elements in order are those with fewer than [k] smaller ones. *)

Definition top (k : nat) (l : list A) : list A := take k (sort_by l).

Definition smaller (l : list A) (x : A) : nat := length (filter (fun y => lt y x = true) l).

Lemma sorted_index l : strict -> sorted l -> forall i x, l !! i = Some x -> smaller l x = i.
Proof.
  intros [Hirr Htr] Hs. unfold smaller. induction Hs as [| a l Hs IH Ha]; intros i x Hx; [done |].
  rewrite List.Forall_forall in Ha. destruct i as [| i]; cbn in Hx.
  - injection Hx as <-. rewrite filter_cons_False by (by rewrite Hirr).
    destruct (filter _ l) as [| y r] eqn:Hf; [done |].
    assert (y ∈ filter (fun y => lt y a = true) l) as [Hya Hy]%list_elem_of_filter by (rewrite Hf; by left).
    specialize (Ha y (proj1 (list_elem_of_In _ _) Hy)). specialize (Hirr a). by rewrite (Htr a y a) in Hirr.
  - assert (lt a x = true) by (apply Ha, list_elem_of_In; by eapply list_elem_of_lookup_2).
    rewrite filter_cons_True by done. cbn. f_equal. by apply IH.
Qed.

Lemma smaller_permutation l l' x : Permutation l l' -> smaller l x = smaller l' x.
Proof. intros Hp. unfold smaller. by rewrite Hp. Qed.

Lemma top_elem k l x :
  strict -> total_on l -> NoDup l -> x ∈ top k l <-> x ∈ l /\ (smaller l x < k)%nat.
Proof.
  intros Hst Ht Hnd. pose proof (sort_by_sorted l Hst Ht Hnd) as Hs. unfold top.
  pose proof (sort_by_permutation l) as Hp. rewrite <- (smaller_permutation _ _ x Hp).
  assert (x ∈ l <-> x ∈ sort_by l) as -> by (by rewrite Hp). split.
  - intros (i & Hi)%list_elem_of_lookup. apply lookup_take_Some in Hi as [Hi Hlt].
    split; [by eapply list_elem_of_lookup_2 |]. by rewrite (sorted_index _ Hst Hs i).
  - intros [(i & Hi)%list_elem_of_lookup Hlt]. rewrite (sorted_index _ Hst Hs i) in Hlt by done.
    apply list_elem_of_lookup. exists i. by apply lookup_take_Some.
Qed.

Lemma sorted_take k l : sorted l -> sorted (take k l).
Proof.
  intros Hs. revert k. induction Hs as [| a l Hs IH Ha]; intros [| k]; cbn; try constructor; [apply IH |].
  rewrite List.Forall_forall in Ha |- *. intros x Hx. apply Ha. apply list_elem_of_In in Hx.
  apply list_elem_of_In. apply list_elem_of_lookup in Hx as (i & [Hi _]%lookup_take_Some).
  by eapply list_elem_of_lookup_2.
Qed.

Lemma sorted_NoDup l : strict -> sorted l -> NoDup l.
Proof.
  intros [Hirr _] Hs. induction Hs as [| x l _ IH Hx]; constructor; [| done]. intros Hin.
  apply list_elem_of_In in Hin. apply (proj1 (List.Forall_forall _ _) Hx) in Hin. by rewrite Hirr in Hin.
Qed.

Lemma top_sorted k l : strict -> total_on l -> NoDup l -> sorted (top k l).
Proof. intros. by apply sorted_take, sort_by_sorted. Qed.

Lemma top_length k l : length (top k l) = (k `min` length l)%nat.
Proof. unfold top. by rewrite length_take, (Permutation_length (sort_by_permutation l)). Qed.

(** Two lists whose first elements are the same elements have the same first elements. *)
Lemma top_ext k l l' :
  strict -> total_on l -> NoDup l -> total_on l' -> NoDup l' ->
  (forall x, x ∈ top k l <-> x ∈ top k l') -> top k l = top k l'.
Proof.
  intros Hst Ht Hn Ht' Hn' Hx. pose proof (top_sorted k l Hst Ht Hn). pose proof (top_sorted k l' Hst Ht' Hn').
  apply sorted_unique; try done. apply list_relations.list.NoDup_Permutation; [by apply sorted_NoDup .. | done].
Qed.

(** Elements that are all smaller than [x] are counted. *)
Lemma smaller_ge part l x :
  NoDup part -> (forall y, y ∈ part -> y ∈ l /\ lt y x = true) -> (length part <= smaller l x)%nat.
Proof.
  intros Hn Hp. unfold smaller. apply submseteq_length, NoDup_submseteq; [done |].
  intros y Hy. apply list_elem_of_filter. destruct (Hp y Hy). done.
Qed.

Lemma smaller_le l l' x :
  NoDup l -> (forall y, y ∈ l -> lt y x = true -> y ∈ l') -> (smaller l x <= smaller l' x)%nat.
Proof.
  intros Hn Hs. apply smaller_ge; [by apply NoDup_filter |].
  intros y [Hy Hl]%list_elem_of_filter. auto.
Qed.

(** A selection has the same first [k] elements as the whole when every element it
    leaves out has [k] selected ones before it. *)
Lemma top_cover `{EqDecision A} k l l' :
  strict -> total_on l -> NoDup l -> NoDup l' -> (forall x, x ∈ l' -> x ∈ l) ->
  (forall x, x ∈ l -> x ∉ l' -> exists part, NoDup part /\ (k <= length part)%nat /\
     forall y, y ∈ part -> y ∈ l' /\ lt y x = true) ->
  top k l' = top k l.
Proof.
  intros Hst Ht Hn Hn' Hsub Hcov. pose proof (total_on_mono l l' Hsub Ht) as Ht'. pose proof Hst as [_ Htr].
  apply top_ext; try done. intros x. rewrite !top_elem by done. split; intros [Hx Hk].
  - split; [by apply Hsub |].
    destruct (decide (Exists (fun y => lt y x = true /\ y ∉ l') l)) as [(y & Hy & Hyx & Hnot)%Exists_exists | Hno].
    + destruct (Hcov y Hy Hnot) as (part & Hnd & Hlen & Hp).
      assert (length part <= smaller l' x)%nat; [| lia]. apply smaller_ge; [done |]. intros z [? ?]%Hp. eauto.
    + eapply Nat.le_lt_trans; [| exact Hk]. apply smaller_le; [done |]. intros y Hy Hyx.
      destruct (decide (y ∈ l')); [done |]. contradict Hno. apply Exists_exists. eauto.
  - destruct (decide (x ∈ l')) as [| Hnot].
    + split; [done |]. eapply Nat.le_lt_trans; [| exact Hk]. apply smaller_le; auto.
    + destruct (Hcov x Hx Hnot) as (part & Hnd & Hlen & Hp).
      assert (length part <= smaller l x)%nat; [| lia]. apply smaller_ge; [done |]. intros z [? ?]%Hp. eauto.
Qed.

(** An element that is not among the first [k] has [k] before it. *)
Lemma top_before k l x :
  strict -> total_on l -> NoDup l -> x ∈ l -> x ∉ top k l ->
  (k <= length (top k l))%nat /\ forall y, y ∈ top k l -> lt y x = true.
Proof.
  intros Hst Ht Hn Hx Hnot. assert (k <= smaller l x)%nat as Hk.
  { destruct (decide (smaller l x < k)%nat); [| lia]. contradict Hnot. by apply top_elem. }
  assert (smaller l x <= length l)%nat by (unfold smaller; apply length_filter). split; [rewrite top_length; lia |].
  intros y Hy. pose proof Hst as [Hirr Htr]. apply top_elem in Hy as [Hy Hyk]; try done.
  destruct (Ht x y Hx Hy) as [-> | [Hxy | ?]]; [lia | | done].
  assert (smaller l x <= smaller l y)%nat; [| lia]. unfold smaller.
  apply submseteq_length, NoDup_submseteq; [by apply NoDup_filter |].
  intros z [Hz Hzl]%list_elem_of_filter. apply list_elem_of_filter. eauto.
Qed.
End sort.

(** ** Strings in byte order *)

Lemma string_compare_refl x : (x ?= x)%string = Eq.
Proof. induction x as [| a x IH]; [done |]. cbn. unfold Ascii.compare. by rewrite N.compare_refl. Qed.

Lemma string_compare_trans x : forall y z,
  (x ?= y)%string = Lt -> (y ?= z)%string = Lt -> (x ?= z)%string = Lt.
Proof.
  induction x as [| a x IH]; intros [| b y] [| c z]; cbn; try done. unfold Ascii.compare.
  destruct (N.compare_spec (Ascii.N_of_ascii a) (Ascii.N_of_ascii b)) as [Hab | Hab | Hab];
    destruct (N.compare_spec (Ascii.N_of_ascii b) (Ascii.N_of_ascii c)) as [Hbc | Hbc | Hbc];
    destruct (N.compare_spec (Ascii.N_of_ascii a) (Ascii.N_of_ascii c)) as [Hac | Hac | Hac];
    try done; try lia. apply IH.
Qed.

Lemma string_lt_strict : strict String.ltb.
Proof.
  unfold strict, String.ltb. split.
  - intros x. by rewrite string_compare_refl.
  - intros x y z. pose proof (string_compare_trans x y z).
    destruct (x ?= y)%string, (y ?= z)%string; try done. intros _ _. by rewrite H.
Qed.

Lemma string_lt_total x y : x = y \/ String.ltb x y = true \/ String.ltb y x = true.
Proof.
  unfold String.ltb. rewrite (String.compare_antisym y x).
  destruct (x ?= y)%string eqn:H; [| tauto | tauto]. left. by apply String.compare_eq_iff.
Qed.
