(* ===== verification/GoTime.v ===== *)
(** * Go times and durations

    A [time.Time] without a monotonic reading (every clock value the control
    plane stores passed through [UTC()], which strips it): an instant in
    nanoseconds since 0001-01-01T00:00:00Z, the zero time, and a location.
    [time.UTC] is one location; another location is its name and the offset in
    seconds that it has at the instant. *)

From S2P Require Import Prelude GoText.
#[local] Open Scope Z_scope.

Inductive location := UTC | Zone (name : string) (offset : Z).

Record time := mkTime { ns : Z; loc : location }.

#[global] Instance location_eq_dec : EqDecision location.
Proof. solve_decision. Defined.
#[global] Instance time_eq_dec : EqDecision time.
Proof. solve_decision. Defined.

Definition zero_time : time := mkTime 0 UTC.

Definition is_zero (t : time) : bool := ns t =? 0.
Definition before (t u : time) : bool := ns t <? ns u.
Definition after (t u : time) : bool := ns u <? ns t.
Definition time_equal (t u : time) : bool := ns t =? ns u.
Definition to_utc (t : time) : time := mkTime (ns t) UTC.

(** Durations are [int64] nanoseconds. *)
Definition microsecond : Z := 1000.
Definition second : Z := 1000000000.
Definition minute : Z := 60 * second.

Definition add (t : time) (d : Z) : time := mkTime (ns t + d) (loc t).

(** [t.Sub(u)] saturates at the ends of [time.Duration]. *)
Definition sub (t u : time) : Z :=
  Z.max (- max_i64 - 1) (Z.min max_i64 (ns t - ns u)).

Definition truncate (t : time) (d : Z) : time := mkTime (ns t - ns t mod d) (loc t).

Definition nanosecond (t : time) : Z := ns t mod second.

(** ** Calendar

    The civil date of an instant in its location, by the proleptic Gregorian
    calendar with March-based years. *)

Definition offset_of (l : location) : Z := match l with UTC => 0 | Zone _ o => o end.

Definition civil (t : time) : Z * Z * Z :=
  let days := (ns t + offset_of (loc t) * second) / (86400 * second) in
  let z := days + 306 in
  let era := z / 146097 in
  let doe := z mod 146097 in
  let yoe := (doe - doe / 1460 + doe / 36524 - doe / 146096) / 365 in
  let doy := doe - (365 * yoe + yoe / 4 - yoe / 100) in
  let mp := (5 * doy + 2) / 153 in
  let d := doy - (153 * mp + 2) / 5 + 1 in
  let m := if mp <? 10 then mp + 3 else mp - 9 in
  (yoe + era * 400 + (if m <=? 2 then 1 else 0), m, d).

Definition year (t : time) : Z := fst (fst (civil t)).

(** Seconds of the day in the location. *)
Definition day_seconds (t : time) : Z :=
  (ns t / second + offset_of (loc t)) mod 86400.

Example civil_epoch : civil (mkTime (62135596800 * second) UTC) = (1970, 1, 1).
Proof. reflexivity. Qed.
Example civil_zero : civil zero_time = (1, 1, 1).
Proof. reflexivity. Qed.
Example civil_leap : civil (mkTime ((62135596800 + 1709164800) * second) UTC) = (2024, 2, 29).
Proof. reflexivity. Qed.

(** ** RFC 3339

    [fraction n] prints the nanoseconds without trailing zeros, as
    [time.RFC3339Nano] does. *)

Fixpoint trim_zeros (fuel : nat) (n : Z) (digits : nat) : Z * nat :=
  match fuel with
  | O => (n, digits)
  | S fuel => if n mod 10 =? 0 then trim_zeros fuel (n / 10) (digits - 1) else (n, digits)
  end.

Definition fraction (n : Z) : string :=
  if n =? 0 then "" else
  let '(m, digits) := trim_zeros 9 n 9 in "." +:+ format_padded digits m.

Definition zone_suffix (l : location) : string :=
  let o := offset_of l in
  if o =? 0 then "Z" else
  let a := Z.abs o / 60 in
  (if o <? 0 then "-" else "+") +:+ format_padded 2 (a / 60) +:+ ":" +:+ format_padded 2 (a mod 60).

Definition rfc3339_nano (t : time) : string :=
  let '(y, m, d) := civil t in
  let s := day_seconds t in
  format_padded 4 y +:+ "-" +:+ format_padded 2 m +:+ "-" +:+ format_padded 2 d +:+ "T"
  +:+ format_padded 2 (s / 3600) +:+ ":" +:+ format_padded 2 (s / 60 mod 60) +:+ ":"
  +:+ format_padded 2 (s mod 60) +:+ fraction (nanosecond t) +:+ zone_suffix (loc t).

Example rfc3339_ex :
  rfc3339_nano (mkTime ((62135596800 + 1709164800 + 3723) * second + 120300) UTC)
  = "2024-02-29T01:02:03.0001203Z".
Proof. vm_compute. reflexivity. Qed.

(** ** Ordering lemmas *)

Lemma before_false t u : before t u = false <-> ns u <= ns t.
Proof. unfold before. apply Z.ltb_ge. Qed.

Lemma before_true t u : before t u = true <-> ns t < ns u.
Proof. unfold before. apply Z.ltb_lt. Qed.

Lemma after_true t u : after t u = true <-> ns u < ns t.
Proof. unfold after. apply Z.ltb_lt. Qed.

Lemma after_false t u : after t u = false <-> ns t <= ns u.
Proof. unfold after. apply Z.ltb_ge. Qed.

Lemma is_zero_true t : is_zero t = true <-> ns t = 0.
Proof. unfold is_zero. apply Z.eqb_eq. Qed.

Lemma is_zero_false t : is_zero t = false <-> ns t <> 0.
Proof. unfold is_zero. apply Z.eqb_neq. Qed.

Lemma time_equal_true t u : time_equal t u = true <-> ns t = ns u.
Proof. unfold time_equal. apply Z.eqb_eq. Qed.

Lemma time_equal_false t u : time_equal t u = false <-> ns t <> ns u.
Proof. unfold time_equal. apply Z.eqb_neq. Qed.

#[export] Hint Rewrite before_false before_true after_true after_false is_zero_true
  is_zero_false time_equal_true time_equal_false : b2p.
