(* ===== verification/Sha256.v ===== *)
(** * SHA-256

    An executable [sha256.Sum256], used where the sources derive object keys,
    stable identifiers and digests.  Words are 32-bit [Z]s. *)

From S2P Require Import Prelude GoText.
#[local] Open Scope Z_scope.

Definition w32 (x : Z) : Z := Z.land x 4294967295.
Definition add32 (x y : Z) : Z := w32 (x + y).
Definition rotr (n x : Z) : Z := Z.lor (Z.shiftr x n) (w32 (Z.shiftl x (32 - n))).

Definition round_constants : list Z :=
  [1116352408; 1899447441; 3049323471; 3921009573; 961987163; 1508970993; 2453635748; 2870763221;
   3624381080; 310598401; 607225278; 1426881987; 1925078388; 2162078206; 2614888103; 3248222580;
   3835390401; 4022224774; 264347078; 604807628; 770255983; 1249150122; 1555081692; 1996064986;
   2554220882; 2821834349; 2952996808; 3210313671; 3336571891; 3584528711; 113926993; 338241895;
   666307205; 773529912; 1294757372; 1396182291; 1695183700; 1986661051; 2177026350; 2456956037;
   2730485921; 2820302411; 3259730800; 3345764771; 3516065817; 3600352804; 4094571909; 275423344;
   430227734; 506948616; 659060556; 883997877; 958139571; 1322822218; 1537002063; 1747873779;
   1955562222; 2024104815; 2227730452; 2361852424; 2428436474; 2756734187; 3204031479; 3329325298].

Definition initial_hash : list Z :=
  [1779033703; 3144134277; 1013904242; 2773480762; 1359893119; 2600822924; 528734635; 1541459225].

Definition small_sigma0 x := Z.lxor (Z.lxor (rotr 7 x) (rotr 18 x)) (Z.shiftr x 3).
Definition small_sigma1 x := Z.lxor (Z.lxor (rotr 17 x) (rotr 19 x)) (Z.shiftr x 10).
Definition big_sigma0 x := Z.lxor (Z.lxor (rotr 2 x) (rotr 13 x)) (rotr 22 x).
Definition big_sigma1 x := Z.lxor (Z.lxor (rotr 6 x) (rotr 11 x)) (rotr 25 x).
Definition choose x y z := Z.lxor (Z.land x y) (Z.land (4294967295 - x) z).
Definition majority x y z := Z.lxor (Z.lxor (Z.land x y) (Z.land x z)) (Z.land y z).

(** The message schedule: [ws] holds the last sixteen words, oldest first. *)
Fixpoint schedule (n : nat) (ws : list Z) : list Z :=
  match n, ws with
  | S n, w0 :: rest =>
      let w := add32 (add32 (small_sigma1 (nth 14 ws 0)) (nth 9 ws 0))
                     (add32 (small_sigma0 (nth 1 ws 0)) w0) in
      w0 :: schedule n (rest ++ [w])
  | _, _ => []
  end.

Definition compress_step (st : list Z) (kw : Z * Z) : list Z :=
  match st with
  | [a; b; c; d; e; f; g; h] =>
      let t1 := add32 (add32 h (big_sigma1 e)) (add32 (choose e f g) (add32 (fst kw) (snd kw))) in
      let t2 := add32 (big_sigma0 a) (majority a b c) in
      [add32 t1 t2; a; b; c; add32 d t1; e; f; g]
  | _ => st
  end.

Definition compress (h : list Z) (block : list Z) : list Z :=
  zip_with add32 h (fold_left compress_step (zip round_constants (schedule 64 block)) h).

(** ** Padding and blocks *)

Fixpoint bytes_of (s : string) : list Z :=
  match s with EmptyString => [] | String a r => byte a :: bytes_of r end.

Fixpoint string_of (l : list Z) : string :=
  match l with [] => "" | b :: r => String (Ascii.ascii_of_N (Z.to_N b)) (string_of r) end.

(** [be_bytes n x]: the big-endian encoding of [x] in [n] bytes, as
    [binary.BigEndian.PutUint32] and [PutUint64] write it. *)
Fixpoint be_bytes (n : nat) (x : Z) : list Z :=
  match n with
  | O => []
  | S n => (x / 256 ^ Z.of_nat n) mod 256 :: be_bytes n x
  end.

Definition pad (msg : list Z) : list Z :=
  let l := Z.of_nat (length msg) in
  let zeros := Z.to_nat ((55 - l) mod 64) in
  msg ++ [128] ++ repeat 0 zeros ++ be_bytes 8 (l * 8).

Fixpoint words (l : list Z) : list Z :=
  match l with
  | a :: b :: c :: d :: r => ((a * 256 + b) * 256 + c) * 256 + d :: words r
  | _ => []
  end.

Fixpoint hash_blocks (fuel : nat) (h : list Z) (ws : list Z) : list Z :=
  match fuel, ws with
  | S fuel, _ :: _ => hash_blocks fuel (compress h (take 16 ws)) (drop 16 ws)
  | _, _ => h
  end.

Definition sha256_bytes (msg : list Z) : list Z :=
  let ws := words (pad msg) in
  flat_map (be_bytes 4) (hash_blocks (length ws) initial_hash ws).

(** [sha256.Sum256 s], as a string of bytes, and its hexadecimal form. *)
Definition sha256 (s : string) : string := string_of (sha256_bytes (bytes_of s)).

Fixpoint hex_encode (s : string) : string :=
  match s with
  | EmptyString => ""
  | String a r =>
      String (hex_digit (byte a / 16)) (String (hex_digit (byte a mod 16)) (hex_encode r))
  end.

Definition sha256_hex (s : string) : string := hex_encode (sha256 s).

Example sha256_abc :
  sha256_hex "abc" = "ba7816bf8f01cfea414140de5dae2223b00361a396177a9cb410ff61f20015ad".
Proof. vm_compute. reflexivity. Qed.

Example sha256_empty :
  sha256_hex "" = "e3b0c44298fc1c149afbf4c8996fb92427ae41e4649b934ca495991b7852b855".
Proof. vm_compute. reflexivity. Qed.

Example sha256_two_blocks :
  sha256_hex "abcdbcdecdefdefgefghfghighijhijkijkljklmklmnlmnomnopnopq"
  = "248d6a61d20638b8e5c026930c3e6039a33ce45964ff2167f6ecedd419db06c1".
Proof. vm_compute. reflexivity. Qed.

(** ** Shape of the digest *)

Lemma length_be_bytes n x : length (be_bytes n x) = n.
Proof. induction n; simpl; [done | by rewrite IHn]. Qed.

Lemma length_string_of l : String.length (string_of l) = length l.
Proof. induction l; simpl; [done | by rewrite IHl]. Qed.

Lemma compress_step_length st kw : length st = 8%nat -> length (compress_step st kw) = 8%nat.
Proof. intros. do 9 (destruct st as [| ? st]; try done). Qed.

Lemma compress_length h block : length h = 8%nat -> length (compress h block) = 8%nat.
Proof.
  intros Hh. unfold compress. rewrite length_zip_with.
  assert (forall l st, length st = 8%nat -> length (fold_left compress_step l st) = 8%nat) as Hf.
  { induction l as [| kw l IH]; intros st Hst; simpl; [done |]. by apply IH, compress_step_length. }
  rewrite Hh, Hf by done. done.
Qed.

Lemma hash_blocks_length fuel h ws : length h = 8%nat -> length (hash_blocks fuel h ws) = 8%nat.
Proof.
  revert h ws. induction fuel as [| fuel IH]; intros h ws Hh; simpl; [done |].
  destruct ws; [done |]. by apply IH, compress_length.
Qed.

(** A digest has 32 bytes, whatever the message. *)
Lemma sha256_length s : String.length (sha256 s) = 32%nat.
Proof.
  unfold sha256, sha256_bytes. rewrite length_string_of.
  pose proof (hash_blocks_length (length (words (pad (bytes_of s)))) initial_hash
                (words (pad (bytes_of s))) eq_refl) as Hl.
  revert Hl. generalize (hash_blocks (length (words (pad (bytes_of s)))) initial_hash
                           (words (pad (bytes_of s)))). intros l Hl.
  do 9 (destruct l as [| ? l]; try done).
Qed.

Lemma hex_digit_lower n : 0 <= n < 16 -> is_lower_hex (hex_digit n) = true.
Proof.
  intros Hn. assert (n = Z.of_nat (Z.to_nat n)) as -> by lia.
  assert (Z.to_nat n < 16)%nat as Hb by lia. revert Hb. generalize (Z.to_nat n). intros k Hk.
  do 16 (destruct k as [| k]; [reflexivity |]). lia.
Qed.

Lemma hex_encode_lower s : all_bytes is_lower_hex (hex_encode s) = true.
Proof.
  induction s as [| a s IH]; [done |]. cbn [hex_encode all_bytes]. rewrite IH.
  pose proof (byte_range a).
  rewrite !hex_digit_lower; [done | apply Z.mod_pos_bound; lia |].
  split; [apply Z.div_pos; lia | apply Z.div_lt_upper_bound; lia].
Qed.

Lemma hex_encode_length s : String.length (hex_encode s) = (2 * String.length s)%nat.
Proof. induction s as [| a s IH]; [done |]. cbn [hex_encode String.length]. rewrite IH. lia. Qed.

(** The hexadecimal digest is 64 lower-case hexadecimal digits. *)
Lemma sha256_hex_shape s :
  String.length (sha256_hex s) = 64%nat /\ all_bytes is_lower_hex (sha256_hex s) = true.
Proof.
  unfold sha256_hex. by rewrite hex_encode_length, sha256_length, hex_encode_lower.
Qed.

#[global] Opaque sha256.
