(* ===== verification/Json.v ===== *)
(** * [encoding/json]: marshalling

    [json.Marshal] for the values the sources hash: structs become objects with
    the fields in declaration order, numbers are decimal, times are quoted
    RFC 3339, byte slices are base64.  Strings are escaped as the default
    encoder does, the HTML characters included. *)

From S2P Require Import Prelude GoText GoTime Sha256.
#[local] Open Scope Z_scope.

Inductive json :=
| JNull
| JBool (b : bool)
| JNum (n : Z)
| JStr (s : string)
| JTime (t : time)
| JObj (fields : list (string * json))
| JArr (items : list json).

(** ** Strings *)

Definition hex4 (c : Z) : string :=
  String (hex_digit (c / 4096 mod 16)) (String (hex_digit (c / 256 mod 16))
    (String (hex_digit (c / 16 mod 16)) (String (hex_digit (c mod 16)) ""))).

Definition backslash : string := String (Ascii.ascii_of_nat 92) "".

Definition escape_rune (r : option Z * string) : string :=
  match fst r with
  | None => backslash +:+ "ufffd"
  | Some c =>
      if c =? 34 then backslash +:+ dquote
      else if c =? 92 then backslash +:+ backslash
      else if c =? 8 then backslash +:+ "b"
      else if c =? 12 then backslash +:+ "f"
      else if c =? 10 then backslash +:+ "n"
      else if c =? 13 then backslash +:+ "r"
      else if c =? 9 then backslash +:+ "t"
      else if (c <? 32) || (c =? 60) || (c =? 62) || (c =? 38) || (c =? 8232) || (c =? 8233)
      then backslash +:+ "u" +:+ hex4 c
      else snd r
  end.

Definition json_string (s : string) : string :=
  dquote +:+ foldr (fun r acc => escape_rune r +:+ acc) "" (runes s) +:+ dquote.

(** ** Base64 (standard alphabet, padded) *)

Definition base64_digit (n : Z) : ascii :=
  Ascii.ascii_of_N (Z.to_N
    (if n <? 26 then 65 + n else if n <? 52 then 71 + n else if n <? 62 then n - 4
     else if n =? 62 then 43 else 47)).

Fixpoint base64 (l : list Z) : string :=
  match l with
  | a :: b :: c :: r =>
      String (base64_digit (a / 4)) (String (base64_digit (a mod 4 * 16 + b / 16))
        (String (base64_digit (b mod 16 * 4 + c / 64)) (String (base64_digit (c mod 64)) (base64 r))))
  | [a; b] =>
      String (base64_digit (a / 4)) (String (base64_digit (a mod 4 * 16 + b / 16))
        (String (base64_digit (b mod 16 * 4)) "="))
  | [a] => String (base64_digit (a / 4)) (String (base64_digit (a mod 4 * 16)) "==")
  | [] => ""
  end.

(** ** Values *)

Fixpoint marshal (v : json) : string :=
  match v with
  | JNull => "null"
  | JBool b => if b then "true" else "false"
  | JNum n => format_int n
  | JStr s => json_string s
  | JTime t => dquote +:+ rfc3339_nano t +:+ dquote
  | JObj fields =>
      "{" +:+ (fix go (first : bool) (l : list (string * json)) : string :=
                 match l with
                 | [] => ""
                 | (k, x) :: r =>
                     (if first then "" else ",") +:+ json_string k +:+ ":" +:+ marshal x +:+ go false r
                 end) true fields +:+ "}"
  | JArr items =>
      "[" +:+ (fix go (first : bool) (l : list json) : string :=
                 match l with
                 | [] => ""
                 | x :: r => (if first then "" else ",") +:+ marshal x +:+ go false r
                 end) true items +:+ "]"
  end.

(** A field tagged [omitempty]: left out when the pointer is nil. *)
Definition omitempty {A} (name : string) (enc : A -> json) (p : option A) : list (string * json) :=
  match p with None => [] | Some x => [(name, enc x)] end.

Example marshal_ex :
  marshal (JObj [("a", JNum 12); ("b", JArr [JBool true; JNull]); ("c", JStr "x<y")])
  = "{" +:+ dquote +:+ "a" +:+ dquote +:+ ":12," +:+ dquote +:+ "b" +:+ dquote +:+ ":[true,null],"
    +:+ dquote +:+ "c" +:+ dquote +:+ ":" +:+ dquote +:+ "x" +:+ backslash +:+ "u003cy" +:+ dquote +:+ "}".
Proof. vm_compute. reflexivity. Qed.

Example base64_ex : base64 (bytes_of "hello") = "aGVsbG8=".
Proof. vm_compute. reflexivity. Qed.

(** ** Lengths of encodings *)

(** The members of an object, with the commas between them. *)
Fixpoint members (first : bool) (l : list (string * json)) : string :=
  match l with
  | [] => ""
  | (k, x) :: r => (if first then "" else ",") +:+ json_string k +:+ ":" +:+ marshal x +:+ members false r
  end.

Lemma marshal_obj fields : marshal (JObj fields) = "{" +:+ members true fields +:+ "}".
Proof. reflexivity. Qed.

(** Bytes that the encoder copies. *)
Definition is_plain (a : ascii) : bool :=
  is_alphanumeric a || (byte a =? 46) || (byte a =? 95) || (byte a =? 58) || (byte a =? 45).

Lemma plain_byte a : is_plain a = true ->
  byte a < 128 /\ escape_rune (Some (byte a), String a "") = String a "".
Proof.
  intros H. assert (45 <= byte a <= 122 /\ byte a <> 60 /\ byte a <> 62 /\ byte a <> 92) as Hr.
  { unfold is_plain, is_alphanumeric, is_upper, is_lower, is_digit, in_range in H. b2p. lia. }
  split; [lia |]. unfold escape_rune. cbn [fst snd].
  repeat match goal with |- context [?x =? ?y] => destruct (Z.eqb_spec x y); [lia |] end.
  destruct (Z.ltb_spec (byte a) 32); [lia | done].
Qed.

Lemma json_string_plain s : all_bytes is_plain s = true -> json_string s = dquote +:+ s +:+ dquote.
Proof.
  intros H. unfold json_string. f_equal. f_equal. rewrite runes_ascii.
  - induction s as [| a s IH]; [done |]. cbn in H. apply andb_true_iff in H as [Ha Hs].
    cbn [byte_runes foldr]. rewrite (proj2 (plain_byte a Ha)), IH by done. done.
  - eapply all_bytes_mono; [| exact H]. intros a Ha. apply Z.ltb_lt, plain_byte, Ha.
Qed.

Lemma lower_hex_plain s : all_bytes is_lower_hex s = true -> all_bytes is_plain s = true.
Proof.
  apply all_bytes_mono. intros a. unfold is_plain, is_alphanumeric, is_lower, is_lower_hex, in_range.
  intros [-> | Ha]%orb_true_iff; [by rewrite orb_true_r |]. b2p. lia.
Qed.

(** [literal_lengths]: compute the lengths of the member names. *)
Ltac literal_lengths :=
  repeat match goal with
    | |- context [len (String ?a ?s)] =>
        let n := eval vm_compute in (len (String a s)) in change (len (String a s)) with n
    end.

Lemma json_string_plain_len s : all_bytes is_plain s = true -> len (json_string s) = len s + 2.
Proof. intros H. rewrite json_string_plain, !len_app by done. change (len dquote) with 1. lia. Qed.

Lemma marshal_str_len s : all_bytes is_plain s = true -> len (marshal (JStr s)) = len s + 2.
Proof. apply json_string_plain_len. Qed.

Lemma marshal_num_len n : i64 n \/ u64 n -> len (marshal (JNum n)) <= 20.
Proof. apply format_int_length. Qed.

Lemma marshal_bool_len b : len (marshal (JBool b)) <= 5.
Proof. by destruct b. Qed.

(** A bound on an object from bounds on its members. *)
Fixpoint members_bound (l : list (string * json)) : Z :=
  match l with [] => 0 | (k, x) :: r => len k + 4 + len (marshal x) + members_bound r end.

Lemma members_len l : forall first,
  forallb (fun m => all_bytes is_plain (fst m)) l = true -> len (members first l) <= members_bound l.
Proof.
  induction l as [| [k x] l IH]; intros first H; [done |]. cbn in H. apply andb_true_iff in H as [Hk Hl].
  cbn [members members_bound]. rewrite !len_app, json_string_plain_len by done.
  specialize (IH false Hl). change (len ":") with 1. destruct first; change (len ",") with 1; change (len "") with 0; lia.
Qed.

Lemma marshal_obj_len fields :
  forallb (fun m => all_bytes is_plain (fst m)) fields = true ->
  len (marshal (JObj fields)) <= members_bound fields + 2.
Proof.
  intros H. rewrite marshal_obj, !len_app. pose proof (members_len fields true H).
  change (len "{") with 1. change (len "}") with 1. lia.
Qed.

Lemma members_bound_app l l' : members_bound (l ++ l') = members_bound l + members_bound l'.
Proof. induction l as [| [k x] l IH]; cbn; lia. Qed.

(** The elements of an array, with the commas between them. *)
Fixpoint elements (first : bool) (l : list json) : string :=
  match l with
  | [] => ""
  | x :: r => (if first then "" else ",") +:+ marshal x +:+ elements false r
  end.

Lemma marshal_arr items : marshal (JArr items) = "[" +:+ elements true items +:+ "]".
Proof. reflexivity. Qed.

Lemma marshal_null : marshal JNull = "null".
Proof. reflexivity. Qed.

Lemma marshal_bool b : marshal (JBool b) = if b then "true" else "false".
Proof. reflexivity. Qed.

Lemma marshal_num n : marshal (JNum n) = format_int n.
Proof. reflexivity. Qed.

Lemma marshal_str s : marshal (JStr s) = json_string s.
Proof. reflexivity. Qed.

Lemma marshal_time t : marshal (JTime t) = dquote +:+ rfc3339_nano t +:+ dquote.
Proof. reflexivity. Qed.

#[global] Opaque marshal.
