(* ===== verification/Digests.v ===== *)
(** * Digest helpers

    [derivedDigestValid] ([internal/domain/run_derived_context.go]) and
    [terminalHash] ([internal/domain/run_terminal_custody.go]), and what makes a
    value acceptable to [json.Marshal]. *)

From S2P Require Import Prelude GoText GoTime Sha256.
#[local] Open Scope Z_scope.

Definition derivedDigestValid (value : string) : bool :=
  (len value =? 64) && all_bytes is_lower_hex value.

Definition terminalHash (namespace body : string) : string := sha256_hex (namespace +:+ body).

(** The NUL byte that ends a hash namespace. *)
Definition nul : string := String Ascii.zero "".

(** [time.Time.MarshalJSON] fails outside the years 0 to 9999 and for a zone
    offset of 24 hours or more. *)
Definition marshals (t : time) : bool :=
  in_range 0 9999 (year t) && (Z.abs (offset_of (loc t)) <? 86400).

Lemma sha256_hex_digest s : derivedDigestValid (sha256_hex s) = true.
Proof.
  unfold derivedDigestValid, len. destruct (sha256_hex_shape s) as [-> ->]. done.
Qed.

#[export] Hint Resolve sha256_hex_digest : go.
