(* ===== verification/Errors.v ===== *)
(** * Errors of the domain ([internal/domain/errors.go])

    The error values of the domain package and of the packages that wrap them:
    validation failures, the sentinel errors, and [ClassifiedError], which
    carries a failure class across adapters.  [Unwrap] and [errors.As] walk the
    cause chain. *)

From S2P Require Import Prelude GoText.
#[local] Open Scope Z_scope.

(** [ErrorKind] is a string type; its named constants are the valid kinds. *)
Definition ErrorRetryable : string := "retryable".
Definition ErrorTerminal : string := "terminal".
Definition ErrorQuotaBlocked : string := "quota_blocked".
Definition ErrorReauthRequired : string := "reauthentication_required".
Definition ErrorPolicyDenied : string := "policy_denied".

Definition ErrorKind_Valid (kind : string) : bool :=
  bool_decide (kind ∈ [ErrorRetryable; ErrorTerminal; ErrorQuotaBlocked; ErrorReauthRequired; ErrorPolicyDenied]).

(** [ClassifiedNil] is a nil [*ClassifiedError] held in an [error]; [PlainError]
    is an error made by [errors.New] or [fmt.Errorf], with what it wraps. *)
Inductive error :=
| ValidationError (Field Reason : string)
| TenantMismatchError (Expected Actual : string)
| StaleBindingError (Expected Actual : Z)
| ClassifiedError (Kind Code Operation : string) (RetryAfter : Z) (Cause : option error)
| ClassifiedNil
| PlainError (message : string) (wrapped : option error).

Definition ErrEventIdempotencyConflict : error := PlainError "session event idempotency conflict" None.

(** [error.Error()]. *)
Fixpoint Error (e : error) : string :=
  match e with
  | ValidationError f r => "invalid " +:+ f +:+ ": " +:+ r
  | TenantMismatchError e a => "tenant mismatch: expected " +:+ quoted e +:+ ", got " +:+ quoted a
  | StaleBindingError e a =>
      "stale frontend binding revision: expected " +:+ format_int e +:+ ", got " +:+ format_int a
  | ClassifiedError kind code op _ cause =>
      let message := kind +:+ ": " +:+ code in
      let message := if String.eqb op "" then message else op +:+ ": " +:+ message in
      match cause with None => message | Some c => message +:+ ": " +:+ Error c end
  | ClassifiedNil => "<nil>"
  | PlainError m _ => m
  end.

Definition Unwrap (e : error) : option error :=
  match e with
  | ClassifiedError _ _ _ _ cause => cause
  | PlainError _ w => w
  | _ => None
  end.

Definition Retryable (e : error) : bool :=
  match e with ClassifiedError kind _ _ _ _ => String.eqb kind ErrorRetryable | _ => false end.

(** [errors.As(err, &classified)]: the first [*ClassifiedError] of the chain. *)
Fixpoint as_classified (e : error) : option error :=
  match e with
  | ClassifiedError _ _ _ _ _ | ClassifiedNil => Some e
  | PlainError _ (Some w) => as_classified w
  | _ => None
  end.

Definition ClassifyError (err : option error) : string * bool :=
  match err with
  | None => ("", false)
  | Some e =>
      match as_classified e with
      | Some (ClassifiedError kind _ _ _ _) => if ErrorKind_Valid kind then (kind, true) else ("", false)
      | _ => ("", false)
      end
  end.

(** [errors.Is(err, target)] for the sentinel errors, which are compared by
    identity: a sentinel is known by its message. *)
Fixpoint is_sentinel (message : string) (e : error) : bool :=
  match e with
  | PlainError m w =>
      String.eqb m message || match w with Some w => is_sentinel message w | None => false end
  | ClassifiedError _ _ _ _ (Some c) => is_sentinel message c
  | _ => false
  end.
