(* ===== verification/Identity.v ===== *)
(** * Identities ([internal/domain/identity.go])

    Opaque identifiers, tenant scoping, frontend origins and the Telegram
    references.  Every identifier type of the source is a string type, so an
    identifier is a [string]; each has its own [Validate] with its field name. *)

From S2P Require Import Prelude GoText GoTime Json Errors.
#[local] Open Scope Z_scope.

Definition maxOpaqueIDLength : Z := 160.

(** The byte classes of the identifier grammar. *)
Definition is_punct (a : ascii) : bool :=
  (byte a =? 46) || (byte a =? 95) || (byte a =? 58) || (byte a =? 45).

(** The loop over the bytes of [value]; [first] is [i == 0]. *)
Fixpoint opaque_bytes (first : bool) (value : string) : bool :=
  match value with
  | EmptyString => true
  | String c r =>
      if negb (is_alphanumeric c) && (first || negb (is_punct c)) then false
      else opaque_bytes false r
  end.

Definition ValidateOpaqueID (field value : string) : option error :=
  reject String.eqb value "" with ValidationError field "must not be empty" ;!
  reject len value >? maxOpaqueIDLength
    with ValidationError field ("must not exceed " +:+ format_int maxOpaqueIDLength +:+ " bytes") ;!
  reject negb (opaque_bytes true value)
    with ValidationError field "must use only ASCII letters, digits, dot, underscore, colon, or dash" ;!
  None.

#[global] Arguments ValidateOpaqueID : simpl never.

Definition TenantID_Validate := ValidateOpaqueID "tenant_id".
Definition UserID_Validate := ValidateOpaqueID "user_id".
Definition SessionID_Validate := ValidateOpaqueID "session_id".
Definition SessionEventID_Validate := ValidateOpaqueID "session_event_id".
Definition FrontendBindingID_Validate := ValidateOpaqueID "frontend_binding_id".
Definition FrontendProjectionID_Validate := ValidateOpaqueID "frontend_projection_id".
Definition SessionSnapshotID_Validate := ValidateOpaqueID "session_snapshot_id".
Definition ConversationID_Validate := ValidateOpaqueID "conversation_id".
Definition ActorID_Validate := ValidateOpaqueID "actor_id".
Definition RunID_Validate := ValidateOpaqueID "run_id".
Definition AttemptID_Validate := ValidateOpaqueID "attempt_id".
Definition LeaseID_Validate := ValidateOpaqueID "lease_id".
Definition CheckpointID_Validate := ValidateOpaqueID "checkpoint_id".
Definition QuotaReservationID_Validate := ValidateOpaqueID "quota_reservation_id".
Definition UsageObservationID_Validate := ValidateOpaqueID "usage_observation_id".
Definition ArtifactManifestID_Validate := ValidateOpaqueID "artifact_manifest_id".
Definition DispatchOutboxID_Validate := ValidateOpaqueID "dispatch_outbox_id".
Definition TelegramDeliveryID_Validate := ValidateOpaqueID "telegram_delivery_id".
Definition SubscriptionConnectionID_Validate := ValidateOpaqueID "subscription_connection_id".
Definition IdempotencyKey_Validate := ValidateOpaqueID "idempotency_key".
Definition MessageID_Validate := ValidateOpaqueID "message_id".
Definition Frontend_Validate := ValidateOpaqueID "frontend".

Definition EnsureSameTenant (expected actual : string) : option error :=
  check TenantID_Validate expected ;!
  check TenantID_Validate actual ;!
  reject negb (String.eqb expected actual) with TenantMismatchError expected actual ;!
  None.

Definition FrontendTelegram : string := "telegram".

(** ** Frontend references *)

Record FrontendEventOrigin := {
  feo_BindingID : string;
  feo_BindingRevision : Z;
  feo_Frontend : string;
  feo_ExternalConversationID : string;
  feo_ExternalEventID : string }.

Definition exceeds_id : string :=
  "must not exceed " +:+ format_int maxOpaqueIDLength +:+ " bytes".

Definition FrontendEventOrigin_Validate (origin : FrontendEventOrigin) : option error :=
  check FrontendBindingID_Validate (feo_BindingID origin) ;!
  reject feo_BindingRevision origin =? 0
    with ValidationError "frontend_event_origin.binding_revision" "must be positive" ;!
  check Frontend_Validate (feo_Frontend origin) ;!
  reject blank (feo_ExternalConversationID origin)
    with ValidationError "frontend_event_origin.external_conversation_id" "must not be empty" ;!
  reject len (feo_ExternalConversationID origin) >? maxOpaqueIDLength
    with ValidationError "frontend_event_origin.external_conversation_id" exceeds_id ;!
  reject blank (feo_ExternalEventID origin)
    with ValidationError "frontend_event_origin.external_event_id" "must not be empty" ;!
  reject len (feo_ExternalEventID origin) >? maxOpaqueIDLength
    with ValidationError "frontend_event_origin.external_event_id" exceeds_id ;!
  None.

Record ConversationRef := {
  cr_TenantID : string; cr_Frontend : string; cr_ExternalID : string; cr_ID : string }.

Definition ConversationRef_Validate (ref : ConversationRef) : option error :=
  check TenantID_Validate (cr_TenantID ref) ;!
  check Frontend_Validate (cr_Frontend ref) ;!
  check ConversationID_Validate (cr_ID ref) ;!
  reject blank (cr_ExternalID ref) with ValidationError "external_id" "must not be empty" ;!
  reject len (cr_ExternalID ref) >? maxOpaqueIDLength with ValidationError "external_id" exceeds_id ;!
  None.

Record ActorRef := {
  ar_TenantID : string; ar_Frontend : string; ar_ExternalID : string; ar_ID : string }.

Definition ActorRef_Validate (ref : ActorRef) : option error :=
  check TenantID_Validate (ar_TenantID ref) ;!
  check Frontend_Validate (ar_Frontend ref) ;!
  check ActorID_Validate (ar_ID ref) ;!
  reject blank (ar_ExternalID ref) with ValidationError "external_id" "must not be empty" ;!
  None.

Record TelegramChatRef := { tc_TenantID : string; tc_ChatID : Z }.

Definition TelegramChatRef_Validate (ref : TelegramChatRef) : option error :=
  check TenantID_Validate (tc_TenantID ref) ;!
  reject tc_ChatID ref =? 0 with ValidationError "chat_id" "must not be zero" ;!
  None.

Definition Conversation (ref : TelegramChatRef) (id : string) : ConversationRef :=
  {| cr_TenantID := tc_TenantID ref; cr_Frontend := FrontendTelegram;
     cr_ExternalID := format_int (tc_ChatID ref); cr_ID := id |}.

Record TelegramUserRef := { tu_TenantID : string; tu_UserID : Z }.

Definition TelegramUserRef_Validate (ref : TelegramUserRef) : option error :=
  check TenantID_Validate (tu_TenantID ref) ;!
  reject tu_UserID ref <=? 0 with ValidationError "user_id" "must be positive" ;!
  None.

Definition Actor (ref : TelegramUserRef) (id : string) : ActorRef :=
  {| ar_TenantID := tu_TenantID ref; ar_Frontend := FrontendTelegram;
     ar_ExternalID := format_int (tu_UserID ref); ar_ID := id |}.

(** ** The identifier grammar

    The comment in the source says that the byte loop is the regular expression
    [^[A-Za-z0-9][A-Za-z0-9._:-]*$].  Here is that expression with the usual
    semantics of regular expressions, as the reference. *)

Module Regex.

Inductive re :=
| Class (f : ascii -> bool)
| Cat (r1 r2 : re)
| Star (r : re).

Inductive matches : re -> string -> Prop :=
| m_class f a : f a = true -> matches (Class f) (String a "")
| m_cat r1 r2 s1 s2 : matches r1 s1 -> matches r2 s2 -> matches (Cat r1 r2) (s1 +:+ s2)
| m_star_nil r : matches (Star r) ""
| m_star_cons r s1 s2 : matches r s1 -> matches (Star r) s2 -> matches (Star r) (s1 +:+ s2).

Lemma matches_star_class f s : matches (Star (Class f)) s <-> all_bytes f s = true.
Proof.
  split.
  - intros H. remember (Star (Class f)) as r eqn:Hr. revert Hr.
    induction H as [ | | | r s1 s2 H1 _ _ IH2]; intros [=]; [done |]. subst.
    inversion H1 as [f' a Ha | | |]; subst. cbn.
    change (f a && all_bytes f s2 = true). by rewrite Ha, IH2.
  - induction s as [| a s IH]; cbn; [constructor |]. intros [Ha Hs]%andb_true_iff.
    apply (m_star_cons _ (String a "") s); [by constructor | auto].
Qed.

Definition identifier : re :=
  Cat (Class is_alphanumeric) (Star (Class (fun a => is_alphanumeric a || is_punct a))).

End Regex.

(** ** Lemmas shared by the components *)

Definition id_byte (a : ascii) : bool := is_alphanumeric a || is_punct a.

Lemma opaque_bytes_rest s : opaque_bytes false s = all_bytes id_byte s.
Proof.
  induction s as [| c s IH]; [done |]. cbn. unfold id_byte at 1.
  destruct (is_alphanumeric c), (is_punct c); cbn; done.
Qed.

Lemma ValidateOpaqueID_nil field value :
  ValidateOpaqueID field value = None <->
  value <> "" /\ len value <= maxOpaqueIDLength /\ opaque_bytes true value = true.
Proof.
  unfold ValidateOpaqueID.
  destruct (String.eqb_spec value ""); [naive_solver |].
  destruct (Z.gtb_spec (len value) maxOpaqueIDLength); [naive_solver lia |].
  destruct (opaque_bytes true value); cbn; naive_solver.
Qed.

(** Acceptance does not depend on the field name the error would carry. *)
Lemma ValidateOpaqueID_field f g value :
  ValidateOpaqueID f value = None -> ValidateOpaqueID g value = None.
Proof. by rewrite !ValidateOpaqueID_nil. Qed.

Lemma opaque_id_bytes s : opaque_bytes true s = true -> all_bytes id_byte s = true.
Proof.
  destruct s as [| c s]; [done |]. cbn. unfold id_byte at 1. rewrite opaque_bytes_rest.
  destruct (is_alphanumeric c); cbn; done.
Qed.

Lemma id_byte_not_slash a : id_byte a = true -> not_slash a = true.
Proof.
  unfold id_byte, not_slash. destruct (Ascii.eqb_spec a slash) as [-> |]; done.
Qed.

(** A valid identifier has no slash, so it is one element of an object key. *)
(** An identifier is encoded in JSON as it is. *)
Lemma opaque_bytes_plain first s : opaque_bytes first s = true -> all_bytes is_plain s = true.
Proof.
  revert first. induction s as [| a s IH]; intros first H; [done |]. cbn in H |- *.
  destruct (negb _ && _) eqn:Ha; [done |]. apply IH in H as ->. rewrite andb_true_r.
  unfold is_plain, is_punct in *. destruct (is_alphanumeric a); [done |]. cbn in Ha.
  apply orb_false_iff in Ha as [_ Ha]. by apply negb_false_iff in Ha.
Qed.

Lemma opaque_plain field s :
  ValidateOpaqueID field s = None -> all_bytes is_plain s = true /\ len s <= 160.
Proof.
  unfold ValidateOpaqueID. intros H. peel H. apply negb_false_iff, opaque_bytes_plain in E1.
  split; [done |]. b2p. done.
Qed.

Lemma opaque_id_slash_free field s : ValidateOpaqueID field s = None -> slash_free s = true.
Proof.
  rewrite ValidateOpaqueID_nil. intros (_ & _ & H%opaque_id_bytes).
  eapply all_bytes_mono; [apply id_byte_not_slash | done].
Qed.

Lemma EnsureSameTenant_nil e a :
  EnsureSameTenant e a = None <-> e = a /\ TenantID_Validate e = None.
Proof.
  unfold EnsureSameTenant. split.
  - intros H. peel H. by b2p.
  - intros [-> H]. by rewrite H, String.eqb_refl.
Qed.

Lemma EnsureSameTenant_refl t : TenantID_Validate t = None -> EnsureSameTenant t t = None.
Proof. intros. by apply EnsureSameTenant_nil. Qed.

#[export] Hint Resolve EnsureSameTenant_refl : go.

(** ** Properties *)

(** [ValidateOpaqueID] accepts exactly the strings of at most 160 bytes that
    the regular expression [^[A-Za-z0-9][A-Za-z0-9._:-]*$] matches, whatever the
    field name: the hand-written byte loop is equivalent to the expression its
    comment names. *)
Theorem opaque_id_is_regex field value :
  ValidateOpaqueID field value = None <->
  len value <= maxOpaqueIDLength /\ Regex.matches Regex.identifier value.
Proof.
  rewrite ValidateOpaqueID_nil. split.
  - intros (Hne & Hl & Hb). split; [done |].
    destruct value as [| c s]; [done |]. cbn in Hb. rewrite opaque_bytes_rest in Hb.
    destruct (is_alphanumeric c) eqn:Hc; cbn in Hb; [| done].
    apply (Regex.m_cat _ _ (String c "") s); [by constructor |].
    by apply Regex.matches_star_class.
  - intros [Hl Hm]. inversion Hm as [| r1 r2 s1 s2 H1 H2 | |]; subst.
    inversion H1 as [f a Ha | | |]; subst. apply Regex.matches_star_class in H2.
    repeat split; [done | done |].
    change (opaque_bytes true (String a s2) = true). cbn. by rewrite Ha, opaque_bytes_rest.
Qed.

(** A valid Telegram chat, with any chat identifier of the [int64] range,
    negative group identifiers included, projects to a conversation reference
    that validates, and two chats of a tenant never share an external id. *)
Theorem telegram_conversation_valid ref ref' id :
  i64 (tc_ChatID ref) ->
  TelegramChatRef_Validate ref = None -> ConversationID_Validate id = None ->
  ConversationRef_Validate (Conversation ref id) = None /\
  (cr_ExternalID (Conversation ref' id) = cr_ExternalID (Conversation ref id) ->
   tc_ChatID ref' = tc_ChatID ref).
Proof.
  intros Hi Hv Hid. unfold TelegramChatRef_Validate in Hv. peel Hv. split.
  - destruct (format_int_graphic (tc_ChatID ref)) as [Hg Hne].
    pose proof (format_int_length _ (or_introl Hi)) as Hl.
    unfold ConversationRef_Validate, Conversation; cbn [cr_TenantID cr_Frontend cr_ExternalID cr_ID].
    rewrite E, Hid, (blank_graphic _ Hg Hne). cbn.
    destruct (Z.gtb_spec (len (format_int (tc_ChatID ref))) maxOpaqueIDLength) as [Hc |]; [| done].
    unfold maxOpaqueIDLength in Hc. lia.
  - apply format_int_inj.
Qed.

Lemma telegram_conversation_valid_witness :
  ConversationRef_Validate (Conversation {| tc_TenantID := "acme"; tc_ChatID := -1001234 |} "c1") = None.
Proof.
  apply (telegram_conversation_valid {| tc_TenantID := "acme"; tc_ChatID := -1001234 |}
           {| tc_TenantID := "acme"; tc_ChatID := 7 |} "c1").
  - split; vm_compute; discriminate.
  - reflexivity.
  - reflexivity.
Defined.
