(* ===== verification/Blobs.v ===== *)
(** * Object references ([internal/domain/artifacts.go])

    Blob references, the object-key namespaces of tenants, sessions, runs,
    events and snapshots, and artifacts; manifests of a run are in [Work.v]. *)

From S2P Require Import Prelude GoText GoTime Errors Identity.
#[local] Open Scope Z_scope.

Record BlobRef := {
  br_TenantID : string;
  br_Key : string;
  br_Size : Z;
  br_SHA256 : string }.

#[global] Instance BlobRef_eq_dec : EqDecision BlobRef.
Proof. solve_decision. Defined.

Definition TenantObjectPrefix (tenantID : string) : string :=
  "tenants/" +:+ tenantID +:+ "/".

Definition SessionObjectPrefix (tenantID sessionID : string) : string :=
  TenantObjectPrefix tenantID +:+ "sessions/" +:+ sessionID +:+ "/".

Definition SessionRunObjectPrefix (tenantID sessionID runID : string) : string :=
  SessionObjectPrefix tenantID sessionID +:+ "runs/" +:+ runID +:+ "/".

Definition RunObjectPrefix (tenantID runID : string) : string :=
  TenantObjectPrefix tenantID +:+ "runs/" +:+ runID +:+ "/".

Definition SessionEventObjectPrefix (tenantID sessionID eventID : string) : string :=
  SessionObjectPrefix tenantID sessionID +:+ "events/" +:+ eventID +:+ "/".

Definition SessionSnapshotObjectKey (tenantID sessionID : string) (version : Z) : string :=
  SessionObjectPrefix tenantID sessionID +:+ "snapshots/" +:+ format_int version +:+ ".jsonl.zst".

Definition under (prefix : string) : string := "must be under " +:+ quoted prefix.

Definition BlobRef_Validate (ref : BlobRef) : option error :=
  check TenantID_Validate (br_TenantID ref) ;!
  reject String.eqb (br_Key ref) "" || has_prefix (br_Key ref) "/"
         || negb (String.eqb (path_clean (br_Key ref)) (br_Key ref))
    with ValidationError "blob.key" "must be a normalized relative object key" ;!
  reject negb (has_prefix (br_Key ref) (TenantObjectPrefix (br_TenantID ref)))
    with ValidationError "blob.key" (under (TenantObjectPrefix (br_TenantID ref))) ;!
  reject br_Size ref <? 0 with ValidationError "blob.size" "must not be negative" ;!
  reject negb (hex_decodes_to (br_SHA256 ref) 32)
    with ValidationError "blob.sha256" "must be a 64-character hexadecimal SHA-256 digest" ;!
  None.

Definition ValidateSessionEventBlob (tenantID sessionID eventID : string) (ref : BlobRef)
  : option error :=
  check BlobRef_Validate ref ;!
  check EnsureSameTenant tenantID (br_TenantID ref) ;!
  check SessionID_Validate sessionID ;!
  check SessionEventID_Validate eventID ;!
  let prefix := SessionEventObjectPrefix tenantID sessionID eventID in
  reject negb (has_prefix (br_Key ref) prefix)
    with ValidationError "session_event.payload.key" (under prefix) ;!
  None.

Definition ValidateSessionSnapshotBlob (tenantID sessionID : string) (version : Z) (ref : BlobRef)
  : option error :=
  check BlobRef_Validate ref ;!
  check EnsureSameTenant tenantID (br_TenantID ref) ;!
  check SessionID_Validate sessionID ;!
  reject version =? 0 with ValidationError "session_snapshot.version" "must be positive" ;!
  let key := SessionSnapshotObjectKey tenantID sessionID version in
  reject negb (String.eqb (br_Key ref) key)
    with ValidationError "session_snapshot.payload.key" ("must equal " +:+ quoted key) ;!
  None.

Record Artifact := {
  art_Name : string;
  art_MediaType : string;
  art_Blob : BlobRef }.

Definition Artifact_Validate (artifact : Artifact) : option error :=
  reject blank (art_Name artifact) with ValidationError "artifact.name" "must not be empty" ;!
  reject blank (art_MediaType artifact)
    with ValidationError "artifact.media_type" "must not be empty" ;!
  BlobRef_Validate (art_Blob artifact).

(** ** Keys as paths *)

(** Two elements at the front of a key. *)
Lemma split_elem2 a b r :
  slash_free a = true -> slash_free b = true ->
  split_slash (a +:+ String slash (b +:+ String slash r)) = a :: b :: split_slash r.
Proof. intros Ha Hb. by rewrite !split_app_slash. Qed.

Lemma split_tenant_key t r :
  slash_free t = true -> split_slash (TenantObjectPrefix t +:+ r) = "tenants" :: t :: split_slash r.
Proof.
  unfold TenantObjectPrefix. rewrite !string_app_assoc. exact (split_elem2 "tenants" t r eq_refl).
Qed.

Lemma split_session_key t s r :
  slash_free t = true -> slash_free s = true ->
  split_slash (SessionObjectPrefix t s +:+ r) = "tenants" :: t :: "sessions" :: s :: split_slash r.
Proof.
  intros Ht Hs. unfold SessionObjectPrefix. rewrite !string_app_assoc, split_tenant_key by done.
  do 2 f_equal. exact (split_elem2 "sessions" s r eq_refl Hs).
Qed.

Lemma split_session_run_key t s run r :
  slash_free t = true -> slash_free s = true -> slash_free run = true ->
  split_slash (SessionRunObjectPrefix t s run +:+ r)
  = "tenants" :: t :: "sessions" :: s :: "runs" :: run :: split_slash r.
Proof.
  intros Ht Hs Hr. unfold SessionRunObjectPrefix. rewrite !string_app_assoc, split_session_key by done.
  do 4 f_equal. exact (split_elem2 "runs" run r eq_refl Hr).
Qed.

Lemma split_run_key t run r :
  slash_free t = true -> slash_free run = true ->
  split_slash (RunObjectPrefix t run +:+ r) = "tenants" :: t :: "runs" :: run :: split_slash r.
Proof.
  intros Ht Hr. unfold RunObjectPrefix. rewrite !string_app_assoc, split_tenant_key by done.
  do 2 f_equal. exact (split_elem2 "runs" run r eq_refl Hr).
Qed.

Lemma split_event_key t s e r :
  slash_free t = true -> slash_free s = true -> slash_free e = true ->
  split_slash (SessionEventObjectPrefix t s e +:+ r)
  = "tenants" :: t :: "sessions" :: s :: "events" :: e :: split_slash r.
Proof.
  intros Ht Hs He. unfold SessionEventObjectPrefix. rewrite !string_app_assoc, split_session_key by done.
  do 4 f_equal. exact (split_elem2 "events" e r eq_refl He).
Qed.

(** What a valid reference establishes. *)
Lemma BlobRef_Validate_nil ref :
  BlobRef_Validate ref = None ->
  TenantID_Validate (br_TenantID ref) = None /\ br_Key ref <> "" /\
  has_prefix (br_Key ref) "/" = false /\ path_clean (br_Key ref) = br_Key ref /\
  has_prefix (br_Key ref) (TenantObjectPrefix (br_TenantID ref)) = true /\
  0 <= br_Size ref /\ hex_decodes_to (br_SHA256 ref) 32 = true.
Proof.
  unfold BlobRef_Validate. intros H. peel H. b2p.
  destruct E0 as [[? ?] ?]. repeat split; done || lia.
Qed.

(** ** Properties *)

(** A blob reference that validates stays inside its tenant: its key, split
    at the slashes, is [tenants], the tenant id, and then only ordinary elements
    (no empty element, no [.], no [..]), so no resolution of the key can leave
    the tenant's namespace. *)
Theorem blob_key_confined ref :
  BlobRef_Validate ref = None ->
  exists rest, split_slash (br_Key ref) = "tenants" :: br_TenantID ref :: rest /\
               Forall ordinary ("tenants" :: br_TenantID ref :: rest).
Proof.
  intros H%BlobRef_Validate_nil.
  destruct H as (Ht & Hne & Hrel & Hclean & Hp & _).
  apply has_prefix_spec in Hp as [r Hr].
  pose proof (opaque_id_slash_free _ _ Ht) as Hsf.
  assert (Hs : split_slash (br_Key ref) = "tenants" :: br_TenantID ref :: split_slash r)
    by (rewrite Hr; by apply split_tenant_key).
  exists (split_slash r). split; [done |].
  destruct (path_clean_fixed (br_Key ref) Hne) as (body & ups & Hb & Hbody & Hups); try done.
  { intros Hd. by rewrite Hd in Hs. }
  rewrite Hs in Hb. destruct ups as [| u ups]; [by rewrite Hb |].
  injection Hb as Hu _. inversion Hups. by subst.
Qed.

Lemma blob_key_confined_witness :
  exists rest, split_slash "tenants/acme/sessions/s1/events/e1/body" = "tenants" :: "acme" :: rest.
Proof.
  destruct (blob_key_confined
    {| br_TenantID := "acme"; br_Key := "tenants/acme/sessions/s1/events/e1/body"; br_Size := 3;
       br_SHA256 := "ba7816bf8f01cfea414140de5dae2223b00361a396177a9cb410ff61f20015ad" |})
    as (rest & H & _); [vm_compute; reflexivity |].
  exists rest. exact H.
Defined.

(** The object namespaces of valid identifiers do not overlap: a key under the
    session prefix of one tenant and session is under no other session's prefix,
    nor under any legacy run prefix. *)
Theorem session_prefixes_disjoint t s t' s' run key :
  TenantID_Validate t = None -> SessionID_Validate s = None ->
  TenantID_Validate t' = None -> SessionID_Validate s' = None -> RunID_Validate run = None ->
  has_prefix key (SessionObjectPrefix t s) = true ->
  (has_prefix key (SessionObjectPrefix t' s') = true -> t = t' /\ s = s') /\
  has_prefix key (RunObjectPrefix t' run) = false.
Proof.
  intros Ht%opaque_id_slash_free Hs%opaque_id_slash_free Ht'%opaque_id_slash_free
    Hs'%opaque_id_slash_free Hr%opaque_id_slash_free [r Hk]%has_prefix_spec.
  pose proof (split_session_key t s r Ht Hs) as Hsplit. rewrite <- Hk in Hsplit. split.
  - intros [r' Hk']%has_prefix_spec.
    rewrite Hk', split_session_key in Hsplit by done. by injection Hsplit as -> -> _.
  - apply not_true_iff_false. intros [r' Hk']%has_prefix_spec.
    rewrite Hk', split_run_key in Hsplit by done. by injection Hsplit.
Qed.

Lemma session_prefixes_disjoint_witness :
  has_prefix "tenants/a/sessions/s1/x" (RunObjectPrefix "a" "r1") = false.
Proof.
  apply (session_prefixes_disjoint "a" "s1" "a" "s2" "r1" "tenants/a/sessions/s1/x"); reflexivity.
Defined.
