(* ===== verification/Lifecycle.v ===== *)
(** * Session deletion ([internal/domain/session_lifecycle.go],
    [internal/domain/session_deletion_verification.go])

    The durable tombstone of a deleted session, legal holds, the inventory of
    what a deletion removes and the commitment to it. *)

From S2P Require Import Prelude GoText Sorting GoTime Sha256 Json Digests Errors Identity Blobs.
From Stdlib Require Import Sorting.Permutation.
#[local] Open Scope Z_scope.

Inductive SessionDeletionState :=
| SessionDeletionRequested | SessionDeletionDeleting | SessionDeletionCompleted
| SessionDeletionStateUnknown (s : string).

#[global] Instance SessionDeletionState_eq_dec : EqDecision SessionDeletionState.
Proof. solve_decision. Defined.

Definition SessionDeletionState_Valid (state : SessionDeletionState) : bool :=
  match state with SessionDeletionStateUnknown _ => false | _ => true end.

Definition SessionDeletionState_text (state : SessionDeletionState) : string :=
  match state with
  | SessionDeletionRequested => "requested"
  | SessionDeletionDeleting => "deleting"
  | SessionDeletionCompleted => "completed"
  | SessionDeletionStateUnknown s => s
  end.

Record RetainedDeletionVerificationV1 := {
  rv_Schema : string;
  rv_TenantID : string;
  rv_SessionID : string;
  rv_RequestDigest : string;
  rv_MetadataDigest : string;
  rv_InventoryDigest : string;
  rv_Rows : Z;
  rv_Objects : Z;
  rv_Bytes : Z;
  rv_VerifiedRuns : Z;
  rv_VerifiedAt : time }.

Record SessionDeletion := {
  sd_TenantID : string;
  sd_SessionID : string;
  sd_RequestedBy : string;
  sd_Reason : string;
  sd_State : SessionDeletionState;
  sd_RequestedAt : time;
  sd_StartedAt : option time;
  sd_CompletedAt : option time;
  sd_DeletedObjects : Z;
  sd_DeletedBytes : Z;
  sd_RetainedVerification : option RetainedDeletionVerificationV1 }.

#[global] Instance RetainedDeletionVerificationV1_eq_dec : EqDecision RetainedDeletionVerificationV1.
Proof. solve_decision. Defined.
#[global] Instance SessionDeletion_eq_dec : EqDecision SessionDeletion.
Proof. solve_decision. Defined.

(** ** Retained verification *)

Definition retainedDeletionError : error :=
  ValidationError "session_deletion.retained_verification"
    "requires the bounded original request and exact retained inventory commitment".

(** A function with results [(string, error)] is a sum; [is_err] is [err != nil]. *)
Definition is_err {A} (r : error + A) : bool := match r with inl _ => true | inr _ => false end.

Definition SessionDeletionRequestDigestV1 (d : SessionDeletion) : error + string :=
  if notnil (TenantID_Validate (sd_TenantID d)) || notnil (SessionID_Validate (sd_SessionID d))
     || notnil (UserID_Validate (sd_RequestedBy d)) || is_zero (sd_RequestedAt d)
     || (len (sd_Reason d) =? 0) || (len (sd_Reason d) >? 1024)
  then inl retainedDeletionError
  else if negb (marshals (sd_RequestedAt d)) then inl retainedDeletionError
  else inr (terminalHash ("sessionless.retained-deletion-request.v1" +:+ nul)
    (marshal (JObj [("Tenant", JStr (sd_TenantID d)); ("Session", JStr (sd_SessionID d));
                    ("Owner", JStr (sd_RequestedBy d)); ("Reason", JStr (sd_Reason d));
                    ("RequestedAt", JTime (sd_RequestedAt d))]))).

(** [v.validate()].  A [location] other than [UTC] is a different [*Location]. *)
Definition RetainedDeletionVerificationV1_validate (v : RetainedDeletionVerificationV1) : option error :=
  reject negb (String.eqb (rv_Schema v) "sessionless.retained-deletion.v1")
         || notnil (TenantID_Validate (rv_TenantID v)) || notnil (SessionID_Validate (rv_SessionID v))
         || negb (derivedDigestValid (rv_RequestDigest v)) || negb (derivedDigestValid (rv_MetadataDigest v))
         || negb (derivedDigestValid (rv_InventoryDigest v))
         || (rv_Rows v >? 10000) || (rv_Objects v >? 10000)
         || (rv_VerifiedRuns v =? 0) || (rv_VerifiedRuns v >? rv_Rows v)
         || is_zero (rv_VerifiedAt v) || negb (bool_decide (loc (rv_VerifiedAt v) = UTC))
         || negb (nanosecond (rv_VerifiedAt v) mod 1000 =? 0)
         || (year (rv_VerifiedAt v) <? 1) || (year (rv_VerifiedAt v) >? 9999)
         || (rv_Bytes v >? max_i64)
    with retainedDeletionError ;!
  None.

Definition ValidateForDeletion (v : RetainedDeletionVerificationV1) (d : SessionDeletion) : option error :=
  match SessionDeletionRequestDigestV1 d with
  | inl _ => Some retainedDeletionError
  | inr r =>
      reject notnil (RetainedDeletionVerificationV1_validate v)
             || negb (String.eqb (rv_TenantID v) (sd_TenantID d))
             || negb (String.eqb (rv_SessionID v) (sd_SessionID d))
             || negb (String.eqb (rv_RequestDigest v) r)
             || bool_decide (sd_State d = SessionDeletionRequested)
             || match sd_StartedAt d with
                | None => true
                | Some started =>
                    before (rv_VerifiedAt v) (sd_RequestedAt d) || negb (time_equal (rv_VerifiedAt v) started)
                end
        with retainedDeletionError ;!
      reject bool_decide (sd_State d = SessionDeletionCompleted)
             && (negb (sd_DeletedObjects d =? rv_Objects v) || negb (sd_DeletedBytes d =? rv_Bytes v))
        with retainedDeletionError ;!
      None
  end.

(** ** The tombstone *)

Definition SessionDeletion_Validate (deletion : SessionDeletion) : option error :=
  check TenantID_Validate (sd_TenantID deletion) ;!
  check SessionID_Validate (sd_SessionID deletion) ;!
  check UserID_Validate (sd_RequestedBy deletion) ;!
  reject blank (sd_Reason deletion) || (len (sd_Reason deletion) >? 1024)
    with ValidationError "session_deletion.reason" "must contain 1 to 1024 characters" ;!
  reject negb (SessionDeletionState_Valid (sd_State deletion))
    with ValidationError "session_deletion.state" "is unknown" ;!
  reject is_zero (sd_RequestedAt deletion)
    with ValidationError "session_deletion.requested_at" "must not be zero" ;!
  reject match sd_RetainedVerification deletion with
         | Some v => notnil (ValidateForDeletion v deletion)
         | None => false
         end
    with retainedDeletionError ;!
  match sd_State deletion with
  | SessionDeletionRequested =>
      reject notnil (sd_StartedAt deletion) || notnil (sd_CompletedAt deletion)
             || negb (sd_DeletedObjects deletion =? 0) || negb (sd_DeletedBytes deletion =? 0)
        with ValidationError "session_deletion" "requested deletion must not contain execution results" ;!
      None
  | SessionDeletionDeleting =>
      reject match sd_StartedAt deletion with
             | None => true
             | Some started => before started (sd_RequestedAt deletion) || notnil (sd_CompletedAt deletion)
             end
        with ValidationError "session_deletion.started_at" "must follow the request while deleting" ;!
      None
  | SessionDeletionCompleted =>
      reject match sd_StartedAt deletion, sd_CompletedAt deletion with
             | Some started, Some completed =>
                 before started (sd_RequestedAt deletion) || before completed started
             | _, _ => true
             end
        with ValidationError "session_deletion.completed_at" "must follow deletion start" ;!
      None
  | SessionDeletionStateUnknown _ => None
  end.

Definition Start (p : option SessionDeletion) (at_ : time) : option SessionDeletion * option error :=
  match p with
  | None => (p, Some (ValidationError "session_deletion" "must not be nil"))
  | Some deletion =>
      check SessionDeletion_Validate deletion leaving p ;!
      if bool_decide (sd_State deletion = SessionDeletionDeleting)
         || bool_decide (sd_State deletion = SessionDeletionCompleted) then (p, None) else
      reject before at_ (sd_RequestedAt deletion)
        with ValidationError "session_deletion.started_at" "must not precede the request" leaving p ;!
      (Some {| deletion with sd_State := SessionDeletionDeleting; sd_StartedAt := Some at_ |}, None)
  end.

Definition Complete (p : option SessionDeletion) (at_ : time) (deletedObjects deletedBytes : Z)
  : option SessionDeletion * option error :=
  match p with
  | None => (p, Some (ValidationError "session_deletion" "must not be nil"))
  | Some deletion =>
      check SessionDeletion_Validate deletion leaving p ;!
      if bool_decide (sd_State deletion = SessionDeletionCompleted) then
        if (sd_DeletedObjects deletion =? deletedObjects) && (sd_DeletedBytes deletion =? deletedBytes)
        then (p, None)
        else (p, Some (PlainError "session deletion completion conflicts with the durable tombstone" None))
      else
      reject negb (bool_decide (sd_State deletion = SessionDeletionDeleting))
             || match sd_StartedAt deletion with None => true | Some started => before at_ started end
        with ValidationError "session_deletion.completed_at" "requires a started deletion and monotonic time"
        leaving p ;!
      (Some {| deletion with sd_State := SessionDeletionCompleted; sd_CompletedAt := Some at_;
                             sd_DeletedObjects := deletedObjects; sd_DeletedBytes := deletedBytes |}, None)
  end.

(** ** Legal holds *)

Inductive SessionLegalHoldState :=
| SessionLegalHoldActive | SessionLegalHoldReleased | SessionLegalHoldStateUnknown (s : string).

Record SessionLegalHold := {
  lh_TenantID : string;
  lh_SessionID : string;
  lh_State : SessionLegalHoldState;
  lh_Reason : string;
  lh_SetBy : string;
  lh_SetAt : time;
  lh_ReleasedBy : option string;
  lh_ReleasedAt : option time }.

#[global] Instance SessionLegalHoldState_eq_dec : EqDecision SessionLegalHoldState.
Proof. solve_decision. Defined.
#[global] Instance SessionLegalHold_eq_dec : EqDecision SessionLegalHold.
Proof. solve_decision. Defined.

Definition SessionLegalHold_Validate (hold : SessionLegalHold) : option error :=
  check TenantID_Validate (lh_TenantID hold) ;!
  check SessionID_Validate (lh_SessionID hold) ;!
  check UserID_Validate (lh_SetBy hold) ;!
  reject blank (lh_Reason hold) || (len (lh_Reason hold) >? 1024)
    with ValidationError "session_legal_hold.reason" "must contain 1 to 1024 characters" ;!
  reject is_zero (lh_SetAt hold)
    with ValidationError "session_legal_hold.set_at" "must not be zero" ;!
  match lh_State hold with
  | SessionLegalHoldActive =>
      reject notnil (lh_ReleasedBy hold) || notnil (lh_ReleasedAt hold)
        with ValidationError "session_legal_hold.release" "is allowed only for a released hold" ;!
      None
  | SessionLegalHoldReleased =>
      match lh_ReleasedBy hold, lh_ReleasedAt hold with
      | Some by_, Some at_ =>
          reject before at_ (lh_SetAt hold)
            with ValidationError "session_legal_hold.release" "must identify a monotonic release" ;!
          check UserID_Validate by_ ;!
          None
      | _, _ => Some (ValidationError "session_legal_hold.release" "must identify a monotonic release")
      end
  | SessionLegalHoldStateUnknown _ => Some (ValidationError "session_legal_hold.state" "is unknown")
  end.

Definition Release (p : option SessionLegalHold) (userID : string) (at_ : time)
  : option SessionLegalHold * option error :=
  match p with
  | None => (p, Some (ValidationError "session_legal_hold" "must not be nil"))
  | Some hold =>
      check SessionLegalHold_Validate hold leaving p ;!
      if bool_decide (lh_State hold = SessionLegalHoldReleased) then (p, None) else
      check UserID_Validate userID leaving p ;!
      reject before at_ (lh_SetAt hold)
        with ValidationError "session_legal_hold.released_at" "must not precede the hold" leaving p ;!
      (Some {| hold with lh_State := SessionLegalHoldReleased; lh_ReleasedBy := Some userID;
                         lh_ReleasedAt := Some at_ |}, None)
  end.

(** ** The inventory *)

Record SessionDeletionInventory := {
  inv_TenantID : string;
  inv_SessionID : string;
  inv_Objects : list BlobRef;
  inv_EventRows : Z;
  inv_SnapshotRows : Z;
  inv_MaterialCurrentRows : Z;
  inv_MaterialBoundaryRows : Z;
  inv_MaterialSnapshotRows : Z;
  inv_RunRows : Z;
  inv_ManifestRows : Z;
  inv_DeliveryRows : Z;
  inv_CheckpointRows : Z;
  inv_ReceiptRows : Z;
  inv_ParticipantRows : Z;
  inv_OwnedAdmissionRows : Z;
  inv_BindingRows : Z;
  inv_ProjectionRows : Z;
  inv_RetainedRows : Z;
  inv_RunIDs : list string;
  inv_TotalBytes : Z }.

(** The loop over the run ids; [seen] is the set of those before. *)
Fixpoint inventory_runs (seen : list string) (runs : list string) : option error :=
  match runs with
  | [] => None
  | runID :: rest =>
      check RunID_Validate runID ;!
      reject bool_decide (runID ∈ seen)
        with ValidationError "session_deletion.run_ids" "contains duplicates" ;!
      inventory_runs (runID :: seen) rest
  end.

Definition inventory_allowed (tenantID sessionID : string) (runs : list string) (ref : BlobRef) : bool :=
  fold_left (fun allowed runID => allowed || has_prefix (br_Key ref) (RunObjectPrefix tenantID runID)) runs
    (has_prefix (br_Key ref) (SessionObjectPrefix tenantID sessionID)).

(** The loop over the objects: [seen] the keys before, [bytes] the running sum.
    The error it stops with, or the final sum. *)
Fixpoint inventory_objects (tenantID sessionID : string) (runs seen : list string) (bytes : Z)
  (objects : list BlobRef) : error + Z :=
  match objects with
  | [] => inr bytes
  | ref :: rest =>
      match BlobRef_Validate ref with
      | Some e => inl e
      | None =>
          match EnsureSameTenant tenantID (br_TenantID ref) with
          | Some e => inl e
          | None =>
              if negb (inventory_allowed tenantID sessionID runs ref)
              then inl (ValidationError "session_deletion.objects"
                     ("must remain under " +:+ quoted (SessionObjectPrefix tenantID sessionID)
                      +:+ " or a proven legacy run prefix"))
              else if bool_decide (br_Key ref ∈ seen)
              then inl (ValidationError "session_deletion.objects" "contains duplicate object keys")
              else if wrap_u64 (br_Size ref) >? max_u64 - bytes
              then inl (ValidationError "session_deletion.total_bytes" "overflowed")
              else inventory_objects tenantID sessionID runs (br_Key ref :: seen)
                     (wrap_u64 (bytes + wrap_u64 (br_Size ref))) rest
          end
      end
  end.

Definition SessionDeletionInventory_Validate (inventory : SessionDeletionInventory) (maxObjects : Z)
  : option error :=
  check TenantID_Validate (inv_TenantID inventory) ;!
  check SessionID_Validate (inv_SessionID inventory) ;!
  reject (maxObjects =? 0) || (Z.of_nat (length (inv_Objects inventory)) >? maxObjects)
    with ValidationError "session_deletion.objects" "exceeds the configured exact-object bound" ;!
  check inventory_runs [] (inv_RunIDs inventory) ;!
  match inventory_objects (inv_TenantID inventory) (inv_SessionID inventory) (inv_RunIDs inventory)
          [] 0 (inv_Objects inventory) with
  | inl e => Some e
  | inr bytes =>
      reject negb (bytes =? inv_TotalBytes inventory)
        with ValidationError "session_deletion.total_bytes" "does not match exact object metadata" ;!
      None
  end.

Definition inventory_row_counts (i : SessionDeletionInventory) : list Z :=
  [inv_EventRows i; inv_SnapshotRows i; inv_MaterialCurrentRows i; inv_MaterialBoundaryRows i;
   inv_MaterialSnapshotRows i; inv_RunRows i; inv_ManifestRows i; inv_DeliveryRows i; inv_CheckpointRows i;
   inv_ReceiptRows i; inv_ParticipantRows i; inv_OwnedAdmissionRows i; inv_BindingRows i;
   inv_ProjectionRows i; inv_RetainedRows i].

Fixpoint sum_rows (n : Z) (l : list Z) : error + Z :=
  match l with
  | [] => inr n
  | v :: r => if v >? wrap_u64 (10000 - n) then inl retainedDeletionError else sum_rows (wrap_u64 (n + v)) r
  end.

Definition SessionDeletionInventoryRowsV1 (i : SessionDeletionInventory) : error + Z :=
  sum_rows 0 (inventory_row_counts i).

Definition json_blob (ref : BlobRef) : json :=
  JObj [("tenant_id", JStr (br_TenantID ref)); ("key", JStr (br_Key ref)); ("size", JNum (br_Size ref));
        ("sha256", JStr (br_SHA256 ref))].

(** A copy made by [append([]T(nil), ...)] is nil when it is empty. *)
Definition json_slice {A} (enc : A -> json) (l : list A) : json :=
  match l with [] => JNull | _ => JArr (map enc l) end.

Definition json_inventory (i : SessionDeletionInventory) : json :=
  JObj ([("tenant_id", JStr (inv_TenantID i)); ("session_id", JStr (inv_SessionID i));
         ("objects", json_slice json_blob (inv_Objects i));
         ("event_rows", JNum (inv_EventRows i)); ("snapshot_rows", JNum (inv_SnapshotRows i));
         ("material_current_rows", JNum (inv_MaterialCurrentRows i));
         ("material_boundary_rows", JNum (inv_MaterialBoundaryRows i));
         ("material_snapshot_rows", JNum (inv_MaterialSnapshotRows i));
         ("run_rows", JNum (inv_RunRows i)); ("manifest_rows", JNum (inv_ManifestRows i));
         ("delivery_rows", JNum (inv_DeliveryRows i)); ("checkpoint_rows", JNum (inv_CheckpointRows i));
         ("receipt_rows", JNum (inv_ReceiptRows i)); ("participant_rows", JNum (inv_ParticipantRows i));
         ("owned_admission_rows", JNum (inv_OwnedAdmissionRows i)); ("binding_rows", JNum (inv_BindingRows i));
         ("projection_rows", JNum (inv_ProjectionRows i))]
        ++ (if inv_RetainedRows i =? 0 then [] else [("retained_rows", JNum (inv_RetainedRows i))])
        ++ [("run_ids", json_slice JStr (inv_RunIDs i)); ("total_bytes", JNum (inv_TotalBytes i))]).

Definition key_lt (a b : BlobRef) : bool := String.ltb (br_Key a) (br_Key b).

Definition SessionDeletionInventoryDigestV1 (i : SessionDeletionInventory) : error + string :=
  if (Z.of_nat (length (inv_Objects i)) >? 10000) || (Z.of_nat (length (inv_RunIDs i)) >? 10000)
     || negb (inv_RunRows i =? Z.of_nat (length (inv_RunIDs i)))
  then inl retainedDeletionError
  else if notnil (SessionDeletionInventory_Validate i 10000) then inl retainedDeletionError
  else match SessionDeletionInventoryRowsV1 i with
       | inl e => inl e
       | inr _ =>
           inr (terminalHash ("sessionless.retained-deletion-inventory.v1" +:+ nul)
             (marshal (json_inventory {| i with inv_Objects := sort_by key_lt (inv_Objects i);
                                               inv_RunIDs := sort_by String.ltb (inv_RunIDs i) |})))
       end.

Definition ValidateInventory (v : RetainedDeletionVerificationV1) (d : SessionDeletion)
  (i : SessionDeletionInventory) : option error :=
  match SessionDeletionInventoryDigestV1 i, SessionDeletionInventoryRowsV1 i with
  | inr h, inr n =>
      reject notnil (ValidateForDeletion v d) || negb (String.eqb (rv_InventoryDigest v) h)
             || negb (rv_Rows v =? n) || negb (rv_Objects v =? Z.of_nat (length (inv_Objects i)))
             || negb (rv_Bytes v =? inv_TotalBytes i)
             || negb (String.eqb (inv_TenantID i) (sd_TenantID d))
             || negb (String.eqb (inv_SessionID i) (sd_SessionID d))
        with retainedDeletionError ;!
      None
  | _, _ => Some retainedDeletionError
  end.

(** ** The tombstone as a transition system *)

Inductive deletion_step : SessionDeletion -> SessionDeletion -> Prop :=
| step_start d at_ d' err : Start (Some d) at_ = (Some d', err) -> deletion_step d d'
| step_complete d at_ objects bytes d' err :
    Complete (Some d) at_ objects bytes = (Some d', err) -> deletion_step d d'.

(** The part of a tombstone that names the request. *)
Definition same_request (d d' : SessionDeletion) : Prop :=
  sd_TenantID d' = sd_TenantID d /\ sd_SessionID d' = sd_SessionID d /\
  sd_RequestedBy d' = sd_RequestedBy d /\ sd_Reason d' = sd_Reason d /\
  sd_RequestedAt d' = sd_RequestedAt d /\ sd_RetainedVerification d' = sd_RetainedVerification d.

Definition deletion_rank (d : SessionDeletion) : Z :=
  match sd_State d with
  | SessionDeletionRequested => 0 | SessionDeletionDeleting => 1 | SessionDeletionCompleted => 2
  | SessionDeletionStateUnknown _ => 3
  end.

(** What a step guarantees: the request is kept, the state only advances, and a
    completed tombstone is final. *)
Definition deletion_advances (d d' : SessionDeletion) : Prop :=
  same_request d d' /\ deletion_rank d <= deletion_rank d' /\
  (sd_State d = SessionDeletionCompleted -> d' = d).

Lemma deletion_advances_refl d : deletion_advances d d.
Proof. repeat split. lia. Qed.

Lemma deletion_advances_trans d1 d2 d3 :
  deletion_advances d1 d2 -> deletion_advances d2 d3 -> deletion_advances d1 d3.
Proof.
  intros [H1 [R1 F1]] [H2 [R2 F2]]. split; [| split; [lia |]].
  - unfold same_request in *. naive_solver congruence.
  - intros Hc. specialize (F1 Hc) as ->. auto.
Qed.

Lemma deletion_state_known d s :
  SessionDeletion_Validate d = None -> sd_State d <> SessionDeletionStateUnknown s.
Proof. unfold SessionDeletion_Validate. intros H Hs. rewrite Hs in H. peel H. done. Qed.

Lemma deletion_step_advances d d' : deletion_step d d' -> deletion_advances d d'.
Proof.
  intros [d0 at_ d0' err H | d0 at_ objects bytes d0' err H]; cbn in H;
    destruct (SessionDeletion_Validate d0) eqn:Hv;
    repeat case_match; simplify_eq; try apply deletion_advances_refl; b2p.
  all: split; [done |]; unfold deletion_rank; cbn; pose proof (deletion_state_known d0) as Hk;
    destruct (sd_State d0); first [split; [lia | naive_solver] | naive_solver].
Qed.

(** ** Validation lemmas *)

Lemma request_digest_same d d' :
  same_request d d' -> SessionDeletionRequestDigestV1 d' = SessionDeletionRequestDigestV1 d.
Proof.
  intros (Ht & Hs & Hb & Hr & Ha & _). unfold SessionDeletionRequestDigestV1.
  by rewrite Ht, Hs, Hb, Hr, Ha.
Qed.

(** The checks that do not depend on the progress of the deletion. *)
Definition request_checks (d : SessionDeletion) : Prop :=
  TenantID_Validate (sd_TenantID d) = None /\ SessionID_Validate (sd_SessionID d) = None /\
  UserID_Validate (sd_RequestedBy d) = None /\
  blank (sd_Reason d) || (len (sd_Reason d) >? 1024) = false /\ is_zero (sd_RequestedAt d) = false.

Lemma SessionDeletion_Validate_request d : SessionDeletion_Validate d = None -> request_checks d.
Proof. unfold SessionDeletion_Validate. intros H. peel H. done. Qed.

Lemma request_checks_same d d' : same_request d d' -> request_checks d -> request_checks d'.
Proof. intros (Ht & Hs & Hb & Hr & Ha & _). unfold request_checks. by rewrite Ht, Hs, Hb, Hr, Ha. Qed.

(** A valid requested tombstone has no verification and no execution results. *)
Lemma requested_valid d :
  SessionDeletion_Validate d = None -> sd_State d = SessionDeletionRequested ->
  sd_RetainedVerification d = None /\ sd_StartedAt d = None /\ sd_CompletedAt d = None.
Proof.
  unfold SessionDeletion_Validate. intros H Hst. peel H. rewrite Hst in H. peel H. b2p.
  destruct (sd_RetainedVerification d) as [v |].
  - unfold ValidateForDeletion in E5. rewrite Hst in E5.
    destruct (SessionDeletionRequestDigestV1 d); [done |].
    by rewrite bool_decide_true, orb_true_r in E5 by done.
  - destruct E6 as [[[Hs Hc] _] _]. unfold notnil in *. b2p.
    rewrite isnil_true in Hs, Hc. done.
Qed.

Lemma Start_valid d at_ d' :
  Start (Some d) at_ = (Some d', None) -> SessionDeletion_Validate d' = None.
Proof.
  cbn. intros H. peel_pair H. case_match; simplify_eq; [done |]. peel_pair H. simplify_eq. b2p.
  apply SessionDeletion_Validate_request in E as Hr.
  assert (sd_State d = SessionDeletionRequested) as Hst.
  { unfold SessionDeletion_Validate in E. peel E. destruct (sd_State d); naive_solver. }
  destruct (requested_valid d E Hst) as (Hv & Hs & Hc).
  destruct Hr as (Ht & Hsid & Hb & Hre & Ha). unfold SessionDeletion_Validate. cbn.
  rewrite Ht, Hsid, Hb, Hre, Ha, Hv, Hc. cbn. apply before_false in E0 as ->. done.
Qed.

Lemma valid_verification d v :
  SessionDeletion_Validate d = None -> sd_RetainedVerification d = Some v ->
  ValidateForDeletion v d = None.
Proof.
  unfold SessionDeletion_Validate. intros H Hv. rewrite Hv in H. peel H.
  unfold notnil in *. b2p. by apply isnil_true.
Qed.

Lemma completed_verification d v :
  SessionDeletion_Validate d = None -> sd_RetainedVerification d = Some v ->
  sd_State d = SessionDeletionCompleted ->
  sd_DeletedObjects d = rv_Objects v /\ sd_DeletedBytes d = rv_Bytes v.
Proof.
  intros Hd Hv Hst. pose proof (valid_verification d v Hd Hv) as H. unfold ValidateForDeletion in H.
  destruct (SessionDeletionRequestDigestV1 d); [done |]. rewrite Hst in H. peel H. b2p. naive_solver.
Qed.

(** Completing keeps the verification valid exactly when the counts agree. *)
Lemma completing_verification d v started at_ objects bytes :
  ValidateForDeletion v d = None -> sd_State d = SessionDeletionDeleting -> sd_StartedAt d = Some started ->
  ValidateForDeletion v {| d with sd_State := SessionDeletionCompleted; sd_CompletedAt := Some at_;
                                  sd_DeletedObjects := objects; sd_DeletedBytes := bytes |} = None <->
  objects = rv_Objects v /\ bytes = rv_Bytes v.
Proof.
  intros H Hdel Hsd. unfold ValidateForDeletion in H |- *.
  rewrite (request_digest_same d) by (repeat split).
  destruct (SessionDeletionRequestDigestV1 d); [done |]. peel H. cbn. rewrite Hsd, Hdel in *.
  rewrite (bool_decide_false (SessionDeletionDeleting = SessionDeletionRequested)) in E by done.
  rewrite (bool_decide_false (SessionDeletionCompleted = SessionDeletionRequested)), E by done.
  rewrite (bool_decide_true (SessionDeletionCompleted = SessionDeletionCompleted)) by done. cbn.
  destruct (objects =? rv_Objects v) eqn:Ho, (bytes =? rv_Bytes v) eqn:Hby; cbn; b2p; naive_solver.
Qed.

(** The record a completion writes is valid exactly when there is no retained
    verification, or the counts are the ones it committed to. *)
Lemma Complete_valid d at_ objects bytes d' :
  Complete (Some d) at_ objects bytes = (Some d', None) ->
  SessionDeletion_Validate d' = None <->
  match sd_RetainedVerification d with
  | None => True
  | Some v => objects = rv_Objects v /\ bytes = rv_Bytes v
  end.
Proof.
  cbn. intros H. peel_pair H. case_match eqn:Hst.
  - (* an exact replay of a completed deletion *)
    destruct (_ && _) eqn:Hq in H; simplify_eq. b2p. destruct Hq as [<- <-]. split; [| done]. intros _.
    destruct (sd_RetainedVerification d') as [v |] eqn:Hv; [| done]. by apply completed_verification.
  - peel_pair H. simplify_eq. b2p. destruct E0 as [Hdel Hstart].
    destruct (sd_StartedAt d) as [started |] eqn:Hsd; [| done]. b2p.
    pose proof (fun v => valid_verification d v E) as Hver.
    destruct (SessionDeletion_Validate_request d E) as (Ht & Hsid & Hb & Hre & Ha).
    unfold SessionDeletion_Validate in E |- *. cbn. rewrite Ht, Hsid, Hb, Hre, Ha in E |- *. rewrite Hsd in E. cbn in *.
    peel E. rewrite Hdel in E. peel E. b2p. destruct E2 as [Hq _].
    apply before_false in Hstart as ->. apply before_false in Hq as ->.
    destruct (sd_RetainedVerification d) as [v |] eqn:Hv; [| done].
    rewrite <- (completing_verification d v started at_ objects bytes); [| auto ..].
    cbn. unfold notnil. rewrite Hsd, Hv.
    match goal with |- context [isnil ?x] => destruct x end; cbn; split; done.
Qed.

(** ** Inventory lemmas *)

Fixpoint sizes (l : list BlobRef) : Z :=
  match l with [] => 0 | ref :: r => br_Size ref + sizes r end.

Lemma sizes_permutation l l' : Permutation l l' -> sizes l = sizes l'.
Proof. induction 1; cbn in *; lia. Qed.

Definition object_ok (tenantID sessionID : string) (runs : list string) (ref : BlobRef) : Prop :=
  BlobRef_Validate ref = None /\ EnsureSameTenant tenantID (br_TenantID ref) = None /\
  inventory_allowed tenantID sessionID runs ref = true.

Lemma inventory_allowed_spec tenantID sessionID runs ref :
  inventory_allowed tenantID sessionID runs ref = true <->
  has_prefix (br_Key ref) (SessionObjectPrefix tenantID sessionID) = true \/
  exists r, r ∈ runs /\ has_prefix (br_Key ref) (RunObjectPrefix tenantID r) = true.
Proof.
  unfold inventory_allowed. generalize (has_prefix (br_Key ref) (SessionObjectPrefix tenantID sessionID)).
  induction runs as [| r runs IH]; intros b; cbn.
  - split; [tauto |]. intros [? | (? & Hr & _)]; [done |]. by apply elem_of_nil in Hr.
  - rewrite IH, orb_true_iff. setoid_rewrite elem_of_cons. naive_solver.
Qed.

Lemma inventory_runs_nil runs : forall seen,
  inventory_runs seen runs = None <->
  Forall (fun r => RunID_Validate r = None) runs /\ NoDup runs /\ (forall r, r ∈ runs -> r ∉ seen).
Proof.
  induction runs as [| r runs IH]; intros seen; cbn.
  - split; [| done]. intros _. split_and!; [constructor | constructor |]. intros r Hr.
    by apply elem_of_nil in Hr.
  - rewrite Forall_cons, NoDup_cons. setoid_rewrite elem_of_cons.
    destruct (RunID_Validate r); [naive_solver |].
    case_bool_decide; [naive_solver |]. rewrite IH. setoid_rewrite elem_of_cons. naive_solver.
Qed.

Lemma object_size ref : BlobRef_Validate ref = None -> 0 <= br_Size ref.
Proof. intros H%BlobRef_Validate_nil. lia. Qed.

(** The object loop succeeds exactly when every object is acceptable, the keys are
    fresh and distinct, and the exact sum of the sizes fits; then it returns it. *)
Lemma inventory_objects_sum tenantID sessionID runs objects : forall seen bytes result,
  Forall (fun ref => br_Size ref <= max_i64) objects -> u64 bytes ->
  inventory_objects tenantID sessionID runs seen bytes objects = inr result <->
  Forall (object_ok tenantID sessionID runs) objects /\ NoDup (map br_Key objects) /\
  (forall ref, ref ∈ objects -> br_Key ref ∉ seen) /\
  result = bytes + sizes objects /\ bytes + sizes objects <= max_u64.
Proof.
  induction objects as [| ref objects IH]; intros seen bytes result Hi Hb; cbn.
  { split; [intros [= <-] | intros (_ & _ & _ & -> & _); f_equal; lia].
    split_and!; try constructor; [| lia | destruct Hb; lia].
    intros r Hr. by apply elem_of_nil in Hr. }
  apply Forall_cons in Hi as [Hr Hi].
  rewrite Forall_cons, NoDup_cons. setoid_rewrite elem_of_cons. unfold object_ok at 1.
  destruct (BlobRef_Validate ref) eqn:Hv; [naive_solver |].
  destruct (EnsureSameTenant tenantID (br_TenantID ref)); [naive_solver |].
  destruct (inventory_allowed tenantID sessionID runs ref); cbn; [| naive_solver].
  case_bool_decide as Hin; [naive_solver |].
  pose proof (object_size _ Hv) as Hpos.
  assert (forall l, Forall (object_ok tenantID sessionID runs) l -> 0 <= sizes l) as Hsz.
  { intros l. induction 1 as [| x l [Hx _] _ IHl]; cbn; [lia |]. apply object_size in Hx. lia. }
  unfold u64, max_u64, max_i64 in *. rewrite (wrap_u64_small (br_Size ref)) by (unfold u64, max_u64; lia).
  destruct (br_Size ref >? _) eqn:Hov; b2p.
  { split; [done |]. intros ([_ Hf] & _ & _ & _ & Hle). specialize (Hsz _ Hf). lia. }
  rewrite wrap_u64_small by (unfold u64, max_u64; lia). rewrite IH by (done || lia).
  setoid_rewrite elem_of_cons. rewrite list_elem_of_fmap. split.
  - intros (Hf & Hnd & Hfr & -> & Hle). split_and!; try done; [naive_solver | naive_solver | lia | lia].
  - intros ([_ Hf] & [Hk Hnd] & Hfr & -> & Hle). split_and!; try done; [naive_solver | lia | lia].
Qed.

(** What an accepted inventory says. *)
Definition inventory_accepted (i : SessionDeletionInventory) (maxObjects : Z) : Prop :=
  TenantID_Validate (inv_TenantID i) = None /\ SessionID_Validate (inv_SessionID i) = None /\
  maxObjects <> 0 /\ Z.of_nat (length (inv_Objects i)) <= maxObjects /\
  Forall (fun r => RunID_Validate r = None) (inv_RunIDs i) /\ NoDup (inv_RunIDs i) /\
  Forall (object_ok (inv_TenantID i) (inv_SessionID i) (inv_RunIDs i)) (inv_Objects i) /\
  NoDup (map br_Key (inv_Objects i)) /\
  inv_TotalBytes i = sizes (inv_Objects i) /\ sizes (inv_Objects i) <= max_u64.

Lemma inventory_validate_iff i maxObjects :
  Forall (fun ref => br_Size ref <= max_i64) (inv_Objects i) ->
  SessionDeletionInventory_Validate i maxObjects = None <-> inventory_accepted i maxObjects.
Proof.
  intros Hi. unfold SessionDeletionInventory_Validate, inventory_accepted.
  destruct (TenantID_Validate _); [naive_solver |]. destruct (SessionID_Validate _); [naive_solver |].
  destruct (_ || _) eqn:Hm; b2p; [naive_solver lia |].
  destruct (inventory_runs [] (inv_RunIDs i)) eqn:Hr.
  { split; [done |]. intros (_ & _ & _ & _ & Hf & Hnd & _).
    rewrite (proj2 (inventory_runs_nil _ [])) in Hr; [done |]. split_and!; try done.
    intros r _. apply not_elem_of_nil. }
  apply inventory_runs_nil in Hr as (Hf & Hnd & _).
  pose proof (inventory_objects_sum (inv_TenantID i) (inv_SessionID i) (inv_RunIDs i) (inv_Objects i)
                [] 0) as Hs.
  destruct (inventory_objects _ _ _ _ _ _) as [e | b].
  { split; [done |]. intros (_ & _ & _ & _ & _ & _ & Ho & Hk & _ & Hle).
    destruct (Hs (sizes (inv_Objects i)) Hi ltac:(unfold u64, max_u64; lia)) as [_ Hc].
    discriminate Hc. split_and!; try done. intros. apply not_elem_of_nil. }
  destruct (proj1 (Hs b Hi ltac:(unfold u64, max_u64; lia)) eq_refl) as (Ho & Hk & _ & -> & Hle).
  destruct (0 + _ =? _) eqn:Hb; b2p; [| naive_solver lia].
  split; [| done]. intros _. split_and!; try done; lia.
Qed.

Lemma inventory_accepted_permutation i objects runs maxObjects :
  Permutation (inv_Objects i) objects -> Permutation (inv_RunIDs i) runs ->
  inventory_accepted i maxObjects ->
  inventory_accepted {| i with inv_Objects := objects; inv_RunIDs := runs |} maxObjects.
Proof.
  intros Ho Hr (? & ? & ? & ? & Hf & Hnd & Hok & Hk & ? & ?). unfold inventory_accepted. cbn.
  rewrite <- (sizes_permutation _ _ Ho). split_and!; try done.
  - by rewrite <- (Permutation_length Ho).
  - by rewrite <- Hr.
  - by rewrite <- Hr.
  - rewrite <- Ho. eapply Forall_impl; [exact Hok |]. intros ref (? & ? & Ha). split_and!; try done.
    apply inventory_allowed_spec in Ha. apply inventory_allowed_spec. by setoid_rewrite <- Hr.
  - by rewrite <- Ho.
Qed.

Lemma key_lt_strict : strict key_lt.
Proof.
  destruct string_lt_strict as [Hi Ht]. unfold strict, key_lt. split; [auto |]. intros x y z. apply Ht.
Qed.

Lemma key_lt_total l : NoDup (map br_Key l) -> total_on key_lt l.
Proof.
  intros Hnd x y Hx Hy. unfold key_lt. destruct (string_lt_total (br_Key x) (br_Key y)) as [Hq | ?]; [| tauto].
  left. apply list_elem_of_lookup in Hx as [i Hx]. apply list_elem_of_lookup in Hy as [j Hy].
  assert (i = j) as <-; [| congruence].
  eapply NoDup_lookup; [exact Hnd | |]; rewrite list_lookup_fmap; [by rewrite Hx | by rewrite Hy; cbn; f_equal].
Qed.

(** ** Properties *)

Module LifecycleSample.
Definition t0 : time := mkTime (63000000000 * second) UTC.
Definition t1 : time := add t0 minute.
Definition t2 : time := add t1 minute.

Definition deletion : SessionDeletion :=
  {| sd_TenantID := "acme"; sd_SessionID := "s1"; sd_RequestedBy := "ada"; sd_Reason := "erasure request";
     sd_State := SessionDeletionRequested; sd_RequestedAt := t0; sd_StartedAt := None; sd_CompletedAt := None;
     sd_DeletedObjects := 0; sd_DeletedBytes := 0; sd_RetainedVerification := None |}.

Definition blob (key : string) (size : Z) : BlobRef :=
  {| br_TenantID := "acme"; br_Key := key; br_Size := size;
     br_SHA256 := "ba7816bf8f01cfea414140de5dae2223b00361a396177a9cb410ff61f20015ad" |}.

Definition objects : list BlobRef :=
  [blob "tenants/acme/sessions/s1/events/e1/body" 10; blob "tenants/acme/runs/r1/out" 5].

Definition inventory : SessionDeletionInventory :=
  {| inv_TenantID := "acme"; inv_SessionID := "s1"; inv_Objects := objects; inv_EventRows := 1;
     inv_SnapshotRows := 0; inv_MaterialCurrentRows := 1; inv_MaterialBoundaryRows := 1;
     inv_MaterialSnapshotRows := 0; inv_RunRows := 1; inv_ManifestRows := 0; inv_DeliveryRows := 0;
     inv_CheckpointRows := 0; inv_ReceiptRows := 0; inv_ParticipantRows := 1; inv_OwnedAdmissionRows := 0;
     inv_BindingRows := 0; inv_ProjectionRows := 0; inv_RetainedRows := 0; inv_RunIDs := ["r1"];
     inv_TotalBytes := 15 |}.
End LifecycleSample.

(** Along any sequence of [Start] and [Complete] calls, failing calls included, a
    deletion tombstone keeps its request (tenant, session, requester, reason, time),
    its state only advances from requested to deleting to completed, and a completed
    tombstone never changes again. *)
Theorem deletion_tombstone_monotone d d' : rtc deletion_step d d' -> deletion_advances d d'.
Proof.
  induction 1 as [d | d d1 d' Hs _ IH]; [apply deletion_advances_refl |].
  eapply deletion_advances_trans; [by apply deletion_step_advances | done].
Qed.

Lemma deletion_tombstone_monotone_witness :
  deletion_advances LifecycleSample.deletion
    {| LifecycleSample.deletion with sd_State := SessionDeletionDeleting;
                                     sd_StartedAt := Some LifecycleSample.t1 |}.
Proof.
  apply deletion_tombstone_monotone. eapply rtc_l; [| apply rtc_refl].
  apply (step_start _ LifecycleSample.t1 _ None). vm_compute. reflexivity.
Defined.

(** A successful [Start] leaves a valid tombstone; a successful [Complete] leaves a
    valid one exactly when the deletion carries no retained verification or the counts
    are those the verification committed to. *)
Theorem deletion_progress_valid d at_ d' :
  (Start (Some d) at_ = (Some d', None) -> SessionDeletion_Validate d' = None) /\
  (forall objects bytes, Complete (Some d) at_ objects bytes = (Some d', None) ->
     SessionDeletion_Validate d' = None <->
     match sd_RetainedVerification d with
     | None => True
     | Some v => objects = rv_Objects v /\ bytes = rv_Bytes v
     end).
Proof. split; [apply Start_valid | intros; by eapply Complete_valid]. Qed.

Lemma deletion_progress_valid_witness :
  exists d', Start (Some LifecycleSample.deletion) LifecycleSample.t1 = (Some d', None) /\
             SessionDeletion_Validate d' = None.
Proof.
  eexists. split; [vm_compute; reflexivity |].
  apply (deletion_progress_valid LifecycleSample.deletion LifecycleSample.t1). vm_compute. reflexivity.
Defined.

(** An inventory of [int64]-sized objects is accepted exactly when its identifiers
    are valid, the objects are within the bound, the runs and the object keys are
    distinct, every object is a valid blob of the tenant under the session's prefix or
    the prefix of a listed run, and the declared total is the exact sum of the sizes
    and fits a [uint64]. *)
Theorem inventory_validate_exact i maxObjects :
  Forall (fun ref => br_Size ref <= max_i64) (inv_Objects i) ->
  SessionDeletionInventory_Validate i maxObjects = None <-> inventory_accepted i maxObjects.
Proof. apply inventory_validate_iff. Qed.

Lemma inventory_validate_exact_witness : inventory_accepted LifecycleSample.inventory 100.
Proof.
  apply inventory_validate_exact; [repeat constructor; vm_compute; discriminate | vm_compute; reflexivity].
Defined.

(** The inventory commitment does not depend on the order in which the objects and
    the runs are listed. *)
Theorem inventory_digest_order_independent i objects runs :
  Forall (fun ref => br_Size ref <= max_i64) (inv_Objects i) ->
  Permutation (inv_Objects i) objects -> Permutation (inv_RunIDs i) runs ->
  SessionDeletionInventoryDigestV1 {| i with inv_Objects := objects; inv_RunIDs := runs |}
  = SessionDeletionInventoryDigestV1 i.
Proof.
  intros Hi Ho Hr. unfold SessionDeletionInventoryDigestV1. cbn.
  rewrite <- (Permutation_length Ho), <- (Permutation_length Hr).
  destruct (_ || _); [done |]. unfold SessionDeletionInventoryRowsV1. cbn.
  assert (forall x : option error, {x = None} + {notnil x = true}) as dec by (intros []; eauto).
  destruct (dec (SessionDeletionInventory_Validate i 10000)) as [Hv | Hv].
  - apply inventory_validate_iff in Hv as Ha; [| done].
    rewrite (proj2 (inventory_validate_iff _ _ (Permutation_Forall Ho Hi : Forall _ (inv_Objects {| i with inv_Objects := objects; inv_RunIDs := runs |})))
               (inventory_accepted_permutation i objects runs _ Ho Hr Ha)), Hv.
    destruct Ha as (_ & _ & _ & _ & _ & Hnr & _ & Hnk & _).
    rewrite (sort_by_unique key_lt (inv_Objects i) objects);
      [| apply key_lt_strict | by apply key_lt_total | by apply NoDup_fmap_1 in Hnk | done].
    rewrite (sort_by_unique String.ltb (inv_RunIDs i) runs); [done | apply string_lt_strict | | done | done].
    intros x y _ _. apply string_lt_total.
  - rewrite Hv. destruct (dec (SessionDeletionInventory_Validate
      {| i with inv_Objects := objects; inv_RunIDs := runs |} 10000)) as [Hv' | Hv']; [| by rewrite Hv'].
    apply inventory_validate_iff in Hv'; [| by eapply Permutation_Forall].
    apply (inventory_accepted_permutation _ (inv_Objects i) (inv_RunIDs i)) in Hv'; [| done ..].
    apply (proj2 (inventory_validate_iff i 10000 Hi)) in Hv'. by rewrite Hv' in Hv.
Qed.

Lemma inventory_digest_order_independent_witness :
  SessionDeletionInventoryDigestV1
    {| LifecycleSample.inventory with inv_Objects := rev LifecycleSample.objects; inv_RunIDs := ["r1"] |}
  = SessionDeletionInventoryDigestV1 LifecycleSample.inventory.
Proof.
  apply inventory_digest_order_independent;
    [repeat constructor; vm_compute; discriminate | apply perm_swap | reflexivity].
Defined.
