(* ===== verification/Custody.v ===== *)
(** * Retained execution metadata of a run

    The physical scope of an attempt ([internal/domain/attempt_operation.go]), the
    derived-context inventory ([run_derived_context.go]), the terminal custody plan
    and correspondence ([run_terminal_custody.go]) and the local execution evidence
    ([owned_execution_evidence.go]): the records, their validation, object keys and
    digests.  The JSON decoders of these records are not modelled. *)

From S2P Require Import Prelude GoText GoTime Sha256 Json Digests Errors Identity Blobs Lifecycle.
#[local] Open Scope Z_scope.

(** ** The scope of a physical invocation *)

Definition validateSHA256 (field value : string) : option error :=
  reject negb (len value =? 64)
    with ValidationError field "must be a lowercase 64-character SHA-256 digest" ;!
  reject negb (all_bytes is_lower_hex value)
    with ValidationError field "must be a lowercase 64-character SHA-256 digest" ;!
  None.

Definition operationError (field reason : string) : error := ValidationError ("attempt_operation." +:+ field) reason.

Record AttemptOperationScopeV1 := {
  os_TenantID : string;
  os_SessionID : string;
  os_OwnerUserID : string;
  os_RunID : string;
  os_AttemptID : string;
  os_LeaseID : string;
  os_FenceToken : Z;
  os_PhysicalInvocationClaimID : string;
  os_EffectReservationDigest : string;
  os_InvocationAuthorityDigest : string;
  os_HarnessBindingDigest : string;
  os_AgentLoopPolicyDigest : string }.

#[global] Instance AttemptOperationScopeV1_eq_dec : EqDecision AttemptOperationScopeV1.
Proof. solve_decision. Defined.

Definition AttemptOperationScopeV1_Validate (v : AttemptOperationScopeV1) : option error :=
  check TenantID_Validate (os_TenantID v) ;!
  check SessionID_Validate (os_SessionID v) ;!
  check UserID_Validate (os_OwnerUserID v) ;!
  check RunID_Validate (os_RunID v) ;!
  check AttemptID_Validate (os_AttemptID v) ;!
  check LeaseID_Validate (os_LeaseID v) ;!
  check validateSHA256 "attempt_effect_reservation_digest" (os_EffectReservationDigest v) ;!
  check validateSHA256 "serverless_invocation_authority_digest" (os_InvocationAuthorityDigest v) ;!
  check validateSHA256 "harness_binding_digest" (os_HarnessBindingDigest v) ;!
  check validateSHA256 "agent_loop_policy_digest" (os_AgentLoopPolicyDigest v) ;!
  reject os_FenceToken v =? 0 with operationError "scope.fence_token" "must be positive" ;!
  ValidateOpaqueID "attempt_operation.scope.physical_invocation_claim_id" (os_PhysicalInvocationClaimID v).

Definition json_scope (v : AttemptOperationScopeV1) : json :=
  JObj [("tenant_id", JStr (os_TenantID v)); ("session_id", JStr (os_SessionID v));
        ("owner_user_id", JStr (os_OwnerUserID v)); ("run_id", JStr (os_RunID v));
        ("attempt_id", JStr (os_AttemptID v)); ("lease_id", JStr (os_LeaseID v));
        ("fence_token", JNum (os_FenceToken v));
        ("physical_invocation_claim_id", JStr (os_PhysicalInvocationClaimID v));
        ("effect_reservation_digest", JStr (os_EffectReservationDigest v));
        ("invocation_authority_digest", JStr (os_InvocationAuthorityDigest v));
        ("harness_binding_digest", JStr (os_HarnessBindingDigest v));
        ("agent_loop_policy_digest", JStr (os_AgentLoopPolicyDigest v))].

(** ** Derived context *)

Definition MaxRunDerivedContextBytesV1 : Z := 32768.

Record DerivedContextPlanV1 := {
  dp_Version : Z;
  dp_Scope : AttemptOperationScopeV1;
  dp_Generation : Z;
  dp_OperationSequence : Z;
  dp_ReservationDigest : string;
  dp_ObservationDigest : string;
  dp_NormalizedResponseDigest : string;
  dp_SourceViewDigest : string;
  dp_Summary : BlobRef;
  dp_Manifest : BlobRef }.

Record DerivedContextHeadV1 := { dh_Version : Z; dh_PlanDigest : string }.

Record RunDerivedContextV1 := {
  dc_Version : Z;
  dc_Inventory : list DerivedContextPlanV1;
  dc_Head : option DerivedContextHeadV1 }.

Definition derivedContextError : error :=
  ValidationError "run.derived_context"
    "requires closed bounded original-scope metadata and exact retained-object identities".

Definition derivedScopeValid (scope : AttemptOperationScopeV1) : bool :=
  forallb (fun id => negb ((len id =? 0) || (len id >? 160)))
    [os_TenantID scope; os_SessionID scope; os_OwnerUserID scope; os_RunID scope; os_AttemptID scope;
     os_LeaseID scope; os_PhysicalInvocationClaimID scope] &&
  forallb derivedDigestValid
    [os_EffectReservationDigest scope; os_InvocationAuthorityDigest scope; os_HarnessBindingDigest scope;
     os_AgentLoopPolicyDigest scope] &&
  isnil (AttemptOperationScopeV1_Validate scope).

Definition DerivedContextObjectKeyV1 (scope : AttemptOperationScopeV1) (generation : Z) (kind digest : string)
  : error + string :=
  if negb (derivedScopeValid scope) || (generation <? 1) || (generation >? 2)
     || (negb (String.eqb kind "summary") && negb (String.eqb kind "manifest")) || negb (derivedDigestValid digest)
  then inl derivedContextError
  else inr (SessionRunObjectPrefix (os_TenantID scope) (os_SessionID scope) (os_RunID scope)
            +:+ "derived-context-v1/"
            +:+ sha256_hex ("sessionless.derived-context-scope.v1" +:+ nul +:+ marshal (json_scope scope))
            +:+ "/" +:+ format_int generation +:+ "/" +:+ kind +:+ "/sha256/" +:+ digest +:+ ".json").

(** One object of the loop over the summary and the manifest. *)
Definition plan_object (p : DerivedContextPlanV1) (kind : string) (ref : BlobRef) (max : Z) : bool :=
  negb ((len (br_Key ref) =? 0) || (len (br_Key ref) >? 1024)
        || negb (String.eqb (br_TenantID ref) (os_TenantID (dp_Scope p)))
        || (br_Size ref <=? 0) || (br_Size ref >? max) || negb (derivedDigestValid (br_SHA256 ref))) &&
  match DerivedContextObjectKeyV1 (dp_Scope p) (dp_Generation p) kind (br_SHA256 ref) with
  | inl _ => false
  | inr key => String.eqb (br_Key ref) key && isnil (BlobRef_Validate ref)
  end.

Definition DerivedContextPlanV1_Validate (p : DerivedContextPlanV1) : option error :=
  reject negb (dp_Version p =? 1) || negb (derivedScopeValid (dp_Scope p)) || (dp_Generation p <? 1)
         || (dp_Generation p >? 2) || (dp_OperationSequence p <? 1) || (dp_OperationSequence p >? 12)
    with derivedContextError ;!
  reject negb (forallb derivedDigestValid
                 [dp_ReservationDigest p; dp_ObservationDigest p; dp_NormalizedResponseDigest p;
                  dp_SourceViewDigest p])
    with derivedContextError ;!
  reject negb (plan_object p "summary" (dp_Summary p) 32768 && plan_object p "manifest" (dp_Manifest p) 131072)
    with derivedContextError ;!
  None.

Definition json_plan (p : DerivedContextPlanV1) : json :=
  JObj [("version", JNum (dp_Version p)); ("scope", json_scope (dp_Scope p)); ("generation", JNum (dp_Generation p));
        ("operation_sequence", JNum (dp_OperationSequence p));
        ("reservation_digest", JStr (dp_ReservationDigest p)); ("observation_digest", JStr (dp_ObservationDigest p));
        ("normalized_response_digest", JStr (dp_NormalizedResponseDigest p));
        ("source_view_digest", JStr (dp_SourceViewDigest p));
        ("summary", json_blob (dp_Summary p)); ("manifest", json_blob (dp_Manifest p))].

Definition DerivedContextPlanV1_Digest (p : DerivedContextPlanV1) : error + string :=
  if notnil (DerivedContextPlanV1_Validate p) then inl derivedContextError
  else inr (sha256_hex ("sessionless.derived-context-plan.v1" +:+ nul +:+ marshal (json_plan p))).

(** One plan of the inventory, after [previous] (none for the first). *)
Definition inventory_plan (first : DerivedContextPlanV1) (previous : option DerivedContextPlanV1)
  (p : DerivedContextPlanV1) : bool :=
  isnil (DerivedContextPlanV1_Validate p) &&
  String.eqb (os_TenantID (dp_Scope p)) (os_TenantID (dp_Scope first)) &&
  String.eqb (os_SessionID (dp_Scope p)) (os_SessionID (dp_Scope first)) &&
  String.eqb (os_RunID (dp_Scope p)) (os_RunID (dp_Scope first)) &&
  String.eqb (os_OwnerUserID (dp_Scope p)) (os_OwnerUserID (dp_Scope first)) &&
  match previous with
  | None => dp_Generation p =? 1
  | Some previous =>
      (if String.eqb (os_AttemptID (dp_Scope p)) (os_AttemptID (dp_Scope previous))
       then bool_decide (dp_Scope p = dp_Scope previous)
            && (dp_Generation p =? wrap_u64 (dp_Generation previous + 1))
            && negb (dp_OperationSequence p <=? dp_OperationSequence previous)
       else dp_Generation p =? 1) &&
      negb (String.eqb (br_Key (dp_Summary p)) (br_Key (dp_Summary previous))
            || String.eqb (br_Key (dp_Manifest p)) (br_Key (dp_Manifest previous))
            || String.eqb (br_Key (dp_Summary p)) (br_Key (dp_Manifest previous))
            || String.eqb (br_Key (dp_Manifest p)) (br_Key (dp_Summary previous)))
  end.

Fixpoint inventory_plans (first : DerivedContextPlanV1) (previous : option DerivedContextPlanV1)
  (l : list DerivedContextPlanV1) : bool :=
  match l with
  | [] => true
  | p :: rest => inventory_plan first previous p && inventory_plans first (Some p) rest
  end.

(** The plans whose digest the head selects; an error when a digest fails. *)
Fixpoint head_matches (digest : string) (l : list DerivedContextPlanV1) : option Z :=
  match l with
  | [] => Some 0
  | p :: rest =>
      match DerivedContextPlanV1_Digest p, head_matches digest rest with
      | inr d, Some n => Some (if String.eqb d digest then n + 1 else n)
      | _, _ => None
      end
  end.

Definition RunDerivedContextV1_Validate (v : RunDerivedContextV1) : option error :=
  match dc_Inventory v with
  | [] => Some derivedContextError
  | first :: _ =>
      reject negb (dc_Version v =? 1) || (Z.of_nat (length (dc_Inventory v)) >? 2) with derivedContextError ;!
      reject negb (inventory_plans first None (dc_Inventory v)) with derivedContextError ;!
      match dc_Head v with
      | None => None
      | Some head =>
          reject negb (dh_Version head =? 1) || negb (derivedDigestValid (dh_PlanDigest head))
            with derivedContextError ;!
          reject negb (bool_decide (head_matches (dh_PlanDigest head) (dc_Inventory v) = Some 1))
            with derivedContextError ;!
          None
      end
  end.

Definition json_head (h : DerivedContextHeadV1) : json :=
  JObj [("version", JNum (dh_Version h)); ("plan_digest", JStr (dh_PlanDigest h))].

Definition json_derived (v : RunDerivedContextV1) : json :=
  JObj ([("version", JNum (dc_Version v)); ("inventory", JArr (map json_plan (dc_Inventory v)))]
        ++ omitempty "head" json_head (dc_Head v)).

(** [EqualRunDerivedContextV1]: valid, bounded and with the same encoding. *)
Definition EqualRunDerivedContextV1 (left right : option RunDerivedContextV1) : bool :=
  match left, right with
  | None, None => true
  | Some l, Some r =>
      let a := marshal (json_derived l) in
      let b := marshal (json_derived r) in
      isnil (RunDerivedContextV1_Validate l) && isnil (RunDerivedContextV1_Validate r) &&
      (len a <=? MaxRunDerivedContextBytesV1) && (len b <=? MaxRunDerivedContextBytesV1) && String.eqb a b
  | _, _ => false
  end.

(** ** Terminal custody *)

Definition MaxRunTerminalCustodyBytesV1 : Z := 32768.
Definition MaxTerminalCapsuleBytesV1 : Z := 524288.

Record TerminalCustodyPlanV1 := {
  cp_Scope : AttemptOperationScopeV1;
  cp_Capsule : BlobRef;
  cp_FrontierDigest : string }.

#[global] Instance TerminalCustodyPlanV1_eq_dec : EqDecision TerminalCustodyPlanV1.
Proof. solve_decision. Defined.

Record TerminalCorrespondenceV1 := {
  tc_Version : Z;
  tc_CapsuleDigest : string;
  tc_TerminalAssistantEventID : string;
  tc_CanonicalEventsDigest : string;
  tc_DerivedContextDigest : string;
  tc_AccountingDispositionDigest : string }.

Definition terminalCustodyError : error :=
  ValidationError "run.terminal_custody" "requires closed bounded retained identities and exact original scope".

Definition TerminalCustodyObjectKeyV1 (scope : AttemptOperationScopeV1) (capsuleSHA256 : string) : error + string :=
  if negb (derivedScopeValid scope) || negb (derivedDigestValid capsuleSHA256) then inl terminalCustodyError
  else inr (SessionRunObjectPrefix (os_TenantID scope) (os_SessionID scope) (os_RunID scope)
            +:+ "terminal-custody-v1/"
            +:+ terminalHash ("sessionless.terminal-custody-scope.v1" +:+ nul) (marshal (json_scope scope))
            +:+ "/sha256/" +:+ capsuleSHA256 +:+ ".json").

Definition TerminalCustodyPlanV1_Validate (p : TerminalCustodyPlanV1) : option error :=
  let capsule := cp_Capsule p in
  reject negb (derivedScopeValid (cp_Scope p)) || negb (derivedDigestValid (cp_FrontierDigest p))
         || (len (br_Key capsule) =? 0) || (len (br_Key capsule) >? 1024)
         || negb (String.eqb (br_TenantID capsule) (os_TenantID (cp_Scope p)))
         || (br_Size capsule <=? 0) || (br_Size capsule >? MaxTerminalCapsuleBytesV1)
         || negb (derivedDigestValid (br_SHA256 capsule)) || notnil (BlobRef_Validate capsule)
    with terminalCustodyError ;!
  match TerminalCustodyObjectKeyV1 (cp_Scope p) (br_SHA256 capsule) with
  | inl _ => Some terminalCustodyError
  | inr key => reject negb (String.eqb (br_Key capsule) key) with terminalCustodyError ;! None
  end.

(** [json.Marshal] of a nil pointer is [null]. *)
Definition TerminalDerivedContextDigestV1 (metadata : option RunDerivedContextV1) : error + string :=
  let body := match metadata with None => "null" | Some m => marshal (json_derived m) end in
  if match metadata with None => false | Some m => notnil (RunDerivedContextV1_Validate m) end
  then inl terminalCustodyError
  else if len body >? MaxRunDerivedContextBytesV1 then inl terminalCustodyError
  else inr (terminalHash ("sessionless.terminal-derived-context.v1" +:+ nul) body).

(** ** Local execution evidence *)

Record LocalExecutionEvidenceV1 := {
  le_Version : Z;
  le_Scope : AttemptOperationScopeV1;
  le_ParentDigest : string;
  le_SourceDigest : string;
  le_ProfileDigest : string;
  le_OriginalAllocationDigest : string;
  le_RetiredAllocationDigest : string;
  le_FrontierDigest : string;
  le_Capsule : BlobRef;
  le_ResidualInventoryDigest : string;
  le_ResidualReceiptDigest : string;
  le_AccountingDispositionDigest : string;
  le_StoppedAt : time;
  le_RetiredAt : time;
  le_ErasedAt : time;
  le_EvidenceDigest : string }.

Definition ownedExecutionEvidenceError : error :=
  ValidationError "execution_evidence.v2" "requires a closed bounded exact original execution evidence arm".

(** A time the evidence accepts: UTC, whole microseconds, a four-digit year. *)
Definition evidence_time (t : time) : bool :=
  negb (is_zero t || (year t <? 1) || (year t >? 9999) || negb (bool_decide (loc t = UTC))
        || negb (nanosecond t mod 1000 =? 0)).

Definition validateContent (v : LocalExecutionEvidenceV1) : option error :=
  reject negb (le_Version v =? 1)
         || notnil (TerminalCustodyPlanV1_Validate
                      {| cp_Scope := le_Scope v; cp_Capsule := le_Capsule v; cp_FrontierDigest := le_FrontierDigest v |})
    with ownedExecutionEvidenceError ;!
  reject negb (forallb derivedDigestValid
                 [le_ParentDigest v; le_SourceDigest v; le_ProfileDigest v; le_OriginalAllocationDigest v;
                  le_RetiredAllocationDigest v; le_ResidualInventoryDigest v; le_ResidualReceiptDigest v;
                  le_AccountingDispositionDigest v])
    with ownedExecutionEvidenceError ;!
  reject String.eqb (le_OriginalAllocationDigest v) (le_RetiredAllocationDigest v)
    with ownedExecutionEvidenceError ;!
  reject negb (forallb evidence_time [le_StoppedAt v; le_RetiredAt v; le_ErasedAt v])
    with ownedExecutionEvidenceError ;!
  reject before (le_RetiredAt v) (le_StoppedAt v) || before (le_ErasedAt v) (le_RetiredAt v)
    with ownedExecutionEvidenceError ;!
  None.

(** The members of the evidence before its own digest. *)
Definition json_evidence_content (v : LocalExecutionEvidenceV1) : list (string * json) :=
  [("version", JNum (le_Version v)); ("scope", json_scope (le_Scope v));
   ("parent_digest", JStr (le_ParentDigest v)); ("source_digest", JStr (le_SourceDigest v));
   ("profile_digest", JStr (le_ProfileDigest v));
   ("original_allocation_digest", JStr (le_OriginalAllocationDigest v));
   ("retired_allocation_digest", JStr (le_RetiredAllocationDigest v));
   ("frontier_digest", JStr (le_FrontierDigest v)); ("capsule", json_blob (le_Capsule v));
   ("residual_inventory_digest", JStr (le_ResidualInventoryDigest v));
   ("residual_receipt_digest", JStr (le_ResidualReceiptDigest v));
   ("accounting_disposition_digest", JStr (le_AccountingDispositionDigest v));
   ("stopped_at", JTime (le_StoppedAt v)); ("retired_at", JTime (le_RetiredAt v));
   ("erased_at", JTime (le_ErasedAt v))].

Definition LocalExecutionEvidenceV1_Digest (v : LocalExecutionEvidenceV1) : error + string :=
  if notnil (validateContent v) then inl ownedExecutionEvidenceError
  else inr (terminalHash ("sessionless.local-execution-evidence.v1" +:+ nul)
              (marshal (JObj (json_evidence_content v)))).

Definition LocalExecutionEvidenceV1_Validate (v : LocalExecutionEvidenceV1) : option error :=
  reject negb (derivedDigestValid (le_EvidenceDigest v)) with ownedExecutionEvidenceError ;!
  match LocalExecutionEvidenceV1_Digest v with
  | inl _ => Some ownedExecutionEvidenceError
  | inr d => reject negb (String.eqb d (le_EvidenceDigest v)) with ownedExecutionEvidenceError ;! None
  end.

Record RunTerminalCustodyV1 := {
  tk_Version : Z;
  tk_Plan : TerminalCustodyPlanV1;
  tk_Correspondence : option TerminalCorrespondenceV1;
  tk_LocalEvidence : option LocalExecutionEvidenceV1 }.

Definition correspondence_valid (v : RunTerminalCustodyV1) (c : TerminalCorrespondenceV1) : bool :=
  negb (negb (tc_Version c =? 1) || (len (tc_TerminalAssistantEventID c) =? 0)
        || (len (tc_TerminalAssistantEventID c) >? 160)
        || notnil (SessionEventID_Validate (tc_TerminalAssistantEventID c))
        || negb (String.eqb (tc_CapsuleDigest c) (br_SHA256 (cp_Capsule (tk_Plan v))))) &&
  forallb derivedDigestValid
    [tc_CapsuleDigest c; tc_CanonicalEventsDigest c; tc_DerivedContextDigest c; tc_AccountingDispositionDigest c].

Definition evidence_valid (v : RunTerminalCustodyV1) (e : LocalExecutionEvidenceV1) : bool :=
  match tk_Correspondence v with
  | None => false
  | Some c =>
      isnil (LocalExecutionEvidenceV1_Validate e) && bool_decide (le_Scope e = cp_Scope (tk_Plan v)) &&
      bool_decide (le_Capsule e = cp_Capsule (tk_Plan v)) &&
      String.eqb (le_FrontierDigest e) (cp_FrontierDigest (tk_Plan v)) &&
      String.eqb (le_AccountingDispositionDigest e) (tc_AccountingDispositionDigest c)
  end.

Definition RunTerminalCustodyV1_Validate (v : RunTerminalCustodyV1) : option error :=
  reject negb (tk_Version v =? 1) || notnil (TerminalCustodyPlanV1_Validate (tk_Plan v))
    with terminalCustodyError ;!
  reject match tk_Correspondence v with Some c => negb (correspondence_valid v c) | None => false end
    with terminalCustodyError ;!
  reject match tk_LocalEvidence v with Some e => negb (evidence_valid v e) | None => false end
    with terminalCustodyError ;!
  None.

Definition json_evidence (v : LocalExecutionEvidenceV1) : json :=
  JObj (json_evidence_content v ++ [("evidence_digest", JStr (le_EvidenceDigest v))]).

Definition json_custody_plan (p : TerminalCustodyPlanV1) : json :=
  JObj [("scope", json_scope (cp_Scope p)); ("capsule", json_blob (cp_Capsule p));
        ("frontier_digest", JStr (cp_FrontierDigest p))].

Definition json_correspondence (c : TerminalCorrespondenceV1) : json :=
  JObj [("version", JNum (tc_Version c)); ("capsule_digest", JStr (tc_CapsuleDigest c));
        ("terminal_assistant_event_id", JStr (tc_TerminalAssistantEventID c));
        ("canonical_events_digest", JStr (tc_CanonicalEventsDigest c));
        ("derived_context_digest", JStr (tc_DerivedContextDigest c));
        ("accounting_disposition_digest", JStr (tc_AccountingDispositionDigest c))].

Definition json_custody (v : RunTerminalCustodyV1) : json :=
  JObj ([("version", JNum (tk_Version v)); ("plan", json_custody_plan (tk_Plan v))]
        ++ omitempty "correspondence" json_correspondence (tk_Correspondence v)
        ++ omitempty "local_evidence" json_evidence (tk_LocalEvidence v)).

Definition EqualRunTerminalCustodyV1 (a b : option RunTerminalCustodyV1) : bool :=
  match a, b with
  | None, None => true
  | Some a, Some b =>
      let x := marshal (json_custody a) in
      let y := marshal (json_custody b) in
      isnil (RunTerminalCustodyV1_Validate a) && isnil (RunTerminalCustodyV1_Validate b) &&
      (len x <=? MaxRunTerminalCustodyBytesV1) && (len y <=? MaxRunTerminalCustodyBytesV1) && String.eqb x y
  | _, _ => false
  end.

(** ** Terminal failure *)

Definition KnownMCPServiceErrorV1 : string := "mcp_service_error".
Definition ModelOutcomeUnknownV2 : string := "model_outcome_unknown".
Definition MCPOutcomeUnknownV3 : string := "mcp_outcome_unknown".
Definition SearchConsentStoppedV4 : string := "search_consent_stopped".
Definition SearchRejectedBeforeSendV4 : string := "search_rejected_before_send".
Definition SearchServiceErrorV4 : string := "search_service_error".
Definition SearchOutcomeUnknownV4 : string := "search_outcome_unknown".
Definition ModelAfterSearchFailureV4 : string := "model_after_search_failure".

Definition SearchFailureStopV4 (stop : string) : bool :=
  existsb (String.eqb stop)
    [SearchConsentStoppedV4; SearchRejectedBeforeSendV4; SearchServiceErrorV4; SearchOutcomeUnknownV4;
     ModelAfterSearchFailureV4].

Definition TerminalFailureSchemaStopValid (schema stop : string) : bool :=
  String.eqb schema "sessionless.terminal-failure-custody.v1" && String.eqb stop KnownMCPServiceErrorV1
  || String.eqb schema "sessionless.terminal-failure-custody.v2" && String.eqb stop ModelOutcomeUnknownV2
  || String.eqb schema "sessionless.terminal-failure-custody.v3" && String.eqb stop MCPOutcomeUnknownV3
  || String.eqb schema "sessionless.terminal-failure-custody.v4" && SearchFailureStopV4 stop.

Record RunTerminalFailureV1 := {
  tf_Version : Z;
  tf_Scope : AttemptOperationScopeV1;
  tf_ParentDigest : string;
  tf_Plan : TerminalCustodyPlanV1;
  tf_CapsuleSchema : string;
  tf_AccountingDigest : string;
  tf_EventsDigest : string;
  tf_RetainedBodiesDigest : string;
  tf_RetiredAllocationDigest : string;
  tf_CapturedAt : time;
  tf_Stop : string;
  tf_Cleanup : string }.
