(* ===== verification/Runs.v ===== *)
(** * Runs ([internal/domain/run.go], [local_capacity.go])

    The run record, its capacity identity, its validation with the retained
    metadata of [Custody.v], and the state machine of its status. *)

From S2P Require Import Prelude GoText GoTime Sha256 Json Digests Errors Identity Blobs Lifecycle Custody.
#[local] Open Scope Z_scope.

(** ** Local capacity *)

(** [ProviderResourceKindV1]; the run model only asks for the local endpoint. *)
Definition ProviderResourceLocalEndpointV1 : string := "local_endpoint".

Record LocalCapacityAssociationV1 := {
  lc_Version : Z;
  lc_Kind : string;
  lc_TenantID : string;
  lc_OwnerUserID : string;
  lc_ResourceID : string }.

#[global] Instance LocalCapacityAssociationV1_eq_dec : EqDecision LocalCapacityAssociationV1.
Proof. solve_decision. Defined.

Definition LocalCapacityAssociationV1_Validate (a : LocalCapacityAssociationV1) : option error :=
  reject negb (lc_Version a =? 1) || negb (String.eqb (lc_Kind a) ProviderResourceLocalEndpointV1)
    with ValidationError "local_capacity_association" "requires version 1 and local_endpoint kind" ;!
  check TenantID_Validate (lc_TenantID a) ;!
  check UserID_Validate (lc_OwnerUserID a) ;!
  ValidateOpaqueID "local_capacity_association.resource_id" (lc_ResourceID a).

Definition LocalCapacityAssociationV1_ValidateForScope (a : LocalCapacityAssociationV1) (tenant owner resource : string)
  : option error :=
  check LocalCapacityAssociationV1_Validate a ;!
  reject negb (String.eqb (lc_TenantID a) tenant) || negb (String.eqb (lc_OwnerUserID a) owner)
         || negb (String.eqb (lc_ResourceID a) resource)
    with ValidationError "local_capacity_association.scope" "must match the original tenant, owner and resource" ;!
  None.

Definition validateCapacityIdentity (tenant subscription : string) (local : option LocalCapacityAssociationV1)
  : option error :=
  match local with
  | None => SubscriptionConnectionID_Validate subscription
  | Some local =>
      reject negb (String.eqb subscription "")
        with ValidationError "capacity_identity" "local and subscription identities are mutually exclusive" ;!
      check LocalCapacityAssociationV1_Validate local ;!
      EnsureSameTenant tenant (lc_TenantID local)
  end.

(** ** Status *)

Inductive RunStatus :=
| RunCreated | RunAdmitted | RunQueued | RunRunning | RunSucceeded | RunFailed | RunCancelled | RunQuotaBlocked
| RunStatusUnknown (s : string).

#[global] Instance RunStatus_eq_dec : EqDecision RunStatus.
Proof. solve_decision. Defined.

(** [runTransitions]: the next statuses of a known status. *)
Definition runTransitions (status : RunStatus) : option (list RunStatus) :=
  match status with
  | RunCreated => Some [RunAdmitted; RunQuotaBlocked; RunCancelled; RunFailed]
  | RunAdmitted => Some [RunQueued; RunQuotaBlocked; RunCancelled; RunFailed]
  | RunQueued => Some [RunRunning; RunQuotaBlocked; RunCancelled; RunFailed]
  | RunRunning => Some [RunSucceeded; RunQuotaBlocked; RunCancelled; RunFailed]
  | RunQuotaBlocked => Some [RunAdmitted; RunCancelled; RunFailed]
  | RunSucceeded | RunFailed | RunCancelled => Some []
  | RunStatusUnknown _ => None
  end.

Definition RunStatus_Valid (status : RunStatus) : bool := notnil (runTransitions status).

Definition RunStatus_Terminal (status : RunStatus) : bool :=
  bool_decide (status = RunSucceeded) || bool_decide (status = RunFailed) || bool_decide (status = RunCancelled).

Definition CanTransitionRun (from to : RunStatus) : bool :=
  match runTransitions from with
  | None => false
  | Some next => bool_decide (to ∈ next)
  end.

(** ** The run *)

Record Run := {
  run_ID : string;
  run_TenantID : string;
  run_SessionID : string;
  run_TriggerEventID : string;
  run_SubscriptionConnectionID : string;
  run_LocalCapacityAssociation : option LocalCapacityAssociationV1;
  run_Status : RunStatus;
  run_IdempotencyKey : string;
  run_CancellationRequestedAt : option time;
  run_StartedAt : option time;
  run_FinishedAt : option time;
  run_CreatedAt : time;
  run_UpdatedAt : time;
  run_DerivedContext : option RunDerivedContextV1;
  run_TerminalCustody : option RunTerminalCustodyV1;
  run_TerminalFailure : option RunTerminalFailureV1 }.

(** The scope belongs to the run. *)
Definition scope_of_run (scope : AttemptOperationScopeV1) (run : Run) : bool :=
  String.eqb (os_TenantID scope) (run_TenantID run) && String.eqb (os_SessionID scope) (run_SessionID run)
  && String.eqb (os_RunID scope) (run_ID run).

Definition RunDerivedContextV1_ValidateForRun (v : RunDerivedContextV1) (run : Run) : option error :=
  reject notnil (RunDerivedContextV1_Validate v) with derivedContextError ;!
  reject negb (forallb (fun p => scope_of_run (dp_Scope p) run) (dc_Inventory v)) with derivedContextError ;!
  None.

Definition RunTerminalCustodyV1_ValidateForRun (v : RunTerminalCustodyV1) (run : Run) : option error :=
  reject notnil (RunTerminalCustodyV1_Validate v) || negb (scope_of_run (cp_Scope (tk_Plan v)) run)
    with terminalCustodyError ;!
  reject (notnil (tk_Correspondence v) || notnil (tk_LocalEvidence v))
         && negb (bool_decide (run_Status run = RunSucceeded))
    with terminalCustodyError ;!
  reject match tk_LocalEvidence v with
         | None => false
         | Some e => before (le_StoppedAt e) (run_CreatedAt run)
                     || match run_FinishedAt run with None => true | Some f => after (le_ErasedAt e) f end
         end with terminalCustodyError ;!
  reject match run_DerivedContext run with
         | None => false
         | Some context =>
             notnil (RunDerivedContextV1_ValidateForRun context run)
             || negb (forallb (fun p => String.eqb (os_OwnerUserID (dp_Scope p)) (os_OwnerUserID (cp_Scope (tk_Plan v))))
                        (dc_Inventory context))
         end with terminalCustodyError ;!
  reject match tk_Correspondence v with
         | None => false
         | Some c => match TerminalDerivedContextDigestV1 (run_DerivedContext run) with
                     | inl _ => true
                     | inr d => negb (String.eqb d (tc_DerivedContextDigest c))
                     end
         end with terminalCustodyError ;!
  None.

Definition terminalFailureError : error :=
  ValidationError "run.terminal_failure" "requires exact known-error retained correspondence".

Definition RunTerminalFailureV1_ValidateForRun (v : RunTerminalFailureV1) (run : Run) : option error :=
  reject negb (tf_Version v =? 1) || notnil (AttemptOperationScopeV1_Validate (tf_Scope v))
         || notnil (TerminalCustodyPlanV1_Validate (tf_Plan v)) || negb (bool_decide (cp_Scope (tf_Plan v) = tf_Scope v))
         || negb (scope_of_run (tf_Scope v) run) || is_zero (tf_CapturedAt v)
         || negb (nanosecond (tf_CapturedAt v) mod 1000 =? 0)
         || before (tf_CapturedAt v) (run_CreatedAt run) || after (tf_CapturedAt v) (run_UpdatedAt run)
         || negb (TerminalFailureSchemaStopValid (tf_CapsuleSchema v) (tf_Stop v))
         || negb (String.eqb (tf_Cleanup v) "joined_retained") || negb (bool_decide (run_Status run = RunFailed))
         || match run_TerminalCustody run with
            | None => true
            | Some custody => negb (bool_decide (tk_Plan custody = tf_Plan v)) || notnil (tk_Correspondence custody)
                              || notnil (tk_LocalEvidence custody)
            end
    with terminalFailureError ;!
  reject negb (bool_decide (tf_CapturedAt v = truncate (to_utc (tf_CapturedAt v)) microsecond))
         || match run_StartedAt run with None => false | Some s => before (tf_CapturedAt v) s end
         || match run_FinishedAt run with None => true | Some f => negb (time_equal f (run_UpdatedAt run)) end
    with terminalFailureError ;!
  reject negb (forallb derivedDigestValid
                 [tf_ParentDigest v; tf_AccountingDigest v; tf_EventsDigest v; tf_RetainedBodiesDigest v;
                  tf_RetiredAllocationDigest v])
    with terminalFailureError ;!
  None.

Definition Run_Validate (run : Run) : option error :=
  check RunID_Validate (run_ID run) ;!
  check TenantID_Validate (run_TenantID run) ;!
  check SessionID_Validate (run_SessionID run) ;!
  check SessionEventID_Validate (run_TriggerEventID run) ;!
  check validateCapacityIdentity (run_TenantID run) (run_SubscriptionConnectionID run)
          (run_LocalCapacityAssociation run) ;!
  reject negb (RunStatus_Valid (run_Status run)) with ValidationError "run.status" "is unknown" ;!
  check IdempotencyKey_Validate (run_IdempotencyKey run) ;!
  reject is_zero (run_CreatedAt run) with ValidationError "run.created_at" "must not be zero" ;!
  reject before (run_UpdatedAt run) (run_CreatedAt run)
    with ValidationError "run.updated_at" "must not be before created_at" ;!
  reject match run_CancellationRequestedAt run with Some t => before t (run_CreatedAt run) | None => false end
    with ValidationError "run.cancellation_requested_at" "must not be before created_at" ;!
  reject match run_StartedAt run with Some t => before t (run_CreatedAt run) | None => false end
    with ValidationError "run.started_at" "must not be before created_at" ;!
  reject RunStatus_Terminal (run_Status run) && isnil (run_FinishedAt run)
    with ValidationError "run.finished_at" "is required for a terminal run" ;!
  reject negb (RunStatus_Terminal (run_Status run)) && notnil (run_FinishedAt run)
    with ValidationError "run.finished_at" "is allowed only for a terminal run" ;!
  check match run_DerivedContext run with
        | Some v => RunDerivedContextV1_ValidateForRun v run | None => None end ;!
  check match run_TerminalCustody run with
        | Some v => RunTerminalCustodyV1_ValidateForRun v run | None => None end ;!
  match run_TerminalFailure run with
  | Some v => RunTerminalFailureV1_ValidateForRun v run
  | None => None
  end.

Definition Run_Transition (p : option Run) (to : RunStatus) (at_ : time) : option Run * option error :=
  match p with
  | None => (p, Some (ValidationError "run" "must not be nil"))
  | Some run =>
      reject negb (CanTransitionRun (run_Status run) to)
        with ValidationError "run.status" "transition is not allowed" leaving p ;!
      reject before at_ (run_UpdatedAt run)
        with ValidationError "run.updated_at" "transition time must not move backwards" leaving p ;!
      (Some {| run with
               run_Status := to;
               run_UpdatedAt := at_;
               run_StartedAt := if bool_decide (to = RunRunning) && isnil (run_StartedAt run)
                                then Some at_ else run_StartedAt run;
               run_FinishedAt := if RunStatus_Terminal to then Some at_ else run_FinishedAt run |}, None)
  end.

Definition RequestCancellation (p : option Run) (at_ : time) : option Run * option error :=
  match p with
  | None => (p, Some (ValidationError "run" "must not be nil"))
  | Some run =>
      reject RunStatus_Terminal (run_Status run)
        with ValidationError "run.cancellation" "cannot request cancellation for a terminal run" leaving p ;!
      reject before at_ (run_CreatedAt run)
        with ValidationError "run.cancellation_requested_at" "must not be before created_at" leaving p ;!
      (Some {| run with
               run_CancellationRequestedAt :=
                 match run_CancellationRequestedAt run with None => Some at_ | Some t => Some t end |}, None)
  end.

(** ** Lemmas *)

Lemma can_transition_from from to : CanTransitionRun from to = true -> RunStatus_Terminal from = false /\ RunStatus_Valid to = true.
Proof.
  unfold CanTransitionRun. destruct from; cbn; try done;
    intros H%bool_decide_eq_true; repeat (apply elem_of_cons in H as [-> | H]; [done |]); by apply elem_of_nil in H.
Qed.

Lemma transition_inv run to at_ run' :
  Run_Transition (Some run) to at_ = (Some run', None) ->
  CanTransitionRun (run_Status run) to = true /\ ns (run_UpdatedAt run) <= ns at_ /\
  run' = {| run with
            run_Status := to;
            run_UpdatedAt := at_;
            run_StartedAt := if bool_decide (to = RunRunning) && isnil (run_StartedAt run)
                             then Some at_ else run_StartedAt run;
            run_FinishedAt := if RunStatus_Terminal to then Some at_ else run_FinishedAt run |}.
Proof.
  unfold Run_Transition. intros H. peel_pair H. injection H as <-. b2p. done.
Qed.

(** What a valid run is, without the error order. *)
Record run_ok (run : Run) : Prop := {
  ro_ID : RunID_Validate (run_ID run) = None;
  ro_Tenant : TenantID_Validate (run_TenantID run) = None;
  ro_Session : SessionID_Validate (run_SessionID run) = None;
  ro_Trigger : SessionEventID_Validate (run_TriggerEventID run) = None;
  ro_Capacity : validateCapacityIdentity (run_TenantID run) (run_SubscriptionConnectionID run)
                  (run_LocalCapacityAssociation run) = None;
  ro_Status : RunStatus_Valid (run_Status run) = true;
  ro_Key : IdempotencyKey_Validate (run_IdempotencyKey run) = None;
  ro_Created : ns (run_CreatedAt run) <> 0;
  ro_Updated : ns (run_CreatedAt run) <= ns (run_UpdatedAt run);
  ro_Cancel t : run_CancellationRequestedAt run = Some t -> ns (run_CreatedAt run) <= ns t;
  ro_Started t : run_StartedAt run = Some t -> ns (run_CreatedAt run) <= ns t;
  ro_Finished : notnil (run_FinishedAt run) = RunStatus_Terminal (run_Status run);
  ro_Context v : run_DerivedContext run = Some v -> RunDerivedContextV1_ValidateForRun v run = None;
  ro_Custody v : run_TerminalCustody run = Some v -> RunTerminalCustodyV1_ValidateForRun v run = None;
  ro_Failure v : run_TerminalFailure run = Some v -> RunTerminalFailureV1_ValidateForRun v run = None }.

Lemma finished_iff_terminal (terminal : bool) (finished : option time) :
  notnil finished = terminal <-> terminal && isnil finished = false /\ negb terminal && notnil finished = false.
Proof. destruct terminal, finished; naive_solver. Qed.

Lemma Run_Validate_ok run : Run_Validate run = None <-> run_ok run.
Proof.
  transitivity (RunID_Validate (run_ID run) = None /\ TenantID_Validate (run_TenantID run) = None /\
    SessionID_Validate (run_SessionID run) = None /\ SessionEventID_Validate (run_TriggerEventID run) = None /\
    validateCapacityIdentity (run_TenantID run) (run_SubscriptionConnectionID run)
      (run_LocalCapacityAssociation run) = None /\
    RunStatus_Valid (run_Status run) = true /\ IdempotencyKey_Validate (run_IdempotencyKey run) = None /\
    ns (run_CreatedAt run) <> 0 /\ ns (run_CreatedAt run) <= ns (run_UpdatedAt run) /\
    (forall t, run_CancellationRequestedAt run = Some t -> ns (run_CreatedAt run) <= ns t) /\
    (forall t, run_StartedAt run = Some t -> ns (run_CreatedAt run) <= ns t) /\
    notnil (run_FinishedAt run) = RunStatus_Terminal (run_Status run) /\
    (forall v, run_DerivedContext run = Some v -> RunDerivedContextV1_ValidateForRun v run = None) /\
    (forall v, run_TerminalCustody run = Some v -> RunTerminalCustodyV1_ValidateForRun v run = None) /\
    (forall v, run_TerminalFailure run = Some v -> RunTerminalFailureV1_ValidateForRun v run = None)).
  - unfold Run_Validate. repeat (rewrite check_nil || rewrite reject_nil).
    rewrite !optional_nil, !optional_false, negb_false_iff, is_zero_false, before_false, finished_iff_terminal. setoid_rewrite before_false. tauto.
  - split; [intros H; decompose [and] H; by split | by intros []].
Qed.

(** A run that is not terminal has neither a correspondence nor a terminal failure. *)
Lemma open_run_metadata run :
  run_ok run -> RunStatus_Terminal (run_Status run) = false ->
  run_TerminalFailure run = None /\
  forall c, run_TerminalCustody run = Some c -> tk_Correspondence c = None /\ tk_LocalEvidence c = None.
Proof.
  intros R Ht. split.
  - destruct (run_TerminalFailure run) as [v |] eqn:Hv; [| done]. apply (ro_Failure run R) in Hv.
    unfold RunTerminalFailureV1_ValidateForRun in Hv. peel Hv.
    assert (run_Status run = RunFailed) as Hf; [| by rewrite Hf in Ht].
    apply orb_false_iff in E as [E _]. apply orb_false_iff in E as [_ E]. by b2p.
  - intros c Hc. apply (ro_Custody run R) in Hc. unfold RunTerminalCustodyV1_ValidateForRun in Hc. peel Hc.
    assert (bool_decide (run_Status run = RunSucceeded) = false) as Hs.
    { apply bool_decide_eq_false. intros Hs. by rewrite Hs in Ht. }
    rewrite Hs, andb_true_r in E0. apply orb_false_iff in E0 as [H1 H2].
    by destruct (tk_Correspondence c), (tk_LocalEvidence c).
Qed.

Lemma context_same_ids v run run' :
  run_ID run' = run_ID run -> run_TenantID run' = run_TenantID run -> run_SessionID run' = run_SessionID run ->
  RunDerivedContextV1_ValidateForRun v run' = RunDerivedContextV1_ValidateForRun v run.
Proof. intros H1 H2 H3. unfold RunDerivedContextV1_ValidateForRun, scope_of_run. by rewrite H1, H2, H3. Qed.

(** Custody without a correspondence does not depend on the run's progress. *)
Lemma custody_same_ids v run run' :
  run_ID run' = run_ID run -> run_TenantID run' = run_TenantID run -> run_SessionID run' = run_SessionID run ->
  run_DerivedContext run' = run_DerivedContext run -> tk_Correspondence v = None -> tk_LocalEvidence v = None ->
  RunTerminalCustodyV1_ValidateForRun v run' = RunTerminalCustodyV1_ValidateForRun v run.
Proof.
  intros H1 H2 H3 H4 Hc He. unfold RunTerminalCustodyV1_ValidateForRun, scope_of_run.
  rewrite H1, H2, H3, H4, Hc, He. cbn. destruct (run_DerivedContext run); [| done].
  by rewrite (context_same_ids _ run run').
Qed.

Lemma transition_ok run to at_ run' :
  run_ok run -> Run_Transition (Some run) to at_ = (Some run', None) -> run_ok run'.
Proof.
  intros R H. apply transition_inv in H as (Hcan & Hat & ->). destruct (can_transition_from _ _ Hcan) as [Ht Hv].
  destruct (open_run_metadata run R Ht) as [Hf Hc]. pose proof (ro_Updated run R). pose proof (ro_Finished run R) as Hfin.
  pose proof (ro_Started run R) as Hst. pose proof (ro_Context run R) as Hctx. pose proof (ro_Custody run R) as Hcus.
  destruct R. split; cbn; try done; try lia.
  - intros t Hs. destruct (bool_decide (to = RunRunning)), (run_StartedAt run); cbn in Hs; naive_solver lia.
  - rewrite Ht in Hfin. destruct (RunStatus_Terminal to); [done |]. by rewrite Hfin.
  - intros v Hv'. destruct (Hc v Hv'). rewrite (custody_same_ids _ run) by done. auto.
  - by rewrite Hf.
Qed.

Lemma cancellation_ok run at_ run' :
  run_ok run -> RequestCancellation (Some run) at_ = (Some run', None) -> run_ok run'.
Proof.
  unfold RequestCancellation. intros R H. peel_pair H. injection H as <-. apply before_false in E0.
  destruct (open_run_metadata run R E) as [Hf Hc]. pose proof (ro_Context run R) as Hctx. pose proof (ro_Custody run R) as Hcus.
  destruct R. split; cbn; try done.
  - intros t Ht. destruct (run_CancellationRequestedAt run) eqn:Hr; naive_solver.
Qed.

(** ** The lifecycle as a transition system *)

(** One call on a run, failing calls included. *)
Inductive run_step : Run -> Run -> Prop :=
| run_step_transition run to at_ run' err : Run_Transition (Some run) to at_ = (Some run', err) -> run_step run run'
| run_step_cancel run at_ run' err : RequestCancellation (Some run) at_ = (Some run', err) -> run_step run run'.

(** A run as it is created. *)
Definition fresh_run (run : Run) : Prop :=
  Run_Validate run = None /\ run_Status run = RunCreated /\ run_StartedAt run = None.

(** What every run that began fresh satisfies. *)
Record run_history (run : Run) : Prop := {
  rh_valid : run_ok run;
  rh_started t : run_StartedAt run = Some t -> ns (run_CreatedAt run) <= ns t <= ns (run_UpdatedAt run);
  rh_running : run_Status run = RunRunning \/ run_Status run = RunSucceeded -> is_Some (run_StartedAt run);
  rh_finished t : run_FinishedAt run = Some t -> t = run_UpdatedAt run }.

Lemma fresh_history run : fresh_run run -> run_history run.
Proof.
  intros (R%Run_Validate_ok & Hs & Hst). split; [done | by rewrite Hst | rewrite Hs; naive_solver |].
  intros t Ht. pose proof (ro_Finished run R) as Hf. by rewrite Hs, Ht in Hf.
Qed.

Lemma run_step_cases run run' :
  run_step run run' ->
  run' = run \/ (exists to at_, Run_Transition (Some run) to at_ = (Some run', None)) \/
  (exists at_, RequestCancellation (Some run) at_ = (Some run', None)).
Proof.
  intros [r to at_ r' [e |] H | r at_ r' [e |] H]; eauto; left;
    unfold Run_Transition, RequestCancellation in H; repeat case_match; by simplify_eq.
Qed.

Lemma started_before_success from to (started : option time) :
  CanTransitionRun from to = true -> (from = RunRunning \/ from = RunSucceeded -> is_Some started) ->
  to = RunSucceeded -> is_Some started.
Proof.
  intros Hc Hs ->. unfold CanTransitionRun in Hc. destruct from; cbn in Hc; try done;
    apply bool_decide_eq_true in Hc; repeat (apply elem_of_cons in Hc as [[=] | Hc]); auto; by apply elem_of_nil in Hc.
Qed.

Lemma run_step_history run run' : run_history run -> run_step run run' -> run_history run'.
Proof.
  intros H [-> | [(to & at_ & Ht) | (at_ & Hc)]]%run_step_cases; [done | |].
  - pose proof (transition_ok _ _ _ _ (rh_valid _ H) Ht) as Hok. apply transition_inv in Ht as (Hcan & Hat & ->).
    destruct (can_transition_from _ _ Hcan) as [Hopen _]. pose proof (ro_Updated run (rh_valid _ H)) as Hup.
    split; [done | cbn ..].
    + intros t Hs. pose proof (rh_started run H) as Hst.
      destruct (bool_decide (to = RunRunning)), (run_StartedAt run) as [s |]; cbn in Hs; simplify_eq;
        try (specialize (Hst _ eq_refl)); lia.
    + pose proof (started_before_success _ _ _ Hcan (rh_running run H)) as Hsucc.
      intros [-> | ->]; cbn; destruct (run_StartedAt run); naive_solver.
    + intros t Hf. pose proof (ro_Finished run (rh_valid _ H)) as Hn. rewrite Hopen in Hn.
      destruct (RunStatus_Terminal to); [by injection Hf as -> |]. by rewrite Hf in Hn.
  - pose proof (cancellation_ok _ _ _ (rh_valid _ H) Hc) as Hok. unfold RequestCancellation in Hc. peel_pair Hc.
    injection Hc as <-. destruct H. split; done.
Qed.

(** What no call on a run changes. *)
Definition same_run (run run' : Run) : Prop :=
  run_ID run' = run_ID run /\ run_TenantID run' = run_TenantID run /\ run_SessionID run' = run_SessionID run /\
  run_TriggerEventID run' = run_TriggerEventID run /\ run_IdempotencyKey run' = run_IdempotencyKey run /\
  run_CreatedAt run' = run_CreatedAt run /\ ns (run_UpdatedAt run) <= ns (run_UpdatedAt run').

Lemma run_step_same run run' : run_step run run' -> same_run run run'.
Proof.
  intros [-> | [(to & at_ & (_ & Hat & ->)%transition_inv) | (at_ & Hc)]]%run_step_cases; [done | done |].
  unfold RequestCancellation in Hc. peel_pair Hc. injection Hc as <-. done.
Qed.

Lemma run_steps_history run run' : rtc run_step run run' -> run_history run -> run_history run' /\ same_run run run'.
Proof.
  induction 1 as [| a b c Hstep _ IH]; intros H; [split; done |].
  destruct (IH (run_step_history _ _ H Hstep)) as [Hc Hs]. split; [done |].
  pose proof (run_step_same _ _ Hstep) as Hab. unfold same_run in *. destruct_and!.
  split_and!; congruence || lia.
Qed.

(** ** Objects of a run *)

(** Every object the run's metadata retains. *)
Definition run_objects (run : Run) : list BlobRef :=
  match run_DerivedContext run with
  | Some v => mjoin ((fun p => [dp_Summary p; dp_Manifest p]) <$> dc_Inventory v)
  | None => []
  end ++ match run_TerminalCustody run with Some v => [cp_Capsule (tk_Plan v)] | None => [] end.

(** A valid object of the tenant in the directory of a run. *)
Definition in_run (tenant session run : string) (ref : BlobRef) : Prop :=
  BlobRef_Validate ref = None /\ br_TenantID ref = tenant /\
  has_prefix (br_Key ref) (SessionRunObjectPrefix tenant session run) = true.

Lemma run_prefix_session key t s r :
  has_prefix key (SessionRunObjectPrefix t s r) = true -> has_prefix key (SessionObjectPrefix t s) = true.
Proof.
  rewrite !has_prefix_spec. intros [rest ->]. exists ("runs/" +:+ r +:+ "/" +:+ rest).
  unfold SessionRunObjectPrefix. by rewrite !string_app_assoc.
Qed.

Lemma below_prefix prefix rest : has_prefix (prefix +:+ rest) prefix = true.
Proof. apply has_prefix_spec. by exists rest. Qed.

Lemma scope_of_run_ids scope run :
  scope_of_run scope run = true ->
  os_TenantID scope = run_TenantID run /\ os_SessionID scope = run_SessionID run /\ os_RunID scope = run_ID run.
Proof. unfold scope_of_run. rewrite !andb_true_iff, !String.eqb_eq. tauto. Qed.

Lemma in_run_owned ref tenant session run rest : in_run tenant session run ref -> object_ok tenant session rest ref.
Proof.
  intros (Hv & <- & Hp%run_prefix_session). split_and!; [done | |].
  - unfold EnsureSameTenant. pose proof (BlobRef_Validate_nil _ Hv) as (Ht & _). rewrite Ht. cbn. by rewrite String.eqb_refl.
  - apply inventory_allowed_spec. by left.
Qed.

Lemma plan_object_ok p kind ref max :
  plan_object p kind ref max = true ->
  in_run (os_TenantID (dp_Scope p)) (os_SessionID (dp_Scope p)) (os_RunID (dp_Scope p)) ref.
Proof.
  unfold plan_object. rewrite andb_true_iff. intros [H1 H2]. b2p. destruct_and?.
  destruct (DerivedContextObjectKeyV1 _ _ _ _) as [| key] eqn:Hkey; [done |]. b2p. destruct H2 as [Hk Hv].
  unfold DerivedContextObjectKeyV1 in Hkey. case_match; [done |]. injection Hkey as <-.
  destruct (BlobRef_Validate ref) eqn:Hb; [done |]. split_and!; [done | done |]. rewrite Hk. apply below_prefix.
Qed.

Lemma custody_plan_object_ok p :
  TerminalCustodyPlanV1_Validate p = None ->
  in_run (os_TenantID (cp_Scope p)) (os_SessionID (cp_Scope p)) (os_RunID (cp_Scope p)) (cp_Capsule p).
Proof.
  unfold TerminalCustodyPlanV1_Validate. intros H. peel H. b2p. destruct_and?.
  destruct (TerminalCustodyObjectKeyV1 _ _) as [| key] eqn:Hk; [done |]. apply reject_nil in H as [H _].
  apply negb_false_iff, String.eqb_eq in H.
  unfold TerminalCustodyObjectKeyV1 in Hk. case_match; [done |]. injection Hk as <-.
  destruct (BlobRef_Validate (cp_Capsule p)) eqn:Hb; [done |]. split_and!; [done | done |]. rewrite H. apply below_prefix.
Qed.

Lemma inventory_plans_valid first l : forall previous p,
  inventory_plans first previous l = true -> p ∈ l -> DerivedContextPlanV1_Validate p = None.
Proof.
  induction l as [| q l IH]; intros previous p; cbn; [by intros _ Hp%elem_of_nil |].
  rewrite andb_true_iff. intros [Hq Hl] [-> | Hp]%elem_of_cons; [| eauto].
  unfold inventory_plan in Hq. rewrite !andb_true_iff in Hq. destruct (DerivedContextPlanV1_Validate q); naive_solver.
Qed.

Lemma plan_objects_ok p ref :
  DerivedContextPlanV1_Validate p = None -> ref ∈ [dp_Summary p; dp_Manifest p] ->
  in_run (os_TenantID (dp_Scope p)) (os_SessionID (dp_Scope p)) (os_RunID (dp_Scope p)) ref.
Proof.
  unfold DerivedContextPlanV1_Validate. intros H Hr. peel H. clear E E0.
  apply negb_false_iff, andb_true_iff in E1 as [H1%plan_object_ok H2%plan_object_ok].
  rewrite !elem_of_cons, elem_of_nil in Hr. naive_solver.
Qed.

Lemma context_objects_ok v run p ref :
  RunDerivedContextV1_ValidateForRun v run = None -> p ∈ dc_Inventory v -> ref ∈ [dp_Summary p; dp_Manifest p] ->
  in_run (run_TenantID run) (run_SessionID run) (run_ID run) ref.
Proof.
  unfold RunDerivedContextV1_ValidateForRun. intros H Hp Hr. peel H.
  destruct (RunDerivedContextV1_Validate v) as [|] eqn:Hv; [done |].
  apply negb_false_iff in E0. rewrite forallb_forall in E0.
  destruct (scope_of_run_ids _ _ (E0 p (proj1 (list_elem_of_In _ _) Hp))) as (<- & <- & <-).
  apply plan_objects_ok; [| done]. unfold RunDerivedContextV1_Validate in Hv.
  destruct (dc_Inventory v) as [| first l] eqn:Hi; [by apply elem_of_nil in Hp |].
  repeat (apply reject_nil in Hv as [? Hv]). clear Hv.
  eapply inventory_plans_valid; [| done]. by apply negb_false_iff.
Qed.

Lemma custody_object_ok v run :
  RunTerminalCustodyV1_ValidateForRun v run = None ->
  in_run (run_TenantID run) (run_SessionID run) (run_ID run) (cp_Capsule (tk_Plan v)).
Proof.
  unfold RunTerminalCustodyV1_ValidateForRun. intros [H _]%reject_nil. apply orb_false_iff in H as [H1 H2].
  apply negb_false_iff, scope_of_run_ids in H2 as (<- & <- & <-). apply custody_plan_object_ok.
  destruct (RunTerminalCustodyV1_Validate v) eqn:Hv; [done |]. apply reject_nil in Hv as [Hv _].
  apply orb_false_iff in Hv as [_ Hv]. by destruct (TerminalCustodyPlanV1_Validate (tk_Plan v)).
Qed.

(** ** Progress *)

(** A sequence of transitions at one time, all of them accepted. *)
Fixpoint transitions (run : Run) (path : list RunStatus) (at_ : time) : option Run :=
  match path with
  | [] => Some run
  | to :: rest =>
      match Run_Transition (Some run) to at_ with
      | (Some run', None) => transitions run' rest at_
      | _ => None
      end
  end.

(** The way from a status to success. *)
Definition path_to_success (status : RunStatus) : list RunStatus :=
  match status with
  | RunCreated | RunQuotaBlocked => [RunAdmitted; RunQueued; RunRunning; RunSucceeded]
  | RunAdmitted => [RunQueued; RunRunning; RunSucceeded]
  | RunQueued => [RunRunning; RunSucceeded]
  | RunRunning => [RunSucceeded]
  | _ => []
  end.

(** Consecutive statuses are transitions of the table. *)
Fixpoint allowed_path (from : RunStatus) (path : list RunStatus) : bool :=
  match path with
  | [] => true
  | to :: rest => CanTransitionRun from to && allowed_path to rest
  end.

Lemma transitions_total path : forall run at_,
  allowed_path (run_Status run) path = true -> ns (run_UpdatedAt run) <= ns at_ -> run_ok run ->
  exists run', transitions run path at_ = Some run' /\ run_ok run' /\ run_Status run' = default (run_Status run) (last path).
Proof.
  induction path as [| to path IH]; intros run at_ Ha Hat R; cbn [transitions allowed_path] in *; [eauto |].
  apply andb_true_iff in Ha as [Hc Ha].
  destruct (Run_Transition (Some run) to at_) as [o [e |]] eqn:Ht.
  { unfold Run_Transition in Ht. rewrite Hc, (proj2 (before_false _ _)) in Ht by done. done. }
  destruct o as [run1 |]; [| unfold Run_Transition in Ht; repeat case_match; simplify_eq].
  pose proof (transition_ok _ _ _ _ R Ht) as R1. apply transition_inv in Ht as (_ & _ & Hrun1).
  destruct (IH run1 at_) as (run' & H1 & H2 & H3); [by rewrite Hrun1 | rewrite Hrun1; cbn; lia | done |].
  exists run'. split_and!; [done | done |]. rewrite H3, Hrun1, last_cons. by destruct (last path).
Qed.

(** ** Properties *)

(** C28. The lifecycle of a run: from a freshly created run, any sequence of
    transitions and cancellation requests, refused ones included, keeps the run
    valid and its identity and creation time fixed; the update time never goes
    back; a running or succeeded run has a start time, no earlier than its
    creation and no later than its last update; a terminal run, and only a
    terminal run, has a finish time, which is the time of its last update. *)
Theorem run_lifecycle run0 run :
  fresh_run run0 -> rtc run_step run0 run ->
  Run_Validate run = None /\ same_run run0 run /\
  (run_Status run = RunRunning \/ run_Status run = RunSucceeded -> is_Some (run_StartedAt run)) /\
  (forall t, run_StartedAt run = Some t -> ns (run_CreatedAt run) <= ns t <= ns (run_UpdatedAt run)) /\
  run_FinishedAt run = (if RunStatus_Terminal (run_Status run) then Some (run_UpdatedAt run) else None).
Proof.
  intros H0%fresh_history Hs. destruct (run_steps_history _ _ Hs H0) as [H Hsame].
  split_and!; [by apply Run_Validate_ok, rh_valid | done | by apply rh_running | by apply rh_started |].
  pose proof (ro_Finished run (rh_valid run H)) as Hf. pose proof (rh_finished run H) as Ht.
  rewrite <- Hf. destruct (run_FinishedAt run) as [t |]; [by rewrite (Ht t eq_refl) | done].
Qed.

(** A run for the examples. *)
Definition sample_run : Run :=
  {| run_ID := "run-1"; run_TenantID := "acme"; run_SessionID := "s1"; run_TriggerEventID := "e1";
     run_SubscriptionConnectionID := "sub-1"; run_LocalCapacityAssociation := None; run_Status := RunCreated;
     run_IdempotencyKey := "key-1"; run_CancellationRequestedAt := None; run_StartedAt := None;
     run_FinishedAt := None; run_CreatedAt := {| ns := 1000; loc := UTC |}; run_UpdatedAt := {| ns := 1000; loc := UTC |};
     run_DerivedContext := None; run_TerminalCustody := None; run_TerminalFailure := None |}.

Lemma run_lifecycle_witness :
  exists run, run_Status run = RunQueued /\ run_FinishedAt run = None /\ Run_Validate run = None.
Proof.
  pose (run1 := {| sample_run with run_Status := RunAdmitted; run_UpdatedAt := {| ns := 2000; loc := UTC |} |}).
  pose (run2 := {| run1 with run_Status := RunQueued |}).
  destruct (run_lifecycle sample_run run2) as (Hv & _ & _ & _ & Hf).
  - split_and!; vm_compute; reflexivity.
  - apply (rtc_l _ _ run1); [| apply rtc_once].
    + apply (run_step_transition _ RunAdmitted {| ns := 2000; loc := UTC |} _ None). reflexivity.
    + apply (run_step_transition _ RunQueued {| ns := 2000; loc := UTC |} _ None). reflexivity.
  - exists run2. split_and!; [reflexivity | exact Hf | exact Hv].
Defined.

(** A terminal run is final and every other valid run can still end: no call
    changes a run that has succeeded, failed or been cancelled, while a valid
    run in any other status is accepted by a transition to failure and to
    cancellation at any time not before its last update, and can be driven to
    success by transitions of the table, each leaving a valid run. *)
Theorem run_terminal_or_can_end run :
  Run_Validate run = None ->
  if RunStatus_Terminal (run_Status run)
  then forall run', run_step run run' -> run' = run
  else forall at_, ns (run_UpdatedAt run) <= ns at_ ->
       forall path, path ∈ [[RunFailed]; [RunCancelled]; path_to_success (run_Status run)] ->
       exists run', transitions run path at_ = Some run' /\ Run_Validate run' = None /\
                    last path = Some (run_Status run') /\ RunStatus_Terminal (run_Status run') = true.
Proof.
  intros R%Run_Validate_ok. destruct (RunStatus_Terminal (run_Status run)) eqn:Ht.
  - intros run' [-> | [(to & at_ & (Hc & _)%transition_inv) | (at_ & Hc)]]%run_step_cases; [done | |].
    + apply can_transition_from in Hc as [Hn _]. congruence.
    + unfold RequestCancellation in Hc. by rewrite Ht in Hc.
  - intros at_ Hat path Hp. destruct (transitions_total path run at_) as (run' & H1 & H2 & H3); [| done | done |].
    + rewrite !elem_of_cons, elem_of_nil in Hp. pose proof (ro_Status run R).
      destruct (run_Status run); naive_solver.
    + exists run'. rewrite Run_Validate_ok, H3. rewrite !elem_of_cons, elem_of_nil in Hp. pose proof (ro_Status run R).
      split_and!; [done | done | |]; destruct (run_Status run); naive_solver.
Qed.

Lemma run_terminal_or_can_end_witness :
  exists run', transitions sample_run [RunAdmitted; RunQueued; RunRunning; RunSucceeded] {| ns := 5000; loc := UTC |} = Some run' /\
               Run_Validate run' = None.
Proof.
  destruct (run_terminal_or_can_end sample_run eq_refl {| ns := 5000; loc := UTC |} ltac:(cbn; lia)
              (path_to_success RunCreated)) as (run' & H & Hv & _).
  - cbn. do 2 apply list_elem_of_further. apply list_elem_of_here.
  - exists run'. split; [exact H | exact Hv].
Defined.

(** C29. Every object a valid run retains, the summaries and manifests of its derived
    context and its terminal capsule, belongs to the run itself: the reference is
    valid, carries the run's tenant, and its key lies in the run's own directory, which
    is below the session's object prefix, so that a deletion inventory of that session
    accepts it, with or without legacy run prefixes. *)
Theorem run_objects_in_session run ref runs :
  Run_Validate run = None -> ref ∈ run_objects run ->
  BlobRef_Validate ref = None /\ EnsureSameTenant (run_TenantID run) (br_TenantID ref) = None /\
  has_prefix (br_Key ref) (SessionRunObjectPrefix (run_TenantID run) (run_SessionID run) (run_ID run)) = true /\
  has_prefix (br_Key ref) (SessionObjectPrefix (run_TenantID run) (run_SessionID run)) = true /\
  inventory_allowed (run_TenantID run) (run_SessionID run) runs ref = true.
Proof.
  intros R%Run_Validate_ok Hr. assert (in_run (run_TenantID run) (run_SessionID run) (run_ID run) ref) as H.
  { unfold run_objects in Hr. apply elem_of_app in Hr as [Hr | Hr].
    - destruct (run_DerivedContext run) as [v |] eqn:Hd; [| by apply elem_of_nil in Hr].
      apply list_elem_of_join in Hr as (l & Hr & (p & -> & Hp)%list_elem_of_fmap).
      eapply context_objects_ok; [| done ..]. by apply ro_Context.
    - destruct (run_TerminalCustody run) as [v |] eqn:Hd; [| by apply elem_of_nil in Hr].
      apply list_elem_of_singleton in Hr as ->. apply custody_object_ok. by apply ro_Custody. }
  destruct (in_run_owned _ _ _ _ runs H) as (Hv & Ht & Ha). destruct H as (_ & _ & Hp).
  split_and!; [done .. | by eapply run_prefix_session | done].
Qed.

Definition sample_digest : string := sha256_hex "content".

Definition sample_scope : AttemptOperationScopeV1 :=
  {| os_TenantID := "acme"; os_SessionID := "s1"; os_OwnerUserID := "u1"; os_RunID := "run-1"; os_AttemptID := "a1";
     os_LeaseID := "l1"; os_FenceToken := 1; os_PhysicalInvocationClaimID := "c1";
     os_EffectReservationDigest := sample_digest; os_InvocationAuthorityDigest := sample_digest;
     os_HarnessBindingDigest := sample_digest; os_AgentLoopPolicyDigest := sample_digest |}.

Definition sample_capsule : BlobRef :=
  {| br_TenantID := "acme"; br_SHA256 := sample_digest; br_Size := 7;
     br_Key := match TerminalCustodyObjectKeyV1 sample_scope sample_digest with inr k => k | inl _ => "" end |}.

Definition sample_custody : RunTerminalCustodyV1 :=
  {| tk_Version := 1; tk_Correspondence := None; tk_LocalEvidence := None;
     tk_Plan := {| cp_Scope := sample_scope; cp_Capsule := sample_capsule; cp_FrontierDigest := sample_digest |} |}.

Lemma run_objects_in_session_witness :
  has_prefix (br_Key sample_capsule) "tenants/acme/sessions/s1/runs/run-1/" = true.
Proof.
  destruct (run_objects_in_session {| sample_run with run_TerminalCustody := Some sample_custody |} sample_capsule [])
    as (_ & _ & H & _).
  - vm_compute. reflexivity.
  - apply list_elem_of_here.
  - exact H.
Defined.
