(* ===== verification/Admission.v ===== *)
(** * Scheduler admission ([internal/scheduler/policy.go], [internal/domain/scheduling.go])

    The limits of a product, the shape of a workload, the one scheduler slot of a
    subscription connection or local capacity, and the policy that decides whether
    a run is admitted.  Entitlement and quota states are the texts that the
    database columns hold; they are not validated on the way to the policy.
    [decided_slot] is the slot that the admission transaction
    ([internal/ydbstore/scheduler.go]) writes for a decision.  The transaction
    around it, with its reads, its owned-authority arm and the reservation it
    makes, is not modelled. *)

From S2P Require Import Prelude GoText GoTime Errors Identity Runs.
#[local] Open Scope Z_scope.

Inductive SchedulerState :=
| SchedulerReady | SchedulerPressured | SchedulerDraining | SchedulerBlockedUntilReset | SchedulerReauthRequired
| SchedulerStateUnknown (s : string).

#[global] Instance SchedulerState_eq_dec : EqDecision SchedulerState.
Proof. solve_decision. Defined.

Definition SchedulerState_Valid (state : SchedulerState) : bool :=
  match state with
  | SchedulerReady | SchedulerPressured | SchedulerDraining | SchedulerBlockedUntilReset
  | SchedulerReauthRequired => true
  | SchedulerStateUnknown _ => false
  end.

(** ** Limits and workloads *)

Record ProductLimits := {
  pl_MaxTenantQueueDepth : Z;
  pl_MaxActiveRuns : Z;
  pl_MaxRuntime : Z;
  pl_MaxTurns : Z;
  pl_MaxInputBytes : Z;
  pl_MaxContextBytes : Z;
  pl_MaxContextEvents : Z;
  pl_MaxArtifacts : Z;
  pl_MaxToolEvents : Z;
  pl_MaxToolEventBytes : Z }.

Definition ProductLimits_Validate (limits : ProductLimits) : option error :=
  reject pl_MaxTenantQueueDepth limits =? 0 with ValidationError "limits.max_tenant_queue_depth" "must be positive" ;!
  reject pl_MaxActiveRuns limits =? 0 with ValidationError "limits.max_active_runs" "must be positive" ;!
  reject pl_MaxRuntime limits <=? 0 with ValidationError "limits.max_runtime" "must be positive" ;!
  reject pl_MaxTurns limits =? 0 with ValidationError "limits.max_turns" "must be positive" ;!
  reject (pl_MaxInputBytes limits =? 0) || (pl_MaxContextBytes limits =? 0)
    with ValidationError "limits.bytes" "input and context limits must be positive" ;!
  reject pl_MaxArtifacts limits =? 0 with ValidationError "limits.max_artifacts" "must be positive" ;!
  reject negb (Bool.eqb (pl_MaxToolEvents limits =? 0) (pl_MaxToolEventBytes limits =? 0))
    with ValidationError "limits.tool_events" "count and byte limits must be configured together" ;!
  None.

Definition ValidateForAdmission (limits : ProductLimits) : option error :=
  check ProductLimits_Validate limits ;!
  reject pl_MaxToolEvents limits =? 0
    with ValidationError "limits.tool_events" "count and byte limits must be positive for admission" ;!
  reject pl_MaxContextEvents limits =? 0
    with ValidationError "limits.max_context_events" "must be positive for admission" ;!
  None.

Record WorkloadShape := {
  ws_Runtime : Z;
  ws_Turns : Z;
  ws_InputBytes : Z;
  ws_ContextBytes : Z;
  ws_Artifacts : Z }.

Definition WorkloadShape_Validate (shape : WorkloadShape) : option error :=
  reject ws_Runtime shape <=? 0 with ValidationError "workload.runtime" "must be positive" ;!
  reject ws_Turns shape =? 0 with ValidationError "workload.turns" "must be positive" ;!
  None.

(** ** The slot *)

Record SubscriptionSchedulerSlot := {
  ss_TenantID : string;
  ss_SubscriptionConnectionID : string;
  ss_LocalCapacityAssociation : option LocalCapacityAssociationV1;
  ss_State : SchedulerState;
  ss_ActiveRunID : string;
  ss_ActiveReservationID : string;
  ss_BlockedUntil : option time;
  ss_UpdatedAt : time }.

Definition SchedulerSlot_Validate (slot : SubscriptionSchedulerSlot) : option error :=
  check TenantID_Validate (ss_TenantID slot) ;!
  check validateCapacityIdentity (ss_TenantID slot) (ss_SubscriptionConnectionID slot)
          (ss_LocalCapacityAssociation slot) ;!
  reject negb (SchedulerState_Valid (ss_State slot)) with ValidationError "scheduler_slot.state" "is unknown" ;!
  reject negb (Bool.eqb (String.eqb (ss_ActiveRunID slot) "") (String.eqb (ss_ActiveReservationID slot) ""))
    with ValidationError "scheduler_slot.active" "run and reservation identifiers must be present together" ;!
  check (if negb (String.eqb (ss_ActiveRunID slot) "")
         then check RunID_Validate (ss_ActiveRunID slot) ;!
              QuotaReservationID_Validate (ss_ActiveReservationID slot)
         else None) ;!
  reject negb (bool_decide (ss_State slot = SchedulerBlockedUntilReset)) && notnil (ss_BlockedUntil slot)
    with ValidationError "scheduler_slot.blocked_until" "is allowed only while blocked until reset" ;!
  reject is_zero (ss_UpdatedAt slot) with ValidationError "scheduler_slot.updated_at" "must not be zero" ;!
  None.

(** ** The policy *)

Definition EntitlementDisconnected : string := "disconnected".
Definition EntitlementUnknown : string := "unknown".
Definition EntitlementActive : string := "active".
Definition EntitlementInactive : string := "inactive".
Definition EntitlementReauthRequired : string := "reauthentication_required".
Definition ProviderQuotaExhausted : string := "exhausted".

Record Snapshot := {
  sn_Entitlement : string;
  sn_Quota : string;
  sn_Slot : SubscriptionSchedulerSlot;
  sn_QueueDepth : Z;
  sn_ActiveRuns : Z;
  sn_LocalSourceReady : bool }.

Record AdmissionDecision := {
  ad_Admit : bool;
  ad_State : SchedulerState;
  ad_Code : string;
  ad_RetryAt : option time }.

Definition refuse (state : SchedulerState) (code : string) : AdmissionDecision :=
  {| ad_Admit := false; ad_State := state; ad_Code := code; ad_RetryAt := None |}.

(** The arms of [Evaluate] before the limits: an error, a refusal, or neither. *)
Definition source_arm (now : time) (snapshot : Snapshot) : error + option AdmissionDecision :=
  let slot := sn_Slot snapshot in
  if notnil (ss_LocalCapacityAssociation slot) then
    if negb (String.eqb (sn_Entitlement snapshot) "") || negb (String.eqb (sn_Quota snapshot) "")
    then inl (ValidationError "scheduler.local_source"
                "local capacity excludes subscription entitlement and quota observations")
    else if negb (sn_LocalSourceReady snapshot)
            || negb (bool_decide (ss_State slot = SchedulerReady)) && negb (bool_decide (ss_State slot = SchedulerPressured))
    then inr (Some (refuse
           (if negb (sn_LocalSourceReady snapshot) && negb (bool_decide (ss_State slot = SchedulerDraining))
            then SchedulerReauthRequired else ss_State slot) "local_source_unavailable"))
    else inr None
  else if sn_LocalSourceReady snapshot
  then inl (ValidationError "scheduler.local_source" "local readiness requires the explicit local capacity arm")
  else if existsb (String.eqb (sn_Entitlement snapshot))
            [EntitlementDisconnected; EntitlementUnknown; EntitlementInactive; EntitlementReauthRequired]
  then inr (Some (refuse SchedulerReauthRequired "subscription_reauthentication_required"))
  else if bool_decide (ss_State slot = SchedulerDraining)
  then inr (Some (refuse SchedulerDraining "subscription_draining"))
  else match (if bool_decide (ss_State slot = SchedulerBlockedUntilReset) then ss_BlockedUntil slot else None) with
       | Some until =>
           if before now until
           then inr (Some {| ad_Admit := false; ad_State := SchedulerBlockedUntilReset;
                             ad_Code := "provider_quota_blocked"; ad_RetryAt := Some until |})
           else if String.eqb (sn_Quota snapshot) ProviderQuotaExhausted
           then inr (Some (refuse SchedulerBlockedUntilReset "provider_quota_exhausted_reset_unknown"))
           else inr None
       | None =>
           if String.eqb (sn_Quota snapshot) ProviderQuotaExhausted
           then inr (Some (refuse SchedulerBlockedUntilReset "provider_quota_exhausted_reset_unknown"))
           else inr None
       end.

(** The final switch. *)
Definition limit_arm (limits : ProductLimits) (shape : WorkloadShape) (snapshot : Snapshot) : AdmissionDecision :=
  if ws_Runtime shape >? pl_MaxRuntime limits then refuse SchedulerPressured "runtime_limit_exceeded"
  else if ws_Turns shape >? pl_MaxTurns limits then refuse SchedulerPressured "turn_limit_exceeded"
  else if ws_InputBytes shape >? pl_MaxInputBytes limits then refuse SchedulerPressured "input_limit_exceeded"
  else if ws_ContextBytes shape >? pl_MaxContextBytes limits then refuse SchedulerPressured "context_limit_exceeded"
  else if ws_Artifacts shape >? pl_MaxArtifacts limits then refuse SchedulerPressured "artifact_limit_exceeded"
  else if negb (String.eqb (ss_ActiveRunID (sn_Slot snapshot)) "") then
    refuse SchedulerPressured
      (if notnil (ss_LocalCapacityAssociation (sn_Slot snapshot)) then "local_capacity_slot_busy"
       else "subscription_slot_busy")
  else if sn_QueueDepth snapshot >=? pl_MaxTenantQueueDepth limits
  then refuse SchedulerPressured "tenant_queue_depth_exhausted"
  else if sn_ActiveRuns snapshot >=? pl_MaxActiveRuns limits then refuse SchedulerPressured "tenant_active_run_limit"
  else {| ad_Admit := true; ad_State := SchedulerReady; ad_Code := "admitted"; ad_RetryAt := None |}.

Definition Admission_Evaluate (now : time) (limits : ProductLimits) (shape : WorkloadShape) (snapshot : Snapshot)
  : error + AdmissionDecision :=
  if is_zero now then inl (ValidationError "scheduler.now" "must not be zero") else
  match ValidateForAdmission limits with
  | Some e => inl e
  | None =>
      match WorkloadShape_Validate shape with
      | Some e => inl e
      | None =>
          match SchedulerSlot_Validate (sn_Slot snapshot) with
          | Some e => inl e
          | None =>
              match source_arm now snapshot with
              | inl e => inl e
              | inr (Some refusal) => inr refusal
              | inr None => inr (limit_arm limits shape snapshot)
              end
          end
      end
  end.

(** The slot that the admission transaction continues with. *)
Definition decided_slot (slot : SubscriptionSchedulerSlot) (decision : AdmissionDecision) (now : time)
  : SubscriptionSchedulerSlot :=
  {| slot with ss_State := ad_State decision; ss_BlockedUntil := ad_RetryAt decision; ss_UpdatedAt := now |}.

(** ** What is admitted *)

(** The source of the capacity lets a run start now. *)
Definition source_open (now : time) (snapshot : Snapshot) : Prop :=
  let slot := sn_Slot snapshot in
  match ss_LocalCapacityAssociation slot with
  | Some _ =>
      sn_Entitlement snapshot = "" /\ sn_Quota snapshot = "" /\ sn_LocalSourceReady snapshot = true /\
      (ss_State slot = SchedulerReady \/ ss_State slot = SchedulerPressured)
  | None =>
      sn_LocalSourceReady snapshot = false /\
      sn_Entitlement snapshot ∉
        [EntitlementDisconnected; EntitlementUnknown; EntitlementInactive; EntitlementReauthRequired] /\
      ss_State slot <> SchedulerDraining /\
      (forall until, ss_State slot = SchedulerBlockedUntilReset -> ss_BlockedUntil slot = Some until ->
         ns until <= ns now) /\
      sn_Quota snapshot <> ProviderQuotaExhausted
  end.

(** The workload fits the limits and the slot, the queue and the tenant have room. *)
Definition room (limits : ProductLimits) (shape : WorkloadShape) (snapshot : Snapshot) : Prop :=
  ws_Runtime shape <= pl_MaxRuntime limits /\ ws_Turns shape <= pl_MaxTurns limits /\
  ws_InputBytes shape <= pl_MaxInputBytes limits /\ ws_ContextBytes shape <= pl_MaxContextBytes limits /\
  ws_Artifacts shape <= pl_MaxArtifacts limits /\ ss_ActiveRunID (sn_Slot snapshot) = "" /\
  sn_QueueDepth snapshot < pl_MaxTenantQueueDepth limits /\ sn_ActiveRuns snapshot < pl_MaxActiveRuns limits.

Lemma existsb_In_string s l : existsb (String.eqb s) l = true <-> s ∈ l.
Proof.
  rewrite existsb_exists. split.
  - intros (x & Hx & ->%String.eqb_eq). by apply list_elem_of_In.
  - intros H. exists s. by rewrite String.eqb_refl, <- list_elem_of_In.
Qed.

Lemma error_branch (b : bool) e (k : error + option AdmissionDecision) :
  (if b then inl e else k) = inr None <-> b = false /\ k = inr None.
Proof. destruct b; naive_solver. Qed.

Lemma refusal_branch (b : bool) d (k : error + option AdmissionDecision) :
  (if b then inr (Some d) else k) = inr None <-> b = false /\ k = inr None.
Proof. destruct b; naive_solver. Qed.

(** Before the limits, no decision is made exactly when the source is open. *)
Lemma source_arm_open now snapshot : source_arm now snapshot = inr None <-> source_open now snapshot.
Proof.
  unfold source_arm, source_open. destruct (ss_LocalCapacityAssociation (sn_Slot snapshot)); cbn [notnil isnil negb].
  - rewrite error_branch, refusal_branch, !orb_false_iff, andb_false_iff, !negb_false_iff, !bool_decide_eq_true,
      !String.eqb_eq. tauto.
  - rewrite error_branch, !refusal_branch, <- not_true_iff_false, bool_decide_eq_false, <- (not_true_iff_false (existsb _ _)),
      existsb_In_string, not_true_iff_false.
    assert (Hq : (if String.eqb (sn_Quota snapshot) ProviderQuotaExhausted
                  then inr (Some (refuse SchedulerBlockedUntilReset "provider_quota_exhausted_reset_unknown"))
                  else inr None : error + option AdmissionDecision) = inr None
                 <-> sn_Quota snapshot <> ProviderQuotaExhausted)
      by (rewrite refusal_branch, String.eqb_neq; tauto).
    case_bool_decide as Hb; [destruct (ss_BlockedUntil (sn_Slot snapshot)) as [until |] |]; rewrite ?Hq.
    + rewrite refusal_branch, before_false, Hq.
      assert ((forall u, ss_State (sn_Slot snapshot) = SchedulerBlockedUntilReset -> Some until = Some u -> ns u <= ns now)
        <-> ns until <= ns now) as -> by (split; [eauto | intros ? ? _ [= <-]; done]). tauto.
    + split; [intros (? & ? & ? & ?) | tauto]. by split_and!.
    + split; [intros (? & ? & ? & ?) | tauto]. by split_and!.
Qed.

Lemma source_arm_refuses now snapshot d : source_arm now snapshot = inr (Some d) -> ad_Admit d = false.
Proof. unfold source_arm. intros H. repeat (case_match; try done); by simplify_eq. Qed.

Lemma limit_arm_admits limits shape snapshot : ad_Admit (limit_arm limits shape snapshot) = true <-> room limits shape snapshot.
Proof.
  unfold limit_arm, room.
  destruct (String.eqb_spec (ss_ActiveRunID (sn_Slot snapshot)) "") as [Ha | Ha]; cbn [negb];
    repeat match goal with |- context [if ?b then _ else _] => destruct b eqn:?; [cbn; split; [done | lia] |] end;
    cbn; first [split; [intros _; lia || (split_and!; [lia .. | done | lia | lia]) | done] | naive_solver].
Qed.

(** C31. A run is admitted exactly when the inputs validate, the source of the
    capacity is open (for local capacity: ready and in a ready or pressured slot;
    for a subscription: an entitlement that is not one of the four closed states,
    a slot that is neither draining nor blocked beyond now, a quota that is not
    exhausted), the workload fits every limit and the slot, the queue and the
    tenant have room.  An entitlement text outside the known states is not closed. *)
Theorem admission_exact now limits shape snapshot :
  (exists d, Admission_Evaluate now limits shape snapshot = inr d /\ ad_Admit d = true) <->
  ns now <> 0 /\ ValidateForAdmission limits = None /\ WorkloadShape_Validate shape = None /\
  SchedulerSlot_Validate (sn_Slot snapshot) = None /\ source_open now snapshot /\ room limits shape snapshot.
Proof.
  rewrite <- limit_arm_admits, <- source_arm_open, <- is_zero_false. unfold Admission_Evaluate. split.
  - intros (d & H & Ha). destruct (is_zero now); [done |]. destruct (ValidateForAdmission limits); [done |].
    destruct (WorkloadShape_Validate shape); [done |]. destruct (SchedulerSlot_Validate _); [done |].
    destruct (source_arm now snapshot) as [| [r |]] eqn:Hs; [done | |]; simplify_eq; [| by split_and!].
    apply source_arm_refuses in Hs. congruence.
  - intros (-> & -> & -> & -> & -> & Ha). by eexists.
Qed.

Lemma decision_state now limits shape snapshot d :
  Admission_Evaluate now limits shape snapshot = inr d ->
  ns now <> 0 /\ SchedulerSlot_Validate (sn_Slot snapshot) = None /\ SchedulerState_Valid (ad_State d) = true /\
  (ad_State d <> SchedulerBlockedUntilReset -> ad_RetryAt d = None).
Proof.
  unfold Admission_Evaluate. destruct (is_zero now) eqn:Hz; [done |]. destruct (ValidateForAdmission limits); [done |].
  destruct (WorkloadShape_Validate shape); [done |]. destruct (SchedulerSlot_Validate _) eqn:Hv; [done |].
  intros H. apply is_zero_false in Hz. split; [done |]. split; [done |].
  assert (Hst : SchedulerState_Valid (ss_State (sn_Slot snapshot)) = true).
  { unfold SchedulerSlot_Validate in Hv. peel Hv. by apply negb_false_iff. }
  destruct (source_arm now snapshot) as [| [r |]] eqn:Hs; [done | |]; simplify_eq.
  - unfold source_arm in Hs. repeat (case_match; simplify_eq; try done).
  - unfold limit_arm. repeat case_match; done.
Qed.

(** C32. The slot that the admission transaction goes on with is well formed,
    whatever the decision is: the state is a known one and a retry time is set
    only in a slot that is blocked until a reset. *)
Theorem decided_slot_valid now limits shape snapshot d :
  Admission_Evaluate now limits shape snapshot = inr d ->
  SchedulerSlot_Validate (decided_slot (sn_Slot snapshot) d now) = None.
Proof.
  intros (Hz & Hv & Hst & Hr)%decision_state. unfold SchedulerSlot_Validate in *. cbn.
  repeat (rewrite check_nil in Hv || rewrite reject_nil in Hv). destruct Hv as (? & ? & _ & ? & ? & _).
  repeat (rewrite check_nil || rewrite reject_nil). split_and!; try done.
  - by rewrite Hst.
  - case_bool_decide; [done |]. by rewrite Hr.
  - by apply is_zero_false.
Qed.

Module AdmissionSample.

Definition now : time := mkTime (62135596800 * second) UTC.

Definition slot : SubscriptionSchedulerSlot :=
  {| ss_TenantID := "acme"; ss_SubscriptionConnectionID := "c1"; ss_LocalCapacityAssociation := None;
     ss_State := SchedulerBlockedUntilReset; ss_ActiveRunID := ""; ss_ActiveReservationID := "";
     ss_BlockedUntil := Some (add now minute); ss_UpdatedAt := now |}.

Definition limits : ProductLimits :=
  {| pl_MaxTenantQueueDepth := 10; pl_MaxActiveRuns := 2; pl_MaxRuntime := minute; pl_MaxTurns := 5;
     pl_MaxInputBytes := 1000; pl_MaxContextBytes := 1000; pl_MaxContextEvents := 20; pl_MaxArtifacts := 3;
     pl_MaxToolEvents := 4; pl_MaxToolEventBytes := 100 |}.

Definition shape : WorkloadShape :=
  {| ws_Runtime := second; ws_Turns := 1; ws_InputBytes := 10; ws_ContextBytes := 10; ws_Artifacts := 0 |}.

Definition snapshot : Snapshot :=
  {| sn_Entitlement := EntitlementActive; sn_Quota := "available"; sn_Slot := slot; sn_QueueDepth := 0;
     sn_ActiveRuns := 0; sn_LocalSourceReady := false |}.

End AdmissionSample.

(** A blocked slot stays blocked, with its retry time. *)
Lemma decided_slot_valid_witness :
  SchedulerSlot_Validate (decided_slot AdmissionSample.slot
    {| ad_Admit := false; ad_State := SchedulerBlockedUntilReset; ad_Code := "provider_quota_blocked";
       ad_RetryAt := Some (add AdmissionSample.now minute) |} AdmissionSample.now) = None.
Proof.
  apply (decided_slot_valid AdmissionSample.now AdmissionSample.limits AdmissionSample.shape AdmissionSample.snapshot).
  vm_compute. reflexivity.
Defined.
