(* ===== verification/Work.v ===== *)
(** * Work of a run ([internal/domain/work.go], [quota.go], [artifacts.go])

    Attempts and their status machine, leases, checkpoints, artifact manifests,
    quota reservations that are settled once, and the observations of quota, usage
    and entitlement. *)

From S2P Require Import Prelude GoText GoTime Errors Identity Blobs Runs Admission.
#[local] Open Scope Z_scope.

(** ** Attempts *)

Inductive AttemptStatus :=
| AttemptCreated | AttemptRunning | AttemptSucceeded | AttemptFailed | AttemptCancelled
| AttemptStatusUnknown (s : string).

#[global] Instance AttemptStatus_eq_dec : EqDecision AttemptStatus.
Proof. solve_decision. Defined.

Definition AttemptStatus_Valid (status : AttemptStatus) : bool :=
  match status with
  | AttemptCreated | AttemptRunning | AttemptSucceeded | AttemptFailed | AttemptCancelled => true
  | AttemptStatusUnknown _ => false
  end.

Definition AttemptStatus_Terminal (status : AttemptStatus) : bool :=
  match status with AttemptSucceeded | AttemptFailed | AttemptCancelled => true | _ => false end.

Definition CanTransitionAttempt (from to : AttemptStatus) : bool :=
  match from with
  | AttemptCreated => match to with AttemptRunning | AttemptFailed | AttemptCancelled => true | _ => false end
  | AttemptRunning => match to with AttemptSucceeded | AttemptFailed | AttemptCancelled => true | _ => false end
  | _ => false
  end.

Record Attempt := {
  att_ID : string;
  att_TenantID : string;
  att_RunID : string;
  att_Number : Z;
  att_Status : AttemptStatus;
  att_WorkerID : string;
  att_CreatedAt : time;
  att_UpdatedAt : time;
  att_FinishedAt : option time }.

Definition Attempt_ValidateForRun (attempt : Attempt) (run : Run) : option error :=
  check Run_Validate run ;!
  check AttemptID_Validate (att_ID attempt) ;!
  check EnsureSameTenant (run_TenantID run) (att_TenantID attempt) ;!
  reject negb (String.eqb (att_RunID attempt) (run_ID run))
    with ValidationError "attempt.run_id" "must reference the owning run" ;!
  reject att_Number attempt =? 0 with ValidationError "attempt.number" "must be positive" ;!
  reject negb (AttemptStatus_Valid (att_Status attempt)) with ValidationError "attempt.status" "is unknown" ;!
  check (if negb (String.eqb (att_WorkerID attempt) "")
         then ValidateOpaqueID "attempt.worker_id" (att_WorkerID attempt) else None) ;!
  reject is_zero (att_CreatedAt attempt) || before (att_UpdatedAt attempt) (att_CreatedAt attempt)
    with ValidationError "attempt.updated_at" "must not be before a non-zero created_at" ;!
  reject negb (Bool.eqb (AttemptStatus_Terminal (att_Status attempt)) (notnil (att_FinishedAt attempt)))
    with ValidationError "attempt.finished_at" "must be present exactly when the attempt is terminal" ;!
  None.

Definition Attempt_Transition (p : option Attempt) (to : AttemptStatus) (at_ : time)
  : option Attempt * option error :=
  match p with
  | None => (p, Some (ValidationError "attempt" "must not be nil"))
  | Some attempt =>
      reject negb (CanTransitionAttempt (att_Status attempt) to)
        with ValidationError "attempt.status" "transition is not allowed" leaving p ;!
      reject before at_ (att_UpdatedAt attempt)
        with ValidationError "attempt.updated_at" "transition time must not move backwards" leaving p ;!
      (Some {| attempt with att_Status := to; att_UpdatedAt := at_;
               att_FinishedAt := if AttemptStatus_Terminal to then Some at_ else att_FinishedAt attempt |}, None)
  end.

(** ** Leases and checkpoints *)

Record Lease := {
  lease_ID : string;
  lease_TenantID : string;
  lease_RunID : string;
  lease_AttemptID : string;
  lease_WorkerID : string;
  lease_FenceToken : Z;
  lease_AcquiredAt : time;
  lease_ExpiresAt : time }.

Definition Lease_ValidateForAttempt (lease : Lease) (run : Run) (attempt : Attempt) : option error :=
  check Attempt_ValidateForRun attempt run ;!
  check LeaseID_Validate (lease_ID lease) ;!
  check EnsureSameTenant (run_TenantID run) (lease_TenantID lease) ;!
  reject negb (String.eqb (lease_RunID lease) (run_ID run)) || negb (String.eqb (lease_AttemptID lease) (att_ID attempt))
    with ValidationError "lease" "must reference the owning run and attempt" ;!
  check ValidateOpaqueID "lease.worker_id" (lease_WorkerID lease) ;!
  reject lease_FenceToken lease =? 0 with ValidationError "lease.fence_token" "must be positive" ;!
  reject is_zero (lease_AcquiredAt lease) || negb (after (lease_ExpiresAt lease) (lease_AcquiredAt lease))
    with ValidationError "lease.expires_at" "must be after a non-zero acquired_at" ;!
  None.

Definition Lease_ActiveAt (lease : Lease) (at_ : time) : bool :=
  negb (before at_ (lease_AcquiredAt lease)) && before at_ (lease_ExpiresAt lease).

Record Checkpoint := {
  ckpt_ID : string;
  ckpt_TenantID : string;
  ckpt_RunID : string;
  ckpt_AttemptID : string;
  ckpt_Sequence : Z;
  ckpt_State : BlobRef;
  ckpt_CreatedAt : time }.

Definition Checkpoint_ValidateForAttempt (checkpoint : Checkpoint) (run : Run) (attempt : Attempt) : option error :=
  check Attempt_ValidateForRun attempt run ;!
  check CheckpointID_Validate (ckpt_ID checkpoint) ;!
  check EnsureSameTenant (run_TenantID run) (ckpt_TenantID checkpoint) ;!
  reject negb (String.eqb (ckpt_RunID checkpoint) (run_ID run))
         || negb (String.eqb (ckpt_AttemptID checkpoint) (att_ID attempt))
    with ValidationError "checkpoint" "must reference the owning run and attempt" ;!
  reject ckpt_Sequence checkpoint =? 0 with ValidationError "checkpoint.sequence" "must be positive" ;!
  check BlobRef_Validate (ckpt_State checkpoint) ;!
  check EnsureSameTenant (run_TenantID run) (br_TenantID (ckpt_State checkpoint)) ;!
  let prefix := SessionRunObjectPrefix (run_TenantID run) (run_SessionID run) (run_ID run) +:+ "checkpoints/" in
  reject negb (has_prefix (br_Key (ckpt_State checkpoint)) prefix)
    with ValidationError "checkpoint.state.key" (under prefix) ;!
  reject is_zero (ckpt_CreatedAt checkpoint) with ValidationError "checkpoint.created_at" "must not be zero" ;!
  None.

(** ** Artifact manifests *)

Record ArtifactManifest := {
  am_ID : string;
  am_TenantID : string;
  am_RunID : string;
  am_Artifacts : list Artifact;
  am_CreatedAt : time }.

(** The loop over the artifacts; [seen] are the names before. *)
Fixpoint manifest_artifacts (run : Run) (seen : list string) (l : list Artifact) : option error :=
  match l with
  | [] => None
  | artifact :: rest =>
      check Artifact_Validate artifact ;!
      reject negb (has_prefix (br_Key (art_Blob artifact)) (SessionObjectPrefix (run_TenantID run) (run_SessionID run)))
        with ValidationError "artifact.blob.key"
               ("must be under session prefix "
                +:+ quoted (SessionObjectPrefix (run_TenantID run) (run_SessionID run))) ;!
      check EnsureSameTenant (run_TenantID run) (br_TenantID (art_Blob artifact)) ;!
      reject bool_decide (art_Name artifact ∈ seen)
        with ValidationError "artifact_manifest.artifacts" "artifact names must be unique" ;!
      manifest_artifacts run (art_Name artifact :: seen) rest
  end.

Definition ArtifactManifest_ValidateForRun (manifest : ArtifactManifest) (run : Run) : option error :=
  check Run_Validate run ;!
  check ArtifactManifestID_Validate (am_ID manifest) ;!
  check EnsureSameTenant (run_TenantID run) (am_TenantID manifest) ;!
  reject negb (String.eqb (am_RunID manifest) (run_ID run))
    with ValidationError "artifact_manifest.run_id" "must reference the owning run" ;!
  reject is_zero (am_CreatedAt manifest)
    with ValidationError "artifact_manifest.created_at" "must not be zero" ;!
  manifest_artifacts run [] (am_Artifacts manifest).

(** ** Quota reservations *)

Inductive ReservationStatus :=
| ReservationHeld | ReservationCommitted | ReservationReleased | ReservationExpired
| ReservationStatusUnknown (s : string).

#[global] Instance ReservationStatus_eq_dec : EqDecision ReservationStatus.
Proof. solve_decision. Defined.

Definition ReservationStatus_Valid (status : ReservationStatus) : bool :=
  match status with
  | ReservationHeld | ReservationCommitted | ReservationReleased | ReservationExpired => true
  | ReservationStatusUnknown _ => false
  end.

Definition CanTransitionReservation (from to : ReservationStatus) : bool :=
  bool_decide (from = ReservationHeld)
  && (bool_decide (to = ReservationCommitted) || bool_decide (to = ReservationReleased)
      || bool_decide (to = ReservationExpired)).

Record QuotaReservation := {
  qr_ID : string;
  qr_TenantID : string;
  qr_RunID : string;
  qr_SubscriptionConnectionID : string;
  qr_LocalCapacityAssociation : option LocalCapacityAssociationV1;
  qr_Status : ReservationStatus;
  qr_CapacityUnits : Z;
  qr_HeldAt : time;
  qr_ExpiresAt : time;
  qr_UpdatedAt : time }.

Definition QuotaReservation_ValidateForRun (reservation : QuotaReservation) (run : Run) : option error :=
  check Run_Validate run ;!
  check QuotaReservationID_Validate (qr_ID reservation) ;!
  check EnsureSameTenant (run_TenantID run) (qr_TenantID reservation) ;!
  reject negb (String.eqb (qr_RunID reservation) (run_ID run))
    with ValidationError "quota_reservation.run_id" "must reference the owning run" ;!
  reject negb (String.eqb (qr_SubscriptionConnectionID reservation) (run_SubscriptionConnectionID run))
    with ValidationError "quota_reservation.subscription_connection_id" "must match the owning run" ;!
  check validateCapacityIdentity (qr_TenantID reservation) (qr_SubscriptionConnectionID reservation)
          (qr_LocalCapacityAssociation reservation) ;!
  reject negb (bool_decide (qr_LocalCapacityAssociation reservation = run_LocalCapacityAssociation run))
    with ValidationError "quota_reservation.local_capacity_association" "must match the owning run" ;!
  reject negb (ReservationStatus_Valid (qr_Status reservation))
    with ValidationError "quota_reservation.status" "is unknown" ;!
  reject qr_CapacityUnits reservation =? 0
    with ValidationError "quota_reservation.capacity_units" "must be positive" ;!
  reject is_zero (qr_HeldAt reservation) || negb (after (qr_ExpiresAt reservation) (qr_HeldAt reservation))
    with ValidationError "quota_reservation.expires_at" "must be after a non-zero held_at" ;!
  reject before (qr_UpdatedAt reservation) (qr_HeldAt reservation)
    with ValidationError "quota_reservation.updated_at" "must not be before held_at" ;!
  None.

Definition QuotaReservation_Transition (p : option QuotaReservation) (to : ReservationStatus) (at_ : time)
  : option QuotaReservation * option error :=
  match p with
  | None => (p, Some (ValidationError "quota_reservation" "must not be nil"))
  | Some reservation =>
      reject negb (CanTransitionReservation (qr_Status reservation) to)
        with ValidationError "quota_reservation.status" "transition is not allowed" leaving p ;!
      reject before at_ (qr_UpdatedAt reservation)
        with ValidationError "quota_reservation.updated_at" "transition time must not move backwards" leaving p ;!
      (Some {| reservation with qr_Status := to; qr_UpdatedAt := at_ |}, None)
  end.

(** ** Observations of quota, usage and entitlement

    Their states are the strings [Admission.v] compares. *)

Definition ProviderQuotaUnknown : string := "unknown".
Definition ProviderQuotaAvailable : string := "available".
Definition ProviderQuotaLimited : string := "limited".

Definition ProviderQuotaState_Valid (state : string) : bool :=
  bool_decide (state ∈ [ProviderQuotaUnknown; ProviderQuotaAvailable; ProviderQuotaLimited; ProviderQuotaExhausted]).

Definition CanTransitionProviderQuota (from to : string) : bool :=
  if negb (ProviderQuotaState_Valid from) || negb (ProviderQuotaState_Valid to) || String.eqb from to
  then false else true.

Record ProviderQuotaSnapshot := {
  pq_TenantID : string;
  pq_SubscriptionConnectionID : string;
  pq_State : string;
  pq_Remaining : option Z;
  pq_ResetAt : option time;
  pq_ObservedAt : time }.

Definition ProviderQuotaSnapshot_Validate (snapshot : ProviderQuotaSnapshot) : option error :=
  check TenantID_Validate (pq_TenantID snapshot) ;!
  check SubscriptionConnectionID_Validate (pq_SubscriptionConnectionID snapshot) ;!
  reject negb (ProviderQuotaState_Valid (pq_State snapshot))
    with ValidationError "provider_quota.state" "is unknown" ;!
  reject is_zero (pq_ObservedAt snapshot) with ValidationError "provider_quota.observed_at" "must not be zero" ;!
  reject match pq_Remaining snapshot with Some n => n <? 0 | None => false end
    with ValidationError "provider_quota.remaining" "must not be negative" ;!
  reject String.eqb (pq_State snapshot) ProviderQuotaUnknown
         && (notnil (pq_Remaining snapshot) || notnil (pq_ResetAt snapshot))
    with ValidationError "provider_quota" "unknown quota must not fabricate remaining or reset values" ;!
  None.

Definition UsageSourceProvider : string := "provider".
Definition UsageSourceHarness : string := "harness".

Record UsageObservation := {
  uo_ID : string;
  uo_TenantID : string;
  uo_RunID : string;
  uo_AttemptID : string;
  uo_SubscriptionConnectionID : string;
  uo_LocalCapacityAssociation : option LocalCapacityAssociationV1;
  uo_Source : string;
  uo_InputTokens : option Z;
  uo_OutputTokens : option Z;
  uo_ObservedAt : time }.

Definition UsageObservation_ValidateForAttempt (observation : UsageObservation) (run : Run) (attempt : Attempt)
  : option error :=
  check Attempt_ValidateForRun attempt run ;!
  check UsageObservationID_Validate (uo_ID observation) ;!
  check EnsureSameTenant (run_TenantID run) (uo_TenantID observation) ;!
  reject negb (String.eqb (uo_RunID observation) (run_ID run))
         || negb (String.eqb (uo_AttemptID observation) (att_ID attempt))
    with ValidationError "usage_observation" "must reference the owning run and attempt" ;!
  reject negb (String.eqb (uo_SubscriptionConnectionID observation) (run_SubscriptionConnectionID run))
    with ValidationError "usage_observation.subscription_connection_id" "must match the owning run" ;!
  check validateCapacityIdentity (uo_TenantID observation) (uo_SubscriptionConnectionID observation)
          (uo_LocalCapacityAssociation observation) ;!
  reject negb (bool_decide (uo_LocalCapacityAssociation observation = run_LocalCapacityAssociation run))
    with ValidationError "usage_observation.local_capacity_association" "must match the owning run" ;!
  reject negb (String.eqb (uo_Source observation) UsageSourceProvider)
         && negb (String.eqb (uo_Source observation) UsageSourceHarness)
    with ValidationError "usage_observation.source" "is unknown" ;!
  reject isnil (uo_InputTokens observation) && isnil (uo_OutputTokens observation)
    with ValidationError "usage_observation" "must include at least one observed token count" ;!
  reject is_zero (uo_ObservedAt observation)
    with ValidationError "usage_observation.observed_at" "must not be zero" ;!
  None.

Definition EntitlementState_Valid (state : string) : bool :=
  bool_decide (state ∈ [EntitlementDisconnected; EntitlementUnknown; EntitlementActive; EntitlementInactive;
                        EntitlementReauthRequired]).

Record EntitlementSnapshot := {
  en_TenantID : string;
  en_SubscriptionConnectionID : string;
  en_State : string;
  en_ObservedAt : time }.

Definition EntitlementSnapshot_Validate (snapshot : EntitlementSnapshot) : option error :=
  check TenantID_Validate (en_TenantID snapshot) ;!
  check SubscriptionConnectionID_Validate (en_SubscriptionConnectionID snapshot) ;!
  reject negb (EntitlementState_Valid (en_State snapshot)) with ValidationError "entitlement.state" "is unknown" ;!
  reject is_zero (en_ObservedAt snapshot) with ValidationError "entitlement.observed_at" "must not be zero" ;!
  None.

(** ** Lemmas *)

(** What a valid attempt of a run is, without the error order. *)
Lemma attempt_valid_iff attempt run :
  Attempt_ValidateForRun attempt run = None <->
  (Run_Validate run = None /\ AttemptID_Validate (att_ID attempt) = None /\
   EnsureSameTenant (run_TenantID run) (att_TenantID attempt) = None /\ att_RunID attempt = run_ID run /\
   att_Number attempt <> 0 /\
   (if negb (String.eqb (att_WorkerID attempt) "")
    then ValidateOpaqueID "attempt.worker_id" (att_WorkerID attempt) else None) = None /\
   ns (att_CreatedAt attempt) <> 0) /\
  AttemptStatus_Valid (att_Status attempt) = true /\
  ns (att_CreatedAt attempt) <= ns (att_UpdatedAt attempt) /\
  notnil (att_FinishedAt attempt) = AttemptStatus_Terminal (att_Status attempt).
Proof.
  unfold Attempt_ValidateForRun. repeat (rewrite check_nil || rewrite reject_nil).
  rewrite orb_false_iff, !negb_false_iff, String.eqb_eq, Z.eqb_neq, is_zero_false, before_false, eqb_true_iff.
  intuition congruence.
Qed.

Lemma attempt_transition_inv attempt to at_ attempt' :
  Attempt_Transition (Some attempt) to at_ = (Some attempt', None) ->
  CanTransitionAttempt (att_Status attempt) to = true /\ ns (att_UpdatedAt attempt) <= ns at_ /\
  attempt' = {| attempt with att_Status := to; att_UpdatedAt := at_;
                att_FinishedAt := if AttemptStatus_Terminal to then Some at_ else att_FinishedAt attempt |}.
Proof. unfold Attempt_Transition. intros H. peel_pair H. injection H as <-. b2p. done. Qed.

Lemma attempt_transition_valid run attempt to at_ attempt' :
  Attempt_ValidateForRun attempt run = None -> Attempt_Transition (Some attempt) to at_ = (Some attempt', None) ->
  Attempt_ValidateForRun attempt' run = None.
Proof.
  rewrite !attempt_valid_iff. intros (Hid & _ & Hup & Hfin) (Hcan & Hat & ->)%attempt_transition_inv. cbn.
  destruct (att_Status attempt), to; cbn in *; try done; (split; [done |]); (split; [done |]); split; (done || lia).
Qed.

(** A sequence of calls on an attempt, and how many of them succeeded. *)
Fixpoint attempt_calls (attempt : Attempt) (calls : list (AttemptStatus * time)) : Attempt * nat :=
  match calls with
  | [] => (attempt, O)
  | (to, at_) :: rest =>
      match Attempt_Transition (Some attempt) to at_ with
      | (Some next, None) => let (last, n) := attempt_calls next rest in (last, S n)
      | _ => attempt_calls attempt rest
      end
  end.

Definition same_attempt (a b : Attempt) : Prop :=
  att_ID a = att_ID b /\ att_TenantID a = att_TenantID b /\ att_RunID a = att_RunID b /\
  att_Number a = att_Number b /\ att_WorkerID a = att_WorkerID b /\ att_CreatedAt a = att_CreatedAt b.

(** The successful calls an attempt has had at a status. *)
Definition attempt_age (status : AttemptStatus) (n : nat) : Prop :=
  match status with
  | AttemptCreated => n = 0%nat
  | AttemptRunning => n = 1%nat
  | AttemptSucceeded => n = 2%nat
  | AttemptFailed | AttemptCancelled => (1 <= n <= 2)%nat
  | AttemptStatusUnknown _ => False
  end.

Lemma attempt_calls_inv run calls : forall attempt k attempt' n,
  Attempt_ValidateForRun attempt run = None -> attempt_age (att_Status attempt) k ->
  (forall t, att_FinishedAt attempt = Some t -> t = att_UpdatedAt attempt) ->
  attempt_calls attempt calls = (attempt', n) ->
  Attempt_ValidateForRun attempt' run = None /\ attempt_age (att_Status attempt') (k + n) /\
  (forall t, att_FinishedAt attempt' = Some t -> t = att_UpdatedAt attempt') /\
  same_attempt attempt attempt' /\ ns (att_UpdatedAt attempt) <= ns (att_UpdatedAt attempt').
Proof.
  induction calls as [| [to at_] calls IH]; intros attempt k attempt' n Hv Hk Hf H; cbn [attempt_calls] in H.
  { injection H as <- <-. rewrite Nat.add_0_r. repeat split; (done || lia). }
  destruct (Attempt_Transition (Some attempt) to at_) as [[next |] [e |]] eqn:Ht; try by eapply IH.
  destruct (attempt_calls next calls) as [last m] eqn:Hc. injection H as <- <-.
  pose proof (attempt_transition_valid _ _ _ _ _ Hv Ht) as Hv'. apply attempt_transition_inv in Ht as (Hcan & Hat & ->).
  apply (IH _ (S k)) in Hc as (? & ? & ? & Hsame & ?); [| done | ..]; cbn in *.
  - rewrite Nat.add_succ_r. repeat split; try done; try apply Hsame; lia.
  - destruct (att_Status attempt), to; cbn in *; (done || lia).
  - apply attempt_valid_iff in Hv as (_ & _ & _ & Hfin).
    destruct (att_Status attempt), to, (att_FinishedAt attempt); cbn in *; by intros ? [=].
Qed.

(** ** Theorems *)

(** An attempt has at most two successful transitions. From a valid
    attempt of a run that was just created, after any sequence of transition calls,
    failing ones included: the attempt is still valid for the run, its identity is
    unchanged and its update time has not moved back; a success took exactly two
    accepted calls, every other end one or two; and once it has ended its finish
    time is the time of the last accepted call and every further call is refused
    and changes nothing. *)
Theorem attempt_lifecycle run attempt calls attempt' n :
  Attempt_ValidateForRun attempt run = None -> att_Status attempt = AttemptCreated ->
  attempt_calls attempt calls = (attempt', n) ->
  Attempt_ValidateForRun attempt' run = None /\ same_attempt attempt attempt' /\
  ns (att_UpdatedAt attempt) <= ns (att_UpdatedAt attempt') /\
  (n <= 2)%nat /\ (att_Status attempt' = AttemptSucceeded -> n = 2%nat) /\
  (AttemptStatus_Terminal (att_Status attempt') = true ->
   (1 <= n)%nat /\ att_FinishedAt attempt' = Some (att_UpdatedAt attempt') /\
   forall to at_, Attempt_Transition (Some attempt') to at_
                  = (Some attempt', Some (ValidationError "attempt.status" "transition is not allowed"))).
Proof.
  intros Hv Hs H. pose proof (proj1 (attempt_valid_iff _ _) Hv) as (_ & _ & _ & Hopen). rewrite Hs in Hopen.
  apply (attempt_calls_inv run calls _ 0) in H as (Hv' & Hage & Hfin & Hsame & Hle); [| done | by rewrite Hs |].
  2: { intros t Ht. by rewrite Ht in Hopen. }
  cbn [Nat.add] in Hage. apply attempt_valid_iff in Hv' as Hiff. destruct Hiff as (_ & _ & _ & Hn).
  split_and!; try done.
  - destruct (att_Status attempt'); cbn in Hage; lia.
  - intros Hsucc. by rewrite Hsucc in Hage.
  - intros Hterm. rewrite Hterm in Hn. destruct (att_FinishedAt attempt') as [t |]; [| done].
    rewrite (Hfin t eq_refl). unfold Attempt_Transition.
    destruct (att_Status attempt'); cbn in Hage, Hterm |- *; try done; split_and!; (done || lia).
Qed.

Definition sample_attempt : Attempt :=
  {| att_ID := "attempt-1"; att_TenantID := "acme"; att_RunID := "run-1"; att_Number := 1;
     att_Status := AttemptCreated; att_WorkerID := "worker-1"; att_CreatedAt := {| ns := 1000; loc := UTC |};
     att_UpdatedAt := {| ns := 1000; loc := UTC |}; att_FinishedAt := None |}.

Lemma attempt_lifecycle_witness :
  let at_ n := {| ns := n; loc := UTC |} in
  exists ended, attempt_calls sample_attempt
    [(AttemptSucceeded, at_ 1500); (AttemptRunning, at_ 2000); (AttemptFailed, at_ 1999); (AttemptSucceeded, at_ 3000);
     (AttemptCancelled, at_ 4000)] = (ended, 2%nat) /\
  Attempt_ValidateForRun ended sample_run = None /\ att_FinishedAt ended = Some (at_ 3000).
Proof.
  eexists. split; [vm_compute; reflexivity |].
  destruct (attempt_lifecycle sample_run sample_attempt
    [(AttemptSucceeded, {| ns := 1500; loc := UTC |}); (AttemptRunning, {| ns := 2000; loc := UTC |});
     (AttemptFailed, {| ns := 1999; loc := UTC |}); (AttemptSucceeded, {| ns := 3000; loc := UTC |});
     (AttemptCancelled, {| ns := 4000; loc := UTC |})] _ 2%nat ltac:(vm_compute; reflexivity) eq_refl eq_refl)
    as (Hv & _ & _ & _ & _ & Hend).
  split; [exact Hv | exact (proj1 (proj2 (Hend eq_refl)))].
Defined.
