(* ===== verification/StrictJson.v ===== *)
(** * Strict JSON ([internal/strictjson/parse.go], [project_strings.go])

    The bounded JSON scanner: whitespace, literals, strings with their escapes,
    numbers, objects and arrays, the two document validators and [Parse].

    The scanner keeps a buffer [b] and a position [i]; here its position is the
    remaining input [b[i:]], so [s.i == len(s.b)] is an empty remainder and the
    slice [b[start:i]] is [slice start rest].  A method that returns false ends
    the whole scan, so it is [None] (or [Reject]) and leaves no state behind.
    [value] and its two loops are recursive; they take fuel, and running out of
    it is a result of its own, [OutOfFuel]. *)

From Stdlib Require Import Ascii.
From S2P Require Import Prelude GoText Errors.
#[local] Open Scope Z_scope.

(** ** Bytes and runes *)

Definition chr (z : Z) : ascii := Ascii.ascii_of_N (Z.to_N z).

Definition slice (start rest : string) : string :=
  String.substring 0 (String.length start - String.length rest) start.

(** [utf8.AppendRune] for a rune that is no surrogate. *)
Definition encode_rune (r : Z) : string :=
  if r <? 128 then String (chr r) ""
  else if r <? 2048 then String (chr (192 + r / 64)) (String (chr (128 + r mod 64)) "")
  else if r <? 65536
  then String (chr (224 + r / 4096)) (String (chr (128 + r / 64 mod 64)) (String (chr (128 + r mod 64)) ""))
  else String (chr (240 + r / 262144)) (String (chr (128 + r / 4096 mod 64))
         (String (chr (128 + r / 64 mod 64)) (String (chr (128 + r mod 64)) ""))).

(** [utf8.RuneLen]. *)
Definition rune_len (r : Z) : Z :=
  if r <? 0 then -1 else if r <=? 127 then 1 else if r <=? 2047 then 2
  else if in_range 55296 57343 r then -1 else if r <=? 65535 then 3 else if r <=? 1114111 then 4 else -1.

Definition high_surrogate (n : Z) : bool := in_range 55296 56319 n.
Definition low_surrogate (n : Z) : bool := in_range 56320 57343 n.

(** [utf16.DecodeRune] on a valid pair. *)
Definition decode_pair (high low : Z) : Z := (high - 55296) * 1024 + (low - 56320) + 65536.

(** ** Configuration *)

Record StringBounds := { TokenBytes : Z; TotalBytes : Z }.

(** The fields of [jsonScanner] that do not change during a scan;
    [boundedStrings] with its [stringBounds] is one option. *)
Record limits := {
  l_depth : Z;
  l_members : Z;
  documentNumbers : bool;
  stringBounds : option StringBounds }.

(** The fields that change: the position and [stringBytes]. *)
Record jsonScanner := { sc_rest : string; stringBytes : Z }.

(** ** Lexical elements *)

Definition is_ws (c : ascii) : bool := (byte c =? 32) || (byte c =? 9) || (byte c =? 13) || (byte c =? 10).

Fixpoint space (s : string) : string :=
  match s with
  | String c r => if is_ws c then space r else s
  | EmptyString => s
  end.

Definition takeb (c : ascii) (s : string) : option string :=
  match s with
  | String a r => if Ascii.eqb a c then Some r else None
  | EmptyString => None
  end.

Fixpoint literal (v s : string) : option string :=
  match v, s with
  | EmptyString, _ => Some s
  | String c v, String a r => if Ascii.eqb a c then literal v r else None
  | String _ _, EmptyString => None
  end.

Definition hexDigit (c : ascii) : option Z :=
  let b := byte c in
  if in_range 48 57 b then Some (b - 48)
  else if in_range 97 102 b then Some (b - 97 + 10)
  else if in_range 65 70 b then Some (b - 65 + 10)
  else None.

Definition hex4 (a b c d : ascii) : option Z :=
  match hexDigit a, hexDigit b, hexDigit c, hexDigit d with
  | Some a, Some b, Some c, Some d => Some (((a * 16 + b) * 16 + c) * 16 + d)
  | _, _, _, _ => None
  end.

Definition quote_char : ascii := Ascii.ascii_of_nat 34.
Definition escape_char : ascii := Ascii.ascii_of_nat 92.

(** The one-letter escapes and the byte each stands for. *)
Definition simple_escape (c : ascii) : option ascii :=
  if Ascii.eqb c quote_char || Ascii.eqb c escape_char || Ascii.eqb c "/"%char then Some c
  else if Ascii.eqb c "b"%char then Some (chr 8)
  else if Ascii.eqb c "f"%char then Some (chr 12)
  else if Ascii.eqb c "n"%char then Some (chr 10)
  else if Ascii.eqb c "r"%char then Some (chr 13)
  else if Ascii.eqb c "t"%char then Some (chr 9)
  else None.

(** The loop of [string] after the opening quote: what follows the closing one. *)
Fixpoint string_tail (s : string) : option string :=
  match s with
  | EmptyString => None
  | String c r =>
      if Ascii.eqb c quote_char then Some r
      else if byte c <? 32 then None
      else if Ascii.eqb c escape_char then
        match r with
        | EmptyString => None
        | String e r =>
            if notnil (simple_escape e) then string_tail r
            else if Ascii.eqb e "u"%char then
              match r with
              | String h1 (String h2 (String h3 (String h4 r))) =>
                  match hex4 h1 h2 h3 h4 with
                  | None => None
                  | Some n =>
                      if high_surrogate n then
                        match r with
                        | String b (String u (String g1 (String g2 (String g3 (String g4 r))))) =>
                            if Ascii.eqb b escape_char && Ascii.eqb u "u"%char then
                              match hex4 g1 g2 g3 g4 with
                              | Some low => if low_surrogate low then string_tail r else None
                              | None => None
                              end
                            else None
                        | _ => None
                        end
                      else if low_surrogate n then None
                      else string_tail r
                  end
              | _ => None
              end
            else None
        end
      else string_tail r
  end.

(** [decodedStringBytes], on the token without its quotes; [None] where the
    Go loop would leave the token, which a scanned token never does. *)
Fixpoint decoded_bytes (s : string) : option Z :=
  match s with
  | EmptyString => Some 0
  | String c r =>
      if negb (Ascii.eqb c escape_char) then option_map (Z.add 1) (decoded_bytes r)
      else
        match r with
        | EmptyString => None
        | String e r =>
            if negb (Ascii.eqb e "u"%char) then option_map (Z.add 1) (decoded_bytes r)
            else
              match r with
              | String h1 (String h2 (String h3 (String h4 r))) =>
                  match hex4 h1 h2 h3 h4 with
                  | None => None
                  | Some n =>
                      if high_surrogate n then
                        match r with
                        | String _ (String _ (String g1 (String g2 (String g3 (String g4 r))))) =>
                            match hex4 g1 g2 g3 g4 with
                            | Some low => option_map (Z.add (rune_len (decode_pair n low))) (decoded_bytes r)
                            | None => None
                            end
                        | _ => None
                        end
                      else option_map (Z.add (rune_len n)) (decoded_bytes r)
                  end
              | _ => None
              end
        end
  end.

(** A token without its first and its last byte. *)
Definition token_body (token : string) : string := String.substring 1 (String.length token - 2) token.

Definition decodedStringBytes (token : string) : option Z := decoded_bytes (token_body token).

(** [json.Unmarshal] of a scanned string token into a Go string: the escapes
    are replaced, every other byte is copied. *)
Fixpoint unquote (s : string) : string :=
  match s with
  | EmptyString => ""
  | String c r =>
      if negb (Ascii.eqb c escape_char) then String c (unquote r)
      else
        match r with
        | EmptyString => ""
        | String e r =>
            match simple_escape e with
            | Some x => String x (unquote r)
            | None =>
                match r with
                | String h1 (String h2 (String h3 (String h4 r))) =>
                    match hex4 h1 h2 h3 h4 with
                    | None => ""
                    | Some n =>
                        if high_surrogate n then
                          match r with
                          | String _ (String _ (String g1 (String g2 (String g3 (String g4 r))))) =>
                              match hex4 g1 g2 g3 g4 with
                              | Some low => encode_rune (decode_pair n low) +:+ unquote r
                              | None => ""
                              end
                          | _ => ""
                          end
                        else encode_rune n +:+ unquote r
                    end
                | _ => ""
                end
            end
        end
  end.

Definition unmarshal_string (token : string) : string := unquote (token_body token).

(** [string]: the state after a string token.  With string bounds the decoded
    bytes of the token are charged. *)
Definition charge (l : limits) (bytes : Z) (token : string) : option Z :=
  match stringBounds l with
  | None => Some bytes
  | Some b =>
      match decodedStringBytes token with
      | None => None
      | Some n =>
          if (n >? TokenBytes b) || (n >? wrap_u64 (TotalBytes b - bytes)) then None
          else Some (wrap_u64 (bytes + n))
      end
  end.

Definition scan_string (l : limits) (s : jsonScanner) : option jsonScanner :=
  match takeb quote_char (sc_rest s) with
  | None => None
  | Some r =>
      match string_tail r with
      | None => None
      | Some after =>
          match charge l (stringBytes s) (slice (sc_rest s) after) with
          | None => None
          | Some total => Some {| sc_rest := after; stringBytes := total |}
          end
      end
  end.

(** The remainder after a run of digits. *)
Fixpoint skip_digits (s : string) : string :=
  match s with
  | String c r => if is_digit c then skip_digits r else s
  | EmptyString => s
  end.

(** [digits]: at least one. *)
Definition digits (s : string) : option string :=
  match s with
  | String c r => if is_digit c then Some (skip_digits r) else None
  | EmptyString => None
  end.

Definition opt_take (c : ascii) (s : string) : string :=
  match takeb c s with Some r => r | None => s end.

Definition digit_value (c : ascii) : Z := byte c - 48.

(** The loop over the exponent's digits, which stops above 324. *)
Fixpoint exponent_bounded (exponent : Z) (s : string) : bool :=
  match s with
  | EmptyString => true
  | String c r =>
      let exponent := exponent * 10 + digit_value c in
      if exponent >? 324 then false else exponent_bounded exponent r
  end.

(** The integer part of a number. *)
Definition integer_part (s : string) : option string :=
  match s with
  | EmptyString => None
  | String c r => if Ascii.eqb c "0"%char then Some r
                  else if negb (in_range 49 57 (byte c)) then None else digits s
  end.

Definition fraction_part (s : string) : option string :=
  match takeb "."%char s with Some r => digits r | None => Some s end.

(** After the exponent letter: the remainder at the first exponent digit. *)
Definition exponent_sign (s : string) : string :=
  match takeb "+"%char s with Some r => r | None => opt_take "-"%char s end.

Definition exponent_part (bounded : bool) (s : string) : option string :=
  match match takeb "e"%char s with Some r => Some r | None => takeb "E"%char s end with
  | None => Some s
  | Some r =>
      let start := exponent_sign r in
      match digits start with
      | None => None
      | Some r => if bounded && negb (exponent_bounded 0 (slice start r)) then None else Some r
      end
  end.

(** *** Machine numbers

    A token of the number grammar as a decimal: [strconv.ParseFloat] rounds its
    exact value to the nearest float64, ties to even, so it reports an overflow
    from [2^1024 - 2^970] on and returns zero up to [2^-1075]. *)

(** Mantissa, number of fraction digits and the text after the exponent letter. *)
Fixpoint decimal (mantissa scale : Z) (dot : bool) (s : string) : Z * Z * string :=
  match s with
  | EmptyString => (mantissa, scale, "")
  | String c r =>
      if Ascii.eqb c "e"%char || Ascii.eqb c "E"%char then (mantissa, scale, r)
      else if Ascii.eqb c "."%char then decimal mantissa scale true r
      else if is_digit c
      then decimal (mantissa * 10 + digit_value c) (if dot then scale + 1 else scale) dot r
      else decimal mantissa scale dot r
  end.

Fixpoint digits_value (acc : Z) (s : string) : Z :=
  match s with EmptyString => acc | String c r => digits_value (acc * 10 + digit_value c) r end.

(** A decimal exponent with an optional sign. *)
Definition signed_value (s : string) : Z :=
  match s with
  | String c r => if Ascii.eqb c "-"%char then - digits_value 0 r
                  else if Ascii.eqb c "+"%char then digits_value 0 r else digits_value 0 s
  | EmptyString => 0
  end.

(** Mantissa and decimal exponent of the value. *)
Definition number_value (token : string) : Z * Z :=
  let '(m, scale, e) := decimal 0 0 false token in (m, signed_value e - scale).

(** [m * 10^e] is at least (at most) [num / den]. *)
Definition at_least (m e num den : Z) : bool :=
  if 0 <=? e then num <=? m * 10 ^ e * den else num * 10 ^ (- e) <=? m * den.
Definition at_most (m e num den : Z) : bool :=
  if 0 <=? e then m * 10 ^ e * den <=? num else m * den <=? num * 10 ^ (- e).

Definition float_overflows (token : string) : bool :=
  let '(m, e) := number_value token in at_least m e (2 ^ 1024 - 2 ^ 970) 1.

Definition float_zero (token : string) : bool :=
  let '(m, e) := number_value token in at_most m e 1 (2 ^ 1075).

Fixpoint contains_any (f : ascii -> bool) (s : string) : bool :=
  match s with EmptyString => false | String c r => f c || contains_any f r end.

(** A nonzero digit before the exponent letter. *)
Fixpoint nonzero_mantissa (s : string) : bool :=
  match s with
  | EmptyString => false
  | String c r =>
      if Ascii.eqb c "e"%char || Ascii.eqb c "E"%char then false
      else in_range 49 57 (byte c) || nonzero_mantissa r
  end.

(** The end of [number]: the token of a finite machine number. *)
Definition machine_number (token : string) : bool :=
  (len token <=? 128) &&
  (contains_any (fun c => Ascii.eqb c "."%char || Ascii.eqb c "e"%char || Ascii.eqb c "E"%char) token
   || (digits_value 0 (opt_take "-"%char token) <=? max_u64)) &&
  negb (float_overflows token) &&
  negb (float_zero token && nonzero_mantissa token).

Definition number (l : limits) (start : string) : option string :=
  match integer_part (opt_take "-"%char start) with
  | None => None
  | Some r =>
      match fraction_part r with
      | None => None
      | Some r =>
          match exponent_part (negb (documentNumbers l)) r with
          | None => None
          | Some r => if documentNumbers l || machine_number (slice start r) then Some r else None
          end
      end
  end.

(** ** Values *)

Inductive outcome :=
| OutOfFuel
| Reject
| Accept (s : jsonScanner).

Definition accept_rest (s : jsonScanner) (r : option string) : outcome :=
  match r with Some r => Accept {| s with sc_rest := r |} | None => Reject end.

(** [value], and the loops over the members of an object and the elements of an
    array: [seen] the keys so far, [n] the count so far. *)
Fixpoint value (fuel : nat) (l : limits) (depth : Z) (s : jsonScanner) : outcome :=
  match fuel with
  | O => OutOfFuel
  | S fuel =>
      if depth >? l_depth l then Reject else
      let start := space (sc_rest s) in
      match start with
      | EmptyString => Reject
      | String c r =>
          if Ascii.eqb c "{"%char then
            match takeb "}"%char (space r) with
            | Some r => Accept {| s with sc_rest := r |}
            | None => object_loop fuel l depth [] 0 {| s with sc_rest := space r |}
            end
          else if Ascii.eqb c "["%char then
            match takeb "]"%char (space r) with
            | Some r => Accept {| s with sc_rest := r |}
            | None => array_loop fuel l depth 0 {| s with sc_rest := space r |}
            end
          else if Ascii.eqb c quote_char then
            match scan_string l {| s with sc_rest := start |} with Some s => Accept s | None => Reject end
          else if Ascii.eqb c "t"%char then accept_rest s (literal "true" start)
          else if Ascii.eqb c "f"%char then accept_rest s (literal "false" start)
          else if Ascii.eqb c "n"%char then accept_rest s (literal "null" start)
          else accept_rest s (number l start)
      end
  end
with object_loop (fuel : nat) (l : limits) (depth : Z) (seen : list string) (n : Z) (s : jsonScanner) : outcome :=
  match fuel with
  | O => OutOfFuel
  | S fuel =>
      let start := space (sc_rest s) in
      match scan_string l {| s with sc_rest := start |} with
      | None => Reject
      | Some s =>
          let key := unmarshal_string (slice start (sc_rest s)) in
          if bool_decide (key ∈ seen) then Reject
          else if n + 1 >? l_members l then Reject
          else
            match takeb ":"%char (space (sc_rest s)) with
            | None => Reject
            | Some r =>
                match value fuel l (depth + 1) {| s with sc_rest := r |} with
                | Accept s =>
                    let r := space (sc_rest s) in
                    match takeb "}"%char r with
                    | Some r => Accept {| s with sc_rest := r |}
                    | None =>
                        match takeb ","%char r with
                        | Some r => object_loop fuel l depth (key :: seen) (n + 1) {| s with sc_rest := r |}
                        | None => Reject
                        end
                    end
                | other => other
                end
            end
      end
  end
with array_loop (fuel : nat) (l : limits) (depth n : Z) (s : jsonScanner) : outcome :=
  match fuel with
  | O => OutOfFuel
  | S fuel =>
      if n + 1 >? l_members l then Reject else
      match value fuel l (depth + 1) s with
      | Accept s =>
          let r := space (sc_rest s) in
          match takeb "]"%char r with
          | Some r => Accept {| s with sc_rest := r |}
          | None =>
              match takeb ","%char r with
              | Some r => array_loop fuel l depth (n + 1) {| s with sc_rest := r |}
              | None => Reject
              end
          end
      | other => other
      end
  end.

(** ** Documents *)

Definition ErrInvalid : error := PlainError "invalid bounded JSON" None.

Definition scan_fuel (b : string) : nat := 2 * String.length b + 2.

(** The limits after saturation at the input's length and at depth 64. *)
Definition saturated (b : string) (depth members : Z) (numbers : bool) (bounds : option StringBounds) : limits :=
  {| l_depth := Z.min (Z.min depth (len b)) 64; l_members := Z.min members (len b);
     documentNumbers := numbers; stringBounds := bounds |}.

(** A scan of the whole input: one value, then only whitespace. *)
Definition scan_document (l : limits) (b : string) : option error :=
  match value (scan_fuel b) l 1 {| sc_rest := b; stringBytes := 0 |} with
  | Accept s => if String.eqb (space (sc_rest s)) "" then None else Some ErrInvalid
  | _ => Some ErrInvalid
  end.

Definition admitted_bytes (b : string) (byteLimit : Z) : bool :=
  negb ((len b =? 0) || (len b >? byteLimit) || negb (utf8_valid b)).

Definition validateDocument (b : string) (byteLimit depth members : Z) (bounds : option StringBounds) : option error :=
  reject negb (admitted_bytes b byteLimit) with ErrInvalid ;!
  scan_document (saturated b depth members true bounds) b.

Definition ValidateDocument (b : string) (byteLimit depth members : Z) : option error :=
  validateDocument b byteLimit depth members None.

Definition ValidateDocumentStringBounds (b : string) (byteLimit depth members : Z) (bounds : StringBounds)
  : option error :=
  validateDocument b byteLimit depth members (Some bounds).

(** ** Decoding

    [json.Decoder.Decode] into an [any], with [UseNumber]: a number stays its
    token, an object is the list of its members in the order of the text (a Go
    map, whose keys are distinct in every scanned document). *)

Inductive tree :=
| TNull
| TBool (b : bool)
| TNum (token : string)
| TStr (s : string)
| TArr (items : list tree)
| TObj (members : list (string * tree)).

(** A string token at the front of the input. *)
Definition decode_string (start : string) : option (string * string) :=
  match takeb quote_char start with
  | None => None
  | Some r => match string_tail r with
              | None => None
              | Some r => Some (unmarshal_string (slice start r), r)
              end
  end.

Definition number_grammar : limits :=
  {| l_depth := 0; l_members := 0; documentNumbers := true; stringBounds := None |}.

Definition decode_literal (text : string) (t : tree) (start : string) : option (tree * string) :=
  match literal text start with Some r => Some (t, r) | None => None end.

Fixpoint decode_value (fuel : nat) (s : string) : option (tree * string) :=
  match fuel with
  | O => None
  | S fuel =>
      let start := space s in
      match start with
      | EmptyString => None
      | String c r =>
          if Ascii.eqb c "{"%char then
            match takeb "}"%char (space r) with
            | Some r => Some (TObj [], r)
            | None => match decode_members fuel (space r) with Some (l, r) => Some (TObj l, r) | None => None end
            end
          else if Ascii.eqb c "["%char then
            match takeb "]"%char (space r) with
            | Some r => Some (TArr [], r)
            | None => match decode_items fuel (space r) with Some (l, r) => Some (TArr l, r) | None => None end
            end
          else if Ascii.eqb c quote_char then
            match decode_string start with Some (x, r) => Some (TStr x, r) | None => None end
          else if Ascii.eqb c "t"%char then decode_literal "true" (TBool true) start
          else if Ascii.eqb c "f"%char then decode_literal "false" (TBool false) start
          else if Ascii.eqb c "n"%char then decode_literal "null" TNull start
          else match number number_grammar start with Some r => Some (TNum (slice start r), r) | None => None end
      end
  end
with decode_members (fuel : nat) (s : string) : option (list (string * tree) * string) :=
  match fuel with
  | O => None
  | S fuel =>
      match decode_string (space s) with
      | None => None
      | Some (key, r) =>
          match takeb ":"%char (space r) with
          | None => None
          | Some r =>
              match decode_value fuel r with
              | None => None
              | Some (x, r) =>
                  match takeb "}"%char (space r) with
                  | Some r => Some ([(key, x)], r)
                  | None =>
                      match takeb ","%char (space r) with
                      | None => None
                      | Some r => match decode_members fuel r with
                                  | Some (l, r) => Some ((key, x) :: l, r) | None => None end
                      end
                  end
              end
          end
      end
  end
with decode_items (fuel : nat) (s : string) : option (list tree * string) :=
  match fuel with
  | O => None
  | S fuel =>
      match decode_value fuel s with
      | None => None
      | Some (x, r) =>
          match takeb "]"%char (space r) with
          | Some r => Some ([x], r)
          | None =>
              match takeb ","%char (space r) with
              | None => None
              | Some r => match decode_items fuel r with Some (l, r) => Some (x :: l, r) | None => None end
              end
          end
      end
  end.

Definition Parse (b : string) (byteLimit depth members : Z) : error + tree :=
  if negb (admitted_bytes b byteLimit) then inl ErrInvalid else
  match scan_document (saturated b depth members false None) b with
  | Some e => inl e
  | None => match decode_value (scan_fuel b) b with Some (t, _) => inr t | None => inl ErrInvalid end
  end.

#[global] Arguments is_ws : simpl never.
#[global] Arguments hex4 : simpl never.
#[global] Arguments simple_escape : simpl never.
#[global] Arguments high_surrogate : simpl never.
#[global] Arguments low_surrogate : simpl never.
#[global] Arguments encode_rune : simpl never.
#[global] Arguments decode_pair : simpl never.
#[global] Arguments rune_len : simpl never.
#[global] Arguments slice : simpl never.
#[global] Arguments machine_number : simpl never.
#[global] Arguments chr : simpl never.
