(* ===== verification/JsonGrammar.v ===== *)
(** * The JSON grammar and the strict scanner

    An independent statement of what [StrictJson.v] scans: the grammar of JSON
    texts as relations between a text and the tree it denotes, the limits as
    predicates on the tree, and the proof that the scanner accepts exactly the
    texts of the grammar within the limits, with the fuel it is given. *)

From Stdlib Require Import Ascii.
From S2P Require Import Prelude GoText Errors StrictJson.
#[local] Open Scope Z_scope.

(** ** Texts *)

Definition ws (s : string) : Prop := all_bytes is_ws s = true.

(** The content of a string token and the string it denotes. *)
Inductive chars : string -> string -> Prop :=
| ch_nil : chars "" ""
| ch_plain c body s :
    32 <= byte c -> c <> quote_char -> c <> escape_char ->
    chars body s -> chars (String c body) (String c s)
| ch_simple c x body s :
    simple_escape c = Some x -> chars body s ->
    chars (String escape_char (String c body)) (String x s)
| ch_unicode h1 h2 h3 h4 n body s :
    hex4 h1 h2 h3 h4 = Some n -> high_surrogate n = false -> low_surrogate n = false -> chars body s ->
    chars (String escape_char (String "u" (String h1 (String h2 (String h3 (String h4 body)))))) (encode_rune n +:+ s)
| ch_pair h1 h2 h3 h4 n g1 g2 g3 g4 m body s :
    hex4 h1 h2 h3 h4 = Some n -> high_surrogate n = true ->
    hex4 g1 g2 g3 g4 = Some m -> low_surrogate m = true -> chars body s ->
    chars (String escape_char (String "u" (String h1 (String h2 (String h3 (String h4
            (String escape_char (String "u" (String g1 (String g2 (String g3 (String g4 body))))))))))))
          (encode_rune (decode_pair n m) +:+ s).

Definition token (body : string) : string := dquote +:+ body +:+ dquote.

(** A nonempty run of digits. *)
Definition digit_run (s : string) : Prop := s <> "" /\ all_bytes is_digit s = true.

Inductive number_text : string -> Prop :=
| nt_number sign int frac exp :
    sign = "" \/ sign = "-" ->
    int = "0" \/ (digit_run int /\ exists c r, int = String c r /\ in_range 49 57 (byte c) = true) ->
    frac = "" \/ (exists d, frac = "." +:+ d /\ digit_run d) ->
    exp = "" \/ (exists e g d, exp = e +:+ g +:+ d /\ (e = "e" \/ e = "E") /\ (g = "" \/ g = "+" \/ g = "-") /\ digit_run d) ->
    number_text (sign +:+ int +:+ frac +:+ exp).

Inductive value_text : string -> tree -> Prop :=
| vt_null : value_text "null" TNull
| vt_true : value_text "true" (TBool true)
| vt_false : value_text "false" (TBool false)
| vt_num v : number_text v -> value_text v (TNum v)
| vt_str body s : chars body s -> value_text (token body) (TStr s)
| vt_arr_nil w : ws w -> value_text ("[" +:+ w +:+ "]") (TArr [])
| vt_arr x l : items_text x l -> value_text ("[" +:+ x +:+ "]") (TArr l)
| vt_obj_nil w : ws w -> value_text ("{" +:+ w +:+ "}") (TObj [])
| vt_obj x l : members_text x l -> value_text ("{" +:+ x +:+ "}") (TObj l)
with items_text : string -> list tree -> Prop :=
| it_one w1 v t w2 : ws w1 -> value_text v t -> ws w2 -> items_text (w1 +:+ v +:+ w2) [t]
| it_more w1 v t w2 x l :
    ws w1 -> value_text v t -> ws w2 -> items_text x l -> items_text (w1 +:+ v +:+ w2 +:+ "," +:+ x) (t :: l)
with members_text : string -> list (string * tree) -> Prop :=
| mt_one w1 body k w2 w3 v t w4 :
    ws w1 -> chars body k -> ws w2 -> ws w3 -> value_text v t -> ws w4 ->
    members_text (w1 +:+ token body +:+ w2 +:+ ":" +:+ w3 +:+ v +:+ w4) [(k, t)]
| mt_more w1 body k w2 w3 v t w4 x l :
    ws w1 -> chars body k -> ws w2 -> ws w3 -> value_text v t -> ws w4 -> members_text x l ->
    members_text (w1 +:+ token body +:+ w2 +:+ ":" +:+ w3 +:+ v +:+ w4 +:+ "," +:+ x) ((k, t) :: l).

Scheme value_text_mut := Induction for value_text Sort Prop
  with items_text_mut := Induction for items_text Sort Prop
  with members_text_mut := Induction for members_text Sort Prop.
Combined Scheme text_mut from value_text_mut, items_text_mut, members_text_mut.

(** A document: one value between whitespace. *)
Definition document_text (b : string) (t : tree) : Prop :=
  exists w1 v w2, b = w1 +:+ v +:+ w2 /\ ws w1 /\ value_text v t /\ ws w2.

(** ** Limits on the tree *)

(** The exponent of a number token. *)
Definition exponent (v : string) : Z := signed_value (snd (decimal 0 0 false v)).

Definition number_fits (l : limits) (v : string) : bool :=
  documentNumbers l || ((Z.abs (exponent v) <=? 324) && machine_number v).

(** The value at [depth] respects the limits on nesting, on the length of every
    container, on numbers, and has no duplicate keys. *)
Fixpoint fits (l : limits) (depth : Z) (t : tree) : bool :=
  (depth <=? l_depth l) &&
  match t with
  | TNum v => number_fits l v
  | TArr items => (Z.of_nat (length items) <=? l_members l) && forallb (fits l (depth + 1)) items
  | TObj ms =>
      (Z.of_nat (length ms) <=? l_members l) && forallb (fun m => fits l (depth + 1) (snd m)) ms
      && bool_decide (NoDup (map fst ms))
  | _ => true
  end.

(** Every key and string of the tree, in the order of the text. *)
Fixpoint strings (t : tree) : list string :=
  match t with
  | TStr s => [s]
  | TArr items => flat_map strings items
  | TObj ms => flat_map (fun m => fst m :: strings (snd m)) ms
  | _ => []
  end.

(** Charging a list of strings, one after the other. *)
Definition charge_string (l : limits) (bytes : Z) (s : string) : option Z :=
  match stringBounds l with
  | None => Some bytes
  | Some b =>
      if (len s >? TokenBytes b) || (len s >? wrap_u64 (TotalBytes b - bytes)) then None
      else Some (wrap_u64 (bytes + len s))
  end.

Fixpoint charges (l : limits) (bytes : Z) (ss : list string) : option Z :=
  match ss with
  | [] => Some bytes
  | s :: ss => match charge_string l bytes s with Some bytes => charges l bytes ss | None => None end
  end.

Lemma charges_app l ss ss' : forall bytes,
  charges l bytes (ss ++ ss') = match charges l bytes ss with Some b => charges l b ss' | None => None end.
Proof. induction ss as [| s ss IH]; intros bytes; cbn; [done |]. by destruct (charge_string l bytes s). Qed.

(** ** Lexical lemmas *)

Lemma slice_app a r : slice (a +:+ r) r = a.
Proof.
  unfold slice. rewrite string_length_app, Nat.add_sub.
  induction a as [| c a IH]; [by destruct r |].
  change (String c (String.substring 0 (String.length a) (a +:+ r)) = String c a). by rewrite IH.
Qed.

Lemma takeb_spec c s r : takeb c s = Some r <-> s = String c r.
Proof.
  destruct s as [| a s]; cbn; [split; done |]. destruct (Ascii.eqb_spec a c); naive_solver.
Qed.

Lemma takeb_here c r : takeb c (String c r) = Some r.
Proof. by apply takeb_spec. Qed.

Lemma takeb_other c a r : a <> c -> takeb c (String a r) = None.
Proof. intros H. cbn. by rewrite (proj2 (Ascii.eqb_neq a c)). Qed.

Lemma literal_spec v : forall s r, literal v s = Some r <-> s = v +:+ r.
Proof.
  induction v as [| c v IH]; intros s r; cbn; [naive_solver |]. destruct s as [| a s]; [split; done |].
  destruct (Ascii.eqb_spec a c) as [-> | Hne]; [rewrite IH |]; split; try naive_solver; intros H; by injection H.
Qed.

(** The head of a string satisfies [f], or the string is empty. *)
Definition head_is (f : ascii -> bool) (s : string) : Prop :=
  match s with EmptyString => True | String c _ => f c = true end.

Lemma space_split s : exists w, s = w +:+ space s /\ ws w /\ head_is (fun c => negb (is_ws c)) (space s).
Proof.
  induction s as [| c s IH]; cbn; [by exists "" |]. destruct (is_ws c) eqn:Hc.
  - destruct IH as (w & Hs & Hw & Hh). exists (String c w). split_and!; [| | done].
    + exact (f_equal (String c) Hs).
    + unfold ws. cbn. by rewrite Hc.
  - exists "". split_and!; [done | done |]. cbn. by rewrite Hc.
Qed.

Lemma space_app w x : ws w -> space (w +:+ x) = space x.
Proof.
  unfold ws. induction w as [| c w IH]; [done |]. rewrite string_app_cons. cbn.
  intros [Hc Hw]%andb_true_iff. rewrite Hc. by apply IH.
Qed.

Lemma space_stop x : head_is (fun c => negb (is_ws c)) x -> space x = x.
Proof. destruct x as [| c x]; [done |]. cbn. by destruct (is_ws c). Qed.

Lemma space_space x : space (space x) = space x.
Proof. destruct (space_split x) as (_ & _ & _ & H). by apply space_stop. Qed.

Lemma ws_app w w' : ws w -> ws w' -> ws (w +:+ w').
Proof. unfold ws. rewrite all_bytes_app. by intros -> ->. Qed.

Lemma ws_nil : ws "".
Proof. done. Qed.

#[export] Hint Resolve ws_app ws_nil : json.

(** What may follow a value: whitespace, a separator, a closing bracket or the end. *)
Definition follows (c : ascii) : bool :=
  is_ws c || Ascii.eqb c ","%char || Ascii.eqb c "]"%char || Ascii.eqb c "}"%char.

Definition follow (r : string) : Prop := head_is follows r.

Lemma follow_ws w x : ws w -> follow x -> follow (w +:+ x).
Proof.
  unfold ws, follow. destruct w as [| c w]; [done |]. rewrite string_app_cons. cbn.
  intros [Hc _]%andb_true_iff _. unfold follows. by rewrite Hc.
Qed.

#[export] Hint Resolve follow_ws : json.

(** ** Strings *)

Lemma length_cons c s : String.length (String c s) = S (String.length s).
Proof. done. Qed.

(** Every scanned string is a string of the grammar, and conversely. *)
Lemma string_tail_sound n : forall s r, (String.length s <= n)%nat -> string_tail s = Some r ->
  exists body x, s = body +:+ dquote +:+ r /\ chars body x.
Proof.
  induction n as [| n IH]; intros s r Hn H; destruct s as [| c s]; cbn in Hn; try lia; [done | done |].
  cbn in H. destruct (Ascii.eqb_spec c quote_char) as [-> | Hq].
  { injection H as <-. exists "", "". split; [done | constructor]. }
  destruct (Z.ltb_spec (byte c) 32) as [| Hctl]; [done |].
  destruct (Ascii.eqb_spec c escape_char) as [-> | Hesc].
  2:{ destruct (IH s r ltac:(lia) H) as (body & x & -> & Hb). exists (String c body), (String c x).
      split; [done | by constructor]. }
  destruct s as [| e s]; [done |]. cbn in Hn. destruct (simple_escape e) as [x0 |] eqn:He; cbn in H.
  { destruct (IH s r ltac:(lia) H) as (body & x & -> & Hb). eexists _, _.
    split; [| eapply ch_simple; eassumption]. done. }
  destruct (Ascii.eqb_spec e "u"%char) as [-> | _]; [| done].
  destruct s as [| h1 [| h2 [| h3 [| h4 s]]]]; try done. cbn in Hn.
  destruct (hex4 h1 h2 h3 h4) as [m |] eqn:Hm; [| done]. destruct (high_surrogate m) eqn:Hhi.
  - destruct s as [| b [| u [| g1 [| g2 [| g3 [| g4 s]]]]]]; try done. cbn in Hn.
    destruct (Ascii.eqb_spec b escape_char) as [-> | _]; [| done].
    destruct (Ascii.eqb_spec u "u"%char) as [-> | _]; [| done]. cbn in H.
    destruct (hex4 g1 g2 g3 g4) as [lo |] eqn:Hlo; [| done]. destruct (low_surrogate lo) eqn:Hl; [| done].
    destruct (IH s r ltac:(lia) H) as (body & x & -> & Hb). eexists _, _. split; [| exact (ch_pair _ _ _ _ _ _ _ _ _ _ _ _ Hm Hhi Hlo Hl Hb)]. done.
  - destruct (low_surrogate m) eqn:Hl; [done |].
    destruct (IH s r ltac:(lia) H) as (body & x & -> & Hb). eexists _, _. split; [| eapply ch_unicode; eassumption]. done.
Qed.

Lemma string_tail_complete body x r : chars body x -> string_tail (body +:+ dquote +:+ r) = Some r.
Proof.
  induction 1 as [| c body s Hc Hq He _ IH | c x body s Hx _ IH | h1 h2 h3 h4 n body s Hn Hhi Hlo _ IH
                  | h1 h2 h3 h4 n g1 g2 g3 g4 m body s Hn Hhi Hm Hlo _ IH]; [done | ..];
    autorewrite with strapp; cbn -[quote_char escape_char dquote].
  - rewrite (proj2 (Ascii.eqb_neq _ _) Hq), (proj2 (Ascii.eqb_neq _ _) He), (proj2 (Z.ltb_ge _ _)) by done. done.
  - by rewrite Hx.
  - rewrite Hn, Hhi, Hlo. done.
  - rewrite Hn, Hhi, Hm, Hlo. done.
Qed.

Lemma hexDigit_range c v : hexDigit c = Some v -> 0 <= v < 16.
Proof. unfold hexDigit, in_range. intros H. repeat case_match; simplify_eq; b2p; lia. Qed.

Lemma hex4_range a b c d n : hex4 a b c d = Some n -> 0 <= n < 65536.
Proof.
  unfold hex4. intros H. destruct (hexDigit a) eqn:Ha, (hexDigit b) eqn:Hb, (hexDigit c) eqn:Hc, (hexDigit d) eqn:Hd;
    try done. apply hexDigit_range in Ha, Hb, Hc, Hd. injection H as <-. lia.
Qed.

Lemma rune_len_bmp n :
  0 <= n < 65536 -> high_surrogate n = false -> low_surrogate n = false -> rune_len n = len (encode_rune n).
Proof.
  unfold rune_len, encode_rune, high_surrogate, low_surrogate, in_range. intros Hn H1 H2. b2p.
  destruct (Z.ltb_spec n 0), (Z.leb_spec n 127), (Z.ltb_spec n 128), (Z.leb_spec n 2047), (Z.ltb_spec n 2048),
    (Z.leb_spec 55296 n), (Z.leb_spec n 57343), (Z.leb_spec n 65535), (Z.ltb_spec n 65536); cbn; try lia; done.
Qed.

Lemma rune_len_pair n m :
  high_surrogate n = true -> low_surrogate m = true -> rune_len (decode_pair n m) = len (encode_rune (decode_pair n m)).
Proof.
  unfold high_surrogate, low_surrogate, in_range. intros H1 H2. b2p.
  assert (65536 <= decode_pair n m <= 1114111) as Hr by (unfold decode_pair; lia).
  revert Hr. generalize (decode_pair n m). clear n m H1 H2. intros n Hn. unfold rune_len, encode_rune, in_range.
  destruct (Z.ltb_spec n 0), (Z.leb_spec n 127), (Z.ltb_spec n 128), (Z.leb_spec n 2047), (Z.ltb_spec n 2048),
    (Z.leb_spec 55296 n), (Z.leb_spec n 57343), (Z.leb_spec n 65535), (Z.ltb_spec n 65536), (Z.leb_spec n 1114111);
    cbn; try lia; done.
Qed.

Lemma unquote_chars body x : chars body x -> unquote body = x.
Proof.
  induction 1 as [| c body s Hc Hq He _ IH | c x body s Hx _ IH | h1 h2 h3 h4 n body s Hn Hhi Hlo _ IH
                  | h1 h2 h3 h4 n g1 g2 g3 g4 m body s Hn Hhi Hm Hlo _ IH]; [done | ..];
    cbn -[quote_char escape_char].
  - rewrite (proj2 (Ascii.eqb_neq _ _) He). cbn. by rewrite IH.
  - rewrite Ascii.eqb_refl, Hx. cbn. by rewrite IH.
  - change (simple_escape "u") with (@None ascii). rewrite Ascii.eqb_refl, Hn, Hhi. cbn. by rewrite IH.
  - change (simple_escape "u") with (@None ascii). rewrite Ascii.eqb_refl, Hn, Hhi, Hm. cbn. by rewrite IH.
Qed.

Lemma decoded_bytes_chars body x : chars body x -> decoded_bytes body = Some (len x).
Proof.
  induction 1 as [| c body s Hc Hq He _ IH | c x body s Hx _ IH | h1 h2 h3 h4 n body s Hn Hhi Hlo _ IH
                  | h1 h2 h3 h4 n g1 g2 g3 g4 m body s Hn Hhi Hm Hlo _ IH]; [done | ..];
    cbn -[quote_char escape_char len].
  - rewrite (proj2 (Ascii.eqb_neq _ _) He), IH. cbn -[len]. f_equal. unfold len. rewrite length_cons. lia.
  - rewrite Ascii.eqb_refl. destruct (Ascii.eqb_spec c "u"%char) as [-> | _]; [done |].
    cbn -[len]. rewrite IH. cbn -[len]. f_equal. unfold len. rewrite length_cons. lia.
  - rewrite !Ascii.eqb_refl, Hn, Hhi, IH. cbn -[len].
    by rewrite len_app, rune_len_bmp by eauto using hex4_range.
  - rewrite !Ascii.eqb_refl, Hn, Hhi, Hm, IH. cbn -[len]. by rewrite len_app, rune_len_pair.
Qed.

Lemma token_body_token body : token_body (token body) = body.
Proof.
  unfold token_body, token. rewrite !string_length_app. cbn [String.length dquote].
  replace (1 + (String.length body + 1) - 2)%nat with (String.length body) by lia.
  change (String.substring 0 (String.length body) (body +:+ dquote) = body).
  pose proof (slice_app body dquote) as H. unfold slice in H. rewrite string_length_app, Nat.add_sub in H. done.
Qed.

Lemma token_cons body r : token body +:+ r = String quote_char (body +:+ dquote +:+ r).
Proof. unfold token. by rewrite !string_app_assoc. Qed.

Lemma charge_token l bytes body x : chars body x -> charge l bytes (token body) = charge_string l bytes x.
Proof.
  intros H. unfold charge, charge_string, decodedStringBytes. rewrite token_body_token, (decoded_bytes_chars _ _ H). done.
Qed.

Lemma scan_string_complete l body x r bytes bytes' :
  chars body x -> charge_string l bytes x = Some bytes' ->
  scan_string l {| sc_rest := token body +:+ r; stringBytes := bytes |} = Some {| sc_rest := r; stringBytes := bytes' |}.
Proof.
  intros Hc Hb. unfold scan_string. cbn [sc_rest stringBytes].
  assert (takeb quote_char (token body +:+ r) = Some (body +:+ dquote +:+ r)) as ->.
  { apply takeb_spec, token_cons. }
  rewrite (string_tail_complete _ x) by done. rewrite slice_app, (charge_token _ _ _ x), Hb by done. done.
Qed.

Lemma scan_string_sound l s s' :
  scan_string l s = Some s' ->
  exists body x, sc_rest s = token body +:+ sc_rest s' /\ chars body x /\
                 charge_string l (stringBytes s) x = Some (stringBytes s') /\
                 unmarshal_string (slice (sc_rest s) (sc_rest s')) = x.
Proof.
  unfold scan_string. destruct (takeb quote_char (sc_rest s)) as [r |] eqn:Ht; [| done].
  apply takeb_spec in Ht. destruct (string_tail r) as [after |] eqn:Hr; [| done].
  destruct (string_tail_sound _ _ _ (le_n _) Hr) as (body & x & Hbody & Hc).
  assert (sc_rest s = token body +:+ after) as Hs.
  { rewrite Ht, Hbody. unfold token. by rewrite !string_app_assoc. }
  rewrite Hs, slice_app, (charge_token _ _ _ x) by done. destruct (charge_string l (stringBytes s) x) as [total |] eqn:Hb; [| done].
  intros [= <-]. cbn [sc_rest stringBytes]. exists body, x. split_and!; [done | done | done |].
  unfold unmarshal_string. rewrite slice_app, token_body_token. by apply unquote_chars.
Qed.

Lemma decode_string_complete body x r :
  chars body x -> decode_string (token body +:+ r) = Some (x, r).
Proof.
  intros Hc. unfold decode_string.
  assert (takeb quote_char (token body +:+ r) = Some (body +:+ dquote +:+ r)) as ->.
  { apply takeb_spec, token_cons. }
  rewrite (string_tail_complete _ x) by done. unfold unmarshal_string.
  by rewrite slice_app, token_body_token, (unquote_chars _ x).
Qed.

(** ** Numbers *)

Definition no_digit (s : string) : Prop := head_is (fun c => negb (is_digit c)) s.

Lemma skip_digits_split s :
  exists d, s = d +:+ skip_digits s /\ all_bytes is_digit d = true /\ no_digit (skip_digits s).
Proof.
  induction s as [| c s IH]; cbn [skip_digits]; [by exists "" |]. destruct (is_digit c) eqn:Hc.
  - destruct IH as (d & Hs & Hd & Hh). exists (String c d). split_and!; [exact (f_equal (String c) Hs) | | done].
    cbn [all_bytes]. by rewrite Hc.
  - exists "". split_and!; [done | done |]. unfold no_digit. cbn [head_is]. by rewrite Hc.
Qed.

Lemma skip_digits_app d r : all_bytes is_digit d = true -> no_digit r -> skip_digits (d +:+ r) = r.
Proof.
  intros Hd Hr. induction d as [| c d IH].
  - unfold no_digit in Hr. destruct r as [| c r]; [done |]. cbn [skip_digits head_is string_app_nil_l] in *.
    change ("" +:+ String c r) with (String c r). cbn [skip_digits]. by destruct (is_digit c).
  - rewrite string_app_cons. cbn [all_bytes skip_digits] in *. apply andb_true_iff in Hd as [-> Hd]. by apply IH.
Qed.

Lemma digits_sound s r : digits s = Some r -> exists d, s = d +:+ r /\ digit_run d /\ no_digit r.
Proof.
  unfold digits. destruct s as [| c s]; [done |]. destruct (is_digit c) eqn:Hc; [| done]. intros [= <-].
  destruct (skip_digits_split s) as (d & Hs & Hd & Hh). exists (String c d). split_and!; [| | done].
  - exact (f_equal (String c) Hs).
  - split; [done |]. cbn [all_bytes]. by rewrite Hc.
Qed.

Lemma digits_complete d r : digit_run d -> no_digit r -> digits (d +:+ r) = Some r.
Proof.
  intros [Hne Hd] Hr. destruct d as [| c d]; [done |]. rewrite string_app_cons. cbn [digits all_bytes] in *.
  apply andb_true_iff in Hd as [-> Hd]. by rewrite skip_digits_app.
Qed.

(** The text after the exponent letter. *)
Fixpoint after_e (s : string) : string :=
  match s with
  | EmptyString => ""
  | String c r => if Ascii.eqb c "e"%char || Ascii.eqb c "E"%char then r else after_e r
  end.

Lemma decimal_after_e s : forall m sc dot, snd (decimal m sc dot s) = after_e s.
Proof. induction s as [| c s IH]; intros m sc dot; cbn [decimal after_e]; [done |]. repeat case_match; auto. Qed.

Definition no_e (s : string) : Prop :=
  all_bytes (fun c => negb (Ascii.eqb c "e"%char || Ascii.eqb c "E"%char)) s = true.

Lemma after_e_skip p q : no_e p -> after_e (p +:+ q) = after_e q.
Proof.
  unfold no_e. induction p as [| c p IH]; [done |]. rewrite string_app_cons. cbn [all_bytes after_e].
  intros [Hc Hp]%andb_true_iff. apply negb_true_iff in Hc as ->. auto.
Qed.

Lemma no_e_app p q : no_e p -> no_e q -> no_e (p +:+ q).
Proof. unfold no_e. rewrite all_bytes_app. by intros -> ->. Qed.

Lemma digits_no_e d : all_bytes is_digit d = true -> no_e d.
Proof.
  apply all_bytes_mono. intros a Ha. apply negb_true_iff, orb_false_iff.
  split; apply Ascii.eqb_neq; intros ->; vm_compute in Ha; done.
Qed.

Lemma digits_value_ge d : forall acc, 0 <= acc -> all_bytes is_digit d = true -> acc <= digits_value acc d.
Proof.
  induction d as [| c d IH]; intros acc Ha Hd; cbn [digits_value all_bytes] in *; [lia |].
  apply andb_true_iff in Hd as [Hc Hd]. assert (0 <= digit_value c) by (unfold is_digit, in_range, digit_value in *; b2p; lia).
  specialize (IH (acc * 10 + digit_value c) ltac:(lia) Hd). lia.
Qed.

Lemma exponent_bounded_value d : forall acc, 0 <= acc <= 324 -> all_bytes is_digit d = true ->
  exponent_bounded acc d = (digits_value acc d <=? 324).
Proof.
  induction d as [| c d IH]; intros acc Ha Hd; cbn [exponent_bounded digits_value all_bytes] in *.
  { symmetry. apply Z.leb_le. lia. }
  apply andb_true_iff in Hd as [Hc Hd]. assert (0 <= digit_value c) by (unfold is_digit, in_range, digit_value in *; b2p; lia).
  destruct (Z.gtb_spec (acc * 10 + digit_value c) 324); [| apply IH; [lia | done]].
  symmetry. apply Z.leb_gt. pose proof (digits_value_ge d (acc * 10 + digit_value c) ltac:(lia) Hd). lia.
Qed.

Lemma signed_value_abs g d :
  g = "" \/ g = "+" \/ g = "-" -> digit_run d -> Z.abs (signed_value (g +:+ d)) = digits_value 0 d.
Proof.
  intros Hg [Hne Hd]. pose proof (digits_value_ge d 0 ltac:(lia) Hd).
  destruct Hg as [-> | [-> | ->]]; rewrite ?string_app_cons, string_app_nil_l; [| cbn; lia | cbn; lia].
  destruct d as [| c d]; [done |]. cbn [signed_value].
  destruct (Ascii.eqb_spec c "-"%char) as [-> | _]; [done |]. destruct (Ascii.eqb_spec c "+"%char) as [-> | _]; [done | lia].
Qed.

(** The parts of a number, as the scanner reads them. *)
Definition int_text (s : string) : Prop :=
  s = "0" \/ (digit_run s /\ exists c r, s = String c r /\ in_range 49 57 (byte c) = true).
Definition frac_text (s : string) : Prop := s = "" \/ exists d, s = "." +:+ d /\ digit_run d.
Definition exp_text (s : string) : Prop :=
  s = "" \/ (exists e g d, s = e +:+ g +:+ d /\ (e = "e" \/ e = "E") /\ (g = "" \/ g = "+" \/ g = "-") /\ digit_run d).

Lemma int_text_run s : int_text s -> digit_run s.
Proof. intros [-> | [H _]]; done. Qed.

Lemma exponent_parts sign int frac exp :
  sign = "" \/ sign = "-" -> int_text int -> frac_text frac ->
  exponent (sign +:+ int +:+ frac +:+ exp) = signed_value (after_e exp).
Proof.
  intros Hs Hi%int_text_run Hf. unfold exponent. rewrite decimal_after_e. f_equal. rewrite <- !string_app_assoc.
  apply after_e_skip. repeat apply no_e_app.
  - by destruct Hs as [-> | ->].
  - by apply digits_no_e, Hi.
  - destruct Hf as [-> | (d & -> & Hd)]; [done |]. apply no_e_app; [done |]. by apply digits_no_e, Hd.
Qed.

Lemma opt_take_split c s : exists p, s = p +:+ opt_take c s /\ (p = "" \/ p = String c "").
Proof.
  unfold opt_take. destruct (takeb c s) as [r |] eqn:H; [| by exists ""; auto].
  apply takeb_spec in H as ->. exists (String c ""). auto.
Qed.

Lemma integer_part_sound s r : integer_part s = Some r -> exists i, s = i +:+ r /\ int_text i.
Proof.
  unfold integer_part. destruct s as [| c s]; [done |]. destruct (Ascii.eqb_spec c "0"%char) as [-> | _].
  { intros [= ->]. exists "0". split; [done | by left]. }
  destruct (in_range 49 57 (byte c)) eqn:Hc; [| done]. cbn [negb]. intros (d & Hs & Hd & Hr)%digits_sound.
  exists d. split; [done |]. right. split; [done |]. destruct d as [| c' d]; [by destruct Hd |].
  injection Hs as <- _. eauto.
Qed.

Lemma fraction_part_sound s r : fraction_part s = Some r -> exists f, s = f +:+ r /\ frac_text f.
Proof.
  unfold fraction_part. destruct (takeb "."%char s) as [r1 |] eqn:Ht.
  - apply takeb_spec in Ht as ->. intros (d & -> & Hd & _)%digits_sound. exists ("." +:+ d). split; [done | right; eauto].
  - intros [= ->]. exists "". split; [done | by left].
Qed.

Lemma exponent_sign_split s : exists g, s = g +:+ exponent_sign s /\ (g = "" \/ g = "+" \/ g = "-").
Proof.
  unfold exponent_sign. destruct (takeb "+"%char s) as [r |] eqn:Ht.
  - apply takeb_spec in Ht as ->. exists "+". auto.
  - destruct (opt_take_split "-"%char s) as (p & Hp & [-> | ->]); [exists "" | exists "-"]; auto.
Qed.

Lemma exponent_part_sound bounded s r :
  exponent_part bounded s = Some r ->
  exists x, s = x +:+ r /\ exp_text x /\ (bounded = true -> Z.abs (signed_value (after_e x)) <= 324).
Proof.
  unfold exponent_part.
  assert (forall e s1, e = "e" \/ e = "E" -> s = e +:+ s1 ->
    match digits (exponent_sign s1) with
    | Some r => if bounded && negb (exponent_bounded 0 (slice (exponent_sign s1) r)) then None else Some r
    | None => None end = Some r ->
    exists x, s = x +:+ r /\ exp_text x /\ (bounded = true -> Z.abs (signed_value (after_e x)) <= 324)) as Hexp.
  { intros e s1 He -> H. destruct (exponent_sign_split s1) as (g & Hs1 & Hg). rewrite Hs1.
    destruct (digits (exponent_sign s1)) as [r1 |] eqn:Hd; [| done]. apply digits_sound in Hd as (d & Hd & Hrun & _).
    rewrite Hd, slice_app in H. exists (e +:+ g +:+ d). destruct (bounded && negb (exponent_bounded 0 d)) eqn:Hb; [done |].
    injection H as <-. split_and!.
    - rewrite Hd. by rewrite !string_app_assoc.
    - right. exists e, g, d. auto.
    - intros ->. cbn in Hb. apply negb_false_iff in Hb. rewrite exponent_bounded_value in Hb by (apply Hrun || lia).
      replace (after_e (e +:+ g +:+ d)) with (g +:+ d) by (destruct He as [-> | ->]; reflexivity).
      rewrite signed_value_abs by done. by apply Z.leb_le. }
  destruct (takeb "e"%char s) as [s1 |] eqn:Ht; [| destruct (takeb "E"%char s) as [s1 |] eqn:Ht'].
  - apply takeb_spec in Ht. apply (Hexp "e"); auto.
  - apply takeb_spec in Ht'. apply (Hexp "E"); auto.
  - intros [= ->]. exists "". split_and!; [done | by left | cbn; lia].
Qed.

Lemma number_sound l s r :
  number l s = Some r -> exists v, s = v +:+ r /\ number_text v /\ number_fits l v = true.
Proof.
  unfold number. destruct (opt_take_split "-"%char s) as (sign & Hs & Hsign). set (s1 := opt_take "-"%char s) in *. clearbody s1.
  destruct (integer_part s1) as [s2 |] eqn:Hi; [| done]. apply integer_part_sound in Hi as (int & -> & Hint).
  destruct (fraction_part s2) as [s3 |] eqn:Hf; [| done]. apply fraction_part_sound in Hf as (frac & -> & Hfrac).
  destruct (exponent_part _ s3) as [s4 |] eqn:He; [| done]. apply exponent_part_sound in He as (exp & -> & Hexp & Hb).
  replace s with ((sign +:+ int +:+ frac +:+ exp) +:+ s4) by (rewrite Hs; by rewrite !string_app_assoc).
  rewrite slice_app. destruct (documentNumbers l || machine_number _) eqn:Hm; [| done]. intros [= <-].
  exists (sign +:+ int +:+ frac +:+ exp). split_and!; [done | by constructor |].
  unfold number_fits. destruct (documentNumbers l); [done |]. cbn in Hm, Hb |- *.
  rewrite Hm, andb_true_r. apply Z.leb_le. rewrite exponent_parts by done. auto.
Qed.

Lemma follow_char c : follows c = true -> is_digit c = false /\ c <> "."%char /\ c <> "e"%char /\ c <> "E"%char.
Proof.
  intros H. split; [| by split_and!; intros ->; vm_compute in H].
  apply not_true_iff_false. intros Hc. unfold follows, is_ws in H. rewrite !orb_true_iff, !Ascii.eqb_eq, !Z.eqb_eq in H.
  unfold is_digit, in_range in Hc. b2p. destruct H as [[[H | ->] | ->] | ->]; [lia | by destruct Hc ..].
Qed.

Lemma follow_no_digit r : follow r -> no_digit r.
Proof. destruct r as [| c r]; [done |]. unfold follow, no_digit. cbn. intros [-> _]%follow_char. done. Qed.

Lemma follow_takeb c r : follow r -> c = "."%char \/ c = "e"%char \/ c = "E"%char -> takeb c r = None.
Proof.
  destruct r as [| a r]; [done |]. unfold follow. cbn [head_is]. intros (_ & H1 & H2 & H3)%follow_char Hc.
  apply takeb_other. naive_solver.
Qed.

Lemma exponent_part_complete bounded x r :
  exp_text x -> follow r -> (bounded = true -> Z.abs (signed_value (after_e x)) <= 324) ->
  exponent_part bounded (x +:+ r) = Some r.
Proof.
  intros Hx Hr Hb. unfold exponent_part. destruct Hx as [-> | (e & g & d & -> & He & Hg & Hd)].
  { rewrite string_app_nil_l, !follow_takeb by auto. done. }
  assert (match takeb "e" ((e +:+ g +:+ d) +:+ r) with Some r => Some r | None => takeb "E" ((e +:+ g +:+ d) +:+ r) end
          = Some (g +:+ d +:+ r)) as ->.
  { rewrite !string_app_assoc. by destruct He as [-> | ->]. }
  assert (exponent_sign (g +:+ d +:+ r) = d +:+ r) as ->.
  { unfold exponent_sign, opt_take. destruct Hg as [-> | [-> | ->]]; [| done | done]. destruct Hd as [Hne Hd].
    destruct d as [| c d]; [done |]. rewrite string_app_nil_l, string_app_cons.
    rewrite !takeb_other by (intros ->; by vm_compute in Hd). done. }
  rewrite digits_complete, slice_app by auto using follow_no_digit. destruct bounded; [| done]. cbn.
  rewrite exponent_bounded_value by (apply Hd || lia). specialize (Hb eq_refl).
  replace (after_e (e +:+ g +:+ d)) with (g +:+ d) in Hb by (destruct He as [-> | ->]; reflexivity).
  rewrite signed_value_abs in Hb by done. by rewrite (proj2 (Z.leb_le _ _)).
Qed.

Lemma exp_no_digit x r : exp_text x -> follow r -> no_digit (x +:+ r).
Proof.
  intros [-> | (e & g & d & -> & [-> | ->] & _)] Hr; [by apply follow_no_digit | done | done].
Qed.

Lemma frac_no_digit f x r : frac_text f -> exp_text x -> follow r -> no_digit (f +:+ x +:+ r).
Proof. intros [-> | (d & -> & _)] Hx Hr; [rewrite string_app_nil_l; by apply exp_no_digit | done]. Qed.

Lemma int_head i x : int_text i -> exists c r, i +:+ x = String c r /\ is_digit c = true.
Proof.
  intros [Hne Hd]%int_text_run. destruct i as [| c i]; [done |]. exists c, (i +:+ x). split; [done |].
  cbn [all_bytes] in Hd. by apply andb_true_iff in Hd as [? _].
Qed.

Lemma digit_not_minus c : is_digit c = true -> c <> "-"%char.
Proof. by intros H ->. Qed.

Lemma number_complete l v r : number_text v -> number_fits l v = true -> follow r -> number l (v +:+ r) = Some r.
Proof.
  intros [sign int frac exp Hs Hi Hf He] Hfit Hr. unfold number.
  assert (opt_take "-" ((sign +:+ int +:+ frac +:+ exp) +:+ r) = int +:+ frac +:+ exp +:+ r) as ->.
  { rewrite !string_app_assoc. unfold opt_take. destruct Hs as [-> | ->]; [| done].
    destruct (int_head int (frac +:+ exp +:+ r) Hi) as (c & q & Hq & Hc). rewrite string_app_nil_l, Hq.
    by rewrite (takeb_other _ _ _ (digit_not_minus _ Hc)). }
  assert (integer_part (int +:+ frac +:+ exp +:+ r) = Some (frac +:+ exp +:+ r)) as ->.
  { destruct Hi as [-> | [Hrun (c & q & -> & Hc)]]; [done |]. pose proof (digits_complete _ _ Hrun (frac_no_digit frac exp r Hf He Hr)) as Hd.
    rewrite string_app_cons in Hd |- *. unfold integer_part. destruct (Ascii.eqb_spec c "0"%char) as [-> | _]; [done |].
    by rewrite Hc. }
  assert (fraction_part (frac +:+ exp +:+ r) = Some (exp +:+ r)) as ->.
  { unfold fraction_part. destruct Hf as [-> | (d & -> & Hd)].
    - rewrite string_app_nil_l. assert (takeb "." (exp +:+ r) = None) as ->; [| done].
      destruct He as [-> | (e & g & d & -> & [-> | ->] & _)]; [| done | done]. apply follow_takeb; auto.
    - rewrite string_app_assoc. cbn [takeb string_app_cons]. change (digits (d +:+ exp +:+ r) = Some (exp +:+ r)).
      apply digits_complete; [done |]. by apply exp_no_digit. }
  unfold number_fits in Hfit. rewrite exponent_parts in Hfit by done.
  rewrite exponent_part_complete; [| done | done |].
  - rewrite slice_app. destruct (documentNumbers l); [done |]. cbn in Hfit. apply andb_true_iff in Hfit as [_ ->]. done.
  - intros Hd. apply negb_true_iff in Hd. rewrite Hd in Hfit. cbn in Hfit. apply andb_true_iff in Hfit as [Hfit _].
    by apply Z.leb_le.
Qed.

(** ** First bytes *)

(** A byte a value can start with. *)
Definition starts (c : ascii) : bool :=
  Ascii.eqb c "{"%char || Ascii.eqb c "["%char || Ascii.eqb c quote_char || Ascii.eqb c "t"%char
  || Ascii.eqb c "f"%char || Ascii.eqb c "n"%char || Ascii.eqb c "-"%char || is_digit c.

Lemma number_head v : number_text v -> exists c r, v = String c r /\ (c = "-"%char \/ is_digit c = true).
Proof.
  intros [sign int frac exp Hs Hi _ _]. destruct Hs as [-> | ->].
  - destruct (int_head int (frac +:+ exp) Hi) as (c & r & Hc & Hd). exists c, r. auto.
  - eexists _, _. split; [reflexivity |]. auto.
Qed.

Lemma value_head v t : value_text v t -> exists c r, v = String c r /\ starts c = true.
Proof.
  intros [| | | v' (c & r & -> & Hc)%number_head | | | | |]; try (eexists _, _; split; [reflexivity | done]).
  exists c, r. split; [done |]. unfold starts. destruct Hc as [-> | ->]; [done |]. by rewrite orb_true_r.
Qed.

Lemma starts_char c : starts c = true ->
  is_ws c = false /\ c <> "]"%char /\ c <> "}"%char /\ c <> ","%char /\ c <> ":"%char.
Proof.
  intros H. split; [| by split_and!; intros ->; vm_compute in H].
  apply not_true_iff_false. intros Hw. unfold starts in H. rewrite !orb_true_iff, !Ascii.eqb_eq in H.
  unfold is_ws in Hw. rewrite !orb_true_iff, !Z.eqb_eq in Hw. unfold is_digit, in_range in H.
  destruct H as [[[[[[[-> | ->] | ->] | ->] | ->] | ->] | ->] | H]; [vm_compute in Hw; naive_solver ..|]. b2p. lia.
Qed.

Lemma value_space_stop v t r : value_text v t -> space (v +:+ r) = v +:+ r.
Proof.
  intros (c & q & -> & Hc)%value_head. apply space_stop. rewrite string_app_cons. cbn [head_is].
  apply starts_char in Hc as [-> _]. done.
Qed.

Lemma value_takeb v t r c : value_text v t -> c = "]"%char \/ c = "}"%char -> takeb c (v +:+ r) = None.
Proof.
  intros (a & q & -> & Ha)%value_head Hc. rewrite string_app_cons. apply takeb_other.
  apply starts_char in Ha as (_ & H1 & H2 & _). naive_solver.
Qed.

(** Leading whitespace belongs to the first element. *)
Lemma items_ws w x l : ws w -> items_text x l -> items_text (w +:+ x) l.
Proof.
  intros Hw [w1 v t w2 H1 Hv H2 | w1 v t w2 x' l' H1 Hv H2 Hx]; rewrite <- string_app_assoc; constructor; auto with json.
Qed.

Lemma members_ws w x l : ws w -> members_text x l -> members_text (w +:+ x) l.
Proof.
  intros Hw [w1 body k w2 w3 v t w4 | w1 body k w2 w3 v t w4 x' l']; rewrite <- string_app_assoc; constructor; auto with json.
Qed.

(** ** Soundness of the scanner *)

Definition fits_all (l : limits) (depth : Z) (ts : list tree) : Prop := forallb (fits l depth) ts = true.

(** What an accepting call consumed. *)
Definition value_sound (l : limits) (depth : Z) (s s' : jsonScanner) : Prop :=
  exists w v t, sc_rest s = w +:+ v +:+ sc_rest s' /\ ws w /\ value_text v t /\ fits l depth t = true /\
                charges l (stringBytes s) (strings t) = Some (stringBytes s').

Definition array_sound (l : limits) (depth n : Z) (s s' : jsonScanner) : Prop :=
  exists x ts, sc_rest s = x +:+ "]" +:+ sc_rest s' /\ items_text x ts /\ fits_all l (depth + 1) ts /\
               n + Z.of_nat (length ts) <= l_members l /\
               charges l (stringBytes s) (flat_map strings ts) = Some (stringBytes s').

Definition object_sound (l : limits) (depth : Z) (seen : list string) (n : Z) (s s' : jsonScanner) : Prop :=
  exists x ms, sc_rest s = x +:+ "}" +:+ sc_rest s' /\ members_text x ms /\ fits_all l (depth + 1) (map snd ms) /\
               n + Z.of_nat (length ms) <= l_members l /\ NoDup (map fst ms) /\ Forall (fun k => k ∉ seen) (map fst ms) /\
               charges l (stringBytes s) (flat_map (fun m => fst m :: strings (snd m)) ms) = Some (stringBytes s').

(** Whitespace at the end of an element. *)
Lemma space_takeb c r r' : takeb c (space r) = Some r' -> exists w, r = w +:+ String c r' /\ ws w.
Proof. intros H%takeb_spec. destruct (space_split r) as (w & Hr & Hw & _). exists w. by rewrite Hr, H at 1. Qed.

Lemma array_loop_sound fuel l depth n s s' :
  (forall d s s', value fuel l d s = Accept s' -> value_sound l d s s') ->
  (forall d n s s', array_loop fuel l d n s = Accept s' -> array_sound l d n s s') ->
  array_loop (S fuel) l depth n s = Accept s' -> array_sound l depth n s s'.
Proof.
  intros IHv IHa. cbn [array_loop]. destruct (Z.gtb_spec (n + 1) (l_members l)) as [| Hn]; [done |].
  destruct (value fuel l (depth + 1) s) as [| | s1] eqn:Hv; [done | done |].
  apply IHv in Hv as (w & v & t & Hs & Hw & Hv & Hf & Hc).
  destruct (takeb "]"%char (space (sc_rest s1))) as [r |] eqn:Ht.
  - intros [= <-]. apply space_takeb in Ht as (w2 & Hr & Hw2). exists (w +:+ v +:+ w2), [t]. cbn [sc_rest stringBytes].
    split_and!.
    + rewrite Hs, Hr. by autorewrite with strapp.
    + by constructor.
    + unfold fits_all. cbn. by rewrite Hf.
    + cbn. lia.
    + cbn [flat_map]. by rewrite app_nil_r.
  - destruct (takeb ","%char (space (sc_rest s1))) as [r |] eqn:Ht2; [| done]. apply space_takeb in Ht2 as (w2 & Hr & Hw2).
    intros (x & ts & Hx & Hi & Hfs & Hlen & Hcs)%IHa. cbn [sc_rest stringBytes] in *.
    exists (w +:+ v +:+ w2 +:+ "," +:+ x), (t :: ts). split_and!.
    + rewrite Hs, Hr, Hx. by autorewrite with strapp.
    + by constructor.
    + unfold fits_all in *. cbn. by rewrite Hf.
    + cbn [length]. lia.
    + cbn [flat_map]. by rewrite charges_app, Hc.
Qed.

Lemma object_loop_sound fuel l depth seen n s s' :
  (forall d s s', value fuel l d s = Accept s' -> value_sound l d s s') ->
  (forall d seen n s s', object_loop fuel l d seen n s = Accept s' -> object_sound l d seen n s s') ->
  object_loop (S fuel) l depth seen n s = Accept s' -> object_sound l depth seen n s s'.
Proof.
  intros IHv IHo. cbn [object_loop]. destruct (space_split (sc_rest s)) as (w1 & Hs1 & Hw1 & _).
  destruct (scan_string l _) as [s1 |] eqn:Hk; [| done].
  apply scan_string_sound in Hk as (body & k & Hrest & Hch & Hcharge & Hkey). cbn [sc_rest stringBytes] in *.
  rewrite Hkey. case_bool_decide as Hseen; [done |]. destruct (Z.gtb_spec (n + 1) (l_members l)) as [| Hn]; [done |].
  destruct (takeb ":"%char (space (sc_rest s1))) as [r1 |] eqn:Hcol; [| done]. apply space_takeb in Hcol as (w2 & Hr1 & Hw2).
  destruct (value fuel l (depth + 1) _) as [| | s2] eqn:Hv; [done | done |].
  apply IHv in Hv as (w3 & v & t & Hs2 & Hw3 & Hv & Hf & Hc). cbn [sc_rest stringBytes] in *.
  destruct (takeb "}"%char (space (sc_rest s2))) as [r |] eqn:Ht.
  - intros [= <-]. apply space_takeb in Ht as (w4 & Hr & Hw4).
    exists (w1 +:+ token body +:+ w2 +:+ ":" +:+ w3 +:+ v +:+ w4), [(k, t)]. cbn [sc_rest stringBytes]. split_and!.
    + rewrite Hs1, Hrest, Hr1, Hs2, Hr. by autorewrite with strapp.
    + by constructor.
    + unfold fits_all. cbn. by rewrite Hf.
    + cbn. lia.
    + cbn. apply NoDup_singleton.
    + cbn. by apply Forall_singleton.
    + cbn [flat_map fst snd]. rewrite app_nil_r. cbn [charges]. by rewrite Hcharge.
  - destruct (takeb ","%char (space (sc_rest s2))) as [r |] eqn:Ht2; [| done]. apply space_takeb in Ht2 as (w4 & Hr & Hw4).
    intros (x & ms & Hx & Hm & Hfs & Hlen & Hnd & Hfresh & Hcs)%IHo. cbn [sc_rest stringBytes] in *.
    exists (w1 +:+ token body +:+ w2 +:+ ":" +:+ w3 +:+ v +:+ w4 +:+ "," +:+ x), ((k, t) :: ms). split_and!.
    + rewrite Hs1, Hrest, Hr1, Hs2, Hr, Hx. by autorewrite with strapp.
    + by constructor.
    + unfold fits_all in *. cbn. by rewrite Hf.
    + cbn [length]. lia.
    + cbn. apply NoDup_cons. split; [| done]. intros Hin. rewrite Forall_forall in Hfresh. apply (Hfresh k Hin). by left.
    + cbn. apply Forall_cons. split; [done |]. eapply Forall_impl; [exact Hfresh |]. cbn. intros y Hy Hin. apply Hy. by right.
    + cbn [flat_map fst snd charges app]. by rewrite Hcharge, charges_app, Hc.
Qed.

Lemma accept_rest_literal s text t start s' l depth w :
  accept_rest s (literal text start) = Accept s' -> sc_rest s = w +:+ start -> ws w ->
  value_text text t -> fits l depth t = true -> strings t = [] -> value_sound l depth s s'.
Proof.
  unfold accept_rest. intros H Hs Hw Hv Hf Hn. destruct (literal text start) as [r |] eqn:Hl; [| done]. injection H as <-.
  apply literal_spec in Hl as ->. exists w, text, t. cbn [sc_rest stringBytes]. by rewrite Hn.
Qed.

Lemma bracket_text (o c : string) w1 x w2 r r' :
  r = w2 +:+ x +:+ c +:+ r' -> w1 +:+ o +:+ r = w1 +:+ (o +:+ (w2 +:+ x) +:+ c) +:+ r'.
Proof. intros ->. by rewrite !string_app_assoc. Qed.

Lemma object_value_sound fuel l depth s s' w r :
  (forall d seen n s s', object_loop fuel l d seen n s = Accept s' -> object_sound l d seen n s s') ->
  0 <= l_members l -> (depth <=? l_depth l) = true -> sc_rest s = w +:+ String "{" r -> ws w ->
  match takeb "}"%char (space r) with
  | Some r => Accept {| s with sc_rest := r |}
  | None => object_loop fuel l depth [] 0 {| s with sc_rest := space r |}
  end = Accept s' -> value_sound l depth s s'.
Proof.
  intros IHo Hm0 Hd Hs Hw. destruct (space_split r) as (w2 & Hr & Hw2 & _).
  destruct (takeb "}"%char (space r)) as [r' |] eqn:Ht.
  - intros [= <-]. apply takeb_spec in Ht. exists w, ("{" +:+ w2 +:+ "}"), (TObj []).
    split_and!; [| done | by constructor | | done].
    + cbn [sc_rest]. rewrite Hs, Hr, Ht. by autorewrite with strapp.
    + cbn [fits length]. rewrite Hd, (proj2 (Z.leb_le _ _)) by done. done.
  - intros (x & ms & Hx & Hms & Hfs & Hlen & Hnd & _ & Hc)%IHo. cbn [sc_rest stringBytes] in *.
    exists w, ("{" +:+ (w2 +:+ x) +:+ "}"), (TObj ms). split_and!; [| done | by constructor; apply members_ws | | done].
    + rewrite Hs. apply (bracket_text "{" "}"). by rewrite Hr, Hx.
    + cbn [fits]. rewrite Hd, bool_decide_eq_true_2, (proj2 (Z.leb_le _ _)) by (done || lia).
      unfold fits_all in Hfs. rewrite forallb_map in Hfs. by rewrite Hfs.
Qed.

Lemma array_value_sound fuel l depth s s' w r :
  (forall d n s s', array_loop fuel l d n s = Accept s' -> array_sound l d n s s') ->
  0 <= l_members l -> (depth <=? l_depth l) = true -> sc_rest s = w +:+ String "[" r -> ws w ->
  match takeb "]"%char (space r) with
  | Some r => Accept {| s with sc_rest := r |}
  | None => array_loop fuel l depth 0 {| s with sc_rest := space r |}
  end = Accept s' -> value_sound l depth s s'.
Proof.
  intros IHa Hm0 Hd Hs Hw. destruct (space_split r) as (w2 & Hr & Hw2 & _).
  destruct (takeb "]"%char (space r)) as [r' |] eqn:Ht.
  - intros [= <-]. apply takeb_spec in Ht. exists w, ("[" +:+ w2 +:+ "]"), (TArr []).
    split_and!; [| done | by constructor | | done].
    + cbn [sc_rest]. rewrite Hs, Hr, Ht. by autorewrite with strapp.
    + cbn [fits length]. rewrite Hd, (proj2 (Z.leb_le _ _)) by done. done.
  - intros (x & ts & Hx & Hi & Hfs & Hlen & Hc)%IHa. cbn [sc_rest stringBytes] in *.
    exists w, ("[" +:+ (w2 +:+ x) +:+ "]"), (TArr ts). split_and!; [| done | by constructor; apply items_ws | | done].
    + rewrite Hs. apply (bracket_text "[" "]"). by rewrite Hr, Hx.
    + cbn [fits]. rewrite Hd, (proj2 (Z.leb_le _ _)) by lia. unfold fits_all in Hfs. by rewrite Hfs.
Qed.

Lemma value_scan_sound fuel l : 0 <= l_members l ->
  (forall d s s', value fuel l d s = Accept s' -> value_sound l d s s') /\
  (forall d seen n s s', object_loop fuel l d seen n s = Accept s' -> object_sound l d seen n s s') /\
  (forall d n s s', array_loop fuel l d n s = Accept s' -> array_sound l d n s s').
Proof.
  intros Hm0. induction fuel as [| fuel (IHv & IHo & IHa)]; [done |].
  split_and!; [| intros; by eapply object_loop_sound | intros; by eapply array_loop_sound].
  intros depth s s'. cbn [value]. destruct (Z.gtb_spec depth (l_depth l)) as [| Hd]; [done |]. apply Z.leb_le in Hd.
  destruct (space_split (sc_rest s)) as (w & Hs & Hw & _). destruct (space (sc_rest s)) as [| c r] eqn:Hsp; [done |].
  destruct (Ascii.eqb_spec c "{"%char) as [-> | _]; [by eapply object_value_sound |].
  destruct (Ascii.eqb_spec c "["%char) as [-> | _]; [by eapply array_value_sound |].
  destruct (Ascii.eqb_spec c quote_char) as [-> | _].
  { destruct (scan_string l _) as [s1 |] eqn:Hst; [| done]. intros [= <-].
    apply scan_string_sound in Hst as (body & x & Hrest & Hch & Hc & _). cbn [sc_rest stringBytes] in *.
    exists w, (token body), (TStr x). split_and!; [by rewrite Hs, Hrest | done | by constructor | |].
    - cbn. by rewrite Hd.
    - cbn [strings charges]. by rewrite Hc. }
  destruct (Ascii.eqb_spec c "t"%char) as [-> | _].
  { intros H. eapply accept_rest_literal; [done | done | done | constructor | cbn; by rewrite Hd | done]. }
  destruct (Ascii.eqb_spec c "f"%char) as [-> | _].
  { intros H. eapply accept_rest_literal; [done | done | done | constructor | cbn; by rewrite Hd | done]. }
  destruct (Ascii.eqb_spec c "n"%char) as [-> | _].
  { intros H. eapply accept_rest_literal; [done | done | done | constructor | cbn; by rewrite Hd | done]. }
  unfold accept_rest. destruct (number l (String c r)) as [r' |] eqn:Hnum; [| done]. intros [= <-].
  apply number_sound in Hnum as (v & Hv & Hnt & Hfit). exists w, v, (TNum v). cbn [sc_rest stringBytes].
  split_and!; [by rewrite Hs, Hv | done | by constructor | cbn; by rewrite Hd, Hfit | done].
Qed.

(** ** Completeness of the scanner *)

(** Arithmetic on the lengths of concatenations. *)
Ltac slen :=
  unfold token in *; rewrite ?string_length_app in *; cbn [String.length dquote] in *; rewrite ?string_length_app in *; lia.

Lemma array_loop_space fuel l d n x b :
  array_loop fuel l d n {| sc_rest := space x; stringBytes := b |} = array_loop fuel l d n {| sc_rest := x; stringBytes := b |}.
Proof.
  destruct fuel as [| [| fuel]]; [done | done |]. cbn [array_loop value sc_rest stringBytes]. by rewrite space_space.
Qed.

Lemma object_loop_space fuel l d seen n x b :
  object_loop fuel l d seen n {| sc_rest := space x; stringBytes := b |}
  = object_loop fuel l d seen n {| sc_rest := x; stringBytes := b |}.
Proof. destruct fuel as [| fuel]; [done |]. cbn [object_loop sc_rest stringBytes]. by rewrite space_space. Qed.

(** What the scanner does with a text of the grammar followed by [r]. *)
Definition value_complete (l : limits) (v : string) (t : tree) : Prop :=
  forall fuel d w r b b', ws w -> follow r -> fits l d t = true -> charges l b (strings t) = Some b' ->
  (2 * String.length (w +:+ v +:+ r) < fuel)%nat ->
  value fuel l d {| sc_rest := w +:+ v +:+ r; stringBytes := b |} = Accept {| sc_rest := r; stringBytes := b' |}.

Definition items_complete (l : limits) (x : string) (ts : list tree) : Prop :=
  forall fuel d n r b b', fits_all l (d + 1) ts -> n + Z.of_nat (length ts) <= l_members l ->
  charges l b (flat_map strings ts) = Some b' -> (2 * String.length (x +:+ "]" +:+ r) + 1 < fuel)%nat ->
  array_loop fuel l d n {| sc_rest := x +:+ "]" +:+ r; stringBytes := b |} = Accept {| sc_rest := r; stringBytes := b' |}.

Definition members_complete (l : limits) (x : string) (ms : list (string * tree)) : Prop :=
  forall fuel d seen n r b b', fits_all l (d + 1) (map snd ms) -> n + Z.of_nat (length ms) <= l_members l ->
  NoDup (map fst ms) -> Forall (fun k => k ∉ seen) (map fst ms) ->
  charges l b (flat_map (fun m => fst m :: strings (snd m)) ms) = Some b' ->
  (2 * String.length (x +:+ "}" +:+ r) + 1 < fuel)%nat ->
  object_loop fuel l d seen n {| sc_rest := x +:+ "}" +:+ r; stringBytes := b |}
  = Accept {| sc_rest := r; stringBytes := b' |}.

Lemma fits_depth l d t : fits l d t = true -> d <= l_depth l.
Proof. destruct t; cbn; rewrite ?andb_true_iff, Z.leb_le; tauto. Qed.

(** One step into a value, past the whitespace before it. *)
Lemma value_step l fuel d w x b :
  ws w -> d <= l_depth l -> space x = x ->
  value (S fuel) l d {| sc_rest := w +:+ x; stringBytes := b |} = value (S fuel) l d {| sc_rest := x; stringBytes := b |}.
Proof. intros Hw Hd Hx. cbn [value sc_rest]. by rewrite space_app, Hx. Qed.

Lemma literal_app v r : literal v (v +:+ r) = Some r.
Proof. by apply literal_spec. Qed.

(** The scalars. *)
Lemma literal_complete l v t :
  v = "null" /\ t = TNull \/ v = "true" /\ t = TBool true \/ v = "false" /\ t = TBool false -> value_complete l v t.
Proof.
  intros Hv fuel d w r b b' Hw _ Hf%fits_depth Hc Hfuel. destruct fuel as [| fuel]; [lia |].
  assert (strings t = []) as Hs by (destruct Hv as [[_ ->] | [[_ ->] | [_ ->]]]; done).
  rewrite Hs in Hc. injection Hc as <-.
  rewrite value_step by (done || (destruct Hv as [[-> _] | [[-> _] | [-> _]]]; done)).
  cbn [value]. destruct (Z.gtb_spec d (l_depth l)); [lia |].
  destruct Hv as [[-> _] | [[-> _] | [-> _]]]; reflexivity.
Qed.

Lemma number_value_complete l v : number_text v -> value_complete l v (TNum v).
Proof.
  intros Hv fuel d w r b b' Hw Hr Hf Hc Hfuel. destruct fuel as [| fuel]; [lia |]. pose proof (fits_depth _ _ _ Hf).
  injection Hc as <-. rewrite value_step by (done || by eapply value_space_stop; constructor).
  cbn [value]. destruct (Z.gtb_spec d (l_depth l)); [lia |]. cbn [sc_rest stringBytes].
  rewrite (value_space_stop v (TNum v)) by by constructor. cbn [fits] in Hf. apply andb_true_iff in Hf as [_ Hf].
  rewrite (number_complete l v r Hv Hf Hr). destruct (number_head v Hv) as (c & q & -> & Hh).
  rewrite string_app_cons.
  destruct Hh as [-> | Hh]; [done |].
  repeat match goal with |- context [Ascii.eqb c ?x] => destruct (Ascii.eqb_spec c x) as [-> | _]; [by vm_compute in Hh |] end.
  done.
Qed.

Lemma string_value_complete l body x : chars body x -> value_complete l (token body) (TStr x).
Proof.
  intros Hch fuel d w r b b' Hw Hr Hf%fits_depth Hc Hfuel. destruct fuel as [| fuel]; [lia |].
  rewrite value_step by (done || by eapply value_space_stop; constructor).
  cbn [value]. destruct (Z.gtb_spec d (l_depth l)); [lia |]. cbn [sc_rest stringBytes].
  rewrite (value_space_stop _ (TStr x)) by by constructor.
  cbn [strings charges] in Hc. destruct (charge_string l b x) as [b1 |] eqn:Hb; [| done]. injection Hc as <-.
  pose proof (scan_string_complete l body x r b b1 Hch Hb) as Hs.
  rewrite token_cons in Hs |- *. cbn -[scan_string]. by rewrite Hs.
Qed.

(** The loops. *)
Lemma space_until c w r : ws w -> is_ws c = false -> space (w +:+ String c "" +:+ r) = String c r.
Proof. intros Hw Hc. rewrite space_app by done. apply space_stop. cbn [head_is]. by rewrite Hc. Qed.

Lemma items_one_complete l w1 v t w2 : ws w1 -> value_complete l v t -> ws w2 -> items_complete l (w1 +:+ v +:+ w2) [t].
Proof.
  intros H1 Hv H2 fuel d n r b b' Hf Hn Hc Hfuel. destruct fuel as [| fuel]; [lia |]. cbn [array_loop length] in *.
  destruct (Z.gtb_spec (n + 1) (l_members l)); [lia |]. unfold fits_all in Hf. cbn in Hf. rewrite andb_true_r in Hf.
  cbn [flat_map] in Hc. rewrite app_nil_r in Hc. rewrite !string_app_assoc.
  rewrite (Hv fuel (d + 1) w1 (w2 +:+ "]" +:+ r) b b'); [| done | by apply follow_ws | done | done | slen].
  cbn [sc_rest stringBytes]. rewrite (space_until "]"%char), takeb_here by done. done.
Qed.

Lemma items_more_complete l w1 v t w2 x ts :
  ws w1 -> value_complete l v t -> ws w2 -> items_complete l x ts -> items_complete l (w1 +:+ v +:+ w2 +:+ "," +:+ x) (t :: ts).
Proof.
  intros H1 Hv H2 Hx fuel d n r b b' Hf Hn Hc Hfuel. destruct fuel as [| fuel]; [lia |]. cbn [array_loop length] in *.
  destruct (Z.gtb_spec (n + 1) (l_members l)); [lia |]. unfold fits_all in Hf. cbn in Hf. apply andb_true_iff in Hf as [Hf Hfs].
  cbn [flat_map] in Hc. rewrite charges_app in Hc. destruct (charges l b (strings t)) as [b1 |] eqn:Hb; [| done].
  rewrite !string_app_assoc.
  rewrite (Hv fuel (d + 1) w1 (w2 +:+ "," +:+ x +:+ "]" +:+ r) b b1); [| done | by apply follow_ws | done | done | slen].
  cbn [sc_rest stringBytes]. rewrite (space_until ","%char), takeb_here, takeb_other by done.
  apply Hx; [done | lia | done | slen].
Qed.

Lemma members_one_complete l w1 body k w2 w3 v t w4 :
  ws w1 -> chars body k -> ws w2 -> ws w3 -> value_complete l v t -> ws w4 ->
  members_complete l (w1 +:+ token body +:+ w2 +:+ ":" +:+ w3 +:+ v +:+ w4) [(k, t)].
Proof.
  intros H1 Hch H2 H3 Hv H4 fuel d seen n r b b' Hf Hn _ Hseen Hc Hfuel. destruct fuel as [| fuel]; [lia |].
  cbn [object_loop length sc_rest stringBytes] in *. unfold fits_all in Hf. cbn in Hf. rewrite andb_true_r in Hf.
  cbn [flat_map app fst snd charges] in Hc. destruct (charge_string l b k) as [b1 |] eqn:Hb; [| done]. rewrite app_nil_r in Hc.
  rewrite !string_app_assoc. rewrite (space_app w1), (value_space_stop _ (TStr k)) by (done || by constructor).
  rewrite (scan_string_complete l body k _ b b1) by done. cbn [sc_rest stringBytes].
  unfold unmarshal_string. rewrite slice_app, token_body_token, (unquote_chars _ k) by done.
  cbn [map fst] in Hseen. apply Forall_cons in Hseen as [Hseen _]. rewrite bool_decide_eq_false_2 by done.
  destruct (Z.gtb_spec (n + 1) (l_members l)); [lia |].
  rewrite (space_until ":"%char), takeb_here by done.
  rewrite (Hv fuel (d + 1) w3 (w4 +:+ "}" +:+ r) b1 b'); [| done | by apply follow_ws | done | done | slen].
  cbn [sc_rest stringBytes]. rewrite (space_until "}"%char), takeb_here by done. done.
Qed.

Lemma members_more_complete l w1 body k w2 w3 v t w4 x ms :
  ws w1 -> chars body k -> ws w2 -> ws w3 -> value_complete l v t -> ws w4 -> members_complete l x ms ->
  members_complete l (w1 +:+ token body +:+ w2 +:+ ":" +:+ w3 +:+ v +:+ w4 +:+ "," +:+ x) ((k, t) :: ms).
Proof.
  intros H1 Hch H2 H3 Hv H4 Hx fuel d seen n r b b' Hf Hn Hnd Hseen Hc Hfuel. destruct fuel as [| fuel]; [lia |].
  cbn [object_loop length sc_rest stringBytes map fst] in *. unfold fits_all in Hf. cbn in Hf.
  apply andb_true_iff in Hf as [Hf Hfs]. apply NoDup_cons in Hnd as [Hk Hnd]. apply Forall_cons in Hseen as [Hks Hseen].
  cbn [flat_map app fst snd charges] in Hc. destruct (charge_string l b k) as [b1 |] eqn:Hb; [| done].
  rewrite charges_app in Hc. destruct (charges l b1 (strings t)) as [b2 |] eqn:Hb2; [| done].
  rewrite !string_app_assoc. rewrite (space_app w1), (value_space_stop _ (TStr k)) by (done || by constructor).
  rewrite (scan_string_complete l body k _ b b1) by done. cbn [sc_rest stringBytes].
  unfold unmarshal_string. rewrite slice_app, token_body_token, (unquote_chars _ k) by done.
  rewrite bool_decide_eq_false_2 by done. destruct (Z.gtb_spec (n + 1) (l_members l)); [lia |].
  rewrite (space_until ":"%char), takeb_here by done.
  rewrite (Hv fuel (d + 1) w3 (w4 +:+ "," +:+ x +:+ "}" +:+ r) b1 b2); [| done | by apply follow_ws | done | done | slen].
  cbn [sc_rest stringBytes]. rewrite (space_until ","%char), takeb_here, takeb_other by done.
  apply Hx; [done | lia | done | | done | slen].
  rewrite Forall_forall in Hseen |- *. intros y Hy [-> | Hin]%elem_of_cons; [done | by apply (Hseen y)].
Qed.

(** The containers. *)
Lemma first_item x ts r : items_text x ts -> exists c q, space (x +:+ r) = String c q /\ c <> "]"%char.
Proof.
  intros [w1 v t w2 H1 Hv H2 | w1 v t w2 x' l' H1 Hv H2 Hx]; rewrite !string_app_assoc, space_app by done;
    rewrite (value_space_stop v t) by done; destruct (value_head v t Hv) as (c & q & -> & Hc);
    rewrite string_app_cons; apply starts_char in Hc; naive_solver.
Qed.

Lemma first_member x ms r : members_text x ms -> exists c q, space (x +:+ r) = String c q /\ c <> "}"%char.
Proof.
  intros [w1 body k w2 w3 v t w4 H1 Hch | w1 body k w2 w3 v t w4 x' l' H1 Hch]; rewrite !string_app_assoc, space_app by done;
    rewrite (value_space_stop (token body) (TStr k)) by (by eapply vt_str); rewrite token_cons; eauto.
Qed.

Lemma empty_complete l (o c : ascii) w t :
  o = "["%char /\ c = "]"%char /\ t = TArr [] \/ o = "{"%char /\ c = "}"%char /\ t = TObj [] -> ws w ->
  value_complete l (String o "" +:+ w +:+ String c "") t.
Proof.
  intros Ho Hw fuel d w1 r b b' Hw1 _ Hf%fits_depth Hc Hfuel. destruct fuel as [| fuel]; [lia |].
  assert (strings t = []) as Hs by naive_solver. rewrite Hs in Hc. injection Hc as <-.
  rewrite !string_app_assoc. rewrite value_step by (done || by destruct Ho as [(-> & _) | (-> & _)]).
  cbn [value sc_rest]. destruct (Z.gtb_spec d (l_depth l)); [lia |].
  rewrite string_app_cons, string_app_nil_l, space_stop by by destruct Ho as [(-> & _) | (-> & _)].
  assert (is_ws c = false) as Hcw by by destruct Ho as [(_ & -> & _) | (_ & -> & _)].
  rewrite (space_until c w r Hw Hcw).
  destruct Ho as [(-> & -> & _) | (-> & -> & _)]; cbn -[takeb]; by rewrite takeb_here.
Qed.

Lemma array_complete l x ts : items_text x ts -> items_complete l x ts -> value_complete l ("[" +:+ x +:+ "]") (TArr ts).
Proof.
  intros Hx IH fuel d w r b b' Hw _ Hf Hc Hfuel. destruct fuel as [| fuel]; [lia |]. pose proof (fits_depth _ _ _ Hf).
  rewrite !string_app_assoc. rewrite value_step by done. cbn [value sc_rest]. destruct (Z.gtb_spec d (l_depth l)); [lia |].
  change ("[" +:+ x +:+ "]" +:+ r) with (String "[" (x +:+ "]" +:+ r)). rewrite space_stop by done. cbn -[takeb array_loop space].
  destruct (first_item x ts ("]" +:+ r) Hx) as (c & q & Hq & Hne). rewrite Hq, takeb_other, <- Hq, array_loop_space by done.
  cbn [fits strings] in Hf, Hc. rewrite !andb_true_iff, Z.leb_le in Hf. destruct Hf as (_ & Hlen & Hfs).
  apply IH; [done | lia | done | slen].
Qed.

Lemma object_complete l x ms :
  members_text x ms -> members_complete l x ms -> value_complete l ("{" +:+ x +:+ "}") (TObj ms).
Proof.
  intros Hx IH fuel d w r b b' Hw _ Hf Hc Hfuel. destruct fuel as [| fuel]; [lia |]. pose proof (fits_depth _ _ _ Hf).
  rewrite !string_app_assoc. rewrite value_step by done. cbn [value sc_rest]. destruct (Z.gtb_spec d (l_depth l)); [lia |].
  change ("{" +:+ x +:+ "}" +:+ r) with (String "{" (x +:+ "}" +:+ r)). rewrite space_stop by done. cbn -[takeb object_loop space].
  destruct (first_member x ms ("}" +:+ r) Hx) as (c & q & Hq & Hne). rewrite Hq, takeb_other, <- Hq, object_loop_space by done.
  cbn [fits strings] in Hf, Hc. rewrite !andb_true_iff, Z.leb_le, bool_decide_eq_true in Hf. destruct Hf as (_ & (Hlen & Hfs) & Hnd).
  apply IH; [unfold fits_all; by rewrite forallb_map | lia | done | | done | slen].
  apply Forall_forall. intros k _ Hk. by apply elem_of_nil in Hk.
Qed.

Lemma text_complete l :
  (forall v t, value_text v t -> value_complete l v t) /\ (forall x ts, items_text x ts -> items_complete l x ts) /\
  (forall x ms, members_text x ms -> members_complete l x ms).
Proof.
  apply text_mut; intros.
  1-3: apply literal_complete; tauto.
  - by apply number_value_complete.
  - by apply string_value_complete.
  - apply (empty_complete l "["%char "]"%char); [naive_solver | done].
  - by apply array_complete.
  - apply (empty_complete l "{"%char "}"%char); [naive_solver | done].
  - by apply object_complete.
  - by apply items_one_complete.
  - by apply items_more_complete.
  - by apply members_one_complete.
  - by apply members_more_complete.
Qed.
