(* ===== verification/JsonNumbers.v ===== *)
(** * The values of number tokens

    What [number] accepts, stated on the rational number a token denotes: the
    parts of the token are those of the grammar, its value is computed from them
    in [Q], and the bounds of [strconv.ParseUint] and [strconv.ParseFloat] are
    inequalities on that value. *)

From Stdlib Require Import Ascii QArith Qpower Lqa.
From S2P Require Import Prelude GoText Errors StrictJson JsonGrammar.
#[local] Open Scope Z_scope.

(** The magnitude of the number with the digits [int], the digits [frac] after
    the point and the exponent [e]. *)
Definition magnitude (int frac : string) (e : Z) : Q :=
  (inject_Z (digits_value 0 (int +:+ frac)) * Qpower 10 (e - len frac))%Q.

(** The fraction of a token: a point and digits, or nothing. *)
Definition dotted (frac : string) : string := if String.eqb frac "" then "" else "." +:+ frac.

(** The least magnitude that [strconv.ParseFloat] rounds to infinity, and the
    greatest it rounds to zero. *)
Definition float_limit : Q := inject_Z (2 ^ 1024 - 2 ^ 970).
Definition float_dust : Q := (1 / inject_Z (2 ^ 1075))%Q.

(** A token that a program can hold: as a uint64 up to its sign when it has
    neither a point nor an exponent, and as a finite float64 that is zero only
    for zero. *)
Definition representable (sign int frac exp : string) : Prop :=
  let e := signed_value (after_e exp) in
  let q := magnitude int frac e in
  len (sign +:+ int +:+ dotted frac +:+ exp) <= 128 /\ Z.abs e <= 324 /\
  (frac = "" -> exp = "" -> (q <= inject_Z max_u64)%Q) /\
  (q < float_limit)%Q /\ ((q == 0)%Q \/ (float_dust < q)%Q).

(** ** Comparisons of decimals *)

Lemma power10_pos e : (0 < Qpower 10 e)%Q.
Proof. apply Qpower_0_lt. reflexivity. Qed.

Lemma power10_nonneg e : 0 <= e -> (Qpower 10 e == inject_Z (10 ^ e))%Q.
Proof. intros He. by rewrite Zpower_Qpower. Qed.

Lemma power10_neg e : e < 0 -> (Qpower 10 e == / inject_Z (10 ^ (- e)))%Q.
Proof. intros He. rewrite <- power10_nonneg by lia. rewrite <- Qpower_opp. by rewrite Z.opp_involutive. Qed.

Lemma inject_pos z : 0 < z -> (0 < inject_Z z)%Q.
Proof. intros H. change 0%Q with (inject_Z 0). by rewrite <- Zlt_Qlt. Qed.

(** [a / c] against [m / b] for positive denominators. *)
Lemma div_le_div a b c m : 0 < b -> 0 < c ->
  (inject_Z a / inject_Z c <= inject_Z m / inject_Z b)%Q <-> a * b <= m * c.
Proof.
  intros Hb%inject_pos Hc%inject_pos. rewrite Zle_Qle, !inject_Z_mult. split; intros H.
  - assert (inject_Z a == inject_Z a / inject_Z c * inject_Z c)%Q as -> by (field; lra).
    assert (inject_Z m == inject_Z m / inject_Z b * inject_Z b)%Q as -> by (field; lra).
    set (x := (inject_Z a / inject_Z c)%Q) in *. set (y := (inject_Z m / inject_Z b)%Q) in *. 
    assert (0 <= (y - x) * (inject_Z b * inject_Z c))%Q; [| lra]. repeat apply Qmult_le_0_compat; lra.
  - apply Qle_shift_div_l; [done |].
    assert (inject_Z a / inject_Z c * inject_Z b == inject_Z a * inject_Z b / inject_Z c)%Q as -> by (field; lra).
    by apply Qle_shift_div_r.
Qed.

Lemma decimal_fraction m e :
  exists n d, 0 < d /\ (inject_Z m * Qpower 10 e == inject_Z n / inject_Z d)%Q /\
    (forall num den, at_least m e num den = (num * d <=? n * den) /\ at_most m e num den = (n * den <=? num * d)).
Proof.
  unfold at_least, at_most. destruct (Z.leb_spec 0 e).
  - exists (m * 10 ^ e), 1. split_and!; [lia | |].
    + rewrite power10_nonneg, inject_Z_mult by done. field.
    + intros num den. by rewrite Z.mul_1_r.
  - exists m, (10 ^ (- e)). split_and!; [lia | by rewrite power10_neg | done].
Qed.

Lemma at_least_spec m e num den : 0 < den ->
  at_least m e num den = true <-> (inject_Z num / inject_Z den <= inject_Z m * Qpower 10 e)%Q.
Proof.
  intros Hd. destruct (decimal_fraction m e) as (n & d & Hp & -> & H). rewrite (proj1 (H _ _)), Z.leb_le. by rewrite div_le_div.
Qed.

Lemma at_most_spec m e num den : 0 < den ->
  at_most m e num den = true <-> (inject_Z m * Qpower 10 e <= inject_Z num / inject_Z den)%Q.
Proof.
  intros Hd. destruct (decimal_fraction m e) as (n & d & Hp & -> & H). rewrite (proj2 (H _ _)), Z.leb_le. by rewrite div_le_div.
Qed.

(** ** The parts of a token *)

Lemma digit_other c x : is_digit c = true -> is_digit x = false -> Ascii.eqb c x = false.
Proof. intros Hc Hx. apply Ascii.eqb_neq. intros ->. congruence. Qed.

Lemma decimal_run d rest : forall m sc dot, all_bytes is_digit d = true ->
  decimal m sc dot (d +:+ rest) = decimal (digits_value m d) (if dot then sc + len d else sc) dot rest.
Proof.
  induction d as [| c d IH]; intros m sc dot Hd; [destruct dot; cbn [len digits_value]; rewrite ?Z.add_0_r; done |].
  cbn [all_bytes] in Hd. apply andb_true_iff in Hd as [Hc Hd]. rewrite string_app_cons. cbn [decimal digits_value].
  rewrite !(digit_other c) by done. cbn [orb]. rewrite Hc, IH by done. destruct dot; [| done]. f_equal.
  unfold len. cbn [String.length]. lia.
Qed.

Lemma decimal_exp m sc dot exp : exp_text exp -> decimal m sc dot exp = (m, sc, after_e exp).
Proof. by intros [-> | (e & g & d & -> & [-> | ->] & _)]. Qed.

Lemma digits_value_app x y : forall acc, digits_value acc (x +:+ y) = digits_value (digits_value acc x) y.
Proof. induction x as [| c x IH]; intros acc; [done |]. rewrite string_app_cons. cbn [digits_value]. apply IH. Qed.

Section Parts.
Context (sign int frac exp : string).
Hypothesis (Hsign : sign = "" \/ sign = "-").
Hypothesis (Hint : int_text int).
Hypothesis (Hfrac : all_bytes is_digit frac = true).
Hypothesis (Hexp : exp_text exp).

Notation text := (sign +:+ int +:+ dotted frac +:+ exp).
Notation mantissa := (digits_value 0 (int +:+ frac)).

Lemma dotted_text : frac_text (dotted frac).
Proof.
  unfold dotted. destruct (String.eqb_spec frac "") as [_ | H]; [by left |]. right. exists frac. done.
Qed.

Lemma parts_text : number_text text.
Proof. constructor; [done | exact Hint | exact dotted_text | exact Hexp]. Qed.

Lemma parts_decimal : decimal 0 0 false text = (mantissa, len frac, after_e exp).
Proof.
  assert (decimal 0 0 false text = decimal 0 0 false (int +:+ dotted frac +:+ exp)) as ->.
  { by destruct Hsign as [-> | ->]. }
  rewrite decimal_run, digits_value_app by apply (int_text_run _ Hint). unfold dotted.
  destruct (String.eqb_spec frac "") as [-> | _]; [by apply decimal_exp |].
  rewrite string_app_assoc. change ("." +:+ frac +:+ exp) with (String "." (frac +:+ exp)). cbn [decimal Ascii.eqb orb].
  change (decimal (digits_value 0 int) 0 true (frac +:+ exp) = (digits_value (digits_value 0 int) frac, len frac, after_e exp)).
  rewrite decimal_run by done. by rewrite decimal_exp.
Qed.

Lemma parts_value : number_value text = (mantissa, signed_value (after_e exp) - len frac).
Proof. unfold number_value. by rewrite parts_decimal. Qed.

(** *** A zero mantissa *)

Lemma digits_value_zero d : forall acc, 0 <= acc -> all_bytes is_digit d = true ->
  digits_value acc d = 0 <-> acc = 0 /\ nonzero_mantissa d = false.
Proof.
  induction d as [| c d IH]; intros acc Ha Hd; cbn [digits_value nonzero_mantissa all_bytes] in *; [naive_solver |].
  apply andb_true_iff in Hd as [Hc Hd]. rewrite !(digit_other c) by done. cbn [orb].
  assert (0 <= digit_value c /\ (digit_value c = 0 <-> in_range 49 57 (byte c) = false)) as [H0 Hz].
  { unfold is_digit, in_range, digit_value in *. rewrite andb_false_iff, !Z.leb_gt. b2p. lia. }
  rewrite IH by (done || lia). rewrite orb_false_iff, <- Hz. naive_solver lia.
Qed.

Lemma nonzero_app d rest : no_e d -> nonzero_mantissa (d +:+ rest) = nonzero_mantissa d || nonzero_mantissa rest.
Proof.
  unfold no_e. induction d as [| c d IH]; [done |]. rewrite string_app_cons. cbn [all_bytes nonzero_mantissa].
  intros [Hc Hd]%andb_true_iff. apply negb_true_iff in Hc as ->. rewrite IH by done. by rewrite orb_assoc.
Qed.

Lemma nonzero_exp : nonzero_mantissa exp = false.
Proof. by destruct Hexp as [-> | (e & g & d & -> & [-> | ->] & _)]. Qed.

Lemma parts_nonzero : nonzero_mantissa text = false <-> mantissa = 0.
Proof.
  assert (nonzero_mantissa text = nonzero_mantissa (int +:+ frac)) as ->.
  { destruct (int_text_run _ Hint) as [_ Hi%digits_no_e]. pose proof (digits_no_e _ Hfrac).
    assert (nonzero_mantissa (dotted frac +:+ exp) = nonzero_mantissa frac) as Hd.
    { unfold dotted. destruct (String.eqb_spec frac "") as [-> | _]; [exact nonzero_exp |].
      rewrite string_app_assoc. change (nonzero_mantissa (frac +:+ exp) = nonzero_mantissa frac).
      rewrite nonzero_app, nonzero_exp by done. apply orb_false_r. }
    rewrite !(nonzero_app sign), !(nonzero_app int), Hd; [by destruct Hsign as [-> | ->] | done.. |].
    by destruct Hsign as [-> | ->]. }
  rewrite digits_value_zero; [naive_solver | done |]. rewrite all_bytes_app, Hfrac, (proj2 (int_text_run _ Hint)). done.
Qed.

(** *** Bare integers *)

Lemma contains_app f x y : contains_any f (x +:+ y) = contains_any f x || contains_any f y.
Proof. induction x as [| c x IH]; [done |]. rewrite string_app_cons. cbn [contains_any]. rewrite IH. apply orb_assoc. Qed.

Lemma contains_digits d : all_bytes is_digit d = true ->
  contains_any (fun c => Ascii.eqb c "."%char || Ascii.eqb c "e"%char || Ascii.eqb c "E"%char) d = false.
Proof.
  induction d as [| c d IH]; [done |]. cbn [all_bytes contains_any]. intros [Hc Hd]%andb_true_iff.
  rewrite !(digit_other c) by done. auto.
Qed.

Lemma parts_bare :
  contains_any (fun c => Ascii.eqb c "."%char || Ascii.eqb c "e"%char || Ascii.eqb c "E"%char) text = false <->
  frac = "" /\ exp = "".
Proof.
  rewrite !contains_app, (contains_digits int) by apply (int_text_run _ Hint). rewrite !orb_false_iff. unfold dotted. split.
  - intros (_ & _ & Hf & He). destruct (String.eqb_spec frac "") as [-> | _]; [| done]. split; [done |].
    by destruct Hexp as [-> | (e & g & d & -> & [-> | ->] & _)].
  - intros [-> ->]. split_and!; try done. by destruct Hsign as [-> | ->].
Qed.

Lemma sign_taken : opt_take "-"%char text = int +:+ dotted frac +:+ exp.
Proof.
  unfold opt_take. destruct Hsign as [-> | ->]; [| done]. rewrite string_app_nil_l.
  destruct (int_head int (dotted frac +:+ exp) Hint) as (c & r & -> & Hc). by rewrite (takeb_other _ _ _ (digit_not_minus c Hc)).
Qed.

Lemma bare_value : frac = "" -> exp = "" ->
  opt_take "-"%char text = int /\ (magnitude int frac (signed_value (after_e exp)) == inject_Z (digits_value 0 int))%Q.
Proof.
  intros Hf He. rewrite sign_taken, Hf, He. unfold magnitude. rewrite !string_app_nil_r.
  split; [done |]. change (signed_value (after_e "") - len "") with 0. unfold Qpower. ring.
Qed.

Lemma magnitude_zero e : (magnitude int frac e == 0)%Q <-> mantissa = 0.
Proof.
  unfold magnitude. pose proof (power10_pos (e - len frac)). split.
  - intros [Hm | Hm]%Qmult_integral; [exact (proj1 (inject_Z_injective _ 0) Hm) | lra].
  - intros ->. change (inject_Z 0) with 0%Q. ring.
Qed.

Lemma parts_finite : float_overflows text = false <-> (magnitude int frac (signed_value (after_e exp)) < float_limit)%Q.
Proof.
  unfold float_overflows. rewrite parts_value, <- not_true_iff_false, at_least_spec by done. fold (magnitude int frac (signed_value (after_e exp))).
  assert (inject_Z (2 ^ 1024 - 2 ^ 970) / inject_Z 1 == float_limit)%Q as -> by (unfold float_limit; field).
  split; [apply Qnot_le_lt | apply Qlt_not_le].
Qed.

Lemma parts_dust :
  float_zero text && nonzero_mantissa text = false <->
  (magnitude int frac (signed_value (after_e exp)) == 0)%Q \/ (float_dust < magnitude int frac (signed_value (after_e exp)))%Q.
Proof.
  assert (float_zero text = false <-> (float_dust < magnitude int frac (signed_value (after_e exp)))%Q) as Hz.
  { unfold float_zero. rewrite parts_value, <- not_true_iff_false, at_most_spec by (vm_compute; reflexivity).
    split; [apply Qnot_le_lt | apply Qlt_not_le]. }
  rewrite andb_false_iff, parts_nonzero, Hz, magnitude_zero. tauto.
Qed.

Lemma parts_bounded :
  contains_any (fun c => Ascii.eqb c "."%char || Ascii.eqb c "e"%char || Ascii.eqb c "E"%char) text
  || (digits_value 0 (opt_take "-"%char text) <=? max_u64) = true <->
  (frac = "" -> exp = "" -> (magnitude int frac (signed_value (after_e exp)) <= inject_Z max_u64)%Q).
Proof.
  destruct (contains_any _ text) eqn:Hc.
  - split; [| done]. intros _ Hf He. rewrite (proj2 parts_bare) in Hc by done. done.
  - apply parts_bare in Hc as [Hf He]. destruct (bare_value Hf He) as [-> Hq]. rewrite Hq, <- Zle_Qle, orb_false_l, Z.leb_le. tauto.
Qed.

(** The scanner's last check accepts exactly the representable tokens. *)
Lemma machine_number_spec :
  Z.abs (exponent text) <= 324 /\ machine_number text = true <-> representable sign int frac exp.
Proof.
  unfold representable, machine_number. rewrite (exponent_parts sign int (dotted frac) exp) by (done || exact dotted_text).
  rewrite !andb_true_iff, Z.leb_le, !negb_true_iff, parts_finite, parts_dust, parts_bounded. tauto.
Qed.
End Parts.

(** Unless document numbers are kept, the limits admit exactly the representable tokens. *)
Lemma number_fits_spec l sign int frac exp :
  documentNumbers l = false ->
  sign = "" \/ sign = "-" -> int_text int -> all_bytes is_digit frac = true -> exp_text exp ->
  number_fits l (sign +:+ int +:+ dotted frac +:+ exp) = true <-> representable sign int frac exp.
Proof.
  intros Hl Hs Hi Hf He. rewrite <- machine_number_spec by done. unfold number_fits. rewrite Hl. cbn [orb].
  by rewrite andb_true_iff, Z.leb_le.
Qed.
