(* ===== verification/JsonDocuments.v ===== *)
(** * Whole documents

    The scanner of [StrictJson.v] on a whole input, from the grammar of
    [JsonGrammar.v]: it never runs out of fuel, it accepts exactly the documents
    within the limits, and the decoder then returns the tree of the document. *)

From Stdlib Require Import Ascii.
From S2P Require Import Prelude GoText Errors StrictJson JsonGrammar JsonNumbers.
#[local] Open Scope Z_scope.

(** ** Termination *)

Lemma value_nonempty v t : value_text v t -> (0 < String.length v)%nat.
Proof. intros (c & r & -> & _)%value_head. cbn. lia. Qed.

Lemma space_length s : (String.length (space s) <= String.length s)%nat.
Proof. destruct (space_split s) as (w & Hs & _). rewrite Hs at 2. slen. Qed.

Lemma takeb_length c s r : takeb c s = Some r -> String.length s = S (String.length r).
Proof. by intros ->%takeb_spec. Qed.

Lemma value_shorter fuel l d s s' :
  0 <= l_members l -> value fuel l d s = Accept s' -> (String.length (sc_rest s') < String.length (sc_rest s))%nat.
Proof.
  intros Hm H. apply value_scan_sound in H as (w & v & t & -> & _ & Hv & _); [| done].
  apply value_nonempty in Hv. slen.
Qed.

Lemma scan_string_shorter l s s' :
  scan_string l s = Some s' -> (String.length (sc_rest s') < String.length (sc_rest s))%nat.
Proof. intros (body & x & -> & _)%scan_string_sound. slen. Qed.

Lemma accept_rest_total s r : accept_rest s r <> OutOfFuel.
Proof. by destruct r. Qed.

(** With twice the input's length as fuel no call runs out. *)
Lemma scan_total l : 0 <= l_members l -> forall fuel,
  (forall d s, (2 * String.length (sc_rest s) < fuel)%nat -> value fuel l d s <> OutOfFuel) /\
  (forall d seen n s, (2 * String.length (sc_rest s) + 1 < fuel)%nat -> object_loop fuel l d seen n s <> OutOfFuel) /\
  (forall d n s, (2 * String.length (sc_rest s) + 1 < fuel)%nat -> array_loop fuel l d n s <> OutOfFuel).
Proof.
  intros Hm. induction fuel as [| fuel (IHv & IHo & IHa)]; [split_and!; intros; lia |]. split_and!.
  - intros d s Hf. cbn [value]. case_match; [done |]. pose proof (space_length (sc_rest s)) as Hsp.
    destruct (space (sc_rest s)) as [| c r] eqn:Hs; [done |]. cbn [String.length] in Hsp. pose proof (space_length r).
    repeat (case_match; try done); try apply accept_rest_total; [apply IHo | apply IHa]; cbn [sc_rest]; lia.
  - intros d seen n s Hf. cbn [object_loop]. pose proof (space_length (sc_rest s)).
    destruct (scan_string l _) as [s1 |] eqn:Hst; [| done]. apply scan_string_shorter in Hst. cbn [sc_rest] in Hst.
    case_match; [done |]. case_match; [done |]. pose proof (space_length (sc_rest s1)).
    destruct (takeb ":"%char _) as [r |] eqn:Hc; [| done]. apply takeb_length in Hc.
    destruct (value fuel l (d + 1) _) as [| | s2] eqn:Hv; [| done |].
    { exfalso. eapply IHv; [| exact Hv]. cbn [sc_rest]. lia. }
    apply value_shorter in Hv; [| done]. cbn [sc_rest] in Hv. pose proof (space_length (sc_rest s2)).
    case_match; [done |]. destruct (takeb ","%char _) as [r2 |] eqn:Hc2; [| done]. apply takeb_length in Hc2.
    apply IHo. cbn [sc_rest]. lia.
  - intros d n s Hf. cbn [array_loop]. case_match; [done |].
    destruct (value fuel l (d + 1) s) as [| | s2] eqn:Hv; [| done |].
    { exfalso. eapply IHv; [| exact Hv]. lia. }
    apply value_shorter in Hv; [| done]. pose proof (space_length (sc_rest s2)).
    case_match; [done |]. destruct (takeb ","%char _) as [r2 |] eqn:Hc2; [| done]. apply takeb_length in Hc2.
    apply IHa. cbn [sc_rest]. lia.
Qed.

(** More fuel does not change a result. *)
Lemma fuel_step l fuel :
  (forall d s, value fuel l d s <> OutOfFuel -> value (S fuel) l d s = value fuel l d s) /\
  (forall d seen n s, object_loop fuel l d seen n s <> OutOfFuel ->
     object_loop (S fuel) l d seen n s = object_loop fuel l d seen n s) /\
  (forall d n s, array_loop fuel l d n s <> OutOfFuel -> array_loop (S fuel) l d n s = array_loop fuel l d n s).
Proof.
  induction fuel as [| fuel (IHv & IHo & IHa)]; [done |]. split_and!.
  - intros d s H. set (f := S fuel) at 1. cbn [value] in H |- *. subst f. repeat (case_match; try done); auto.
  - intros d seen n s H. set (f := S fuel) at 1. cbn [object_loop] in H |- *. subst f.
    destruct (scan_string l _) as [s1 |]; [| done]. case_match; [done |]. case_match; [done |].
    destruct (takeb ":"%char _) as [r |]; [| done]. rewrite IHv by (intros Hv; by rewrite Hv in H).
    destruct (value fuel l (d + 1) _) as [| | s2]; [done | done |]. case_match; [done |].
    destruct (takeb ","%char _) as [r2 |]; [| done]. auto.
  - intros d n s H. set (f := S fuel) at 1. cbn [array_loop] in H |- *. subst f. case_match; [done |].
    rewrite IHv by (intros Hv; by rewrite Hv in H). destruct (value fuel l (d + 1) _) as [| | s2]; [done | done |].
    case_match; [done |]. destruct (takeb ","%char _) as [r2 |]; [| done]. auto.
Qed.

Lemma fuel_enough l d s fuel more :
  value fuel l d s <> OutOfFuel -> value (more + fuel) l d s = value fuel l d s.
Proof.
  intros H. induction more as [| more IH]; [done |]. change (S more + fuel)%nat with (S (more + fuel)).
  destruct (fuel_step l (more + fuel)) as (Hv & _). rewrite Hv; congruence.
Qed.

(** ** Whole scans *)

Lemma ws_space s : space s = "" <-> ws s.
Proof.
  split; [| intros Hw; rewrite <- (string_app_nil_r s); by rewrite space_app].
  destruct (space_split s) as (w & Hs & Hw & _). intros He. rewrite He, string_app_nil_r in Hs. by subst.
Qed.

Lemma follow_whitespace w : ws w -> follow w.
Proof. intros Hw. rewrite <- (string_app_nil_r w). by apply follow_ws. Qed.

Lemma scan_document_exact l b :
  0 <= l_members l ->
  scan_document l b = None <->
  exists t, document_text b t /\ fits l 1 t = true /\ is_Some (charges l 0 (strings t)).
Proof.
  intros Hm. unfold scan_document. split.
  - destruct (value _ l 1 _) as [| | s] eqn:Hv; [done | done |].
    apply value_scan_sound in Hv as (w & v & t & Hb & Hw & Hv & Hf & Hc); [| done]. cbn [sc_rest stringBytes] in *.
    destruct (String.eqb_spec (space (sc_rest s)) "") as [Hs%ws_space |]; [| done]. intros _.
    exists t. split_and!; [| done | by rewrite Hc]. exists w, v, (sc_rest s). done.
  - intros (t & (w1 & v & w2 & -> & H1 & Hv & H2) & Hf & [b' Hc]).
    destruct (text_complete l) as (Hcomplete & _). unfold scan_fuel.
    rewrite (Hcomplete v t Hv _ 1 w1 w2 0 b'); [| done | by apply follow_whitespace | done | done | lia].
    cbn [sc_rest]. by rewrite (proj2 (ws_space w2)).
Qed.

(** ** Saturated limits *)

Definition bounded_by (l : limits) (n : Z) : limits :=
  {| l with l_depth := Z.min (l_depth l) n; l_members := Z.min (l_members l) n |}.

Lemma leb_min a b n : a <= n -> (a <=? Z.min b n) = (a <=? b).
Proof. intros H. destruct (Z.leb_spec a b), (Z.leb_spec a (Z.min b n)); lia || done. Qed.

Lemma items_length x ts : items_text x ts -> Z.of_nat (length ts) <= len x.
Proof.
  induction 1 as [w1 v t w2 _ Hv%value_nonempty _ | w1 v t w2 x l _ Hv _ Hx IH]; cbn [length]; unfold len in *; slen.
Qed.

Lemma members_length x ms : members_text x ms -> Z.of_nat (length ms) <= len x.
Proof.
  induction 1 as [w1 body k w2 w3 v t w4 | w1 body k w2 w3 v t w4 x l _ _ _ _ Hv _ Hx IH]; cbn [length]; unfold len in *; slen.
Qed.

(** A limit that the length of the text implies changes nothing. *)
Lemma fits_bounded l n :
  (forall v t, value_text v t -> forall d, 1 <= d -> d + len v <= n + 1 -> fits (bounded_by l n) d t = fits l d t) /\
  (forall x ts, items_text x ts -> forall d, 1 <= d -> d + len x <= n + 1 ->
     forallb (fits (bounded_by l n) d) ts = forallb (fits l d) ts) /\
  (forall x ms, members_text x ms -> forall d, 1 <= d -> d + len x <= n + 1 ->
     forallb (fun m => fits (bounded_by l n) d (snd m)) ms = forallb (fun m => fits l d (snd m)) ms).
Proof.
  apply text_mut; intros;
    repeat match goal with Hv : value_text _ _ |- _ => apply value_nonempty in Hv end;
    try match goal with Hv : number_text ?v |- _ => pose proof (value_nonempty v (TNum v) ltac:(by constructor)) end.
  1-3: cbn [fits bounded_by l_depth]; rewrite leb_min; [done | unfold len in *; cbn in *; lia].
  - cbn [fits bounded_by l_depth]. rewrite leb_min; [done | unfold len in *; lia].
  - cbn [fits bounded_by l_depth]. rewrite leb_min; [done | unfold len in *; slen].
  - cbn [fits bounded_by l_depth l_members length forallb]. rewrite !leb_min; [done | | ]; unfold len in *; slen.
  - pose proof (items_length _ _ i). cbn [fits bounded_by l_depth l_members]. rewrite !leb_min, H; [done | ..]; unfold len in *; slen.
  - cbn [fits bounded_by l_depth l_members length forallb]. rewrite !leb_min; [done | | ]; unfold len in *; slen.
  - pose proof (members_length _ _ m). cbn [fits bounded_by l_depth l_members]. rewrite !leb_min, H; [done | ..]; unfold len in *; slen.
  - cbn [forallb]. rewrite H; [done | ..]; unfold len in *; slen.
  - cbn [forallb]. rewrite H, H0; [done | ..]; unfold len in *; slen.
  - cbn [forallb snd]. rewrite H; [done | ..]; unfold len in *; slen.
  - cbn [forallb snd]. rewrite H, H0; [done | ..]; unfold len in *; slen.
Qed.

(** ** String bounds *)

Definition total_bytes (ss : list string) : Z := foldr (fun s acc => len s + acc) 0 ss.

(** What the bounds ask of the strings of a document. *)
Definition strings_within (bounds : option StringBounds) (ss : list string) : Prop :=
  match bounds with
  | None => True
  | Some b => Forall (fun s => len s <= TokenBytes b) ss /\ total_bytes ss <= TotalBytes b
  end.

Lemma total_bytes_nonneg ss : 0 <= total_bytes ss.
Proof.
  induction ss as [| s ss IH]; [done |]. change (0 <= len s + total_bytes ss). pose proof (len_nonneg s). lia.
Qed.

Lemma charges_bounded l b ss : stringBounds l = Some b -> u64 (TotalBytes b) -> forall bytes,
  0 <= bytes <= TotalBytes b ->
  is_Some (charges l bytes ss) <-> Forall (fun s => len s <= TokenBytes b) ss /\ bytes + total_bytes ss <= TotalBytes b.
Proof.
  intros Hl Hu. unfold u64, max_u64 in Hu. induction ss as [| s ss IH]; intros bytes Hb; cbn [charges total_bytes foldr].
  { split; [intros _; split; [constructor | lia] | by eauto]. }
  fold (total_bytes ss). rewrite Forall_cons. unfold charge_string. rewrite Hl. pose proof (len_nonneg s). pose proof (total_bytes_nonneg ss).
  rewrite (wrap_u64_small (TotalBytes b - bytes)) by (unfold u64, max_u64; lia).
  destruct (Z.gtb_spec (len s) (TokenBytes b)); [split; [intros [? ?]; done | lia] |].
  destruct (Z.gtb_spec (len s) (TotalBytes b - bytes)); cbn [orb]; [split; [intros [? ?]; done | lia] |].
  rewrite wrap_u64_small by (unfold u64, max_u64; lia). rewrite IH by lia. rewrite Z.add_assoc. split; naive_solver lia.
Qed.

Lemma charges_exact l ss :
  (forall b, stringBounds l = Some b -> u64 (TotalBytes b)) ->
  is_Some (charges l 0 ss) <-> strings_within (stringBounds l) ss.
Proof.
  intros Hu. unfold strings_within. destruct (stringBounds l) as [b |] eqn:Hl.
  - specialize (Hu b eq_refl). apply charges_bounded; [done | done |]. unfold u64, max_u64 in Hu. lia.
  - split; [done |]. intros _. generalize 0. induction ss as [| s ss IH]; intros z; cbn [charges]; [eauto |].
    unfold charge_string. by rewrite Hl.
Qed.

(** ** The validators *)

(** The documented limits: nesting at most [depth] and at most 64, containers of
    at most [members] elements. *)
Definition document_limits (depth members : Z) (numbers : bool) (bounds : option StringBounds) : limits :=
  {| l_depth := Z.min depth 64; l_members := members; documentNumbers := numbers; stringBounds := bounds |}.

Lemma admitted_bytes_spec b byteLimit :
  admitted_bytes b byteLimit = true <-> b <> "" /\ len b <= byteLimit /\ utf8_valid b = true.
Proof.
  unfold admitted_bytes. rewrite negb_true_iff, !orb_false_iff, Z.eqb_neq, negb_false_iff, len_zero.
  rewrite Z.gtb_ltb, Z.ltb_ge. tauto.
Qed.

Lemma saturated_fits b depth members numbers bounds t :
  document_text b t -> fits (saturated b depth members numbers bounds) 1 t = fits (document_limits depth members numbers bounds) 1 t.
Proof.
  intros (w1 & v & w2 & Hb & _ & Hv & _).
  destruct (fits_bounded (document_limits depth members numbers bounds) (len b)) as (Hf & _).
  rewrite <- (Hf v t Hv 1) by (lia || (rewrite Hb, !len_app; pose proof (len_nonneg w1); pose proof (len_nonneg w2); lia)).
  f_equal. unfold saturated, bounded_by, document_limits. cbn. f_equal. lia.
Qed.

Lemma scan_saturated b depth members numbers bounds :
  0 <= members -> (forall bd, bounds = Some bd -> u64 (TotalBytes bd)) ->
  scan_document (saturated b depth members numbers bounds) b = None <->
  exists t, document_text b t /\ fits (document_limits depth members numbers bounds) 1 t = true /\ strings_within bounds (strings t).
Proof.
  intros Hm Hu. rewrite scan_document_exact by (cbn; pose proof (len_nonneg b); lia).
  split; intros (t & Hd & Hf & Hc); exists t; (split; [done |]); rewrite saturated_fits in * by done; (split; [done |]).
  - by apply charges_exact in Hc.
  - by apply charges_exact.
Qed.

(** C37. The scan of any input terminates: the fuel the validators give it, linear in
    the length of the input, is never used up, and any larger amount of fuel gives
    the same result, whatever the limits, the nesting level and the charge so far. *)
Theorem scan_terminates l d b bytes fuel :
  0 <= l_members l -> (scan_fuel b <= fuel)%nat ->
  value fuel l d {| sc_rest := b; stringBytes := bytes |} <> OutOfFuel /\
  value fuel l d {| sc_rest := b; stringBytes := bytes |} = value (scan_fuel b) l d {| sc_rest := b; stringBytes := bytes |}.
Proof.
  intros Hm Hf. destruct (scan_total l Hm (scan_fuel b)) as (Ht & _).
  specialize (Ht d {| sc_rest := b; stringBytes := bytes |} ltac:(cbn; unfold scan_fuel; lia)).
  replace fuel with ((fuel - scan_fuel b) + scan_fuel b)%nat by lia. by rewrite fuel_enough.
Qed.

Definition sample_limits : limits := {| l_depth := 4; l_members := 8; documentNumbers := true; stringBounds := None |}.

Lemma scan_terminates_witness :
  value 100 sample_limits 1 {| sc_rest := "[[1,2], {}]"; stringBytes := 0 |} <> OutOfFuel.
Proof. apply (scan_terminates sample_limits 1 "[[1,2], {}]" 0 100); [cbn; lia | vm_compute; lia]. Defined.

(** C35. The validators accept exactly the bounded JSON documents: the input is not
    empty, is no longer than the byte limit, is valid UTF-8, and is a text of the
    JSON grammar, between whitespace, whose tree nests at most [depth] and at most
    64 levels, has at most [members] elements in every container and no object
    with two members of the same decoded name; with string bounds, moreover, every
    key and string decodes to at most [TokenBytes] bytes and all of them together
    to at most [TotalBytes]. *)
Theorem validate_document_exact b byteLimit depth members bounds :
  0 <= members -> (forall bd, bounds = Some bd -> u64 (TotalBytes bd)) ->
  validateDocument b byteLimit depth members bounds = None <->
  (b <> "" /\ len b <= byteLimit /\ utf8_valid b = true) /\
  exists t, document_text b t /\ fits (document_limits depth members true bounds) 1 t = true /\
            strings_within bounds (strings t).
Proof.
  intros Hm Hu. unfold validateDocument. rewrite reject_nil, negb_false_iff, admitted_bytes_spec, scan_saturated by done. done.
Qed.

Lemma validate_document_exact_witness :
  exists t, document_text "[1, [true]] " t /\ fits (document_limits 3 8 true None) 1 t = true.
Proof.
  destruct (proj1 (validate_document_exact "[1, [true]] " 100 3 8 None ltac:(lia) ltac:(discriminate)) ltac:(vm_compute; reflexivity))
    as (_ & t & Hd & Hf & _).
  exists t. split; [exact Hd | exact Hf].
Defined.

(** ** The decoder *)

Definition decode_value_complete (v : string) (t : tree) : Prop :=
  forall fuel w r, ws w -> follow r -> (2 * String.length (w +:+ v +:+ r) < fuel)%nat ->
  decode_value fuel (w +:+ v +:+ r) = Some (t, r).

Definition decode_items_complete (x : string) (ts : list tree) : Prop :=
  forall fuel r, (2 * String.length (x +:+ "]" +:+ r) + 1 < fuel)%nat ->
  decode_items fuel (x +:+ "]" +:+ r) = Some (ts, r).

Definition decode_members_complete (x : string) (ms : list (string * tree)) : Prop :=
  forall fuel r, (2 * String.length (x +:+ "}" +:+ r) + 1 < fuel)%nat ->
  decode_members fuel (x +:+ "}" +:+ r) = Some (ms, r).

Lemma decode_items_space fuel x : decode_items fuel (space x) = decode_items fuel x.
Proof. destruct fuel as [| [| fuel]]; [done | done |]. cbn [decode_items decode_value]. by rewrite space_space. Qed.

Lemma decode_members_space fuel x : decode_members fuel (space x) = decode_members fuel x.
Proof. destruct fuel as [| fuel]; [done |]. cbn [decode_members]. by rewrite space_space. Qed.

Lemma decode_step fuel w x :
  ws w -> space x = x -> decode_value (S fuel) (w +:+ x) = decode_value (S fuel) x.
Proof. intros Hw Hx. cbn [decode_value]. by rewrite space_app. Qed.

Lemma decode_number v : number_text v -> decode_value_complete v (TNum v).
Proof.
  intros Hv fuel w r Hw Hr Hfuel. destruct fuel as [| fuel]; [lia |].
  rewrite decode_step by (done || by eapply value_space_stop; constructor). cbn [decode_value].
  rewrite (value_space_stop v (TNum v)) by by constructor.
  rewrite (number_complete number_grammar v r Hv eq_refl Hr), slice_app.
  destruct (number_head v Hv) as (c & q & -> & Hh). rewrite string_app_cons. destruct Hh as [-> | Hh]; [done |].
  repeat match goal with |- context [Ascii.eqb c ?x] => destruct (Ascii.eqb_spec c x) as [-> | _]; [by vm_compute in Hh |] end.
  done.
Qed.

Lemma decode_str body x : chars body x -> decode_value_complete (token body) (TStr x).
Proof.
  intros Hch fuel w r Hw Hr Hfuel. destruct fuel as [| fuel]; [lia |].
  rewrite decode_step by (done || by eapply value_space_stop; eapply vt_str). cbn [decode_value].
  rewrite (value_space_stop _ (TStr x)) by by constructor.
  pose proof (decode_string_complete body x r Hch) as Hs. rewrite token_cons in Hs |- *. cbn -[decode_string]. by rewrite Hs.
Qed.

Lemma decode_array x ts : items_text x ts -> decode_items_complete x ts -> decode_value_complete ("[" +:+ x +:+ "]") (TArr ts).
Proof.
  intros Hx IH fuel w r Hw _ Hfuel. destruct fuel as [| fuel]; [lia |].
  rewrite !string_app_assoc. rewrite decode_step by done. cbn [decode_value].
  change ("[" +:+ x +:+ "]" +:+ r) with (String "[" (x +:+ "]" +:+ r)). rewrite space_stop by done. cbn -[takeb decode_items space].
  destruct (first_item x ts ("]" +:+ r) Hx) as (c & q & Hq & Hne). rewrite Hq, takeb_other, <- Hq, decode_items_space by done.
  rewrite IH by slen. done.
Qed.

Lemma decode_object x ms :
  members_text x ms -> decode_members_complete x ms -> decode_value_complete ("{" +:+ x +:+ "}") (TObj ms).
Proof.
  intros Hx IH fuel w r Hw _ Hfuel. destruct fuel as [| fuel]; [lia |].
  rewrite !string_app_assoc. rewrite decode_step by done. cbn [decode_value].
  change ("{" +:+ x +:+ "}" +:+ r) with (String "{" (x +:+ "}" +:+ r)). rewrite space_stop by done. cbn -[takeb decode_members space].
  destruct (first_member x ms ("}" +:+ r) Hx) as (c & q & Hq & Hne). rewrite Hq, takeb_other, <- Hq, decode_members_space by done.
  rewrite IH by slen. done.
Qed.

Lemma decode_empty (o c : ascii) w t :
  o = "["%char /\ c = "]"%char /\ t = TArr [] \/ o = "{"%char /\ c = "}"%char /\ t = TObj [] -> ws w ->
  decode_value_complete (String o "" +:+ w +:+ String c "") t.
Proof.
  intros Ho Hw fuel w1 r Hw1 _ Hfuel. destruct fuel as [| fuel]; [lia |].
  rewrite !string_app_assoc. rewrite decode_step by (done || by destruct Ho as [(-> & _) | (-> & _)]). cbn [decode_value].
  rewrite string_app_cons, string_app_nil_l, space_stop by by destruct Ho as [(-> & _) | (-> & _)].
  assert (is_ws c = false) as Hcw by by destruct Ho as [(_ & -> & _) | (_ & -> & _)].
  rewrite (space_until c w r Hw Hcw).
  destruct Ho as [(-> & -> & ->) | (-> & -> & ->)]; cbn -[takeb]; by rewrite takeb_here.
Qed.

Lemma decode_lit v t :
  v = "null" /\ t = TNull \/ v = "true" /\ t = TBool true \/ v = "false" /\ t = TBool false -> decode_value_complete v t.
Proof.
  intros Hv fuel w r Hw _ Hfuel. destruct fuel as [| fuel]; [lia |].
  rewrite decode_step by (done || (destruct Hv as [[-> _] | [[-> _] | [-> _]]]; done)).
  destruct Hv as [[-> ->] | [[-> ->] | [-> ->]]]; reflexivity.
Qed.

Lemma decode_item w1 v t w2 fuel c r :
  ws w1 -> decode_value_complete v t -> ws w2 -> follows c = true -> is_ws c = false ->
  (2 * String.length (w1 +:+ v +:+ w2 +:+ String c "" +:+ r) < fuel)%nat ->
  exists r', decode_value fuel (w1 +:+ v +:+ w2 +:+ String c "" +:+ r) = Some (t, r') /\ space r' = String c r.
Proof.
  intros H1 Hv H2 Hc Hcw Hf. exists (w2 +:+ String c "" +:+ r). split; [| by apply space_until].
  apply Hv; [done | by apply follow_ws | done].
Qed.

Lemma decode_key w1 body k w2 r :
  ws w1 -> chars body k -> ws w2 ->
  exists r1, decode_string (space (w1 +:+ token body +:+ w2 +:+ ":" +:+ r)) = Some (k, r1) /\ space r1 = String ":" r.
Proof.
  intros H1 Hch H2. exists (w2 +:+ ":" +:+ r). split; [| by apply (space_until ":"%char)].
  rewrite space_app, (value_space_stop _ (TStr k)) by (done || by eapply vt_str). by apply decode_string_complete.
Qed.

Lemma decode_complete :
  (forall v t, value_text v t -> decode_value_complete v t) /\ (forall x ts, items_text x ts -> decode_items_complete x ts) /\
  (forall x ms, members_text x ms -> decode_members_complete x ms).
Proof.
  apply text_mut; intros.
  1-3: apply decode_lit; tauto.
  - by apply decode_number.
  - by apply decode_str.
  - apply (decode_empty "["%char "]"%char); [naive_solver | done].
  - by apply decode_array.
  - apply (decode_empty "{"%char "}"%char); [naive_solver | done].
  - by apply decode_object.
  - intros fuel r Hf. destruct fuel as [| fuel]; [lia |]. cbn [decode_items]. rewrite !string_app_assoc.
    destruct (decode_item w1 v t w2 fuel "]"%char r) as (r' & -> & ->); [done .. | slen |]. by rewrite takeb_here.
  - intros fuel r Hf. destruct fuel as [| fuel]; [lia |]. cbn [decode_items]. rewrite !string_app_assoc.
    destruct (decode_item w1 v t w2 fuel ","%char (x +:+ "]" +:+ r)) as (r' & -> & ->); [done .. | slen |].
    rewrite takeb_other, takeb_here by done. rewrite H0 by slen. done.
  - intros fuel r Hf. destruct fuel as [| fuel]; [lia |]. cbn [decode_members]. rewrite !string_app_assoc.
    destruct (decode_key w1 body k w2 (w3 +:+ v +:+ w4 +:+ "}" +:+ r)) as (r1 & -> & ->); [done .. |]. rewrite takeb_here.
    destruct (decode_item w3 v t w4 fuel "}"%char r) as (r' & -> & ->); [done .. | slen |]. by rewrite takeb_here.
  - intros fuel r Hf. destruct fuel as [| fuel]; [lia |]. cbn [decode_members]. rewrite !string_app_assoc.
    destruct (decode_key w1 body k w2 (w3 +:+ v +:+ w4 +:+ "," +:+ x +:+ "}" +:+ r)) as (r1 & -> & ->); [done .. |]. rewrite takeb_here.
    destruct (decode_item w3 v t w4 fuel ","%char (x +:+ "}" +:+ r)) as (r' & -> & ->); [done .. | slen |].
    rewrite takeb_other, takeb_here by done. rewrite H0 by slen. done.
Qed.

Lemma decode_document b t : document_text b t -> exists r, decode_value (scan_fuel b) b = Some (t, r).
Proof.
  intros (w1 & v & w2 & -> & H1 & Hv & H2). exists w2. destruct decode_complete as (Hd & _).
  apply Hd; [done | done | by apply follow_whitespace | unfold scan_fuel; lia].
Qed.

(** A document denotes one tree. *)
Lemma document_unique b t t' : document_text b t -> document_text b t' -> t = t'.
Proof. intros [r H]%decode_document [r' H']%decode_document. congruence. Qed.

(** Documents within the limits are accepted. *)
Lemma validates b t byteLimit depth members bounds :
  0 <= members -> (forall bd, bounds = Some bd -> u64 (TotalBytes bd)) ->
  b <> "" -> len b <= byteLimit -> utf8_valid b = true -> document_text b t ->
  fits (document_limits depth members true bounds) 1 t = true -> strings_within bounds (strings t) ->
  validateDocument b byteLimit depth members bounds = None.
Proof.
  intros Hm Hb Hne Hlen Hu Hd Hf Hs. unfold validateDocument.
  rewrite reject_nil, negb_false_iff, admitted_bytes_spec, scan_saturated by done. split; [done |]. by exists t.
Qed.

Lemma validate_accepts b t byteLimit depth members :
  0 <= members -> b <> "" -> len b <= byteLimit -> utf8_valid b = true -> document_text b t ->
  fits (document_limits depth members true None) 1 t = true -> ValidateDocument b byteLimit depth members = None.
Proof. intros. by apply (validates b t). Qed.

Lemma parse_accepts b t byteLimit depth members :
  0 <= members -> b <> "" -> len b <= byteLimit -> utf8_valid b = true -> document_text b t ->
  fits (document_limits depth members false None) 1 t = true -> Parse b byteLimit depth members = inr t.
Proof.
  intros Hm Hne Hlen Hu Hd Hf. unfold Parse. rewrite (proj2 (admitted_bytes_spec b byteLimit)) by done. cbn [negb].
  rewrite (proj2 (scan_saturated b depth members false None Hm ltac:(discriminate))) by by exists t.
  by destruct (decode_document _ _ Hd) as [r ->].
Qed.

(** C36. [Parse] returns the tree of exactly the bounded documents: it succeeds with
    [t] when, and only when, the input is admitted, is a JSON text that denotes [t],
    and [t] respects the nesting, member and duplicate-key limits and has only
    machine numbers (tokens of at most 128 bytes, exponents of magnitude at most
    324, bare integers within uint64, and a float64 value that is finite and does
    not underflow to zero); every other input gives [ErrInvalid]. The last part says
    what a machine number is on the rational value of the token: the limits admit
    the token with the given sign, digits, fraction and exponent exactly when it is
    [representable]. *)
Theorem parse_exact b byteLimit depth members :
  0 <= members ->
  (forall t, Parse b byteLimit depth members = inr t <->
     (b <> "" /\ len b <= byteLimit /\ utf8_valid b = true) /\ document_text b t /\
     fits (document_limits depth members false None) 1 t = true) /\
  (forall e, Parse b byteLimit depth members = inl e -> e = ErrInvalid) /\
  (forall sign int frac exp,
     sign = "" \/ sign = "-" -> int_text int -> all_bytes is_digit frac = true -> exp_text exp ->
     number_fits (document_limits depth members false None) (sign +:+ int +:+ dotted frac +:+ exp) = true <->
     representable sign int frac exp).
Proof.
  intros Hm. apply and_assoc. split; [| intros; by apply number_fits_spec]. unfold Parse. destruct (admitted_bytes b byteLimit) eqn:Ha; cbn [negb].
  2:{ split; [| by intros e [= <-]]. intros t. split; [done |]. rewrite <- admitted_bytes_spec. intros [H _]. congruence. }
  apply admitted_bytes_spec in Ha. pose proof (scan_saturated b depth members false None Hm ltac:(discriminate)) as Hs.
  destruct (scan_document _ b) as [e |] eqn:He.
  - assert (e = ErrInvalid) as -> by (unfold scan_document in He; repeat case_match; congruence).
    split; [| by intros e [= <-]]. intros t. split; [done |]. intros (_ & Hd & Hf).
    assert (Some ErrInvalid = @None error) by (apply Hs; exists t; done). done.
  - destruct (proj1 Hs eq_refl) as (t0 & Hd & Hf & _). destruct (decode_document _ _ Hd) as [r ->]. split; [| done].
    intros t. split; [by intros [= <-] |]. intros (_ & Hd' & _). by rewrite (document_unique _ _ _ Hd Hd').
Qed.

Lemma parse_exact_witness :
  document_text "[1, [true]] " (TArr [TNum "1"; TArr [TBool true]]) /\ Parse "[1, [01]]" 100 3 8 = inl ErrInvalid.
Proof.
  split; [| vm_compute; reflexivity].
  apply (proj1 (parse_exact "[1, [true]] " 100 3 8 ltac:(lia)) (TArr [TNum "1"; TArr [TBool true]])).
  vm_compute. reflexivity.
Defined.
