(* ===== verification/JsonRoundtrip.v ===== *)
(** * Encoding and decoding JSON

    What [json.Marshal] (Json.v) writes is a text of the grammar of
    [JsonGrammar.v]: strings are escaped so that they decode to themselves,
    integers are machine numbers, and the strict parser returns the tree of the
    encoded value. *)

From Stdlib Require Import Ascii.
From S2P Require Import Prelude GoText GoTime Digests Errors Json StrictJson JsonGrammar JsonDocuments.
#[local] Open Scope Z_scope.

(** Linear arithmetic with quotients by constants. *)
Ltac zdiv := Z.to_euclidean_division_equations; lia.

(** ** Runes and UTF-8 *)

(** A valid sequence at the front of a string, with its rune. *)
Inductive rune_bytes : Z -> string -> Prop :=
| rb_1 a : byte a < 128 -> rune_bytes (byte a) (String a "")
| rb_2 a b : two_bytes (byte a) (byte b) = true ->
    rune_bytes ((byte a - 192) * 64 + (byte b - 128)) (String a (String b ""))
| rb_3 a b c : three_bytes (byte a) (byte b) (byte c) = true ->
    rune_bytes ((byte a - 224) * 4096 + (byte b - 128) * 64 + (byte c - 128)) (String a (String b (String c "")))
| rb_4 a b c d : four_bytes (byte a) (byte b) (byte c) (byte d) = true ->
    rune_bytes ((byte a - 240) * 262144 + (byte b - 128) * 4096 + (byte c - 128) * 64 + (byte d - 128))
      (String a (String b (String c (String d "")))).

Lemma three_bytes_first b0 b1 b2 : three_bytes b0 b1 b2 = true -> 224 <= b0 <= 239 /\ 128 <= b1 <= 191 /\ 128 <= b2 <= 191.
Proof. unfold three_bytes, cont, in_range. intros H. b2p. lia. Qed.

Lemma two_bytes_first b0 b1 : two_bytes b0 b1 = true -> 194 <= b0 <= 223 /\ 128 <= b1 <= 191.
Proof. unfold two_bytes, cont, in_range. intros H. b2p. lia. Qed.

Lemma four_bytes_first b0 b1 b2 b3 :
  four_bytes b0 b1 b2 b3 = true -> 240 <= b0 <= 244 /\ 128 <= b1 <= 191 /\ 128 <= b2 <= 191 /\ 128 <= b3 <= 191.
Proof. unfold four_bytes, cont, in_range. intros H. b2p. lia. Qed.

Lemma not_two b0 b1 : 224 <= b0 -> two_bytes b0 b1 = false.
Proof. unfold two_bytes, in_range. intros H. apply andb_false_iff. left. apply andb_false_iff. right. apply Z.leb_gt. lia. Qed.

Lemma not_three b0 b1 b2 : 240 <= b0 -> three_bytes b0 b1 b2 = false.
Proof.
  intros H. apply not_true_iff_false. intros Ht%three_bytes_first. lia.
Qed.

(** [runes] reads a valid sequence as its rune. *)
Lemma runes_cons c bs s : rune_bytes c bs -> runes (bs +:+ s) = (Some c, bs) :: runes s.
Proof.
  intros [a Ha | a b Hab | a b d Habd | a b d e Habde]; rewrite !string_app_cons, string_app_nil_l; cbn [runes].
  - by rewrite (proj2 (Z.ltb_lt _ _)).
  - pose proof (two_bytes_first _ _ Hab). rewrite (proj2 (Z.ltb_ge (byte a) 128)), Hab by lia. done.
  - pose proof (three_bytes_first _ _ _ Habd). rewrite (proj2 (Z.ltb_ge (byte a) 128)), not_two, Habd by lia. done.
  - pose proof (four_bytes_first _ _ _ _ Habde).
    rewrite (proj2 (Z.ltb_ge (byte a) 128)), not_two, not_three, Habde by lia. done.
Qed.

Lemma utf8_cons c bs s : rune_bytes c bs -> utf8_valid (bs +:+ s) = utf8_valid s.
Proof. intros H. unfold utf8_valid. by rewrite (runes_cons c). Qed.

(** Induction on the runes of a valid string. *)
Lemma utf8_induction (P : string -> Prop) :
  P "" -> (forall c bs s, rune_bytes c bs -> utf8_valid s = true -> P s -> P (bs +:+ s)) ->
  forall s, utf8_valid s = true -> P s.
Proof.
  intros H0 Hs s. remember (String.length s) as n eqn:Hn. revert s Hn. induction (lt_wf n) as [n _ IH]. intros s -> Hv.
  assert (forall c bs r, rune_bytes c bs -> s = bs +:+ r -> P s) as Hstep.
  { intros c bs r Hb ->. rewrite (utf8_cons c) in Hv by done. apply (Hs c); [done | done |].
    eapply IH; [| reflexivity | done]. destruct Hb; rewrite string_length_app; cbn; lia. }
  destruct s as [| a r1]; [done |]. unfold utf8_valid in Hv. cbn [runes] in Hv.
  destruct (Z.ltb_spec (byte a) 128) as [Ha |]; [by apply (Hstep _ _ r1 (rb_1 a Ha)) |].
  destruct r1 as [| b r2]; [done |]. destruct (two_bytes (byte a) (byte b)) eqn:H2; [by apply (Hstep _ _ r2 (rb_2 a b H2)) |].
  destruct r2 as [| c r3]; [done |]. destruct (three_bytes (byte a) (byte b) (byte c)) eqn:H3; [by apply (Hstep _ _ r3 (rb_3 a b c H3)) |].
  destruct r3 as [| d r4]; [done |].
  destruct (four_bytes (byte a) (byte b) (byte c) (byte d)) eqn:H4; [by apply (Hstep _ _ r4 (rb_4 a b c d H4)) | done].
Qed.

Lemma utf8_app s t : utf8_valid s = true -> utf8_valid (s +:+ t) = utf8_valid t.
Proof.
  intros H. pattern s. revert s H. apply utf8_induction; [done |]. intros c bs s Hb Hs IH.
  by rewrite string_app_assoc, (utf8_cons c), IH.
Qed.

Lemma utf8_ascii s : all_bytes (fun a => byte a <? 128) s = true -> utf8_valid s = true.
Proof.
  induction s as [| a s IH]; [done |]. cbn [all_bytes]. intros [Ha Hs]%andb_true_iff. apply Z.ltb_lt in Ha.
  change (String a s) with (String a "" +:+ s). rewrite (utf8_cons (byte a)) by by constructor. auto.
Qed.

(** ** Escapes *)

Lemma byte_chr z : 0 <= z < 256 -> byte (chr z) = z.
Proof. intros H. unfold byte, chr. rewrite Ascii.N_ascii_embedding by lia. lia. Qed.

Lemma chr_byte a z : z = byte a -> chr z = a.
Proof. intros ->. apply byte_inj. apply byte_chr. pose proof (byte_range a). lia. Qed.

Lemma three_bytes_value b0 b1 b2 : three_bytes b0 b1 b2 = true ->
  let c := (b0 - 224) * 4096 + (b1 - 128) * 64 + (b2 - 128) in
  2048 <= c < 65536 /\ high_surrogate c = false /\ low_surrogate c = false.
Proof.
  unfold three_bytes, cont, high_surrogate, low_surrogate, in_range. intros H. b2p. cbn zeta. b2p. lia.
Qed.

Lemma four_bytes_value b0 b1 b2 b3 : four_bytes b0 b1 b2 b3 = true ->
  65536 <= (b0 - 240) * 262144 + (b1 - 128) * 4096 + (b2 - 128) * 64 + (b3 - 128) < 1114112.
Proof. unfold four_bytes, cont, in_range. intros H. b2p. lia. Qed.

Lemma surrogate_small c : c < 55296 -> high_surrogate c = false /\ low_surrogate c = false.
Proof. unfold high_surrogate, low_surrogate, in_range. intros H. rewrite !andb_false_iff, !Z.leb_gt. lia. Qed.

(** A valid sequence is the encoding of its rune, which is no surrogate. *)
Lemma rune_bytes_encode c bs :
  rune_bytes c bs -> bs = encode_rune c /\ (c < 65536 -> high_surrogate c = false /\ low_surrogate c = false) /\ 0 <= c.
Proof.
  intros [a Ha | a b Hab | a b d Habd | a b d e Habde]; unfold encode_rune.
  - pose proof (byte_range a). rewrite (proj2 (Z.ltb_lt _ 128)), (chr_byte a) by done. split_and!; [done | | lia].
    intros _. apply surrogate_small. lia.
  - pose proof (two_bytes_first _ _ Hab). set (v := (byte a - 192) * 64 + (byte b - 128)).
    rewrite (proj2 (Z.ltb_ge v 128)), (proj2 (Z.ltb_lt v 2048)) by lia. subst v.
    split_and!; [| intros _; apply surrogate_small; lia | lia]. repeat f_equal; symmetry; apply chr_byte; zdiv.
  - pose proof (three_bytes_first _ _ _ Habd). pose proof (three_bytes_value _ _ _ Habd) as [Hr Hs].
    set (v := (byte a - 224) * 4096 + (byte b - 128) * 64 + (byte d - 128)) in *.
    rewrite (proj2 (Z.ltb_ge v 128)), (proj2 (Z.ltb_ge v 2048)), (proj2 (Z.ltb_lt v 65536)) by lia. subst v.
    split_and!; [| done | lia]. repeat f_equal; symmetry; apply chr_byte; zdiv.
  - pose proof (four_bytes_first _ _ _ _ Habde). pose proof (four_bytes_value _ _ _ _ Habde) as Hr.
    set (v := (byte a - 240) * 262144 + (byte b - 128) * 4096 + (byte d - 128) * 64 + (byte e - 128)) in *.
    rewrite (proj2 (Z.ltb_ge v 128)), (proj2 (Z.ltb_ge v 2048)), (proj2 (Z.ltb_ge v 65536)) by lia. subst v.
    split_and!; [| lia | lia]. repeat f_equal; symmetry; apply chr_byte; zdiv.
Qed.

Lemma hex_digit_parse n : 0 <= n < 16 -> hexDigit (hex_digit n) = Some n.
Proof.
  intros H. assert (n ∈ seqZ 0 16) as Hin by (apply elem_of_seqZ; lia).
  assert (Forall (fun n => hexDigit (hex_digit n) = Some n) (seqZ 0 16)) as Hall by (repeat constructor).
  rewrite Forall_forall in Hall. auto.
Qed.

(** The four digits of a rune. *)
Lemma hex4_parse c : 0 <= c < 65536 ->
  StrictJson.hex4 (hex_digit (c / 4096 mod 16)) (hex_digit (c / 256 mod 16)) (hex_digit (c / 16 mod 16)) (hex_digit (c mod 16))
  = Some c.
Proof.
  intros H. unfold StrictJson.hex4. rewrite !hex_digit_parse by (apply Z.mod_pos_bound; lia). f_equal. zdiv.
Qed.

Lemma chars_bytes bs body x :
  all_bytes (fun a => 128 <=? byte a) bs = true -> chars body x -> chars (bs +:+ body) (bs +:+ x).
Proof.
  intros Hb Hc. induction bs as [| a bs IH]; [done |]. rewrite !string_app_cons. cbn [all_bytes] in Hb.
  apply andb_true_iff in Hb as [Ha Hb]. apply Z.leb_le in Ha.
  constructor; [lia | intros ->; by vm_compute in Ha | intros ->; by vm_compute in Ha | auto].
Qed.

(** A rune that is escaped as itself. *)
Lemma chars_plain_rune c bs body x :
  rune_bytes c bs -> 32 <= c -> c <> 34 -> c <> 92 -> chars body x -> chars (bs +:+ body) (bs +:+ x).
Proof.
  intros Hr H32 Hq He Hc. destruct Hr as [a Ha | a b Hab | a b d Habd | a b d e Habde].
  - rewrite !string_app_cons, !string_app_nil_l. constructor; [lia | by intros -> | by intros -> | done].
  - apply chars_bytes; [| done]. pose proof (two_bytes_first _ _ Hab). cbn [all_bytes]. rewrite !(proj2 (Z.leb_le _ _)) by lia. done.
  - apply chars_bytes; [| done]. pose proof (three_bytes_first _ _ _ Habd). cbn [all_bytes].
    rewrite !(proj2 (Z.leb_le _ _)) by lia. done.
  - apply chars_bytes; [| done]. pose proof (four_bytes_first _ _ _ _ Habde). cbn [all_bytes].
    rewrite !(proj2 (Z.leb_le _ _)) by lia. done.
Qed.

Lemma chars_hex_rune c bs body x :
  rune_bytes c bs -> c < 65536 -> chars body x -> chars ((backslash +:+ "u" +:+ Json.hex4 c) +:+ body) (bs +:+ x).
Proof.
  intros Hr Hc Hb. destruct (rune_bytes_encode _ _ Hr) as (-> & Hs & H0). destruct (Hs Hc) as [Hhi Hlo].
  unfold Json.hex4, backslash. rewrite !string_app_cons, !string_app_nil_l, !string_app_cons, string_app_nil_l.
  by apply (ch_unicode _ _ _ _ c); [apply hex4_parse | ..].
Qed.

Lemma chars_short_rune c e bs body x :
  rune_bytes c bs -> c < 128 -> simple_escape e = Some (chr c) -> chars body x ->
  chars ((backslash +:+ String e "") +:+ body) (bs +:+ x).
Proof.
  intros Hr Hc He Hb. destruct (rune_bytes_encode _ _ Hr) as (-> & _ & H0). unfold encode_rune.
  rewrite (proj2 (Z.ltb_lt c 128)) by done. unfold backslash. rewrite !string_app_cons, !string_app_nil_l.
  by eapply ch_simple.
Qed.

Lemma escape_rune_chars c bs body x :
  rune_bytes c bs -> chars body x -> chars (escape_rune (Some c, bs) +:+ body) (bs +:+ x).
Proof.
  intros Hr Hb. pose proof (rune_bytes_encode _ _ Hr) as (_ & _ & H0). unfold escape_rune. cbn [fst snd].
  repeat match goal with |- context [c =? ?k] => destruct (Z.eqb_spec c k) as [-> |];
    [first [by eapply chars_short_rune | cbn [orb]; rewrite ?orb_true_r; by apply chars_hex_rune] |] end.
  destruct (Z.ltb_spec c 32); cbn [orb]; [apply chars_hex_rune; [done | lia | done] |].
  by apply (chars_plain_rune c).
Qed.

Lemma json_string_text s : utf8_valid s = true -> exists body, json_string s = token body /\ chars body s.
Proof.
  intros Hv. exists (foldr (fun r acc => escape_rune r +:+ acc) "" (runes s)). split; [done |].
  pattern s. revert s Hv. apply utf8_induction; [constructor |]. intros c bs s Hb Hs IH.
  rewrite (runes_cons c) by done. cbn [foldr]. by apply escape_rune_chars.
Qed.

(** The string encoder round-trips: the token [json.Marshal] writes for a valid
    UTF-8 string, HTML characters, control characters and line separators
    included, is a string token of the grammar, and decoding it gives back the
    string; the scanner's byte count of the token is the length of the string. *)
Theorem json_string_roundtrip s :
  utf8_valid s = true ->
  exists body, json_string s = token body /\ chars body s /\ unmarshal_string (json_string s) = s /\
               decodedStringBytes (json_string s) = Some (len s).
Proof.
  intros (body & Hj & Hc)%json_string_text. exists body. rewrite Hj. unfold unmarshal_string, decodedStringBytes.
  by rewrite token_body_token, (unquote_chars _ s), (decoded_bytes_chars _ s).
Qed.

Lemma json_string_roundtrip_witness :
  unmarshal_string (json_string ("a<b" +:+ String (chr 10) (String (chr 226) (String (chr 128) (String (chr 168) "")))))
  = "a<b" +:+ String (chr 10) (String (chr 226) (String (chr 128) (String (chr 168) ""))).
Proof.
  destruct (json_string_roundtrip ("a<b" +:+ String (chr 10) (String (chr 226) (String (chr 128) (String (chr 168) "")))))
    as (body & _ & _ & H & _); [vm_compute; reflexivity | exact H].
Defined.

(** ** Integers *)

Lemma pretty_char_value x : (x < 10)%N -> byte (pretty_N_char x) = 48 + Z.of_N x.
Proof.
  intros H. assert (x = 0 \/ x = 1 \/ x = 2 \/ x = 3 \/ x = 4 \/ x = 5 \/ x = 6 \/ x = 7 \/ x = 8 \/ x = 9)%N as Hx by lia.
  by destruct_or! Hx; subst.
Qed.

Lemma pretty_go_head x s : (0 < x)%N -> exists c r, pretty_N_go x s = String c r /\ in_range 49 57 (byte c) = true.
Proof.
  revert s. induction (N.lt_wf_0 x) as [x _ IH]; intros s Hx. rewrite pretty_N_go_step by lia.
  destruct (decide (x < 10)%N) as [Hlt | Hge].
  - rewrite N.div_small, N.mod_small, pretty_N_go_0 by done. eexists _, _. split; [done |].
    rewrite pretty_char_value by done. unfold in_range. rewrite !(proj2 (Z.leb_le _ _)) by lia. done.
  - apply IH; [apply N.div_lt; lia | apply N.div_str_pos; lia].
Qed.

Lemma pretty_go_value x s : digits_value 0 (pretty_N_go x s) = digits_value (Z.of_N x) s.
Proof.
  revert s. induction (N.lt_wf_0 x) as [x _ IH]; intros s.
  destruct (decide (x = 0)%N) as [-> | Hx]; [by rewrite pretty_N_go_0 |].
  rewrite pretty_N_go_step, IH by (lia || (apply N.div_lt; lia)). cbn [digits_value]. unfold digit_value.
  rewrite pretty_char_value by (apply N.mod_lt; lia). f_equal.
  rewrite N2Z.inj_div, N2Z.inj_mod. change (Z.of_N 10) with 10. zdiv.
Qed.

(** The digits of a positive number. *)
Lemma pretty_positive_text p :
  let d := pretty (N.pos p) in
  (digit_run d /\ exists c r, d = String c r /\ in_range 49 57 (byte c) = true) /\ digits_value 0 d = Z.pos p.
Proof.
  cbn zeta. assert (pretty (N.pos p) = pretty_N_go (N.pos p) "") as Hp by (unfold pretty, pretty_N; by case_decide).
  split; [split; [split; [apply pretty_N_nonempty | apply pretty_N_digits] |] |]; rewrite Hp; [by apply pretty_go_head |].
  by rewrite pretty_go_value.
Qed.

Lemma format_int_parts n :
  exists sign d, format_int n = sign +:+ d /\ (sign = "" \/ sign = "-") /\ int_text d /\ digits_value 0 d = Z.abs n.
Proof.
  destruct n as [| p | p].
  - exists "", "0". split_and!; [done | auto | by left | done].
  - exists "", (pretty (N.pos p)). destruct (pretty_positive_text p) as [H Hv]. split_and!; [done | auto | by right | done].
  - exists "-", (pretty (N.pos p)). destruct (pretty_positive_text p) as [H Hv]. split_and!; [done | auto | by right | done].
Qed.

Lemma format_int_text n : number_text (format_int n).
Proof.
  destruct (format_int_parts n) as (sign & d & -> & Hs & Hd & _). rewrite <- (string_app_nil_r d).
  apply (nt_number sign d "" ""); auto.
Qed.

Lemma decimal_digits d : forall m, all_bytes is_digit d = true -> decimal m 0 false d = (digits_value m d, 0, "").
Proof.
  induction d as [| c d IH]; intros m Hd; [done |]. cbn [all_bytes decimal digits_value] in *.
  apply andb_true_iff in Hd as [Hc Hd].
  repeat match goal with |- context [Ascii.eqb c ?x] => destruct (Ascii.eqb_spec c x) as [-> | _]; [by vm_compute in Hc |] end.
  cbn [orb]. rewrite Hc. auto.
Qed.

Lemma format_int_decimal n : decimal 0 0 false (format_int n) = (Z.abs n, 0, "").
Proof.
  destruct (format_int_parts n) as (sign & d & -> & Hs & [_ Hd]%int_text_run & <-).
  destruct Hs as [-> | ->]; [by apply decimal_digits |]. exact (decimal_digits d 0 Hd).
Qed.

Lemma float_bound : max_u64 < 2 ^ 1024 - 2 ^ 970.
Proof. vm_compute. reflexivity. Qed.

(** An integer of at most 64 bits is a machine number. *)
Lemma format_int_machine l n : Z.abs n <= max_u64 -> number_fits l (format_int n) = true.
Proof.
  intros Hn. unfold number_fits. destruct (documentNumbers l); [done |]. cbn [orb]. unfold exponent.
  pose proof (format_int_decimal n) as Hd. rewrite Hd. cbn [snd signed_value]. cbn [Z.abs Z.leb Z.compare andb].
  unfold machine_number, float_overflows, float_zero, number_value. rewrite Hd. cbn [signed_value].
  assert (len (format_int n) <= 128) as ->%Z.leb_le.
  { destruct (format_int_parts n) as (sign & d & Hf & Hs & _ & Hv). destruct (Z.leb_spec 0 n).
    - etrans; [apply format_int_length; right; unfold u64; lia |]. lia.
    - replace (format_int n) with ("-" +:+ format_int (- n)) by (destruct n; done || lia). rewrite len_app.
      pose proof (format_int_length (- n) ltac:(right; unfold u64; lia)). change (len "-") with 1. lia. }
  destruct (format_int_parts n) as (sign & d & Hf & Hs & Hi%int_text_run & Hv).
  assert (opt_take "-" (format_int n) = d) as ->.
  { rewrite Hf. unfold opt_take. destruct Hs as [-> | ->]; [| done]. rewrite string_app_nil_l. destruct Hi as [Hne Hdig].
    destruct d as [| c d]; [done |]. cbn [all_bytes] in Hdig. apply andb_true_iff in Hdig as [Hc _].
    by rewrite (takeb_other _ _ _ (digit_not_minus c Hc)). }
  rewrite Hv, (proj2 (Z.leb_le _ _) Hn), orb_true_r. unfold at_least, at_most.
  change (0 - 0) with 0. change (0 <=? 0) with true. change (10 ^ 0) with 1. cbn iota. rewrite !Z.mul_1_r.
  pose proof float_bound as Hb. set (big := 2 ^ 1024 - 2 ^ 970) in *. clearbody big.
  rewrite (proj2 (Z.leb_gt big _)) by lia. cbn [andb negb].
  destruct (decide (n = 0)) as [-> | Hz]; [done |].
  assert (1 < 2 ^ 1075) as Hp by (vm_compute; reflexivity). set (tiny := 2 ^ 1075) in *. clearbody tiny.
  assert (tiny <= Z.abs n * tiny) by (rewrite <- (Z.mul_1_l tiny) at 1; apply Z.mul_le_mono_nonneg_r; lia).
  by rewrite (proj2 (Z.leb_gt (Z.abs n * tiny) 1)) by lia.
Qed.

(** ** Times *)

Definition is_time_char (a : ascii) : bool := is_digit a || bool_decide (a ∈ ["-"; ":"; "."; "T"; "Z"; "+"]%char).

Lemma zeros_digits n : all_bytes is_digit (zeros n) = true.
Proof. by induction n. Qed.

Lemma format_int_time n : all_bytes is_time_char (format_int n) = true.
Proof.
  destruct (format_int_parts n) as (sign & d & -> & Hs & [_ Hd]%int_text_run & _). rewrite all_bytes_app. apply andb_true_iff. split.
  - by destruct Hs as [-> | ->].
  - eapply all_bytes_mono; [| exact Hd]. intros a Ha. unfold is_time_char. by rewrite Ha.
Qed.

Lemma format_padded_time w n : all_bytes is_time_char (format_padded w n) = true.
Proof.
  unfold format_padded. rewrite all_bytes_app, format_int_time, andb_true_r. eapply all_bytes_mono; [| apply zeros_digits].
  intros a Ha. unfold is_time_char. by rewrite Ha.
Qed.

Lemma rfc3339_time t : all_bytes is_time_char (rfc3339_nano t) = true.
Proof.
  unfold rfc3339_nano. destruct (civil t) as [[y m] d]. unfold fraction, zone_suffix.
  repeat rewrite all_bytes_app. rewrite !format_padded_time.
  destruct (nanosecond t =? 0); destruct (trim_zeros 9 (nanosecond t) 9) as [f k];
    destruct (offset_of (loc t) =? 0); destruct (offset_of (loc t) <? 0); rewrite ?all_bytes_app, ?format_padded_time; done.
Qed.

Lemma time_char a : is_time_char a = true -> 32 <= byte a < 128 /\ a <> quote_char /\ a <> escape_char.
Proof.
  intros H. unfold is_time_char in H. apply orb_true_iff in H as [H | H%bool_decide_eq_true].
  - split; [unfold is_digit, in_range in H; b2p; lia |]. by split; intros ->.
  - rewrite !elem_of_cons, elem_of_nil in H. destruct_or! H; subst; split_and!; try done.
Qed.

Lemma chars_time s : all_bytes is_time_char s = true -> chars s s.
Proof.
  induction s as [| a s IH]; [constructor |]. cbn [all_bytes]. intros [(H1 & H2 & H3)%time_char Hs]%andb_true_iff.
  constructor; [lia | done | done | auto].
Qed.

(** ** Values *)

Fixpoint tree_of (j : json) : tree :=
  match j with
  | JNull => TNull
  | JBool b => TBool b
  | JNum n => TNum (format_int n)
  | JStr s => TStr s
  | JTime t => TStr (rfc3339_nano t)
  | JObj fields => TObj (map (fun f => (fst f, tree_of (snd f))) fields)
  | JArr items => TArr (map tree_of items)
  end.

(** Valid strings, 64-bit integers and times that [json.Marshal] accepts throughout. *)
Fixpoint encodable (j : json) : bool :=
  match j with
  | JNum n => Z.abs n <=? max_u64
  | JStr s => utf8_valid s
  | JTime t => marshals t
  | JObj fields => forallb (fun f => utf8_valid (fst f) && encodable (snd f)) fields
  | JArr items => forallb encodable items
  | _ => true
  end.

Lemma json_induction (P : json -> Prop) :
  P JNull -> (forall b, P (JBool b)) -> (forall n, P (JNum n)) -> (forall s, P (JStr s)) -> (forall t, P (JTime t)) ->
  (forall fields, Forall (fun f => P (snd f)) fields -> P (JObj fields)) ->
  (forall items, Forall P items -> P (JArr items)) -> forall j, P j.
Proof.
  intros H1 H2 H3 H4 H5 H6 H7. fix IH 1. intros [| b | n | s | t | fields | items]; [done | auto .. | |].
  - apply H6. induction fields as [| [k x] fields IHf]; constructor; [apply IH | exact IHf].
  - apply H7. induction items as [| x items IHi]; constructor; [apply IH | exact IHi].
Qed.

Lemma elements_text l : l <> [] -> Forall (fun x => value_text (marshal x) (tree_of x)) l ->
  items_text (elements true l) (map tree_of l) /\ elements false l = "," +:+ elements true l.
Proof.
  induction l as [| x l IH]; [done |]. intros _ [Hx Hl]%Forall_cons. split; [| done].
  destruct l as [| y l].
  - cbn [elements map]. change ("" +:+ marshal x +:+ "") with (marshal x +:+ "").
    exact (it_one "" (marshal x) (tree_of x) "" ws_nil Hx ws_nil).
  - destruct (IH ltac:(done) Hl) as [Hi He]. cbn [elements map] in *. rewrite He.
    exact (it_more "" (marshal x) (tree_of x) "" _ _ ws_nil Hx ws_nil Hi).
Qed.

Lemma members_text_of l : l <> [] ->
  Forall (fun f => utf8_valid (fst f) = true /\ value_text (marshal (snd f)) (tree_of (snd f))) l ->
  members_text (members true l) (map (fun f => (fst f, tree_of (snd f))) l) /\ members false l = "," +:+ members true l.
Proof.
  induction l as [| [k x] l IH]; [done |]. intros _ [[Hk Hx] Hl]%Forall_cons. split; [| done]. cbn [fst snd] in *.
  destruct (json_string_text k Hk) as (body & Hj & Hch). cbn [members map fst snd]. rewrite Hj. destruct l as [| y l].
  - cbn [members map]. exact (mt_one "" body k "" "" (marshal x) (tree_of x) "" ws_nil Hch ws_nil ws_nil Hx ws_nil).
  - destruct (IH ltac:(done) Hl) as [Hi He]. rewrite He.
    exact (mt_more "" body k "" "" (marshal x) (tree_of x) "" _ _ ws_nil Hch ws_nil ws_nil Hx ws_nil Hi).
Qed.

(** What the encoder writes is a text of the grammar. *)
Lemma marshal_text j : encodable j = true -> value_text (marshal j) (tree_of j).
Proof.
  revert j. apply (json_induction (fun j => encodable j = true -> value_text (marshal j) (tree_of j))).
  - intros _. rewrite marshal_null. apply vt_null.
  - intros b _. rewrite marshal_bool. destruct b; [apply vt_true | apply vt_false].
  - intros n _. rewrite marshal_num. apply vt_num, format_int_text.
  - intros s Hs. destruct (json_string_text s Hs) as (body & Hj & Hch).
    rewrite marshal_str, Hj. by apply vt_str.
  - intros t _. rewrite marshal_time. apply vt_str, chars_time, rfc3339_time.
  - intros fields IH He. rewrite marshal_obj. destruct fields as [| f fields]; [by apply (vt_obj_nil "") |].
    apply vt_obj. apply members_text_of; [done |]. cbn [encodable] in He. rewrite forallb_Forall in He.
    revert IH He. generalize (f :: fields). intros l IH He. rewrite Forall_forall in *. intros g Hg.
    specialize (He g Hg). apply andb_true_iff in He as [Hk Hx]. auto.
  - intros items IH He. rewrite marshal_arr. destruct items as [| x items]; [by apply (vt_arr_nil "") |].
    apply vt_arr. apply elements_text; [done |]. cbn [encodable] in He. rewrite forallb_Forall in He.
    revert IH He. generalize (x :: items). intros l IH He. rewrite Forall_forall in *. auto.
Qed.

(** *** UTF-8 of the encoding *)

Lemma hex_digit_ascii n : 0 <= n < 16 -> byte (hex_digit n) < 128.
Proof.
  intros H%hex_digit_parse. destruct (Z.ltb_spec (byte (hex_digit n)) 128) as [| Hge]; [done |].
  unfold hexDigit, in_range in H. rewrite !(proj2 (Z.leb_gt (byte (hex_digit n)) _)), !andb_false_r in H by lia. done.
Qed.

Lemma escape_rune_utf8 c bs : rune_bytes c bs -> utf8_valid (escape_rune (Some c, bs)) = true.
Proof.
  intros Hr. assert (utf8_valid (backslash +:+ "u" +:+ Json.hex4 c) = true) as Hhex.
  { apply utf8_ascii. unfold Json.hex4. rewrite !all_bytes_app. cbn [all_bytes].
    rewrite !(proj2 (Z.ltb_lt _ _)) by (done || (apply hex_digit_ascii; apply Z.mod_pos_bound; lia)). done. }
  unfold escape_rune. cbn [fst snd]. repeat (case_match; [done |]).
  rewrite <- (string_app_nil_r bs). by rewrite (utf8_cons c).
Qed.

Lemma json_string_utf8 s : utf8_valid s = true -> utf8_valid (json_string s) = true.
Proof.
  intros Hv. unfold json_string. rewrite utf8_app by done.
  assert (utf8_valid (foldr (fun r acc => escape_rune r +:+ acc) "" (runes s)) = true) as Hf; [| by rewrite utf8_app].
  pattern s. revert s Hv. apply utf8_induction; [done |]. intros c bs s Hb Hs IH.
  rewrite (runes_cons c) by done. cbn [foldr]. by rewrite utf8_app by by apply escape_rune_utf8.
Qed.

Lemma utf8_app_true s t : utf8_valid s = true -> utf8_valid t = true -> utf8_valid (s +:+ t) = true.
Proof. intros Hs Ht. by rewrite utf8_app. Qed.

Lemma time_utf8 s : all_bytes is_time_char s = true -> utf8_valid s = true.
Proof.
  intros H. apply utf8_ascii. eapply all_bytes_mono; [| exact H]. intros a (Ha & _)%time_char. apply Z.ltb_lt. lia.
Qed.

Lemma marshal_utf8 j : encodable j = true -> utf8_valid (marshal j) = true.
Proof.
  revert j. apply (json_induction (fun j => encodable j = true -> utf8_valid (marshal j) = true)).
  - intros _. by rewrite marshal_null.
  - intros b _. rewrite marshal_bool. by destruct b.
  - intros n _. rewrite marshal_num. apply time_utf8, format_int_time.
  - intros s Hs. rewrite marshal_str. by apply json_string_utf8.
  - intros t _. rewrite marshal_time. apply utf8_app_true; [done |]. apply utf8_app_true; [apply time_utf8, rfc3339_time | done].
  - intros fields IH He. rewrite marshal_obj. apply utf8_app_true; [done |]. apply utf8_app_true; [| done].
    generalize true at 1. cbn [encodable] in He. induction IH as [| [k x] l Hx _ IHl]; intros first; [done |].
    cbn [forallb fst snd members] in *. apply andb_true_iff in He as [[Hk He]%andb_true_iff Hl].
    apply utf8_app_true; [by destruct first |]. apply utf8_app_true; [by apply json_string_utf8 |].
    apply utf8_app_true; [done |]. apply utf8_app_true; auto.
  - intros items IH He. rewrite marshal_arr. apply utf8_app_true; [done |]. apply utf8_app_true; [| done].
    generalize true at 1. cbn [encodable] in He. induction IH as [| x l Hx _ IHl]; intros first; [done |].
    cbn [forallb elements] in *. apply andb_true_iff in He as [He Hl].
    apply utf8_app_true; [by destruct first |]. apply utf8_app_true; auto.
Qed.

(** ** Parsing what was encoded *)

(** The shape of a value: its nesting, the size of its containers, distinct keys. *)
Definition shape_fits (depth members : Z) (j : json) : bool :=
  fits (document_limits depth members true None) 1 (tree_of j).

(** The numbers of an encodable value are machine numbers. *)
Lemma encodable_numbers l j : encodable j = true -> documentNumbers l = false -> forall d,
  fits {| l with documentNumbers := true |} d (tree_of j) = true -> fits l d (tree_of j) = true.
Proof.
  intros He Hl. revert j He.
  apply (json_induction (fun j => encodable j = true -> forall d,
    fits {| l with documentNumbers := true |} d (tree_of j) = true -> fits l d (tree_of j) = true)); try done.
  - intros n Hn d. cbn [tree_of fits l_depth encodable] in *. rewrite andb_true_iff. intros [-> _].
    apply Z.leb_le in Hn. by rewrite format_int_machine.
  - intros fields IH He d. cbn [tree_of fits l_depth l_members encodable] in *.
    rewrite !andb_true_iff, length_map. intros [-> [[-> Hf] ->]]. split_and!; [done | done | | done].
    rewrite forallb_map in *. cbn [snd] in *. rewrite forallb_Forall in *. rewrite Forall_forall in *. intros f Hin.
    specialize (He f Hin). apply andb_true_iff in He as [_ He]. apply (IH f Hin He). by apply Hf.
  - intros items IH He d. cbn [tree_of fits l_depth l_members encodable] in *.
    rewrite !andb_true_iff, length_map. intros [-> [-> Hf]]. split_and!; [done | done |].
    rewrite forallb_map in *. rewrite forallb_Forall in *. rewrite Forall_forall in *. intros x Hin. apply (IH x Hin); auto.
Qed.

(** The string bounds do not restrict the shape. *)
Lemma fits_bounds l bounds j : forall d, fits {| l with stringBounds := bounds |} d (tree_of j) = fits l d (tree_of j).
Proof.
  revert j. apply (json_induction (fun j => forall d,
    fits {| l with stringBounds := bounds |} d (tree_of j) = fits l d (tree_of j))); try done.
  - intros fields IH d. cbn [tree_of fits l_depth l_members]. rewrite !forallb_map. cbn [snd].
    do 3 f_equal. induction IH as [| f fields Hf _ IHf]; [done |]. cbn [forallb]. by rewrite Hf, IHf.
  - intros items IH d. cbn [tree_of fits l_depth l_members]. rewrite !forallb_map.
    do 2 f_equal. induction IH as [| x items Hx _ IHx]; [done |]. cbn [forallb]. by rewrite Hx, IHx.
Qed.

Lemma encodable_document j : encodable j = true -> document_text (marshal j) (tree_of j).
Proof.
  intros He. exists "", (marshal j), "". rewrite string_app_nil_r. split_and!; [done | done | by apply marshal_text | done].
Qed.

(** C38. Encoding and strict parsing round-trip: a value with valid UTF-8 strings,
    64-bit integers, times that [json.Marshal] accepts (years 0 to 9999, zone offsets
    below a day), distinct keys in every object, and the nesting and sizes the limits
    allow, encodes to a document that [Parse] and [ValidateDocument] accept, and
    [Parse] returns exactly the tree of the value; [ValidateDocumentStringBounds]
    accepts it when each of its keys and strings, and all of them together, are within
    the string bounds. *)
Theorem parse_marshal j byteLimit depth members :
  encodable j = true -> 0 <= members -> shape_fits depth members j = true -> len (marshal j) <= byteLimit ->
  Parse (marshal j) byteLimit depth members = inr (tree_of j) /\
  ValidateDocument (marshal j) byteLimit depth members = None /\
  forall bounds, u64 (TotalBytes bounds) -> strings_within (Some bounds) (strings (tree_of j)) ->
    ValidateDocumentStringBounds (marshal j) byteLimit depth members bounds = None.
Proof.
  intros He Hm Hs Hlen. pose proof (encodable_document j He) as Hd. pose proof (marshal_utf8 j He) as Hu.
  assert (marshal j <> "") as Hne.
  { destruct (value_head _ _ (marshal_text j He)) as (c & r & -> & _). done. }
  split_and!.
  - apply parse_accepts; [done .. |]. by apply encodable_numbers.
  - by apply (validate_accepts _ (tree_of j)).
  - intros bounds Hb Hw. apply (validates _ (tree_of j)); try done; [by intros ? [= <-] |].
    pose proof (fits_bounds (document_limits depth members true None) (Some bounds) j 1) as Hf.
    unfold shape_fits in Hs. by rewrite Hs in Hf.
Qed.

Lemma parse_marshal_witness :
  let j := JObj [("id", JStr "s<1"); ("at", JTime {| ns := 0; loc := UTC |}); ("n", JArr [JNum 7; JNull])] in
  Parse (marshal j) 100 3 4
  = inr (TObj [("id", TStr "s<1"); ("at", TStr "0001-01-01T00:00:00Z"); ("n", TArr [TNum "7"; TNull])]) /\
  ValidateDocumentStringBounds (marshal j) 100 3 4 {| TokenBytes := 20; TotalBytes := 28 |} = None.
Proof.
  destruct (parse_marshal (JObj [("id", JStr "s<1"); ("at", JTime {| ns := 0; loc := UTC |});
    ("n", JArr [JNum 7; JNull])]) 100 3 4) as (H & _ & Hb);
    [vm_compute; reflexivity | lia | vm_compute; reflexivity | vm_compute; discriminate |].
  split; [exact H |]. apply Hb; [unfold u64, max_u64; cbn; lia |].
  split; [repeat constructor; vm_compute; discriminate | vm_compute; discriminate].
Defined.
