(* ===== verification/JsonObjects.v ===== *)
(** * Decoding objects

    [json.Unmarshal] of a scanned document into a [map[string]json.RawMessage]
    (the members with the texts of their values) and into the fields of a
    struct, as the decoders of stored records use them. *)

From Stdlib Require Import Ascii.
From S2P Require Import Prelude GoText GoTime Errors Json StrictJson JsonGrammar JsonDocuments JsonRoundtrip.
#[local] Open Scope Z_scope.

(** ** Raw members *)

(** The members after the opening brace: each key with the text of its value. *)
Fixpoint raw_loop (fuel : nat) (s : string) : option (list (string * string)) :=
  match fuel with
  | O => None
  | S fuel =>
      match decode_string (space s) with
      | None => None
      | Some (key, r) =>
          match takeb ":"%char (space r) with
          | None => None
          | Some r =>
              match decode_value fuel r with
              | None => None
              | Some (_, after) =>
                  let raw := slice (space r) after in
                  match takeb "}"%char (space after) with
                  | Some _ => Some [(key, raw)]
                  | None =>
                      match takeb ","%char (space after) with
                      | None => None
                      | Some r => match raw_loop fuel r with Some l => Some ((key, raw) :: l) | None => None end
                      end
                  end
              end
          end
      end
  end.

Definition raw_members (b : string) : option (list (string * string)) :=
  match takeb "{"%char (space b) with
  | None => None
  | Some r =>
      match takeb "}"%char (space r) with
      | Some _ => Some []
      | None => raw_loop (scan_fuel b) (space r)
      end
  end.

(** The members of the decoded object. *)
Definition object_members (b : string) : option (list (string * tree)) :=
  match decode_value (scan_fuel b) b with
  | Some (TObj ms, _) => Some ms
  | _ => None
  end.

(** The value stored under a key of a map with distinct keys. *)
Fixpoint lookup_key {A} (key : string) (l : list (string * A)) : option A :=
  match l with
  | [] => None
  | (k, x) :: l => if String.eqb k key then Some x else lookup_key key l
  end.

(** ** Fields of a struct *)

Definition as_string (t : option tree) : option string :=
  match t with Some (TStr s) => Some s | _ => None end.

Definition as_bool (t : option tree) : option bool :=
  match t with Some (TBool b) => Some b | _ => None end.

(** An unsigned integer field of [bits] bits: the token is a plain decimal that
    [strconv.ParseUint] accepts within the width. *)
Definition parse_uint (bits : Z) (token : string) : option Z :=
  if all_bytes is_digit token && negb (String.eqb token "") && (digits_value 0 token <? 2 ^ bits)
  then Some (digits_value 0 token) else None.

Definition as_uint (bits : Z) (t : option tree) : option Z :=
  match t with Some (TNum token) => parse_uint bits token | _ => None end.

(** ** What the encoder writes *)

Lemma space_marshal x r : encodable x = true -> space (marshal x +:+ r) = marshal x +:+ r.
Proof. intros He. by eapply value_space_stop, marshal_text. Qed.

Lemma decode_marshal x fuel r :
  encodable x = true -> follow r -> (2 * String.length (marshal x +:+ r) < fuel)%nat ->
  decode_value fuel (marshal x +:+ r) = Some (tree_of x, r).
Proof.
  intros He Hr Hf. destruct decode_complete as (Hd & _). exact (Hd _ _ (marshal_text x He) fuel "" r ws_nil Hr Hf).
Qed.

Lemma decode_key_marshal k r : utf8_valid k = true ->
  decode_string (space (json_string k +:+ ":" +:+ r)) = Some (k, ":" +:+ r).
Proof.
  intros (body & -> & Hch)%json_string_text. rewrite (value_space_stop _ (TStr k)) by by eapply vt_str.
  by apply decode_string_complete.
Qed.

Lemma takeb_space c r : is_ws c = false -> takeb c (space (String c "" +:+ r)) = Some r.
Proof. intros Hc. pose proof (space_until c "" r ws_nil Hc) as H. rewrite string_app_nil_l in H. rewrite H. apply takeb_here. Qed.

Lemma takeb_space_other c a r : is_ws a = false -> a <> c -> takeb c (space (String a "" +:+ r)) = None.
Proof.
  intros Ha Hne. pose proof (space_until a "" r ws_nil Ha) as H. rewrite string_app_nil_l in H. rewrite H. by apply takeb_other.
Qed.

Lemma members_rest k x l : members false ((k, x) :: l) = "," +:+ members true ((k, x) :: l).
Proof. done. Qed.

Lemma raw_loop_marshal l : forall fuel r, l <> [] ->
  forallb (fun f => utf8_valid (fst f) && encodable (snd f)) l = true ->
  (2 * String.length (members true l +:+ "}" +:+ r) + 1 < fuel)%nat ->
  raw_loop fuel (members true l +:+ "}" +:+ r) = Some (map (fun f => (fst f, marshal (snd f))) l).
Proof.
  induction l as [| [k x] l IH]; intros fuel r Hne He Hf; [done |]. destruct fuel as [| fuel]; [lia |].
  cbn [forallb fst snd] in He. apply andb_true_iff in He as [[Hk Hx]%andb_true_iff Hl].
  cbn [members] in *. rewrite string_app_nil_l in Hf |- *. rewrite !string_app_assoc in Hf |- *.
  cbn [raw_loop]. rewrite decode_key_marshal, takeb_space by done. destruct l as [| [k' x'] l].
  - cbn [members] in *. rewrite string_app_nil_l in Hf |- *. rewrite decode_marshal by (done || slen).
    by rewrite space_marshal, slice_app, takeb_space.
  - rewrite members_rest in Hf |- *. rewrite !string_app_assoc in Hf |- *. rewrite decode_marshal by (done || slen).
    rewrite space_marshal, slice_app, takeb_space_other, takeb_space by done. rewrite IH by (done || slen). done.
Qed.

(** The members of an encoded object, as texts and as trees. *)
Lemma raw_members_marshal fields :
  encodable (JObj fields) = true -> raw_members (marshal (JObj fields)) = Some (map (fun f => (fst f, marshal (snd f))) fields).
Proof.
  intros He. rewrite marshal_obj. unfold raw_members. rewrite takeb_space by done. destruct fields as [| [k x] fields].
  - cbn [members]. rewrite string_app_nil_l, <- (string_app_nil_r "}"), takeb_space by done. done.
  - assert (exists c q, space (members true ((k, x) :: fields) +:+ "}") = String c q /\ c <> "}"%char) as (c & q & Hq & Hc).
    { apply first_member with (ms := map (fun f => (fst f, tree_of (snd f))) ((k, x) :: fields)).
      apply members_text_of; [done |]. cbn [encodable] in He. rewrite forallb_Forall in He.
      eapply Forall_impl; [exact He |]. cbn. intros f [H1 H2]%andb_true_iff. split; [done | by apply marshal_text]. }
    rewrite Hq, takeb_other by done. rewrite <- Hq.
    assert (forall fuel s, raw_loop fuel (space s) = raw_loop fuel s) as Hsp.
    { intros [| fuel] s; [done |]. cbn [raw_loop]. by rewrite space_space. }
    rewrite Hsp. rewrite <- (string_app_nil_r "}") at 2. apply raw_loop_marshal; [done | done |]. unfold scan_fuel. slen.
Qed.

Lemma object_members_marshal fields :
  encodable (JObj fields) = true ->
  object_members (marshal (JObj fields)) = Some (map (fun f => (fst f, tree_of (snd f))) fields).
Proof.
  intros He. unfold object_members. destruct (decode_document _ _ (encodable_document _ He)) as [r ->]. done.
Qed.

Lemma parse_uint_format bits n : 0 <= n < 2 ^ bits -> parse_uint bits (format_int n) = Some n.
Proof.
  intros Hn. unfold parse_uint. destruct (format_int_parts n) as (sign & d & Hf & Hs & [Hne Hd]%int_text_run & Hv).
  assert (format_int n = d) as ->.
  { rewrite Hf. destruct Hs as [-> | ->]; [done |]. destruct n as [| p | p]; [done | | lia].
    exfalso. assert (all_bytes is_digit (format_int (Z.pos p)) = true) as Ha by apply pretty_N_digits. by rewrite Hf in Ha. }
  rewrite Hd, (proj2 (String.eqb_neq _ _) Hne), Hv, Z.abs_eq, (proj2 (Z.ltb_lt _ _)) by lia. done.
Qed.

(** ** Canonical decimals *)

Lemma digits_value_acc d : forall acc, digits_value acc d = acc * 10 ^ len d + digits_value 0 d.
Proof.
  induction d as [| c d IH]; intros acc; cbn [digits_value]; [change (10 ^ len "") with 1; lia |].
  rewrite IH, (IH (0 * 10 + digit_value c)). unfold len. rewrite length_cons, Nat2Z.inj_succ, Z.pow_succ_r by lia. ring.
Qed.

Lemma digits_value_bound d : all_bytes is_digit d = true -> 0 <= digits_value 0 d < 10 ^ len d.
Proof.
  induction d as [| c d IH]; cbn [all_bytes digits_value]; [done |]. intros [Hc Hd]%andb_true_iff. specialize (IH Hd).
  rewrite digits_value_acc. unfold len in *. rewrite length_cons, Nat2Z.inj_succ, Z.pow_succ_r by lia.
  unfold is_digit, in_range in Hc. unfold digit_value. b2p. nia.
Qed.

Lemma digits_value_inj a : forall b, String.length a = String.length b -> all_bytes is_digit a = true ->
  all_bytes is_digit b = true -> digits_value 0 a = digits_value 0 b -> a = b.
Proof.
  induction a as [| c a IH]; intros [| e b] Hl Ha Hb Hv; try done. cbn [all_bytes digits_value String.length] in *.
  apply andb_true_iff in Ha as [Hc Ha]. apply andb_true_iff in Hb as [He Hb]. injection Hl as Hl.
  rewrite (digits_value_acc a), (digits_value_acc b) in Hv. pose proof (digits_value_bound a Ha). pose proof (digits_value_bound b Hb).
  unfold len in *. rewrite Hl in *. set (k := 10 ^ Z.of_nat (String.length b)) in *.
  assert (digit_value c = digit_value e) as Hce by nia. f_equal.
  - apply byte_inj. unfold digit_value in Hce. lia.
  - apply IH; [done | done | done |]. rewrite Hce in Hv. lia.
Qed.

(** Digits without a leading zero print the number they denote. *)
Lemma canonical_digits c r :
  all_bytes is_digit (String c r) = true -> in_range 49 57 (byte c) = true ->
  String c r = format_int (digits_value 0 (String c r)).
Proof.
  intros Hd Hc. set (n := digits_value 0 (String c r)). pose proof (digits_value_bound _ Hd) as Hb.
  assert (forall c r, all_bytes is_digit (String c r) = true -> in_range 49 57 (byte c) = true ->
    10 ^ len r <= digits_value 0 (String c r) < 10 * 10 ^ len r) as Hlead.
  { clear. intros c r Hd Hc. cbn [digits_value all_bytes] in *. apply andb_true_iff in Hd as [_ Hd]. rewrite digits_value_acc.
    pose proof (digits_value_bound r Hd). unfold in_range in Hc. unfold digit_value. b2p. nia. }
  pose proof (Hlead c r Hd Hc) as Hn. fold n in Hn. assert (0 < 10 ^ len r) by (apply Z.pow_pos_nonneg; [lia | apply len_nonneg]).
  destruct n as [| p | p] eqn:Hp; [lia | | lia]. destruct (pretty_positive_text p) as [([_ Hfd] & c' & r' & Hf & Hc') Hv].
  change (format_int (Z.pos p)) with (pretty (N.pos p)). rewrite Hf in *. pose proof (Hlead c' r' Hfd Hc') as Hn'. rewrite Hv in Hn'.
  apply digits_value_inj; [| done | done | by rewrite Hv]. cbn [String.length]. f_equal.
  assert (len r = len r') as Hl; [| unfold len in Hl; lia].
  assert (10 ^ len r < 10 ^ (len r' + 1)) as H1%Z.pow_lt_mono_r_iff by (rewrite Z.pow_add_r by (lia || apply len_nonneg); lia).
  assert (10 ^ len r' < 10 ^ (len r + 1)) as H2%Z.pow_lt_mono_r_iff by (rewrite Z.pow_add_r by (lia || apply len_nonneg); lia).
  all: try (pose proof (len_nonneg r); pose proof (len_nonneg r'); lia).
Qed.
