(* ===== verification/ResourceGeneration.v ===== *)
(** * Attached resource generations ([internal/domain/attached_resource_generation.go])

    The persisted head of an attached resource: its validation, its JSON codec
    with quoted canonical counters, and the compare-and-swap rules by which one
    head replaces another.  The installed baseline and its projection are not
    modelled: they depend on the provider evidence bundle. *)

From Stdlib Require Import Ascii.
From S2P Require Import Prelude GoText GoTime Errors Identity Json.
From S2P Require Import StrictJson JsonGrammar JsonDocuments JsonRoundtrip JsonObjects.
#[local] Open Scope Z_scope.

Definition AttachedResourceGenerationVersionV1 : Z := 1.
Definition AttachedResourceGenerationMetadataMaxBytesV1 : Z := 4096.

Definition AttachedWorkerID_Validate := ValidateOpaqueID "attached_worker_id".

Record AttachedResourceGenerationHeadV1 := {
  gh_Version : Z;
  gh_OwnerUserID : string;
  gh_WorkerID : string;
  gh_EnrollmentGeneration : Z;
  gh_BaselineRevision : Z;
  gh_CredentialGeneration : Z;
  gh_Revoked : bool }.

#[global] Instance AttachedResourceGenerationHeadV1_eq_dec : EqDecision AttachedResourceGenerationHeadV1.
Proof. solve_decision. Defined.

Definition attachedGenerationError (field reason : string) : error :=
  ValidationError ("attached_resource_generation." +:+ field) reason.

Definition Head_Validate (head : AttachedResourceGenerationHeadV1) : option error :=
  reject negb (gh_Version head =? AttachedResourceGenerationVersionV1)
         || notnil (UserID_Validate (gh_OwnerUserID head)) || notnil (AttachedWorkerID_Validate (gh_WorkerID head))
         || (gh_EnrollmentGeneration head =? 0) || (gh_BaselineRevision head =? 0)
         || (gh_CredentialGeneration head =? 0)
         || negb (gh_Revoked head) && (gh_CredentialGeneration head =? max_u64)
    with attachedGenerationError "head" "requires exact version, identity and positive bounded generations" ;!
  None.

(** [MarshalJSON]: the three counters are quoted. *)
Definition json_generation_head (head : AttachedResourceGenerationHeadV1) : list (string * json) :=
  [("version", JNum (gh_Version head)); ("owner_user_id", JStr (gh_OwnerUserID head));
   ("worker_id", JStr (gh_WorkerID head));
   ("enrollment_generation", JStr (format_int (gh_EnrollmentGeneration head)));
   ("baseline_revision", JStr (format_int (gh_BaselineRevision head)));
   ("credential_generation", JStr (format_int (gh_CredentialGeneration head)));
   ("revoked", JBool (gh_Revoked head))].

Definition EncodeAttachedResourceGenerationHeadV1 (head : AttachedResourceGenerationHeadV1) : error + string :=
  match Head_Validate head with
  | Some e => inl e
  | None =>
      let raw := marshal (JObj (json_generation_head head)) in
      if len raw >? AttachedResourceGenerationMetadataMaxBytesV1
      then inl (attachedGenerationError "head" "cannot encode bounded metadata") else inr raw
  end.

(** ** Decoding *)

Definition codecError (reason : string) : error := attachedGenerationError "head.codec" reason.

Definition counterError : error := codecError "requires quoted canonical positive uint64 counters".

Definition first_byte (s : string) : Z := match s with String c _ => byte c | EmptyString => -1 end.

(** The last byte of a string. *)
Fixpoint last_byte (s : string) : Z :=
  match s with
  | EmptyString => -1
  | String c "" => byte c
  | String _ r => last_byte r
  end.

Definition parseAttachedResourceGenerationHeadCounterV1 (raw : string) : error + Z :=
  let raw := trim_space raw in
  let content := token_body raw in
  if (len raw <? 3) || (len raw >? 22) || negb (first_byte raw =? 34) || negb (last_byte raw =? 34)
     || negb (in_range 49 57 (first_byte content))
  then inl counterError
  else if negb (all_bytes is_digit content) then inl counterError
  else match parse_uint 64 content with Some n => inr n | None => inl counterError end.

Definition head_fields : list string :=
  ["version"; "owner_user_id"; "worker_id"; "enrollment_generation"; "baseline_revision"; "credential_generation"; "revoked"].

Definition counter_fields : list string := ["enrollment_generation"; "baseline_revision"; "credential_generation"].

(** The loop over the field names: each is present and not null. *)
Definition field_present (members : list (string * string)) (name : string) : bool :=
  match lookup_key name members with
  | None => false
  | Some value => negb (String.eqb (trim_space value) "null")
  end.

(** The first counter that does not parse. *)
Fixpoint counters_check (members : list (string * string)) (names : list string) : option error :=
  match names with
  | [] => None
  | name :: rest =>
      match parseAttachedResourceGenerationHeadCounterV1 (match lookup_key name members with Some v => v | None => "" end) with
      | inl e => Some e
      | inr _ => counters_check members rest
      end
  end.

(** A [uint64] field tagged [string]: the quoted decimal. *)
Definition as_quoted_uint (t : option tree) : option Z :=
  match as_string t with Some s => parse_uint 64 s | None => None end.

(** [json.Unmarshal] into the wire struct.  The member names are exactly the
    seven field names by then, so the case-insensitive match is exact. *)
Definition unmarshal_head (raw : string) : option AttachedResourceGenerationHeadV1 :=
  ms ← object_members raw;
  version ← as_uint 32 (lookup_key "version" ms);
  owner ← as_string (lookup_key "owner_user_id" ms);
  worker ← as_string (lookup_key "worker_id" ms);
  enrollment ← as_quoted_uint (lookup_key "enrollment_generation" ms);
  baseline ← as_quoted_uint (lookup_key "baseline_revision" ms);
  credential ← as_quoted_uint (lookup_key "credential_generation" ms);
  revoked ← as_bool (lookup_key "revoked" ms);
  Some {| gh_Version := version; gh_OwnerUserID := owner; gh_WorkerID := worker;
          gh_EnrollmentGeneration := enrollment; gh_BaselineRevision := baseline;
          gh_CredentialGeneration := credential; gh_Revoked := revoked |}.

Definition DecodeAttachedResourceGenerationHeadV1 (raw : string) : error + AttachedResourceGenerationHeadV1 :=
  if notnil (ValidateDocument raw AttachedResourceGenerationMetadataMaxBytesV1 2 7)
  then inl (codecError "requires strict bounded JSON") else
  match raw_members raw with
  | None => inl (codecError "requires all seven exact fields")
  | Some members =>
      if negb (Z.of_nat (length members) =? 7) then inl (codecError "requires all seven exact fields")
      else if negb (forallb (field_present members) head_fields) then inl (codecError "requires non-null exact fields")
      else match counters_check members counter_fields with
           | Some e => inl e
           | None =>
               match unmarshal_head raw with
               | None => inl (codecError "contains invalid metadata")
               | Some head =>
                   if notnil (Head_Validate head) then inl (codecError "contains invalid metadata") else inr head
               end
           end
  end.

(** ** Transitions *)

Definition transitionError (reason : string) : error := attachedGenerationError "transition" reason.

Definition ValidateAttachedResourceGenerationTransitionV1 (current : option AttachedResourceGenerationHeadV1)
  (expected : Z) (target : AttachedResourceGenerationHeadV1) : option error :=
  reject notnil (Head_Validate target) with transitionError "target is invalid" ;!
  match current with
  | None =>
      reject negb (expected =? 0) || negb (gh_Revoked target) && negb (gh_CredentialGeneration target =? 1)
        with transitionError
               "initial publication requires expected zero and active generation one or explicit denial" ;!
      None
  | Some current =>
      reject notnil (Head_Validate current) || negb (String.eqb (gh_OwnerUserID current) (gh_OwnerUserID target))
             || negb (String.eqb (gh_WorkerID current) (gh_WorkerID target))
             || negb (gh_EnrollmentGeneration current =? gh_EnrollmentGeneration target)
             || negb (gh_BaselineRevision current =? gh_BaselineRevision target)
        with transitionError "current and target must share the exact original scope" ;!
      if bool_decide (current = target) then
        if (expected =? gh_CredentialGeneration current)
           || gh_Revoked target && (expected <? gh_CredentialGeneration target)
           || negb (gh_Revoked target) && negb (expected =? max_u64)
              && (wrap_u64 (expected + 1) =? gh_CredentialGeneration target)
        then None
        else Some (transitionError "duplicate target has a conflicting expected generation")
      else if gh_Revoked current then
        Some (transitionError "revoked metadata cannot be resurrected or advanced")
      else if gh_Revoked target then
        if (gh_CredentialGeneration target >? gh_CredentialGeneration current)
           && (expected <? gh_CredentialGeneration target)
        then None
        else Some (transitionError "revoke must advance denial beyond the current generation")
      else
        reject negb (expected =? gh_CredentialGeneration current) || (expected =? max_u64)
               || negb (gh_CredentialGeneration target =? wrap_u64 (expected + 1))
          with transitionError "active publication requires the exact next generation" ;!
        None
  end.

(** ** The codec *)

(** The counters are Go [uint64] values. *)
Definition head_in_range (head : AttachedResourceGenerationHeadV1) : Prop :=
  u64 (gh_EnrollmentGeneration head) /\ u64 (gh_BaselineRevision head) /\ u64 (gh_CredentialGeneration head).

(** What a valid head establishes. *)
Lemma Head_Validate_nil head :
  Head_Validate head = None <->
  gh_Version head = 1 /\ UserID_Validate (gh_OwnerUserID head) = None /\ AttachedWorkerID_Validate (gh_WorkerID head) = None /\
  gh_EnrollmentGeneration head <> 0 /\ gh_BaselineRevision head <> 0 /\ gh_CredentialGeneration head <> 0 /\
  (gh_Revoked head = false -> gh_CredentialGeneration head <> max_u64).
Proof.
  unfold Head_Validate. rewrite reject_nil, !orb_false_iff, negb_false_iff, andb_false_iff, negb_false_iff, !Z.eqb_neq, Z.eqb_eq.
  unfold AttachedResourceGenerationVersionV1.
  destruct (UserID_Validate _), (AttachedWorkerID_Validate _), (gh_Revoked head); cbn; naive_solver.
Qed.

Lemma plain_utf8 s : all_bytes is_plain s = true -> utf8_valid s = true.
Proof. intros H. apply utf8_ascii. eapply all_bytes_mono; [| exact H]. intros a Ha. apply Z.ltb_lt, plain_byte, Ha. Qed.

Lemma plain_graphic s : all_bytes is_plain s = true -> all_bytes is_graphic s = true.
Proof.
  apply all_bytes_mono. intros a. unfold is_plain, is_graphic, is_alphanumeric, is_upper, is_lower, is_digit, in_range.
  intros H. b2p. lia.
Qed.

Lemma format_plain n : all_bytes is_plain (format_int n) = true.
Proof.
  destruct (format_int_parts n) as (sign & d & -> & Hs & [_ Hd]%int_text_run & _). rewrite all_bytes_app. apply andb_true_iff. split.
  - by destruct Hs as [-> | ->].
  - eapply all_bytes_mono; [| exact Hd]. intros a Ha. unfold is_plain, is_alphanumeric. by rewrite Ha, orb_true_r.
Qed.

Lemma last_byte_app s c : last_byte (s +:+ String c "") = byte c.
Proof.
  induction s as [| a s IH]; [done |]. rewrite string_app_cons. cbn [last_byte].
  destruct (s +:+ String c "") as [| b r] eqn:Hs; [by destruct s | done].
Qed.

Lemma positive_format n : 0 < n ->
  all_bytes is_digit (format_int n) = true /\ in_range 49 57 (first_byte (format_int n)) = true /\ format_int n <> "".
Proof.
  intros Hn. destruct n as [| p | p]; [lia | | lia].
  destruct (pretty_positive_text p) as [([Hne Hd] & c & r & Hc & Hr) _]. split_and!; [done | | done].
  change (format_int (Z.pos p)) with (pretty (N.pos p)). by rewrite Hc.
Qed.

(** A quoted plain string is left alone by [bytes.TrimSpace]. *)
Lemma trim_quoted s : all_bytes is_plain s = true -> trim_space (marshal (JStr s)) = token s.
Proof.
  intros Hs. rewrite marshal_str, json_string_plain by done. apply trim_space_graphic. unfold token.
  rewrite !all_bytes_app, (plain_graphic s) by done. done.
Qed.

Lemma counter_roundtrip n : 0 < n -> u64 n ->
  parseAttachedResourceGenerationHeadCounterV1 (marshal (JStr (format_int n))) = inr n.
Proof.
  intros Hn Hu. destruct (positive_format n Hn) as (Hd & Hf & Hne). pose proof (format_int_length n (or_intror Hu)) as Hlen.
  unfold parseAttachedResourceGenerationHeadCounterV1. rewrite trim_quoted by apply format_plain.
  rewrite token_body_token, Hf, Hd, parse_uint_format by (unfold u64, max_u64 in Hu; lia).
  assert (len (token (format_int n)) = len (format_int n) + 2) as -> by (unfold token; rewrite !len_app; change (len dquote) with 1; lia).
  assert (0 < len (format_int n)) by (pose proof (len_nonneg (format_int n)); assert (len (format_int n) <> 0) by (by rewrite len_zero); lia).
  rewrite (proj2 (Z.ltb_ge (len (format_int n) + 2) 3)), Z.gtb_ltb, (proj2 (Z.ltb_ge 22 _)) by lia.
  assert (last_byte (token (format_int n)) = 34) as -> by (unfold token; rewrite <- string_app_assoc; apply last_byte_app).
  done.
Qed.

Lemma head_encodable head :
  Head_Validate head = None -> head_in_range head -> encodable (JObj (json_generation_head head)) = true.
Proof.
  intros (Hv & Ho & Hw & _)%Head_Validate_nil _. apply opaque_plain in Ho as [Ho _]. apply opaque_plain in Hw as [Hw _].
  cbn [encodable json_generation_head forallb fst snd]. rewrite Hv, !(plain_utf8 _ Ho), !(plain_utf8 _ Hw), !plain_utf8 by (reflexivity || apply format_plain).
  done.
Qed.

Lemma head_encoding_short head :
  Head_Validate head = None -> head_in_range head -> len (marshal (JObj (json_generation_head head))) <= 4096.
Proof.
  intros (Hv & Ho & Hw & _)%Head_Validate_nil (H1 & H2 & H3). apply opaque_plain in Ho as [Ho Hol]. apply opaque_plain in Hw as [Hw Hwl].
  etrans; [apply marshal_obj_len; reflexivity |]. unfold json_generation_head. cbn [members_bound fst snd].
  rewrite !marshal_str_len by (done || apply format_plain). pose proof (marshal_num_len (gh_Version head)) as Hn.
  rewrite Hv in *. specialize (Hn ltac:(right; unfold u64, max_u64; lia)). pose proof (marshal_bool_len (gh_Revoked head)).
  pose proof (format_int_length _ (or_intror H1)). pose proof (format_int_length _ (or_intror H2)). pose proof (format_int_length _ (or_intror H3)).
  repeat match goal with |- context [len (String ?a ?s)] =>
    let n := eval vm_compute in (len (String a s)) in change (len (String a s)) with n end.
  lia.
Qed.

Lemma head_document head :
  Head_Validate head = None -> head_in_range head ->
  ValidateDocument (marshal (JObj (json_generation_head head))) AttachedResourceGenerationMetadataMaxBytesV1 2 7 = None.
Proof.
  intros Hv Hr. pose proof (head_encodable head Hv Hr) as He.
  apply (validate_accepts _ (tree_of (JObj (json_generation_head head)))); [done | | | by apply marshal_utf8 | by apply encodable_document |].
  - destruct (value_head _ _ (marshal_text _ He)) as (c & r & -> & _). done.
  - by apply head_encoding_short.
  - reflexivity.
Qed.

Lemma present_string head_members name s :
  lookup_key name head_members = Some (marshal (JStr s)) -> all_bytes is_plain s = true -> field_present head_members name = true.
Proof. intros Hl Hs. unfold field_present. by rewrite Hl, trim_quoted. Qed.

Lemma head_fields_present head :
  Head_Validate head = None ->
  forallb (field_present (map (fun f => (fst f, marshal (snd f))) (json_generation_head head))) head_fields = true.
Proof.
  intros (Hv & [Ho _]%opaque_plain & [Hw _]%opaque_plain & _)%Head_Validate_nil. cbn [forallb head_fields].
  rewrite (present_string _ "owner_user_id" (gh_OwnerUserID head)), (present_string _ "worker_id" (gh_WorkerID head)),
    (present_string _ "enrollment_generation" (format_int (gh_EnrollmentGeneration head))),
    (present_string _ "baseline_revision" (format_int (gh_BaselineRevision head))),
    (present_string _ "credential_generation" (format_int (gh_CredentialGeneration head)))
    by (reflexivity || done || apply format_plain).
  unfold field_present. cbn [map json_generation_head lookup_key fst snd String.eqb Ascii.eqb Bool.eqb].
  rewrite Hv, marshal_num, marshal_bool. by destruct (gh_Revoked head).
Qed.

Lemma head_counters head :
  Head_Validate head = None -> head_in_range head ->
  counters_check (map (fun f => (fst f, marshal (snd f))) (json_generation_head head)) counter_fields = None.
Proof.
  intros (_ & _ & _ & H1 & H2 & H3 & _)%Head_Validate_nil (U1 & U2 & U3).
  assert (forall n, n <> 0 -> u64 n -> parseAttachedResourceGenerationHeadCounterV1 (marshal (JStr (format_int n))) = inr n) as Hc
    by (intros n Hn Hu; apply counter_roundtrip; [unfold u64 in Hu; lia | done]).
  cbn [counters_check counter_fields map json_generation_head lookup_key fst snd String.eqb Ascii.eqb Bool.eqb].
  by rewrite !Hc.
Qed.

Lemma head_unmarshal head :
  Head_Validate head = None -> head_in_range head -> unmarshal_head (marshal (JObj (json_generation_head head))) = Some head.
Proof.
  intros Hval Hr. pose proof (head_encodable head Hval Hr) as He. apply Head_Validate_nil in Hval as (Hv & _). destruct Hr as (U1 & U2 & U3).
  unfold unmarshal_head. rewrite object_members_marshal by done.
  cbn [mbind option_bind map json_generation_head tree_of lookup_key fst snd String.eqb Ascii.eqb Bool.eqb as_uint as_string as_bool as_quoted_uint].
  unfold u64, max_u64 in *. rewrite !parse_uint_format by lia. clear He. cbn [mbind option_bind].
  destruct head; cbn [gh_Version gh_OwnerUserID gh_WorkerID gh_Revoked] in *. by subst.
Qed.

Lemma parse_uint_range bits s n : parse_uint bits s = Some n -> 0 <= n < 2 ^ bits.
Proof.
  unfold parse_uint. case_match eqn:H; [| done]. intros [= <-]. apply andb_true_iff in H as [H Hlt]. apply andb_true_iff in H as [Hd _].
  apply Z.ltb_lt in Hlt. split; [| done]. by apply digits_value_ge.
Qed.

Lemma unmarshal_in_range raw head : unmarshal_head raw = Some head -> head_in_range head.
Proof.
  unfold unmarshal_head. intros H.
  assert (forall t n, as_quoted_uint t = Some n -> u64 n) as Hq.
  { intros t n. unfold as_quoted_uint. destruct (as_string t); [| done]. intros Hn%parse_uint_range. unfold u64, max_u64. lia. }
  apply bind_Some in H as (ms & _ & H). apply bind_Some in H as (version & _ & H). apply bind_Some in H as (owner & _ & H).
  apply bind_Some in H as (worker & _ & H). apply bind_Some in H as (enrollment & H1 & H).
  apply bind_Some in H as (baseline & H2 & H). apply bind_Some in H as (credential & H3 & H).
  apply bind_Some in H as (revoked & _ & H). injection H as <-. split_and!; cbn; eauto.
Qed.

Lemma token_split raw : 3 <= len raw -> first_byte raw = 34 -> last_byte raw = 34 -> raw = token (token_body raw).
Proof.
  intros Hlen Hf Hl. destruct raw as [| c raw]; [done |]. cbn [first_byte] in Hf.
  assert (c = quote_char) as -> by (apply byte_inj; rewrite Hf; done).
  assert (forall s, s <> "" -> last_byte s = 34 -> exists b, s = b +:+ dquote) as Hlast.
  { clear. induction s as [| a s IH]; [done |]. intros _ H. destruct s as [| b s].
    - exists "". cbn [last_byte] in H. by rewrite (byte_inj a quote_char H).
    - destruct (IH ltac:(done) H) as [x Hx]. exists (String a x). by rewrite Hx. }
  destruct raw as [| e raw]; [unfold len in Hlen; cbn in Hlen; lia |].
  destruct (Hlast (String e raw) ltac:(done) Hl) as [b Hb]. rewrite Hb.
  change (String quote_char (b +:+ dquote)) with (token b). by rewrite token_body_token.
Qed.

(** A counter that parses is the quoted canonical decimal of its value. *)
Lemma counter_canonical raw n :
  parseAttachedResourceGenerationHeadCounterV1 raw = inr n -> trim_space raw = token (format_int n) /\ 0 < n /\ u64 n.
Proof.
  unfold parseAttachedResourceGenerationHeadCounterV1. set (t := trim_space raw). clearbody t.
  case_match eqn:H; [done |]. case_match eqn:Hd; [done |]. destruct (parse_uint 64 (token_body t)) as [m |] eqn:Hp; [| done].
  intros [= <-]. rewrite !orb_false_iff in H. destruct H as [[[[H1 H2] H3] H4] H5].
  apply negb_false_iff in H3, H4, H5, Hd. apply Z.eqb_eq in H3, H4. apply Z.ltb_ge in H1.
  rewrite (token_split t) at 1 by done. pose proof (parse_uint_range _ _ _ Hp) as Hr.
  unfold parse_uint in Hp. case_match; [| done]. injection Hp as Hp. destruct (token_body t) as [| c r]; [done |]. cbn [first_byte] in H5.
  assert (String c r = format_int m) as Hm by (rewrite <- Hp; by apply canonical_digits). rewrite Hm. split_and!; [done | | unfold u64, max_u64; lia].
  destruct (decide (m = 0)) as [-> | Hne]; [| lia]. injection Hm as -> ->. by vm_compute in H5.
Qed.

Lemma counters_check_error ms names e : counters_check ms names = Some e -> e = counterError.
Proof.
  induction names as [| name names IH]; cbn [counters_check]; [done |].
  destruct (parseAttachedResourceGenerationHeadCounterV1 _) as [e' |] eqn:Hp; [| done]. intros [= <-].
  unfold parseAttachedResourceGenerationHeadCounterV1 in Hp. repeat case_match; by simplify_eq.
Qed.

Lemma counters_check_ok ms names :
  counters_check ms names = None ->
  Forall (fun name => exists v n, lookup_key name ms = Some v /\ trim_space v = token (format_int n) /\ 0 < n /\ u64 n) names.
Proof.
  induction names as [| name names IH]; cbn [counters_check]; [constructor |].
  destruct (lookup_key name ms) as [v |] eqn:Hl; [| done].
  destruct (parseAttachedResourceGenerationHeadCounterV1 v) as [| n] eqn:Hp; [done |]. intros Hc. constructor; [| auto].
  exists v, n. split; [done |]. by apply counter_canonical.
Qed.

(** ** Properties *)

(** C39. The head codec round-trips: every valid head encodes, within the metadata
    bound, to a document that the strict decoder turns back into the same head. *)
Theorem head_codec_roundtrip head :
  Head_Validate head = None -> head_in_range head ->
  exists raw, EncodeAttachedResourceGenerationHeadV1 head = inr raw /\
              DecodeAttachedResourceGenerationHeadV1 raw = inr head.
Proof.
  intros Hv Hr. exists (marshal (JObj (json_generation_head head))). split.
  - unfold EncodeAttachedResourceGenerationHeadV1. rewrite Hv.
    pose proof (head_encoding_short head Hv Hr). by rewrite Z.gtb_ltb, (proj2 (Z.ltb_ge _ _)).
  - unfold DecodeAttachedResourceGenerationHeadV1. rewrite (head_document head Hv Hr), raw_members_marshal by by apply head_encodable.
    rewrite length_map, head_fields_present, head_counters, head_unmarshal, Hv by done. done.
Qed.

Definition sample_head : AttachedResourceGenerationHeadV1 :=
  {| gh_Version := 1; gh_OwnerUserID := "u1"; gh_WorkerID := "w1"; gh_EnrollmentGeneration := 3;
     gh_BaselineRevision := 2; gh_CredentialGeneration := 1; gh_Revoked := false |}.

Lemma head_codec_roundtrip_witness :
  exists raw, EncodeAttachedResourceGenerationHeadV1 sample_head = inr raw /\
              DecodeAttachedResourceGenerationHeadV1 raw = inr sample_head.
Proof. apply (head_codec_roundtrip sample_head); [reflexivity | vm_compute; repeat split; discriminate]. Defined.

(** C40. The head decoder fails closed: what it accepts is a strict bounded JSON
    document with seven members that include every field name, whose counters are
    spelled as the quoted canonical decimals of positive 64-bit numbers, and the
    head it returns is valid; every refusal is an error of the codec. *)
Theorem head_decoder_sound raw :
  match DecodeAttachedResourceGenerationHeadV1 raw with
  | inr head =>
      Head_Validate head = None /\ head_in_range head /\ ValidateDocument raw 4096 2 7 = None /\
      exists ms, raw_members raw = Some ms /\ length ms = 7%nat /\
                 Forall (fun name => is_Some (lookup_key name ms)) head_fields /\
                 Forall (fun name => exists v n, lookup_key name ms = Some v /\ trim_space v = token (format_int n) /\
                                      0 < n /\ u64 n) counter_fields
  | inl e => exists reason, e = attachedGenerationError "head.codec" reason
  end.
Proof.
  unfold DecodeAttachedResourceGenerationHeadV1.
  destruct (ValidateDocument raw _ 2 7) as [e |] eqn:Hd; cbn [notnil]; [by eexists |].
  destruct (raw_members raw) as [ms |] eqn:Hm; [| by eexists].
  destruct (Z.eqb_spec (Z.of_nat (length ms)) 7) as [Hlen |]; cbn [negb]; [| by eexists].
  destruct (forallb (field_present ms) head_fields) eqn:Hf; cbn [negb]; [| by eexists].
  destruct (counters_check ms counter_fields) as [e |] eqn:Hc; [apply counters_check_error in Hc as ->; by eexists |].
  destruct (unmarshal_head raw) as [head |] eqn:Hu; [| by eexists].
  destruct (Head_Validate head) eqn:Hv; cbn [notnil]; [by eexists |].
  split_and!; [done | by eapply unmarshal_in_range | done |]. exists ms. split_and!; [done | lia | | by apply counters_check_ok].
  rewrite forallb_Forall in Hf. eapply Forall_impl; [exact Hf |]. cbn beta. intros name. unfold field_present.
  by destruct (lookup_key name ms).
Qed.

(** ** Publication histories *)

(** The scope a head is published in. *)
Definition scope_of_head (head : AttachedResourceGenerationHeadV1) : string * string * Z * Z :=
  (gh_OwnerUserID head, gh_WorkerID head, gh_EnrollmentGeneration head, gh_BaselineRevision head).

(** The heads one resource has had, oldest first: each change of the head was
    accepted as a transition from the one before it. *)
Inductive history : list AttachedResourceGenerationHeadV1 -> Prop :=
| history_nil : history []
| history_snoc l target expected :
    history l -> u64 expected -> head_in_range target -> last l <> Some target ->
    ValidateAttachedResourceGenerationTransitionV1 (last l) expected target = None -> history (l ++ [target]).

(** What an accepted change says. *)
Lemma transition_first expected target :
  ValidateAttachedResourceGenerationTransitionV1 None expected target = None ->
  Head_Validate target = None /\ (gh_Revoked target = false -> gh_CredentialGeneration target = 1).
Proof.
  unfold ValidateAttachedResourceGenerationTransitionV1. rewrite !reject_nil. intros (Hv & H & _).
  apply orb_false_iff in H as [_ H]. destruct (Head_Validate target); [done |]. split; [done |]. intros Hr.
  rewrite Hr in H. cbn in H. by apply negb_false_iff, Z.eqb_eq in H.
Qed.

Lemma transition_next current expected target :
  u64 expected -> head_in_range current -> current <> target ->
  ValidateAttachedResourceGenerationTransitionV1 (Some current) expected target = None ->
  Head_Validate target = None /\ scope_of_head current = scope_of_head target /\ gh_Revoked current = false /\
  gh_CredentialGeneration current < gh_CredentialGeneration target /\
  (gh_Revoked target = false -> gh_CredentialGeneration target = gh_CredentialGeneration current + 1).
Proof.
  intros Hu Hr Hne. unfold ValidateAttachedResourceGenerationTransitionV1. rewrite !reject_nil. intros (Hv & Hs & H).
  rewrite bool_decide_eq_false_2 in H by done. destruct (Head_Validate target); [done |]. split; [done |].
  rewrite !orb_false_iff, !negb_false_iff, !String.eqb_eq, !Z.eqb_eq in Hs. destruct Hs as [[[[_ H1] H2] H3] H4].
  unfold scope_of_head. rewrite H1, H2, H3, H4. split; [done |]. destruct (gh_Revoked current); [done |]. split; [done |].
  destruct (gh_Revoked target).
  - case_match eqn:Hc; [| done]. apply andb_true_iff in Hc as [Hc _]. split; [by apply Z.gtb_lt in Hc; lia | done].
  - rewrite reject_nil, !orb_false_iff, !negb_false_iff, !Z.eqb_eq, Z.eqb_neq in H. destruct H as ([[-> Hmax] ->] & _).
    unfold u64 in Hu. rewrite wrap_u64_small by (unfold u64; lia). lia.
Qed.

(** The numbering of a history. *)
Record numbered (l : list AttachedResourceGenerationHeadV1) : Prop := {
  nb_valid i h : l !! i = Some h -> Head_Validate h = None /\ head_in_range h;
  nb_active i h : l !! i = Some h -> gh_Revoked h = false -> gh_CredentialGeneration h = Z.of_nat i + 1;
  nb_revoked i h : l !! i = Some h -> gh_Revoked h = true -> S i = length l;
  nb_scope i j h h' : l !! i = Some h -> l !! j = Some h' -> scope_of_head h = scope_of_head h';
  nb_order i j h h' : (i < j)%nat -> l !! i = Some h -> l !! j = Some h' ->
                      gh_CredentialGeneration h < gh_CredentialGeneration h' }.

Lemma lookup_snoc_cases {A} (l : list A) x i y :
  (l ++ [x]) !! i = Some y -> (i < length l)%nat /\ l !! i = Some y \/ i = length l /\ y = x.
Proof.
  intros [H | [Hge H]]%lookup_app_Some; [left; split; [by eapply lookup_lt_Some | done] |].
  right. apply list_lookup_singleton_Some in H as [Hz ->]. split; [lia | done].
Qed.

Lemma numbered_snoc l current target :
  numbered l -> last l = Some current -> Head_Validate target = None -> head_in_range target ->
  scope_of_head current = scope_of_head target -> gh_Revoked current = false ->
  gh_CredentialGeneration current < gh_CredentialGeneration target ->
  (gh_Revoked target = false -> gh_CredentialGeneration target = gh_CredentialGeneration current + 1) ->
  numbered (l ++ [target]).
Proof.
  intros N Hl Hv Hr Hs Hc Hlt Hnext. rewrite last_lookup in Hl. destruct (length l) as [| n] eqn:Hlen; [by destruct l |]. cbn in Hl.
  split.
  - intros i h [[_ H] | [_ ->]]%lookup_snoc_cases; [by eapply nb_valid | done].
  - intros i h [[_ H] | [-> ->]]%lookup_snoc_cases Ha; [by eapply nb_active |].
    rewrite Hnext, (nb_active l N n current) by done. lia.
  - intros i h [[_ H] | [-> ->]]%lookup_snoc_cases Ha; rewrite length_app; cbn [length]; [| lia].
    pose proof (nb_revoked l N i h H Ha). assert (i = n) as -> by lia. congruence.
  - assert (forall i h, (l ++ [target]) !! i = Some h -> scope_of_head h = scope_of_head target) as Hall.
    { intros i h [[_ H] | [_ ->]]%lookup_snoc_cases; [| done]. by rewrite (nb_scope l N i n h current). }
    intros i j h h' H1%Hall H2%Hall. congruence.
  - intros i j h h' Hij [[Hi H1] | [-> ->]]%lookup_snoc_cases [[Hj H2] | [-> ->]]%lookup_snoc_cases; try lia;
      [exact (nb_order l N i j h h' Hij H1 H2) |].
    destruct (decide (i = n)) as [-> |]; [by assert (h = current) as -> by congruence |].
    assert (gh_CredentialGeneration h < gh_CredentialGeneration current) by (eapply (nb_order l N i n); [lia | done | done]). lia.
Qed.

(** Generations are numbered without gaps and revocation is final: in the
    history of heads that accepted transitions produce from nothing, every head is
    valid and has the owner, worker, enrolment and baseline of the first; the
    active head published as the n-th change has credential generation n; the
    generations strictly increase; and a revoked head can only be the last. *)
Theorem generations_numbered l : history l -> numbered l.
Proof.
  induction 1 as [| l target expected Hl N Hu Hr Hne Ht]; [by split |].
  destruct (last l) as [current |] eqn:Hlast.
  - assert (exists n, l !! n = Some current) as [n Hn] by (rewrite last_lookup in Hlast; eauto).
    destruct (nb_valid l N n current Hn) as [_ Hcr].
    apply transition_next in Ht as (Hv & Hs & Hrev & Hlt & Hnext); [| done | done | congruence].
    by eapply numbered_snoc.
  - apply last_None in Hlast as ->. apply transition_first in Ht as [Hv H1]. split.
    + intros i h [[Hi _] | [_ ->]]%lookup_snoc_cases; [cbn in Hi; lia | done].
    + intros i h [[Hi _] | [-> ->]]%lookup_snoc_cases Ha; [cbn in Hi; lia | by rewrite H1].
    + intros i h [[Hi _] | [-> ->]]%lookup_snoc_cases _; [cbn in Hi; lia | done].
    + intros i j h h' [[Hi _] | [-> ->]]%lookup_snoc_cases [[Hj _] | [-> ->]]%lookup_snoc_cases; (cbn in *; lia) || done.
    + intros i j h h' Hij [[Hi _] | [-> ->]]%lookup_snoc_cases [[Hj _] | [-> ->]]%lookup_snoc_cases; cbn in *; lia.
Qed.

Lemma generations_numbered_witness :
  numbered [sample_head; {| sample_head with gh_CredentialGeneration := 2 |};
            {| sample_head with gh_CredentialGeneration := 9; gh_Revoked := true |}].
Proof.
  apply (generations_numbered [sample_head; {| sample_head with gh_CredentialGeneration := 2 |};
            {| sample_head with gh_CredentialGeneration := 9; gh_Revoked := true |}]).
  assert (forall n, (0 <=? n) && (n <=? 100) = true -> u64 n) as Hsmall by (intros n Hn; unfold u64, max_u64; b2p; lia).
  assert (forall n r, (0 <=? n) && (n <=? 100) = true ->
    head_in_range {| sample_head with gh_CredentialGeneration := n; gh_Revoked := r |}) as Hr
    by (intros n r Hn; split_and!; apply Hsmall; done).
  apply (history_snoc [_; _] _ 2); [| by apply Hsmall | by apply Hr | done | reflexivity].
  apply (history_snoc [_] _ 1); [| by apply Hsmall | by apply Hr | done | reflexivity].
  apply (history_snoc [] _ 0); [constructor | by apply Hsmall | by apply (Hr 1 false) | done | reflexivity].
Defined.
