(* ===== verification/RateLimiter.v ===== *)
(** * The explanation rate limiter ([internal/runexplanationrate/limiter.go])

    Rows of a finite table of slots, each the state of one identity: the
    validation and size bound of a row, the keys an identity is probed at, and
    [Evaluate], which decides a request on the four probed rows.  [rate_tx] is
    the part of [ReadRatedRunExplanationV1]
    ([internal/ydbstore/run_explanation_rated.go]) that reads the rows, evaluates
    and writes the replacement, on the table as a map from slot ids to rows, with
    a record column standing for the slot its JSON encodes.  The JSON row decoder,
    the authorization before and the resource read after it are not modelled: a
    failure of either rolls the transaction back, a step that changes nothing. *)

From S2P Require Import Prelude GoText GoTime Sha256 Json Digests Errors Identity.
#[local] Open Scope Z_scope.

Definition Version : Z := 1.
Definition MaxSlots : Z := 4096.
Definition MaxRowBytes : Z := 8192.
Definition MaxReceipts : Z := 16.
Definition Interval : Z := 5 * second.
Definition ReceiptTTL : Z := 30 * second.
Definition IdleTTL : Z := 10 * minute.

Definition ErrInvalidState : error := PlainError "invalid run explanation rate state" None.

Record Receipt := {
  rc_RequestID : string;
  rc_SelectorDigest : string;
  rc_DebitedAt : time }.

Record Slot := {
  sl_Version : Z;
  sl_IdentityDigest : string;
  sl_TheoreticalArrivalAt : time;
  sl_LastDebitAt : time;
  sl_ExpiresAt : time;
  sl_Receipts : list Receipt }.

Record Decision := {
  de_Allowed : bool;
  de_Debited : bool;
  de_RetryAfter : Z;
  de_SlotID : Z;
  de_Slot : option Slot }.

(** ** Keys *)

Definition validDigest (value : string) : bool := (len value =? 64) && all_bytes is_lower_hex value.

(** Each value after its length in eight bytes. *)
Definition framed (value : string) : string := string_of (be_bytes 8 (len value)) +:+ value.

Definition framedDigest (prefix : string) (values : list string) : string :=
  sha256_hex (prefix +:+ nul +:+ foldr (fun v acc => framed v +:+ acc) "" values).

(** The number a string of lower-case hexadecimal digits denotes. *)
Fixpoint hex_number (acc : Z) (s : string) : Z :=
  match s with
  | EmptyString => acc
  | String c r => hex_number (acc * 16 + (if is_digit c then byte c - 48 else byte c - 87)) r
  end.

Definition identityKeys (identity : string) : error + list Z :=
  if negb (validDigest identity) then inl ErrInvalidState
  else
    let base := hex_number 0 (String.substring 0 16 identity) mod MaxSlots in
    inr (map (fun i => (base + i) mod MaxSlots) [0; 1; 2; 3]).

Definition IdentityKeys (tenantID userID : string) : error + (string * list Z) :=
  if notnil (TenantID_Validate tenantID) || notnil (UserID_Validate userID) then inl ErrInvalidState
  else
    let digest := framedDigest "sessionless.run-explanation-rate.identity.v1" [tenantID; userID] in
    match identityKeys digest with
    | inl e => inl e
    | inr keys => inr (digest, keys)
    end.

Definition SelectorDigest (runID : string) : error + string :=
  if notnil (RunID_Validate runID) then inl ErrInvalidState
  else inr (framedDigest "sessionless.run-explanation-rate.resource.v1" [runID]).

(** ** Rows *)

Definition validTime (value : time) : bool :=
  negb (is_zero value) && bool_decide (loc value = UTC) && in_range 1 9999 (year value).

Definition addTime (value : time) (duration : Z) : option time :=
  let result := add value duration in
  if validTime result && after result value then Some result else None.

(** The loop over the receipts of a row, after [seen]. *)
Fixpoint receipts_valid (last : time) (seen : list Receipt) (l : list Receipt) : bool :=
  match l with
  | [] => true
  | r :: rest =>
      isnil (ValidateOpaqueID "request_id" (rc_RequestID r)) && validDigest (rc_SelectorDigest r)
      && validTime (rc_DebitedAt r) && negb (after (rc_DebitedAt r) last)
      && (sub last (rc_DebitedAt r) <? ReceiptTTL)
      && match seen with [] => true | p :: _ => negb (before (rc_DebitedAt r) (rc_DebitedAt p)) end
      && forallb (fun p => negb (String.eqb (rc_RequestID r) (rc_RequestID p))) seen
      && receipts_valid last (r :: seen) rest
  end.

Definition validateSlot (slot : Slot) : option error :=
  reject negb (sl_Version slot =? Version) || negb (validDigest (sl_IdentityDigest slot))
         || negb (validTime (sl_LastDebitAt slot)) || negb (validTime (sl_TheoreticalArrivalAt slot))
         || negb (validTime (sl_ExpiresAt slot)) || (Z.of_nat (length (sl_Receipts slot)) =? 0)
         || (Z.of_nat (length (sl_Receipts slot)) >? MaxReceipts)
    with ErrInvalidState ;!
  match addTime (sl_LastDebitAt slot) Interval, addTime (sl_LastDebitAt slot) (2 * Interval),
        addTime (sl_LastDebitAt slot) IdleTTL with
  | Some minimum, Some maximum, Some expires =>
      reject before (sl_TheoreticalArrivalAt slot) minimum || after (sl_TheoreticalArrivalAt slot) maximum
             || negb (time_equal (sl_ExpiresAt slot) expires)
        with ErrInvalidState ;!
      reject negb (receipts_valid (sl_LastDebitAt slot) [] (sl_Receipts slot)) with ErrInvalidState ;!
      reject negb (existsb (fun r => time_equal (rc_DebitedAt r) (sl_LastDebitAt slot)) (sl_Receipts slot))
        with ErrInvalidState ;!
      None
  | _, _, _ => Some ErrInvalidState
  end.

Definition json_receipt (r : Receipt) : json :=
  JObj [("request_id", JStr (rc_RequestID r)); ("selector_digest", JStr (rc_SelectorDigest r));
        ("debited_at", JTime (rc_DebitedAt r))].

Definition json_slot (slot : Slot) : json :=
  JObj [("version", JNum (sl_Version slot)); ("identity_digest", JStr (sl_IdentityDigest slot));
        ("theoretical_arrival_at", JTime (sl_TheoreticalArrivalAt slot)); ("last_debit_at", JTime (sl_LastDebitAt slot));
        ("expires_at", JTime (sl_ExpiresAt slot)); ("receipts", JArr (map json_receipt (sl_Receipts slot)))].

Definition EncodeSlot (slot : Slot) : error + string :=
  if notnil (validateSlot slot) then inl ErrInvalidState
  else
    let data := marshal (json_slot slot) in
    if len data >? MaxRowBytes then inl ErrInvalidState else inr data.

Definition encodes (slot : Slot) : bool := match EncodeSlot slot with inr _ => true | inl _ => false end.

(** ** Evaluation *)

(** The loop over the probed rows: the index of the identity's own row and of the
    first usable one; [None] is an invalid state. *)
Fixpoint scan_slots (now : time) (identity : string) (i : nat) (own available : option nat)
  (l : list (Z * option Slot)) : option (option nat * option nat) :=
  match l with
  | [] => Some (own, available)
  | (_, None) :: rest =>
      scan_slots now identity (S i) own (match available with None => Some i | Some _ => available end) rest
  | (candidate, Some slot) :: rest =>
      if negb (encodes slot) || after (sl_LastDebitAt slot) now then None else
      match identityKeys (sl_IdentityDigest slot) with
      | inl _ => None
      | inr occupantKeys =>
          if negb (existsb (Z.eqb candidate) occupantKeys) then None else
          let available' :=
            if negb (before now (sl_ExpiresAt slot)) && isnil available then Some i else available in
          if String.eqb (sl_IdentityDigest slot) identity then
            match own with
            | Some _ => None
            | None => scan_slots now identity (S i) (Some i) available' rest
            end
          else scan_slots now identity (S i) own available' rest
      end
  end.

(** The loop over the receipts of the current row: the receipts that are kept, or
    the receipt of the same request. *)
Fixpoint scan_receipts (now : time) (requestID : string) (l : list Receipt) : list Receipt * option Receipt :=
  match l with
  | [] => ([], None)
  | r :: rest =>
      if sub now (rc_DebitedAt r) >=? ReceiptTTL then scan_receipts now requestID rest
      else if String.eqb (rc_RequestID r) requestID then ([], Some r)
      else let '(kept, found) := scan_receipts now requestID rest in (r :: kept, found)
  end.

Definition denied (retryAfter slotID : Z) : Decision :=
  {| de_Allowed := false; de_Debited := false; de_RetryAfter := retryAfter; de_SlotID := slotID; de_Slot := None |}.

(** Whole seconds, rounded up. *)
Definition ceil_seconds (remaining : Z) : Z :=
  (remaining / second + (if remaining mod second =? 0 then 0 else 1)) * second.

(** The end of [Evaluate]: the row after a debit. *)
Definition debit (now : time) (identity requestID selectorDigest : string) (slotID : Z) (tat : time)
  (receipts : list Receipt) : error + Decision :=
  if Z.of_nat (length receipts) >=? MaxReceipts then inl ErrInvalidState else
  match addTime (if before tat now then now else tat) Interval, addTime now IdleTTL with
  | Some nextTAT, Some expires =>
      let next :=
        {| sl_Version := Version; sl_IdentityDigest := identity; sl_TheoreticalArrivalAt := nextTAT;
           sl_LastDebitAt := now; sl_ExpiresAt := expires;
           sl_Receipts := receipts ++ [{| rc_RequestID := requestID; rc_SelectorDigest := selectorDigest;
                                          rc_DebitedAt := now |}] |} in
      if encodes next
      then inr {| de_Allowed := true; de_Debited := true; de_RetryAfter := 0; de_SlotID := slotID; de_Slot := Some next |}
      else inl ErrInvalidState
  | _, _ => inl ErrInvalidState
  end.

Definition Evaluate (now : time) (identity : string) (candidates : list Z) (slots : list (option Slot))
  (requestID selectorDigest : string) : error + Decision :=
  match identityKeys identity with
  | inl _ => inl ErrInvalidState
  | inr keys =>
      if negb (bool_decide (keys = candidates)) || negb (validTime now)
         || notnil (ValidateOpaqueID "request_id" requestID) || negb (validDigest selectorDigest)
      then inl ErrInvalidState else
      match addTime now Interval with
      | None => inl ErrInvalidState
      | Some eligibility =>
          match scan_slots now identity 0 None None (zip candidates slots) with
          | None => inl ErrInvalidState
          | Some (own, available) =>
              match (match own with Some i => Some i | None => available end) with
              | None => inr (denied Interval 0)
              | Some selected =>
                  let slotID := default 0 (candidates !! selected) in
                  let current := mjoin (slots !! selected) in
                  match own, current with
                  | Some _, Some current =>
                      if before now (sl_ExpiresAt current) then
                        match scan_receipts now requestID (sl_Receipts current) with
                        | (_, Some receipt) =>
                            if negb (String.eqb (rc_SelectorDigest receipt) selectorDigest) then inl ErrInvalidState
                            else inr {| de_Allowed := true; de_Debited := false; de_RetryAfter := 0; de_SlotID := slotID;
                                        de_Slot := None |}
                        | (receipts, None) =>
                            let tat := sl_TheoreticalArrivalAt current in
                            if after tat eligibility
                            then inr (denied (ceil_seconds (sub tat eligibility)) slotID)
                            else debit now identity requestID selectorDigest slotID tat receipts
                        end
                      else debit now identity requestID selectorDigest slotID now []
                  | _, _ => debit now identity requestID selectorDigest slotID now []
                  end
              end
          end
      end
  end.

(** ** The transaction *)

(** A row of [run_explanation_rate_slots_v1]: the slot its record encodes and the
    expiry column, a timestamp in microseconds. *)
Record rate_row := {
  rr_record : Slot;
  rr_expire_at : time }.

(** The rows by slot id; rows are overwritten and never removed. *)
Abbreviation table := (gmap Z rate_row).

Definition readExplanationRateSlot (t : table) (slotID : Z) : error + option Slot :=
  if slotID >=? MaxSlots then inl ErrInvalidState else
  match t !! slotID with
  | None => inr None
  | Some row =>
      if negb (encodes (rr_record row)) then inl ErrInvalidState
      else if negb (time_equal (rr_expire_at row) (sl_ExpiresAt (rr_record row))) then inl ErrInvalidState
      else inr (Some (rr_record row))
  end.

(** The loop that reads the probed rows. *)
Fixpoint read_slots (t : table) (candidates : list Z) : error + list (option Slot) :=
  match candidates with
  | [] => inr []
  | slotID :: rest =>
      match readExplanationRateSlot t slotID with
      | inl e => inl e
      | inr slot =>
          match read_slots t rest with
          | inl e => inl e
          | inr slots => inr (slot :: slots)
          end
      end
  end.

Definition ErrRunExplanationUnavailable : error := PlainError "run explanation temporarily unavailable" None.

(** [RunExplanationReadOutcomeV1.Validate] on a rate-limited outcome. *)
Definition RateLimited_Validate (retryAfter : Z) : option error :=
  reject (retryAfter <=? 0) || (retryAfter >? 5 * second) || negb (retryAfter mod second =? 0)
    with ErrRunExplanationUnavailable ;!
  None.

(** The rate part of the transaction, after the authorization at [at_] and before
    the resource read. *)
Definition rate_tx (t : table) (at_ : time) (tenantID userID serverRequestID selector : string)
  : error + (Decision * table) :=
  match IdentityKeys tenantID userID with
  | inl e => inl e
  | inr (identity, candidates) =>
      match read_slots t candidates with
      | inl e => inl e
      | inr slots =>
          match Evaluate (to_utc at_) identity candidates slots serverRequestID selector with
          | inl e => inl e
          | inr decision =>
              if negb (de_Allowed decision) then
                match RateLimited_Validate (de_RetryAfter decision) with
                | Some e => inl e
                | None => inr (decision, t)
                end
              else if de_Debited decision then
                match de_Slot decision with
                | None => inl ErrInvalidState
                | Some slot =>
                    if de_SlotID decision >=? MaxSlots then inl ErrInvalidState
                    else if negb (existsb (Z.eqb (de_SlotID decision)) candidates)
                            || negb (String.eqb (sl_IdentityDigest slot) identity) then inl ErrInvalidState
                    else match EncodeSlot slot with
                         | inl e => inl e
                         | inr _ =>
                             inr (decision,
                                  <[de_SlotID decision :=
                                      {| rr_record := slot;
                                         rr_expire_at := truncate (sl_ExpiresAt slot) microsecond |}]> t)
                         end
                end
              else inr (decision, t)
          end
      end
  end.

(** ** The scan of the probed rows *)

(** What the loop has checked of one probed row. *)
Definition probed_ok (now : time) (p : Z * option Slot) : Prop :=
  match p.2 with
  | None => True
  | Some slot =>
      encodes slot = true /\ ns (sl_LastDebitAt slot) <= ns now /\
      exists ks, identityKeys (sl_IdentityDigest slot) = inr ks /\ p.1 ∈ ks
  end.

Definition occupied_by (identity : string) (p : Z * option Slot) : Prop :=
  exists slot, p.2 = Some slot /\ sl_IdentityDigest slot = identity.

Definition usable (now : time) (p : Z * option Slot) : Prop :=
  match p.2 with None => True | Some slot => ns (sl_ExpiresAt slot) <= ns now end.

Lemma existsb_In_Z (k : Z) l : existsb (Z.eqb k) l = true <-> k ∈ l.
Proof.
  rewrite existsb_exists. split.
  - intros (x & Hx & ->%Z.eqb_eq). by apply list_elem_of_In.
  - intros H. exists k. by rewrite Z.eqb_refl, <- list_elem_of_In.
Qed.

(** Every row that the scan passed is valid, not from the future and at a key of
    its identity. *)
Lemma scan_slots_ok now identity l i own available r :
  scan_slots now identity i own available l = Some r -> Forall (probed_ok now) l.
Proof.
  revert i own available. induction l as [| [c [slot |]] l IH]; intros i own available H; cbn in H.
  - constructor.
  - destruct (encodes slot) eqn:He; [| done]. cbn in H.
    destruct (after (sl_LastDebitAt slot) now) eqn:Ha; [done |].
    destruct (identityKeys (sl_IdentityDigest slot)) as [| ks] eqn:Hk; [done |].
    destruct (existsb (Z.eqb c) ks) eqn:Hc; [| done]. cbn in H.
    constructor.
    + unfold probed_ok; cbn. apply after_false in Ha. apply existsb_In_Z in Hc. eauto.
    + destruct (String.eqb _ _); [destruct own; [done |] |]; eauto.
  - constructor; [done | eauto].
Qed.

(** The index the scan reports as own, which is the only row of the identity. *)
Lemma scan_slots_own now identity l i own available o a :
  scan_slots now identity i own available l = Some (o, a) ->
  match own with
  | Some j => o = Some j /\ Forall (fun p => ~ occupied_by identity p) l
  | None =>
      (o = None /\ Forall (fun p => ~ occupied_by identity p) l) \/
      exists m p, o = Some (i + m)%nat /\ l !! m = Some p /\ occupied_by identity p /\
        forall m' p', l !! m' = Some p' -> occupied_by identity p' -> m' = m
  end.
Proof.
  revert i own available. induction l as [| [c [slot |]] l IH]; intros i own available H; cbn in H.
  - simplify_eq. destruct o; [split; [done | constructor] | left; split; [done | constructor]].
  - destruct (negb (encodes slot) || after (sl_LastDebitAt slot) now); [done |].
    destruct (identityKeys (sl_IdentityDigest slot)) as [| ks]; [done |].
    destruct (negb (existsb (Z.eqb c) ks)); [done |].
    destruct (String.eqb_spec (sl_IdentityDigest slot) identity) as [Hid | Hid].
    + destruct own; [done |]. apply IH in H as [-> Hn]. right.
      exists O, (c, Some slot). rewrite Nat.add_0_r. repeat split; [by eexists |].
      intros [| m'] p' Hl Ho; [done |]. cbn in Hl. by eapply Forall_lookup_1 in Hl; [| exact Hn].
    + assert (Hc : ~ occupied_by identity (c, Some slot)) by (intros (? & [= <-] & ?); done).
      apply IH in H. destruct own; [by destruct H; split; [| constructor] |].
      destruct H as [[-> Hn] | (m & p & -> & Hl & Ho & Hu)]; [by left; split; [| constructor] |].
      right. exists (S m), p. rewrite Nat.add_succ_r. repeat split; [done | done |].
      intros [| m'] p' Hl' Ho'; [by cbn in Hl'; simplify_eq | f_equal; eauto].
  - assert (Hc : ~ occupied_by identity (c, None)) by (intros (? & ? & ?); done).
    apply IH in H. destruct own; [by destruct H; split; [| constructor] |].
    destruct H as [[-> Hn] | (m & p & -> & Hl & Ho & Hu)]; [by left; split; [| constructor] |].
    right. exists (S m), p. rewrite Nat.add_succ_r. repeat split; [done | done |].
    intros [| m'] p' Hl' Ho'; [by cbn in Hl'; simplify_eq | f_equal; eauto].
Qed.

(** The index reported as available holds no row or an expired one. *)
Lemma scan_slots_available now identity l i own available o j :
  scan_slots now identity i own available l = Some (o, Some j) ->
  available = Some j \/ exists m p, j = (i + m)%nat /\ l !! m = Some p /\ usable now p.
Proof.
  assert (Hcons : forall k (p : Z * option Slot) l, (exists m q, j = (S k + m)%nat /\ l !! m = Some q /\ usable now q) ->
    exists m q, j = (k + m)%nat /\ (p :: l) !! m = Some q /\ usable now q).
  { intros k p l' (m & q & -> & ? & ?). exists (S m), q. split; [lia | done]. }
  revert i own available. induction l as [| [c [slot |]] l IH]; intros i own available H; cbn in H.
  - simplify_eq. by left.
  - destruct (negb (encodes slot) || after (sl_LastDebitAt slot) now); [done |].
    destruct (identityKeys (sl_IdentityDigest slot)) as [| ks]; [done |].
    destruct (negb (existsb (Z.eqb c) ks)); [done |].
    assert (Hr : exists own', scan_slots now identity (S i) own'
      (if negb (before now (sl_ExpiresAt slot)) && isnil available then Some i else available) l = Some (o, Some j))
      by (destruct (String.eqb _ _); [destruct own; [done |] |]; eauto).
    clear H. destruct Hr as [own' [Hv | Hv]%IH]; [| eauto].
    destruct (before now (sl_ExpiresAt slot)) eqn:Hb; cbn in Hv; [by left |].
    destruct available; cbn in Hv; [by left |]. simplify_eq. right. exists O, (c, Some slot).
    apply before_false in Hb. split; [lia | done].
  - apply IH in H as [Hv | Hv]; [| eauto]. destruct available; [by left |]. simplify_eq.
    right. exists O, (c, None). split; [lia | done].
Qed.

(** ** Debits *)

Lemma addTime_Some value d r : addTime value d = Some r -> ns r = ns value + d.
Proof. unfold addTime. by destruct (validTime _ && _); intros [= <-]. Qed.

Lemma encodes_validateSlot slot : encodes slot = true -> validateSlot slot = None.
Proof. unfold encodes, EncodeSlot. by destruct (validateSlot slot). Qed.

(** The window a valid row keeps its arrival time and its expiry in. *)
Lemma encodes_times slot :
  encodes slot = true ->
  ns (sl_LastDebitAt slot) + Interval <= ns (sl_TheoreticalArrivalAt slot) <= ns (sl_LastDebitAt slot) + 2 * Interval /\
  ns (sl_ExpiresAt slot) = ns (sl_LastDebitAt slot) + IdleTTL.
Proof.
  intros H%encodes_validateSlot. unfold validateSlot in H. apply reject_nil in H as [_ H].
  destruct (addTime _ Interval) as [mn |] eqn:E1; [| done].
  destruct (addTime _ (2 * Interval)) as [mx |] eqn:E2; [| done].
  destruct (addTime _ IdleTTL) as [ex |] eqn:E3; [| done].
  apply reject_nil in H as [H _]. apply addTime_Some in E1, E2, E3.
  apply orb_false_iff in H as [[H1 H2]%orb_false_iff H3%negb_false_iff].
  apply before_false in H1. apply after_false in H2. apply time_equal_true in H3. lia.
Qed.

(** A debit charges one interval to the later of the arrival time and now. *)
Lemma debit_spec now identity requestID sel slotID tat receipts d :
  debit now identity requestID sel slotID tat receipts = inr d ->
  de_Allowed d = true /\ de_Debited d = true /\ de_SlotID d = slotID /\
  exists next, de_Slot d = Some next /\ encodes next = true /\ sl_IdentityDigest next = identity /\
    sl_LastDebitAt next = now /\ ns (sl_TheoreticalArrivalAt next) = Z.max (ns tat) (ns now) + Interval /\
    exists r, sl_Receipts next = receipts ++ [r] /\ rc_DebitedAt r = now.
Proof.
  unfold debit. destruct (_ >=? _); [done |].
  destruct (addTime _ Interval) as [n |] eqn:E; [| done]. destruct (addTime now IdleTTL); [| done].
  destruct (encodes _) eqn:He; intros [= <-]. cbn. repeat split. eexists. repeat split; [exact He | cbn | by eexists].
  apply addTime_Some in E. rewrite E. destruct (before tat now) eqn:Hb; b2p; lia.
Qed.

(** What a debit of [Evaluate] says of the row it replaces. *)
Definition charged (now : time) (identity : string) (p : Z * option Slot) (next : Slot) : Prop :=
  match p.2 with
  | Some slot =>
      if String.eqb (sl_IdentityDigest slot) identity then
        ns (sl_TheoreticalArrivalAt slot) <= ns now + Interval /\
        ns (sl_TheoreticalArrivalAt next) = Z.max (ns (sl_TheoreticalArrivalAt slot)) (ns now) + Interval
      else ns (sl_ExpiresAt slot) <= ns now /\ ns (sl_TheoreticalArrivalAt next) = ns now + Interval
  | None => ns (sl_TheoreticalArrivalAt next) = ns now + Interval
  end.

(** The receipts of the replacement: some of the identity's own row, and one more. *)
Definition receipted (now : time) (identity : string) (p : Z * option Slot) (next : Slot) : Prop :=
  exists kept r, sl_Receipts next = kept ++ [r] /\ rc_DebitedAt r = now /\
    (kept = [] \/ exists slot, p.2 = Some slot /\ sl_IdentityDigest slot = identity /\ sublist kept (sl_Receipts slot)).

Lemma scan_receipts_sublist now requestID l kept found :
  scan_receipts now requestID l = (kept, found) -> sublist kept l.
Proof.
  revert kept found. induction l as [| r l IH]; intros kept found H; cbn in H; [simplify_eq; constructor |].
  destruct (_ >=? _); [constructor; eauto |]. destruct (String.eqb _ _); [simplify_eq; apply sublist_nil_l |].
  destruct (scan_receipts now requestID l) as [kept' found']. simplify_eq. constructor. eauto.
Qed.

Lemma zip_row (cands : list Z) (slots : list (option Slot)) m p :
  zip cands slots !! m = Some p -> default 0 (cands !! m) = p.1 /\ mjoin (slots !! m) = p.2.
Proof. intros (k & s & -> & Hk & Hs)%lookup_zip_with_Some. by rewrite Hk, Hs. Qed.

(** An own row is charged whether it is live or has expired: when it has expired
    its arrival time has passed too. *)
Lemma charged_own now identity c slot next :
  encodes slot = true -> sl_IdentityDigest slot = identity ->
  (if before now (sl_ExpiresAt slot)
   then ns (sl_TheoreticalArrivalAt slot) <= ns now + Interval /\
        ns (sl_TheoreticalArrivalAt next) = Z.max (ns (sl_TheoreticalArrivalAt slot)) (ns now) + Interval
   else ns (sl_TheoreticalArrivalAt next) = ns now + Interval) ->
  charged now identity (c, Some slot) next.
Proof.
  intros He%encodes_times <-. unfold charged; cbn. rewrite String.eqb_refl.
  destruct (before now (sl_ExpiresAt slot)) eqn:Hb; [done |]. b2p.
  unfold Interval, IdleTTL, minute, second in *. lia.
Qed.

(** A debit that [Evaluate] grants: it replaces one probed row, the identity's own
    when there is one. *)
Lemma Evaluate_debit now identity cands slots req sel d :
  Evaluate now identity cands slots req sel = inr d -> de_Debited d = true ->
  Forall (probed_ok now) (zip cands slots) /\
  exists m p next, zip cands slots !! m = Some p /\ de_Allowed d = true /\ de_SlotID d = p.1 /\
    de_Slot d = Some next /\ encodes next = true /\ sl_IdentityDigest next = identity /\ sl_LastDebitAt next = now /\
    charged now identity p next /\ receipted now identity p next /\
    forall m' p', zip cands slots !! m' = Some p' -> occupied_by identity p' -> m' = m.
Proof.
  unfold Evaluate. destruct (identityKeys identity) as [| keys]; [done |].
  destruct (_ || _); [done |]. destruct (addTime now Interval) as [el |] eqn:Hel; [| done].
  apply addTime_Some in Hel.
  destruct (scan_slots _ _ _ _ _ _) as [[own available] |] eqn:Hs; [| done]. intros H Hd.
  pose proof (scan_slots_ok _ _ _ _ _ _ _ Hs) as Hok. split; [exact Hok |].
  apply scan_slots_own in Hs as Hown. cbn in Hown.
  destruct Hown as [[-> Hn] | (m & p & -> & Hp & (slot & Hslot & Hid) & Hu)].
  - destruct available as [j |]; [| by injection H as <-].
    apply scan_slots_available in Hs as [| (m & p & -> & Hp & Hus)]; [done |]. cbn in H.
    destruct (zip_row _ _ _ _ Hp) as [Hk _]. rewrite Hk in H.
    apply debit_spec in H as (? & _ & Hsid & next & ? & ? & ? & ? & Ht & r & ? & ?).
    exists m, p, next. repeat split; [done .. | | |].
    + unfold charged, usable in *. destruct p.2 as [slot |] eqn:Hp2; [| lia].
      destruct (String.eqb_spec (sl_IdentityDigest slot) identity); [| lia].
      eapply Forall_lookup_1 in Hp; [| exact Hn]. destruct Hp. by eexists.
    + exists [], r. auto.
    + intros m' p' Hl Ho. by eapply Forall_lookup_1 in Hl; [| exact Hn].
  - cbn in H. destruct (zip_row _ _ _ _ Hp) as [Hk Hc]. rewrite Hk, Hc, Hslot in H.
    assert (He : probed_ok now p) by (eapply Forall_lookup_1; eauto).
    unfold probed_ok in He. rewrite Hslot in He. destruct He as [He _].
    assert (Hd' : exists tat rs, debit now identity req sel p.1 tat rs = inr d /\
      sublist rs (sl_Receipts slot) /\
      if before now (sl_ExpiresAt slot) then tat = sl_TheoreticalArrivalAt slot /\ ns tat <= ns el else tat = now).
    { destruct (before now (sl_ExpiresAt slot)); [| by eauto using sublist_nil_l].
      destruct (scan_receipts _ _ _) as [rs [r |]] eqn:Hrs; apply scan_receipts_sublist in Hrs.
      - destruct (negb _); [done |]. by injection H as <-.
      - destruct (after _ el) eqn:Ha; [by injection H as <- |]. apply after_false in Ha. by eexists _, _. }
    destruct Hd' as (tat & rs & (? & _ & Hsid & next & ? & ? & ? & ? & Ht & r & ? & ?)%debit_spec & Hrs & Htat).
    exists m, p, next. repeat split; [done .. | | exists rs, r; eauto 10 | eauto].
    destruct p as [c os]. cbn in Hslot. subst os. apply charged_own; [done .. |].
    destruct (before now _); [destruct Htat; subst tat |]; subst; lia.
Qed.

(** ** Committed debits *)

Lemma read_slots_lookup t cands slots m k :
  read_slots t cands = inr slots -> cands !! m = Some k -> slots !! m = Some (rr_record <$> t !! k).
Proof.
  revert slots m. induction cands as [| c cands IH]; intros slots m H Hk; [done |]. cbn in H.
  destruct (readExplanationRateSlot t c) as [| s] eqn:Hs; [done |].
  destruct (read_slots t cands) as [| rest]; [done |]. injection H as <-.
  destruct m as [| m]; [| by apply (IH rest)]. injection Hk as ->. cbn. f_equal.
  unfold readExplanationRateSlot in Hs. destruct (_ >=? _); [done |].
  destruct (t !! k) as [row |]; [| by injection Hs as <-].
  destruct (negb _); [done |]. destruct (negb _); [done |]. by injection Hs as <-.
Qed.

Lemma probed_row t cands slots k :
  read_slots t cands = inr slots -> k ∈ cands ->
  exists m, zip cands slots !! m = Some (k, rr_record <$> t !! k).
Proof.
  intros Hr [m Hm]%list_elem_of_lookup. exists m. apply lookup_zip_with_Some.
  exists k, (rr_record <$> t !! k). repeat split; [done |]. by eapply read_slots_lookup.
Qed.

Lemma row_probed t cands slots m p :
  read_slots t cands = inr slots -> zip cands slots !! m = Some p ->
  p.1 ∈ cands /\ p.2 = rr_record <$> t !! p.1.
Proof.
  intros Hr (k & s & -> & Hk & Hs)%lookup_zip_with_Some. cbn.
  eapply read_slots_lookup in Hr; [| exact Hk]. simplify_eq.
  split; [by eapply list_elem_of_lookup_2 | done].
Qed.

Lemma IdentityKeys_keys tenantID userID identity cands :
  IdentityKeys tenantID userID = inr (identity, cands) -> identityKeys identity = inr cands.
Proof.
  unfold IdentityKeys. destruct (_ || _); [done |].
  destruct (identityKeys _) eqn:E; [done |]. intros H. injection H as <- <-. exact E.
Qed.

(** A transaction that debits overwrites one probed row. *)
Lemma rate_tx_debit t at_ tenantID userID req sel identity cands d t' :
  IdentityKeys tenantID userID = inr (identity, cands) ->
  rate_tx t at_ tenantID userID req sel = inr (d, t') -> de_Debited d = true ->
  (forall k row, k ∈ cands -> t !! k = Some row -> ns (sl_LastDebitAt (rr_record row)) <= ns at_) /\
  exists k next, k ∈ cands /\
    t' = <[k := {| rr_record := next; rr_expire_at := truncate (sl_ExpiresAt next) microsecond |}]> t /\
    encodes next = true /\ sl_IdentityDigest next = identity /\ ns (sl_LastDebitAt next) = ns at_ /\
    charged (to_utc at_) identity (k, rr_record <$> t !! k) next /\
    receipted (to_utc at_) identity (k, rr_record <$> t !! k) next /\
    forall k' row, k' ∈ cands -> t !! k' = Some row -> sl_IdentityDigest (rr_record row) = identity -> k' = k.
Proof.
  intros Hk H Hd. unfold rate_tx in H. rewrite Hk in H.
  destruct (read_slots t cands) as [| slots] eqn:Hr; [done |].
  destruct (Evaluate _ _ _ _ _ _) as [| d'] eqn:He; [done |].
  assert (d' = d) as ->.
  { destruct (negb (de_Allowed d')); [by destruct (RateLimited_Validate _); simplify_eq |].
    destruct (de_Debited d'); [| by simplify_eq]. destruct (de_Slot d'); [| done].
    destruct (_ >=? _); [done |]. destruct (_ || _); [done |]. by destruct (EncodeSlot _); simplify_eq. }
  destruct (Evaluate_debit _ _ _ _ _ _ _ He Hd) as
    (Hok & m & [k os] & next & Hp & Hal & Hsid & Hn & Hen & Hid & Hlast & Hch & Hrc & Hu).
  destruct (row_probed _ _ _ _ _ Hr Hp) as [Hin Hos]. cbn in Hin, Hos, Hsid. subst os.
  split.
  - intros k' row Hk' Hrow. destruct (probed_row _ _ _ _ Hr Hk') as [m' Hm'].
    rewrite Hrow in Hm'. eapply Forall_lookup_1 in Hm'; [| exact Hok]. by destruct Hm' as (_ & ? & _).
  - rewrite Hal, Hd, Hn, Hsid in H. cbn [negb] in H.
    destruct (_ >=? _); [done |]. destruct (_ || _); [done |]. destruct (EncodeSlot next); [done |].
    injection H as <-. exists k, next. repeat split; [done .. | by rewrite Hlast | done | done |].
    intros k' row Hk' Hrow Hri. destruct (probed_row _ _ _ _ Hr Hk') as [m' Hm']. rewrite Hrow in Hm'.
    assert (m' = m) as -> by (eapply Hu; [exact Hm' | by eexists]). by simplify_eq.
Qed.

(** ** The rate of committed debits *)

(** The table and, for each identity, the instants of its committed debits, the
    latest first. *)
Record rate_world := {
  rw_table : table;
  rw_log : gmap string (list Z) }.

Definition log_of (w : rate_world) (identity : string) : list Z := default [] (rw_log w !! identity).

Definition rate_init : rate_world := {| rw_table := ∅; rw_log := ∅ |}.

(** A committed transaction, of any user at any reading of the database clock, which
    counts microseconds: readings may go backwards from one transaction to the
    next.  A transaction that is rolled back is no step. *)
Inductive rate_step (w : rate_world) : rate_world -> Prop :=
| rate_commit at_ tenantID userID req sel identity cands d t' :
    ns at_ mod microsecond = 0 ->
    IdentityKeys tenantID userID = inr (identity, cands) ->
    rate_tx (rw_table w) at_ tenantID userID req sel = inr (d, t') ->
    rate_step w {| rw_table := t';
                   rw_log := if de_Debited d then <[identity := ns at_ :: log_of w identity]> (rw_log w)
                             else rw_log w |}.

(** The theoretical arrival time after a list of debits. *)
Fixpoint gcra (l : list Z) : Z :=
  match l with
  | [] => 0
  | d :: rest => (match rest with [] => d | _ => Z.max (gcra rest) d end) + Interval
  end.

(** Each debit came when the arrival time was at most an interval ahead. *)
Fixpoint paced (l : list Z) : Prop :=
  match l with
  | [] => True
  | d :: rest => match rest with [] => True | p :: _ => p <= d /\ gcra rest <= d + Interval end /\ paced rest
  end.

(** The instants of the debits that a row has receipts of, the latest first. *)
Definition debit_times (l : list Receipt) : list Z := rev (map (fun r => ns (rc_DebitedAt r)) l).

Record rate_inv (w : rate_world) : Prop := {
  ri_rows k row : rw_table w !! k = Some row ->
    encodes (rr_record row) = true /\
    (exists ks, identityKeys (sl_IdentityDigest (rr_record row)) = inr ks /\ k ∈ ks) /\
    exists d rest, log_of w (sl_IdentityDigest (rr_record row)) = d :: rest /\
      ns (sl_LastDebitAt (rr_record row)) = d /\ ns (sl_TheoreticalArrivalAt (rr_record row)) = gcra (d :: rest);
  ri_unique k k' row row' : rw_table w !! k = Some row -> rw_table w !! k' = Some row' ->
    sl_IdentityDigest (rr_record row) = sl_IdentityDigest (rr_record row') -> k = k';
  ri_receipts k row : rw_table w !! k = Some row ->
    sublist (debit_times (sl_Receipts (rr_record row))) (log_of w (sl_IdentityDigest (rr_record row)));
  ri_expire k row : rw_table w !! k = Some row ->
    ns (rr_expire_at row) = ns (sl_ExpiresAt (rr_record row));
  ri_logs identity d rest : log_of w identity = d :: rest ->
    exists ks k row, identityKeys identity = inr ks /\ k ∈ ks /\ rw_table w !! k = Some row /\
      d <= ns (sl_LastDebitAt (rr_record row)) /\
      (sl_IdentityDigest (rr_record row) = identity \/ d + IdleTTL <= ns (sl_LastDebitAt (rr_record row)));
  ri_paced identity : paced (log_of w identity) }.

Lemma gcra_last l d rest : l = d :: rest -> d + Interval <= gcra l.
Proof. intros ->. destruct rest; cbn; lia. Qed.

Lemma gcra_count mid d post : d + (Z.of_nat (length mid) + 1) * Interval <= gcra (mid ++ d :: post).
Proof.
  induction mid as [| m mid IH]; [pose proof (gcra_last _ d post eq_refl); cbn [app length]; lia |].
  cbn [app length gcra]. destruct (mid ++ d :: post) eqn:E; [by destruct mid |]. lia.
Qed.

Lemma paced_app pre l : paced (pre ++ l) -> paced l.
Proof. induction pre as [| p pre IH]; [done |]. cbn. intros [_ H]. auto. Qed.

Lemma paced_window pre b mid a post :
  paced (pre ++ b :: mid ++ a :: post) -> Z.of_nat (length mid) * Interval <= b - a.
Proof.
  intros H%paced_app. cbn in H. destruct H as [H _].
  pose proof (gcra_count mid a post). destruct (mid ++ a :: post) eqn:E; [by destruct mid | lia].
Qed.

(** A long pause resets the arrival time. *)
Lemma paced_pause l d now : paced l -> hd_error l = Some d -> d + IdleTTL <= now -> gcra l <= now.
Proof.
  intros Hp Hh Hn. destruct l as [| x rest]; [done |]. cbn in Hh. simplify_eq.
  unfold IdleTTL, minute, second, Interval in *. cbn [gcra paced] in *. unfold Interval, second in *.
  destruct rest; lia.
Qed.

Lemma log_of_insert w t identity l id' :
  log_of {| rw_table := t; rw_log := <[identity := l]> (rw_log w) |} id' =
  if String.eqb identity id' then l else log_of w id'.
Proof.
  unfold log_of; cbn. destruct (String.eqb_spec identity id') as [-> | Hn].
  - by rewrite lookup_insert_eq.
  - by rewrite lookup_insert_ne.
Qed.

Lemma sublist_rev {A} (l k : list A) : sublist l k -> sublist (rev l) (rev k).
Proof.
  induction 1; cbn; [constructor | by apply sublist_app | by apply sublist_inserts_r].
Qed.

Section Debit.
Context (w : rate_world) (Hw : rate_inv w) (at_ : time) (identity : string) (cands : list Z).
Context (Hkeys : identityKeys identity = inr cands).
Context (Hpast : forall k row, k ∈ cands -> rw_table w !! k = Some row ->
                     ns (sl_LastDebitAt (rr_record row)) <= ns at_).
Context (Htick : ns at_ mod microsecond = 0).
Context (k : Z) (next : Slot) (Hk : k ∈ cands) (Hnext : encodes next = true)
    (Hid : sl_IdentityDigest next = identity) (Hlast : ns (sl_LastDebitAt next) = ns at_).
Context (Hch : charged (to_utc at_) identity (k, rr_record <$> rw_table w !! k) next).
Context (Hrc : receipted (to_utc at_) identity (k, rr_record <$> rw_table w !! k) next).
Context (Hown : forall k' row, k' ∈ cands -> rw_table w !! k' = Some row ->
                    sl_IdentityDigest (rr_record row) = identity -> k' = k).

(** Any row of the identity is the one that is replaced. *)
Lemma debit_own k' row : rw_table w !! k' = Some row -> sl_IdentityDigest (rr_record row) = identity -> k' = k.
Proof.
  intros Hr Hi. destruct (ri_rows _ Hw _ _ Hr) as (_ & (ks & Hks & Hin) & _).
  rewrite Hi, Hkeys in Hks. injection Hks as <-. eauto.
Qed.

(** The row that is charged: the arrival time is the one of the log. *)
Lemma debit_charge :
  match rw_table w !! k with
  | Some row =>
      if String.eqb (sl_IdentityDigest (rr_record row)) identity then
        gcra (log_of w identity) <= ns at_ + Interval /\ log_of w identity <> [] /\
        ns (sl_TheoreticalArrivalAt next) = Z.max (gcra (log_of w identity)) (ns at_) + Interval
      else ns (sl_LastDebitAt (rr_record row)) + IdleTTL <= ns at_ /\
           ns (sl_TheoreticalArrivalAt next) = ns at_ + Interval
  | None => ns (sl_TheoreticalArrivalAt next) = ns at_ + Interval
  end.
Proof.
  unfold charged in Hch. destruct (rw_table w !! k) as [row |] eqn:Hr; [| exact Hch]. cbn in Hch.
  destruct (ri_rows _ Hw _ _ Hr) as (Henc & _ & d & rest & Hl & _ & Ht).
  destruct (String.eqb_spec (sl_IdentityDigest (rr_record row)) identity) as [E | E].
  - rewrite E in Hl. rewrite Hl, <- Ht. split; [tauto |]. split; [done | tauto].
  - apply encodes_times in Henc. lia.
Qed.

Lemma debit_paced :
  paced (ns at_ :: log_of w identity) /\ ns (sl_TheoreticalArrivalAt next) = gcra (ns at_ :: log_of w identity).
Proof.
  pose proof debit_charge as Hc. pose proof (ri_paced _ Hw identity) as Hp.
  destruct (log_of w identity) as [| d rest] eqn:Hl.
  - split; [done |]. cbn. destruct (rw_table w !! k) as [row |]; [| lia].
    destruct (String.eqb _ _); [by destruct Hc as (_ & ? & _) | lia].
  - destruct (ri_logs _ Hw _ _ _ Hl) as (ks & k0 & row0 & Hks & Hk0 & Hr0 & Hd & Hor).
    rewrite Hkeys in Hks. injection Hks as <-. pose proof (Hpast _ _ Hk0 Hr0) as Hle.
    assert (Hg : d <= ns at_ /\ gcra (d :: rest) <= ns at_ + Interval /\
      ns (sl_TheoreticalArrivalAt next) = Z.max (gcra (d :: rest)) (ns at_) + Interval).
    { destruct Hor as [Ho | Hpause].
      - pose proof (Hown _ _ Hk0 Hr0 Ho) as ->. rewrite Hr0, Ho, String.eqb_refl in Hc.
        split; [lia | tauto].
      - assert (gcra (d :: rest) <= ns at_) by (eapply paced_pause; [done | done | lia]).
        assert (0 <= Interval) by done. destruct (rw_table w !! k) as [row |]; [destruct (String.eqb _ _) |]; lia. }
    destruct Hg as (? & ? & ?). split; [| done]. split; [split |]; done.
Qed.

Lemma debit_receipts : sublist (debit_times (sl_Receipts next)) (ns at_ :: log_of w identity).
Proof.
  destruct Hrc as (kept & r & -> & Hr & Hkept). unfold debit_times. rewrite map_app, rev_app_distr. cbn.
  rewrite Hr. cbn. constructor. destruct Hkept as [-> | (slot & Hs & Hi & Hsub)]; [apply sublist_nil_l |].
  cbn in Hs. destruct (rw_table w !! k) as [row |] eqn:Hrow; [| done]. injection Hs as <-.
  etrans; [| rewrite <- Hi; by eapply ri_receipts]. unfold debit_times.
  by apply sublist_rev, fmap_sublist.
Qed.

Lemma debit_expire : ns (truncate (sl_ExpiresAt next) microsecond) = ns (sl_ExpiresAt next).
Proof.
  destruct (encodes_times _ Hnext) as [_ He]. cbn. rewrite He, Hlast.
  unfold IdleTTL, minute, second, microsecond in *. Z.to_euclidean_division_equations; lia.
Qed.

Lemma debit_inv :
  rate_inv {| rw_table := <[k := {| rr_record := next;
                                   rr_expire_at := truncate (sl_ExpiresAt next) microsecond |}]> (rw_table w);
              rw_log := <[identity := ns at_ :: log_of w identity]> (rw_log w) |}.
Proof.
  destruct debit_paced as [Hp Ht]. pose proof debit_charge as Hc. split.
  - intros k' row Hr. cbn in Hr. rewrite log_of_insert. apply lookup_insert_Some in Hr as [[<- <-] | [Hne Hr]]; cbn.
    + rewrite Hid, String.eqb_refl. split; [done |]. split; [eauto |]. by eexists _, _.
    + destruct (ri_rows _ Hw _ _ Hr) as (He & (ks & Hks & Hin) & Hl). split; [done |]. split; [eauto |].
      destruct (String.eqb_spec identity (sl_IdentityDigest (rr_record row))) as [E | E]; [| done].
      by destruct (Hne (eq_sym (debit_own _ _ Hr (eq_sym E)))).
  - intros k1 k2 row1 row2 H1 H2 Hi. cbn in H1, H2.
    apply lookup_insert_Some in H1 as [[<- <-] | [? H1]], H2 as [[<- <-] | [? H2]]; cbn in Hi; [done | | |].
    + symmetry. eapply debit_own; [done | congruence].
    + eapply debit_own; [done | congruence].
    + by eapply ri_unique.
  - intros k' row Hr. cbn in Hr. rewrite log_of_insert. apply lookup_insert_Some in Hr as [[<- <-] | [_ Hr]]; cbn.
    + rewrite Hid, String.eqb_refl. apply debit_receipts.
    + apply (ri_receipts _ Hw) in Hr. destruct (String.eqb_spec identity (sl_IdentityDigest (rr_record row))) as [E | _];
        [rewrite E; by constructor | done].
  - intros k' row Hr. cbn in Hr. apply lookup_insert_Some in Hr as [[<- <-] | [_ Hr]]; [apply debit_expire |].
    by eapply ri_expire.
  - intros id' d rest Hl. rewrite log_of_insert in Hl. cbn.
    destruct (String.eqb_spec identity id') as [<- | Hn].
    + injection Hl as <- <-. eexists _, k, _. rewrite lookup_insert_eq. repeat split; [done .. | cbn; lia | by left].
    + destruct (ri_logs _ Hw _ _ _ Hl) as (ks & k0 & row0 & Hks & Hk0 & Hr0 & Hd & Hor).
      destruct (decide (k0 = k)) as [-> | Hne];
        [| exists ks, k0, row0; rewrite lookup_insert_ne by done; by repeat split].
      eexists ks, k, _. rewrite lookup_insert_eq. repeat split; [done .. | |]; cbn.
      * pose proof (Hpast _ _ Hk Hr0). lia.
      * right. pose proof (Hpast _ _ Hk Hr0). rewrite Hr0 in Hc.
        destruct (String.eqb_spec (sl_IdentityDigest (rr_record row0)) identity), Hor; first [congruence | lia].
  - intros id'. rewrite log_of_insert. destruct (String.eqb_spec identity id'); [done | apply Hw].
Qed.

End Debit.

Lemma rate_step_inv w w' : rate_inv w -> rate_step w w' -> rate_inv w'.
Proof.
  intros Hw [at_ tenantID userID req sel identity cands d t' Htick Hk Htx].
  destruct (de_Debited d) eqn:Hd.
  - destruct (rate_tx_debit _ _ _ _ _ _ _ _ _ _ Hk Htx Hd) as
      (Hpast & k & next & Hin & -> & Hn & Hid & Hlast & Hch & Hrc & Hown).
    eapply debit_inv; eauto using IdentityKeys_keys.
  - assert (t' = rw_table w) as ->; [| by destruct w].
    unfold rate_tx in Htx. rewrite Hk in Htx. destruct (read_slots _ _); [done |].
    destruct (Evaluate _ _ _ _ _ _) as [| d']; [done |].
    destruct (negb _); [by destruct (RateLimited_Validate _); simplify_eq |].
    destruct (de_Debited d') eqn:Hd'; [| by simplify_eq]. destruct (de_Slot d'); [| done].
    destruct (_ >=? _); [done |]. destruct (_ || _); [done |]. destruct (EncodeSlot _); [done |]. simplify_eq; congruence.
Qed.

Lemma rate_init_inv : rate_inv rate_init.
Proof. by split. Qed.

Lemma rate_reachable_inv w : rtc rate_step rate_init w -> rate_inv w.
Proof.
  intros H. eapply (rtc_ind_r rate_inv); [apply rate_init_inv | | exact H].
  intros. eapply rate_step_inv; eauto.
Qed.

(** C33. Between two committed debits of one identity with [n] debits between them
    at least [n] intervals of five seconds pass, so a window of any length [W] has
    at most [W / 5s + 2] debits: a burst of two and then one per interval.  It
    holds whatever the clock readings of the transactions are, also when they go
    backwards, and whichever other identities contend for the same rows. *)
Theorem rate_bounded w identity pre b mid a post :
  rtc rate_step rate_init w ->
  log_of w identity = pre ++ b :: mid ++ a :: post ->
  Z.of_nat (length mid) * Interval <= b - a.
Proof.
  intros Hw%rate_reachable_inv Hl. apply (paced_window pre b mid a post). rewrite <- Hl. apply Hw.
Qed.

(** Serving a request: the world after it, the same world when it fails. *)
Definition rate_serve (w : rate_world) (r : time * string * string * string * string) : rate_world :=
  let '(at_, tenantID, userID, req, sel) := r in
  match IdentityKeys tenantID userID, rate_tx (rw_table w) at_ tenantID userID req sel with
  | inr (identity, _), inr (d, t') =>
      {| rw_table := t';
         rw_log := if de_Debited d then <[identity := ns at_ :: log_of w identity]> (rw_log w) else rw_log w |}
  | _, _ => w
  end.

Lemma rate_serve_reachable w l :
  Forall (fun r : time * string * string * string * string => ns r.1.1.1.1 mod microsecond = 0) l ->
  rtc rate_step w (fold_left rate_serve l w).
Proof.
  intros H. revert w. induction H as [| [[[[at_ tn] us] req] sel] l Hm _ IH]; intros w; [apply rtc_refl |].
  cbn [fold_left]. etrans; [| apply IH]. cbn in Hm. unfold rate_serve.
  destruct (IdentityKeys tn us) as [| [identity cands]] eqn:Hk; [apply rtc_refl |].
  destruct (rate_tx _ _ _ _ _ _) as [| [d t']] eqn:Htx; [apply rtc_refl |].
  apply rtc_once. by eapply rate_commit.
Qed.

Module RateSample.

Definition start : Z := (62135596800 + 1709164800) * second.
Definition at_second (n : Z) : time := mkTime (start + n * second) UTC.
Definition selector : string := sha256_hex "run".

(** A burst of two, a third refused, a fourth after the wait. *)
Definition requests : list (time * string * string * string * string) :=
  [(at_second 0, "acme", "u1", "q1", selector); (at_second 0, "acme", "u1", "q2", selector);
   (at_second 1, "acme", "u1", "q3", selector); (at_second 5, "acme", "u1", "q4", selector)].

Definition identity : string := framedDigest "sessionless.run-explanation-rate.identity.v1" ["acme"; "u1"].

End RateSample.

Lemma rate_bounded_witness :
  log_of (fold_left rate_serve RateSample.requests rate_init) RateSample.identity
    = [ns (RateSample.at_second 5); ns (RateSample.at_second 0); ns (RateSample.at_second 0)] /\
  1 * Interval <= ns (RateSample.at_second 5) - ns (RateSample.at_second 0).
Proof.
  assert (Hl : log_of (fold_left rate_serve RateSample.requests rate_init) RateSample.identity
    = [ns (RateSample.at_second 5); ns (RateSample.at_second 0); ns (RateSample.at_second 0)])
    by (vm_compute; reflexivity).
  split; [exact Hl |].
  apply (rate_bounded (fold_left rate_serve RateSample.requests rate_init) RateSample.identity
    [] (ns (RateSample.at_second 5)) [ns (RateSample.at_second 0)] (ns (RateSample.at_second 0)) []).
  - apply rate_serve_reachable. repeat constructor.
  - exact Hl.
Defined.
