(* ===== verification/RateAnswers.v ===== *)
(** * The explanation rate limiter always answers

    The rows that the transactions of [RateLimiter] leave are never in the way of
    the next request: a replacement row validates and stays below the row limit,
    the receipts that are kept stay below their limit, and every denial is one the
    read outcome accepts.  So a request on a reachable table is answered, and a
    client that waits for [RetryAfter] on its own row is served. *)

From Stdlib Require Import Sorted.
From S2P Require Import Prelude GoText GoTime Sha256 Json Digests Errors Identity RateLimiter.
#[local] Open Scope Z_scope.

(** ** The length of a row *)

Lemma zeros_len n : len (zeros n) = Z.of_nat n.
Proof. induction n as [| n IH]; [done |]. unfold len in *. cbn [zeros String.length]. lia. Qed.

Lemma format_padded_len w n : i64 n -> Z.of_nat w <= 20 -> len (format_padded w n) <= 20.
Proof.
  intros Hn Hw. unfold format_padded. rewrite len_app, zeros_len.
  pose proof (format_int_length n (or_introl Hn)). unfold len in *. lia.
Qed.

Lemma trim_zeros_bounds fuel n digits : 0 <= n ->
  0 <= (trim_zeros fuel n digits).1 <= n /\ ((trim_zeros fuel n digits).2 <= digits)%nat.
Proof.
  revert n digits. induction fuel as [| fuel IH]; intros n digits Hn; cbn; [lia |].
  destruct (n mod 10 =? 0); [| cbn; lia].
  assert (0 <= n / 10 <= n) by (Z.to_euclidean_division_equations; lia).
  specialize (IH (n / 10) (digits - 1)%nat ltac:(lia)). lia.
Qed.

Lemma fraction_len n : 0 <= n < second -> len (fraction n) <= 21.
Proof.
  intros Hn. unfold fraction. destruct (n =? 0); [done |].
  pose proof (trim_zeros_bounds 9 n 9 ltac:(lia)) as Hb. destruct (trim_zeros 9 n 9) as [m digits]. cbn in Hb.
  rewrite len_app. change (len ".") with 1.
  assert (i64 m) by (unfold i64, max_i64, second in *; lia).
  pose proof (format_padded_len digits m ltac:(done) ltac:(lia)). lia.
Qed.

Lemma civil_small t y m d : civil t = (y, m, d) -> i64 m /\ i64 d.
Proof.
  unfold civil. set (z := _ / _ + 306). set (doe := z mod 146097).
  assert (0 <= doe < 146097) by (apply Z.mod_pos_bound; lia).
  set (yoe := (_ / 365)). assert (-1000 <= yoe <= 1000) by (subst yoe; Z.to_euclidean_division_equations; lia).
  set (doy := doe - _). assert (-1000000 <= doy <= 1000000) by (subst doy; Z.to_euclidean_division_equations; lia).
  set (mp := (5 * doy + 2) / 153). assert (-100000 <= mp <= 100000) by (subst mp; Z.to_euclidean_division_equations; lia).
  intros [= _ <- <-]. unfold i64, max_i64. split; [destruct (mp <? 10); lia |].
  Z.to_euclidean_division_equations; lia.
Qed.

(** The text of a time that rows accept. *)
Lemma valid_time_len t : validTime t = true -> len (marshal (JTime t)) <= 180.
Proof.
  unfold validTime. intros [[_ Hl%bool_decide_eq_true]%andb_true_iff Hy]%andb_true_iff.
  rewrite marshal_time, !len_app. change (len dquote) with 1. unfold rfc3339_nano, year in *.
  destruct (civil t) as [[y m] d] eqn:Hc. cbn in Hy. destruct (civil_small _ _ _ _ Hc) as [Hm Hd].
  assert (i64 y) by (unfold in_range in Hy; unfold i64, max_i64; b2p; lia).
  assert (Hs : 0 <= day_seconds t < 86400) by (apply Z.mod_pos_bound; lia).
  assert (i64 (day_seconds t / 3600) /\ i64 (day_seconds t / 60 mod 60) /\ i64 (day_seconds t mod 60)) as (? & ? & ?)
    by (unfold i64, max_i64; Z.to_euclidean_division_equations; lia).
  assert (0 <= nanosecond t < second) by (apply Z.mod_pos_bound; done).
  rewrite Hl, !len_app. change (zone_suffix UTC) with "Z".
  literal_lengths.
  pose proof (fraction_len (nanosecond t) ltac:(done)).
  repeat match goal with |- context [len (format_padded ?w ?n)] =>
           let H := fresh in assert (H : len (format_padded w n) <= 20) by (by apply format_padded_len);
           generalize dependent (len (format_padded w n)); intros end.
  lia.
Qed.

Lemma validDigest_plain s : validDigest s = true -> all_bytes is_plain s = true /\ len s = 64.
Proof.
  unfold validDigest. intros [Hl%Z.eqb_eq Hs]%andb_true_iff. by split; [apply lower_hex_plain |].
Qed.

(** What [receipts_valid] checks of a receipt alone. *)
Definition receipt_ok (last : time) (r : Receipt) : Prop :=
  ValidateOpaqueID "request_id" (rc_RequestID r) = None /\ validDigest (rc_SelectorDigest r) = true /\
  validTime (rc_DebitedAt r) = true /\ ns (rc_DebitedAt r) <= ns last /\ sub last (rc_DebitedAt r) < ReceiptTTL.

Lemma receipt_len last r : receipt_ok last r -> len (marshal (json_receipt r)) <= 480.
Proof.
  intros ([Hi Hil]%opaque_plain & [Hd Hdl]%validDigest_plain & Ht%valid_time_len & _).
  unfold json_receipt. etrans; [by apply marshal_obj_len |]. cbn [members_bound].
  rewrite !marshal_str_len by done. unfold maxOpaqueIDLength in *.
  literal_lengths. lia.
Qed.

Lemma elements_len last l first :
  Forall (receipt_ok last) l -> len (elements first (map json_receipt l)) <= 481 * Z.of_nat (length l).
Proof.
  intros H. revert first. induction H as [| r l Hr _ IH]; intros first; [done |].
  cbn [map elements length]. rewrite !len_app. specialize (IH false). apply receipt_len in Hr.
  destruct first; change (len ",") with 1; change (len "") with 0; lia.
Qed.

(** Rows of up to fifteen receipts stay below the row limit, whatever identifiers
    they hold. *)
Lemma slot_len slot :
  sl_Version slot = Version -> validDigest (sl_IdentityDigest slot) = true ->
  validTime (sl_TheoreticalArrivalAt slot) = true -> validTime (sl_LastDebitAt slot) = true ->
  validTime (sl_ExpiresAt slot) = true -> Forall (receipt_ok (sl_LastDebitAt slot)) (sl_Receipts slot) ->
  (length (sl_Receipts slot) <= 15)%nat -> len (marshal (json_slot slot)) <= MaxRowBytes.
Proof.
  intros Hv [Hd Hdl]%validDigest_plain H1%valid_time_len H2%valid_time_len H3%valid_time_len Hr Hn.
  unfold json_slot. etrans; [by apply marshal_obj_len |]. cbn [members_bound].
  rewrite marshal_str_len, marshal_num, marshal_arr, !len_app, Hv by done.
  pose proof (elements_len _ _ true Hr). change (len (format_int Version)) with 1.
  literal_lengths. unfold MaxRowBytes. lia.
Qed.

(** ** Receipts of a row *)

Definition debited_le (r s : Receipt) : Prop := ns (rc_DebitedAt r) <= ns (rc_DebitedAt s).

#[global] Instance debited_le_trans : Transitive debited_le.
Proof. intros r s t. unfold debited_le. lia. Qed.

Lemma receipts_valid_iff last seen l :
  receipts_valid last seen l = true <->
  Forall (receipt_ok last) l /\ Sorted debited_le (match seen with [] => l | p :: _ => p :: l end) /\
  NoDup (map rc_RequestID l) /\ Forall (fun r => rc_RequestID r ∉ map rc_RequestID seen) l.
Proof.
  revert seen. induction l as [| r l IH]; intros seen.
  { cbn. split; [| done]. intros _. repeat split; [constructor | destruct seen; repeat constructor | constructor ..]. }
  cbn [receipts_valid]. rewrite !andb_true_iff, IH. cbn [map].
  assert (Hs : forallb (fun p => negb (String.eqb (rc_RequestID r) (rc_RequestID p))) seen = true <->
               rc_RequestID r ∉ map rc_RequestID seen).
  { rewrite forallb_forall. setoid_rewrite list_elem_of_fmap. setoid_rewrite <- list_elem_of_In.
    setoid_rewrite negb_true_iff. setoid_rewrite String.eqb_neq. naive_solver. }
  assert (Ho : Sorted debited_le (match seen with [] => r :: l | p :: _ => p :: r :: l end) <->
    match seen with [] => true | p :: _ => negb (before (rc_DebitedAt r) (rc_DebitedAt p)) end = true /\
    Sorted debited_le (r :: l)).
  { destruct seen as [| p seen]; [tauto |]. rewrite negb_true_iff, before_false. split.
    - intros [? Hh]%Sorted_inv. by inversion Hh.
    - intros [? ?]. constructor; [done | by constructor]. }
  rewrite Ho, Hs, !Forall_cons, NoDup_cons, isnil_true, negb_true_iff, after_false, Z.ltb_lt.
  assert (Hf : Forall (fun s => rc_RequestID s ∉ rc_RequestID r :: map rc_RequestID seen) l <->
    rc_RequestID r ∉ map rc_RequestID l /\ Forall (fun s => rc_RequestID s ∉ map rc_RequestID seen) l).
  { rewrite !Forall_forall, list_elem_of_fmap. setoid_rewrite not_elem_of_cons. split.
    - intros H. split; [intros (s & E & Hin); by destruct (proj1 (H s Hin)) | intros s Hin; by apply H].
    - intros [Hn H] s Hin. split; [intros E; apply Hn; eauto | auto]. }
  rewrite Hf. change (receipt_ok last r) with
    (ValidateOpaqueID "request_id" (rc_RequestID r) = None /\ validDigest (rc_SelectorDigest r) = true /\
     validTime (rc_DebitedAt r) = true /\ ns (rc_DebitedAt r) <= ns last /\ sub last (rc_DebitedAt r) < ReceiptTTL).
  clear. tauto.
Qed.

(** ** A debit succeeds *)

(** The calendar has room for the instants a row is written with. *)
Definition horizon (now : time) : Prop :=
  loc now = UTC /\ forall d, 0 <= d <= IdleTTL + Interval -> validTime (add now d) = true.

Lemma addTime_horizon now d : horizon now -> 0 < d <= IdleTTL + Interval -> addTime now d = Some (add now d).
Proof.
  intros [_ H] Hd. unfold addTime. rewrite H by lia.
  assert (after (add now d) now = true) as -> by (apply after_true; cbn; lia). done.
Qed.

Lemma horizon_valid now : horizon now -> validTime now = true.
Proof.
  intros [_ H]. specialize (H 0 ltac:(done)). unfold add in H. rewrite Z.add_0_r in H. by destruct now.
Qed.

(** What is known of the receipts that a debit keeps. *)
Record keepable (now : time) (requestID : string) (l : list Receipt) : Prop := {
  kp_ok : Forall (receipt_ok now) l;
  kp_sorted : Sorted debited_le l;
  kp_ids : NoDup (map rc_RequestID l);
  kp_fresh : Forall (fun r => rc_RequestID r <> requestID) l;
  kp_count : (length l <= 14)%nat }.

Lemma keepable_nil now requestID : keepable now requestID [].
Proof. split; cbn; [constructor .. | lia]. Qed.

Lemma keepable_snoc now requestID sel l :
  validTime now = true -> ValidateOpaqueID "request_id" requestID = None -> validDigest sel = true ->
  keepable now requestID l ->
  receipts_valid now [] (l ++ [{| rc_RequestID := requestID; rc_SelectorDigest := sel; rc_DebitedAt := now |}]) = true.
Proof.
  intros Ht Hr Hs [Hok Hso Hid Hfr _]. apply receipts_valid_iff.
  assert (receipt_ok now {| rc_RequestID := requestID; rc_SelectorDigest := sel; rc_DebitedAt := now |}).
  { repeat split; [done .. |]. unfold sub. cbn. rewrite Z.sub_diag. done. }
  split; [apply Forall_app; auto |]. split; [| split].
  - clear Hid Hfr. induction l as [| r l IH]; [repeat constructor |].
    apply Forall_cons in Hok as [Hr1 Hok]. apply Sorted_inv in Hso as [Hso Hhd]. cbn.
    constructor; [by apply IH |]. destruct l; cbn; constructor; [by destruct Hr1 as (_ & _ & _ & ? & _) |].
    by apply HdRel_inv in Hhd.
  - rewrite map_app. apply NoDup_app. split; [done |]. split; [| apply NoDup_singleton].
    intros x (r & -> & Hin)%list_elem_of_fmap [= E]%list_elem_of_singleton.
    rewrite Forall_forall in Hfr. by eapply Hfr.
  - apply Forall_forall. intros r _ Hin. by apply elem_of_nil in Hin.
Qed.

Lemma debit_total now identity requestID sel slotID tat l :
  horizon now -> validDigest identity = true -> ValidateOpaqueID "request_id" requestID = None ->
  validDigest sel = true -> loc tat = UTC -> ns tat <= ns now + Interval -> keepable now requestID l ->
  exists d, debit now identity requestID sel slotID tat l = inr d /\ de_Debited d = true.
Proof.
  intros Hh Hid Hr Hs Hloc Htat Hl. pose proof (horizon_valid _ Hh) as Hv. pose proof Hh as [Hu _].
  pose proof (keepable_snoc _ _ sel _ Hv Hr Hs Hl) as Hrv. pose proof Hrv as (Hok & _)%receipts_valid_iff.
  destruct Hl as [_ _ _ _ Hn]. unfold debit.
  assert (Z.of_nat (length l) >=? MaxReceipts = false) as -> by (unfold MaxReceipts; lia).
  set (base := if before tat now then now else tat).
  assert (Hb : ns now <= ns base <= ns now + Interval /\ loc base = UTC).
  { subst base. destruct (before tat now) eqn:E; b2p; [| tauto]. assert (0 <= Interval) by done. lia || (split; [lia | done]). }
  assert (Hadd : forall d, add base d = add now (ns base - ns now + d)).
  { intros d. unfold add. destruct Hb as [_ ->]. rewrite Hu. f_equal. lia. }
  assert (HI : 0 < Interval /\ 2 * Interval < IdleTTL) by done.
  assert (addTime base Interval = Some (add base Interval)) as ->.
  { rewrite Hadd. unfold addTime. rewrite Hadd, (proj2 Hh) by lia.
    assert (after (add now (ns base - ns now + Interval)) base = true) as -> by (apply after_true; cbn; lia). done. }
  rewrite (addTime_horizon now IdleTTL) by (done || lia).
  match goal with |- context [encodes ?n] => assert (encodes n = true) as -> end; [| by eexists].
  unfold encodes, EncodeSlot. match goal with |- context [validateSlot ?n] => assert (validateSlot n = None) as -> end.
  - unfold validateSlot. cbn [sl_Version sl_IdentityDigest sl_LastDebitAt sl_TheoreticalArrivalAt sl_ExpiresAt sl_Receipts].
    rewrite !(addTime_horizon now) by (done || lia). rewrite Hid, Hv, Hrv, Hadd, !(proj2 Hh) by lia.
    rewrite length_app, existsb_app. cbn [length existsb rc_DebitedAt].
    assert (time_equal now now = true) as -> by (by apply time_equal_true).
    repeat (rewrite reject_nil; split); [| | | by rewrite !orb_true_r | done].
    + unfold Version, MaxReceipts. cbn [negb orb]. b2p. lia.
    + b2p. cbn. lia.
    + done.
  - cbn [notnil isnil negb]. match goal with |- context [len ?x >? _] => assert (len x <= MaxRowBytes) end.
    { apply slot_len; cbn; [done .. | by rewrite Hadd; apply Hh; lia | done | apply Hh; lia | done |].
      rewrite length_app. cbn. lia. }
    assert (forall x, x <= MaxRowBytes -> (x >? MaxRowBytes) = false) as -> by (intros; lia); done.
Qed.

(** ** How many receipts are kept *)

Lemma gcra_sublist s a l : sublist (s ++ [a]) l -> a + (Z.of_nat (length s) + 1) * Interval <= gcra l.
Proof.
  assert (HI : 0 < Interval) by done. intros H. remember (s ++ [a]) as sa eqn:Hsa. revert s Hsa.
  induction H as [| x sa l H IH | x sa l H IH]; intros s Hsa; [by destruct s | |].
  - destruct s as [| y s]; cbn in Hsa; simplify_eq.
    + pose proof (gcra_last _ a l eq_refl). cbn [length]. lia.
    + specialize (IH s eq_refl). cbn [length gcra]. destruct l as [| z l]; [| lia].
      apply sublist_nil_r in H. by destruct s.
  - specialize (IH s Hsa). cbn [gcra]. destruct l as [| z l]; [| lia].
    apply sublist_nil_r in H. subst. by destruct s.
Qed.

Lemma sublist_cons_split {A} (b : A) s l : sublist (b :: s) l -> exists pre l', l = pre ++ b :: l' /\ sublist s l'.
Proof. intros H%sublist_cons_l. destruct H as (pre & l' & -> & ?). eauto. Qed.

(** Debits that a paced log has within less than the lifetime of a receipt. *)
Lemma paced_count l s now :
  paced l -> sublist s l -> Forall (fun d => d <= now /\ now - d < ReceiptTTL) s -> (length s <= 7)%nat.
Proof.
  intros Hp Hs Hf. destruct s as [| b s]; [cbn; lia |].
  destruct (sublist_cons_split _ _ _ Hs) as (pre & l' & -> & Hs').
  destruct s as [| a s _] using rev_ind; [cbn; lia |].
  apply paced_app in Hp. cbn [paced] in Hp. destruct Hp as [Hp _].
  pose proof (gcra_sublist _ _ _ Hs'). destruct l' as [| z l']; [apply sublist_nil_r in Hs'; by destruct s |].
  apply Forall_cons in Hf as [Hb Hf]. apply Forall_app in Hf as [_ Ha]. apply Forall_cons in Ha as [Ha _].
  cbn [length]. rewrite length_app. cbn [length]. unfold ReceiptTTL, Interval, second in *. lia.
Qed.

Lemma scan_receipts_kept now requestID l kept :
  scan_receipts now requestID l = (kept, None) ->
  Forall (fun r => sub now (rc_DebitedAt r) < ReceiptTTL /\ rc_RequestID r <> requestID) kept.
Proof.
  revert kept. induction l as [| r l IH]; intros kept H; cbn in H; [simplify_eq; constructor |].
  destruct (sub now (rc_DebitedAt r) >=? ReceiptTTL) eqn:E; [auto |].
  destruct (String.eqb_spec (rc_RequestID r) requestID); [done |].
  destruct (scan_receipts now requestID l) as [kept' found']. simplify_eq. constructor; [| auto].
  split; [lia | done].
Qed.

Lemma encodes_receipts slot :
  encodes slot = true -> receipts_valid (sl_LastDebitAt slot) [] (sl_Receipts slot) = true /\
  validDigest (sl_IdentityDigest slot) = true /\ validTime (sl_TheoreticalArrivalAt slot) = true.
Proof.
  intros H%encodes_validateSlot. unfold validateSlot in H. apply reject_nil in H as [Hc H].
  destruct (addTime _ Interval); [| done]. destruct (addTime _ (2 * Interval)); [| done].
  destruct (addTime _ IdleTTL); [| done]. apply reject_nil in H as [_ H]. apply reject_nil in H as [H _].
  apply negb_false_iff in H. b2p. tauto.
Qed.

Lemma sorted_sublist l k : sublist l k -> StronglySorted debited_le k -> StronglySorted debited_le l.
Proof.
  induction 1 as [| x l k H IH | x l k H IH]; intros Hs; [constructor | |]; apply StronglySorted_inv in Hs as [Hs Hx];
    [constructor |]; auto.
  rewrite Forall_forall in *. eauto using elem_of_sublist.
Qed.

(** The receipts that a debit keeps of a row of the table. *)
Lemma own_keepable w k row now requestID kept :
  rate_inv w -> rw_table w !! k = Some row -> ns (sl_LastDebitAt (rr_record row)) <= ns now ->
  scan_receipts now requestID (sl_Receipts (rr_record row)) = (kept, None) -> keepable now requestID kept.
Proof.
  intros Hw Hr Hle Hs. pose proof (scan_receipts_sublist _ _ _ _ _ Hs) as Hsub.
  apply scan_receipts_kept in Hs as Hk. destruct (ri_rows _ Hw _ _ Hr) as (He & _).
  destruct (encodes_receipts _ He) as [Hv _]. apply receipts_valid_iff in Hv as (Hok & Hso & Hid & _).
  assert (Hok' : Forall (receipt_ok now) kept).
  { apply Forall_forall. intros r Hin. rewrite Forall_forall in Hk, Hok.
    destruct (Hok r (elem_of_sublist _ _ _ Hin Hsub)) as (? & ? & ? & ? & _).
    destruct (Hk r Hin). unfold receipt_ok. split_and!; [done .. | lia | done]. }
  split; [done | | | |].
  - apply StronglySorted_Sorted. eapply sorted_sublist; [exact Hsub |]. apply Sorted_StronglySorted; [exact debited_le_trans | done].
  - eapply sublist_NoDup; [exact Hid |]. by apply fmap_sublist.
  - eapply Forall_impl; [exact Hk | by intros ? [_ ?]].
  - assert (Hc : (length (debit_times kept) <= 7)%nat).
    { eapply (paced_count _ _ (ns now)); [apply (ri_paced _ Hw) | |].
      - etrans; [| by eapply ri_receipts]. by apply sublist_rev, fmap_sublist.
      - apply Forall_rev, Forall_map. eapply Forall_impl; [exact Hok' |].
        intros r (_ & _ & _ & ? & Hsub'). unfold sub, max_i64, ReceiptTTL, second in *. lia. }
    unfold debit_times in Hc. rewrite length_rev, length_map in Hc. lia.
Qed.

(** ** A request is evaluated *)

Lemma identityKeys_spec identity ks :
  identityKeys identity = inr ks -> validDigest identity = true /\ NoDup ks /\ Forall (fun k => 0 <= k < MaxSlots) ks.
Proof.
  unfold identityKeys. destruct (validDigest identity); [| done]. cbn [negb].
  set (base := hex_number _ _ mod MaxSlots).
  assert (0 <= base < MaxSlots) by (by apply Z.mod_pos_bound). intros [= <-]. split; [done |].
  unfold MaxSlots in *. cbn [map]. split.
  - repeat (apply NoDup_cons; split); [| | | | apply NoDup_nil_2];
      rewrite ?not_elem_of_cons; split_and?; try apply not_elem_of_nil; intros E; Z.to_euclidean_division_equations; lia.
  - repeat constructor; apply Z.mod_pos_bound; done.
Qed.

Lemma scan_slots_total now identity l i own available :
  Forall (probed_ok now) l ->
  (own = None \/ Forall (fun p => ~ occupied_by identity p) l) ->
  (forall m m' p p', l !! m = Some p -> l !! m' = Some p' -> occupied_by identity p -> occupied_by identity p' -> m = m') ->
  is_Some (scan_slots now identity i own available l).
Proof.
  intros H. revert i own available. induction H as [| [c [slot |]] l Hp H IH]; intros i own available Ho Hu; [by eexists | |].
  - destruct Hp as (He & Hle & ks & Hks & Hin). cbn in *. rewrite He, Hks.
    apply after_false in Hle. apply existsb_In_Z in Hin. rewrite Hle, Hin. cbn [negb orb].
    assert (Hu' : forall m m' p p', l !! m = Some p -> l !! m' = Some p' ->
      occupied_by identity p -> occupied_by identity p' -> m = m').
    { intros m m' p p' H1 H2 H3 H4. by specialize (Hu (S m) (S m') p p' H1 H2 H3 H4) as [= ->]. }
    destruct (String.eqb_spec (sl_IdentityDigest slot) identity) as [E | E].
    + assert (Hs : occupied_by identity (c, Some slot)) by (by eexists).
      destruct own; [by destruct Ho as [| [? _]%Forall_cons] |]. apply IH; [| done]. right.
      apply Forall_lookup. intros m p Hm Hoc. by specialize (Hu O (S m) _ p eq_refl Hm Hs Hoc).
    + apply IH; [| done]. destruct Ho as [| [_ ?]%Forall_cons]; auto.
  - cbn. apply IH; [destruct Ho as [| [_ ?]%Forall_cons]; auto |].
    intros m m' p p' H1 H2 H3 H4. by specialize (Hu (S m) (S m') p p' H1 H2 H3 H4) as [= ->].
Qed.

(** When nothing is available, every probed row is live. *)
Lemma scan_slots_full now identity l i own available o :
  scan_slots now identity i own available l = Some (o, None) -> available = None /\ Forall (fun p => ~ usable now p) l.
Proof.
  revert i own available. induction l as [| [c [slot |]] l IH]; intros i own available H; cbn in H; [by simplify_eq |  |].
  - destruct (negb (encodes slot) || after (sl_LastDebitAt slot) now); [done |].
    destruct (identityKeys (sl_IdentityDigest slot)) as [| ks]; [done |].
    destruct (negb (existsb (Z.eqb c) ks)); [done |].
    assert (Hr : exists own', scan_slots now identity (S i) own'
      (if negb (before now (sl_ExpiresAt slot)) && isnil available then Some i else available) l = Some (o, None))
      by (destruct (String.eqb _ _); [destruct own; [done |] |]; eauto).
    destruct Hr as [own' [Ha Hf]%IH]. destruct (before now (sl_ExpiresAt slot)) eqn:Hb; cbn in Ha.
    + split; [done |]. constructor; [| done]. apply before_true in Hb. unfold usable. cbn. lia.
    + by destruct available.
  - apply IH in H as [Ha _]. by destruct available.
Qed.

Section Answer.
Context (w : rate_world) (Hw : rate_inv w) (now : time) (Hh : horizon now).
Context (Hpast : forall k row, rw_table w !! k = Some row -> ns (sl_LastDebitAt (rr_record row)) <= ns now).
Context (identity : string) (cands : list Z) (Hkeys : identityKeys identity = inr cands).
Context (req sel : string) (Hreq : ValidateOpaqueID "request_id" req = None) (Hsel : validDigest sel = true).
Context (Hsame : forall k row r, rw_table w !! k = Some row -> r ∈ sl_Receipts (rr_record row) ->
                   rc_RequestID r = req -> rc_SelectorDigest r = sel).

Definition table_row (k : Z) : option Slot := rr_record <$> rw_table w !! k.

Lemma read_slots_total : read_slots (rw_table w) cands = inr (map table_row cands).
Proof.
  destruct (identityKeys_spec _ _ Hkeys) as (_ & _ & Hr). clear Hkeys.
  induction Hr as [| k ks Hk _ IH]; [done |]. cbn. rewrite IH. unfold readExplanationRateSlot, table_row.
  assert (k >=? MaxSlots = false) as -> by lia. destruct (rw_table w !! k) as [row |] eqn:E; [| done].
  destruct (ri_rows _ Hw _ _ E) as (-> & _). apply (ri_expire _ Hw) in E. apply time_equal_true in E. by rewrite E.
Qed.

Lemma probed_lookup m p : zip cands (map table_row cands) !! m = Some p -> p.1 ∈ cands /\ p = (p.1, table_row p.1).
Proof.
  intros Hp. destruct (row_probed _ _ _ _ _ read_slots_total Hp) as [Hin Ho].
  split; [done |]. destruct p. cbn in *. by rewrite Ho.
Qed.

Lemma probed_rows_ok : Forall (probed_ok now) (zip cands (map table_row cands)).
Proof.
  apply Forall_lookup. intros m p [_ ->]%probed_lookup. unfold probed_ok, table_row. cbn.
  destruct (rw_table w !! p.1) as [row |] eqn:E; [cbn | done].
  destruct (ri_rows _ Hw _ _ E) as (? & ? & _). eauto.
Qed.

Lemma probed_rows_unique m m' p p' :
  zip cands (map table_row cands) !! m = Some p -> zip cands (map table_row cands) !! m' = Some p' ->
  occupied_by identity p -> occupied_by identity p' -> m = m'.
Proof.
  intros H H'. pose proof H as (k & s & -> & Hk & _)%lookup_zip_with_Some.
  pose proof H' as (k' & s' & -> & Hk' & _)%lookup_zip_with_Some.
  apply probed_lookup in H as [_ [= ->]], H' as [_ [= ->]]. cbn. intros (r & Hr & Hi) (r' & Hr' & Hi').
  cbn in Hr, Hr'. unfold table_row in *.
  destruct (rw_table w !! k) as [row |] eqn:E; [| done]. destruct (rw_table w !! k') as [row' |] eqn:E'; [| done].
  cbn in Hr, Hr'. simplify_eq.
  assert (k = k') as <- by (eapply (ri_unique _ Hw); [exact E | exact E' | congruence]).
  destruct (identityKeys_spec _ _ Hkeys) as (_ & Hnd & _). by eapply NoDup_lookup.
Qed.

(** The answers to a request. *)
Inductive answer : Decision -> Prop :=
| answer_replay d : de_Allowed d = true -> de_Debited d = false -> answer d
| answer_debit d : de_Debited d = true -> answer d
| answer_ahead k row : k ∈ cands -> rw_table w !! k = Some row -> sl_IdentityDigest (rr_record row) = identity ->
    ns now + Interval < ns (sl_TheoreticalArrivalAt (rr_record row)) ->
    answer (denied (ceil_seconds (ns (sl_TheoreticalArrivalAt (rr_record row)) - (ns now + Interval))) k)
| answer_full : (forall k, k ∈ cands -> exists row, rw_table w !! k = Some row /\
                   sl_IdentityDigest (rr_record row) <> identity /\ ns now < ns (sl_ExpiresAt (rr_record row))) ->
    answer (denied Interval 0).

Lemma scan_receipts_found l rs r :
  scan_receipts now req l = (rs, Some r) -> r ∈ l /\ rc_RequestID r = req.
Proof.
  revert rs. induction l as [| x l IH]; intros rs H; cbn in H; [done |].
  destruct (_ >=? _); [apply IH in H; rewrite elem_of_cons; tauto |].
  destruct (String.eqb_spec (rc_RequestID x) req); [simplify_eq; split; [left | done] |].
  destruct (scan_receipts now req l) as [k f] eqn:E. simplify_eq.
  destruct (IH _ eq_refl). rewrite elem_of_cons. tauto.
Qed.

(** A debit of a fresh arrival time. *)
Lemma debit_fresh slotID : exists d, debit now identity req sel slotID now [] = inr d /\ de_Debited d = true.
Proof.
  apply debit_total; try done; [by eapply identityKeys_spec | by destruct Hh | | apply keepable_nil].
  assert (0 < Interval) by done. lia.
Qed.

Lemma Evaluate_answers : exists d, Evaluate now identity cands (map table_row cands) req sel = inr d /\ answer d.
Proof.
  assert (HI : 0 < Interval <= IdleTTL + Interval) by done.
  unfold Evaluate. rewrite Hkeys, bool_decide_eq_true_2, (horizon_valid _ Hh), Hreq, Hsel by done.
  cbn [notnil isnil negb orb]. rewrite (addTime_horizon now Interval) by done.
  destruct (scan_slots_total now identity _ 0 None None probed_rows_ok (or_introl eq_refl) probed_rows_unique)
    as [[own available] Hs]. rewrite Hs.
  apply scan_slots_own in Hs as Ho. cbn in Ho.
  destruct Ho as [[-> Hn] | (m & p & -> & Hp & (slot & Hslot & Hid) & _)].
  - destruct available as [j |].
    + cbn. destruct (debit_fresh (default 0 (cands !! j))) as (d & -> & Hd). eauto using answer.
    + eexists. split; [done |]. apply answer_full. intros k Hk. apply scan_slots_full in Hs as [_ Hf].
      destruct (probed_row _ _ _ _ read_slots_total Hk) as [m Hm].
      pose proof (Forall_lookup_1 _ _ _ _ Hf Hm) as H1. pose proof (Forall_lookup_1 _ _ _ _ Hn Hm) as H2.
      unfold usable, occupied_by in *. cbn in H1, H2. destruct (rw_table w !! k) as [row |]; cbn in *; [| done].
      exists row. split; [done |]. split; [intros E; apply H2; eauto | lia].
  - cbn. destruct (zip_row _ _ _ _ Hp) as [-> ->]. destruct (probed_lookup _ _ Hp) as [Hin Hpe].
    rewrite Hslot. rewrite Hpe in Hslot. cbn in Hslot. unfold table_row in Hslot.
    destruct (rw_table w !! p.1) as [row |] eqn:Hrow; [| done]. injection Hslot as <-.
    destruct (ri_rows _ Hw _ _ Hrow) as (He & _). destruct (encodes_receipts _ He) as (_ & _ & Htv).
    destruct (before now _); [| destruct (debit_fresh p.1) as (d & -> & Hd); eauto using answer].
    destruct (scan_receipts _ _ _) as [rs [r |]] eqn:Hrs.
    + apply scan_receipts_found in Hrs as [Hr Hre]. rewrite (Hsame _ _ _ Hrow Hr Hre), String.eqb_refl.
      eexists. split; [done |]. by apply answer_replay.
    + destruct (after _ _) eqn:Ha.
      * apply after_true in Ha. cbn in Ha. eexists. split; [done |].
        assert (sub (sl_TheoreticalArrivalAt (rr_record row)) (add now Interval) =
                ns (sl_TheoreticalArrivalAt (rr_record row)) - (ns now + Interval)) as ->; [| by apply answer_ahead].
        apply encodes_times in He. specialize (Hpast _ _ Hrow).
        unfold sub, add, max_i64, Interval, second in *. cbn. lia.
      * apply after_false in Ha.
        edestruct debit_total as (d & -> & Hd); [done | by eapply identityKeys_spec | done .. | | | | eauto using answer].
        -- unfold validTime in Htv. b2p. tauto.
        -- done.
        -- eapply own_keepable; eauto.
Qed.

End Answer.

(** ** A request is answered *)

Lemma ceil_seconds_bounds r :
  0 < r <= Interval -> r <= ceil_seconds r /\ 0 < ceil_seconds r <= 5 * second /\ ceil_seconds r mod second = 0.
Proof.
  intros Hr. unfold ceil_seconds. split; [| split; [| apply Z.mod_mul; done]];
    unfold Interval, second in *; destruct (r mod 1000000000 =? 0) eqn:E; b2p; Z.to_euclidean_division_equations; lia.
Qed.

Lemma RateLimited_Validate_ok r : 0 < r <= 5 * second -> r mod second = 0 -> RateLimited_Validate r = None.
Proof.
  intros Hr Hm. unfold RateLimited_Validate. rewrite Hm.
  assert (r <=? 0 = false) as -> by lia. assert (r >? 5 * second = false) as -> by lia. done.
Qed.

(** The wait of a denial is what the read outcome accepts. *)
Lemma answer_wait w now identity cands d :
  rate_inv w -> (forall k row, rw_table w !! k = Some row -> ns (sl_LastDebitAt (rr_record row)) <= ns now) ->
  answer w now identity cands d -> de_Allowed d = false -> de_Debited d = false ->
  0 < de_RetryAfter d <= 5 * second /\ RateLimited_Validate (de_RetryAfter d) = None.
Proof.
  intros Hw Hpast [d' ? ? | d' ? | k row Hk Hr Hi Hlt | Hf] Ha Hd; [congruence .. | | by vm_compute]. cbn.
  destruct (ri_rows _ Hw _ _ Hr) as (He%encodes_times & _). specialize (Hpast _ _ Hr).
  destruct (ceil_seconds_bounds (ns (sl_TheoreticalArrivalAt (rr_record row)) - (ns now + Interval))) as (_ & ? & ?);
    [lia |]. split; [done | by apply RateLimited_Validate_ok].
Qed.

Lemma rate_tx_answers w at_ tenantID userID identity cands req sel :
  rate_inv w -> horizon (to_utc at_) ->
  (forall k row, rw_table w !! k = Some row -> ns (sl_LastDebitAt (rr_record row)) <= ns at_) ->
  IdentityKeys tenantID userID = inr (identity, cands) ->
  ValidateOpaqueID "request_id" req = None -> validDigest sel = true ->
  (forall k row r, rw_table w !! k = Some row -> r ∈ sl_Receipts (rr_record row) ->
     rc_RequestID r = req -> rc_SelectorDigest r = sel) ->
  exists d t', rate_tx (rw_table w) at_ tenantID userID req sel = inr (d, t') /\
    answer w (to_utc at_) identity cands d /\ (de_Debited d = true -> de_Allowed d = true).
Proof.
  intros Hw Hh Hpast HK Hreq Hsel Hsame. pose proof (IdentityKeys_keys _ _ _ _ HK) as Hkeys.
  destruct (Evaluate_answers w Hw (to_utc at_) Hh Hpast identity cands Hkeys req sel Hreq Hsel Hsame) as (d & He & Ha).
  unfold rate_tx. rewrite HK, (read_slots_total w Hw identity cands Hkeys), He.
  destruct (de_Debited d) eqn:Hd.
  - destruct (Evaluate_debit _ _ _ _ _ _ _ He Hd) as (_ & m & p & next & Hp & Hal & Hsid & Hn & Hen & Hid & _).
    pose proof (row_probed _ _ _ _ _ (read_slots_total w Hw identity cands Hkeys) Hp) as [Hin _].
    destruct (identityKeys_spec _ _ Hkeys) as (_ & _ & Hr). rewrite Forall_forall in Hr. pose proof (Hr _ Hin).
    rewrite Hal, Hn, Hsid, Hid, String.eqb_refl. cbn [negb].
    assert (p.1 >=? MaxSlots = false) as -> by lia. rewrite (proj2 (existsb_In_Z _ _) Hin). cbn [negb orb].
    unfold encodes in Hen. destruct (EncodeSlot next); [done |]. by eexists _, _.
  - destruct (de_Allowed d) eqn:Hal; cbn [negb]; [by eexists _, _ |].
    destruct (answer_wait _ (to_utc at_) _ _ _ Hw Hpast Ha Hal Hd) as [_ ->].
    eexists _, _. split; [done |]. split; [done | congruence].
Qed.

(** C34. On every table that committed transactions leave, a request of a valid
    user is answered once the clock has reached the last debits: it is served, or
    told to wait a positive time of at most five seconds, and a user who has a row
    is served after that wait when no other transaction commits meanwhile.  No
    sequence of requests leaves a row that the limiter rejects later.  The request
    may only not reuse the identifier of another run's request, and the clock has
    to stay away from the end of year 9999. *)
Theorem rate_answers w at_ tenantID userID identity cands req sel :
  rtc rate_step rate_init w ->
  (forall d, 0 <= d <= IdleTTL + 2 * Interval -> validTime (add (to_utc at_) d) = true) ->
  (forall k row, rw_table w !! k = Some row -> ns (sl_LastDebitAt (rr_record row)) <= ns at_) ->
  IdentityKeys tenantID userID = inr (identity, cands) ->
  ValidateOpaqueID "request_id" req = None -> validDigest sel = true ->
  (forall k row r, rw_table w !! k = Some row -> r ∈ sl_Receipts (rr_record row) ->
     rc_RequestID r = req -> rc_SelectorDigest r = sel) ->
  exists d t', rate_tx (rw_table w) at_ tenantID userID req sel = inr (d, t') /\
    (de_Allowed d = true \/
     0 < de_RetryAfter d <= 5 * second /\
     ((exists k row, rw_table w !! k = Some row /\ sl_IdentityDigest (rr_record row) = identity) ->
      exists d' t'', rate_tx (rw_table w) (add at_ (de_RetryAfter d)) tenantID userID req sel = inr (d', t'') /\
        de_Allowed d' = true)).
Proof.
  intros Hw%rate_reachable_inv Hcal Hpast HK Hreq Hsel Hsame.
  pose proof (IdentityKeys_keys _ _ _ _ HK) as Hkeys. assert (HI : Interval = 5 * second) by done.
  assert (Hh : forall r, 0 <= r <= Interval -> horizon (to_utc (add at_ r))).
  { intros r Hr. split; [done |]. intros d Hd. specialize (Hcal (r + d) ltac:(lia)).
    unfold add, to_utc in *. cbn in *. by rewrite Z.add_assoc in Hcal. }
  assert (Hh0 : horizon (to_utc at_)).
  { specialize (Hh 0 ltac:(done)). unfold add, to_utc in *. cbn in *. by rewrite Z.add_0_r in Hh. }
  destruct (rate_tx_answers w at_ tenantID userID identity cands req sel) as (d & t' & Htx & Ha & Hda); [done .. |].
  exists d, t'. split; [done |]. destruct (de_Allowed d) eqn:Hal; [by left | right].
  assert (Hd : de_Debited d = false) by (destruct (de_Debited d); [by specialize (Hda eq_refl) | done]).
  destruct (answer_wait _ (to_utc at_) _ _ _ Hw Hpast Ha Hal Hd) as [Hr _]. split; [done |]. intros (k & row & Hrow & Hi).
  destruct (ri_rows _ Hw _ _ Hrow) as (_ & (ks & Hks & Hin) & _). rewrite Hi, Hkeys in Hks. injection Hks as <-.
  destruct (rate_tx_answers w (add at_ (de_RetryAfter d)) tenantID userID identity cands req sel)
    as (d' & t'' & Htx' & Ha' & Hda'); [done | apply Hh; lia | intros ? ? Hl; cbn; specialize (Hpast _ _ Hl); lia | done .. |].
  exists d', t''. split; [done |].
  destruct Ha' as [| | k' row' Hk' Hrow' Hi' Hlt | Hf]; [done | by apply Hda' | exfalso | exfalso].
  - destruct Ha as [| | k2 row2 Hk2 Hrow2 Hi2 Hlt2 | Hf2]; [congruence .. | |].
    + assert (k2 = k') as -> by (eapply (ri_unique _ Hw); [exact Hrow2 | exact Hrow' | congruence]).
      assert (row2 = row') as -> by congruence.
      destruct (ri_rows _ Hw _ _ Hrow') as (He%encodes_times & _). specialize (Hpast _ _ Hrow'). cbn in *.
      destruct (ceil_seconds_bounds (ns (sl_TheoreticalArrivalAt (rr_record row')) - (ns at_ + Interval))); lia.
    + destruct (Hf2 _ Hin) as (? & ? & ? & _). congruence.
  - destruct (Hf _ Hin) as (? & ? & ? & _). congruence.
Qed.

Module AnswerSample.
Import RateSample.

(** The world after the burst of two. *)
Definition burst : rate_world := fold_left rate_serve (take 2 requests) rate_init.

Definition keys : list Z := match identityKeys identity with inr ks => ks | inl _ => [] end.

Lemma day_valid d : 0 <= d <= IdleTTL + 2 * Interval -> validTime (add (to_utc (at_second 1)) d) = true.
Proof.
  intros Hd. set (t := add (to_utc (at_second 1)) d).
  assert (Hs : ns t = start + second + d) by (subst t; cbn; unfold at_second, start, second; lia).
  assert (Hday : (ns t + offset_of (loc t) * second) / (86400 * second) = start / (86400 * second)).
  { rewrite Hs. cbn [loc t add to_utc offset_of at_second].
    unfold start, IdleTTL, Interval, minute, second in *. Z.to_euclidean_division_equations; lia. }
  unfold validTime, year, civil. rewrite Hday.
  assert (is_zero t = false) as -> by (apply is_zero_false; rewrite Hs; unfold start, second in *; lia).
  vm_compute. reflexivity.
Qed.

Lemma burst_past k row : rw_table burst !! k = Some row -> ns (sl_LastDebitAt (rr_record row)) <= ns (at_second 1).
Proof.
  revert k row. change (map_Forall (fun _ row => ns (sl_LastDebitAt (rr_record row)) <= ns (at_second 1)) (rw_table burst)).
  apply (bool_decide_unpack _). vm_compute. exact I.
Qed.

Lemma burst_fresh k row r :
  rw_table burst !! k = Some row -> r ∈ sl_Receipts (rr_record row) -> rc_RequestID r <> "q3".
Proof.
  intros Hk. revert r. apply Forall_forall. revert k row Hk.
  change (map_Forall (fun _ row => Forall (fun r => rc_RequestID r <> "q3") (sl_Receipts (rr_record row))) (rw_table burst)).
  apply (bool_decide_unpack _). vm_compute. exact I.
Qed.

End AnswerSample.

(** The third request is told to wait four seconds. *)
Lemma rate_answers_witness :
  match rate_tx (rw_table AnswerSample.burst) (RateSample.at_second 1) "acme" "u1" "q3" RateSample.selector with
  | inr (d, _) => de_Allowed d = false /\ de_RetryAfter d = 4 * second
  | inl _ => False
  end /\
  exists d t', rate_tx (rw_table AnswerSample.burst) (RateSample.at_second 1) "acme" "u1" "q3" RateSample.selector
                 = inr (d, t') /\
    (de_Allowed d = true \/
     0 < de_RetryAfter d <= 5 * second /\
     ((exists k row, rw_table AnswerSample.burst !! k = Some row /\
         sl_IdentityDigest (rr_record row) = RateSample.identity) ->
      exists d' t'', rate_tx (rw_table AnswerSample.burst) (add (RateSample.at_second 1) (de_RetryAfter d))
                       "acme" "u1" "q3" RateSample.selector = inr (d', t'') /\ de_Allowed d' = true)).
Proof.
  split; [vm_compute; done |].
  apply (rate_answers AnswerSample.burst (RateSample.at_second 1) "acme" "u1" RateSample.identity AnswerSample.keys
    "q3" RateSample.selector).
  - apply rate_serve_reachable. repeat constructor.
  - exact AnswerSample.day_valid.
  - exact AnswerSample.burst_past.
  - vm_compute. reflexivity.
  - vm_compute. reflexivity.
  - vm_compute. reflexivity.
  - intros k row r Hk Hr E. by destruct (AnswerSample.burst_fresh k row r Hk Hr).
Defined.
