(* ===== verification/Sessions.v ===== *)
(** * Canonical sessions ([internal/domain/session.go])

    The session and its lifecycle, participants and their authorisation,
    frontend bindings with revision-checked switching, events and the append
    rule, snapshots, context windows and context inputs. *)

From S2P Require Import Prelude GoText GoTime Errors Identity Blobs.
#[local] Open Scope Z_scope.

(** ** Sessions *)

Inductive SessionStatus := SessionActive | SessionArchived | SessionStatusUnknown (s : string).

#[global] Instance SessionStatus_eq_dec : EqDecision SessionStatus.
Proof. solve_decision. Defined.

Definition SessionStatus_Valid (status : SessionStatus) : bool :=
  bool_decide (status = SessionActive) || bool_decide (status = SessionArchived).

Definition SessionStatus_text (status : SessionStatus) : string :=
  match status with
  | SessionActive => "active"
  | SessionArchived => "archived"
  | SessionStatusUnknown s => s
  end.

Record Session := {
  s_ID : string;
  s_TenantID : string;
  s_CreatedBy : string;
  s_Status : SessionStatus;
  s_LastEventSequence : Z;
  s_CreatedAt : time;
  s_UpdatedAt : time;
  s_ArchivedAt : option time }.

#[global] Instance Session_eq_dec : EqDecision Session.
Proof. solve_decision. Defined.

Definition Session_Validate (session : Session) : option error :=
  check SessionID_Validate (s_ID session) ;!
  check TenantID_Validate (s_TenantID session) ;!
  check UserID_Validate (s_CreatedBy session) ;!
  reject negb (SessionStatus_Valid (s_Status session))
    with ValidationError "session.status" "is unknown" ;!
  reject is_zero (s_CreatedAt session)
    with ValidationError "session.created_at" "must not be zero" ;!
  reject before (s_UpdatedAt session) (s_CreatedAt session)
    with ValidationError "session.updated_at" "must not be before created_at" ;!
  reject bool_decide (s_Status session = SessionArchived) && isnil (s_ArchivedAt session)
    with ValidationError "session.archived_at" "is required for an archived session" ;!
  reject bool_decide (s_Status session = SessionActive) && notnil (s_ArchivedAt session)
    with ValidationError "session.archived_at" "is allowed only for an archived session" ;!
  None.

(** [Archive] and [Unarchive] have a pointer receiver: the argument is the
    pointer, the result the pointee the call leaves with the error. *)
Definition Archive (p : option Session) (at_ : time) : option Session * option error :=
  match p with
  | None => (p, Some (ValidationError "session" "must not be nil"))
  | Some session =>
      check Session_Validate session leaving p ;!
      if bool_decide (s_Status session = SessionArchived) then (p, None) else
      reject before at_ (s_UpdatedAt session)
        with ValidationError "session.updated_at" "transition time must not move backwards" leaving p ;!
      (Some {| session with s_Status := SessionArchived; s_UpdatedAt := at_;
                            s_ArchivedAt := Some at_ |}, None)
  end.

Definition Unarchive (p : option Session) (at_ : time) : option Session * option error :=
  match p with
  | None => (p, Some (ValidationError "session" "must not be nil"))
  | Some session =>
      check Session_Validate session leaving p ;!
      if bool_decide (s_Status session = SessionActive) then (p, None) else
      reject before at_ (s_UpdatedAt session)
        with ValidationError "session.updated_at" "transition time must not move backwards" leaving p ;!
      (Some {| session with s_Status := SessionActive; s_UpdatedAt := at_;
                            s_ArchivedAt := None |}, None)
  end.

(** ** Participants *)

Inductive SessionParticipantRole :=
| SessionParticipantOwner | SessionParticipantMember | SessionParticipantViewer
| SessionParticipantRoleUnknown (s : string).

Inductive SessionParticipantStatus :=
| SessionParticipantActive | SessionParticipantRemoved | SessionParticipantStatusUnknown (s : string).

#[global] Instance SessionParticipantRole_eq_dec : EqDecision SessionParticipantRole.
Proof. solve_decision. Defined.
#[global] Instance SessionParticipantStatus_eq_dec : EqDecision SessionParticipantStatus.
Proof. solve_decision. Defined.

Record SessionParticipant := {
  sp_TenantID : string;
  sp_SessionID : string;
  sp_UserID : string;
  sp_Role : SessionParticipantRole;
  sp_Status : SessionParticipantStatus;
  sp_CreatedAt : time;
  sp_UpdatedAt : time }.

#[global] Instance SessionParticipant_eq_dec : EqDecision SessionParticipant.
Proof. solve_decision. Defined.

Definition SessionParticipant_Validate (participant : SessionParticipant) : option error :=
  check TenantID_Validate (sp_TenantID participant) ;!
  check SessionID_Validate (sp_SessionID participant) ;!
  check UserID_Validate (sp_UserID participant) ;!
  reject match sp_Role participant with SessionParticipantRoleUnknown _ => true | _ => false end
    with ValidationError "session_participant.role" "is unknown" ;!
  reject match sp_Status participant with SessionParticipantStatusUnknown _ => true | _ => false end
    with ValidationError "session_participant.status" "is unknown" ;!
  reject is_zero (sp_CreatedAt participant) || before (sp_UpdatedAt participant) (sp_CreatedAt participant)
    with ValidationError "session_participant.updated_at" "must not be before created_at" ;!
  None.

Definition Authorize (participant : SessionParticipant) (tenantID sessionID userID : string)
  (write : bool) : option error :=
  check SessionParticipant_Validate participant ;!
  check EnsureSameTenant (sp_TenantID participant) tenantID ;!
  reject negb (String.eqb (sp_SessionID participant) sessionID)
         || negb (String.eqb (sp_UserID participant) userID)
         || negb (bool_decide (sp_Status participant = SessionParticipantActive))
    with ValidationError "session_participant" "does not grant access to this user and session" ;!
  reject write && bool_decide (sp_Role participant = SessionParticipantViewer)
    with ValidationError "session_participant.role" "does not grant write access" ;!
  None.

(** ** Frontend bindings *)

Record FrontendBinding := {
  fb_ID : string;
  fb_TenantID : string;
  fb_Frontend : string;
  fb_ExternalConversationID : string;
  fb_SessionID : string;
  fb_Revision : Z;
  fb_CreatedAt : time;
  fb_UpdatedAt : time }.

#[global] Instance FrontendBinding_eq_dec : EqDecision FrontendBinding.
Proof. solve_decision. Defined.

Definition FrontendBinding_Validate (binding : FrontendBinding) : option error :=
  check FrontendBindingID_Validate (fb_ID binding) ;!
  check TenantID_Validate (fb_TenantID binding) ;!
  check Frontend_Validate (fb_Frontend binding) ;!
  reject blank (fb_ExternalConversationID binding)
    with ValidationError "frontend_binding.external_conversation_id" "must not be empty" ;!
  check SessionID_Validate (fb_SessionID binding) ;!
  reject fb_Revision binding =? 0
    with ValidationError "frontend_binding.revision" "must be positive" ;!
  reject is_zero (fb_CreatedAt binding) || before (fb_UpdatedAt binding) (fb_CreatedAt binding)
    with ValidationError "frontend_binding.updated_at" "must not be before created_at" ;!
  None.

Definition Switch (p : option FrontendBinding) (expected : Z) (sessionID : string) (at_ : time)
  : option FrontendBinding * option error :=
  match p with
  | None => (p, Some (ValidationError "frontend_binding" "must not be nil"))
  | Some binding =>
      check FrontendBinding_Validate binding leaving p ;!
      reject negb (fb_Revision binding =? expected)
        with StaleBindingError expected (fb_Revision binding) leaving p ;!
      check SessionID_Validate sessionID leaving p ;!
      reject before at_ (fb_UpdatedAt binding)
        with ValidationError "frontend_binding.updated_at" "switch time must not move backwards" leaving p ;!
      (Some {| binding with fb_SessionID := sessionID;
                            fb_Revision := wrap_u64 (fb_Revision binding + 1);
                            fb_UpdatedAt := at_ |}, None)
  end.

(** ** Events *)

Inductive SessionEventKind :=
| SessionEventUserMessage | SessionEventAssistantMessage | SessionEventToolCall
| SessionEventToolResult | SessionEventSystemNotice | SessionEventKindUnknown (s : string).

#[global] Instance SessionEventKind_eq_dec : EqDecision SessionEventKind.
Proof. solve_decision. Defined.

Definition SessionEventKind_Valid (kind : SessionEventKind) : bool :=
  match kind with SessionEventKindUnknown _ => false | _ => true end.

Definition SessionEventKind_text (kind : SessionEventKind) : string :=
  match kind with
  | SessionEventUserMessage => "user_message"
  | SessionEventAssistantMessage => "assistant_message"
  | SessionEventToolCall => "tool_call"
  | SessionEventToolResult => "tool_result"
  | SessionEventSystemNotice => "system_notice"
  | SessionEventKindUnknown s => s
  end.

Record SessionEvent := {
  se_ID : string;
  se_TenantID : string;
  se_SessionID : string;
  se_Sequence : Z;
  se_Kind : SessionEventKind;
  se_AuthorUserID : option string;
  se_RunID : option string;
  se_IdempotencyKey : string;
  se_Payload : BlobRef;
  se_CreatedAt : time }.

#[global] Instance SessionEvent_eq_dec : EqDecision SessionEvent.
Proof. solve_decision. Defined.

Definition validateMaterialScope (event : SessionEvent) : option error :=
  check SessionEventID_Validate (se_ID event) ;!
  check TenantID_Validate (se_TenantID event) ;!
  check SessionID_Validate (se_SessionID event) ;!
  None.

Definition validateMaterialBody (event : SessionEvent) : option error :=
  reject negb (SessionEventKind_Valid (se_Kind event))
    with ValidationError "session_event.kind" "is unknown" ;!
  check match se_AuthorUserID event with Some a => UserID_Validate a | None => None end ;!
  check match se_RunID event with Some r => RunID_Validate r | None => None end ;!
  reject bool_decide (se_Kind event = SessionEventUserMessage) && isnil (se_AuthorUserID event)
    with ValidationError "session_event.author_user_id" "is required for a user message" ;!
  reject (bool_decide (se_Kind event = SessionEventAssistantMessage)
          || bool_decide (se_Kind event = SessionEventToolCall)
          || bool_decide (se_Kind event = SessionEventToolResult)) && isnil (se_RunID event)
    with ValidationError "session_event.run_id" "is required for assistant and tool events" ;!
  check IdempotencyKey_Validate (se_IdempotencyKey event) ;!
  check ValidateSessionEventBlob (se_TenantID event) (se_SessionID event) (se_ID event)
          (se_Payload event) ;!
  None.

Definition SessionEvent_Validate (event : SessionEvent) : option error :=
  check validateMaterialScope event ;!
  reject se_Sequence event =? 0
    with ValidationError "session_event.sequence" "must be positive" ;!
  check validateMaterialBody event ;!
  reject is_zero (se_CreatedAt event)
    with ValidationError "session_event.created_at" "must not be zero" ;!
  None.

Definition ValidateMaterialIdentity (event : SessionEvent) : option error :=
  check validateMaterialScope event ;!
  validateMaterialBody event.

(** [equalUserID] and [equalRunID] compare two optional identifiers. *)
Definition equal_optional (left right : option string) : bool :=
  match left, right with
  | None, None => true
  | Some l, Some r => String.eqb l r
  | _, _ => false
  end.

Definition sameSessionEvent (left right : SessionEvent) : bool :=
  String.eqb (se_ID left) (se_ID right) &&
  String.eqb (se_TenantID left) (se_TenantID right) &&
  String.eqb (se_SessionID left) (se_SessionID right) &&
  (se_Sequence left =? se_Sequence right) &&
  bool_decide (se_Kind left = se_Kind right) &&
  equal_optional (se_AuthorUserID left) (se_AuthorUserID right) &&
  equal_optional (se_RunID left) (se_RunID right) &&
  String.eqb (se_IdempotencyKey left) (se_IdempotencyKey right) &&
  bool_decide (se_Payload left = se_Payload right) &&
  time_equal (se_CreatedAt left) (se_CreatedAt right).

(** The result of [AppendSessionEvent]: the pointee, [created] and the error. *)
Definition AppendSessionEvent (p : option Session) (event : SessionEvent)
  (existing : option SessionEvent) : (option Session * bool) * option error :=
  match p with
  | None => ((p, false), Some (ValidationError "session" "must not be nil"))
  | Some session =>
      check Session_Validate session leaving (p, false) ;!
      check SessionEvent_Validate event leaving (p, false) ;!
      check EnsureSameTenant (s_TenantID session) (se_TenantID event) leaving (p, false) ;!
      reject negb (String.eqb (s_ID session) (se_SessionID event))
        with ValidationError "session_event.session_id" "must reference the owning session"
        leaving (p, false) ;!
      match existing with
      | Some old =>
          if sameSessionEvent old event then ((p, false), None)
          else ((p, false), Some ErrEventIdempotencyConflict)
      | None =>
          reject negb (bool_decide (s_Status session = SessionActive))
            with ValidationError "session.status" "must be active to append an event"
            leaving (p, false) ;!
          reject negb (se_Sequence event =? wrap_u64 (s_LastEventSequence session + 1))
            with ValidationError "session_event.sequence" "must be exactly the next session sequence"
            leaving (p, false) ;!
          reject before (se_CreatedAt event) (s_UpdatedAt session)
            with ValidationError "session_event.created_at" "must not move session time backwards"
            leaving (p, false) ;!
          ((Some {| session with s_LastEventSequence := se_Sequence event;
                                 s_UpdatedAt := se_CreatedAt event |}, true), None)
      end
  end.

(** ** Snapshots and context *)

Record SessionSnapshot := {
  ss_ID : string;
  ss_TenantID : string;
  ss_SessionID : string;
  ss_Version : Z;
  ss_ThroughSequence : Z;
  ss_FormatVersion : Z;
  ss_Compression : string;
  ss_EventCount : Z;
  ss_UncompressedSize : Z;
  ss_Payload : BlobRef;
  ss_CreatedAt : time }.

#[global] Instance SessionSnapshot_eq_dec : EqDecision SessionSnapshot.
Proof. solve_decision. Defined.

Definition SessionSnapshotFormatV1 : Z := 1.
Definition SessionSnapshotCompressionZstandard : string := "zstd".

Definition SessionSnapshot_Validate (snapshot : SessionSnapshot) : option error :=
  check SessionSnapshotID_Validate (ss_ID snapshot) ;!
  check TenantID_Validate (ss_TenantID snapshot) ;!
  check SessionID_Validate (ss_SessionID snapshot) ;!
  reject ss_Version snapshot =? 0
    with ValidationError "session_snapshot.version" "must be positive" ;!
  reject (ss_ThroughSequence snapshot =? 0) || negb (ss_EventCount snapshot =? ss_ThroughSequence snapshot)
    with ValidationError "session_snapshot.event_count"
           "format v1 must cover every event through the declared sequence" ;!
  reject negb (ss_FormatVersion snapshot =? SessionSnapshotFormatV1)
    with ValidationError "session_snapshot.format_version" "is unsupported" ;!
  reject negb (String.eqb (ss_Compression snapshot) SessionSnapshotCompressionZstandard)
    with ValidationError "session_snapshot.compression" "is unsupported" ;!
  reject ss_UncompressedSize snapshot =? 0
    with ValidationError "session_snapshot.uncompressed_size" "must be positive" ;!
  check ValidateSessionSnapshotBlob (ss_TenantID snapshot) (ss_SessionID snapshot)
          (ss_Version snapshot) (ss_Payload snapshot) ;!
  reject is_zero (ss_CreatedAt snapshot)
    with ValidationError "session_snapshot.created_at" "must not be zero" ;!
  None.

Record SessionContextWindow := {
  cw_SnapshotVersion : option Z;
  cw_AfterSequence : Z;
  cw_ThroughSequence : Z }.

Definition SessionContextWindow_Validate (window : SessionContextWindow) : option error :=
  reject cw_ThroughSequence window =? 0
    with ValidationError "session_context_window.through_sequence" "must be positive" ;!
  reject cw_AfterSequence window >? cw_ThroughSequence window
    with ValidationError "session_context_window.after_sequence" "must not exceed through_sequence" ;!
  match cw_SnapshotVersion window with
  | None =>
      reject negb (cw_AfterSequence window =? 0)
        with ValidationError "session_context_window.after_sequence"
               "requires a snapshot version when positive" ;!
      None
  | Some version =>
      reject (version =? 0) || (cw_AfterSequence window =? 0)
        with ValidationError "session_context_window.snapshot_version"
               "snapshot version and covered sequence must be positive together" ;!
      None
  end.

Record SessionContextInput := {
  ci_TenantID : string;
  ci_SessionID : string;
  ci_Snapshot : option SessionSnapshot;
  ci_Events : list SessionEvent }.

(** The loop over the events; [next] is the [uint64] counter. *)
Fixpoint context_events (tenantID sessionID : string) (next : Z) (events : list SessionEvent)
  : option error :=
  match events with
  | [] => None
  | event :: rest =>
      check SessionEvent_Validate event ;!
      reject negb (String.eqb (se_TenantID event) tenantID)
             || negb (String.eqb (se_SessionID event) sessionID)
        with ValidationError "session_context.events" "must belong to the requested tenant and session" ;!
      reject negb (se_Sequence event =? next)
        with ValidationError "session_context.events"
               "must form a contiguous ordered range after the snapshot" ;!
      context_events tenantID sessionID (wrap_u64 (next + 1)) rest
  end.

Definition SessionContextInput_Validate (input : SessionContextInput) : option error :=
  check TenantID_Validate (ci_TenantID input) ;!
  check SessionID_Validate (ci_SessionID input) ;!
  match ci_Snapshot input with
  | Some snapshot =>
      check SessionSnapshot_Validate snapshot ;!
      check EnsureSameTenant (ci_TenantID input) (ss_TenantID snapshot) ;!
      reject negb (String.eqb (ss_SessionID snapshot) (ci_SessionID input))
        with ValidationError "session_context.snapshot" "must belong to the requested session" ;!
      context_events (ci_TenantID input) (ci_SessionID input)
        (wrap_u64 (ss_ThroughSequence snapshot + 1)) (ci_Events input)
  | None => context_events (ci_TenantID input) (ci_SessionID input) 1 (ci_Events input)
  end.

(** ** Lemmas *)

Lemma Session_Validate_nil s :
  Session_Validate s = None <->
  SessionID_Validate (s_ID s) = None /\ TenantID_Validate (s_TenantID s) = None /\
  UserID_Validate (s_CreatedBy s) = None /\ ns (s_CreatedAt s) <> 0 /\
  ns (s_CreatedAt s) <= ns (s_UpdatedAt s) /\
  ((s_Status s = SessionActive /\ s_ArchivedAt s = None) \/
   (s_Status s = SessionArchived /\ is_Some (s_ArchivedAt s))).
Proof.
  unfold Session_Validate, SessionStatus_Valid. split.
  - intros H. peel H. b2p. repeat (split; [done |]).
    destruct (s_Status s), (s_ArchivedAt s); naive_solver.
  - intros (-> & -> & -> & Hz & Hu & Hs).
    apply is_zero_false in Hz as ->. apply before_false in Hu as ->.
    destruct Hs as [[-> ->] | [-> [? ->]]]; reflexivity.
Qed.

Lemma SessionEvent_Validate_nil e :
  SessionEvent_Validate e = None ->
  se_Sequence e <> 0 /\ ns (se_CreatedAt e) <> 0 /\ ValidateMaterialIdentity e = None.
Proof.
  unfold SessionEvent_Validate, ValidateMaterialIdentity. intros H. peel H. b2p.
  split_and!; [done | done |]. solve_checks. done.
Qed.

(** What a successful append of a new event requires and does. *)
Lemma AppendSessionEvent_created p e old p' :
  AppendSessionEvent p e old = ((p', true), None) ->
  exists s, p = Some s /\ old = None /\ Session_Validate s = None /\ SessionEvent_Validate e = None /\
    s_TenantID s = se_TenantID e /\ s_ID s = se_SessionID e /\ s_Status s = SessionActive /\
    se_Sequence e = wrap_u64 (s_LastEventSequence s + 1) /\ ns (s_UpdatedAt s) <= ns (se_CreatedAt e) /\
    p' = Some {| s with s_LastEventSequence := se_Sequence e; s_UpdatedAt := se_CreatedAt e |}.
Proof.
  unfold AppendSessionEvent. destruct p as [s |]; [| done]. intros H. peel_pair H.
  destruct old as [o |]; [by destruct (sameSessionEvent o e) |]. peel_pair H.
  injection H as <-. apply EnsureSameTenant_nil in E1. b2p. exists s. naive_solver.
Qed.

(** A call that does not create leaves the session as it was. *)
Lemma AppendSessionEvent_unchanged p e old p' err :
  AppendSessionEvent p e old = ((p', false), err) -> p' = p.
Proof.
  unfold AppendSessionEvent. intros H.
  repeat case_match; simplify_eq/=; done.
Qed.

Lemma AppendSessionEvent_created_ok p e old p' err :
  AppendSessionEvent p e old = ((p', true), err) -> err = None.
Proof.
  unfold AppendSessionEvent. intros H. repeat case_match; simplify_eq/=; done.
Qed.

(** ** The lifecycle as a transition system

    One step is one call on a session: [Archive], [Unarchive] or
    [AppendSessionEvent], failing calls included. *)
Inductive session_step : Session -> Session -> Prop :=
| step_archive s at_ s' err : Archive (Some s) at_ = (Some s', err) -> session_step s s'
| step_unarchive s at_ s' err : Unarchive (Some s) at_ = (Some s', err) -> session_step s s'
| step_append s e old s' created err :
    AppendSessionEvent (Some s) e old = ((Some s', created), err) -> session_step s s'.

(** What one step, and so every run of steps, keeps. *)
Definition session_evolves (s s' : Session) : Prop :=
  Session_Validate s' = None /\
  s_ID s' = s_ID s /\ s_TenantID s' = s_TenantID s /\ s_CreatedBy s' = s_CreatedBy s /\
  s_CreatedAt s' = s_CreatedAt s /\ ns (s_UpdatedAt s) <= ns (s_UpdatedAt s').

Lemma session_evolves_refl s : Session_Validate s = None -> session_evolves s s.
Proof. unfold session_evolves. intros. repeat split; done || lia. Qed.

Lemma session_evolves_trans s1 s2 s3 :
  session_evolves s1 s2 -> session_evolves s2 s3 -> session_evolves s1 s3.
Proof. unfold session_evolves. intros. naive_solver (congruence || lia). Qed.

Lemma session_evolves_update s s' :
  Session_Validate s = None ->
  s_ID s' = s_ID s -> s_TenantID s' = s_TenantID s -> s_CreatedBy s' = s_CreatedBy s ->
  s_CreatedAt s' = s_CreatedAt s -> ns (s_UpdatedAt s) <= ns (s_UpdatedAt s') ->
  ((s_Status s' = SessionActive /\ s_ArchivedAt s' = None) \/
   (s_Status s' = SessionArchived /\ is_Some (s_ArchivedAt s'))) ->
  session_evolves s s'.
Proof.
  intros H%Session_Validate_nil Hi Ht Hc Hca Hu Hs. split; [| done].
  apply Session_Validate_nil. rewrite Hi, Ht, Hc, Hca. naive_solver lia.
Qed.

Lemma session_step_evolves s s' :
  Session_Validate s = None -> session_step s s' -> session_evolves s s'.
Proof.
  intros Hv Hstep. destruct Hstep as [s at_ s' err H | s at_ s' err H | s e old s' created err H].
  - cbn in H. rewrite Hv in H. repeat case_match; simplify_eq; auto using session_evolves_refl.
    b2p. apply session_evolves_update; cbn; eauto.
  - cbn in H. rewrite Hv in H. repeat case_match; simplify_eq; auto using session_evolves_refl.
    b2p. apply session_evolves_update; cbn; eauto.
  - destruct created.
    + pose proof (AppendSessionEvent_created_ok _ _ _ _ _ H) as ->.
      apply AppendSessionEvent_created in H as (s0 & [= <-] & _ & _ & _ & _ & _ & Hst & _ & Hu & [= ->]).
      apply Session_Validate_nil in Hv as Hn.
      apply session_evolves_update; cbn; [done .. |]. left. naive_solver congruence.
    + apply AppendSessionEvent_unchanged in H as [= ->]. auto using session_evolves_refl.
Qed.

(** The loop of [SessionContextInput.Validate] accepts exactly the lists whose
    [i]-th event is valid, belongs to the session and has sequence [next + i]. *)
Lemma context_events_nil tenantID sessionID events : forall next,
  context_events tenantID sessionID next events = None <->
  forall i e, events !! i = Some e ->
    SessionEvent_Validate e = None /\ se_TenantID e = tenantID /\ se_SessionID e = sessionID /\
    se_Sequence e = match i with O => next | _ => wrap_u64 (next + Z.of_nat i) end.
Proof.
  induction events as [| e events IH]; intros next; [by split |]. cbn [context_events]. split.
  - intros H. peel H. b2p. destruct E0 as [Ht Hs]. apply negb_false_iff, Z.eqb_eq in E1 || idtac.
    intros [| i] e' He; cbn in He; [naive_solver |].
    apply (proj1 (IH _) H) in He as (? & ? & ? & Hseq). split_and!; [done .. |]. rewrite Hseq.
    destruct i; [done |]. unfold wrap_u64. rewrite Zplus_mod_idemp_l. f_equal. lia.
  - intros H. destruct (H O e eq_refl) as (-> & Ht & Hs & Hq).
    apply String.eqb_eq in Ht as ->. apply String.eqb_eq in Hs as ->. apply Z.eqb_eq in Hq as ->.
    apply IH. intros i e' He. destruct (H (S i) e' He) as (? & ? & ? & Hseq).
    split_and!; [done .. |]. rewrite Hseq.
    destruct i; [done |]. unfold wrap_u64. rewrite Zplus_mod_idemp_l. f_equal. lia.
Qed.

(** ** Sample values *)

Module Sample.

Definition t0 : time := mkTime (63000000000 * second) UTC.
Definition t1 : time := add t0 minute.
Definition t2 : time := add t1 minute.

Definition session : Session :=
  {| s_ID := "s1"; s_TenantID := "acme"; s_CreatedBy := "ada"; s_Status := SessionActive;
     s_LastEventSequence := 0; s_CreatedAt := t0; s_UpdatedAt := t0; s_ArchivedAt := None |}.

Definition digest : string := "ba7816bf8f01cfea414140de5dae2223b00361a396177a9cb410ff61f20015ad".

Definition event : SessionEvent :=
  {| se_ID := "e1"; se_TenantID := "acme"; se_SessionID := "s1"; se_Sequence := 1;
     se_Kind := SessionEventUserMessage; se_AuthorUserID := Some "ada"; se_RunID := None;
     se_IdempotencyKey := "k1";
     se_Payload := {| br_TenantID := "acme"; br_Key := "tenants/acme/sessions/s1/events/e1/body";
                      br_Size := 3; br_SHA256 := digest |};
     se_CreatedAt := t1 |}.

Definition binding : FrontendBinding :=
  {| fb_ID := "b1"; fb_TenantID := "acme"; fb_Frontend := "telegram"; fb_ExternalConversationID := "42";
     fb_SessionID := "s1"; fb_Revision := 7; fb_CreatedAt := t0; fb_UpdatedAt := t0 |}.

Definition owner : SessionParticipant :=
  {| sp_TenantID := "acme"; sp_SessionID := "s1"; sp_UserID := "ada"; sp_Role := SessionParticipantOwner;
     sp_Status := SessionParticipantActive; sp_CreatedAt := t0; sp_UpdatedAt := t0 |}.

End Sample.

(** ** Properties *)

(** Whatever sequence of [Archive], [Unarchive] and [AppendSessionEvent] calls is
    made on a valid session, failing calls included, the session stays valid, keeps
    its identity, tenant, creator and creation time, and its update time never moves
    backwards. *)
Theorem session_lifecycle_invariant s s' :
  Session_Validate s = None -> rtc session_step s s' -> session_evolves s s'.
Proof.
  intros Hv H. induction H as [s | s s1 s' Hstep _ IH]; [by apply session_evolves_refl |].
  apply session_step_evolves in Hstep; [| done].
  eapply session_evolves_trans; [done |]. apply IH, Hstep.
Qed.

Lemma session_lifecycle_invariant_witness :
  session_evolves Sample.session (default Sample.session (fst (Archive (Some Sample.session) Sample.t1))).
Proof.
  apply session_lifecycle_invariant; [reflexivity |].
  eapply rtc_l; [| apply rtc_refl]. apply (step_archive _ Sample.t1 _ None). vm_compute. reflexivity.
Defined.

(** An append either creates the event, or changes nothing.  It creates exactly
    when no event is stored under its key, the session and the event are valid and
    belong together, the session is active, the sequence is the next one and time does
    not move backwards; with an event stored under the key it is a silent success for
    the same event and the idempotency conflict for any other. *)
Theorem append_event_cases s e old :
  Session_Validate s = None -> SessionEvent_Validate e = None ->
  s_TenantID s = se_TenantID e -> s_ID s = se_SessionID e ->
  match old with
  | Some o =>
      AppendSessionEvent (Some s) e old =
        ((Some s, false), if sameSessionEvent o e then None else Some ErrEventIdempotencyConflict)
  | None =>
      if bool_decide (s_Status s = SessionActive) &&
         (se_Sequence e =? wrap_u64 (s_LastEventSequence s + 1)) &&
         negb (before (se_CreatedAt e) (s_UpdatedAt s))
      then AppendSessionEvent (Some s) e old =
             ((Some {| s with s_LastEventSequence := se_Sequence e; s_UpdatedAt := se_CreatedAt e |}, true), None)
      else exists err, AppendSessionEvent (Some s) e old = ((Some s, false), Some err)
  end.
Proof.
  intros Hs He Ht Hi. unfold AppendSessionEvent. rewrite Hs, He, Ht, EnsureSameTenant_refl, Hi, String.eqb_refl.
  2: { by apply Session_Validate_nil in Hs as (_ & ? & _); rewrite <- Ht. }
  cbn. destruct old as [o |]; [by destruct (sameSessionEvent o e) |].
  destruct (bool_decide _), (se_Sequence e =? _), (before _ _); cbn; eauto.
Qed.

Lemma append_event_cases_witness :
  AppendSessionEvent (Some Sample.session) Sample.event (Some Sample.event)
    = ((Some Sample.session, false), None).
Proof.
  exact (append_event_cases Sample.session Sample.event (Some Sample.event)
           eq_refl eq_refl eq_refl eq_refl).
Defined.

(** Switching a frontend binding is a compare-and-swap on its revision: of two
    switches that expect the same revision, the second fails as stale and leaves the
    binding as the first one made it. *)
Theorem switch_compare_and_swap b expected sid at_ b' sid2 at2 :
  u64 (fb_Revision b) -> fb_Revision b <> max_u64 ->
  Switch (Some b) expected sid at_ = (Some b', None) ->
  FrontendBinding_Validate b' = None /\ fb_SessionID b' = sid /\ fb_Revision b' = expected + 1 /\
  Switch (Some b') expected sid2 at2 = (Some b', Some (StaleBindingError expected (expected + 1))).
Proof.
  intros Hu Hm H. cbn in H. peel_pair H. injection H as <-. b2p. subst expected.
  rewrite wrap_u64_succ by done. cbn.
  match goal with |- ?v = None /\ _ => assert (Hv : v = None) end.
  { unfold FrontendBinding_Validate in E |- *. peel E. b2p. cbn. solve_checks.
    destruct (fb_Revision b + 1 =? 0) eqn:Hz; [b2p; unfold u64 in Hu; lia |].
    destruct (is_zero _ || before at_ _) eqn:Hb; [| done]. b2p. lia. }
  split_and!; [done .. |]. rewrite Hv. cbn.
  destruct (fb_Revision b + 1 =? fb_Revision b) eqn:Hq; [b2p; lia | done].
Qed.

Lemma switch_compare_and_swap_witness :
  exists b', Switch (Some Sample.binding) 7 "s2" Sample.t1 = (Some b', None) /\
    snd (Switch (Some b') 7 "s3" Sample.t1) = Some (StaleBindingError 7 8).
Proof.
  eexists. split; [reflexivity |].
  destruct (switch_compare_and_swap Sample.binding 7 "s2" Sample.t1 _ "s3" Sample.t1
    ltac:(unfold u64, max_u64; cbn; lia) ltac:(unfold max_u64; cbn; lia) eq_refl) as (_ & _ & _ & ->).
  reflexivity.
Defined.

(** C27. At the largest revision the increment wraps to zero: the switch succeeds, but
    the binding it leaves is invalid, and no later switch of it can succeed. *)
Theorem switch_revision_wraps b sid at_ b' :
  fb_Revision b = max_u64 -> Switch (Some b) max_u64 sid at_ = (Some b', None) ->
  fb_Revision b' = 0 /\ is_Some (FrontendBinding_Validate b') /\
  forall expected sid2 at2, exists e, Switch (Some b') expected sid2 at2 = (Some b', Some e).
Proof.
  intros Hm H. cbn in H. peel_pair H. injection H as <-. rewrite Hm, wrap_u64_succ_max.
  split; [done |]. match goal with |- is_Some ?v /\ _ => assert (Hv : is_Some v) end.
  { unfold FrontendBinding_Validate. cbn. repeat case_match; eauto. }
  split; [done |]. intros. destruct Hv as [e He]. exists e. unfold Switch. by rewrite He.
Qed.

Lemma switch_revision_wraps_witness :
  exists b', Switch (Some {| Sample.binding with fb_Revision := max_u64 |}) max_u64 "s2" Sample.t1
             = (Some b', None) /\ fb_Revision b' = 0.
Proof.
  eexists. split; [reflexivity |].
  exact (proj1 (switch_revision_wraps {| Sample.binding with fb_Revision := max_u64 |} "s2" Sample.t1
           _ eq_refl eq_refl)).
Defined.

(** A participant row authorises a request exactly when it is a valid row of the
    requested tenant, session and user, is active, and for a write is not a viewer's. *)
Theorem authorize_iff p tenantID sessionID userID write :
  Authorize p tenantID sessionID userID write = None <->
  SessionParticipant_Validate p = None /\ sp_TenantID p = tenantID /\ sp_SessionID p = sessionID /\
  sp_UserID p = userID /\ sp_Status p = SessionParticipantActive /\
  (write = true -> sp_Role p = SessionParticipantOwner \/ sp_Role p = SessionParticipantMember).
Proof.
  unfold Authorize. split.
  - intros H. peel H. apply EnsureSameTenant_nil in E0. b2p.
    split_and!; try naive_solver. intros ->.
    unfold SessionParticipant_Validate in E. peel E. destruct (sp_Role p); naive_solver.
  - intros (Hv & <- & <- & <- & Hst & Hw). rewrite Hv.
    rewrite EnsureSameTenant_refl, !String.eqb_refl, Hst.
    2: { unfold SessionParticipant_Validate in Hv. peel Hv. done. }
    destruct write; [| done]. by destruct (Hw eq_refl) as [-> | ->].
Qed.

(** A context input without a snapshot is accepted exactly when its identifiers are
    valid and its events are valid events of that session numbered 1, 2, 3, ...
    (the counter is a [uint64]). *)
Theorem context_input_contiguous tenantID sessionID events :
  SessionContextInput_Validate
    {| ci_TenantID := tenantID; ci_SessionID := sessionID; ci_Snapshot := None; ci_Events := events |} = None <->
  TenantID_Validate tenantID = None /\ SessionID_Validate sessionID = None /\
  forall i e, events !! i = Some e ->
    SessionEvent_Validate e = None /\ se_TenantID e = tenantID /\ se_SessionID e = sessionID /\
    se_Sequence e = wrap_u64 (1 + Z.of_nat i).
Proof.
  unfold SessionContextInput_Validate. cbn.
  destruct (TenantID_Validate tenantID), (SessionID_Validate sessionID); [naive_solver .. |].
  rewrite context_events_nil. split.
  - intros H. split_and!; [done .. |]. intros i e He. destruct (H i e He) as (? & ? & ? & ->). by destruct i.
  - intros (_ & _ & H) i e He. destruct (H i e He) as (? & ? & ? & ->). by destruct i.
Qed.
