(* ===== verification/Deliveries.v ===== *)
(** * Results leaving a run ([internal/domain/projection.go], [outbox.go])

    The draft of a canonical result event, the frontend projection of an event and
    the Telegram delivery with its status machine and attempt counter. *)

From S2P Require Import Prelude GoText GoTime Errors Identity Blobs Runs Sessions.
#[local] Open Scope Z_scope.

(** ** Drafts and projections *)

Record SessionEventDraft := {
  sed_ID : string;
  sed_Kind : SessionEventKind;
  sed_IdempotencyKey : string;
  sed_Payload : BlobRef;
  sed_DisplayText : string;
  sed_CreatedAt : time }.

Definition SessionEventDraft_ValidateForRun (draft : SessionEventDraft) (run : Run) : option error :=
  check Run_Validate run ;!
  check SessionEventID_Validate (sed_ID draft) ;!
  reject match sed_Kind draft with
         | SessionEventAssistantMessage | SessionEventToolCall | SessionEventToolResult
         | SessionEventSystemNotice => false
         | _ => true
         end
    with ValidationError "session_event_draft.kind" "is not a terminal worker event" ;!
  check IdempotencyKey_Validate (sed_IdempotencyKey draft) ;!
  check ValidateSessionEventBlob (run_TenantID run) (run_SessionID run) (sed_ID draft) (sed_Payload draft) ;!
  reject rune_count (sed_DisplayText draft) >? 32000
    with ValidationError "session_event_draft.display_text" "must not exceed 32000 Unicode characters" ;!
  reject is_zero (sed_CreatedAt draft) || before (sed_CreatedAt draft) (run_CreatedAt run)
    with ValidationError "session_event_draft.created_at" "must not precede the owning run" ;!
  None.

Definition ProjectionEligible (draft : SessionEventDraft) : bool :=
  bool_decide (sed_Kind draft = SessionEventAssistantMessage)
  || bool_decide (sed_Kind draft = SessionEventSystemNotice).

Inductive FrontendProjectionStatus := FrontendProjectionPending | FrontendProjectionStatusUnknown (s : string).

#[global] Instance FrontendProjectionStatus_eq_dec : EqDecision FrontendProjectionStatus.
Proof. solve_decision. Defined.

Definition FrontendProjectionStatus_Valid (status : FrontendProjectionStatus) : bool :=
  bool_decide (status = FrontendProjectionPending).

Record FrontendProjection := {
  fp_ID : string;
  fp_TenantID : string;
  fp_SessionID : string;
  fp_EventID : string;
  fp_EventSequence : Z;
  fp_EventKind : SessionEventKind;
  fp_BindingID : string;
  fp_BindingRevision : Z;
  fp_Frontend : string;
  fp_Status : FrontendProjectionStatus;
  fp_IdempotencyKey : string;
  fp_CreatedAt : time;
  fp_UpdatedAt : time }.

Definition FrontendProjection_ValidateFor (projection : FrontendProjection) (event : SessionEvent)
    (binding : FrontendBinding) : option error :=
  check SessionEvent_Validate event ;!
  reject negb (bool_decide (se_Kind event = SessionEventAssistantMessage))
         && negb (bool_decide (se_Kind event = SessionEventSystemNotice))
    with ValidationError "frontend_projection.event_kind" "is not frontend-projectable" ;!
  check FrontendBinding_Validate binding ;!
  check FrontendProjectionID_Validate (fp_ID projection) ;!
  check EnsureSameTenant (se_TenantID event) (fp_TenantID projection) ;!
  check EnsureSameTenant (se_TenantID event) (fb_TenantID binding) ;!
  reject negb (String.eqb (fp_SessionID projection) (se_SessionID event))
         || negb (String.eqb (fp_SessionID projection) (fb_SessionID binding))
    with ValidationError "frontend_projection.session_id" "must reference the event and binding session" ;!
  reject negb (String.eqb (fp_EventID projection) (se_ID event))
         || negb (fp_EventSequence projection =? se_Sequence event)
         || negb (bool_decide (fp_EventKind projection = se_Kind event))
    with ValidationError "frontend_projection.event" "must reference the canonical event" ;!
  reject negb (String.eqb (fp_BindingID projection) (fb_ID binding))
         || negb (fp_BindingRevision projection =? fb_Revision binding)
         || negb (String.eqb (fp_Frontend projection) (fb_Frontend binding))
    with ValidationError "frontend_projection.binding" "must snapshot the current binding" ;!
  reject negb (FrontendProjectionStatus_Valid (fp_Status projection))
    with ValidationError "frontend_projection.status" "is unknown" ;!
  check IdempotencyKey_Validate (fp_IdempotencyKey projection) ;!
  reject is_zero (fp_CreatedAt projection) || before (fp_UpdatedAt projection) (fp_CreatedAt projection)
    with ValidationError "frontend_projection.updated_at" "must not be before created_at" ;!
  None.

Record TelegramProjectionRef := {
  tp_ProjectionID : string;
  tp_SessionID : string;
  tp_EventID : string;
  tp_EventSequence : Z;
  tp_BindingID : string;
  tp_BindingRevision : Z;
  tp_TriggerEventID : string }.

Definition TelegramProjectionRef_Validate (ref : TelegramProjectionRef) : option error :=
  check FrontendProjectionID_Validate (tp_ProjectionID ref) ;!
  check SessionID_Validate (tp_SessionID ref) ;!
  check SessionEventID_Validate (tp_EventID ref) ;!
  reject tp_EventSequence ref =? 0
    with ValidationError "telegram_projection.event_sequence" "must be positive" ;!
  check FrontendBindingID_Validate (tp_BindingID ref) ;!
  reject tp_BindingRevision ref =? 0
    with ValidationError "telegram_projection.binding_revision" "must be positive" ;!
  SessionEventID_Validate (tp_TriggerEventID ref).

(** ** Telegram deliveries *)

Inductive DeliveryStatus :=
| DeliveryPending | DeliverySending | DeliveryRetryWait | DeliverySent | DeliveryFailed | DeliveryCancelled
| DeliveryStatusUnknown (s : string).

#[global] Instance DeliveryStatus_eq_dec : EqDecision DeliveryStatus.
Proof. solve_decision. Defined.

Definition DeliveryStatus_Valid (status : DeliveryStatus) : bool :=
  match status with DeliveryStatusUnknown _ => false | _ => true end.

Definition DeliveryStatus_Terminal (status : DeliveryStatus) : bool :=
  match status with DeliverySent | DeliveryFailed | DeliveryCancelled => true | _ => false end.

Definition CanTransitionDelivery (from to : DeliveryStatus) : bool :=
  match from with
  | DeliveryPending => match to with DeliverySending | DeliveryCancelled => true | _ => false end
  | DeliverySending =>
      match to with DeliverySent | DeliveryRetryWait | DeliveryFailed | DeliveryCancelled => true | _ => false end
  | DeliveryRetryWait =>
      match to with DeliverySending | DeliveryFailed | DeliveryCancelled => true | _ => false end
  | _ => false
  end.

Record TelegramDeliveryOutbox := {
  td_ID : string;
  td_TenantID : string;
  td_RunID : string;
  td_Chat : TelegramChatRef;
  td_ReplyToMessageID : Z;
  td_Payload : BlobRef;
  td_Text : string;
  td_ArtifactManifestID : option string;
  td_Projection : option TelegramProjectionRef;
  td_Status : DeliveryStatus;
  td_IdempotencyKey : string;
  td_AttemptCount : Z;
  td_NextAttemptAt : option time;
  td_CreatedAt : time;
  td_UpdatedAt : time }.

(** The content of a delivery: inline text or a blob, never both. *)
Definition delivery_content (delivery : TelegramDeliveryOutbox) (run : Run) : option error :=
  let hasText := negb (blank (td_Text delivery)) in
  let hasPayload := negb (String.eqb (br_Key (td_Payload delivery)) "") in
  reject Bool.eqb hasText hasPayload
    with ValidationError "telegram_delivery.content" "must contain exactly one of inline text or a blob payload" ;!
  if hasText then
    reject rune_count (td_Text delivery) >? 4096
      with ValidationError "telegram_delivery.text" "must not exceed 4096 Unicode characters" ;!
    None
  else
    check BlobRef_Validate (td_Payload delivery) ;!
    EnsureSameTenant (run_TenantID run) (br_TenantID (td_Payload delivery)).

Definition delivery_projection (delivery : TelegramDeliveryOutbox) (run : Run) : option error :=
  match td_Projection delivery with
  | None => None
  | Some ref =>
      check TelegramProjectionRef_Validate ref ;!
      reject negb (String.eqb (tp_SessionID ref) (run_SessionID run))
             || negb (String.eqb (tp_TriggerEventID ref) (run_TriggerEventID run))
        with ValidationError "telegram_delivery.projection"
               "must reference the owning run session and trigger event" ;!
      None
  end.

Definition TelegramDeliveryOutbox_ValidateForRun (delivery : TelegramDeliveryOutbox) (run : Run) : option error :=
  check Run_Validate run ;!
  check TelegramDeliveryID_Validate (td_ID delivery) ;!
  check EnsureSameTenant (run_TenantID run) (td_TenantID delivery) ;!
  reject negb (String.eqb (td_RunID delivery) (run_ID run))
    with ValidationError "telegram_delivery.run_id" "must reference the owning run" ;!
  check TelegramChatRef_Validate (td_Chat delivery) ;!
  check EnsureSameTenant (run_TenantID run) (tc_TenantID (td_Chat delivery)) ;!
  reject (td_ReplyToMessageID delivery <? 0)
         || ((td_ReplyToMessageID delivery =? 0) && isnil (td_Projection delivery))
    with ValidationError "telegram_delivery.reply_to_message_id"
           "must be positive for legacy delivery and non-negative for a projection" ;!
  check delivery_projection delivery run ;!
  check delivery_content delivery run ;!
  check match td_ArtifactManifestID delivery with Some id => ArtifactManifestID_Validate id | None => None end ;!
  reject negb (DeliveryStatus_Valid (td_Status delivery))
    with ValidationError "telegram_delivery.status" "is unknown" ;!
  check IdempotencyKey_Validate (td_IdempotencyKey delivery) ;!
  reject bool_decide (td_Status delivery = DeliveryRetryWait) && isnil (td_NextAttemptAt delivery)
    with ValidationError "telegram_delivery.next_attempt_at" "is required while waiting to retry" ;!
  reject negb (bool_decide (td_Status delivery = DeliveryRetryWait)) && notnil (td_NextAttemptAt delivery)
    with ValidationError "telegram_delivery.next_attempt_at" "is allowed only while waiting to retry" ;!
  reject is_zero (td_CreatedAt delivery) || before (td_UpdatedAt delivery) (td_CreatedAt delivery)
    with ValidationError "telegram_delivery.updated_at" "must not be before a non-zero created_at" ;!
  None.

Definition TelegramDeliveryOutbox_Transition (p : option TelegramDeliveryOutbox) (to : DeliveryStatus) (at_ : time)
    (retryAt : option time) : option TelegramDeliveryOutbox * option error :=
  match p with
  | None => (p, Some (ValidationError "telegram_delivery" "must not be nil"))
  | Some delivery =>
      reject negb (CanTransitionDelivery (td_Status delivery) to)
        with ValidationError "telegram_delivery.status" "transition is not allowed" leaving p ;!
      reject before at_ (td_UpdatedAt delivery)
        with ValidationError "telegram_delivery.updated_at" "transition time must not move backwards" leaving p ;!
      reject bool_decide (to = DeliveryRetryWait)
             && match retryAt with Some t => negb (after t at_) | None => true end
        with ValidationError "telegram_delivery.next_attempt_at" "must be after the transition time" leaving p ;!
      (Some {| delivery with
               td_NextAttemptAt := if bool_decide (to = DeliveryRetryWait) then retryAt else None;
               td_AttemptCount := if bool_decide (to = DeliverySending)
                                  then wrap_u32 (td_AttemptCount delivery + 1) else td_AttemptCount delivery;
               td_Status := to;
               td_UpdatedAt := at_ |}, None)
  end.

(** ** Lemmas *)

(** The checks of a delivery that no transition can change. *)
Definition delivery_fixed_ok (delivery : TelegramDeliveryOutbox) (run : Run) : Prop :=
  Run_Validate run = None /\ TelegramDeliveryID_Validate (td_ID delivery) = None /\
  EnsureSameTenant (run_TenantID run) (td_TenantID delivery) = None /\ td_RunID delivery = run_ID run /\
  TelegramChatRef_Validate (td_Chat delivery) = None /\
  EnsureSameTenant (run_TenantID run) (tc_TenantID (td_Chat delivery)) = None /\
  (td_ReplyToMessageID delivery <? 0) || ((td_ReplyToMessageID delivery =? 0) && isnil (td_Projection delivery))
  = false /\
  delivery_projection delivery run = None /\ delivery_content delivery run = None /\
  match td_ArtifactManifestID delivery with Some id => ArtifactManifestID_Validate id | None => None end = None /\
  IdempotencyKey_Validate (td_IdempotencyKey delivery) = None /\ ns (td_CreatedAt delivery) <> 0.

Lemma delivery_valid_iff delivery run :
  TelegramDeliveryOutbox_ValidateForRun delivery run = None <->
  delivery_fixed_ok delivery run /\ DeliveryStatus_Valid (td_Status delivery) = true /\
  notnil (td_NextAttemptAt delivery) = bool_decide (td_Status delivery = DeliveryRetryWait) /\
  ns (td_CreatedAt delivery) <= ns (td_UpdatedAt delivery).
Proof.
  unfold TelegramDeliveryOutbox_ValidateForRun, delivery_fixed_ok. repeat (rewrite check_nil || rewrite reject_nil).
  rewrite finished_iff_terminal, (orb_false_iff (is_zero _)), !negb_false_iff, String.eqb_eq, is_zero_false, before_false.
  tauto.
Qed.

Lemma delivery_transition_inv delivery to at_ retryAt delivery' :
  TelegramDeliveryOutbox_Transition (Some delivery) to at_ retryAt = (Some delivery', None) ->
  CanTransitionDelivery (td_Status delivery) to = true /\ ns (td_UpdatedAt delivery) <= ns at_ /\
  (to = DeliveryRetryWait -> exists t, retryAt = Some t /\ ns at_ < ns t) /\
  delivery' = {| delivery with
                 td_NextAttemptAt := if bool_decide (to = DeliveryRetryWait) then retryAt else None;
                 td_AttemptCount := if bool_decide (to = DeliverySending)
                                    then wrap_u32 (td_AttemptCount delivery + 1) else td_AttemptCount delivery;
                 td_Status := to;
                 td_UpdatedAt := at_ |}.
Proof.
  unfold TelegramDeliveryOutbox_Transition. intros H. peel_pair H. injection H as <-.
  apply negb_false_iff in E. apply before_false in E0. split_and!; try done.
  intros ->. rewrite bool_decide_eq_true_2 in E1 by done. cbn in E1. destruct retryAt as [t |]; [| done].
  exists t. split; [done |]. unfold after in E1. b2p. lia.
Qed.

Lemma delivery_transition_valid run delivery to at_ retryAt delivery' :
  TelegramDeliveryOutbox_ValidateForRun delivery run = None ->
  TelegramDeliveryOutbox_Transition (Some delivery) to at_ retryAt = (Some delivery', None) ->
  TelegramDeliveryOutbox_ValidateForRun delivery' run = None.
Proof.
  rewrite !delivery_valid_iff. intros (Hfix & _ & _ & Hup) (Hcan & Hat & Hretry & ->)%delivery_transition_inv.
  split; [exact Hfix |]. cbn. split; [by destruct (td_Status delivery), to |].
  split; [| lia]. case_bool_decide as Hto; [| done]. by destruct (Hretry Hto) as (t & -> & _).
Qed.

(** A sequence of calls on a delivery, and the statuses the accepted ones entered. *)
Fixpoint delivery_calls (delivery : TelegramDeliveryOutbox) (calls : list (DeliveryStatus * time * option time))
  : TelegramDeliveryOutbox * list DeliveryStatus :=
  match calls with
  | [] => (delivery, [])
  | (to, at_, retryAt) :: rest =>
      match TelegramDeliveryOutbox_Transition (Some delivery) to at_ retryAt with
      | (Some next, None) => let (last, path) := delivery_calls next rest in (last, to :: path)
      | _ => delivery_calls delivery rest
      end
  end.

Definition sends (path : list DeliveryStatus) : Z :=
  Z.of_nat (length (filter (fun status => status = DeliverySending) path)).

(** What the transitions leave alone. *)
Definition same_delivery (a b : TelegramDeliveryOutbox) : Prop :=
  {| a with td_NextAttemptAt := None; td_AttemptCount := 0; td_Status := DeliveryPending;
     td_UpdatedAt := td_CreatedAt a |}
  = {| b with td_NextAttemptAt := None; td_AttemptCount := 0; td_Status := DeliveryPending;
       td_UpdatedAt := td_CreatedAt b |}.

Lemma sends_cons status path :
  sends (status :: path) = (if bool_decide (status = DeliverySending) then 1 else 0) + sends path.
Proof. unfold sends. rewrite filter_cons. repeat case_decide; case_bool_decide; cbn [length]; (done || lia). Qed.

Lemma wrap_u32_add_l a b : wrap_u32 (wrap_u32 a + b) = wrap_u32 (a + b).
Proof. unfold wrap_u32. by rewrite Zplus_mod_idemp_l. Qed.

Lemma delivery_calls_inv run calls : forall delivery delivery' path,
  TelegramDeliveryOutbox_ValidateForRun delivery run = None -> u32 (td_AttemptCount delivery) ->
  delivery_calls delivery calls = (delivery', path) ->
  TelegramDeliveryOutbox_ValidateForRun delivery' run = None /\ same_delivery delivery delivery' /\
  ns (td_UpdatedAt delivery) <= ns (td_UpdatedAt delivery') /\
  td_AttemptCount delivery' = wrap_u32 (td_AttemptCount delivery + sends path).
Proof.
  induction calls as [| [[to at_] retryAt] calls IH]; intros delivery delivery' path Hv Hu H;
    cbn [delivery_calls] in H.
  { injection H as <- <-. split_and!; [done.. | lia |]. change (sends []) with 0. by rewrite Z.add_0_r, wrap_u32_small. }
  destruct (TelegramDeliveryOutbox_Transition (Some delivery) to at_ retryAt) as [[next |] [e |]] eqn:Ht;
    try by eapply IH.
  destruct (delivery_calls next calls) as [last rest] eqn:Hc. injection H as <- <-.
  pose proof (delivery_transition_valid _ _ _ _ _ _ Hv Ht) as Hv'.
  apply delivery_transition_inv in Ht as (_ & Hat & _ & ->).
  apply IH in Hc as (? & Hsame & Hup & Hcount); [| done |].
  - split_and!; [done | exact Hsame | cbn in Hup; lia |]. rewrite Hcount, sends_cons. cbn.
    case_bool_decide; [rewrite wrap_u32_add_l |]; f_equal; lia.
  - cbn. case_bool_decide; [apply wrap_u32_range | done].
Qed.

(** ** Theorems *)

(** A Telegram delivery counts its sends and ends once. After any
    sequence of transition calls on a delivery valid for its run, failing ones
    included: it is still valid for the run; its identity, chat, content and
    references are unchanged and its update time has not moved back; its counter
    has grown by the number of accepted entries into sending, modulo 2^32; in a
    terminal status every further call is refused and changes nothing, and in any
    other it can be cancelled at any time not before its last update. *)
Theorem delivery_lifecycle run delivery calls delivery' path :
  TelegramDeliveryOutbox_ValidateForRun delivery run = None -> u32 (td_AttemptCount delivery) ->
  delivery_calls delivery calls = (delivery', path) ->
  TelegramDeliveryOutbox_ValidateForRun delivery' run = None /\ same_delivery delivery delivery' /\
  ns (td_UpdatedAt delivery) <= ns (td_UpdatedAt delivery') /\
  td_AttemptCount delivery' = wrap_u32 (td_AttemptCount delivery + sends path) /\
  (DeliveryStatus_Terminal (td_Status delivery') = true ->
   forall to at_ retryAt,
     TelegramDeliveryOutbox_Transition (Some delivery') to at_ retryAt
     = (Some delivery', Some (ValidationError "telegram_delivery.status" "transition is not allowed"))) /\
  (DeliveryStatus_Terminal (td_Status delivery') = false ->
   forall at_ retryAt, ns (td_UpdatedAt delivery') <= ns at_ ->
     exists ended, TelegramDeliveryOutbox_Transition (Some delivery') DeliveryCancelled at_ retryAt = (Some ended, None) /\
                   td_Status ended = DeliveryCancelled /\ td_NextAttemptAt ended = None).
Proof.
  intros Hv Hu H. apply (delivery_calls_inv run) in H as (Hv' & Hsame & Hup & Hcount); [| done..].
  apply delivery_valid_iff in Hv' as Hiff. destruct Hiff as (_ & Hknown & _). split_and!; try done.
  - intros Hterm to at_ retryAt. unfold TelegramDeliveryOutbox_Transition. by destruct (td_Status delivery').
  - intros Hopen at_ retryAt Hat%before_false. unfold TelegramDeliveryOutbox_Transition. rewrite Hat.
    destruct (td_Status delivery'); cbn in Hopen, Hknown |- *; try done; by eexists.
Qed.

Definition sample_delivery : TelegramDeliveryOutbox :=
  {| td_ID := "delivery-1"; td_TenantID := "acme"; td_RunID := "run-1";
     td_Chat := {| tc_TenantID := "acme"; tc_ChatID := 7 |}; td_ReplyToMessageID := 3;
     td_Payload := {| br_TenantID := ""; br_Key := ""; br_Size := 0; br_SHA256 := "" |};
     td_Text := "done"; td_ArtifactManifestID := None; td_Projection := None; td_Status := DeliveryPending;
     td_IdempotencyKey := "key-1"; td_AttemptCount := 0; td_NextAttemptAt := None;
     td_CreatedAt := {| ns := 1000; loc := UTC |}; td_UpdatedAt := {| ns := 1000; loc := UTC |} |}.

Definition sample_calls : list (DeliveryStatus * time * option time) :=
  let at_ n := {| ns := n; loc := UTC |} in
  [(DeliverySending, at_ 2000, None); (DeliveryRetryWait, at_ 2500, Some (at_ 2500));
   (DeliveryRetryWait, at_ 2500, Some (at_ 9000)); (DeliverySending, at_ 9000, None); (DeliverySent, at_ 9500, None);
   (DeliverySending, at_ 9900, None)].

Lemma delivery_lifecycle_witness :
  TelegramDeliveryOutbox_ValidateForRun (fst (delivery_calls sample_delivery sample_calls)) sample_run = None /\
  td_AttemptCount (fst (delivery_calls sample_delivery sample_calls)) = 2.
Proof.
  destruct (delivery_lifecycle sample_run sample_delivery sample_calls _ _ ltac:(vm_compute; reflexivity)
              ltac:(vm_compute; split; discriminate) (surjective_pairing _)) as (Hv & _ & _ & Hcount & _).
  split; [exact Hv | etrans; [exact Hcount | vm_compute; reflexivity]].
Defined.
