(* ===== verification/Material.v ===== *)
(** * Session material prefixes ([internal/sessioncontext/material_prefix.go])

    The running summary of a session's history: counters and byte totals that
    saturate at the largest [int64], the reasons for which coverage is unknown,
    and a digest chained over every event.  [FoldSessionMaterialV1] adds one
    event.  The measure of a prepared payload is the value
    [MeasurePreparedRecordV1] returns. *)

From S2P Require Import Prelude GoText GoTime Sha256 Json Digests Errors Identity Blobs Sessions.
From Stdlib Require Import btauto.Btauto.
#[local] Open Scope Z_scope.

Definition MaxSessionMaterialPrefixBytesV1 : Z := 8192.
Definition MaxMeasuredPayloadBytesV1 : Z := 1048576.
Definition MaxMeasuredMetadataBytesV1 : Z := 8192.
Definition MaxMeasuredEncodedRecordBytesV1 : Z := MaxMeasuredPayloadBytesV1 + MaxMeasuredMetadataBytesV1.
Definition RecordSchemaV1 : string := "sessionless.context-event.v1".
Definition ContractV1 : string := "codex-text-v1".
Definition MaxFrameBytesV1 : Z := 1048576.

Inductive SessionMaterialCoverageV1 :=
| SessionMaterialCompleteV1 | SessionMaterialUnknownV1 | SessionMaterialCoverageOther (s : string).

#[global] Instance SessionMaterialCoverageV1_eq_dec : EqDecision SessionMaterialCoverageV1.
Proof. solve_decision. Defined.

(** The reasons are the bits of a [uint32]. *)
Definition SessionMaterialLegacyV1 : Z := 1.
Definition SessionMaterialMissingInvalidV1 : Z := 2.
Definition SessionMaterialUnsupportedV1 : Z := 4.
Definition SessionMaterialNonRoundTripV1 : Z := 8.
Definition SessionMaterialSaturatedV1 : Z := 16.
Definition materialReasonMask : Z := 31.

Definition ErrSessionMaterialPrefix : error := PlainError "canonical material prefix invalid" None.

Record SessionMaterialContributionV1 := {
  mc_Version : Z;
  mc_EventID : string;
  mc_Sequence : Z;
  mc_Kind : SessionEventKind;
  mc_IdentityDigest : string;
  mc_RecordDigest : string;
  mc_Verified : bool;
  mc_PayloadBytes : Z;
  mc_EncodedRecordBytes : Z;
  mc_ToolEnvelopeBytes : Z;
  mc_AttachmentCount : Z;
  mc_ReferencedAttachmentBytes : Z;
  mc_CodexCompatible : bool;
  mc_RenderedFrameBytes : Z }.

#[global] Instance SessionMaterialContributionV1_eq_dec : EqDecision SessionMaterialContributionV1.
Proof. solve_decision. Defined.

Record SessionMaterialPrefixV1 := {
  mp_Version : Z;
  mp_TenantID : string;
  mp_SessionID : string;
  mp_ThroughSequence : Z;
  mp_LastEventID : string;
  mp_RecordSchema : string;
  mp_RendererContract : string;
  mp_Coverage : SessionMaterialCoverageV1;
  mp_UnknownReasons : Z;
  mp_PrefixDigest : string;
  mp_LastContribution : option SessionMaterialContributionV1;
  mp_UserMessageCount : Z;
  mp_AssistantMessageCount : Z;
  mp_ToolCallCount : Z;
  mp_ToolResultCount : Z;
  mp_SystemNoticeCount : Z;
  mp_VerifiedPayloadBytes : Z;
  mp_EncodedJSONLBytes : Z;
  mp_MaxEncodedRecordBytes : Z;
  mp_ToolEnvelopeBytes : Z;
  mp_AttachmentCount : Z;
  mp_ReferencedAttachmentBytes : Z;
  mp_CodexCompatibleRecords : Z;
  mp_CodexIncompatibleRecords : Z;
  mp_RenderedFrameBytes : Z;
  mp_UnknownRecords : Z }.

#[global] Instance SessionMaterialPrefixV1_eq_dec : EqDecision SessionMaterialPrefixV1.
Proof. solve_decision. Defined.

(** [EqualSessionMaterialPrefixV1] compares the fields and the pointees: equality. *)
Definition EqualSessionMaterialPrefixV1 (a b : SessionMaterialPrefixV1) : bool := bool_decide (a = b).

(** ** Measures ([internal/sessionmaterial/prepared.go], [record_measure.go],
    [prepared_measure.go]) *)

Record MeasuresV1 := {
  ms_Kind : SessionEventKind;
  ms_PayloadBytes : Z;
  ms_ToolEnvelopeBytes : Z;
  ms_AttachmentCount : Z;
  ms_ReferencedAttachmentBytes : Z;
  ms_CodexCompatible : bool;
  ms_RenderedFrameBytes : Z }.

Record RecordMeasureV1 := {
  rm_event : SessionEvent;
  rm_encodedBytes : Z;
  rm_digest : string;
  rm_verified : bool }.

Record FinalMaterialMeasureV1 := {
  fm_record : RecordMeasureV1;
  fm_measures : MeasuresV1;
  fm_verified : bool }.

Definition sameMeasuredEvent (left right : SessionEvent) : bool :=
  String.eqb (se_ID left) (se_ID right) && String.eqb (se_TenantID left) (se_TenantID right) &&
  String.eqb (se_SessionID left) (se_SessionID right) && (se_Sequence left =? se_Sequence right) &&
  bool_decide (se_Kind left = se_Kind right) &&
  String.eqb (se_IdempotencyKey left) (se_IdempotencyKey right) &&
  bool_decide (se_Payload left = se_Payload right) &&
  time_equal (se_CreatedAt left) (se_CreatedAt right) &&
  equal_optional (se_AuthorUserID left) (se_AuthorUserID right) &&
  equal_optional (se_RunID left) (se_RunID right).

Definition RecordMeasureV1_Matches (measure : RecordMeasureV1) (event : SessionEvent) : bool :=
  rm_verified measure && sameMeasuredEvent (rm_event measure) event &&
  String.eqb (rfc3339_nano (se_CreatedAt (rm_event measure))) (rfc3339_nano (se_CreatedAt event)).

Definition FinalMaterialMeasureV1_Matches (measure : FinalMaterialMeasureV1) (event : SessionEvent) : bool :=
  fm_verified measure && RecordMeasureV1_Matches (fm_record measure) event.

(** ** Hash frames *)

Definition put_uint64 (value : Z) : string := string_of (be_bytes 8 value).

Definition materialFrame (value : string) : string := put_uint64 (len value) +:+ value.
Definition materialUint (value : Z) : string := materialFrame (put_uint64 value).

Definition materialSeedDigest (domainName tenantID sessionID : string) (sequence : Z) : string :=
  sha256_hex (materialFrame domainName +:+ materialFrame tenantID +:+ materialFrame sessionID
              +:+ materialUint sequence).

Definition frame_optional (p : option string) : string :=
  match p with
  | None => materialFrame "absent"
  | Some v => materialFrame "present" +:+ materialFrame v
  end.

Definition materialIdentityDigest (e : SessionEvent) : string :=
  sha256_hex
    (materialFrame "sessionless.session-material.final-identity.v1"
     +:+ materialFrame (se_ID e) +:+ materialFrame (se_TenantID e) +:+ materialFrame (se_SessionID e)
     +:+ materialUint (se_Sequence e) +:+ materialFrame (SessionEventKind_text (se_Kind e))
     +:+ frame_optional (se_AuthorUserID e) +:+ frame_optional (se_RunID e)
     +:+ materialFrame (se_IdempotencyKey e) +:+ materialFrame (br_TenantID (se_Payload e))
     +:+ materialFrame (br_Key (se_Payload e))
     +:+ materialUint (wrap_u64 (br_Size (se_Payload e))) +:+ materialFrame (br_SHA256 (se_Payload e))
     +:+ materialFrame (rfc3339_nano (to_utc (se_CreatedAt e)))
     +:+ materialFrame (rfc3339_nano (se_CreatedAt e))).

(** [materialDigest] is written as [derivedDigestValid]: 64 lower-case digits. *)
Definition materialDigest (value : string) : bool := (len value =? 64) && all_bytes is_lower_hex value.

#[global] Arguments materialDigest : simpl never.
#[global] Arguments materialSeedDigest : simpl never.

(** ** Seeds *)

Definition materialBase (tenantID sessionID : string) : SessionMaterialPrefixV1 :=
  {| mp_Version := 1; mp_TenantID := tenantID; mp_SessionID := sessionID; mp_ThroughSequence := 0;
     mp_LastEventID := ""; mp_RecordSchema := RecordSchemaV1; mp_RendererContract := ContractV1;
     mp_Coverage := SessionMaterialCompleteV1; mp_UnknownReasons := 0; mp_PrefixDigest := "";
     mp_LastContribution := None; mp_UserMessageCount := 0; mp_AssistantMessageCount := 0;
     mp_ToolCallCount := 0; mp_ToolResultCount := 0; mp_SystemNoticeCount := 0;
     mp_VerifiedPayloadBytes := 0; mp_EncodedJSONLBytes := 0; mp_MaxEncodedRecordBytes := 0;
     mp_ToolEnvelopeBytes := 0; mp_AttachmentCount := 0; mp_ReferencedAttachmentBytes := 0;
     mp_CodexCompatibleRecords := 0; mp_CodexIncompatibleRecords := 0; mp_RenderedFrameBytes := 0;
     mp_UnknownRecords := 0 |}.

(** The zero value of the struct, returned with an error. *)
Definition zero_prefix : SessionMaterialPrefixV1 :=
  let p := materialBase "" "" in
  {| p with mp_Version := 0; mp_RecordSchema := ""; mp_RendererContract := "";
            mp_Coverage := SessionMaterialCoverageOther "" |}.

Definition genesis_prefix (tenantID sessionID : string) : SessionMaterialPrefixV1 :=
  let p := materialBase tenantID sessionID in
  {| p with
     mp_PrefixDigest := materialSeedDigest "sessionless.session-material.genesis.v1" tenantID sessionID 0 |}.

Definition NewSessionMaterialGenesisV1 (tenantID sessionID : string)
  : SessionMaterialPrefixV1 * option error :=
  reject notnil (TenantID_Validate tenantID) || notnil (SessionID_Validate sessionID)
    with ErrSessionMaterialPrefix leaving zero_prefix ;!
  (genesis_prefix tenantID sessionID, None).

Definition NewUnknownSessionMaterialPrefixV1 (tenantID sessionID : string) (priorSequence : Z)
  : SessionMaterialPrefixV1 * option error :=
  match NewSessionMaterialGenesisV1 tenantID sessionID with
  | (_, Some err) => (zero_prefix, Some err)
  | (p, None) =>
      ({| p with mp_ThroughSequence := priorSequence; mp_Coverage := SessionMaterialUnknownV1;
          mp_UnknownReasons :=
            if priorSequence >? max_i64 then Z.lor SessionMaterialLegacyV1 SessionMaterialSaturatedV1
            else SessionMaterialLegacyV1;
          mp_UnknownRecords := Z.min priorSequence max_i64;
          mp_PrefixDigest := materialSeedDigest "sessionless.session-material.unknown-legacy.v1"
                               tenantID sessionID priorSequence |}, None)
  end.

(** ** Validation *)

Definition SessionMaterialContributionV1_validate (c : SessionMaterialContributionV1) : option error :=
  reject negb (mc_Version c =? 1) || notnil (SessionEventID_Validate (mc_EventID c))
         || (mc_Sequence c =? 0) || negb (SessionEventKind_Valid (mc_Kind c))
         || negb (materialDigest (mc_IdentityDigest c))
    with ErrSessionMaterialPrefix ;!
  if negb (mc_Verified c) then
    reject negb (String.eqb (mc_RecordDigest c) "") || negb (mc_PayloadBytes c =? 0)
           || negb (mc_EncodedRecordBytes c =? 0) || negb (mc_ToolEnvelopeBytes c =? 0)
           || negb (mc_AttachmentCount c =? 0) || negb (mc_ReferencedAttachmentBytes c =? 0)
           || mc_CodexCompatible c || negb (mc_RenderedFrameBytes c =? 0)
      with ErrSessionMaterialPrefix ;!
    None
  else
    reject negb (materialDigest (mc_RecordDigest c)) || (mc_PayloadBytes c =? 0)
           || (mc_PayloadBytes c >? MaxMeasuredPayloadBytesV1)
           || (mc_EncodedRecordBytes c <? mc_PayloadBytes c)
           || (mc_EncodedRecordBytes c >? MaxMeasuredEncodedRecordBytesV1)
           || (mc_AttachmentCount c >? 64) || (mc_ReferencedAttachmentBytes c >? max_i64)
      with ErrSessionMaterialPrefix ;!
    let isTool := bool_decide (mc_Kind c = SessionEventToolCall)
                  || bool_decide (mc_Kind c = SessionEventToolResult) in
    reject (isTool && negb (mc_ToolEnvelopeBytes c =? mc_PayloadBytes c))
           || (negb isTool && negb (mc_ToolEnvelopeBytes c =? 0))
           || (negb (bool_decide (mc_Kind c = SessionEventUserMessage)) && negb (mc_AttachmentCount c =? 0))
           || ((mc_AttachmentCount c =? 0) && negb (mc_ReferencedAttachmentBytes c =? 0))
      with ErrSessionMaterialPrefix ;!
    if mc_CodexCompatible c then
      reject (negb (bool_decide (mc_Kind c = SessionEventUserMessage))
              && negb (bool_decide (mc_Kind c = SessionEventAssistantMessage)))
             || negb (mc_AttachmentCount c =? 0) || (mc_RenderedFrameBytes c =? 0)
             || (mc_RenderedFrameBytes c >? MaxFrameBytesV1)
        with ErrSessionMaterialPrefix ;!
      None
    else
      reject negb (mc_RenderedFrameBytes c =? 0) with ErrSessionMaterialPrefix ;!
      None.

Definition kindCount (p : SessionMaterialPrefixV1) (k : SessionEventKind) : Z :=
  match k with
  | SessionEventUserMessage => mp_UserMessageCount p
  | SessionEventAssistantMessage => mp_AssistantMessageCount p
  | SessionEventToolCall => mp_ToolCallCount p
  | SessionEventToolResult => mp_ToolResultCount p
  | SessionEventSystemNotice => mp_SystemNoticeCount p
  | SessionEventKindUnknown _ => 0
  end.

Fixpoint material_remaining (remaining : Z) (values : list Z) : option Z :=
  match values with
  | [] => Some remaining
  | v :: r => if v >? remaining then None else material_remaining (remaining - v) r
  end.

(** [None] is [(0, false)]. *)
Definition materialSumWithin (ceiling : Z) (values : list Z) : option Z :=
  match material_remaining ceiling values with
  | None => None
  | Some remaining => Some (ceiling - remaining)
  end.

Definition material_counters (p : SessionMaterialPrefixV1) : list Z :=
  [mp_UserMessageCount p; mp_AssistantMessageCount p; mp_ToolCallCount p; mp_ToolResultCount p;
   mp_SystemNoticeCount p; mp_VerifiedPayloadBytes p; mp_EncodedJSONLBytes p; mp_MaxEncodedRecordBytes p;
   mp_ToolEnvelopeBytes p; mp_AttachmentCount p; mp_ReferencedAttachmentBytes p;
   mp_CodexCompatibleRecords p; mp_CodexIncompatibleRecords p; mp_RenderedFrameBytes p; mp_UnknownRecords p].

(** [reasons & bits != 0]. *)
Definition has_reason (p : SessionMaterialPrefixV1) (bits : Z) : bool :=
  negb (Z.land (mp_UnknownReasons p) bits =? 0).

Definition invalidMask : Z :=
  Z.lor SessionMaterialMissingInvalidV1 (Z.lor SessionMaterialUnsupportedV1 SessionMaterialNonRoundTripV1).

(** The part of [Validate] after the seed records, on a record with a last event
    and a last contribution [c]. *)
Definition folded_validate (p : SessionMaterialPrefixV1) (c : SessionMaterialContributionV1) : option error :=
  reject (mp_ThroughSequence p =? 0) || notnil (SessionEventID_Validate (mp_LastEventID p))
         || notnil (SessionMaterialContributionV1_validate c)
         || negb (String.eqb (mc_EventID c) (mp_LastEventID p))
         || negb (mc_Sequence c =? mp_ThroughSequence p)
    with ErrSessionMaterialPrefix ;!
  match materialSumWithin (mp_ThroughSequence p)
          [mp_UserMessageCount p; mp_AssistantMessageCount p; mp_ToolCallCount p; mp_ToolResultCount p;
           mp_SystemNoticeCount p],
        materialSumWithin (mp_ThroughSequence p)
          [mp_CodexCompatibleRecords p; mp_CodexIncompatibleRecords p; mp_UnknownRecords p] with
  | Some kindSum, Some renderSum =>
      reject (negb (has_reason p SessionMaterialSaturatedV1) && negb (renderSum =? mp_ThroughSequence p))
             || (negb (has_reason p (Z.lor SessionMaterialLegacyV1 SessionMaterialSaturatedV1))
                 && negb (kindSum =? mp_ThroughSequence p))
             || (bool_decide (mp_Coverage p = SessionMaterialCompleteV1)
                 && (negb (kindSum =? mp_ThroughSequence p) || negb (renderSum =? mp_ThroughSequence p)
                     || negb (mp_UnknownRecords p =? 0)))
        with ErrSessionMaterialPrefix ;!
      reject (mp_MaxEncodedRecordBytes p >? MaxMeasuredEncodedRecordBytesV1)
             || (mp_MaxEncodedRecordBytes p >? mp_EncodedJSONLBytes p)
             || negb (Bool.eqb (mp_EncodedJSONLBytes p =? 0) (mp_MaxEncodedRecordBytes p =? 0))
             || (mp_VerifiedPayloadBytes p >? mp_EncodedJSONLBytes p)
             || (mp_ToolEnvelopeBytes p >? mp_VerifiedPayloadBytes p)
             || ((mp_AttachmentCount p =? 0) && negb (mp_ReferencedAttachmentBytes p =? 0))
             || ((mp_CodexCompatibleRecords p =? 0) && negb (mp_RenderedFrameBytes p =? 0))
             || (mp_RenderedFrameBytes p <? mp_CodexCompatibleRecords p)
        with ErrSessionMaterialPrefix ;!
      reject (mp_CodexCompatibleRecords p =? 0) && (mp_CodexIncompatibleRecords p =? 0)
             && (negb (mp_VerifiedPayloadBytes p =? 0) || negb (mp_EncodedJSONLBytes p =? 0)
                 || negb (mp_ToolEnvelopeBytes p =? 0) || negb (mp_AttachmentCount p =? 0)
                 || negb (mp_ReferencedAttachmentBytes p =? 0))
        with ErrSessionMaterialPrefix ;!
      reject ((negb (mp_CodexCompatibleRecords p =? 0) || negb (mp_CodexIncompatibleRecords p =? 0))
              && ((mp_VerifiedPayloadBytes p =? 0) || (mp_EncodedJSONLBytes p =? 0)))
             || (negb (mp_AttachmentCount p =? 0) && (mp_CodexIncompatibleRecords p =? 0))
             || (negb (mp_ToolEnvelopeBytes p =? 0) && (mp_ToolCallCount p =? 0) && (mp_ToolResultCount p =? 0))
        with ErrSessionMaterialPrefix ;!
      reject (mp_CodexCompatibleRecords p >? wrap_u64 (mp_UserMessageCount p + mp_AssistantMessageCount p))
             || (negb (mp_AttachmentCount p =? 0) && (mp_UserMessageCount p =? 0))
             || (negb (mp_ToolEnvelopeBytes p =? 0) && (mp_CodexIncompatibleRecords p =? 0))
        with ErrSessionMaterialPrefix ;!
      reject (negb (mp_UnknownRecords p =? 0) && (mp_UnknownReasons p =? 0))
             || (has_reason p invalidMask && (mp_UnknownRecords p =? 0))
        with ErrSessionMaterialPrefix ;!
      reject negb (mc_Verified c) && (negb (has_reason p invalidMask) || (mp_UnknownRecords p =? 0))
        with ErrSessionMaterialPrefix ;!
      reject (kindCount p (mc_Kind c) =? 0) || (mc_PayloadBytes c >? mp_VerifiedPayloadBytes p)
             || (mc_EncodedRecordBytes c >? mp_MaxEncodedRecordBytes p)
             || (mc_ToolEnvelopeBytes c >? mp_ToolEnvelopeBytes p)
             || (mc_AttachmentCount c >? mp_AttachmentCount p)
             || (mc_ReferencedAttachmentBytes c >? mp_ReferencedAttachmentBytes p)
             || (mc_RenderedFrameBytes c >? mp_RenderedFrameBytes p)
             || (mc_Verified c
                 && ((mc_CodexCompatible c && (mp_CodexCompatibleRecords p =? 0))
                     || (negb (mc_CodexCompatible c) && (mp_CodexIncompatibleRecords p =? 0))))
        with ErrSessionMaterialPrefix ;!
      None
  | _, _ => Some ErrSessionMaterialPrefix
  end.

Definition seed_expected (p : SessionMaterialPrefixV1) : SessionMaterialPrefixV1 :=
  if bool_decide (mp_Coverage p = SessionMaterialCompleteV1) && (mp_ThroughSequence p =? 0)
  then fst (NewSessionMaterialGenesisV1 (mp_TenantID p) (mp_SessionID p))
  else fst (NewUnknownSessionMaterialPrefixV1 (mp_TenantID p) (mp_SessionID p) (mp_ThroughSequence p)).

Definition SessionMaterialPrefixV1_Validate (p : SessionMaterialPrefixV1) : option error :=
  reject negb (mp_Version p =? 1) || notnil (TenantID_Validate (mp_TenantID p))
         || notnil (SessionID_Validate (mp_SessionID p))
         || negb (String.eqb (mp_RecordSchema p) RecordSchemaV1)
         || negb (String.eqb (mp_RendererContract p) ContractV1)
         || negb (materialDigest (mp_PrefixDigest p))
         || has_reason p (max_u32 - materialReasonMask)
         || (negb (bool_decide (mp_Coverage p = SessionMaterialCompleteV1))
             && negb (bool_decide (mp_Coverage p = SessionMaterialUnknownV1)))
         || negb (Bool.eqb (bool_decide (mp_Coverage p = SessionMaterialCompleteV1)) (mp_UnknownReasons p =? 0))
    with ErrSessionMaterialPrefix ;!
  reject existsb (fun v => v >? max_i64) (material_counters p) with ErrSessionMaterialPrefix ;!
  reject has_reason p SessionMaterialSaturatedV1
         && negb (existsb (fun v => v =? max_i64) (material_counters p))
    with ErrSessionMaterialPrefix ;!
  match mp_LastContribution p with
  | Some c =>
      if String.eqb (mp_LastEventID p) "" then
        reject negb (EqualSessionMaterialPrefixV1 p (seed_expected p)) with ErrSessionMaterialPrefix ;!
        None
      else folded_validate p c
  | None =>
      reject negb (EqualSessionMaterialPrefixV1 p (seed_expected p)) with ErrSessionMaterialPrefix ;!
      None
  end.

(** ** Encoding *)

Definition json_contribution (c : SessionMaterialContributionV1) : json :=
  JObj [("version", JNum (mc_Version c)); ("event_id", JStr (mc_EventID c)); ("sequence", JNum (mc_Sequence c));
        ("kind", JStr (SessionEventKind_text (mc_Kind c))); ("identity_digest", JStr (mc_IdentityDigest c));
        ("record_digest", JStr (mc_RecordDigest c)); ("verified", JBool (mc_Verified c));
        ("payload_bytes", JNum (mc_PayloadBytes c)); ("encoded_record_bytes", JNum (mc_EncodedRecordBytes c));
        ("tool_envelope_bytes", JNum (mc_ToolEnvelopeBytes c)); ("attachment_count", JNum (mc_AttachmentCount c));
        ("referenced_attachment_bytes", JNum (mc_ReferencedAttachmentBytes c));
        ("codex_compatible", JBool (mc_CodexCompatible c)); ("rendered_frame_bytes", JNum (mc_RenderedFrameBytes c))].

Definition SessionMaterialCoverageV1_text (c : SessionMaterialCoverageV1) : string :=
  match c with
  | SessionMaterialCompleteV1 => "complete"
  | SessionMaterialUnknownV1 => "unknown"
  | SessionMaterialCoverageOther s => s
  end.

Definition json_prefix (p : SessionMaterialPrefixV1) : json :=
  JObj ([("version", JNum (mp_Version p)); ("tenant_id", JStr (mp_TenantID p)); ("session_id", JStr (mp_SessionID p));
         ("through_sequence", JNum (mp_ThroughSequence p))]
        ++ (if String.eqb (mp_LastEventID p) "" then [] else [("last_event_id", JStr (mp_LastEventID p))])
        ++ [("record_schema", JStr (mp_RecordSchema p)); ("renderer_contract", JStr (mp_RendererContract p));
            ("coverage", JStr (SessionMaterialCoverageV1_text (mp_Coverage p)));
            ("unknown_reasons", JNum (mp_UnknownReasons p)); ("prefix_digest", JStr (mp_PrefixDigest p))]
        ++ omitempty "last_contribution" json_contribution (mp_LastContribution p)
        ++ [("user_message_count", JNum (mp_UserMessageCount p));
            ("assistant_message_count", JNum (mp_AssistantMessageCount p));
            ("tool_call_count", JNum (mp_ToolCallCount p)); ("tool_result_count", JNum (mp_ToolResultCount p));
            ("system_notice_count", JNum (mp_SystemNoticeCount p));
            ("verified_payload_bytes", JNum (mp_VerifiedPayloadBytes p));
            ("encoded_jsonl_bytes", JNum (mp_EncodedJSONLBytes p));
            ("max_encoded_record_bytes", JNum (mp_MaxEncodedRecordBytes p));
            ("tool_envelope_bytes", JNum (mp_ToolEnvelopeBytes p)); ("attachment_count", JNum (mp_AttachmentCount p));
            ("referenced_attachment_bytes", JNum (mp_ReferencedAttachmentBytes p));
            ("codex_compatible_records", JNum (mp_CodexCompatibleRecords p));
            ("codex_incompatible_records", JNum (mp_CodexIncompatibleRecords p));
            ("rendered_frame_bytes", JNum (mp_RenderedFrameBytes p)); ("unknown_records", JNum (mp_UnknownRecords p))]).

Definition EncodeSessionMaterialPrefixV1 (p : SessionMaterialPrefixV1) : error + string :=
  if notnil (SessionMaterialPrefixV1_Validate p) then inl ErrSessionMaterialPrefix
  else let encoded := marshal (json_prefix p) in
       if len encoded >? MaxSessionMaterialPrefixBytesV1 then inl ErrSessionMaterialPrefix else inr encoded.

(** ** The fold *)

Definition contribution (event : SessionEvent) (measure : option FinalMaterialMeasureV1)
  : SessionMaterialContributionV1 :=
  let c := {| mc_Version := 1; mc_EventID := se_ID event; mc_Sequence := se_Sequence event;
              mc_Kind := se_Kind event; mc_IdentityDigest := materialIdentityDigest event;
              mc_RecordDigest := ""; mc_Verified := false; mc_PayloadBytes := 0; mc_EncodedRecordBytes := 0;
              mc_ToolEnvelopeBytes := 0; mc_AttachmentCount := 0; mc_ReferencedAttachmentBytes := 0;
              mc_CodexCompatible := false; mc_RenderedFrameBytes := 0 |} in
  match measure with
  | None => c
  | Some measure =>
      let r := fm_record measure in
      let m := fm_measures measure in
      if FinalMaterialMeasureV1_Matches measure event && fm_verified measure && rm_verified r
         && (rm_encodedBytes r >? 0) && bool_decide (ms_Kind m = se_Kind event)
      then {| c with mc_RecordDigest := rm_digest r; mc_Verified := true;
              mc_PayloadBytes := ms_PayloadBytes m; mc_EncodedRecordBytes := wrap_u64 (rm_encodedBytes r);
              mc_ToolEnvelopeBytes := ms_ToolEnvelopeBytes m; mc_AttachmentCount := ms_AttachmentCount m;
              mc_ReferencedAttachmentBytes := ms_ReferencedAttachmentBytes m;
              mc_CodexCompatible := ms_CodexCompatible m; mc_RenderedFrameBytes := ms_RenderedFrameBytes m |}
      else c
  end.

(** The closure [add(&next.Field, amount)]: [get] and [set] are the field. *)
Definition add_to (get : SessionMaterialPrefixV1 -> Z)
  (set : Z -> SessionMaterialPrefixV1 -> SessionMaterialPrefixV1) (amount : Z)
  (next : SessionMaterialPrefixV1) : SessionMaterialPrefixV1 :=
  if amount >? wrap_u64 (max_i64 - get next)
  then let next := set max_i64 next in
       {| next with mp_UnknownReasons := Z.lor (mp_UnknownReasons next) SessionMaterialSaturatedV1 |}
  else set (wrap_u64 (get next + amount)) next.

Definition add_kind (kind : SessionEventKind) (next : SessionMaterialPrefixV1) : SessionMaterialPrefixV1 :=
  match kind with
  | SessionEventUserMessage =>
      add_to mp_UserMessageCount (fun v p => {| p with mp_UserMessageCount := v |}) 1 next
  | SessionEventAssistantMessage =>
      add_to mp_AssistantMessageCount (fun v p => {| p with mp_AssistantMessageCount := v |}) 1 next
  | SessionEventToolCall => add_to mp_ToolCallCount (fun v p => {| p with mp_ToolCallCount := v |}) 1 next
  | SessionEventToolResult => add_to mp_ToolResultCount (fun v p => {| p with mp_ToolResultCount := v |}) 1 next
  | SessionEventSystemNotice =>
      add_to mp_SystemNoticeCount (fun v p => {| p with mp_SystemNoticeCount := v |}) 1 next
  | SessionEventKindUnknown _ => next
  end.

Definition add_unknown (next : SessionMaterialPrefixV1) : SessionMaterialPrefixV1 :=
  add_to mp_UnknownRecords (fun v p => {| p with mp_UnknownRecords := v |}) 1
    {| next with mp_UnknownReasons := Z.lor (mp_UnknownReasons next) SessionMaterialMissingInvalidV1 |}.

Definition add_payload (c : SessionMaterialContributionV1) : SessionMaterialPrefixV1 -> SessionMaterialPrefixV1 :=
  add_to mp_VerifiedPayloadBytes (fun v p => {| p with mp_VerifiedPayloadBytes := v |}) (mc_PayloadBytes c).

Definition add_encoded (c : SessionMaterialContributionV1) : SessionMaterialPrefixV1 -> SessionMaterialPrefixV1 :=
  add_to mp_EncodedJSONLBytes (fun v p => {| p with mp_EncodedJSONLBytes := v |}) (mc_EncodedRecordBytes c).

Definition max_encoded (c : SessionMaterialContributionV1) (next : SessionMaterialPrefixV1)
  : SessionMaterialPrefixV1 :=
  {| next with mp_MaxEncodedRecordBytes := Z.max (mp_MaxEncodedRecordBytes next) (mc_EncodedRecordBytes c) |}.

Definition add_tool (c : SessionMaterialContributionV1) : SessionMaterialPrefixV1 -> SessionMaterialPrefixV1 :=
  add_to mp_ToolEnvelopeBytes (fun v p => {| p with mp_ToolEnvelopeBytes := v |}) (mc_ToolEnvelopeBytes c).

Definition add_attachments (c : SessionMaterialContributionV1)
  : SessionMaterialPrefixV1 -> SessionMaterialPrefixV1 :=
  add_to mp_AttachmentCount (fun v p => {| p with mp_AttachmentCount := v |}) (mc_AttachmentCount c).

Definition add_referenced (c : SessionMaterialContributionV1)
  : SessionMaterialPrefixV1 -> SessionMaterialPrefixV1 :=
  add_to mp_ReferencedAttachmentBytes (fun v p => {| p with mp_ReferencedAttachmentBytes := v |})
    (mc_ReferencedAttachmentBytes c).

Definition add_rendered (c : SessionMaterialContributionV1) (next : SessionMaterialPrefixV1)
  : SessionMaterialPrefixV1 :=
  if mc_CodexCompatible c then
    add_to mp_RenderedFrameBytes (fun v p => {| p with mp_RenderedFrameBytes := v |}) (mc_RenderedFrameBytes c)
      (add_to mp_CodexCompatibleRecords (fun v p => {| p with mp_CodexCompatibleRecords := v |}) 1 next)
  else
    add_to mp_CodexIncompatibleRecords (fun v p => {| p with mp_CodexIncompatibleRecords := v |}) 1 next.

(** The two branches on [c.Verified], each update in the order of the code. *)
Definition add_contribution (c : SessionMaterialContributionV1) (next : SessionMaterialPrefixV1)
  : SessionMaterialPrefixV1 :=
  if negb (mc_Verified c) then add_unknown next
  else add_rendered c (add_referenced c (add_attachments c (add_tool c (max_encoded c
         (add_encoded c (add_payload c next)))))).

Definition fold_digest (previous : SessionMaterialPrefixV1) (previousEncoded : string)
  (c : SessionMaterialContributionV1) : string :=
  sha256_hex
    (materialFrame "sessionless.session-material.fold.v1" +:+ materialFrame (mp_PrefixDigest previous)
     +:+ materialFrame previousEncoded +:+ materialFrame (mc_IdentityDigest c)
     +:+ materialFrame (mc_RecordDigest c)
     +:+ materialFrame (if negb (mc_Verified c) then "unknown-contribution.v1" else "verified-contribution.v1")
     +:+ materialFrame (marshal (json_contribution c))).

(** The record before its digest is set. *)
Definition fold_next (previous : SessionMaterialPrefixV1) (event : SessionEvent)
  (c : SessionMaterialContributionV1) : SessionMaterialPrefixV1 :=
  let next := {| previous with mp_ThroughSequence := se_Sequence event; mp_LastEventID := se_ID event;
                               mp_LastContribution := Some c |} in
  let next := add_contribution c (add_kind (se_Kind event) next) in
  if negb (mp_UnknownReasons next =? 0) then {| next with mp_Coverage := SessionMaterialUnknownV1 |} else next.

Definition FoldSessionMaterialV1 (previous : SessionMaterialPrefixV1) (event : SessionEvent)
  (measure : option FinalMaterialMeasureV1) : error + SessionMaterialPrefixV1 :=
  if notnil (SessionMaterialPrefixV1_Validate previous) || notnil (SessionEvent_Validate event)
     || negb (String.eqb (mp_TenantID previous) (se_TenantID event))
     || negb (String.eqb (mp_SessionID previous) (se_SessionID event))
     || (mp_ThroughSequence previous =? max_u64)
     || negb (se_Sequence event =? wrap_u64 (mp_ThroughSequence previous + 1))
  then inl ErrSessionMaterialPrefix
  else
    let c := contribution event measure in
    if notnil (SessionMaterialContributionV1_validate c) then inl ErrSessionMaterialPrefix
    else
      let next := fold_next previous event c in
      match EncodeSessionMaterialPrefixV1 previous with
      | inl _ => inl ErrSessionMaterialPrefix
      | inr previousEncoded =>
          let next := {| next with mp_PrefixDigest := fold_digest previous previousEncoded c |} in
          if notnil (SessionMaterialPrefixV1_Validate next) then inl ErrSessionMaterialPrefix
          else inr next
      end.

Example fold_twice :
  match NewSessionMaterialGenesisV1 "acme" "s1" with
  | (p, None) =>
      match FoldSessionMaterialV1 p Sample.event None with
      | inr p => (mp_ThroughSequence p, mp_UserMessageCount p, mp_UnknownReasons p) = (1, 1, 2)
      | inl _ => False
      end
  | _ => False
  end.
Proof. vm_compute. reflexivity. Qed.

(** ** Reasons *)

Lemma lor_eqb_0 a b : (Z.lor a b =? 0) = (a =? 0) && (b =? 0).
Proof.
  pose proof (Z.lor_eq_0_iff a b).
  destruct (Z.lor a b =? 0) eqn:?, (a =? 0) eqn:?, (b =? 0) eqn:?; b2p; naive_solver.
Qed.

Lemma u32_lor a b : u32 a -> u32 b -> u32 (Z.lor a b).
Proof.
  unfold u32. intros Ha Hb. split; [apply Z.lor_nonneg; lia |].
  assert (forall x, 0 <= x <= max_u32 -> Z.log2 x < 32) as Hl.
  { intros x Hx. destruct (decide (x = 0)) as [-> |]; [done |]. apply Z.log2_lt_pow2; unfold max_u32 in *; lia. }
  destruct (decide (Z.lor a b = 0)) as [-> | Hne]; [done |].
  assert (0 <= Z.lor a b) by (apply Z.lor_nonneg; lia).
  assert (Z.lor a b < 2 ^ 32); [| unfold max_u32; lia].
  apply Z.log2_lt_pow2; [lia |]. rewrite Z.log2_lor by lia. pose proof (Hl a). pose proof (Hl b). lia.
Qed.

Lemma land_lor_eqb_0 a b c : (Z.land (Z.lor a b) c =? 0) = (Z.land a c =? 0) && (Z.land b c =? 0).
Proof. by rewrite Z.land_lor_distr_l, lor_eqb_0. Qed.

(** What [add] adds to the reasons: the saturation bit, when the sum does not fit. *)
Definition sat_bit (value amount : Z) : Z :=
  if value + amount >? max_i64 then SessionMaterialSaturatedV1 else 0.

Lemma sat_bit_eqb_0 v a : (sat_bit v a =? 0) = negb (v + a >? max_i64).
Proof. unfold sat_bit. by destruct (_ >? _). Qed.

Lemma u32_sat_bit v a : u32 (sat_bit v a).
Proof. unfold sat_bit. by destruct (_ >? _). Qed.

Lemma land_sat_bit v a c :
  (Z.land (sat_bit v a) c =? 0) = negb (v + a >? max_i64) || (Z.land SessionMaterialSaturatedV1 c =? 0).
Proof. unfold sat_bit. by destruct (_ >? _). Qed.

(** [add] saturates: the field becomes the smaller of the sum and the bound. *)
Lemma add_to_spec get set amount p :
  (forall v q, get (set v q) = v) ->
  (forall v q, (let r := set v q in {| r with mp_UnknownReasons := mp_UnknownReasons r |}) = set v q) ->
  0 <= get p <= max_i64 -> 0 <= amount <= max_i64 ->
  add_to get set amount p =
    let r := set (Z.min max_i64 (get p + amount)) p in
    {| r with mp_UnknownReasons := Z.lor (mp_UnknownReasons r) (sat_bit (get p) amount) |}.
Proof.
  unfold add_to, sat_bit. intros Hget Hset Hv Ha. unfold max_i64 in *.
  rewrite (wrap_u64_small (_ - _)) by (unfold u64, max_u64; lia).
  destruct (amount >? _) eqn:Hs; b2p.
  - rewrite Z.min_l by lia.
    destruct (get p + amount >? _) eqn:Hq; b2p; [done | lia].
  - rewrite Z.min_r, wrap_u64_small by (unfold u64, max_u64; lia).
    destruct (get p + amount >? _) eqn:Hq; b2p; [lia |]. cbn. by rewrite Z.lor_0_r, Hset.
Qed.

(** ** The invariant of valid prefixes

    Machine types: the counters are [uint64]s, so not negative. *)
Definition contribution_typed (c : SessionMaterialContributionV1) : Prop :=
  0 <= mc_PayloadBytes c /\ 0 <= mc_EncodedRecordBytes c /\ 0 <= mc_ToolEnvelopeBytes c /\
  0 <= mc_AttachmentCount c /\ 0 <= mc_ReferencedAttachmentBytes c /\ 0 <= mc_RenderedFrameBytes c.

Definition prefix_typed (p : SessionMaterialPrefixV1) : Prop :=
  Forall (fun v => 0 <= v) (material_counters p) /\ u64 (mp_ThroughSequence p) /\ u32 (mp_UnknownReasons p) /\
  match mp_LastContribution p with Some c => contribution_typed c /\ u64 (mc_Sequence c) | None => True end.

Definition kind_sum (p : SessionMaterialPrefixV1) : Z :=
  mp_UserMessageCount p + mp_AssistantMessageCount p + mp_ToolCallCount p + mp_ToolResultCount p
  + mp_SystemNoticeCount p.

Definition render_sum (p : SessionMaterialPrefixV1) : Z :=
  mp_CodexCompatibleRecords p + mp_CodexIncompatibleRecords p + mp_UnknownRecords p.

(** The fields no fold changes, and the form of the digest and the coverage. *)
Definition prefix_header (p : SessionMaterialPrefixV1) : Prop :=
  mp_Version p = 1 /\ TenantID_Validate (mp_TenantID p) = None /\ SessionID_Validate (mp_SessionID p) = None /\
  mp_RecordSchema p = RecordSchemaV1 /\ mp_RendererContract p = ContractV1 /\
  materialDigest (mp_PrefixDigest p) = true /\
  has_reason p (max_u32 - materialReasonMask) = false /\
  mp_Coverage p = (if mp_UnknownReasons p =? 0 then SessionMaterialCompleteV1 else SessionMaterialUnknownV1).

(** The relations between the counters. *)
Definition prefix_counters (p : SessionMaterialPrefixV1) : Prop :=
  (has_reason p SessionMaterialSaturatedV1 = true -> Exists (fun v => max_i64 <= v) (material_counters p)) /\
  kind_sum p <= mp_ThroughSequence p /\ render_sum p <= mp_ThroughSequence p /\
  (has_reason p SessionMaterialSaturatedV1 = false -> render_sum p = mp_ThroughSequence p) /\
  (has_reason p SessionMaterialLegacyV1 = false -> has_reason p SessionMaterialSaturatedV1 = false ->
   kind_sum p = mp_ThroughSequence p) /\
  (mp_UnknownReasons p = 0 -> mp_UnknownRecords p = 0) /\
  (has_reason p invalidMask = true -> mp_UnknownRecords p <> 0) /\
  mp_MaxEncodedRecordBytes p <= MaxMeasuredEncodedRecordBytesV1 /\
  mp_MaxEncodedRecordBytes p <= mp_EncodedJSONLBytes p /\
  (mp_MaxEncodedRecordBytes p = 0 -> mp_EncodedJSONLBytes p = 0) /\
  mp_VerifiedPayloadBytes p <= mp_EncodedJSONLBytes p /\
  mp_ToolEnvelopeBytes p <= mp_VerifiedPayloadBytes p /\
  (mp_AttachmentCount p = 0 -> mp_ReferencedAttachmentBytes p = 0) /\
  (mp_CodexCompatibleRecords p = 0 -> mp_RenderedFrameBytes p = 0) /\
  mp_CodexCompatibleRecords p <= mp_RenderedFrameBytes p /\
  (mp_CodexCompatibleRecords p = 0 -> mp_CodexIncompatibleRecords p = 0 ->
   mp_EncodedJSONLBytes p = 0 /\ mp_AttachmentCount p = 0) /\
  (mp_VerifiedPayloadBytes p = 0 -> mp_CodexCompatibleRecords p = 0 /\ mp_CodexIncompatibleRecords p = 0) /\
  (mp_CodexIncompatibleRecords p = 0 -> mp_AttachmentCount p = 0 /\ mp_ToolEnvelopeBytes p = 0) /\
  (mp_ToolCallCount p = 0 -> mp_ToolResultCount p = 0 -> mp_ToolEnvelopeBytes p = 0) /\
  mp_CodexCompatibleRecords p <= mp_UserMessageCount p + mp_AssistantMessageCount p /\
  (mp_UserMessageCount p = 0 -> mp_AttachmentCount p = 0).

Definition prefix_bounded (p : SessionMaterialPrefixV1) : Prop :=
  Forall (fun v => 0 <= v <= max_i64) (material_counters p) /\ u64 (mp_ThroughSequence p).

(** The last contribution is the last event's and is counted. *)
Definition prefix_last (p : SessionMaterialPrefixV1) (c : SessionMaterialContributionV1) : Prop :=
  SessionMaterialContributionV1_validate c = None /\ mp_LastContribution p = Some c /\
  SessionEventID_Validate (mp_LastEventID p) = None /\ mc_EventID c = mp_LastEventID p /\
  mc_Sequence c = mp_ThroughSequence p /\ mp_ThroughSequence p <> 0 /\
  (mc_Verified c = false -> has_reason p invalidMask = true) /\
  kindCount p (mc_Kind c) <> 0 /\ mc_PayloadBytes c <= mp_VerifiedPayloadBytes p /\
  mc_EncodedRecordBytes c <= mp_MaxEncodedRecordBytes p /\ mc_ToolEnvelopeBytes c <= mp_ToolEnvelopeBytes p /\
  mc_AttachmentCount c <= mp_AttachmentCount p /\
  mc_ReferencedAttachmentBytes c <= mp_ReferencedAttachmentBytes p /\
  mc_RenderedFrameBytes c <= mp_RenderedFrameBytes p /\
  (mc_Verified c = true -> if mc_CodexCompatible c then mp_CodexCompatibleRecords p <> 0
                           else mp_CodexIncompatibleRecords p <> 0).

(** ** From the checks to the invariant *)

Lemma material_remaining_sum values : forall remaining,
  Forall (fun v => 0 <= v) values ->
  material_remaining remaining values =
    if foldr Z.add 0 values <=? remaining then Some (remaining - foldr Z.add 0 values) else
    match values with [] => Some remaining | _ => None end.
Proof.
  induction values as [| v values IH]; intros remaining Hv; cbn.
  - destruct (0 <=? remaining); [by rewrite Z.sub_0_r | done].
  - apply Forall_cons in Hv as [Hv Hvs]. rewrite IH by done.
    assert (0 <= foldr Z.add 0 values) as Hpos by (clear -Hvs; induction Hvs; cbn; lia).
    destruct (v >? remaining) eqn:Hgt; b2p;
      destruct (v + foldr Z.add 0 values <=? remaining) eqn:Hle; b2p; try lia; [done | |].
    + destruct (foldr Z.add 0 values <=? remaining - v) eqn:Hq; b2p; [f_equal; lia | lia].
    + destruct (foldr Z.add 0 values <=? remaining - v) eqn:Hq; b2p; [lia |].
      destruct values; [cbn in *; lia | done].
Qed.

Lemma materialSumWithin_sum ceiling values :
  values <> [] -> Forall (fun v => 0 <= v) values ->
  materialSumWithin ceiling values =
    if foldr Z.add 0 values <=? ceiling then Some (foldr Z.add 0 values) else None.
Proof.
  intros Hne Hv. unfold materialSumWithin. rewrite material_remaining_sum by done.
  destruct (_ <=? _); [f_equal; lia |]. by destruct values.
Qed.

Lemma has_reason_or p a b : has_reason p (Z.lor a b) = has_reason p a || has_reason p b.
Proof.
  unfold has_reason. rewrite Z.land_lor_distr_r, lor_eqb_0. by rewrite negb_andb.
Qed.

Lemma no_reason p bits : mp_UnknownReasons p = 0 -> has_reason p bits = false.
Proof. unfold has_reason. by intros ->. Qed.

Lemma Validate_header p :
  SessionMaterialPrefixV1_Validate p = None -> prefix_header p.
Proof.
  unfold SessionMaterialPrefixV1_Validate, prefix_header. intros H. peel H. clear H E0 E1.
  b2p. repeat match goal with H : _ /\ _ |- _ => destruct H end.
  rewrite notnil_false in *. split_and!; try done.
  match goal with H : Bool.eqb _ _ = true |- _ => apply Bool.eqb_prop in H end.
  destruct (mp_UnknownReasons p =? 0); b2p; naive_solver.
Qed.

Lemma Validate_bounded p :
  prefix_typed p -> SessionMaterialPrefixV1_Validate p = None -> prefix_bounded p.
Proof.
  intros (Ht & Hu & _). unfold SessionMaterialPrefixV1_Validate. intros H. peel H. clear H E1. split; [| done].
  apply List.Forall_forall. intros v Hv. rewrite List.Forall_forall in Ht. split; [auto |].
  apply Z.nlt_ge. intros Hlt. enough (existsb (fun v => v >? max_i64) (material_counters p) = true) by congruence.
  apply existsb_exists. exists v. split; [done |]. b2p. lia.
Qed.

Lemma Validate_capped p :
  SessionMaterialPrefixV1_Validate p = None ->
  has_reason p SessionMaterialSaturatedV1 = true -> Exists (fun v => max_i64 <= v) (material_counters p).
Proof.
  unfold SessionMaterialPrefixV1_Validate. intros H Hs. peel H. clear H. rewrite Hs, andb_true_l in E1.
  apply negb_false_iff, existsb_exists in E1 as (v & Hv & Hq). apply Exists_exists. exists v.
  split; [by apply list_elem_of_In |]. b2p. lia.
Qed.

Ltac open_counters H := unfold material_counters in H; repeat (apply Forall_cons in H as [? H]); clear H.

Lemma folded_counters p c :
  prefix_bounded p -> prefix_header p ->
  (has_reason p SessionMaterialSaturatedV1 = true -> Exists (fun v => max_i64 <= v) (material_counters p)) ->
  folded_validate p c = None -> prefix_counters p.
Proof.
  intros [Hb Hu] Hh Hcap. unfold folded_validate. intros H. open_counters Hb.
  peel_step H. rewrite !materialSumWithin_sum in H by first [done | repeat constructor; lia]. cbn [foldr] in H.
  destruct (_ <=? _) eqn:Hk in H; [| done].
  destruct (_ <=? _) eqn:Hr in H; [| done]. peel H. clear E E6. rewrite has_reason_or in E0.
  destruct Hh as (_ & _ & _ & _ & _ & _ & _ & Hcov).
  pose proof (no_reason p SessionMaterialSaturatedV1) as Hn.
  rewrite Hcov in E0. unfold prefix_counters, kind_sum, render_sum. unfold max_i64 in *.
  rewrite wrap_u64_small in E4 by (unfold u64, max_u64; lia).
  b2p.
  repeat match goal with H : _ /\ _ |- _ => destruct H end.
  split_and!; try done; try lia.
  all: intros; repeat split; try lia.
  all: repeat match goal with
         | H : has_reason _ _ = _ |- _ => rewrite H in *; clear H
         | H : _ \/ _ |- _ => destruct H as [H | H]; try discriminate; try lia
         end.
Qed.

Lemma seed_cases p :
  prefix_header p -> p = seed_expected p ->
  p = genesis_prefix (mp_TenantID p) (mp_SessionID p) \/
  p = fst (NewUnknownSessionMaterialPrefixV1 (mp_TenantID p) (mp_SessionID p) (mp_ThroughSequence p)).
Proof.
  intros (_ & Ht & Hs & _) Hp. unfold seed_expected in Hp. destruct (_ && _); [| by right].
  left. rewrite Hp at 1. unfold NewSessionMaterialGenesisV1. by rewrite Ht, Hs.
Qed.

Lemma seed_counters p :
  prefix_bounded p -> prefix_header p -> p = seed_expected p -> prefix_counters p.
Proof.
  intros [_ Hu] Hh Hp. destruct (seed_cases p Hh Hp) as [Hg | Hg]; revert Hg.
  - generalize (mp_TenantID p) (mp_SessionID p). intros t s ->.
    unfold prefix_counters, kind_sum, render_sum, has_reason, MaxMeasuredEncodedRecordBytesV1,
      MaxMeasuredPayloadBytesV1, MaxMeasuredMetadataBytesV1. cbn. split_and!; intros; lia || done.
  - destruct Hh as (_ & Ht & Hs & _). unfold NewUnknownSessionMaterialPrefixV1, NewSessionMaterialGenesisV1.
    rewrite Ht, Hs. cbn. intros Hg. clear Ht Hs Hp. revert Hu Hg.
    generalize (mp_TenantID p) (mp_SessionID p) (mp_ThroughSequence p). intros t s n Hn ->. cbn.
    unfold prefix_counters, kind_sum, render_sum, has_reason, MaxMeasuredEncodedRecordBytesV1,
      MaxMeasuredPayloadBytesV1, MaxMeasuredMetadataBytesV1. cbn. unfold u64, max_u64 in Hn.
    destruct (n >? max_i64) eqn:Hgt; b2p; cbn; unfold max_i64 in *.
    + split_and!; intros; try lia; try done. unfold material_counters. cbn.
      do 14 apply Exists_cons_tl. apply Exists_cons_hd. lia.
    + split_and!; intros; lia || done.
Qed.

(** A prefix that validates satisfies the invariant. *)
Lemma Validate_counters p :
  prefix_typed p -> SessionMaterialPrefixV1_Validate p = None ->
  prefix_header p /\ prefix_bounded p /\ prefix_counters p.
Proof.
  intros Ht Hv. pose proof (Validate_header p Hv) as Hh. pose proof (Validate_bounded p Ht Hv) as Hb.
  split_and!; [done .. |]. pose proof (Validate_capped p Hv) as Hcap.
  unfold SessionMaterialPrefixV1_Validate in Hv. peel Hv.
  destruct (mp_LastContribution p) as [c |].
  - destruct (String.eqb (mp_LastEventID p) ""); [| by eapply folded_counters].
    peel Hv. apply seed_counters; [done .. |]. unfold EqualSessionMaterialPrefixV1 in *. by b2p.
  - peel Hv. apply seed_counters; [done .. |]. unfold EqualSessionMaterialPrefixV1 in *. by b2p.
Qed.

(** ** The fold keeps the invariant *)

(** What a valid contribution says about its numbers. *)
Definition contribution_ok (c : SessionMaterialContributionV1) : Prop :=
  if mc_Verified c then
    0 < mc_PayloadBytes c <= mc_EncodedRecordBytes c /\
    mc_EncodedRecordBytes c <= MaxMeasuredEncodedRecordBytesV1 /\
    0 <= mc_AttachmentCount c <= 64 /\ 0 <= mc_ReferencedAttachmentBytes c <= max_i64 /\
    mc_ToolEnvelopeBytes c =
      match mc_Kind c with SessionEventToolCall | SessionEventToolResult => mc_PayloadBytes c | _ => 0 end /\
    (mc_AttachmentCount c <> 0 -> mc_Kind c = SessionEventUserMessage) /\
    (mc_AttachmentCount c = 0 -> mc_ReferencedAttachmentBytes c = 0) /\
    (if mc_CodexCompatible c then
       (mc_Kind c = SessionEventUserMessage \/ mc_Kind c = SessionEventAssistantMessage) /\
       mc_AttachmentCount c = 0 /\ 0 < mc_RenderedFrameBytes c <= MaxFrameBytesV1
     else mc_RenderedFrameBytes c = 0)
  else
    mc_PayloadBytes c = 0 /\ mc_EncodedRecordBytes c = 0 /\ mc_ToolEnvelopeBytes c = 0 /\
    mc_AttachmentCount c = 0 /\ mc_ReferencedAttachmentBytes c = 0 /\ mc_RenderedFrameBytes c = 0.

Lemma contribution_validate_ok c :
  contribution_typed c -> SessionMaterialContributionV1_validate c = None ->
  contribution_ok c /\ SessionEventKind_Valid (mc_Kind c) = true.
Proof.
  unfold contribution_typed, SessionMaterialContributionV1_validate, contribution_ok. intros Ht H. peel H.
  assert (SessionEventKind_Valid (mc_Kind c) = true) as Hk by (b2p; naive_solver).
  split; [| done]. destruct (mc_Verified c); cbn in H; peel H.
  - destruct (mc_CodexCompatible c); peel H; b2p;
      repeat match goal with H : _ /\ _ |- _ => destruct H end;
      split_and!; first [lia | done | solve [destruct (mc_Kind c); naive_solver] | naive_solver].
  - b2p. naive_solver.
Qed.

Definition b2z (b : bool) : Z := if b then 1 else 0.
Definition kind_bit (k k' : SessionEventKind) : Z := b2z (bool_decide (k = k')).

(** Whether any of the sums of a fold exceeds the bound. *)
Definition overflows (p : SessionMaterialPrefixV1) (c : SessionMaterialContributionV1) : bool :=
  (mp_UserMessageCount p + kind_bit (mc_Kind c) SessionEventUserMessage >? max_i64)
  || (mp_AssistantMessageCount p + kind_bit (mc_Kind c) SessionEventAssistantMessage >? max_i64)
  || (mp_ToolCallCount p + kind_bit (mc_Kind c) SessionEventToolCall >? max_i64)
  || (mp_ToolResultCount p + kind_bit (mc_Kind c) SessionEventToolResult >? max_i64)
  || (mp_SystemNoticeCount p + kind_bit (mc_Kind c) SessionEventSystemNotice >? max_i64)
  || (mp_VerifiedPayloadBytes p + mc_PayloadBytes c >? max_i64)
  || (mp_EncodedJSONLBytes p + mc_EncodedRecordBytes c >? max_i64)
  || (mp_ToolEnvelopeBytes p + mc_ToolEnvelopeBytes c >? max_i64)
  || (mp_AttachmentCount p + mc_AttachmentCount c >? max_i64)
  || (mp_ReferencedAttachmentBytes p + mc_ReferencedAttachmentBytes c >? max_i64)
  || (mp_CodexCompatibleRecords p + b2z (mc_Verified c && mc_CodexCompatible c) >? max_i64)
  || (mp_CodexIncompatibleRecords p + b2z (mc_Verified c && negb (mc_CodexCompatible c)) >? max_i64)
  || (mp_RenderedFrameBytes p + mc_RenderedFrameBytes c >? max_i64)
  || (mp_UnknownRecords p + b2z (negb (mc_Verified c)) >? max_i64).

(** The fields of the folded record: every counter is the saturated sum. *)
Record fold_fields (p : SessionMaterialPrefixV1) (e : SessionEvent) (c : SessionMaterialContributionV1)
  (n : SessionMaterialPrefixV1) : Prop := {
  ff_Version : mp_Version n = mp_Version p;
  ff_TenantID : mp_TenantID n = mp_TenantID p;
  ff_SessionID : mp_SessionID n = mp_SessionID p;
  ff_RecordSchema : mp_RecordSchema n = mp_RecordSchema p;
  ff_RendererContract : mp_RendererContract n = mp_RendererContract p;
  ff_PrefixDigest : mp_PrefixDigest n = mp_PrefixDigest p;
  ff_Through : mp_ThroughSequence n = se_Sequence e;
  ff_LastEventID : mp_LastEventID n = se_ID e;
  ff_LastContribution : mp_LastContribution n = Some c;
  ff_User : mp_UserMessageCount n = Z.min max_i64 (mp_UserMessageCount p + kind_bit (mc_Kind c) SessionEventUserMessage);
  ff_Assistant : mp_AssistantMessageCount n =
    Z.min max_i64 (mp_AssistantMessageCount p + kind_bit (mc_Kind c) SessionEventAssistantMessage);
  ff_ToolCall : mp_ToolCallCount n = Z.min max_i64 (mp_ToolCallCount p + kind_bit (mc_Kind c) SessionEventToolCall);
  ff_ToolResult : mp_ToolResultCount n = Z.min max_i64 (mp_ToolResultCount p + kind_bit (mc_Kind c) SessionEventToolResult);
  ff_Notice : mp_SystemNoticeCount n = Z.min max_i64 (mp_SystemNoticeCount p + kind_bit (mc_Kind c) SessionEventSystemNotice);
  ff_Payload : mp_VerifiedPayloadBytes n = Z.min max_i64 (mp_VerifiedPayloadBytes p + mc_PayloadBytes c);
  ff_Encoded : mp_EncodedJSONLBytes n = Z.min max_i64 (mp_EncodedJSONLBytes p + mc_EncodedRecordBytes c);
  ff_MaxEncoded : mp_MaxEncodedRecordBytes n = Z.max (mp_MaxEncodedRecordBytes p) (mc_EncodedRecordBytes c);
  ff_Tool : mp_ToolEnvelopeBytes n = Z.min max_i64 (mp_ToolEnvelopeBytes p + mc_ToolEnvelopeBytes c);
  ff_Attachments : mp_AttachmentCount n = Z.min max_i64 (mp_AttachmentCount p + mc_AttachmentCount c);
  ff_Referenced : mp_ReferencedAttachmentBytes n =
    Z.min max_i64 (mp_ReferencedAttachmentBytes p + mc_ReferencedAttachmentBytes c);
  ff_Compatible : mp_CodexCompatibleRecords n =
    Z.min max_i64 (mp_CodexCompatibleRecords p + b2z (mc_Verified c && mc_CodexCompatible c));
  ff_Incompatible : mp_CodexIncompatibleRecords n =
    Z.min max_i64 (mp_CodexIncompatibleRecords p + b2z (mc_Verified c && negb (mc_CodexCompatible c)));
  ff_Rendered : mp_RenderedFrameBytes n = Z.min max_i64 (mp_RenderedFrameBytes p + mc_RenderedFrameBytes c);
  ff_Unknown : mp_UnknownRecords n = Z.min max_i64 (mp_UnknownRecords p + b2z (negb (mc_Verified c)));
  ff_Reasons : forall bits,
    has_reason n bits = has_reason p bits
      || (negb (mc_Verified c) && negb (Z.land SessionMaterialMissingInvalidV1 bits =? 0))
      || (overflows p c && negb (Z.land SessionMaterialSaturatedV1 bits =? 0));
  ff_NoReason : (mp_UnknownReasons n =? 0) = (mp_UnknownReasons p =? 0) && mc_Verified c && negb (overflows p c);
  ff_ReasonsTyped : u32 (mp_UnknownReasons p) -> u32 (mp_UnknownReasons n);
  ff_Coverage : mp_Coverage n = if mp_UnknownReasons n =? 0 then mp_Coverage p else SessionMaterialUnknownV1 }.

Ltac reduce := cbn -[Z.min Z.max Z.lor Z.add Z.land sat_bit max_i64 b2z].

Ltac add_spec := intros; unfold add_unknown, add_payload, add_encoded, add_tool, add_attachments, add_referenced;
  rewrite add_to_spec; [done | done | by intros ? [] | done | done].

Lemma add_payload_spec c p :
  0 <= mp_VerifiedPayloadBytes p <= max_i64 -> 0 <= mc_PayloadBytes c <= max_i64 ->
  add_payload c p =
    {| p with mp_VerifiedPayloadBytes := Z.min max_i64 (mp_VerifiedPayloadBytes p + mc_PayloadBytes c);
       mp_UnknownReasons := Z.lor (mp_UnknownReasons p) (sat_bit (mp_VerifiedPayloadBytes p) (mc_PayloadBytes c)) |}.
Proof. add_spec. Qed.

Lemma add_encoded_spec c p :
  0 <= mp_EncodedJSONLBytes p <= max_i64 -> 0 <= mc_EncodedRecordBytes c <= max_i64 ->
  add_encoded c p =
    {| p with mp_EncodedJSONLBytes := Z.min max_i64 (mp_EncodedJSONLBytes p + mc_EncodedRecordBytes c);
       mp_UnknownReasons := Z.lor (mp_UnknownReasons p) (sat_bit (mp_EncodedJSONLBytes p) (mc_EncodedRecordBytes c)) |}.
Proof. add_spec. Qed.

Lemma add_tool_spec c p :
  0 <= mp_ToolEnvelopeBytes p <= max_i64 -> 0 <= mc_ToolEnvelopeBytes c <= max_i64 ->
  add_tool c p =
    {| p with mp_ToolEnvelopeBytes := Z.min max_i64 (mp_ToolEnvelopeBytes p + mc_ToolEnvelopeBytes c);
       mp_UnknownReasons := Z.lor (mp_UnknownReasons p) (sat_bit (mp_ToolEnvelopeBytes p) (mc_ToolEnvelopeBytes c)) |}.
Proof. add_spec. Qed.

Lemma add_attachments_spec c p :
  0 <= mp_AttachmentCount p <= max_i64 -> 0 <= mc_AttachmentCount c <= max_i64 ->
  add_attachments c p =
    {| p with mp_AttachmentCount := Z.min max_i64 (mp_AttachmentCount p + mc_AttachmentCount c);
       mp_UnknownReasons := Z.lor (mp_UnknownReasons p) (sat_bit (mp_AttachmentCount p) (mc_AttachmentCount c)) |}.
Proof. add_spec. Qed.

Lemma add_referenced_spec c p :
  0 <= mp_ReferencedAttachmentBytes p <= max_i64 -> 0 <= mc_ReferencedAttachmentBytes c <= max_i64 ->
  add_referenced c p =
    {| p with mp_ReferencedAttachmentBytes :=
         Z.min max_i64 (mp_ReferencedAttachmentBytes p + mc_ReferencedAttachmentBytes c);
       mp_UnknownReasons := Z.lor (mp_UnknownReasons p)
         (sat_bit (mp_ReferencedAttachmentBytes p) (mc_ReferencedAttachmentBytes c)) |}.
Proof. add_spec. Qed.

Lemma min_same v : v <= max_i64 -> Z.min max_i64 (v + 0) = v.
Proof. lia. Qed.

Lemma sat_bit_0 v : v <= max_i64 -> sat_bit v 0 = 0.
Proof. unfold sat_bit. intros. destruct (_ >? _) eqn:E; b2p; [lia | done]. Qed.

(** Counting the record as compatible or not, and its frame. *)
Lemma add_rendered_spec c p :
  0 <= mp_CodexCompatibleRecords p <= max_i64 -> 0 <= mp_CodexIncompatibleRecords p <= max_i64 ->
  0 <= mp_RenderedFrameBytes p <= max_i64 -> 0 <= mc_RenderedFrameBytes c <= max_i64 ->
  (mc_CodexCompatible c = false -> mc_RenderedFrameBytes c = 0) ->
  add_rendered c p =
    {| p with mp_CodexCompatibleRecords :=
         Z.min max_i64 (mp_CodexCompatibleRecords p + b2z (mc_CodexCompatible c));
       mp_CodexIncompatibleRecords :=
         Z.min max_i64 (mp_CodexIncompatibleRecords p + b2z (negb (mc_CodexCompatible c)));
       mp_RenderedFrameBytes := Z.min max_i64 (mp_RenderedFrameBytes p + mc_RenderedFrameBytes c);
       mp_UnknownReasons := Z.lor (Z.lor (Z.lor (mp_UnknownReasons p)
         (sat_bit (mp_CodexCompatibleRecords p) (b2z (mc_CodexCompatible c))))
         (sat_bit (mp_CodexIncompatibleRecords p) (b2z (negb (mc_CodexCompatible c)))))
         (sat_bit (mp_RenderedFrameBytes p) (mc_RenderedFrameBytes c)) |}.
Proof.
  intros Hc Hi Hr Ha Hz. unfold add_rendered. destruct (mc_CodexCompatible c); reduce.
  - rewrite (add_to_spec mp_CodexCompatibleRecords); [| done | by intros ? [] | done | unfold max_i64; lia].
    rewrite add_to_spec; [reduce | done | by intros ? [] | done | done].
    unfold b2z. rewrite min_same, (sat_bit_0 (mp_CodexIncompatibleRecords p)), Z.lor_0_r by lia. done.
  - rewrite add_to_spec; [reduce | done | by intros ? [] | done | unfold max_i64; lia].
    rewrite Hz by done. unfold b2z.
    by rewrite !min_same, !(sat_bit_0 (mp_CodexCompatibleRecords p)), !(sat_bit_0 (mp_RenderedFrameBytes p)),
      !Z.lor_0_r by lia.
Qed.

(** Counting the event's kind: the other kinds add nothing. *)
Lemma add_kind_spec k p :
  SessionEventKind_Valid k = true -> Forall (fun v => 0 <= v <= max_i64) (material_counters p) ->
  add_kind k p =
    {| p with mp_UserMessageCount := Z.min max_i64 (mp_UserMessageCount p + kind_bit k SessionEventUserMessage);
       mp_AssistantMessageCount :=
         Z.min max_i64 (mp_AssistantMessageCount p + kind_bit k SessionEventAssistantMessage);
       mp_ToolCallCount := Z.min max_i64 (mp_ToolCallCount p + kind_bit k SessionEventToolCall);
       mp_ToolResultCount := Z.min max_i64 (mp_ToolResultCount p + kind_bit k SessionEventToolResult);
       mp_SystemNoticeCount := Z.min max_i64 (mp_SystemNoticeCount p + kind_bit k SessionEventSystemNotice);
       mp_UnknownReasons := Z.lor (Z.lor (Z.lor (Z.lor (Z.lor (mp_UnknownReasons p)
         (sat_bit (mp_UserMessageCount p) (kind_bit k SessionEventUserMessage)))
         (sat_bit (mp_AssistantMessageCount p) (kind_bit k SessionEventAssistantMessage)))
         (sat_bit (mp_ToolCallCount p) (kind_bit k SessionEventToolCall)))
         (sat_bit (mp_ToolResultCount p) (kind_bit k SessionEventToolResult)))
         (sat_bit (mp_SystemNoticeCount p) (kind_bit k SessionEventSystemNotice)) |}.
Proof.
  intros Hk Hb. open_counters Hb. unfold kind_bit.
  destruct k; try done; cbn [add_kind];
    (rewrite add_to_spec; [reduce | done | by intros ? [] | done | unfold max_i64; lia]);
    cbn [b2z bool_decide decide_rel SessionEventKind_eq_dec]; rewrite ?min_same, ?sat_bit_0, ?Z.lor_0_r by lia; done.
Qed.

Lemma coverage_update p :
  (if negb (mp_UnknownReasons p =? 0) then {| p with mp_Coverage := SessionMaterialUnknownV1 |} else p) =
  {| p with mp_Coverage := if mp_UnknownReasons p =? 0 then mp_Coverage p else SessionMaterialUnknownV1 |}.
Proof. destruct p. cbn. by destruct (_ =? 0). Qed.

Lemma contribution_amounts c :
  contribution_ok c ->
  0 <= mc_PayloadBytes c <= max_i64 /\ 0 <= mc_EncodedRecordBytes c <= max_i64 /\
  0 <= mc_ToolEnvelopeBytes c <= max_i64 /\ 0 <= mc_AttachmentCount c <= max_i64 /\
  0 <= mc_ReferencedAttachmentBytes c <= max_i64 /\ 0 <= mc_RenderedFrameBytes c <= max_i64 /\
  (mc_CodexCompatible c = false -> mc_RenderedFrameBytes c = 0).
Proof.
  unfold contribution_ok, MaxFrameBytesV1, MaxMeasuredEncodedRecordBytesV1, MaxMeasuredPayloadBytesV1,
    MaxMeasuredMetadataBytesV1, max_i64.
  destruct (mc_Verified c), (mc_CodexCompatible c), (mc_Kind c); intros; split_and!; try lia; done.
Qed.

Ltac reasons :=
  unfold has_reason, overflows; cbn [mp_UnknownReasons];
  rewrite ?lor_eqb_0, ?land_lor_eqb_0, ?sat_bit_eqb_0, ?land_sat_bit.

Lemma no_overflow v : v <= max_i64 -> (v + 0 >? max_i64) = false.
Proof. intros. apply gtb_false. lia. Qed.

Lemma fold_next_fields p e c :
  prefix_bounded p -> contribution_ok c -> SessionEventKind_Valid (mc_Kind c) = true ->
  mc_Kind c = se_Kind e -> fold_fields p e c (fold_next p e c).
Proof.
  intros [Hb _] Hc Hk Hke. unfold fold_next. rewrite <- Hke.
  destruct (contribution_amounts c Hc) as (? & ? & ? & ? & ? & ? & ?).
  match goal with |- context [add_contribution c ?x] => remember (add_contribution c x) as n eqn:Hn end.
  rewrite coverage_update. revert Hn. rewrite add_kind_spec by done. reduce. open_counters Hb.
  unfold add_contribution. destruct (mc_Verified c) eqn:Hver; cbn [negb].
  - rewrite add_payload_spec by done. reduce. rewrite add_encoded_spec by done. reduce.
    unfold max_encoded. reduce. rewrite add_tool_spec by done. reduce.
    rewrite add_attachments_spec by done. reduce. rewrite add_referenced_spec by done. reduce.
    rewrite add_rendered_spec by done. reduce. intros ->.
    constructor; reduce; rewrite ?Hver; try done; try (intros; repeat apply u32_lor; by auto using u32_sat_bit); intros; reasons;
      rewrite ?Hver; cbn [b2z andb negb]; rewrite ?no_overflow by lia; first [btauto | lia].
  - unfold add_unknown. rewrite add_to_spec; [reduce | done | by intros ? [] | done | unfold max_i64; lia].
    unfold contribution_ok in Hc. rewrite Hver in Hc. destruct Hc as (Hz1 & Hz2 & Hz3 & Hz4 & Hz5 & Hz6).
    intros ->.
    constructor; reduce; rewrite ?Hver, ?Hz1, ?Hz2, ?Hz3, ?Hz4, ?Hz5, ?Hz6; try (cbn; lia); try done;
      try (intros; repeat apply u32_lor; by auto using u32_sat_bit); intros; reasons; rewrite ?Hver, ?Hz1, ?Hz2, ?Hz3, ?Hz4, ?Hz5, ?Hz6; cbn [b2z andb negb];
      change (SessionMaterialMissingInvalidV1 =? 0) with false; rewrite ?no_overflow by lia; first [btauto | lia].
Qed.
