(* ===== verification/MaterialFold.v ===== *)
(** * The material fold keeps the prefix invariant

    Every prefix that validates satisfies the invariant of [Material.v]; a fold
    keeps it, and it implies that the folded record validates. *)

From S2P Require Import Prelude GoText GoTime Sha256 Json Digests Errors Identity Blobs Sessions Material.
From Stdlib Require Import btauto.Btauto.
#[local] Open Scope Z_scope.

(** ** Saturated sums *)

Lemma min_bound v a : 0 <= v -> 0 <= a -> 0 <= Z.min max_i64 (v + a) <= max_i64.
Proof. unfold max_i64. lia. Qed.

Lemma cap_keep v a : max_i64 <= v -> 0 <= a -> max_i64 <= Z.min max_i64 (v + a).
Proof. lia. Qed.

Lemma cap_new v a : max_i64 < v + a -> max_i64 <= Z.min max_i64 (v + a).
Proof. lia. Qed.

Lemma b2z_nonneg b : 0 <= b2z b.
Proof. by destruct b. Qed.

Lemma kind_bit_nonneg k k' : 0 <= kind_bit k k'.
Proof. apply b2z_nonneg. Qed.

Create HintDb material.
#[export] Hint Resolve min_bound cap_keep cap_new b2z_nonneg kind_bit_nonneg : material.

(** [fields F]: rewrite the counters of the folded record in the goal. *)
Ltac fields F :=
  rewrite ?(ff_User _ _ _ _ F), ?(ff_Assistant _ _ _ _ F), ?(ff_ToolCall _ _ _ _ F), ?(ff_ToolResult _ _ _ _ F),
    ?(ff_Notice _ _ _ _ F), ?(ff_Payload _ _ _ _ F), ?(ff_Encoded _ _ _ _ F), ?(ff_MaxEncoded _ _ _ _ F),
    ?(ff_Tool _ _ _ _ F), ?(ff_Attachments _ _ _ _ F), ?(ff_Referenced _ _ _ _ F), ?(ff_Compatible _ _ _ _ F),
    ?(ff_Incompatible _ _ _ _ F), ?(ff_Rendered _ _ _ _ F), ?(ff_Unknown _ _ _ _ F), ?(ff_Through _ _ _ _ F).

Lemma fold_bounded p e c n :
  prefix_bounded p -> contribution_ok c -> u64 (se_Sequence e) -> fold_fields p e c n -> prefix_bounded n.
Proof.
  intros [Hb _] Hc Hu F. destruct (contribution_amounts c Hc) as ([] & [] & [] & [] & [] & [] & _).
  open_counters Hb. repeat match goal with H : 0 <= _ <= _ |- _ => destruct H end.
  split; [| by fields F]. unfold material_counters. fields F.
  repeat apply List.Forall_cons; eauto with material. lia.
Qed.

Lemma Exists_counters (P : Z -> Prop) p :
  Exists P (material_counters p) <->
  P (mp_UserMessageCount p) \/ P (mp_AssistantMessageCount p) \/ P (mp_ToolCallCount p) \/
  P (mp_ToolResultCount p) \/ P (mp_SystemNoticeCount p) \/ P (mp_VerifiedPayloadBytes p) \/
  P (mp_EncodedJSONLBytes p) \/ P (mp_MaxEncodedRecordBytes p) \/ P (mp_ToolEnvelopeBytes p) \/
  P (mp_AttachmentCount p) \/ P (mp_ReferencedAttachmentBytes p) \/ P (mp_CodexCompatibleRecords p) \/
  P (mp_CodexIncompatibleRecords p) \/ P (mp_RenderedFrameBytes p) \/ P (mp_UnknownRecords p).
Proof. unfold material_counters. rewrite !Exists_cons, Exists_nil. tauto. Qed.

(** A capped counter stays capped, and a sum that does not fit caps one. *)
Lemma fold_capped p e c n :
  prefix_counters p -> contribution_ok c -> fold_fields p e c n ->
  has_reason n SessionMaterialSaturatedV1 = true -> Exists (fun v => max_i64 <= v) (material_counters n).
Proof.
  intros (Hcap & _) Hc F. destruct (contribution_amounts c Hc) as ([] & [] & [] & [] & [] & [] & _).
  rewrite (ff_Reasons _ _ _ _ F). cbn [Z.land Z.eqb negb].
  rewrite andb_false_r, orb_false_r, andb_true_r, orb_true_iff.
  rewrite Exists_counters in *. fields F. intros [Hp%Hcap | Ho].
  - repeat (destruct Hp as [Hp | Hp]; [left; first [by eauto with material | lia] | right]).
    eauto with material.
  - unfold overflows in Ho. b2p.
    repeat (destruct Ho as [Ho | Ho]; [| by eauto 20 with material]). eauto 20 with material.
Qed.

(** ** The relations between the counters are kept

    One lemma per group of relations; [p] is the prefix before, [n] after. *)
Section keep.
Context (p : SessionMaterialPrefixV1) (e : SessionEvent) (c : SessionMaterialContributionV1)
  (n : SessionMaterialPrefixV1).
Hypothesis (Hb : prefix_bounded p) (Hp : prefix_counters p) (Hc : contribution_ok c)
  (Hk : SessionEventKind_Valid (mc_Kind c) = true) (F : fold_fields p e c n)
  (Hseq : se_Sequence e = mp_ThroughSequence p + 1).

(** A fold without saturation adds exactly. *)
Lemma fold_exact :
  has_reason n SessionMaterialSaturatedV1 = false ->
  has_reason p SessionMaterialSaturatedV1 = false /\ overflows p c = false.
Proof.
  rewrite (ff_Reasons _ _ _ _ F). cbn [Z.land Z.eqb negb].
  rewrite andb_false_r, orb_false_r, andb_true_r. by rewrite orb_false_iff.
Qed.

Lemma kind_bits :
  kind_bit (mc_Kind c) SessionEventUserMessage + kind_bit (mc_Kind c) SessionEventAssistantMessage
  + kind_bit (mc_Kind c) SessionEventToolCall + kind_bit (mc_Kind c) SessionEventToolResult
  + kind_bit (mc_Kind c) SessionEventSystemNotice = 1.
Proof. by destruct (mc_Kind c). Qed.

Lemma render_bits :
  b2z (mc_Verified c && mc_CodexCompatible c) + b2z (mc_Verified c && negb (mc_CodexCompatible c))
  + b2z (negb (mc_Verified c)) = 1.
Proof. by destruct (mc_Verified c), (mc_CodexCompatible c). Qed.

Lemma keep_sums :
  kind_sum n <= mp_ThroughSequence n /\ render_sum n <= mp_ThroughSequence n /\
  (has_reason n SessionMaterialSaturatedV1 = false -> render_sum n = mp_ThroughSequence n) /\
  (has_reason n SessionMaterialLegacyV1 = false -> has_reason n SessionMaterialSaturatedV1 = false ->
   kind_sum n = mp_ThroughSequence n).
Proof.
  destruct Hp as (_ & Hks & Hrs & Hre & Hke & _). pose proof kind_bits as Hkb. pose proof render_bits as Hrb.
  unfold kind_sum, render_sum in *. fields F. split_and!; [lia | lia | |].
  - intros Hs. destruct (fold_exact Hs) as [Hs0 Ho]. specialize (Hre Hs0).
    unfold overflows in Ho. b2p. rewrite !Z.min_r by lia. lia.
  - intros Hl Hs. destruct (fold_exact Hs) as [Hs0 Ho]. rewrite (ff_Reasons _ _ _ _ F) in Hl.
    apply orb_false_iff in Hl as [Hl _]. apply orb_false_iff in Hl as [Hl _]. specialize (Hke Hl Hs0).
    unfold overflows in Ho. b2p. rewrite !Z.min_r by lia. lia.
Qed.

Lemma keep_unknown :
  (mp_UnknownReasons n = 0 -> mp_UnknownRecords n = 0) /\
  (has_reason n invalidMask = true -> mp_UnknownRecords n <> 0).
Proof.
  destruct Hp as (_ & _ & _ & _ & _ & Hz & Hi & _). destruct Hb as [Hbd _]. open_counters Hbd.
  pose proof (ff_NoReason _ _ _ _ F) as Hnr. fields F. split.
  - intros Hn0. rewrite Hn0 in Hnr. cbn in Hnr. symmetry in Hnr. b2p. destruct Hnr as [[Hr Hv] _].
    rewrite Hv, Hz by done. done.
  - rewrite (ff_Reasons _ _ _ _ F). change (Z.land SessionMaterialSaturatedV1 invalidMask) with 0.
    rewrite andb_false_r, orb_false_r, orb_true_iff. unfold max_i64.
    intros [Hr | Hr]; [specialize (Hi Hr) |]; destruct (mc_Verified c); cbn in *; lia || done.
Qed.

Lemma keep_bytes :
  mp_MaxEncodedRecordBytes n <= MaxMeasuredEncodedRecordBytesV1 /\
  mp_MaxEncodedRecordBytes n <= mp_EncodedJSONLBytes n /\
  (mp_MaxEncodedRecordBytes n = 0 -> mp_EncodedJSONLBytes n = 0) /\
  mp_VerifiedPayloadBytes n <= mp_EncodedJSONLBytes n /\
  mp_ToolEnvelopeBytes n <= mp_VerifiedPayloadBytes n /\
  (mp_AttachmentCount n = 0 -> mp_ReferencedAttachmentBytes n = 0) /\
  (mp_CodexCompatibleRecords n = 0 -> mp_RenderedFrameBytes n = 0) /\
  mp_CodexCompatibleRecords n <= mp_RenderedFrameBytes n.
Proof.
  destruct Hp as (_ & _ & _ & _ & _ & _ & _ & Hm1 & Hm2 & Hm3 & Hv & Ht & Ha & Hr & Hcr & _).
  destruct Hb as [Hbd _]. open_counters Hbd. fields F. unfold contribution_ok in Hc.
  unfold MaxMeasuredEncodedRecordBytesV1, MaxMeasuredPayloadBytesV1, MaxMeasuredMetadataBytesV1, MaxFrameBytesV1,
    max_i64 in *.
  destruct (mc_Verified c); [destruct (mc_CodexCompatible c) |]; destruct (mc_Kind c); cbn [b2z andb negb] in *;
    split_and!; lia.
Qed.

(** What the kind and the verification of the contribution say of its amounts. *)
Lemma contribution_support :
  (mc_EncodedRecordBytes c = 0 \/ mc_Verified c = true) /\
  (mc_PayloadBytes c = 0 <-> mc_Verified c = false) /\
  (mc_AttachmentCount c = 0 \/
   mc_Kind c = SessionEventUserMessage /\ mc_Verified c = true /\ mc_CodexCompatible c = false) /\
  (mc_ToolEnvelopeBytes c = 0 \/
   (mc_Kind c = SessionEventToolCall \/ mc_Kind c = SessionEventToolResult) /\
   mc_Verified c = true /\ mc_CodexCompatible c = false).
Proof.
  clear Hp F Hb. unfold contribution_ok in Hc. destruct (mc_Verified c); [| naive_solver].
  destruct Hc as (? & ? & ? & ? & Ht & Ha & Hr & Hcc). split_and!; [by right | split; [lia | done] | |].
  - destruct (decide (mc_AttachmentCount c = 0)) as [| Hne]; [by left | right].
    destruct (mc_CodexCompatible c); naive_solver.
  - destruct (mc_Kind c); try (by left); right; destruct (mc_CodexCompatible c); naive_solver.
Qed.

Lemma min_zero v a : 0 <= v -> 0 <= a -> Z.min max_i64 (v + a) = 0 <-> v = 0 /\ a = 0.
Proof. clear. unfold max_i64. lia. Qed.

Lemma keep_rendered :
  mp_CodexCompatibleRecords n <= mp_UserMessageCount n + mp_AssistantMessageCount n.
Proof.
  destruct Hp as (_ & _ & _ & _ & _ & _ & _ & _ & _ & _ & _ & _ & _ & _ & _ & _ & _ & _ & _ & Hle & _).
  destruct Hb as [Hbd _]. open_counters Hbd. fields F. clear - H H0 Hle Hc Hk.
  pose proof (kind_bit_nonneg (mc_Kind c) SessionEventUserMessage).
  pose proof (kind_bit_nonneg (mc_Kind c) SessionEventAssistantMessage).
  destruct (mc_Verified c) eqn:Hv; cbn [b2z andb]; [| lia].
  unfold contribution_ok in Hc. rewrite Hv in Hc.
  destruct (mc_CodexCompatible c); cbn [b2z]; [| lia].
  destruct Hc as (_ & _ & _ & _ & _ & _ & _ & [Hu | Ha] & _); [rewrite Hu in * | rewrite Ha in *].
  - change (kind_bit SessionEventUserMessage SessionEventUserMessage) with 1 in *. lia.
  - change (kind_bit SessionEventAssistantMessage SessionEventAssistantMessage) with 1 in *. lia.
Qed.

Lemma keep_support :
  (mp_CodexCompatibleRecords n = 0 -> mp_CodexIncompatibleRecords n = 0 ->
   mp_EncodedJSONLBytes n = 0 /\ mp_AttachmentCount n = 0) /\
  (mp_VerifiedPayloadBytes n = 0 -> mp_CodexCompatibleRecords n = 0 /\ mp_CodexIncompatibleRecords n = 0) /\
  (mp_CodexIncompatibleRecords n = 0 -> mp_AttachmentCount n = 0 /\ mp_ToolEnvelopeBytes n = 0) /\
  (mp_ToolCallCount n = 0 -> mp_ToolResultCount n = 0 -> mp_ToolEnvelopeBytes n = 0) /\
  (mp_UserMessageCount n = 0 -> mp_AttachmentCount n = 0).
Proof.
  destruct Hp as (_ & _ & _ & _ & _ & _ & _ & _ & _ & _ & _ & _ & _ & _ & _ & Hs1 & Hs2 & Hs3 & Hs4 & _ & Hs6).
  destruct Hb as [Hbd _]. open_counters Hbd.
  destruct (contribution_amounts c Hc) as ([] & [] & [] & [] & [] & [] & _).
  repeat match goal with H : 0 <= _ <= _ |- _ => destruct H end.
  pose proof contribution_support as (He & Hpay & Hatt & Htool). fields F.
  rewrite !min_zero by auto with material. clear -Hs1 Hs2 Hs3 Hs4 Hs6 He Hpay Hatt Htool. split_and!.
  - intros [Hc0 Hcb] [Hi0 Hib]. destruct (Hs1 Hc0 Hi0) as [-> ->].
    destruct (mc_Verified c), (mc_CodexCompatible c); try done; naive_solver.
  - intros [Hv0 ->%Hpay]. destruct (Hs2 Hv0) as [-> ->]. done.
  - intros [Hi0 Hib]. destruct (Hs3 Hi0) as [-> ->].
    destruct (mc_Verified c), (mc_CodexCompatible c); try done; naive_solver.
  - intros [Hc0 Hcb] [Hr0 Hrb]. rewrite (Hs4 Hc0 Hr0). split; [done |].
    destruct Htool as [| [[Hk' | Hk'] _]]; [done | rewrite Hk' in Hcb; done | rewrite Hk' in Hrb; done].
  - intros [Hu0 Hub]. rewrite (Hs6 Hu0). split; [done |].
    destruct Hatt as [| [Hk' _]]; [done |]. rewrite Hk' in Hub. done.
Qed.

Lemma keep_counters : u64 (se_Sequence e) -> prefix_counters n /\ prefix_bounded n.
Proof.
  intros Hu. split; [| by eapply fold_bounded].
  split; [intros; by eapply fold_capped |]. pose proof keep_sums. pose proof keep_unknown.
  pose proof keep_bytes. pose proof keep_support. pose proof keep_rendered. tauto.
Qed.
End keep.

(** ** From the invariant back to the checks *)

Section valid.
Context (n : SessionMaterialPrefixV1) (c : SessionMaterialContributionV1).
Hypothesis (Hh : prefix_header n) (Hb : prefix_bounded n) (Hp : prefix_counters n) (Hl : prefix_last n c).

Lemma sums_checked :
  (negb (has_reason n SessionMaterialSaturatedV1) && negb (render_sum n =? mp_ThroughSequence n))
  || (negb (has_reason n (Z.lor SessionMaterialLegacyV1 SessionMaterialSaturatedV1))
      && negb (kind_sum n =? mp_ThroughSequence n))
  || (bool_decide (mp_Coverage n = SessionMaterialCompleteV1)
      && (negb (kind_sum n =? mp_ThroughSequence n) || negb (render_sum n =? mp_ThroughSequence n)
          || negb (mp_UnknownRecords n =? 0))) = false.
Proof.
  destruct Hp as (_ & _ & _ & Hr & Hk & Hz & _). destruct Hh as (_ & _ & _ & _ & _ & _ & _ & Hcov).
  clear Hl Hb. rewrite has_reason_or, Hcov.
  pose proof (no_reason n SessionMaterialSaturatedV1) as N1. pose proof (no_reason n SessionMaterialLegacyV1) as N2.
  destruct (has_reason n SessionMaterialSaturatedV1), (has_reason n SessionMaterialLegacyV1);
    destruct (mp_UnknownReasons n =? 0) eqn:H0; b2p; cbn;
    rewrite ?Hr, ?Hk, ?Hz, ?Z.eqb_refl by done; done || naive_solver.
Qed.

Lemma bytes_checked :
  (mp_MaxEncodedRecordBytes n >? MaxMeasuredEncodedRecordBytesV1)
  || (mp_MaxEncodedRecordBytes n >? mp_EncodedJSONLBytes n)
  || negb (Bool.eqb (mp_EncodedJSONLBytes n =? 0) (mp_MaxEncodedRecordBytes n =? 0))
  || (mp_VerifiedPayloadBytes n >? mp_EncodedJSONLBytes n)
  || (mp_ToolEnvelopeBytes n >? mp_VerifiedPayloadBytes n)
  || ((mp_AttachmentCount n =? 0) && negb (mp_ReferencedAttachmentBytes n =? 0))
  || ((mp_CodexCompatibleRecords n =? 0) && negb (mp_RenderedFrameBytes n =? 0))
  || (mp_RenderedFrameBytes n <? mp_CodexCompatibleRecords n) = false.
Proof.
  destruct Hp as (_ & _ & _ & _ & _ & _ & _ & ? & ? & Hm & ? & ? & ? & ? & ? & _). destruct Hb as [Hbd _].
  open_counters Hbd. clear Hl Hh Hp Hb.
  repeat apply orb_false_intro; try (apply gtb_false; lia); try (apply Z.ltb_ge; lia).
  - apply negb_false_iff, Bool.eqb_true_iff. apply eq_true_iff_eq. b2p. lia.
  - apply not_true_is_false. b2p. lia.
  - apply not_true_is_false. b2p. lia.
Qed.

Lemma support_checked :
  (mp_CodexCompatibleRecords n =? 0) && (mp_CodexIncompatibleRecords n =? 0)
  && (negb (mp_VerifiedPayloadBytes n =? 0) || negb (mp_EncodedJSONLBytes n =? 0)
      || negb (mp_ToolEnvelopeBytes n =? 0) || negb (mp_AttachmentCount n =? 0)
      || negb (mp_ReferencedAttachmentBytes n =? 0)) = false /\
  ((negb (mp_CodexCompatibleRecords n =? 0) || negb (mp_CodexIncompatibleRecords n =? 0))
   && ((mp_VerifiedPayloadBytes n =? 0) || (mp_EncodedJSONLBytes n =? 0)))
  || (negb (mp_AttachmentCount n =? 0) && (mp_CodexIncompatibleRecords n =? 0))
  || (negb (mp_ToolEnvelopeBytes n =? 0) && (mp_ToolCallCount n =? 0) && (mp_ToolResultCount n =? 0)) = false /\
  (mp_CodexCompatibleRecords n >? wrap_u64 (mp_UserMessageCount n + mp_AssistantMessageCount n))
  || (negb (mp_AttachmentCount n =? 0) && (mp_UserMessageCount n =? 0))
  || (negb (mp_ToolEnvelopeBytes n =? 0) && (mp_CodexIncompatibleRecords n =? 0)) = false.
Proof.
  destruct Hp as (_ & _ & _ & _ & _ & _ & _ & _ & _ & _ & Hv & Ht & Har & _ & _ & Hs1 & Hs2 & Hs3 & Hs4 & Hs5 & Hs6).
  destruct Hb as [Hbd _]. open_counters Hbd. clear Hl Hh Hp Hb. unfold max_i64 in *.
  rewrite wrap_u64_small by (unfold u64, max_u64; lia). split_and!; apply not_true_is_false; b2p; intros Hbad;
    repeat match goal with H : _ /\ _ |- _ => destruct H | H : _ \/ _ |- _ => destruct H end; try lia.
Qed.

Lemma last_checked :
  (negb (mp_UnknownRecords n =? 0) && (mp_UnknownReasons n =? 0))
  || (has_reason n invalidMask && (mp_UnknownRecords n =? 0)) = false /\
  negb (mc_Verified c) && (negb (has_reason n invalidMask) || (mp_UnknownRecords n =? 0)) = false /\
  (kindCount n (mc_Kind c) =? 0) || (mc_PayloadBytes c >? mp_VerifiedPayloadBytes n)
  || (mc_EncodedRecordBytes c >? mp_MaxEncodedRecordBytes n)
  || (mc_ToolEnvelopeBytes c >? mp_ToolEnvelopeBytes n)
  || (mc_AttachmentCount c >? mp_AttachmentCount n)
  || (mc_ReferencedAttachmentBytes c >? mp_ReferencedAttachmentBytes n)
  || (mc_RenderedFrameBytes c >? mp_RenderedFrameBytes n)
  || (mc_Verified c
      && ((mc_CodexCompatible c && (mp_CodexCompatibleRecords n =? 0))
          || (negb (mc_CodexCompatible c) && (mp_CodexIncompatibleRecords n =? 0)))) = false.
Proof.
  destruct Hp as (_ & _ & _ & _ & _ & Hz & Hi & _).
  destruct Hl as (_ & _ & _ & _ & _ & _ & Hv & ? & ? & ? & ? & ? & ? & ? & Hcc). clear Hp Hh Hb Hl. split_and!.
  - apply not_true_is_false. b2p. intros [[? ?] | [? ?]]; [lia | naive_solver].
  - apply not_true_is_false. b2p. intros [Hf [? | ?]]; specialize (Hv Hf); [congruence | naive_solver].
  - repeat apply orb_false_intro; try (apply gtb_false; lia); [by apply Z.eqb_neq |].
    destruct (mc_Verified c); [| done]. specialize (Hcc eq_refl).
    destruct (mc_CodexCompatible c); cbn; rewrite ?orb_false_r; by apply Z.eqb_neq.
Qed.

Lemma range_checked :
  existsb (fun v => v >? max_i64) (material_counters n) = false /\
  has_reason n SessionMaterialSaturatedV1 && negb (existsb (fun v => v =? max_i64) (material_counters n)) = false.
Proof.
  destruct Hp as [Hcap _]. destruct Hb as [Hbd _]. clear Hh Hp Hl Hb.
  rewrite List.Forall_forall in Hbd. split; apply not_true_is_false.
  - intros (v & Hin & Hgt)%existsb_exists. specialize (Hbd v Hin). apply Z.gtb_lt in Hgt. lia.
  - intros [Hsat Hno%negb_true_iff]%andb_true_iff. specialize (Hcap Hsat).
    apply Exists_exists in Hcap as (v & Hin%list_elem_of_In & Hge).
    enough (existsb (fun v => v =? max_i64) (material_counters n) = true) by congruence.
    apply existsb_exists. exists v. split; [done |]. specialize (Hbd v Hin). apply Z.eqb_eq. lia.
Qed.

Lemma header_checked :
  negb (mp_Version n =? 1) || notnil (TenantID_Validate (mp_TenantID n))
  || notnil (SessionID_Validate (mp_SessionID n)) || negb (String.eqb (mp_RecordSchema n) RecordSchemaV1)
  || negb (String.eqb (mp_RendererContract n) ContractV1) || negb (materialDigest (mp_PrefixDigest n))
  || has_reason n (max_u32 - materialReasonMask)
  || (negb (bool_decide (mp_Coverage n = SessionMaterialCompleteV1))
      && negb (bool_decide (mp_Coverage n = SessionMaterialUnknownV1)))
  || negb (Bool.eqb (bool_decide (mp_Coverage n = SessionMaterialCompleteV1)) (mp_UnknownReasons n =? 0)) = false.
Proof.
  destruct Hh as (-> & -> & -> & -> & -> & -> & -> & ->). rewrite !String.eqb_refl.
  by destruct (mp_UnknownReasons n =? 0).
Qed.

Lemma folded_valid : folded_validate n c = None.
Proof.
  pose proof sums_checked as Hs. pose proof bytes_checked as Hby.
  pose proof support_checked as (Hsu1 & Hsu2 & Hsu3). pose proof last_checked as (Hl1 & Hl2 & Hl3).
  destruct Hl as (Hcv & Hlc & Hle & Hid & Hseq & Hne & _).
  unfold folded_validate. rewrite Hle, Hcv, Hid, Hseq, String.eqb_refl, Z.eqb_refl. cbn [notnil isnil negb orb].
  apply Z.eqb_neq in Hne as ->. cbn [orb].
  destruct Hp as (_ & Hks & Hrsm & _). destruct Hb as [Hbd _]. open_counters Hbd.
  rewrite !materialSumWithin_sum by first [done | clear Hs Hby Hsu1 Hsu2 Hsu3 Hl1 Hl2 Hl3; repeat constructor; lia].
  cbn [foldr]. unfold kind_sum, render_sum in *. rewrite !Z.add_0_r, !Z.add_assoc.
  apply Z.leb_le in Hks as ->. apply Z.leb_le in Hrsm as ->. by solve_checks.
Qed.

Lemma invariant_valid : SessionMaterialPrefixV1_Validate n = None.
Proof.
  unfold SessionMaterialPrefixV1_Validate. destruct range_checked as [Hr1 Hr2].
  rewrite header_checked, Hr1, Hr2. pose proof folded_valid as Hf. destruct Hl as (_ & -> & Hle & _).
  destruct (String.eqb (mp_LastEventID n) "") eqn:He; [apply String.eqb_eq in He; by rewrite He in Hle | done].
Qed.
End valid.
