(* ===== verification/MaterialTotal.v ===== *)
(** * Totality of the material fold

    The encoded prefix fits its 8 KiB bound, so with the invariant of
    [MaterialFold.v] a fold succeeds on every valid next event. *)

From S2P Require Import Prelude GoText GoTime Sha256 Json Digests Errors Identity Blobs Sessions Material.
From S2P Require Import MaterialFold.
#[local] Open Scope Z_scope.

(** ** The encoding fits its bound *)

Lemma digest_plain s : materialDigest s = true -> all_bytes is_plain s = true /\ len s = 64.
Proof.
  unfold materialDigest. intros [Hl Hs]%andb_true_iff. split; [| by apply Z.eqb_eq].
  by apply lower_hex_plain.
Qed.

Lemma kind_plain k :
  SessionEventKind_Valid k = true ->
  all_bytes is_plain (SessionEventKind_text k) = true /\ len (SessionEventKind_text k) <= 17.
Proof. by destruct k. Qed.

(** The machine types of the fields of a contribution that are not amounts. *)
Lemma contribution_encoding_len c :
  contribution_typed c -> u64 (mc_Sequence c) -> SessionMaterialContributionV1_validate c = None ->
  len (marshal (json_contribution c)) <= 1200.
Proof.
  intros Ht Hq Hv. destruct (contribution_validate_ok c Ht Hv) as [Hok Hk].
  destruct (contribution_amounts c Hok) as (? & ? & ? & ? & ? & ? & _).
  assert (len (marshal (JStr (mc_RecordDigest c))) <= 66) as Hrd.
  { unfold SessionMaterialContributionV1_validate in Hv. peel Hv. destruct (mc_Verified c); cbn in Hv; peel Hv.
    - destruct (digest_plain (mc_RecordDigest c)) as [Hp Hl]; [b2p; tauto |]. rewrite marshal_str_len by done. lia.
    - replace (mc_RecordDigest c) with "" by (b2p; naive_solver). by rewrite marshal_str_len. }
  unfold SessionMaterialContributionV1_validate in Hv. peel Hv. clear Hv. b2p. destruct E as [[[[Hv1 He] _] _] Hid].
  apply notnil_false, opaque_plain in He as [He Hel]. apply digest_plain in Hid as [Hid Hidl].
  apply kind_plain in Hk as [Hkp Hkl]. unfold json_contribution. etransitivity; [apply marshal_obj_len; reflexivity |].
  unfold members_bound. rewrite (marshal_str_len (mc_EventID c)), (marshal_str_len (mc_IdentityDigest c)),
    (marshal_str_len (SessionEventKind_text (mc_Kind c))) by done. rewrite Hv1.
  pose proof (marshal_num_len 1 ltac:(right; unfold u64, max_u64; lia)).
  pose proof (marshal_bool_len (mc_Verified c)). pose proof (marshal_bool_len (mc_CodexCompatible c)).
  assert (forall v, 0 <= v <= max_i64 -> len (marshal (JNum v)) <= 20) as Hn.
  { intros v Hv. apply marshal_num_len. left. unfold i64. lia. }
  pose proof (marshal_num_len (mc_Sequence c) (or_intror Hq)).
  repeat match goal with H : 0 <= ?v <= max_i64 |- _ => apply Hn in H end.
  literal_lengths. lia.
Qed.

(** A valid prefix with a last contribution has a valid one and a last event. *)
Lemma Validate_last p c :
  SessionMaterialPrefixV1_Validate p = None -> mp_LastContribution p = Some c ->
  SessionMaterialContributionV1_validate c = None /\ SessionEventID_Validate (mp_LastEventID p) = None.
Proof.
  intros Hv Hc. pose proof (Validate_header p Hv) as Hh.
  unfold SessionMaterialPrefixV1_Validate in Hv. peel Hv. rewrite Hc in Hv.
  destruct (String.eqb (mp_LastEventID p) "").
  - peel Hv. apply negb_false_iff, bool_decide_eq_true in E2.
    destruct (seed_cases p Hh E2) as [Hp | Hp]; rewrite Hp in Hc; [done |].
    destruct Hh as (_ & Ht & Hs & _). unfold NewUnknownSessionMaterialPrefixV1, NewSessionMaterialGenesisV1 in Hc.
    by rewrite Ht, Hs in Hc.
  - unfold folded_validate in Hv. peel_step Hv. apply orb_false_iff in E2 as [E2 _].
    apply orb_false_iff in E2 as [E2 _]. apply orb_false_iff in E2 as [E2 Hcv].
    apply orb_false_iff in E2 as [_ He]. by rewrite notnil_false in *.
Qed.

(** A valid prefix without a last contribution is a seed, which has no last event. *)
Lemma Validate_seed p :
  SessionMaterialPrefixV1_Validate p = None -> mp_LastContribution p = None -> mp_LastEventID p = "".
Proof.
  intros Hv Hc. pose proof (Validate_header p Hv) as Hh.
  unfold SessionMaterialPrefixV1_Validate in Hv. peel Hv. rewrite Hc in Hv. peel Hv.
  apply negb_false_iff, bool_decide_eq_true in E2. pose proof Hh as (_ & Htid & Hsid & _).
  destruct (seed_cases p Hh E2) as [-> | ->]; [done |].
  unfold NewUnknownSessionMaterialPrefixV1, NewSessionMaterialGenesisV1. by rewrite Htid, Hsid.
Qed.

Lemma Validate_last_event p :
  SessionMaterialPrefixV1_Validate p = None ->
  all_bytes is_plain (mp_LastEventID p) = true /\ len (mp_LastEventID p) <= 160.
Proof.
  intros Hv. destruct (mp_LastContribution p) as [c |] eqn:Hc.
  - destruct (Validate_last p c Hv Hc) as [_ He]. by apply opaque_plain in He.
  - by rewrite (Validate_seed p Hv Hc).
Qed.

Lemma prefix_encoding_len p :
  prefix_typed p -> SessionMaterialPrefixV1_Validate p = None ->
  len (marshal (json_prefix p)) <= MaxSessionMaterialPrefixBytesV1.
Proof.
  intros Ht Hv. pose proof (Validate_header p Hv) as Hh.
  destruct (Validate_counters p Ht Hv) as ((Hver & Htid & Hsid & Hrs & Hrc & Hd & _ & Hcov) & [Hb _] & _).
  destruct Ht as (_ & Hthrough & Hreasons & Hlast). open_counters Hb.
  assert (members_bound (omitempty "last_contribution" json_contribution (mp_LastContribution p)) <= 1300) as Hmc.
  { destruct (mp_LastContribution p) as [c |] eqn:Hc; [| done]. destruct Hlast as [Hct Hcs]. cbn [omitempty members_bound].
    pose proof (contribution_encoding_len c Hct Hcs (proj1 (Validate_last p c Hv Hc))). literal_lengths. lia. }
  assert (members_bound (if String.eqb (mp_LastEventID p) "" then [] else [("last_event_id", JStr (mp_LastEventID p))])
          <= 200) as Hme.
  { destruct (String.eqb_spec (mp_LastEventID p) ""); [done |]. cbn [members_bound].
    destruct (Validate_last_event p Hv) as [He Hel]. rewrite marshal_str_len by done. literal_lengths. lia. }
  apply opaque_plain in Htid as [Htp Htl]. apply opaque_plain in Hsid as [Hsp Hsl]. apply digest_plain in Hd as [Hdp Hdl].
  assert (len (SessionMaterialCoverageV1_text (mp_Coverage p)) <= 8 /\
          all_bytes is_plain (SessionMaterialCoverageV1_text (mp_Coverage p)) = true) as [Hcl Hcp]
    by (rewrite Hcov; by destruct (_ =? 0)).
  unfold json_prefix. etransitivity; [apply marshal_obj_len |].
  { rewrite !forallb_app. repeat (apply andb_true_intro; split); try reflexivity.
    - by destruct (String.eqb _ _).
    - by destruct (mp_LastContribution p). }
  rewrite !members_bound_app. cbn [members_bound]. rewrite Hrs, Hrc, !marshal_str_len by done.
  assert (forall v, 0 <= v <= max_i64 -> len (marshal (JNum v)) <= 20) as Hn.
  { intros v Hvv. apply marshal_num_len. left. unfold i64. lia. }
  pose proof (marshal_num_len (mp_ThroughSequence p) (or_intror Hthrough)).
  pose proof (marshal_num_len (mp_UnknownReasons p) ltac:(right; unfold u64, u32, max_u64, max_u32 in *; lia)).
  pose proof (marshal_num_len (mp_Version p) ltac:(right; rewrite Hver; unfold u64, max_u64; lia)).
  repeat match goal with H : 0 <= ?v <= max_i64 |- _ => apply Hn in H end.
  change (len RecordSchemaV1) with 28. change (len ContractV1) with 13. literal_lengths.
  unfold MaxSessionMaterialPrefixBytesV1. lia.
Qed.

(** So a valid prefix always encodes. *)
Lemma prefix_encodes p :
  prefix_typed p -> SessionMaterialPrefixV1_Validate p = None ->
  EncodeSessionMaterialPrefixV1 p = inr (marshal (json_prefix p)).
Proof.
  intros Ht Hv. unfold EncodeSessionMaterialPrefixV1. rewrite Hv. cbn [notnil isnil negb].
  pose proof (prefix_encoding_len p Ht Hv). destruct (_ >? _) eqn:E; b2p; [lia | done].
Qed.

(** ** The fold succeeds *)

Lemma materialDigest_sha s : materialDigest (sha256_hex s) = true.
Proof. apply sha256_hex_digest. Qed.

Lemma event_scope e :
  SessionEvent_Validate e = None ->
  SessionEventID_Validate (se_ID e) = None /\ se_Sequence e <> 0 /\ SessionEventKind_Valid (se_Kind e) = true.
Proof.
  unfold SessionEvent_Validate, validateMaterialScope, validateMaterialBody. intros H. peel H.
  b2p. peel E. peel E1. by b2p.
Qed.

Lemma unverified_contribution e :
  SessionEvent_Validate e = None ->
  contribution_typed (contribution e None) /\ SessionMaterialContributionV1_validate (contribution e None) = None.
Proof.
  intros (Hid & Hseq & Hk)%event_scope. split; [by repeat split |].
  unfold SessionMaterialContributionV1_validate, contribution. cbn. rewrite Hid, Hk.
  apply Z.eqb_neq in Hseq as ->. unfold materialIdentityDigest.
  by rewrite materialDigest_sha.
Qed.

Lemma contribution_event e measure :
  mc_EventID (contribution e measure) = se_ID e /\ mc_Sequence (contribution e measure) = se_Sequence e /\
  mc_Kind (contribution e measure) = se_Kind e.
Proof. unfold contribution. destruct measure as [m |]; [| done]. by destruct (_ && _). Qed.

(** The last contribution of a fold is counted in it. *)
Lemma fold_last p e c n :
  prefix_bounded p -> contribution_ok c -> SessionEventKind_Valid (mc_Kind c) = true ->
  SessionMaterialContributionV1_validate c = None -> SessionEventID_Validate (se_ID e) = None ->
  mc_EventID c = se_ID e -> mc_Sequence c = se_Sequence e -> se_Sequence e <> 0 ->
  fold_fields p e c n -> prefix_last n c.
Proof.
  intros [Hb _] Hok Hk Hv He Hid Hq Hne F. destruct (contribution_amounts c Hok) as (? & ? & ? & ? & ? & ? & _).
  open_counters Hb. unfold prefix_last.
  rewrite (ff_LastContribution _ _ _ _ F), (ff_LastEventID _ _ _ _ F), (ff_Reasons _ _ _ _ F). fields F.
  split_and!; try done; try lia.
  - intros ->. by rewrite orb_true_r.
  - assert (forall v, 0 <= v <= max_i64 -> Z.min max_i64 (v + 1) <> 0) as Hnz by (unfold max_i64; lia).
    destruct (mc_Kind c) eqn:Ek; cbn [kindCount]; fields F; rewrite ?Ek; try done; by apply Hnz.
  - assert (forall v, 0 <= v <= max_i64 -> Z.min max_i64 (v + 1) <> 0) as Hnz by (unfold max_i64; lia).
    intros Hver. rewrite Hver. destruct (mc_CodexCompatible c); by apply Hnz.
Qed.

(** Folding a typed, valid contribution gives a valid prefix, whatever the new digest. *)
Lemma fold_next_valid p e c digest :
  prefix_typed p -> SessionMaterialPrefixV1_Validate p = None ->
  SessionEvent_Validate e = None -> u64 (se_Sequence e) -> se_Sequence e = mp_ThroughSequence p + 1 ->
  contribution_typed c -> SessionMaterialContributionV1_validate c = None ->
  mc_EventID c = se_ID e -> mc_Sequence c = se_Sequence e -> mc_Kind c = se_Kind e ->
  materialDigest digest = true ->
  let n := fold_next p e c in
  SessionMaterialPrefixV1_Validate {| n with mp_PrefixDigest := digest |} = None /\
  prefix_typed {| n with mp_PrefixDigest := digest |}.
Proof.
  intros Ht Hv He Hu Hseq Hct Hcv Hid Hq Hk Hd n.
  destruct (Validate_counters p Ht Hv) as (Hh & Hb & Hp). destruct (event_scope e He) as (Hide & Hne & Hke).
  destruct (contribution_validate_ok c Hct Hcv) as [Hok Hkv].
  pose proof (fold_next_fields p e c Hb Hok Hkv Hk : fold_fields p e c n) as F. clearbody n.
  destruct (keep_counters p e c n Hb Hp Hok Hkv F Hseq Hu) as [Hpn Hbn].
  split.
  - apply (invariant_valid _ c); [| exact Hbn | exact Hpn | exact (fold_last p e c n Hb Hok Hkv Hcv Hide Hid Hq Hne F)].
    destruct Hh as (Hver & Htid & Hsid & Hrs & Hrc & _ & Hm & Hcov).
    unfold prefix_header. cbn. rewrite (ff_Version _ _ _ _ F), (ff_TenantID _ _ _ _ F), (ff_SessionID _ _ _ _ F),
      (ff_RecordSchema _ _ _ _ F), (ff_RendererContract _ _ _ _ F). split_and!; try done.
    + transitivity (has_reason n (max_u32 - materialReasonMask)); [done |].
      rewrite (ff_Reasons _ _ _ _ F), Hm. cbn [Z.land Z.eqb negb]. by rewrite !andb_false_r.
    + rewrite (ff_Coverage _ _ _ _ F), Hcov. destruct (mp_UnknownReasons n =? 0) eqn:Hn0; [| done].
      rewrite (ff_NoReason _ _ _ _ F) in Hn0. apply andb_true_iff in Hn0 as [Hn0 _].
      by apply andb_true_iff in Hn0 as [-> _].
  - destruct Hbn as [Hbn Hun]. destruct Ht as (_ & _ & Hr & _). unfold prefix_typed. cbn [mp_ThroughSequence mp_UnknownReasons mp_LastContribution].
    rewrite (ff_LastContribution _ _ _ _ F). split_and!; try done.
    + change (Forall (fun v => 0 <= v) (material_counters n)). eapply Forall_impl; [exact Hbn |]. cbn. lia.
    + by apply (ff_ReasonsTyped _ _ _ _ F).
    + by rewrite Hq.
Qed.

(** ** Properties *)

Lemma fold_total p e measure :
  prefix_typed p -> SessionMaterialPrefixV1_Validate p = None ->
  SessionEvent_Validate e = None -> se_TenantID e = mp_TenantID p -> se_SessionID e = mp_SessionID p ->
  mp_ThroughSequence p <> max_u64 -> se_Sequence e = mp_ThroughSequence p + 1 ->
  match measure with
  | None => True
  | Some _ => contribution_typed (contribution e measure) /\
              SessionMaterialContributionV1_validate (contribution e measure) = None
  end ->
  exists n, FoldSessionMaterialV1 p e measure = inr n /\
    SessionMaterialPrefixV1_Validate n = None /\ prefix_typed n /\
    mp_TenantID n = mp_TenantID p /\ mp_SessionID n = mp_SessionID p /\
    mp_ThroughSequence n = se_Sequence e /\ mp_LastEventID n = se_ID e.
Proof.
  intros Ht Hv He Htid Hsid Hmax Hseq Hm.
  assert (u64 (se_Sequence e)) as Hu by (destruct Ht as (_ & Ht & _); unfold u64, max_u64 in *; lia).
  assert (contribution_typed (contribution e measure) /\
          SessionMaterialContributionV1_validate (contribution e measure) = None) as [Hct Hcv].
  { destruct measure; [done | by apply unverified_contribution]. }
  destruct (contribution_event e measure) as (Hid & Hq & Hk).
  unfold FoldSessionMaterialV1. rewrite Hv, He, Htid, Hsid, !String.eqb_refl, Hcv. cbn [notnil isnil negb orb].
  apply Z.eqb_neq in Hmax as Hmax'. rewrite Hmax', wrap_u64_succ, <- Hseq, Z.eqb_refl;
    [| by destruct Ht as (_ & ? & _) | done]. cbn [negb orb].
  rewrite prefix_encodes by done. set (d := fold_digest p _ _).
  assert (materialDigest d = true) as Hd by apply materialDigest_sha.
  clearbody d. destruct (fold_next_valid p e (contribution e measure) d) as [Hnv Hnt]; try done.
  rewrite Hnv. cbn [notnil isnil negb]. eexists. split; [done |].
  destruct (Validate_counters p Ht Hv) as (_ & Hb & _). destruct (contribution_validate_ok _ Hct Hcv) as [Hok Hkv].
  pose proof (fold_next_fields p e _ Hb Hok Hkv Hk) as F. split_and!; [done | done | ..]; cbn; apply F.
Qed.

(** C30. The material fold never rejects valid history: for a valid prefix and a valid
    event of the same session with the next sequence number, [FoldSessionMaterialV1]
    without a measure, or with one whose contribution is well formed, succeeds; the new
    prefix is valid, reaches the event's sequence and names it as its last event, so the
    fold can be repeated for the whole history up to the last [uint64] sequence. *)
Theorem material_fold_total p e measure :
  prefix_typed p -> SessionMaterialPrefixV1_Validate p = None ->
  SessionEvent_Validate e = None -> se_TenantID e = mp_TenantID p -> se_SessionID e = mp_SessionID p ->
  mp_ThroughSequence p <> max_u64 -> se_Sequence e = mp_ThroughSequence p + 1 ->
  match measure with
  | None => True
  | Some _ => contribution_typed (contribution e measure) /\
              SessionMaterialContributionV1_validate (contribution e measure) = None
  end ->
  exists n, FoldSessionMaterialV1 p e measure = inr n /\
    SessionMaterialPrefixV1_Validate n = None /\ prefix_typed n /\
    mp_TenantID n = mp_TenantID p /\ mp_SessionID n = mp_SessionID p /\
    mp_ThroughSequence n = se_Sequence e /\ mp_LastEventID n = se_ID e.
Proof. apply fold_total. Qed.

Lemma material_fold_total_witness :
  exists n, FoldSessionMaterialV1 (genesis_prefix "acme" "s1") Sample.event None = inr n.
Proof.
  destruct (material_fold_total (genesis_prefix "acme" "s1") Sample.event None) as [n Hn].
  - split; [| split; [| split]].
    + unfold material_counters. repeat (apply Forall_cons_2; [vm_compute; discriminate |]). apply Forall_nil_2.
    + split; vm_compute; discriminate.
    + split; vm_compute; discriminate.
    + exact I.
  - vm_compute. reflexivity.
  - vm_compute. reflexivity.
  - reflexivity.
  - reflexivity.
  - discriminate.
  - reflexivity.
  - exact I.
  - exists n. exact (proj1 Hn).
Defined.
