(* ===== verification/Store.v ===== *)
(** * The session store: tables and transactions

    The YDB tables the canonical session operations use
    ([internal/ydbstore/sessions.go], [session_lifecycle.go],
    [session_material_writers.go]) as maps from primary keys, the transaction of
    [Store.Transact] as an error-and-state monad that commits only on success,
    and the SQL statements as table operations.

    A [record] column holds the JSON of a value; the tables hold the value.  This
    is exact for the timestamps the control plane writes, which are UTC, and for
    integers up to [2^53]: a [JsonDocument] column holds a number above that as a
    double, which the tables here do not round.  Sequences and revisions grow by one
    a write, so only a record that its creator starts beyond [2^53] gets there. *)

From S2P Require Import Prelude GoText GoTime Sha256 Json Digests Errors Identity Blobs Lifecycle Sessions.
From S2P Require Import Material.
From stdpp Require Import gmap sets.
#[local] Open Scope Z_scope.

(** A row of [session_material_current_v1] or [session_material_boundaries_v1]. *)
Record sessionMaterialPrefixRow := {
  pr_record : SessionMaterialPrefixV1;
  pr_tenant : string;
  pr_session : string;
  pr_last : string;
  pr_digest : string;
  pr_version : Z;
  pr_through : Z }.

(** The key of [session_activity]: tenant, user, status, bucket, time, session. *)
Definition activity_key : Type := string * string * string * Z * Z * string.

Record db := mkDb {
  sessions : gmap (string * string) Session;
  session_participants : gmap (string * string * string) SessionParticipant;
  session_activity : gset activity_key;
  session_events : gmap (string * string * Z) SessionEvent;
  session_event_idempotency : gmap (string * string * string) (Z * string);
  session_snapshots : gmap (string * string * Z) SessionSnapshot;
  frontend_bindings : gmap (string * string) FrontendBinding;
  frontend_bindings_by_session : gset (string * string * string);
  frontend_binding_keys : gmap (string * string * string) string;
  session_deletions : gmap (string * string) SessionDeletion;
  session_material_current : gmap (string * string) sessionMaterialPrefixRow;
  session_material_boundaries : gmap (string * string * Z) sessionMaterialPrefixRow }.

Definition empty_db : db := mkDb ∅ ∅ ∅ ∅ ∅ ∅ ∅ ∅ ∅ ∅ ∅ ∅.

(** ** Transactions *)

Definition tx (A : Type) : Type := db -> error + (A * db).

#[global] Instance tx_ret : MRet tx := fun _ x d => inr (x, d).
#[global] Instance tx_bind : MBind tx := fun _ _ f m d =>
  match m d with inl e => inl e | inr (x, d') => f x d' end.

Definition tx_fail {A} (e : error) : tx A := fun _ => inl e.
Definition tx_read {A} (f : db -> A) : tx A := fun d => inr (f d, d).
Definition tx_write (f : db -> db) : tx unit := fun d => inr (tt, f d).

(** [if err := c; err != nil { return err }] and [if b { return e }]. *)
Definition tx_check (c : option error) : tx unit :=
  match c with Some e => tx_fail e | None => mret tt end.
Definition tx_reject (b : bool) (e : error) : tx unit := if b then tx_fail e else mret tt.

(** [Store.Transact]: the callback's error rolls every write back. *)
Definition Transact {A} (tenantID : string) (fn : tx A) (d : db) : (error + A) * db :=
  match TenantID_Validate tenantID with
  | Some e => (inl e, d)
  | None => match fn d with inl e => (inl e, d) | inr (x, d') => (inr x, d') end
  end.

(** An [INSERT] fails when the primary key is taken.  The error is the database's:
    its text stands for whatever the driver reports, and nothing depends on it. *)
Definition errKeyExists : error := PlainError "Conflict with existing key." None.

Definition insert_new {K V} `{Countable K} (get : db -> gmap K V) (set : gmap K V -> db -> db)
  (key : K) (value : V) : tx unit := fun d =>
  match get d !! key with
  | Some _ => inl errKeyExists
  | None => inr (tt, set (<[key := value]> (get d)) d)
  end.

(** [marshal(value)] fails when a timestamp of the value has no JSON form.  The
    error is the JSON encoder's: its text stands for whatever the encoder reports,
    and nothing depends on it. *)
Definition errMarshal : error := PlainError "json: error calling MarshalJSON for type time.Time" None.
Definition marshal_record (times : list time) : tx unit := tx_reject (negb (forallb marshals times)) errMarshal.

(** ** Partition buckets ([internal/ydbpartition/contract.go]) *)

Definition BucketCountV1 : Z := 16.

Definition be_uint (l : list Z) : Z := fold_left (fun acc b => acc * 256 + b) l 0.

Definition BucketV1 (identifier : string) : error + Z :=
  if String.eqb identifier "" then inl (PlainError "partition identifier must not be empty" None)
  else inr (be_uint (take 4 (bytes_of (sha256 identifier))) mod BucketCountV1).

Definition BucketsV1 : list Z := map Z.of_nat (seq 0 16).

(** A YDB [Timestamp] column keeps microseconds. *)
Definition ydb_timestamp (t : time) : Z := ns t / microsecond.

(** ** Session rows *)

Definition ensureSessionWritableTx (tenantID sessionID : string) : tx unit :=
  found ← tx_read (fun d => session_deletions d !! (tenantID, sessionID));
  match found with
  | None => mret tt
  | Some deletion => tx_fail (ValidationError "session.lifecycle"
      ("writes are blocked by deletion state " +:+ quoted (SessionDeletionState_text (sd_State deletion))))
  end.

Definition readSessionTx (tenantID sessionID : string) : tx (option Session) :=
  tx_read (fun d => sessions d !! (tenantID, sessionID)).

Definition readBindingTx (tenantID bindingID : string) : tx (option FrontendBinding) :=
  tx_read (fun d => frontend_bindings d !! (tenantID, bindingID)).

Definition sessionOwnerMatchesTx (owner : SessionParticipant) : tx bool :=
  existingOwner ← tx_read (fun d => session_participants d !! (sp_TenantID owner, sp_SessionID owner, sp_UserID owner));
  mret (bool_decide (existingOwner = Some owner)).

Definition sessionAndOwnerMatchTx (tenantID : string) (session : Session) (owner : SessionParticipant) : tx bool :=
  existingSession ← readSessionTx tenantID (s_ID session);
  if bool_decide (existingSession = Some session) then sessionOwnerMatchesTx owner else mret false.

(** ** Activity rows *)

Definition activity_row (session : Session) (userID : string) (bucket : Z) : activity_key :=
  (s_TenantID session, userID, SessionStatus_text (s_Status session), bucket,
   ydb_timestamp (s_UpdatedAt session), s_ID session).

Definition set_activity (f : gset activity_key -> gset activity_key) (d : db) : db :=
  {| d with session_activity := f (session_activity d) |}.

Definition insertActivityTx (session : Session) (userID : string) : tx unit :=
  match BucketV1 (s_ID session) with
  | inl e => tx_fail e
  | inr bucket => tx_write (set_activity (fun a => {[ activity_row session userID bucket ]} ∪ a))
  end.

Definition deleteActivityTx (session : Session) (userID : string) : tx unit :=
  match BucketV1 (s_ID session) with
  | inl e => tx_fail e
  | inr bucket => tx_write (set_activity (fun a => a ∖ {[ activity_row session userID bucket ]}))
  end.

Fixpoint tx_each {A} (f : A -> tx unit) (l : list A) : tx unit :=
  match l with [] => mret tt | x :: r => _ ← f x; tx_each f r end.

Definition maxSessionDeletionRows : Z := 10000.

(** The rows of [session_participants] of a session with status active. *)
Definition active_rows (tenantID sessionID : string) (d : db) : list SessionParticipant :=
  map snd (filter (fun row => fst row.1 = (tenantID, sessionID) /\ sp_Status row.2 = SessionParticipantActive)
             (map_to_list (session_participants d))).

(** The query has [LIMIT maxRows + 1]. *)
Definition activeSessionParticipants (tenantID sessionID : string) (maxRows : Z) : tx (list SessionParticipant) :=
  participants ← tx_read (fun d => take (Z.to_nat (wrap_u64 (maxRows + 1))) (active_rows tenantID sessionID d));
  _ ← tx_reject (Z.of_nat (length participants) >? maxRows)
        (ValidationError "session_participants" "exceeds the configured bound");
  mret participants.

Definition session_times (session : Session) : list time :=
  [s_CreatedAt session; s_UpdatedAt session] ++ match s_ArchivedAt session with Some t => [t] | None => [] end.

Definition update_session_row (session : Session) (d : db) : db :=
  match sessions d !! (s_TenantID session, s_ID session) with
  | Some _ => {| d with sessions := <[(s_TenantID session, s_ID session) := session]> (sessions d) |}
  | None => d
  end.

Definition updateSessionTx (tenantID : string) (previous session : Session) : tx unit :=
  _ ← ensureSessionWritableTx tenantID (s_ID session);
  participants ← activeSessionParticipants tenantID (s_ID session) maxSessionDeletionRows;
  _ ← tx_each (fun participant => deleteActivityTx previous (sp_UserID participant)) participants;
  _ ← marshal_record (session_times session);
  _ ← tx_write (update_session_row session);
  tx_each (fun participant => insertActivityTx session (sp_UserID participant)) participants.

(** ** Material rows ([session_material_writers.go]) *)

Definition errSessionMaterialSource : error := PlainError "canonical material source unavailable" None.

(** [decode]: the stored text decodes to the record it encodes, which must be valid. *)
Definition decode_row (r : sessionMaterialPrefixRow) (tenant session : string) (sequence : Z)
  : error + SessionMaterialPrefixV1 :=
  let prefix := pr_record r in
  if (len (marshal (json_prefix prefix)) >? MaxSessionMaterialPrefixBytesV1)
     || (len (pr_tenant r) >? 160) || (len (pr_session r) >? 160) || (len (pr_last r) >? 160)
     || negb (len (pr_digest r) =? 64) || negb (pr_version r =? 1) || negb (pr_through r =? sequence)
     || negb (String.eqb (pr_tenant r) tenant) || negb (String.eqb (pr_session r) session)
  then inl errSessionMaterialSource
  else if notnil (SessionMaterialPrefixV1_Validate prefix) || negb (mp_Version prefix =? wrap_u32 (pr_version r))
          || negb (mp_ThroughSequence prefix =? pr_through r) || negb (String.eqb (mp_TenantID prefix) tenant)
          || negb (String.eqb (mp_SessionID prefix) session) || negb (String.eqb (mp_LastEventID prefix) (pr_last r))
          || negb (String.eqb (mp_PrefixDigest prefix) (pr_digest r))
  then inl errSessionMaterialSource
  else inr prefix.

(** [readSessionMaterialPrefixV1] without a charge: absent, or decoded. *)
Definition read_prefix (row : option sessionMaterialPrefixRow) (tenant session : string) (sequence : Z)
  : tx (option SessionMaterialPrefixV1) :=
  match row with
  | None => mret None
  | Some r => match decode_row r tenant session sequence with
              | inl e => tx_fail e
              | inr p => mret (Some p)
              end
  end.

(** A function with results [(value, error)]. *)
Definition tx_of {A} (r : A * option error) : tx A :=
  match r with (_, Some e) => tx_fail e | (x, None) => mret x end.

Definition loadSessionMaterialPredecessorTx (tenantID session : string) (sequence : Z)
  : tx SessionMaterialPrefixV1 :=
  currentRow ← tx_read (fun d => session_material_current d !! (tenantID, session));
  current ← read_prefix currentRow tenantID session sequence;
  if sequence =? 0 then
    match current with
    | None => tx_of (NewUnknownSessionMaterialPrefixV1 tenantID session 0)
    | Some current =>
        match NewSessionMaterialGenesisV1 tenantID session with
        | (genesis, None) =>
            if negb (EqualSessionMaterialPrefixV1 current genesis) then tx_fail errSessionMaterialSource
            else mret current
        | (_, Some _) => tx_fail errSessionMaterialSource
        end
    end
  else
    boundaryRow ← tx_read (fun d => session_material_boundaries d !! (tenantID, session, sequence));
    boundary ← read_prefix boundaryRow tenantID session sequence;
    match current, boundary with
    | None, None => tx_of (NewUnknownSessionMaterialPrefixV1 tenantID session sequence)
    | Some current, Some boundary =>
        if negb (EqualSessionMaterialPrefixV1 current boundary) then tx_fail errSessionMaterialSource
        else mret current
    | _, _ => tx_fail errSessionMaterialSource
    end.

Definition prepareSessionMaterialFoldTx (tenantID : string) (event : SessionEvent)
  (measure : option FinalMaterialMeasureV1) : tx SessionMaterialPrefixV1 :=
  _ ← tx_reject (negb (String.eqb (se_TenantID event) tenantID) || notnil (SessionEvent_Validate event))
        errSessionMaterialSource;
  previous ← loadSessionMaterialPredecessorTx tenantID (se_SessionID event) (wrap_u64 (se_Sequence event - 1));
  match FoldSessionMaterialV1 previous event measure with inl e => tx_fail e | inr p => mret p end.

Definition prefix_row (prefix : SessionMaterialPrefixV1) : sessionMaterialPrefixRow :=
  {| pr_record := prefix; pr_tenant := mp_TenantID prefix; pr_session := mp_SessionID prefix;
     pr_last := mp_LastEventID prefix; pr_digest := mp_PrefixDigest prefix; pr_version := mp_Version prefix;
     pr_through := mp_ThroughSequence prefix |}.

Definition set_current (key : string * string) (row : sessionMaterialPrefixRow) (d : db) : db :=
  {| d with session_material_current := <[key := row]> (session_material_current d) |}.

Definition writeSessionMaterialFoldTx (tenantID : string) (prefix : SessionMaterialPrefixV1) : tx unit :=
  _ ← tx_reject (is_err (EncodeSessionMaterialPrefixV1 prefix)
                 || negb (String.eqb (mp_TenantID prefix) tenantID) || (mp_ThroughSequence prefix =? 0))
        errSessionMaterialSource;
  _ ← insert_new session_material_boundaries (fun m d => {| d with session_material_boundaries := m |})
        (mp_TenantID prefix, mp_SessionID prefix, mp_ThroughSequence prefix) (prefix_row prefix);
  tx_write (set_current (mp_TenantID prefix, mp_SessionID prefix) (prefix_row prefix)).

Definition createSessionMaterialGenesisTx (tenantID : string) (session : Session) : tx unit :=
  if negb (s_LastEventSequence session =? 0) then mret tt
  else match NewSessionMaterialGenesisV1 (s_TenantID session) (s_ID session) with
       | (_, Some _) => tx_fail errSessionMaterialSource
       | (prefix, None) =>
           _ ← tx_reject (negb (String.eqb (s_TenantID session) tenantID)) errSessionMaterialSource;
           match EncodeSessionMaterialPrefixV1 prefix with
           | inl e => tx_fail e
           | inr _ =>
               insert_new session_material_current (fun m d => {| d with session_material_current := m |})
                 (mp_TenantID prefix, mp_SessionID prefix) (prefix_row prefix)
           end
       end.
