(* ===== verification/SessionStore.v ===== *)
(** * Canonical session operations ([internal/ydbstore/sessions.go])

    The operations of the store on sessions, events, snapshots and bindings, each
    one transaction of [Store.v]; reads run on the committed database. *)

From S2P Require Import Prelude GoText Sorting GoTime Sha256 Json Digests Errors Identity Blobs Lifecycle.
From S2P Require Import Sessions Material MaterialFold MaterialTotal Store.
From stdpp Require Import gmap sets.
#[local] Open Scope Z_scope.

Definition maxSessionPageSize : Z := 200.

Definition ErrSessionConflict : error :=
  PlainError "canonical session already exists with different content" None.
Definition ErrBindingConflict : error :=
  PlainError "frontend binding already exists with different content" None.
Definition ErrSnapshotConflict : error :=
  PlainError "session snapshot already exists with different content" None.

(** ** Creating sessions *)

Definition validateSessionOwner (session : Session) (owner : SessionParticipant) : option error :=
  check Session_Validate session ;!
  check SessionParticipant_Validate owner ;!
  check EnsureSameTenant (s_TenantID session) (sp_TenantID owner) ;!
  reject negb (String.eqb (sp_SessionID owner) (s_ID session))
         || negb (String.eqb (sp_UserID owner) (s_CreatedBy session))
         || negb (bool_decide (sp_Role owner = SessionParticipantOwner))
         || negb (bool_decide (sp_Status owner = SessionParticipantActive))
    with ValidationError "session.owner" "must be the active owner and creator of the session" ;!
  None.

Definition createSessionTx (tenantID : string) (session : Session) (owner : SessionParticipant) : tx unit :=
  _ ← ensureSessionWritableTx tenantID (s_ID session);
  existing ← readSessionTx tenantID (s_ID session);
  match existing with
  | Some existing =>
      if negb (bool_decide (existing = session)) then tx_fail ErrSessionConflict
      else matches ← sessionOwnerMatchesTx owner;
           if negb matches then tx_fail ErrSessionConflict else mret tt
  | None =>
      _ ← marshal_record (session_times session);
      _ ← insert_new sessions (fun m d => {| d with sessions := m |})
            (s_TenantID session, s_ID session) session;
      _ ← marshal_record [sp_CreatedAt owner; sp_UpdatedAt owner];
      _ ← insert_new session_participants (fun m d => {| d with session_participants := m |})
            (sp_TenantID owner, sp_SessionID owner, sp_UserID owner) owner;
      _ ← createSessionMaterialGenesisTx tenantID session;
      insertActivityTx session (sp_UserID owner)
  end.

Definition CreateSession (session : Session) (owner : SessionParticipant) (d : db) : (error + unit) * db :=
  match validateSessionOwner session owner with
  | Some e => (inl e, d)
  | None => Transact (s_TenantID session) (createSessionTx (s_TenantID session) session owner) d
  end.

(** ** Bindings *)

Definition bindings_update (binding : FrontendBinding) (previous : option FrontendBinding) (d : db) : db :=
  let by_session :=
    match previous with
    | Some previous =>
        if negb (String.eqb (fb_SessionID previous) (fb_SessionID binding))
        then frontend_bindings_by_session d ∖ {[ (fb_TenantID binding, fb_SessionID previous, fb_ID binding) ]}
        else frontend_bindings_by_session d
    | None => frontend_bindings_by_session d
    end in
  {| d with
     frontend_bindings := <[(fb_TenantID binding, fb_ID binding) := binding]> (frontend_bindings d);
     frontend_bindings_by_session := {[ (fb_TenantID binding, fb_SessionID binding, fb_ID binding) ]} ∪ by_session;
     frontend_binding_keys :=
       <[(fb_TenantID binding, fb_Frontend binding, fb_ExternalConversationID binding) := fb_ID binding]>
         (frontend_binding_keys d) |}.

Definition writeBindingTx (tenantID : string) (binding : FrontendBinding) : tx unit :=
  _ ← tx_check (EnsureSameTenant tenantID (fb_TenantID binding));
  _ ← tx_check (FrontendBinding_Validate binding);
  _ ← ensureSessionWritableTx tenantID (fb_SessionID binding);
  _ ← marshal_record [fb_CreatedAt binding; fb_UpdatedAt binding];
  previous ← readBindingTx tenantID (fb_ID binding);
  tx_write (bindings_update binding previous).

Definition must_be_active : error :=
  ValidationError "frontend_binding.session_id" "must reference an active session".

Definition is_active (session : option Session) : bool :=
  match session with Some s => bool_decide (s_Status s = SessionActive) | None => false end.

Definition binding_not_found (bindingID : string) : error :=
  PlainError ("frontend binding " +:+ quoted bindingID +:+ " not found") None.

(** [binding.Switch(...)] on a local copy: the switched copy, or the error. *)
Definition switched (binding : FrontendBinding) (expected : Z) (sessionID : string) (at_ : time)
  : tx FrontendBinding :=
  match Switch (Some binding) expected sessionID at_ with
  | (Some b, None) => mret b
  | (_, Some e) => tx_fail e
  | (None, None) => mret binding
  end.

Definition createAndSwitchTx (session : Session) (owner : SessionParticipant) (bindingID : string)
  (expectedRevision : Z) (at_ : time) : tx FrontendBinding :=
  found ← readBindingTx (s_TenantID session) bindingID;
  match found with
  | None => tx_fail (binding_not_found bindingID)
  | Some binding =>
      if (fb_Revision binding =? wrap_u64 (expectedRevision + 1))
         && String.eqb (fb_SessionID binding) (s_ID session) && time_equal (fb_UpdatedAt binding) at_
      then matches ← sessionAndOwnerMatchTx (s_TenantID session) session owner;
           if (matches : bool) then mret binding else tx_fail ErrSessionConflict
      else
        _ ← tx_reject (negb (fb_Revision binding =? expectedRevision))
              (StaleBindingError expectedRevision (fb_Revision binding));
        nextBinding ← switched binding expectedRevision (s_ID session) at_;
        _ ← createSessionTx (s_TenantID session) session owner;
        _ ← writeBindingTx (s_TenantID session) nextBinding;
        mret nextBinding
  end.

Definition CreateAndSwitchSession (session : Session) (owner : SessionParticipant) (bindingID : string)
  (expectedRevision : Z) (at_ : time) (d : db) : (error + FrontendBinding) * db :=
  match validateSessionOwner session owner with
  | Some e => (inl e, d)
  | None =>
      if negb (bool_decide (s_Status session = SessionActive)) then (inl must_be_active, d)
      else match FrontendBindingID_Validate bindingID with
           | Some e => (inl e, d)
           | None => Transact (s_TenantID session) (createAndSwitchTx session owner bindingID expectedRevision at_) d
           end
  end.

Definition bindFrontendTx (binding : FrontendBinding) : tx unit :=
  session ← readSessionTx (fb_TenantID binding) (fb_SessionID binding);
  _ ← tx_reject (negb (is_active session)) must_be_active;
  existing ← readBindingTx (fb_TenantID binding) (fb_ID binding);
  match existing with
  | Some existing => if bool_decide (existing = binding) then mret tt else tx_fail ErrBindingConflict
  | None =>
      existingID ← tx_read (fun d => frontend_binding_keys d !!
                     (fb_TenantID binding, fb_Frontend binding, fb_ExternalConversationID binding));
      _ ← tx_reject (match existingID with Some id => negb (String.eqb id (fb_ID binding)) | None => false end)
            ErrBindingConflict;
      writeBindingTx (fb_TenantID binding) binding
  end.

Definition BindFrontend (binding : FrontendBinding) (d : db) : (error + unit) * db :=
  match FrontendBinding_Validate binding with
  | Some e => (inl e, d)
  | None => Transact (fb_TenantID binding) (bindFrontendTx binding) d
  end.

Definition ResolveFrontendBinding (tenantID frontend externalConversationID : string) (d : db)
  : error + option FrontendBinding :=
  match TenantID_Validate tenantID with
  | Some e => inl e
  | None =>
      match ValidateOpaqueID "frontend" frontend with
      | Some e => inl e
      | None =>
          if blank externalConversationID
          then inl (ValidationError "external_conversation_id" "must not be empty")
          else inr (match frontend_binding_keys d !! (tenantID, frontend, externalConversationID) with
                    | None => None
                    | Some bindingID => frontend_bindings d !! (tenantID, bindingID)
                    end)
      end
  end.

Definition switchFrontendTx (tenantID bindingID : string) (expectedRevision : Z) (sessionID : string) (at_ : time)
  : tx FrontendBinding :=
  found ← readBindingTx tenantID bindingID;
  match found with
  | None => tx_fail (binding_not_found bindingID)
  | Some binding =>
      session ← readSessionTx tenantID sessionID;
      _ ← tx_reject (negb (is_active session)) must_be_active;
      binding ← switched binding expectedRevision sessionID at_;
      _ ← writeBindingTx tenantID binding;
      mret binding
  end.

Definition SwitchFrontendBinding (tenantID bindingID : string) (expectedRevision : Z) (sessionID : string)
  (at_ : time) (d : db) : (error + FrontendBinding) * db :=
  match TenantID_Validate tenantID with
  | Some e => (inl e, d)
  | None =>
      match FrontendBindingID_Validate bindingID with
      | Some e => (inl e, d)
      | None =>
          match SessionID_Validate sessionID with
          | Some e => (inl e, d)
          | None => Transact tenantID (switchFrontendTx tenantID bindingID expectedRevision sessionID at_) d
          end
      end
  end.

(** ** Events *)

Definition insertSessionEventTx (tenantID : string) (event : SessionEvent)
  (measure : option FinalMaterialMeasureV1) : tx unit :=
  _ ← tx_check (SessionEvent_Validate event);
  prefix ← prepareSessionMaterialFoldTx tenantID event measure;
  _ ← marshal_record [se_CreatedAt event];
  _ ← insert_new session_events (fun m d => {| d with session_events := m |})
        (se_TenantID event, se_SessionID event, se_Sequence event) event;
  _ ← insert_new session_event_idempotency (fun m d => {| d with session_event_idempotency := m |})
        (se_TenantID event, se_SessionID event, se_IdempotencyKey event) (se_Sequence event, se_ID event);
  writeSessionMaterialFoldTx tenantID prefix.

Definition session_not_found (sessionID : string) : error :=
  PlainError ("session " +:+ quoted sessionID +:+ " not found") None.

Definition appendEventTx (event : SessionEvent) (measure : option FinalMaterialMeasureV1) : tx bool :=
  let tenantID := se_TenantID event in
  _ ← ensureSessionWritableTx tenantID (se_SessionID event);
  found ← readSessionTx tenantID (se_SessionID event);
  match found with
  | None => tx_fail (session_not_found (se_SessionID event))
  | Some session =>
      lookup ← tx_read (fun d => session_event_idempotency d !!
                 (se_TenantID event, se_SessionID event, se_IdempotencyKey event));
      match lookup with
      | Some (sequence, eventID) =>
          existing ← tx_read (fun d => session_events d !! (se_TenantID event, se_SessionID event, sequence));
          match existing with
          | Some existing =>
              if negb (String.eqb (se_ID existing) eventID)
              then tx_fail (PlainError "session event idempotency index is inconsistent" None)
              else
                let candidate := if se_Sequence event =? 0 then {| event with se_Sequence := sequence |} else event in
                _ ← tx_check (snd (AppendSessionEvent (Some session) candidate (Some existing)));
                mret false
          | None => tx_fail (PlainError "session event idempotency index is inconsistent" None)
          end
      | None =>
          let candidate :=
            if se_Sequence event =? 0
            then {| event with se_Sequence := wrap_u64 (s_LastEventSequence session + 1) |} else event in
          match Sessions.AppendSessionEvent (Some session) candidate None with
          | ((_, _), Some e) => tx_fail e
          | ((Some session', created), None) =>
              _ ← insertSessionEventTx tenantID candidate measure;
              _ ← updateSessionTx tenantID session session';
              mret created
          | ((None, created), None) => mret created
          end
      end
  end.

Definition appendSessionEventMaterialV1 (event : SessionEvent) (measure : option FinalMaterialMeasureV1) (d : db)
  : (error + bool) * db :=
  match TenantID_Validate (se_TenantID event) with
  | Some e => (inl e, d)
  | None =>
      match SessionID_Validate (se_SessionID event) with
      | Some e => (inl e, d)
      | None =>
          match IdempotencyKey_Validate (se_IdempotencyKey event) with
          | Some e => (inl e, d)
          | None => Transact (se_TenantID event) (appendEventTx event measure) d
          end
      end
  end.

Definition Store_AppendSessionEvent (event : SessionEvent) (d : db) : (error + bool) * db :=
  appendSessionEventMaterialV1 event None d.

(** ** Snapshots *)

(** [ORDER BY version DESC LIMIT 1]: the version and the through sequence. *)
Definition latest_snapshot (tenantID sessionID : string) (d : db) : Z * Z :=
  fold_right (fun (row : (string * string * Z) * SessionSnapshot) best =>
      if bool_decide (row.1.1 = (tenantID, sessionID)) && (row.1.2 >? best.1)
      then (row.1.2, ss_ThroughSequence row.2) else best)
    (0, 0) (map_to_list (session_snapshots d)).

Definition putSnapshotTx (snapshot : SessionSnapshot) : tx unit :=
  let tenantID := ss_TenantID snapshot in
  _ ← ensureSessionWritableTx tenantID (ss_SessionID snapshot);
  session ← readSessionTx tenantID (ss_SessionID snapshot);
  _ ← tx_reject (match session with
                 | Some s => ss_ThroughSequence snapshot >? s_LastEventSequence s
                 | None => true
                 end)
        (ValidationError "session_snapshot.through_sequence" "must reference persisted session history");
  existing ← tx_read (fun d => session_snapshots d !! (tenantID, ss_SessionID snapshot, ss_Version snapshot));
  match existing with
  | Some existing => if bool_decide (existing = snapshot) then mret tt else tx_fail ErrSnapshotConflict
  | None =>
      latest ← tx_read (latest_snapshot tenantID (ss_SessionID snapshot));
      _ ← tx_reject (negb (ss_Version snapshot =? wrap_u64 (fst latest + 1))
                     || (ss_ThroughSequence snapshot <? snd latest))
            (ValidationError "session_snapshot.version" "must append the next non-regressing snapshot version");
      _ ← marshal_record [ss_CreatedAt snapshot];
      insert_new session_snapshots (fun m d => {| d with session_snapshots := m |})
        (tenantID, ss_SessionID snapshot, ss_Version snapshot) snapshot
  end.

Definition PutSessionSnapshot (snapshot : SessionSnapshot) (d : db) : (error + unit) * db :=
  match SessionSnapshot_Validate snapshot with
  | Some e => (inl e, d)
  | None => Transact (ss_TenantID snapshot) (putSnapshotTx snapshot) d
  end.

(** ** Lifecycle *)

Definition transitionTx (tenantID sessionID : string)
  (transition : option Session -> option Session * option error) : tx unit :=
  _ ← ensureSessionWritableTx tenantID sessionID;
  found ← readSessionTx tenantID sessionID;
  match found with
  | None => tx_fail (session_not_found sessionID)
  | Some previous =>
      match transition (Some previous) with
      | (_, Some e) => tx_fail e
      | (Some session, None) => updateSessionTx tenantID previous session
      | (None, None) => mret tt
      end
  end.

Definition transitionSession (tenantID sessionID : string)
  (transition : option Session -> option Session * option error) (d : db) : (error + unit) * db :=
  match TenantID_Validate tenantID with
  | Some e => (inl e, d)
  | None =>
      match SessionID_Validate sessionID with
      | Some e => (inl e, d)
      | None => Transact tenantID (transitionTx tenantID sessionID transition) d
      end
  end.

Definition ArchiveSession (tenantID sessionID : string) (at_ : time) : db -> (error + unit) * db :=
  transitionSession tenantID sessionID (fun p => Archive p at_).

Definition UnarchiveSession (tenantID sessionID : string) (at_ : time) : db -> (error + unit) * db :=
  transitionSession tenantID sessionID (fun p => Unarchive p at_).

(** ** Reads *)

Definition validatePageLimit (limit : Z) : option error :=
  reject (limit =? 0) || (limit >? maxSessionPageSize)
    with ValidationError "limit" ("must be between 1 and " +:+ format_int maxSessionPageSize) ;!
  None.

Definition validateSessionRead (tenantID sessionID : string) (limit : Z) : option error :=
  check TenantID_Validate tenantID ;!
  check SessionID_Validate sessionID ;!
  validatePageLimit limit.

Definition GetSession (tenantID sessionID : string) (d : db) : error + option Session :=
  match TenantID_Validate tenantID with
  | Some e => inl e
  | None => match SessionID_Validate sessionID with
            | Some e => inl e
            | None => inr (sessions d !! (tenantID, sessionID))
            end
  end.

(** The rows of a table keyed by tenant, session and number, after [after], in
    ascending order of the number. *)
Definition ordered_rows {V} (m : gmap (string * string * Z) V) (tenantID sessionID : string) (after : Z)
  : list (Z * V) :=
  sort_by (fun a b => fst a <? fst b)
    (omap (fun row => if bool_decide (row.1.1 = (tenantID, sessionID)) && (after <? row.1.2)
                      then Some (row.1.2, row.2) else None) (map_to_list m)).

Definition page {V} (m : gmap (string * string * Z) V) (tenantID sessionID : string) (after limit : Z) : list V :=
  map snd (take (Z.to_nat limit) (ordered_rows m tenantID sessionID after)).

Definition ListSessionHistory (tenantID sessionID : string) (afterSequence limit : Z) (d : db)
  : error + list SessionEvent :=
  match validateSessionRead tenantID sessionID limit with
  | Some e => inl e
  | None => inr (page (session_events d) tenantID sessionID afterSequence limit)
  end.

Definition ListSessionSnapshots (tenantID sessionID : string) (afterVersion limit : Z) (d : db)
  : error + list SessionSnapshot :=
  match validateSessionRead tenantID sessionID limit with
  | Some e => inl e
  | None => inr (page (session_snapshots d) tenantID sessionID afterVersion limit)
  end.

(** [(updated_at, session_id)] in descending order: newest first, then by id. *)
Definition newer (a b : Z * string) : bool :=
  if fst a =? fst b then String.ltb (snd b) (snd a) else fst b <? fst a.

(** One query of [ListSessions]: the newest [limit] rows of a status and a bucket. *)
Definition activity_page (tenantID userID status : string) (bucket limit : Z) (d : db) : list (Z * string) :=
  take (Z.to_nat limit)
    (sort_by newer
       (omap (fun key : activity_key =>
                let '(t, u, st, b, at_, id) := key in
                if bool_decide ((t, u, st, b) = (tenantID, userID, status, bucket)) then Some (at_, id) else None)
          (elements (session_activity d)))).

(** [byID]: the latest time seen for each session. *)
Definition merge_row (byID : gmap string Z) (row : Z * string) : gmap string Z :=
  match byID !! snd row with
  | Some previous => if previous <? fst row then <[snd row := fst row]> byID else byID
  | None => <[snd row := fst row]> byID
  end.

Definition activity_pages (tenantID userID : string) (limit : Z) (d : db) : list (Z * string) :=
  flat_map (fun status => flat_map (fun bucket => activity_page tenantID userID status bucket limit d) BucketsV1)
    [SessionStatus_text SessionActive; SessionStatus_text SessionArchived].

Fixpoint read_listed (tenantID : string) (ids : list string) (d : db) : error + list Session :=
  match ids with
  | [] => inr []
  | id :: rest =>
      match GetSession tenantID id d with
      | inl e => inl e
      | inr None => inl (PlainError ("session activity references missing session " +:+ quoted id) None)
      | inr (Some session) =>
          match read_listed tenantID rest d with inl e => inl e | inr l => inr (session :: l) end
      end
  end.

Definition listed_ids (tenantID userID : string) (limit : Z) (d : db) : list string :=
  let byID := fold_left merge_row (activity_pages tenantID userID limit d) ∅ in
  let candidates := sort_by newer (map (fun row => (row.2, row.1)) (map_to_list byID)) in
  map snd (take (Z.to_nat limit) candidates).

Definition ListSessions (tenantID userID : string) (limit : Z) (d : db) : error + list Session :=
  match TenantID_Validate tenantID with
  | Some e => inl e
  | None =>
      match UserID_Validate userID with
      | Some e => inl e
      | None =>
          match validatePageLimit limit with
          | Some e => inl e
          | None => read_listed tenantID (listed_ids tenantID userID limit d) d
          end
      end
  end.

(** ** A sample run *)

Module StoreSample.
Definition digest : string := Sample.digest.
Definition owner : SessionParticipant := Sample.owner.

Definition event (n : Z) (id key : string) (at_ : time) : SessionEvent :=
  {| se_ID := id; se_TenantID := "acme"; se_SessionID := "s1"; se_Sequence := n;
     se_Kind := SessionEventUserMessage; se_AuthorUserID := Some "ada"; se_RunID := None;
     se_IdempotencyKey := key;
     se_Payload := {| br_TenantID := "acme"; br_Key := "tenants/acme/sessions/s1/events/" +:+ id +:+ "/body";
                      br_Size := 3; br_SHA256 := digest |};
     se_CreatedAt := at_ |}.

(** The rows of a state, in which the samples are written down. *)
Record rows := mkRows {
  r_sessions : list (string * string * Session);
  r_participants : list (string * string * string * SessionParticipant);
  r_activity : list activity_key;
  r_events : list (string * string * Z * SessionEvent);
  r_idempotency : list (string * string * string * (Z * string));
  r_snapshots : list (string * string * Z * SessionSnapshot);
  r_bindings : list (string * string * FrontendBinding);
  r_by_session : list (string * string * string);
  r_keys : list (string * string * string * string);
  r_current : list (string * string * sessionMaterialPrefixRow);
  r_boundaries : list (string * string * Z * sessionMaterialPrefixRow) }.

Definition rows_of (d : db) : rows :=
  mkRows (map_to_list (sessions d)) (map_to_list (session_participants d)) (elements (session_activity d))
    (map_to_list (session_events d)) (map_to_list (session_event_idempotency d)) (map_to_list (session_snapshots d))
    (map_to_list (frontend_bindings d)) (elements (frontend_bindings_by_session d))
    (map_to_list (frontend_binding_keys d)) (map_to_list (session_material_current d))
    (map_to_list (session_material_boundaries d)).

(** A state without deletions. *)
Definition state_of (r : rows) : db :=
  mkDb (list_to_map (r_sessions r)) (list_to_map (r_participants r)) (list_to_set (r_activity r))
    (list_to_map (r_events r)) (list_to_map (r_idempotency r)) (list_to_map (r_snapshots r))
    (list_to_map (r_bindings r)) (list_to_set (r_by_session r)) (list_to_map (r_keys r)) ∅
    (list_to_map (r_current r)) (list_to_map (r_boundaries r)).

Definition created_rows : rows := Eval vm_compute in rows_of (snd (CreateSession Sample.session owner empty_db)).
Definition created : db := state_of created_rows.
Definition one_rows : rows :=
  Eval vm_compute in rows_of (snd (appendSessionEventMaterialV1 (event 0 "e1" "k1" Sample.t1) None created)).
Definition one : db := state_of one_rows.
Definition two_rows : rows :=
  Eval vm_compute in rows_of (snd (appendSessionEventMaterialV1 (event 0 "e2" "k2" Sample.t2) None one)).
Definition two : db := state_of two_rows.

Lemma created_is : CreateSession Sample.session owner empty_db = (inr tt, created).
Proof. vm_cast_no_check (eq_refl (inr tt : error + unit, created)). Qed.
Lemma one_is : appendSessionEventMaterialV1 (event 0 "e1" "k1" Sample.t1) None created = (inr true, one).
Proof. vm_cast_no_check (eq_refl (inr true : error + bool, one)). Qed.
Lemma two_is : appendSessionEventMaterialV1 (event 0 "e2" "k2" Sample.t2) None one = (inr true, two).
Proof. vm_cast_no_check (eq_refl (inr true : error + bool, two)). Qed.
End StoreSample.

Example sample_history :
  match ListSessionHistory "acme" "s1" 0 10 StoreSample.two with
  | inr l => map se_ID l = ["e1"; "e2"] /\ map se_Sequence l = [1; 2]
  | inl _ => False
  end.
Proof. vm_compute. split; reflexivity. Qed.

Example sample_replay :
  fst (Store_AppendSessionEvent (StoreSample.event 0 "e1" "k1" Sample.t1) StoreSample.two) = inr false.
Proof. vm_compute. reflexivity. Qed.

Example sample_list :
  match ListSessions "acme" "ada" 10 StoreSample.two with
  | inr l => map s_ID l = ["s1"] /\ map s_LastEventSequence l = [2]
  | inl _ => False
  end.
Proof. vm_compute. split; reflexivity. Qed.
