(* ===== verification/StoreEffects.v ===== *)
(** * What the store's transactions do

    Inversion lemmas for committed transactions, and for every operation of
    [SessionStore.v] the exact change of the tables. *)

From S2P Require Import Prelude GoText Sorting GoTime Sha256 Json Digests Errors Identity Blobs Lifecycle.
From S2P Require Import Sessions Material MaterialFold MaterialTotal Store SessionStore.
From stdpp Require Import gmap sets.
#[local] Open Scope Z_scope.

(** ** Inversion of transactions *)

Lemma bind_inr {A B} (m : tx A) (f : A -> tx B) d r :
  (m ≫= f) d = inr r -> exists x d', m d = inr (x, d') /\ f x d' = inr r.
Proof. unfold mbind, tx_bind. destruct (m d) as [e | [x d']]; [done |]. eauto. Qed.

Lemma ret_inr {A} (x : A) d r : (mret x : tx A) d = inr r -> r = (x, d).
Proof. by intros [= <-]. Qed.

Lemma read_inr {A} (f : db -> A) d x d' : tx_read f d = inr (x, d') -> x = f d /\ d' = d.
Proof. by intros [= <- <-]. Qed.

Lemma write_inr f d x d' : tx_write f d = inr (x, d') -> d' = f d.
Proof. by intros [= <- <-]. Qed.

Lemma check_inr c d x d' : tx_check c d = inr (x, d') -> c = None /\ d' = d.
Proof. unfold tx_check, tx_fail. destruct c; [done |]. by intros [= <- <-]. Qed.

Lemma reject_inr b e d x d' : tx_reject b e d = inr (x, d') -> b = false /\ d' = d.
Proof. unfold tx_reject, tx_fail. destruct b; [done |]. by intros [= <- <-]. Qed.

Lemma fail_inr {A} e d r : (tx_fail e : tx A) d <> inr r.
Proof. done. Qed.

Lemma insert_new_inr {K V} `{Countable K} (get : db -> gmap K V) set (key : K) (value : V) d x d' :
  insert_new get set key value d = inr (x, d') ->
  get d !! key = None /\ d' = set (<[key := value]> (get d)) d.
Proof. unfold insert_new. destruct (get d !! key); [done |]. by intros [= <- <-]. Qed.

Lemma writable_inr t s d x d' :
  ensureSessionWritableTx t s d = inr (x, d') -> session_deletions d !! (t, s) = None /\ d' = d.
Proof.
  unfold ensureSessionWritableTx. intros (y & d1 & [-> ->]%read_inr & H)%bind_inr.
  destruct (session_deletions d !! (t, s)); [done |]. by apply ret_inr in H as [= -> ->].
Qed.

(** [tx_inv H]: take a successful transaction apart into its steps. *)
Ltac tx_step H :=
  lazymatch type of H with
  | (_ ≫= _) _ = inr _ =>
      let x := fresh "x" in let d := fresh "d" in let E := fresh "E" in
      apply bind_inr in H as (x & d & E & H); tx_step E; cbv beta in H
  | mret _ _ = inr _ => apply ret_inr in H; simplify_eq H
  | tx_read _ _ = inr _ => apply read_inr in H as [? ?]; subst
  | tx_write _ _ = inr _ => apply write_inr in H; subst
  | tx_check _ _ = inr _ => let E := fresh "C" in apply check_inr in H as [E ?]; subst
  | tx_reject _ _ _ = inr _ => let E := fresh "R" in apply reject_inr in H as [E ?]; subst
  | tx_fail _ _ = inr _ => discriminate H
  | marshal_record _ _ = inr _ => let E := fresh "M" in apply reject_inr in H as [E ?]; subst
  | insert_new _ _ _ _ _ = inr _ => let E := fresh "N" in apply insert_new_inr in H as [E ?]; subst
  | ensureSessionWritableTx _ _ _ = inr _ => let E := fresh "W" in apply writable_inr in H as [E ?]; subst
  | _ => idtac
  end.

Ltac tx_inv H := repeat (tx_step H).

(** ** What the building blocks change *)

(** The partition bucket of a session; every non-empty identifier has one. *)
Definition bucket_of (id : string) : Z := match BucketV1 id with inr b => b | inl _ => 0 end.

(** The activity rows of a session and some participants. *)
Definition activity_rows (s : Session) (ps : list SessionParticipant) : gset activity_key :=
  list_to_set (map (fun p => activity_row s (sp_UserID p) (bucket_of (s_ID s))) ps).

(** The activity rows after the participants' rows are moved from one version of a
    session to the next. *)
Definition moved (previous s : Session) (ps : list SessionParticipant) (a : gset activity_key) : gset activity_key :=
  activity_rows s ps ∪ (a ∖ activity_rows previous ps).

Lemma insertActivity_inr s u d x d' :
  insertActivityTx s u d = inr (x, d') ->
  d' = set_activity (fun a => {[ activity_row s u (bucket_of (s_ID s)) ]} ∪ a) d.
Proof. unfold insertActivityTx, bucket_of. destruct (BucketV1 (s_ID s)); [done |]. by intros ->%write_inr. Qed.

Lemma insert_each s ps : forall d x d',
  tx_each (fun p => insertActivityTx s (sp_UserID p)) ps d = inr (x, d') ->
  d' = set_activity (fun a => activity_rows s ps ∪ a) d.
Proof.
  induction ps as [| p ps IH]; intros d x d' H; cbn in H.
  - apply ret_inr in H as [= -> ->]. unfold set_activity, activity_rows. cbn.
    rewrite (left_id_L ∅ (∪)). by destruct d.
  - apply bind_inr in H as (v & d1 & ->%insertActivity_inr & ->%IH). unfold set_activity. cbn. f_equal.
    unfold activity_rows. cbn. set_solver.
Qed.

Lemma delete_each s ps : forall d x d',
  tx_each (fun p => deleteActivityTx s (sp_UserID p)) ps d = inr (x, d') ->
  d' = set_activity (fun a => a ∖ activity_rows s ps) d.
Proof.
  induction ps as [| p ps IH]; intros d x d' H; cbn in H.
  - apply ret_inr in H as [= -> ->]. unfold set_activity, activity_rows. cbn.
    rewrite difference_empty_L. by destruct d.
  - apply bind_inr in H as (v & d1 & E & ->%IH). unfold deleteActivityTx in E.
    destruct (BucketV1 (s_ID s)) as [| b] eqn:Hb; [done |]. apply write_inr in E as ->.
    unfold set_activity. cbn. f_equal. unfold activity_rows, bucket_of. rewrite Hb. cbn. set_solver.
Qed.

Lemma participants_inr t s d x d' :
  activeSessionParticipants t s maxSessionDeletionRows d = inr (x, d') -> d' = d /\ x = active_rows t s d.
Proof.
  unfold activeSessionParticipants. intros H. tx_inv H. split; [done |]. apply gtb_false in R.
  rewrite length_take in R. subst x. apply take_ge.
  change (Z.to_nat (wrap_u64 (maxSessionDeletionRows + 1))) with (Z.to_nat 10001) in *. unfold maxSessionDeletionRows in R. lia.
Qed.

(** [updateSessionTx] writes the session row and moves the activity rows of its
    active participants, of a writable session. *)
Lemma updateSession_effect t previous s d x d' :
  updateSessionTx t previous s d = inr (x, d') ->
  session_deletions d !! (t, s_ID s) = None /\
  (let d1 := update_session_row s d in
   d' = {| d1 with session_activity := moved previous s (active_rows t (s_ID s) d) (session_activity d) |}).
Proof.
  unfold updateSessionTx. intros H. tx_step H.
  apply bind_inr in H as (ps & d1 & [-> ->]%participants_inr & H).
  apply bind_inr in H as (u1 & d1 & ->%delete_each & H). tx_step H. tx_step H. subst.
  apply insert_each in H as ->. split; [done |].
  unfold update_session_row, set_activity. cbn. by destruct (sessions d !! (s_TenantID s, s_ID s)).
Qed.

Lemma read_prefix_inr row t s q d p d' :
  read_prefix row t s q d = inr (p, d') ->
  d' = d /\ match row with
            | None => p = None
            | Some r => exists q', p = Some q' /\ decode_row r t s q = inr q'
            end.
Proof.
  unfold read_prefix. destruct row as [r |]; [| by intros [= -> ->]%ret_inr].
  destruct (decode_row r t s q) as [| q']; [done |]. intros [= -> ->]%ret_inr. eauto.
Qed.

Lemma tx_of_inr {A} (r : A * option error) d x d' : tx_of r d = inr (x, d') -> r = (x, None) /\ d' = d.
Proof. destruct r as [y [e |]]; [done |]. by intros [= -> ->]%ret_inr. Qed.

Lemma decode_row_inr r t s q p : decode_row r t s q = inr p -> p = pr_record r.
Proof. unfold decode_row. repeat case_match; congruence. Qed.

(** The material before an event: the record of the current row, or unknown material
    up to the sequence when there is no such row. *)
Definition predecessor (t s : string) (q : Z) (d : db) (previous : SessionMaterialPrefixV1) : Prop :=
  match session_material_current d !! (t, s) with
  | Some r => previous = pr_record r
  | None => NewUnknownSessionMaterialPrefixV1 t s q = (previous, None)
  end.

(** Reading the predecessor changes nothing. *)
Lemma load_inr t s q d p d' :
  loadSessionMaterialPredecessorTx t s q d = inr (p, d') -> d' = d /\ predecessor t s q d p.
Proof.
  unfold loadSessionMaterialPredecessorTx, predecessor. intros H. tx_step H.
  apply bind_inr in H as (c & d1 & [-> Hc]%read_prefix_inr & H).
  assert (match c with
          | Some c' => exists r, session_material_current d !! (t, s) = Some r /\ c' = pr_record r
          | None => session_material_current d !! (t, s) = None
          end) as Hr.
  { destruct (session_material_current d !! (t, s)) as [r |]; [| by subst c].
    destruct Hc as (q' & -> & Hd%decode_row_inr). eauto. }
  destruct (Z.eqb_spec q 0) as [-> |].
  - destruct c as [c |].
    + destruct Hr as (r & -> & ->). destruct (NewSessionMaterialGenesisV1 t s) as [g [e |]]; [done |].
      destruct (negb _); [done |]. by apply ret_inr in H as [= -> ->].
    + rewrite Hr. by apply tx_of_inr in H as [-> ->].
  - tx_step H. apply bind_inr in H as (b & d1 & [-> _]%read_prefix_inr & H).
    destruct c as [c |], b as [b |]; try done.
    + destruct Hr as (r & -> & ->). destruct (negb _); [done |]. by apply ret_inr in H as [= -> ->].
    + rewrite Hr. by apply tx_of_inr in H as [-> ->].
Qed.

Lemma prepare_inr t e m d p d' :
  prepareSessionMaterialFoldTx t e m d = inr (p, d') ->
  d' = d /\ se_TenantID e = t /\ exists previous, FoldSessionMaterialV1 previous e m = inr p /\
    predecessor t (se_SessionID e) (wrap_u64 (se_Sequence e - 1)) d previous.
Proof.
  unfold prepareSessionMaterialFoldTx. intros H. tx_step H.
  apply bind_inr in H as (previous & d1 & [-> Hp]%load_inr & H).
  destruct (FoldSessionMaterialV1 previous e m) as [err | n] eqn:Hf; [done |]. apply ret_inr in H as [= -> ->].
  apply orb_false_iff in R as [Ht _]. apply negb_false_iff, String.eqb_eq in Ht. eauto 10.
Qed.

(** A fold ends at the event it adds, in its session. *)
Lemma fold_scope previous e m p :
  FoldSessionMaterialV1 previous e m = inr p ->
  SessionMaterialPrefixV1_Validate p = None /\
  SessionMaterialPrefixV1_Validate previous = None /\ mp_TenantID previous = se_TenantID e /\
  mp_SessionID previous = se_SessionID e.
Proof.
  unfold FoldSessionMaterialV1. destruct (_ || _) eqn:Hc; [done |].
  destruct (notnil (SessionMaterialContributionV1_validate _)); [done |].
  destruct (EncodeSessionMaterialPrefixV1 previous); [done |]. cbv zeta.
  match goal with |- (if notnil ?v then _ else inr ?n) = _ -> _ => destruct v eqn:Hn; [done |] end.
  intros H. injection H as <-. split; [done |]. b2p. rewrite !notnil_false in Hc. naive_solver.
Qed.

(** The tables after an event and its fold are inserted. *)
Definition with_event (e : SessionEvent) (p : SessionMaterialPrefixV1) (d : db) : db :=
  {| d with
     session_events := <[(se_TenantID e, se_SessionID e, se_Sequence e) := e]> (session_events d);
     session_event_idempotency :=
       <[(se_TenantID e, se_SessionID e, se_IdempotencyKey e) := (se_Sequence e, se_ID e)]>
         (session_event_idempotency d);
     session_material_boundaries :=
       <[(mp_TenantID p, mp_SessionID p, mp_ThroughSequence p) := prefix_row p]> (session_material_boundaries d);
     session_material_current :=
       <[(mp_TenantID p, mp_SessionID p) := prefix_row p]> (session_material_current d) |}.

Lemma insertEvent_effect t e m d x d' :
  insertSessionEventTx t e m d = inr (x, d') ->
  exists previous p, d' = with_event e p d /\
    se_TenantID e = t /\ SessionEvent_Validate e = None /\
    session_events d !! (se_TenantID e, se_SessionID e, se_Sequence e) = None /\
    session_event_idempotency d !! (se_TenantID e, se_SessionID e, se_IdempotencyKey e) = None /\
    FoldSessionMaterialV1 previous e m = inr p /\ mp_TenantID p = t /\
    predecessor t (se_SessionID e) (wrap_u64 (se_Sequence e - 1)) d previous.
Proof.
  unfold insertSessionEventTx. intros H. tx_step H.
  apply bind_inr in H as (p & d1 & (-> & Ht & previous & Hf & Hpr)%prepare_inr & H).
  tx_step H. tx_step H. tx_step H. unfold writeSessionMaterialFoldTx in H. tx_step H. tx_step H. tx_step H. subst.
  apply orb_false_iff in R as [R _]. apply orb_false_iff in R as [_ R]. apply negb_false_iff, String.eqb_eq in R.
  exists previous, p. done.
Qed.

(** ** Appending *)

(** The event as it is stored: a zero sequence is filled in. *)
Definition numbered (e : SessionEvent) (sequence : Z) : SessionEvent :=
  if se_Sequence e =? 0 then {| e with se_Sequence := sequence |} else e.

Lemma numbered_fields e q :
  se_ID (numbered e q) = se_ID e /\ se_TenantID (numbered e q) = se_TenantID e /\
  se_SessionID (numbered e q) = se_SessionID e /\ se_IdempotencyKey (numbered e q) = se_IdempotencyKey e.
Proof. unfold numbered. by destruct (_ =? 0). Qed.

(** A committed append either found its key, with the same event, and changed
    nothing; or it stored the event as the next one and advanced the session. *)
Inductive append_result (e : SessionEvent) (m : option FinalMaterialMeasureV1) (d : db) : bool -> db -> Prop :=
| append_replay session sequence existing :
    session_deletions d !! (se_TenantID e, se_SessionID e) = None ->
    sessions d !! (se_TenantID e, se_SessionID e) = Some session ->
    session_event_idempotency d !! (se_TenantID e, se_SessionID e, se_IdempotencyKey e)
      = Some (sequence, se_ID existing) ->
    session_events d !! (se_TenantID e, se_SessionID e, sequence) = Some existing ->
    sameSessionEvent existing (numbered e sequence) = true ->
    append_result e m d false d
| append_new session session' previous p :
    session_deletions d !! (se_TenantID e, se_SessionID e) = None ->
    sessions d !! (se_TenantID e, se_SessionID e) = Some session ->
    session_event_idempotency d !! (se_TenantID e, se_SessionID e, se_IdempotencyKey e) = None ->
    let e' := numbered e (wrap_u64 (s_LastEventSequence session + 1)) in
    Sessions.AppendSessionEvent (Some session) e' None = ((Some session', true), None) ->
    session_events d !! (se_TenantID e, se_SessionID e, se_Sequence e') = None ->
    FoldSessionMaterialV1 previous e' m = inr p -> mp_TenantID p = se_TenantID e ->
    predecessor (se_TenantID e) (se_SessionID e) (wrap_u64 (se_Sequence e' - 1)) d previous ->
    (let d1 := update_session_row session' (with_event e' p d) in
     append_result e m d true
       {| d1 with session_activity :=
            moved session session' (active_rows (se_TenantID e) (s_ID session') d) (session_activity d) |}).

Lemma append_not_replayed s e s' created :
  Sessions.AppendSessionEvent (Some s) e None = ((s', created), None) -> created = true.
Proof.
  unfold Sessions.AppendSessionEvent. intros H. repeat case_match; simplify_eq/=; done.
Qed.

Lemma append_pointer s e old p' created err :
  Sessions.AppendSessionEvent (Some s) e old = ((p', created), err) -> is_Some p'.
Proof. unfold Sessions.AppendSessionEvent. intros H. repeat case_match; simplify_eq/=; eauto. Qed.

Lemma append_replayed s e o r :
  Sessions.AppendSessionEvent (Some s) e (Some o) = (r, None) -> sameSessionEvent o e = true.
Proof. unfold Sessions.AppendSessionEvent. intros H. repeat case_match; simplify_eq/=; done. Qed.

Lemma appendEvent_effect e m d b d' :
  appendEventTx e m d = inr (b, d') -> append_result e m d b d'.
Proof.
  unfold appendEventTx. intros H. tx_step H. unfold readSessionTx in H. tx_step H.
  destruct (sessions d !! _) as [session |] eqn:Hs; [| done]. tx_step H.
  destruct (session_event_idempotency d !! _) as [[sequence eventID] |] eqn:Hi.
  - tx_step H. destruct (session_events d !! _) as [existing |] eqn:He; [| done].
    destruct (String.eqb_spec (se_ID existing) eventID) as [<- |]; [| done]. cbn [negb] in H.
    change (if se_Sequence e =? 0 then _ else _) with (numbered e sequence) in H.
    tx_step H. apply ret_inr in H as [= -> ->].
    destruct (Sessions.AppendSessionEvent _ _ _) as [r err] eqn:Ha. cbn in C. subst err.
    eapply append_replay; eauto using append_replayed.
  - change (if se_Sequence e =? 0 then _ else _)
      with (numbered e (wrap_u64 (s_LastEventSequence session + 1))) in H.
    set (e' := numbered e _) in *. destruct (numbered_fields e (wrap_u64 (s_LastEventSequence session + 1)))
      as (Hid & Ht & Hsid & Hk). fold e' in Hid, Ht, Hsid, Hk.
    destruct (Sessions.AppendSessionEvent _ _ _) as [[[session' |] created] [err |]] eqn:Ha; try done.
    2: { by apply append_pointer in Ha as []. }
    apply append_not_replayed in Ha as Hc. subst created.
    apply bind_inr in H as (u & d1 & (previous & p & -> & _ & _ & Hev & _ & Hf & Hp & Hpr)%insertEvent_effect & H).
    apply bind_inr in H as (u1 & d1 & [_ ->]%updateSession_effect & H). apply ret_inr in H as [= -> ->].
    rewrite Ht, Hsid in Hev. rewrite Hsid in Hpr.
    exact (append_new e m d session session' previous p W Hs Hi Ha Hev Hf Hp Hpr).
Qed.

(** ** The other transactions *)

Lemma createSession_effect t s o d u d' :
  createSessionTx t s o d = inr (u, d') ->
  session_deletions d !! (t, s_ID s) = None /\
  (d' = d /\ sessions d !! (t, s_ID s) = Some s \/
   sessions d !! (t, s_ID s) = None /\ sessions d !! (s_TenantID s, s_ID s) = None /\
   d' = {| d with
           sessions := <[(s_TenantID s, s_ID s) := s]> (sessions d);
           session_participants :=
             <[(sp_TenantID o, sp_SessionID o, sp_UserID o) := o]> (session_participants d);
           session_material_current :=
             if s_LastEventSequence s =? 0
             then <[(s_TenantID s, s_ID s) := prefix_row (genesis_prefix (s_TenantID s) (s_ID s))]>
                    (session_material_current d)
             else session_material_current d;
           session_activity := {[ activity_row s (sp_UserID o) (bucket_of (s_ID s)) ]} ∪ session_activity d |}).
Proof.
  unfold createSessionTx. intros H. tx_step H. unfold readSessionTx in H. tx_step H. split; [done |].
  destruct (sessions d !! (t, s_ID s)) as [existing |] eqn:Hs.
  - left. destruct (bool_decide_reflect (existing = s)) as [-> |]; [| done]. cbn in H. unfold sessionOwnerMatchesTx in H.
    apply bind_inr in H as (b & d1 & E & H). tx_inv E. destruct (negb b); [done |]. by apply ret_inr in H as [= -> ->].
  - right. split; [done |]. tx_step H. tx_step H. tx_step H. tx_step H. split; [done |].
    apply bind_inr in H as (v & d1 & Hg & ->%insertActivity_inr).
    unfold createSessionMaterialGenesisTx in Hg. destruct (s_LastEventSequence s =? 0); cbn [negb] in Hg.
    + unfold NewSessionMaterialGenesisV1 in Hg. destruct (_ || _) in Hg; [done |].
      apply bind_inr in Hg as (w & d2 & Er & Hg). apply reject_inr in Er as [_ ->].
      destruct (EncodeSessionMaterialPrefixV1 _); [done |]. by apply insert_new_inr in Hg as [_ ->].
    + by apply ret_inr in Hg as [= -> ->].
Qed.

Lemma writeBinding_effect t b d u d' :
  writeBindingTx t b d = inr (u, d') ->
  d' = bindings_update b (frontend_bindings d !! (t, fb_ID b)) d /\ fb_TenantID b = t /\
  FrontendBinding_Validate b = None /\ session_deletions d !! (t, fb_SessionID b) = None.
Proof.
  unfold writeBindingTx. intros H. tx_step H. tx_step H. tx_step H. tx_step H.
  unfold readBindingTx in H. tx_step H. tx_step H. subst.
  apply EnsureSameTenant_nil in C as [-> _]. done.
Qed.

Lemma switched_inr b r s at_ d x d' :
  switched b r s at_ d = inr (x, d') -> d' = d /\ Switch (Some b) r s at_ = (Some x, None).
Proof.
  unfold switched. destruct (Switch (Some b) r s at_) as [[b' |] [e |]] eqn:Hs; try done.
  - by intros [= -> ->]%ret_inr.
  - unfold Switch in Hs. repeat case_match; simplify_eq.
Qed.

(** The binding transactions: unchanged, or one binding written. *)
Lemma bindFrontend_effect b d u d' :
  bindFrontendTx b d = inr (u, d') ->
  d' = d \/ (d' = bindings_update b None d /\ frontend_bindings d !! (fb_TenantID b, fb_ID b) = None /\
             session_deletions d !! (fb_TenantID b, fb_SessionID b) = None /\
             is_active (sessions d !! (fb_TenantID b, fb_SessionID b)) = true /\
             (forall id, frontend_binding_keys d !! (fb_TenantID b, fb_Frontend b, fb_ExternalConversationID b)
                         = Some id -> id = fb_ID b)).
Proof.
  unfold bindFrontendTx, readSessionTx. intros H. tx_step H. tx_step H. unfold readBindingTx in H. tx_step H.
  destruct (frontend_bindings d !! _) as [existing |] eqn:Hb.
  - left. destruct (bool_decide _); [| done]. by apply ret_inr in H as [= -> ->].
  - right. tx_step H. tx_step H. apply writeBinding_effect in H as (-> & _ & _ & Hd). rewrite Hb.
    split_and!; [done .. | |].
    + by apply negb_false_iff in R.
    + intros id Hid. rewrite Hid in R0. by apply negb_false_iff, String.eqb_eq in R0.
Qed.

Lemma switchFrontend_effect t bid r sid at_ d x d' :
  switchFrontendTx t bid r sid at_ d = inr (x, d') ->
  exists b u, frontend_bindings d !! (t, bid) = Some b /\ Switch (Some b) r sid at_ = (Some x, None) /\
    writeBindingTx t x d = inr (u, d') /\ is_active (sessions d !! (t, sid)) = true.
Proof.
  unfold switchFrontendTx, readBindingTx. intros H. tx_step H.
  destruct (frontend_bindings d !! (t, bid)) as [b |] eqn:Hb; [| done].
  unfold readSessionTx in H. tx_step H. tx_step H.
  apply bind_inr in H as (b' & d1 & [-> Hs]%switched_inr & H).
  apply bind_inr in H as (v & d1 & Hw & H). apply ret_inr in H as [= -> ->].
  apply negb_false_iff in R. eauto 10.
Qed.

Lemma putSnapshot_effect sn d u d' :
  putSnapshotTx sn d = inr (u, d') ->
  session_deletions d !! (ss_TenantID sn, ss_SessionID sn) = None /\
  (d' = d \/
   exists row, sessions d !! (ss_TenantID sn, ss_SessionID sn) = Some row /\
     ss_ThroughSequence sn <= s_LastEventSequence row /\
     session_snapshots d !! (ss_TenantID sn, ss_SessionID sn, ss_Version sn) = None /\
     ss_Version sn = wrap_u64 (fst (latest_snapshot (ss_TenantID sn) (ss_SessionID sn) d) + 1) /\
     snd (latest_snapshot (ss_TenantID sn) (ss_SessionID sn) d) <= ss_ThroughSequence sn /\
     d' = {| d with session_snapshots :=
               <[(ss_TenantID sn, ss_SessionID sn, ss_Version sn) := sn]> (session_snapshots d) |}).
Proof.
  unfold putSnapshotTx, readSessionTx. intros H. tx_step H. split; [done |]. tx_step H. tx_step H.
  destruct (sessions d !! _) as [row |] eqn:Hs; [| done]. tx_step H.
  destruct (session_snapshots d !! _) as [old |] eqn:Ho.
  - left. destruct (bool_decide _); [| done]. by apply ret_inr in H as [= -> ->].
  - right. exists row. tx_step H. tx_step H. tx_step H. tx_step H. subst.
    apply orb_false_iff in R0 as [Hv Hq]. apply negb_false_iff, Z.eqb_eq in Hv. apply Z.ltb_ge in Hq.
    apply gtb_false in R. done.
Qed.

Lemma transition_effect t sid f d u d' :
  transitionTx t sid f d = inr (u, d') ->
  session_deletions d !! (t, sid) = None /\
  exists previous session, sessions d !! (t, sid) = Some previous /\
    ((f (Some previous) = (Some session, None) /\
      (let d1 := update_session_row session d in
       d' = {| d1 with session_activity :=
                 moved previous session (active_rows t (s_ID session) d) (session_activity d) |}))
     \/ (f (Some previous) = (None, None) /\ d' = d)).
Proof.
  unfold transitionTx, readSessionTx. intros H. tx_step H. split; [done |]. tx_step H.
  destruct (sessions d !! (t, sid)) as [previous |] eqn:Hs; [| done].
  destruct (f (Some previous)) as [[session |] [e |]] eqn:Hf; try done.
  - apply updateSession_effect in H as [_ H]. exists previous, session. auto.
  - apply ret_inr in H as [= -> ->]. exists previous, previous. auto.
Qed.

(** Creating and switching: nothing, or both the session and the binding. *)
Lemma createAndSwitch_effect s o bid r at_ d x d' :
  createAndSwitchTx s o bid r at_ d = inr (x, d') ->
  d' = d \/
  exists b d1 u u', frontend_bindings d !! (s_TenantID s, bid) = Some b /\
    Switch (Some b) r (s_ID s) at_ = (Some x, None) /\
    createSessionTx (s_TenantID s) s o d = inr (u, d1) /\ writeBindingTx (s_TenantID s) x d1 = inr (u', d').
Proof.
  unfold createAndSwitchTx, readBindingTx. intros H. tx_step H.
  destruct (frontend_bindings d !! (s_TenantID s, bid)) as [b |] eqn:Hb; [| done]. destruct (_ && _).
  - left. apply bind_inr in H as (m & d1 & E & H). unfold sessionAndOwnerMatchTx, readSessionTx in E. tx_step E.
    destruct (bool_decide _).
    + unfold sessionOwnerMatchesTx in E. tx_inv E. destruct m; [| done]. by apply ret_inr in H as [= -> ->].
    + apply ret_inr in E as [= -> ->]. done.
  - right. tx_step H. apply bind_inr in H as (b' & d1 & [-> Hs]%switched_inr & H).
    apply bind_inr in H as (u & d1 & Hc & H).
    apply bind_inr in H as (v & d2 & Hw & H). apply ret_inr in H as [= -> ->]. eauto 10.
Qed.

(** A transaction's result, committed or rolled back. *)
Lemma Transact_cases {A} t (fn : tx A) d :
  snd (Transact t fn d) = d \/ exists x d', fn d = inr (x, d') /\ Transact t fn d = (inr x, d').
Proof.
  unfold Transact. destruct (TenantID_Validate t); [by left |].
  destruct (fn d) as [e | [x d']] eqn:Hf; [by left | right; eauto].
Qed.
