(* ===== verification/SessionLog.v ===== *)
(** * The session log

    The invariant of the event tables that every sequence of store operations
    keeps, and the append-only log it implements. *)

From S2P Require Import Prelude GoText Sorting GoTime Sha256 Json Digests Errors Identity Blobs Lifecycle.
From S2P Require Import Sessions Material MaterialFold MaterialTotal Store SessionStore StoreEffects.
From stdpp Require Import gmap sets.
#[local] Open Scope Z_scope.

(** ** Runs of the store *)

(** The numbers of a measure are machine integers. *)
Definition measure_typed (m : option FinalMaterialMeasureV1) : Prop :=
  match m with
  | None => True
  | Some m =>
      let s := fm_measures m in
      0 <= ms_PayloadBytes s /\ 0 <= ms_ToolEnvelopeBytes s /\ 0 <= ms_AttachmentCount s /\
      0 <= ms_ReferencedAttachmentBytes s /\ 0 <= ms_RenderedFrameBytes s
  end.

(** One operation of the session store for a tenant, committed or failed, with any
    arguments of the Go types.  Other transactions may place, change or remove a
    deletion tombstone at any time; the operations of the deletion lifecycle, with the
    erasure of a session's rows, are steps of [LifecycleSafety.lifecycle_step]. *)
Inductive tenant_step : string -> db -> db -> Prop :=
| op_create session owner d :
    u64 (s_LastEventSequence session) ->
    tenant_step (s_TenantID session) d (snd (CreateSession session owner d))
| op_create_switch session owner bindingID revision at_ d :
    u64 (s_LastEventSequence session) ->
    tenant_step (s_TenantID session) d (snd (CreateAndSwitchSession session owner bindingID revision at_ d))
| op_bind binding d : tenant_step (fb_TenantID binding) d (snd (BindFrontend binding d))
| op_switch tenantID bindingID revision sessionID at_ d :
    tenant_step tenantID d (snd (SwitchFrontendBinding tenantID bindingID revision sessionID at_ d))
| op_append event measure d :
    measure_typed measure ->
    tenant_step (se_TenantID event) d (snd (appendSessionEventMaterialV1 event measure d))
| op_snapshot snapshot d : tenant_step (ss_TenantID snapshot) d (snd (PutSessionSnapshot snapshot d))
| op_archive_session tenantID sessionID at_ d : tenant_step tenantID d (snd (ArchiveSession tenantID sessionID at_ d))
| op_unarchive_session tenantID sessionID at_ d :
    tenant_step tenantID d (snd (UnarchiveSession tenantID sessionID at_ d))
| op_tombstone tenantID sessionID deletion d :
    tenant_step tenantID d
      {| d with session_deletions := partial_alter (fun _ => deletion) (tenantID, sessionID) (session_deletions d) |}.

Definition store_step (d d' : db) : Prop := exists tenantID, tenant_step tenantID d d'.

Definition reachable (d : db) : Prop := rtc store_step empty_db d.

Lemma reachable_induction (P : db -> Prop) :
  P empty_db -> (forall d d', reachable d -> store_step d d' -> P d -> P d') -> forall d, reachable d -> P d.
Proof. intros H0 Hs. by apply rtc_ind_r. Qed.

(** ** The invariant *)

(** The material prefix of a session with [last] events. *)
Definition material_ok (t s : string) (last : Z) (p : SessionMaterialPrefixV1) : Prop :=
  SessionMaterialPrefixV1_Validate p = None /\ prefix_typed p /\
  mp_TenantID p = t /\ mp_SessionID p = s /\ mp_ThroughSequence p = last.

(** The events of a session are consecutive and end at its row's position.  They start
    right after the position the session was created with; a session that was created
    past 0 has no material row until its first event. *)
Record log_inv (d : db) : Prop := {
  li_session : forall t s row, sessions d !! (t, s) = Some row ->
    s_TenantID row = t /\ s_ID row = s /\ Session_Validate row = None /\ u64 (s_LastEventSequence row);
  li_event : forall t s q e, session_events d !! (t, s, q) = Some e ->
    se_TenantID e = t /\ se_SessionID e = s /\ se_Sequence e = q /\ SessionEvent_Validate e = None /\
    exists row, sessions d !! (t, s) = Some row /\ 1 <= q <= s_LastEventSequence row /\
                ns (se_CreatedAt e) <= ns (s_UpdatedAt row);
  li_dense : forall t s row, sessions d !! (t, s) = Some row ->
    exists first, 0 <= first <= s_LastEventSequence row /\
      forall q, is_Some (session_events d !! (t, s, q)) <-> first < q <= s_LastEventSequence row;
  li_order : forall t s q q' e e', session_events d !! (t, s, q) = Some e ->
    session_events d !! (t, s, q') = Some e' -> q <= q' -> ns (se_CreatedAt e) <= ns (se_CreatedAt e');
  li_key : forall t s k q id, session_event_idempotency d !! (t, s, k) = Some (q, id) <->
    exists e, session_events d !! (t, s, q) = Some e /\ se_IdempotencyKey e = k /\ se_ID e = id;
  li_material : forall t s row, sessions d !! (t, s) = Some row ->
    match session_material_current d !! (t, s) with
    | Some r => exists p, r = prefix_row p /\ material_ok t s (s_LastEventSequence row) p /\
        (if s_LastEventSequence row =? 0 then p = genesis_prefix t s
         else session_material_boundaries d !! (t, s, s_LastEventSequence row) = Some (prefix_row p))
    | None => s_LastEventSequence row <> 0 /\
        session_material_boundaries d !! (t, s, s_LastEventSequence row) = None
    end;
  li_boundary : forall t s q r, session_material_boundaries d !! (t, s, q) = Some r ->
    exists row, sessions d !! (t, s) = Some row /\ q <= s_LastEventSequence row;
  li_current : forall t s r, session_material_current d !! (t, s) = Some r -> is_Some (sessions d !! (t, s)) }.

Lemma log_inv_empty : log_inv empty_db.
Proof.
  split; cbn; intros *; rewrite ?lookup_empty; try done.
  split; [done |]. by intros (e & [=] & _).
Qed.

(** The tables the invariant is about. *)
Definition same_log (d d' : db) : Prop :=
  sessions d' = sessions d /\ session_events d' = session_events d /\
  session_event_idempotency d' = session_event_idempotency d /\
  session_material_current d' = session_material_current d /\
  session_material_boundaries d' = session_material_boundaries d.

Lemma log_inv_same d d' : same_log d d' -> log_inv d -> log_inv d'.
Proof.
  intros (Hs & He & Hi & Hc & Hb) []. split; rewrite ?Hs, ?He, ?Hi, ?Hc, ?Hb; done.
Qed.

Lemma genesis_ok t s :
  TenantID_Validate t = None -> SessionID_Validate s = None -> material_ok t s 0 (genesis_prefix t s).
Proof.
  intros Ht Hs. split_and!; try done.
  - unfold SessionMaterialPrefixV1_Validate. rewrite !no_reason by done. unfold seed_expected, genesis_prefix. cbn.
    unfold materialSeedDigest. rewrite Ht, Hs, materialDigest_sha.
    rewrite (bool_decide_true (SessionMaterialCompleteV1 = SessionMaterialCompleteV1)) by done. cbn.
    unfold NewSessionMaterialGenesisV1, EqualSessionMaterialPrefixV1. rewrite Ht, Hs. by rewrite bool_decide_true.
  - split_and!; try done. unfold material_counters. cbn. repeat constructor; done.
Qed.

(** Unknown material up to any sequence is well-formed. *)
Lemma unknown_ok t s q p :
  u64 q -> NewUnknownSessionMaterialPrefixV1 t s q = (p, None) -> material_ok t s q p.
Proof.
  intros Hq H. unfold NewUnknownSessionMaterialPrefixV1, NewSessionMaterialGenesisV1 in H.
  destruct (notnil (TenantID_Validate t) || _) eqn:Hv; [done |]. cbn in H. injection H as <-.
  apply orb_false_iff in Hv as [Ht%notnil_false Hs%notnil_false]. unfold u64, max_u64 in Hq.
  split_and!; try done.
  - unfold SessionMaterialPrefixV1_Validate, seed_expected, has_reason, NewUnknownSessionMaterialPrefixV1,
      NewSessionMaterialGenesisV1, EqualSessionMaterialPrefixV1. cbn.
    unfold materialSeedDigest. rewrite Ht, Hs, materialDigest_sha. cbn.
    rewrite (bool_decide_false (SessionMaterialUnknownV1 = _)), (bool_decide_true (_ = SessionMaterialUnknownV1)) by done.
    rewrite (bool_decide_true (_ = _)) by done.
    destruct (q >? max_i64) eqn:Hgt; b2p; cbn.
    + rewrite Z.min_r by lia. done.
    + rewrite Z.min_l by lia. replace (q >? max_i64) with false by (symmetry; by apply gtb_false). done.
  - split_and!; cbn; [| unfold u64, max_u64; lia | | done].
    + unfold material_counters. cbn. repeat constructor; try done. unfold max_i64. lia.
    + by destruct (q >? max_i64).
Qed.

(** The material an append starts from is that of its session's position. *)
Lemma predecessor_ok d t s row p :
  log_inv d -> sessions d !! (t, s) = Some row -> predecessor t s (s_LastEventSequence row) d p ->
  material_ok t s (s_LastEventSequence row) p.
Proof.
  intros I Hs Hp. pose proof (li_material d I _ _ _ Hs) as Hm. unfold predecessor in Hp.
  destruct (session_material_current d !! (t, s)) as [r |].
  - subst p. by destruct Hm as (p & -> & Hok & _).
  - eapply unknown_ok; [| done]. by destruct (li_session d I _ _ _ Hs) as (_ & _ & _ & ?).
Qed.

(** ** The operations keep the invariant *)

Lemma inv_create d s o d' act :
  log_inv d -> Session_Validate s = None -> u64 (s_LastEventSequence s) ->
  sessions d !! (s_TenantID s, s_ID s) = None ->
  d' = {| d with
          sessions := <[(s_TenantID s, s_ID s) := s]> (sessions d);
          session_participants := o;
          session_material_current :=
            if s_LastEventSequence s =? 0
            then <[(s_TenantID s, s_ID s) := prefix_row (genesis_prefix (s_TenantID s) (s_ID s))]>
                   (session_material_current d)
            else session_material_current d;
          session_activity := act |} ->
  log_inv d'.
Proof.
  intros I Hv Hl Hn ->. apply Session_Validate_nil in Hv as Hvn. destruct Hvn as (Hsid & Htid & _).
  split; cbn; intros *.
  - intros [[[= <- <-] <-] | [_ H]]%lookup_insert_Some; [| by apply (li_session d I)].
    done.
  - intros He. destruct (li_event d I _ _ _ _ He) as (? & ? & ? & ? & row & Hr & ?). split_and!; try done.
    exists row. rewrite lookup_insert_ne by congruence. done.
  - intros [[[= <- <-] <-] | [_ H]]%lookup_insert_Some; [| by apply (li_dense d I)].
    exists (s_LastEventSequence s). unfold u64 in Hl. split; [lia |]. intros q. split; [| lia].
    intros [e (_ & _ & _ & _ & row & Hr & _)%(li_event d I)]. congruence.
  - apply (li_order d I).
  - apply (li_key d I).
  - intros [[[= <- <-] <-] | [Hne H]]%lookup_insert_Some.
    + destruct (Z.eqb_spec (s_LastEventSequence s) 0) as [Hz | Hz].
      * rewrite lookup_insert_eq. eexists. rewrite Hz. split; [done |]. split; [by apply genesis_ok | done].
      * destruct (session_material_current d !! _) as [r |] eqn:Hr; [by apply (li_current d I) in Hr as [? ?]; congruence |].
        split; [done |]. apply eq_None_not_Some. intros [r (row & Hr' & _)%(li_boundary d I)]. congruence.
    + destruct (_ =? 0); rewrite ?lookup_insert_ne by done; by apply (li_material d I).
  - intros Hb. destruct (li_boundary d I _ _ _ _ Hb) as (row & Hr & ?). exists row.
    rewrite lookup_insert_ne by congruence. done.
  - intros H. destruct (decide ((t, s0) = (s_TenantID s, s_ID s))) as [[= -> ->] | Hne];
      [by rewrite lookup_insert_eq |].
    rewrite lookup_insert_ne by done. apply (li_current d I _ _ r).
    by destruct (_ =? 0); rewrite ?lookup_insert_ne in H by done.
Qed.

(** Replacing a session row by one with the same log position. *)
Lemma inv_update d s s' act :
  log_inv d -> sessions d !! (s_TenantID s, s_ID s) = Some s -> session_evolves s s' ->
  s_LastEventSequence s' = s_LastEventSequence s ->
  (let d1 := update_session_row s' d in log_inv {| d1 with session_activity := act |}).
Proof.
  intros I Hs (Hv & Hid & Ht & _ & _ & Hu) Hl. unfold update_session_row. rewrite Hid, Ht, Hs. cbn.
  assert (forall t q row, <[(s_TenantID s, s_ID s) := s']> (sessions d) !! (t, q) = Some row ->
    exists row0, sessions d !! (t, q) = Some row0 /\ s_LastEventSequence row = s_LastEventSequence row0) as Hback.
  { intros t q row [[[= <- <-] <-] | [_ H]]%lookup_insert_Some; eauto. }
  assert (forall t q row0, sessions d !! (t, q) = Some row0 ->
    exists row, <[(s_TenantID s, s_ID s) := s']> (sessions d) !! (t, q) = Some row /\
      s_LastEventSequence row = s_LastEventSequence row0 /\ ns (s_UpdatedAt row0) <= ns (s_UpdatedAt row)) as Hfwd.
  { intros t q row0 H. destruct (decide ((t, q) = (s_TenantID s, s_ID s))) as [[= -> ->] |].
    - exists s'. rewrite lookup_insert_eq. naive_solver congruence.
    - exists row0. rewrite lookup_insert_ne by done. split_and!; done || lia. }
  split; cbn; intros *.
  - intros [[[= <- <-] <-] | [_ H]]%lookup_insert_Some; [| by apply (li_session d I)].
    destruct (li_session d I _ _ _ Hs) as (_ & _ & _ & Hlu). rewrite Hl. done.
  - intros He. destruct (li_event d I _ _ _ _ He) as (? & ? & ? & ? & row & Hr & ? & ?).
    destruct (Hfwd _ _ _ Hr) as (row' & Hr' & Hq & Hup). split_and!; try done. exists row'.
    split_and!; [done | lia | lia | lia].
  - intros (row0 & Hr & ->)%Hback. by apply (li_dense d I).
  - apply (li_order d I).
  - apply (li_key d I).
  - intros (row0 & Hr & ->)%Hback. by apply (li_material d I).
  - intros Hb. destruct (li_boundary d I _ _ _ _ Hb) as (row & Hr & ?).
    destruct (Hfwd _ _ _ Hr) as (row' & Hr' & Hq & _). exists row'. split; [done | lia].
  - intros H. apply (li_current d I) in H as [row0 Hr]. destruct (Hfwd _ _ _ Hr) as (row' & -> & _). eauto.
Qed.

Lemma contribution_measure_typed e m : measure_typed m -> contribution_typed (contribution e m).
Proof.
  unfold contribution_typed, contribution. destruct m as [m |]; [| by intros _].
  intros (? & ? & ? & ? & ?). pose proof (wrap_u64_range (rm_encodedBytes (fm_record m))) as [? _].
  destruct (_ && _); cbn; split_and!; done || lia.
Qed.

Lemma fold_guard p e m n :
  FoldSessionMaterialV1 p e m = inr n ->
  SessionMaterialPrefixV1_Validate p = None /\ SessionEvent_Validate e = None /\
  se_TenantID e = mp_TenantID p /\ se_SessionID e = mp_SessionID p /\ mp_ThroughSequence p <> max_u64 /\
  se_Sequence e = wrap_u64 (mp_ThroughSequence p + 1) /\
  SessionMaterialContributionV1_validate (contribution e m) = None.
Proof.
  unfold FoldSessionMaterialV1. destruct (_ || _) eqn:Hc; [done |].
  destruct (notnil (SessionMaterialContributionV1_validate _)) eqn:Hv; [done |]. intros _.
  b2p. rewrite !notnil_false in *. naive_solver.
Qed.

(** A fold from a typed prefix gives a well-formed prefix at the event's sequence. *)
Lemma fold_result p e m n :
  prefix_typed p -> measure_typed m -> FoldSessionMaterialV1 p e m = inr n ->
  material_ok (se_TenantID e) (se_SessionID e) (se_Sequence e) n.
Proof.
  intros Ht Hm Hf. destruct (fold_guard _ _ _ _ Hf) as (Hp & He & Htid & Hsid & Hne & Hq & Hc).
  rewrite wrap_u64_succ in Hq; [| by destruct Ht as (_ & ? & _) | done].
  destruct (fold_total p e m Ht Hp He Htid Hsid Hne Hq) as (n' & Hf' & ? & ? & Hn1 & Hn2 & ? & _).
  { destruct m; [| done]. by split; [apply contribution_measure_typed |]. }
  rewrite Hf in Hf'. injection Hf' as <-. split_and!; congruence.
Qed.

Section append.
Context (d : db) (session : Session) (e : SessionEvent) (p : SessionMaterialPrefixV1) (act : gset activity_key).
Let t := se_TenantID e.
Let s := se_SessionID e.
Let q := se_Sequence e.
Let session' := {| session with s_LastEventSequence := q; s_UpdatedAt := se_CreatedAt e |}.
Let d1 := update_session_row session' (with_event e p d).
Let d' := {| d1 with session_activity := act |}.
Hypothesis (I : log_inv d) (Hs : sessions d !! (t, s) = Some session) (He : SessionEvent_Validate e = None)
  (Hq : q = s_LastEventSequence session + 1) (Hu : u64 q)
  (Htime : ns (s_UpdatedAt session) <= ns (se_CreatedAt e))
  (Hev : session_events d !! (t, s, q) = None)
  (Hkey : session_event_idempotency d !! (t, s, se_IdempotencyKey e) = None)
  (Hmat : material_ok t s q p) (Hvalid : Session_Validate session' = None).

(** The tables after the append, one by one. *)
Lemma append_tables :
  sessions d' = <[(t, s) := session']> (sessions d) /\
  session_events d' = <[(t, s, q) := e]> (session_events d) /\
  session_event_idempotency d' =
    <[(t, s, se_IdempotencyKey e) := (q, se_ID e)]> (session_event_idempotency d) /\
  session_material_current d' = <[(t, s) := prefix_row p]> (session_material_current d) /\
  session_material_boundaries d' = <[(t, s, q) := prefix_row p]> (session_material_boundaries d).
Proof.
  destruct (li_session d I _ _ _ Hs) as (Ht & Hsid & _ & _). destruct Hmat as (_ & _ & Hpt & Hps & Hpq).
  unfold d', d1, update_session_row, with_event. cbn. rewrite Ht, Hsid, Hs, Hpt, Hps, Hpq. done.
Qed.

Lemma append_rows_back u v row :
  <[(t, s) := session']> (sessions d) !! (u, v) = Some row ->
  (u, v) = (t, s) /\ row = session' \/ (u, v) <> (t, s) /\ sessions d !! (u, v) = Some row.
Proof. rewrite lookup_insert_Some. naive_solver. Qed.

Lemma append_keys u v k n id :
  <[(t, s, se_IdempotencyKey e) := (q, se_ID e)]> (session_event_idempotency d) !! (u, v, k) = Some (n, id) <->
  exists x, <[(t, s, q) := e]> (session_events d) !! (u, v, n) = Some x /\ se_IdempotencyKey x = k /\ se_ID x = id.
Proof.
  split.
  - intros [[[= <- <- <-] [= <- <-]] | [Hne Hk]]%lookup_insert_Some.
    + exists e. by rewrite lookup_insert_eq.
    + apply (li_key d I) in Hk as (x & Hx & Hxk & Hxi). exists x. rewrite lookup_insert_ne by congruence. done.
  - intros (x & [[[= <- <- <-] <-] | [Hne Hx]]%lookup_insert_Some & Hxk & Hxi).
    + subst. by rewrite lookup_insert_eq.
    + assert (session_event_idempotency d !! (u, v, k) = Some (n, id)) as Hk by (apply (li_key d I); eauto).
      rewrite lookup_insert_ne; [done |]. intros [= <- <- <-]. congruence.
Qed.

Lemma inv_append : log_inv d'.
Proof.
  destruct append_tables as (Ts & Te & Ti & Tc & Tb).
  destruct (li_session d I _ _ _ Hs) as (Ht & Hsid & Hsv & Hsu).
  split; rewrite ?Ts, ?Te, ?Ti, ?Tc, ?Tb; intros u v.
  - intros row [[[= -> ->] ->] | [_ Hr]]%append_rows_back; [done | by apply (li_session d I)].
  - intros n x [[[= <- <- <-] <-] | [_ Hx]]%lookup_insert_Some.
    + split_and!; try done. exists session'. rewrite lookup_insert_eq. cbn. unfold u64 in Hsu. split_and!; done || lia.
    + destruct (li_event d I _ _ _ _ Hx) as (? & ? & ? & ? & row & Hr & ? & ?). split_and!; try done.
      destruct (decide ((u, v) = (t, s))) as [[= -> ->] |].
      * exists session'. rewrite lookup_insert_eq. cbn. simplify_eq. split_and!; done || lia.
      * exists row. by rewrite lookup_insert_ne.
  - intros row [[[= -> ->] ->] | [Hne Hr]]%append_rows_back.
    + destruct (li_dense d I _ _ _ Hs) as (first & Hf & Hd). exists first. cbn. split; [lia |]. intros n.
      destruct (decide (n = q)) as [-> |]; [rewrite lookup_insert_eq; split; [lia | done] |].
      rewrite lookup_insert_ne, Hd by congruence. lia.
    + destruct (li_dense d I _ _ _ Hr) as (first & Hf & Hd). exists first. split; [done |]. intros n.
      by rewrite lookup_insert_ne by congruence.
  - intros n n' x x' [[[= <- <- <-] <-] | [Hnx Hx]]%lookup_insert_Some
      [[Hk' <-] | [Hnx' Hx']]%lookup_insert_Some Hle.
    + lia.
    + destruct (li_event d I _ _ _ _ Hx') as (_ & _ & _ & _ & row & Hr & Hrq & _). simplify_eq. lia.
    + injection Hk' as <- <- <-. destruct (li_event d I _ _ _ _ Hx) as (_ & _ & _ & _ & row & Hr & _ & Hup).
      simplify_eq. lia.
    + by apply (li_order d I _ _ _ _ _ _ Hx Hx').
  - intros k n id. apply append_keys.
  - intros row [[[= -> ->] ->] | [Hne Hr]]%append_rows_back.
    + cbn. rewrite !lookup_insert_eq. exists p. split_and!; try done.
      destruct (q =? 0) eqn:Hz; [| done]. unfold u64 in Hsu. b2p. lia.
    + rewrite !lookup_insert_ne by congruence. by apply (li_material d I).
  - intros n r [[[= <- <- <-] _] | [Hne Hb]]%lookup_insert_Some.
    + exists session'. rewrite lookup_insert_eq. cbn. split; [done | lia].
    + destruct (li_boundary d I _ _ _ _ Hb) as (row & Hr & Hrq).
      destruct (decide ((u, v) = (t, s))) as [[= -> ->] |].
      * exists session'. rewrite lookup_insert_eq. cbn. simplify_eq. split; [done | lia].
      * exists row. by rewrite lookup_insert_ne.
  - intros r [[[= <- <-] _] | [Hne Hr]]%lookup_insert_Some; [by rewrite lookup_insert_eq |].
    rewrite lookup_insert_ne by done. by apply (li_current d I) in Hr.
Qed.
End append.

(** What the domain check says of a new event of a stored session. *)
Lemma append_new_facts d t s session e session' :
  log_inv d -> sessions d !! (t, s) = Some session ->
  Sessions.AppendSessionEvent (Some session) e None = ((Some session', true), None) ->
  se_TenantID e = t /\ se_SessionID e = s /\ SessionEvent_Validate e = None /\
  se_Sequence e = s_LastEventSequence session + 1 /\ u64 (se_Sequence e) /\
  ns (s_UpdatedAt session) <= ns (se_CreatedAt e) /\
  session' = {| session with s_LastEventSequence := se_Sequence e; s_UpdatedAt := se_CreatedAt e |} /\
  Session_Validate session' = None.
Proof.
  intros I Hs Ha. destruct (li_session d I _ _ _ Hs) as (Ht & Hsid & Hsv & Hsu).
  assert (session_evolves session session') as [Hv' _].
  { apply session_step_evolves; [done |]. by eapply step_append. }
  apply AppendSessionEvent_created in Ha as (? & [= <-] & _ & _ & Hev & Htid & Hsid' & _ & Hq & Htm & [= ->]).
  apply SessionEvent_Validate_nil in Hev as Hq0. destruct Hq0 as (Hq0 & _ & _).
  assert (s_LastEventSequence session <> max_u64) as Hmax.
  { intros Hm. rewrite Hm, wrap_u64_succ_max in Hq. done. }
  rewrite wrap_u64_succ in Hq by done. unfold u64 in *. split_and!; try done; try congruence; lia.
Qed.

Lemma predecessor_position d t s session q :
  log_inv d -> sessions d !! (t, s) = Some session -> q = s_LastEventSequence session + 1 ->
  wrap_u64 (q - 1) = s_LastEventSequence session.
Proof.
  intros I Hs ->. rewrite Z.add_simpl_r. apply wrap_u64_small. by destruct (li_session d I _ _ _ Hs) as (_ & _ & _ & ?).
Qed.

Lemma inv_append_result e m d b d' :
  log_inv d -> measure_typed m -> append_result e m d b d' -> log_inv d'.
Proof.
  intros I Hm [| session session' previous p Hdel Hs Hi e' Ha Hev Hf Hpt Hcur]; [done |].
  destruct (numbered_fields e (wrap_u64 (s_LastEventSequence session + 1))) as (Hid & Ht & Hsid & Hk).
  fold e' in Hid, Ht, Hsid, Hk. rewrite <- Ht, <- Hsid in Hs, Hev, Hi. rewrite <- Hk in Hi.
  destruct (append_new_facts _ _ _ _ _ _ I Hs Ha) as (_ & _ & Hv & Hq & Hu & Htm & -> & Hv').
  rewrite <- Ht, <- Hsid, (predecessor_position _ _ _ _ _ I Hs Hq) in Hcur.
  destruct (predecessor_ok d _ _ session previous I Hs Hcur) as (_ & Hty & _).
  eapply (inv_append d session e' p _ I Hs Hv Hq Hu Htm Hev Hi); [| done].
  by eapply fold_result.
Qed.

Lemma validateSessionOwner_session s o : validateSessionOwner s o = None -> Session_Validate s = None.
Proof. unfold validateSessionOwner. intros H. by peel H. Qed.

Lemma inv_bindings b prev d : log_inv d -> log_inv (bindings_update b prev d).
Proof. apply log_inv_same. by repeat split. Qed.

(** A lifecycle transition of the domain keeps the log position. *)
Lemma transition_evolves (f : option Session -> time -> option Session * option error) s at_ s' :
  (f = Archive \/ f = Unarchive) -> Session_Validate s = None -> f (Some s) at_ = (Some s', None) ->
  session_evolves s s' /\ s_LastEventSequence s' = s_LastEventSequence s.
Proof.
  intros Hf Hv H. split.
  - apply session_step_evolves; [done |]. destruct Hf as [-> | ->]; [by eapply step_archive | by eapply step_unarchive].
  - destruct Hf as [-> | ->]; cbn in H; rewrite Hv in H; repeat case_match; by simplify_eq.
Qed.

(** ** Changes

    Every step is one of these changes of the tables, with the facts its
    transaction checked. *)

Definition with_session (s : Session) (o : SessionParticipant) (d : db) : db :=
  {| d with
     sessions := <[(s_TenantID s, s_ID s) := s]> (sessions d);
     session_participants := <[(sp_TenantID o, sp_SessionID o, sp_UserID o) := o]> (session_participants d);
     session_material_current :=
       if s_LastEventSequence s =? 0
       then <[(s_TenantID s, s_ID s) := prefix_row (genesis_prefix (s_TenantID s) (s_ID s))]>
              (session_material_current d)
       else session_material_current d;
     session_activity := {[ activity_row s (sp_UserID o) (bucket_of (s_ID s)) ]} ∪ session_activity d |}.

Definition can_create (s : Session) (o : SessionParticipant) (d : db) : Prop :=
  validateSessionOwner s o = None /\ u64 (s_LastEventSequence s) /\
  session_deletions d !! (s_TenantID s, s_ID s) = None /\ sessions d !! (s_TenantID s, s_ID s) = None.

(** A binding that is written is new under an unused conversation, or a switch of a
    stored one. *)
Definition binding_origin (b : FrontendBinding) (d : db) : Prop :=
  (frontend_bindings d !! (fb_TenantID b, fb_ID b) = None /\
   forall id, frontend_binding_keys d !! (fb_TenantID b, fb_Frontend b, fb_ExternalConversationID b) = Some id ->
     id = fb_ID b) \/
  exists bid b0 r at_, frontend_bindings d !! (fb_TenantID b, bid) = Some b0 /\
    Switch (Some b0) r (fb_SessionID b) at_ = (Some b, None).

Definition can_bind (b : FrontendBinding) (d : db) : Prop :=
  FrontendBinding_Validate b = None /\ session_deletions d !! (fb_TenantID b, fb_SessionID b) = None /\
  is_active (sessions d !! (fb_TenantID b, fb_SessionID b)) = true /\ binding_origin b d.

Lemma Switch_session b r sid at_ b' : Switch (Some b) r sid at_ = (Some b', None) -> fb_SessionID b' = sid.
Proof. unfold Switch. intros H. repeat case_match; by simplify_eq. Qed.

Definition bound (b : FrontendBinding) (d : db) : db :=
  bindings_update b (frontend_bindings d !! (fb_TenantID b, fb_ID b)) d.

Inductive change (d : db) : string -> db -> Prop :=
| ch_none t : change d t d
| ch_create s o : can_create s o d -> change d (s_TenantID s) (with_session s o d)
| ch_create_switch s o b :
    can_create s o d -> fb_TenantID b = s_TenantID s -> can_bind b (with_session s o d) ->
    change d (s_TenantID s) (bound b (with_session s o d))
| ch_bind b : can_bind b d -> change d (fb_TenantID b) (bound b d)
| ch_append e m d' : measure_typed m -> append_result e m d true d' -> change d (se_TenantID e) d'
| ch_snapshot sn :
    SessionSnapshot_Validate sn = None ->
    session_deletions d !! (ss_TenantID sn, ss_SessionID sn) = None ->
    session_snapshots d !! (ss_TenantID sn, ss_SessionID sn, ss_Version sn) = None ->
    ss_Version sn = wrap_u64 (fst (latest_snapshot (ss_TenantID sn) (ss_SessionID sn) d) + 1) ->
    snd (latest_snapshot (ss_TenantID sn) (ss_SessionID sn) d) <= ss_ThroughSequence sn ->
    (exists row, sessions d !! (ss_TenantID sn, ss_SessionID sn) = Some row /\
       ss_ThroughSequence sn <= s_LastEventSequence row) ->
    change d (ss_TenantID sn)
      {| d with session_snapshots :=
           <[(ss_TenantID sn, ss_SessionID sn, ss_Version sn) := sn]> (session_snapshots d) |}
| ch_update s s' :
    sessions d !! (s_TenantID s, s_ID s) = Some s -> session_deletions d !! (s_TenantID s, s_ID s) = None ->
    session_evolves s s' -> s_LastEventSequence s' = s_LastEventSequence s ->
    (let d1 := update_session_row s' d in
     change d (s_TenantID s)
       {| d1 with session_activity :=
            moved s s' (active_rows (s_TenantID s) (s_ID s') d) (session_activity d) |})
| ch_tombstone t s x :
    change d t {| d with session_deletions := partial_alter (fun _ => x) (t, s) (session_deletions d) |}.

Lemma create_change s o d u d' :
  validateSessionOwner s o = None -> u64 (s_LastEventSequence s) ->
  createSessionTx (s_TenantID s) s o d = inr (u, d') ->
  sessions d' !! (s_TenantID s, s_ID s) = Some s /\
  (d' = d \/ can_create s o d /\ d' = with_session s o d).
Proof.
  intros Hv Hl H. apply createSession_effect in H as (Hd & [[-> Hs] | (Hn & _ & ->)]); [by split; [| left] |].
  split; [apply lookup_insert_eq |]. right. split; [by split_and! | done].
Qed.

(** Creating and switching: the session, if it is new, and the binding. *)
Lemma create_switch_change s o bid r at_ b0 b d d1 u u' d' :
  validateSessionOwner s o = None -> u64 (s_LastEventSequence s) -> s_Status s = SessionActive ->
  frontend_bindings d !! (s_TenantID s, bid) = Some b0 -> Switch (Some b0) r (s_ID s) at_ = (Some b, None) ->
  createSessionTx (s_TenantID s) s o d = inr (u, d1) -> writeBindingTx (s_TenantID s) b d1 = inr (u', d') ->
  change d (s_TenantID s) d'.
Proof.
  intros Hv Hl Hact Hb0 Hsw Hc Hw. apply writeBinding_effect in Hw as (-> & Ht & Hb & Hd).
  pose proof (Switch_session _ _ _ _ _ Hsw) as Hsid. rewrite <- Hsid in Hsw.
  apply create_change in Hc as [Hs Hc]; [| done | done]. rewrite <- Ht in *.
  assert (is_active (sessions d1 !! (fb_TenantID b, fb_SessionID b)) = true) as Ha.
  { rewrite Hsid, Hs. cbn. by apply bool_decide_true. }
  destruct Hc as [-> | [Hcan ->]].
  - apply ch_bind. split_and!; try done. right. eauto 10.
  - rewrite Ht at 1. apply ch_create_switch; [done | done |]. split_and!; try done. right. cbn. eauto 10.
Qed.

Lemma transition_change (f : option Session -> time -> option Session * option error) t sid at_ d :
  (f = Archive \/ f = Unarchive) -> log_inv d -> change d t (snd (transitionSession t sid (fun p => f p at_) d)).
Proof.
  intros Hf I. unfold transitionSession. do 2 (case_match; [apply ch_none |]).
  destruct (Transact_cases t (transitionTx t sid (fun p => f p at_)) d) as [-> | (x & d' & Hx & ->)]; [apply ch_none |].
  apply transition_effect in Hx as (Hdel & s & s' & Hs & [[Hfs ->] | [_ ->]]); [| apply ch_none].
  destruct (li_session d I _ _ _ Hs) as (Ht & Hsid & Hv & _).
  destruct (transition_evolves f s at_ s' Hf Hv Hfs) as [Hev Hl].
  rewrite <- Ht. apply (ch_update d s s'); rewrite ?Ht, ?Hsid; done.
Qed.

Lemma step_change t d d' : log_inv d -> tenant_step t d d' -> change d t d'.
Proof.
  intros I Hstep. destruct Hstep as [s o d Hl | s o bid r at_ d Hl | b d | t bid r sid at_ d | e m d Hm | sn d
                              | t sid at_ d | t sid at_ d | t sid x d].
  - unfold CreateSession. destruct (validateSessionOwner s o) eqn:Hv; [apply ch_none |].
    destruct (Transact_cases (s_TenantID s) (createSessionTx (s_TenantID s) s o) d) as [-> | (x & d' & Hx & ->)];
      [apply ch_none |].
    apply create_change in Hx as [_ [-> | [Hc ->]]]; [apply ch_none | by apply ch_create | done | done].
  - unfold CreateAndSwitchSession. destruct (validateSessionOwner s o) eqn:Hv; [apply ch_none |].
    destruct (bool_decide_reflect (s_Status s = SessionActive)) as [Hact |]; [cbn | apply ch_none].
    case_match; [apply ch_none |].
    destruct (Transact_cases (s_TenantID s) (createAndSwitchTx s o bid r at_) d) as [-> | (x & d' & Hx & ->)];
      [apply ch_none |].
    apply createAndSwitch_effect in Hx as [-> | (b & d1 & u & u' & Hb & Hsw & Hc & Hw)]; [apply ch_none |].
    by eapply create_switch_change.
  - unfold BindFrontend. destruct (FrontendBinding_Validate b) eqn:Hv; [apply ch_none |].
    destruct (Transact_cases (fb_TenantID b) (bindFrontendTx b) d) as [-> | (x & d' & Hx & ->)]; [apply ch_none |].
    apply bindFrontend_effect in Hx as [-> | (-> & Hn & Hd & Ha & Hk)]; [apply ch_none |].
    rewrite <- Hn. apply ch_bind. split_and!; try done. by left.
  - unfold SwitchFrontendBinding. do 3 (case_match; [apply ch_none |]).
    destruct (Transact_cases t (switchFrontendTx t bid r sid at_) d) as [-> | (x & d' & Hx & ->)]; [apply ch_none |].
    apply switchFrontend_effect in Hx as (b & u & Hb0 & Hsw & Hw & Ha).
    apply writeBinding_effect in Hw as (-> & <- & Hb & Hd). apply ch_bind.
    pose proof (Switch_session _ _ _ _ _ Hsw) as <-. split_and!; try done. right. eauto 10.
  - unfold appendSessionEventMaterialV1. do 3 (case_match; [apply ch_none |]).
    destruct (Transact_cases (se_TenantID e) (appendEventTx e m) d) as [-> | (x & d' & Hx & ->)]; [apply ch_none |].
    apply appendEvent_effect in Hx. destruct x; [by eapply ch_append | inversion Hx; apply ch_none].
  - unfold PutSessionSnapshot. destruct (SessionSnapshot_Validate sn) eqn:Hv; [apply ch_none |].
    destruct (Transact_cases (ss_TenantID sn) (putSnapshotTx sn) d) as [-> | (x & d' & Hx & ->)]; [apply ch_none |].
    apply putSnapshot_effect in Hx as (Hd & [-> | (row & Hs & Hth & Hn & Hver & Hreg & ->)]); [apply ch_none |].
    apply ch_snapshot; eauto.
  - by apply (transition_change Archive); [left |].
  - by apply (transition_change Unarchive); [right |].
  - apply ch_tombstone.
Qed.

Lemma inv_with_session s o d : log_inv d -> can_create s o d -> log_inv (with_session s o d).
Proof.
  intros I (Hv & Hl & _ & Hn). eapply inv_create; eauto using validateSessionOwner_session.
Qed.

Lemma inv_change t d d' : log_inv d -> change d t d' -> log_inv d'.
Proof.
  intros I H. destruct H as [t | s o Hc | s o b Hc _ _ | b _ | e m d' Hm Ha | sn | s s' Hs _ Hev Hl | t s x].
  - done.
  - by apply inv_with_session.
  - by apply inv_bindings, inv_with_session.
  - by apply inv_bindings.
  - by eapply inv_append_result.
  - eapply log_inv_same; [| exact I]. by repeat split.
  - eapply inv_update; done.
  - eapply log_inv_same; [| exact I]. by repeat split.
Qed.

Lemma inv_step d d' : log_inv d -> store_step d d' -> log_inv d'.
Proof. intros I [t Hs]. by eapply inv_change, step_change. Qed.

Lemma inv_reachable d : reachable d -> log_inv d.
Proof.
  revert d. apply reachable_induction; [apply log_inv_empty |]. intros d d' _ Hs I. by eapply inv_step.
Qed.

(** ** The log as a list *)

Definition event_at (d : db) (t s : string) (i : nat) : option SessionEvent :=
  session_events d !! (t, s, Z.of_nat i + 1).

Definition log (d : db) (t s : string) : list SessionEvent :=
  match sessions d !! (t, s) with
  | None => []
  | Some row => omap (event_at d t s) (seq 0 (Z.to_nat (s_LastEventSequence row)))
  end.

Lemma omap_seq_dense {A} (f : nat -> option A) n : forall a,
  (forall i, (a <= i < a + n)%nat -> is_Some (f i)) ->
  length (omap f (seq a n)) = n /\ forall i, (i < n)%nat -> omap f (seq a n) !! i = f (a + i)%nat.
Proof.
  induction n as [| n IH]; intros a H; [by split; [| lia] |]. cbn [seq].
  change (omap f (a :: seq (S a) n)) with
    (match f a with Some y => y :: omap f (seq (S a) n) | None => omap f (seq (S a) n) end).
  destruct (H a ltac:(lia)) as [x Hx]. rewrite Hx.
  destruct (IH (S a)) as [Hl Hi]; [intros; apply H; lia |]. split; [cbn [length]; by rewrite Hl |].
  intros [| i] Hlt; cbn; [by rewrite Nat.add_0_r |]. rewrite Hi by lia. f_equal. lia.
Qed.

(** A filter of consecutive positions that starts in the middle. *)
Lemma omap_seq_from {A} (f : nat -> option A) n k :
  (k <= n)%nat -> (forall i, (i < k)%nat -> f i = None) -> (forall i, (k <= i < n)%nat -> is_Some (f i)) ->
  length (omap f (seq 0 n)) = (n - k)%nat /\
  forall i, (i < n - k)%nat -> omap f (seq 0 n) !! i = f (k + i)%nat.
Proof.
  intros Hk Hn Hs. assert (seq 0 n = seq 0 k ++ seq k (n - k)) as ->.
  { change k with (0 + k)%nat at 3. rewrite <- seq_app. f_equal. lia. }
  rewrite omap_app. replace (omap f (seq 0 k)) with (@nil A).
  - apply omap_seq_dense. intros i Hi. apply Hs. lia.
  - symmetry. clear Hs. induction k as [| k IH] in n, Hk, Hn |- *; [done |].
    rewrite seq_S, omap_app, (IH n) by (intros; auto with lia). cbn. by rewrite Hn by lia.
Qed.

(** The position of a session's last event, and the one its log starts after. *)
Definition last_sequence (d : db) (t s : string) : Z :=
  match sessions d !! (t, s) with Some row => s_LastEventSequence row | None => 0 end.

Definition first_sequence (d : db) (t s : string) : Z :=
  last_sequence d t s - Z.of_nat (length (log d t s)).

Lemma log_spec d t s :
  log_inv d -> 0 <= first_sequence d t s <= last_sequence d t s /\
  forall q e, session_events d !! (t, s, q) = Some e <->
    first_sequence d t s < q /\ log d t s !! Z.to_nat (q - first_sequence d t s - 1) = Some e.
Proof.
  intros I. unfold first_sequence, last_sequence, log. destruct (sessions d !! (t, s)) as [row |] eqn:Hs.
  - destruct (li_dense d I _ _ _ Hs) as (first & Hf & Hd).
    destruct (omap_seq_from (event_at d t s) (Z.to_nat (s_LastEventSequence row)) (Z.to_nat first)) as [Hl Hi].
    + lia.
    + intros i Hi. apply eq_None_not_Some. unfold event_at. rewrite Hd. lia.
    + intros i Hi. unfold event_at. rewrite Hd. lia.
    + rewrite Hl. replace (_ - Z.of_nat _) with first by lia. split; [lia |]. intros q e. split.
      * intros He. assert (first < q <= s_LastEventSequence row) as Hq by (apply Hd; eauto).
        split; [lia |]. rewrite Hi by lia. unfold event_at. rewrite <- He. f_equal. f_equal. lia.
      * intros [Hq He]. apply lookup_lt_Some in He as Hlt. rewrite Hl in Hlt. rewrite Hi in He by lia.
        unfold event_at in He. rewrite <- He. f_equal. f_equal. lia.
  - split; [cbn; lia |]. intros q e. split; [| by intros [_ ?]].
    intros (_ & _ & _ & _ & row & Hr & _)%(li_event d I). congruence.
Qed.

(** The log is determined by the row's position and the events up to it. *)
Lemma log_ext d d' t s :
  log_inv d -> log_inv d' ->
  (forall row', sessions d' !! (t, s) = Some row' -> exists row, sessions d !! (t, s) = Some row /\
     s_LastEventSequence row' = s_LastEventSequence row) ->
  (forall row, sessions d !! (t, s) = Some row -> is_Some (sessions d' !! (t, s))) ->
  (forall q, session_events d' !! (t, s, q) = session_events d !! (t, s, q)) -> log d' t s = log d t s.
Proof.
  intros I I' Hb Hf He. unfold log. destruct (sessions d' !! (t, s)) as [row' |] eqn:Hs'.
  - destruct (Hb row' eq_refl) as (row & Hs & ->). rewrite Hs. apply list_omap_ext.
    apply Forall2_same_length_lookup_2; [done |]. intros i x y Hx Hy. simplify_eq. unfold event_at. apply He.
  - destruct (sessions d !! (t, s)) as [row |] eqn:Hs; [| done]. by destruct (Hf row eq_refl).
Qed.

Lemma same_log_log d d' t s : sessions d' = sessions d -> session_events d' = session_events d -> log d' t s = log d t s.
Proof. unfold log, event_at. by intros -> ->. Qed.

Lemma update_row s' d row :
  sessions d !! (s_TenantID s', s_ID s') = Some row ->
  update_session_row s' d = {| d with sessions := <[(s_TenantID s', s_ID s') := s']> (sessions d) |}.
Proof. intros H. unfold update_session_row. by rewrite H. Qed.

(** ** How the operations change the log *)

(** A log stays, or gets one more event at its end; its session's position follows. *)
Definition log_grows (d d' : db) : Prop :=
  forall t s,
    (log d' t s = log d t s /\
     (is_Some (sessions d !! (t, s)) -> is_Some (sessions d' !! (t, s)) /\ last_sequence d' t s = last_sequence d t s)) \/
    exists e, log d' t s = log d t s ++ [e] /\ is_Some (sessions d !! (t, s)) /\ is_Some (sessions d' !! (t, s)) /\
      last_sequence d' t s = last_sequence d t s + 1.

Lemma log_grows_refl d : log_grows d d.
Proof. intros t s. left. eauto. Qed.

Lemma log_grows_same d d' : sessions d' = sessions d -> session_events d' = session_events d -> log_grows d d'.
Proof.
  intros Hs He t s. left. split; [by apply same_log_log |]. unfold last_sequence. by rewrite Hs.
Qed.

Lemma log_create d d' s :
  log_inv d -> sessions d !! (s_TenantID s, s_ID s) = None ->
  sessions d' = <[(s_TenantID s, s_ID s) := s]> (sessions d) -> session_events d' = session_events d ->
  log_grows d d'.
Proof.
  intros I Hn Hs He t sid. left. unfold log, last_sequence. rewrite Hs.
  assert (event_at d' t sid = event_at d t sid) as -> by (unfold event_at; by rewrite He).
  destruct (decide ((t, sid) = (s_TenantID s, s_ID s))) as [[= -> ->] |].
  - rewrite lookup_insert_eq, Hn. split; [| by intros []].
    generalize (seq 0 (Z.to_nat (s_LastEventSequence s))). intros l. induction l as [| i l IH]; [done |].
    cbn. destruct (event_at d _ _ i) as [e |] eqn:Hi; [| done].
    apply (li_event d I) in Hi as (_ & _ & _ & _ & row & Hr & _). congruence.
  - by rewrite lookup_insert_ne.
Qed.

Lemma log_update d d' s s' :
  sessions d !! (s_TenantID s', s_ID s') = Some s -> s_LastEventSequence s' = s_LastEventSequence s ->
  sessions d' = <[(s_TenantID s', s_ID s') := s']> (sessions d) -> session_events d' = session_events d ->
  log_grows d d'.
Proof.
  intros Hn Hl Hs He t sid. left. unfold log, event_at, last_sequence. rewrite Hs, He.
  destruct (decide ((t, sid) = (s_TenantID s', s_ID s'))) as [[= -> ->] |].
  - by rewrite lookup_insert_eq, Hn, Hl.
  - by rewrite lookup_insert_ne.
Qed.

(** An append adds the event to its session's log and leaves the others. *)
Lemma log_append d d' t s session session' e :
  log_inv d -> sessions d !! (t, s) = Some session ->
  se_Sequence e = s_LastEventSequence session + 1 -> s_LastEventSequence session' = se_Sequence e ->
  sessions d' = <[(t, s) := session']> (sessions d) ->
  session_events d' = <[(t, s, se_Sequence e) := e]> (session_events d) ->
  log d' t s = log d t s ++ [e] /\ sessions d' !! (t, s) = Some session' /\
  (forall t' s', (t', s') <> (t, s) ->
     log d' t' s' = log d t' s' /\ sessions d' !! (t', s') = sessions d !! (t', s')).
Proof.
  intros I Hs Hq Hl Hs' He. destruct (li_session d I _ _ _ Hs) as (_ & _ & _ & Hu). unfold u64 in Hu.
  split_and!; [| by rewrite Hs', lookup_insert_eq |].
  - unfold log, event_at. rewrite Hs', He, lookup_insert_eq, Hs, Hl, Hq.
    rewrite Z2Nat.inj_add, seq_app, omap_app by lia. cbn [Z.to_nat Pos.to_nat]. f_equal.
    + apply list_omap_ext, Forall2_same_length_lookup_2; [done |]. intros i x y Hx Hy.
      apply lookup_seq in Hx as [-> Hx]. apply lookup_seq in Hy as [-> _].
      rewrite lookup_insert_ne; [done |]. intros [=]. lia.
    + change (seq _ _) with [(0 + Z.to_nat (s_LastEventSequence session))%nat].
      change (omap ?f [?x]) with (match f x with Some y => [y] | None => [] end). cbv beta.
      replace (Z.of_nat _ + 1) with (s_LastEventSequence session + 1) by lia.
      by rewrite <- Hq, lookup_insert_eq.
  - intros t' s' Hne. rewrite Hs', lookup_insert_ne by congruence. split; [| done].
    unfold log, event_at. rewrite Hs', He, lookup_insert_ne by congruence.
    destruct (sessions d !! (t', s')); [| done].
    apply list_omap_ext, Forall2_same_length_lookup_2; [done |]. intros i x y Hx Hy. simplify_eq.
    by rewrite lookup_insert_ne by congruence.
Qed.

Lemma append_new_log e m d d' :
  log_inv d -> measure_typed m -> append_result e m d true d' ->
  exists session e', sessions d !! (se_TenantID e, se_SessionID e) = Some session /\
    e' = numbered e (s_LastEventSequence session + 1) /\
    log d' (se_TenantID e) (se_SessionID e) = log d (se_TenantID e) (se_SessionID e) ++ [e'] /\
    (exists session', sessions d' !! (se_TenantID e, se_SessionID e) = Some session' /\
       s_LastEventSequence session' = s_LastEventSequence session + 1) /\
    (forall t' s', (t', s') <> (se_TenantID e, se_SessionID e) ->
       log d' t' s' = log d t' s' /\ sessions d' !! (t', s') = sessions d !! (t', s')).
Proof.
  intros I Hm H. inversion H as [| session session' previous p Hdel Hs Hi e' Ha Hev Hf Hpt Hcur].
  destruct (append_new_facts _ _ _ _ _ _ I Hs Ha) as (Ht & Hsid & Hv & Hq & Hu & Htm & Hs' & Hv').
  exists session, e'. split; [done |]. split.
  { unfold e' in Hq |- *. destruct (AppendSessionEvent_created _ _ _ _ Ha)
      as (? & [= <-] & _ & _ & _ & _ & _ & _ & Hw & _ & _). fold e' in Hw. unfold e', numbered in *.
    destruct (se_Sequence e =? 0); [| done]. cbn in Hq. by rewrite Hq. }
  destruct (li_session d I _ _ _ Hs) as (Hst & Hsi & _).
  assert (d1 = let d0 := with_event e' p d in {| d0 with sessions :=
            <[(se_TenantID e, se_SessionID e) := session']> (sessions d) |}) as Hd1.
  { unfold d1. rewrite (update_row _ _ session); rewrite Hs'; cbn; by rewrite Hst, Hsi. }
  destruct (log_append d d' _ _ session session' e' I Hs Hq) as (Hlog & Hrow & Hother); subst d'; rewrite ?Hd1; cbn.
  - by rewrite Hs'.
  - done.
  - by rewrite Ht, Hsid.
  - rewrite Hd1 in Hlog, Hrow, Hother. cbn in Hlog, Hrow, Hother. split_and!; [done | | done].
    exists session'. split; [done |]. rewrite Hs'. exact Hq.
Qed.

Lemma step_log d d' : log_inv d -> store_step d d' -> log_grows d d'.
Proof.
  intros I [t0 Hstep%step_change]; [| done].
  destruct Hstep as [t | s o (_ & Hl & _ & Hn) | s o b (_ & Hl & _ & Hn) _ _ | b _ | e m d' Hm Ha | sn
                     | s s' Hs _ Hev Hl | t s x]; try by apply log_grows_same.
  - by eapply log_create.
  - by eapply log_create.
  - destruct (append_new_log e m d d' I Hm Ha) as (session & e' & Hs & _ & Happ & (session' & Hs' & Hl) & Hother).
    intros t s. unfold last_sequence.
    destruct (decide ((t, s) = (se_TenantID e, se_SessionID e))) as [[= -> ->] | Hne].
    + right. rewrite Hs, Hs'. eauto 10.
    + left. destruct (Hother t s Hne) as [-> ->]. eauto.
  - destruct Hev as (_ & Hi & Ht & _). rewrite <- Hi, <- Ht in Hs. subst d1. rewrite (update_row _ _ _ Hs).
    by eapply log_update.
Qed.
