(* ===== verification/SessionHistory.v ===== *)
(** * Reading and replaying the session log

    Pages of numbered rows, the history a reader sees, and what repeated
    appends do. *)

From S2P Require Import Prelude GoText Sorting GoTime Sha256 Json Digests Errors Identity Blobs Lifecycle.
From S2P Require Import Sessions Material MaterialFold MaterialTotal Store SessionStore StoreEffects.
From S2P Require Import SessionLog.
From stdpp Require Import gmap sets.
From Stdlib Require Import Sorting.Sorted.
#[local] Open Scope Z_scope.

(** ** Pages of a table with consecutive numbers *)

Section pages.
Context {V : Type} (m : gmap (string * string * Z) V) (t s : string).

(** The rows of the session are numbered consecutively after [first] and hold [l]. *)
Definition numbers (first : Z) (l : list V) : Prop :=
  forall q v, m !! (t, s, q) = Some v <-> first < q /\ l !! Z.to_nat (q - first - 1) = Some v.

Definition by_number (a b : Z * V) : bool := fst a <? fst b.

Fixpoint with_numbers (n : Z) (l : list V) : list (Z * V) :=
  match l with [] => [] | v :: r => (n, v) :: with_numbers (n + 1) r end.

Lemma by_number_strict : Sorting.strict by_number.
Proof. unfold Sorting.strict, by_number. split; intros; rewrite ?Z.ltb_lt, ?Z.ltb_irrefl in *; lia || done. Qed.

Lemma with_numbers_elem l : forall n q v,
  (q, v) ∈ with_numbers n l <-> n <= q /\ l !! Z.to_nat (q - n) = Some v.
Proof.
  induction l as [| w l IH]; intros n q v; cbn.
  - rewrite elem_of_nil. split; [done |]. by intros [_ ?].
  - rewrite elem_of_cons, IH. split.
    + intros [[= -> ->] | [Hn Hl]].
      * split; [lia |]. by replace (Z.to_nat (n - n)) with 0%nat by lia.
      * split; [lia |]. by replace (Z.to_nat (q - n)) with (S (Z.to_nat (q - (n + 1)))) by lia.
    + intros [Hn Hl]. destruct (decide (q = n)) as [-> | Hne].
      * left. replace (Z.to_nat (n - n)) with 0%nat in Hl by lia. by injection Hl as ->.
      * right. split; [lia |].
        by replace (Z.to_nat (q - n)) with (S (Z.to_nat (q - (n + 1)))) in Hl by lia.
Qed.

Lemma with_numbers_sorted l : forall n, Sorting.sorted by_number (with_numbers n l).
Proof.
  induction l as [| w l IH]; intros n; cbn; [constructor |]. constructor; [apply IH |].
  apply List.Forall_forall. intros [q v] Hin. apply list_elem_of_In, with_numbers_elem in Hin as [Hn _].
  apply Z.ltb_lt. cbn. lia.
Qed.

Lemma with_numbers_values l n : map snd (with_numbers n l) = l.
Proof. revert n. induction l as [| w l IH]; intros n; cbn; [done |]. by rewrite IH. Qed.

Definition session_row (after : Z) (row : (string * string * Z) * V) : option (Z * V) :=
  if bool_decide (row.1.1 = (t, s)) && (after <? row.1.2) then Some (row.1.2, row.2) else None.

Lemma session_row_Some after row q v :
  session_row after row = Some (q, v) <-> row = ((t, s, q), v) /\ after < q.
Proof.
  destruct row as [[ts q'] v']. unfold session_row. cbn.
  destruct (bool_decide_reflect (ts = (t, s))) as [-> | Hne]; cbn; [| naive_solver].
  destruct (Z.ltb_spec after q'); split; try done.
  - by intros [= -> ->].
  - by intros [[= -> ->] _].
  - intros [[= -> ->] ?]. lia.
Qed.

Lemma session_rows_elem after q v :
  (q, v) ∈ omap (session_row after) (map_to_list m) <-> m !! (t, s, q) = Some v /\ after < q.
Proof.
  rewrite list_elem_of_omap. split.
  - intros (row & Hin & [-> Hq]%session_row_Some). by rewrite elem_of_map_to_list in Hin.
  - intros [Hm Hq]. exists ((t, s, q), v). by rewrite elem_of_map_to_list, session_row_Some.
Qed.

Lemma session_rows_NoDup after : NoDup (omap (session_row after) (map_to_list m)).
Proof.
  apply NoDup_omap_inj; [| apply NoDup_map_to_list].
  by intros x y [q v] _ _ [-> _]%session_row_Some [-> _]%session_row_Some.
Qed.

Lemma session_rows_total after : total_on by_number (omap (session_row after) (map_to_list m)).
Proof.
  intros [q v] [q' v'] [Hm _]%session_rows_elem [Hm' _]%session_rows_elem. unfold by_number. cbn.
  destruct (Z.lt_trichotomy q q') as [H | [-> | H]]; [right; left; lia | left; congruence | right; right; lia].
Qed.

(** A page of consecutive rows is the slice of the list they hold. *)
Lemma page_numbers first l after limit :
  numbers first l -> page m t s after limit = take (Z.to_nat limit) (drop (Z.to_nat (after - first)) l).
Proof.
  intros Hl. unfold page, ordered_rows. fold (session_row after). rewrite <- firstn_map. f_equal.
  rewrite <- (with_numbers_values (drop _ l) (Z.max after first + 1)). f_equal. apply (sorted_unique by_number).
  - apply by_number_strict.
  - apply sort_by_sorted; [apply by_number_strict | apply session_rows_total | apply session_rows_NoDup].
  - apply with_numbers_sorted.
  - rewrite sort_by_permutation. apply NoDup_Permutation.
    + apply session_rows_NoDup.
    + apply (sorted_NoDup by_number); [apply by_number_strict | apply with_numbers_sorted].
    + intros [q v]. rewrite session_rows_elem, with_numbers_elem, (Hl q v), lookup_drop.
      split; intros [H1 H2].
      * split; [lia |]. replace (_ + _)%nat with (Z.to_nat (q - first - 1)) by lia. tauto.
      * replace (_ + _)%nat with (Z.to_nat (q - first - 1)) in H2 by lia. split; [split; [lia | done] | lia].
Qed.

Lemma ordered_rows_elem after q v : (q, v) ∈ ordered_rows m t s after <-> m !! (t, s, q) = Some v /\ after < q.
Proof.
  unfold ordered_rows. fold (session_row after). by rewrite (sort_by_permutation by_number), session_rows_elem.
Qed.

Lemma page_elem after limit v : v ∈ page m t s after limit -> exists q, m !! (t, s, q) = Some v /\ after < q.
Proof.
  unfold page. intros ([q v'] & -> & (i & Hi & _)%elem_of_take)%list_elem_of_fmap.
  apply list_elem_of_lookup_2, ordered_rows_elem in Hi. eauto.
Qed.

(** A page holds a row, or it is full and ends before the row. *)
Lemma page_reaches after limit q v :
  m !! (t, s, q) = Some v -> after < q ->
  v ∈ page m t s after limit \/
  limit <= Z.of_nat (length (page m t s after limit)) /\
  (1 <= limit -> exists q' v', last (page m t s after limit) = Some v' /\ m !! (t, s, q') = Some v' /\ q' < q).
Proof.
  intros Hv Hq. assert ((q, v) ∈ ordered_rows m t s after) as Hin by (by apply ordered_rows_elem).
  assert (Sorting.sorted by_number (ordered_rows m t s after)) as Hsort.
  { apply sort_by_sorted; [apply by_number_strict | apply session_rows_total | apply session_rows_NoDup]. }
  pose proof (ordered_rows_elem after) as Hrow. unfold page.
  apply list_elem_of_split in Hin as (l1 & l2 & Hl). rewrite Hl in *.
  destruct (decide (length l1 < Z.to_nat limit)%nat) as [Hlt | Hge].
  - left. apply list_elem_of_fmap. exists (q, v). split; [done |]. rewrite take_app_ge by lia.
    apply elem_of_app. right. destruct (Z.to_nat limit - length l1)%nat eqn:E; [lia |]. by left.
  - right. rewrite take_app_le by lia. rewrite length_map, length_take. split; [lia |]. intros H1.
    destruct (lookup_lt_is_Some_2 l1 (pred (Z.to_nat limit))) as [[q' v'] Hx]; [lia |]. exists q', v'. split_and!.
    + rewrite last_lookup, length_map, length_take, list_lookup_fmap, lookup_take_lt by lia.
      replace (pred (Z.to_nat limit `min` length l1)) with (pred (Z.to_nat limit)) by lia. by rewrite Hx.
    + apply (Hrow q' v'). apply elem_of_app. left. by eapply list_elem_of_lookup_2.
    + apply list_elem_of_lookup_2, list_elem_of_In in Hx. clear - Hsort Hx.
      induction l1 as [| y l1 IH]; [done |]. cbn in Hsort. apply StronglySorted_inv in Hsort as [Hs Hf].
      destruct Hx as [-> | Hx]; [| by apply IH]. rewrite List.Forall_forall in Hf.
      specialize (Hf (q, v) ltac:(apply List.in_app_iff; right; by left)). apply Z.ltb_lt in Hf. exact Hf.
Qed.
End pages.

(** ** The history a reader sees *)

Lemma log_numbers d t s : log_inv d -> numbers (session_events d) t s (first_sequence d t s) (log d t s).
Proof. intros I. exact (proj2 (log_spec d t s I)). Qed.

Lemma log_at d t s i e :
  log_inv d -> log d t s !! i = Some e <-> session_events d !! (t, s, first_sequence d t s + Z.of_nat i + 1) = Some e.
Proof.
  intros I. rewrite (log_numbers d t s I (_ + _ + 1) e). replace (Z.to_nat _) with i by lia. split; [| by intros [_ ?]].
  split; [lia | done].
Qed.

Lemma log_event d t s i e :
  log_inv d -> log d t s !! i = Some e ->
  SessionEvent_Validate e = None /\ se_TenantID e = t /\ se_SessionID e = s /\
  se_Sequence e = first_sequence d t s + Z.of_nat i + 1 /\
  exists row, sessions d !! (t, s) = Some row /\ se_Sequence e <= s_LastEventSequence row.
Proof.
  intros I He. apply (log_at d t s i e I) in He as (? & ? & <- & ? & row & ? & ? & _)%(li_event d I).
  split_and!; eauto. exists row. split; [done | lia].
Qed.

Lemma log_accepted d t s :
  log_inv d -> first_sequence d t s = 0 -> context_events t s 1 (log d t s) = None.
Proof.
  intros I H0. apply context_events_nil. intros i e He.
  destruct (log_event d t s i e I He) as (Hv & Ht & Hs & Hq & row & Hr & Hle). split_and!; try done.
  destruct (li_session d I _ _ _ Hr) as (_ & _ & _ & Hu). unfold u64 in Hu. rewrite Hq, H0 in *.
  destruct i as [| i]; [done |]. rewrite wrap_u64_small; unfold u64; lia.
Qed.

(** ** The log only grows *)

Lemma log_grows_prefix d d' t s : log_grows d d' -> log d t s `prefix_of` log d' t s.
Proof. intros H. destruct (H t s) as [[-> _] | (e & -> & _)]; [done | by eexists]. Qed.

Lemma run_inv d d' : log_inv d -> rtc store_step d d' -> log_inv d'.
Proof. intros I. induction 1 as [| d d1 d' Hs _ IH]; [done |]. apply IH. by eapply inv_step. Qed.

Lemma run_log d d' t s : log_inv d -> rtc store_step d d' -> log d t s `prefix_of` log d' t s.
Proof.
  intros I H. induction H as [| d d1 d' Hs _ IH]; [done |].
  etrans; [by eapply log_grows_prefix, step_log |]. apply IH. by eapply inv_step.
Qed.

(** A session keeps its row, and the position its log starts after. *)
Lemma log_grows_first d d' t s :
  log_grows d d' -> is_Some (sessions d !! (t, s)) ->
  is_Some (sessions d' !! (t, s)) /\ first_sequence d' t s = first_sequence d t s.
Proof.
  intros H Hs. unfold first_sequence. destruct (H t s) as [[-> Hl] | (e & -> & _ & Hs' & ->)].
  - destruct (Hl Hs) as [? ->]. done.
  - split; [done |]. rewrite length_app. cbn. lia.
Qed.

Lemma run_first d d' t s :
  log_inv d -> rtc store_step d d' -> is_Some (sessions d !! (t, s)) ->
  is_Some (sessions d' !! (t, s)) /\ first_sequence d' t s = first_sequence d t s.
Proof.
  intros I H. induction H as [| d d1 d' Hstep _ IH]; [done |]. intros Hs.
  destruct (log_grows_first d d1 t s (step_log d d1 I Hstep) Hs) as [Hs1 <-]. apply IH; [by eapply inv_step | done].
Qed.

(** The log of a new session starts after the position it is created with. *)
Lemma created_first d d' t s row :
  log_inv d -> store_step d d' -> sessions d !! (t, s) = None -> sessions d' !! (t, s) = Some row ->
  first_sequence d' t s = s_LastEventSequence row.
Proof.
  intros I Hstep Hn Hs. unfold first_sequence, last_sequence. rewrite Hs.
  destruct (step_log d d' I Hstep t s) as [[-> _] | (e & _ & [? ?] & _)]; [| congruence].
  unfold log. rewrite Hn. cbn. lia.
Qed.

(** C4. The history of a session is one gap-free log.  Whatever operations of the
    session store run after a session was created with position [first] (0 for a new,
    empty session), its row counts exactly the events of the log after [first], the
    log holds the session's events with the sequences [first] + 1, [first] + 2, ...,
    and [ListSessionHistory] returns exactly the slice of it that was asked for; if
    [first] is 0, the context validator accepts the log as the session's history. *)
Theorem history_is_the_log d0 d1 d t s row0 after limit :
  reachable d0 -> store_step d0 d1 -> sessions d0 !! (t, s) = None -> sessions d1 !! (t, s) = Some row0 ->
  rtc store_step d1 d -> validateSessionRead t s limit = None -> 0 <= after ->
  let first := s_LastEventSequence row0 in
  exists row, sessions d !! (t, s) = Some row /\
    s_LastEventSequence row = first + Z.of_nat (length (log d t s)) /\
    (forall i e, log d t s !! i = Some e ->
       se_TenantID e = t /\ se_SessionID e = s /\ se_Sequence e = first + Z.of_nat i + 1) /\
    ListSessionHistory t s after limit d =
      inr (take (Z.to_nat limit) (drop (Z.to_nat (after - first)) (log d t s))) /\
    (first = 0 ->
     SessionContextInput_Validate
       {| ci_TenantID := t; ci_SessionID := s; ci_Snapshot := None; ci_Events := log d t s |} = None).
Proof.
  intros I0%inv_reachable Hstep Hn Hs Hrun Hr Ha. cbv zeta. pose proof (inv_step _ _ I0 Hstep) as I1.
  rewrite <- (created_first d0 d1 t s row0 I0 Hstep Hn Hs).
  destruct (run_first d1 d t s I1 Hrun) as [[row Hrow] <-]; [by eauto |]. pose proof (run_inv _ _ I1 Hrun) as I.
  exists row. split_and!; [done | | | |].
  - unfold first_sequence, last_sequence. rewrite Hrow. lia.
  - intros i e He. by destruct (log_event d t s i e I He) as (_ & ? & ? & ? & _).
  - unfold ListSessionHistory. rewrite Hr. f_equal. by apply page_numbers, log_numbers.
  - intros H0. unfold validateSessionRead in Hr. peel Hr. unfold SessionContextInput_Validate. cbn. rewrite E, E0.
    by apply log_accepted.
Qed.

Lemma sample_created : store_step empty_db StoreSample.created.
Proof.
  assert (u64 (s_LastEventSequence Sample.session)) as Hu by done.
  pose proof (op_create Sample.session StoreSample.owner empty_db Hu) as H.
  rewrite StoreSample.created_is in H. eexists. exact H.
Qed.

Lemma sample_one : store_step StoreSample.created StoreSample.one.
Proof.
  pose proof (op_append (StoreSample.event 0 "e1" "k1" Sample.t1) None StoreSample.created I) as H.
  rewrite StoreSample.one_is in H. eexists. exact H.
Qed.

Lemma sample_two : store_step StoreSample.one StoreSample.two.
Proof.
  pose proof (op_append (StoreSample.event 0 "e2" "k2" Sample.t2) None StoreSample.one I) as H.
  rewrite StoreSample.two_is in H. eexists. exact H.
Qed.

Lemma sample_one_reachable : reachable StoreSample.one.
Proof. eapply rtc_l; [apply sample_created | apply rtc_once, sample_one]. Qed.

Lemma sample_reachable : reachable StoreSample.two.
Proof. eapply rtc_r; [apply sample_one_reachable | apply sample_two]. Qed.

Lemma history_is_the_log_witness :
  length (log StoreSample.two "acme" "s1") = 2%nat /\
  ListSessionHistory "acme" "s1" 1 1 StoreSample.two =
    inr (take (Z.to_nat 1) (drop (Z.to_nat (1 - 0)) (log StoreSample.two "acme" "s1"))).
Proof.
  split; [vm_compute; reflexivity |].
  destruct (history_is_the_log empty_db StoreSample.created StoreSample.two "acme" "s1" Sample.session 1 1)
    as (row & _ & _ & _ & H & _).
  - apply rtc_refl.
  - apply sample_created.
  - reflexivity.
  - vm_compute. reflexivity.
  - eapply rtc_l; [apply sample_one | apply rtc_once, sample_two].
  - vm_compute. reflexivity.
  - lia.
  - exact H.
Defined.

(** ** Retries *)

Lemma sameSessionEvent_refl e : sameSessionEvent e e = true.
Proof.
  unfold sameSessionEvent. rewrite !String.eqb_refl, Z.eqb_refl, !bool_decide_true by done.
  unfold equal_optional, time_equal. rewrite Z.eqb_refl.
  destruct (se_AuthorUserID e), (se_RunID e); rewrite ?String.eqb_refl; done.
Qed.

Lemma event_keys e :
  SessionEvent_Validate e = None ->
  TenantID_Validate (se_TenantID e) = None /\ SessionID_Validate (se_SessionID e) = None /\
  IdempotencyKey_Validate (se_IdempotencyKey e) = None.
Proof.
  unfold SessionEvent_Validate, validateMaterialScope, validateMaterialBody. intros H. peel H. peel E. peel E1. done.
Qed.

(** What an append does when its key has been used. *)
Lemma append_used_key e m d old :
  log_inv d -> session_events d !! (se_TenantID e, se_SessionID e, se_Sequence old) = Some old ->
  se_IdempotencyKey old = se_IdempotencyKey e ->
  session_deletions d !! (se_TenantID e, se_SessionID e) = None ->
  SessionEvent_Validate (numbered e (se_Sequence old)) = None ->
  appendSessionEventMaterialV1 e m d =
    (if sameSessionEvent old (numbered e (se_Sequence old)) then inr false else inl ErrEventIdempotencyConflict, d).
Proof.
  intros I Ho Hk Hd Hv. apply (li_event d I) in Ho as Hf. destruct Hf as (Ht & Hsid & _ & Hvo & row & Hs & Hq & _).
  destruct (li_session d I _ _ _ Hs) as (Hrt & Hrs & Hrv & _).
  assert (session_event_idempotency d !! (se_TenantID e, se_SessionID e, se_IdempotencyKey e)
          = Some (se_Sequence old, se_ID old)) as Hi by (apply (li_key d I); eauto).
  destruct (numbered_fields e (se_Sequence old)) as (_ & Hnt & Hns & Hnk).
  destruct (event_keys _ Hv) as (Vt & Vs & Vk). rewrite Hnt in Vt. rewrite Hns in Vs. rewrite Hnk in Vk.
  unfold appendSessionEventMaterialV1, Transact, appendEventTx, ensureSessionWritableTx, readSessionTx, tx_read,
    mbind, tx_bind. rewrite Vt, Vs, Vk, Hd. cbn. rewrite Hs, Hi. cbn. rewrite Ho, String.eqb_refl. cbn.
  fold (numbered e (se_Sequence old)). unfold AppendSessionEvent.
  rewrite Hrv, Hv, Hrt, Hnt, EnsureSameTenant_refl, Hrs, Hns, String.eqb_refl by done. cbn.
  by destruct (sameSessionEvent _ _).
Qed.

Lemma append_committed e m d b d' :
  appendSessionEventMaterialV1 e m d = (inr b, d') -> append_result e m d b d'.
Proof.
  unfold appendSessionEventMaterialV1, Transact. intros H. repeat case_match; simplify_eq.
  by apply appendEvent_effect.
Qed.

(** An idempotency key occurs once in a log. *)
Lemma log_key_once d t s i j e e' :
  log_inv d -> log d t s !! i = Some e -> log d t s !! j = Some e' ->
  se_IdempotencyKey e = se_IdempotencyKey e' -> i = j.
Proof.
  intros I Hi Hj Hk.
  assert (forall n x, log d t s !! n = Some x ->
    session_event_idempotency d !! (t, s, se_IdempotencyKey x) = Some (first_sequence d t s + Z.of_nat n + 1, se_ID x))
    as H.
  { intros n x Hx. apply (li_key d I). exists x. split; [| done]. by apply (log_at d t s). }
  apply H in Hi. apply H in Hj. rewrite Hk, Hj in Hi. injection Hi. lia.
Qed.

(** C1. An append that reported success is applied exactly once.  Its event is the one
    right after the log it found; whatever runs afterwards, repeating the call
    changes nothing and, unless the session is being deleted, reports that it had
    already been applied; and no other event of the log carries its key. *)
Theorem append_exactly_once e m m' d d1 d2 :
  reachable d -> measure_typed m -> appendSessionEventMaterialV1 e m d = (inr true, d1) -> rtc store_step d1 d2 ->
  let t := se_TenantID e in
  let s := se_SessionID e in
  exists row e', sessions d !! (t, s) = Some row /\ e' = numbered e (s_LastEventSequence row + 1) /\
    log d1 t s = log d t s ++ [e'] /\
    (session_deletions d2 !! (t, s) = None -> appendSessionEventMaterialV1 e m' d2 = (inr false, d2)) /\
    forall i x, log d2 t s !! i = Some x -> se_IdempotencyKey x = se_IdempotencyKey e -> i = length (log d t s) /\ x = e'.
Proof.
  intros I%inv_reachable Hm Ha%append_committed Hrun. cbv zeta.
  assert (log_inv d1) as I1 by (by eapply inv_append_result). assert (log_inv d2) as I2 by (by eapply run_inv).
  destruct (append_new_log e m d d1 I Hm Ha) as (row & e' & Hs & He' & Hl & _).
  assert (log d2 (se_TenantID e) (se_SessionID e) !! length (log d (se_TenantID e) (se_SessionID e)) = Some e') as H2.
  { eapply prefix_lookup_Some; [| by apply (run_log d1)]. rewrite Hl. by apply list_lookup_middle. }
  destruct (log_event d2 _ _ _ _ I2 H2) as (Hv & _ & _ & Hq & _).
  assert (numbered e (se_Sequence e') = e') as Hnum.
  { rewrite He'. unfold numbered. by destruct (se_Sequence e =? 0) eqn:Hz; rewrite ?Hz. }
  destruct (numbered_fields e (se_Sequence e')) as (_ & _ & _ & Hk). rewrite Hnum in Hk.
  exists row, e'. split_and!; [done | done | done | |].
  - intros Hd. rewrite (append_used_key e m' d2 e'); rewrite ?Hnum, ?sameSessionEvent_refl; try done.
    rewrite Hq. by apply (log_at d2 _ _ _ _ I2).
  - intros i x Hx Hxk. assert (i = length (log d (se_TenantID e) (se_SessionID e))) as ->.
    { eapply (log_key_once d2); [done | done | done | congruence]. }
    rewrite H2 in Hx. by injection Hx as <-.
Qed.

Lemma append_exactly_once_witness :
  appendSessionEventMaterialV1 (StoreSample.event 0 "e1" "k1" Sample.t1) None StoreSample.two
    = (inr false, StoreSample.two).
Proof.
  destruct (append_exactly_once (StoreSample.event 0 "e1" "k1" Sample.t1) None None
              StoreSample.created StoreSample.one StoreSample.two) as (row & e' & _ & _ & _ & H & _).
  - apply rtc_once, sample_created.
  - exact Logic.I.
  - exact StoreSample.one_is.
  - apply rtc_once, sample_two.
  - apply H. vm_compute. reflexivity.
Defined.
