(* ===== verification/SessionProgress.v ===== *)
(** * Appends that must succeed

    Forward lemmas: the steps of an append go through on every reachable state,
    so a well-formed next event is always accepted. *)

From S2P Require Import Prelude GoText Sorting GoTime Sha256 Json Digests Errors Identity Blobs Lifecycle.
From S2P Require Import Sessions Material MaterialFold MaterialTotal Store SessionStore StoreEffects.
From S2P Require Import SessionLog SessionHistory.
From stdpp Require Import gmap sets.
#[local] Open Scope Z_scope.

(** ** Activity and session rows *)

Lemma bucket_ok id : SessionID_Validate id = None -> exists b, BucketV1 id = inr b.
Proof.
  intros H. unfold BucketV1. destruct (String.eqb_spec id "") as [-> | _]; [done | eauto].
Qed.

Lemma tx_each_ok {A} (f : A -> tx unit) l :
  (forall x d, exists d', f x d = inr (tt, d')) -> forall d, exists d', tx_each f l d = inr (tt, d').
Proof.
  intros Hf. induction l as [| x l IH]; intros d; cbn; [by exists d |].
  destruct (Hf x d) as [d1 H1]. destruct (IH d1) as [d2 H2]. exists d2. unfold mbind, tx_bind. by rewrite H1.
Qed.

(** The session has at most as many active participants as one update rewrites. *)
Definition few_participants (t s : string) (d : db) : Prop :=
  Z.of_nat (length (active_rows t s d)) <= maxSessionDeletionRows.

Lemma participants_ok t s d :
  few_participants t s d -> exists l, activeSessionParticipants t s maxSessionDeletionRows d = inr (l, d).
Proof.
  intros Hn. unfold activeSessionParticipants, tx_read, mbind, tx_bind, tx_reject. eexists.
  replace (_ >? _) with false; [done |]. symmetry. apply gtb_false. rewrite length_take. unfold few_participants in Hn. lia.
Qed.

Lemma updateSession_ok t previous s d :
  session_deletions d !! (t, s_ID s) = None -> few_participants t (s_ID s) d ->
  SessionID_Validate (s_ID s) = None -> s_ID previous = s_ID s -> forallb marshals (session_times s) = true ->
  exists d', updateSessionTx t previous s d = inr (tt, d').
Proof.
  intros Hd Hn Hv Hid Hm. destruct (bucket_ok _ Hv) as [b Hb].
  destruct (participants_ok t (s_ID s) d Hn) as [l Hl].
  unfold updateSessionTx, ensureSessionWritableTx, marshal_record, tx_read, mbind, tx_bind. rewrite Hd, Hm. cbn. rewrite Hl.
  destruct (tx_each_ok (fun p => deleteActivityTx previous (sp_UserID p)) l) with (d := d) as [d1 ->].
  { intros x d1. unfold deleteActivityTx. rewrite Hid, Hb. eauto. }
  cbn. apply tx_each_ok.
  intros x d2. unfold insertActivityTx. rewrite Hb. eauto.
Qed.

(** ** Material rows *)

Lemma decode_ok t s q p : material_ok t s q p -> decode_row (prefix_row p) t s q = inr p.
Proof.
  intros (Hv & Ht & <- & <- & <-). destruct (Validate_header p Hv) as (Hver & Htid & Hsid & _ & _ & Hd & _).
  pose proof (prefix_encoding_len p Ht Hv). destruct (Validate_last_event p Hv) as [_ Hl].
  apply opaque_plain in Htid as [_ Htl]. apply opaque_plain in Hsid as [_ Hsl]. apply digest_plain in Hd as [_ Hdl].
  unfold decode_row. cbn. rewrite Hv, Hver, Hdl, !Z.eqb_refl, !String.eqb_refl. cbn.
  rewrite !(proj2 (gtb_false _ _)) by done. done.
Qed.

Lemma load_ok d t s row :
  log_inv d -> sessions d !! (t, s) = Some row ->
  exists p, material_ok t s (s_LastEventSequence row) p /\
    loadSessionMaterialPredecessorTx t s (s_LastEventSequence row) d = inr (p, d).
Proof.
  intros I Hs. pose proof (li_material d I _ _ _ Hs) as Hm. destruct (li_session d I _ _ _ Hs) as (Ht & Hsid & Hv & Hu).
  apply Session_Validate_nil in Hv as (Hvs & Hvt & _). rewrite Ht in Hvt. rewrite Hsid in Hvs.
  unfold loadSessionMaterialPredecessorTx, tx_read, mbind, tx_bind.
  destruct (session_material_current d !! (t, s)) as [r |].
  - destruct Hm as (p & -> & Hok & Hb). exists p. split; [done |]. cbn. rewrite (decode_ok _ _ _ _ Hok).
    destruct (s_LastEventSequence row =? 0).
    + unfold NewSessionMaterialGenesisV1. rewrite Hvt, Hvs. cbn. subst p.
      unfold EqualSessionMaterialPrefixV1. by rewrite bool_decide_true.
    + cbn. rewrite Hb. cbn. rewrite (decode_ok _ _ _ _ Hok). cbn. unfold EqualSessionMaterialPrefixV1. by rewrite bool_decide_true.
  - destruct Hm as [Hz Hb]. destruct (NewUnknownSessionMaterialPrefixV1 t s (s_LastEventSequence row)) as [p err] eqn:Hp.
    assert (err = None) as ->.
    { unfold NewUnknownSessionMaterialPrefixV1, NewSessionMaterialGenesisV1 in Hp. rewrite Hvt, Hvs in Hp. by injection Hp. }
    exists p. split; [by eapply unknown_ok |]. cbn -[NewUnknownSessionMaterialPrefixV1].
    by rewrite (proj2 (Z.eqb_neq _ _) Hz), Hb.
Qed.

(** ** Appending *)

(** What a caller must bring for a new event to be accepted. *)
Record acceptable (e : SessionEvent) (row : Session) (d : db) : Prop := {
  ac_row : sessions d !! (se_TenantID e, se_SessionID e) = Some row;
  ac_active : s_Status row = SessionActive;
  ac_deletion : session_deletions d !! (se_TenantID e, se_SessionID e) = None;
  ac_room : s_LastEventSequence row <> max_u64;
  ac_sequence : se_Sequence e = 0 \/ se_Sequence e = s_LastEventSequence row + 1;
  ac_valid : SessionEvent_Validate (numbered e (s_LastEventSequence row + 1)) = None;
  ac_time : ns (s_UpdatedAt row) <= ns (se_CreatedAt e);
  ac_key : forall x, x ∈ log d (se_TenantID e) (se_SessionID e) -> se_IdempotencyKey x <> se_IdempotencyKey e;
  ac_participants : few_participants (se_TenantID e) (se_SessionID e) d;
  ac_json : forallb marshals [s_CreatedAt row; se_CreatedAt e] = true }.

Lemma key_unused d t s k :
  log_inv d -> (forall x, x ∈ log d t s -> se_IdempotencyKey x <> k) -> session_event_idempotency d !! (t, s, k) = None.
Proof.
  intros I Hk. destruct (session_event_idempotency d !! (t, s, k)) as [[q id] |] eqn:Hi; [| done].
  apply (li_key d I) in Hi as (x & Hx & Hxk & _). apply (log_numbers d t s I) in Hx as [_ Hx].
  by apply list_elem_of_lookup_2, Hk in Hx.
Qed.

Lemma numbered_next e q : se_Sequence e = 0 \/ se_Sequence e = q -> se_Sequence (numbered e q) = q.
Proof. unfold numbered. intros [H | H]; [by rewrite H |]. destruct (se_Sequence e =? 0); [done | by rewrite H]. Qed.

Lemma next_event_free d t s row :
  log_inv d -> sessions d !! (t, s) = Some row ->
  session_events d !! (t, s, s_LastEventSequence row + 1) = None /\
  session_material_boundaries d !! (t, s, s_LastEventSequence row + 1) = None.
Proof.
  intros I Hs. split; apply eq_None_not_Some; intros [x Hx].
  - apply (li_event d I) in Hx as (_ & _ & _ & _ & r & Hr & Hq & _). rewrite Hs in Hr. injection Hr as <-. lia.
  - apply (li_boundary d I) in Hx as (r & Hr & Hq). rewrite Hs in Hr. injection Hr as <-. lia.
Qed.

(** The rows of a valid next event go in. *)
Lemma insertEvent_ok d t s row e :
  log_inv d -> sessions d !! (t, s) = Some row -> s_LastEventSequence row <> max_u64 ->
  se_TenantID e = t -> se_SessionID e = s -> se_Sequence e = s_LastEventSequence row + 1 ->
  SessionEvent_Validate e = None -> marshals (se_CreatedAt e) = true ->
  session_event_idempotency d !! (t, s, se_IdempotencyKey e) = None ->
  exists p, insertSessionEventTx t e None d = inr (tt, with_event e p d).
Proof.
  intros I Hs Hmax Ht Hsid Hq Hv Hm Hk. destruct (load_ok d t s row I Hs) as (p & Hok & Hload).
  destruct (li_session d I _ _ _ Hs) as (_ & _ & _ & Hu). unfold u64 in Hu.
  destruct Hok as (Hpv & Hpt & Hp1 & Hp2 & Hp3).
  destruct (fold_total p e None Hpt Hpv Hv) as (n & Hf & Hnv & Hnt & Hn1 & Hn2 & Hn3 & _); try congruence; [done |].
  destruct (next_event_free d t s row I Hs) as [Hfree Hfree']. exists n.
  unfold insertSessionEventTx, prepareSessionMaterialFoldTx, writeSessionMaterialFoldTx, marshal_record, mbind, tx_bind.
  rewrite Hv, Ht, Hsid, String.eqb_refl, Hq, Z.add_simpl_r, wrap_u64_small by (unfold u64; lia). cbn.
  rewrite Hload, Hf. cbn. rewrite Hm. cbn. unfold insert_new at 1. rewrite Hfree.
  unfold insert_new at 1. cbn. rewrite Hk. cbn. rewrite (prefix_encodes n) by done. cbn.
  rewrite Hn1, Hn2, Hn3, Hp1, Hp2, Hq, String.eqb_refl. replace (_ + 1 =? 0) with false by lia. cbn.
  unfold insert_new. cbn. rewrite Hfree'. unfold with_event. cbn. by rewrite Ht, Hsid, Hq, Hn1, Hn2, Hn3, Hp1, Hp2, Hq.
Qed.

Lemma append_domain_ok e row :
  Session_Validate row = None -> s_Status row = SessionActive -> s_TenantID row = se_TenantID e ->
  s_ID row = se_SessionID e -> SessionEvent_Validate e = None ->
  se_Sequence e = wrap_u64 (s_LastEventSequence row + 1) -> ns (s_UpdatedAt row) <= ns (se_CreatedAt e) ->
  Sessions.AppendSessionEvent (Some row) e None =
    ((Some {| row with s_LastEventSequence := se_Sequence e; s_UpdatedAt := se_CreatedAt e |}, true), None).
Proof.
  intros Hrv Hact Ht Hsid Hv Hq Htm. unfold Sessions.AppendSessionEvent.
  rewrite Hrv, Hv, <- Ht, EnsureSameTenant_refl, Hsid, String.eqb_refl, Hact.
  2: { by apply Session_Validate_nil in Hrv as (_ & ? & _). }
  cbn. rewrite <- Hq, Z.eqb_refl. unfold before. by replace (_ <? _) with false by lia.
Qed.

(** C2. An append that should succeed does.  In every reachable state, a valid event of
    an active session that is not being deleted, with the next sequence number or
    none, a fresh idempotency key and a time not before the session's, is stored:
    the call returns [true] and the event is the log's new last one.  (The session
    needs room below the last [uint64] sequence, at most 10,000 active participants,
    and times that have a JSON form.) *)
Theorem append_accepted e row d :
  reachable d -> acceptable e row d ->
  exists d', Store_AppendSessionEvent e d = (inr true, d') /\
    log d' (se_TenantID e) (se_SessionID e) =
      log d (se_TenantID e) (se_SessionID e) ++ [numbered e (s_LastEventSequence row + 1)].
Proof.
  intros I%inv_reachable [Hs Hact Hd Hmax Hq Hv Htm Hk%key_unused Hn Hj]; [| done].
  destruct (li_session d I _ _ _ Hs) as (Hrt & Hrs & Hrv & Hu). pose proof (numbered_next _ _ Hq) as Hq'.
  destruct (numbered_fields e (s_LastEventSequence row + 1)) as (Hnid & Hnt & Hns & Hnk).
  assert (se_CreatedAt (numbered e (s_LastEventSequence row + 1)) = se_CreatedAt e) as Hnc
    by (unfold numbered; by destruct (_ =? 0)).
  destruct (event_keys _ Hv) as (Vt & Vs & Vk). rewrite Hnt in Vt. rewrite Hns in Vs. rewrite Hnk in Vk.
  apply andb_true_iff in Hj as [Hj1 Hj2]. cbn in Hj2. rewrite andb_true_r in Hj2.
  destruct (insertEvent_ok d _ _ row (numbered e (s_LastEventSequence row + 1)) I Hs) as [p Hins];
    rewrite ?Hnk, ?Hnc; try done.
  pose proof (append_domain_ok (numbered e (s_LastEventSequence row + 1)) row) as Hdom.
  rewrite Hnt, Hns, Hnc, wrap_u64_succ in Hdom by done. specialize (Hdom Hrv Hact Hrt Hrs Hv Hq' Htm).
  set (e' := numbered e (s_LastEventSequence row + 1)) in *.
  destruct (updateSession_ok (se_TenantID e) row {| row with s_LastEventSequence := se_Sequence e';
    s_UpdatedAt := se_CreatedAt e |} (with_event e' p d)) as [d' Hd']; cbn; rewrite ?Hrs; try done.
  { rewrite Hj1, Hj2. apply Session_Validate_nil in Hrv as (_ & _ & _ & _ & _ & [[_ ->] | [H _]]); [done | congruence]. }
  assert (Store_AppendSessionEvent e d = (inr true, d')) as Ha.
  { unfold Store_AppendSessionEvent, appendSessionEventMaterialV1, Transact, appendEventTx, ensureSessionWritableTx,
      readSessionTx, tx_read, mbind, tx_bind. rewrite Vt, Vs, Vk, Hd. cbn -[Sessions.AppendSessionEvent].
    rewrite Hs, Hk, wrap_u64_succ by done. cbn -[Sessions.AppendSessionEvent].
    fold (numbered e (s_LastEventSequence row + 1)). fold e'. rewrite Hdom, Hins, Hd'. done. }
  exists d'. split; [done |]. apply append_committed in Ha.
  destruct (append_new_log e None d d' I Logic.I Ha) as (row' & x & Hs' & -> & Hl & _).
  rewrite Hs in Hs'. injection Hs' as <-. exact Hl.
Qed.

Lemma append_accepted_witness :
  exists d', Store_AppendSessionEvent (StoreSample.event 0 "e2" "k2" Sample.t2) StoreSample.one = (inr true, d').
Proof.
  destruct (append_accepted (StoreSample.event 0 "e2" "k2" Sample.t2)
              {| Sample.session with s_LastEventSequence := 1; s_UpdatedAt := Sample.t1 |} StoreSample.one)
    as (d' & H & _).
  - apply sample_one_reachable.
  - split.
    + vm_compute. reflexivity.
    + reflexivity.
    + vm_compute. reflexivity.
    + vm_compute. discriminate.
    + left. reflexivity.
    + vm_compute. reflexivity.
    + vm_compute. discriminate.
    + replace (log StoreSample.one _ _) with [StoreSample.event 1 "e1" "k1" Sample.t1] by (vm_compute; reflexivity).
      intros x ->%list_elem_of_singleton. vm_compute. discriminate.
    + vm_compute. discriminate.
    + vm_compute. reflexivity.
  - exists d'. exact H.
Defined.
