(* ===== verification/SessionIsolation.v ===== *)
(** * Isolation of sessions and tenants

    What an operation leaves alone: the rows of other tenants, and every row of a
    session that is being deleted. *)

From S2P Require Import Prelude GoText Sorting GoTime Sha256 Json Digests Errors Identity Blobs Lifecycle.
From S2P Require Import Sessions Material MaterialFold MaterialTotal Store SessionStore StoreEffects.
From S2P Require Import SessionLog SessionHistory.
From stdpp Require Import gmap sets.
#[local] Open Scope Z_scope.

(** ** Rows of a session *)

Record same_session (t s : string) (d d' : db) : Prop := {
  sm_session : sessions d' !! (t, s) = sessions d !! (t, s);
  sm_events q : session_events d' !! (t, s, q) = session_events d !! (t, s, q);
  sm_keys k : session_event_idempotency d' !! (t, s, k) = session_event_idempotency d !! (t, s, k);
  sm_snapshots v : session_snapshots d' !! (t, s, v) = session_snapshots d !! (t, s, v);
  sm_current : session_material_current d' !! (t, s) = session_material_current d !! (t, s);
  sm_boundaries q : session_material_boundaries d' !! (t, s, q) = session_material_boundaries d !! (t, s, q) }.

Lemma same_session_refl t s d : same_session t s d d.
Proof. by split. Qed.

(** A table keyed by pairs or triples keeps what another key's row leaves. *)
Ltac other_key := repeat (rewrite lookup_insert_ne by congruence); done.

Lemma with_session_other t s session o d :
  (t, s) <> (s_TenantID session, s_ID session) -> same_session t s d (with_session session o d).
Proof.
  intros Hne. split; intros; cbn; try other_key. destruct (_ =? 0); [other_key | done].
Qed.

Lemma update_other t s session d :
  (t, s) <> (s_TenantID session, s_ID session) -> same_session t s d (update_session_row session d).
Proof.
  intros Hne. unfold update_session_row. destruct (sessions d !! _); [| apply same_session_refl].
  split; intros; cbn; other_key.
Qed.

Lemma update_row_only session d : exists rows, update_session_row session d = {| d with sessions := rows |}.
Proof. unfold update_session_row. destruct (sessions d !! _); [eauto |]. exists (sessions d). by destruct d. Qed.

Lemma with_activity t s d d' a : same_session t s d d' -> same_session t s d {| d' with session_activity := a |}.
Proof. intros []. by split. Qed.

Lemma with_bound t s d d' b : same_session t s d d' -> same_session t s d (bound b d').
Proof. intros []. by split. Qed.

(** The event rows an append writes are those of its session. *)
Lemma append_rows e m d d' :
  log_inv d -> measure_typed m -> append_result e m d true d' ->
  exists session session' p e',
    sessions d !! (se_TenantID e, se_SessionID e) = Some session /\
    session_deletions d !! (se_TenantID e, se_SessionID e) = None /\
    session_evolves session session' /\
    se_TenantID e' = se_TenantID e /\ se_SessionID e' = se_SessionID e /\
    mp_TenantID p = se_TenantID e /\ mp_SessionID p = se_SessionID e /\
    s_TenantID session = se_TenantID e /\ s_ID session = se_SessionID e /\
    (let d1 := update_session_row session' (with_event e' p d) in
     d' = {| d1 with session_activity :=
               moved session session' (active_rows (se_TenantID e) (s_ID session') d) (session_activity d) |}).
Proof.
  intros I Hm H. inversion H as [| session session' previous p Hdel Hs Hi e' Ha Hev Hf Hpt Hcur].
  destruct (numbered_fields e (wrap_u64 (s_LastEventSequence session + 1))) as (_ & Ht & Hsid & _).
  destruct (li_session d I _ _ _ Hs) as (Hst & Hss & Hv & _).
  destruct (append_new_facts _ _ _ _ _ _ I Hs Ha) as (_ & _ & _ & Hq & _).
  rewrite (predecessor_position _ _ _ _ _ I Hs Hq) in Hcur.
  destruct (predecessor_ok d _ _ session previous I Hs Hcur) as (_ & Hty & _). destruct (fold_result _ _ _ _ Hty Hm Hf) as (_ & _ & _ & Hps & _). fold e' in Ht, Hsid.
  exists session, session', p, e'. split_and!; try done; [| congruence].
  apply session_step_evolves; [done |]. by eapply step_append.
Qed.

Lemma append_other t s e m d d' :
  log_inv d -> measure_typed m -> append_result e m d true d' -> (t, s) <> (se_TenantID e, se_SessionID e) ->
  same_session t s d d'.
Proof.
  intros I Hm Ha Hne. destruct (append_rows e m d d' I Hm Ha)
    as (session & session' & p & e' & Hs & _ & (_ & Hid & Htid & _) & Ht & Hsid & Hpt & Hps & Hst & Hss & ->).
  apply with_activity. unfold update_session_row. cbn. rewrite Hid, Htid, Hst, Hss, Hs.
  split; intros; cbn; rewrite ?Ht, ?Hsid, ?Hpt, ?Hps; other_key.
Qed.

(** A change of a session's rows needs the session not to be under deletion. *)
Lemma change_frozen t0 t s x d d' :
  log_inv d -> change d t0 d' -> session_deletions d !! (t, s) = Some x -> same_session t s d d'.
Proof.
  intros I H Hx. destruct H as [t1 | ss o (_ & _ & Hd & _) | ss o b (_ & _ & Hd & _) _ _ | b _ | e m d' Hm Ha
                               | sn _ Hd | ss s' Hs Hd (_ & Hid & Htid & _) _ | t1 s1 y].
  - apply same_session_refl.
  - apply with_session_other. congruence.
  - apply with_bound, with_session_other. congruence.
  - apply with_bound, same_session_refl.
  - eapply append_other; [done | done | done |]. inversion Ha. congruence.
  - split; intros; cbn; try done. other_key.
  - apply with_activity, update_other. rewrite Hid, Htid. congruence.
  - by split.
Qed.

(** Nor can a binding be pointed at it. *)
Lemma change_bindings t0 t s x d d' k b :
  log_inv d -> change d t0 d' -> session_deletions d !! (t, s) = Some x ->
  frontend_bindings d' !! k = Some b -> fb_TenantID b = t -> fb_SessionID b = s -> frontend_bindings d !! k = Some b.
Proof.
  intros I H Hx Hb Ht Hs. destruct H as [t1 | ss o _ | ss o b' _ _ (_ & Hd & _) | b' (_ & Hd & _) | e m d' Hm Ha
                               | sn _ Hd | ss s' Hss Hd _ _ | t1 s1 y]; try done.
  - cbn in Hb, Hd. apply lookup_insert_Some in Hb as [[_ ->] | [_ Hb]]; [congruence | done].
  - cbn in Hb. apply lookup_insert_Some in Hb as [[_ ->] | [_ Hb]]; [congruence | done].
  - destruct (append_rows e m d d' I Hm Ha) as (session & session' & p & e' & _ & _ & _ & _ & _ & _ & _ & _ & _ & ->).
    by destruct (update_row_only session' (with_event e' p d)) as [rows Hd1]; rewrite Hd1 in Hb.
  - subst d1. by destruct (update_row_only s' d) as [rows Hd1]; rewrite Hd1 in Hb.
Qed.

(** The log of a session depends on its rows only. *)
Lemma same_session_log t s d d' : same_session t s d d' -> log d' t s = log d t s.
Proof.
  intros Hsame. unfold log, event_at. rewrite (sm_session _ _ _ _ Hsame). destruct (sessions d !! (t, s)); [| done].
  apply list_omap_ext, Forall2_same_length_lookup_2; [done |]. intros i a b Ha Hb. simplify_eq. apply Hsame.
Qed.

(** ** Rows of a tenant *)

Record same_tenant (t : string) (d d' : db) : Prop := {
  st_session s : same_session t s d d';
  st_participants s u : session_participants d' !! (t, s, u) = session_participants d !! (t, s, u);
  st_activity u st b at_ s :
    (t, u, st, b, at_, s) ∈ session_activity d' <-> (t, u, st, b, at_, s) ∈ session_activity d;
  st_bindings id : frontend_bindings d' !! (t, id) = frontend_bindings d !! (t, id);
  st_by_session s id : (t, s, id) ∈ frontend_bindings_by_session d' <-> (t, s, id) ∈ frontend_bindings_by_session d;
  st_binding_keys f c : frontend_binding_keys d' !! (t, f, c) = frontend_binding_keys d !! (t, f, c);
  st_deletions s : session_deletions d' !! (t, s) = session_deletions d !! (t, s) }.

Lemma same_tenant_refl t d : same_tenant t d d.
Proof. split; intros; done || apply same_session_refl. Qed.

Lemma same_tenant_trans t d1 d2 d3 : same_tenant t d1 d2 -> same_tenant t d2 d3 -> same_tenant t d1 d3.
Proof.
  intros [S1 P1 A1 B1 Y1 K1 D1] [S2 P2 A2 B2 Y2 K2 D2]. split; intros.
  - destruct (S1 s), (S2 s). split; intros; congruence.
  - by rewrite P2.
  - by rewrite A2.
  - by rewrite B2.
  - by rewrite Y2.
  - by rewrite K2.
  - by rewrite D2.
Qed.

Lemma owner_tenant s o : validateSessionOwner s o = None -> sp_TenantID o = s_TenantID s.
Proof. unfold validateSessionOwner. intros H. peel H. by apply EnsureSameTenant_nil in E1 as [-> _]. Qed.

Lemma activity_rows_elem s ps u st b at_ id t :
  (t, u, st, b, at_, id) ∈ activity_rows s ps -> t = s_TenantID s.
Proof.
  unfold activity_rows. rewrite elem_of_list_to_set, list_elem_of_fmap. intros (p & H & _).
  unfold activity_row in H. congruence.
Qed.

Lemma moved_other s s' ps a t u st b at_ id :
  s_TenantID s' = s_TenantID s -> t <> s_TenantID s ->
  (t, u, st, b, at_, id) ∈ moved s s' ps a <-> (t, u, st, b, at_, id) ∈ a.
Proof.
  intros Ht Hne. unfold moved. rewrite elem_of_union, elem_of_difference. split.
  - intros [H%activity_rows_elem | [H _]]; [congruence | done].
  - intros H. right. split; [done |]. intros H'%activity_rows_elem. congruence.
Qed.

Lemma with_session_tenant t s o d :
  validateSessionOwner s o = None -> t <> s_TenantID s -> same_tenant t d (with_session s o d).
Proof.
  intros Ho%owner_tenant Hne. split; intros; cbn; try done.
  - apply with_session_other. congruence.
  - rewrite Ho. other_key.
  - unfold activity_row. set_solver.
Qed.

Lemma bound_tenant t b d : t <> fb_TenantID b -> same_tenant t d (bound b d).
Proof.
  intros Hne. split; intros; cbn; try done; try other_key.
  - destruct (frontend_bindings d !! _) as [p |]; [destruct (negb _) |]; set_solver.
Qed.

Lemma moved_tenant t s s' ps d d' :
  (forall sid, same_session t sid d d') -> same_tenant t d {| d' with session_activity := session_activity d |} ->
  s_TenantID s' = s_TenantID s -> t <> s_TenantID s ->
  same_tenant t d {| d' with session_activity := moved s s' ps (session_activity d) |}.
Proof.
  intros Hs [] Ht Hne. split; intros; cbn in *; auto.
  - by apply with_activity.
  - by apply moved_other.
Qed.

Lemma change_tenant t0 t d d' : log_inv d -> change d t0 d' -> t <> t0 -> same_tenant t d d'.
Proof.
  intros I H Hne. destruct H as [t1 | ss o (Ho & _) | ss o b (Ho & _) Hb _ | b _ | e m d' Hm Ha
                               | sn _ _ | ss s' Hs _ (_ & Hid & Htid & _) _ | t1 s1 y].
  - apply same_tenant_refl.
  - by apply with_session_tenant.
  - eapply same_tenant_trans; [by apply with_session_tenant | apply bound_tenant; congruence].
  - by apply bound_tenant.
  - destruct (append_rows e m d d' I Hm Ha)
      as (session & session' & p & e' & Hs & _ & (_ & Hid & Htid & _) & Ht & Hsid & Hpt & Hps & Hst & Hss & Hd').
    assert (forall sid, same_session t sid d d') as Hrest
      by (intros sid; eapply append_other; [done | done | done | congruence]).
    cbv zeta in Hd'. destruct (update_row_only session' (with_event e' p d)) as [rows Hrows]. rewrite Hrows in Hd'.
    subst d'. apply moved_tenant with (d' := let d0 := with_event e' p d in {| d0 with sessions := rows |}); try congruence.
    + intros sid. destruct (Hrest sid). by split.
    + split; intros; try done. destruct (Hrest s). by split.
  - split; intros; cbn; try done. split; intros; cbn; try done. other_key.
  - subst d1. destruct (update_row_only s' d) as [rows Hrows].
    assert (forall sid, same_session t sid d (update_session_row s' d)) as Hrest
      by (intros sid; apply update_other; congruence).
    rewrite Hrows in *. apply moved_tenant with (d' := {| d with sessions := rows |}); try done.
  - split; intros; cbn; try done. by rewrite lookup_partial_alter_ne by congruence.
Qed.

(** C7. Tenants are isolated: an operation called for one tenant, whatever its
    arguments and its outcome, changes no row of any table that belongs to another
    tenant. *)
Theorem tenants_isolated t t' d d' :
  reachable d -> tenant_step t d d' -> t' <> t -> same_tenant t' d d'.
Proof. intros I%inv_reachable Hstep%step_change Hne; [| done]. by eapply change_tenant. Qed.

Lemma tenants_isolated_witness :
  same_tenant "globex" StoreSample.one StoreSample.two.
Proof.
  apply (tenants_isolated "acme").
  - apply sample_one_reachable.
  - pose proof (op_append (StoreSample.event 0 "e2" "k2" Sample.t2) None StoreSample.one Logic.I) as H.
    rewrite StoreSample.two_is in H. exact H.
  - discriminate.
Defined.
