(* ===== verification/SessionIndexes.v ===== *)
(** * Snapshots and frontend bindings

    The snapshots of a session are versions 1, 2, 3, ... that never move back in
    its history; the indexes of the frontend bindings agree with the bindings. *)

From S2P Require Import Prelude GoText Sorting GoTime Sha256 Json Digests Errors Identity Blobs Lifecycle.
From S2P Require Import Sessions Material MaterialFold MaterialTotal Store SessionStore StoreEffects.
From S2P Require Import SessionLog SessionHistory SessionIsolation.
From stdpp Require Import gmap sets.
#[local] Open Scope Z_scope.

(** ** The latest snapshot *)

(** One row of the query, against the best so far. *)
Definition better (t s : string) (row : (string * string * Z) * SessionSnapshot) (best : Z * Z) : Z * Z :=
  if bool_decide (row.1.1 = (t, s)) && (row.1.2 >? best.1) then (row.1.2, ss_ThroughSequence row.2) else best.

Lemma better_fold t s rows :
  let best := fold_right (better t s) (0, 0) rows in
  (best = (0, 0) \/ exists sn, ((t, s, best.1), sn) ∈ rows /\ best.2 = ss_ThroughSequence sn) /\
  0 <= best.1 /\ forall v sn, ((t, s, v), sn) ∈ rows -> v <= best.1.
Proof.
  induction rows as [| [[ts v0] sn0] rows (IH1 & IH2 & IH3)]; cbn [fold_right].
  { split_and!; [by left | done |]. intros v sn H. by apply elem_of_nil in H. }
  set (best := fold_right (better t s) (0, 0) rows) in *. unfold better at 1 2 3 4 5. cbn.
  destruct (bool_decide_reflect (ts = (t, s))) as [-> | Hne]; cbn.
  - rewrite Z.gtb_ltb. destruct (Z.ltb_spec best.1 v0); cbn; split_and!; try lia.
    + right. exists sn0. split; [by left | done].
    + intros v sn [[= -> ->] | H']%elem_of_cons; [lia |]. apply IH3 in H'. lia.
    + destruct IH1 as [-> | (sn & ? & ?)]; [by left |]. right. exists sn. split; [by right | done].
    + intros v sn [[= -> ->] | H']%elem_of_cons; [lia |]. by apply IH3 in H'.
  - split_and!; [| done |].
    + destruct IH1 as [-> | (sn & ? & ?)]; [by left |]. right. exists sn. split; [by right | done].
    + intros v sn [[= <- -> ->] | H']%elem_of_cons; [done |]. by apply IH3 in H'.
Qed.

Definition last_through (l : list SessionSnapshot) : Z :=
  match last l with Some sn => ss_ThroughSequence sn | None => 0 end.

Lemma latest_snapshot_numbers t s d l :
  numbers (session_snapshots d) t s 0 l -> latest_snapshot t s d = (Z.of_nat (length l), last_through l).
Proof.
  intros Hl. unfold latest_snapshot. fold (better t s).
  change (fold_right _ _ _) with (fold_right (better t s) (0, 0) (map_to_list (session_snapshots d))).
  destruct (better_fold t s (map_to_list (session_snapshots d))) as (H1 & H2 & H3).
  set (best := fold_right _ _ _) in *. unfold last_through. rewrite last_lookup.
  assert (best.1 = Z.of_nat (length l)) as Hb.
  { destruct (decide (length l = 0%nat)) as [Hz | Hz].
    - destruct H1 as [-> | (sn & Hin & _)]; [cbn; lia |]. apply elem_of_map_to_list, Hl in Hin as [_ Hin].
      apply lookup_lt_Some in Hin. lia.
    - destruct (lookup_lt_is_Some_2 l (pred (length l))) as [sn Hsn]; [lia |].
      assert (Z.of_nat (length l) <= best.1).
      { apply (H3 _ sn), elem_of_map_to_list, Hl. split; [lia |].
        by replace (Z.to_nat _) with (pred (length l)) by lia. }
      destruct H1 as [-> | (sn' & Hin & _)]; [cbn in *; lia |]. apply elem_of_map_to_list, Hl in Hin as [Hge Hin].
      apply lookup_lt_Some in Hin. lia. }
  destruct H1 as [Hz | (sn & Hin & Hth)].
  - rewrite Hz in Hb |- *. cbn in Hb. replace (length l) with 0%nat by lia. by destruct l.
  - apply elem_of_map_to_list, Hl in Hin as [Hge Hin]. rewrite Hb in Hin.
    replace (Z.to_nat _) with (pred (length l)) in Hin by lia. rewrite Hin, <- Hth, <- Hb. by destruct best.
Qed.

(** ** The snapshots of a session *)

(** [l] is the list of the session's snapshots. *)
Definition snapshots_are (d : db) (t s : string) (l : list SessionSnapshot) : Prop :=
  numbers (session_snapshots d) t s 0 l /\ Z.of_nat (length l) <= max_u64 /\
  (forall i sn, l !! i = Some sn ->
     ss_TenantID sn = t /\ ss_SessionID sn = s /\ ss_Version sn = Z.of_nat i + 1 /\
     SessionSnapshot_Validate sn = None /\ 0 <= ss_ThroughSequence sn <= last_sequence d t s) /\
  (forall i j sn sn', l !! i = Some sn -> l !! j = Some sn' -> (i <= j)%nat ->
     ss_ThroughSequence sn <= ss_ThroughSequence sn').

Definition snapshot_inv (d : db) : Prop := forall t s, exists l, snapshots_are d t s l.

Lemma snapshot_inv_empty : snapshot_inv empty_db.
Proof. intros t s. exists []. split_and!; try done. intros q v. by split; [| intros [_ ?]]. Qed.

(** A step that moves no session back and leaves the snapshots. *)
Lemma snapshot_inv_same d d' :
  session_snapshots d' = session_snapshots d -> (forall t s, last_sequence d t s <= last_sequence d' t s) ->
  snapshot_inv d -> snapshot_inv d'.
Proof.
  intros Hs Hl I t s. destruct (I t s) as (l & Hn & Hm & Hf & Ho). exists l. split_and!; [by rewrite Hs | done | | done].
  intros i sn Hi. destruct (Hf i sn Hi) as (? & ? & ? & ? & Hth). split_and!; try done; [lia |].
  specialize (Hl t s). lia.
Qed.

Lemma last_through_bound l :
  (forall i j sn sn', l !! i = Some sn -> l !! j = Some sn' -> (i <= j)%nat ->
     ss_ThroughSequence sn <= ss_ThroughSequence sn') ->
  forall i sn, l !! i = Some sn -> ss_ThroughSequence sn <= last_through l.
Proof.
  intros Ho i sn Hi. unfold last_through. rewrite last_lookup. pose proof (lookup_lt_Some _ _ _ Hi).
  destruct (lookup_lt_is_Some_2 l (pred (length l))) as [x Hx]; [lia |]. rewrite Hx. eapply Ho; [done | done | lia].
Qed.

(** A new snapshot extends its session's list. *)
Lemma numbers_snoc {V} (m : gmap (string * string * Z) V) t s l v :
  numbers m t s 0 l -> numbers (<[(t, s, Z.of_nat (length l) + 1) := v]> m) t s 0 (l ++ [v]).
Proof.
  intros Hl q x. destruct (decide (q = Z.of_nat (length l) + 1)) as [-> | Hne].
  - rewrite lookup_insert_eq. replace (Z.to_nat _) with (length l) by lia. rewrite list_lookup_middle by done. naive_solver lia.
  - rewrite lookup_insert_ne by congruence. rewrite (Hl q x). split; intros [H1 H2]; (split; [done |]).
    + by apply lookup_app_l_Some.
    + apply lookup_app_Some in H2 as [H2 | [H2 H3]]; [done |]. apply list_lookup_singleton_Some in H3 as [H3 _]. lia.
Qed.

Lemma numbers_other {V} (m : gmap (string * string * Z) V) t s t' s' q v l :
  (t, s) <> (t', s') -> numbers m t s 0 l -> numbers (<[(t', s', q) := v]> m) t s 0 l.
Proof. intros Hne Hl q' x. rewrite lookup_insert_ne by congruence. apply Hl. Qed.

Lemma snapshots_snoc d sn l row :
  snapshots_are d (ss_TenantID sn) (ss_SessionID sn) l -> SessionSnapshot_Validate sn = None ->
  ss_Version sn = wrap_u64 (Z.of_nat (length l) + 1) -> last_through l <= ss_ThroughSequence sn ->
  sessions d !! (ss_TenantID sn, ss_SessionID sn) = Some row -> ss_ThroughSequence sn <= s_LastEventSequence row ->
  snapshots_are {| d with session_snapshots :=
                     <[(ss_TenantID sn, ss_SessionID sn, ss_Version sn) := sn]> (session_snapshots d) |}
    (ss_TenantID sn) (ss_SessionID sn) (l ++ [sn]).
Proof.
  intros (Hn & Hm & Hf & Ho) Hv Hver Hth Hs Hle.
  assert (ss_Version sn <> 0) as Hv0 by (unfold SessionSnapshot_Validate in Hv; peel Hv; by b2p).
  assert (Z.of_nat (length l) <> max_u64) as Hmax by (intros Hq; by rewrite Hq, wrap_u64_succ_max in Hver).
  rewrite wrap_u64_succ in Hver by (unfold u64; lia).
  pose proof (last_through_bound l Ho) as Hlast.
  assert (0 <= last_through l) as H0.
  { unfold last_through. destruct (last l) as [x |] eqn:Hx; [| done]. rewrite last_lookup in Hx. apply Hf in Hx as (_ & _ & _ & _ & ?). lia. }
  split_and!.
  - rewrite Hver. cbn. by apply numbers_snoc.
  - rewrite length_app. cbn. lia.
  - intros i x [Hi | [Hi Hx]]%lookup_app_Some; [by apply Hf |].
    apply list_lookup_singleton_Some in Hx as [Hi' ->]. split_and!; try done; [lia.. |].
    unfold last_sequence. cbn. by rewrite Hs.
  - intros i j x y [Hi | [Hi Hx]]%lookup_app_Some [Hj | [Hj Hy]]%lookup_app_Some Hij.
    + by eapply Ho.
    + apply list_lookup_singleton_Some in Hy as [_ ->]. etrans; [by eapply Hlast | done].
    + apply lookup_lt_Some in Hj. lia.
    + apply list_lookup_singleton_Some in Hx as [_ ->]. apply list_lookup_singleton_Some in Hy as [_ ->]. lia.
Qed.

(** The tables an append or a lifecycle transition leaves alone. *)
Record same_rest (d d' : db) : Prop := {
  sr_participants : session_participants d' = session_participants d;
  sr_snapshots : session_snapshots d' = session_snapshots d;
  sr_bindings : frontend_bindings d' = frontend_bindings d;
  sr_by_session : frontend_bindings_by_session d' = frontend_bindings_by_session d;
  sr_keys : frontend_binding_keys d' = frontend_binding_keys d }.

Lemma append_rest e m d d' :
  log_inv d -> measure_typed m -> append_result e m d true d' -> same_rest d d'.
Proof.
  intros I Hm Ha.
  destruct (append_rows e m d d' I Hm Ha) as (session & session' & p & e' & _ & _ & _ & _ & _ & _ & _ & _ & _ & ->).
  by destruct (update_row_only session' (with_event e' p d)) as [rows ->].
Qed.

Lemma update_rest s d act : let d1 := update_session_row s d in same_rest d {| d1 with session_activity := act |}.
Proof. by destruct (update_row_only s d) as [rows ->]. Qed.

Lemma log_grows_last d d' t s : log_inv d' -> log_grows d d' -> last_sequence d t s <= last_sequence d' t s.
Proof.
  intros I H. destruct (H t s) as [[_ Hl] | (e & _ & _ & _ & ->)]; [| lia].
  destruct (sessions d !! (t, s)) eqn:Hs; [destruct Hl as [_ ->]; [by eauto | lia] |].
  unfold last_sequence at 1. rewrite Hs. destruct (log_spec d' t s I). lia.
Qed.

Lemma snapshot_inv_step d d' : log_inv d -> store_step d d' -> snapshot_inv d -> snapshot_inv d'.
Proof.
  intros I Hstep Sn. pose proof (step_log d d' I Hstep) as Hgrow. pose proof (inv_step d d' I Hstep) as I'. destruct Hstep as [t0 Hc%step_change]; [| done].
  destruct Hc as [t1 | ss o _ | ss o b _ _ _ | b _ | e m d' Hm Ha | sn Hv _ Hn Hver Hth (row & Hs & Hle) | ss s' | t1 s1 y].
  6: { intros t s. destruct (decide ((t, s) = (ss_TenantID sn, ss_SessionID sn))) as [[= -> ->] | Hne].
       - destruct (Sn (ss_TenantID sn) (ss_SessionID sn)) as [l Hl].
         rewrite (latest_snapshot_numbers _ _ _ l) in Hver, Hth by apply Hl. exists (l ++ [sn]). by eapply snapshots_snoc.
       - destruct (Sn t s) as (l & Hl & Hm & Hf & Ho). exists l. split_and!; try done. by apply numbers_other. }
  all: eapply snapshot_inv_same; [| intros t s; by apply log_grows_last | done]; try done.
  - by apply (append_rest e m).
  - apply update_rest.
Qed.

Lemma snapshot_reachable d : reachable d -> snapshot_inv d.
Proof.
  revert d. apply reachable_induction; [apply snapshot_inv_empty |]. intros d d' Hr Hs Sn.
  eapply snapshot_inv_step; [by apply inv_reachable | done | done].
Qed.

(** A snapshot followed by the history after it is accepted as a context. *)
Lemma snapshot_context d t s sn :
  log_inv d -> SessionSnapshot_Validate sn = None -> ss_TenantID sn = t -> ss_SessionID sn = s ->
  0 <= ss_ThroughSequence sn <= last_sequence d t s -> first_sequence d t s <= ss_ThroughSequence sn ->
  SessionContextInput_Validate
    {| ci_TenantID := t; ci_SessionID := s; ci_Snapshot := Some sn;
       ci_Events := drop (Z.to_nat (ss_ThroughSequence sn - first_sequence d t s)) (log d t s) |} = None.
Proof.
  intros I Hv Ht Hs Hth Hfirst. pose proof Hv as Hv'. unfold SessionSnapshot_Validate in Hv'. peel Hv'.
  unfold SessionContextInput_Validate. cbn. rewrite <- Ht, <- Hs, E0, E1, Hv, EnsureSameTenant_refl, String.eqb_refl by done.
  cbn. apply context_events_nil. rewrite Ht, Hs. intros i e He. rewrite lookup_drop in He.
  destruct (log_event d t s _ e I He) as (Hev & Het & Hes & Hq & row & Hr & Hle). split_and!; try done.
  destruct (li_session d I _ _ _ Hr) as (_ & _ & _ & Hu). unfold u64 in Hu.
  rewrite (wrap_u64_small (_ + 1)) by (unfold u64; lia).
  destruct i; [lia |]. rewrite wrap_u64_small; unfold u64; lia.
Qed.

(** The snapshots of a session are its versions 1, 2, 3, ... in the order they were
    taken: [ListSessionSnapshots] returns slices of one list in which the covered
    history never shrinks and never passes the session's position, and for every stored
    snapshot that reaches the start of the log, the snapshot and the history after it
    form a context the validator accepts. *)
Theorem snapshots_cover_history d t s :
  reachable d ->
  exists l,
    (forall after limit, validateSessionRead t s limit = None -> 0 <= after ->
       ListSessionSnapshots t s after limit d = inr (take (Z.to_nat limit) (drop (Z.to_nat after) l))) /\
    (forall i j sn sn', l !! i = Some sn -> l !! j = Some sn' -> (i <= j)%nat ->
       ss_ThroughSequence sn <= ss_ThroughSequence sn') /\
    forall i sn, l !! i = Some sn ->
      ss_Version sn = Z.of_nat i + 1 /\ ss_ThroughSequence sn <= last_sequence d t s /\
      (first_sequence d t s <= ss_ThroughSequence sn ->
       SessionContextInput_Validate
         {| ci_TenantID := t; ci_SessionID := s; ci_Snapshot := Some sn;
            ci_Events := drop (Z.to_nat (ss_ThroughSequence sn - first_sequence d t s)) (log d t s) |} = None).
Proof.
  intros Hr. destruct (snapshot_reachable d Hr t s) as (l & Hn & _ & Hf & Ho). exists l. split_and!.
  - intros after limit Hv Ha. unfold ListSessionSnapshots. rewrite Hv. f_equal.
    rewrite (page_numbers _ _ _ 0 l) by done. by rewrite Z.sub_0_r.
  - done.
  - intros i sn Hi. destruct (Hf i sn Hi) as (Ht & Hs & Hver & Hv & Hth). split_and!; [done | lia |]. intros Hfirst.
    apply snapshot_context; try done. by apply inv_reachable.
Qed.

(** ** Frontend bindings *)

Record binding_inv (d : db) : Prop := {
  bi_row t id b : frontend_bindings d !! (t, id) = Some b ->
    fb_TenantID b = t /\ fb_ID b = id /\ FrontendBinding_Validate b = None /\
    is_Some (sessions d !! (t, fb_SessionID b));
  bi_key t f c id : frontend_binding_keys d !! (t, f, c) = Some id <->
    exists b, frontend_bindings d !! (t, id) = Some b /\ fb_Frontend b = f /\ fb_ExternalConversationID b = c;
  bi_session t s id : (t, s, id) ∈ frontend_bindings_by_session d <->
    exists b, frontend_bindings d !! (t, id) = Some b /\ fb_SessionID b = s }.

Lemma binding_inv_empty : binding_inv empty_db.
Proof. split; cbn; [done | |]; intros; split; try done; naive_solver. Qed.

(** Sessions never disappear, and the binding tables are as before. *)
Lemma binding_inv_same d d' :
  frontend_bindings d' = frontend_bindings d -> frontend_bindings_by_session d' = frontend_bindings_by_session d ->
  frontend_binding_keys d' = frontend_binding_keys d ->
  (forall k, is_Some (sessions d !! k) -> is_Some (sessions d' !! k)) -> binding_inv d -> binding_inv d'.
Proof.
  intros Hb Hs Hk He []. split; rewrite ?Hb, ?Hs, ?Hk; try done.
  intros t id b H. destruct (bi_row0 t id b H) as (? & ? & ? & ?). auto.
Qed.

Lemma switch_fields b r s at_ b' :
  Switch (Some b) r s at_ = (Some b', None) ->
  fb_ID b' = fb_ID b /\ fb_TenantID b' = fb_TenantID b /\ fb_Frontend b' = fb_Frontend b /\
  fb_ExternalConversationID b' = fb_ExternalConversationID b.
Proof. unfold Switch. intros H. repeat case_match; by simplify_eq. Qed.

(** The binding being written agrees with the one it replaces, and with the keys. *)
Lemma origin_row b d :
  binding_inv d -> binding_origin b d ->
  (forall b0, frontend_bindings d !! (fb_TenantID b, fb_ID b) = Some b0 ->
     fb_Frontend b0 = fb_Frontend b /\ fb_ExternalConversationID b0 = fb_ExternalConversationID b) /\
  forall id, frontend_binding_keys d !! (fb_TenantID b, fb_Frontend b, fb_ExternalConversationID b) = Some id ->
    id = fb_ID b.
Proof.
  intros B [[Hn Hk] | (bid & b0 & r & at_ & H0 & Hsw)]; [split; [by rewrite Hn | done] |].
  destruct (switch_fields _ _ _ _ _ Hsw) as (Hid & Ht & Hf & Hc).
  destruct (bi_row d B _ _ _ H0) as (_ & Hbid & _). rewrite <- Hid in Hbid. subst bid. split.
  - intros b1 H1. rewrite H0 in H1. injection H1 as <-. done.
  - intros id Hkey. assert (frontend_binding_keys d !! (fb_TenantID b, fb_Frontend b, fb_ExternalConversationID b)
      = Some (fb_ID b)) as Hk by (apply (bi_key d B); eauto). congruence.
Qed.

(** The index by session after a binding is written: its old entry is replaced. *)
Lemma bound_by_session b d t s id :
  binding_inv d ->
  (t, s, id) ∈ frontend_bindings_by_session (bound b d) <->
  exists x, <[(fb_TenantID b, fb_ID b) := b]> (frontend_bindings d) !! (t, id) = Some x /\ fb_SessionID x = s.
Proof.
  intros B. pose proof (bi_session d B t s id) as Hs. cbn. rewrite elem_of_union, elem_of_singleton.
  destruct (decide ((t, id) = (fb_TenantID b, fb_ID b))) as [[= -> ->] | Hne].
  - setoid_rewrite lookup_insert_eq. split; [| by intros (x & [= <-] & <-); left].
    intros [[= ->] | H]; [eauto |]. exists b. split; [done |].
    destruct (frontend_bindings d !! (fb_TenantID b, fb_ID b)) as [p |] eqn:Hp; [| apply Hs in H as (x & Hx & _); congruence].
    destruct (String.eqb_spec (fb_SessionID p) (fb_SessionID b)) as [Heq | Hneq]; cbn in H.
    + apply Hs in H as (x & Hx & <-). congruence.
    + apply elem_of_difference in H as [H Hd]. apply Hs in H as (x & Hx & <-). rewrite elem_of_singleton in Hd. congruence.
  - rewrite lookup_insert_ne by congruence. rewrite <- Hs. split.
    + intros [[= -> -> ->] | H]; [done |]. destruct (frontend_bindings d !! (fb_TenantID b, fb_ID b)) as [p |]; [| done].
      destruct (negb _); [by apply elem_of_difference in H as [H _] | done].
    + intros H. right. destruct (frontend_bindings d !! (fb_TenantID b, fb_ID b)) as [p |]; [| done]. destruct (negb _); [| done].
      apply elem_of_difference. split; [done |]. rewrite elem_of_singleton. congruence.
Qed.

Lemma binding_inv_bound b d : binding_inv d -> can_bind b d -> binding_inv (bound b d).
Proof.
  intros B (Hv & _ & Ha & Ho). destruct (origin_row b d B Ho) as [Hrow Hkey]. split; cbn.
  - intros t id x [[[= <- <-] <-] | [_ H]]%lookup_insert_Some; [| by apply (bi_row d B)].
    split_and!; try done. destruct (sessions d !! _); [done | by cbn in Ha].
  - intros t f c id. rewrite lookup_insert_Some. split.
    + intros [[[= <- <- <-] <-] | [Hne Hk]]; [exists b; by rewrite lookup_insert_eq |].
      apply (bi_key d B) in Hk as (x & Hx & <- & <-). exists x. split; [| done]. rewrite lookup_insert_ne; [done |].
      intros [= <- <-]. apply Hne. destruct (Hrow x Hx) as [-> ->]. done.
    + intros (x & [[[= <- <-] <-] | [Hne Hx]]%lookup_insert_Some & <- & <-); [by left |].
      right. split; [| apply (bi_key d B); eauto]. intros [= <- Hf Hc]. apply Hne. f_equal.
      symmetry. apply Hkey. rewrite Hf, Hc. apply (bi_key d B). eauto.
  - intros t s id. by apply bound_by_session.
Qed.

Lemma rest_bindings d d' : same_rest d d' -> (forall k, is_Some (sessions d !! k) -> is_Some (sessions d' !! k)) ->
  binding_inv d -> binding_inv d'.
Proof. intros []. by apply binding_inv_same. Qed.

(** No operation removes a session. *)
Lemma update_keeps s d k : is_Some (sessions d !! k) -> is_Some (sessions (update_session_row s d) !! k).
Proof.
  unfold update_session_row. destruct (sessions d !! (s_TenantID s, s_ID s)); [| done].
  intros H. cbn. destruct (decide (k = (s_TenantID s, s_ID s))) as [-> |]; [by rewrite lookup_insert_eq | by rewrite lookup_insert_ne].
Qed.

Lemma binding_inv_session s o d : binding_inv d -> binding_inv (with_session s o d).
Proof.
  apply binding_inv_same; try done. intros k H. cbn.
  destruct (decide (k = (s_TenantID s, s_ID s))) as [-> |]; [by rewrite lookup_insert_eq | by rewrite lookup_insert_ne].
Qed.

Lemma binding_inv_step d d' : log_inv d -> store_step d d' -> binding_inv d -> binding_inv d'.
Proof.
  intros I [t0 Hc%step_change] B; [| done].
  destruct Hc as [t1 | ss o _ | ss o b _ _ Hb | b Hb | e m d' Hm Ha | sn | ss s' | t1 s1 y].
  - done.
  - by apply binding_inv_session.
  - apply binding_inv_bound; [by apply binding_inv_session | done].
  - by apply binding_inv_bound.
  - eapply rest_bindings; [by eapply append_rest | | done].
    destruct (append_rows e m d d' I Hm Ha) as (session & session' & p & e' & _ & _ & _ & _ & _ & _ & _ & _ & _ & ->).
    intros k Hk. cbn. by apply update_keeps.
  - by apply (binding_inv_same d).
  - eapply rest_bindings; [apply update_rest | | done]. intros k. apply update_keeps.
  - by apply (binding_inv_same d).
Qed.

Lemma binding_reachable d : reachable d -> binding_inv d.
Proof.
  revert d. apply reachable_induction; [apply binding_inv_empty |]. intros d d' Hr Hs B.
  eapply binding_inv_step; [by apply inv_reachable | done | done].
Qed.

(** C26. The binding tables agree: [ResolveFrontendBinding] finds a conversation's
    binding exactly when one is stored for it, so a conversation has at most one; the
    index by session lists exactly the bindings that point at it; and a binding always
    points at a stored session of its own tenant. *)
Theorem bindings_consistent d t :
  reachable d ->
  (forall f c b, TenantID_Validate t = None -> ValidateOpaqueID "frontend" f = None -> blank c = false ->
     ResolveFrontendBinding t f c d = inr (Some b) <->
     exists id, frontend_bindings d !! (t, id) = Some b /\ fb_Frontend b = f /\ fb_ExternalConversationID b = c) /\
  (forall s id, (t, s, id) ∈ frontend_bindings_by_session d <->
     exists b, frontend_bindings d !! (t, id) = Some b /\ fb_SessionID b = s) /\
  (forall id b, frontend_bindings d !! (t, id) = Some b ->
     fb_TenantID b = t /\ is_Some (sessions d !! (t, fb_SessionID b))).
Proof.
  intros B%binding_reachable. split_and!.
  - intros f c b Ht Hf Hc. unfold ResolveFrontendBinding. rewrite Ht, Hf, Hc. split.
    + intros [= H]. destruct (frontend_binding_keys d !! (t, f, c)) as [id |] eqn:Hk; [| done].
      apply (bi_key d B) in Hk as (x & Hx & Hxf & Hxc). exists id. rewrite H in Hx. injection Hx as <-. done.
    + intros (id & Hb & Hbf & Hbc). assert (frontend_binding_keys d !! (t, f, c) = Some id) as ->; [| by rewrite Hb].
      apply (bi_key d B). eauto.
  - intros s id. apply (bi_session d B).
  - intros id b Hb. by destruct (bi_row d B _ _ _ Hb) as (? & _ & _ & ?).
Qed.

(** ** A sample with a snapshot and a binding *)

Definition sample_snapshot : SessionSnapshot :=
  {| ss_ID := "n1"; ss_TenantID := "acme"; ss_SessionID := "s1"; ss_Version := 1; ss_ThroughSequence := 1;
     ss_FormatVersion := 1; ss_Compression := "zstd"; ss_EventCount := 1; ss_UncompressedSize := 10;
     ss_Payload := {| br_TenantID := "acme"; br_Key := SessionSnapshotObjectKey "acme" "s1" 1; br_Size := 3;
                      br_SHA256 := Sample.digest |};
     ss_CreatedAt := Sample.t2 |}.

Definition snapshotted_rows : StoreSample.rows :=
  Eval vm_compute in StoreSample.rows_of (snd (PutSessionSnapshot sample_snapshot StoreSample.two)).
Definition snapshotted : db := StoreSample.state_of snapshotted_rows.
Definition indexed_rows : StoreSample.rows :=
  Eval vm_compute in StoreSample.rows_of (snd (BindFrontend Sample.binding snapshotted)).
Definition indexed : db := StoreSample.state_of indexed_rows.

Lemma sample_snapshotted : store_step StoreSample.two snapshotted.
Proof.
  pose proof (op_snapshot sample_snapshot StoreSample.two) as H.
  assert (PutSessionSnapshot sample_snapshot StoreSample.two = (inr tt, snapshotted)) as E
    by vm_cast_no_check (eq_refl (inr tt : error + unit, snapshotted)).
  rewrite E in H. eexists. exact H.
Qed.

Lemma sample_indexed : store_step snapshotted indexed.
Proof.
  pose proof (op_bind Sample.binding snapshotted) as H.
  assert (BindFrontend Sample.binding snapshotted = (inr tt, indexed)) as E
    by vm_cast_no_check (eq_refl (inr tt : error + unit, indexed)).
  rewrite E in H. eexists. exact H.
Qed.

Lemma indexed_reachable : reachable indexed.
Proof. eapply rtc_r; [eapply rtc_r; [apply sample_reachable | apply sample_snapshotted] | apply sample_indexed]. Qed.

Lemma snapshots_cover_history_witness :
  exists l, ListSessionSnapshots "acme" "s1" 0 10 indexed = inr (take (Z.to_nat 10) (drop (Z.to_nat 0) l)).
Proof.
  destruct (snapshots_cover_history indexed "acme" "s1" indexed_reachable) as (l & H & _).
  exists l. apply H; [vm_compute; reflexivity | lia].
Defined.

Lemma bindings_consistent_witness :
  ResolveFrontendBinding "acme" "telegram" "42" indexed = inr (Some Sample.binding).
Proof.
  apply (bindings_consistent indexed "acme" indexed_reachable).
  - vm_compute. reflexivity.
  - vm_compute. reflexivity.
  - vm_compute. reflexivity.
  - exists "b1". split; [vm_compute; reflexivity | split; reflexivity].
Defined.
