(* ===== verification/SessionListing.v ===== *)
(** * Listing a user's sessions

    The activity index holds one row per session and active participant, and the
    bucketed queries of [ListSessions] merge to the newest sessions of the user. *)

From S2P Require Import Prelude GoText Sorting GoTime Sha256 Json Digests Errors Identity Blobs Lifecycle.
From S2P Require Import Sessions Material MaterialFold MaterialTotal Store SessionStore StoreEffects.
From S2P Require Import SessionLog SessionHistory SessionIsolation SessionIndexes.
From stdpp Require Import gmap sets.
#[local] Open Scope Z_scope.

(** ** The activity index *)

(** [u] takes part in session [s], whose row is [row]. *)
Definition takes_part (d : db) (t u s : string) (row : Session) : Prop :=
  sessions d !! (t, s) = Some row /\
  exists p, session_participants d !! (t, s, u) = Some p /\ sp_Status p = SessionParticipantActive.

Record activity_inv (d : db) : Prop := {
  ai_participant t s u p : session_participants d !! (t, s, u) = Some p ->
    sp_TenantID p = t /\ sp_SessionID p = s /\ sp_UserID p = u /\ is_Some (sessions d !! (t, s));
  ai_exact k : k ∈ session_activity d <->
    exists t u s row, takes_part d t u s row /\ k = activity_row row u (bucket_of s) }.

Lemma activity_inv_empty : activity_inv empty_db.
Proof.
  split; cbn; [done |]. intros k. split; [by intros H%elem_of_empty |]. by intros (t & u & s & row & [H _] & _).
Qed.

Lemma activity_inv_same d d' :
  sessions d' = sessions d -> session_participants d' = session_participants d ->
  session_activity d' = session_activity d -> activity_inv d -> activity_inv d'.
Proof. intros Hs Hp Ha []. split; unfold takes_part; rewrite ?Hs, ?Hp, ?Ha; done. Qed.

Lemma active_rows_elem t s d p :
  p ∈ active_rows t s d <->
  exists u, session_participants d !! (t, s, u) = Some p /\ sp_Status p = SessionParticipantActive.
Proof.
  unfold active_rows. rewrite list_elem_of_fmap. split.
  - intros ([[[t' s'] u] p'] & -> & [[[= -> ->] Ha] Hin%elem_of_map_to_list]%list_elem_of_filter). eauto.
  - intros (u & Hp & Ha). exists ((t, s, u), p). split; [done |]. apply list_elem_of_filter.
    by rewrite elem_of_map_to_list.
Qed.

Lemma activity_rows_spec d t s row k :
  activity_inv d -> s_ID row = s ->
  k ∈ activity_rows row (active_rows t s d) <->
  exists u p, session_participants d !! (t, s, u) = Some p /\ sp_Status p = SessionParticipantActive /\
    k = activity_row row u (bucket_of s).
Proof.
  intros A Hs. unfold activity_rows. rewrite elem_of_list_to_set, list_elem_of_fmap, Hs. split.
  - intros (p & -> & (u & Hp & Ha)%active_rows_elem). destruct (ai_participant d A _ _ _ _ Hp) as (_ & _ & -> & _). eauto.
  - intros (u & p & Hp & Ha & ->). exists p. rewrite active_rows_elem.
    destruct (ai_participant d A _ _ _ _ Hp) as (_ & _ & <- & _). eauto.
Qed.

(** The rows of a new session and its owner. *)
Lemma activity_inv_session s o d : activity_inv d -> can_create s o d -> activity_inv (with_session s o d).
Proof.
  intros A (Hv & _ & _ & Hn). pose proof Hv as Ho. unfold validateSessionOwner in Ho. peel Ho.
  apply EnsureSameTenant_nil in E1 as [Ht _]. b2p. destruct E2 as [[[Hs Hu] Hr] Hst]. split; cbn.
  - intros t sid u p [[[= <- <- <-] <-] | [Hne Hp]]%lookup_insert_Some.
    + split_and!; try done. rewrite <- Ht, Hs, lookup_insert_eq. done.
    + destruct (ai_participant d A _ _ _ _ Hp) as (? & ? & ? & He). split_and!; try done.
      rewrite lookup_insert_ne; [done |]. intros [= <- <-]. by rewrite Hn in He; destruct He.
  - intros k. rewrite elem_of_union, elem_of_singleton, (ai_exact d A). unfold takes_part. cbn. split.
    + intros [-> | (t & u & sid & row & [Hrow (p & Hp & Hact)] & ->)].
      * exists (s_TenantID s), (sp_UserID o), (s_ID s), s. rewrite lookup_insert_eq. split; [| done]. split; [done |].
        exists o. rewrite Ht, <- Hs, lookup_insert_eq. done.
      * assert ((t, sid) <> (s_TenantID s, s_ID s)) by congruence.
        exists t, u, sid, row. rewrite !lookup_insert_ne by congruence. eauto.
    + intros (t & u & sid & row & [[[[= <- <-] <-] | [Hne Hrow]]%lookup_insert_Some (p & Hp & Hact)] & ->).
      * left. apply lookup_insert_Some in Hp as [[[= _ _ <-] _] | [_ Hp]]; [done |].
        apply (ai_participant d A) in Hp as (_ & _ & _ & He). rewrite Hn in He. by destruct He.
      * right. rewrite lookup_insert_ne in Hp by congruence. exists t, u, sid, row. eauto.
Qed.

(** Moving a session's rows keeps the index exact. *)
Lemma activity_inv_moved d d' s s' :
  activity_inv d -> sessions d !! (s_TenantID s, s_ID s) = Some s -> s_TenantID s' = s_TenantID s -> s_ID s' = s_ID s ->
  (forall t sid row, sessions d !! (t, sid) = Some row -> s_TenantID row = t /\ s_ID row = sid) ->
  sessions d' = <[(s_TenantID s, s_ID s) := s']> (sessions d) ->
  session_participants d' = session_participants d ->
  session_activity d' = moved s s' (active_rows (s_TenantID s) (s_ID s') d) (session_activity d) ->
  activity_inv d'.
Proof.
  intros A Hs Ht Hid Hkey Hs' Hp' Ha'. split.
  - rewrite Hp', Hs'. intros t sid u p Hp. destruct (ai_participant d A _ _ _ _ Hp) as (? & ? & ? & He).
    split_and!; try done. destruct (decide ((t, sid) = (s_TenantID s, s_ID s))) as [-> |];
      [by rewrite lookup_insert_eq | by rewrite lookup_insert_ne].
  - intros k. rewrite Ha'. unfold moved, takes_part. rewrite elem_of_union, elem_of_difference, Hid.
    rewrite !activity_rows_spec, (ai_exact d A), Hp', Hs' by done. split.
    + intros [(u & p & Hp & Hact & ->) | [(t & u & sid & row & [Hrow (p & Hp & Hact)] & ->) Hnot]].
      * exists (s_TenantID s), u, (s_ID s), s'. rewrite lookup_insert_eq. eauto 10.
      * exists t, u, sid, row. rewrite lookup_insert_ne; [eauto 10 |]. intros [= <- <-]. apply Hnot.
        rewrite Hs in Hrow. injection Hrow as <-. eauto 10.
    + intros (t & u & sid & row & [[[[= <- <-] <-] | [Hne Hrow]]%lookup_insert_Some (p & Hp & Hact)] & ->); [eauto 10 |].
      right. split; [exists t, u, sid, row; unfold takes_part; eauto 10 |]. intros (u' & p' & _ & _ & Heq). apply Hne.
      destruct (Hkey _ _ _ Hrow) as [<- <-]. unfold activity_row in Heq. congruence.
Qed.

Lemma row_keys d t s row : log_inv d -> sessions d !! (t, s) = Some row -> s_TenantID row = t /\ s_ID row = s.
Proof. intros I H. by destruct (li_session d I _ _ _ H) as (? & ? & _). Qed.

Lemma activity_inv_step d d' : log_inv d -> store_step d d' -> activity_inv d -> activity_inv d'.
Proof.
  intros I [t0 Hc%step_change] A; [| done].
  destruct Hc as [t1 | ss o Hcan | ss o b Hcan _ _ | b Hb | e m d' Hm Ha | sn | ss s' Hs _ (_ & Hid & Ht & _) _ | t1 s1 y].
  - done.
  - by apply activity_inv_session.
  - apply (activity_inv_same (with_session ss o d)); try done. by apply activity_inv_session.
  - by apply (activity_inv_same d).
  - destruct (append_rows e m d d' I Hm Ha)
      as (session & session' & p & e' & Hs & _ & (_ & Hid & Htid & _) & _ & _ & _ & _ & Hst & Hsi & ->).
    rewrite <- Hst, <- Hsi in Hs. eapply (activity_inv_moved d _ session session'); try done.
    + intros t sid row. by apply row_keys.
    + rewrite (update_row _ _ session); cbn; by rewrite Hid, Htid.
    + by destruct (update_row_only session' (with_event e' p d)) as [rows ->].
    + by rewrite Hst.
  - by apply (activity_inv_same d).
  - subst d1. apply (activity_inv_moved d _ ss s'); try done.
    + intros t sid row. by apply row_keys.
    + rewrite (update_row _ _ ss); cbn; by rewrite Hid, Ht.
    + by destruct (update_row_only s' d) as [rows ->].
  - by apply (activity_inv_same d).
Qed.

Lemma activity_reachable d : reachable d -> activity_inv d.
Proof.
  revert d. apply reachable_induction; [apply activity_inv_empty |]. intros d d' Hr Hs A.
  eapply activity_inv_step; [by apply inv_reachable | done | done].
Qed.

(** ** The queries of [ListSessions] *)

Lemma newer_strict : Sorting.strict newer.
Proof.
  destruct string_lt_strict as [Hirr Htr]. unfold Sorting.strict, newer. split.
  - intros x. by rewrite Z.eqb_refl, Hirr.
  - intros [a x] [b y] [c z]; cbn.
    destruct (Z.eqb_spec a b), (Z.eqb_spec b c), (Z.eqb_spec a c); rewrite ?Z.ltb_lt; try lia; eauto.
Qed.

Lemma newer_total l : total_on newer l.
Proof.
  intros [a x] [b y] _ _. unfold newer. cbn. rewrite (Z.eqb_sym b a). destruct (Z.eqb_spec a b) as [-> | Hne].
  - destruct (string_lt_total x y) as [-> | [H | H]]; auto.
  - right. rewrite !Z.ltb_lt. lia.
Qed.

(** The rows of a user with a status and in a bucket. *)
Definition part_row (t u st : string) (b : Z) (key : activity_key) : option (Z * string) :=
  let '(t', u', st', b', at_, id) := key in
  if bool_decide ((t', u', st', b') = (t, u, st, b)) then Some (at_, id) else None.

Definition part (d : db) (t u st : string) (b : Z) : list (Z * string) :=
  omap (part_row t u st b) (elements (session_activity d)).

Lemma part_row_Some t u st b key at_ id :
  part_row t u st b key = Some (at_, id) <-> key = (t, u, st, b, at_, id).
Proof.
  destruct key as [[[[[t' u'] st'] b'] at'] id']. unfold part_row.
  destruct (bool_decide_reflect ((t', u', st', b') = (t, u, st, b))); naive_solver.
Qed.

Lemma part_elem d t u st b at_ id :
  (at_, id) ∈ part d t u st b <-> (t, u, st, b, at_, id) ∈ session_activity d.
Proof.
  unfold part. rewrite list_elem_of_omap. split.
  - intros (key & Hin & ->%part_row_Some). by apply elem_of_elements.
  - intros H. exists (t, u, st, b, at_, id). by rewrite elem_of_elements, part_row_Some.
Qed.

Lemma part_NoDup d t u st b : NoDup (part d t u st b).
Proof.
  apply NoDup_omap_inj; [| apply NoDup_elements]. by intros x y [at_ id] _ _ ->%part_row_Some ->%part_row_Some.
Qed.

Lemma activity_page_top d t u st b limit :
  activity_page t u st b limit d = Sorting.top newer (Z.to_nat limit) (part d t u st b).
Proof. done. Qed.

(** The merge by session keeps each pair, when a session has one time. *)
Lemma merge_rows (f : string -> Z) rows : forall m,
  (forall id at_, m !! id = Some at_ -> at_ = f id) -> (forall at_ id, (at_, id) ∈ rows -> at_ = f id) ->
  forall id at_, fold_left merge_row rows m !! id = Some at_ <-> m !! id = Some at_ \/ (at_, id) ∈ rows.
Proof.
  induction rows as [| [a i] rows IH]; intros m Hm Hr id at_; cbn [fold_left].
  { rewrite elem_of_nil. tauto. }
  assert (forall id at_, merge_row m (a, i) !! id = Some at_ <-> m !! id = Some at_ \/ (at_, id) = (a, i)) as Hstep.
  { intros id' at'. assert (a = f i) as -> by (apply Hr; by left). unfold merge_row. cbn.
    destruct (m !! i) as [previous |] eqn:Hi.
    - apply Hm in Hi as Hp. rewrite Hp, Z.ltb_irrefl. split; [tauto |]. intros [? | [= -> ->]]; [done | congruence].
    - rewrite lookup_insert_Some. naive_solver. }
  rewrite IH.
  - rewrite Hstep, elem_of_cons. tauto.
  - intros id' at' [H | [= -> ->]]%Hstep; [by apply Hm | apply Hr; by left].
  - intros at' id' H. apply Hr. by right.
Qed.

(** ** The reference *)

Definition position (row : Session) : Z * string := (ydb_timestamp (s_UpdatedAt row), s_ID row).

Definition is_participant (d : db) (t u s : string) : bool :=
  match session_participants d !! (t, s, u) with
  | Some p => bool_decide (sp_Status p = SessionParticipantActive)
  | None => false
  end.

(** Every session of the tenant in which the user takes part. *)
Definition user_sessions (d : db) (t u : string) : list Session :=
  omap (fun row : (string * string) * Session =>
          if bool_decide (row.1.1 = t) && is_participant d t u row.1.2 then Some row.2 else None)
    (map_to_list (sessions d)).

(** Newest first, by the index's microseconds and then by identifier. *)
Definition newest_first (d : db) (t u : string) : list Session :=
  sort_by (fun a b => newer (position a) (position b)) (user_sessions d t u).

Lemma sort_by_map {A B} (f : A -> B) (lt : B -> B -> bool) l :
  map f (sort_by (fun x y => lt (f x) (f y)) l) = sort_by lt (map f l).
Proof.
  assert (forall x r, map f (insert_by (fun x y => lt (f x) (f y)) x r) = insert_by lt (f x) (map f r)) as Hi.
  { intros x r. induction r as [| y r IH]; cbn; [done |]. destruct (lt (f y) (f x)); cbn; [by rewrite IH | done]. }
  unfold sort_by. induction l as [| x l IH]; cbn; [done |]. by rewrite Hi, IH.
Qed.

Lemma is_participant_spec d t u s row :
  sessions d !! (t, s) = Some row -> is_participant d t u s = true <-> takes_part d t u s row.
Proof.
  intros Hs. unfold is_participant, takes_part. destruct (session_participants d !! (t, s, u)) as [p |] eqn:Hp.
  - rewrite bool_decide_eq_true. split; [eauto |]. by intros (_ & p' & [= <-] & ?).
  - split; [done |]. by intros (_ & p & [=] & _).
Qed.

Lemma user_sessions_elem d t u row :
  log_inv d -> row ∈ user_sessions d t u <-> takes_part d t u (s_ID row) row.
Proof.
  intros I. unfold user_sessions. rewrite list_elem_of_omap. split.
  - intros ([[t' s] row'] & Hin%elem_of_map_to_list & H). cbn in H.
    destruct (bool_decide_reflect (t' = t)) as [-> |]; [| done]. cbn in H.
    destruct (is_participant d t u s) eqn:Hp; [| done]. injection H as <-.
    destruct (row_keys d t s row' I Hin) as [_ ->]. by eapply is_participant_spec.
  - intros Hp. pose proof Hp as [Hs _]. exists ((t, s_ID row), row). rewrite elem_of_map_to_list. split; [done |].
    cbn. rewrite bool_decide_true by done. apply (is_participant_spec d t u _ row) in Hp; [| done]. by rewrite Hp.
Qed.

Lemma user_sessions_NoDup d t u : log_inv d -> NoDup (map position (user_sessions d t u)).
Proof.
  intros I. apply NoDup_fmap_2_strong.
  - intros x y [Hx _]%user_sessions_elem [Hy _]%user_sessions_elem [= _ Hid]; [| done ..]. congruence.
  - apply NoDup_omap_inj; [| apply NoDup_map_to_list].
    intros [[t1 s1] r1] [[t2 s2] r2] row Hx%elem_of_map_to_list Hy%elem_of_map_to_list H1 H2. cbn in H1, H2.
    destruct (row_keys d _ _ _ I Hx) as [<- <-], (row_keys d _ _ _ I Hy) as [<- <-].
    destruct (_ && _); [| done]. destruct (_ && _) in H2; [| done]. congruence.
Qed.

(** The rows of the index for the user, over every status and bucket. *)
Lemma pages_elem d t u limit at_ id :
  (at_, id) ∈ activity_pages t u limit d <->
  exists st b, st ∈ [SessionStatus_text SessionActive; SessionStatus_text SessionArchived] /\ b ∈ BucketsV1 /\
    (at_, id) ∈ Sorting.top newer (Z.to_nat limit) (part d t u st b).
Proof.
  unfold activity_pages. rewrite list_elem_of_In, in_flat_map. split.
  - intros (st & Hst & (b & Hb & Hin)%in_flat_map). exists st, b. by rewrite !list_elem_of_In.
  - intros (st & b & Hst & Hb & Hin). exists st. rewrite <- list_elem_of_In. split; [done |].
    apply in_flat_map. exists b. by rewrite <- !list_elem_of_In.
Qed.

Lemma top_sub {A} (lt : A -> A -> bool) k l x : x ∈ Sorting.top lt k l -> x ∈ l.
Proof.
  unfold Sorting.top. intros (i & [Hi _]%lookup_take_Some)%list_elem_of_lookup.
  rewrite <- (sort_by_permutation lt l). by eapply list_elem_of_lookup_2.
Qed.

Lemma bucket_listed id : bucket_of id ∈ BucketsV1.
Proof.
  unfold bucket_of, BucketV1, BucketsV1. apply list_elem_of_fmap.
  destruct (String.eqb id ""); [exists 0%nat; split; [done |]; apply elem_of_seq; lia |].
  set (x := be_uint _). exists (Z.to_nat (x mod BucketCountV1)). pose proof (Z.mod_pos_bound x BucketCountV1 eq_refl) as H.
  unfold BucketCountV1 in *. split; [lia |]. apply elem_of_seq. lia.
Qed.

Lemma status_listed row :
  Session_Validate row = None ->
  SessionStatus_text (s_Status row) ∈ [SessionStatus_text SessionActive; SessionStatus_text SessionArchived].
Proof.
  intros (_ & _ & _ & _ & _ & [[-> _] | [-> _]])%Session_Validate_nil; [by left | by right; left].
Qed.

(** The part a session's row is in. *)
Lemma user_row_part d t u row :
  log_inv d -> activity_inv d -> row ∈ user_sessions d t u ->
  position row ∈ part d t u (SessionStatus_text (s_Status row)) (bucket_of (s_ID row)).
Proof.
  intros I A Hrow. apply user_sessions_elem in Hrow; [| done]. apply part_elem, (ai_exact d A).
  pose proof Hrow as [Hs _]. destruct (row_keys d _ _ _ I Hs) as [Ht _].
  exists t, u, (s_ID row), row. split; [done |]. unfold activity_row. by rewrite Ht.
Qed.

Lemma part_user_row d t u st b at_ id :
  log_inv d -> activity_inv d -> (at_, id) ∈ part d t u st b ->
  exists row, row ∈ user_sessions d t u /\ position row = (at_, id) /\
    st = SessionStatus_text (s_Status row) /\ b = bucket_of (s_ID row).
Proof.
  intros I A H%part_elem. apply (ai_exact d A) in H as (t' & u' & s & row & Hp & Hk).
  pose proof Hp as [Hs _]. destruct (row_keys d _ _ _ I Hs) as [Ht Hid]. unfold activity_row in Hk. simplify_eq.
  exists row. rewrite user_sessions_elem by done. done.
Qed.

(** ** The merge is the reference *)

Definition merged (t u : string) (limit : Z) (d : db) : list (Z * string) :=
  map (fun row => (row.2, row.1)) (map_to_list (fold_left merge_row (activity_pages t u limit d) ∅)).

Section merge.
Context (d : db) (t u : string) (limit : Z) (I : log_inv d) (A : activity_inv d).

Definition session_time (id : string) : Z :=
  match sessions d !! (t, id) with Some row => ydb_timestamp (s_UpdatedAt row) | None => 0 end.

Lemma pages_user_row at_ id :
  (at_, id) ∈ activity_pages t u limit d -> exists row, row ∈ user_sessions d t u /\ position row = (at_, id).
Proof.
  intros (st & b & _ & _ & Hin%top_sub)%pages_elem. apply part_user_row in Hin as (row & Hrow & Hp & _); eauto.
Qed.

Lemma user_row_time row : row ∈ user_sessions d t u -> ydb_timestamp (s_UpdatedAt row) = session_time (s_ID row).
Proof. intros [Hs _]%user_sessions_elem; [| done]. unfold session_time. by rewrite Hs. Qed.

Lemma merged_elem at_ id : (at_, id) ∈ merged t u limit d <-> (at_, id) ∈ activity_pages t u limit d.
Proof.
  unfold merged. rewrite list_elem_of_fmap.
  assert (forall at_ id, (at_, id) ∈ activity_pages t u limit d -> at_ = session_time id) as Hf.
  { intros a i (row & Hrow & Hp)%pages_user_row. apply user_row_time in Hrow. unfold position in Hp. congruence. }
  assert (forall id at_, (∅ : gmap string Z) !! id = Some at_ -> at_ = session_time id) as H0 by done.
  pose proof (merge_rows session_time (activity_pages t u limit d) ∅ H0 Hf) as Hm. split.
  - intros ([i a] & E & H%elem_of_map_to_list). apply Hm in H as [[=] | H]. cbn in E. congruence.
  - intros H. exists (id, at_). split; [done |]. apply elem_of_map_to_list, Hm. by right.
Qed.

Lemma merged_NoDup : NoDup (merged t u limit d).
Proof.
  apply NoDup_fmap_2_strong; [| apply NoDup_map_to_list]. intros [i a] [j b] _ _ H. cbn in H. congruence.
Qed.

(** A session the pages leave out has enough newer ones in its own part. *)
Lemma merged_covers x :
  x ∈ map position (user_sessions d t u) -> x ∉ merged t u limit d ->
  exists p, NoDup p /\ (Z.to_nat limit <= length p)%nat /\
    forall y, y ∈ p -> y ∈ merged t u limit d /\ newer y x = true.
Proof.
  intros (row & -> & Hrow)%list_elem_of_fmap Hnot.
  set (st := SessionStatus_text (s_Status row)). set (b := bucket_of (s_ID row)).
  assert (st ∈ [SessionStatus_text SessionActive; SessionStatus_text SessionArchived]) as Hst.
  { apply user_sessions_elem in Hrow as [Hs _]; [| done]. apply status_listed.
    by destruct (li_session d I _ _ _ Hs) as (_ & _ & ? & _). }
  assert (forall y, y ∈ Sorting.top newer (Z.to_nat limit) (part d t u st b) -> y ∈ merged t u limit d) as Hin.
  { intros [a i] Hy. apply merged_elem, pages_elem. exists st, b. split_and!; try done. apply bucket_listed. }
  destruct (top_before newer (Z.to_nat limit) (part d t u st b) (position row)) as [Hlen Hnew];
    [apply newer_strict | apply newer_total | apply part_NoDup | by apply user_row_part | by intros H%Hin |].
  exists (Sorting.top newer (Z.to_nat limit) (part d t u st b)). split_and!; [| done | auto].
  apply (sorted_NoDup newer); [apply newer_strict |].
  apply top_sorted; [apply newer_strict | apply newer_total | apply part_NoDup].
Qed.

Lemma listed_ids_reference :
  listed_ids t u limit d = map s_ID (take (Z.to_nat limit) (newest_first d t u)).
Proof.
  assert (Sorting.top newer (Z.to_nat limit) (merged t u limit d) =
          Sorting.top newer (Z.to_nat limit) (map position (user_sessions d t u))) as Htop.
  { apply (top_cover newer); [apply newer_strict | apply newer_total | by apply user_sessions_NoDup | apply merged_NoDup | |
                      apply merged_covers].
    intros [a i] (row & Hrow & <-)%merged_elem%pages_user_row. by apply list_elem_of_fmap_2. }
  unfold listed_ids. change (take _ (sort_by newer _)) with (Sorting.top newer (Z.to_nat limit) (merged t u limit d)).
  rewrite Htop. unfold Sorting.top, newest_first. rewrite <- (sort_by_map position newer), !firstn_map, map_map. done.
Qed.

Lemma read_listed_rows l :
  (forall row, row ∈ l -> sessions d !! (t, s_ID row) = Some row) -> TenantID_Validate t = None ->
  read_listed t (map s_ID l) d = inr l.
Proof.
  intros Hl Ht. induction l as [| row l IH]; cbn; [done |]. pose proof (Hl row ltac:(by left)) as Hs.
  destruct (li_session d I _ _ _ Hs) as (_ & _ & (Hid & _)%Session_Validate_nil & _).
  unfold GetSession. rewrite Ht, Hid, Hs, IH; [done |]. intros r Hr. apply Hl. by right.
Qed.
End merge.

(** C5. [ListSessions] is the newest-first list of the user's sessions: in every
    reachable state the sixteen-bucket, two-status merge returns, without an error,
    the first [limit] sessions of the tenant in which the user is an active
    participant, ordered by update time (in microseconds) and then by identifier. *)
Theorem list_sessions_newest_first d t u limit :
  reachable d -> TenantID_Validate t = None -> UserID_Validate u = None -> validatePageLimit limit = None ->
  ListSessions t u limit d = inr (take (Z.to_nat limit) (newest_first d t u)) /\
  forall row, row ∈ newest_first d t u <-> takes_part d t u (s_ID row) row.
Proof.
  intros Hr Ht Hu Hl. apply inv_reachable in Hr as I. apply activity_reachable in Hr as A.
  assert (forall row, row ∈ newest_first d t u <-> takes_part d t u (s_ID row) row) as He.
  { intros row. unfold newest_first. rewrite sort_by_permutation. by apply user_sessions_elem. }
  split; [| done]. unfold ListSessions. rewrite Ht, Hu, Hl, listed_ids_reference by done.
  apply read_listed_rows; try done. intros row (i & [Hi _]%lookup_take_Some)%list_elem_of_lookup.
  apply list_elem_of_lookup_2, He in Hi as [Hs _]. done.
Qed.

Lemma list_sessions_newest_first_witness :
  ListSessions "acme" "ada" 10 StoreSample.two = inr (take (Z.to_nat 10) (newest_first StoreSample.two "acme" "ada")).
Proof.
  apply list_sessions_newest_first.
  - apply sample_reachable.
  - vm_compute. reflexivity.
  - vm_compute. reflexivity.
  - vm_compute. reflexivity.
Defined.
