(* ===== verification/Memberships.v ===== *)
(** * Tenant memberships ([internal/domain/web_auth.go])

    The membership of a user in a tenant and what it authorizes. *)

From S2P Require Import Prelude GoText GoTime Errors Identity.
#[local] Open Scope Z_scope.

Definition ErrMembershipDenied : error :=
  PlainError "tenant membership does not authorize this operation" None.

Inductive TenantMembershipRole :=
| TenantMembershipOwner | TenantMembershipMember | TenantMembershipViewer | TenantMembershipRoleUnknown (s : string).

Inductive TenantMembershipStatus :=
| TenantMembershipActive | TenantMembershipSuspended | TenantMembershipRevoked
| TenantMembershipStatusUnknown (s : string).

Inductive TenantPermission :=
| TenantPermissionRead | TenantPermissionWrite | TenantPermissionAdmin | TenantPermissionUnknown (s : string).

#[global] Instance TenantMembershipRole_eq_dec : EqDecision TenantMembershipRole.
Proof. solve_decision. Defined.
#[global] Instance TenantMembershipStatus_eq_dec : EqDecision TenantMembershipStatus.
Proof. solve_decision. Defined.

Record TenantMembership := {
  tm_TenantID : string;
  tm_UserID : string;
  tm_Role : TenantMembershipRole;
  tm_Status : TenantMembershipStatus;
  tm_SecurityVersion : Z;
  tm_CreatedAt : time;
  tm_UpdatedAt : time }.

Definition TenantMembership_Validate (membership : TenantMembership) : option error :=
  check TenantID_Validate (tm_TenantID membership) ;!
  check UserID_Validate (tm_UserID membership) ;!
  reject match tm_Role membership with TenantMembershipRoleUnknown _ => true | _ => false end
    with ValidationError "tenant_membership.role" "is unknown" ;!
  reject match tm_Status membership with TenantMembershipStatusUnknown _ => true | _ => false end
    with ValidationError "tenant_membership.status" "is unknown" ;!
  reject tm_SecurityVersion membership =? 0
    with ValidationError "tenant_membership.security_version" "must be positive" ;!
  reject is_zero (tm_CreatedAt membership) || before (tm_UpdatedAt membership) (tm_CreatedAt membership)
    with ValidationError "tenant_membership.updated_at" "must not be before a non-zero created_at" ;!
  None.

Definition TenantMembership_Authorize (membership : TenantMembership) (userID tenantID : string)
    (permission : TenantPermission) : option error :=
  check TenantMembership_Validate membership ;!
  reject negb (String.eqb (tm_UserID membership) userID) || negb (String.eqb (tm_TenantID membership) tenantID)
         || negb (bool_decide (tm_Status membership = TenantMembershipActive))
    with ErrMembershipDenied ;!
  match permission with
  | TenantPermissionRead => None
  | TenantPermissionWrite =>
      if negb (bool_decide (tm_Role membership = TenantMembershipViewer)) then None else Some ErrMembershipDenied
  | TenantPermissionAdmin =>
      if bool_decide (tm_Role membership = TenantMembershipOwner) then None else Some ErrMembershipDenied
  | TenantPermissionUnknown _ => Some (ValidationError "tenant_permission" "is unknown")
  end.
