(* ===== verification/LifecycleTables.v ===== *)
(** * The tables of session deletion ([internal/ydbstore/session_lifecycle.go])

    The session tables of [Store.v] with the tables that only the lifecycle
    transactions read or erase, the transactions over both, and the reads of rows
    in key order.

    As in [Store.v] a record column holds the value it encodes, and a column that
    repeats a field of the record is that field.  Three in-repository results are
    not modelled and are the fields of [unmodelled]: theorems hold for every value
    of them. *)

From S2P Require Import Prelude GoText GoTime Sha256 Json Sorting Errors Identity Blobs Lifecycle Runs.
From S2P Require Import Work Sessions Deliveries Memberships Store SessionStore.
From stdpp Require Import gmap sets.
#[local] Open Scope Z_scope.

(** A row of [runs]: the run, and the length and encoding of its stored text. *)
Record run_row := { rr_run : Run; rr_bytes : Z; rr_utf8 : bool }.

(** The key of [attached_worker_output_receipts]: tenant, run, owner, worker,
    attempt, lease generation. *)
Definition receipt_key : Type := string * string * string * string * string * Z.

(** A row of [attached_worker_output_receipts], as the deletion reads it: what
    decoding it returns, what its identity check returns against its own binding and
    against the row's key, whether it is a second version receipt before any write,
    [deletionSettled] and [objectRefs]. *)
Record receipt_row := {
  rx_decode : option error;
  rx_own_identity : option error;
  rx_identity : option error;
  rx_before_writes : bool;
  rx_settled : bool;
  rx_objects : list BlobRef }.

Record audit_row := {
  au_actor : string;
  au_action : string;
  au_subject : string;
  au_metadata : string }.

Record ldb := mkLdb {
  base : db;
  session_legal_holds : gmap (string * string) SessionLegalHold;
  tenant_memberships : gmap (Z * string * string) TenantMembership;
  lifecycle_backfill : option time;
  runs : gmap (string * string) run_row;
  runs_by_session : gmap (string * string * Z * string) RunStatus;
  attached_worker_output_receipts : gmap receipt_key receipt_row;
  admissions : gset (string * string);
  admissions_by_session : gmap (string * string * string) string;
  artifact_manifests : gmap (string * string) ArtifactManifest;
  artifact_manifests_by_run : gset (string * string * string);
  telegram_delivery_outbox : gmap (string * string) TelegramDeliveryOutbox;
  telegram_deliveries_by_run : gmap (string * string * string) TelegramDeliveryOutbox;
  telegram_delivery_ready : gset (Z * Z * string * string);
  checkpoints : gmap (string * string * Z) Checkpoint;
  checkpoint_objects_by_run : gmap (string * string * string) Checkpoint;
  frontend_projection_outbox : gmap (string * string) FrontendProjection;
  frontend_projections_by_run : gset (string * string * string * string);
  frontend_projections_by_session : gset (string * string * string);
  frontend_projection_ready : gset (string * Z * Z * string * string);
  run_idempotency : gset (string * string);
  run_finalizations : gset (string * string);
  run_explanation_heads : gset (string * string);
  worker_jobs : gset (string * string);
  session_snapshot_material : gset (string * string * Z);
  session_displays : gset (string * string);
  audit_events : gmap (string * Z * string) audit_row }.

(** What the lifecycle transactions get from code that is not modelled.  The
    key and row a retirement before writes updates ([retireInlineReceiptBeforeWritesTxV2]);
    whether an owned admission and its effect parent, a row of a table that is not
    modelled, may be erased ([deleteOwnedSessionAdmissionsTx] up to its own
    statements); and whether the
    bounded capture read refuses the number of runs or one of them
    ([admitOriginalRuns], [readDeletionCaptureJSON]). *)
Record unmodelled := {
  um_retire : receipt_row -> error + (receipt_key * receipt_row);
  um_admission : string -> option error;
  um_capture_runs : Z -> bool;
  um_capture_read : string -> bool }.

(** ** Transactions *)

Definition ltx (A : Type) : Type := ldb -> error + (A * ldb).

#[global] Instance ltx_ret : MRet ltx := fun _ x w => inr (x, w).
#[global] Instance ltx_bind : MBind ltx := fun _ _ f m w =>
  match m w with inl e => inl e | inr (x, w') => f x w' end.

Definition l_fail {A} (e : error) : ltx A := fun _ => inl e.
Definition l_read {A} (f : ldb -> A) : ltx A := fun w => inr (f w, w).
Definition l_write (f : ldb -> ldb) : ltx unit := fun w => inr (tt, f w).
Definition l_check (c : option error) : ltx unit := match c with Some e => l_fail e | None => mret tt end.
Definition l_reject (b : bool) (e : error) : ltx unit := if b then l_fail e else mret tt.
Definition l_of {A} (r : error + A) : ltx A := match r with inl e => l_fail e | inr x => mret x end.

(** A read of the tables that can fail. *)
Definition l_query {A} (f : ldb -> error + A) : ltx A :=
  fun w => match f w with inl e => inl e | inr x => inr (x, w) end.

(** A transaction of the session tables inside a lifecycle transaction. *)
Definition on_base {A} (m : tx A) : ltx A := fun w =>
  match m (base w) with inl e => inl e | inr (x, d) => inr (x, {| w with base := d |}) end.

Fixpoint l_each {A} (f : A -> ltx unit) (l : list A) : ltx unit :=
  match l with [] => mret tt | x :: r => _ ← f x; l_each f r end.

(** [Store.Transact]: the callback's error rolls every write back. *)
Definition LTransact {A} (tenantID : string) (fn : ltx A) (w : ldb) : (error + A) * ldb :=
  match TenantID_Validate tenantID with
  | Some e => (inl e, w)
  | None => match fn w with inl e => (inl e, w) | inr (x, w') => (inr x, w') end
  end.

(** ** Reads outside a transaction *)

(** A store method that reads before or without a transaction issues several queries,
    and other clients may write between any two of them.  A query is named by what it
    reads and by the number of rows its caller has read before it; [reads] gives the
    tables each query finds.  A transaction finds one state: [one_state]. *)
Inductive query_part := Index | Ready | Canonical.

Inductive query :=
| q_method_deletion | q_stored_deletion | q_custody_runs | q_custody_run | q_deletion | q_events | q_snapshots
| q_material_current | q_material_boundaries | q_material_snapshots | q_participants
| q_bindings (part : query_part) | q_projections (part : query_part) | q_runs | q_admissions | q_receipts
| q_manifests (part : query_part) | q_manifest | q_deliveries (part : query_part) | q_delivery (part : query_part)
| q_checkpoints (part : query_part) | q_checkpoint (part : query_part).

Definition reads : Type := Z -> query -> ldb.

Definition one_state (w : ldb) : reads := fun _ _ => w.

(** ** Rows in key order *)

Definition sorted_ids (l : list string) : list string := sort_by String.ltb l.

(** The rows of a map or a set whose key a function accepts, with what it returns. *)
Definition map_rows {K V B} `{Countable K} (m : gmap K V) (f : K -> V -> option B) : list B :=
  omap (fun row => f row.1 row.2) (map_to_list m).
Definition set_rows {K B} `{Countable K} (m : gset K) (f : K -> option B) : list B := omap f (elements m).

(** The last component of a key that starts with [(tenantID, owner)]. *)
Definition owned_by (tenantID owner : string) (key : string * string * string) : option string :=
  if bool_decide (key.1 = (tenantID, owner)) then Some key.2 else None.
