(* ===== verification/LifecycleStore.v ===== *)
(** * Legal holds and deletion requests ([internal/ydbstore/session_lifecycle.go])

    The transactions that set and release a legal hold, request a deletion and
    start it, with the checks they share: tenant and session authorization, the
    hold, terminal runs and pending worker receipts.

    A store method that reads before its transaction takes the tables its queries
    found as [seen].  A deletion whose runs have terminal custody takes
    another path ([session_deletion_verified.go]), which is not modelled: the
    operations answer [None] where the code hands over to it. *)

From S2P Require Import Prelude GoText GoTime Sha256 Json Digests Sorting Errors Identity Blobs Lifecycle Runs.
From S2P Require Import Sessions Memberships Store SessionStore LifecycleTables.
From stdpp Require Import gmap sets.
#[local] Open Scope Z_scope.

Definition ErrSessionLifecycleConflict : error :=
  PlainError "session lifecycle request conflicts with durable state" None.

(** [SUBSTRING(CAST(column AS String), 0, 161)]. *)
Definition bounded_text (s : string) : string := String.substring 0 161 s.

Definition ownedAuthorityHeadBytes : Z := 32 * 1024.

(** ** Reads and writes of the two records *)

Definition readSessionDeletionTx (tenantID sessionID : string) : ltx (option SessionDeletion) :=
  l_read (fun w => session_deletions (base w) !! (tenantID, sessionID)).

Definition readSessionLegalHoldTx (tenantID sessionID : string) : ltx (option SessionLegalHold) :=
  l_read (fun w => session_legal_holds w !! (tenantID, sessionID)).

Definition optional_time (t : option time) : list time := match t with Some t => [t] | None => [] end.

Definition deletion_times (deletion : SessionDeletion) : list time :=
  [sd_RequestedAt deletion] ++ optional_time (sd_StartedAt deletion) ++ optional_time (sd_CompletedAt deletion)
  ++ match sd_RetainedVerification deletion with Some v => [rv_VerifiedAt v] | None => [] end.

Definition hold_times (hold : SessionLegalHold) : list time := [lh_SetAt hold] ++ optional_time (lh_ReleasedAt hold).

Definition set_deletion (deletion : SessionDeletion) (w : ldb) : ldb :=
  let d := base w in
  {| w with base := {| d with session_deletions :=
       <[(sd_TenantID deletion, sd_SessionID deletion) := deletion]> (session_deletions d) |} |}.

Definition set_hold (hold : SessionLegalHold) (w : ldb) : ldb :=
  {| w with session_legal_holds := <[(lh_TenantID hold, lh_SessionID hold) := hold]> (session_legal_holds w) |}.

Definition writeSessionDeletionTx (deletion : SessionDeletion) : ltx unit :=
  _ ← l_check (SessionDeletion_Validate deletion);
  _ ← on_base (marshal_record (deletion_times deletion));
  l_write (set_deletion deletion).

Definition writeSessionLegalHoldTx (hold : SessionLegalHold) : ltx unit :=
  _ ← l_check (SessionLegalHold_Validate hold);
  _ ← on_base (marshal_record (hold_times hold));
  l_write (set_hold hold).

(** The audit row: its key has the start of a hash of the action, session and time. *)
Definition audit_id (action sessionID : string) (at_ : time) : string :=
  "audit-lifecycle-"
  +:+ String.substring 0 24 (sha256_hex (action +:+ ":" +:+ sessionID +:+ ":" +:+ rfc3339_nano (to_utc at_))).

Definition appendSessionLifecycleAuditTx (tenantID : string) (at_ : time) (actorID action sessionID : string)
    (metadata : list (string * json)) : ltx unit :=
  let row := {| au_actor := actorID; au_action := action; au_subject := sessionID;
                au_metadata := marshal (JObj metadata) |} in
  l_write (fun w => {| w with audit_events :=
    <[(tenantID, ydb_timestamp at_, audit_id action sessionID at_) := row]> (audit_events w) |}).

(** ** Authorization *)

Definition readMembershipTx (userID tenantID : string) : ltx (option TenantMembership) :=
  bucket ← l_of (BucketV1 userID);
  l_read (fun w => tenant_memberships w !! (bucket, userID, tenantID)).

Definition authorizeTenantTx (tenantID userID : string) (permission : TenantPermission) : ltx unit :=
  found ← readMembershipTx userID tenantID;
  match found with
  | None => l_fail ErrMembershipDenied
  | Some membership => l_check (TenantMembership_Authorize membership userID tenantID permission)
  end.

Definition authorizeTenantWriteTx (tenantID userID : string) : ltx unit :=
  authorizeTenantTx tenantID userID TenantPermissionWrite.

Definition authorizeSessionOwnerTx (tenantID sessionID userID : string) : ltx unit :=
  found ← l_read (fun w => session_participants (base w) !! (tenantID, sessionID, userID));
  match found with
  | None => l_fail ErrMembershipDenied
  | Some participant =>
      _ ← l_reject (negb (bool_decide (sp_Status participant = SessionParticipantActive))
                    || negb (bool_decide (sp_Role participant = SessionParticipantOwner))) ErrMembershipDenied;
      l_check (Authorize participant tenantID sessionID userID true)
  end.

Definition ensureNoActiveLegalHoldTx (tenantID sessionID : string) : ltx unit :=
  found ← readSessionLegalHoldTx tenantID sessionID;
  match found with
  | Some hold =>
      l_reject (bool_decide (lh_State hold = SessionLegalHoldActive))
        (ValidationError "session_deletion.legal_hold" "active legal hold blocks destructive cleanup")
  | None => mret tt
  end.

(** ** Terminal runs *)

(** The run index of a session joined with the runs, in no particular order. *)
Definition session_deletion_runs (tenantID sessionID : string) (w : ldb)
  : list (string * RunStatus * option run_row) :=
  map_rows (runs_by_session w) (fun key status =>
    if bool_decide (key.1.1 = (tenantID, sessionID))
    then Some (key.2, status, runs w !! (tenantID, key.2)) else None).

(** The checks of one run.  A status longer than the column's bound is unknown. *)
Definition deletion_run (tenantID sessionID : string) (requestOnly : bool)
    (row : string * RunStatus * option run_row) : option error :=
  let '(indexed, status, payload) := row in
  let runID := bounded_text indexed in
  reject notnil (RunID_Validate runID) || (len runID >? 160) || negb (RunStatus_Valid status)
         || negb (RunStatus_Terminal status)
    with ValidationError "session_deletion.runs" ("run " +:+ quoted runID +:+ " is not terminal") ;!
  match payload with
  | None => Some (ValidationError "session_deletion.runs" "missing or oversized canonical Run")
  | Some stored =>
      reject (rr_bytes stored >? ownedAuthorityHeadBytes) || negb (rr_utf8 stored)
        with ValidationError "session_deletion.runs" "missing or oversized canonical Run" ;!
      let run := rr_run stored in
      reject notnil (Run_Validate run) || negb (String.eqb (run_ID run) runID)
             || negb (String.eqb (run_TenantID run) tenantID) || negb (String.eqb (run_SessionID run) sessionID)
             || negb (bool_decide (run_Status run = status))
        with ValidationError "session_deletion.runs" "canonical Run does not match deletion index" ;!
      reject notnil (run_TerminalCustody run) && negb requestOnly
        with ValidationError "session_deletion.terminal_custody"
               "registered terminal writer requires original reconciliation before deletion" ;!
      None
  end.

Fixpoint deletion_runs_loop (tenantID sessionID : string) (requestOnly : bool) (count : Z)
    (rows : list (string * RunStatus * option run_row)) : option error :=
  match rows with
  | [] => None
  | row :: rest =>
      reject count + 1 >? maxSessionDeletionRows
        with ValidationError "session_deletion.runs" "exceeds the hard deletion bound" ;!
      check deletion_run tenantID sessionID requestOnly row ;!
      deletion_runs_loop tenantID sessionID requestOnly (count + 1) rest
  end.

Definition ensureSessionRunsTerminalPolicyTx (tenantID sessionID : string) (requestOnly : bool) : ltx unit :=
  rows ← l_read (fun w => take (Z.to_nat (maxSessionDeletionRows + 1)) (session_deletion_runs tenantID sessionID w));
  l_check (deletion_runs_loop tenantID sessionID requestOnly 0 rows).

Definition ensureSessionRunsTerminalTx (tenantID sessionID : string) : ltx unit :=
  ensureSessionRunsTerminalPolicyTx tenantID sessionID false.

(** The runs of a session by creation time and id. *)
Definition run_before (a b : Z * string) : bool :=
  if fst a =? fst b then String.ltb (snd a) (snd b) else fst a <? fst b.

Definition session_run_ids (tenantID sessionID : string) (limit : Z) (w : ldb) : list string :=
  map snd (take (Z.to_nat limit) (sort_by run_before
    (map_rows (runs_by_session w) (fun key _ =>
       if bool_decide (key.1.1 = (tenantID, sessionID)) then Some (key.1.2, key.2) else None)))).

Definition listSessionRunIDsTx (tenantID sessionID : string) (limit : Z) : ltx (list string) :=
  ids ← l_read (session_run_ids tenantID sessionID limit);
  _ ← l_reject (Z.of_nat (length ids) >? maxSessionDeletionRows)
        (ValidationError "session_deletion.runs" "exceeds the hard deletion bound");
  mret ids.

(** ** Pending worker receipts *)

Definition run_receipts (tenantID runID : string) (w : ldb) : list (receipt_key * receipt_row) :=
  map_rows (attached_worker_output_receipts w) (fun key row =>
    if bool_decide (key.1.1.1.1 = (tenantID, runID)) then Some (key, row) else None).

(** The rows of one run: the new total and the receipts to retire, or the error. *)
Fixpoint pending_rows (total : Z) (beforeWrites : list (receipt_key * receipt_row))
    (rows : list (receipt_key * receipt_row)) : error + (Z * list (receipt_key * receipt_row)) :=
  match rows with
  | [] => inr (total, beforeWrites)
  | (key, receipt) :: rest =>
      if total + 1 >? maxSessionDeletionRows
      then inl (ValidationError "session_deletion.receipts" "exceeds the hard deletion bound")
      else match rx_decode receipt with
      | Some e => inl e
      | None =>
          if notnil (rx_own_identity receipt) then inl ErrMembershipDenied
          else if rx_before_writes receipt then pending_rows (total + 1) (beforeWrites ++ [(key, receipt)]) rest
          else if negb (rx_settled receipt)
          then inl (ValidationError "session_deletion.receipts"
                      "pending attached-worker output receipt blocks deletion")
          else pending_rows (total + 1) beforeWrites rest
      end
  end.

(** The runs in turn; the total counts the runs and their receipts together, and
    each query is limited to one row more than what is left. *)
Fixpoint pending_runs (tenantID : string) (w : ldb) (total : Z) (beforeWrites : list (receipt_key * receipt_row))
    (runIDs : list string) : error + list (receipt_key * receipt_row) :=
  match runIDs with
  | [] => inr beforeWrites
  | runID :: rest =>
      match pending_rows total beforeWrites
              (take (Z.to_nat (wrap_u64 (maxSessionDeletionRows - total + 1))) (run_receipts tenantID runID w)) with
      | inl e => inl e
      | inr (total, beforeWrites) => pending_runs tenantID w total beforeWrites rest
      end
  end.

Definition retire_receipt (u : unmodelled) (entry : receipt_key * receipt_row) : ltx unit :=
  retired ← l_of (um_retire u entry.2);
  l_write (fun w => {| w with attached_worker_output_receipts :=
    alter (fun _ => retired.2) retired.1 (attached_worker_output_receipts w) |}).

Definition ensureNoPendingAttachedWorkerReceiptsTx (u : unmodelled) (tenantID sessionID : string) : ltx unit :=
  runIDs ← listSessionRunIDsTx tenantID sessionID (maxSessionDeletionRows + 1);
  beforeWrites ← l_query (fun w => pending_runs tenantID w (Z.of_nat (length runIDs)) [] runIDs);
  l_each (retire_receipt u) beforeWrites.

(** ** Legal holds *)

(** A method with a pointer receiver on a local copy: the changed copy, or the error. *)
Definition l_method {A} (x : A) (r : option A * option error) : ltx A :=
  match snd r with Some e => l_fail e | None => mret (default x (fst r)) end.

Definition put_hold_tx (hold : SessionLegalHold) : ltx SessionLegalHold :=
  let tenantID := lh_TenantID hold in
  let sessionID := lh_SessionID hold in
  session ← on_base (readSessionTx tenantID sessionID);
  _ ← l_reject (isnil session) (session_not_found sessionID);
  deleting ← readSessionDeletionTx tenantID sessionID;
  _ ← l_reject match deleting with
               | Some deletion => bool_decide (sd_State deletion = SessionDeletionDeleting)
                                  || bool_decide (sd_State deletion = SessionDeletionCompleted)
               | None => false
               end
        (ValidationError "session_legal_hold" "cannot establish a hold after destructive cleanup starts");
  found ← readSessionLegalHoldTx tenantID sessionID;
  let write :=
    _ ← writeSessionLegalHoldTx hold;
    _ ← appendSessionLifecycleAuditTx tenantID (lh_SetAt hold) (lh_SetBy hold) "session.legal_hold.set" sessionID
          [("reason", JStr (lh_Reason hold))];
    mret hold in
  match found with
  | None => write
  | Some existing =>
      if bool_decide (lh_State existing = SessionLegalHoldActive) then
        if String.eqb (lh_SetBy existing) (lh_SetBy hold) && String.eqb (lh_Reason existing) (lh_Reason hold)
        then mret existing else l_fail ErrSessionLifecycleConflict
      else
        _ ← l_reject match lh_ReleasedAt existing with
                     | Some released => before (lh_SetAt hold) released
                     | None => false
                     end
              (ValidationError "session_legal_hold.set_at" "must follow the prior release");
        write
  end.

Definition PutSessionLegalHold (hold : SessionLegalHold) (w : ldb) : (error + SessionLegalHold) * ldb :=
  match SessionLegalHold_Validate hold with
  | Some e => (inl e, w)
  | None =>
      if negb (bool_decide (lh_State hold = SessionLegalHoldActive))
      then (inl (ValidationError "session_legal_hold.state" "new holds must be active"), w)
      else LTransact (lh_TenantID hold) (put_hold_tx hold) w
  end.

Definition validateLifecycleIdentity (tenantID sessionID userID : string) (at_ : time) : option error :=
  check TenantID_Validate tenantID ;!
  check SessionID_Validate sessionID ;!
  check UserID_Validate userID ;!
  reject is_zero at_ with ValidationError "session_lifecycle.at" "must not be zero" ;!
  None.

Definition release_hold_tx (tenantID sessionID releasedBy : string) (at_ : time) : ltx SessionLegalHold :=
  found ← readSessionLegalHoldTx tenantID sessionID;
  match found with
  | None => l_fail (PlainError ("legal hold for session " +:+ quoted sessionID +:+ " not found") None)
  | Some hold =>
      if bool_decide (lh_State hold = SessionLegalHoldReleased) then mret hold else
      released ← l_method hold (Release (Some hold) releasedBy at_);
      _ ← writeSessionLegalHoldTx released;
      _ ← appendSessionLifecycleAuditTx tenantID at_ releasedBy "session.legal_hold.release" sessionID [];
      mret released
  end.

Definition ReleaseSessionLegalHold (tenantID sessionID releasedBy : string) (at_ : time) (w : ldb)
  : (error + SessionLegalHold) * ldb :=
  match validateLifecycleIdentity tenantID sessionID releasedBy at_ with
  | Some e => (inl e, w)
  | None => LTransact tenantID (release_hold_tx tenantID sessionID releasedBy at_) w
  end.

Definition GetSessionLegalHold (tenantID sessionID : string) (w : ldb) : error + option SessionLegalHold :=
  match TenantID_Validate tenantID with
  | Some e => inl e
  | None => match SessionID_Validate sessionID with
            | Some e => inl e
            | None => inr (session_legal_holds w !! (tenantID, sessionID))
            end
  end.

(** ** Requesting a deletion *)

Definition request_deletion_tx (u : unmodelled) (deletion : SessionDeletion) : ltx SessionDeletion :=
  let tenantID := sd_TenantID deletion in
  let sessionID := sd_SessionID deletion in
  found ← readSessionDeletionTx tenantID sessionID;
  match found with
  | Some existing =>
      if String.eqb (sd_RequestedBy existing) (sd_RequestedBy deletion)
         && String.eqb (sd_Reason existing) (sd_Reason deletion) then
        _ ← (if negb (bool_decide (sd_State existing = SessionDeletionCompleted))
             then ensureSessionRunsTerminalPolicyTx tenantID sessionID true else mret tt);
        mret existing
      else l_fail ErrSessionLifecycleConflict
  | None =>
      session ← on_base (readSessionTx tenantID sessionID);
      _ ← l_reject (isnil session) (session_not_found sessionID);
      _ ← authorizeTenantWriteTx tenantID (sd_RequestedBy deletion);
      _ ← authorizeSessionOwnerTx tenantID sessionID (sd_RequestedBy deletion);
      _ ← ensureNoActiveLegalHoldTx tenantID sessionID;
      heldBefore ← readSessionLegalHoldTx tenantID sessionID;
      _ ← l_reject match heldBefore with
                   | Some hold => match lh_ReleasedAt hold with
                                  | Some released => before (sd_RequestedAt deletion) released
                                  | None => false
                                  end
                   | None => false
                   end
            (ValidationError "session_deletion.requested_at" "must not precede the legal-hold release");
      _ ← ensureSessionRunsTerminalPolicyTx tenantID sessionID true;
      _ ← ensureNoPendingAttachedWorkerReceiptsTx u tenantID sessionID;
      _ ← writeSessionDeletionTx deletion;
      _ ← appendSessionLifecycleAuditTx tenantID (sd_RequestedAt deletion) (sd_RequestedBy deletion)
            "session.deletion.request" sessionID [("reason", JStr (sd_Reason deletion))];
      mret deletion
  end.

Definition RequestSessionDeletion (u : unmodelled) (deletion : SessionDeletion) (w : ldb)
  : (error + SessionDeletion) * ldb :=
  match SessionDeletion_Validate deletion with
  | Some e => (inl e, w)
  | None =>
      if negb (bool_decide (sd_State deletion = SessionDeletionRequested))
      then (inl (ValidationError "session_deletion.state" "new deletions must be requested"), w)
      else LTransact (sd_TenantID deletion) (request_deletion_tx u deletion) w
  end.

Definition GetSessionDeletion (tenantID sessionID : string) (w : ldb) : error + option SessionDeletion :=
  match TenantID_Validate tenantID with
  | Some e => inl e
  | None => match SessionID_Validate sessionID with
            | Some e => inl e
            | None => inr (session_deletions (base w) !! (tenantID, sessionID))
            end
  end.

(** ** Starting a deletion *)

(** [sessionDeletionContainsCustody]: the runs in turn, up to one with custody. *)
Fixpoint custody_runs (u : unmodelled) (tenantID sessionID : string) (seen : reads) (count : Z) (ids : list string)
  : error + bool :=
  match ids with
  | [] => inr false
  | id :: rest =>
      match runs (seen count q_custody_run) !! (tenantID, id) with
      | None => inl ErrMembershipDenied
      | Some stored =>
          let run := rr_run stored in
          if um_capture_read u id || notnil (Run_Validate run) || negb (String.eqb (run_ID run) id)
             || negb (String.eqb (run_TenantID run) tenantID) || negb (String.eqb (run_SessionID run) sessionID)
          then inl ErrMembershipDenied
          else if notnil (run_TerminalCustody run) then inr true
          else custody_runs u tenantID sessionID seen (count + 1) rest
      end
  end.

Definition sessionDeletionContainsCustody (u : unmodelled) (tenantID sessionID : string) (seen : reads)
  : error + bool :=
  let ids := session_run_ids tenantID sessionID (maxSessionDeletionRows + 1) (seen 0 q_custody_runs) in
  let n := Z.of_nat (length ids) in
  if (n >? maxSessionDeletionRows) || um_capture_runs u n then inl ErrMembershipDenied
  else custody_runs u tenantID sessionID seen 0 ids.

Definition deletion_not_found (sessionID : string) : error :=
  PlainError ("deletion for session " +:+ quoted sessionID +:+ " not found") None.

Definition start_deletion_tx (u : unmodelled) (tenantID sessionID : string) (at_ : time) : ltx SessionDeletion :=
  found ← readSessionDeletionTx tenantID sessionID;
  match found with
  | None => l_fail (deletion_not_found sessionID)
  | Some deletion =>
      if bool_decide (sd_State deletion = SessionDeletionCompleted) then mret deletion else
      _ ← ensureNoActiveLegalHoldTx tenantID sessionID;
      _ ← ensureSessionRunsTerminalTx tenantID sessionID;
      if bool_decide (sd_State deletion = SessionDeletionDeleting) then mret deletion else
      _ ← ensureNoPendingAttachedWorkerReceiptsTx u tenantID sessionID;
      started ← l_method deletion (Start (Some deletion) at_);
      _ ← writeSessionDeletionTx started;
      _ ← appendSessionLifecycleAuditTx tenantID at_ (sd_RequestedBy started) "session.deletion.start" sessionID [];
      mret started
  end.

(** [reader] says whether the store has a blob reader.  [None]: the retained path. *)
Definition StartSessionDeletion (u : unmodelled) (reader : bool) (tenantID sessionID : string) (at_ : time)
    (seen : reads) (w : ldb) : option ((error + SessionDeletion) * ldb) :=
  match TenantID_Validate tenantID, SessionID_Validate sessionID with
  | Some e, _ | None, Some e => Some (inl e, w)
  | None, None =>
      if is_zero at_ then Some (inl (ValidationError "session_deletion.started_at" "must not be zero"), w)
      else
        let retained :=
          match session_deletions (base (seen 0 q_method_deletion)) !! (tenantID, sessionID) with
          | Some stored =>
              if negb (bool_decide (sd_State stored = SessionDeletionCompleted))
                 && (reader || notnil (sd_RetainedVerification stored))
              then if notnil (sd_RetainedVerification stored) then inr true
                   else sessionDeletionContainsCustody u tenantID sessionID seen
              else inr false
          | None => inr false
          end in
        match retained with
        | inl e => Some (inl e, w)
        | inr true => None
        | inr false => Some (LTransact tenantID (start_deletion_tx u tenantID sessionID at_) w)
        end
  end.
