(* ===== verification/LifecycleInventory.v ===== *)
(** * The inventory of a session deletion
      ([internal/ydbstore/session_lifecycle.go], [session_deletion_inventory_query.go])

    The exact list of the objects and the counts of the rows of a session, built
    by bounded reads: events and snapshots in pages, the rows of the other session
    tables, and for each run its receipts, manifests, deliveries and checkpoints,
    from the indexes and, until the indexes have been backfilled, the canonical
    tables too.  The reads are queries of their own: [seen] gives the tables each of
    them finds, which in a transaction is one state. *)

From S2P Require Import Prelude GoText GoTime Sorting Errors Identity Blobs Lifecycle Runs Work Sessions.
From S2P Require Import Deliveries Memberships Store SessionStore LifecycleTables LifecycleStore.
From stdpp Require Import gmap sets.
#[local] Open Scope Z_scope.

(** ** Reads *)

Definition sessionLifecycleIndexesReady (w : ldb) : bool :=
  match lifecycle_backfill w with Some completedAt => negb (is_zero completedAt) | None => false end.

Definition readLifecycleDelivery (tenantID runID deliveryID : string) (at_ : query -> ldb)
  : option TelegramDeliveryOutbox :=
  match telegram_deliveries_by_run (at_ (q_delivery Index)) !! (tenantID, runID, deliveryID) with
  | Some delivery => Some delivery
  | None =>
      if sessionLifecycleIndexesReady (at_ (q_delivery Ready)) then None
      else telegram_delivery_outbox (at_ (q_delivery Canonical)) !! (tenantID, deliveryID)
  end.

(** The canonical checkpoints are keyed by attempt and sequence: the query is by
    run and id and takes the first row it returns. *)
Definition canonical_checkpoint (tenantID runID checkpointID : string) (w : ldb) : option Checkpoint :=
  head (map_rows (checkpoints w) (fun key checkpoint =>
    if bool_decide (key.1.1 = tenantID) && String.eqb (ckpt_RunID checkpoint) runID
       && String.eqb (ckpt_ID checkpoint) checkpointID then Some checkpoint else None)).

Definition readLifecycleCheckpoint (tenantID runID checkpointID : string) (at_ : query -> ldb) : option Checkpoint :=
  match checkpoint_objects_by_run (at_ (q_checkpoint Index)) !! (tenantID, runID, checkpointID) with
  | Some checkpoint => Some checkpoint
  | None =>
      if sessionLifecycleIndexesReady (at_ (q_checkpoint Ready)) then None
      else canonical_checkpoint tenantID runID checkpointID (at_ (q_checkpoint Canonical))
  end.

Definition lifecyclePageLimit (remaining : Z) : Z :=
  if remaining =? 0 then 1
  else if remaining >=? maxSessionPageSize then maxSessionPageSize
  else remaining.

(** The loops over both lists; [merged] are the ids so far. *)
Fixpoint merge_ids (limit : Z) (merged ids : list string) : list string :=
  match ids with
  | [] => merged
  | id :: rest =>
      if bool_decide (id ∈ merged) then merge_ids limit merged rest
      else if Z.of_nat (length (merged ++ [id])) =? limit then merged ++ [id]
      else merge_ids limit (merged ++ [id]) rest
  end.

Definition mergeBoundedStringIDs (primary fallback : list string) (limit : Z) : list string :=
  sorted_ids (merge_ids limit [] (primary ++ fallback)).

(** [deletionInventoryIDs]: the rows a query with [LIMIT limit] returns. *)
Definition deletionInventoryIDs {A} (limit : Z) (rows : list A) : error + list A :=
  if (limit =? 0) || (limit >? maxSessionDeletionRows + 1) then inl ErrMembershipDenied
  else inr (take (Z.to_nat limit) rows).

(** [deletionInventoryIndexedIDs]: [index] in id order, and before the backfill
    the ids of the [canonical] table. *)
Definition deletionInventoryIndexedIDs (at_ : query_part -> ldb) (index canonical : ldb -> list string) (limit : Z)
  : error + list string :=
  match deletionInventoryIDs limit (sorted_ids (index (at_ Index))) with
  | inl e => inl e
  | inr primary =>
      if sessionLifecycleIndexesReady (at_ Ready) then inr primary else
      match deletionInventoryIDs limit (canonical (at_ Canonical)) with
      | inl e => inl e
      | inr legacy => inr (mergeBoundedStringIDs primary legacy limit)
      end
  end.

Section Rows.
Context (tenantID : string) (w : ldb).

Definition binding_index (sessionID : string) : list string :=
  set_rows (frontend_bindings_by_session (base w)) (owned_by tenantID sessionID).
Definition binding_rows (sessionID : string) : list string :=
  map_rows (frontend_bindings (base w)) (fun key binding =>
    if String.eqb key.1 tenantID && String.eqb (fb_SessionID binding) sessionID then Some key.2 else None).

Definition projection_index (sessionID : string) : list string :=
  set_rows (frontend_projections_by_session w) (owned_by tenantID sessionID).
Definition projection_rows (sessionID : string) : list string :=
  map_rows (frontend_projection_outbox w) (fun key projection =>
    if String.eqb key.1 tenantID && String.eqb (fp_SessionID projection) sessionID then Some key.2 else None).

Definition manifest_index (runID : string) : list string :=
  set_rows (artifact_manifests_by_run w) (owned_by tenantID runID).
Definition manifest_rows (runID : string) : list string :=
  map_rows (artifact_manifests w) (fun key manifest =>
    if String.eqb key.1 tenantID && String.eqb (am_RunID manifest) runID then Some key.2 else None).

Definition delivery_index (runID : string) : list string :=
  map_rows (telegram_deliveries_by_run w) (fun key _ => owned_by tenantID runID key).
Definition delivery_rows (runID : string) : list string :=
  map_rows (telegram_delivery_outbox w) (fun key delivery =>
    if String.eqb key.1 tenantID && String.eqb (td_RunID delivery) runID then Some key.2 else None).

Definition checkpoint_index (runID : string) : list string :=
  map_rows (checkpoint_objects_by_run w) (fun key _ => owned_by tenantID runID key).
Definition checkpoint_rows (runID : string) : list string :=
  map_rows (checkpoints w) (fun key checkpoint =>
    if String.eqb key.1.1 tenantID && String.eqb (ckpt_RunID checkpoint) runID
    then Some (ckpt_ID checkpoint) else None).

Definition GetArtifactManifest (manifestID : string) : error + option ArtifactManifest :=
  match TenantID_Validate tenantID with
  | Some e => inl e
  | None => match ArtifactManifestID_Validate manifestID with
            | Some e => inl e
            | None => inr (artifact_manifests w !! (tenantID, manifestID))
            end
  end.

(** [ORDER BY owner_user_id, worker_id, attempt_id, lease_generation]. *)
Definition receipt_before (a b : receipt_key * receipt_row) : bool :=
  let '(_, _, owner, worker, attempt, generation) := a.1 in
  let '(_, _, owner', worker', attempt', generation') := b.1 in
  if negb (String.eqb owner owner') then String.ltb owner owner'
  else if negb (String.eqb worker worker') then String.ltb worker worker'
  else if negb (String.eqb attempt attempt') then String.ltb attempt attempt'
  else generation <? generation'.

Fixpoint decoded_receipts (rows : list (receipt_key * receipt_row)) : error + list receipt_row :=
  match rows with
  | [] => inr []
  | (_, row) :: rest =>
      match rx_decode row, rx_identity row with
      | Some e, _ | None, Some e => inl e
      | None, None => match decoded_receipts rest with inl e => inl e | inr l => inr (row :: l) end
      end
  end.

Definition listRunOutputReceipts (runID : string) (limit : Z) : error + list receipt_row :=
  match deletionInventoryIDs limit (sort_by receipt_before (run_receipts tenantID runID w)) with
  | inl e => inl e
  | inr rows => decoded_receipts rows
  end.

(** [listOwnedSessionAdmissionKeys]: the attempts in order, with their runs. *)
Definition admission_rows (sessionID : string) : list (string * string) :=
  sort_by (fun a b => String.ltb (fst a) (fst b))
    (map_rows (admissions_by_session w) (fun key run =>
       if bool_decide (key.1 = (tenantID, sessionID)) then Some (key.2, run) else None)).

Definition admission_denied (limit : Z) (index : nat) (row : string * string) : bool :=
  let attempt := bounded_text (fst row) in
  let run := bounded_text (snd row) in
  (len attempt >? 160) || (len run >? 160) || notnil (AttemptID_Validate attempt)
  || notnil (RunID_Validate run) || (Z.of_nat index >=? limit).

Definition listOwnedSessionAdmissionKeys (sessionID : string) (limit : Z) : error + list (string * string) :=
  if notnil (TenantID_Validate tenantID) || notnil (SessionID_Validate sessionID)
     || (limit >? maxSessionDeletionRows) then inl ErrMembershipDenied
  else
    let rows := take (Z.to_nat (limit + 1)) (admission_rows sessionID) in
    if existsb (fun row => admission_denied limit row.1 row.2) (imap pair rows) then inl ErrMembershipDenied
    else inr (map (fun row => (bounded_text (fst row), bounded_text (snd row))) rows).

Definition countSessionMaterialRows {A} (rows : list A) (remaining : Z) : error + nat :=
  let read := take (Z.to_nat (wrap_u64 (remaining + 1))) rows in
  if Z.of_nat (length read) >? remaining then inl ErrMembershipDenied else inr (length read).

Definition participant_ids (sessionID : string) : list string :=
  sorted_ids (map_rows (session_participants (base w)) (fun key _ => owned_by tenantID sessionID key)).

Definition countSessionParticipantRows (sessionID : string) (remaining : Z) : error + nat :=
  match deletionInventoryIDs (wrap_u64 (remaining + 1)) (participant_ids sessionID) with
  | inl e => inl e
  | inr ids => if Z.of_nat (length ids) >? remaining then inl ErrMembershipDenied else inr (length ids)
  end.

Definition material_current_rows (sessionID : string) : list string :=
  map_rows (session_material_current (base w)) (fun key _ =>
    if bool_decide (key = (tenantID, sessionID)) then Some key.2 else None).
Definition material_boundary_rows (sessionID : string) : list Z :=
  map_rows (session_material_boundaries (base w)) (fun key _ =>
    if bool_decide (key.1 = (tenantID, sessionID)) then Some key.2 else None).
Definition material_snapshot_rows (sessionID : string) : list Z :=
  set_rows (session_snapshot_material w) (fun key =>
    if bool_decide (key.1 = (tenantID, sessionID)) then Some key.2 else None).
End Rows.

(** The listings, each of up to three queries. *)
Definition listSessionBindingIDs (tenantID : string) (at_ : query -> ldb) (sessionID : string)
  : Z -> error + list string :=
  deletionInventoryIndexedIDs (fun part => at_ (q_bindings part))
    (fun w => binding_index tenantID w sessionID) (fun w => binding_rows tenantID w sessionID).
Definition listSessionProjectionIDs (tenantID : string) (at_ : query -> ldb) (sessionID : string)
  : Z -> error + list string :=
  deletionInventoryIndexedIDs (fun part => at_ (q_projections part))
    (fun w => projection_index tenantID w sessionID) (fun w => projection_rows tenantID w sessionID).
Definition listRunManifestIDs (tenantID : string) (at_ : query -> ldb) (runID : string)
  : Z -> error + list string :=
  deletionInventoryIndexedIDs (fun part => at_ (q_manifests part))
    (fun w => manifest_index tenantID w runID) (fun w => manifest_rows tenantID w runID).
Definition listRunDeliveryIDs (tenantID : string) (at_ : query -> ldb) (runID : string)
  : Z -> error + list string :=
  deletionInventoryIndexedIDs (fun part => at_ (q_deliveries part))
    (fun w => delivery_index tenantID w runID) (fun w => delivery_rows tenantID w runID).
Definition listRunCheckpointIDs (tenantID : string) (at_ : query -> ldb) (runID : string)
  : Z -> error + list string :=
  deletionInventoryIndexedIDs (fun part => at_ (q_checkpoints part))
    (fun w => checkpoint_index tenantID w runID) (fun w => checkpoint_rows tenantID w runID).

(** ** Building *)

(** The builder's variables: the objects by key, the rows used and the inventory. *)
Record building := {
  bd_objects : gmap string BlobRef;
  bd_rows : Z;
  bd_inventory : SessionDeletionInventory }.

#[global] Instance result_ret : MRet (sum error) := fun _ => inr.
#[global] Instance result_bind : MBind (sum error) := fun _ _ f m =>
  match m with inl e => inl e | inr x => f x end.

Definition fails {A} (b : bool) (e : error) (x : A) : error + A := if b then inl e else inr x.

Fixpoint fold_steps {A S} (f : A -> S -> error + S) (l : list A) (s : S) : error + S :=
  match l with [] => inr s | x :: r => match f x s with inl e => inl e | inr s' => fold_steps f r s' end end.

Section Build.
Context (u : unmodelled) (tenantID sessionID : string) (maxRows maxObjects : Z) (seen : reads).

(** What the next queries find: their caller has charged the rows of [b]. *)
Definition now (b : building) : query -> ldb := seen (bd_rows b).

Definition addRow (b : building) : error + building :=
  let rowsUsed := wrap_u64 (bd_rows b + 1) in
  fails (rowsUsed >? maxRows) (ValidationError "session_deletion.rows" "exceeds the configured inventory bound")
    {| b with bd_rows := rowsUsed |}.

Definition addObject (ref : BlobRef) (b : building) : error + building :=
  match BlobRef_Validate ref, EnsureSameTenant tenantID (br_TenantID ref) with
  | Some e, _ | None, Some e => inl e
  | None, None =>
      match bd_objects b !! br_Key ref with
      | Some previous =>
          fails (negb (bool_decide (previous = ref)))
            (PlainError ("object " +:+ quoted (br_Key ref) +:+ " has conflicting immutable metadata") None) b
      | None =>
          let i := bd_inventory b in
          if Z.of_nat (size (bd_objects b)) >=? maxObjects
          then inl (ValidationError "session_deletion.objects" "exceeds the configured exact-object bound")
          else if wrap_u64 (br_Size ref) >? max_u64 - inv_TotalBytes i
          then inl (ValidationError "session_deletion.total_bytes" "overflowed")
          else inr {| b with bd_objects := <[br_Key ref := ref]> (bd_objects b);
                      bd_inventory := {| i with
                        inv_TotalBytes := wrap_u64 (inv_TotalBytes i + wrap_u64 (br_Size ref)) |} |}
      end
  end.

Definition remaining (b : building) : Z := wrap_u64 (maxRows - bd_rows b).

(** A row is charged and counted; [count] increments its counter. *)
Definition countedRow (count : SessionDeletionInventory -> SessionDeletionInventory) (b : building)
  : error + building :=
  b ← addRow b;
  mret {| b with bd_inventory := count (bd_inventory b) |}.

Definition countedRows {A} (count : SessionDeletionInventory -> SessionDeletionInventory) (l : list A)
  : building -> error + building := fold_steps (fun _ => countedRow count) l.

(** The loop over pages; [None] when the fuel is out. *)
Fixpoint pages {V} (read : building -> Z -> Z -> list V) (number : V -> Z) (payload : V -> BlobRef)
    (count : SessionDeletionInventory -> SessionDeletionInventory) (fuel : nat) (after : Z) (b : building)
  : option (error + building) :=
  match fuel with
  | O => None
  | S fuel =>
      let pageLimit := lifecyclePageLimit (remaining b) in
      match deletionInventoryIDs pageLimit (read b after pageLimit) with
      | inl e => Some (inl e)
      | inr rows =>
          match fold_steps (fun row b => b ← countedRow count b; addObject (payload row) b) rows b with
          | inl e => Some (inl e)
          | inr b' =>
              if (Z.of_nat (length rows) =? 0) || (Z.of_nat (length rows) <? pageLimit) then Some (inr b')
              else pages read number payload count fuel (default after (number <$> last rows)) b'
          end
      end
  end.

(** Every page that does not end the loop charges a row. *)
Definition page_fuel : nat := S (S (Z.to_nat maxRows)).

Definition event_pages : building -> option (error + building) :=
  pages (fun b => page (session_events (base (now b q_events))) tenantID sessionID) se_Sequence se_Payload
    (fun i => {| i with inv_EventRows := wrap_u64 (inv_EventRows i + 1) |}) page_fuel 0.

Definition snapshot_pages : building -> option (error + building) :=
  pages (fun b => page (session_snapshots (base (now b q_snapshots))) tenantID sessionID) ss_Version ss_Payload
    (fun i => {| i with inv_SnapshotRows := wrap_u64 (inv_SnapshotRows i + 1) |}) page_fuel 0.

(** The rows of the session's other tables, in the code's order. *)
Definition session_rows (b : building) : error + building :=
  n ← countSessionMaterialRows (material_current_rows tenantID (now b q_material_current) sessionID) (remaining b);
  b ← countedRows (fun i => {| i with inv_MaterialCurrentRows := wrap_u64 (inv_MaterialCurrentRows i + 1) |})
        (seq 0 n) b;
  n ← countSessionMaterialRows (material_boundary_rows tenantID (now b q_material_boundaries) sessionID) (remaining b);
  b ← countedRows (fun i => {| i with inv_MaterialBoundaryRows := wrap_u64 (inv_MaterialBoundaryRows i + 1) |})
        (seq 0 n) b;
  n ← countSessionMaterialRows (material_snapshot_rows tenantID (now b q_material_snapshots) sessionID) (remaining b);
  b ← countedRows (fun i => {| i with inv_MaterialSnapshotRows := wrap_u64 (inv_MaterialSnapshotRows i + 1) |})
        (seq 0 n) b;
  n ← countSessionParticipantRows tenantID (now b q_participants) sessionID (remaining b);
  b ← countedRows (fun i => {| i with inv_ParticipantRows := wrap_u64 (inv_ParticipantRows i + 1) |}) (seq 0 n) b;
  bindingIDs ← listSessionBindingIDs tenantID (now b) sessionID (wrap_u64 (remaining b + 1));
  b ← countedRows (fun i => {| i with inv_BindingRows := wrap_u64 (inv_BindingRows i + 1) |}) bindingIDs b;
  projectionIDs ← listSessionProjectionIDs tenantID (now b) sessionID (wrap_u64 (remaining b + 1));
  countedRows (fun i => {| i with inv_ProjectionRows := wrap_u64 (inv_ProjectionRows i + 1) |}) projectionIDs b.

Definition receipt_step (receipt : receipt_row) (b : building) : error + building :=
  if negb (rx_settled receipt)
  then inl (ValidationError "session_deletion.receipts"
              "pending attached-worker output receipt blocks exact-object inventory")
  else
    b ← countedRow (fun i => {| i with inv_ReceiptRows := wrap_u64 (inv_ReceiptRows i + 1) |}) b;
    fold_steps addObject (rx_objects receipt) b.

Definition inconsistent (kind id : string) : error :=
  PlainError (kind +:+ " index references inconsistent " +:+ kind +:+ " " +:+ quoted id) None.

(** The counter moves after the record has been found and matched. *)
Definition matchedRow {V} (found : option V) (runOf : V -> string) (runID : string) (e : error)
    (count : SessionDeletionInventory -> SessionDeletionInventory) (objects : V -> list BlobRef) (b : building)
  : error + building :=
  match found with
  | Some v =>
      if negb (String.eqb (runOf v) runID) then inl e
      else fold_steps addObject (objects v) {| b with bd_inventory := count (bd_inventory b) |}
  | None => inl e
  end.

Definition manifest_step (runID manifestID : string) (b : building) : error + building :=
  b ← addRow b;
  found ← GetArtifactManifest tenantID (now b q_manifest) manifestID;
  matchedRow found am_RunID runID (inconsistent "manifest" manifestID)
    (fun i => {| i with inv_ManifestRows := wrap_u64 (inv_ManifestRows i + 1) |})
    (fun manifest => map art_Blob (am_Artifacts manifest)) b.

Definition delivery_step (runID deliveryID : string) (b : building) : error + building :=
  b ← addRow b;
  matchedRow (readLifecycleDelivery tenantID runID deliveryID (now b)) td_RunID runID (inconsistent "delivery" deliveryID)
    (fun i => {| i with inv_DeliveryRows := wrap_u64 (inv_DeliveryRows i + 1) |})
    (fun delivery => if negb (String.eqb (br_Key (td_Payload delivery)) "") then [td_Payload delivery] else []) b.

Definition checkpoint_step (runID checkpointID : string) (b : building) : error + building :=
  b ← addRow b;
  matchedRow (readLifecycleCheckpoint tenantID runID checkpointID (now b)) ckpt_RunID runID
    (inconsistent "checkpoint" checkpointID)
    (fun i => {| i with inv_CheckpointRows := wrap_u64 (inv_CheckpointRows i + 1) |})
    (fun checkpoint => [ckpt_State checkpoint]) b.

Definition run_step_rows (runID : string) (b : building) : error + building :=
  b ← countedRow (fun i => {| i with inv_RunRows := wrap_u64 (inv_RunRows i + 1);
                              inv_RunIDs := inv_RunIDs i ++ [runID] |}) b;
  receipts ← listRunOutputReceipts tenantID (now b q_receipts) runID (wrap_u64 (remaining b + 1));
  b ← fold_steps receipt_step receipts b;
  manifestIDs ← listRunManifestIDs tenantID (now b) runID (wrap_u64 (remaining b + 1));
  b ← fold_steps (manifest_step runID) manifestIDs b;
  deliveryIDs ← listRunDeliveryIDs tenantID (now b) runID (wrap_u64 (remaining b + 1));
  b ← fold_steps (delivery_step runID) deliveryIDs b;
  checkpointIDs ← listRunCheckpointIDs tenantID (now b) runID (wrap_u64 (remaining b + 1));
  fold_steps (checkpoint_step runID) checkpointIDs b.

Definition run_rows (b : building) : error + building :=
  runIDs ← deletionInventoryIDs (wrap_u64 (remaining b + 1))
             (session_run_ids tenantID sessionID (wrap_u64 (remaining b + 1)) (now b q_runs));
  admissions ← listOwnedSessionAdmissionKeys tenantID (now b q_admissions) sessionID (remaining b);
  b ← countedRows (fun i => {| i with inv_OwnedAdmissionRows := wrap_u64 (inv_OwnedAdmissionRows i + 1) |})
        admissions b;
  fold_steps run_step_rows runIDs b.

Definition empty_inventory : SessionDeletionInventory :=
  {| inv_TenantID := tenantID; inv_SessionID := sessionID; inv_Objects := []; inv_EventRows := 0;
     inv_SnapshotRows := 0; inv_MaterialCurrentRows := 0; inv_MaterialBoundaryRows := 0;
     inv_MaterialSnapshotRows := 0; inv_RunRows := 0; inv_ManifestRows := 0; inv_DeliveryRows := 0;
     inv_CheckpointRows := 0; inv_ReceiptRows := 0; inv_ParticipantRows := 0; inv_OwnedAdmissionRows := 0;
     inv_BindingRows := 0; inv_ProjectionRows := 0; inv_RetainedRows := 0; inv_RunIDs := [];
     inv_TotalBytes := 0 |}.

(** The objects in key order, and the final validation. *)
Definition finish_inventory (b : building) : error + SessionDeletionInventory :=
  let objectKeys := sorted_ids (map fst (map_to_list (bd_objects b))) in
  let i := bd_inventory b in
  let inventory := {| i with inv_Objects := omap (fun key => bd_objects b !! key) objectKeys |} in
  match SessionDeletionInventory_Validate inventory maxObjects with Some e => inl e | None => inr inventory end.

Definition limits_refused : bool :=
  (maxRows =? 0) || (maxRows >? maxSessionDeletionRows) || (maxObjects =? 0) || (maxObjects >? maxSessionDeletionRows).

(** [None] only when the page loops run out of fuel. *)
Definition buildSessionDeletionInventory : option (error + SessionDeletionInventory) :=
  match TenantID_Validate tenantID, SessionID_Validate sessionID with
  | Some e, _ | None, Some e => Some (inl e)
  | None, None =>
      if limits_refused
      then Some (inl (ValidationError "session_deletion.inventory_limit" "must be between 1 and 10000"))
      else if match session_deletions (base (seen 0 q_deletion)) !! (tenantID, sessionID) with
              | Some deletion => bool_decide (sd_State deletion = SessionDeletionCompleted)
              | None => true
              end
      then Some (inl (ValidationError "session_deletion" "must be requested and incomplete before inventory"))
      else
        match event_pages {| bd_objects := ∅; bd_rows := 0; bd_inventory := empty_inventory |} with
        | None => None
        | Some (inl e) => Some (inl e)
        | Some (inr b) =>
            match snapshot_pages b with
            | None => None
            | Some (inl e) => Some (inl e)
            | Some (inr b) => Some (b ← session_rows b; b ← run_rows b; finish_inventory b)
            end
        end
  end.

(** The store's method.  [None]: the retained path, or out of fuel. *)
Definition BuildSessionDeletionInventory : option (error + SessionDeletionInventory) :=
  if notnil (TenantID_Validate tenantID) || notnil (SessionID_Validate sessionID) || limits_refused
  then Some (inl ErrMembershipDenied)
  else
    let retained :=
      match session_deletions (base (seen 0 q_stored_deletion)) !! (tenantID, sessionID) with
      | Some stored =>
          if negb (bool_decide (sd_State stored = SessionDeletionCompleted))
          then if notnil (sd_RetainedVerification stored) then inr true
               else sessionDeletionContainsCustody u tenantID sessionID seen
          else inr false
      | None => inr false
      end in
    match retained with
    | inl e => Some (inl e)
    | inr true => None
    | inr false => buildSessionDeletionInventory
    end.
End Build.
