(* ===== verification/LifecycleErase.v ===== *)
(** * Erasing a session ([internal/ydbstore/session_lifecycle.go])

    The row deletions of a completed session deletion and the transaction that
    performs them after rebuilding the inventory and comparing it with the one the
    objects were deleted from. *)

From S2P Require Import Prelude GoText GoTime Json Digests Sorting Errors Identity Blobs Lifecycle Runs Work.
From S2P Require Import Sessions Deliveries Memberships Store SessionStore LifecycleTables LifecycleStore.
From S2P Require Import LifecycleInventory.
From stdpp Require Import gmap sets.
#[local] Open Scope Z_scope.

(** ** Delete statements *)

(** [DELETE ... WHERE] on the leading columns of a key: the rows that stay. *)
Definition without {K V} `{Countable K} (match_ : K -> bool) (m : gmap K V) : gmap K V :=
  filter (fun row => match_ row.1 = false) m.
Definition without_keys {K} `{Countable K} (match_ : K -> bool) (m : gset K) : gset K :=
  filter (fun key => match_ key = false) m.

Definition owned2 (a b : string) (key : string * string) : bool := bool_decide (key = (a, b)).
Definition owned3 {C} (a b : string) (key : string * string * C) : bool := bool_decide (key.1 = (a, b)).
Definition owned4 {C D} (a b : string) (key : string * string * C * D) : bool := bool_decide (key.1.1 = (a, b)).

(** ** Owned admissions *)

Definition delete_admission (u : unmodelled) (tenantID sessionID : string) (key : string * string) : ltx unit :=
  _ ← l_check (um_admission u (fst key));
  l_write (fun w => {| w with
    admissions := admissions w ∖ {[ (tenantID, fst key) ]};
    admissions_by_session := delete (tenantID, sessionID, fst key) (admissions_by_session w) |}).

Definition deleteOwnedSessionAdmissionsTx (u : unmodelled) (tenantID sessionID : string) : ltx unit :=
  keys ← l_query (fun w => listOwnedSessionAdmissionKeys tenantID w sessionID maxSessionDeletionRows);
  l_each (delete_admission u tenantID sessionID) keys.

(** ** Bindings *)

Definition binding_bound : error := ValidationError "frontend_bindings" "exceeds the configured bound".

(** The canonical rows in turn, added when the index did not list them. *)
Fixpoint legacy_bindings (maxRows : Z) (bindingIDs rows : list string) : error + list string :=
  match rows with
  | [] => inr bindingIDs
  | id :: rest =>
      let ids := if bool_decide (id ∈ bindingIDs) then bindingIDs else bindingIDs ++ [id] in
      if Z.of_nat (length ids) >? maxRows then inl binding_bound else legacy_bindings maxRows ids rest
  end.

Definition current_binding_ids (tenantID sessionID : string) (maxRows : Z) (w : ldb) : error + list string :=
  let limit := Z.to_nat (wrap_u64 (maxRows + 1)) in
  let bindingIDs := take limit (binding_index tenantID w sessionID) in
  if Z.of_nat (length bindingIDs) >? maxRows then inl binding_bound
  else if sessionLifecycleIndexesReady w then inr bindingIDs
  else match legacy_bindings maxRows bindingIDs (take limit (binding_rows tenantID w sessionID)) with
       | inl e => inl e
       | inr ids => inr (sorted_ids ids)
       end.

Fixpoint read_bindings (tenantID sessionID : string) (w : ldb) (ids : list string) : error + list FrontendBinding :=
  match ids with
  | [] => inr []
  | id :: rest =>
      match frontend_bindings (base w) !! (tenantID, id) with
      | None => inl (PlainError ("frontend binding session index references missing binding " +:+ quoted id) None)
      | Some binding =>
          match FrontendBinding_Validate binding with
          | Some e => inl e
          | None =>
              if negb (String.eqb (fb_TenantID binding) tenantID) || negb (String.eqb (fb_SessionID binding) sessionID)
              then inl (ValidationError "frontend_binding" "query returned a cross-boundary binding")
              else match read_bindings tenantID sessionID w rest with inl e => inl e | inr l => inr (binding :: l) end
          end
      end
  end.

Definition currentSessionBindingsTx (tenantID sessionID : string) (maxRows : Z) : ltx (list FrontendBinding) :=
  l_query (fun w => match current_binding_ids tenantID sessionID maxRows w with
                    | inl e => inl e
                    | inr ids => read_bindings tenantID sessionID w ids
                    end).

Definition erase_binding (tenantID sessionID : string) (binding : FrontendBinding) (d : db) : db :=
  {| d with
     frontend_binding_keys :=
       delete (tenantID, fb_Frontend binding, fb_ExternalConversationID binding) (frontend_binding_keys d);
     frontend_bindings := delete (tenantID, fb_ID binding) (frontend_bindings d);
     frontend_bindings_by_session :=
       frontend_bindings_by_session d ∖ {[ (tenantID, sessionID, fb_ID binding) ]} |}.

(** ** Projections *)

(** A listing inside the transaction: the index up to the bound, and before the
    backfill the canonical table too. *)
Definition indexed_ids_tx (bound : option error) (index canonical : ldb -> list string) (limit : Z)
  : ltx (list string) :=
  ids ← l_read (fun w => take (Z.to_nat limit) (index w));
  _ ← l_check match bound with
              | Some e => if Z.of_nat (length ids) >? maxSessionDeletionRows then Some e else None
              | None => None
              end;
  ready ← l_read sessionLifecycleIndexesReady;
  if (ready : bool) then mret ids else
  legacy ← l_read (fun w => take (Z.to_nat limit) (canonical w));
  mret (mergeBoundedStringIDs ids legacy limit).

Definition listSessionProjectionIDsTx (tenantID sessionID : string) (limit : Z) : ltx (list string) :=
  indexed_ids_tx None (fun w => projection_index tenantID w sessionID)
    (fun w => projection_rows tenantID w sessionID) limit.

Definition deleteFrontendProjectionTx (projection : FrontendProjection) (runID : string) : ltx unit :=
  bucket ← l_of (BucketV1 (fp_ID projection));
  l_write (fun w => {| w with
    frontend_projection_ready := frontend_projection_ready w ∖
      {[ (fp_Frontend projection, bucket, ydb_timestamp (fp_CreatedAt projection), fp_TenantID projection,
          fp_ID projection) ]};
    frontend_projections_by_run := frontend_projections_by_run w ∖
      {[ (fp_TenantID projection, runID, fp_Frontend projection, fp_ID projection) ]};
    frontend_projections_by_session := frontend_projections_by_session w ∖
      {[ (fp_TenantID projection, fp_SessionID projection, fp_ID projection) ]};
    frontend_projection_outbox :=
      delete (fp_TenantID projection, fp_ID projection) (frontend_projection_outbox w) |}).

Definition erase_projection (tenantID id : string) : ltx unit :=
  found ← l_read (fun w => frontend_projection_outbox w !! (tenantID, id));
  match found with
  | None => mret tt
  | Some projection =>
      event ← l_read (fun w =>
        session_events (base w) !! (tenantID, fp_SessionID projection, fp_EventSequence projection));
      match event ≫= se_RunID with
      | None => l_fail (PlainError ("projection " +:+ quoted id +:+ " has no canonical run during deletion") None)
      | Some runID => deleteFrontendProjectionTx projection runID
      end
  end.

(** ** Runs *)

Definition hard_bound (field : string) : option error :=
  Some (ValidationError field "exceeds the hard deletion bound").

Definition listRunManifestIDsTx (tenantID runID : string) : Z -> ltx (list string) :=
  indexed_ids_tx (hard_bound "session_deletion.manifests") (fun w => sorted_ids (manifest_index tenantID w runID))
    (fun w => manifest_rows tenantID w runID).
Definition listRunDeliveryIDsTx (tenantID runID : string) : Z -> ltx (list string) :=
  indexed_ids_tx (hard_bound "session_deletion.deliveries") (fun w => sorted_ids (delivery_index tenantID w runID))
    (fun w => delivery_rows tenantID w runID).
Definition listRunCheckpointIDsTx (tenantID runID : string) : Z -> ltx (list string) :=
  indexed_ids_tx (hard_bound "session_deletion.checkpoints")
    (fun w => sorted_ids (checkpoint_index tenantID w runID)) (fun w => checkpoint_rows tenantID w runID).

Definition erase_manifest (tenantID manifestID : string) : ltx unit :=
  l_write (fun w => {| w with artifact_manifests := delete (tenantID, manifestID) (artifact_manifests w) |}).

Definition telegramDeliveryClaimTimeout : Z := 2 * 60 * second.

Definition telegramDeliveryAvailableAt (outbox : TelegramDeliveryOutbox) : time :=
  match td_NextAttemptAt outbox with
  | Some t => t
  | None => if bool_decide (td_Status outbox = DeliverySending)
            then add (td_UpdatedAt outbox) telegramDeliveryClaimTimeout else td_UpdatedAt outbox
  end.

Definition erase_delivery (tenantID runID deliveryID : string) : ltx unit :=
  found ← l_read (fun w => readLifecycleDelivery tenantID runID deliveryID (one_state w 0));
  match found with
  | None => l_fail (inconsistent "delivery" deliveryID)
  | Some delivery =>
      _ ← l_reject (negb (String.eqb (td_RunID delivery) runID)) (inconsistent "delivery" deliveryID);
      bucket ← l_of (BucketV1 (td_ID delivery));
      l_write (fun w => {| w with
        telegram_delivery_ready := telegram_delivery_ready w ∖
          {[ (bucket, ydb_timestamp (telegramDeliveryAvailableAt delivery), tenantID, td_ID delivery) ]};
        telegram_delivery_outbox := delete (tenantID, td_ID delivery) (telegram_delivery_outbox w) |})
  end.

Definition erase_checkpoint (tenantID runID checkpointID : string) : ltx unit :=
  found ← l_read (fun w => readLifecycleCheckpoint tenantID runID checkpointID (one_state w 0));
  match found with
  | None => l_fail (inconsistent "checkpoint" checkpointID)
  | Some checkpoint =>
      _ ← l_reject (negb (String.eqb (ckpt_RunID checkpoint) runID)) (inconsistent "checkpoint" checkpointID);
      l_write (fun w => {| w with
        checkpoints := delete (tenantID, ckpt_AttemptID checkpoint, ckpt_Sequence checkpoint) (checkpoints w) |})
  end.

(** The statements by run, after the run's idempotency key. *)
Definition erase_run_rows (tenantID runID : string) (w : ldb) : ldb :=
  {| w with
     run_idempotency := match runs w !! (tenantID, runID) with
                        | Some stored => run_idempotency w ∖ {[ (tenantID, run_IdempotencyKey (rr_run stored)) ]}
                        | None => run_idempotency w
                        end;
     attached_worker_output_receipts :=
       without (fun key => bool_decide (key.1.1.1.1 = (tenantID, runID))) (attached_worker_output_receipts w);
     artifact_manifests_by_run := without_keys (owned3 tenantID runID) (artifact_manifests_by_run w);
     frontend_projections_by_run := without_keys (owned4 tenantID runID) (frontend_projections_by_run w);
     telegram_deliveries_by_run := without (owned3 tenantID runID) (telegram_deliveries_by_run w);
     checkpoint_objects_by_run := without (owned3 tenantID runID) (checkpoint_objects_by_run w);
     run_finalizations := run_finalizations w ∖ {[ (tenantID, runID) ]};
     run_explanation_heads := run_explanation_heads w ∖ {[ (tenantID, runID) ]};
     worker_jobs := worker_jobs w ∖ {[ (tenantID, runID) ]};
     runs := delete (tenantID, runID) (runs w) |}.

Definition erase_run (tenantID runID : string) : ltx unit :=
  manifestIDs ← listRunManifestIDsTx tenantID runID (maxSessionDeletionRows + 1);
  _ ← l_each (erase_manifest tenantID) manifestIDs;
  deliveryIDs ← listRunDeliveryIDsTx tenantID runID (maxSessionDeletionRows + 1);
  _ ← l_each (erase_delivery tenantID runID) deliveryIDs;
  checkpointIDs ← listRunCheckpointIDsTx tenantID runID (maxSessionDeletionRows + 1);
  _ ← l_each (erase_checkpoint tenantID runID) checkpointIDs;
  l_write (erase_run_rows tenantID runID).

(** ** The session *)

Definition erase_session_rows (tenantID sessionID : string) (d : db) : db :=
  {| d with
     session_material_boundaries := without (owned3 tenantID sessionID) (session_material_boundaries d);
     session_material_current := delete (tenantID, sessionID) (session_material_current d);
     session_snapshots := without (owned3 tenantID sessionID) (session_snapshots d);
     session_event_idempotency := without (owned3 tenantID sessionID) (session_event_idempotency d);
     session_events := without (owned3 tenantID sessionID) (session_events d);
     session_participants := without (owned3 tenantID sessionID) (session_participants d);
     sessions := delete (tenantID, sessionID) (sessions d) |}.

Definition erase_session (tenantID sessionID : string) (w : ldb) : ldb :=
  {| w with
     frontend_projections_by_session := without_keys (owned3 tenantID sessionID) (frontend_projections_by_session w);
     runs_by_session := without (owned4 tenantID sessionID) (runs_by_session w);
     session_snapshot_material := without_keys (owned3 tenantID sessionID) (session_snapshot_material w);
     base := erase_session_rows tenantID sessionID (base w);
     session_displays := session_displays w ∖ {[ (tenantID, sessionID) ]} |}.

Definition deleteSessionRowsTx (u : unmodelled) (tenantID sessionID : string) : ltx unit :=
  found ← on_base (readSessionTx tenantID sessionID);
  match found with
  | None => l_fail (PlainError ("session " +:+ quoted sessionID +:+ " not found before deletion completion") None)
  | Some session =>
      _ ← deleteOwnedSessionAdmissionsTx u tenantID sessionID;
      participants ← on_base (activeSessionParticipants tenantID sessionID maxSessionDeletionRows);
      _ ← on_base (tx_each (fun participant => deleteActivityTx session (sp_UserID participant)) participants);
      bindings ← currentSessionBindingsTx tenantID sessionID maxSessionDeletionRows;
      _ ← on_base (tx_each (fun binding => tx_write (erase_binding tenantID sessionID binding)) bindings);
      projectionIDs ← listSessionProjectionIDsTx tenantID sessionID (maxSessionDeletionRows + 1);
      _ ← l_reject (Z.of_nat (length projectionIDs) >? maxSessionDeletionRows)
            (ValidationError "session_deletion.projections" "exceeds the hard deletion bound");
      _ ← l_each (erase_projection tenantID) projectionIDs;
      runIDs ← listSessionRunIDsTx tenantID sessionID (maxSessionDeletionRows + 1);
      _ ← l_each (erase_run tenantID) runIDs;
      l_write (erase_session tenantID sessionID)
  end.

(** ** Completing a deletion *)

(** The inventory is rebuilt in the transaction; its page loops never run out of
    fuel ([inventory_terminates]). *)
Definition rejoinSessionDeletionInventoryTx (tenantID : string) (expected : SessionDeletionInventory) : ltx unit :=
  l_query (fun w =>
    match buildSessionDeletionInventory tenantID (inv_SessionID expected) maxSessionDeletionRows
            maxSessionDeletionRows (one_state w) with
    | None => inl ErrSessionLifecycleConflict
    | Some (inl e) => inl e
    | Some (inr actual) =>
        match SessionDeletionInventoryDigestV1 expected, SessionDeletionInventoryDigestV1 actual with
        | inr before, inr after => fails (negb (String.eqb before after)) ErrSessionLifecycleConflict tt
        | _, _ => inl ErrSessionLifecycleConflict
        end
    end).

Definition complete_deletion_tx (u : unmodelled) (tenantID sessionID : string) (at_ : time)
    (deletedObjects deletedBytes : Z) (expectedInventory : option SessionDeletionInventory) : ltx SessionDeletion :=
  found ← readSessionDeletionTx tenantID sessionID;
  match found with
  | None => l_fail (deletion_not_found sessionID)
  | Some deletion =>
      if bool_decide (sd_State deletion = SessionDeletionCompleted)
      then l_method deletion (Complete (Some deletion) at_ deletedObjects deletedBytes)
      else
        _ ← ensureNoActiveLegalHoldTx tenantID sessionID;
        _ ← ensureSessionRunsTerminalTx tenantID sessionID;
        _ ← ensureNoPendingAttachedWorkerReceiptsTx u tenantID sessionID;
        match expectedInventory with
        | None => l_fail ErrSessionLifecycleConflict
        | Some expected =>
            _ ← rejoinSessionDeletionInventoryTx tenantID expected;
            _ ← deleteSessionRowsTx u tenantID sessionID;
            completed ← l_method deletion (Complete (Some deletion) at_ deletedObjects deletedBytes);
            _ ← writeSessionDeletionTx completed;
            _ ← appendSessionLifecycleAuditTx tenantID at_ (sd_RequestedBy completed) "session.deletion.complete"
                  sessionID [("deleted_bytes", JNum deletedBytes); ("deleted_objects", JNum deletedObjects)];
            mret completed
        end
  end.

(** [None]: the retained path. *)
Definition CompleteSessionDeletion (u : unmodelled) (tenantID sessionID : string) (at_ : time)
    (deletedObjects deletedBytes : Z) (seen : reads) (w : ldb) : option ((error + SessionDeletion) * ldb) :=
  let transaction expected :=
    Some (LTransact tenantID
            (complete_deletion_tx u tenantID sessionID at_ deletedObjects deletedBytes expected) w) in
  match TenantID_Validate tenantID, SessionID_Validate sessionID with
  | Some e, _ | None, Some e => Some (inl e, w)
  | None, None =>
      if is_zero at_ then Some (inl (ValidationError "session_deletion.completed_at" "must not be zero"), w) else
      match session_deletions (base (seen 0 q_method_deletion)) !! (tenantID, sessionID) with
      | None => Some (inl (deletion_not_found sessionID), w)
      | Some stored =>
          if bool_decide (sd_State stored = SessionDeletionCompleted) then transaction None
          else if notnil (sd_RetainedVerification stored) then None
          else
            match BuildSessionDeletionInventory u tenantID sessionID maxSessionDeletionRows maxSessionDeletionRows
                    seen with
            | None => None
            | Some (inl e) => Some (inl e, w)
            | Some (inr inventory) =>
                if negb (deletedObjects =? Z.of_nat (length (inv_Objects inventory)))
                   || negb (deletedBytes =? inv_TotalBytes inventory)
                then Some (inl (ValidationError "session_deletion.completion"
                                  "does not match the durable exact-object inventory"), w)
                else transaction (Some inventory)
            end
      end
  end.
