(* ===== verification/LifecycleEffects.v ===== *)
(** * What the lifecycle transactions change

    Most steps of a lifecycle transaction are quiet: they leave the session tables
    and the legal holds alone.  The others write one hold, one deletion, or erase
    the rows of one session. *)

From S2P Require Import Prelude GoText GoTime Sorting Errors Identity Blobs Lifecycle Runs Work Sessions.
From S2P Require Import Deliveries Memberships Store SessionStore StoreEffects.
From S2P Require Import LifecycleTables LifecycleStore LifecycleInventory LifecycleErase.
From stdpp Require Import gmap sets.
#[local] Open Scope Z_scope.

(** ** Inversion *)

Lemma l_bind_inr {A B} (m : ltx A) (f : A -> ltx B) w r :
  (m ≫= f) w = inr r -> exists x w', m w = inr (x, w') /\ f x w' = inr r.
Proof. unfold mbind, ltx_bind. destruct (m w) as [| [x w']]; [done | eauto]. Qed.

Lemma l_check_inr c w x w' : l_check c w = inr (x, w') -> c = None /\ w' = w.
Proof. destruct c; [done |]. by intros [= _ ->]. Qed.

Lemma l_reject_inr b e w x w' : l_reject b e w = inr (x, w') -> b = false /\ w' = w.
Proof. destruct b; [done |]. by intros [= _ ->]. Qed.

Lemma l_of_inr {A} (r : error + A) w x w' : l_of r w = inr (x, w') -> r = inr x /\ w' = w.
Proof. destruct r; [done |]. by intros [= -> ->]. Qed.

Lemma l_query_inr {A} (f : ldb -> error + A) w x w' : l_query f w = inr (x, w') -> f w = inr x /\ w' = w.
Proof. unfold l_query. destruct (f w); [done |]. by intros [= -> ->]. Qed.

Lemma l_method_inr {A} (a : A) r w x w' :
  l_method a r w = inr (x, w') -> snd r = None /\ x = default a (fst r) /\ w' = w.
Proof. unfold l_method. destruct r as [p [e |]]; [done |]. by intros [= <- ->]. Qed.

Lemma on_base_inr {A} (m : tx A) w x w' :
  on_base m w = inr (x, w') -> exists d, m (base w) = inr (x, d) /\ w' = {| w with base := d |}.
Proof. unfold on_base. destruct (m (base w)) as [| [y d]]; [done |]. intros [= -> <-]. eauto. Qed.

(** [l_inv H]: take a successful lifecycle transaction apart into its steps. *)
Ltac l_step H :=
  lazymatch type of H with
  | (_ ≫= _) _ = inr _ =>
      let x := fresh "x" in let w := fresh "w" in let E := fresh "E" in
      apply l_bind_inr in H as (x & w & E & H); l_step E; cbv beta in H
  | mret _ _ = inr _ => injection H as <- <-
  | l_read _ _ = inr _ => injection H as <- <-
  | l_write _ _ = inr _ => injection H as _ <-
  | l_check _ _ = inr _ => let E := fresh "C" in apply l_check_inr in H as [E ->]
  | l_reject _ _ _ = inr _ => let E := fresh "R" in apply l_reject_inr in H as [E ->]
  | l_of _ _ = inr _ => let E := fresh "O" in apply l_of_inr in H as [E ->]
  | l_query _ _ = inr _ => let E := fresh "Q" in apply l_query_inr in H as [E ->]
  | l_method _ _ _ = inr _ => let E := fresh "P" in apply l_method_inr in H as (E & -> & ->)
  | l_fail _ _ = inr _ => discriminate H
  | _ => idtac
  end.

Ltac l_inv H := repeat (l_step H).

(** ** Quiet steps *)

Definition quiet {A} (m : ltx A) : Prop := forall w x w',
  m w = inr (x, w') -> base w' = base w /\ session_legal_holds w' = session_legal_holds w.

Create HintDb quiet.

Lemma quiet_ret {A} (x : A) : quiet (mret x).
Proof. by intros w y w' [= _ <-]. Qed.
Lemma quiet_fail {A} e : quiet (l_fail e : ltx A).
Proof. by intros w y w' [=]. Qed.
Lemma quiet_read {A} (f : ldb -> A) : quiet (l_read f).
Proof. by intros w y w' [= _ <-]. Qed.
Lemma quiet_check c : quiet (l_check c).
Proof. by intros w y w' [_ ->]%l_check_inr. Qed.
Lemma quiet_reject b e : quiet (l_reject b e).
Proof. by intros w y w' [_ ->]%l_reject_inr. Qed.
Lemma quiet_of {A} (r : error + A) : quiet (l_of r).
Proof. by intros w y w' [_ ->]%l_of_inr. Qed.
Lemma quiet_query {A} (f : ldb -> error + A) : quiet (l_query f).
Proof. by intros w y w' [_ ->]%l_query_inr. Qed.
Lemma quiet_method {A} (a : A) r : quiet (l_method a r).
Proof. by intros w y w' (_ & _ & ->)%l_method_inr. Qed.
Lemma quiet_bind {A B} (m : ltx A) (f : A -> ltx B) : quiet m -> (forall x, quiet (f x)) -> quiet (m ≫= f).
Proof.
  intros Hm Hf w y w' (x & w1 & H1 & H2)%l_bind_inr. apply Hm in H1 as [H1 H1']. apply Hf in H2 as [H2 H2'].
  split; congruence.
Qed.
Lemma quiet_each {A} (f : A -> ltx unit) l : (forall x, quiet (f x)) -> quiet (l_each f l).
Proof. intros Hf. induction l; [apply quiet_ret |]. by apply quiet_bind. Qed.
Lemma quiet_write f :
  (forall w, base (f w) = base w /\ session_legal_holds (f w) = session_legal_holds w) -> quiet (l_write f).
Proof. intros Hf w x w' [= _ <-]. apply Hf. Qed.
Lemma quiet_on_base {A} (m : tx A) : (forall d x d', m d = inr (x, d') -> d' = d) -> quiet (on_base m).
Proof. intros Hm w x w' (d & H & ->)%on_base_inr. by apply Hm in H as ->. Qed.
Lemma quiet_match {A B} (o : option A) (f : A -> ltx B) g :
  (forall x, quiet (f x)) -> quiet g -> quiet (match o with Some x => f x | None => g end).
Proof. by destruct o. Qed.
Lemma quiet_if {B} (b : bool) (f g : ltx B) : quiet f -> quiet g -> quiet (if b then f else g).
Proof. by destruct b. Qed.

#[export] Hint Resolve quiet_ret quiet_fail quiet_read quiet_check quiet_reject quiet_of quiet_query : quiet.
#[export] Hint Resolve quiet_method quiet_bind quiet_each quiet_match quiet_if : quiet.

(** [quiet_auto] proves that a composite step is quiet. *)
Ltac quiet_auto :=
  repeat first
    [ progress intros
    | solve [eauto 1 with quiet]
    | apply quiet_bind | apply quiet_each | apply quiet_match | apply quiet_if
    | apply quiet_write; intros; by split ].

Lemma quiet_audit t at_ actor action s metadata : quiet (appendSessionLifecycleAuditTx t at_ actor action s metadata).
Proof. unfold appendSessionLifecycleAuditTx. quiet_auto. Qed.
Lemma quiet_session t s : quiet (on_base (readSessionTx t s)).
Proof. apply quiet_on_base. by intros d x d' [_ ->]%read_inr. Qed.
Lemma quiet_no_hold t s : quiet (ensureNoActiveLegalHoldTx t s).
Proof. unfold ensureNoActiveLegalHoldTx, readSessionLegalHoldTx. quiet_auto. Qed.
Lemma quiet_tenant t u p : quiet (authorizeTenantTx t u p).
Proof. unfold authorizeTenantTx, readMembershipTx. quiet_auto. Qed.
Lemma quiet_owner t s u : quiet (authorizeSessionOwnerTx t s u).
Proof. unfold authorizeSessionOwnerTx. quiet_auto. Qed.
Lemma quiet_runs t s b : quiet (ensureSessionRunsTerminalPolicyTx t s b).
Proof. unfold ensureSessionRunsTerminalPolicyTx. quiet_auto. Qed.
Lemma quiet_run_ids t s limit : quiet (listSessionRunIDsTx t s limit).
Proof. unfold listSessionRunIDsTx. quiet_auto. Qed.
#[export] Hint Resolve quiet_audit quiet_session quiet_no_hold quiet_tenant quiet_owner quiet_runs quiet_run_ids : quiet.

Lemma quiet_receipts u t s : quiet (ensureNoPendingAttachedWorkerReceiptsTx u t s).
Proof. unfold ensureNoPendingAttachedWorkerReceiptsTx, retire_receipt. quiet_auto. Qed.
Lemma quiet_rejoin t i : quiet (rejoinSessionDeletionInventoryTx t i).
Proof. unfold rejoinSessionDeletionInventoryTx. quiet_auto. Qed.
Lemma quiet_admissions u t s : quiet (deleteOwnedSessionAdmissionsTx u t s).
Proof. unfold deleteOwnedSessionAdmissionsTx, delete_admission. quiet_auto. Qed.
Lemma quiet_indexed bound index canonical limit : quiet (indexed_ids_tx bound index canonical limit).
Proof. unfold indexed_ids_tx. quiet_auto. Qed.
#[export] Hint Resolve quiet_receipts quiet_rejoin quiet_admissions quiet_indexed : quiet.

Lemma quiet_projection t id : quiet (erase_projection t id).
Proof. unfold erase_projection, deleteFrontendProjectionTx. quiet_auto. Qed.
Lemma quiet_delivery t r id : quiet (erase_delivery t r id).
Proof. unfold erase_delivery. quiet_auto. Qed.
Lemma quiet_checkpoint t r id : quiet (erase_checkpoint t r id).
Proof. unfold erase_checkpoint. quiet_auto. Qed.
#[export] Hint Resolve quiet_projection quiet_delivery quiet_checkpoint : quiet.

Lemma quiet_run t r : quiet (erase_run t r).
Proof.
  unfold erase_run, listRunManifestIDsTx, listRunDeliveryIDsTx, listRunCheckpointIDsTx, erase_manifest. quiet_auto.
Qed.
#[export] Hint Resolve quiet_run : quiet.

(** ** Holds and deletions *)

Lemma base_kept w : {| w with base := base w |} = w.
Proof. by destruct w. Qed.

Lemma write_deletion_inr x w y w' :
  writeSessionDeletionTx x w = inr (y, w') -> SessionDeletion_Validate x = None /\ w' = set_deletion x w.
Proof.
  unfold writeSessionDeletionTx. intros H. l_inv H. apply on_base_inr in E as (d & [_ ->]%reject_inr & ->).
  by rewrite base_kept.
Qed.

Lemma write_hold_inr h w y w' :
  writeSessionLegalHoldTx h w = inr (y, w') -> SessionLegalHold_Validate h = None /\ w' = set_hold h w.
Proof.
  unfold writeSessionLegalHoldTx. intros H. l_inv H. apply on_base_inr in E as (d & [_ ->]%reject_inr & ->).
  by rewrite base_kept.
Qed.

(** An active hold on a session. *)
Definition held (w : ldb) (t s : string) : Prop :=
  exists h, session_legal_holds w !! (t, s) = Some h /\ lh_State h = SessionLegalHoldActive.

Lemma no_hold_inr t s w x w' : ensureNoActiveLegalHoldTx t s w = inr (x, w') -> ~ held w t s /\ w' = w.
Proof.
  unfold ensureNoActiveLegalHoldTx, readSessionLegalHoldTx. intros H. l_inv H.
  unfold held. destruct (session_legal_holds w !! (t, s)) as [h |] eqn:Hh; l_inv H; (split; [| done]).
  - apply bool_decide_eq_false in R. intros (h' & [= <-] & ?). done.
  - by intros (h' & [=] & _).
Qed.

(** Destructive cleanup has started. *)
Definition destructive (x : SessionDeletion) : Prop :=
  sd_State x = SessionDeletionDeleting \/ sd_State x = SessionDeletionCompleted.

Lemma put_hold_effect h w r w' :
  put_hold_tx h w = inr (r, w') ->
  base w' = base w /\
  (session_legal_holds w' = session_legal_holds w \/
   session_legal_holds w' = <[(lh_TenantID h, lh_SessionID h) := h]> (session_legal_holds w) /\
   forall x, session_deletions (base w) !! (lh_TenantID h, lh_SessionID h) = Some x -> ~ destructive x).
Proof.
  unfold put_hold_tx, readSessionDeletionTx, readSessionLegalHoldTx. intros H. l_inv H.
  apply on_base_inr in E as (d & [-> ->]%read_inr & ->). rewrite !base_kept in *.
  assert (forall x, session_deletions (base w) !! (lh_TenantID h, lh_SessionID h) = Some x -> ~ destructive x) as Hd.
  { intros x Hx. rewrite Hx in R0. unfold destructive. b2p. tauto. }
  assert (forall r w', (_ ← writeSessionLegalHoldTx h;
    _ ← appendSessionLifecycleAuditTx (lh_TenantID h) (lh_SetAt h) (lh_SetBy h) "session.legal_hold.set"
          (lh_SessionID h) [("reason", Json.JStr (lh_Reason h))]; mret h) w = inr (r, w') ->
    base w' = base w /\ session_legal_holds w' = <[(lh_TenantID h, lh_SessionID h) := h]> (session_legal_holds w))
    as Hwrite.
  { intros r0 w0 Hw. l_inv Hw. apply write_hold_inr in E as [_ ->]. by apply quiet_audit in E0 as [-> ->]. }
  destruct (session_legal_holds w !! _) as [existing |]; [| by apply Hwrite in H as [? ?]; auto].
  destruct (bool_decide _).
  - destruct (_ && _); [l_inv H; auto | done].
  - apply l_bind_inr in H as (x & w1 & [_ ->]%l_reject_inr & H). by apply Hwrite in H as [? ?]; auto.
Qed.

Lemma release_hold_effect t s by_ at_ w r w' :
  release_hold_tx t s by_ at_ w = inr (r, w') ->
  base w' = base w /\
  (session_legal_holds w' = session_legal_holds w \/
   exists h, lh_State h = SessionLegalHoldReleased /\
     session_legal_holds w' = <[(lh_TenantID h, lh_SessionID h) := h]> (session_legal_holds w)).
Proof.
  unfold release_hold_tx, readSessionLegalHoldTx. intros H. l_inv H.
  destruct (session_legal_holds w !! (t, s)) as [h |]; [| done].
  case_bool_decide as Hs; [l_inv H; auto |]. l_inv H. apply write_hold_inr in E as [_ ->].
  apply quiet_audit in E0 as [-> ->]. split; [done |]. right. eexists. split; [| done].
  unfold Release in *. repeat case_match; try done; by b2p.
Qed.

(** Requesting writes a requested deletion of a session that exists, has none and
    is not held. *)
Lemma request_effect u x w r w' :
  sd_State x = SessionDeletionRequested -> request_deletion_tx u x w = inr (r, w') ->
  session_legal_holds w' = session_legal_holds w /\
  (base w' = base w \/
   session_deletions (base w) !! (sd_TenantID x, sd_SessionID x) = None /\
   ~ held w (sd_TenantID x) (sd_SessionID x) /\ base w' = base (set_deletion x w)).
Proof.
  intros Hs. unfold request_deletion_tx, readSessionDeletionTx, readSessionLegalHoldTx. intros H. l_step H.
  destruct (session_deletions (base w) !! _) as [existing |] eqn:Hx.
  - destruct (_ && _); [| done]. apply l_bind_inr in H as (v & w1 & Hq & H). l_inv H.
    assert (base w1 = base w /\ session_legal_holds w1 = session_legal_holds w) as [-> ->]; [| auto].
    destruct (negb _); [by apply quiet_runs in Hq | by apply quiet_ret in Hq].
  - l_inv H. apply quiet_session in E as [Eb Eh]. unfold authorizeTenantWriteTx in E0.
    apply quiet_tenant in E0 as [E0b E0h]. apply quiet_owner in E1 as [E1b E1h].
    apply no_hold_inr in E2 as [Hheld ->]. apply quiet_runs in E3 as [E3b E3h]. apply quiet_receipts in E4 as [E4b E4h].
    apply write_deletion_inr in E5 as [_ ->]. apply quiet_audit in E6 as [E6b E6h].
    split; [rewrite E6h; cbn; congruence |]. right. split_and!; [done | |].
    + intros (h & Hh & ?). apply Hheld. exists h. split; [congruence | done].
    + rewrite E6b. cbn. congruence.
Qed.

Lemma start_requested x at_ p :
  Start (Some x) at_ = (p, None) -> ~ destructive x ->
  p = Some {| x with sd_State := SessionDeletionDeleting; sd_StartedAt := Some at_ |}.
Proof.
  unfold Start, destructive. intros H Hd. peel_pair H.
  rewrite !bool_decide_eq_false_2 in H by tauto. cbn in H. peel_pair H. by injection H as <-.
Qed.

(** Starting turns the deletion of a session that is not held from requested to deleting. *)
Lemma start_effect u t s at_ w r w' :
  start_deletion_tx u t s at_ w = inr (r, w') ->
  session_legal_holds w' = session_legal_holds w /\
  (base w' = base w /\ session_deletions (base w) !! (t, s) = Some r \/
   exists x, session_deletions (base w) !! (t, s) = Some x /\ ~ destructive x /\ ~ held w t s /\
     r = {| x with sd_State := SessionDeletionDeleting; sd_StartedAt := Some at_ |} /\
     base w' = base (set_deletion r w)).
Proof.
  unfold start_deletion_tx, readSessionDeletionTx, ensureSessionRunsTerminalTx. intros H. l_step H.
  destruct (session_deletions (base w) !! (t, s)) as [x |] eqn:Hx; [| done].
  case_bool_decide as Hc; [l_inv H; auto |].
  apply l_bind_inr in H as (v & w1 & [Hheld ->]%no_hold_inr & H).
  apply l_bind_inr in H as (v' & w1 & [Eb Eh]%quiet_runs & H).
  case_bool_decide as Hd; [l_inv H; split; [congruence |]; left; split; congruence |].
  destruct (Start (Some x) at_) as [p e] eqn:Hst. l_inv H.
  apply quiet_receipts in E as [E0b E0h]. apply write_deletion_inr in E0 as [_ ->]. apply quiet_audit in E1 as [E2b E2h].
  assert (~ destructive x) as Hnd by (intros [|]; done).
  cbn in P. subst e.
  apply start_requested in Hst as ->; [| done]. cbn [default fst from_option id] in E2b, E2h |- *.
  split; [rewrite E2h; cbn; congruence |]. right. exists x. split_and!; [done.. |].
  rewrite E2b. cbn. by rewrite E0b, Eb.
Qed.

(** ** The session tables after an erasure *)

Definition erase_bindings (t s : string) (bs : list FrontendBinding) (d : db) : db :=
  fold_left (fun d b => erase_binding t s b d) bs d.

Definition erased_db (t s : string) (session : Session) (bs : list FrontendBinding) (d : db) : db :=
  erase_session_rows t s
    (erase_bindings t s bs (set_activity (fun a => a ∖ activity_rows session (active_rows t s d)) d)).

Lemma erase_bindings_inr t s bs : forall d x d',
  tx_each (fun b => tx_write (erase_binding t s b)) bs d = inr (x, d') -> d' = erase_bindings t s bs d.
Proof.
  induction bs as [| b bs IH]; intros d x d' H; cbn in H.
  - by apply ret_inr in H as [= -> ->].
  - by apply bind_inr in H as (y & d1 & ->%write_inr & ->%IH).
Qed.

Lemma current_bindings_inr t s n w bs w' :
  currentSessionBindingsTx t s n w = inr (bs, w') ->
  w' = w /\ exists ids, current_binding_ids t s n w = inr ids /\ read_bindings t s w ids = inr bs.
Proof.
  unfold currentSessionBindingsTx. intros [H ->]%l_query_inr. split; [done |]. destruct (current_binding_ids t s n w); [done | eauto].
Qed.

Lemma delete_rows_effect u t s w x w' :
  deleteSessionRowsTx u t s w = inr (x, w') ->
  session_legal_holds w' = session_legal_holds w /\
  exists session bs w1, sessions (base w) !! (t, s) = Some session /\
    base w1 = set_activity (fun a => a ∖ activity_rows session (active_rows t s (base w))) (base w) /\
    currentSessionBindingsTx t s maxSessionDeletionRows w1 = inr (bs, w1) /\
    base w' = erased_db t s session bs (base w).
Proof.
  unfold deleteSessionRowsTx. intros H. apply l_bind_inr in H as (row & w0 & E & H).
  apply on_base_inr in E as (d & [-> ->]%read_inr & ->). rewrite base_kept in H.
  destruct (sessions (base w) !! (t, s)) as [session |] eqn:Hs; [| done]. l_inv H.
  apply quiet_admissions in E as [Eb Eh].
  apply on_base_inr in E0 as (d & [-> ->]%participants_inr & ->). rewrite base_kept in E1.
  apply on_base_inr in E1 as (d & ->%delete_each & ->).
  pose proof E2 as Hbs. apply current_bindings_inr in E2 as [-> _].
  apply on_base_inr in E3 as (d & ->%erase_bindings_inr & ->).
  apply quiet_indexed in E4 as [E4b E4h].
  apply (quiet_each (erase_projection t) _ (quiet_projection t)) in E5 as [E5b E5h].
  apply quiet_run_ids in E6 as [E6b E6h].
  apply (quiet_each (erase_run t) _ (quiet_run t)) in E7 as [E7b E7h].
  cbn in *. split; [congruence |]. eexists session, _, _. split_and!; [done | | exact Hbs |].
  - cbn. by rewrite Eb.
  - unfold erased_db. rewrite E7b, E6b, E5b, E4b, Eb. done.
Qed.

(** Completing erases the session and records it, of a session that is not held. *)
Lemma complete_effect u t s at_ objects bytes expected w r w' :
  complete_deletion_tx u t s at_ objects bytes expected w = inr (r, w') ->
  session_legal_holds w' = session_legal_holds w /\
  sd_State r = SessionDeletionCompleted /\
  (base w' = base w /\ session_deletions (base w) !! (t, s) = Some r \/
   exists x w1 w2 v, session_deletions (base w) !! (t, s) = Some x /\ sd_State x = SessionDeletionDeleting /\
     ~ held w t s /\ base w1 = base w /\ deleteSessionRowsTx u t s w1 = inr (v, w2) /\
     Complete (Some x) at_ objects bytes = (Some r, None) /\
     base w' = base (set_deletion r w2)).
Proof.
  unfold complete_deletion_tx, readSessionDeletionTx, ensureSessionRunsTerminalTx. intros H. l_step H.
  destruct (session_deletions (base w) !! (t, s)) as [x |] eqn:Hx; [| done].
  case_bool_decide as Hc.
  { destruct (Complete (Some x) at_ objects bytes) as [p e] eqn:Hcm. l_inv H. cbn in P. subst e.
    assert (p = Some x) as ->; [| by auto].
    unfold Complete in Hcm. peel_pair Hcm. rewrite bool_decide_eq_true_2 in Hcm by done. destruct (_ && _); congruence. }
  apply l_bind_inr in H as (v1 & w1 & [Hheld ->]%no_hold_inr & H).
  apply l_bind_inr in H as (v2 & w1 & [E1b E1h]%quiet_runs & H).
  apply l_bind_inr in H as (v3 & w2 & [E2b E2h]%quiet_receipts & H).
  destruct expected as [expected |]; [| done].
  destruct (Complete (Some x) at_ objects bytes) as [p e] eqn:Hcm. l_inv H.
  apply quiet_rejoin in E as [E3b E3h]. pose proof (delete_rows_effect _ _ _ _ _ _ E0) as [E4h _].
  apply write_deletion_inr in E1 as [_ ->]. apply quiet_audit in E2 as [E5b E5h].
  cbn in P. subst e.
  assert (sd_State x = SessionDeletionDeleting /\ exists y, p = Some y /\ sd_State y = SessionDeletionCompleted)
    as (Hdel & y & -> & Hy).
  { unfold Complete in Hcm. peel_pair Hcm. rewrite bool_decide_eq_false_2 in Hcm by done. peel_pair Hcm.
    injection Hcm as <-. split; [| by eexists]. by apply orb_false_iff in E1 as [E1%negb_false_iff%bool_decide_eq_true _]. }
  split; [rewrite E5h; cbn; congruence |]. split; [done |]. right.
  match type of E0 with deleteSessionRowsTx _ _ _ ?a = inr (?v, ?b) => exists x, a, b, v end.
  split_and!; try done. congruence.
Qed.
