(* ===== verification/LifecycleSafety.v ===== *)
(** * Legal holds and erasure are safe

    The lifecycle transactions together with the session transactions as one
    transition system.  Erasing a session keeps every invariant of the session
    tables, so nothing of it is left behind; a held session is never erased. *)

From S2P Require Import Prelude GoText GoTime Sorting Errors Identity Blobs Lifecycle Runs Work Sessions.
From S2P Require Import Material Store SessionStore StoreEffects SessionLog SessionHistory SessionIsolation.
From S2P Require Import SessionIndexes SessionListing LifecycleTables LifecycleStore LifecycleInventory.
From S2P Require Import LifecycleErase LifecycleEffects.
From stdpp Require Import gmap sets.
#[local] Open Scope Z_scope.

(** ** Deleted rows *)

Lemma without_Some {K V} `{Countable K} (f : K -> bool) (m : gmap K V) k v :
  without f m !! k = Some v <-> m !! k = Some v /\ f k = false.
Proof. apply map_lookup_filter_Some. Qed.

Lemma owned3_false {C} t s (k : string * string * C) : owned3 t s k = false <-> k.1 <> (t, s).
Proof. apply bool_decide_eq_false. Qed.

(** The rows of other sessions stay. *)
Lemma without_other {C V} `{Countable C} (t s : string) (m : gmap (string * string * C) V) k q :
  k <> (t, s) -> without (owned3 t s) m !! (k, q) = m !! (k, q).
Proof. intros Hne. apply option_eq. intros v. rewrite without_Some, owned3_false. cbn. naive_solver. Qed.

Section Bindings.
Context (t s : string).

(** What is left of the binding tables. *)
Lemma erase_bindings_tables bs : forall d,
  let d' := erase_bindings t s bs d in
  (forall k b, frontend_bindings d' !! k = Some b <->
     frontend_bindings d !! k = Some b /\ forall x, x ∈ bs -> k <> (t, fb_ID x)) /\
  (forall k id, frontend_binding_keys d' !! k = Some id <->
     frontend_binding_keys d !! k = Some id /\
     forall x, x ∈ bs -> k <> (t, fb_Frontend x, fb_ExternalConversationID x)) /\
  (forall k, k ∈ frontend_bindings_by_session d' <->
     k ∈ frontend_bindings_by_session d /\ forall x, x ∈ bs -> k <> (t, s, fb_ID x)).
Proof.
  induction bs as [| b bs IH]; intros d.
  - cbn. split_and!; intros; (split; [| tauto]); intros H; (split; [done |]); by intros x []%elem_of_nil.
  - destruct (IH (erase_binding t s b d)) as (H1 & H2 & H3). cbn in H1, H2, H3.
    change (erase_bindings t s (b :: bs) d) with (erase_bindings t s bs (erase_binding t s b d)). cbn zeta.
    setoid_rewrite elem_of_cons. split_and!; intros k.
    + intros c. rewrite H1, lookup_delete_Some. naive_solver.
    + intros id. rewrite H2, lookup_delete_Some. naive_solver.
    + rewrite H3, elem_of_difference, elem_of_singleton. naive_solver.
Qed.

Lemma erase_bindings_rest bs : forall d,
  let d' := erase_bindings t s bs d in
  d' = {| d with frontend_bindings := frontend_bindings d'; frontend_binding_keys := frontend_binding_keys d';
          frontend_bindings_by_session := frontend_bindings_by_session d' |}.
Proof.
  induction bs as [| b bs IH]; intros d; [by destruct d |]. cbn zeta.
  change (erase_bindings t s (b :: bs) d) with (erase_bindings t s bs (erase_binding t s b d)).
  by rewrite (IH (erase_binding t s b d)) at 1.
Qed.
End Bindings.

(** The list is all bindings of the session. *)
Definition all_bindings (t s : string) (bs : list FrontendBinding) (d : db) : Prop :=
  forall b, b ∈ bs <-> exists id, frontend_bindings d !! (t, id) = Some b /\ fb_SessionID b = s.

(** A snapshot has a session. *)
Definition snapshot_owned (d : db) : Prop :=
  forall t s v x, session_snapshots d !! (t, s, v) = Some x -> is_Some (sessions d !! (t, s)).

(** Together: the invariants of the session tables. *)
Record tables_inv (d : db) : Prop := {
  ti_log : log_inv d;
  ti_activity : activity_inv d;
  ti_binding : binding_inv d;
  ti_snapshot : snapshot_owned d;
  ti_numbered : snapshot_inv d }.

(** The invariants do not depend on the deletions. *)
Lemma tables_inv_deletions d d' :
  tables_inv d -> d' = {| d with session_deletions := session_deletions d' |} -> tables_inv d'.
Proof.
  intros [I A B S N] ->. split; [by apply (log_inv_same d) | by apply (activity_inv_same d)
    | by apply (binding_inv_same d) | exact S | by apply (snapshot_inv_same d)].
Qed.

(** The history depends on the session's row and events only. *)
Lemma log_same_at t s d d' :
  sessions d' !! (t, s) = sessions d !! (t, s) ->
  (forall q, session_events d' !! (t, s, q) = session_events d !! (t, s, q)) -> log d' t s = log d t s.
Proof.
  intros Hs He. unfold log. rewrite Hs. destruct (sessions d !! (t, s)); [| done].
  apply list_omap_ext, Forall2_same_length_lookup_2; [done |].
  intros i a b Ha Hb. simplify_eq. unfold event_at. by rewrite He.
Qed.

Section Erasure.
Context (t s : string) (session : Session) (bs : list FrontendBinding) (d : db).
Hypothesis (T : tables_inv d) (Hs : sessions d !! (t, s) = Some session) (Hbs : all_bindings t s bs d).
Let d' := erased_db t s session bs d.

(** The tables after the erasure, one by one. *)
Lemma erased_tables :
  sessions d' = delete (t, s) (sessions d) /\
  session_participants d' = without (owned3 t s) (session_participants d) /\
  session_activity d' = session_activity d ∖ activity_rows session (active_rows t s d) /\
  session_events d' = without (owned3 t s) (session_events d) /\
  session_event_idempotency d' = without (owned3 t s) (session_event_idempotency d) /\
  session_snapshots d' = without (owned3 t s) (session_snapshots d) /\
  session_deletions d' = session_deletions d /\
  session_material_current d' = delete (t, s) (session_material_current d) /\
  session_material_boundaries d' = without (owned3 t s) (session_material_boundaries d).
Proof. unfold d', erased_db. rewrite erase_bindings_rest. by cbn. Qed.

Lemma erased_bindings_tables :
  (forall k b, frontend_bindings d' !! k = Some b <->
     frontend_bindings d !! k = Some b /\ forall x, x ∈ bs -> k <> (t, fb_ID x)) /\
  (forall k id, frontend_binding_keys d' !! k = Some id <->
     frontend_binding_keys d !! k = Some id /\
     forall x, x ∈ bs -> k <> (t, fb_Frontend x, fb_ExternalConversationID x)) /\
  (forall k, k ∈ frontend_bindings_by_session d' <->
     k ∈ frontend_bindings_by_session d /\ forall x, x ∈ bs -> k <> (t, s, fb_ID x)).
Proof.
  apply (erase_bindings_tables t s bs
           (set_activity (fun a => a ∖ activity_rows session (active_rows t s d)) d)).
Qed.

(** Rows that stay belong to other sessions, whose row stays too. *)
Lemma session_stays k row : sessions d' !! k = Some row <-> k <> (t, s) /\ sessions d !! k = Some row.
Proof. destruct erased_tables as (-> & _). rewrite lookup_delete_Some. naive_solver. Qed.

Lemma session_stays_some k : k <> (t, s) -> is_Some (sessions d !! k) -> is_Some (sessions d' !! k).
Proof. intros Hk [row H]. exists row. by apply session_stays. Qed.

Lemma erased_log : log_inv d'.
Proof.
  pose proof (ti_log d T) as I. destruct erased_tables as (_ & _ & _ & He & Hi & _ & _ & Hc & Hb).
  split; rewrite ?He, ?Hi, ?Hc, ?Hb; intros u v.
  - intros row [_ H]%session_stays. by apply (li_session d I).
  - intros q e [H Ho%owned3_false]%without_Some.
    destruct (li_event d I _ _ _ _ H) as (? & ? & ? & ? & row & Hr & ?). split_and!; try done.
    exists row. by rewrite session_stays.
  - intros row [Hne H]%session_stays. destruct (li_dense d I _ _ _ H) as (first & Hf & Hd). exists first.
    split; [done |]. intros q. by rewrite without_other by done.
  - intros q q' e e' [H _]%without_Some [H' _]%without_Some. by apply (li_order d I _ _ _ _ _ _ H H').
  - intros k q id. rewrite without_Some, owned3_false, (li_key d I). setoid_rewrite without_Some.
    setoid_rewrite owned3_false. cbn. naive_solver.
  - intros row [Hne H]%session_stays. rewrite lookup_delete_ne by congruence.
    rewrite without_other by done. by apply (li_material d I).
  - intros q r [H Ho%owned3_false]%without_Some. destruct (li_boundary d I _ _ _ _ H) as (row & Hr & ?).
    exists row. by rewrite session_stays.
  - intros r [Hne H]%lookup_delete_Some. apply session_stays_some; [congruence |]. by apply (li_current d I) in H.
Qed.

Lemma erased_snapshots : snapshot_owned d'.
Proof.
  destruct erased_tables as (_ & _ & _ & _ & _ & Hsn & _). intros u v n x. rewrite Hsn.
  intros [H Ho%owned3_false]%without_Some. apply session_stays_some; [done |]. by eapply (ti_snapshot d T).
Qed.

Lemma erased_numbered : snapshot_inv d'.
Proof.
  destruct erased_tables as (_ & _ & _ & _ & _ & Hsn & _). intros u v.
  destruct (decide ((u, v) = (t, s))) as [[= -> ->] | Hne].
  - exists []. split_and!; try done. intros q x. rewrite Hsn, without_Some, owned3_false. cbn.
    split; [by intros [_ []] | by intros [_ [=]]].
  - destruct (ti_numbered d T u v) as (l & Hn & Hm & Hf & Ho). exists l. split_and!; try done.
    + intros q x. rewrite Hsn, without_Some, owned3_false, (Hn q x). cbn. naive_solver.
    + unfold last_sequence. destruct erased_tables as (-> & _). by rewrite lookup_delete_ne.
Qed.

(** The erased activity rows are those of the session's active participants. *)
Lemma erased_activity_row k :
  k ∈ activity_rows session (active_rows t s d) <->
  exists u, takes_part d t u s session /\ k = activity_row session u (bucket_of s).
Proof.
  destruct (row_keys d t s session (ti_log d T) Hs) as [Ht Hsid].
  unfold activity_rows. rewrite elem_of_list_to_set, list_elem_of_fmap, Hsid. unfold takes_part. split.
  - intros (p & -> & (u & Hp & Hact)%active_rows_elem).
    destruct (ai_participant d (ti_activity d T) _ _ _ _ Hp) as (_ & _ & -> & _). exists u. eauto 6.
  - intros (u & (_ & p & Hp & Hact) & ->). exists p. rewrite active_rows_elem.
    destruct (ai_participant d (ti_activity d T) _ _ _ _ Hp) as (_ & _ & -> & _). eauto.
Qed.

Lemma takes_part_stays t1 u s1 row : takes_part d' t1 u s1 row <-> (t1, s1) <> (t, s) /\ takes_part d t1 u s1 row.
Proof.
  destruct erased_tables as (_ & Hp & _). unfold takes_part. rewrite session_stays, Hp.
  setoid_rewrite without_Some. setoid_rewrite owned3_false. cbn. naive_solver.
Qed.

Lemma erased_activity : activity_inv d'.
Proof.
  pose proof (ti_activity d T) as A. destruct erased_tables as (_ & Hp & Ha & _). split.
  - intros u v x p. rewrite Hp. intros [H Ho%owned3_false]%without_Some.
    destruct (ai_participant d A _ _ _ _ H) as (? & ? & ? & ?). split_and!; try done. by apply session_stays_some.
  - intros k. rewrite Ha, elem_of_difference, (ai_exact d A), erased_activity_row. setoid_rewrite takes_part_stays. split.
    + intros [(t1 & u & s1 & row & Hpart & ->) Hne]. exists t1, u, s1, row. split_and!; try done.
      intros [= -> ->]. apply Hne. exists u. pose proof (proj1 Hpart) as Hr. rewrite Hs in Hr. by injection Hr as <-.
    + intros (t1 & u & s1 & row & [Hne Hpart] & ->). split; [eauto 6 |]. intros (u' & _ & Heq).
      destruct (row_keys d t1 s1 row (ti_log d T) (proj1 Hpart)) as [H1 H2].
      destruct (row_keys d t s session (ti_log d T) Hs) as [H3 H4].
      unfold activity_row in Heq. injection Heq as Ht1 _ _ _ _ Hs1. congruence.
Qed.

(** A binding with the id of an erased one is that one. *)
Lemma erased_binding_of b id x :
  frontend_bindings d !! (t, id) = Some b -> x ∈ bs -> id = fb_ID x -> b = x /\ fb_SessionID b = s.
Proof.
  intros Hb (id' & Hx & Hxs)%Hbs ->. destruct (bi_row d (ti_binding d T) _ _ _ Hx) as (_ & <- & _).
  split; congruence.
Qed.

Lemma binding_stays t1 id b :
  frontend_bindings d' !! (t1, id) = Some b <->
  frontend_bindings d !! (t1, id) = Some b /\ (t1, fb_SessionID b) <> (t, s).
Proof.
  destruct erased_bindings_tables as (H1 & _). rewrite H1. split; intros [Hb Hx]; (split; [done |]).
  - intros [= -> Hsid]. destruct (bi_row d (ti_binding d T) _ _ _ Hb) as (_ & Hid & _).
    apply (Hx b); [apply Hbs; eauto | congruence].
  - intros x Hin [= -> Hid]. destruct (erased_binding_of _ _ _ Hb Hin Hid) as [_ Hsid]. apply Hx. congruence.
Qed.

Lemma erased_binding : binding_inv d'.
Proof.
  pose proof (ti_binding d T) as B. destruct erased_bindings_tables as (_ & H2 & H3). split.
  - intros u id b [H Hne]%binding_stays. destruct (bi_row d B _ _ _ H) as (? & ? & ? & ?). split_and!; try done.
    by apply session_stays_some.
  - intros u f c id. rewrite H2, (bi_key d B). setoid_rewrite binding_stays. split.
    + intros [(b & Hb & <- & <-) Hx]. exists b. split_and!; try done. intros [= -> Hsid].
      apply (Hx b); [apply Hbs; eauto | done].
    + intros (b & [Hb Hne] & <- & <-). split; [eauto |]. intros x Hin [= -> Hf Hc].
      destruct (proj1 (Hbs x) Hin) as (id' & Hx & Hxs). apply Hne. f_equal.
      assert (id = id') as <-; [| by simplify_eq].
      pose proof (proj2 (bi_key d B t (fb_Frontend b) (fb_ExternalConversationID b) id) ltac:(eauto)) as K1.
      pose proof (proj2 (bi_key d B t (fb_Frontend b) (fb_ExternalConversationID b) id') ltac:(eauto)) as K2. congruence.
  - intros u v id. rewrite H3, (bi_session d B). setoid_rewrite binding_stays. split.
    + intros [(b & Hb & <-) Hx]. exists b. split_and!; try done. intros [= -> Hsid].
      destruct (bi_row d B _ _ _ Hb) as (_ & Hid & _). apply (Hx b); [apply Hbs; eauto | congruence].
    + intros (b & [Hb Hne] & <-). split; [eauto |]. intros x Hin [= -> Hsid Hid]. congruence.
Qed.

Lemma erased_inv : tables_inv d'.
Proof.
  split; [apply erased_log | apply erased_activity | apply erased_binding | apply erased_snapshots
    | apply erased_numbered].
Qed.
End Erasure.

(** ** The bindings the erasure reads *)

Lemma set_rows_elem {K B} `{Countable K} (m : gset K) (f : K -> option B) y :
  y ∈ set_rows m f <-> exists k, k ∈ m /\ f k = Some y.
Proof. unfold set_rows. rewrite list_elem_of_omap. by setoid_rewrite elem_of_elements. Qed.

Lemma map_rows_elem {K V B} `{Countable K} (m : gmap K V) (f : K -> V -> option B) y :
  y ∈ map_rows m f <-> exists k v, m !! k = Some v /\ f k v = Some y.
Proof.
  unfold map_rows. rewrite list_elem_of_omap. split.
  - intros ([k v] & H1%elem_of_map_to_list & H2). eauto.
  - intros (k & v & H1%elem_of_map_to_list & H2). by exists (k, v).
Qed.

Lemma owned_by_Some t o k id : owned_by t o k = Some id <-> k = (t, o, id).
Proof.
  unfold owned_by. destruct k as [p x]. cbn. case_bool_decide as Hp; [subst p |]; split; try done; try congruence.
Qed.

Lemma legacy_bindings_elem n rows : forall ids ids' x,
  legacy_bindings n ids rows = inr ids' -> x ∈ ids' <-> x ∈ ids \/ x ∈ rows.
Proof.
  induction rows as [| r rows IH]; intros ids ids' x H; cbn in H.
  - injection H as <-. rewrite elem_of_nil. tauto.
  - destruct (_ >? n); [done |]. rewrite (IH _ _ x H), elem_of_cons.
    case_bool_decide; [naive_solver |]. rewrite elem_of_app, list_elem_of_singleton. tauto.
Qed.

Lemma sorted_ids_elem l x : x ∈ sorted_ids l <-> x ∈ l.
Proof. by rewrite (sort_by_permutation String.ltb l). Qed.

(** The ids are those of the index, which covers the canonical table. *)
Lemma current_binding_ids_elem t s w ids id :
  binding_inv (base w) -> current_binding_ids t s maxSessionDeletionRows w = inr ids ->
  id ∈ ids <-> exists b, frontend_bindings (base w) !! (t, id) = Some b /\ fb_SessionID b = s.
Proof.
  intros B. unfold current_binding_ids. change (wrap_u64 (maxSessionDeletionRows + 1)) with 10001.
  set (index := binding_index t w s). set (rows := take _ (binding_rows t w s)).
  assert (id ∈ index <-> exists b, frontend_bindings (base w) !! (t, id) = Some b /\ fb_SessionID b = s) as Hi.
  { unfold index, binding_index. rewrite set_rows_elem. setoid_rewrite owned_by_Some.
    rewrite <- (bi_session _ B). naive_solver. }
  destruct (_ >? _) eqn:Hn; [done |]. apply gtb_false in Hn. rewrite take_ge in *
    by (rewrite length_take in Hn; unfold maxSessionDeletionRows in Hn; lia).
  destruct (sessionLifecycleIndexesReady w); [by intros [= <-] |].
  destruct (legacy_bindings _ _ _) as [| l] eqn:Hl; [done |]. intros [= <-].
  rewrite sorted_ids_elem, (legacy_bindings_elem _ _ _ _ id Hl), Hi. split; [| tauto]. intros [H | H]; [done |].
  apply elem_of_take in H as (i & H & _). apply list_elem_of_lookup_2 in H.
  unfold binding_rows in H. apply map_rows_elem in H as ([t1 id1] & b & Hb & Hf). cbn in Hf.
  destruct (_ && _) eqn:Hc; [| done]. b2p. destruct Hc as [-> ?]. simplify_eq. eauto.
Qed.

Lemma read_bindings_elem t s w ids : forall bs b,
  read_bindings t s w ids = inr bs ->
  b ∈ bs <-> exists id, id ∈ ids /\ frontend_bindings (base w) !! (t, id) = Some b /\ fb_SessionID b = s.
Proof.
  induction ids as [| id ids IH]; intros bs b H; cbn in H.
  - injection H as <-. split; [by intros []%elem_of_nil | by intros (x & []%elem_of_nil & _)].
  - destruct (frontend_bindings (base w) !! (t, id)) as [c |] eqn:Hc; [| done].
    destruct (FrontendBinding_Validate c); [done |]. destruct (_ || _) eqn:Hx; [done |].
    destruct (read_bindings t s w ids) as [| l] eqn:Hl; [done |]. injection H as <-. b2p.
    rewrite elem_of_cons, (IH l b eq_refl). setoid_rewrite elem_of_cons. naive_solver.
Qed.

Lemma current_bindings_all t s w bs w' :
  binding_inv (base w) -> currentSessionBindingsTx t s maxSessionDeletionRows w = inr (bs, w') ->
  all_bindings t s bs (base w).
Proof.
  intros B (_ & ids & Hids & Hbs)%current_bindings_inr b. rewrite (read_bindings_elem _ _ _ _ _ b Hbs).
  split; [by intros (id & _ & ?); eauto |]. intros (id & Hb & Hsid). exists id. split_and!; try done.
  apply (current_binding_ids_elem t s w ids id B Hids). eauto.
Qed.

(** A completed erasure keeps the invariants and leaves no session row. *)
Lemma delete_rows_inv u t s w x w' :
  tables_inv (base w) -> deleteSessionRowsTx u t s w = inr (x, w') ->
  tables_inv (base w') /\ session_deletions (base w') = session_deletions (base w) /\
  sessions (base w') = delete (t, s) (sessions (base w)) /\
  session_events (base w') = without (owned3 t s) (session_events (base w)).
Proof.
  intros T H. destruct (delete_rows_effect _ _ _ _ _ _ H) as (_ & session & bs & w1 & Hs & H1 & Hb & ->).
  assert (all_bindings t s bs (base w)) as Hall.
  { apply current_bindings_all in Hb; rewrite H1 in *; [exact Hb |]. by apply (binding_inv_same (base w)), T. }
  split; [by apply erased_inv |].
  destruct (erased_tables t s session bs (base w)) as (? & _ & _ & ? & _ & _ & ? & _). done.
Qed.

(** ** The transition system *)

(** One transaction: a lifecycle operation with any arguments, committed or failed,
    and with any earlier reads; a session operation, none of which writes a
    deletion; or any change of the tables that are neither session tables nor
    legal holds.  The retained deletion path is not a step. *)
Inductive lifecycle_step : ldb -> ldb -> Prop :=
| lc_put hold w : lifecycle_step w (snd (PutSessionLegalHold hold w))
| lc_release t s by_ at_ w : lifecycle_step w (snd (ReleaseSessionLegalHold t s by_ at_ w))
| lc_request u x w : lifecycle_step w (snd (RequestSessionDeletion u x w))
| lc_start_deletion u reader t s at_ seen w r :
    StartSessionDeletion u reader t s at_ seen w = Some r -> lifecycle_step w (snd r)
| lc_complete u t s at_ objects bytes seen w r :
    CompleteSessionDeletion u t s at_ objects bytes seen w = Some r -> lifecycle_step w (snd r)
| lc_session d w :
    store_step (base w) d -> session_deletions d = session_deletions (base w) ->
    lifecycle_step w {| w with base := d |}
| lc_other w w' :
    base w' = base w -> session_legal_holds w' = session_legal_holds w -> lifecycle_step w w'.

(** From empty session tables; the other tables may hold anything. *)
Definition lifecycle_reachable (w : ldb) : Prop :=
  exists w0, base w0 = empty_db /\ rtc lifecycle_step w0 w.

Record lifecycle_inv (w : ldb) : Prop := {
  lc_tables : tables_inv (base w);
  lc_keys t s x : session_deletions (base w) !! (t, s) = Some x -> sd_TenantID x = t /\ sd_SessionID x = s;
  lc_held t s x : held w t s -> session_deletions (base w) !! (t, s) = Some x -> ~ destructive x;
  lc_gone t s x : session_deletions (base w) !! (t, s) = Some x -> sd_State x = SessionDeletionCompleted ->
    sessions (base w) !! (t, s) = None }.

Lemma LTransact_inv {A} t (fn : ltx A) w (P : ldb -> Prop) :
  P w -> (forall x w', fn w = inr (x, w') -> P w') -> P (snd (LTransact t fn w)).
Proof. intros H0 H1. unfold LTransact. destruct (TenantID_Validate t); [done |]. destruct (fn w) as [| []] eqn:E; eauto. Qed.

Lemma lifecycle_inv_same w w' :
  base w' = base w -> session_legal_holds w' = session_legal_holds w -> lifecycle_inv w -> lifecycle_inv w'.
Proof. intros Hb Hh []. split; unfold held; rewrite ?Hb, ?Hh; done. Qed.

(** Writing a hold: released, or of a session whose cleanup has not started. *)
Lemma lifecycle_inv_hold w w' h :
  base w' = base w -> session_legal_holds w' = <[(lh_TenantID h, lh_SessionID h) := h]> (session_legal_holds w) ->
  (lh_State h = SessionLegalHoldActive ->
   forall x, session_deletions (base w) !! (lh_TenantID h, lh_SessionID h) = Some x -> ~ destructive x) ->
  lifecycle_inv w -> lifecycle_inv w'.
Proof.
  intros Hb Hh Hd []. split; rewrite ?Hb; try done. intros t s x (h' & Hl & Ha). rewrite Hh in Hl.
  apply lookup_insert_Some in Hl as [[[= <- <-] <-] | [_ Hl]]; [by apply Hd |]. apply lc_held0. by exists h'.
Qed.

(** Writing a deletion that is not completed, of a session that is not held. *)
Lemma lifecycle_inv_deletion w w' x :
  session_legal_holds w' = session_legal_holds w -> base w' = base (set_deletion x w) ->
  ~ held w (sd_TenantID x) (sd_SessionID x) -> sd_State x <> SessionDeletionCompleted ->
  lifecycle_inv w -> lifecycle_inv w'.
Proof.
  intros Hh Hb Hn Hs [T K Hd G]. split; rewrite ?Hb; cbn.
  - by apply (tables_inv_deletions (base w)).
  - intros t s y [[[= <- <-] <-] | [_ H]]%lookup_insert_Some; [done | by apply K].
  - intros t s y Hheld [[[= <- <-] <-] | [_ H]]%lookup_insert_Some.
    + destruct Hn. destruct Hheld as (h & Hl & Ha). rewrite Hh in Hl. by exists h.
    + apply (Hd t s y); [| done]. destruct Hheld as (h & Hl & Ha). rewrite Hh in Hl. by exists h.
  - intros t s y [[[= <- <-] <-] | [_ H]]%lookup_insert_Some; [done | by apply G].
Qed.

(** Completing: the rows are erased and the completed deletion is written. *)
Lemma lifecycle_inv_complete u t s w w1 w2 w' x y v at_ objects bytes :
  session_deletions (base w) !! (t, s) = Some x -> ~ held w t s -> base w1 = base w ->
  deleteSessionRowsTx u t s w1 = inr (v, w2) -> Complete (Some x) at_ objects bytes = (Some y, None) ->
  session_legal_holds w' = session_legal_holds w -> base w' = base (set_deletion y w2) ->
  lifecycle_inv w -> lifecycle_inv w'.
Proof.
  intros Hx Hn Hb1 Hdel Hc Hh Hb [T K Hd G].
  assert (sd_TenantID y = t /\ sd_SessionID y = s) as [Ht Hs].
  { destruct (K _ _ _ Hx) as [<- <-]. unfold Complete in Hc. repeat case_match; by simplify_eq. }
  rewrite <- Hb1 in T. destruct (delete_rows_inv _ _ _ _ _ _ T Hdel) as (T2 & Hdn & Hses & _).
  rewrite Hb1 in Hdn, Hses. split; rewrite ?Hb; cbn.
  - by apply (tables_inv_deletions (base w2)).
  - rewrite Ht, Hs, Hdn. intros t1 s1 z [[[= <- <-] <-] | [_ H]]%lookup_insert_Some; [done | by apply K].
  - rewrite Ht, Hs, Hdn. intros t1 s1 z (h & Hl & Ha). rewrite Hh in Hl.
    intros [[[= <- <-] <-] | [_ H]]%lookup_insert_Some; [destruct Hn; by exists h |].
    apply (Hd t1 s1 z); [by exists h | done].
  - rewrite Ht, Hs, Hdn, Hses. intros t1 s1 z [[[= <- <-] <-] | [Hne H]]%lookup_insert_Some Hz.
    + apply lookup_delete_eq.
    + rewrite lookup_delete_ne by done. by apply (G t1 s1 z).
Qed.

(** ** Every step keeps the invariant *)

Lemma with_session_keeps ss o d k : is_Some (sessions d !! k) -> is_Some (sessions (with_session ss o d) !! k).
Proof.
  intros H. cbn. destruct (decide (k = (s_TenantID ss, s_ID ss))) as [-> |];
    [by rewrite lookup_insert_eq | by rewrite lookup_insert_ne].
Qed.

Lemma snapshot_owned_same d d' :
  session_snapshots d' = session_snapshots d -> (forall k, is_Some (sessions d !! k) -> is_Some (sessions d' !! k)) ->
  snapshot_owned d -> snapshot_owned d'.
Proof. intros Hs Hk S t s v x. rewrite Hs. intros H. apply Hk. by eapply S. Qed.

Lemma snapshot_owned_step d d' : log_inv d -> store_step d d' -> snapshot_owned d -> snapshot_owned d'.
Proof.
  intros I [t0 Hc%step_change] S; [| done].
  destruct Hc as [t1 | ss o _ | ss o b _ _ _ | b _ | e m d' Hm Ha | sn _ _ _ _ _ (row & Hrow & _) | ss s' | t1 s1 y].
  6: { intros t s v x; cbn; intros [[[= <- <- _] _] | [_ H]]%lookup_insert_Some; [by exists row | by eapply S]. }
  all: eapply snapshot_owned_same; [| | exact S]; try done.
  - intros k. apply with_session_keeps.
  - intros k. apply with_session_keeps.
  - by apply (append_rest e m).
  - destruct (append_rows e m d d' I Hm Ha) as (session & session' & p & e' & _ & _ & _ & _ & _ & _ & _ & _ & _ & ->).
    intros k Hk. cbn. by apply update_keeps.
  - apply (sr_snapshots _ _ (update_rest s' d _)).
  - intros k. apply update_keeps.
Qed.

Lemma tables_inv_step d d' : tables_inv d -> store_step d d' -> tables_inv d'.
Proof.
  intros [I A B S N] H. split; [by eapply inv_step | by eapply activity_inv_step | by eapply binding_inv_step
    | by eapply snapshot_owned_step | by eapply snapshot_inv_step].
Qed.

Lemma lifecycle_inv_session w d :
  store_step (base w) d -> session_deletions d = session_deletions (base w) -> lifecycle_inv w ->
  lifecycle_inv {| w with base := d |}.
Proof.
  intros Hstep Hd [T K Hh G]. split; cbn; rewrite ?Hd; try done; [by eapply tables_inv_step |].
  intros t s x Hx Hc. pose proof (ti_log _ T) as I. destruct Hstep as [t0 Hch%step_change]; [| done].
  rewrite (sm_session _ _ _ _ (change_frozen t0 t s x _ _ I Hch Hx)). by eapply G.
Qed.

Lemma start_deletion_cases u reader t s at_ seen w r :
  StartSessionDeletion u reader t s at_ seen w = Some r ->
  (exists e, r = (inl e, w)) \/ r = LTransact t (start_deletion_tx u t s at_) w.
Proof. unfold StartSessionDeletion. intros H. repeat case_match; simplify_eq; eauto. Qed.

Lemma complete_deletion_cases u t s at_ objects bytes seen w r :
  CompleteSessionDeletion u t s at_ objects bytes seen w = Some r ->
  (exists e, r = (inl e, w)) \/ exists expected, r = LTransact t (complete_deletion_tx u t s at_ objects bytes expected) w.
Proof. unfold CompleteSessionDeletion. intros H. repeat case_match; simplify_eq; eauto. Qed.

Lemma lifecycle_inv_step w w' : lifecycle_inv w -> lifecycle_step w w' -> lifecycle_inv w'.
Proof.
  intros L Hstep. revert L. destruct Hstep as [hold w1 | t s by_ at_ w1 | u x w1 | u reader t s at_ seen w1 r H
    | u t s at_ objects bytes seen w1 r H | d w1 Hs Hd | w1 w2 Hb Hh]; intros L.
  - unfold PutSessionLegalHold. repeat case_match; try done. apply LTransact_inv; [done |].
    intros y w2 (Hb & [Hh | [Hh Hd]])%put_hold_effect; [by apply (lifecycle_inv_same w1) |].
    by apply (lifecycle_inv_hold w1 w2 hold).
  - unfold ReleaseSessionLegalHold. case_match; [done |]. apply LTransact_inv; [done |].
    intros y w2 (Hb & [Hh | (h & Hr & Hh)])%release_hold_effect; [by apply (lifecycle_inv_same w1) |].
    apply (lifecycle_inv_hold w1 w2 h); try done. by rewrite Hr.
  - unfold RequestSessionDeletion. repeat case_match; try done. apply LTransact_inv; [done |].
    intros y w2. b2p. intros (Hh & [Hb | (_ & Hn & Hb)])%request_effect; [| | done]; [by apply (lifecycle_inv_same w1) |].
    apply (lifecycle_inv_deletion w1 w2 x); try done. congruence.
  - destruct (start_deletion_cases _ _ _ _ _ _ _ _ H) as [[e ->] | ->]; [done |]. apply LTransact_inv; [done |].
    intros y w2 (Hh & [[Hb _] | (x & Hx & _ & Hn & -> & Hb)])%start_effect; [by apply (lifecycle_inv_same w1) |].
    destruct (lc_keys w1 L _ _ _ Hx) as [<- <-]. by eapply (lifecycle_inv_deletion w1 w2).
  - destruct (complete_deletion_cases _ _ _ _ _ _ _ _ _ H) as [[e ->] | [expected ->]]; [done |].
    apply LTransact_inv; [done |]. intros y w2 (Hh & _ & [[Hb _] | (x & wa & wb & v & Hx & _ & Hn & Ha & Hdel & Hc & Hb)])%complete_effect;
      [by apply (lifecycle_inv_same w1) |].
    by eapply (lifecycle_inv_complete u t s w1 wa wb w2 x y v).
  - by apply lifecycle_inv_session.
  - by apply (lifecycle_inv_same w1).
Qed.

Lemma lifecycle_inv_init w : base w = empty_db -> lifecycle_inv w.
Proof.
  intros Hb. split; rewrite ?Hb; try done.
  split; [apply log_inv_empty | apply activity_inv_empty | apply binding_inv_empty | done | apply snapshot_inv_empty].
Qed.

Lemma lifecycle_reachable_inv w : lifecycle_reachable w -> lifecycle_inv w.
Proof.
  intros (w0 & Hb & Hr). pose proof (lifecycle_inv_init w0 Hb) as L. clear Hb. revert L.
  induction Hr as [| w1 w2 w3 Hs _ IH]; [done |]. intros L. by apply IH, (lifecycle_inv_step w1).
Qed.

(** ** What a held session keeps *)

(** The session's row is there as before and its history is at least as long. *)
Definition session_kept (t s : string) (d d' : db) : Prop :=
  (is_Some (sessions d !! (t, s)) -> is_Some (sessions d' !! (t, s))) /\ log d t s `prefix_of` log d' t s.

Lemma session_kept_same t s d d' :
  sessions d' !! (t, s) = sessions d !! (t, s) ->
  (forall q, session_events d' !! (t, s, q) = session_events d !! (t, s, q)) -> session_kept t s d d'.
Proof.
  intros Hs He. split; [by rewrite Hs |]. by rewrite (log_same_at t s d d').
Qed.

Lemma session_kept_step t s d d' : log_inv d -> store_step d d' -> session_kept t s d d'.
Proof.
  intros I Hstep. split; [| by apply log_grows_prefix, step_log].
  destruct Hstep as [t0 Hc%step_change]; [| done].
  destruct Hc as [t1 | ss o _ | ss o b _ _ _ | b _ | e m d' Hm Ha | sn | ss s' | t1 s1 y]; try done.
  - apply with_session_keeps.
  - apply with_session_keeps.
  - destruct (append_rows e m d d' I Hm Ha) as (session & session' & p & e' & _ & _ & _ & _ & _ & _ & _ & _ & _ & ->).
    intros Hk. cbn. by apply update_keeps.
  - apply update_keeps.
Qed.

(** What a step does to the session tables. *)
Inductive base_effect (w w' : ldb) : Prop :=
| be_same : base w' = base w -> base_effect w w'
| be_requested x :
    session_deletions (base w) !! (sd_TenantID x, sd_SessionID x) = None -> base w' = base (set_deletion x w) ->
    base_effect w w'
| be_started x y :
    session_deletions (base w) !! (sd_TenantID y, sd_SessionID y) = Some x -> ~ destructive x -> destructive y ->
    base w' = base (set_deletion y w) -> base_effect w w'
| be_completed u x y w1 w2 v :
    session_deletions (base w) !! (sd_TenantID y, sd_SessionID y) = Some x -> sd_State x = SessionDeletionDeleting ->
    sd_State y = SessionDeletionCompleted -> ~ held w (sd_TenantID y) (sd_SessionID y) -> base w1 = base w ->
    deleteSessionRowsTx u (sd_TenantID y) (sd_SessionID y) w1 = inr (v, w2) -> base w' = base (set_deletion y w2) ->
    base_effect w w'
| be_session :
    store_step (base w) (base w') -> session_deletions (base w') = session_deletions (base w) -> base_effect w w'.

Lemma step_effect w w' : lifecycle_inv w -> lifecycle_step w w' -> base_effect w w'.
Proof.
  intros L Hstep. pose proof be_same as Hsame. revert L.
  destruct Hstep as [hold w1 | t1 s1 by_ at_ w1 | u x w1 | u reader t1 s1 at_ seen w1 r H
    | u t1 s1 at_ objects bytes seen w1 r H | d w1 Hs Hd | w1 w2 Hb Hh]; intros L.
  - unfold PutSessionLegalHold. repeat case_match; try by apply Hsame. apply LTransact_inv; [by apply Hsame |].
    intros y w2 [Hb _]%put_hold_effect. by apply Hsame.
  - unfold ReleaseSessionLegalHold. case_match; [by apply Hsame |]. apply LTransact_inv; [by apply Hsame |].
    intros y w2 [Hb _]%release_hold_effect. by apply Hsame.
  - unfold RequestSessionDeletion. repeat case_match; try by apply Hsame. apply LTransact_inv; [by apply Hsame |].
    intros y w2. b2p. intros [_ [Hb | (Hn & _ & Hb)]]%request_effect; [by apply Hsame | by eapply be_requested | done].
  - destruct (start_deletion_cases _ _ _ _ _ _ _ _ H) as [[e ->] | ->]; [by apply Hsame |].
    apply LTransact_inv; [by apply Hsame |].
    intros y w2 [_ [[Hb _] | (x & Hx & Hnd & _ & -> & Hb)]]%start_effect; [by apply Hsame |].
    destruct (lc_keys w1 L _ _ _ Hx) as [<- <-]. eapply be_started; [| exact Hnd | | exact Hb]; [exact Hx | by left].
  - destruct (complete_deletion_cases _ _ _ _ _ _ _ _ _ H) as [[e ->] | [expected ->]]; [by apply Hsame |].
    apply LTransact_inv; [by apply Hsame |].
    intros y w2 (_ & Hy & [[Hb _] | (x & wa & wb & v & Hx & Hdx & Hn & Ha & Hdel & Hc & Hb)])%complete_effect;
      [by apply Hsame |].
    assert (sd_TenantID y = t1 /\ sd_SessionID y = s1) as [<- <-].
    { destruct (lc_keys w1 L _ _ _ Hx) as [<- <-]. unfold Complete in Hc. repeat case_match; by simplify_eq. }
    by eapply be_completed.
  - by apply be_session.
  - by apply Hsame.
Qed.

(** The deletion of the session is in a state of the kind. *)
Definition in_state (P : SessionDeletion -> Prop) (t s : string) (w : ldb) : Prop :=
  exists x, session_deletions (base w) !! (t, s) = Some x /\ P x.

Definition completed (x : SessionDeletion) : Prop := sd_State x = SessionDeletionCompleted.

(** A transaction only moves a deletion forward. *)
Lemma deletion_forward w w' t s x :
  lifecycle_inv w -> lifecycle_step w w' -> session_deletions (base w) !! (t, s) = Some x ->
  exists x', session_deletions (base w') !! (t, s) = Some x' /\ (destructive x -> destructive x') /\ (completed x -> completed x').
Proof.
  intros L Hstep Hx. destruct (step_effect w w' L Hstep)
    as [-> | z Hn -> | z y Hz Hnd Hd -> | u z y w1 w2 v Hz Hdz Hy _ H1 Hdel -> | Hs ->]; [by eauto | | | | by eauto].
  - exists x. cbn. rewrite lookup_insert_ne by congruence. auto.
  - cbn. destruct (decide ((sd_TenantID y, sd_SessionID y) = (t, s))) as [Heq | Hne].
    + rewrite Heq in *. rewrite lookup_insert_eq. exists y. split; [done |]. rewrite Hx in Hz. injection Hz as <-.
      unfold completed, destructive in *. tauto.
    + rewrite lookup_insert_ne by done. eauto.
  - pose proof (lc_tables w L) as T. rewrite <- H1 in T. destruct (delete_rows_inv _ _ _ _ _ _ T Hdel) as (_ & Hdn & _).
    cbn. rewrite Hdn, H1. destruct (decide ((sd_TenantID y, sd_SessionID y) = (t, s))) as [-> | Hne].
    + rewrite lookup_insert_eq. exists y. unfold destructive, completed. auto.
    + rewrite lookup_insert_ne by done. eauto.
Qed.

(** The rows of a session that is erased, or of another one. *)
Lemma erase_other u t s t1 s1 w w1 w2 v y :
  tables_inv (base w) -> base w1 = base w -> deleteSessionRowsTx u t1 s1 w1 = inr (v, w2) -> (t1, s1) <> (t, s) ->
  same_session t s (base w) (base (set_deletion y w2)).
Proof.
  intros T Hb Hdel Hne. destruct (delete_rows_effect _ _ _ _ _ _ Hdel) as (_ & session & bs & w3 & _ & _ & _ & Hd).
  destruct (erased_tables t1 s1 session bs (base w1)) as (T1 & _ & _ & T2 & T3 & T4 & _ & T5 & T6).
  split; intros; cbn; rewrite Hd, ?T1, ?T2, ?T3, ?T4, ?T5, ?T6, <- Hb;
    first [by rewrite lookup_delete_ne | by apply without_other].
Qed.

(** A step keeps a session, or completes its deletion. *)
Lemma step_keeps w w' t s :
  lifecycle_inv w -> lifecycle_step w w' ->
  session_kept t s (base w) (base w') \/ ~ held w t s /\ in_state completed t s w'.
Proof.
  intros L Hstep. destruct (step_effect w w' L Hstep)
    as [-> | z Hn -> | z y Hz Hnd Hd -> | u z y w1 w2 v Hz Hdz Hy Hn H1 Hdel Hb | Hs _];
    try by left; apply session_kept_same.
  - destruct (decide ((sd_TenantID y, sd_SessionID y) = (t, s))) as [[= <- <-] | Hne].
    + right. split; [done |]. exists y. split; [| done]. rewrite Hb. cbn. by rewrite lookup_insert_eq.
    + left. rewrite Hb. destruct (erase_other u t s _ _ w w1 w2 v y (lc_tables w L) H1 Hdel Hne).
      by apply session_kept_same.
  - left. apply session_kept_step; [apply (ti_log _ (lc_tables _ L)) | done].
Qed.

Lemma held_session_kept w w' t s :
  lifecycle_inv w -> held w t s -> lifecycle_step w w' -> session_kept t s (base w) (base w').
Proof. intros L Hheld Hstep. by destruct (step_keeps w w' t s L Hstep) as [| [? _]]. Qed.

(** No row of the session tables is the session's or refers to it; a key row of a
    frontend conversation names a stored binding of another session. *)
Record nothing_left (t s : string) (d : db) : Prop := {
  nl_session : sessions d !! (t, s) = None;
  nl_participants u : session_participants d !! (t, s, u) = None;
  nl_activity u status bucket at_ : (t, u, status, bucket, at_, s) ∉ session_activity d;
  nl_events q : session_events d !! (t, s, q) = None;
  nl_event_keys k : session_event_idempotency d !! (t, s, k) = None;
  nl_snapshots v : session_snapshots d !! (t, s, v) = None;
  nl_current : session_material_current d !! (t, s) = None;
  nl_boundaries q : session_material_boundaries d !! (t, s, q) = None;
  nl_bindings id b : frontend_bindings d !! (t, id) = Some b -> fb_SessionID b <> s;
  nl_by_session id : (t, s, id) ∉ frontend_bindings_by_session d;
  nl_binding_keys f c id : frontend_binding_keys d !! (t, f, c) = Some id ->
    exists b, frontend_bindings d !! (t, id) = Some b /\ fb_SessionID b <> s }.

(** Under the invariants nothing refers to a session without a row. *)
Lemma erased_everywhere d t s : tables_inv d -> sessions d !! (t, s) = None -> nothing_left t s d.
Proof.
  intros [I A B S _] Hs.
  assert (forall q, session_events d !! (t, s, q) = None) as He.
  { intros q. apply eq_None_not_Some. intros [e H]. destruct (li_event d I _ _ _ _ H) as (_ & _ & _ & _ & row & ? & _). congruence. }
  assert (forall id b, frontend_bindings d !! (t, id) = Some b -> fb_SessionID b <> s) as Hb.
  { intros id b H <-. destruct (bi_row d B _ _ _ H) as (_ & _ & _ & [row ?]). congruence. }
  split; try done.
  - intros u. apply eq_None_not_Some. intros [p H]. destruct (ai_participant d A _ _ _ _ H) as (_ & _ & _ & [row ?]). congruence.
  - intros u status bucket at_ H. apply (ai_exact d A) in H as (t1 & u1 & s1 & row & Hp & Heq).
    destruct (row_keys d t1 s1 row I (proj1 Hp)) as [H1 H2]. injection Heq as -> -> _ _ _ ->. subst.
    destruct Hp as [Hp _]. congruence.
  - intros k. apply eq_None_not_Some. intros [[q id] H]. apply (li_key d I) in H as (e & H & _). by rewrite He in H.
  - intros v. apply eq_None_not_Some. intros [r H]. apply S in H as [row ?]. congruence.
  - apply eq_None_not_Some. intros [r H]. apply (li_current d I) in H as [row ?]. congruence.
  - intros q. apply eq_None_not_Some. intros [r H]. destruct (li_boundary d I _ _ _ _ H) as (row & ? & _). congruence.
  - intros id (b & H & Hsid)%(bi_session d B). by apply (Hb id b).
  - intros f c id (b & H & _)%(bi_key d B). eauto.
Qed.

Lemma completed_gone w t s : lifecycle_inv w -> in_state completed t s w -> nothing_left t s (base w).
Proof. intros L (x & Hx & Hc). apply erased_everywhere; [apply L | by apply (lc_gone w L t s x)]. Qed.

(** Over any number of steps: the history grows, or the deletion is completed. *)
Lemma run_keeps w w' t s :
  lifecycle_inv w -> rtc lifecycle_step w w' ->
  lifecycle_inv w' /\ (log (base w) t s `prefix_of` log (base w') t s \/ in_state completed t s w').
Proof.
  intros L H. revert w' H. apply (rtc_ind_r (fun w' => lifecycle_inv w' /\ (log (base w) t s `prefix_of` log (base w') t s
    \/ in_state completed t s w'))); [by split; [| left] |].
  intros w1 w2 _ Hstep [L1 Hw1]. split; [by eapply lifecycle_inv_step |]. destruct Hw1 as [Hpre | (x & Hx & Hc)].
  - destruct (step_keeps w1 w2 t s L1 Hstep) as [[_ Hk] | [_ Hk]]; [left; by etrans | by right].
  - right. destruct (deletion_forward _ _ _ _ _ L1 Hstep Hx) as (x' & ? & _ & ?). exists x'. auto.
Qed.


(** ** Theorems *)

(** C3. Session history is append-only.  Whatever operations of the session store and
    of the deletion lifecycle run, and whichever of them fail, the log of a session is
    a prefix of its later log: no event is lost, changed, reordered or inserted before
    another; or else the session's deletion has been completed, and then its log is
    empty.  (The retained deletion path is not among the operations.) *)
Theorem history_append_only w w' t s :
  lifecycle_reachable w -> rtc lifecycle_step w w' ->
  log (base w) t s `prefix_of` log (base w') t s \/
  (exists x, session_deletions (base w') !! (t, s) = Some x /\ sd_State x = SessionDeletionCompleted) /\
  log (base w') t s = [].
Proof.
  intros L%lifecycle_reachable_inv Hrun. destruct (run_keeps w w' t s L Hrun) as [L' [Hpre | Hc]]; [by left | right].
  split; [exact Hc |]. unfold log. by rewrite (nl_session _ _ _ (completed_gone w' t s L' Hc)).
Qed.


(** C8. A legal hold prevents deletion.  Whatever lifecycle and session
    transactions have run, with whatever earlier reads, a session with an active
    hold has no deletion or one that is only requested; and no transaction from
    there removes the session's row or shortens its history. *)
Theorem hold_blocks_deletion w t s :
  lifecycle_reachable w -> held w t s ->
  (forall x, session_deletions (base w) !! (t, s) = Some x -> ~ destructive x) /\
  (forall w', lifecycle_step w w' -> session_kept t s (base w) (base w')).
Proof.
  intros L%lifecycle_reachable_inv Hh. split; [intros x; by apply (lc_held w L) |].
  intros w' Hstep. by apply (held_session_kept w).
Qed.


(** ** A sample deletion *)

Module DeletionSample.
Definition at_ (n : Z) : time := {| ns := ns Sample.t2 + n * second; loc := UTC |}.

Definition outside : unmodelled :=
  {| um_retire := fun _ => inl ErrSessionLifecycleConflict; um_admission := fun _ => None;
     um_capture_runs := fun _ => false; um_capture_read := fun _ => false |}.

Definition member : Memberships.TenantMembership :=
  {| Memberships.tm_TenantID := "acme"; Memberships.tm_UserID := "ada";
     Memberships.tm_Role := Memberships.TenantMembershipOwner;
     Memberships.tm_Status := Memberships.TenantMembershipActive; Memberships.tm_SecurityVersion := 1;
     Memberships.tm_CreatedAt := Sample.t1; Memberships.tm_UpdatedAt := Sample.t1 |}.

(** A finished run of the session with one artifact. *)
Definition run : Run :=
  {| sample_run with run_Status := RunSucceeded; run_FinishedAt := Some {| ns := 2000; loc := UTC |};
     run_UpdatedAt := {| ns := 2000; loc := UTC |} |}.

Definition manifest : ArtifactManifest :=
  {| am_ID := "m1"; am_TenantID := "acme"; am_RunID := "run-1";
     am_Artifacts := [ {| art_Name := "out"; art_MediaType := "text/plain";
                          art_Blob := {| br_TenantID := "acme"; br_Key := "tenants/acme/sessions/s1/runs/run-1/out";
                                         br_Size := 5; br_SHA256 := Sample.digest |} |} ];
     am_CreatedAt := {| ns := 2000; loc := UTC |} |}.

Definition tables (d : db) : ldb :=
  {| base := d; session_legal_holds := ∅; tenant_memberships := {[ (bucket_of "ada", "ada", "acme") := member ]};
     lifecycle_backfill := None;
     runs := {[ ("acme", "run-1") := {| rr_run := run; rr_bytes := 900; rr_utf8 := true |} ]};
     runs_by_session := {[ ("acme", "s1", 1, "run-1") := RunSucceeded ]};
     attached_worker_output_receipts := ∅; admissions := ∅; admissions_by_session := ∅;
     artifact_manifests := {[ ("acme", "m1") := manifest ]};
     artifact_manifests_by_run := {[ ("acme", "run-1", "m1") ]};
     telegram_delivery_outbox := ∅; telegram_deliveries_by_run := ∅; telegram_delivery_ready := ∅; checkpoints := ∅;
     checkpoint_objects_by_run := ∅; frontend_projection_outbox := ∅; frontend_projections_by_run := ∅;
     frontend_projections_by_session := ∅; frontend_projection_ready := ∅;
     run_idempotency := {[ ("acme", "key-1") ]}; run_finalizations := ∅; run_explanation_heads := ∅;
     worker_jobs := ∅; session_snapshot_material := ∅; session_displays := ∅; audit_events := ∅ |}.

Definition hold : SessionLegalHold :=
  {| lh_TenantID := "acme"; lh_SessionID := "s1"; lh_State := SessionLegalHoldActive; lh_Reason := "litigation";
     lh_SetBy := "counsel"; lh_SetAt := at_ 1; lh_ReleasedBy := None; lh_ReleasedAt := None |}.

Definition deletion : SessionDeletion :=
  {| sd_TenantID := "acme"; sd_SessionID := "s1"; sd_RequestedBy := "ada"; sd_Reason := "user request";
     sd_State := SessionDeletionRequested; sd_RequestedAt := at_ 3; sd_StartedAt := None; sd_CompletedAt := None;
     sd_DeletedObjects := 0; sd_DeletedBytes := 0; sd_RetainedVerification := None |}.

(** The rows of the tables the first steps write, in which the states are written down. *)
Definition written (w : ldb)
  : list (string * string * SessionLegalHold) * list (string * string * SessionDeletion) * list (string * Z * string * audit_row) :=
  (map_to_list (session_legal_holds w), map_to_list (session_deletions (base w)), map_to_list (audit_events w)).

Definition state
    (r : list (string * string * SessionLegalHold) * list (string * string * SessionDeletion)
         * list (string * Z * string * audit_row)) : ldb :=
  let w := tables {| indexed with session_deletions := list_to_map r.1.2 |} in
  {| w with session_legal_holds := list_to_map r.1.1; audit_events := list_to_map r.2 |}.

Definition before : ldb := state ([], [], []).
Definition on_hold_rows := Eval vm_compute in written (snd (PutSessionLegalHold hold before)).
Definition on_hold : ldb := state on_hold_rows.
Definition refused : (error + SessionDeletion) * ldb := RequestSessionDeletion outside deletion on_hold.
Definition released_rows :=
  Eval vm_compute in written (snd (ReleaseSessionLegalHold "acme" "s1" "counsel" (at_ 2) on_hold)).
Definition released : ldb := state released_rows.
Definition requested_rows := Eval vm_compute in written (snd (RequestSessionDeletion outside deletion released)).
Definition requested : ldb := state requested_rows.
Definition started_rows :=
  Eval vm_compute in written (default requested
    (snd <$> StartSessionDeletion outside true "acme" "s1" (at_ 4) (one_state requested) requested)).
Definition after_start : ldb := state started_rows.

Lemma on_hold_is : snd (PutSessionLegalHold hold before) = on_hold.
Proof. vm_cast_no_check (eq_refl on_hold). Qed.
Lemma released_is : snd (ReleaseSessionLegalHold "acme" "s1" "counsel" (at_ 2) on_hold) = released.
Proof. vm_cast_no_check (eq_refl released). Qed.
Lemma requested_is : snd (RequestSessionDeletion outside deletion released) = requested.
Proof. vm_cast_no_check (eq_refl requested). Qed.
Lemma started_is : snd <$> StartSessionDeletion outside true "acme" "s1" (at_ 4) (one_state requested) requested = Some after_start.
Proof. vm_cast_no_check (eq_refl (Some after_start)). Qed.

End DeletionSample.

Section Reach.
Import DeletionSample.

(** A session step that leaves the deletions alone. *)
Definition plain_step (d d' : db) : Prop := store_step d d' /\ session_deletions d' = session_deletions d.

Lemma session_steps w d : rtc plain_step (base w) d -> rtc lifecycle_step w {| w with base := d |}.
Proof.
  intros H. remember (base w) as d0 eqn:Hd0. revert w Hd0.
  induction H as [d0 | d0 d1 d [Hs Hd] _ IH]; intros w ->; [by rewrite base_kept |].
  eapply rtc_l; [by apply (lc_session d1 w) |]. apply (IH {| w with base := d1 |}). done.
Qed.

Lemma sample_before : lifecycle_reachable before.
Proof.
  exists (tables empty_db). split; [done |].
  assert (before = (let w := tables empty_db in {| w with base := indexed |})) as -> by reflexivity.
  apply (session_steps (tables empty_db) indexed).
  eapply rtc_l; [split; [apply sample_created | vm_compute; reflexivity] |].
  eapply rtc_l; [split; [apply sample_one | vm_compute; reflexivity] |].
  eapply rtc_l; [split; [apply sample_two | vm_compute; reflexivity] |].
  eapply rtc_l; [split; [apply sample_snapshotted | vm_compute; reflexivity] |].
  apply rtc_once. split; [apply sample_indexed | vm_compute; reflexivity].
Qed.

Lemma lifecycle_reachable_step w w' : lifecycle_reachable w -> lifecycle_step w w' -> lifecycle_reachable w'.
Proof. intros (w0 & Hb & Hr) Hs. exists w0. split; [done |]. by eapply rtc_r. Qed.

Lemma sample_on_hold : lifecycle_reachable on_hold.
Proof.
  eapply lifecycle_reachable_step; [apply sample_before |]. rewrite <- on_hold_is. apply lc_put.
Qed.

Lemma sample_requested : lifecycle_reachable requested.
Proof.
  apply (lifecycle_reachable_step released); [| rewrite <- requested_is; exact (lc_request outside deletion released)].
  apply (lifecycle_reachable_step on_hold); [apply sample_on_hold |].
  rewrite <- released_is. exact (lc_release "acme" "s1" "counsel" (at_ 2) on_hold).
Qed.


Lemma sample_start : lifecycle_step requested after_start.
Proof.
  pose proof started_is as H. destruct (StartSessionDeletion outside true "acme" "s1" (at_ 4) (one_state requested) requested) as [r |] eqn:E; [| done].
  injection H as <-. by eapply lc_start_deletion.
Qed.

End Reach.

Lemma history_append_only_witness :
  length (log (base DeletionSample.requested) "acme" "s1") = 2%nat /\
  (log (base DeletionSample.requested) "acme" "s1" `prefix_of` log (base DeletionSample.after_start) "acme" "s1" \/
   (exists x, session_deletions (base DeletionSample.after_start) !! ("acme", "s1") = Some x /\
      sd_State x = SessionDeletionCompleted) /\ log (base DeletionSample.after_start) "acme" "s1" = []).
Proof.
  split; [vm_compute; reflexivity |].
  exact (history_append_only DeletionSample.requested DeletionSample.after_start "acme" "s1" sample_requested
    (rtc_once _ _ sample_start)).
Defined.


Lemma hold_blocks_deletion_witness :
  let w := DeletionSample.on_hold in
  held w "acme" "s1" /\ fst DeletionSample.refused =
    inl (ValidationError "session_deletion.legal_hold" "active legal hold blocks destructive cleanup") /\
  session_kept "acme" "s1" (base w) (base (snd DeletionSample.refused)).
Proof.
  assert (held DeletionSample.on_hold "acme" "s1") as H.
  { exists DeletionSample.hold. split; vm_compute; reflexivity. }
  split; [exact H |]. split; [vm_compute; reflexivity |].
  apply (hold_blocks_deletion DeletionSample.on_hold "acme" "s1" sample_on_hold H). apply lc_request.
Defined.

