(* ===== verification/InventoryExact.v ===== *)
(** * The inventory lists exactly the session's objects

    Building an inventory ends, and what it lists are the objects the rows of the
    session and of its runs refer to: the bounded reads miss nothing, because a
    read that was cut off makes the row count exceed its bound.  The queries need not
    see one state: what is listed was referred to in a state some query saw, and what
    is referred to in the same way in all of them is listed. *)

From S2P Require Import Prelude GoText GoTime Sorting Errors Identity Blobs Lifecycle Runs Work Sessions.
From S2P Require Import Deliveries Store SessionStore StoreEffects SessionLog SessionHistory SessionIndexes.
From S2P Require Import LifecycleTables LifecycleStore LifecycleInventory LifecycleErase LifecycleEffects.
From S2P Require Import LifecycleSafety.
From stdpp Require Import gmap sets.
#[local] Open Scope Z_scope.

(** ** Steps of the builder *)

Section Steps.
Context (tenantID : string) (maxRows maxObjects : Z).
Hypothesis (Hmax : 1 <= maxRows <= maxSessionDeletionRows).

(** The objects are keyed by their key and the rows are within the bound. *)
Definition tidy (b : building) : Prop :=
  (forall k r, bd_objects b !! k = Some r -> br_Key r = k) /\ 0 <= bd_rows b <= maxRows.

Definition stored (b : building) (r : BlobRef) : Prop := bd_objects b !! br_Key r = Some r.

(** From [b] to [b'] at least [n] rows were charged, and exactly the objects [refs]
    and the runs [runs] were added. *)
Record collects (b : building) (n : nat) (refs : list BlobRef) (runs : list string) (b' : building) : Prop := {
  co_tidy : tidy b';
  co_rows : bd_rows b + Z.of_nat n <= bd_rows b';
  co_objects r : stored b' r <-> stored b r \/ r ∈ refs;
  co_runs : inv_RunIDs (bd_inventory b') = inv_RunIDs (bd_inventory b) ++ runs;
  co_ids : inv_TenantID (bd_inventory b') = inv_TenantID (bd_inventory b) /\
           inv_SessionID (bd_inventory b') = inv_SessionID (bd_inventory b) }.

Lemma collects_refl b : tidy b -> collects b 0 [] [] b.
Proof. intros Hb. split; try done; [lia | | by rewrite app_nil_r]. intros r. rewrite elem_of_nil. tauto. Qed.

Lemma collects_trans b1 n r u b2 n' r' u' b3 :
  collects b1 n r u b2 -> collects b2 n' r' u' b3 -> collects b1 (n + n') (r ++ r') (u ++ u') b3.
Proof.
  intros [] []. split; try done; [lia | | by rewrite co_runs1, co_runs0, app_assoc |].
  - intros x. rewrite co_objects1, co_objects0, elem_of_app. tauto.
  - destruct co_ids0, co_ids1. split; congruence.
Qed.

Lemma collects_fewer b n n' r u b' : collects b n r u b' -> (n' <= n)%nat -> collects b n' r u b'.
Proof. intros [] Hn. split; try done. lia. Qed.

(** A counter: it changes neither the runs nor the identity of the inventory. *)
Definition counter (count : SessionDeletionInventory -> SessionDeletionInventory) : Prop := forall i,
  inv_RunIDs (count i) = inv_RunIDs i /\ inv_TenantID (count i) = inv_TenantID i /\
  inv_SessionID (count i) = inv_SessionID i.

Lemma addRow_collects b b' : tidy b -> addRow maxRows b = inr b' -> collects b 1 [] [] b'.
Proof.
  intros [Hk Hr]. unfold addRow, fails. cbv zeta. unfold maxSessionDeletionRows in Hmax.
  rewrite wrap_u64_small by (unfold u64, max_u64; lia).
  destruct (_ >? maxRows) eqn:E; [done |]. intros [= <-]. apply gtb_false in E.
  split; cbn; try done; [split; [done | cbn; lia] | | by rewrite app_nil_r].
  intros r. unfold stored. cbn. rewrite elem_of_nil. tauto.
Qed.

Lemma counted_collects count b b' :
  counter count -> tidy b -> countedRow maxRows count b = inr b' -> collects b 1 [] [] b'.
Proof.
  intros Hc Hb. unfold countedRow, mbind, result_bind. destruct (addRow maxRows b) as [| b1] eqn:E; [done |].
  intros [= <-]. destruct (addRow_collects _ _ Hb E) as [Ht Hr Ho Hu Hi].
  destruct (Hc (bd_inventory b1)) as (H1 & H2 & H3). split; cbn; try done; [by rewrite H1 | by rewrite H2, H3].
Qed.

Lemma addObject_collects ref b b' :
  tidy b -> addObject tenantID maxObjects ref b = inr b' -> collects b 0 [ref] [] b'.
Proof.
  intros [Hk Hr]. unfold addObject. destruct (BlobRef_Validate ref); [done |].
  destruct (EnsureSameTenant _ _); [done |].
  destruct (bd_objects b !! br_Key ref) as [previous |] eqn:Hp.
  - unfold fails. case_bool_decide; [| done]. intros [= <-]. subst previous.
    split; try done; [lia | | by rewrite app_nil_r]. intros r. rewrite list_elem_of_singleton.
    split; [tauto |]. by intros [? | ->].
  - repeat (case_match; [done |]). intros [= <-]. split; cbn; try done; [| lia | | by rewrite app_nil_r].
    + split; cbn; [| done]. intros k r [[<- <-] | [_ Hl]]%lookup_insert_Some; [done | by apply Hk].
    + intros r. unfold stored. cbn. rewrite lookup_insert_Some, list_elem_of_singleton. split.
      * intros [[_ <-] | [_ Hl]]; auto.
      * intros [Hl | ->]; [| by left]. right. split; [| done]. intros Heq. rewrite Heq in Hp. congruence.
Qed.

(** A loop of steps that each charge a row. *)
Lemma fold_collects {A} (f : A -> building -> error + building) (n : nat) (refs : A -> list BlobRef)
    (runs : A -> list string) l : forall b b',
  (forall x c c', x ∈ l -> tidy c -> f x c = inr c' -> collects c n (refs x) (runs x) c') ->
  tidy b -> fold_steps f l b = inr b' ->
  collects b (n * length l) (concat (map refs l)) (concat (map runs l)) b'.
Proof.
  induction l as [| x l IH]; intros b b' Hf Hb H; cbn [fold_steps] in H.
  - injection H as <-. cbn. rewrite Nat.mul_0_r. by apply collects_refl.
  - destruct (f x b) as [| b1] eqn:E; [done |]. cbn [map concat length].
    apply Hf in E; [| by left | done]. apply IH in H; [| intros; apply Hf; [by right | done | done] | apply E].
    eapply collects_fewer; [by eapply collects_trans |]. lia.
Qed.

Lemma concat_nil {A B} (l : list A) : concat (map (fun _ => []) l) = [] :> list B.
Proof. by induction l. Qed.

Lemma objects_collects refs b b' :
  tidy b -> fold_steps (addObject tenantID maxObjects) refs b = inr b' -> collects b 0 refs [] b'.
Proof.
  intros Hb H. apply (fold_collects _ 0 (fun r => [r]) (fun _ => [])) in H; [| | done].
  - rewrite concat_nil in H. assert (concat (map (fun r : BlobRef => [r]) refs) = refs) as Hc
      by (clear; induction refs; cbn; by f_equal). by rewrite Hc in H.
  - intros x c c' _. apply addObject_collects.
Qed.

Lemma countedRows_collects {A} count (l : list A) b b' :
  counter count -> tidy b -> countedRows maxRows count l b = inr b' -> collects b (length l) [] [] b'.
Proof.
  intros Hc Hb H. apply (fold_collects _ 1 (fun _ => []) (fun _ => [])) in H; [| | done].
  - by rewrite !concat_nil, Nat.mul_1_l in H.
  - intros x c c' _. by apply counted_collects.
Qed.

(** ** Pages *)

Lemma page_limit_range b : tidy b -> 1 <= lifecyclePageLimit (remaining maxRows b) <= maxSessionDeletionRows + 1.
Proof.
  intros [_ Hr]. unfold lifecyclePageLimit, remaining, maxSessionPageSize, maxSessionDeletionRows in *.
  rewrite wrap_u64_small by (unfold u64, max_u64; lia). repeat case_match; b2p; lia.
Qed.

Section Pages.
Context {V : Type} (read : building -> Z -> Z -> list V) (number : V -> Z) (payload : V -> BlobRef).
Context (count : SessionDeletionInventory -> SessionDeletionInventory).
Hypothesis (Hcount : counter count).

Definition page_step (row : V) (b : building) : error + building :=
  b ← countedRow maxRows count b; addObject tenantID maxObjects (payload row) b.

Lemma page_step_collects row b b' : tidy b -> page_step row b = inr b' -> collects b 1 [payload row] [] b'.
Proof.
  intros Hb. unfold page_step, mbind, result_bind. destruct (countedRow _ _ _) as [| b1] eqn:E; [done |]. intros H.
  apply counted_collects in E; [| done..]. apply addObject_collects in H; [| apply E].
  pose proof (collects_trans _ _ _ _ _ _ _ _ _ E H) as Hc. exact Hc.
Qed.

Lemma page_rows_collects rows b b' :
  tidy b -> fold_steps page_step rows b = inr b' -> collects b (length rows) (map payload rows) [] b'.
Proof.
  intros Hb H. apply (fold_collects _ 1 (fun row => [payload row]) (fun _ => [])) in H; [| | done].
  - rewrite concat_nil, Nat.mul_1_l in H. assert (concat (map (fun row => [payload row]) rows) = map payload rows)
      as Hc by (clear; induction rows; cbn; by f_equal). by rewrite Hc in H.
  - intros x c c' _. apply page_step_collects.
Qed.

Lemma pages_unfold fuel after b :
  pages tenantID maxRows maxObjects read number payload count (S fuel) after b =
  let pageLimit := lifecyclePageLimit (remaining maxRows b) in
  match deletionInventoryIDs pageLimit (read b after pageLimit) with
  | inl e => Some (inl e)
  | inr rows =>
      match fold_steps page_step rows b with
      | inl e => Some (inl e)
      | inr b' =>
          if (Z.of_nat (length rows) =? 0) || (Z.of_nat (length rows) <? pageLimit) then Some (inr b')
          else pages tenantID maxRows maxObjects read number payload count fuel
                 (default after (number <$> last rows)) b'
      end
  end.
Proof. reflexivity. Qed.

(** Every page but the last charges a row, so the loop ends within the fuel. *)
Lemma pages_end fuel : forall after b,
  tidy b -> maxRows - bd_rows b < Z.of_nat fuel ->
  pages tenantID maxRows maxObjects read number payload count fuel after b <> None.
Proof.
  induction fuel as [| fuel IH]; intros after b Hb Hf; [destruct Hb; lia |]. rewrite pages_unfold. cbv zeta.
  destruct (deletionInventoryIDs _ _) as [| rows]; [done |].
  destruct (fold_steps page_step rows b) as [| b'] eqn:E; [done |].
  destruct (_ || _) eqn:Hend; [done |]. apply page_rows_collects in E; [| done]. apply orb_false_iff in Hend as [Hne _].
  apply IH; [apply E |]. pose proof (co_rows _ _ _ _ _ E). apply Z.eqb_neq in Hne. lia.
Qed.

Lemma pages_tidy fuel : forall after b b',
  tidy b -> pages tenantID maxRows maxObjects read number payload count fuel after b = Some (inr b') -> tidy b'.
Proof.
  induction fuel as [| fuel IH]; intros after b b' Hb; [done |]. rewrite pages_unfold. cbv zeta.
  destruct (deletionInventoryIDs _ _) as [| rows]; [done |].
  destruct (fold_steps page_step rows b) as [| b1] eqn:E; [done |]. apply page_rows_collects in E; [| done].
  destruct (_ || _); [intros [= <-]; apply E | apply IH, E].
Qed.

(** [K] are rows every page reaches, [Q] the rows a page can hold: the loop collects
    the first after [after], and only the second. *)
Lemma pages_bring (K Q : V -> Prop) fuel : forall after b b',
  (forall c a limit v, v ∈ read c a limit -> Q v) ->
  (forall c a limit v, K v -> a < number v -> v ∈ take (Z.to_nat limit) (read c a limit) \/
     limit <= Z.of_nat (length (take (Z.to_nat limit) (read c a limit))) /\
     (1 <= limit -> exists v', last (take (Z.to_nat limit) (read c a limit)) = Some v' /\ number v' < number v)) ->
  tidy b -> pages tenantID maxRows maxObjects read number payload count fuel after b = Some (inr b') ->
  exists l, collects b 0 l [] b' /\ (forall v, K v -> after < number v -> payload v ∈ l) /\
    (forall r, r ∈ l -> exists v, Q v /\ r = payload v).
Proof.
  induction fuel as [| fuel IH]; intros after b b' HQ HK Hb H; [done |]. rewrite pages_unfold in H. cbv zeta in H.
  pose proof (page_limit_range b Hb) as Hlim. set (limit := lifecyclePageLimit _) in *.
  unfold deletionInventoryIDs in H. destruct (_ || _) eqn:Hx; [done |]. clear Hx.
  specialize (HK b after limit) as HKb. specialize (HQ b after limit) as HQb.
  set (rows := take (Z.to_nat limit) (read b after limit)) in *.
  assert (forall r, r ∈ map payload rows -> exists v, Q v /\ r = payload v) as Hrows.
  { intros r (v & -> & Hv)%list_elem_of_fmap. exists v. split; [| done]. apply HQb. unfold rows in Hv.
    apply elem_of_take in Hv as (i & Hv & _). by eapply list_elem_of_lookup_2. }
  destruct (fold_steps page_step rows b) as [| b1] eqn:E; [done |]. apply page_rows_collects in E; [| done].
  apply (collects_fewer _ _ 0) in E; [| lia]. destruct (_ || _) eqn:Hend in H.
  - injection H as <-. exists (map payload rows). split_and!; [done | | done]. intros v Hv Hn.
    destruct (HKb v Hv Hn) as [Hin | [Hfull Hlast]]; [by apply list_elem_of_fmap_2 |].
    apply orb_true_iff in Hend as [?%Z.eqb_eq | ?%Z.ltb_lt]; lia.
  - apply IH in H as (l & C & Hk & Hq); [| done | done | apply E].
    exists (map payload rows ++ l). split_and!; [exact (collects_trans _ _ _ _ _ _ _ _ _ E C) | |].
    + intros v Hv Hn. rewrite elem_of_app. destruct (HKb v Hv Hn) as [Hin | [Hfull Hlast]];
        [left; by apply list_elem_of_fmap_2 | right]. apply Hk; [done |].
      destruct (Hlast ltac:(lia)) as (v' & -> & Hlt). done.
    + intros r [Hr | Hr]%elem_of_app; eauto.
Qed.
End Pages.

(** A loop of steps that bring some objects at least and some at most. *)
Definition brings (b : building) (n : nat) (K Q : BlobRef -> Prop) (us : list string) (b' : building) : Prop :=
  exists l, collects b n l us b' /\ (forall r, K r -> r ∈ l) /\ (forall r, r ∈ l -> Q r).

Lemma brings_then b1 n K Q us b2 n' K' Q' us' b3 :
  brings b1 n K Q us b2 -> brings b2 n' K' Q' us' b3 ->
  brings b1 (n + n') (fun r => K r \/ K' r) (fun r => Q r \/ Q' r) (us ++ us') b3.
Proof.
  intros (l & C & Hk & Hq) (l' & C' & Hk' & Hq'). exists (l ++ l').
  split_and!; [exact (collects_trans _ _ _ _ _ _ _ _ _ C C') | |]; intros r; rewrite elem_of_app; naive_solver.
Qed.

Lemma brings_tidy b n K Q us b' : brings b n K Q us b' -> tidy b'.
Proof. intros (l & C & _). apply C. Qed.

Lemma brings_weaken b n n' K K' Q Q' us b' :
  brings b n K Q us b' -> (n' <= n)%nat -> (forall r, K' r -> K r) -> (forall r, Q r -> Q' r) -> brings b n' K' Q' us b'.
Proof.
  intros (l & C & Hk & Hq) Hn HK HQ. exists l. split_and!; [by eapply collects_fewer | auto | auto].
Qed.

Lemma collects_brings b n l us b' : collects b n l us b' -> brings b n (fun r => r ∈ l) (fun r => r ∈ l) us b'.
Proof. intros C. by exists l. Qed.

Lemma fold_brings {A} (f : A -> building -> error + building) (n : nat) (K Q : A -> BlobRef -> Prop)
    (runs : A -> list string) l : forall b b',
  (forall x c c', x ∈ l -> tidy c -> f x c = inr c' -> brings c n (K x) (Q x) (runs x) c') ->
  tidy b -> fold_steps f l b = inr b' ->
  brings b (n * length l) (fun r => exists x, x ∈ l /\ K x r) (fun r => exists x, x ∈ l /\ Q x r)
    (concat (map runs l)) b'.
Proof.
  induction l as [| x l IH]; intros b b' Hf Hb H; cbn [fold_steps] in H.
  - injection H as <-. cbn. rewrite Nat.mul_0_r. exists []. split_and!; [by apply collects_refl | |].
    + by intros r (x & []%elem_of_nil & _).
    + by intros r []%elem_of_nil.
  - destruct (f x b) as [| b1] eqn:E; [done |]. cbn [map concat length].
    apply Hf in E; [| by left | done]. apply IH in H; [| intros; apply Hf; [by right | done | done] | by eapply brings_tidy].
    eapply brings_weaken; [exact (brings_then _ _ _ _ _ _ _ _ _ _ _ E H) | lia | |]; intros r; setoid_rewrite elem_of_cons;
      naive_solver.
Qed.

End Steps.

(** ** Bounded listings *)

Lemma merge_ids_bounds limit ids : forall merged,
  let r := merge_ids limit merged ids in
  (length merged <= length r)%nat /\ (forall x, x ∈ r -> x ∈ merged \/ x ∈ ids) /\
  (Z.of_nat (length r) < limit -> forall x, x ∈ merged \/ x ∈ ids -> x ∈ r).
Proof.
  induction ids as [| id ids IH]; intros merged; cbn.
  - split_and!; [done | tauto |]. intros _ x [H | H]; [done |]. by apply elem_of_nil in H.
  - setoid_rewrite elem_of_cons. case_bool_decide as Hin.
    + destruct (IH merged) as (H1 & H2 & H3). split_and!; [done | naive_solver |]. intros Hl x Hx. apply H3; naive_solver.
    + destruct (Z.eqb_spec (Z.of_nat (length (merged ++ [id]))) limit) as [Hlim | Hlim].
      * rewrite length_app. split_and!; [lia | |].
        -- intros x. rewrite elem_of_app, list_elem_of_singleton. tauto.
        -- intros Hl. rewrite length_app in Hlim. lia.
      * destruct (IH (merged ++ [id])) as (H1 & H2 & H3). rewrite length_app in H1. split_and!; [lia | |].
        -- intros x [H | H]%H2; [| tauto]. rewrite elem_of_app, list_elem_of_singleton in H. tauto.
        -- intros Hl x Hx. apply H3; [done |]. rewrite elem_of_app, list_elem_of_singleton. tauto.
Qed.

Lemma take_all {A} (l : list A) (limit : Z) : Z.of_nat (length (take (Z.to_nat limit) l)) < limit -> take (Z.to_nat limit) l = l.
Proof. rewrite length_take. intros H. apply take_ge. lia. Qed.

Lemma distinct_shorter {A} (l l' : list A) : NoDup l -> (forall x, x ∈ l -> x ∈ l') -> (length l <= length l')%nat.
Proof. intros Hn Hs. by apply submseteq_length, NoDup_submseteq. Qed.

(** What a listing holds, and what one shorter than its limit holds. *)
Lemma indexed_sound at_ index canonical limit ids :
  deletionInventoryIndexedIDs at_ index canonical limit = inr ids ->
  forall id, id ∈ ids -> id ∈ index (at_ Index) \/
    sessionLifecycleIndexesReady (at_ Ready) = false /\ id ∈ canonical (at_ Canonical).
Proof.
  intros H id Hid. unfold deletionInventoryIndexedIDs, deletionInventoryIDs in H. destruct (_ || _); [done |].
  assert (forall l n, id ∈ take n l -> id ∈ l) as Htake.
  { intros l n (i & Hi & _)%elem_of_take. by eapply list_elem_of_lookup_2. }
  destruct (sessionLifecycleIndexesReady (at_ Ready)); injection H as <-.
  - left. by apply Htake in Hid; rewrite sorted_ids_elem in Hid.
  - unfold mergeBoundedStringIDs in Hid. rewrite sorted_ids_elem in Hid.
    apply merge_ids_bounds in Hid as [[]%elem_of_nil | [H | H]%elem_of_app]; apply Htake in H;
      [left; by rewrite sorted_ids_elem in H | by right].
Qed.

Lemma indexed_complete at_ index canonical limit ids :
  NoDup (index (at_ Index)) -> NoDup (canonical (at_ Canonical)) ->
  deletionInventoryIndexedIDs at_ index canonical limit = inr ids -> Z.of_nat (length ids) < limit ->
  forall id, id ∈ index (at_ Index) \/
    sessionLifecycleIndexesReady (at_ Ready) = false /\ id ∈ canonical (at_ Canonical) -> id ∈ ids.
Proof.
  intros Hi Hc H Hl id Hid. unfold deletionInventoryIndexedIDs, deletionInventoryIDs in H.
  destruct (_ || _); [done |]. destruct (sessionLifecycleIndexesReady (at_ Ready)).
  - injection H as <-. rewrite (take_all _ _ Hl), sorted_ids_elem. naive_solver.
  - injection H as <-. unfold mergeBoundedStringIDs in *.
    set (primary := take (Z.to_nat limit) (sorted_ids (index (at_ Index)))) in *.
    set (legacy := take (Z.to_nat limit) (canonical (at_ Canonical))) in *.
    destruct (merge_ids_bounds limit (primary ++ legacy) []) as (_ & _ & H3).
    set (merged := merge_ids limit [] (primary ++ legacy)) in *.
    assert (length (sorted_ids merged) = length merged) as Hlen by apply Permutation_length, sort_by_permutation.
    rewrite Hlen in Hl. setoid_rewrite elem_of_app in H3. specialize (H3 Hl).
    assert (length primary <= length merged)%nat as Hp.
    { apply distinct_shorter; [| intros x Hx; apply H3; tauto].
      apply (sublist_NoDup _ (sorted_ids (index (at_ Index)))); [| apply sublist_take].
      unfold sorted_ids. by rewrite sort_by_permutation. }
    assert (length legacy <= length merged)%nat as Hg.
    { apply distinct_shorter; [| intros x Hx; apply H3; tauto].
      apply (sublist_NoDup _ (canonical (at_ Canonical))); [done | apply sublist_take]. }
    assert (primary = sorted_ids (index (at_ Index))) as Ep by (apply take_all; unfold primary in Hp; lia).
    assert (legacy = canonical (at_ Canonical)) as El by (apply take_all; unfold legacy in Hg; lia).
    rewrite sorted_ids_elem. apply H3. rewrite Ep, El, sorted_ids_elem. tauto.
Qed.

Lemma owned_index_NoDup (t o : string) (m : gset (string * string * string)) : NoDup (set_rows m (owned_by t o)).
Proof.
  apply NoDup_omap_inj; [| apply NoDup_elements]. intros x y z _ _ ->%owned_by_Some ->%owned_by_Some. done.
Qed.

Lemma map_rows_NoDup {K V B} `{Countable K} (m : gmap K V) (f : K -> V -> option B) :
  (forall k k' v v' y, f k v = Some y -> f k' v' = Some y -> k = k') -> NoDup (map_rows m f).
Proof.
  intros Hf. apply NoDup_omap_inj; [| apply NoDup_map_to_list]. intros [k v] [k' v'] y Hx Hy H1 H2.
  cbn in H1, H2. assert (k = k') as <- by eauto. apply elem_of_map_to_list in Hx, Hy. congruence.
Qed.

Lemma canonical_NoDup {V} (t : string) (owner : V -> bool) (m : gmap (string * string) V) :
  NoDup (map_rows m (fun key v => if String.eqb key.1 t && owner v then Some key.2 else None)).
Proof.
  apply map_rows_NoDup. intros [a b] [a' b'] v v' y. cbn.
  destruct (String.eqb_spec a t), (String.eqb_spec a' t), (owner v), (owner v'); cbn; try done; congruence.
Qed.

(** ** The objects of a session *)

(** The id is in the index or, before the backfill, in the canonical table. *)
Definition listed (w : ldb) (index canonical : list string) (id : string) : Prop :=
  id ∈ index \/ sessionLifecycleIndexesReady w = false /\ id ∈ canonical.

Inductive run_object (t run : string) (w : ldb) (ref : BlobRef) : Prop :=
| ro_receipt key row :
    attached_worker_output_receipts w !! key = Some row -> key.1.1.1.1 = (t, run) -> ref ∈ rx_objects row ->
    run_object t run w ref
| ro_manifest id manifest :
    listed w (manifest_index t w run) (manifest_rows t w run) id -> artifact_manifests w !! (t, id) = Some manifest ->
    ref ∈ map art_Blob (am_Artifacts manifest) -> run_object t run w ref
| ro_delivery id delivery :
    listed w (delivery_index t w run) (delivery_rows t w run) id ->
    readLifecycleDelivery t run id (one_state w 0) = Some delivery ->
    br_Key (td_Payload delivery) <> "" -> ref = td_Payload delivery -> run_object t run w ref
| ro_checkpoint id checkpoint :
    listed w (checkpoint_index t w run) (checkpoint_rows t w run) id ->
    readLifecycleCheckpoint t run id (one_state w 0) = Some checkpoint -> ref = ckpt_State checkpoint ->
    run_object t run w ref.

Inductive session_object (t s : string) (w : ldb) (ref : BlobRef) : Prop :=
| so_event q e : session_events (base w) !! (t, s, q) = Some e -> ref = se_Payload e -> session_object t s w ref
| so_snapshot v x : session_snapshots (base w) !! (t, s, v) = Some x -> ref = ss_Payload x -> session_object t s w ref
| so_run at_ run status :
    runs_by_session w !! (t, s, at_, run) = Some status -> run_object t run w ref -> session_object t s w ref.

(** The canonical checkpoints of a run have distinct ids.  Their table is keyed by
    attempt and sequence, so this is up to the writer. *)
Definition checkpoint_ids_distinct (t s : string) (w : ldb) : Prop :=
  forall at_ run status, runs_by_session w !! (t, s, at_, run) = Some status -> NoDup (checkpoint_rows t w run).

(** ** Objects over several queries

    What some query saw, and what every query saw in the same way. *)

Section Seen.
Context (t s : string) (seen : reads).

Definition once (P : ldb -> Prop) : Prop := exists n q, P (seen n q).
Definition always (P : ldb -> Prop) : Prop := forall n q, P (seen n q).

Definition listed_once (index canonical : ldb -> list string) (id : string) : Prop :=
  once (fun w => id ∈ index w) \/
  once (fun w => sessionLifecycleIndexesReady w = false) /\ once (fun w => id ∈ canonical w).
Definition listed_always (index canonical : ldb -> list string) (id : string) : Prop :=
  always (fun w => id ∈ index w) \/ always (fun w => sessionLifecycleIndexesReady w = false /\ id ∈ canonical w).

(** A record read from an index table or, before the backfill, the canonical one. *)
Definition found_once {V} (index canonical : ldb -> option V) (v : V) : Prop :=
  once (fun w => index w = Some v) \/
  once (fun w => index w = None) /\ once (fun w => sessionLifecycleIndexesReady w = false) /\
  once (fun w => canonical w = Some v).
Definition found_always {V} (index canonical : ldb -> option V) (v : V) : Prop :=
  always (fun w => index w = Some v) \/
  always (fun w => index w = None /\ sessionLifecycleIndexesReady w = false /\ canonical w = Some v).

Inductive run_object_once (run : string) (ref : BlobRef) : Prop :=
| roo_receipt key row :
    once (fun w => attached_worker_output_receipts w !! key = Some row) -> key.1.1.1.1 = (t, run) ->
    ref ∈ rx_objects row -> run_object_once run ref
| roo_manifest id manifest :
    listed_once (fun w => manifest_index t w run) (fun w => manifest_rows t w run) id ->
    once (fun w => artifact_manifests w !! (t, id) = Some manifest) -> am_RunID manifest = run ->
    ref ∈ map art_Blob (am_Artifacts manifest) -> run_object_once run ref
| roo_delivery id delivery :
    listed_once (fun w => delivery_index t w run) (fun w => delivery_rows t w run) id ->
    found_once (fun w => telegram_deliveries_by_run w !! (t, run, id)) (fun w => telegram_delivery_outbox w !! (t, id))
      delivery -> td_RunID delivery = run ->
    br_Key (td_Payload delivery) <> "" -> ref = td_Payload delivery -> run_object_once run ref
| roo_checkpoint id checkpoint :
    listed_once (fun w => checkpoint_index t w run) (fun w => checkpoint_rows t w run) id ->
    found_once (fun w => checkpoint_objects_by_run w !! (t, run, id)) (canonical_checkpoint t run id) checkpoint ->
    ckpt_RunID checkpoint = run -> ref = ckpt_State checkpoint -> run_object_once run ref.

Inductive run_object_always (run : string) (ref : BlobRef) : Prop :=
| roa_receipt key row :
    always (fun w => attached_worker_output_receipts w !! key = Some row) -> key.1.1.1.1 = (t, run) ->
    ref ∈ rx_objects row -> run_object_always run ref
| roa_manifest id manifest :
    listed_always (fun w => manifest_index t w run) (fun w => manifest_rows t w run) id ->
    always (fun w => artifact_manifests w !! (t, id) = Some manifest) ->
    ref ∈ map art_Blob (am_Artifacts manifest) -> run_object_always run ref
| roa_delivery id delivery :
    listed_always (fun w => delivery_index t w run) (fun w => delivery_rows t w run) id ->
    found_always (fun w => telegram_deliveries_by_run w !! (t, run, id)) (fun w => telegram_delivery_outbox w !! (t, id))
      delivery ->
    br_Key (td_Payload delivery) <> "" -> ref = td_Payload delivery -> run_object_always run ref
| roa_checkpoint id checkpoint :
    always (fun w => NoDup (checkpoint_rows t w run)) ->
    listed_always (fun w => checkpoint_index t w run) (fun w => checkpoint_rows t w run) id ->
    found_always (fun w => checkpoint_objects_by_run w !! (t, run, id)) (canonical_checkpoint t run id) checkpoint ->
    ref = ckpt_State checkpoint -> run_object_always run ref.

(** Some queries saw rows that make the object one of the session's. *)
Inductive object_once (ref : BlobRef) : Prop :=
| oo_event q e : once (fun w => session_events (base w) !! (t, s, q) = Some e) -> ref = se_Payload e -> object_once ref
| oo_snapshot v x : once (fun w => session_snapshots (base w) !! (t, s, v) = Some x) -> ref = ss_Payload x -> object_once ref
| oo_run at_ run : once (fun w => is_Some (runs_by_session w !! (t, s, at_, run))) -> run_object_once run ref -> object_once ref.

(** The rows that make the object one of the session's were there, unchanged, in every
    state a query saw. *)
Inductive object_always (ref : BlobRef) : Prop :=
| oa_event q e : always (fun w => session_events (base w) !! (t, s, q) = Some e) -> ref = se_Payload e -> object_always ref
| oa_snapshot v x :
    always (fun w => session_snapshots (base w) !! (t, s, v) = Some x) -> ref = ss_Payload x -> object_always ref
| oa_run at_ run :
    always (fun w => is_Some (runs_by_session w !! (t, s, at_, run))) -> run_object_always run ref -> object_always ref.

Lemma once_at (P : ldb -> Prop) n q : P (seen n q) -> once P.
Proof. intros H. by exists n, q. Qed.

Lemma always_at (P : ldb -> Prop) n q : always P -> P (seen n q).
Proof. intros H. apply H. Qed.

(** A record read by up to three queries. *)
Lemma found_bounds {V} n (kind : query_part -> query) (index canonical : ldb -> option V) v :
  let found := match index (seen n (kind Index)) with
               | Some v => Some v
               | None => if sessionLifecycleIndexesReady (seen n (kind Ready)) then None
                         else canonical (seen n (kind Canonical))
               end in
  (found = Some v -> found_once index canonical v) /\ (found_always index canonical v -> found = Some v).
Proof.
  cbv zeta. split.
  - unfold found_once. destruct (index _) eqn:Hi; [intros [= <-]; left; by eapply once_at |].
    destruct (sessionLifecycleIndexesReady _) eqn:Hr; [done |]. intros Hc. right. split_and!; by eapply once_at.
  - intros [H | H]; [by rewrite H |]. destruct (H n (kind Index)) as (-> & _ & _).
    destruct (H n (kind Ready)) as (_ & -> & _). by destruct (H n (kind Canonical)) as (_ & _ & ->).
Qed.
End Seen.

(** In one state the two notions are that of the session's objects. *)
Section OneState.
Context (t s : string) (w : ldb).

Lemma once_one P : once (one_state w) P <-> P w.
Proof. split; [by intros (n & q & H) | intros H; by exists 0, q_runs]. Qed.

Lemma always_one (P : ldb -> Prop) : P w -> always (one_state w) P.
Proof. intros H n q. exact H. Qed.

Lemma listed_one index canonical id :
  listed w (index w) (canonical w) id -> listed_always (one_state w) index canonical id.
Proof. intros [H | [Hr H]]; [left | right]; by apply always_one. Qed.

Lemma listed_once_one index canonical id :
  listed_once (one_state w) index canonical id -> listed w (index w) (canonical w) id.
Proof. unfold listed_once, listed. rewrite !once_one. tauto. Qed.

Lemma found_one {V} (index canonical : ldb -> option V) v :
  (match index w with Some v => Some v | None => if sessionLifecycleIndexesReady w then None else canonical w end) = Some v ->
  found_always (one_state w) index canonical v.
Proof.
  intros H. destruct (index w) eqn:Hi; [left; intros n q; unfold one_state; congruence |].
  destruct (sessionLifecycleIndexesReady w) eqn:Hr; [done |]. right. intros n q. unfold one_state. auto.
Qed.

Lemma found_once_one {V} (index canonical : ldb -> option V) v :
  found_once (one_state w) index canonical v ->
  (match index w with Some v => Some v | None => if sessionLifecycleIndexesReady w then None else canonical w end) = Some v.
Proof. unfold found_once. rewrite !once_one. by intros [-> | (-> & -> & ->)]. Qed.

Lemma object_once_one ref : object_once t s (one_state w) ref -> session_object t s w ref.
Proof.
  intros [q e H -> | v x H -> | at_ run H Hr]; rewrite once_one in H;
    [by eapply so_event | by eapply so_snapshot |]. destruct H as [status H]. eapply so_run; [exact H |].
  destruct Hr as [key row Hr ? ? | id m Hl Hr _ ? | id d Hl Hr _ ? ? | id c Hl Hr _ ?].
  - rewrite once_one in Hr. by eapply ro_receipt.
  - rewrite once_one in Hr. apply listed_once_one in Hl. by eapply ro_manifest.
  - apply found_once_one in Hr. apply listed_once_one in Hl. by eapply ro_delivery.
  - apply found_once_one in Hr. apply listed_once_one in Hl. by eapply ro_checkpoint.
Qed.

Lemma object_always_one ref :
  checkpoint_ids_distinct t s w -> session_object t s w ref -> object_always t s (one_state w) ref.
Proof.
  intros Hck [q e H -> | v x H -> | at_ run status H Hr];
    [by eapply oa_event; [by apply always_one |] | by eapply oa_snapshot; [by apply always_one |] |].
  eapply (oa_run _ _ _ _ at_ run); [apply always_one; eauto |].
  destruct Hr as [key row Hr ? ? | id m Hl Hr ? | id d Hl Hr ? ? | id c Hl Hr ?].
  - by eapply roa_receipt; [by apply always_one | |].
  - by eapply roa_manifest; [exact (listed_one _ _ _ Hl) | by apply always_one |].
  - eapply roa_delivery; [exact (listed_one _ _ _ Hl) | by apply found_one | done | done].
  - eapply roa_checkpoint; [by eapply always_one, Hck | exact (listed_one _ _ _ Hl) | by apply found_one | done].
Qed.
End OneState.

Section Runs.
Context (t : string) (maxRows maxObjects : Z) (seen : reads).
Hypothesis (Hmax : 1 <= maxRows <= maxSessionDeletionRows).
Let tidy := tidy maxRows.
Let collects := collects maxRows.
Let brings := brings maxRows.

Lemma limit_left b : tidy b -> wrap_u64 (remaining maxRows b + 1) = maxRows - bd_rows b + 1.
Proof.
  intros [_ Hr]. unfold remaining, maxSessionDeletionRows in *. rewrite !wrap_u64_small; unfold u64, max_u64;
    rewrite ?wrap_u64_small; unfold u64, max_u64; lia.
Qed.

(** A loop that charges a row per id was given a listing below its limit. *)
Lemma loop_below b n K Q us b' : tidy b -> brings b n K Q us b' -> Z.of_nat n < wrap_u64 (remaining maxRows b + 1).
Proof. intros Hb (l & [[_ Hr'] Hr _ _ _] & _). rewrite limit_left by done. lia. Qed.

Lemma collects_then b1 n r u b2 n' r' u' b3 :
  collects b1 n r u b2 -> collects b2 n' r' u' b3 -> collects b1 (n + n') (r ++ r') (u ++ u') b3.
Proof. by apply collects_trans. Qed.

(** A row is charged for a record that is found, is the run's and gives its objects. *)
Lemma matched_brings {V} (read : building -> error + option V) (K Q : V -> Prop) runOf runID e count objects b b' :
  counter count -> tidy b ->
  (forall c v, read c = inr (Some v) -> runOf v = runID -> Q v) ->
  (forall c v o, K v -> read c = inr o -> o = Some v) ->
  (b ← addRow maxRows b; found ← read b; matchedRow t maxObjects found runOf runID e count objects b) = inr b' ->
  brings b 1 (fun r => exists v, K v /\ r ∈ objects v) (fun r => exists v, Q v /\ r ∈ objects v) [] b'.
Proof.
  intros Hc Hb HQ HK. unfold mbind, result_bind. destruct (addRow maxRows b) as [| b1] eqn:E; [done |].
  apply addRow_collects in E; [| done..]. destruct (read b1) as [| found] eqn:Hr; [done |]. unfold matchedRow.
  destruct found as [v |]; [| done]. destruct (String.eqb_spec (runOf v) runID) as [Hrun |]; [| done]. cbn [negb]. intros H.
  apply (objects_collects t maxRows maxObjects) in H; [| exact Hmax | apply E]. destruct H as [T R O U D].
  destruct (Hc (bd_inventory b1)) as (H1 & H2 & H3). cbn in R, O, U, D.
  assert (collects b1 0 (objects v) [] b') as C by (split; try done; [by rewrite U, H1 | by rewrite <- H2, <- H3]).
  exists (objects v). split_and!; [exact (collects_then _ _ _ _ _ _ _ _ _ E C) | |].
  - intros r (v' & Hv' & Hin). by injection (HK _ _ _ Hv' Hr) as ->.
  - intros r Hin. eauto.
Qed.

Lemma manifest_brings run id b b' :
  tidy b -> manifest_step t maxRows maxObjects seen run id b = inr b' ->
  brings b 1
    (fun r => exists m, always seen (fun w => artifact_manifests w !! (t, id) = Some m) /\ r ∈ map art_Blob (am_Artifacts m))
    (fun r => exists m, (once seen (fun w => artifact_manifests w !! (t, id) = Some m) /\ am_RunID m = run) /\
       r ∈ map art_Blob (am_Artifacts m)) [] b'.
Proof.
  intros Hb. apply (matched_brings (fun b => GetArtifactManifest t (now seen b q_manifest) id)); [done | done | |];
    unfold GetArtifactManifest; intros c v.
  - repeat (case_match; [done |]). intros [= Hv] Hr. split; [| done]. by eapply once_at.
  - intros o Ha. repeat (case_match; [done |]). intros [= <-]. apply Ha.
Qed.

Lemma delivery_brings run id b b' :
  tidy b -> delivery_step t maxRows maxObjects seen run id b = inr b' ->
  let index w := telegram_deliveries_by_run w !! (t, run, id) in
  let canonical w := telegram_delivery_outbox w !! (t, id) in
  let objects d := if negb (String.eqb (br_Key (td_Payload d)) "") then [td_Payload d] else [] in
  brings b 1 (fun r => exists d, found_always seen index canonical d /\ r ∈ objects d)
    (fun r => exists d, (found_once seen index canonical d /\ td_RunID d = run) /\ r ∈ objects d) [] b'.
Proof.
  intros Hb. apply (matched_brings (fun b => inr (readLifecycleDelivery t run id (now seen b)))); [done | done | |];
    intros c v.
  - intros [= Hv] Hr. split; [| done]. exact (proj1 (found_bounds seen (bd_rows c) q_delivery _ _ v) Hv).
  - intros o Ha [= <-]. exact (proj2 (found_bounds seen (bd_rows c) q_delivery _ _ v) Ha).
Qed.

Lemma checkpoint_brings run id b b' :
  tidy b -> checkpoint_step t maxRows maxObjects seen run id b = inr b' ->
  let index w := checkpoint_objects_by_run w !! (t, run, id) in
  brings b 1 (fun r => exists c, found_always seen index (canonical_checkpoint t run id) c /\ r ∈ [ckpt_State c])
    (fun r => exists c, (found_once seen index (canonical_checkpoint t run id) c /\ ckpt_RunID c = run) /\
       r ∈ [ckpt_State c]) [] b'.
Proof.
  intros Hb. apply (matched_brings (fun b => inr (readLifecycleCheckpoint t run id (now seen b)))); [done | done | |];
    intros c v.
  - intros [= Hv] Hr. split; [| done]. exact (proj1 (found_bounds seen (bd_rows c) q_checkpoint _ _ v) Hv).
  - intros o Ha [= <-]. exact (proj2 (found_bounds seen (bd_rows c) q_checkpoint _ _ v) Ha).
Qed.

Lemma receipt_collects row b b' :
  tidy b -> receipt_step t maxRows maxObjects row b = inr b' -> collects b 1 (rx_objects row) [] b'.
Proof.
  intros Hb. unfold receipt_step, mbind, result_bind. destruct (negb _); [done |].
  destruct (countedRow _ _ _) as [| b1] eqn:E; [done |]. apply counted_collects in E; [| done..]. intros Hm.
  apply (objects_collects t maxRows maxObjects) in Hm; [| exact Hmax | apply E]. exact (collects_then _ _ _ _ _ _ _ _ _ E Hm).
Qed.

(** A listing and the loop over it. *)
Lemma listing_brings (kind : query_part -> query) index canonical (step : string -> building -> error + building) K Q b ids b' :
  (forall w, NoDup (index w)) -> tidy b ->
  (forall id c c', tidy c -> step id c = inr c' -> brings c 1 (K id) (Q id) [] c') ->
  deletionInventoryIndexedIDs (fun part => now seen b (kind part)) index canonical (wrap_u64 (remaining maxRows b + 1))
    = inr ids ->
  fold_steps step ids b = inr b' ->
  brings b 0 (fun r => always seen (fun w => NoDup (canonical w)) /\ exists id, listed_always seen index canonical id /\ K id r)
    (fun r => exists id, listed_once seen index canonical id /\ Q id r) [] b'.
Proof.
  intros Hi Hb Hstep Hids H.
  apply (fold_brings maxRows Hmax _ 1 K Q (fun _ => [])) in H; [| intros; by apply Hstep | done].
  rewrite concat_nil, Nat.mul_1_l in H. pose proof (loop_below _ _ _ _ _ _ Hb H) as Hlt.
  eapply brings_weaken; [exact H | lia | |].
  - intros r (Hc & id & Hl & Hk). exists id. split; [| done].
    apply (indexed_complete _ _ _ _ _ (Hi _) (Hc _ _) Hids Hlt).
    destruct Hl as [Hl | Hl]; [left; apply Hl |]. right. split; [apply (Hl _ _) | apply (Hl _ _)].
  - intros r (id & Hid & Hq). exists id. split; [| done].
    destruct (indexed_sound _ _ _ _ _ Hids id Hid) as [Hx | [Hr Hx]]; [left | right; split]; by eapply once_at.
Qed.

Lemma decoded_receipts_inr rows : forall l, decoded_receipts rows = inr l -> l = map snd rows.
Proof.
  induction rows as [| [k row] rows IH]; intros l H; cbn in H; [by injection H as <- |].
  destruct (rx_decode row), (rx_identity row); try done. destruct (decoded_receipts rows) as [| l']; [done |].
  injection H as <-. cbn. by rewrite (IH l').
Qed.

Lemma run_receipts_elem run w key row :
  (key, row) ∈ run_receipts t run w <-> attached_worker_output_receipts w !! key = Some row /\ key.1.1.1.1 = (t, run).
Proof.
  unfold run_receipts. rewrite map_rows_elem. split.
  - intros (k & v & H & Hf). case_bool_decide; by simplify_eq.
  - intros [H Hk]. exists key, row. by rewrite bool_decide_eq_true_2.
Qed.

Lemma receipts_bring run b rows b' :
  tidy b -> listRunOutputReceipts t (now seen b q_receipts) run (wrap_u64 (remaining maxRows b + 1)) = inr rows ->
  fold_steps (receipt_step t maxRows maxObjects) rows b = inr b' ->
  brings b 0
    (fun r => exists key row, always seen (fun w => attached_worker_output_receipts w !! key = Some row) /\
       key.1.1.1.1 = (t, run) /\ r ∈ rx_objects row)
    (fun r => exists key row, once seen (fun w => attached_worker_output_receipts w !! key = Some row) /\
       key.1.1.1.1 = (t, run) /\ r ∈ rx_objects row) [] b'.
Proof.
  intros Hb Hl H.
  apply (fold_brings maxRows Hmax _ 1 (fun row r => r ∈ rx_objects row) (fun row r => r ∈ rx_objects row) (fun _ => []))
    in H; [| intros; by apply collects_brings, receipt_collects | done].
  rewrite concat_nil, Nat.mul_1_l in H. pose proof (loop_below _ _ _ _ _ _ Hb H) as Hlt.
  unfold listRunOutputReceipts, deletionInventoryIDs in Hl. destruct (_ || _); [done |].
  apply decoded_receipts_inr in Hl as ->. rewrite length_map in Hlt. rewrite (take_all _ _ Hlt) in H.
  assert (forall row, row ∈ map snd (sort_by receipt_before (run_receipts t run (now seen b q_receipts))) <->
    exists key, attached_worker_output_receipts (now seen b q_receipts) !! key = Some row /\ key.1.1.1.1 = (t, run)) as Hin.
  { intros row. rewrite list_elem_of_fmap. setoid_rewrite (sort_by_permutation receipt_before). split.
    - intros ([k v] & -> & Hk%run_receipts_elem). eauto.
    - intros (key & Hk%run_receipts_elem). by exists (key, row). }
  eapply brings_weaken; [exact H | lia | |]; setoid_rewrite Hin.
  - intros r (key & row & Ha & Hk & Hr). exists row. split; [| done]. exists key. split; [apply Ha | done].
  - intros r (row & (key & Hrow & Hk) & Hr). exists key, row. split_and!; try done. by eapply once_at.
Qed.

Lemma map_index_NoDup {V} (run : string) (m : gmap (string * string * string) V) :
  NoDup (map_rows m (fun key _ => owned_by t run key)).
Proof. apply map_rows_NoDup. intros k k' v v' y ->%owned_by_Some ->%owned_by_Some. done. Qed.

Lemma run_counted run b b' :
  tidy b -> countedRow maxRows (fun i => {| i with inv_RunRows := wrap_u64 (inv_RunRows i + 1);
                                            inv_RunIDs := inv_RunIDs i ++ [run] |}) b = inr b' ->
  collects b 1 [] [run] b'.
Proof.
  intros Hb. unfold countedRow, mbind, result_bind. destruct (addRow maxRows b) as [| b0] eqn:E0; [done |].
  intros [= <-]. apply addRow_collects in E0 as [T R O U D]; [| done..]. split; cbn; try done.
  by rewrite U, app_nil_r.
Qed.

(** One run charges a row for itself and brings its objects. *)
Lemma run_brings run b b' :
  tidy b -> run_step_rows t maxRows maxObjects seen run b = inr b' ->
  brings b 1 (run_object_always t seen run) (run_object_once t seen run) [run] b'.
Proof.
  intros Hb. unfold run_step_rows, mbind, result_bind.
  destruct (countedRow _ _ _) as [| b1] eqn:E1; [done |]. apply run_counted in E1; [| done].
  destruct (listRunOutputReceipts _ _ _ _) as [| receipts] eqn:L2; [done |].
  destruct (fold_steps _ receipts b1) as [| b2] eqn:E2; [done |].
  apply (receipts_bring run) in E2; [| exact (co_tidy _ _ _ _ _ _ E1) | done].
  destruct (listRunManifestIDs _ _ _ _) as [| manifests] eqn:L3; [done |].
  destruct (fold_steps _ manifests b2) as [| b3] eqn:E3; [done |].
  eapply (listing_brings q_manifests (fun w => manifest_index t w run) (fun w => manifest_rows t w run) _ _ _ b2) in E3; [| intros; apply owned_index_NoDup | by eapply brings_tidy
    | intros id c c'; apply manifest_brings | exact L3].
  destruct (listRunDeliveryIDs _ _ _ _) as [| deliveries] eqn:L4; [done |].
  destruct (fold_steps _ deliveries b3) as [| b4] eqn:E4; [done |].
  eapply (listing_brings q_deliveries (fun w => delivery_index t w run) (fun w => delivery_rows t w run) _ _ _ b3) in E4; [| intros; apply map_index_NoDup | by eapply brings_tidy
    | intros id c c'; apply delivery_brings | exact L4].
  destruct (listRunCheckpointIDs _ _ _ _) as [| ckpts] eqn:L5; [done |]. intros E5.
  eapply (listing_brings q_checkpoints (fun w => checkpoint_index t w run) (fun w => checkpoint_rows t w run) _ _ _ b4) in E5; [| intros; apply map_index_NoDup | by eapply brings_tidy
    | intros id c c'; apply checkpoint_brings | exact L5].
  pose proof (brings_then maxRows Hmax _ _ _ _ _ _ _ _ _ _ _ (collects_brings _ _ _ _ _ _ E1)
    (brings_then maxRows Hmax _ _ _ _ _ _ _ _ _ _ _ E2 (brings_then maxRows Hmax _ _ _ _ _ _ _ _ _ _ _ E3
      (brings_then maxRows Hmax _ _ _ _ _ _ _ _ _ _ _ E4 E5)))) as C.
  eapply brings_weaken; [exact C | done | |].
  - intros r [key row ? ? ? | id m Hl Hm Hr | id d Hl Hd Hne -> | id c Hck Hl Hc ->].
    + right; left. eauto.
    + do 2 right; left. split; [| eauto]. intros n q. apply (canonical_NoDup t (fun m => String.eqb (am_RunID m) run)).
    + do 3 right; left. split; [intros n q; apply (canonical_NoDup t (fun d => String.eqb (td_RunID d) run)) |].
      exists id. split; [done |]. exists d. split; [done |]. apply String.eqb_neq in Hne. rewrite Hne. by left.
    + do 4 right. split; [done |]. exists id. split; [done |]. exists c. split; [done | by left].
  - intros r [[]%elem_of_nil | [(key & row & ? & ? & ?) | [(id & Hl & m & [? ?] & Hr)
      | [(id & Hl & d & [? ?] & Hr) | (id & Hl & c & [? ?] & Hr)]]]].
    + by eapply roo_receipt.
    + by eapply roo_manifest.
    + destruct (String.eqb_spec (br_Key (td_Payload d)) ""); cbn in Hr; [by apply elem_of_nil in Hr |].
      apply list_elem_of_singleton in Hr. by eapply roo_delivery.
    + apply list_elem_of_singleton in Hr. by eapply roo_checkpoint.
Qed.

Lemma concat_singletons {A} (l : list A) : concat (map (fun x => [x]) l) = l.
Proof. induction l; cbn; by f_equal. Qed.

Lemma runs_bring ids b b' :
  tidy b -> fold_steps (run_step_rows t maxRows maxObjects seen) ids b = inr b' ->
  brings b (length ids) (fun r => exists run, run ∈ ids /\ run_object_always t seen run r)
    (fun r => exists run, run ∈ ids /\ run_object_once t seen run r) ids b'.
Proof.
  intros Hb H. apply (fold_brings maxRows Hmax _ 1 (run_object_always t seen) (run_object_once t seen) (fun run => [run]))
    in H; [| intros run c c' _; apply run_brings | done].
  by rewrite concat_singletons, Nat.mul_1_l in H.
Qed.
End Runs.

(** ** The whole inventory *)

(** The session's runs, by creation time. *)
Definition session_runs (t s : string) (w : ldb) : list (Z * string) :=
  sort_by run_before (map_rows (runs_by_session w) (fun key _ =>
    if bool_decide (key.1.1 = (t, s)) then Some (key.1.2, key.2) else None)).

Lemma session_runs_elem t s w run :
  run ∈ map snd (session_runs t s w) <-> exists at_ status, runs_by_session w !! (t, s, at_, run) = Some status.
Proof.
  unfold session_runs. rewrite list_elem_of_fmap. setoid_rewrite (sort_by_permutation run_before).
  setoid_rewrite map_rows_elem. split.
  - intros ([at_ r] & -> & [[[t1 s1] a1] r1] & status & H & Hf). cbn in Hf. case_bool_decide; [| done].
    simplify_eq. cbn. eauto.
  - intros (at_ & status & H). exists (at_, run). split; [done |]. exists (t, s, at_, run), status.
    by rewrite bool_decide_eq_true_2.
Qed.

Section Whole.
Context (t s : string) (maxRows maxObjects : Z) (seen : reads).
Hypothesis (Hmax : 1 <= maxRows <= maxSessionDeletionRows).
Let brings := brings maxRows.

(** Pages of a table of the session whose rows carry their number. *)
Lemma pages_table {V} (table : ldb -> gmap (string * string * Z) V) (kind : query) number payload count fuel b b' :
  (forall w' q v, once seen (eq w') -> table w' !! (t, s, q) = Some v -> number v = q /\ 0 < q) -> counter count ->
  tidy maxRows b ->
  pages t maxRows maxObjects (fun b => page (table (now seen b kind)) t s) number payload count fuel 0 b = Some (inr b') ->
  brings b 0 (fun r => exists q v, always seen (fun w => table w !! (t, s, q) = Some v) /\ r = payload v)
    (fun r => exists q v, once seen (fun w => table w !! (t, s, q) = Some v) /\ r = payload v) [] b'.
Proof.
  intros Hnum Hc Hb H.
  assert (forall c q v, table (now seen c kind) !! (t, s, q) = Some v -> number v = q /\ 0 < q) as Hat.
  { intros c q v. apply Hnum. by eapply once_at. }
  apply (pages_bring t maxRows maxObjects Hmax _ _ _ _ Hc
    (fun v => always seen (fun w => table w !! (t, s, number v) = Some v))
    (fun v => exists q, once seen (fun w => table w !! (t, s, q) = Some v))) in H as (l & C & Hk & Hq); [| | | done].
  - exists l. split_and!; [exact C | |].
    + intros r (q & v & Ha & ->). destruct (Hat b q v (Ha _ _)) as [<- Hpos]. by apply Hk.
    + intros r (v & [q Hv] & ->)%Hq. eauto.
  - intros c a limit v (q & Hv & _)%page_elem. exists q. by eapply once_at.
  - intros c a limit v Ha Hn.
    assert (take (Z.to_nat limit) (page (table (now seen c kind)) t s a limit) = page (table (now seen c kind)) t s a limit) as ->.
    { unfold page. by rewrite <- !firstn_map, take_take, Nat.min_id. }
    destruct (page_reaches _ t s a limit _ v (Ha (bd_rows c) kind) Hn) as [Hin | [Hfull Hlast]]; [by left | right].
    split; [done |]. intros H1. destruct (Hlast H1) as (q' & v' & ? & Hv' & ?). exists v'. split; [done |].
    by destruct (Hat c q' v' Hv') as [-> _].
Qed.

(** Steps that charge rows and add nothing. *)
Definition charges (f : building -> error + building) : Prop :=
  forall b b', tidy maxRows b -> f b = inr b' -> collects maxRows b 0 [] [] b'.

Lemma charges_rows {A B} (read : building -> error + A) (rows : A -> list B) count :
  counter count -> charges (fun b => x ← read b; countedRows maxRows count (rows x) b).
Proof.
  intros Hc b b' Hb. unfold mbind, result_bind. destruct (read b) as [| x]; [done |]. intros H.
  apply countedRows_collects in H; [| done..]. eapply collects_fewer; [exact H | lia].
Qed.

Lemma charges_then {A B} (read : building -> error + A) (rows : A -> list B) count (k : building -> error + building) :
  counter count -> charges k -> charges (fun b => x ← read b; b ← countedRows maxRows count (rows x) b; k b).
Proof.
  intros Hc Hk b b' Hb H. unfold mbind, result_bind in H. destruct (read b) as [| x] eqn:Ex; [done |].
  destruct (countedRows _ _ _ _) as [| b1] eqn:E; [done |].
  assert (collects maxRows b 0 [] [] b1) as C.
  { apply (charges_rows read rows count Hc); [done |]. unfold mbind, result_bind. by rewrite Ex. }
  exact (collects_trans maxRows Hmax _ _ _ _ _ _ _ _ _ C (Hk _ _ (co_tidy _ _ _ _ _ _ C) H)).
Qed.

(** The session's other tables hold no objects. *)
Lemma session_rows_charges : charges (session_rows t s maxRows seen).
Proof.
  unfold session_rows.
  refine (charges_then (fun b => countSessionMaterialRows (material_current_rows t (now seen b q_material_current) s)
    (remaining maxRows b)) (seq 0) _ _ _ _); [done |].
  refine (charges_then (fun b => countSessionMaterialRows (material_boundary_rows t (now seen b q_material_boundaries) s)
    (remaining maxRows b)) (seq 0) _ _ _ _); [done |].
  refine (charges_then (fun b => countSessionMaterialRows (material_snapshot_rows t (now seen b q_material_snapshots) s)
    (remaining maxRows b)) (seq 0) _ _ _ _); [done |].
  refine (charges_then (fun b => countSessionParticipantRows t (now seen b q_participants) s (remaining maxRows b))
    (seq 0) _ _ _ _); [done |].
  refine (charges_then (fun b => listSessionBindingIDs t (now seen b) s (wrap_u64 (remaining maxRows b + 1))) id _ _ _ _);
    [done |].
  refine (charges_rows (fun b => listSessionProjectionIDs t (now seen b) s (wrap_u64 (remaining maxRows b + 1))) id _ _).
  done.
Qed.

(** A run listing the loop gets through is complete. *)
Lemma run_rows_bring b b' :
  tidy maxRows b -> run_rows t s maxRows maxObjects seen b = inr b' ->
  let ids := map snd (session_runs t s (now seen b q_runs)) in
  brings b 0 (fun r => exists run, run ∈ ids /\ run_object_always t seen run r)
    (fun r => exists run, run ∈ ids /\ run_object_once t seen run r) ids b'.
Proof.
  intros Hb. cbv zeta. unfold run_rows, mbind, result_bind. set (limit := wrap_u64 (remaining maxRows b + 1)) at 1 2.
  unfold deletionInventoryIDs. destruct (_ || _); [done |]. set (ids := map snd _).
  assert (take (Z.to_nat limit) (session_run_ids t s limit (now seen b q_runs)) = take (Z.to_nat limit) ids) as ->.
  { unfold ids, session_run_ids, session_runs. by rewrite <- firstn_map, take_take, Nat.min_id. }
  destruct (listOwnedSessionAdmissionKeys _ _ _ _) as [| keys]; [done |].
  destruct (countedRows _ _ keys b) as [| b1] eqn:E1; [done |]. intros E2.
  apply countedRows_collects in E1; [| done..]. apply runs_bring in E2; [| done | apply E1].
  pose proof (brings_then maxRows Hmax _ _ _ _ _ _ _ _ _ _ _ (collects_brings _ _ _ _ _ _ E1) E2) as C.
  assert (take (Z.to_nat limit) ids = ids) as Htake.
  { apply take_all. pose proof (loop_below _ Hmax _ _ _ _ _ _ Hb C) as Hlt. fold limit in Hlt. lia. }
  rewrite Htake in C. eapply brings_weaken; [exact C | lia | by right |]. intros r [[]%elem_of_nil | Hr]. exact Hr.
Qed.

Lemma finish_exact b inv :
  tidy maxRows b -> finish_inventory maxObjects b = inr inv ->
  (forall r, r ∈ inv_Objects inv <-> stored b r) /\ sorted String.ltb (map br_Key (inv_Objects inv)) /\
  inv_RunIDs inv = inv_RunIDs (bd_inventory b) /\ inv_TenantID inv = inv_TenantID (bd_inventory b) /\
  inv_SessionID inv = inv_SessionID (bd_inventory b) /\ SessionDeletionInventory_Validate inv maxObjects = None.
Proof.
  intros [Hk _]. unfold finish_inventory. set (keys := sorted_ids _).
  destruct (SessionDeletionInventory_Validate _ _) eqn:Hv; [done |]. intros [= <-]. cbn [inv_Objects inv_RunIDs].
  assert (forall k, k ∈ keys <-> is_Some (bd_objects b !! k)) as Hkeys.
  { intros k. unfold keys. rewrite sorted_ids_elem, list_elem_of_fmap. split.
    - intros ([k' r] & -> & H%elem_of_map_to_list). eauto.
    - intros [r H%elem_of_map_to_list]. by exists (k, r). }
  split_and!; try done.
  - intros r. rewrite list_elem_of_omap. unfold stored. split.
    + intros (k & _ & Hr). by rewrite (Hk k r Hr).
    + intros Hr. exists (br_Key r). split; [| done]. apply Hkeys. eauto.
  - assert (map br_Key (omap (fun key => bd_objects b !! key) keys) = keys) as ->.
    { assert (forall k, k ∈ keys -> is_Some (bd_objects b !! k)) as Hin by (intros; by apply Hkeys).
      clear Hv Hkeys. induction keys as [| k l IH]; [done |]. cbn. destruct (Hin k) as [r Hr]; [by left |].
      rewrite Hr. cbn. rewrite (Hk k r Hr). f_equal. apply IH. intros x Hx. apply Hin. by right. }
    apply sort_by_sorted; [apply string_lt_strict | intros x y _ _; apply string_lt_total | apply NoDup_fst_map_to_list].
Qed.

Lemma initial_tidy : tidy maxRows {| bd_objects := ∅; bd_rows := 0; bd_inventory := empty_inventory t s |}.
Proof. split; cbn; [intros k r; by rewrite lookup_empty | lia]. Qed.

Hypothesis (T : forall n q, tables_inv (base (seen n q))).

Lemma events_bring b b' :
  tidy maxRows b -> event_pages t s maxRows maxObjects seen b = Some (inr b') ->
  brings b 0 (fun r => exists q e, always seen (fun w => session_events (base w) !! (t, s, q) = Some e) /\ r = se_Payload e)
    (fun r => exists q e, once seen (fun w => session_events (base w) !! (t, s, q) = Some e) /\ r = se_Payload e) [] b'.
Proof.
  intros Hb. apply (pages_table (fun w => session_events (base w)) q_events); [| done | done].
  intros w q e (n & k & ->) H. destruct (li_event _ (ti_log _ (T n k)) _ _ _ _ H) as (_ & _ & ? & _ & row & _ & ? & _).
  split; [done | lia].
Qed.

Lemma snapshots_bring b b' :
  tidy maxRows b -> snapshot_pages t s maxRows maxObjects seen b = Some (inr b') ->
  brings b 0 (fun r => exists v x, always seen (fun w => session_snapshots (base w) !! (t, s, v) = Some x) /\ r = ss_Payload x)
    (fun r => exists v x, once seen (fun w => session_snapshots (base w) !! (t, s, v) = Some x) /\ r = ss_Payload x) [] b'.
Proof.
  intros Hb. apply (pages_table (fun w => session_snapshots (base w)) q_snapshots); [| done | done].
  intros w v x (n & k & ->) H. destruct (ti_numbered _ (T n k) t s) as (l & Hl & _ & Hf & _).
  destruct (proj1 (Hl _ _) H) as [Hge H']. destruct (Hf _ _ H') as (_ & _ & -> & _). lia.
Qed.

(** What the builder has collected when it finishes. *)
Lemma build_brings inv :
  buildSessionDeletionInventory t s maxRows maxObjects seen = Some (inr inv) ->
  (forall r, object_always t s seen r -> r ∈ inv_Objects inv) /\
  (forall r, r ∈ inv_Objects inv -> object_once t s seen r) /\
  sorted String.ltb (map br_Key (inv_Objects inv)) /\
  (exists n, inv_RunIDs inv = map snd (session_runs t s (seen n q_runs))) /\ inv_TenantID inv = t /\
  inv_SessionID inv = s /\ SessionDeletionInventory_Validate inv maxObjects = None.
Proof.
  unfold buildSessionDeletionInventory. destruct (TenantID_Validate t); [done |].
  destruct (SessionID_Validate s); [done |]. destruct (limits_refused _ _); [done |]. destruct (match _ with Some _ => _ | None => _ end); [done |].
  destruct (event_pages _ _ _ _ _ _) as [[| b1] |] eqn:E1; [done | | done].
  apply events_bring in E1; [| apply initial_tidy].
  destruct (snapshot_pages _ _ _ _ _ _) as [[| b2] |] eqn:E2; [done | | done].
  apply snapshots_bring in E2; [| by eapply brings_tidy]. unfold mbind, result_bind.
  destruct (session_rows _ _ _ _ _) as [| b3] eqn:E3; [done |].
  apply session_rows_charges in E3; [| by eapply brings_tidy].
  destruct (run_rows _ _ _ _ _ _) as [| b4] eqn:E4; [done |]. intros [= Hf].
  apply run_rows_bring in E4; [| apply E3].
  destruct (brings_then maxRows Hmax _ _ _ _ _ _ _ _ _ _ _ E1 (brings_then maxRows Hmax _ _ _ _ _ _ _ _ _ _ _ E2
    (brings_then maxRows Hmax _ _ _ _ _ _ _ _ _ _ _ (collects_brings _ _ _ _ _ _ E3) E4))) as (l & C & Hk & Hq).
  destruct (finish_exact _ _ (co_tidy _ _ _ _ _ _ C) Hf) as (Ho & Hs & Hr & Ht & Hs' & Hv).
  destruct C as [_ _ O U [D1 D2]]. cbn in U, D1, D2.
  assert (forall r, r ∈ inv_Objects inv <-> r ∈ l) as Hel.
  { intros r. rewrite Ho, O. unfold stored. cbn. rewrite lookup_empty. split; [by intros [] | by right]. }
  split_and!; try congruence; [| | by eexists; rewrite Hr, U].
  - intros r Hr'. apply Hel, Hk. destruct Hr' as [q e H -> | v x H -> | at_ run H Hrun]; [left | right; left | right; right; right]; eauto.
    exists run. split; [| done]. apply session_runs_elem. destruct (H (bd_rows b3) q_runs) as [st Hst]. eauto.
  - intros r Hr'%Hel%Hq. destruct Hr' as [(q & e & H & ->) | [(v & x & H & ->) | [[]%elem_of_nil | (run & Hin & Hrun)]]];
      [by eapply oo_event | by eapply oo_snapshot |].
    apply session_runs_elem in Hin as (at_ & st & Hst). eapply (oo_run _ _ _ _ at_ run); [| done]. eapply once_at. by exists st.
Qed.

Lemma page_fuel_enough b : tidy maxRows b -> maxRows - bd_rows b < Z.of_nat (page_fuel maxRows).
Proof. intros [_ Hr]. unfold page_fuel. lia. Qed.
End Whole.

Lemma build_ends t s maxRows maxObjects seen :
  1 <= maxRows <= maxSessionDeletionRows -> buildSessionDeletionInventory t s maxRows maxObjects seen <> None.
Proof.
  intros Hmax. unfold buildSessionDeletionInventory. destruct (TenantID_Validate t); [done |].
  destruct (SessionID_Validate s); [done |]. destruct (limits_refused _ _); [done |].
  destruct (match _ with Some _ => _ | None => _ end); [done |]. pose proof (initial_tidy t s maxRows Hmax) as Hb.
  destruct (event_pages _ _ _ _ _ _) as [[| b1] |] eqn:E1; [done | |].
  - apply pages_tidy in E1; [| done..]. destruct (snapshot_pages _ _ _ _ _ _) as [[| b2] |] eqn:E2; [done | done |].
    by apply pages_end in E2; [.. | apply page_fuel_enough].
  - by apply pages_end in E1; [.. | apply page_fuel_enough].
Qed.

(** Within its limits, which are checked first, the builder always answers: the
    page loops do not run out of fuel. *)
Lemma inventory_terminates t s maxRows maxObjects seen :
  0 <= maxRows -> buildSessionDeletionInventory t s maxRows maxObjects seen <> None.
Proof.
  intros H0. destruct (decide (1 <= maxRows <= maxSessionDeletionRows)) as [H | H]; [by apply build_ends |].
  unfold buildSessionDeletionInventory. destruct (TenantID_Validate t); [done |].
  destruct (SessionID_Validate s); [done |]. destruct (limits_refused _ _) eqn:El; [done |].
  unfold limits_refused in El. b2p. lia.
Qed.

(** The store's method answers unless the session is on the retained path. *)
Lemma store_inventory u t s maxRows maxObjects seen inv :
  0 <= maxRows -> BuildSessionDeletionInventory u t s maxRows maxObjects seen = Some (inr inv) ->
  1 <= maxRows <= maxSessionDeletionRows /\ buildSessionDeletionInventory t s maxRows maxObjects seen = Some (inr inv).
Proof.
  intros H0. unfold BuildSessionDeletionInventory. destruct (_ || _ || _) eqn:E; [done |]. cbv zeta.
  destruct (match _ with Some _ => _ | None => _ end) as [| []]; [done | done |]. intros H. split; [| done].
  apply orb_false_iff in E as [_ E]. unfold limits_refused in E. b2p. lia.
Qed.

(** C11. The inventory a deletion is planned and confirmed with is exact.  Its queries
    run one after the other on a database the session and lifecycle operations change
    meanwhile.  An inventory the store answers lists, in strict key order, only objects
    that the events, the snapshots or the runs' receipts, manifests, deliveries and
    checkpoints of the session referred to in states the queries saw, in the indexes
    or, before the backfill, the canonical tables; it lists every object whose rows
    were there unchanged in all of these states; and it is accepted, so every object is
    under the session's or a listed run's prefix and the total is the sum of the sizes.
    When the queries saw one state, as in the transaction that completes a deletion,
    the objects are precisely those of the session and the runs precisely its runs.
    The bounded reads lose nothing: a read that was cut off makes the row count exceed
    its bound.  Checkpoint ids are the writer's to keep distinct and sizes are 64-bit. *)
Theorem inventory_exact u t s maxRows maxObjects seen inv :
  (forall n q, lifecycle_reachable (seen n q)) -> 0 <= maxRows ->
  (forall ref, object_once t s seen ref -> br_Size ref <= max_i64) ->
  BuildSessionDeletionInventory u t s maxRows maxObjects seen = Some (inr inv) ->
  (forall ref, ref ∈ inv_Objects inv -> object_once t s seen ref) /\
  (forall ref, object_always t s seen ref -> ref ∈ inv_Objects inv) /\
  sorted String.ltb (map br_Key (inv_Objects inv)) /\
  inv_TenantID inv = t /\ inv_SessionID inv = s /\ inventory_accepted inv maxObjects /\
  (forall w, seen = one_state w -> checkpoint_ids_distinct t s w ->
     (forall ref, ref ∈ inv_Objects inv <-> session_object t s w ref) /\
     (forall run, run ∈ inv_RunIDs inv <-> exists at_ status, runs_by_session w !! (t, s, at_, run) = Some status)).
Proof.
  intros R H0 Hsize H. apply store_inventory in H as [Hm H]; [| done].
  apply build_brings in H as (Hk & Hq & Hs & [n Hr] & Ht & Hs' & Hv); [| done | intros n q; apply lifecycle_reachable_inv, R].
  split_and!; try done.
  - apply inventory_validate_iff; [| done]. apply Forall_forall. auto.
  - intros w -> Hck. split.
    + intros ref. split; [intros Hin; by apply object_once_one, Hq | intros Hin; by apply Hk, object_always_one].
    + intros run. by rewrite Hr, session_runs_elem.
Qed.

(** The sample's tables. *)
Lemma sample_sizes ref : session_object "acme" "s1" DeletionSample.requested ref -> br_Size ref <= max_i64.
Proof.
  set (w := DeletionSample.requested).
  assert (map_Forall (fun _ e => br_Size (se_Payload e) <= max_i64) (session_events (base w)) /\
    map_Forall (fun _ x => br_Size (ss_Payload x) <= max_i64) (session_snapshots (base w)) /\
    map_Forall (fun _ m => Forall (fun r => br_Size r <= max_i64) (map art_Blob (am_Artifacts m))) (artifact_manifests w) /\
    attached_worker_output_receipts w = ∅ /\ telegram_deliveries_by_run w = ∅ /\ telegram_delivery_outbox w = ∅ /\
    checkpoints w = ∅ /\ checkpoint_objects_by_run w = ∅) as (He & Hs & Hm & Er & Ed & Eo & Ec & Ex).
  { split_and!; [apply (bool_decide_unpack _); vm_compute; exact I .. | reflexivity | reflexivity | reflexivity | reflexivity
      | reflexivity]. }
  intros [q e H -> | v x H -> | at_ run st _ [key row H _ _ | id m _ H Hin | id d _ H _ _ | id c _ H _]].
  - by apply (He _ _ H).
  - by apply (Hs _ _ H).
  - by rewrite Er, lookup_empty in H.
  - specialize (Hm _ _ H). by rewrite Forall_forall in Hm; apply Hm.
  - unfold readLifecycleDelivery, one_state in H. rewrite Ed, Eo, !lookup_empty in H. by destruct (sessionLifecycleIndexesReady w).
  - unfold readLifecycleCheckpoint, canonical_checkpoint, one_state in H. rewrite Ec, Ex, lookup_empty in H.
    by destruct (sessionLifecycleIndexesReady w).
Qed.

Lemma sample_checkpoints : checkpoint_ids_distinct "acme" "s1" DeletionSample.requested.
Proof.
  intros at_ run st _. unfold checkpoint_rows. assert (checkpoints DeletionSample.requested = ∅) as ->
    by (vm_compute; reflexivity).
  apply NoDup_nil_2.
Qed.

Definition answered (r : option (error + SessionDeletionInventory)) : SessionDeletionInventory :=
  match r with Some (inr inv) => inv | _ => empty_inventory "" "" end.

Definition sample_inventory : SessionDeletionInventory :=
  answered (BuildSessionDeletionInventory DeletionSample.outside "acme" "s1" 100 100
              (one_state DeletionSample.requested)).

Lemma sample_built :
  BuildSessionDeletionInventory DeletionSample.outside "acme" "s1" 100 100 (one_state DeletionSample.requested)
  = Some (inr sample_inventory).
Proof. vm_compute. reflexivity. Qed.

Lemma inventory_exact_witness :
  let w := DeletionSample.requested in
  length (inv_Objects sample_inventory) = 4%nat /\ inv_TotalBytes sample_inventory = 14 /\
  forall ref, ref ∈ inv_Objects sample_inventory <-> session_object "acme" "s1" w ref.
Proof.
  split; [vm_compute; reflexivity |]. split; [vm_compute; reflexivity |].
  destruct (inventory_exact DeletionSample.outside "acme" "s1" 100 100 (one_state DeletionSample.requested) sample_inventory)
    as (_ & _ & _ & _ & _ & _ & H).
  - intros n q. exact sample_requested.
  - lia.
  - intros ref Hr. exact (sample_sizes ref (object_once_one _ _ _ _ Hr)).
  - exact sample_built.
  - exact (proj1 (H _ eq_refl sample_checkpoints)).
Defined.
