(* ===== verification/DeletionService.v ===== *)
(** * The session deletion service ([internal/sessionlifecycle/service.go])

    The service plans a deletion from the store's inventory, and executes it when
    the typed confirmation names that inventory: it starts the deletion, plans
    again, deletes the listed objects one by one and completes the deletion with
    their exact number and size.  It talks to the lifecycle store and the blob
    store through their ports, so an operation is a program of calls: the theorems
    hold for every answer and for everything other clients do between two calls.
    What the service needs of the store is the class [DeletionStore]; [ldb_store]
    is the store of [LifecycleTables]. *)

From S2P Require Import Prelude GoText GoTime Sorting Sha256 Json Errors Identity Blobs Lifecycle Runs Sessions.
From S2P Require Import Store SessionStore SessionLog SessionIndexes LifecycleTables LifecycleStore.
From S2P Require Import LifecycleInventory LifecycleErase LifecycleEffects LifecycleSafety InventoryExact.
From stdpp Require Import gmap.
#[local] Open Scope Z_scope.

(** ** Programs of port calls *)

Inductive call : Type -> Type :=
| GetDeletion (tenantID sessionID : string) : call (error + option SessionDeletion)
| BuildInventory (tenantID sessionID : string) (maxRows maxObjects : Z) : call (error + SessionDeletionInventory)
| StartDeletion (tenantID sessionID : string) (at_ : time) : call (error + SessionDeletion)
| DeleteBlob (tenantID : string) (ref : BlobRef) : call (option error)
| CompleteDeletion (tenantID sessionID : string) (at_ : time) (objects bytes : Z) : call (error + SessionDeletion).

Inductive prog (A : Type) : Type :=
| Ret (a : A)
| Call {B : Type} (c : call B) (k : B -> prog A).
Arguments Ret {A} a.
Arguments Call {A B} c k.

#[global] Instance prog_ret : MRet prog := fun _ => Ret.
#[global] Instance prog_bind : MBind prog := fun A B f =>
  fix bind p := match p with Ret a => f a | Call c k => Call c (fun b => bind (k b)) end.

Definition port {B} (c : call B) : prog B := Call c Ret.

(** A call whose error is returned. *)
Definition or_fail {A B} (p : prog (error + A)) (f : A -> prog (error + B)) : prog (error + B) :=
  r ← p; match r with inl e => mret (inl e) | inr x => f x end.

(** ** The service *)

Definition DefaultMaxRows : Z := 10000.
Definition DefaultMaxObjects : Z := 10000.

Record Service := { sv_maxRows : Z; sv_maxObjects : Z }.

(** [store] and [blobs] say whether the ports are given. *)
Definition New (store blobs : bool) (maxRows maxObjects : Z) : error + Service :=
  if negb store || negb blobs
  then inl (PlainError "session lifecycle store and blob store are required" None)
  else
    let maxRows := if maxRows =? 0 then DefaultMaxRows else maxRows in
    let maxObjects := if maxObjects =? 0 then DefaultMaxObjects else maxObjects in
    if (maxRows >? DefaultMaxRows) || (maxObjects >? DefaultMaxObjects)
    then inl (PlainError ("session deletion bounds cannot exceed " +:+ format_int DefaultMaxRows) None)
    else inr {| sv_maxRows := maxRows; sv_maxObjects := maxObjects |}.

Record Plan := {
  pl_Deletion : SessionDeletion;
  pl_Inventory : SessionDeletionInventory;
  pl_Confirmation : string }.

(** The store appends to nil slices, so an empty one encodes as null. *)
Definition expectedConfirmation (inventory : SessionDeletionInventory) : error + string :=
  match SessionDeletionInventory_Validate inventory DefaultMaxObjects with
  | Some e => inl e
  | None =>
      let digest := sha256 (marshal (json_inventory inventory)) in
      inr ("delete-session:" +:+ inv_TenantID inventory +:+ ":" +:+ inv_SessionID inventory +:+ ":"
           +:+ hex_encode (String.substring 0 12 digest))
  end.

(** The zero value. *)
Definition no_inventory : SessionDeletionInventory := empty_inventory "" "".

Section Operations.
Context (service : Service) (tenantID sessionID : string).

Definition plan : prog (error + Plan) :=
  or_fail (port (GetDeletion tenantID sessionID)) (fun found =>
  match found with
  | None =>
      mret (inl (PlainError ("deletion for session " +:+ quoted sessionID +:+ " has not been requested") None))
  | Some deletion =>
      if bool_decide (sd_State deletion = SessionDeletionCompleted)
      then mret (inr {| pl_Deletion := deletion; pl_Inventory := no_inventory; pl_Confirmation := "" |})
      else
        or_fail (port (BuildInventory tenantID sessionID (sv_maxRows service) (sv_maxObjects service)))
          (fun inventory =>
             match expectedConfirmation inventory with
             | inl e => mret (inl e)
             | inr confirmation =>
                 mret (inr {| pl_Deletion := deletion; pl_Inventory := inventory;
                              pl_Confirmation := confirmation |})
             end)
  end).

Fixpoint delete_objects (refs : list BlobRef) : prog (option error) :=
  match refs with
  | [] => mret None
  | ref :: rest =>
      e ← port (DeleteBlob tenantID ref);
      match e with
      | Some err =>
          mret (Some (PlainError ("delete exact session object " +:+ quoted (br_Key ref) +:+ ": " +:+ Error err)
                        (Some err)))
      | None => delete_objects rest
      end
  end.

(** What follows the second plan. *)
Definition erase_planned (at_ : time) (confirmation : string) (p : Plan) : prog (error + SessionDeletion) :=
  if negb (bool_decide (sd_State (pl_Deletion p) = SessionDeletionDeleting))
     || negb (String.eqb confirmation (pl_Confirmation p))
  then mret (inl (PlainError
         "post-start session deletion inventory does not match the original confirmation" None))
  else
    let inventory := pl_Inventory p in
    match (capture ← sd_RetainedVerification (pl_Deletion p);
           ValidateInventory capture (pl_Deletion p) inventory) with
    | Some e => mret (inl e)
    | None =>
        failed ← delete_objects (inv_Objects inventory);
        match failed with
        | Some e => mret (inl e)
        | None =>
            port (CompleteDeletion tenantID sessionID at_ (Z.of_nat (length (inv_Objects inventory)))
                    (inv_TotalBytes inventory))
        end
    end.

Definition Execute (confirmation : string) (at_ : time) : prog (error + SessionDeletion) :=
  or_fail plan (fun p =>
  if bool_decide (sd_State (pl_Deletion p) = SessionDeletionCompleted) then mret (inr (pl_Deletion p))
  else if String.eqb confirmation "" || negb (String.eqb confirmation (pl_Confirmation p))
  then mret (inl (PlainError "typed session deletion confirmation does not match the exact inventory" None))
  else
    or_fail (port (StartDeletion tenantID sessionID at_)) (fun deletion =>
    if bool_decide (sd_State deletion = SessionDeletionCompleted) then mret (inr deletion)
    else or_fail plan (erase_planned at_ confirmation))).
End Operations.

(** ** Executions *)

(** What an execution shows: the inventories it was given and the state they were
    read in, the objects it asked to delete, the state at that moment and whether
    the blob store accepted, and the completions it asked for. *)
Inductive event (W : Type) : Type :=
| Built (w : W) (tenantID sessionID : string) (inventory : SessionDeletionInventory)
| Deleted (w : W) (tenantID : string) (ref : BlobRef) (accepted : bool)
| Completing (objects bytes : Z).
Arguments Built {W} w tenantID sessionID inventory.
Arguments Deleted {W} w tenantID ref accepted.
Arguments Completing {W} objects bytes.

(** What the service needs of the store: how a call may be answered and what the
    clients of the store, this service included, may do; the states that occur;
    when a deletion cannot be undone any more and when a session is erased. *)
Class DeletionStore (W : Type) := {
  answers {B} : W -> call B -> B -> W -> Prop;
  clients : W -> W -> Prop;
  occurs : W -> Prop;
  committed : string -> string -> W -> Prop;
  erased : string -> string -> W -> Prop }.

Class DeletionStoreLaws (W : Type) `{DeletionStore W} := {
  answers_clients {B} w (c : call B) b w' : answers w c b w' -> rtc clients w w';
  occurs_step w w' : occurs w -> clients w w' -> occurs w';
  committed_step t s w w' : occurs w -> committed t s w -> clients w w' -> committed t s w';
  erased_step t s w w' : occurs w -> erased t s w -> clients w w' -> erased t s w';
  get_deleting t s w d w' :
    occurs w -> answers w (GetDeletion t s) (inr (Some d)) w' -> sd_State d = SessionDeletionDeleting -> committed t s w';
  get_completed t s w d w' :
    occurs w -> answers w (GetDeletion t s) (inr (Some d)) w' -> sd_State d = SessionDeletionCompleted -> erased t s w';
  start_completed t s at_ w d w' :
    occurs w -> answers w (StartDeletion t s at_) (inr d) w' -> sd_State d = SessionDeletionCompleted -> erased t s w';
  complete_completed t s at_ objects bytes w d w' :
    occurs w -> answers w (CompleteDeletion t s at_ objects bytes) (inr d) w' ->
    sd_State d = SessionDeletionCompleted /\ erased t s w' }.

Section Executions.
Context {W : Type} `{DeletionStore W}.

Definition observe {B} (w : W) (c : call B) : B -> list (event W) :=
  match c with
  | BuildInventory t s _ _ => fun r => match r with inr inventory => [Built w t s inventory] | inl _ => [] end
  | DeleteBlob t ref => fun r => [Deleted w t ref (isnil r)]
  | CompleteDeletion _ _ _ objects bytes => fun _ => [Completing objects bytes]
  | _ => fun _ => []
  end.

(** The program runs from [w] to [w'], shows [tr] and returns [a]; between two
    calls the clients of the store take any number of steps. *)
Fixpoint exec {A} (p : prog A) (w : W) (tr : list (event W)) (a : A) (w' : W) : Prop :=
  match p with
  | Ret x => rtc clients w w' /\ tr = [] /\ a = x
  | Call c k => exists w1 b w2 tr',
      rtc clients w w1 /\ answers w1 c b w2 /\ tr = observe w1 c b ++ tr' /\ exec (k b) w2 tr' a w'
  end.

Lemma exec_bind {A B} (p : prog A) (f : A -> prog B) : forall w tr b w',
  exec (p ≫= f) w tr b w' -> exists tr1 a w1 tr2, exec p w tr1 a w1 /\ exec (f a) w1 tr2 b w' /\ tr = tr1 ++ tr2.
Proof.
  induction p as [a | X c k IH]; intros w tr b w' He; cbn in He.
  - by exists [], a, w, tr.
  - destruct He as (w1 & x & w2 & tr' & Hr & Ha & -> & He).
    apply IH in He as (tr1 & a & w3 & tr2 & H1 & H2 & ->). exists (observe w1 c x ++ tr1), a, w3, tr2.
    split_and!; [| done | by rewrite app_assoc]. cbn. eauto 10.
Qed.

Lemma exec_port {B} (c : call B) w tr b w' :
  exec (port c) w tr b w' -> exists w1 w2, rtc clients w w1 /\ answers w1 c b w2 /\ tr = observe w1 c b /\ rtc clients w2 w'.
Proof. cbn. intros (w1 & x & w2 & tr' & Hr & Ha & -> & Hr' & -> & ->). rewrite app_nil_r. eauto 10. Qed.

(** A failing call ends the program with its error. *)
Lemma exec_or_fail {A B} (p : prog (error + A)) (f : A -> prog (error + B)) w tr r w' :
  exec (or_fail p f) w tr r w' -> exists tr1 x w1 tr2, exec p w tr1 x w1 /\ tr = tr1 ++ tr2 /\
    match x with
    | inl e => rtc clients w1 w' /\ tr2 = [] /\ r = inl e
    | inr a => exec (f a) w1 tr2 r w'
    end.
Proof.
  intros (tr1 & x & w1 & tr2 & H1 & H2 & ->)%exec_bind. exists tr1, x, w1, tr2. split_and!; try done. by destruct x.
Qed.

(** The deletions an execution asked for, and its completions. *)
Record deletion := { dl_world : W; dl_tenant : string; dl_ref : BlobRef; dl_accepted : bool }.

Definition deletions : list (event W) -> list deletion := omap (fun e =>
  match e with
  | Deleted w t ref ok => Some {| dl_world := w; dl_tenant := t; dl_ref := ref; dl_accepted := ok |}
  | _ => None
  end).

Definition completions : list (event W) -> list (Z * Z) := omap (fun e =>
  match e with Completing objects bytes => Some (objects, bytes) | _ => None end).

Lemma deletions_app l l' : deletions (l ++ l') = deletions l ++ deletions l'.
Proof. apply omap_app. Qed.
Lemma completions_app l l' : completions (l ++ l') = completions l ++ completions l'.
Proof. apply omap_app. Qed.

Context `{!DeletionStoreLaws W}.

Lemma occurs_rtc w w' : occurs w -> rtc clients w w' -> occurs w'.
Proof. intros Ho Hr. induction Hr; eauto using occurs_step. Qed.
Lemma committed_rtc t s w w' : occurs w -> committed t s w -> rtc clients w w' -> committed t s w'.
Proof. intros Ho Hc Hr. induction Hr; eauto using occurs_step, committed_step. Qed.
Lemma erased_rtc t s w w' : occurs w -> erased t s w -> rtc clients w w' -> erased t s w'.
Proof. intros Ho Hc Hr. induction Hr; eauto using occurs_step, erased_step. Qed.
Lemma occurs_answer {B} w (c : call B) b w' : occurs w -> answers w c b w' -> occurs w'.
Proof. intros Ho Ha. eapply occurs_rtc, answers_clients; eauto. Qed.

Lemma clients_trans w1 w2 w3 : rtc clients w1 w2 -> rtc clients w2 w3 -> rtc clients w1 w3.
Proof. apply transitivity. Qed.

#[local] Hint Resolve occurs_rtc committed_rtc erased_rtc occurs_answer answers_clients clients_trans : store.

Lemma exec_occurs {A} (p : prog A) : forall w tr a w', occurs w -> exec p w tr a w' -> occurs w'.
Proof.
  induction p as [x | B c k IH]; intros w tr a w' Ho; cbn; [intros (Hr & _); by eauto with store |].
  intros (w1 & b & w2 & tr' & Hr & Ha & _ & He). eapply IH, He. eauto with store.
Qed.

Section Service.
Context (service : Service) (t s : string).

(** The inventory was the store's answer in [w]. *)
Definition built (w : W) (inventory : SessionDeletionInventory) : Prop :=
  occurs w /\ exists w', answers w (BuildInventory t s (sv_maxRows service) (sv_maxObjects service)) (inr inventory) w'.

(** Planning deletes nothing; it finds out whether the deletion is committed. *)
Lemma plan_spec w tr r w' :
  occurs w -> exec (plan service t s) w tr r w' ->
  occurs w' /\ deletions tr = [] /\ completions tr = [] /\ forall p, r = inr p ->
    (sd_State (pl_Deletion p) = SessionDeletionCompleted -> erased t s w') /\
    (sd_State (pl_Deletion p) = SessionDeletionDeleting -> committed t s w' /\
       exists wb, built wb (pl_Inventory p) /\ Built wb t s (pl_Inventory p) ∈ tr /\
         expectedConfirmation (pl_Inventory p) = inr (pl_Confirmation p)).
Proof.
  intros Ho (tr1 & x & w1 & tr2 & Hg & -> & Hx)%exec_or_fail.
  apply exec_port in Hg as (wa & wb & Hr & Ha & -> & Hr').
  assert (occurs wa) as Ha0 by eauto with store. assert (occurs wb) as Hb0 by eauto with store.
  destruct x as [e | [d |]]; [destruct Hx as (Hr2 & -> & ->); split_and!; eauto with store; done | |
    destruct Hx as (Hr2 & -> & ->); split_and!; eauto with store; done].
  case_bool_decide as Hc.
  - destruct Hx as (Hr2 & -> & ->). split_and!; eauto with store. intros p [= <-]. cbn.
    split; [| by rewrite Hc]. intros _. eapply erased_rtc; [exact Hb0 | by apply (get_completed t s wa d) | by etrans].
  - apply exec_or_fail in Hx as (tr3 & y & w3 & tr4 & Hp & -> & Hy).
    apply exec_port in Hp as (wc & wd & Hr3 & Hbuild & -> & Hr4).
    assert (occurs wc) as Hc0 by eauto with store. assert (occurs wd) as Hd0 by eauto with store.
    assert (forall q, exec (mret q : prog (error + Plan)) w3 tr4 r w' -> rtc clients wd w' /\ tr4 = [] /\ r = q) as Hret
      by (intros q (? & -> & ->); split_and!; eauto with store).
    destruct y as [e | inventory]; [destruct Hy as (Hr5 & -> & ->); split_and!; eauto with store; done |].
    destruct (expectedConfirmation inventory) as [e | confirmation] eqn:Hconf;
      apply Hret in Hy as (Hr5 & -> & ->); (split_and!; [by eauto with store | done | done |]); [done |].
    intros p [= <-]. cbn. split; [done |]. intros Hd. split.
    + eapply (committed_rtc t s wb); [done | by apply (get_deleting t s wa d) |].
      do 2 (etrans; [eassumption |]). etrans; [by eapply answers_clients | done].
    + exists wc. split_and!; [split; eauto | by left | done].
Qed.

(** The loop deletes an initial part of the list, and all of it if it succeeds. *)
Lemma delete_spec refs : forall w tr r w',
  occurs w -> committed t s w -> exec (delete_objects t refs) w tr r w' ->
  occurs w' /\ committed t s w' /\ completions tr = [] /\
  map dl_ref (deletions tr) `prefix_of` refs /\
  Forall (fun d => dl_tenant d = t /\ occurs (dl_world d) /\ committed t s (dl_world d)) (deletions tr) /\
  (r = None -> map dl_ref (deletions tr) = refs /\ Forall (fun d => dl_accepted d = true) (deletions tr)).
Proof.
  induction refs as [| ref refs IH]; intros w tr r w' Ho Hc Hx.
  - destruct Hx as (Hr & -> & ->). split_and!; eauto with store; done.
  - cbn [delete_objects] in Hx. apply exec_bind in Hx as (tr1 & x & w1 & tr2 & Hp & Hx & ->).
    apply exec_port in Hp as (wa & wb & Hr & Ha & -> & Hr').
    assert (occurs wa /\ committed t s wa /\ occurs w1 /\ committed t s w1) as (Hoa & Hca & Ho1 & Hc1)
      by (split_and!; eauto 8 with store).
    rewrite deletions_app, completions_app. cbn. destruct x as [e |].
    + destruct Hx as (Hr2 & -> & ->). cbn. split_and!; eauto with store; try done.
      apply prefix_cons, prefix_nil.
    + apply IH in Hx as (Ho' & Hc' & Hcp & Hpre & Hf & Hall); [| done..]. split_and!; try done.
      * by apply prefix_cons.
      * by constructor.
      * intros Hn. destruct (Hall Hn) as [-> Hacc]. split; [done | by constructor].
Qed.

(** What an execution that deletes or completes rests on. *)
Record confirmed (confirmation : string) (tr : list (event W)) (wb : W) (inventory : SessionDeletionInventory) : Prop := {
  cf_built : built wb inventory;
  cf_shown : Built wb t s inventory ∈ tr;
  cf_confirmation : expectedConfirmation inventory = inr confirmation;
  cf_listed : map dl_ref (deletions tr) `prefix_of` inv_Objects inventory;
  cf_committed :
    Forall (fun d => dl_tenant d = t /\ occurs (dl_world d) /\ committed t s (dl_world d)) (deletions tr);
  cf_complete objects bytes : (objects, bytes) ∈ completions tr ->
    objects = Z.of_nat (length (inv_Objects inventory)) /\ bytes = inv_TotalBytes inventory /\
    map dl_ref (deletions tr) = inv_Objects inventory /\ Forall (fun d => dl_accepted d = true) (deletions tr) }.

(** The execution neither deleted nor completed, or did so as confirmed. *)
Definition justified (confirmation : string) (tr : list (event W)) : Prop :=
  deletions tr = [] /\ completions tr = [] \/ exists wb inventory, confirmed confirmation tr wb inventory.

Lemma justified_app confirmation tr tr' :
  deletions tr = [] -> completions tr = [] -> justified confirmation tr' -> justified confirmation (tr ++ tr').
Proof.
  intros Hd Hc [[Hd' Hc'] | (wb & inv & [H1 H2 H3 H4 H5 H6])]; [left | right].
  - by rewrite deletions_app, completions_app, Hd, Hc.
  - exists wb, inv. split; rewrite ?deletions_app, ?completions_app, ?Hd, ?Hc; try done. by apply elem_of_app; right.
Qed.

Definition succeeded (r : error + SessionDeletion) (w' : W) : Prop :=
  forall d, r = inr d -> sd_State d = SessionDeletionCompleted /\ erased t s w'.

(** After the second plan. *)
Lemma erase_planned_spec at_ confirmation p tr0 wb w tr r w' :
  occurs w ->
  (sd_State (pl_Deletion p) = SessionDeletionDeleting -> committed t s w /\ built wb (pl_Inventory p) /\
     Built wb t s (pl_Inventory p) ∈ tr0 /\ expectedConfirmation (pl_Inventory p) = inr (pl_Confirmation p)) ->
  deletions tr0 = [] -> completions tr0 = [] -> exec (erase_planned t s at_ confirmation p) w tr r w' ->
  justified confirmation (tr0 ++ tr) /\ succeeded r w'.
Proof.
  intros Ho Hp Hd0 Hc0. unfold erase_planned.
  assert (forall e, exec (mret (inl e) : prog (error + SessionDeletion)) w tr r w' ->
    justified confirmation (tr0 ++ tr) /\ succeeded r w') as Hfail.
  { intros e (_ & -> & ->). split; [| by intros d]. apply justified_app; [done.. | by left]. }
  destruct (_ || _) eqn:Hg; [apply Hfail |]. b2p. destruct Hg as [Hst ->].
  destruct (Hp Hst) as (Hcom & Hb & Hin & Hconf). destruct (_ ≫= _); [apply Hfail |].
  intros (tr1 & failed & w1 & tr2 & Hdel & Hx & ->)%exec_bind.
  apply delete_spec in Hdel as (Ho1 & Hc1 & Hcp & Hpre & Hf & Hall); [| done..].
  assert (forall tr2, deletions tr2 = [] -> (forall o b, (o, b) ∈ completions tr2 -> failed = None /\
    o = Z.of_nat (length (inv_Objects (pl_Inventory p))) /\ b = inv_TotalBytes (pl_Inventory p)) ->
    justified (pl_Confirmation p) (tr0 ++ tr1 ++ tr2)) as Hjust.
  { intros tr3 Hd3 Hc3. right. exists wb, (pl_Inventory p).
    split; rewrite ?deletions_app, ?completions_app, ?Hd0, ?Hc0, ?Hcp, ?Hd3, ?app_nil_r; try done;
      [by apply elem_of_app; left |]. cbn. intros o b Hin3. apply Hc3 in Hin3 as (Hn & -> & ->). naive_solver. }
  destruct failed as [e |].
  - destruct Hx as (_ & -> & ->). split; [apply Hjust; [done |] | by intros d]. intros o b []%elem_of_nil.
  - apply exec_port in Hx as (wa & wc & Hr & Ha & -> & Hr'). split.
    + apply Hjust; [done |]. intros o b. cbn. rewrite list_elem_of_singleton. by intros [= -> ->].
    + intros d ->. destruct (complete_completed _ _ _ _ _ wa d wc (occurs_rtc _ _ Ho1 Hr) Ha). split; [done |].
      apply (erased_rtc t s wc); [by eauto with store | done | done].
Qed.

(** Whatever the store and the blob store answer and whatever other clients do. *)
Lemma execute_spec confirmation at_ w tr r w' :
  occurs w -> exec (Execute service t s confirmation at_) w tr r w' ->
  justified confirmation tr /\ succeeded r w'.
Proof.
  intros Ho (tr1 & x & w1 & tr2 & Hplan & -> & Hx)%exec_or_fail.
  apply plan_spec in Hplan as (Ho1 & Hd1 & Hc1 & Hp1); [| done].
  assert (forall tr, justified confirmation tr /\ succeeded r w' ->
    justified confirmation (tr1 ++ tr) /\ succeeded r w') as Hpre.
  { intros tr [Hj Hs]. split; [by apply justified_app | done]. }
  assert (forall q, justified confirmation [] /\ succeeded (inl q) w') as Hfail by (intros q; split; [by left | by intros d]).
  apply Hpre. destruct x as [e | p]; [destruct Hx as (_ & -> & ->); apply Hfail |].
  destruct (Hp1 p eq_refl) as [Hdone _]. case_bool_decide as Hcomp.
  { destruct Hx as (Hr & -> & ->). split; [by left |]. intros d [= <-]. split; [done |]. eauto with store. }
  destruct (_ || _); [destruct Hx as (_ & -> & ->); apply Hfail |].
  apply exec_or_fail in Hx as (tr3 & y & w3 & tr4 & Hstart & -> & Hy).
  apply exec_port in Hstart as (wa & wb & Hr & Ha & -> & Hr'). cbn [observe app].
  assert (occurs wa) as Hoa by eauto with store. assert (occurs wb) as Hob by eauto with store.
  destruct y as [e | d]; [destruct Hy as (_ & -> & ->); apply Hfail |]. case_bool_decide as Hcd.
  { destruct Hy as (Hr2 & -> & ->). split; [by left |]. intros d' [= <-]. split; [done |].
    apply (erased_rtc t s wb); [done | by apply (start_completed t s at_ wa d) | by etrans]. }
  apply exec_or_fail in Hy as (tr5 & z & w5 & tr6 & Hplan & -> & Hz).
  apply plan_spec in Hplan as (Ho5 & Hd5 & Hc5 & Hp5); [| by eauto with store].
  destruct z as [e | p2]; [destruct Hz as (_ & -> & ->); split; [| by intros d']; apply justified_app; [done.. | by left] |].
  destruct (Hp5 p2 eq_refl) as [_ Hdel].
  destruct (decide (sd_State (pl_Deletion p2) = SessionDeletionDeleting)) as [Hst | Hst].
  - destruct (Hdel Hst) as (Hcom & wb2 & Hbb & Hin & Hconf).
    by apply (erase_planned_spec at_ confirmation p2 tr5 wb2 w5 tr6 r w' Ho5).
  - by apply (erase_planned_spec at_ confirmation p2 tr5 w5 w5 tr6 r w' Ho5).
Qed.
End Service.
End Executions.

(** ** The store of the lifecycle tables *)

(** [seen] is what the reads outside a transaction saw: for an inventory, states
    between the start and the end of the call, with other clients writing in between;
    before a transaction, anything.  A blob store answers what it likes.  The retained
    path has no answer. *)
Definition ldb_answers {B} (w : ldb) (c : call B) : B -> ldb -> Prop :=
  match c with
  | GetDeletion t s => fun b w' => b = GetSessionDeletion t s w /\ w' = w
  | BuildInventory t s maxRows maxObjects => fun b w' =>
      exists u seen, BuildSessionDeletionInventory u t s maxRows maxObjects seen = Some b /\
        forall n q, rtc lifecycle_step w (seen n q) /\ rtc lifecycle_step (seen n q) w'
  | StartDeletion t s at_ => fun b w' =>
      exists u reader seen, StartSessionDeletion u reader t s at_ seen w = Some (b, w')
  | DeleteBlob _ _ => fun _ w' => w' = w
  | CompleteDeletion t s at_ objects bytes => fun b w' =>
      exists u seen, CompleteSessionDeletion u t s at_ objects bytes seen w = Some (b, w')
  end.

#[global] Instance ldb_store : DeletionStore ldb := {
  answers _ w c := ldb_answers w c;
  clients := lifecycle_step;
  occurs := lifecycle_reachable;
  committed := in_state destructive;
  erased := in_state completed }.

Lemma start_answer u t s at_ w d w' :
  lifecycle_inv w -> LTransact t (start_deletion_tx u t s at_) w = (inr d, w') -> completed d -> in_state completed t s w'.
Proof.
  intros L. unfold LTransact. destruct (TenantID_Validate t); [done |].
  destruct (start_deletion_tx u t s at_ w) as [| [r w1]] eqn:E; [done |]. intros [= -> <-] Hc.
  apply start_effect in E as [_ [[Hb Hd] | (x & Hx & _ & _ & -> & Hb)]]; [exists d; by rewrite Hb | by unfold completed in Hc].
Qed.

Lemma complete_answer u t s at_ objects bytes expected w d w' :
  lifecycle_inv w -> LTransact t (complete_deletion_tx u t s at_ objects bytes expected) w = (inr d, w') ->
  completed d /\ in_state completed t s w'.
Proof.
  intros L. unfold LTransact. destruct (TenantID_Validate t); [done |].
  destruct (complete_deletion_tx _ _ _ _ _ _ _ w) as [| [r w1]] eqn:E; [done |]. intros [= -> <-].
  apply complete_effect in E as (_ & Hd & [[Hb Hl] | (x & wa & wb & v & Hx & _ & _ & _ & _ & Hc & Hb)]);
    (split; [done |]); [exists d; by rewrite Hb |].
  assert (sd_TenantID d = t /\ sd_SessionID d = s) as [<- <-].
  { destruct (lc_keys w L _ _ _ Hx) as [<- <-]. unfold Complete in Hc. repeat case_match; by simplify_eq. }
  exists d. rewrite Hb. cbn. by rewrite lookup_insert_eq.
Qed.

#[global] Instance ldb_store_laws : DeletionStoreLaws ldb.
Proof.
  split; cbn; unfold in_state.
  - intros B w c b w'. destruct c; cbn; [intros [_ ->]; done | | | intros ->; done |].
    + intros (u & seen & _ & H). destruct (H 0 q_runs). by etrans.
    + intros (u & reader & seen & H). apply lc_start_deletion in H. by apply rtc_once.
    + intros (u & seen & H). apply lc_complete in H. by apply rtc_once.
  - intros w w'. apply lifecycle_reachable_step.
  - intros t s w w' L%lifecycle_reachable_inv (x & Hx & Hd) Hs.
    destruct (deletion_forward _ _ _ _ _ L Hs Hx) as (x' & ? & ? & _). eauto.
  - intros t s w w' L%lifecycle_reachable_inv (x & Hx & Hd) Hs.
    destruct (deletion_forward _ _ _ _ _ L Hs Hx) as (x' & ? & _ & ?). eauto.
  - intros t s w d w' _ [Hg ->] Hd. unfold GetSessionDeletion in Hg. repeat case_match; try done.
    exists d. split; [congruence | by left].
  - intros t s w d w' _ [Hg ->] Hd. unfold GetSessionDeletion in Hg. repeat case_match; try done.
    exists d. split; [congruence | done].
  - intros t s at_ w d w' L%lifecycle_reachable_inv (u & reader & seen & H) Hd.
    destruct (start_deletion_cases _ _ _ _ _ _ _ _ H) as [[e [=]] | Hr]. by eapply start_answer.
  - intros t s at_ objects bytes w d w' L%lifecycle_reachable_inv (u & seen & H).
    destruct (complete_deletion_cases _ _ _ _ _ _ _ _ _ H) as [[e [=]] | [expected Hr]]. by eapply complete_answer.
Qed.

Lemma New_rows maxRows maxObjects service :
  0 <= maxRows -> New true true maxRows maxObjects = inr service -> 0 <= sv_maxRows service.
Proof.
  intros H0. unfold New. cbn. destruct (_ || _); [done |]. intros [= <-]. cbn. unfold DefaultMaxRows. case_match; lia.
Qed.

(** ** Theorem *)

(** C10. Executing a deletion is safe and, when it succeeds, complete, whatever other
    clients do between its calls and between the queries of a call, whatever its reads
    saw and however the blob store answers.  It asks to delete only objects of an
    inventory it read in this execution and that the typed confirmation names, in the
    inventory's order and for the session's tenant, and at each of these moments no
    legal hold is active on the session.  The queries of that inventory saw states
    between the start and the end of the call: each of its objects is one that rows of
    the session or of its runs referred to in states the queries saw, and every object
    whose rows were there unchanged in all of these states is listed; for an object of
    a checkpoint this also supposes that the canonical checkpoints of its run have
    distinct ids, which is up to their writer.  It asks to complete only after the blob
    store accepted the deletion of every object of that inventory, with their exact
    number and total size.  When it returns without an error the deletion is completed
    and nothing of the session is left in the session tables.  (The retained deletion
    path has no answer and is not covered.) *)
Theorem deletion_service_safe maxRows maxObjects service t s confirmation at_ w tr r w' :
  0 <= maxRows -> New true true maxRows maxObjects = inr service ->
  lifecycle_reachable w -> exec (Execute service t s confirmation at_) w tr r w' ->
  (deletions tr = [] /\ completions tr = [] \/
   exists wb inventory seen wb', Built wb t s inventory ∈ tr /\ expectedConfirmation inventory = inr confirmation /\
     map dl_ref (deletions tr) `prefix_of` inv_Objects inventory /\
     Forall (fun d => dl_tenant d = t /\ ~ held (dl_world d) t s) (deletions tr) /\
     (forall n q, rtc lifecycle_step wb (seen n q) /\ rtc lifecycle_step (seen n q) wb') /\
     (forall ref, ref ∈ inv_Objects inventory -> object_once t s seen ref) /\
     (forall ref, object_always t s seen ref -> ref ∈ inv_Objects inventory) /\
     (forall objects bytes, (objects, bytes) ∈ completions tr ->
        objects = Z.of_nat (length (inv_Objects inventory)) /\ bytes = inv_TotalBytes inventory /\
        map dl_ref (deletions tr) = inv_Objects inventory /\ Forall (fun d => dl_accepted d = true) (deletions tr))) /\
  (forall d, r = inr d -> sd_State d = SessionDeletionCompleted /\ nothing_left t s (base w')).
Proof.
  intros H0 Hnew R He. pose proof (exec_occurs _ _ _ _ _ R He) as R'.
  apply execute_spec in He as [Hj Hs]; [| exact R].
  split.
  - destruct Hj as [Hj | (wb & inv & [[Rb [w2 (u & seen & Hb & Hbetween)]] Hin Hconf Hpre Hcom Hall])]; [by left |]. right.
    apply New_rows in Hnew; [| done]. apply store_inventory in Hb as [Hm Hb]; [| done].
    apply build_brings in Hb as (Hk & Hq & _); [| done |].
    2: { intros n q. apply lifecycle_reachable_inv. exact (occurs_rtc wb _ Rb (proj1 (Hbetween n q))). }
    exists wb, inv, seen, w2. split_and!; try done.
    eapply Forall_impl; [exact Hcom |]. intros d (Ht & Rd & x & Hx & Hd). split; [done |]. intros Hh.
    by apply (lc_held _ (lifecycle_reachable_inv _ Rd) _ _ _ Hh Hx).
  - intros d Hr. destruct (Hs d Hr) as [Hc Hgone]. split; [done |].
    by apply completed_gone; [apply lifecycle_reachable_inv |].
Qed.

(** ** A sample execution *)

Module ServiceSample.
(** One client and a blob store that accepts everything. *)
Definition answer {B} (w : ldb) (c : call B) : option (B * ldb) :=
  match c with
  | GetDeletion t s => Some (GetSessionDeletion t s w, w)
  | BuildInventory t s maxRows maxObjects =>
      (fun b => (b, w)) <$> BuildSessionDeletionInventory DeletionSample.outside t s maxRows maxObjects (one_state w)
  | StartDeletion t s at_ => StartSessionDeletion DeletionSample.outside true t s at_ (one_state w) w
  | DeleteBlob _ _ => Some (None, w)
  | CompleteDeletion t s at_ objects bytes =>
      CompleteSessionDeletion DeletionSample.outside t s at_ objects bytes (one_state w) w
  end.

Fixpoint run {A} (p : prog A) (w : ldb) : option (list (event ldb) * A * ldb) :=
  match p with
  | Ret a => Some ([], a, w)
  | Call c k =>
      '(b, w1) ← answer w c;
      '(tr, a, w2) ← run (k b) w1;
      Some (observe w c b ++ tr, a, w2)
  end.

Lemma answer_sound {B} w (c : call B) b w' : answer w c = Some (b, w') -> answers w c b w'.
Proof.
  destruct c; cbn; intros H; [by simplify_eq | | by eauto | by simplify_eq | by eauto].
  destruct (BuildSessionDeletionInventory _ _ _ _ _ _) eqn:E; [| done]. cbn in H. simplify_eq.
  eexists _, _. split; [exact E | by intros n q].
Qed.

Lemma run_exec {A} (p : prog A) : forall w tr a w', run p w = Some (tr, a, w') -> exec p w tr a w'.
Proof.
  induction p as [x | B c k IH]; intros w tr a w'; cbn [run exec]; [by intros [= <- <- <-] |].
  destruct (answer w c) as [[b w1] |] eqn:Ha; [| done]. cbn.
  destruct (run (k b) w1) as [[[tr' a'] w2] |] eqn:Hr; [| done]. cbn. intros [= <- <- <-].
  exists w, b, w1, tr'. split_and!; [done | by apply answer_sound | done | by apply IH].
Qed.

Definition from_sum {A B C} (f : A -> C) (g : B -> C) (r : A + B) : C := match r with inl x => f x | inr y => g y end.

Definition service : Service := {| sv_maxRows := 100; sv_maxObjects := 100 |}.
Definition typed : string := from_sum (fun _ => "") id (expectedConfirmation sample_inventory).
Definition outcome : option (list (event ldb) * (error + SessionDeletion) * ldb) :=
  run (Execute service "acme" "s1" typed (DeletionSample.at_ 4)) DeletionSample.requested.
Definition trace : list (event ldb) := default [] (fst ∘ fst <$> outcome).
Definition result : error + SessionDeletion := default (inl ErrSessionLifecycleConflict) (snd ∘ fst <$> outcome).
Definition final : ldb := default DeletionSample.requested (snd <$> outcome).

(** The execution in one evaluation. *)
Definition summary (o : list (event ldb) * (error + SessionDeletion) * ldb) : nat * list (Z * Z) * bool :=
  (length (deletions (fst (fst o))), completions (fst (fst o)), from_sum (fun _ => false) (fun _ => true) (snd (fst o))).

Lemma sample_summary : summary <$> outcome = Some (4%nat, [(4, 14)], true).
Proof. vm_compute. reflexivity. Qed.
End ServiceSample.

Lemma sample_execution :
  exec (Execute ServiceSample.service "acme" "s1" ServiceSample.typed (DeletionSample.at_ 4)) DeletionSample.requested
    ServiceSample.trace ServiceSample.result ServiceSample.final.
Proof.
  apply ServiceSample.run_exec. fold ServiceSample.outcome.
  unfold ServiceSample.trace, ServiceSample.result, ServiceSample.final.
  pose proof ServiceSample.sample_summary as H. by destruct ServiceSample.outcome as [[[tr r] w'] |].
Qed.

Lemma sample_results :
  length (deletions ServiceSample.trace) = 4%nat /\ completions ServiceSample.trace = [(4, 14)] /\
  exists d, ServiceSample.result = inr d.
Proof.
  unfold ServiceSample.trace, ServiceSample.result. pose proof ServiceSample.sample_summary as H.
  destruct ServiceSample.outcome as [[[tr [e | d]] w'] |]; [by injection H | | done].
  injection H as H1 H2. cbn. eauto.
Qed.

Lemma deletion_service_safe_witness :
  length (deletions ServiceSample.trace) = 4%nat /\ completions ServiceSample.trace = [(4, 14)] /\
  Forall (fun d => dl_tenant d = "acme" /\ ~ held (dl_world d) "acme" "s1") (deletions ServiceSample.trace) /\
  nothing_left "acme" "s1" (base ServiceSample.final).
Proof.
  destruct (deletion_service_safe 100 100 ServiceSample.service "acme" "s1" ServiceSample.typed (DeletionSample.at_ 4)
    DeletionSample.requested ServiceSample.trace ServiceSample.result ServiceSample.final
    ltac:(lia) eq_refl sample_requested sample_execution) as [H1 H2].
  destruct sample_results as (Hlen & Hcomp & d & Hd). split; [exact Hlen |]. split; [exact Hcomp |]. split.
  - destruct H1 as [[Hn _] | (wb & inv & seen & wb' & _ & _ & _ & Hf & _)]; [rewrite Hn in Hlen; discriminate Hlen | exact Hf].
  - apply (H2 d Hd).
Defined.
