(* ===== verification/WorkerProtocol.v ===== *)
(** * The attached-worker wire contract
      ([internal/attachedworkerprotocol]: [errors.go], [version.go], [auth.go],
      [manifest.go], [types.go])

    The records a platform and a worker exchange, their validation, the negotiation
    of a version, and the canonical bytes of a capability manifest. *)

From S2P Require Import Prelude GoText Sha256 Json.
#[local] Open Scope Z_scope.

(** ** Byte slices *)

(** A [[]byte]: nil and empty are equal as contents and differ as JSON. *)
Inductive slice := SNil | SBytes (s : string).

#[global] Instance slice_eq_dec : EqDecision slice.
Proof. solve_decision. Defined.

Definition content (s : slice) : string := match s with SNil => "" | SBytes b => b end.

(** [bytes.Equal] *)
Definition bytes_equal (a b : slice) : bool := String.eqb (content a) (content b).

(** [append([]byte(nil), s...)]: nil when there is nothing to copy. *)
Definition copied (s : slice) : slice := if String.eqb (content s) "" then SNil else SBytes (content s).

Definition json_bytes (s : slice) : json :=
  match s with SNil => JNull | SBytes b => JStr (base64 (bytes_of b)) end.

Definition validBytes (value : slice) (size : Z) : bool := len (content value) =? size.

Definition digest_size : Z := 32.
Definition signature_size : Z := 64.
Definition public_key_size : Z := 32.

(** ** Errors *)

Inductive ErrorCode :=
| ErrorMalformedFrame | ErrorFrameTooLarge | ErrorUnsupportedVersion | ErrorProtocolViolation
| ErrorUnauthorized | ErrorConflict | ErrorRetryLater | ErrorCodeOther (s : string).

#[global] Instance ErrorCode_eq_dec : EqDecision ErrorCode.
Proof. solve_decision. Defined.

Definition ErrorCode_text (c : ErrorCode) : string :=
  match c with
  | ErrorMalformedFrame => "malformed_frame" | ErrorFrameTooLarge => "frame_too_large"
  | ErrorUnsupportedVersion => "unsupported_version" | ErrorProtocolViolation => "protocol_violation"
  | ErrorUnauthorized => "unauthorized" | ErrorConflict => "conflict" | ErrorRetryLater => "retry_later"
  | ErrorCodeOther s => s
  end.

Definition ErrorInvalidFrame : ErrorCode := ErrorMalformedFrame.
Definition ErrorInvalidSignature : ErrorCode := ErrorUnauthorized.
Definition ErrorAuthentication : ErrorCode := ErrorUnauthorized.
Definition ErrorInvalidTransition : ErrorCode := ErrorProtocolViolation.
Definition ErrorSequenceMismatch : ErrorCode := ErrorProtocolViolation.
Definition ErrorBindingMismatch : ErrorCode := ErrorConflict.

Record ProtocolError := { pe_Code : ErrorCode; pe_Retryable : bool }.

Definition ProtocolError_Error (err : option ProtocolError) : string :=
  match err with None => ErrorCode_text ErrorInvalidFrame | Some e => ErrorCode_text (pe_Code e) end.

Definition protocolError (code : ErrorCode) : ProtocolError :=
  {| pe_Code := code; pe_Retryable := bool_decide (code = ErrorRetryLater) |}.

(** ** Versions *)

Definition ProtocolVersionV1 : Z := 1.
Definition maxVersionWidth : Z := 8.

Record VersionWindow := { vw_Minimum : Z; vw_Maximum : Z }.
Record VersionOfferV1 := { vo_Window : VersionWindow; vo_Supported : list Z }.

#[global] Instance VersionWindow_eq_dec : EqDecision VersionWindow.
Proof. solve_decision. Defined.
#[global] Instance VersionOfferV1_eq_dec : EqDecision VersionOfferV1.
Proof. solve_decision. Defined.

Definition VersionWindow_Validate (window : VersionWindow) : option ProtocolError :=
  reject (vw_Minimum window =? 0) || (vw_Maximum window <? vw_Minimum window)
         || (wrap_u64 (wrap_u64 (vw_Maximum window - vw_Minimum window) + 1) >? maxVersionWidth)
    with protocolError ErrorUnsupportedVersion ;!
  None.

Fixpoint supported_versions (window : VersionWindow) (previous : Z) (l : list Z) : option ProtocolError :=
  match l with
  | [] => None
  | version :: rest =>
      reject (version <? vw_Minimum window) || (version >? vw_Maximum window) || (version <=? previous)
        with protocolError ErrorUnsupportedVersion ;!
      supported_versions window version rest
  end.

Definition VersionOfferV1_Validate (offer : VersionOfferV1) : option ProtocolError :=
  reject notnil (VersionWindow_Validate (vo_Window offer)) || (Z.of_nat (length (vo_Supported offer)) =? 0)
         || (Z.of_nat (length (vo_Supported offer)) >? maxVersionWidth)
    with protocolError ErrorUnsupportedVersion ;!
  supported_versions (vo_Window offer) 0 (vo_Supported offer).

(** The loop over the implemented versions: zero and duplicates are refused. *)
Fixpoint negotiate_windows (local peer : VersionWindow) (seen : list Z) (selected : Z) (implemented : list Z)
  : ProtocolError + Z :=
  match implemented with
  | [] => if selected =? 0 then inl (protocolError ErrorUnsupportedVersion) else inr selected
  | version :: rest =>
      if (version =? 0) || bool_decide (version ∈ seen) then inl (protocolError ErrorUnsupportedVersion)
      else
        let selected :=
          if (version >=? vw_Minimum local) && (version <=? vw_Maximum local)
             && (version >=? vw_Minimum peer) && (version <=? vw_Maximum peer) && (version >? selected)
          then version else selected in
        negotiate_windows local peer (version :: seen) selected rest
  end.

Definition NegotiateVersion (local peer : VersionWindow) (implemented : list Z) : ProtocolError + Z :=
  if notnil (VersionWindow_Validate local) || notnil (VersionWindow_Validate peer)
     || (Z.of_nat (length implemented) =? 0) || (Z.of_nat (length implemented) >? maxVersionWidth)
  then inl (protocolError ErrorUnsupportedVersion)
  else negotiate_windows local peer [] 0 implemented.

Fixpoint implemented_refused (seen : list Z) (implemented : list Z) : bool :=
  match implemented with
  | [] => false
  | version :: rest => (version =? 0) || bool_decide (version ∈ seen) || implemented_refused (version :: seen) rest
  end.

Definition select_version (peer implemented : list Z) (selected version : Z) : Z :=
  if bool_decide (version ∈ peer) && bool_decide (version ∈ implemented) && (version >? selected)
  then version else selected.

Definition NegotiateOffers (local peer : VersionOfferV1) (implemented : list Z) : ProtocolError + Z :=
  if notnil (VersionOfferV1_Validate local) || notnil (VersionOfferV1_Validate peer)
     || (Z.of_nat (length implemented) =? 0) || (Z.of_nat (length implemented) >? maxVersionWidth)
  then inl (protocolError ErrorUnsupportedVersion)
  else if implemented_refused [] implemented then inl (protocolError ErrorUnsupportedVersion)
  else
    let selected := fold_left (select_version (vo_Supported peer) implemented) (vo_Supported local) 0 in
    if selected =? 0 then inl (protocolError ErrorUnsupportedVersion) else inr selected.

(** ** Identifiers *)

Definition maxOpaqueBytes : Z := 128.

Definition opaque_rune (r : option Z * string) : bool :=
  match fst r with
  | Some c => negb ((c <? 33) || (c >? 126) || (c =? 47) || (c =? 92))
  | None => false
  end.

Definition validOpaque (value : string) : bool :=
  negb (String.eqb value "" || (len value >? maxOpaqueBytes) || negb (utf8_valid value)
        || negb (String.eqb value (trim_space value)))
  && forallb opaque_rune (runes value).

(** ** Authority *)

Inductive Direction := DirectionPlatformToWorker | DirectionWorkerToPlatform | DirectionOther (s : string).

#[global] Instance Direction_eq_dec : EqDecision Direction.
Proof. solve_decision. Defined.

Definition Direction_text (d : Direction) : string :=
  match d with
  | DirectionPlatformToWorker => "platform_to_worker" | DirectionWorkerToPlatform => "worker_to_platform"
  | DirectionOther s => s
  end.

Record AuthContextV1 := {
  au_TenantID : string;
  au_OwnerUserID : string;
  au_WorkerID : string;
  au_IdentityPublicKey : slice;
  au_EnrollmentGeneration : Z;
  au_ConnectionGeneration : Z;
  au_Version : Z;
  au_ChannelBinding : slice }.

Definition AuthContextV1_Validate (auth : AuthContextV1) : option ProtocolError :=
  reject negb (validOpaque (au_TenantID auth)) || negb (validOpaque (au_OwnerUserID auth))
         || negb (validOpaque (au_WorkerID auth))
         || negb (len (content (au_IdentityPublicKey auth)) =? public_key_size)
         || (au_EnrollmentGeneration auth =? 0) || (au_ConnectionGeneration auth =? 0)
         || negb (au_Version auth =? ProtocolVersionV1) || negb (len (content (au_ChannelBinding auth)) =? 32)
    with protocolError ErrorAuthentication ;!
  None.

Definition validDirection (direction : Direction) : bool :=
  bool_decide (direction = DirectionPlatformToWorker) || bool_decide (direction = DirectionWorkerToPlatform).

(** ** Capability manifests *)

Inductive IsolationEvidenceV1 :=
| IsolationProcessBoundary | IsolationFilesystemBoundary | IsolationNetworkBoundary | IsolationEvidenceOther (s : string).

Definition IsolationEvidenceV1_text (e : IsolationEvidenceV1) : string :=
  match e with
  | IsolationProcessBoundary => "process_boundary" | IsolationFilesystemBoundary => "filesystem_boundary"
  | IsolationNetworkBoundary => "network_boundary" | IsolationEvidenceOther s => s
  end.

Inductive ProtocolFeatureV1 :=
| FeatureCancellation | FeatureOutputReceipt | FeatureInlineOutputV2 | FeatureProgress | FeatureReconnect
| FeatureOther (s : string).

#[global] Instance ProtocolFeatureV1_eq_dec : EqDecision ProtocolFeatureV1.
Proof. solve_decision. Defined.

Definition ProtocolFeatureV1_text (f : ProtocolFeatureV1) : string :=
  match f with
  | FeatureCancellation => "cancellation_v1" | FeatureOutputReceipt => "output_receipt_v1"
  | FeatureInlineOutputV2 => "output_inline_v2" | FeatureProgress => "progress_v1"
  | FeatureReconnect => "reconnect_v1" | FeatureOther s => s
  end.

Definition HarnessSurfaceSessionTurn : string := "session_turn_v1".

Record CapabilityManifestV1 := {
  mf_WorkerID : string;
  mf_EnrollmentGeneration : Z;
  mf_Revision : Z;
  mf_ProtocolOffer : VersionOfferV1;
  mf_OperatingSystem : string;
  mf_Architecture : string;
  mf_BuildID : string;
  mf_HarnessName : string;
  mf_HarnessVersion : string;
  mf_HarnessSurface : string;
  mf_HarnessExecutableDigest : slice;
  mf_IsolationEvidence : list IsolationEvidenceV1;
  mf_Features : list ProtocolFeatureV1;
  mf_MaxConcurrentAttempts : Z }.

(** Known texts in strictly ascending order. *)
Fixpoint ascending_texts (known : string -> bool) (previous : string) (l : list string) : option ProtocolError :=
  match l with
  | [] => None
  | text :: rest =>
      reject negb (known text) with protocolError ErrorInvalidFrame ;!
      reject negb (String.eqb previous "") && negb (String.ltb previous text)
        with protocolError ErrorInvalidFrame ;!
      ascending_texts known text rest
  end.

Definition known_isolation (text : string) : bool :=
  String.eqb text "filesystem_boundary" || String.eqb text "network_boundary" || String.eqb text "process_boundary".

Definition known_feature (text : string) : bool :=
  String.eqb text "cancellation_v1" || String.eqb text "output_receipt_v1" || String.eqb text "output_inline_v2"
  || String.eqb text "progress_v1" || String.eqb text "reconnect_v1".

Definition CapabilityManifestV1_Validate (manifest : CapabilityManifestV1) : option ProtocolError :=
  reject negb (validOpaque (mf_WorkerID manifest)) || (mf_EnrollmentGeneration manifest =? 0)
         || (mf_Revision manifest =? 0) || notnil (VersionOfferV1_Validate (mf_ProtocolOffer manifest))
         || negb (validOpaque (mf_OperatingSystem manifest)) || negb (validOpaque (mf_Architecture manifest))
         || negb (validOpaque (mf_BuildID manifest)) || negb (validOpaque (mf_HarnessName manifest))
         || negb (validOpaque (mf_HarnessVersion manifest))
         || negb (String.eqb (mf_HarnessSurface manifest) HarnessSurfaceSessionTurn)
         || negb (validBytes (mf_HarnessExecutableDigest manifest) digest_size)
         || negb (mf_MaxConcurrentAttempts manifest =? 1)
         || (Z.of_nat (length (mf_IsolationEvidence manifest)) =? 0)
         || (Z.of_nat (length (mf_IsolationEvidence manifest)) >? 8)
         || (Z.of_nat (length (mf_Features manifest)) =? 0) || (Z.of_nat (length (mf_Features manifest)) >? 8)
    with protocolError ErrorInvalidFrame ;!
  check ascending_texts known_isolation "" (map IsolationEvidenceV1_text (mf_IsolationEvidence manifest)) ;!
  check ascending_texts known_feature "" (map ProtocolFeatureV1_text (mf_Features manifest)) ;!
  None.

(** *** Canonical bytes: length prefixes and fixed-width big-endian integers *)

Definition appendCanonicalUint32 (destination : string) (value : Z) : string :=
  destination +:+ string_of (be_bytes 4 value).
Definition appendCanonicalUint64 (destination : string) (value : Z) : string :=
  destination +:+ string_of (be_bytes 8 value).
Definition appendCanonicalField (destination value : string) : string :=
  appendCanonicalUint32 destination (wrap_u32 (len value)) +:+ value.

Definition appendVersionOffer (destination : string) (offer : VersionOfferV1) : string :=
  let destination := appendCanonicalUint32 destination (vw_Minimum (vo_Window offer)) in
  let destination := appendCanonicalUint32 destination (vw_Maximum (vo_Window offer)) in
  let destination := appendCanonicalUint32 destination (wrap_u32 (Z.of_nat (length (vo_Supported offer)))) in
  fold_left appendCanonicalUint32 (vo_Supported offer) destination.

Definition manifestDigestDomainV1 : string := "sessionless.attached-worker.capability-manifest.v1".

Definition CanonicalManifestBytesV1 (manifest : CapabilityManifestV1) : ProtocolError + string :=
  match CapabilityManifestV1_Validate manifest with
  | Some e => inl e
  | None =>
      let result := appendCanonicalField "" manifestDigestDomainV1 in
      let result := appendCanonicalField result (mf_WorkerID manifest) in
      let result := appendCanonicalUint64 result (mf_EnrollmentGeneration manifest) in
      let result := appendCanonicalUint64 result (mf_Revision manifest) in
      let result := appendVersionOffer result (mf_ProtocolOffer manifest) in
      let result := appendCanonicalField result (mf_OperatingSystem manifest) in
      let result := appendCanonicalField result (mf_Architecture manifest) in
      let result := appendCanonicalField result (mf_BuildID manifest) in
      let result := appendCanonicalField result (mf_HarnessName manifest) in
      let result := appendCanonicalField result (mf_HarnessVersion manifest) in
      let result := appendCanonicalField result (mf_HarnessSurface manifest) in
      let result := appendCanonicalField result (content (mf_HarnessExecutableDigest manifest)) in
      let result := appendCanonicalUint32 result (mf_MaxConcurrentAttempts manifest) in
      let result := appendCanonicalUint32 result (wrap_u32 (Z.of_nat (length (mf_IsolationEvidence manifest)))) in
      let result := fold_left appendCanonicalField (map IsolationEvidenceV1_text (mf_IsolationEvidence manifest)) result in
      let result := appendCanonicalUint32 result (wrap_u32 (Z.of_nat (length (mf_Features manifest)))) in
      inr (fold_left appendCanonicalField (map ProtocolFeatureV1_text (mf_Features manifest)) result)
  end.

(** [append([]byte(nil), digest[:]...)] of a digest is its 32 bytes. *)
Definition ManifestDigestV1 (manifest : CapabilityManifestV1) : ProtocolError + slice :=
  match CanonicalManifestBytesV1 manifest with
  | inl e => inl e
  | inr canonical => inr (SBytes (sha256 canonical))
  end.

(** ** Messages *)

Definition MaxBatchFrames : Z := 32.
Definition MaxBatchBytes : Z := 65536.
Definition MaxAttemptMessages : Z := 64.
Definition MaxProgressUpdates : Z := 32.

Inductive MessageKind :=
| MessageHello | MessageChallenge | MessageAttach | MessageAttachAccepted | MessageReconnect
| MessageReconnectAccepted | MessageManifest | MessageHeartbeat | MessageLeaseOffer | MessageLeaseClaim
| MessageLeaseAccepted | MessageProgress | MessageCancel | MessageCancelAck | MessageTerminal
| MessageTerminalAck | MessageDrain | MessageDrained | MessageRevoke | MessageRevoked | MessageError
| MessageOther (s : string).

#[global] Instance MessageKind_eq_dec : EqDecision MessageKind.
Proof. solve_decision. Defined.

Definition MessageKind_text (k : MessageKind) : string :=
  match k with
  | MessageHello => "hello" | MessageChallenge => "challenge" | MessageAttach => "attach"
  | MessageAttachAccepted => "attach_accepted" | MessageReconnect => "reconnect"
  | MessageReconnectAccepted => "reconnect_accepted" | MessageManifest => "manifest"
  | MessageHeartbeat => "heartbeat" | MessageLeaseOffer => "lease_offer" | MessageLeaseClaim => "lease_claim"
  | MessageLeaseAccepted => "lease_accepted" | MessageProgress => "progress" | MessageCancel => "cancel"
  | MessageCancelAck => "cancel_ack" | MessageTerminal => "terminal" | MessageTerminalAck => "terminal_ack"
  | MessageDrain => "drain" | MessageDrained => "drained" | MessageRevoke => "revoke"
  | MessageRevoked => "revoked" | MessageError => "error" | MessageOther s => s
  end.

Record HelloV1 := { he_Offer : VersionOfferV1; he_WorkerNonce : slice }.

Record ChallengeV1 := {
  cl_WorkerOffer : VersionOfferV1;
  cl_PlatformOffer : VersionOfferV1;
  cl_SelectedVersion : Z;
  cl_WorkerNonce : slice;
  cl_PlatformNonce : slice }.

Record AttachV1 := {
  at_WorkerOffer : VersionOfferV1;
  at_PlatformOffer : VersionOfferV1;
  at_SelectedVersion : Z;
  at_WorkerNonce : slice;
  at_PlatformNonce : slice;
  at_CapabilityDigest : slice;
  at_Signature : slice }.

Record AttachAcceptedV1 := {
  aa_WorkerOffer : VersionOfferV1;
  aa_PlatformOffer : VersionOfferV1;
  aa_SelectedVersion : Z;
  aa_WorkerNonce : slice;
  aa_PlatformNonce : slice;
  aa_CapabilityDigest : slice }.

Record ManifestV1 := { mn_Manifest : CapabilityManifestV1; mn_Digest : slice; mn_Signature : slice }.
Record HeartbeatV1 := { hb_ObservedAtUnixMicro : Z; hb_Available : bool; hb_ActiveAttempts : Z }.

Record AttemptBindingV1 := {
  ab_RunID : string;
  ab_AttemptID : string;
  ab_LeaseID : string;
  ab_LeaseGeneration : Z;
  ab_FenceToken : string;
  ab_ExpiresAtUnixMicro : Z;
  ab_ContextDigest : slice;
  ab_CapabilityDigest : slice;
  ab_PolicyDigest : slice }.

Record LeaseOfferV1 := { lo_Binding : AttemptBindingV1; lo_AttemptSequence : Z }.
Record LeaseClaimV1 := { lc_Binding : AttemptBindingV1; lc_AttemptSequence : Z }.
Record LeaseAcceptedV1 := { la_Binding : AttemptBindingV1; la_AttemptSequence : Z }.

Inductive ProgressStage := ProgressStarted | ProgressActive | ProgressStageOther (s : string).
Definition ProgressStage_text (s : ProgressStage) : string :=
  match s with ProgressStarted => "started" | ProgressActive => "active" | ProgressStageOther s => s end.

Record ProgressV1 := {
  pr_Binding : AttemptBindingV1; pr_AttemptSequence : Z; pr_ProgressSequence : Z; pr_Stage : ProgressStage }.

Inductive CancelCode := CancelRequested | CancelFenced | CancelCodeOther (s : string).
Definition CancelCode_text (c : CancelCode) : string :=
  match c with CancelRequested => "requested" | CancelFenced => "fenced" | CancelCodeOther s => s end.

Record CancelV1 := {
  ca_Binding : AttemptBindingV1; ca_AttemptSequence : Z; ca_CancelRevision : Z; ca_Code : CancelCode }.
Record CancelAckV1 := { ck_Binding : AttemptBindingV1; ck_AttemptSequence : Z; ck_CancelRevision : Z }.

Inductive TerminalStatus := TerminalSucceeded | TerminalFailed | TerminalCancelled | TerminalStatusOther (s : string).
Definition TerminalStatus_text (s : TerminalStatus) : string :=
  match s with
  | TerminalSucceeded => "succeeded" | TerminalFailed => "failed" | TerminalCancelled => "cancelled"
  | TerminalStatusOther s => s
  end.

Inductive TerminalResult :=
| TerminalResultCompleted | TerminalResultFailed | TerminalResultCancelled | TerminalResultOther (s : string).
Definition TerminalResult_text (r : TerminalResult) : string :=
  match r with
  | TerminalResultCompleted => "completed" | TerminalResultFailed => "failed"
  | TerminalResultCancelled => "cancelled" | TerminalResultOther s => s
  end.

#[global] Instance CancelCode_eq_dec : EqDecision CancelCode.
Proof. solve_decision. Defined.
#[global] Instance TerminalStatus_eq_dec : EqDecision TerminalStatus.
Proof. solve_decision. Defined.
#[global] Instance TerminalResult_eq_dec : EqDecision TerminalResult.
Proof. solve_decision. Defined.

(** The zero values of the string types. *)
Definition no_cancel : CancelCode := CancelCodeOther "".
Definition no_status : TerminalStatus := TerminalStatusOther "".
Definition no_result : TerminalResult := TerminalResultOther "".

Record TerminalV1 := {
  te_Binding : AttemptBindingV1;
  te_AttemptSequence : Z;
  te_TerminalSequence : Z;
  te_Status : TerminalStatus;
  te_Result : TerminalResult;
  te_EvidenceDigest : slice }.

Record TerminalAckV1 := {
  ta_Binding : AttemptBindingV1;
  ta_AttemptSequence : Z;
  ta_TerminalSequence : Z;
  ta_Status : TerminalStatus;
  ta_Result : TerminalResult;
  ta_EvidenceDigest : slice }.

Record DrainV1 := { dr_Revision : Z }.
Record DrainedV1 := { dd_Revision : Z }.
Record RevokeV1 := {
  rv_Revision : Z; rv_NextEnrollmentGeneration : Z; rv_NextConnectionGeneration : Z }.
Record RevokedV1 := {
  rd_Revision : Z; rd_NextEnrollmentGeneration : Z; rd_NextConnectionGeneration : Z }.
Record ErrorV1 := { er_Code : ErrorCode; er_Retryable : bool }.

(** ** Attempts and reconnection ([machine.go], [reconciliation.go]) *)

Inductive AttemptState :=
| AttemptIdle | AttemptOffered | AttemptClaimPending | AttemptClaimed | AttemptCancelRequested
| AttemptCancelAcked | AttemptFenced | AttemptTerminalPending | AttemptTerminalCommitted
| AttemptStateOther (s : string).

#[global] Instance AttemptState_eq_dec : EqDecision AttemptState.
Proof. solve_decision. Defined.

Definition AttemptState_text (s : AttemptState) : string :=
  match s with
  | AttemptIdle => "idle" | AttemptOffered => "offered" | AttemptClaimPending => "claim_pending"
  | AttemptClaimed => "claimed" | AttemptCancelRequested => "cancel_requested"
  | AttemptCancelAcked => "cancel_acked" | AttemptFenced => "fenced"
  | AttemptTerminalPending => "terminal_pending" | AttemptTerminalCommitted => "terminal_committed"
  | AttemptStateOther s => s
  end.

Record ConnectionWatermarksV1 := {
  wm_PlatformSequence : Z; wm_WorkerSequence : Z; wm_PlatformAck : Z; wm_WorkerAck : Z }.

#[global] Instance ConnectionWatermarksV1_eq_dec : EqDecision ConnectionWatermarksV1.
Proof. solve_decision. Defined.

Record AttemptSummaryV1 := {
  as_State : AttemptState;
  as_Binding : AttemptBindingV1;
  as_PlatformSequence : Z;
  as_WorkerSequence : Z;
  as_ProgressSequence : Z;
  as_CancelRevision : Z;
  as_CancelCode : CancelCode;
  as_TerminalSequence : Z;
  as_TerminalStatus : TerminalStatus;
  as_TerminalResult : TerminalResult;
  as_TerminalEvidenceDigest : slice;
  as_Digest : slice }.

Inductive ReconnectTerminalDecision :=
| ReconnectTerminalNone | ReconnectTerminalReplay | ReconnectTerminalDiscard | ReconnectTerminalCommitted
| ReconnectTerminalOther (s : string).

#[global] Instance ReconnectTerminalDecision_eq_dec : EqDecision ReconnectTerminalDecision.
Proof. solve_decision. Defined.

Definition ReconnectTerminalDecision_text (d : ReconnectTerminalDecision) : string :=
  match d with
  | ReconnectTerminalNone => "none" | ReconnectTerminalReplay => "replay" | ReconnectTerminalDiscard => "discard"
  | ReconnectTerminalCommitted => "committed" | ReconnectTerminalOther s => s
  end.

Record ReplayPlanV1 := {
  rp_PlatformEnvelopeAfter : Z;
  rp_WorkerEnvelopeAfter : Z;
  rp_PlatformAttemptAfter : Z;
  rp_WorkerAttemptAfter : Z;
  rp_TerminalDecision : ReconnectTerminalDecision }.

#[global] Instance ReplayPlanV1_eq_dec : EqDecision ReplayPlanV1.
Proof. solve_decision. Defined.

Record ReconnectV1 := {
  rc_WorkerOffer : VersionOfferV1;
  rc_PlatformOffer : VersionOfferV1;
  rc_SelectedVersion : Z;
  rc_PreviousConnectionGeneration : Z;
  rc_WorkerNonce : slice;
  rc_PlatformNonce : slice;
  rc_CapabilityDigest : slice;
  rc_PreviousWatermarks : ConnectionWatermarksV1;
  rc_AttemptSummary : AttemptSummaryV1;
  rc_PendingTerminalReplay : option TerminalV1;
  rc_Signature : slice }.

Record ReconnectAcceptedV1 := {
  ra_WorkerOffer : VersionOfferV1;
  ra_PlatformOffer : VersionOfferV1;
  ra_SelectedVersion : Z;
  ra_WorkerNonce : slice;
  ra_PlatformNonce : slice;
  ra_CapabilityDigest : slice;
  ra_AuthoritativeWatermarks : ConnectionWatermarksV1;
  ra_AuthoritativeAttempt : AttemptSummaryV1;
  ra_AuthoritativePendingTerminalReplay : option TerminalV1;
  ra_ReplayPlan : ReplayPlanV1 }.

(** ** Frames *)

Record FrameV1 := {
  fr_Version : Z;
  fr_MessageID : string;
  fr_WorkerID : string;
  fr_EnrollmentGeneration : Z;
  fr_ConnectionGeneration : Z;
  fr_Sequence : Z;
  fr_Ack : Z;
  fr_Kind : MessageKind;
  fr_Hello : option HelloV1;
  fr_Challenge : option ChallengeV1;
  fr_Attach : option AttachV1;
  fr_AttachAccepted : option AttachAcceptedV1;
  fr_Reconnect : option ReconnectV1;
  fr_ReconnectAccepted : option ReconnectAcceptedV1;
  fr_Manifest : option ManifestV1;
  fr_Heartbeat : option HeartbeatV1;
  fr_LeaseOffer : option LeaseOfferV1;
  fr_LeaseClaim : option LeaseClaimV1;
  fr_LeaseAccepted : option LeaseAcceptedV1;
  fr_Progress : option ProgressV1;
  fr_Cancel : option CancelV1;
  fr_CancelAck : option CancelAckV1;
  fr_Terminal : option TerminalV1;
  fr_TerminalAck : option TerminalAckV1;
  fr_Drain : option DrainV1;
  fr_Drained : option DrainedV1;
  fr_Revoke : option RevokeV1;
  fr_Revoked : option RevokedV1;
  fr_Error : option ErrorV1 }.

Record BatchV1 := { bt_Version : Z; bt_Frames : list FrameV1 }.
