(* ===== verification/WorkerFrames.v ===== *)
(** * Attached-worker frames
      ([internal/attachedworkerprotocol]: [types.go], [machine.go], [reconciliation.go])

    Validation of every message and of frames, their JSON, and the fingerprints
    the protocol compares. *)

From S2P Require Import Prelude GoText Sha256 Json WorkerProtocol.
#[local] Open Scope Z_scope.

Lemma notnil_true {A} (e : option A) : notnil e = true <-> is_Some e.
Proof. destruct e; cbn; split; [eauto | done | done | by intros [? [=]]]. Qed.

#[export] Hint Rewrite @notnil_false @notnil_true : b2p.

Definition invalid_frame : ProtocolError := protocolError ErrorInvalidFrame.

(** ** Messages *)

Definition HelloV1_Validate (m : HelloV1) : option ProtocolError :=
  reject notnil (VersionOfferV1_Validate (he_Offer m)) || negb (validBytes (he_WorkerNonce m) digest_size)
    with invalid_frame ;!
  None.

Definition ChallengeV1_Validate (m : ChallengeV1) : option ProtocolError :=
  reject notnil (VersionOfferV1_Validate (cl_WorkerOffer m)) || notnil (VersionOfferV1_Validate (cl_PlatformOffer m))
         || (cl_SelectedVersion m =? 0) || negb (validBytes (cl_WorkerNonce m) digest_size)
         || negb (validBytes (cl_PlatformNonce m) digest_size)
    with invalid_frame ;!
  None.

Definition versionOfferSupports (offer : VersionOfferV1) (selected : Z) : bool :=
  existsb (fun version => version =? selected) (vo_Supported offer).

Definition validateNegotiationProof (workerOffer platformOffer : VersionOfferV1) (selected : Z)
    (workerNonce platformNonce capabilityDigest : slice) : option ProtocolError :=
  reject notnil (VersionOfferV1_Validate workerOffer) || notnil (VersionOfferV1_Validate platformOffer)
         || (selected =? 0) || negb (versionOfferSupports workerOffer selected)
         || negb (versionOfferSupports platformOffer selected) || negb (validBytes workerNonce digest_size)
         || negb (validBytes platformNonce digest_size) || negb (validBytes capabilityDigest digest_size)
    with invalid_frame ;!
  None.

Definition AttachV1_Validate (m : AttachV1) : option ProtocolError :=
  reject notnil (validateNegotiationProof (at_WorkerOffer m) (at_PlatformOffer m) (at_SelectedVersion m)
                   (at_WorkerNonce m) (at_PlatformNonce m) (at_CapabilityDigest m))
         || negb (validBytes (at_Signature m) signature_size)
    with invalid_frame ;!
  None.

Definition AttachAcceptedV1_Validate (m : AttachAcceptedV1) : option ProtocolError :=
  validateNegotiationProof (aa_WorkerOffer m) (aa_PlatformOffer m) (aa_SelectedVersion m)
    (aa_WorkerNonce m) (aa_PlatformNonce m) (aa_CapabilityDigest m).

Definition ManifestV1_Validate (m : ManifestV1) : option ProtocolError :=
  reject notnil (CapabilityManifestV1_Validate (mn_Manifest m)) || negb (validBytes (mn_Digest m) digest_size)
         || negb (validBytes (mn_Signature m) signature_size)
    with invalid_frame ;!
  None.

Definition HeartbeatV1_Validate (m : HeartbeatV1) : option ProtocolError :=
  reject (hb_ObservedAtUnixMicro m <=? 0) || (hb_ActiveAttempts m >? 1)
         || (hb_Available m && negb (hb_ActiveAttempts m =? 0))
    with invalid_frame ;!
  None.

Definition AttemptBindingV1_Validate (b : AttemptBindingV1) : option ProtocolError :=
  reject negb (validOpaque (ab_RunID b)) || negb (validOpaque (ab_AttemptID b)) || negb (validOpaque (ab_LeaseID b))
         || (ab_LeaseGeneration b =? 0) || negb (validOpaque (ab_FenceToken b)) || (ab_ExpiresAtUnixMicro b <=? 0)
         || negb (validBytes (ab_ContextDigest b) digest_size) || negb (validBytes (ab_CapabilityDigest b) digest_size)
         || negb (validBytes (ab_PolicyDigest b) digest_size)
    with invalid_frame ;!
  None.

Definition validateAttempt (binding : AttemptBindingV1) (sequence : Z) : option ProtocolError :=
  reject notnil (AttemptBindingV1_Validate binding) || (sequence =? 0) || (sequence >? MaxAttemptMessages)
    with invalid_frame ;!
  None.

Definition LeaseOfferV1_Validate (m : LeaseOfferV1) : option ProtocolError :=
  validateAttempt (lo_Binding m) (lo_AttemptSequence m).
Definition LeaseClaimV1_Validate (m : LeaseClaimV1) : option ProtocolError :=
  validateAttempt (lc_Binding m) (lc_AttemptSequence m).
Definition LeaseAcceptedV1_Validate (m : LeaseAcceptedV1) : option ProtocolError :=
  validateAttempt (la_Binding m) (la_AttemptSequence m).

Definition ProgressV1_Validate (m : ProgressV1) : option ProtocolError :=
  reject notnil (validateAttempt (pr_Binding m) (pr_AttemptSequence m)) || (pr_ProgressSequence m =? 0)
         || (pr_ProgressSequence m >? MaxProgressUpdates)
         || match pr_Stage m with ProgressStageOther _ => true | _ => false end
    with invalid_frame ;!
  None.

Definition CancelV1_Validate (m : CancelV1) : option ProtocolError :=
  reject notnil (validateAttempt (ca_Binding m) (ca_AttemptSequence m)) || (ca_CancelRevision m =? 0)
         || negb (bool_decide (ca_Code m = CancelRequested)) && negb (bool_decide (ca_Code m = CancelFenced))
    with invalid_frame ;!
  None.

Definition CancelAckV1_Validate (m : CancelAckV1) : option ProtocolError :=
  reject notnil (validateAttempt (ck_Binding m) (ck_AttemptSequence m)) || (ck_CancelRevision m =? 0)
    with invalid_frame ;!
  None.

Definition validTerminalResult (status : TerminalStatus) (result : TerminalResult) : bool :=
  match status with
  | TerminalSucceeded => bool_decide (result = TerminalResultCompleted)
  | TerminalFailed => bool_decide (result = TerminalResultFailed)
  | TerminalCancelled => bool_decide (result = TerminalResultCancelled)
  | TerminalStatusOther _ => false
  end.

Definition TerminalV1_Validate (m : TerminalV1) : option ProtocolError :=
  reject notnil (validateAttempt (te_Binding m) (te_AttemptSequence m)) || (te_TerminalSequence m =? 0)
         || negb (validTerminalResult (te_Status m) (te_Result m)) || negb (validBytes (te_EvidenceDigest m) digest_size)
    with invalid_frame ;!
  None.

Definition TerminalAckV1_Validate (m : TerminalAckV1) : option ProtocolError :=
  reject notnil (validateAttempt (ta_Binding m) (ta_AttemptSequence m)) || (ta_TerminalSequence m =? 0)
         || negb (validTerminalResult (ta_Status m) (ta_Result m)) || negb (validBytes (ta_EvidenceDigest m) digest_size)
    with invalid_frame ;!
  None.

Definition DrainV1_Validate (m : DrainV1) : option ProtocolError :=
  reject dr_Revision m =? 0 with invalid_frame ;! None.
Definition DrainedV1_Validate (m : DrainedV1) : option ProtocolError :=
  DrainV1_Validate {| dr_Revision := dd_Revision m |}.

Definition RevokeV1_Validate (m : RevokeV1) : option ProtocolError :=
  reject (rv_Revision m =? 0) || (rv_NextEnrollmentGeneration m =? 0) || (rv_NextConnectionGeneration m =? 0)
    with invalid_frame ;!
  None.
Definition revoke_of (m : RevokedV1) : RevokeV1 :=
  {| rv_Revision := rd_Revision m; rv_NextEnrollmentGeneration := rd_NextEnrollmentGeneration m;
     rv_NextConnectionGeneration := rd_NextConnectionGeneration m |}.
Definition RevokedV1_Validate (m : RevokedV1) : option ProtocolError := RevokeV1_Validate (revoke_of m).

Definition ErrorV1_Validate (m : ErrorV1) : option ProtocolError :=
  match er_Code m with
  | ErrorCodeOther _ => Some invalid_frame
  | code => reject negb (Bool.eqb (er_Retryable m) (bool_decide (code = ErrorRetryLater))) with invalid_frame ;! None
  end.

(** ** Bindings *)

Definition cloneBytesPreservingNil (value : slice) : slice :=
  match value with SNil => SNil | SBytes b => SBytes b end.

Definition cloneBinding (value : AttemptBindingV1) : AttemptBindingV1 :=
  {| value with
     ab_ContextDigest := cloneBytesPreservingNil (ab_ContextDigest value);
     ab_CapabilityDigest := cloneBytesPreservingNil (ab_CapabilityDigest value);
     ab_PolicyDigest := cloneBytesPreservingNil (ab_PolicyDigest value) |}.

Definition sameAttemptBinding (left right : AttemptBindingV1) : bool :=
  String.eqb (ab_RunID left) (ab_RunID right) && String.eqb (ab_AttemptID left) (ab_AttemptID right)
  && String.eqb (ab_LeaseID left) (ab_LeaseID right) && (ab_LeaseGeneration left =? ab_LeaseGeneration right)
  && String.eqb (ab_FenceToken left) (ab_FenceToken right)
  && (ab_ExpiresAtUnixMicro left =? ab_ExpiresAtUnixMicro right)
  && bytes_equal (ab_ContextDigest left) (ab_ContextDigest right)
  && bytes_equal (ab_CapabilityDigest left) (ab_CapabilityDigest right)
  && bytes_equal (ab_PolicyDigest left) (ab_PolicyDigest right).

Definition attemptBindingIsZero (binding : AttemptBindingV1) : bool :=
  String.eqb (ab_RunID binding) "" && String.eqb (ab_AttemptID binding) "" && String.eqb (ab_LeaseID binding) ""
  && (ab_LeaseGeneration binding =? 0) && String.eqb (ab_FenceToken binding) ""
  && (ab_ExpiresAtUnixMicro binding =? 0) && (len (content (ab_ContextDigest binding)) =? 0)
  && (len (content (ab_CapabilityDigest binding)) =? 0) && (len (content (ab_PolicyDigest binding)) =? 0).

Definition cloneTerminal (terminal : option TerminalV1) : option TerminalV1 :=
  match terminal with
  | None => None
  | Some t => Some {| t with te_Binding := cloneBinding (te_Binding t);
                             te_EvidenceDigest := copied (te_EvidenceDigest t) |}
  end.

Definition sameTerminal (left right : TerminalV1) : bool :=
  sameAttemptBinding (te_Binding left) (te_Binding right) && (te_AttemptSequence left =? te_AttemptSequence right)
  && (te_TerminalSequence left =? te_TerminalSequence right) && bool_decide (te_Status left = te_Status right)
  && bool_decide (te_Result left = te_Result right) && bytes_equal (te_EvidenceDigest left) (te_EvidenceDigest right).

(** ** Connection watermarks and attempt summaries *)

Definition malformed_frame : ProtocolError := protocolError ErrorMalformedFrame.

Definition ConnectionWatermarksV1_Validate (w : ConnectionWatermarksV1) : option ProtocolError :=
  reject (wm_PlatformAck w >? wm_WorkerSequence w) || (wm_WorkerAck w >? wm_PlatformSequence w)
    with malformed_frame ;!
  None.

Definition appendWatermarks (destination : string) (w : ConnectionWatermarksV1) : string :=
  let destination := appendCanonicalUint64 destination (wm_PlatformSequence w) in
  let destination := appendCanonicalUint64 destination (wm_WorkerSequence w) in
  let destination := appendCanonicalUint64 destination (wm_PlatformAck w) in
  appendCanonicalUint64 destination (wm_WorkerAck w).

Definition attemptSummaryDomainV1 : string := "sessionless.attached-worker.attempt-summary.v1".

Definition attemptSummaryDigestV1 (s : AttemptSummaryV1) : slice :=
  let b := as_Binding s in
  let result := appendCanonicalField "" attemptSummaryDomainV1 in
  let result := appendCanonicalField result (AttemptState_text (as_State s)) in
  let result := appendCanonicalField result (ab_RunID b) in
  let result := appendCanonicalField result (ab_AttemptID b) in
  let result := appendCanonicalField result (ab_LeaseID b) in
  let result := appendCanonicalUint64 result (ab_LeaseGeneration b) in
  let result := appendCanonicalField result (ab_FenceToken b) in
  let result := appendCanonicalUint64 result (wrap_u64 (ab_ExpiresAtUnixMicro b)) in
  let result := appendCanonicalField result (content (ab_ContextDigest b)) in
  let result := appendCanonicalField result (content (ab_CapabilityDigest b)) in
  let result := appendCanonicalField result (content (ab_PolicyDigest b)) in
  let result := appendCanonicalUint64 result (as_PlatformSequence s) in
  let result := appendCanonicalUint64 result (as_WorkerSequence s) in
  let result := appendCanonicalUint64 result (as_ProgressSequence s) in
  let result := appendCanonicalUint64 result (as_CancelRevision s) in
  let result := appendCanonicalField result (CancelCode_text (as_CancelCode s)) in
  let result := appendCanonicalUint64 result (as_TerminalSequence s) in
  let result := appendCanonicalField result (TerminalStatus_text (as_TerminalStatus s)) in
  let result := appendCanonicalField result (TerminalResult_text (as_TerminalResult s)) in
  let result := appendCanonicalField result (content (as_TerminalEvidenceDigest s)) in
  SBytes (sha256 result).

(** [AttemptSummaryV1.Validate], in the order of its blocks. *)
Definition summary_bounds (s : AttemptSummaryV1) : option ProtocolError :=
  reject (as_PlatformSequence s >? MaxAttemptMessages) || (as_WorkerSequence s >? MaxAttemptMessages)
         || (as_ProgressSequence s >? MaxProgressUpdates) || negb (validBytes (as_Digest s) digest_size)
    with malformed_frame ;!
  None.

Definition summary_binding (s : AttemptSummaryV1) : option ProtocolError :=
  if bool_decide (as_State s = AttemptIdle) then
    reject negb (as_PlatformSequence s =? 0) || negb (as_WorkerSequence s =? 0) || negb (as_ProgressSequence s =? 0)
           || negb (as_CancelRevision s =? 0) || negb (bool_decide (as_CancelCode s = no_cancel))
           || negb (as_TerminalSequence s =? 0) || negb (bool_decide (as_TerminalStatus s = no_status))
           || negb (bool_decide (as_TerminalResult s = no_result))
           || negb (len (content (as_TerminalEvidenceDigest s)) =? 0)
      with malformed_frame ;!
    reject negb (attemptBindingIsZero (as_Binding s)) with malformed_frame ;!
    None
  else
    reject notnil (AttemptBindingV1_Validate (as_Binding s)) with malformed_frame ;!
    None.

Definition summary_cancel (s : AttemptSummaryV1) : option ProtocolError :=
  if as_CancelRevision s =? 0 then
    reject negb (bool_decide (as_CancelCode s = no_cancel)) with malformed_frame ;! None
  else
    reject negb (bool_decide (as_CancelCode s = CancelRequested)) && negb (bool_decide (as_CancelCode s = CancelFenced))
      with malformed_frame ;!
    None.

Definition summary_terminal (s : AttemptSummaryV1) : option ProtocolError :=
  if as_TerminalSequence s =? 0 then
    reject negb (bool_decide (as_TerminalStatus s = no_status)) || negb (bool_decide (as_TerminalResult s = no_result))
           || negb (len (content (as_TerminalEvidenceDigest s)) =? 0)
      with malformed_frame ;!
    None
  else
    reject negb (validTerminalResult (as_TerminalStatus s) (as_TerminalResult s))
           || negb (validBytes (as_TerminalEvidenceDigest s) digest_size)
      with malformed_frame ;!
    None.

Definition summary_fence (s : AttemptSummaryV1) : option ProtocolError :=
  reject bool_decide (as_CancelCode s = CancelFenced) && negb (as_TerminalSequence s =? 0)
         && negb (bool_decide (as_TerminalStatus s = TerminalCancelled))
    with malformed_frame ;!
  None.

Definition summary_state (s : AttemptSummaryV1) : option ProtocolError :=
  match as_State s with
  | AttemptIdle => None
  | AttemptOffered => reject as_PlatformSequence s <? 1 with malformed_frame ;! None
  | AttemptClaimPending =>
      reject (as_PlatformSequence s <? 1) || (as_WorkerSequence s <? 1) with malformed_frame ;! None
  | AttemptClaimed =>
      reject (as_PlatformSequence s <? 2) || (as_WorkerSequence s <? 1) with malformed_frame ;! None
  | AttemptCancelRequested | AttemptCancelAcked | AttemptFenced =>
      reject negb (as_CancelRevision s =? 1) with malformed_frame ;! None
  | AttemptTerminalPending | AttemptTerminalCommitted =>
      reject negb (as_TerminalSequence s =? 1) with malformed_frame ;! None
  | AttemptStateOther _ => Some malformed_frame
  end.

Definition AttemptSummaryV1_Validate (s : AttemptSummaryV1) : option ProtocolError :=
  check summary_bounds s ;!
  check summary_binding s ;!
  check summary_cancel s ;!
  check summary_terminal s ;!
  check summary_fence s ;!
  check summary_state s ;!
  reject negb (bytes_equal (attemptSummaryDigestV1 s) (as_Digest s)) with malformed_frame ;!
  None.

Definition ReplayPlanV1_Validate (plan : ReplayPlanV1) : option ProtocolError :=
  reject (rp_PlatformAttemptAfter plan >? MaxAttemptMessages) || (rp_WorkerAttemptAfter plan >? MaxAttemptMessages)
    with malformed_frame ;!
  match rp_TerminalDecision plan with
  | ReconnectTerminalOther _ => Some malformed_frame
  | _ => None
  end.

Definition validatePendingTerminal (terminal : option TerminalV1) (summary : AttemptSummaryV1) : option ProtocolError :=
  match terminal with
  | None => None
  | Some t =>
      reject notnil (TerminalV1_Validate t) || negb (sameAttemptBinding (te_Binding t) (as_Binding summary))
        with malformed_frame ;!
      None
  end.

Definition ReconnectV1_Validate (m : ReconnectV1) : option ProtocolError :=
  reject (rc_PreviousConnectionGeneration m =? 0)
         || notnil (validateNegotiationProof (rc_WorkerOffer m) (rc_PlatformOffer m) (rc_SelectedVersion m)
                      (rc_WorkerNonce m) (rc_PlatformNonce m) (rc_CapabilityDigest m))
         || notnil (ConnectionWatermarksV1_Validate (rc_PreviousWatermarks m))
         || notnil (AttemptSummaryV1_Validate (rc_AttemptSummary m))
         || notnil (validatePendingTerminal (rc_PendingTerminalReplay m) (rc_AttemptSummary m))
         || negb (validBytes (rc_Signature m) signature_size)
    with invalid_frame ;!
  None.

Definition ReconnectAcceptedV1_Validate (m : ReconnectAcceptedV1) : option ProtocolError :=
  reject notnil (validateNegotiationProof (ra_WorkerOffer m) (ra_PlatformOffer m) (ra_SelectedVersion m)
                   (ra_WorkerNonce m) (ra_PlatformNonce m) (ra_CapabilityDigest m))
         || notnil (ConnectionWatermarksV1_Validate (ra_AuthoritativeWatermarks m))
         || notnil (AttemptSummaryV1_Validate (ra_AuthoritativeAttempt m))
         || notnil (validatePendingTerminal (ra_AuthoritativePendingTerminalReplay m) (ra_AuthoritativeAttempt m))
         || notnil (ReplayPlanV1_Validate (ra_ReplayPlan m))
    with malformed_frame ;!
  None.

(** ** Frames *)

Definition validateFrameCommon (frame : FrameV1) : option ProtocolError :=
  reject negb (fr_Version frame =? ProtocolVersionV1) || negb (validOpaque (fr_MessageID frame))
         || negb (validOpaque (fr_WorkerID frame)) || (fr_EnrollmentGeneration frame =? 0)
         || (fr_ConnectionGeneration frame =? 0) || (fr_Sequence frame =? 0)
    with invalid_frame ;!
  None.

(** One payload: whether it is present, and the error of its check. *)
Definition payload_check {A} (frame : FrameV1) (kind : MessageKind) (payload : option A)
    (validate : A -> option ProtocolError) : bool * option ProtocolError :=
  match payload with
  | None => (false, None)
  | Some p =>
      (true, reject negb (bool_decide (fr_Kind frame = kind)) || notnil (validate p) with invalid_frame ;! None)
  end.

Definition frame_checks (frame : FrameV1) : list (bool * option ProtocolError) :=
  [ payload_check frame MessageHello (fr_Hello frame) HelloV1_Validate;
    payload_check frame MessageChallenge (fr_Challenge frame) ChallengeV1_Validate;
    payload_check frame MessageAttach (fr_Attach frame) AttachV1_Validate;
    payload_check frame MessageAttachAccepted (fr_AttachAccepted frame) AttachAcceptedV1_Validate;
    payload_check frame MessageReconnect (fr_Reconnect frame) ReconnectV1_Validate;
    payload_check frame MessageReconnectAccepted (fr_ReconnectAccepted frame) ReconnectAcceptedV1_Validate;
    payload_check frame MessageManifest (fr_Manifest frame) ManifestV1_Validate;
    payload_check frame MessageHeartbeat (fr_Heartbeat frame) HeartbeatV1_Validate;
    payload_check frame MessageLeaseOffer (fr_LeaseOffer frame) LeaseOfferV1_Validate;
    payload_check frame MessageLeaseClaim (fr_LeaseClaim frame) LeaseClaimV1_Validate;
    payload_check frame MessageLeaseAccepted (fr_LeaseAccepted frame) LeaseAcceptedV1_Validate;
    payload_check frame MessageProgress (fr_Progress frame) ProgressV1_Validate;
    payload_check frame MessageCancel (fr_Cancel frame) CancelV1_Validate;
    payload_check frame MessageCancelAck (fr_CancelAck frame) CancelAckV1_Validate;
    payload_check frame MessageTerminal (fr_Terminal frame) TerminalV1_Validate;
    payload_check frame MessageTerminalAck (fr_TerminalAck frame) TerminalAckV1_Validate;
    payload_check frame MessageDrain (fr_Drain frame) DrainV1_Validate;
    payload_check frame MessageDrained (fr_Drained frame) DrainedV1_Validate;
    payload_check frame MessageRevoke (fr_Revoke frame) RevokeV1_Validate;
    payload_check frame MessageRevoked (fr_Revoked frame) RevokedV1_Validate;
    payload_check frame MessageError (fr_Error frame) ErrorV1_Validate ].

Fixpoint first_error (l : list (bool * option ProtocolError)) : option ProtocolError :=
  match l with
  | [] => None
  | (_, Some e) :: _ => Some e
  | (_, None) :: rest => first_error rest
  end.

Definition payloads (l : list (bool * option ProtocolError)) : Z :=
  Z.of_nat (length (filter (fun c => fst c = true) l)).

Definition FrameV1_Validate (frame : FrameV1) : option ProtocolError :=
  reject notnil (validateFrameCommon frame) with invalid_frame ;!
  check first_error (frame_checks frame) ;!
  reject negb (payloads (frame_checks frame) =? 1) with invalid_frame ;!
  None.

Fixpoint frames_validate (frames : list FrameV1) : option ProtocolError :=
  match frames with
  | [] => None
  | frame :: rest => check FrameV1_Validate frame ;! frames_validate rest
  end.

Definition BatchV1_Validate (batch : BatchV1) : option ProtocolError :=
  reject negb (bt_Version batch =? ProtocolVersionV1) || (Z.of_nat (length (bt_Frames batch)) =? 0)
         || (Z.of_nat (length (bt_Frames batch)) >? MaxBatchFrames)
    with invalid_frame ;!
  frames_validate (bt_Frames batch).

(** ** JSON, in the order of the struct fields

    The version and manifest lists are not empty in a frame that validates, so
    they are never encoded as null. *)

Definition json_window (w : VersionWindow) : json :=
  JObj [("minimum", JNum (vw_Minimum w)); ("maximum", JNum (vw_Maximum w))].
Definition json_offer (o : VersionOfferV1) : json :=
  JObj [("window", json_window (vo_Window o)); ("supported", JArr (map JNum (vo_Supported o)))].

Definition json_hello (m : HelloV1) : json :=
  JObj [("offer", json_offer (he_Offer m)); ("worker_nonce", json_bytes (he_WorkerNonce m))].

Definition json_challenge (m : ChallengeV1) : json :=
  JObj [("worker_offer", json_offer (cl_WorkerOffer m)); ("platform_offer", json_offer (cl_PlatformOffer m));
        ("selected_version", JNum (cl_SelectedVersion m)); ("worker_nonce", json_bytes (cl_WorkerNonce m));
        ("platform_nonce", json_bytes (cl_PlatformNonce m))].

Definition json_attach (m : AttachV1) : json :=
  JObj [("worker_offer", json_offer (at_WorkerOffer m)); ("platform_offer", json_offer (at_PlatformOffer m));
        ("selected_version", JNum (at_SelectedVersion m)); ("worker_nonce", json_bytes (at_WorkerNonce m));
        ("platform_nonce", json_bytes (at_PlatformNonce m));
        ("capability_digest", json_bytes (at_CapabilityDigest m)); ("signature", json_bytes (at_Signature m))].

Definition json_attach_accepted (m : AttachAcceptedV1) : json :=
  JObj [("worker_offer", json_offer (aa_WorkerOffer m)); ("platform_offer", json_offer (aa_PlatformOffer m));
        ("selected_version", JNum (aa_SelectedVersion m)); ("worker_nonce", json_bytes (aa_WorkerNonce m));
        ("platform_nonce", json_bytes (aa_PlatformNonce m));
        ("capability_digest", json_bytes (aa_CapabilityDigest m))].

Definition json_capability_manifest (m : CapabilityManifestV1) : json :=
  JObj [("worker_id", JStr (mf_WorkerID m)); ("enrollment_generation", JNum (mf_EnrollmentGeneration m));
        ("revision", JNum (mf_Revision m)); ("protocol_offer", json_offer (mf_ProtocolOffer m));
        ("operating_system", JStr (mf_OperatingSystem m)); ("architecture", JStr (mf_Architecture m));
        ("build_id", JStr (mf_BuildID m)); ("harness_name", JStr (mf_HarnessName m));
        ("harness_version", JStr (mf_HarnessVersion m)); ("harness_surface", JStr (mf_HarnessSurface m));
        ("harness_executable_digest", json_bytes (mf_HarnessExecutableDigest m));
        ("isolation_evidence", JArr (map (fun e => JStr (IsolationEvidenceV1_text e)) (mf_IsolationEvidence m)));
        ("features", JArr (map (fun f => JStr (ProtocolFeatureV1_text f)) (mf_Features m)));
        ("max_concurrent_attempts", JNum (mf_MaxConcurrentAttempts m))].

Definition json_manifest (m : ManifestV1) : json :=
  JObj [("manifest", json_capability_manifest (mn_Manifest m)); ("digest", json_bytes (mn_Digest m));
        ("signature", json_bytes (mn_Signature m))].

Definition json_heartbeat (m : HeartbeatV1) : json :=
  JObj [("observed_at_unix_micro", JNum (hb_ObservedAtUnixMicro m)); ("available", JBool (hb_Available m));
        ("active_attempts", JNum (hb_ActiveAttempts m))].

Definition json_binding (b : AttemptBindingV1) : json :=
  JObj [("run_id", JStr (ab_RunID b)); ("attempt_id", JStr (ab_AttemptID b)); ("lease_id", JStr (ab_LeaseID b));
        ("lease_generation", JNum (ab_LeaseGeneration b)); ("fence_token", JStr (ab_FenceToken b));
        ("expires_at_unix_micro", JNum (ab_ExpiresAtUnixMicro b));
        ("context_digest", json_bytes (ab_ContextDigest b)); ("capability_digest", json_bytes (ab_CapabilityDigest b));
        ("policy_digest", json_bytes (ab_PolicyDigest b))].

Definition json_attempt (binding : AttemptBindingV1) (sequence : Z) (rest : list (string * json)) : json :=
  JObj (("binding", json_binding binding) :: ("attempt_sequence", JNum sequence) :: rest).

Definition json_lease_offer (m : LeaseOfferV1) : json := json_attempt (lo_Binding m) (lo_AttemptSequence m) [].
Definition json_lease_claim (m : LeaseClaimV1) : json := json_attempt (lc_Binding m) (lc_AttemptSequence m) [].
Definition json_lease_accepted (m : LeaseAcceptedV1) : json := json_attempt (la_Binding m) (la_AttemptSequence m) [].
Definition json_progress (m : ProgressV1) : json :=
  json_attempt (pr_Binding m) (pr_AttemptSequence m)
    [("progress_sequence", JNum (pr_ProgressSequence m)); ("stage", JStr (ProgressStage_text (pr_Stage m)))].
Definition json_cancel (m : CancelV1) : json :=
  json_attempt (ca_Binding m) (ca_AttemptSequence m)
    [("cancel_revision", JNum (ca_CancelRevision m)); ("code", JStr (CancelCode_text (ca_Code m)))].
Definition json_cancel_ack (m : CancelAckV1) : json :=
  json_attempt (ck_Binding m) (ck_AttemptSequence m) [("cancel_revision", JNum (ck_CancelRevision m))].
Definition json_terminal (m : TerminalV1) : json :=
  json_attempt (te_Binding m) (te_AttemptSequence m)
    [("terminal_sequence", JNum (te_TerminalSequence m)); ("status", JStr (TerminalStatus_text (te_Status m)));
     ("result", JStr (TerminalResult_text (te_Result m))); ("evidence_digest", json_bytes (te_EvidenceDigest m))].
Definition json_terminal_ack (m : TerminalAckV1) : json :=
  json_attempt (ta_Binding m) (ta_AttemptSequence m)
    [("terminal_sequence", JNum (ta_TerminalSequence m)); ("status", JStr (TerminalStatus_text (ta_Status m)));
     ("result", JStr (TerminalResult_text (ta_Result m))); ("evidence_digest", json_bytes (ta_EvidenceDigest m))].

Definition json_drain (m : DrainV1) : json := JObj [("revision", JNum (dr_Revision m))].
Definition json_drained (m : DrainedV1) : json := JObj [("revision", JNum (dd_Revision m))].
Definition json_revoke (m : RevokeV1) : json :=
  JObj [("revision", JNum (rv_Revision m)); ("next_enrollment_generation", JNum (rv_NextEnrollmentGeneration m));
        ("next_connection_generation", JNum (rv_NextConnectionGeneration m))].
Definition json_revoked (m : RevokedV1) : json := json_revoke (revoke_of m).
Definition json_error (m : ErrorV1) : json :=
  JObj [("code", JStr (ErrorCode_text (er_Code m))); ("retryable", JBool (er_Retryable m))].

Definition json_watermarks (w : ConnectionWatermarksV1) : json :=
  JObj [("platform_sequence", JNum (wm_PlatformSequence w)); ("worker_sequence", JNum (wm_WorkerSequence w));
        ("platform_ack", JNum (wm_PlatformAck w)); ("worker_ack", JNum (wm_WorkerAck w))].

Definition json_summary (s : AttemptSummaryV1) : json :=
  JObj [("state", JStr (AttemptState_text (as_State s))); ("binding", json_binding (as_Binding s));
        ("platform_sequence", JNum (as_PlatformSequence s)); ("worker_sequence", JNum (as_WorkerSequence s));
        ("progress_sequence", JNum (as_ProgressSequence s)); ("cancel_revision", JNum (as_CancelRevision s));
        ("cancel_code", JStr (CancelCode_text (as_CancelCode s)));
        ("terminal_sequence", JNum (as_TerminalSequence s));
        ("terminal_status", JStr (TerminalStatus_text (as_TerminalStatus s)));
        ("terminal_result", JStr (TerminalResult_text (as_TerminalResult s)));
        ("terminal_evidence_digest", json_bytes (as_TerminalEvidenceDigest s)); ("digest", json_bytes (as_Digest s))].

Definition json_plan (p : ReplayPlanV1) : json :=
  JObj [("platform_envelope_after", JNum (rp_PlatformEnvelopeAfter p));
        ("worker_envelope_after", JNum (rp_WorkerEnvelopeAfter p));
        ("platform_attempt_after", JNum (rp_PlatformAttemptAfter p));
        ("worker_attempt_after", JNum (rp_WorkerAttemptAfter p));
        ("terminal_decision", JStr (ReconnectTerminalDecision_text (rp_TerminalDecision p)))].

Definition json_reconnect (m : ReconnectV1) : json :=
  JObj ([("worker_offer", json_offer (rc_WorkerOffer m)); ("platform_offer", json_offer (rc_PlatformOffer m));
         ("selected_version", JNum (rc_SelectedVersion m));
         ("previous_connection_generation", JNum (rc_PreviousConnectionGeneration m));
         ("worker_nonce", json_bytes (rc_WorkerNonce m)); ("platform_nonce", json_bytes (rc_PlatformNonce m));
         ("capability_digest", json_bytes (rc_CapabilityDigest m));
         ("previous_watermarks", json_watermarks (rc_PreviousWatermarks m));
         ("attempt_summary", json_summary (rc_AttemptSummary m))]
        ++ omitempty "pending_terminal_replay" json_terminal (rc_PendingTerminalReplay m)
        ++ [("signature", json_bytes (rc_Signature m))]).

Definition json_reconnect_accepted (m : ReconnectAcceptedV1) : json :=
  JObj ([("worker_offer", json_offer (ra_WorkerOffer m)); ("platform_offer", json_offer (ra_PlatformOffer m));
         ("selected_version", JNum (ra_SelectedVersion m)); ("worker_nonce", json_bytes (ra_WorkerNonce m));
         ("platform_nonce", json_bytes (ra_PlatformNonce m));
         ("capability_digest", json_bytes (ra_CapabilityDigest m));
         ("authoritative_watermarks", json_watermarks (ra_AuthoritativeWatermarks m));
         ("authoritative_attempt", json_summary (ra_AuthoritativeAttempt m))]
        ++ omitempty "authoritative_pending_terminal_replay" json_terminal (ra_AuthoritativePendingTerminalReplay m)
        ++ [("replay_plan", json_plan (ra_ReplayPlan m))]).

Definition json_frame (f : FrameV1) : json :=
  JObj ([("version", JNum (fr_Version f)); ("message_id", JStr (fr_MessageID f)); ("worker_id", JStr (fr_WorkerID f));
         ("enrollment_generation", JNum (fr_EnrollmentGeneration f));
         ("connection_generation", JNum (fr_ConnectionGeneration f)); ("sequence", JNum (fr_Sequence f));
         ("ack", JNum (fr_Ack f)); ("kind", JStr (MessageKind_text (fr_Kind f)))]
        ++ omitempty "hello" json_hello (fr_Hello f) ++ omitempty "challenge" json_challenge (fr_Challenge f)
        ++ omitempty "attach" json_attach (fr_Attach f)
        ++ omitempty "attach_accepted" json_attach_accepted (fr_AttachAccepted f)
        ++ omitempty "reconnect" json_reconnect (fr_Reconnect f)
        ++ omitempty "reconnect_accepted" json_reconnect_accepted (fr_ReconnectAccepted f)
        ++ omitempty "manifest" json_manifest (fr_Manifest f) ++ omitempty "heartbeat" json_heartbeat (fr_Heartbeat f)
        ++ omitempty "lease_offer" json_lease_offer (fr_LeaseOffer f)
        ++ omitempty "lease_claim" json_lease_claim (fr_LeaseClaim f)
        ++ omitempty "lease_accepted" json_lease_accepted (fr_LeaseAccepted f)
        ++ omitempty "progress" json_progress (fr_Progress f) ++ omitempty "cancel" json_cancel (fr_Cancel f)
        ++ omitempty "cancel_ack" json_cancel_ack (fr_CancelAck f) ++ omitempty "terminal" json_terminal (fr_Terminal f)
        ++ omitempty "terminal_ack" json_terminal_ack (fr_TerminalAck f) ++ omitempty "drain" json_drain (fr_Drain f)
        ++ omitempty "drained" json_drained (fr_Drained f) ++ omitempty "revoke" json_revoke (fr_Revoke f)
        ++ omitempty "revoked" json_revoked (fr_Revoked f) ++ omitempty "error" json_error (fr_Error f)).

(** ** Fingerprints *)

Definition frameFingerprint (frame : FrameV1) : string := sha256 (marshal (json_frame frame)).

(** The payload an attempt message carries; a nil pointer is encoded as null. *)
Definition json_pointer {A} (enc : A -> json) (p : option A) : json :=
  match p with Some v => enc v | None => JNull end.

Definition attempt_payload_json (frame : FrameV1) : json :=
  match fr_Kind frame with
  | MessageLeaseOffer => json_pointer json_lease_offer (fr_LeaseOffer frame)
  | MessageLeaseClaim => json_pointer json_lease_claim (fr_LeaseClaim frame)
  | MessageLeaseAccepted => json_pointer json_lease_accepted (fr_LeaseAccepted frame)
  | MessageProgress => json_pointer json_progress (fr_Progress frame)
  | MessageCancel => json_pointer json_cancel (fr_Cancel frame)
  | MessageCancelAck => json_pointer json_cancel_ack (fr_CancelAck frame)
  | MessageTerminal => json_pointer json_terminal (fr_Terminal frame)
  | MessageTerminalAck => json_pointer json_terminal_ack (fr_TerminalAck frame)
  | _ => JNull
  end.

Definition attemptFingerprint (frame : FrameV1) : string :=
  sha256 (marshal (JObj [("kind", JStr (MessageKind_text (fr_Kind frame))); ("payload", attempt_payload_json frame)])).

(** [FrameV1{Kind: MessageTerminal, Terminal: terminal}] *)
Definition terminal_frame (terminal : option TerminalV1) : FrameV1 :=
  {| fr_Version := 0; fr_MessageID := ""; fr_WorkerID := ""; fr_EnrollmentGeneration := 0;
     fr_ConnectionGeneration := 0; fr_Sequence := 0; fr_Ack := 0; fr_Kind := MessageTerminal;
     fr_Hello := None; fr_Challenge := None; fr_Attach := None; fr_AttachAccepted := None; fr_Reconnect := None;
     fr_ReconnectAccepted := None; fr_Manifest := None; fr_Heartbeat := None; fr_LeaseOffer := None;
     fr_LeaseClaim := None; fr_LeaseAccepted := None; fr_Progress := None; fr_Cancel := None; fr_CancelAck := None;
     fr_Terminal := terminal; fr_TerminalAck := None; fr_Drain := None; fr_Drained := None; fr_Revoke := None;
     fr_Revoked := None; fr_Error := None |}.

Definition pendingTerminalDigestV1 (terminal : option TerminalV1) : slice :=
  match terminal with
  | None => SNil
  | Some _ => SBytes (attemptFingerprint (terminal_frame terminal))
  end.

(** ** What a valid frame carries *)

Lemma first_error_none l c : first_error l = None -> c ∈ l -> snd c = None.
Proof.
  induction l as [| [b [e |]] l IH]; cbn; intros H Hin; [by apply elem_of_nil in Hin | done |].
  apply elem_of_cons in Hin as [-> | Hin]; [done | by apply IH].
Qed.

Lemma payload_present {A} f kind (p : option A) validate :
  fst (payload_check f kind p validate) = true ->
  snd (payload_check f kind p validate) = None ->
  fr_Kind f = kind /\ exists v, p = Some v /\ validate v = None.
Proof.
  destruct p as [v |]; cbn; [| done]. intros _ H. peel H. b2p. destruct E as [Hk Hv]. eauto.
Qed.

Definition carries (f : FrameV1) : Prop :=
  match fr_Kind f with
  | MessageHello => exists p, fr_Hello f = Some p /\ HelloV1_Validate p = None
  | MessageChallenge => exists p, fr_Challenge f = Some p /\ ChallengeV1_Validate p = None
  | MessageAttach => exists p, fr_Attach f = Some p /\ AttachV1_Validate p = None
  | MessageAttachAccepted => exists p, fr_AttachAccepted f = Some p /\ AttachAcceptedV1_Validate p = None
  | MessageReconnect => exists p, fr_Reconnect f = Some p /\ ReconnectV1_Validate p = None
  | MessageReconnectAccepted => exists p, fr_ReconnectAccepted f = Some p /\ ReconnectAcceptedV1_Validate p = None
  | MessageManifest => exists p, fr_Manifest f = Some p /\ ManifestV1_Validate p = None
  | MessageHeartbeat => exists p, fr_Heartbeat f = Some p /\ HeartbeatV1_Validate p = None
  | MessageLeaseOffer => exists p, fr_LeaseOffer f = Some p /\ LeaseOfferV1_Validate p = None
  | MessageLeaseClaim => exists p, fr_LeaseClaim f = Some p /\ LeaseClaimV1_Validate p = None
  | MessageLeaseAccepted => exists p, fr_LeaseAccepted f = Some p /\ LeaseAcceptedV1_Validate p = None
  | MessageProgress => exists p, fr_Progress f = Some p /\ ProgressV1_Validate p = None
  | MessageCancel => exists p, fr_Cancel f = Some p /\ CancelV1_Validate p = None
  | MessageCancelAck => exists p, fr_CancelAck f = Some p /\ CancelAckV1_Validate p = None
  | MessageTerminal => exists p, fr_Terminal f = Some p /\ TerminalV1_Validate p = None
  | MessageTerminalAck => exists p, fr_TerminalAck f = Some p /\ TerminalAckV1_Validate p = None
  | MessageDrain => exists p, fr_Drain f = Some p /\ DrainV1_Validate p = None
  | MessageDrained => exists p, fr_Drained f = Some p /\ DrainedV1_Validate p = None
  | MessageRevoke => exists p, fr_Revoke f = Some p /\ RevokeV1_Validate p = None
  | MessageRevoked => exists p, fr_Revoked f = Some p /\ RevokedV1_Validate p = None
  | MessageError => exists p, fr_Error f = Some p /\ ErrorV1_Validate p = None
  | MessageOther _ => False
  end.

Lemma frame_checks_carry f : Forall (fun c => fst c = true -> snd c = None -> carries f) (frame_checks f).
Proof.
  unfold frame_checks.
  repeat (apply List.Forall_cons;
    [intros Hp Hv; destruct (payload_present _ _ _ _ Hp Hv) as (Hk & H); unfold carries; rewrite Hk; exact H |]).
  apply List.Forall_nil.
Qed.

Lemma valid_frame_carries f : FrameV1_Validate f = None -> carries f.
Proof.
  intros H. unfold FrameV1_Validate in H.
  pose proof (frame_checks_carry f) as Hall. rewrite List.Forall_forall in Hall.
  revert Hall H. generalize (frame_checks f). intros l Hall H. peel H.
  match goal with Hf : first_error l = None |- _ => pose proof (fun c => first_error_none l c Hf) as Hok end.
  unfold payloads in *.
  destruct (filter (fun c : bool * option ProtocolError => fst c = true) l) as [| c r] eqn:Hl; [cbn in *; discriminate |].
  assert (Hc : c ∈ filter (fun c : bool * option ProtocolError => fst c = true) l) by (rewrite Hl; left).
  apply list_elem_of_filter in Hc as [Hc Hin]. apply (Hall c); [by apply list_elem_of_In | done | by apply Hok].
Qed.
