(* ===== verification/WorkerReconnect.v ===== *)
(** * Reconciliation of a reconnecting worker
      ([internal/attachedworkerprotocol]: [reconciliation.go])

    A reconnect snapshot states what one side holds of the previous connection.
    The platform compares its own with the worker's claim, and answers with its
    authoritative state, what to replay, and what becomes of a terminal result
    the worker reports. *)

From S2P Require Import Prelude GoText Sha256 Json WorkerProtocol WorkerFrames.
#[local] Open Scope Z_scope.

Definition cloneVersionOffer (offer : VersionOfferV1) : VersionOfferV1 := offer.

Definition cloneAttemptSummary (s : AttemptSummaryV1) : AttemptSummaryV1 :=
  {| s with as_Binding := cloneBinding (as_Binding s);
            as_TerminalEvidenceDigest := cloneBytesPreservingNil (as_TerminalEvidenceDigest s);
            as_Digest := cloneBytesPreservingNil (as_Digest s) |}.

(** ** Snapshots *)

Definition reconnectSnapshotDomainV1 : string := "sessionless.attached-worker.reconnect-snapshot.v1".

Record ReconnectSnapshotV1 := {
  rs_PreviousConnectionGeneration : Z;
  rs_Watermarks : ConnectionWatermarksV1;
  rs_Attempt : AttemptSummaryV1;
  rs_PendingTerminalReplay : option TerminalV1;
  rs_Digest : slice }.

Definition reconnectSnapshotDigestV1 (s : ReconnectSnapshotV1) : slice :=
  let result := appendCanonicalField "" reconnectSnapshotDomainV1 in
  let result := appendCanonicalUint64 result (rs_PreviousConnectionGeneration s) in
  let result := appendWatermarks result (rs_Watermarks s) in
  let result := appendCanonicalField result (content (as_Digest (rs_Attempt s))) in
  let result := appendCanonicalField result (content (pendingTerminalDigestV1 (rs_PendingTerminalReplay s))) in
  SBytes (sha256 result).

Definition ReconnectSnapshotV1_Validate (s : ReconnectSnapshotV1) : option ProtocolError :=
  reject (rs_PreviousConnectionGeneration s =? 0) || notnil (ConnectionWatermarksV1_Validate (rs_Watermarks s))
         || notnil (AttemptSummaryV1_Validate (rs_Attempt s))
         || notnil (validatePendingTerminal (rs_PendingTerminalReplay s) (rs_Attempt s))
         || negb (validBytes (rs_Digest s) digest_size)
         || negb (bytes_equal (reconnectSnapshotDigestV1 s) (rs_Digest s))
    with malformed_frame ;!
  None.

Definition sealReconnectSnapshot (s : ReconnectSnapshotV1) : ReconnectSnapshotV1 :=
  let s := {| s with rs_Attempt := cloneAttemptSummary (rs_Attempt s) |} in
  let s := {| s with rs_PendingTerminalReplay := cloneTerminal (rs_PendingTerminalReplay s) |} in
  {| s with rs_Digest := reconnectSnapshotDigestV1 s |}.

Definition cloneReconnectSnapshot (s : ReconnectSnapshotV1) : ReconnectSnapshotV1 :=
  {| s with rs_Attempt := cloneAttemptSummary (rs_Attempt s);
            rs_PendingTerminalReplay := cloneTerminal (rs_PendingTerminalReplay s);
            rs_Digest := copied (rs_Digest s) |}.

Definition sealAttemptSummary (s : AttemptSummaryV1) : AttemptSummaryV1 :=
  let s := if as_TerminalSequence s =? 0 then {| s with as_TerminalEvidenceDigest := SBytes "" |} else s in
  let b := as_Binding s in
  let s := if bool_decide (as_State s = AttemptIdle)
           then {| s with as_Binding := {| b with ab_ContextDigest := SBytes ""; ab_CapabilityDigest := SBytes "";
                                                  ab_PolicyDigest := SBytes "" |} |}
           else s in
  {| s with as_Digest := attemptSummaryDigestV1 s |}.

Definition sameAttemptSummary (left right : AttemptSummaryV1) : bool :=
  bool_decide (as_State left = as_State right) && sameAttemptBinding (as_Binding left) (as_Binding right)
  && (as_PlatformSequence left =? as_PlatformSequence right) && (as_WorkerSequence left =? as_WorkerSequence right)
  && (as_ProgressSequence left =? as_ProgressSequence right) && (as_CancelRevision left =? as_CancelRevision right)
  && bool_decide (as_CancelCode left = as_CancelCode right) && (as_TerminalSequence left =? as_TerminalSequence right)
  && bool_decide (as_TerminalStatus left = as_TerminalStatus right)
  && bool_decide (as_TerminalResult left = as_TerminalResult right)
  && bytes_equal (as_TerminalEvidenceDigest left) (as_TerminalEvidenceDigest right)
  && bytes_equal (as_Digest left) (as_Digest right).

(** ** Negotiation *)

Record ReconnectNegotiationV1 := {
  rn_WorkerOffer : VersionOfferV1;
  rn_PlatformOffer : VersionOfferV1;
  rn_SelectedVersion : Z;
  rn_WorkerNonce : slice;
  rn_PlatformNonce : slice;
  rn_CapabilityDigest : slice }.

Definition ReconnectNegotiationV1_validate (input : ReconnectNegotiationV1) : option ProtocolError :=
  validateNegotiationProof (rn_WorkerOffer input) (rn_PlatformOffer input) (rn_SelectedVersion input)
    (rn_WorkerNonce input) (rn_PlatformNonce input) (rn_CapabilityDigest input).

Definition BuildReconnectV1 (snapshot : ReconnectSnapshotV1) (negotiation : ReconnectNegotiationV1)
  : ProtocolError + ReconnectV1 :=
  if notnil (ReconnectSnapshotV1_Validate snapshot) || notnil (ReconnectNegotiationV1_validate negotiation)
  then inl (protocolError ErrorMalformedFrame)
  else inr {| rc_WorkerOffer := cloneVersionOffer (rn_WorkerOffer negotiation);
              rc_PlatformOffer := cloneVersionOffer (rn_PlatformOffer negotiation);
              rc_SelectedVersion := rn_SelectedVersion negotiation;
              rc_PreviousConnectionGeneration := rs_PreviousConnectionGeneration snapshot;
              rc_WorkerNonce := copied (rn_WorkerNonce negotiation);
              rc_PlatformNonce := copied (rn_PlatformNonce negotiation);
              rc_CapabilityDigest := copied (rn_CapabilityDigest negotiation);
              rc_PreviousWatermarks := rs_Watermarks snapshot;
              rc_AttemptSummary := cloneAttemptSummary (rs_Attempt snapshot);
              rc_PendingTerminalReplay := cloneTerminal (rs_PendingTerminalReplay snapshot);
              rc_Signature := SBytes "" |}.

(** ** Comparison of a worker's claim with the authoritative state *)

Definition cancellationOverridesTerminal (summary : AttemptSummaryV1) (terminalStatus : TerminalStatus) : bool :=
  (as_CancelRevision summary >? 0)
  && (bool_decide (as_CancelCode summary = CancelFenced)
      || bool_decide (as_CancelCode summary = CancelRequested)
         && negb (bool_decide (terminalStatus = TerminalCancelled))).

Definition reconnectPendingTerminal (s : ReconnectSnapshotV1) : option TerminalV1 :=
  if notnil (rs_PendingTerminalReplay s) then cloneTerminal (rs_PendingTerminalReplay s)
  else if as_TerminalSequence (rs_Attempt s) =? 0 then None
  else Some {| te_Binding := cloneBinding (as_Binding (rs_Attempt s));
               te_AttemptSequence := as_WorkerSequence (rs_Attempt s);
               te_TerminalSequence := as_TerminalSequence (rs_Attempt s);
               te_Status := as_TerminalStatus (rs_Attempt s);
               te_Result := as_TerminalResult (rs_Attempt s);
               te_EvidenceDigest := copied (as_TerminalEvidenceDigest (rs_Attempt s)) |}.

Definition attemptStateRank (state : AttemptState) : Z :=
  match state with
  | AttemptIdle => 0
  | AttemptOffered => 1
  | AttemptClaimPending => 2
  | AttemptClaimed => 3
  | AttemptCancelRequested | AttemptCancelAcked | AttemptFenced => 4
  | AttemptTerminalPending => 5
  | AttemptTerminalCommitted => 6
  | AttemptStateOther _ => 100
  end.

Definition attemptStateCanAdvance (from to : AttemptSummaryV1) : bool :=
  if bool_decide (as_State from = AttemptTerminalCommitted) then bool_decide (as_State to = AttemptTerminalCommitted)
  else if (as_CancelRevision to >? 0)
          && (bool_decide (as_State to = AttemptCancelRequested) || bool_decide (as_State to = AttemptCancelAcked)
              || bool_decide (as_State to = AttemptFenced))
  then true
  else attemptStateRank (as_State from) <=? attemptStateRank (as_State to).

Definition summaryCanAdvance (from to : AttemptSummaryV1) : bool :=
  if notnil (AttemptSummaryV1_Validate from) || notnil (AttemptSummaryV1_Validate to)
     || negb (bool_decide (as_State from = AttemptIdle))
        && (bool_decide (as_State to = AttemptIdle) || negb (sameAttemptBinding (as_Binding from) (as_Binding to)))
     || bool_decide (as_State from = AttemptIdle) && bool_decide (as_State to = AttemptIdle)
        && negb (sameAttemptSummary from to)
     || (as_PlatformSequence from >? as_PlatformSequence to) || (as_WorkerSequence from >? as_WorkerSequence to)
     || (as_ProgressSequence from >? as_ProgressSequence to) || (as_CancelRevision from >? as_CancelRevision to)
     || (as_TerminalSequence from >? as_TerminalSequence to)
        && negb (cancellationOverridesTerminal to (as_TerminalStatus from))
     || negb (attemptStateCanAdvance from to)
  then false else true.

Definition watermarksCanAdvance (from to : ConnectionWatermarksV1) : bool :=
  isnil (ConnectionWatermarksV1_Validate from) && isnil (ConnectionWatermarksV1_Validate to)
  && (wm_PlatformSequence from <=? wm_PlatformSequence to) && (wm_WorkerSequence from <=? wm_WorkerSequence to)
  && (wm_PlatformAck from <=? wm_PlatformAck to) && (wm_WorkerAck from <=? wm_WorkerAck to).

Definition reconnectStatesCompatible (worker platform : AttemptState) : bool :=
  match platform with
  | AttemptOffered | AttemptClaimPending =>
      bool_decide (worker = AttemptOffered) || bool_decide (worker = AttemptClaimPending)
  | AttemptClaimed =>
      bool_decide (worker = AttemptClaimPending) || bool_decide (worker = AttemptClaimed)
      || bool_decide (worker = AttemptTerminalPending)
  | AttemptCancelRequested =>
      bool_decide (worker = AttemptClaimed) || bool_decide (worker = AttemptCancelRequested)
      || bool_decide (worker = AttemptCancelAcked) || bool_decide (worker = AttemptTerminalPending)
  | AttemptCancelAcked =>
      bool_decide (worker = AttemptCancelRequested) || bool_decide (worker = AttemptCancelAcked)
      || bool_decide (worker = AttemptTerminalPending)
  | AttemptFenced =>
      bool_decide (worker = AttemptClaimed) || bool_decide (worker = AttemptCancelRequested)
      || bool_decide (worker = AttemptCancelAcked) || bool_decide (worker = AttemptFenced)
      || bool_decide (worker = AttemptTerminalPending)
  | AttemptTerminalPending =>
      bool_decide (worker = AttemptClaimed) || bool_decide (worker = AttemptCancelRequested)
      || bool_decide (worker = AttemptCancelAcked) || bool_decide (worker = AttemptTerminalPending)
  | AttemptTerminalCommitted =>
      bool_decide (worker = AttemptTerminalPending) || bool_decide (worker = AttemptTerminalCommitted)
  | _ => false
  end.

(** A terminal the platform holds must be the one the worker reports. *)
Definition pending_mismatch (platformPending workerPending : option TerminalV1) : bool :=
  match platformPending with
  | None => false
  | Some p => match workerPending with None => true | Some w => negb (sameTerminal p w) end
  end.

Definition attempts_conflict (workerAttempt platformAttempt : AttemptSummaryV1) : bool :=
  negb (sameAttemptBinding (as_Binding workerAttempt) (as_Binding platformAttempt))
  || (as_CancelRevision workerAttempt >? as_CancelRevision platformAttempt)
  || negb (reconnectStatesCompatible (as_State workerAttempt) (as_State platformAttempt))
  || (as_CancelRevision workerAttempt >? 0) && (as_CancelRevision platformAttempt >? 0)
     && negb (bool_decide (as_CancelCode workerAttempt = as_CancelCode platformAttempt))
  || (as_TerminalSequence workerAttempt >? 0) && (as_TerminalSequence platformAttempt >? 0)
     && (negb (bool_decide (as_TerminalStatus workerAttempt = as_TerminalStatus platformAttempt))
         || negb (bool_decide (as_TerminalResult workerAttempt = as_TerminalResult platformAttempt))
         || negb (bytes_equal (as_TerminalEvidenceDigest workerAttempt) (as_TerminalEvidenceDigest platformAttempt))).

Definition reconnectClaimsCompatible (workerClaim authoritative : ReconnectSnapshotV1) : bool :=
  if notnil (ReconnectSnapshotV1_Validate workerClaim) || notnil (ReconnectSnapshotV1_Validate authoritative)
     || negb (rs_PreviousConnectionGeneration workerClaim =? rs_PreviousConnectionGeneration authoritative)
     || (wm_PlatformSequence (rs_Watermarks workerClaim) >? wm_PlatformSequence (rs_Watermarks authoritative))
     || (wm_PlatformAck (rs_Watermarks workerClaim) >? wm_PlatformAck (rs_Watermarks authoritative))
     || (as_PlatformSequence (rs_Attempt workerClaim) >? as_PlatformSequence (rs_Attempt authoritative))
  then false
  else
    let workerAttempt := rs_Attempt workerClaim in
    let platformAttempt := rs_Attempt authoritative in
    if pending_mismatch (rs_PendingTerminalReplay authoritative) (reconnectPendingTerminal workerClaim) then false
    else if bool_decide (as_State workerAttempt = AttemptIdle) || bool_decide (as_State platformAttempt = AttemptIdle)
    then bool_decide (as_State workerAttempt = as_State platformAttempt)
    else if attempts_conflict workerAttempt platformAttempt then false else true.

(** ** The platform's answer *)

Definition terminal_decision (authoritative workerClaim : ReconnectSnapshotV1) (workerTerminal : option TerminalV1)
  : ReconnectTerminalDecision :=
  if bool_decide (as_State (rs_Attempt authoritative) = AttemptTerminalCommitted) then ReconnectTerminalCommitted
  else match workerTerminal with
       | None => ReconnectTerminalNone
       | Some terminal =>
           if notnil (rs_PendingTerminalReplay workerClaim)
              || (as_TerminalSequence (rs_Attempt workerClaim) >? as_TerminalSequence (rs_Attempt authoritative))
           then if cancellationOverridesTerminal (rs_Attempt authoritative) (te_Status terminal)
                then ReconnectTerminalDiscard else ReconnectTerminalReplay
           else ReconnectTerminalNone
       end.

(** The attempt sequence of a terminal the decision is about. *)
Definition terminal_sequence (workerTerminal : option TerminalV1) : Z :=
  match workerTerminal with Some t => te_AttemptSequence t | None => 0 end.

Definition BuildReconnectAcceptedV1 (authoritative workerClaim : ReconnectSnapshotV1)
    (negotiation : ReconnectNegotiationV1) : ProtocolError + ReconnectAcceptedV1 :=
  if notnil (ReconnectSnapshotV1_Validate authoritative) || notnil (ReconnectSnapshotV1_Validate workerClaim)
     || notnil (ReconnectNegotiationV1_validate negotiation)
     || negb (rs_PreviousConnectionGeneration authoritative =? rs_PreviousConnectionGeneration workerClaim)
     || negb (reconnectClaimsCompatible workerClaim authoritative)
  then inl (protocolError ErrorConflict)
  else
    let workerTerminal := reconnectPendingTerminal workerClaim in
    let decision := terminal_decision authoritative workerClaim workerTerminal in
    let workerSequence := as_WorkerSequence (rs_Attempt authoritative) in
    if bool_decide (decision = ReconnectTerminalReplay) && (terminal_sequence workerTerminal <=? workerSequence)
    then inl (protocolError ErrorConflict)
    else
      let workerAttemptAfter :=
        if bool_decide (decision = ReconnectTerminalDiscard) && (terminal_sequence workerTerminal >? workerSequence)
        then terminal_sequence workerTerminal else workerSequence in
      inr {| ra_WorkerOffer := cloneVersionOffer (rn_WorkerOffer negotiation);
             ra_PlatformOffer := cloneVersionOffer (rn_PlatformOffer negotiation);
             ra_SelectedVersion := rn_SelectedVersion negotiation;
             ra_WorkerNonce := copied (rn_WorkerNonce negotiation);
             ra_PlatformNonce := copied (rn_PlatformNonce negotiation);
             ra_CapabilityDigest := copied (rn_CapabilityDigest negotiation);
             ra_AuthoritativeWatermarks := rs_Watermarks authoritative;
             ra_AuthoritativeAttempt := cloneAttemptSummary (rs_Attempt authoritative);
             ra_AuthoritativePendingTerminalReplay := cloneTerminal (rs_PendingTerminalReplay authoritative);
             ra_ReplayPlan :=
               {| rp_PlatformEnvelopeAfter := wm_PlatformSequence (rs_Watermarks workerClaim);
                  rp_WorkerEnvelopeAfter := wm_WorkerSequence (rs_Watermarks authoritative);
                  rp_PlatformAttemptAfter := as_PlatformSequence (rs_Attempt workerClaim);
                  rp_WorkerAttemptAfter := workerAttemptAfter;
                  rp_TerminalDecision := decision |} |}.
