(* ===== verification/WorkerTranscripts.v ===== *)
(** * Signed transcripts of the attached-worker protocol
      ([internal/attachedworkerprotocol]: [crypto.go])

    The bytes a worker signs for its attach, reconnect and manifest frames, and the
    signing and verification of those frames. Ed25519 is an argument: the public key
    of a private key, signing and verification. *)

From S2P Require Import Prelude GoText Sha256 Json WorkerProtocol WorkerFrames.
#[local] Open Scope Z_scope.

Definition attachTranscriptDomainV1 : string := "sessionless.attached-worker.attach.v1".
Definition reconnectTranscriptDomainV1 : string := "sessionless.attached-worker.reconnect.v1".
Definition manifestTranscriptDomainV1 : string := "sessionless.attached-worker.manifest.v1".

Definition validateSignedFrame (auth : AuthContextV1) (direction : Direction) (frame : FrameV1) (kind : MessageKind)
  : option ProtocolError :=
  reject notnil (AuthContextV1_Validate auth) || negb (validDirection direction)
         || notnil (validateFrameCommon frame) || negb (bool_decide (fr_Kind frame = kind))
         || negb (fr_Version frame =? au_Version auth) || negb (String.eqb (fr_WorkerID frame) (au_WorkerID auth))
         || negb (fr_EnrollmentGeneration frame =? au_EnrollmentGeneration auth)
         || negb (fr_ConnectionGeneration frame =? au_ConnectionGeneration auth)
    with protocolError ErrorAuthentication ;!
  None.

(** The kinds of the payloads present, in the order of the checks. *)
Definition present {A} (kind : MessageKind) (p : option A) : list MessageKind :=
  match p with Some _ => [kind] | None => [] end.

Definition payload_kinds (f : FrameV1) : list MessageKind :=
  present MessageHello (fr_Hello f) ++ present MessageChallenge (fr_Challenge f)
  ++ present MessageAttach (fr_Attach f) ++ present MessageAttachAccepted (fr_AttachAccepted f)
  ++ present MessageReconnect (fr_Reconnect f) ++ present MessageReconnectAccepted (fr_ReconnectAccepted f)
  ++ present MessageManifest (fr_Manifest f) ++ present MessageHeartbeat (fr_Heartbeat f)
  ++ present MessageLeaseOffer (fr_LeaseOffer f) ++ present MessageLeaseClaim (fr_LeaseClaim f)
  ++ present MessageLeaseAccepted (fr_LeaseAccepted f) ++ present MessageProgress (fr_Progress f)
  ++ present MessageCancel (fr_Cancel f) ++ present MessageCancelAck (fr_CancelAck f)
  ++ present MessageTerminal (fr_Terminal f) ++ present MessageTerminalAck (fr_TerminalAck f)
  ++ present MessageDrain (fr_Drain f) ++ present MessageDrained (fr_Drained f)
  ++ present MessageRevoke (fr_Revoke f) ++ present MessageRevoked (fr_Revoked f)
  ++ present MessageError (fr_Error f).

Definition hasExactlySignedPayload (frame : FrameV1) (target : MessageKind) : bool :=
  bool_decide (fr_Kind frame = target) && bool_decide (target ∈ payload_kinds frame)
  && (Z.of_nat (length (payload_kinds frame)) =? 1).

Definition signedTranscript (domain : string) (auth : AuthContextV1) (direction : Direction) (frame : FrameV1)
    (body : string) : string :=
  let result := appendCanonicalField "" domain in
  let result := appendCanonicalField result (Direction_text direction) in
  let result := appendCanonicalField result (MessageKind_text (fr_Kind frame)) in
  let result := appendCanonicalUint32 result (au_Version auth) in
  let result := appendCanonicalField result (au_TenantID auth) in
  let result := appendCanonicalField result (au_OwnerUserID auth) in
  let result := appendCanonicalField result (au_WorkerID auth) in
  let result := appendCanonicalUint64 result (au_EnrollmentGeneration auth) in
  let result := appendCanonicalUint64 result (au_ConnectionGeneration auth) in
  let result := appendCanonicalField result (content (au_ChannelBinding auth)) in
  let result := appendCanonicalField result (fr_MessageID frame) in
  let result := appendCanonicalUint64 result (fr_Sequence frame) in
  let result := appendCanonicalUint64 result (fr_Ack frame) in
  appendCanonicalField result (sha256 body).

Definition unauthenticated {A} : ProtocolError + A := inl (protocolError ErrorAuthentication).

(** ** Attach *)

Definition validateAttachForTranscript (m : AttachV1) : option ProtocolError :=
  validateNegotiationProof (at_WorkerOffer m) (at_PlatformOffer m) (at_SelectedVersion m)
    (at_WorkerNonce m) (at_PlatformNonce m) (at_CapabilityDigest m).

Definition attach_body (m : AttachV1) : string :=
  let body := appendVersionOffer "" (at_WorkerOffer m) in
  let body := appendVersionOffer body (at_PlatformOffer m) in
  let body := appendCanonicalUint32 body (at_SelectedVersion m) in
  let body := appendCanonicalField body (content (at_WorkerNonce m)) in
  let body := appendCanonicalField body (content (at_PlatformNonce m)) in
  appendCanonicalField body (content (at_CapabilityDigest m)).

(** The payload is dereferenced after [hasExactlySignedPayload] has found it. *)
Definition AttachTranscriptV1 (auth : AuthContextV1) (frame : FrameV1) : ProtocolError + string :=
  if notnil (validateSignedFrame auth DirectionWorkerToPlatform frame MessageAttach)
     || negb (hasExactlySignedPayload frame MessageAttach)
  then unauthenticated
  else match fr_Attach frame with
       | None => unauthenticated
       | Some m =>
           if notnil (validateAttachForTranscript m) then unauthenticated
           else if negb (at_SelectedVersion m =? au_Version auth) then unauthenticated
           else inr (signedTranscript attachTranscriptDomainV1 auth DirectionWorkerToPlatform frame (attach_body m))
       end.

(** ** Reconnect *)

Definition validateReconnectForTranscript (m : ReconnectV1) : option ProtocolError :=
  reject rc_PreviousConnectionGeneration m =? 0 with invalid_frame ;!
  validateNegotiationProof (rc_WorkerOffer m) (rc_PlatformOffer m) (rc_SelectedVersion m)
    (rc_WorkerNonce m) (rc_PlatformNonce m) (rc_CapabilityDigest m).

Definition reconnect_body (m : ReconnectV1) : string :=
  let body := appendVersionOffer "" (rc_WorkerOffer m) in
  let body := appendVersionOffer body (rc_PlatformOffer m) in
  let body := appendCanonicalUint32 body (rc_SelectedVersion m) in
  let body := appendCanonicalUint64 body (rc_PreviousConnectionGeneration m) in
  let body := appendCanonicalField body (content (rc_WorkerNonce m)) in
  let body := appendCanonicalField body (content (rc_PlatformNonce m)) in
  let body := appendCanonicalField body (content (rc_CapabilityDigest m)) in
  let body := appendWatermarks body (rc_PreviousWatermarks m) in
  let body := appendCanonicalField body (content (as_Digest (rc_AttemptSummary m))) in
  appendCanonicalField body (content (pendingTerminalDigestV1 (rc_PendingTerminalReplay m))).

Definition ReconnectTranscriptV1 (auth : AuthContextV1) (frame : FrameV1) : ProtocolError + string :=
  if notnil (validateSignedFrame auth DirectionWorkerToPlatform frame MessageReconnect)
     || negb (hasExactlySignedPayload frame MessageReconnect)
  then unauthenticated
  else match fr_Reconnect frame with
       | None => unauthenticated
       | Some m =>
           if notnil (validateReconnectForTranscript m) then unauthenticated
           else if negb (rc_SelectedVersion m =? au_Version auth) then unauthenticated
           else inr (signedTranscript reconnectTranscriptDomainV1 auth DirectionWorkerToPlatform frame (reconnect_body m))
       end.

(** ** Manifest *)

Definition validateManifestForTranscript (m : ManifestV1) : option ProtocolError :=
  reject notnil (CapabilityManifestV1_Validate (mn_Manifest m)) || negb (validBytes (mn_Digest m) digest_size)
    with invalid_frame ;!
  None.

Definition ManifestTranscriptV1 (auth : AuthContextV1) (frame : FrameV1) : ProtocolError + string :=
  if notnil (validateSignedFrame auth DirectionWorkerToPlatform frame MessageManifest)
     || negb (hasExactlySignedPayload frame MessageManifest)
  then unauthenticated
  else match fr_Manifest frame with
       | None => unauthenticated
       | Some m =>
           if notnil (validateManifestForTranscript m) then unauthenticated
           else match ManifestDigestV1 (mn_Manifest m) with
                | inl _ => unauthenticated
                | inr digest =>
                    if negb (bytes_equal digest (mn_Digest m)) then unauthenticated
                    else inr (signedTranscript manifestTranscriptDomainV1 auth DirectionWorkerToPlatform frame
                                (appendCanonicalField "" (content (mn_Digest m))))
                end
       end.

(** ** Signing and verification *)

Definition private_key_size : Z := 64.

Section Ed25519.
Variable public : string -> string.                     (** [privateKey.Public()] *)
Variable sign : string -> string -> string.             (** [ed25519.Sign(privateKey, message)] *)
Variable verify : string -> string -> string -> bool.   (** [ed25519.Verify(publicKey, message, sig)] *)

Definition signFrame (privateKey : slice) (auth : AuthContextV1) (frame : FrameV1)
    (transcript : AuthContextV1 -> FrameV1 -> ProtocolError + string) (setSignature : string -> FrameV1)
  : FrameV1 * option ProtocolError :=
  reject negb (len (content privateKey) =? private_key_size) || notnil (AuthContextV1_Validate auth)
         || negb (String.eqb (public (content privateKey)) (content (au_IdentityPublicKey auth)))
    with protocolError ErrorAuthentication leaving frame ;!
  match transcript auth frame with
  | inl _ => (frame, Some (protocolError ErrorAuthentication))
  | inr encoded => (setSignature (sign (content privateKey) encoded), None)
  end.

(** The frame is passed by pointer: nil is refused, and the signature is set in place. *)
Definition on_frame (frame : option FrameV1) (k : FrameV1 -> FrameV1 * option ProtocolError)
  : option FrameV1 * option ProtocolError :=
  match frame with
  | None => (None, Some (protocolError ErrorUnauthorized))
  | Some f => let (f', err) := k f in (Some f', err)
  end.

Definition SignAttachV1 (privateKey : slice) (auth : AuthContextV1) (frame : option FrameV1)
  : option FrameV1 * option ProtocolError :=
  on_frame frame (fun frame =>
  reject negb (hasExactlySignedPayload frame MessageAttach) with protocolError ErrorUnauthorized leaving frame ;!
  match fr_Attach frame with
  | None => (frame, Some (protocolError ErrorUnauthorized))
  | Some m =>
      reject negb (len (content (at_Signature m)) =? 0) with protocolError ErrorUnauthorized leaving frame ;!
      signFrame privateKey auth frame AttachTranscriptV1
        (fun signature => {| frame with fr_Attach := Some {| m with at_Signature := SBytes signature |} |})
  end).

Definition SignReconnectV1 (privateKey : slice) (auth : AuthContextV1) (frame : option FrameV1)
  : option FrameV1 * option ProtocolError :=
  on_frame frame (fun frame =>
  reject negb (hasExactlySignedPayload frame MessageReconnect) with protocolError ErrorUnauthorized leaving frame ;!
  match fr_Reconnect frame with
  | None => (frame, Some (protocolError ErrorUnauthorized))
  | Some m =>
      reject negb (len (content (rc_Signature m)) =? 0) with protocolError ErrorUnauthorized leaving frame ;!
      signFrame privateKey auth frame ReconnectTranscriptV1
        (fun signature => {| frame with fr_Reconnect := Some {| m with rc_Signature := SBytes signature |} |})
  end).

Definition SignManifestV1 (privateKey : slice) (auth : AuthContextV1) (frame : option FrameV1)
  : option FrameV1 * option ProtocolError :=
  on_frame frame (fun frame =>
  reject negb (hasExactlySignedPayload frame MessageManifest) with protocolError ErrorUnauthorized leaving frame ;!
  match fr_Manifest frame with
  | None => (frame, Some (protocolError ErrorUnauthorized))
  | Some m =>
      reject negb (len (content (mn_Signature m)) =? 0) with protocolError ErrorUnauthorized leaving frame ;!
      signFrame privateKey auth frame ManifestTranscriptV1
        (fun signature => {| frame with fr_Manifest := Some {| m with mn_Signature := SBytes signature |} |})
  end).

(** The signature is the payload's, nil when the frame has none. *)
Definition verifyFrame (auth : AuthContextV1) (frame : FrameV1)
    (transcript : AuthContextV1 -> FrameV1 -> ProtocolError + string) (signature : option slice)
  : option ProtocolError :=
  match signature with
  | None => Some (protocolError ErrorAuthentication)
  | Some signature =>
      reject notnil (FrameV1_Validate frame) with protocolError ErrorAuthentication ;!
      match transcript auth frame with
      | inl _ => Some (protocolError ErrorAuthentication)
      | inr encoded =>
          reject negb (verify (content (au_IdentityPublicKey auth)) encoded (content signature))
            with protocolError ErrorAuthentication ;!
          None
      end
  end.

Definition VerifyAttachV1 (auth : AuthContextV1) (frame : FrameV1) : option ProtocolError :=
  verifyFrame auth frame AttachTranscriptV1 (option_map at_Signature (fr_Attach frame)).
Definition VerifyReconnectV1 (auth : AuthContextV1) (frame : FrameV1) : option ProtocolError :=
  verifyFrame auth frame ReconnectTranscriptV1 (option_map rc_Signature (fr_Reconnect frame)).
Definition VerifyManifestV1 (auth : AuthContextV1) (frame : FrameV1) : option ProtocolError :=
  verifyFrame auth frame ManifestTranscriptV1 (option_map mn_Signature (fr_Manifest frame)).
End Ed25519.
