(* ===== verification/WorkerMachine.v ===== *)
(** * The attached-worker protocol machine
      ([internal/attachedworkerprotocol]: [machine.go])

    One machine follows both directions of a connection: the handshake, the
    reconnect reconciliation, drain and revocation, and the single attempt a worker
    executes. Every handler returns the machine it leaves and its error; [None]
    stands for the dereference of a nil payload. Receivers are not nil. *)

From S2P Require Import Prelude GoText Sha256 Json WorkerProtocol WorkerFrames WorkerReconnect WorkerTranscripts.
From stdpp Require Import gmap.
#[local] Open Scope Z_scope.

(** ** State *)

Inductive ConnectionState :=
| ConnectionUnattached | ConnectionHello | ConnectionChallenged | ConnectionAttachPending
| ConnectionReconnectPending | ConnectionAttached | ConnectionReady | ConnectionDraining | ConnectionDrained
| ConnectionRevoking | ConnectionRevoked | ConnectionOther (s : string).

#[global] Instance ConnectionState_eq_dec : EqDecision ConnectionState.
Proof. solve_decision. Defined.

Record MachineConfig := {
  mc_Auth : AuthContextV1;
  mc_WorkerOffer : VersionOfferV1;
  mc_PlatformOffer : VersionOfferV1;
  mc_ImplementedVersions : list Z }.

(** A fingerprint is an array of 32 bytes. *)
Definition zero_fingerprint : string := string_of (repeat 0 32).

Record sequenceState := { sq_sequence : Z; sq_ack : Z; sq_fingerprint : string }.
Definition zero_sequence : sequenceState := {| sq_sequence := 0; sq_ack := 0; sq_fingerprint := zero_fingerprint |}.

Record AcceptanceContextV1 := { ac_ChannelBinding : slice; ac_NowUnixMicro : Z }.

Record attemptSequenceState := { aq_sequence : Z; aq_fingerprints : gmap Z string }.
Definition zero_attempt_sequence : attemptSequenceState := {| aq_sequence := 0; aq_fingerprints := ∅ |}.

Record terminalReplayCommitment := {
  tr_kind : MessageKind;
  tr_sequence : Z;
  tr_fingerprint : string;
  tr_decision : ReconnectTerminalDecision;
  tr_terminal : TerminalV1 }.

Record attemptRecord := {
  ar_state : AttemptState;
  ar_binding : AttemptBindingV1;
  ar_platform : attemptSequenceState;
  ar_worker : attemptSequenceState;
  ar_progressSequence : Z;
  ar_cancelRevision : Z;
  ar_cancelCode : CancelCode;
  ar_terminalSequence : Z;
  ar_terminalStatus : TerminalStatus;
  ar_terminalResult : TerminalResult;
  ar_terminalEvidence : slice;
  ar_pendingWorkerTerminal : option terminalReplayCommitment }.

Definition zero_binding : AttemptBindingV1 :=
  {| ab_RunID := ""; ab_AttemptID := ""; ab_LeaseID := ""; ab_LeaseGeneration := 0; ab_FenceToken := "";
     ab_ExpiresAtUnixMicro := 0; ab_ContextDigest := SNil; ab_CapabilityDigest := SNil; ab_PolicyDigest := SNil |}.

(** [attemptRecord{state: AttemptIdle}] *)
Definition idle_attempt : attemptRecord :=
  {| ar_state := AttemptIdle; ar_binding := zero_binding; ar_platform := zero_attempt_sequence;
     ar_worker := zero_attempt_sequence; ar_progressSequence := 0; ar_cancelRevision := 0; ar_cancelCode := no_cancel;
     ar_terminalSequence := 0; ar_terminalStatus := no_status; ar_terminalResult := no_result;
     ar_terminalEvidence := SNil; ar_pendingWorkerTerminal := None |}.

Record ConformanceMachine := {
  cm_config : MachineConfig;
  cm_connection : ConnectionState;
  cm_platform : sequenceState;
  cm_worker : sequenceState;
  cm_hello : HelloV1;
  cm_challenge : ChallengeV1;
  cm_capabilityDigest : slice;
  cm_manifest : CapabilityManifestV1;
  cm_attempt : attemptRecord;
  cm_drainRevision : Z;
  cm_revoke : RevokeV1;
  cm_reconnecting : bool;
  cm_drainReenvelopePending : bool;
  cm_reconnectTarget : ConnectionState;
  cm_previousConnectionGeneration : Z;
  cm_reconnectWatermarks : ConnectionWatermarksV1;
  cm_reconnectAttempt : AttemptSummaryV1;
  cm_reconnectClaim : ReconnectSnapshotV1 }.

(** Zero values. *)
Definition zero_offer : VersionOfferV1 :=
  {| vo_Window := {| vw_Minimum := 0; vw_Maximum := 0 |}; vo_Supported := [] |}.
Definition zero_hello : HelloV1 := {| he_Offer := zero_offer; he_WorkerNonce := SNil |}.
Definition zero_challenge : ChallengeV1 :=
  {| cl_WorkerOffer := zero_offer; cl_PlatformOffer := zero_offer; cl_SelectedVersion := 0; cl_WorkerNonce := SNil;
     cl_PlatformNonce := SNil |}.
Definition zero_manifest : CapabilityManifestV1 :=
  {| mf_WorkerID := ""; mf_EnrollmentGeneration := 0; mf_Revision := 0; mf_ProtocolOffer := zero_offer;
     mf_OperatingSystem := ""; mf_Architecture := ""; mf_BuildID := ""; mf_HarnessName := ""; mf_HarnessVersion := "";
     mf_HarnessSurface := ""; mf_HarnessExecutableDigest := SNil; mf_IsolationEvidence := []; mf_Features := [];
     mf_MaxConcurrentAttempts := 0 |}.
Definition zero_watermarks : ConnectionWatermarksV1 :=
  {| wm_PlatformSequence := 0; wm_WorkerSequence := 0; wm_PlatformAck := 0; wm_WorkerAck := 0 |}.
Definition zero_summary : AttemptSummaryV1 :=
  {| as_State := AttemptStateOther ""; as_Binding := zero_binding; as_PlatformSequence := 0; as_WorkerSequence := 0;
     as_ProgressSequence := 0; as_CancelRevision := 0; as_CancelCode := no_cancel; as_TerminalSequence := 0;
     as_TerminalStatus := no_status; as_TerminalResult := no_result; as_TerminalEvidenceDigest := SNil;
     as_Digest := SNil |}.
Definition zero_snapshot : ReconnectSnapshotV1 :=
  {| rs_PreviousConnectionGeneration := 0; rs_Watermarks := zero_watermarks; rs_Attempt := zero_summary;
     rs_PendingTerminalReplay := None; rs_Digest := SNil |}.

(** ** Copies and comparisons *)

Definition cloneAuthContext (auth : AuthContextV1) : AuthContextV1 :=
  {| auth with au_IdentityPublicKey := copied (au_IdentityPublicKey auth);
               au_ChannelBinding := copied (au_ChannelBinding auth) |}.

Definition cloneMachineConfig (config : MachineConfig) : MachineConfig :=
  {| config with mc_Auth := cloneAuthContext (mc_Auth config);
                 mc_WorkerOffer := cloneVersionOffer (mc_WorkerOffer config);
                 mc_PlatformOffer := cloneVersionOffer (mc_PlatformOffer config) |}.

Definition cloneHello (value : HelloV1) : HelloV1 := {| value with he_WorkerNonce := copied (he_WorkerNonce value) |}.
Definition cloneChallenge (value : ChallengeV1) : ChallengeV1 :=
  {| value with cl_WorkerNonce := copied (cl_WorkerNonce value); cl_PlatformNonce := copied (cl_PlatformNonce value) |}.
Definition cloneManifest (value : CapabilityManifestV1) : CapabilityManifestV1 :=
  {| value with mf_HarnessExecutableDigest := copied (mf_HarnessExecutableDigest value) |}.

Fixpoint same_versions (left right : list Z) : bool :=
  match left, right with
  | [], [] => true
  | a :: l, b :: r => (a =? b) && same_versions l r
  | _, _ => false
  end.

Definition sameVersionOffer (left right : VersionOfferV1) : bool :=
  bool_decide (vo_Window left = vo_Window right) && same_versions (vo_Supported left) (vo_Supported right).

Definition negotiationMatchesChallenge (workerOffer platformOffer : VersionOfferV1) (selected : Z)
    (workerNonce platformNonce : slice) (challenge : ChallengeV1) : bool :=
  sameVersionOffer workerOffer (cl_WorkerOffer challenge) && sameVersionOffer platformOffer (cl_PlatformOffer challenge)
  && (selected =? cl_SelectedVersion challenge) && bytes_equal workerNonce (cl_WorkerNonce challenge)
  && bytes_equal platformNonce (cl_PlatformNonce challenge).

Definition acceptedMatchesChallenge (accepted : AttachAcceptedV1) (challenge : ChallengeV1) (capabilityDigest : slice)
  : bool :=
  negotiationMatchesChallenge (aa_WorkerOffer accepted) (aa_PlatformOffer accepted) (aa_SelectedVersion accepted)
    (aa_WorkerNonce accepted) (aa_PlatformNonce accepted) challenge
  && bytes_equal (aa_CapabilityDigest accepted) capabilityDigest.

Definition sameOptionalTerminal (left right : option TerminalV1) : bool :=
  match left, right with
  | Some l, Some r => sameTerminal l r
  | None, None => true
  | _, _ => false
  end.

Definition sameReconnectAccepted (left right : ReconnectAcceptedV1) : bool :=
  sameVersionOffer (ra_WorkerOffer left) (ra_WorkerOffer right)
  && sameVersionOffer (ra_PlatformOffer left) (ra_PlatformOffer right)
  && (ra_SelectedVersion left =? ra_SelectedVersion right) && bytes_equal (ra_WorkerNonce left) (ra_WorkerNonce right)
  && bytes_equal (ra_PlatformNonce left) (ra_PlatformNonce right)
  && bytes_equal (ra_CapabilityDigest left) (ra_CapabilityDigest right)
  && bool_decide (ra_AuthoritativeWatermarks left = ra_AuthoritativeWatermarks right)
  && sameAttemptSummary (ra_AuthoritativeAttempt left) (ra_AuthoritativeAttempt right)
  && sameOptionalTerminal (ra_AuthoritativePendingTerminalReplay left) (ra_AuthoritativePendingTerminalReplay right)
  && bool_decide (ra_ReplayPlan left = ra_ReplayPlan right).

(** ** Queries *)

Definition new_machine (config : MachineConfig) : ConformanceMachine :=
  {| cm_config := config; cm_connection := ConnectionUnattached; cm_platform := zero_sequence;
     cm_worker := zero_sequence; cm_hello := zero_hello; cm_challenge := zero_challenge; cm_capabilityDigest := SNil;
     cm_manifest := zero_manifest; cm_attempt := idle_attempt; cm_drainRevision := 0;
     cm_revoke := {| rv_Revision := 0; rv_NextEnrollmentGeneration := 0; rv_NextConnectionGeneration := 0 |};
     cm_reconnecting := false; cm_drainReenvelopePending := false; cm_reconnectTarget := ConnectionOther "";
     cm_previousConnectionGeneration := 0; cm_reconnectWatermarks := zero_watermarks;
     cm_reconnectAttempt := zero_summary; cm_reconnectClaim := zero_snapshot |}.

Definition NewConformanceMachine (config : MachineConfig) : ProtocolError + ConformanceMachine :=
  let config := cloneMachineConfig config in
  if notnil (AuthContextV1_Validate (mc_Auth config)) || notnil (VersionOfferV1_Validate (mc_WorkerOffer config))
     || notnil (VersionOfferV1_Validate (mc_PlatformOffer config))
  then inl (protocolError ErrorUnauthorized)
  else match NegotiateOffers (mc_WorkerOffer config) (mc_PlatformOffer config) (mc_ImplementedVersions config) with
       | inl _ => inl (protocolError ErrorUnauthorized)
       | inr selected =>
           if negb (selected =? au_Version (mc_Auth config)) then inl (protocolError ErrorUnauthorized)
           else inr (new_machine config)
       end.

Definition AttemptBinding (m : ConformanceMachine) : option AttemptBindingV1 :=
  if bool_decide (ar_state (cm_attempt m) = AttemptIdle) then None else Some (cloneBinding (ar_binding (cm_attempt m))).

Definition hasFeature (m : ConformanceMachine) (feature : ProtocolFeatureV1) : bool :=
  existsb (fun candidate => bool_decide (candidate = feature)) (mf_Features (cm_manifest m)).

Definition currentWatermarks (m : ConformanceMachine) : ConnectionWatermarksV1 :=
  {| wm_PlatformSequence := sq_sequence (cm_platform m); wm_WorkerSequence := sq_sequence (cm_worker m);
     wm_PlatformAck := sq_ack (cm_platform m); wm_WorkerAck := sq_ack (cm_worker m) |}.

Definition attempt_summary (a : attemptRecord) : AttemptSummaryV1 :=
  {| as_State := ar_state a; as_Binding := cloneBinding (ar_binding a);
     as_PlatformSequence := aq_sequence (ar_platform a); as_WorkerSequence := aq_sequence (ar_worker a);
     as_ProgressSequence := ar_progressSequence a; as_CancelRevision := ar_cancelRevision a;
     as_CancelCode := ar_cancelCode a; as_TerminalSequence := ar_terminalSequence a;
     as_TerminalStatus := ar_terminalStatus a; as_TerminalResult := ar_terminalResult a;
     as_TerminalEvidenceDigest := copied (ar_terminalEvidence a); as_Digest := SNil |}.

Definition currentAttemptSummary (m : ConformanceMachine) : AttemptSummaryV1 :=
  sealAttemptSummary (attempt_summary (cm_attempt m)).

Definition pendingTerminalForSnapshot (m : ConformanceMachine) : option TerminalV1 :=
  match ar_pendingWorkerTerminal (cm_attempt m) with
  | None => None
  | Some c => cloneTerminal (Some (tr_terminal c))
  end.

Definition SnapshotForReconnect (m : ConformanceMachine) : ProtocolError + ReconnectSnapshotV1 :=
  if negb (cm_reconnecting m) then inl (protocolError ErrorProtocolViolation)
  else inr (sealReconnectSnapshot
              {| rs_PreviousConnectionGeneration := cm_previousConnectionGeneration m;
                 rs_Watermarks := cm_reconnectWatermarks m; rs_Attempt := cm_reconnectAttempt m;
                 rs_PendingTerminalReplay := pendingTerminalForSnapshot m; rs_Digest := SNil |}).

Definition MessageIDV1 (direction : Direction) (sequence : Z) : string :=
  (if bool_decide (direction = DirectionPlatformToWorker) then "p" else "w") +:+ "-" +:+ format_padded 20 sequence.

Definition BeginReconnect (m : ConformanceMachine) (next : AuthContextV1)
  : ConformanceMachine * (ProtocolError + ReconnectSnapshotV1) :=
  let next := cloneAuthContext next in
  let auth := mc_Auth (cm_config m) in
  if notnil (AuthContextV1_Validate next)
     || negb (bool_decide (cm_connection m = ConnectionReady)) && negb (bool_decide (cm_connection m = ConnectionDraining))
     || negb (String.eqb (au_TenantID next) (au_TenantID auth))
     || negb (String.eqb (au_OwnerUserID next) (au_OwnerUserID auth))
     || negb (String.eqb (au_WorkerID next) (au_WorkerID auth))
     || negb (bytes_equal (au_IdentityPublicKey next) (au_IdentityPublicKey auth))
     || negb (au_EnrollmentGeneration next =? au_EnrollmentGeneration auth)
     || negb (au_Version next =? au_Version auth) || cm_reconnecting m || cm_drainReenvelopePending m
     || negb (hasFeature m FeatureReconnect) || (au_ConnectionGeneration auth =? max_u64)
     || negb (au_ConnectionGeneration next =? wrap_u64 (au_ConnectionGeneration auth + 1))
  then (m, inl (protocolError ErrorUnauthorized))
  else
    let config := cm_config m in
    let m := {| m with
                cm_previousConnectionGeneration := au_ConnectionGeneration auth;
                cm_reconnectWatermarks := currentWatermarks m;
                cm_reconnectAttempt := currentAttemptSummary m;
                cm_reconnectTarget := cm_connection m;
                cm_config := {| config with mc_Auth := next |};
                cm_connection := ConnectionUnattached;
                cm_platform := zero_sequence;
                cm_worker := zero_sequence;
                cm_hello := zero_hello;
                cm_challenge := zero_challenge;
                cm_reconnecting := true |} in
    (m, SnapshotForReconnect m).

Definition EraseCommittedAttempt (m : ConformanceMachine) : ConformanceMachine * option ProtocolError :=
  reject negb (bool_decide (ar_state (cm_attempt m) = AttemptTerminalCommitted))
    with protocolError ErrorInvalidTransition leaving m ;!
  ({| m with cm_attempt := idle_attempt |}, None).

(** ** Handlers *)

Definition outcome := option (ConformanceMachine * option ProtocolError).

Notation "'refuse' b 'with' e 'leaving' m ;! k" :=
  (if b then Some (m, Some (protocolError e)) else k)
  (at level 10, b at level 100, e at level 100, m at level 100, k at level 200).
Notation "'deref' p 'as' v ;! k" :=
  (match p with None => None | Some v => k end)
  (at level 10, p at level 100, v name, k at level 200).
Notation done_with m := (Some (m, None)) (only parsing).

Definition is_direction (a b : Direction) : bool := bool_decide (a = b).
Definition in_state (m : ConformanceMachine) (s : ConnectionState) : bool := bool_decide (cm_connection m = s).
Definition attempt_in (m : ConformanceMachine) (s : AttemptState) : bool := bool_decide (ar_state (cm_attempt m) = s).

Definition with_attempt (m : ConformanceMachine) (a : attemptRecord) : ConformanceMachine := {| m with cm_attempt := a |}.

Section Machine.
Variable verify : string -> string -> string -> bool.   (** [ed25519.Verify] *)

Definition acceptHello (m : ConformanceMachine) (direction : Direction) (frame : FrameV1) : outcome :=
  refuse negb (is_direction direction DirectionWorkerToPlatform) || negb (in_state m ConnectionUnattached)
    with ErrorInvalidTransition leaving m ;!
  deref fr_Hello frame as hello ;!
  refuse negb (sameVersionOffer (he_Offer hello) (mc_WorkerOffer (cm_config m)))
    with ErrorInvalidTransition leaving m ;!
  done_with {| m with cm_hello := cloneHello hello; cm_connection := ConnectionHello |}.

Definition acceptChallenge (m : ConformanceMachine) (direction : Direction) (frame : FrameV1) : outcome :=
  refuse negb (is_direction direction DirectionPlatformToWorker) || negb (in_state m ConnectionHello)
    with ErrorInvalidTransition leaving m ;!
  deref fr_Challenge frame as challenge ;!
  refuse negb (sameVersionOffer (cl_WorkerOffer challenge) (he_Offer (cm_hello m)))
         || negb (sameVersionOffer (cl_PlatformOffer challenge) (mc_PlatformOffer (cm_config m)))
         || negb (bytes_equal (cl_WorkerNonce challenge) (he_WorkerNonce (cm_hello m)))
    with ErrorInvalidTransition leaving m ;!
  match NegotiateOffers (cl_WorkerOffer challenge) (cl_PlatformOffer challenge) (mc_ImplementedVersions (cm_config m)) with
  | inl _ => Some (m, Some (protocolError ErrorUnsupportedVersion))
  | inr selected =>
      refuse negb (selected =? cl_SelectedVersion challenge) || negb (selected =? au_Version (mc_Auth (cm_config m)))
        with ErrorUnsupportedVersion leaving m ;!
      done_with {| m with cm_challenge := cloneChallenge challenge; cm_connection := ConnectionChallenged |}
  end.

Definition acceptAttach (m : ConformanceMachine) (direction : Direction) (frame : FrameV1) : outcome :=
  refuse negb (is_direction direction DirectionWorkerToPlatform) || negb (in_state m ConnectionChallenged)
         || cm_reconnecting m
    with ErrorUnauthorized leaving m ;!
  deref fr_Attach frame as attach ;!
  refuse negb (negotiationMatchesChallenge (at_WorkerOffer attach) (at_PlatformOffer attach) (at_SelectedVersion attach)
                 (at_WorkerNonce attach) (at_PlatformNonce attach) (cm_challenge m))
         || notnil (VerifyAttachV1 verify (mc_Auth (cm_config m)) frame)
    with ErrorUnauthorized leaving m ;!
  done_with {| m with cm_capabilityDigest := copied (at_CapabilityDigest attach);
                      cm_connection := ConnectionAttachPending |}.

Definition acceptAttachAccepted (m : ConformanceMachine) (direction : Direction) (frame : FrameV1) : outcome :=
  refuse negb (is_direction direction DirectionPlatformToWorker) || negb (in_state m ConnectionAttachPending)
    with ErrorUnauthorized leaving m ;!
  deref fr_AttachAccepted frame as accepted ;!
  refuse negb (acceptedMatchesChallenge accepted (cm_challenge m) (cm_capabilityDigest m))
    with ErrorUnauthorized leaving m ;!
  done_with {| m with cm_connection := ConnectionAttached |}.

(** What a worker claims in its reconnect frame. *)
Definition claimed_snapshot (r : ReconnectV1) : ReconnectSnapshotV1 :=
  sealReconnectSnapshot
    {| rs_PreviousConnectionGeneration := rc_PreviousConnectionGeneration r;
       rs_Watermarks := rc_PreviousWatermarks r; rs_Attempt := rc_AttemptSummary r;
       rs_PendingTerminalReplay := rc_PendingTerminalReplay r; rs_Digest := SNil |}.

Definition incompatible_claim (m : ConformanceMachine) (workerClaim : ReconnectSnapshotV1) : bool :=
  match SnapshotForReconnect m with
  | inl _ => true
  | inr authoritative => negb (reconnectClaimsCompatible workerClaim authoritative)
  end.

Definition acceptReconnect (m : ConformanceMachine) (direction : Direction) (frame : FrameV1) : outcome :=
  deref fr_Reconnect frame as r ;!
  let workerClaim := claimed_snapshot r in
  refuse negb (is_direction direction DirectionWorkerToPlatform) || negb (in_state m ConnectionChallenged)
         || negb (cm_reconnecting m)
         || negb (rc_PreviousConnectionGeneration r =? cm_previousConnectionGeneration m)
         || (rc_PreviousConnectionGeneration r =? max_u64)
         || negb (wrap_u64 (rc_PreviousConnectionGeneration r + 1) =? au_ConnectionGeneration (mc_Auth (cm_config m)))
         || negb (negotiationMatchesChallenge (rc_WorkerOffer r) (rc_PlatformOffer r) (rc_SelectedVersion r)
                    (rc_WorkerNonce r) (rc_PlatformNonce r) (cm_challenge m))
         || notnil (VerifyReconnectV1 verify (mc_Auth (cm_config m)) frame)
         || incompatible_claim m workerClaim
         || negb (len (content (cm_capabilityDigest m)) =? 0)
            && negb (bytes_equal (rc_CapabilityDigest r) (cm_capabilityDigest m))
    with ErrorUnauthorized leaving m ;!
  done_with {| m with cm_capabilityDigest := copied (rc_CapabilityDigest r);
                      cm_reconnectClaim := cloneReconnectSnapshot workerClaim;
                      cm_connection := ConnectionReconnectPending |}.

Definition set_pending (m : ConformanceMachine) (p : option terminalReplayCommitment) : ConformanceMachine :=
  let a := cm_attempt m in with_attempt m {| a with ar_pendingWorkerTerminal := p |}.

(** The commitment a terminal of the worker's claim becomes. *)
Definition replay_commitment (terminal : TerminalV1) (decision : ReconnectTerminalDecision) : terminalReplayCommitment :=
  {| tr_kind := MessageTerminal; tr_sequence := te_AttemptSequence terminal;
     tr_fingerprint := attemptFingerprint (terminal_frame (Some terminal));
     tr_decision := decision; tr_terminal := default terminal (cloneTerminal (Some terminal)) |}.

Definition installReplayCommitment (m : ConformanceMachine) (authoritative workerClaim : ReconnectSnapshotV1)
    (plan : ReplayPlanV1) : ConformanceMachine * option ProtocolError :=
  if bool_decide (rp_TerminalDecision plan = ReconnectTerminalCommitted) then (set_pending m None, None)
  else if bool_decide (rp_TerminalDecision plan = ReconnectTerminalNone) then
    match ar_pendingWorkerTerminal (cm_attempt m) with
    | None => (m, None)
    | Some p =>
        if (tr_sequence p <=? as_WorkerSequence (rs_Attempt authoritative))
           || (as_TerminalSequence (rs_Attempt authoritative) >? 0)
        then (set_pending m None, None) else (m, None)
    end
  else
    match reconnectPendingTerminal workerClaim with
    | None => (m, Some (protocolError ErrorConflict))
    | Some terminal =>
        let next := replay_commitment terminal (rp_TerminalDecision plan) in
        match ar_pendingWorkerTerminal (cm_attempt m) with
        | None => (set_pending m (Some next), None)
        | Some p =>
            reject negb (tr_sequence p =? tr_sequence next) || negb (String.eqb (tr_fingerprint p) (tr_fingerprint next))
              with protocolError ErrorConflict leaving m ;!
            (set_pending m (Some next), None)
        end
    end.

Definition pruneAttemptFingerprints (s : attemptSequenceState) (through : Z) : attemptSequenceState :=
  {| s with aq_fingerprints := filter (fun kv => ~ kv.1 > through) (aq_fingerprints s) |}.

Definition applyAttemptSummary (m : ConformanceMachine) (s : AttemptSummaryV1) : ConformanceMachine :=
  let a := cm_attempt m in
  with_attempt m
    {| ar_state := as_State s;
       ar_binding := cloneBinding (as_Binding s);
       ar_platform := pruneAttemptFingerprints
                        {| aq_sequence := as_PlatformSequence s; aq_fingerprints := aq_fingerprints (ar_platform a) |}
                        (as_PlatformSequence s);
       ar_worker := pruneAttemptFingerprints
                      {| aq_sequence := as_WorkerSequence s; aq_fingerprints := aq_fingerprints (ar_worker a) |}
                      (as_WorkerSequence s);
       ar_progressSequence := as_ProgressSequence s;
       ar_cancelRevision := as_CancelRevision s;
       ar_cancelCode := as_CancelCode s;
       ar_terminalSequence := as_TerminalSequence s;
       ar_terminalStatus := as_TerminalStatus s;
       ar_terminalResult := as_TerminalResult s;
       ar_terminalEvidence := copied (as_TerminalEvidenceDigest s);
       ar_pendingWorkerTerminal := ar_pendingWorkerTerminal a |}.

Definition applyDiscardTombstone (m : ConformanceMachine) : ConformanceMachine :=
  let a := cm_attempt m in
  let w := ar_worker a in
  match ar_pendingWorkerTerminal a with
  | None => m
  | Some c =>
      if negb (bool_decide (tr_decision c = ReconnectTerminalDiscard)) || (tr_sequence c <=? aq_sequence w) then m
      else with_attempt m {| a with ar_worker := {| w with aq_sequence := tr_sequence c |} |}
  end.

Definition accepted_negotiation (a : ReconnectAcceptedV1) : ReconnectNegotiationV1 :=
  {| rn_WorkerOffer := ra_WorkerOffer a; rn_PlatformOffer := ra_PlatformOffer a;
     rn_SelectedVersion := ra_SelectedVersion a; rn_WorkerNonce := ra_WorkerNonce a;
     rn_PlatformNonce := ra_PlatformNonce a; rn_CapabilityDigest := ra_CapabilityDigest a |}.

Definition accepted_attach (a : ReconnectAcceptedV1) : AttachAcceptedV1 :=
  {| aa_WorkerOffer := ra_WorkerOffer a; aa_PlatformOffer := ra_PlatformOffer a;
     aa_SelectedVersion := ra_SelectedVersion a; aa_WorkerNonce := ra_WorkerNonce a;
     aa_PlatformNonce := ra_PlatformNonce a; aa_CapabilityDigest := ra_CapabilityDigest a |}.

(** The platform's state, as its answer states it. *)
Definition authoritative_snapshot (m : ConformanceMachine) (a : ReconnectAcceptedV1) : ReconnectSnapshotV1 :=
  sealReconnectSnapshot
    {| rs_PreviousConnectionGeneration := cm_previousConnectionGeneration m;
       rs_Watermarks := ra_AuthoritativeWatermarks a; rs_Attempt := ra_AuthoritativeAttempt a;
       rs_PendingTerminalReplay := ra_AuthoritativePendingTerminalReplay a; rs_Digest := SNil |}.

Definition unexpected_answer (m : ConformanceMachine) (a : ReconnectAcceptedV1) : bool :=
  match BuildReconnectAcceptedV1 (authoritative_snapshot m a) (cm_reconnectClaim m) (accepted_negotiation a) with
  | inl _ => true
  | inr expected => negb (sameReconnectAccepted expected a)
  end.

Definition acceptReconnectAccepted (m : ConformanceMachine) (direction : Direction) (frame : FrameV1) : outcome :=
  deref fr_ReconnectAccepted frame as a ;!
  refuse negb (is_direction direction DirectionPlatformToWorker) || negb (in_state m ConnectionReconnectPending)
         || negb (acceptedMatchesChallenge (accepted_attach a) (cm_challenge m) (cm_capabilityDigest m))
         || unexpected_answer m a
    with ErrorUnauthorized leaving m ;!
  match installReplayCommitment m (authoritative_snapshot m a) (cm_reconnectClaim m) (ra_ReplayPlan a) with
  | (m, Some err) => Some (m, Some err)
  | (m, None) =>
      let m := applyAttemptSummary m (ra_AuthoritativeAttempt a) in
      let m := applyDiscardTombstone m in
      done_with {| m with cm_connection := ConnectionAttached |}
  end.

Definition acceptManifest (m : ConformanceMachine) (direction : Direction) (frame : FrameV1) : outcome :=
  deref fr_Manifest frame as message ;!
  let manifest := mn_Manifest message in
  let auth := mc_Auth (cm_config m) in
  refuse negb (is_direction direction DirectionWorkerToPlatform) || negb (in_state m ConnectionAttached)
         || negb (bytes_equal (mn_Digest message) (cm_capabilityDigest m))
         || negb (String.eqb (mf_WorkerID manifest) (au_WorkerID auth))
         || negb (mf_EnrollmentGeneration manifest =? au_EnrollmentGeneration auth)
         || negb (sameVersionOffer (mf_ProtocolOffer manifest) (mc_WorkerOffer (cm_config m)))
         || notnil (VerifyManifestV1 verify auth frame)
    with ErrorUnauthorized leaving m ;!
  let m := {| m with cm_manifest := cloneManifest manifest |} in
  if cm_reconnecting m then
    done_with {| m with cm_connection := cm_reconnectTarget m;
                        cm_drainReenvelopePending := bool_decide (cm_reconnectTarget m = ConnectionDraining);
                        cm_reconnecting := false |}
  else done_with {| m with cm_connection := ConnectionReady |}.

Definition acceptHeartbeat (m : ConformanceMachine) (direction : Direction) (frame : FrameV1) : outcome :=
  refuse negb (is_direction direction DirectionWorkerToPlatform)
         || negb (in_state m ConnectionReady) && negb (in_state m ConnectionDraining)
    with ErrorInvalidTransition leaving m ;!
  deref fr_Heartbeat frame as heartbeat ;!
  refuse hb_Available heartbeat && negb (in_state m ConnectionReady) with ErrorConflict leaving m ;!
  done_with m.

Definition acceptDrain (m : ConformanceMachine) (direction : Direction) (frame : FrameV1) : outcome :=
  refuse negb (is_direction direction DirectionPlatformToWorker) with ErrorInvalidTransition leaving m ;!
  match cm_connection m with
  | ConnectionReady =>
      refuse negb (cm_drainRevision m =? 0) || cm_drainReenvelopePending m with ErrorInvalidTransition leaving m ;!
      deref fr_Drain frame as drain ;!
      done_with {| m with cm_drainRevision := dr_Revision drain; cm_connection := ConnectionDraining |}
  | ConnectionDraining =>
      refuse negb (cm_drainReenvelopePending m) || negb (bool_decide (cm_reconnectTarget m = ConnectionDraining))
             || (cm_previousConnectionGeneration m =? max_u64)
             || negb (wrap_u64 (cm_previousConnectionGeneration m + 1) =? au_ConnectionGeneration (mc_Auth (cm_config m)))
        with ErrorInvalidTransition leaving m ;!
      deref fr_Drain frame as drain ;!
      refuse negb (dr_Revision drain =? cm_drainRevision m) with ErrorInvalidTransition leaving m ;!
      let m := {| m with cm_drainReenvelopePending := false |} in
      done_with {| m with cm_drainRevision := dr_Revision drain; cm_connection := ConnectionDraining |}
  | _ => Some (m, Some (protocolError ErrorInvalidTransition))
  end.

Definition acceptDrained (m : ConformanceMachine) (direction : Direction) (frame : FrameV1) : outcome :=
  refuse negb (is_direction direction DirectionWorkerToPlatform) || negb (in_state m ConnectionDraining)
    with ErrorInvalidTransition leaving m ;!
  deref fr_Drained frame as drained ;!
  refuse negb (dd_Revision drained =? cm_drainRevision m) || negb (attempt_in m AttemptIdle)
    with ErrorInvalidTransition leaving m ;!
  done_with {| m with cm_connection := ConnectionDrained |}.

(** An attempt that is still open is fenced. *)
Definition fence_attempt (a : attemptRecord) : attemptRecord :=
  {| a with ar_state := AttemptFenced; ar_cancelCode := CancelFenced; ar_terminalSequence := 0;
            ar_terminalStatus := no_status; ar_terminalResult := no_result; ar_terminalEvidence := SNil;
            ar_cancelRevision := if ar_cancelRevision a =? 0 then 1 else ar_cancelRevision a |}.

Definition acceptRevoke (m : ConformanceMachine) (direction : Direction) (frame : FrameV1) : outcome :=
  let auth := mc_Auth (cm_config m) in
  refuse negb (is_direction direction DirectionPlatformToWorker) || in_state m ConnectionUnattached
         || in_state m ConnectionRevoked || (au_EnrollmentGeneration auth =? max_u64)
         || (au_ConnectionGeneration auth =? max_u64)
    with ErrorInvalidTransition leaving m ;!
  deref fr_Revoke frame as revoke ;!
  refuse negb (rv_NextEnrollmentGeneration revoke =? wrap_u64 (au_EnrollmentGeneration auth + 1))
         || negb (rv_NextConnectionGeneration revoke =? wrap_u64 (au_ConnectionGeneration auth + 1))
    with ErrorInvalidTransition leaving m ;!
  let m := {| m with cm_revoke := revoke |} in
  let m := if negb (attempt_in m AttemptIdle) && negb (attempt_in m AttemptTerminalCommitted)
           then with_attempt m (fence_attempt (cm_attempt m)) else m in
  done_with {| m with cm_connection := ConnectionRevoking |}.

Definition same_revoked (revoked : RevokedV1) (revoke : RevokeV1) : bool :=
  (rd_Revision revoked =? rv_Revision revoke)
  && (rd_NextEnrollmentGeneration revoked =? rv_NextEnrollmentGeneration revoke)
  && (rd_NextConnectionGeneration revoked =? rv_NextConnectionGeneration revoke).

Definition acceptRevoked (m : ConformanceMachine) (direction : Direction) (frame : FrameV1) : outcome :=
  refuse negb (is_direction direction DirectionWorkerToPlatform) || negb (in_state m ConnectionRevoking)
         || negb (attempt_in m AttemptIdle) && negb (attempt_in m AttemptTerminalCommitted)
            && negb (attempt_in m AttemptFenced)
    with ErrorInvalidTransition leaving m ;!
  deref fr_Revoked frame as revoked ;!
  refuse negb (same_revoked revoked (cm_revoke m)) with ErrorInvalidTransition leaving m ;!
  done_with {| m with cm_connection := ConnectionRevoked |}.

(** *** Attempt messages *)

Definition attemptPayload (frame : FrameV1) : option (AttemptBindingV1 * Z) :=
  match fr_Kind frame with
  | MessageLeaseOffer => deref fr_LeaseOffer frame as p ;! Some (lo_Binding p, lo_AttemptSequence p)
  | MessageLeaseClaim => deref fr_LeaseClaim frame as p ;! Some (lc_Binding p, lc_AttemptSequence p)
  | MessageLeaseAccepted => deref fr_LeaseAccepted frame as p ;! Some (la_Binding p, la_AttemptSequence p)
  | MessageProgress => deref fr_Progress frame as p ;! Some (pr_Binding p, pr_AttemptSequence p)
  | MessageCancel => deref fr_Cancel frame as p ;! Some (ca_Binding p, ca_AttemptSequence p)
  | MessageCancelAck => deref fr_CancelAck frame as p ;! Some (ck_Binding p, ck_AttemptSequence p)
  | MessageTerminal => deref fr_Terminal frame as p ;! Some (te_Binding p, te_AttemptSequence p)
  | MessageTerminalAck => deref fr_TerminalAck frame as p ;! Some (ta_Binding p, ta_AttemptSequence p)
  | _ => Some (zero_binding, 0)
  end.

Definition attemptRequiresValidLease (kind : MessageKind) : bool :=
  match kind with
  | MessageLeaseOffer | MessageLeaseClaim | MessageLeaseAccepted | MessageProgress | MessageTerminal
  | MessageTerminalAck => true
  | _ => false
  end.

Definition set_state (m : ConformanceMachine) (s : AttemptState) : ConformanceMachine :=
  let a := cm_attempt m in with_attempt m {| a with ar_state := s |}.

Definition revoking (m : ConformanceMachine) : bool := in_state m ConnectionRevoking || in_state m ConnectionRevoked.

Definition transitLeaseOffer (m : ConformanceMachine) (direction : Direction) (frame : FrameV1) (binding : AttemptBindingV1)
  : outcome :=
  refuse negb (is_direction direction DirectionPlatformToWorker) || negb (in_state m ConnectionReady)
         || negb (attempt_in m AttemptIdle)
    with ErrorInvalidTransition leaving m ;!
  deref fr_LeaseOffer frame as offer ;!
  refuse negb (lo_AttemptSequence offer =? 1) with ErrorInvalidTransition leaving m ;!
  let a := cm_attempt m in
  done_with (with_attempt m {| a with ar_binding := cloneBinding binding; ar_state := AttemptOffered |}).

Definition transitLeaseClaim (m : ConformanceMachine) (direction : Direction) : outcome :=
  refuse negb (is_direction direction DirectionWorkerToPlatform) || negb (attempt_in m AttemptOffered)
    with ErrorInvalidTransition leaving m ;!
  done_with (set_state m AttemptClaimPending).

Definition transitLeaseAccepted (m : ConformanceMachine) (direction : Direction) : outcome :=
  refuse negb (is_direction direction DirectionPlatformToWorker) || negb (attempt_in m AttemptClaimPending)
    with ErrorInvalidTransition leaving m ;!
  done_with (set_state m AttemptClaimed).

Definition transitProgress (m : ConformanceMachine) (direction : Direction) (frame : FrameV1) : outcome :=
  refuse negb (is_direction direction DirectionWorkerToPlatform) || negb (hasFeature m FeatureProgress)
         || negb (attempt_in m AttemptClaimed) && negb (attempt_in m AttemptCancelRequested)
            && negb (attempt_in m AttemptCancelAcked)
         || (ar_progressSequence (cm_attempt m) =? max_u64)
    with ErrorInvalidTransition leaving m ;!
  deref fr_Progress frame as progress ;!
  refuse negb (pr_ProgressSequence progress =? wrap_u64 (ar_progressSequence (cm_attempt m) + 1))
    with ErrorInvalidTransition leaving m ;!
  let a := cm_attempt m in
  done_with (with_attempt m {| a with ar_progressSequence := pr_ProgressSequence progress |}).

Definition transitCancel (m : ConformanceMachine) (direction : Direction) (frame : FrameV1) : outcome :=
  refuse negb (is_direction direction DirectionPlatformToWorker) || negb (hasFeature m FeatureCancellation)
         || negb (attempt_in m AttemptOffered) && negb (attempt_in m AttemptClaimPending)
            && negb (attempt_in m AttemptClaimed) && negb (attempt_in m AttemptTerminalPending)
    with ErrorInvalidTransition leaving m ;!
  deref fr_Cancel frame as cancel ;!
  refuse negb (ca_CancelRevision cancel =? 1) with ErrorInvalidTransition leaving m ;!
  let a := cm_attempt m in
  done_with (with_attempt m
    {| a with ar_cancelRevision := ca_CancelRevision cancel; ar_cancelCode := ca_Code cancel;
              ar_terminalSequence := 0; ar_terminalStatus := no_status; ar_terminalResult := no_result;
              ar_terminalEvidence := SNil;
              ar_state := if bool_decide (ca_Code cancel = CancelFenced) then AttemptFenced else AttemptCancelRequested |}).

Definition transitCancelAck (m : ConformanceMachine) (direction : Direction) (frame : FrameV1) : outcome :=
  refuse negb (is_direction direction DirectionWorkerToPlatform) || negb (hasFeature m FeatureCancellation)
         || negb (attempt_in m AttemptCancelRequested) && negb (attempt_in m AttemptFenced)
    with ErrorInvalidTransition leaving m ;!
  deref fr_CancelAck frame as ack ;!
  refuse negb (ck_CancelRevision ack =? ar_cancelRevision (cm_attempt m)) with ErrorInvalidTransition leaving m ;!
  if negb (attempt_in m AttemptFenced) then done_with (set_state m AttemptCancelAcked) else done_with m.

(** A requested cancellation wins over a crossed outcome: the message is consumed
    and nothing is recorded. *)
Definition transitTerminal (m : ConformanceMachine) (direction : Direction) (frame : FrameV1) : outcome :=
  refuse negb (is_direction direction DirectionWorkerToPlatform)
         || negb (attempt_in m AttemptClaimed) && negb (attempt_in m AttemptCancelRequested)
            && negb (attempt_in m AttemptCancelAcked) && negb (attempt_in m AttemptFenced)
    with ErrorInvalidTransition leaving m ;!
  deref fr_Terminal frame as terminal ;!
  let a := cm_attempt m in
  let cancelled := bool_decide (te_Status terminal = TerminalCancelled) in
  refuse negb (te_TerminalSequence terminal =? 1) || cancelled && (ar_cancelRevision a =? 0)
    with ErrorInvalidTransition leaving m ;!
  if negb (ar_cancelRevision a =? 0) && negb cancelled then
    refuse bool_decide (ar_cancelCode a = CancelFenced) || revoking m with ErrorInvalidTransition leaving m ;!
    done_with m
  else
    let a := {| a with ar_terminalSequence := te_TerminalSequence terminal; ar_terminalStatus := te_Status terminal;
                       ar_terminalResult := te_Result terminal;
                       ar_terminalEvidence := copied (te_EvidenceDigest terminal) |} in
    if negb (bool_decide (ar_cancelCode a = CancelFenced)) && negb (revoking m)
    then done_with (with_attempt m {| a with ar_state := AttemptTerminalPending |})
    else done_with (with_attempt m a).

Definition transitTerminalAck (m : ConformanceMachine) (direction : Direction) (frame : FrameV1) : outcome :=
  refuse negb (is_direction direction DirectionPlatformToWorker) || negb (attempt_in m AttemptTerminalPending)
         || revoking m
    with ErrorConflict leaving m ;!
  deref fr_TerminalAck frame as ack ;!
  let a := cm_attempt m in
  refuse negb (ta_TerminalSequence ack =? ar_terminalSequence a)
         || negb (bool_decide (ta_Status ack = ar_terminalStatus a))
         || negb (bool_decide (ta_Result ack = ar_terminalResult a))
         || negb (bytes_equal (ta_EvidenceDigest ack) (ar_terminalEvidence a))
    with ErrorConflict leaving m ;!
  done_with (set_state m AttemptTerminalCommitted).

Definition applyAttemptTransition (m : ConformanceMachine) (direction : Direction) (frame : FrameV1)
    (binding : AttemptBindingV1) : outcome :=
  match fr_Kind frame with
  | MessageLeaseOffer => transitLeaseOffer m direction frame binding
  | MessageLeaseClaim => transitLeaseClaim m direction
  | MessageLeaseAccepted => transitLeaseAccepted m direction
  | MessageProgress => transitProgress m direction frame
  | MessageCancel => transitCancel m direction frame
  | MessageCancelAck => transitCancelAck m direction frame
  | MessageTerminal => transitTerminal m direction frame
  | MessageTerminalAck => transitTerminalAck m direction frame
  | _ => Some (m, Some (protocolError ErrorInvalidTransition))
  end.

(** A commitment the worker's message is at the sequence of: the message must be
    the committed one, and the platform must not have discarded it. *)
Definition commitment_error (m : ConformanceMachine) (direction : Direction) (kind : MessageKind) (sequence : Z)
    (fingerprint : string) : option ProtocolError :=
  match ar_pendingWorkerTerminal (cm_attempt m) with
  | None => None
  | Some c =>
      if is_direction direction DirectionWorkerToPlatform && (sequence =? tr_sequence c) then
        reject negb (bool_decide (tr_kind c = kind)) || negb (String.eqb (tr_fingerprint c) fingerprint)
          with protocolError ErrorConflict ;!
        reject bool_decide (tr_decision c = ReconnectTerminalDiscard) with protocolError ErrorProtocolViolation ;!
        None
      else None
  end.

Definition attempt_sender (m : ConformanceMachine) (direction : Direction) : attemptSequenceState :=
  if is_direction direction DirectionPlatformToWorker then ar_platform (cm_attempt m) else ar_worker (cm_attempt m).

(** [sender.sequence, sender.fingerprints[sequence] = sequence, fingerprint] *)
Definition record_attempt (m : ConformanceMachine) (direction : Direction) (sequence : Z) (fingerprint : string)
  : ConformanceMachine :=
  let a := cm_attempt m in
  let s := attempt_sender m direction in
  let s := {| aq_sequence := sequence; aq_fingerprints := <[sequence := fingerprint]> (aq_fingerprints s) |} in
  with_attempt m (if is_direction direction DirectionPlatformToWorker
                  then {| a with ar_platform := s |} else {| a with ar_worker := s |}).

Definition clear_commitment (m : ConformanceMachine) (direction : Direction) (sequence : Z) : ConformanceMachine :=
  match ar_pendingWorkerTerminal (cm_attempt m) with
  | None => m
  | Some c =>
      if is_direction direction DirectionWorkerToPlatform && (tr_sequence c =? sequence) then set_pending m None else m
  end.

Definition acceptAttempt (m : ConformanceMachine) (direction : Direction) (frame : FrameV1) (nowUnixMicro : Z) : outcome :=
  match attemptPayload frame with
  | None => None
  | Some (binding, sequence) =>
      let fingerprint := attemptFingerprint frame in
      let sender := attempt_sender m direction in
      match commitment_error m direction (fr_Kind frame) sequence fingerprint with
      | Some err => Some (m, Some err)
      | None =>
          if sequence <=? aq_sequence sender then
            if negb (sequence =? 0)
               && String.eqb (default zero_fingerprint (aq_fingerprints sender !! sequence)) fingerprint
            then done_with m else Some (m, Some (protocolError ErrorConflict))
          else
            refuse (aq_sequence sender =? max_u64) || negb (sequence =? wrap_u64 (aq_sequence sender + 1))
              with ErrorSequenceMismatch leaving m ;!
            refuse negb (attempt_in m AttemptIdle) && negb (sameAttemptBinding binding (ar_binding (cm_attempt m)))
              with ErrorBindingMismatch leaving m ;!
            refuse negb (bytes_equal (ab_CapabilityDigest binding) (cm_capabilityDigest m))
              with ErrorBindingMismatch leaving m ;!
            refuse attemptRequiresValidLease (fr_Kind frame) && (nowUnixMicro >=? ab_ExpiresAtUnixMicro binding)
              with ErrorConflict leaving m ;!
            match applyAttemptTransition m direction frame binding with
            | None => None
            | Some (m, Some err) => Some (m, Some err)
            | Some (m, None) =>
                done_with (clear_commitment (record_attempt m direction sequence fingerprint) direction sequence)
            end
      end
  end.

(** *** Acceptance *)

Definition apply (m : ConformanceMachine) (direction : Direction) (frame : FrameV1) (nowUnixMicro : Z) : outcome :=
  match fr_Kind frame with
  | MessageHello => acceptHello m direction frame
  | MessageChallenge => acceptChallenge m direction frame
  | MessageAttach => acceptAttach m direction frame
  | MessageAttachAccepted => acceptAttachAccepted m direction frame
  | MessageReconnect => acceptReconnect m direction frame
  | MessageReconnectAccepted => acceptReconnectAccepted m direction frame
  | MessageManifest => acceptManifest m direction frame
  | MessageHeartbeat => acceptHeartbeat m direction frame
  | MessageDrain => acceptDrain m direction frame
  | MessageDrained => acceptDrained m direction frame
  | MessageRevoke => acceptRevoke m direction frame
  | MessageRevoked => acceptRevoked m direction frame
  | MessageLeaseOffer | MessageLeaseClaim | MessageLeaseAccepted | MessageProgress
  | MessageCancel | MessageCancelAck | MessageTerminal | MessageTerminalAck =>
      acceptAttempt m direction frame nowUnixMicro
  | MessageError => done_with m
  | MessageOther _ => Some (m, Some (protocolError ErrorInvalidTransition))
  end.

Definition sender_of (m : ConformanceMachine) (direction : Direction) : sequenceState :=
  if is_direction direction DirectionPlatformToWorker then cm_platform m else cm_worker m.
Definition peer_of (m : ConformanceMachine) (direction : Direction) : sequenceState :=
  if is_direction direction DirectionPlatformToWorker then cm_worker m else cm_platform m.
Definition set_sender (m : ConformanceMachine) (direction : Direction) (s : sequenceState) : ConformanceMachine :=
  if is_direction direction DirectionPlatformToWorker then {| m with cm_platform := s |} else {| m with cm_worker := s |}.

Definition out_of_scope (m : ConformanceMachine) (direction : Direction) (frame : FrameV1)
    (acceptance : AcceptanceContextV1) : bool :=
  let auth := mc_Auth (cm_config m) in
  negb (validDirection direction) || notnil (AuthContextV1_Validate auth)
  || negb (bytes_equal (ac_ChannelBinding acceptance) (au_ChannelBinding auth)) || (ac_NowUnixMicro acceptance <=? 0)
  || notnil (FrameV1_Validate frame) || negb (fr_Version frame =? au_Version auth)
  || negb (String.eqb (fr_WorkerID frame) (au_WorkerID auth))
  || negb (fr_EnrollmentGeneration frame =? au_EnrollmentGeneration auth)
  || negb (fr_ConnectionGeneration frame =? au_ConnectionGeneration auth).

Definition Accept (m : ConformanceMachine) (direction : Direction) (frame : FrameV1) (acceptance : AcceptanceContextV1)
  : outcome :=
  refuse out_of_scope m direction frame acceptance with ErrorUnauthorized leaving m ;!
  refuse negb (String.eqb (fr_MessageID frame) (MessageIDV1 direction (fr_Sequence frame)))
    with ErrorProtocolViolation leaving m ;!
  let sender := sender_of m direction in
  let peer := peer_of m direction in
  let fingerprint := frameFingerprint frame in
  if fr_Sequence frame =? sq_sequence sender then
    if negb (sq_sequence sender =? 0) && String.eqb (sq_fingerprint sender) fingerprint
    then done_with m else Some (m, Some (protocolError ErrorConflict))
  else
    refuse (sq_sequence sender =? max_u64) || negb (fr_Sequence frame =? wrap_u64 (sq_sequence sender + 1))
           || (fr_Ack frame <? sq_ack sender) || (fr_Ack frame >? sq_sequence peer)
      with ErrorSequenceMismatch leaving m ;!
    match apply m direction frame (ac_NowUnixMicro acceptance) with
    | None => None
    | Some (m, Some err) => Some (m, Some err)
    | Some (m, None) =>
        done_with (set_sender m direction
                     {| sq_sequence := fr_Sequence frame; sq_ack := fr_Ack frame; sq_fingerprint := fingerprint |})
    end.

End Machine.
