(* ===== verification/WorkerSnapshot.v ===== *)
(** * Stored machines of the attached-worker protocol
      ([internal/attachedworkerprotocol]: [durable.go])

    The persistence form of a machine: its record, validation, canonical bytes and
    digest, how a machine is stored and how it is restored. The JSON text of a stored
    machine is not modelled. *)

From stdpp Require Import gmap.
From S2P Require Import Prelude GoText Sorting Sha256 Json WorkerProtocol WorkerFrames WorkerReconnect.
From S2P Require Import WorkerTranscripts WorkerMachine.
#[local] Open Scope Z_scope.

Definition MachineSnapshotVersionV1 : Z := 1.
Definition machineSnapshotDomainV1 : string := "sessionless.attached-worker.machine-snapshot.v1".
Definition machineConfigDomainV1 : string := "sessionless.attached-worker.machine-config.v1".

(** ** Records *)

Record MachineEnvelopeSnapshotV1 := { es_Sequence : Z; es_Ack : Z; es_Fingerprint : slice }.

Record MachineAttemptFingerprintV1 := { af_Sequence : Z; af_Fingerprint : slice }.

Record MachineAttemptDirectionSnapshotV1 := {
  ds_Sequence : Z;
  ds_Fingerprints : list MachineAttemptFingerprintV1 }.

Record MachinePendingTerminalSnapshotV1 := {
  ps_Kind : MessageKind;
  ps_Sequence : Z;
  ps_Fingerprint : slice;
  ps_Decision : ReconnectTerminalDecision;
  ps_Terminal : TerminalV1 }.

Record MachineAttemptSnapshotV1 := {
  ms_Summary : AttemptSummaryV1;
  ms_Platform : MachineAttemptDirectionSnapshotV1;
  ms_Worker : MachineAttemptDirectionSnapshotV1;
  ms_PendingWorkerTerminal : option MachinePendingTerminalSnapshotV1 }.

Record MachineReconnectStateV1 := {
  mr_Target : ConnectionState;
  mr_PreviousConnectionGeneration : Z;
  mr_Watermarks : ConnectionWatermarksV1;
  mr_Attempt : AttemptSummaryV1;
  mr_Claim : option ReconnectSnapshotV1 }.

Record MachineSnapshotV1 := {
  mz_Version : Z;
  mz_ConfigurationDigest : slice;
  mz_Connection : ConnectionState;
  mz_Platform : MachineEnvelopeSnapshotV1;
  mz_Worker : MachineEnvelopeSnapshotV1;
  mz_Hello : option HelloV1;
  mz_Challenge : option ChallengeV1;
  mz_CapabilityDigest : slice;
  mz_Manifest : option CapabilityManifestV1;
  mz_Attempt : MachineAttemptSnapshotV1;
  mz_DrainRevision : Z;
  mz_Revoke : option RevokeV1;
  mz_Reconnect : option MachineReconnectStateV1;
  mz_Digest : slice }.

(** ** Copies *)

Definition cloneAttemptDirectionSnapshot (s : MachineAttemptDirectionSnapshotV1) : MachineAttemptDirectionSnapshotV1 :=
  {| ds_Sequence := ds_Sequence s;
     ds_Fingerprints := map (fun item => {| af_Sequence := af_Sequence item; af_Fingerprint := copied (af_Fingerprint item) |})
                          (ds_Fingerprints s) |}.

Definition clone_envelope (s : MachineEnvelopeSnapshotV1) : MachineEnvelopeSnapshotV1 :=
  {| s with es_Fingerprint := copied (es_Fingerprint s) |}.

(** [*cloneTerminal(&terminal)] *)
Definition cloned_terminal (t : TerminalV1) : TerminalV1 := default t (cloneTerminal (Some t)).

Definition clone_pending (p : MachinePendingTerminalSnapshotV1) : MachinePendingTerminalSnapshotV1 :=
  {| p with ps_Fingerprint := copied (ps_Fingerprint p); ps_Terminal := cloned_terminal (ps_Terminal p) |}.

Definition clone_attempt (a : MachineAttemptSnapshotV1) : MachineAttemptSnapshotV1 :=
  {| ms_Summary := cloneAttemptSummary (ms_Summary a);
     ms_Platform := cloneAttemptDirectionSnapshot (ms_Platform a);
     ms_Worker := cloneAttemptDirectionSnapshot (ms_Worker a);
     ms_PendingWorkerTerminal := option_map clone_pending (ms_PendingWorkerTerminal a) |}.

Definition clone_reconnect (r : MachineReconnectStateV1) : MachineReconnectStateV1 :=
  {| r with mr_Attempt := cloneAttemptSummary (mr_Attempt r); mr_Claim := option_map cloneReconnectSnapshot (mr_Claim r) |}.

Definition cloneMachineSnapshot (s : MachineSnapshotV1) : MachineSnapshotV1 :=
  {| s with mz_ConfigurationDigest := copied (mz_ConfigurationDigest s);
            mz_Platform := clone_envelope (mz_Platform s);
            mz_Worker := clone_envelope (mz_Worker s);
            mz_Hello := option_map cloneHello (mz_Hello s);
            mz_Challenge := option_map cloneChallenge (mz_Challenge s);
            mz_CapabilityDigest := copied (mz_CapabilityDigest s);
            mz_Manifest := option_map cloneManifest (mz_Manifest s);
            mz_Attempt := clone_attempt (mz_Attempt s);
            mz_Reconnect := option_map clone_reconnect (mz_Reconnect s);
            mz_Digest := copied (mz_Digest s) |}.

(** ** Canonical bytes *)

Definition ConnectionState_text (s : ConnectionState) : string :=
  match s with
  | ConnectionUnattached => "unattached" | ConnectionHello => "hello" | ConnectionChallenged => "challenged"
  | ConnectionAttachPending => "attach_pending" | ConnectionReconnectPending => "reconnect_pending"
  | ConnectionAttached => "attached" | ConnectionReady => "ready" | ConnectionDraining => "draining"
  | ConnectionDrained => "drained" | ConnectionRevoking => "revoking" | ConnectionRevoked => "revoked"
  | ConnectionOther s => s
  end.

Definition appendEnvelopeSnapshot (result : string) (s : MachineEnvelopeSnapshotV1) : string :=
  let result := appendCanonicalUint64 result (es_Sequence s) in
  let result := appendCanonicalUint64 result (es_Ack s) in
  appendCanonicalField result (content (es_Fingerprint s)).

Definition appendAttemptDirectionSnapshot (result : string) (s : MachineAttemptDirectionSnapshotV1) : string :=
  let result := appendCanonicalUint64 result (ds_Sequence s) in
  let result := appendCanonicalUint32 result (wrap_u32 (Z.of_nat (length (ds_Fingerprints s)))) in
  fold_left (fun result item =>
    let result := appendCanonicalUint64 result (af_Sequence item) in
    appendCanonicalField result (content (af_Fingerprint item))) (ds_Fingerprints s) result.

Definition appendOptionalHello (result : string) (hello : option HelloV1) : string :=
  match hello with
  | None => appendCanonicalUint32 result 0
  | Some h =>
      let result := appendCanonicalUint32 result 1 in
      let result := appendVersionOffer result (he_Offer h) in
      appendCanonicalField result (content (he_WorkerNonce h))
  end.

Definition appendOptionalChallenge (result : string) (challenge : option ChallengeV1) : string :=
  match challenge with
  | None => appendCanonicalUint32 result 0
  | Some c =>
      let result := appendCanonicalUint32 result 1 in
      let result := appendVersionOffer result (cl_WorkerOffer c) in
      let result := appendVersionOffer result (cl_PlatformOffer c) in
      let result := appendCanonicalUint32 result (cl_SelectedVersion c) in
      let result := appendCanonicalField result (content (cl_WorkerNonce c)) in
      appendCanonicalField result (content (cl_PlatformNonce c))
  end.

Definition appendMachineSnapshotWatermarks (result : string) (w : ConnectionWatermarksV1) : string :=
  let result := appendCanonicalUint64 result (wm_PlatformSequence w) in
  let result := appendCanonicalUint64 result (wm_WorkerSequence w) in
  let result := appendCanonicalUint64 result (wm_PlatformAck w) in
  appendCanonicalUint64 result (wm_WorkerAck w).

Definition append_manifest (result : string) (manifest : option CapabilityManifestV1) : string :=
  match manifest with
  | None => appendCanonicalUint32 result 0
  | Some m =>
      let bytes := match CanonicalManifestBytesV1 m with inr b => b | inl _ => "" end in
      appendCanonicalField (appendCanonicalUint32 result 1) bytes
  end.

Definition append_pending (result : string) (pending : option MachinePendingTerminalSnapshotV1) : string :=
  match pending with
  | None => appendCanonicalUint32 result 0
  | Some p =>
      let result := appendCanonicalUint32 result 1 in
      let result := appendCanonicalField result (MessageKind_text (ps_Kind p)) in
      let result := appendCanonicalUint64 result (ps_Sequence p) in
      let result := appendCanonicalField result (content (ps_Fingerprint p)) in
      appendCanonicalField result (ReconnectTerminalDecision_text (ps_Decision p))
  end.

Definition append_revoke (result : string) (revoke : option RevokeV1) : string :=
  match revoke with
  | None => appendCanonicalUint32 result 0
  | Some r =>
      let result := appendCanonicalUint32 result 1 in
      let result := appendCanonicalUint64 result (rv_Revision r) in
      let result := appendCanonicalUint64 result (rv_NextEnrollmentGeneration r) in
      appendCanonicalUint64 result (rv_NextConnectionGeneration r)
  end.

Definition append_reconnect (result : string) (reconnect : option MachineReconnectStateV1) : string :=
  match reconnect with
  | None => appendCanonicalUint32 result 0
  | Some r =>
      let result := appendCanonicalUint32 result 1 in
      let result := appendCanonicalField result (ConnectionState_text (mr_Target r)) in
      let result := appendCanonicalUint64 result (mr_PreviousConnectionGeneration r) in
      let result := appendMachineSnapshotWatermarks result (mr_Watermarks r) in
      let result := appendCanonicalField result (content (as_Digest (mr_Attempt r))) in
      match mr_Claim r with
      | None => appendCanonicalUint32 result 0
      | Some c => appendCanonicalField (appendCanonicalUint32 result 1) (content (rs_Digest c))
      end
  end.

Definition canonicalMachineSnapshotBytesUnchecked (s : MachineSnapshotV1) : string :=
  let result := appendCanonicalField "" machineSnapshotDomainV1 in
  let result := appendCanonicalUint32 result (mz_Version s) in
  let result := appendCanonicalField result (content (mz_ConfigurationDigest s)) in
  let result := appendCanonicalField result (ConnectionState_text (mz_Connection s)) in
  let result := appendEnvelopeSnapshot result (mz_Platform s) in
  let result := appendEnvelopeSnapshot result (mz_Worker s) in
  let result := appendOptionalHello result (mz_Hello s) in
  let result := appendOptionalChallenge result (mz_Challenge s) in
  let result := appendCanonicalField result (content (mz_CapabilityDigest s)) in
  let result := append_manifest result (mz_Manifest s) in
  let result := appendCanonicalField result (content (as_Digest (ms_Summary (mz_Attempt s)))) in
  let result := appendAttemptDirectionSnapshot result (ms_Platform (mz_Attempt s)) in
  let result := appendAttemptDirectionSnapshot result (ms_Worker (mz_Attempt s)) in
  let result := append_pending result (ms_PendingWorkerTerminal (mz_Attempt s)) in
  let result := appendCanonicalUint64 result (mz_DrainRevision s) in
  let result := append_revoke result (mz_Revoke s) in
  append_reconnect result (mz_Reconnect s).

Definition machineSnapshotDigestUnchecked (s : MachineSnapshotV1) : slice :=
  SBytes (sha256 (canonicalMachineSnapshotBytesUnchecked s)).

(** ** Validation *)

Definition validateEnvelopeSnapshot (s : MachineEnvelopeSnapshotV1) : option ProtocolError :=
  if es_Sequence s =? 0 then
    reject negb (es_Ack s =? 0) || negb (len (content (es_Fingerprint s)) =? 0) with malformed_frame ;! None
  else
    reject negb (validBytes (es_Fingerprint s) digest_size) with malformed_frame ;! None.

(** The sequences increase from [previous] and stay within [last]. *)
Fixpoint fingerprints_ordered (last previous : Z) (l : list MachineAttemptFingerprintV1) : bool :=
  match l with
  | [] => true
  | item :: r =>
      if (af_Sequence item =? 0) || (af_Sequence item <=? previous) || (af_Sequence item >? last)
         || negb (validBytes (af_Fingerprint item) digest_size)
      then false else fingerprints_ordered last (af_Sequence item) r
  end.

Definition validateAttemptDirectionSnapshot (s : MachineAttemptDirectionSnapshotV1) : option ProtocolError :=
  reject (ds_Sequence s >? MaxAttemptMessages) || (Z.of_nat (length (ds_Fingerprints s)) >? MaxAttemptMessages)
    with malformed_frame ;!
  reject negb (fingerprints_ordered (ds_Sequence s) 0 (ds_Fingerprints s)) with malformed_frame ;!
  None.

Definition validatePendingTerminalSnapshot (pending : option MachinePendingTerminalSnapshotV1)
    (attempt : MachineAttemptSnapshotV1) : option ProtocolError :=
  match pending with
  | None => None
  | Some p =>
      let replay := bool_decide (ps_Decision p = ReconnectTerminalReplay) in
      let discard := bool_decide (ps_Decision p = ReconnectTerminalDiscard) in
      reject negb (bool_decide (ps_Kind p = MessageTerminal)) || notnil (TerminalV1_Validate (ps_Terminal p))
             || (ps_Sequence p =? 0) || negb (ps_Sequence p =? te_AttemptSequence (ps_Terminal p))
             || negb replay && negb discard
             || negb (sameAttemptBinding (te_Binding (ps_Terminal p)) (as_Binding (ms_Summary attempt)))
             || negb (validBytes (ps_Fingerprint p) digest_size)
        with malformed_frame ;!
      reject negb (String.eqb (attemptFingerprint (terminal_frame (Some (ps_Terminal p)))) (content (ps_Fingerprint p)))
        with protocolError ErrorConflict ;!
      reject replay && (ps_Sequence p <=? ds_Sequence (ms_Worker attempt))
             || discard && (ps_Sequence p >? ds_Sequence (ms_Worker attempt))
        with malformed_frame ;!
      None
  end.

(** What the platform held before the reconnect, with the terminal it has committed to. *)
Definition stored_authoritative (r : MachineReconnectStateV1) (pending : option MachinePendingTerminalSnapshotV1)
  : ReconnectSnapshotV1 :=
  let a := sealReconnectSnapshot
             {| rs_PreviousConnectionGeneration := mr_PreviousConnectionGeneration r; rs_Watermarks := mr_Watermarks r;
                rs_Attempt := mr_Attempt r; rs_PendingTerminalReplay := None; rs_Digest := SNil |} in
  match pending with
  | None => a
  | Some p => sealReconnectSnapshot {| a with rs_PendingTerminalReplay := cloneTerminal (Some (ps_Terminal p)) |}
  end.

Definition validateMachineReconnectState (r : MachineReconnectStateV1) (pending : option MachinePendingTerminalSnapshotV1)
  : option ProtocolError :=
  reject negb (bool_decide (mr_Target r = ConnectionReady)) && negb (bool_decide (mr_Target r = ConnectionDraining))
         || (mr_PreviousConnectionGeneration r =? 0) || notnil (ConnectionWatermarksV1_Validate (mr_Watermarks r))
         || notnil (AttemptSummaryV1_Validate (mr_Attempt r))
    with malformed_frame ;!
  match mr_Claim r with
  | None => None
  | Some claim =>
      reject notnil (ReconnectSnapshotV1_Validate claim)
             || negb (rs_PreviousConnectionGeneration claim =? mr_PreviousConnectionGeneration r)
        with malformed_frame ;!
      reject negb (reconnectClaimsCompatible claim (stored_authoritative r pending)) with protocolError ErrorConflict ;!
      None
  end.

Definition validMachineConnectionState (s : ConnectionState) : bool :=
  match s with ConnectionOther _ => false | _ => true end.

Definition invalid_part {A} (validate : A -> option ProtocolError) (p : option A) : bool :=
  match p with None => false | Some v => notnil (validate v) end.

(** The parts, each on its own. *)
Definition snapshot_parts (s : MachineSnapshotV1) : option ProtocolError :=
  let a := mz_Attempt s in
  reject negb (mz_Version s =? MachineSnapshotVersionV1) || negb (validBytes (mz_ConfigurationDigest s) digest_size)
         || negb (validMachineConnectionState (mz_Connection s)) || notnil (validateEnvelopeSnapshot (mz_Platform s))
         || notnil (validateEnvelopeSnapshot (mz_Worker s)) || (es_Ack (mz_Platform s) >? es_Sequence (mz_Worker s))
         || (es_Ack (mz_Worker s) >? es_Sequence (mz_Platform s)) || notnil (AttemptSummaryV1_Validate (ms_Summary a))
         || notnil (validateAttemptDirectionSnapshot (ms_Platform a))
         || notnil (validateAttemptDirectionSnapshot (ms_Worker a))
         || negb (as_PlatformSequence (ms_Summary a) =? ds_Sequence (ms_Platform a))
         || negb (as_WorkerSequence (ms_Summary a) =? ds_Sequence (ms_Worker a))
    with malformed_frame ;!
  reject invalid_part HelloV1_Validate (mz_Hello s) || invalid_part ChallengeV1_Validate (mz_Challenge s)
         || invalid_part CapabilityManifestV1_Validate (mz_Manifest s) || invalid_part RevokeV1_Validate (mz_Revoke s)
    with malformed_frame ;!
  None.

(** A challenge answers the hello that is stored with it. *)
Definition answers_hello (challenge : option ChallengeV1) (hello : option HelloV1) : bool :=
  match challenge with
  | None => true
  | Some c =>
      match hello with
      | None => false
      | Some h => sameVersionOffer (cl_WorkerOffer c) (he_Offer h) && bytes_equal (cl_WorkerNonce c) (he_WorkerNonce h)
      end
  end.

Definition manifest_matches (manifest : option CapabilityManifestV1) (capabilityDigest : slice) : bool :=
  match manifest with
  | None => true
  | Some m => match ManifestDigestV1 m with inl _ => false | inr digest => bytes_equal digest capabilityDigest end
  end.

Definition snapshot_relations (s : MachineSnapshotV1) : option ProtocolError :=
  let summary := ms_Summary (mz_Attempt s) in
  let pending := ms_PendingWorkerTerminal (mz_Attempt s) in
  reject negb (answers_hello (mz_Challenge s) (mz_Hello s)) with malformed_frame ;!
  reject negb (manifest_matches (mz_Manifest s) (mz_CapabilityDigest s)) with malformed_frame ;!
  reject negb (len (content (mz_CapabilityDigest s)) =? 0) && negb (validBytes (mz_CapabilityDigest s) digest_size)
    with malformed_frame ;!
  reject negb (bool_decide (as_State summary = AttemptIdle))
         && (isnil (mz_Manifest s) || negb (bytes_equal (ab_CapabilityDigest (as_Binding summary)) (mz_CapabilityDigest s)))
    with malformed_frame ;!
  reject notnil (validatePendingTerminalSnapshot pending (mz_Attempt s)) with malformed_frame ;!
  reject match mz_Reconnect s with None => false | Some r => notnil (validateMachineReconnectState r pending) end
    with malformed_frame ;!
  None.

Definition stored_in (s : MachineSnapshotV1) (c : ConnectionState) : bool := bool_decide (mz_Connection s = c).

(** What the state of the connection asks of the rest. *)
Definition snapshot_state (s : MachineSnapshotV1) : option ProtocolError :=
  let digested := validBytes (mz_CapabilityDigest s) digest_size in
  let negotiated := notnil (mz_Hello s) && notnil (mz_Challenge s) in
  reject negb (Bool.eqb (notnil (mz_Revoke s)) (stored_in s ConnectionRevoking || stored_in s ConnectionRevoked))
    with malformed_frame ;!
  reject (stored_in s ConnectionDraining || stored_in s ConnectionDrained) && (mz_DrainRevision s =? 0)
    with malformed_frame ;!
  reject stored_in s ConnectionUnattached && isnil (mz_Reconnect s)
         && (negb (es_Sequence (mz_Platform s) =? 0) || negb (es_Sequence (mz_Worker s) =? 0) || notnil (mz_Hello s)
             || notnil (mz_Challenge s) || negb (len (content (mz_CapabilityDigest s)) =? 0) || notnil (mz_Manifest s)
             || negb (bool_decide (as_State (ms_Summary (mz_Attempt s)) = AttemptIdle))
             || negb (mz_DrainRevision s =? 0) || notnil (mz_Revoke s))
    with malformed_frame ;!
  match mz_Connection s with
  | ConnectionHello => reject isnil (mz_Hello s) || notnil (mz_Challenge s) with malformed_frame ;! None
  | ConnectionChallenged => reject negb negotiated with malformed_frame ;! None
  | ConnectionAttachPending =>
      reject notnil (mz_Reconnect s) || negb negotiated || negb digested || notnil (mz_Manifest s)
        with malformed_frame ;! None
  | ConnectionReconnectPending =>
      reject match mz_Reconnect s with None => true | Some r => isnil (mr_Claim r) end || negb negotiated
             || isnil (mz_Manifest s) || negb digested
        with malformed_frame ;! None
  | ConnectionAttached =>
      reject negb negotiated || negb digested || negb (Bool.eqb (isnil (mz_Reconnect s)) (isnil (mz_Manifest s)))
        with malformed_frame ;! None
  | ConnectionReady | ConnectionDrained =>
      reject notnil (mz_Reconnect s) || negb negotiated || isnil (mz_Manifest s) || negb digested
        with malformed_frame ;! None
  | ConnectionDraining =>
      reject negb negotiated || isnil (mz_Manifest s) || negb digested
             || match mz_Reconnect s with
                | None => false
                | Some r => negb (bool_decide (mr_Target r = ConnectionDraining)) || isnil (mr_Claim r)
                end
        with malformed_frame ;! None
  | _ => None
  end.

Definition validateMachineSnapshotContent (s : MachineSnapshotV1) : option ProtocolError :=
  check snapshot_parts s ;!
  check snapshot_relations s ;!
  snapshot_state s.

Definition MachineSnapshotV1_Validate (s : MachineSnapshotV1) : option ProtocolError :=
  reject notnil (validateMachineSnapshotContent s) || negb (validBytes (mz_Digest s) digest_size) with malformed_frame ;!
  reject negb (bytes_equal (machineSnapshotDigestUnchecked s) (mz_Digest s)) with protocolError ErrorConflict ;!
  None.

Definition CanonicalMachineSnapshotBytesV1 (s : MachineSnapshotV1) : ProtocolError + string :=
  if notnil (validateMachineSnapshotContent s) then inl malformed_frame
  else inr (canonicalMachineSnapshotBytesUnchecked s).

Definition MachineSnapshotDigestV1 (s : MachineSnapshotV1) : ProtocolError + slice :=
  if notnil (validateMachineSnapshotContent s) then inl malformed_frame else inr (machineSnapshotDigestUnchecked s).

(** ** Configuration *)

Definition config_bytes (config : MachineConfig) : string :=
  let auth := mc_Auth config in
  let result := appendCanonicalField "" machineConfigDomainV1 in
  let result := appendCanonicalField result (au_TenantID auth) in
  let result := appendCanonicalField result (au_OwnerUserID auth) in
  let result := appendCanonicalField result (au_WorkerID auth) in
  let result := appendCanonicalField result (content (au_IdentityPublicKey auth)) in
  let result := appendCanonicalUint64 result (au_EnrollmentGeneration auth) in
  let result := appendCanonicalUint64 result (au_ConnectionGeneration auth) in
  let result := appendCanonicalUint32 result (au_Version auth) in
  let result := appendCanonicalField result (content (au_ChannelBinding auth)) in
  let result := appendVersionOffer result (mc_WorkerOffer config) in
  let result := appendVersionOffer result (mc_PlatformOffer config) in
  let result := appendCanonicalUint32 result (wrap_u32 (Z.of_nat (length (mc_ImplementedVersions config)))) in
  fold_left appendCanonicalUint32 (mc_ImplementedVersions config) result.

Definition machineConfigDigestV1 (config : MachineConfig) : ProtocolError + slice :=
  let config := cloneMachineConfig config in
  if notnil (AuthContextV1_Validate (mc_Auth config)) || notnil (VersionOfferV1_Validate (mc_WorkerOffer config))
     || notnil (VersionOfferV1_Validate (mc_PlatformOffer config))
  then inl (protocolError ErrorUnauthorized)
  else match NegotiateOffers (mc_WorkerOffer config) (mc_PlatformOffer config) (mc_ImplementedVersions config) with
       | inl _ => inl (protocolError ErrorUnauthorized)
       | inr selected =>
           if negb (selected =? au_Version (mc_Auth config)) then inl (protocolError ErrorUnauthorized)
           else inr (SBytes (sha256 (config_bytes config)))
       end.

Definition challenge_unconfigured (s : MachineSnapshotV1) (config : MachineConfig) : bool :=
  match mz_Challenge s with
  | None => false
  | Some c =>
      negb (sameVersionOffer (cl_WorkerOffer c) (mc_WorkerOffer config))
      || negb (sameVersionOffer (cl_PlatformOffer c) (mc_PlatformOffer config))
      || negb (cl_SelectedVersion c =? au_Version (mc_Auth config))
      || match mz_Hello s with None => true | Some h => negb (bytes_equal (cl_WorkerNonce c) (he_WorkerNonce h)) end
  end.

Definition manifest_unconfigured (s : MachineSnapshotV1) (config : MachineConfig) : bool :=
  match mz_Manifest s with
  | None => false
  | Some m =>
      match ManifestDigestV1 m with
      | inl _ => true
      | inr digest =>
          negb (String.eqb (mf_WorkerID m) (au_WorkerID (mc_Auth config)))
          || negb (mf_EnrollmentGeneration m =? au_EnrollmentGeneration (mc_Auth config))
          || negb (sameVersionOffer (mf_ProtocolOffer m) (mc_WorkerOffer config))
          || negb (bytes_equal digest (mz_CapabilityDigest s))
      end
  end.

Definition validateMachineSnapshotAgainstConfig (s : MachineSnapshotV1) (config : MachineConfig) : option ProtocolError :=
  let auth := mc_Auth config in
  reject match mz_Hello s with None => false | Some h => negb (sameVersionOffer (he_Offer h) (mc_WorkerOffer config)) end
    with protocolError ErrorUnauthorized ;!
  reject challenge_unconfigured s config with protocolError ErrorUnauthorized ;!
  reject manifest_unconfigured s config with protocolError ErrorUnauthorized ;!
  reject match mz_Revoke s with
         | None => false
         | Some r =>
             (au_EnrollmentGeneration auth =? max_u64) || (au_ConnectionGeneration auth =? max_u64)
             || negb (rv_NextEnrollmentGeneration r =? wrap_u64 (au_EnrollmentGeneration auth + 1))
             || negb (rv_NextConnectionGeneration r =? wrap_u64 (au_ConnectionGeneration auth + 1))
         end
    with protocolError ErrorUnauthorized ;!
  reject match mz_Reconnect s with
         | None => false
         | Some r =>
             (au_ConnectionGeneration auth =? 0) || (mr_PreviousConnectionGeneration r =? max_u64)
             || negb (wrap_u64 (mr_PreviousConnectionGeneration r + 1) =? au_ConnectionGeneration auth)
         end
    with protocolError ErrorUnauthorized ;!
  None.

(** ** Storing *)

Definition snapshotEnvelope (s : sequenceState) : MachineEnvelopeSnapshotV1 :=
  {| es_Sequence := sq_sequence s; es_Ack := sq_ack s;
     es_Fingerprint := if negb (sq_sequence s =? 0) then copied (SBytes (sq_fingerprint s)) else SNil |}.

Definition snapshotAttemptDirection (s : attemptSequenceState) : MachineAttemptDirectionSnapshotV1 :=
  let sequences := sort_by Z.ltb (map fst (map_to_list (aq_fingerprints s))) in
  {| ds_Sequence := aq_sequence s;
     ds_Fingerprints :=
       map (fun sequence => {| af_Sequence := sequence;
                               af_Fingerprint := copied (SBytes (default zero_fingerprint (aq_fingerprints s !! sequence))) |})
         sequences |}.

Definition snapshot_commitment (c : terminalReplayCommitment) : MachinePendingTerminalSnapshotV1 :=
  {| ps_Kind := tr_kind c; ps_Sequence := tr_sequence c; ps_Fingerprint := copied (SBytes (tr_fingerprint c));
     ps_Decision := tr_decision c; ps_Terminal := cloned_terminal (tr_terminal c) |}.

(** A part is stored when it is valid. *)
Definition if_valid {A} (validate : A -> option ProtocolError) (clone : A -> A) (v : A) : option A :=
  if isnil (validate v) then Some (clone v) else None.

Definition snapshot_reconnect (m : ConformanceMachine) : option MachineReconnectStateV1 :=
  if cm_reconnecting m || cm_drainReenvelopePending m then
    Some {| mr_Target := cm_reconnectTarget m;
            mr_PreviousConnectionGeneration := cm_previousConnectionGeneration m;
            mr_Watermarks := cm_reconnectWatermarks m;
            mr_Attempt := cloneAttemptSummary (cm_reconnectAttempt m);
            mr_Claim := if_valid ReconnectSnapshotV1_Validate cloneReconnectSnapshot (cm_reconnectClaim m) |}
  else None.

(** The snapshot before its digest is set. *)
Definition snapshot_of (m : ConformanceMachine) (configurationDigest : slice) : MachineSnapshotV1 :=
  {| mz_Version := MachineSnapshotVersionV1;
     mz_ConfigurationDigest := configurationDigest;
     mz_Connection := cm_connection m;
     mz_Platform := snapshotEnvelope (cm_platform m);
     mz_Worker := snapshotEnvelope (cm_worker m);
     mz_Hello := if_valid HelloV1_Validate cloneHello (cm_hello m);
     mz_Challenge := if_valid ChallengeV1_Validate cloneChallenge (cm_challenge m);
     mz_CapabilityDigest := copied (cm_capabilityDigest m);
     mz_Manifest := if_valid CapabilityManifestV1_Validate cloneManifest (cm_manifest m);
     mz_Attempt := {| ms_Summary := currentAttemptSummary m;
                      ms_Platform := snapshotAttemptDirection (ar_platform (cm_attempt m));
                      ms_Worker := snapshotAttemptDirection (ar_worker (cm_attempt m));
                      ms_PendingWorkerTerminal := option_map snapshot_commitment (ar_pendingWorkerTerminal (cm_attempt m)) |};
     mz_DrainRevision := cm_drainRevision m;
     mz_Revoke := if_valid RevokeV1_Validate id (cm_revoke m);
     mz_Reconnect := snapshot_reconnect m;
     mz_Digest := SNil |}.

Definition Snapshot (m : ConformanceMachine) : ProtocolError + MachineSnapshotV1 :=
  match machineConfigDigestV1 (cm_config m) with
  | inl err => inl err
  | inr configurationDigest =>
      let snapshot := snapshot_of m configurationDigest in
      match MachineSnapshotDigestV1 snapshot with
      | inl err => inl err
      | inr digest => inr (cloneMachineSnapshot {| snapshot with mz_Digest := digest |})
      end
  end.

(** ** Restoring *)

(** [copy] into an array of 32 bytes that is zero. *)
Definition fingerprint_of (s : slice) : string :=
  String.substring 0 32 (content s) +:+ String.substring (String.length (content s)) 32 zero_fingerprint.

Definition restoreEnvelope (s : MachineEnvelopeSnapshotV1) : sequenceState :=
  {| sq_sequence := es_Sequence s; sq_ack := es_Ack s; sq_fingerprint := fingerprint_of (es_Fingerprint s) |}.

Definition restoreAttemptDirection (s : MachineAttemptDirectionSnapshotV1) : attemptSequenceState :=
  {| aq_sequence := ds_Sequence s;
     aq_fingerprints := fold_left (fun fingerprints item =>
                          <[af_Sequence item := fingerprint_of (af_Fingerprint item)]> fingerprints) (ds_Fingerprints s) ∅ |}.

Definition restore_commitment (p : MachinePendingTerminalSnapshotV1) : terminalReplayCommitment :=
  {| tr_kind := ps_Kind p; tr_sequence := ps_Sequence p; tr_fingerprint := fingerprint_of (ps_Fingerprint p);
     tr_decision := ps_Decision p; tr_terminal := cloned_terminal (ps_Terminal p) |}.

Definition restore_attempt (m : ConformanceMachine) (a : MachineAttemptSnapshotV1) : ConformanceMachine :=
  let m := applyAttemptSummary m (ms_Summary a) in
  let r := cm_attempt m in
  with_attempt m {| r with ar_platform := restoreAttemptDirection (ms_Platform a);
                           ar_worker := restoreAttemptDirection (ms_Worker a);
                           ar_pendingWorkerTerminal :=
                             match ms_PendingWorkerTerminal a with
                             | None => ar_pendingWorkerTerminal r
                             | Some p => Some (restore_commitment p)
                             end |}.

Definition restore_reconnect (m : ConformanceMachine) (s : MachineSnapshotV1) : ConformanceMachine :=
  match mz_Reconnect s with
  | None => m
  | Some r =>
      {| m with cm_reconnecting := negb (stored_in s ConnectionDraining);
                cm_drainReenvelopePending := stored_in s ConnectionDraining;
                cm_reconnectTarget := mr_Target r;
                cm_previousConnectionGeneration := mr_PreviousConnectionGeneration r;
                cm_reconnectWatermarks := mr_Watermarks r;
                cm_reconnectAttempt := cloneAttemptSummary (mr_Attempt r);
                cm_reconnectClaim := match mr_Claim r with
                                     | None => cm_reconnectClaim m
                                     | Some claim => cloneReconnectSnapshot claim
                                     end |}
  end.

Definition restored_machine (m : ConformanceMachine) (s : MachineSnapshotV1) : ConformanceMachine :=
  let m := {| m with cm_connection := mz_Connection s;
                     cm_platform := restoreEnvelope (mz_Platform s);
                     cm_worker := restoreEnvelope (mz_Worker s);
                     cm_hello := match mz_Hello s with None => cm_hello m | Some h => cloneHello h end;
                     cm_challenge := match mz_Challenge s with None => cm_challenge m | Some c => cloneChallenge c end;
                     cm_capabilityDigest := copied (mz_CapabilityDigest s);
                     cm_manifest := match mz_Manifest s with None => cm_manifest m | Some c => cloneManifest c end |} in
  let m := restore_attempt m (mz_Attempt s) in
  let m := {| m with cm_drainRevision := mz_DrainRevision s;
                     cm_revoke := match mz_Revoke s with None => cm_revoke m | Some r => r end |} in
  restore_reconnect m s.

Definition RestoreConformanceMachine (config : MachineConfig) (snapshot : MachineSnapshotV1)
  : ProtocolError + ConformanceMachine :=
  let snapshot := cloneMachineSnapshot snapshot in
  if notnil (MachineSnapshotV1_Validate snapshot) then inl (protocolError ErrorConflict)
  else match machineConfigDigestV1 config with
       | inl _ => inl (protocolError ErrorUnauthorized)
       | inr configurationDigest =>
           if negb (bytes_equal configurationDigest (mz_ConfigurationDigest snapshot))
           then inl (protocolError ErrorUnauthorized)
           else match NewConformanceMachine config with
                | inl _ => inl (protocolError ErrorUnauthorized)
                | inr machine =>
                    if notnil (validateMachineSnapshotAgainstConfig snapshot (cm_config machine))
                    then inl (protocolError ErrorUnauthorized)
                    else
                      let machine := restored_machine machine snapshot in
                      match Snapshot machine with
                      | inl _ => inl (protocolError ErrorConflict)
                      | inr restored =>
                          if negb (bytes_equal (mz_Digest restored) (mz_Digest snapshot))
                          then inl (protocolError ErrorConflict)
                          else inr machine
                      end
                end
       end.
