(* ===== verification/WorkerReducers.v ===== *)
(** * Reducers over stored machines
      ([internal/attachedworkerprotocol]: [durable.go])

    What a store does with a stored machine: it restores it, builds or takes a frame,
    offers it and stores the machine again. A result is [None] when a nil payload is
    dereferenced. *)

From stdpp Require Import gmap.
From S2P Require Import Prelude GoText Sorting Sha256 Json WorkerProtocol WorkerFrames WorkerReconnect.
From S2P Require Import WorkerTranscripts WorkerMachine WorkerSnapshot.
#[local] Open Scope Z_scope.

Definition machineFenceDomainV1 : string := "sessionless.attached-worker.fence.v1" +:+ String (Ascii.ascii_of_nat 0) "".

Record LeaseOfferAuthorityV1 := {
  oa_RunID : string;
  oa_AttemptID : string;
  oa_LeaseID : string;
  oa_LeaseGeneration : Z;
  oa_NowUnixMicro : Z;
  oa_ExpiresAtUnixMicro : Z;
  oa_ContextDigest : slice;
  oa_PolicyDigest : slice }.

Record CancelAuthorityV1 := { cu_Revision : Z; cu_Code : CancelCode; cu_NowUnixMicro : Z }.
Record LeaseAcceptedAuthorityV1 := { lu_NowUnixMicro : Z }.
Record TerminalAckAuthorityV1 := { tu_NowUnixMicro : Z }.
Record DrainAuthorityV1 := { du_Revision : Z; du_DeliveredConnectionGeneration : Z; du_NowUnixMicro : Z }.

(** ** Fingerprints and frames *)

Definition isAttemptMessage (kind : MessageKind) : bool :=
  match kind with
  | MessageLeaseOffer | MessageLeaseClaim | MessageLeaseAccepted | MessageProgress | MessageCancel | MessageCancelAck
  | MessageTerminal | MessageTerminalAck => true
  | _ => false
  end.

Definition AttemptFrameFingerprintV1 (frame : FrameV1) : ProtocolError + slice :=
  if notnil (FrameV1_Validate frame) || negb (isAttemptMessage (fr_Kind frame)) then inl (protocolError ErrorInvalidFrame)
  else inr (SBytes (attemptFingerprint frame)).

Definition FrameFingerprintV1 (frame : FrameV1) : ProtocolError + slice :=
  if notnil (FrameV1_Validate frame) then inl (protocolError ErrorInvalidFrame) else inr (SBytes (frameFingerprint frame)).

(** The payload is never nil where this is called. *)
Definition attemptSequence (frame : FrameV1) : Z :=
  match attemptPayload frame with Some (_, sequence) => sequence | None => 0 end.

(** The envelope every builder fills in the same way; the payload is added to it. *)
Definition envelope_of (auth : AuthContextV1) (direction : Direction) (sequence ack : Z) (kind : MessageKind) : FrameV1 :=
  let f := terminal_frame None in
  {| f with fr_Version := au_Version auth; fr_MessageID := MessageIDV1 direction sequence;
            fr_WorkerID := au_WorkerID auth; fr_EnrollmentGeneration := au_EnrollmentGeneration auth;
            fr_ConnectionGeneration := au_ConnectionGeneration auth; fr_Sequence := sequence; fr_Ack := ack;
            fr_Kind := kind |}.

(** The next frame of the platform. *)
Definition next_envelope (auth : AuthContextV1) (m : ConformanceMachine) (kind : MessageKind) : FrameV1 :=
  envelope_of auth DirectionPlatformToWorker (wrap_u64 (sq_sequence (cm_platform m) + 1)) (sq_sequence (cm_worker m)) kind.

(** The frame of the platform that was sent last. *)
Definition last_envelope (auth : AuthContextV1) (m : ConformanceMachine) (kind : MessageKind) : FrameV1 :=
  envelope_of auth DirectionPlatformToWorker (sq_sequence (cm_platform m)) (sq_ack (cm_platform m)) kind.

Definition cancel_frame (f : FrameV1) (m : ConformanceMachine) (sequence revision : Z) (code : CancelCode) : FrameV1 :=
  {| f with fr_Cancel := Some {| ca_Binding := cloneBinding (ar_binding (cm_attempt m)); ca_AttemptSequence := sequence;
                                 ca_CancelRevision := revision; ca_Code := code |} |}.
Definition lease_accepted_frame (f : FrameV1) (m : ConformanceMachine) (sequence : Z) : FrameV1 :=
  {| f with fr_LeaseAccepted := Some {| la_Binding := cloneBinding (ar_binding (cm_attempt m)); la_AttemptSequence := sequence |} |}.
Definition terminal_ack_frame (f : FrameV1) (m : ConformanceMachine) (sequence : Z) : FrameV1 :=
  let a := cm_attempt m in
  {| f with fr_TerminalAck := Some {| ta_Binding := cloneBinding (ar_binding a); ta_AttemptSequence := sequence;
       ta_TerminalSequence := ar_terminalSequence a; ta_Status := ar_terminalStatus a; ta_Result := ar_terminalResult a;
       ta_EvidenceDigest := copied (ar_terminalEvidence a) |} |}.
Definition drain_frame (f : FrameV1) (revision : Z) : FrameV1 := {| f with fr_Drain := Some {| dr_Revision := revision |} |}.

Definition exactPersistedPlatformAttemptFrame (m : ConformanceMachine) (frame : FrameV1) : option FrameV1 :=
  if notnil (FrameV1_Validate frame) || (fr_Sequence frame =? 0)
     || negb (String.eqb (sq_fingerprint (cm_platform m)) (frameFingerprint frame))
  then None
  else match aq_fingerprints (ar_platform (cm_attempt m)) !! attemptSequence frame with
       | None => None
       | Some fingerprint => if negb (String.eqb fingerprint (attemptFingerprint frame)) then None else Some frame
       end.

Definition exactPersistedDrainFrame (config : MachineConfig) (m : ConformanceMachine) : option FrameV1 :=
  let frame := drain_frame (last_envelope (mc_Auth config) m MessageDrain) (cm_drainRevision m) in
  if notnil (FrameV1_Validate frame) || (fr_Sequence frame =? 0)
     || negb (String.eqb (sq_fingerprint (cm_platform m)) (frameFingerprint frame))
  then None else Some frame.

Definition exactPersistedCancelFrame (config : MachineConfig) (m : ConformanceMachine) : option FrameV1 :=
  let a := cm_attempt m in
  exactPersistedPlatformAttemptFrame m
    (cancel_frame (last_envelope (mc_Auth config) m MessageCancel) m (aq_sequence (ar_platform a)) (ar_cancelRevision a)
       (ar_cancelCode a)).

Definition exactPersistedLeaseAcceptedFrame (config : MachineConfig) (m : ConformanceMachine) : option FrameV1 :=
  exactPersistedPlatformAttemptFrame m
    (lease_accepted_frame (last_envelope (mc_Auth config) m MessageLeaseAccepted) m (aq_sequence (ar_platform (cm_attempt m)))).

Definition exactPersistedTerminalAckFrame (config : MachineConfig) (m : ConformanceMachine) : option FrameV1 :=
  exactPersistedPlatformAttemptFrame m
    (terminal_ack_frame (last_envelope (mc_Auth config) m MessageTerminalAck) m (aq_sequence (ar_platform (cm_attempt m)))).

(** [hash.Write] of a length and a value. *)
Definition fence_field (destination value : string) : string :=
  appendCanonicalUint64 destination (len value) +:+ value.

Definition opaqueLeaseFenceTokenV1 (auth : AuthContextV1) (authority : LeaseOfferAuthorityV1) : string :=
  let hashed := fold_left fence_field
                  [au_TenantID auth; au_OwnerUserID auth; au_WorkerID auth; oa_RunID authority; oa_AttemptID authority;
                   oa_LeaseID authority] machineFenceDomainV1 in
  sha256_hex (appendCanonicalUint64 hashed (oa_LeaseGeneration authority)).

(** ** Reducers *)

Definition result A := option (ProtocolError + A).
Definition refused {A} (code : ErrorCode) : result A := Some (inl (protocolError code)).

Section Reducers.
Variable verify : string -> string -> string -> bool.   (** [ed25519.Verify] *)

Definition acceptance_at (auth : AuthContextV1) (nowUnixMicro : Z) : AcceptanceContextV1 :=
  {| ac_ChannelBinding := au_ChannelBinding auth; ac_NowUnixMicro := nowUnixMicro |}.

Definition ApplyMachineFrameV1 (config : MachineConfig) (snapshot : MachineSnapshotV1) (direction : Direction)
    (frame : FrameV1) (nowUnixMicro : Z) : result MachineSnapshotV1 :=
  match RestoreConformanceMachine config snapshot with
  | inl err => Some (inl err)
  | inr m =>
      match Accept verify m direction frame (acceptance_at (mc_Auth config) nowUnixMicro) with
      | None => None
      | Some (_, Some err) => Some (inl err)
      | Some (m, None) => Some (Snapshot m)
      end
  end.

(** The end of every builder: the frame is offered to the machine and the machine stored. *)
Definition offer_and_store (config : MachineConfig) (m : ConformanceMachine) (frame : FrameV1) (nowUnixMicro : Z)
  : result (FrameV1 * MachineSnapshotV1) :=
  if notnil (FrameV1_Validate frame) then refused ErrorConflict
  else match Accept verify m DirectionPlatformToWorker frame (acceptance_at (mc_Auth config) nowUnixMicro) with
       | None => None
       | Some (_, Some _) => refused ErrorConflict
       | Some (m, None) =>
           match Snapshot m with inl _ => refused ErrorConflict | inr post => Some (inr (frame, post)) end
       end.

(** A retry returns the frame that was sent and the snapshot it was given. *)
Definition sent_again (frame : option FrameV1) (snapshot : MachineSnapshotV1) : result (FrameV1 * MachineSnapshotV1) :=
  match frame with None => refused ErrorConflict | Some f => Some (inr (f, cloneMachineSnapshot snapshot)) end.

Definition platform_exhausted (m : ConformanceMachine) : bool := sq_sequence (cm_platform m) =? max_u64.
Definition attempt_exhausted (m : ConformanceMachine) : bool := aq_sequence (ar_platform (cm_attempt m)) =? max_u64.
Definition next_attempt_sequence (m : ConformanceMachine) : Z := wrap_u64 (aq_sequence (ar_platform (cm_attempt m)) + 1).

Definition BuildLeaseOfferTransitionV1 (config : MachineConfig) (snapshot : MachineSnapshotV1)
    (authority : LeaseOfferAuthorityV1) : result (FrameV1 * MachineSnapshotV1) :=
  match RestoreConformanceMachine config snapshot with
  | inl _ => refused ErrorConflict
  | inr m =>
      if negb (in_state m ConnectionReady) || negb (attempt_in m AttemptIdle) || (oa_NowUnixMicro authority <=? 0)
         || (oa_ExpiresAtUnixMicro authority <=? oa_NowUnixMicro authority) || platform_exhausted m || attempt_exhausted m
      then refused ErrorConflict
      else
        let binding :=
          {| ab_RunID := oa_RunID authority; ab_AttemptID := oa_AttemptID authority; ab_LeaseID := oa_LeaseID authority;
             ab_LeaseGeneration := oa_LeaseGeneration authority;
             ab_FenceToken := opaqueLeaseFenceTokenV1 (mc_Auth config) authority;
             ab_ExpiresAtUnixMicro := oa_ExpiresAtUnixMicro authority;
             ab_ContextDigest := copied (oa_ContextDigest authority);
             ab_CapabilityDigest := copied (cm_capabilityDigest m);
             ab_PolicyDigest := copied (oa_PolicyDigest authority) |} in
        let f := next_envelope (mc_Auth config) m MessageLeaseOffer in
        let frame := {| f with fr_LeaseOffer := Some {| lo_Binding := binding; lo_AttemptSequence := next_attempt_sequence m |} |} in
        offer_and_store config m frame (oa_NowUnixMicro authority)
  end.

Definition BuildCancelTransitionV1 (config : MachineConfig) (snapshot : MachineSnapshotV1) (authority : CancelAuthorityV1)
  : result (FrameV1 * MachineSnapshotV1) :=
  match RestoreConformanceMachine config snapshot with
  | inl _ => refused ErrorConflict
  | inr m =>
      let a := cm_attempt m in
      if negb (cu_Revision authority =? 1)
         || negb (bool_decide (cu_Code authority = CancelRequested)) && negb (bool_decide (cu_Code authority = CancelFenced))
         || (cu_NowUnixMicro authority <=? 0) || platform_exhausted m || attempt_exhausted m
      then refused ErrorConflict
      else if negb (ar_cancelRevision a =? 0) then
        if negb (ar_cancelRevision a =? cu_Revision authority) || negb (bool_decide (ar_cancelCode a = cu_Code authority))
        then refused ErrorConflict
        else sent_again (exactPersistedCancelFrame config m) snapshot
      else
        let frame := cancel_frame (next_envelope (mc_Auth config) m MessageCancel) m (next_attempt_sequence m)
                       (cu_Revision authority) (cu_Code authority) in
        offer_and_store config m frame (cu_NowUnixMicro authority)
  end.

Definition BuildLeaseAcceptedTransitionV1 (config : MachineConfig) (snapshot : MachineSnapshotV1)
    (authority : LeaseAcceptedAuthorityV1) : result (FrameV1 * MachineSnapshotV1) :=
  match RestoreConformanceMachine config snapshot with
  | inl _ => refused ErrorConflict
  | inr m =>
      if (lu_NowUnixMicro authority <=? 0) || platform_exhausted m || attempt_exhausted m then refused ErrorConflict
      else if attempt_in m AttemptClaimed then sent_again (exactPersistedLeaseAcceptedFrame config m) snapshot
      else
        let frame := lease_accepted_frame (next_envelope (mc_Auth config) m MessageLeaseAccepted) m (next_attempt_sequence m) in
        offer_and_store config m frame (lu_NowUnixMicro authority)
  end.

Definition BuildTerminalAckTransitionV1 (config : MachineConfig) (snapshot : MachineSnapshotV1)
    (authority : TerminalAckAuthorityV1) : result (FrameV1 * MachineSnapshotV1) :=
  match RestoreConformanceMachine config snapshot with
  | inl _ => refused ErrorConflict
  | inr m =>
      if (tu_NowUnixMicro authority <=? 0) || platform_exhausted m || attempt_exhausted m then refused ErrorConflict
      else if attempt_in m AttemptTerminalCommitted then sent_again (exactPersistedTerminalAckFrame config m) snapshot
      else
        let frame := terminal_ack_frame (next_envelope (mc_Auth config) m MessageTerminalAck) m (next_attempt_sequence m) in
        offer_and_store config m frame (tu_NowUnixMicro authority)
  end.

Definition BuildDrainTransitionV1 (config : MachineConfig) (snapshot : MachineSnapshotV1) (authority : DrainAuthorityV1)
  : result (FrameV1 * MachineSnapshotV1) :=
  match RestoreConformanceMachine config snapshot with
  | inl _ => refused ErrorConflict
  | inr m =>
      let generation := au_ConnectionGeneration (mc_Auth config) in
      let delivered := du_DeliveredConnectionGeneration authority in
      if (du_Revision authority =? 0) || (du_NowUnixMicro authority <=? 0) || platform_exhausted m
      then refused ErrorConflict
      else if in_state m ConnectionDraining && (delivered =? generation) then
        if negb (cm_drainRevision m =? du_Revision authority) then refused ErrorConflict
        else sent_again (exactPersistedDrainFrame config m) snapshot
      else
        let initial := in_state m ConnectionReady && (delivered =? 0) in
        let reenvelope := in_state m ConnectionDraining && (cm_drainRevision m =? du_Revision authority)
                          && (delivered >? 0) && (delivered <? generation) in
        if negb initial && negb reenvelope then refused ErrorConflict
        else
          let frame := drain_frame (next_envelope (mc_Auth config) m MessageDrain) (du_Revision authority) in
          offer_and_store config m frame (du_NowUnixMicro authority)
  end.

Definition RetireCommittedAttemptV1 (config : MachineConfig) (snapshot : MachineSnapshotV1) : ProtocolError + MachineSnapshotV1 :=
  match RestoreConformanceMachine config snapshot with
  | inl _ => inl (protocolError ErrorConflict)
  | inr m =>
      if negb (attempt_in m AttemptTerminalCommitted) || (sq_ack (cm_worker m) <? sq_sequence (cm_platform m))
      then inl (protocolError ErrorConflict)
      else match EraseCommittedAttempt m with
           | (_, Some _) => inl (protocolError ErrorConflict)
           | (m, None) => match Snapshot m with inl _ => inl (protocolError ErrorConflict) | inr post => inr post end
           end
  end.

Definition RetirePreClaimCancelledAttemptV1 (config : MachineConfig) (snapshot : MachineSnapshotV1)
  : ProtocolError + MachineSnapshotV1 :=
  match RestoreConformanceMachine config snapshot with
  | inl _ => inl (protocolError ErrorConflict)
  | inr m =>
      if negb (attempt_in m AttemptCancelAcked) then inl (protocolError ErrorConflict)
      else match Snapshot (with_attempt m idle_attempt) with
           | inl _ => inl (protocolError ErrorConflict)
           | inr post => inr post
           end
  end.

(** ** Handshakes *)

(** [Some None] when a frame is refused. *)
Fixpoint accept_all (m : ConformanceMachine) (l : list (Direction * FrameV1)) (acceptance : AcceptanceContextV1)
  : option (option ConformanceMachine) :=
  match l with
  | [] => Some (Some m)
  | (d, f) :: r =>
      match Accept verify m d f acceptance with
      | None => None
      | Some (_, Some _) => Some None
      | Some (m, None) => accept_all m r acceptance
      end
  end.

Definition hello_frame (auth : AuthContextV1) (offer : VersionOfferV1) (nonce : slice) : FrameV1 :=
  let f := envelope_of auth DirectionWorkerToPlatform 1 0 MessageHello in
  {| f with fr_Hello := Some {| he_Offer := cloneVersionOffer offer; he_WorkerNonce := copied nonce |} |}.

Definition challenge_frame (auth : AuthContextV1) (workerOffer platformOffer : VersionOfferV1) (selected : Z)
    (workerNonce platformNonce : slice) : FrameV1 :=
  let f := envelope_of auth DirectionPlatformToWorker 1 1 MessageChallenge in
  {| f with fr_Challenge := Some {| cl_WorkerOffer := cloneVersionOffer workerOffer;
       cl_PlatformOffer := cloneVersionOffer platformOffer; cl_SelectedVersion := selected;
       cl_WorkerNonce := copied workerNonce; cl_PlatformNonce := copied platformNonce |} |}.

(** The time of a handshake does not matter. *)
Definition handshake_acceptance (auth : AuthContextV1) : AcceptanceContextV1 :=
  {| ac_ChannelBinding := copied (au_ChannelBinding auth); ac_NowUnixMicro := 1 |}.

Definition BuildInitialAttachSnapshotV1 (config : MachineConfig) (signedAttach accepted : FrameV1)
  : result MachineSnapshotV1 :=
  match fr_Attach signedAttach with
  | None => refused ErrorUnauthorized
  | Some attach =>
      if negb (bool_decide (fr_Kind signedAttach = MessageAttach))
         || negb (bool_decide (fr_Kind accepted = MessageAttachAccepted)) || isnil (fr_AttachAccepted accepted)
      then refused ErrorUnauthorized
      else match NewConformanceMachine config with
           | inl _ => refused ErrorUnauthorized
           | inr m =>
               let auth := mc_Auth config in
               let frames :=
                 [(DirectionWorkerToPlatform, hello_frame auth (at_WorkerOffer attach) (at_WorkerNonce attach));
                  (DirectionPlatformToWorker,
                   challenge_frame auth (at_WorkerOffer attach) (at_PlatformOffer attach) (at_SelectedVersion attach)
                     (at_WorkerNonce attach) (at_PlatformNonce attach));
                  (DirectionWorkerToPlatform, signedAttach); (DirectionPlatformToWorker, accepted)] in
               match accept_all m frames (handshake_acceptance auth) with
               | None => None
               | Some None => refused ErrorUnauthorized
               | Some (Some m) =>
                   if negb (in_state m ConnectionAttached) then refused ErrorConflict else Some (Snapshot m)
               end
           end
  end.

Definition reconnect_negotiation (r : ReconnectV1) : ReconnectNegotiationV1 :=
  {| rn_WorkerOffer := rc_WorkerOffer r; rn_PlatformOffer := rc_PlatformOffer r;
     rn_SelectedVersion := rc_SelectedVersion r; rn_WorkerNonce := rc_WorkerNonce r;
     rn_PlatformNonce := rc_PlatformNonce r; rn_CapabilityDigest := rc_CapabilityDigest r |}.

Definition reconnect_accepted_frame (auth : AuthContextV1) (payload : ReconnectAcceptedV1) : FrameV1 :=
  let f := envelope_of auth DirectionPlatformToWorker 2 2 MessageReconnectAccepted in
  {| f with fr_ReconnectAccepted := Some payload |}.

Definition BuildReconnectAcceptedSnapshotV1 (previousConfig : MachineConfig) (previousSnapshot : MachineSnapshotV1)
    (nextAuth : AuthContextV1) (signedReconnect : FrameV1) : result (FrameV1 * MachineSnapshotV1) :=
  match fr_Reconnect signedReconnect with
  | None => refused ErrorUnauthorized
  | Some reconnect =>
      if negb (bool_decide (fr_Kind signedReconnect = MessageReconnect)) then refused ErrorUnauthorized
      else match RestoreConformanceMachine previousConfig previousSnapshot with
           | inl _ => refused ErrorUnauthorized
           | inr m =>
               match BeginReconnect m nextAuth with
               | (_, inl _) => refused ErrorUnauthorized
               | (m, inr authoritative) =>
                   let frames :=
                     [(DirectionWorkerToPlatform, hello_frame nextAuth (rc_WorkerOffer reconnect) (rc_WorkerNonce reconnect));
                      (DirectionPlatformToWorker,
                       challenge_frame nextAuth (rc_WorkerOffer reconnect) (rc_PlatformOffer reconnect)
                         (rc_SelectedVersion reconnect) (rc_WorkerNonce reconnect) (rc_PlatformNonce reconnect));
                      (DirectionWorkerToPlatform, signedReconnect)] in
                   match accept_all m frames (handshake_acceptance nextAuth) with
                   | None => None
                   | Some None => refused ErrorUnauthorized
                   | Some (Some m) =>
                       match BuildReconnectAcceptedV1 authoritative (claimed_snapshot reconnect)
                               (reconnect_negotiation reconnect) with
                       | inl _ => refused ErrorUnauthorized
                       | inr payload =>
                           let accepted := reconnect_accepted_frame nextAuth payload in
                           match Accept verify m DirectionPlatformToWorker accepted (handshake_acceptance nextAuth) with
                           | None => None
                           | Some (_, Some _) => refused ErrorUnauthorized
                           | Some (m, None) =>
                               match Snapshot m with
                               | inl _ => refused ErrorConflict
                               | inr post =>
                                   if negb (stored_in post ConnectionAttached) then refused ErrorConflict
                                   else Some (inr (accepted, post))
                               end
                           end
                       end
                   end
               end
           end
  end.

(** The stored reconnect is the one that is replayed. *)
Definition replay_mismatch (post : MachineSnapshotV1) (stored claim : ReconnectSnapshotV1) (reconnect : ReconnectV1) : bool :=
  notnil (ReconnectSnapshotV1_Validate claim) || negb (bytes_equal (rs_Digest claim) (rs_Digest stored))
  || isnil (mz_Hello post)
  || match mz_Challenge post with
     | None => true
     | Some challenge =>
         negb (negotiationMatchesChallenge (rc_WorkerOffer reconnect) (rc_PlatformOffer reconnect)
                 (rc_SelectedVersion reconnect) (rc_WorkerNonce reconnect) (rc_PlatformNonce reconnect) challenge)
     end
  || negb (bytes_equal (rc_CapabilityDigest reconnect) (mz_CapabilityDigest post)).

Definition replay_authoritative (r : MachineReconnectStateV1) : ReconnectSnapshotV1 :=
  sealReconnectSnapshot
    {| rs_PreviousConnectionGeneration := mr_PreviousConnectionGeneration r; rs_Watermarks := mr_Watermarks r;
       rs_Attempt := mr_Attempt r; rs_PendingTerminalReplay := None; rs_Digest := SNil |}.

Definition ReplayReconnectAcceptedV1 (config : MachineConfig) (post : MachineSnapshotV1) (signedReconnect : FrameV1)
  : result FrameV1 :=
  match RestoreConformanceMachine config post, mz_Reconnect post, fr_Reconnect signedReconnect with
  | inr m, Some stored, Some reconnect =>
      if negb (stored_in post ConnectionAttached) || isnil (mr_Claim stored)
         || negb (bool_decide (fr_Kind signedReconnect = MessageReconnect))
         || notnil (VerifyReconnectV1 verify (mc_Auth config) signedReconnect)
      then refused ErrorUnauthorized
      else
        let claim := claimed_snapshot reconnect in
        if replay_mismatch post (default zero_snapshot (mr_Claim stored)) claim reconnect then refused ErrorUnauthorized
        else match BuildReconnectAcceptedV1 (replay_authoritative stored) claim (reconnect_negotiation reconnect) with
             | inl _ => refused ErrorUnauthorized
             | inr payload =>
                 let accepted := reconnect_accepted_frame (mc_Auth config) payload in
                 match Accept verify m DirectionPlatformToWorker accepted (handshake_acceptance (mc_Auth config)) with
                 | None => None
                 | Some (_, Some _) => refused ErrorUnauthorized
                 | Some (m, None) =>
                     match Snapshot m with
                     | inl _ => refused ErrorConflict
                     | inr replayed =>
                         if negb (bytes_equal (mz_Digest replayed) (mz_Digest post)) then refused ErrorConflict
                         else Some (inr accepted)
                     end
                 end
             end
  | _, _, _ => refused ErrorUnauthorized
  end.
End Reducers.
