(* ===== verification/WorkerSample.v ===== *)
(** * A sample conversation of the attached-worker protocol

    The frames of one connection, from the worker's hello to the acknowledgement of its
    terminal, and the run of a machine over a list of frames. *)

From stdpp Require Import gmap.
From S2P Require Import Prelude GoText Sha256 Json WorkerProtocol WorkerFrames WorkerReconnect WorkerTranscripts.
From S2P Require Import WorkerMachine.
#[local] Open Scope Z_scope.

(** The machine after a list of frames, if it accepts them all. *)
Fixpoint accepts (verify : string -> string -> string -> bool) (m : ConformanceMachine)
    (l : list (Direction * FrameV1)) (acceptance : AcceptanceContextV1) : option ConformanceMachine :=
  match l with
  | [] => Some m
  | (d, f) :: r =>
      match Accept verify m d f acceptance with
      | Some (m', None) => accepts verify m' r acceptance
      | _ => None
      end
  end.

Module WorkerSample.
Fixpoint bytes (n : nat) (c : string) : string := match n with O => "" | S n => c +:+ bytes n c end.
Definition b32 (c : string) : slice := SBytes (bytes 32 c).
Definition signature : slice := SBytes (bytes 64 "s").

Definition offer : VersionOfferV1 := {| vo_Window := {| vw_Minimum := 1; vw_Maximum := 1 |}; vo_Supported := [1] |}.

Definition auth : AuthContextV1 :=
  {| au_TenantID := "tenant"; au_OwnerUserID := "owner"; au_WorkerID := "worker"; au_IdentityPublicKey := b32 "k";
     au_EnrollmentGeneration := 1; au_ConnectionGeneration := 1; au_Version := 1; au_ChannelBinding := b32 "c" |}.
Definition next_auth : AuthContextV1 := {| auth with au_ConnectionGeneration := 2; au_ChannelBinding := b32 "d" |}.

Definition config : MachineConfig :=
  {| mc_Auth := auth; mc_WorkerOffer := offer; mc_PlatformOffer := offer; mc_ImplementedVersions := [1] |}.

Definition acceptance : AcceptanceContextV1 := {| ac_ChannelBinding := b32 "c"; ac_NowUnixMicro := 10 |}.

(** An envelope without a payload. *)
Definition envelope (d : Direction) (sequence ack : Z) (kind : MessageKind) : FrameV1 :=
  let f := terminal_frame None in
  {| f with fr_Version := 1; fr_MessageID := MessageIDV1 d sequence; fr_WorkerID := "worker";
            fr_EnrollmentGeneration := 1; fr_ConnectionGeneration := 1; fr_Sequence := sequence; fr_Ack := ack;
            fr_Kind := kind |}.

Definition worker := DirectionWorkerToPlatform.
Definition platform := DirectionPlatformToWorker.

Definition manifest : CapabilityManifestV1 :=
  {| mf_WorkerID := "worker"; mf_EnrollmentGeneration := 1; mf_Revision := 1; mf_ProtocolOffer := offer;
     mf_OperatingSystem := "linux"; mf_Architecture := "amd64"; mf_BuildID := "build"; mf_HarnessName := "harness";
     mf_HarnessVersion := "v1"; mf_HarnessSurface := HarnessSurfaceSessionTurn; mf_HarnessExecutableDigest := b32 "h";
     mf_IsolationEvidence := [IsolationProcessBoundary]; mf_Features := [FeatureCancellation; FeatureProgress; FeatureReconnect];
     mf_MaxConcurrentAttempts := 1 |}.

(** The digest of the manifest, computed once. *)
Definition digest : slice :=
  Eval vm_compute in match ManifestDigestV1 manifest with inr d => d | inl _ => SNil end.

Definition hello : FrameV1 :=
  let f := envelope worker 1 0 MessageHello in
  {| f with fr_Hello := Some {| he_Offer := offer; he_WorkerNonce := b32 "n" |} |}.
Definition challenge : FrameV1 :=
  let f := envelope platform 1 1 MessageChallenge in
  {| f with fr_Challenge := Some {| cl_WorkerOffer := offer; cl_PlatformOffer := offer; cl_SelectedVersion := 1;
                                    cl_WorkerNonce := b32 "n"; cl_PlatformNonce := b32 "m" |} |}.
Definition attach : FrameV1 :=
  let f := envelope worker 2 1 MessageAttach in
  {| f with fr_Attach := Some {| at_WorkerOffer := offer; at_PlatformOffer := offer; at_SelectedVersion := 1;
       at_WorkerNonce := b32 "n"; at_PlatformNonce := b32 "m"; at_CapabilityDigest := digest; at_Signature := signature |} |}.
Definition attach_accepted : FrameV1 :=
  let f := envelope platform 2 2 MessageAttachAccepted in
  {| f with fr_AttachAccepted := Some {| aa_WorkerOffer := offer; aa_PlatformOffer := offer; aa_SelectedVersion := 1;
       aa_WorkerNonce := b32 "n"; aa_PlatformNonce := b32 "m"; aa_CapabilityDigest := digest |} |}.
Definition manifest_frame : FrameV1 :=
  let f := envelope worker 3 2 MessageManifest in
  {| f with fr_Manifest := Some {| mn_Manifest := manifest; mn_Digest := digest; mn_Signature := signature |} |}.

Definition handshake : list (Direction * FrameV1) :=
  [(worker, hello); (platform, challenge); (worker, attach); (platform, attach_accepted); (worker, manifest_frame)].

Definition binding : AttemptBindingV1 :=
  {| ab_RunID := "run"; ab_AttemptID := "attempt"; ab_LeaseID := "lease"; ab_LeaseGeneration := 1; ab_FenceToken := "fence";
     ab_ExpiresAtUnixMicro := 1000; ab_ContextDigest := b32 "x"; ab_CapabilityDigest := digest; ab_PolicyDigest := b32 "p" |}.

Definition lease_offer : FrameV1 :=
  let f := envelope platform 3 3 MessageLeaseOffer in
  {| f with fr_LeaseOffer := Some {| lo_Binding := binding; lo_AttemptSequence := 1 |} |}.
Definition lease_claim : FrameV1 :=
  let f := envelope worker 4 3 MessageLeaseClaim in
  {| f with fr_LeaseClaim := Some {| lc_Binding := binding; lc_AttemptSequence := 1 |} |}.
Definition lease_accepted : FrameV1 :=
  let f := envelope platform 4 4 MessageLeaseAccepted in
  {| f with fr_LeaseAccepted := Some {| la_Binding := binding; la_AttemptSequence := 2 |} |}.
Definition terminal : FrameV1 :=
  let f := envelope worker 5 4 MessageTerminal in
  {| f with fr_Terminal := Some {| te_Binding := binding; te_AttemptSequence := 2; te_TerminalSequence := 1;
       te_Status := TerminalSucceeded; te_Result := TerminalResultCompleted; te_EvidenceDigest := b32 "e" |} |}.
Definition terminal_ack : FrameV1 :=
  let f := envelope platform 5 5 MessageTerminalAck in
  {| f with fr_TerminalAck := Some {| ta_Binding := binding; ta_AttemptSequence := 3; ta_TerminalSequence := 1;
       ta_Status := TerminalSucceeded; ta_Result := TerminalResultCompleted; ta_EvidenceDigest := b32 "e" |} |}.
Definition revoke : FrameV1 :=
  let f := envelope platform 5 4 MessageRevoke in
  {| f with fr_Revoke := Some {| rv_Revision := 1; rv_NextEnrollmentGeneration := 2; rv_NextConnectionGeneration := 2 |} |}.

Definition claimed : list (Direction * FrameV1) :=
  handshake ++ [(platform, lease_offer); (worker, lease_claim); (platform, lease_accepted)].
Definition committed : list (Direction * FrameV1) := claimed ++ [(worker, terminal); (platform, terminal_ack)].

(** Every signature verifies. *)
Definition verify (key message sig : string) : bool := true.

Definition start : ConformanceMachine := new_machine (cloneMachineConfig config).

Lemma start_is : NewConformanceMachine config = inr start.
Proof. vm_compute. reflexivity. Qed.

(** What a check finds of the machine after a list of frames. *)
Lemma accepted_with {A} l (look : ConformanceMachine -> A) (x : A) :
  option_map look (accepts verify start l acceptance) = Some x ->
  exists m, accepts verify start l acceptance = Some m /\ look m = x.
Proof. destruct (accepts verify start l acceptance) as [m |]; [| done]. intros [= <-]. eauto. Qed.

Lemma ready_after_handshake :
  exists m, accepts verify start handshake acceptance = Some m /\ cm_connection m = ConnectionReady.
Proof. apply (accepted_with handshake cm_connection). vm_cast_no_check (eq_refl (Some ConnectionReady)). Qed.

Lemma committed_after_all :
  exists m, accepts verify start committed acceptance = Some m /\ ar_state (cm_attempt m) = AttemptTerminalCommitted.
Proof.
  apply (accepted_with committed (fun m => ar_state (cm_attempt m))).
  vm_cast_no_check (eq_refl (Some AttemptTerminalCommitted)).
Qed.

(** Whether the revocation is accepted, whether it is a replay, and the attempt it meets. *)
Definition revocable (m : ConformanceMachine) : bool * bool * AttemptState :=
  (match Accept verify m platform revoke acceptance with Some (_, None) => true | _ => false end,
   fr_Sequence revoke =? sq_sequence (sender_of m platform), ar_state (cm_attempt m)).

Lemma claimed_revocable : option_map revocable (accepts verify start claimed acceptance) = Some (true, false, AttemptClaimed).
Proof. vm_cast_no_check (eq_refl (Some (true, false, AttemptClaimed))). Qed.

Lemma revoked_after_claim :
  exists m m1, accepts verify start claimed acceptance = Some m /\
    Accept verify m platform revoke acceptance = Some (m1, None) /\ fr_Sequence revoke <> sq_sequence (sender_of m platform) /\
    ar_state (cm_attempt m) = AttemptClaimed.
Proof.
  destruct (accepted_with claimed revocable (true, false, AttemptClaimed) claimed_revocable) as (m & E & C).
  unfold revocable in C. apply pair_equal_spec in C as [C S]. apply pair_equal_spec in C as [C Q]. exists m.
  destruct (Accept verify m platform revoke acceptance) as [[m1 [e |]] |]; try discriminate C.
  exists m1. split; [exact E |]. split; [reflexivity |]. split; [by apply Z.eqb_neq | exact S].
Qed.

(** The claimed attempt can be reconnected, and holds no terminal for replay. *)
Definition reconnectable (m : ConformanceMachine) : bool * bool :=
  (match snd (BeginReconnect m next_auth) with inr _ => true | inl _ => false end,
   isnil (ar_pendingWorkerTerminal (cm_attempt m))).

Lemma claimed_reconnectable : option_map reconnectable (accepts verify start claimed acceptance) = Some (true, true).
Proof. vm_cast_no_check (eq_refl (Some (true, true))). Qed.

Definition negotiation : ReconnectNegotiationV1 :=
  {| rn_WorkerOffer := offer; rn_PlatformOffer := offer; rn_SelectedVersion := 1; rn_WorkerNonce := b32 "n";
     rn_PlatformNonce := b32 "m"; rn_CapabilityDigest := digest |}.

(** The offer, and whether its claim is accepted. *)
Definition offered : list (Direction * FrameV1) := handshake ++ [(platform, lease_offer)].
Definition claimable (m : ConformanceMachine) : AttemptState * option AttemptState :=
  (ar_state (cm_attempt m),
   match Accept verify m worker lease_claim acceptance with
   | Some (m1, None) => Some (ar_state (cm_attempt m1)) | _ => None end).

Lemma offered_claimable :
  option_map claimable (accepts verify start offered acceptance) = Some (AttemptOffered, Some AttemptClaimPending).
Proof. vm_cast_no_check (eq_refl (Some (AttemptOffered, Some AttemptClaimPending))). Qed.
End WorkerSample.
