(* ===== verification/WorkerMachineSafety.v ===== *)
(** * What the attached-worker protocol machine guarantees
      ([internal/attachedworkerprotocol]: [machine.go])

    Every frame is either accepted or leaves the machine as it was; replays, the
    attempt record, revocation, and what a connection and a committed attempt rest on. *)

From stdpp Require Import gmap.
From S2P Require Import Prelude GoText Sha256 Json WorkerProtocol WorkerFrames WorkerReconnect WorkerTranscripts.
From S2P Require Import WorkerMachine WorkerSample.
#[local] Open Scope Z_scope.

(** [unwind H] follows a handler: one hypothesis [G] per condition it tested. *)
Ltac unwind_step H :=
  cbv zeta in H;
  lazymatch type of H with
  | Some (_, Some _) = Some (_, None) => discriminate H
  | Some (_, _) = Some (_, _) => injection H as H
  | None = Some _ => discriminate H
  | Some _ = None => discriminate H
  | (if ?b then _ else _) = _ => let G := fresh "G" in destruct b eqn:G
  | (match ?x with _ => _ end) = _ => let G := fresh "G" in destruct x eqn:G
  end.
Ltac unwind H := repeat (unwind_step H).

(** [facts] turns the conditions a handler tested into propositions. *)
Ltac facts :=
  unfold is_direction, in_state, attempt_in in *; b2p; destruct_and?; subst.
Ltac member := repeat rewrite elem_of_cons; tauto.

(** [states] turns membership in a list of states into a disjunction. *)
Ltac states :=
  repeat match goal with
         | H : _ ∈ _ :: _ |- _ => rewrite elem_of_cons in H
         | H : _ ∈ [] |- _ => apply elem_of_nil in H as []
         | H : _ \/ _ |- _ => destruct H
         end.

Section Totality.
Context (verify : string -> string -> string -> bool).

Implicit Types (m : ConformanceMachine) (d : Direction) (f : FrameV1).

(** A handler that finds its payload answers, and an error leaves the machine. *)
Definition settles (m : ConformanceMachine) (r : outcome) : Prop :=
  exists m' err, r = Some (m', err) /\ (err <> None -> m' = m).

Lemma settles_refused m err : settles m (Some (m, err)).
Proof. by exists m, err. Qed.
Lemma settles_done m m' : settles m (Some (m', None)).
Proof. exists m', None. by split. Qed.

Ltac settle :=
  repeat first
    [ apply settles_refused | apply settles_done
    | match goal with
      | |- settles _ (if ?b then _ else _) => destruct b
      | H : ?p = Some _ |- context [match ?p with None => _ | Some _ => _ end] => rewrite H
      | |- settles _ (match ?x with _ => _ end) => destruct x
      end ].

Lemma install_settles m s c p :
  exists m' err, installReplayCommitment m s c p = (m', err) /\ (err <> None -> m' = m).
Proof. unfold installReplayCommitment. repeat case_match; eauto 10; eexists _, _; (split; [done |]); congruence. Qed.

Lemma transition_settles m d f b : carries f -> settles m (applyAttemptTransition m d f b).
Proof.
  intros C. unfold applyAttemptTransition, carries in *.
  destruct (fr_Kind f) eqn:K; try apply settles_refused; destruct C as (p & Hp & _).
  - unfold transitLeaseOffer. settle.
  - unfold transitLeaseClaim. settle.
  - unfold transitLeaseAccepted. settle.
  - unfold transitProgress. settle.
  - unfold transitCancel. settle.
  - unfold transitCancelAck. settle.
  - unfold transitTerminal. settle.
  - unfold transitTerminalAck. settle.
Qed.

Lemma attempt_payload_found f : carries f -> is_Some (attemptPayload f).
Proof.
  intros C. unfold attemptPayload, carries in *.
  destruct (fr_Kind f) eqn:K; try (by eexists); destruct C as (p & -> & _); by eexists.
Qed.

Lemma attempt_settles m d f now : carries f -> settles m (acceptAttempt m d f now).
Proof.
  intros C. unfold acceptAttempt. destruct (attempt_payload_found f C) as [[b s] ->]. cbv zeta.
  destruct (commitment_error _ _ _ _ _); [apply settles_refused |].
  repeat match goal with |- settles _ (if ?b then _ else _) => destruct b; try apply settles_refused end.
  destruct (transition_settles m d f b C) as (m' & err & -> & He).
  destruct err; [rewrite He by done; apply settles_refused | apply settles_done].
Qed.

Lemma apply_settles m d f now : carries f -> settles m (apply verify m d f now).
Proof.
  intros C. unfold apply. destruct (fr_Kind f) eqn:K; try (by apply attempt_settles); try apply settles_refused.
  all: unfold carries in C; rewrite K in C; destruct C as (p & Hp & _).
  - unfold acceptHello. settle.
  - unfold acceptChallenge. settle.
  - unfold acceptAttach. settle.
  - unfold acceptAttachAccepted. settle.
  - unfold acceptReconnect. settle.
  - unfold acceptReconnectAccepted. rewrite Hp. case_match; [apply settles_refused |].
    destruct (install_settles m (authoritative_snapshot m p) (cm_reconnectClaim m) (ra_ReplayPlan p))
      as (m' & err & -> & He).
    destruct err; [rewrite He by done; apply settles_refused | apply settles_done].
  - unfold acceptManifest. settle.
  - unfold acceptHeartbeat. settle.
  - unfold acceptDrain. settle.
  - unfold acceptDrained. settle.
  - unfold acceptRevoke. settle.
  - unfold acceptRevoked. settle.
Qed.

Lemma accept_settles m d f acceptance : settles m (Accept verify m d f acceptance).
Proof.
  unfold Accept.
  destruct (out_of_scope m d f acceptance) eqn:S; [apply settles_refused |].
  assert (C : carries f) by (apply valid_frame_carries; unfold out_of_scope in S; b2p; tauto).
  cbv zeta. repeat match goal with |- settles _ (if ?b then _ else _) => destruct b; try apply settles_refused end.
  destruct (apply_settles m d f (ac_NowUnixMicro acceptance) C) as (m' & err & -> & He).
  destruct err; [rewrite He by done; apply settles_refused | apply settles_done].
Qed.

(** C15. Acceptance always answers, and a refused frame leaves the machine exactly as it
    was. No frame makes the machine dereference a payload the frame does not carry, and
    no handler changes state before its last check. *)
Theorem accept_all_or_nothing m d f acceptance :
  exists m' err, Accept verify m d f acceptance = Some (m', err) /\ (err <> None -> m' = m).
Proof. apply accept_settles. Qed.
End Totality.

(** ** Acceptance, case by case *)

Section Effects.
Context (verify : string -> string -> string -> bool).

Implicit Types (m : ConformanceMachine) (d : Direction) (f : FrameV1).

(** The frames that concern the attempt: what [applyAttemptTransition] leaves. *)
Inductive moved m d f : attemptRecord -> Prop :=
| mv_offer p a : a = cm_attempt m -> fr_Kind f = MessageLeaseOffer -> d = DirectionPlatformToWorker ->
    fr_LeaseOffer f = Some p ->
    cm_connection m = ConnectionReady -> ar_state a = AttemptIdle -> lo_AttemptSequence p = 1 ->
    moved m d f {| a with ar_binding := cloneBinding (lo_Binding p); ar_state := AttemptOffered |}
| mv_claim a : a = cm_attempt m -> fr_Kind f = MessageLeaseClaim -> d = DirectionWorkerToPlatform ->
    ar_state a = AttemptOffered ->
    moved m d f {| a with ar_state := AttemptClaimPending |}
| mv_accepted a : a = cm_attempt m -> fr_Kind f = MessageLeaseAccepted -> d = DirectionPlatformToWorker ->
    ar_state a = AttemptClaimPending ->
    moved m d f {| a with ar_state := AttemptClaimed |}
| mv_progress p a : a = cm_attempt m -> fr_Kind f = MessageProgress -> d = DirectionWorkerToPlatform ->
    fr_Progress f = Some p ->
    ar_state a ∈ [AttemptClaimed; AttemptCancelRequested; AttemptCancelAcked] ->
    pr_ProgressSequence p = wrap_u64 (ar_progressSequence a + 1) ->
    moved m d f {| a with ar_progressSequence := pr_ProgressSequence p |}
| mv_cancel p a : a = cm_attempt m -> fr_Kind f = MessageCancel -> d = DirectionPlatformToWorker ->
    fr_Cancel f = Some p ->
    ar_state a ∈ [AttemptOffered; AttemptClaimPending; AttemptClaimed; AttemptTerminalPending] ->
    ca_CancelRevision p = 1 ->
    moved m d f {| a with ar_cancelRevision := ca_CancelRevision p; ar_cancelCode := ca_Code p; ar_terminalSequence := 0;
                          ar_terminalStatus := no_status; ar_terminalResult := no_result; ar_terminalEvidence := SNil;
                          ar_state := if bool_decide (ca_Code p = CancelFenced) then AttemptFenced
                                      else AttemptCancelRequested |}
| mv_cancel_ack a : a = cm_attempt m -> fr_Kind f = MessageCancelAck -> d = DirectionWorkerToPlatform ->
    ar_state a = AttemptCancelRequested ->
    moved m d f {| a with ar_state := AttemptCancelAcked |}
| mv_fenced_ack : fr_Kind f = MessageCancelAck -> d = DirectionWorkerToPlatform -> ar_state (cm_attempt m) = AttemptFenced ->
    moved m d f (cm_attempt m)
| mv_crossed p a : a = cm_attempt m -> fr_Kind f = MessageTerminal -> d = DirectionWorkerToPlatform ->
    fr_Terminal f = Some p ->
    ar_state a ∈ [AttemptClaimed; AttemptCancelRequested; AttemptCancelAcked; AttemptFenced] ->
    ar_cancelRevision a <> 0 -> te_Status p <> TerminalCancelled -> ar_cancelCode a <> CancelFenced ->
    moved m d f a
| mv_terminal p a : a = cm_attempt m -> fr_Kind f = MessageTerminal -> d = DirectionWorkerToPlatform ->
    fr_Terminal f = Some p ->
    ar_state a ∈ [AttemptClaimed; AttemptCancelRequested; AttemptCancelAcked; AttemptFenced] ->
    te_TerminalSequence p = 1 -> (te_Status p = TerminalCancelled <-> ar_cancelRevision a <> 0) ->
    ar_cancelCode a <> CancelFenced -> revoking m = false ->
    moved m d f {| a with ar_terminalSequence := te_TerminalSequence p; ar_terminalStatus := te_Status p;
                          ar_terminalResult := te_Result p; ar_terminalEvidence := copied (te_EvidenceDigest p);
                          ar_state := AttemptTerminalPending |}
| mv_fenced_terminal p a : a = cm_attempt m -> fr_Kind f = MessageTerminal -> d = DirectionWorkerToPlatform ->
    fr_Terminal f = Some p ->
    ar_state a ∈ [AttemptClaimed; AttemptCancelRequested; AttemptCancelAcked; AttemptFenced] ->
    te_TerminalSequence p = 1 -> (te_Status p = TerminalCancelled <-> ar_cancelRevision a <> 0) ->
    ar_cancelCode a = CancelFenced \/ revoking m = true ->
    moved m d f {| a with ar_terminalSequence := te_TerminalSequence p; ar_terminalStatus := te_Status p;
                          ar_terminalResult := te_Result p; ar_terminalEvidence := copied (te_EvidenceDigest p) |}
| mv_commit p a : a = cm_attempt m -> fr_Kind f = MessageTerminalAck -> d = DirectionPlatformToWorker ->
    fr_TerminalAck f = Some p ->
    ar_state a = AttemptTerminalPending -> revoking m = false -> ta_TerminalSequence p = ar_terminalSequence a ->
    ta_Status p = ar_terminalStatus a -> ta_Result p = ar_terminalResult a ->
    bytes_equal (ta_EvidenceDigest p) (ar_terminalEvidence a) = true ->
    moved m d f {| a with ar_state := AttemptTerminalCommitted |}.

Lemma transition_moves m d f b m1 s :
  attemptPayload f = Some (b, s) ->
  applyAttemptTransition m d f b = Some (m1, None) ->
  exists a, moved m d f a /\ m1 = with_attempt m a.
Proof.
  intros P H. unfold applyAttemptTransition, attemptPayload in *.
  destruct (fr_Kind f) eqn:K; try discriminate H.
  - unfold transitLeaseOffer in H. unwind H. simplify_eq. facts.
    eexists. split; [by eapply mv_offer | done].
  - unfold transitLeaseClaim in H. unwind H. simplify_eq. facts. eexists. split; [by eapply mv_claim | done].
  - unfold transitLeaseAccepted in H. unwind H. simplify_eq. facts. eexists. split; [by eapply mv_accepted | done].
  - unfold transitProgress in H. unwind H. simplify_eq. facts.
    eexists. split; [eapply mv_progress; eauto; member | done].
  - unfold transitCancel in H. unwind H. simplify_eq. facts.
    eexists. split; [eapply mv_cancel; eauto; member | done].
  - unfold transitCancelAck in H. unwind H; simplify_eq; facts.
    + eexists. split; [eapply mv_cancel_ack; naive_solver | done].
    + eexists. split; [by eapply mv_fenced_ack | by match goal with |- ?x = _ => destruct x end].
  - unfold transitTerminal in H. unwind H; simplify_eq; facts.
    + eexists. split; [eapply mv_crossed; eauto; member | by match goal with |- ?x = _ => destruct x end].
    + eexists. split; [eapply mv_terminal; eauto; [member | tauto] | done].
    + eexists. split; [eapply mv_fenced_terminal; eauto; [member | tauto] | done].
  - unfold transitTerminalAck in H. unwind H. simplify_eq. facts. eexists. split; [by eapply mv_commit | done].
Qed.

(** The kinds that may leave the machine as it is: a heartbeat, an error, and an
    attempt message that was already applied. *)
Definition attempt_kind (kind : MessageKind) : bool :=
  match kind with
  | MessageLeaseOffer | MessageLeaseClaim | MessageLeaseAccepted | MessageProgress
  | MessageCancel | MessageCancelAck | MessageTerminal | MessageTerminalAck => true
  | _ => false
  end.
Definition inert_kind (kind : MessageKind) : bool :=
  match kind with MessageHeartbeat | MessageError => true | _ => attempt_kind kind end.

(** A revocation names the generations that follow those of the connection. *)
Definition successive m (r : RevokeV1) : Prop :=
  let auth := mc_Auth (cm_config m) in
  au_EnrollmentGeneration auth <> max_u64 /\ au_ConnectionGeneration auth <> max_u64 /\
  rv_NextEnrollmentGeneration r = wrap_u64 (au_EnrollmentGeneration auth + 1) /\
  rv_NextConnectionGeneration r = wrap_u64 (au_ConnectionGeneration auth + 1).

(** A worker's connection and its attempt, one rule per frame a machine takes. *)
Inductive effect m d f : ConformanceMachine -> Prop :=
| ef_none : inert_kind (fr_Kind f) = true -> effect m d f m
| ef_hello p : fr_Kind f = MessageHello -> d = DirectionWorkerToPlatform -> cm_connection m = ConnectionUnattached ->
    fr_Hello f = Some p -> sameVersionOffer (he_Offer p) (mc_WorkerOffer (cm_config m)) = true ->
    effect m d f {| m with cm_hello := cloneHello p; cm_connection := ConnectionHello |}
| ef_challenge p : fr_Kind f = MessageChallenge -> d = DirectionPlatformToWorker -> cm_connection m = ConnectionHello ->
    fr_Challenge f = Some p -> sameVersionOffer (cl_WorkerOffer p) (he_Offer (cm_hello m)) = true ->
    sameVersionOffer (cl_PlatformOffer p) (mc_PlatformOffer (cm_config m)) = true ->
    bytes_equal (cl_WorkerNonce p) (he_WorkerNonce (cm_hello m)) = true ->
    cl_SelectedVersion p = au_Version (mc_Auth (cm_config m)) ->
    effect m d f {| m with cm_challenge := cloneChallenge p; cm_connection := ConnectionChallenged |}
| ef_attach p : fr_Kind f = MessageAttach -> d = DirectionWorkerToPlatform -> cm_connection m = ConnectionChallenged ->
    cm_reconnecting m = false -> fr_Attach f = Some p -> VerifyAttachV1 verify (mc_Auth (cm_config m)) f = None ->
    effect m d f {| m with cm_capabilityDigest := copied (at_CapabilityDigest p);
                           cm_connection := ConnectionAttachPending |}
| ef_attach_accepted : fr_Kind f = MessageAttachAccepted -> d = DirectionPlatformToWorker ->
    cm_connection m = ConnectionAttachPending ->
    effect m d f {| m with cm_connection := ConnectionAttached |}
| ef_reconnect p : fr_Kind f = MessageReconnect -> d = DirectionWorkerToPlatform ->
    cm_connection m = ConnectionChallenged -> cm_reconnecting m = true -> fr_Reconnect f = Some p ->
    VerifyReconnectV1 verify (mc_Auth (cm_config m)) f = None -> incompatible_claim m (claimed_snapshot p) = false ->
    rc_PreviousConnectionGeneration p = cm_previousConnectionGeneration m ->
    (len (content (cm_capabilityDigest m)) = 0 \/ bytes_equal (rc_CapabilityDigest p) (cm_capabilityDigest m) = true) ->
    effect m d f {| m with cm_capabilityDigest := copied (rc_CapabilityDigest p);
                           cm_reconnectClaim := cloneReconnectSnapshot (claimed_snapshot p);
                           cm_connection := ConnectionReconnectPending |}
| ef_reconnect_accepted p m1 m2 : fr_Kind f = MessageReconnectAccepted -> d = DirectionPlatformToWorker ->
    cm_connection m = ConnectionReconnectPending -> fr_ReconnectAccepted f = Some p ->
    unexpected_answer m p = false ->
    installReplayCommitment m (authoritative_snapshot m p) (cm_reconnectClaim m) (ra_ReplayPlan p) = (m1, None) ->
    m2 = applyDiscardTombstone (applyAttemptSummary m1 (ra_AuthoritativeAttempt p)) ->
    effect m d f {| m2 with cm_connection := ConnectionAttached |}
| ef_manifest p : fr_Kind f = MessageManifest -> d = DirectionWorkerToPlatform -> cm_connection m = ConnectionAttached ->
    cm_reconnecting m = false -> fr_Manifest f = Some p ->
    bytes_equal (mn_Digest p) (cm_capabilityDigest m) = true ->
    VerifyManifestV1 verify (mc_Auth (cm_config m)) f = None ->
    mf_WorkerID (mn_Manifest p) = au_WorkerID (mc_Auth (cm_config m)) ->
    mf_EnrollmentGeneration (mn_Manifest p) = au_EnrollmentGeneration (mc_Auth (cm_config m)) ->
    sameVersionOffer (mf_ProtocolOffer (mn_Manifest p)) (mc_WorkerOffer (cm_config m)) = true ->
    effect m d f {| m with cm_manifest := cloneManifest (mn_Manifest p); cm_connection := ConnectionReady;
                           cm_reconnecting := false |}
| ef_manifest_again p : fr_Kind f = MessageManifest -> d = DirectionWorkerToPlatform ->
    cm_connection m = ConnectionAttached -> cm_reconnecting m = true -> fr_Manifest f = Some p ->
    bytes_equal (mn_Digest p) (cm_capabilityDigest m) = true ->
    VerifyManifestV1 verify (mc_Auth (cm_config m)) f = None ->
    mf_WorkerID (mn_Manifest p) = au_WorkerID (mc_Auth (cm_config m)) ->
    mf_EnrollmentGeneration (mn_Manifest p) = au_EnrollmentGeneration (mc_Auth (cm_config m)) ->
    sameVersionOffer (mf_ProtocolOffer (mn_Manifest p)) (mc_WorkerOffer (cm_config m)) = true ->
    effect m d f {| m with cm_manifest := cloneManifest (mn_Manifest p); cm_connection := cm_reconnectTarget m;
                           cm_drainReenvelopePending := bool_decide (cm_reconnectTarget m = ConnectionDraining);
                           cm_reconnecting := false |}
| ef_drain p : fr_Kind f = MessageDrain -> d = DirectionPlatformToWorker -> cm_connection m = ConnectionReady ->
    cm_drainRevision m = 0 -> fr_Drain f = Some p -> cm_drainReenvelopePending m = false ->
    effect m d f {| m with cm_drainRevision := dr_Revision p; cm_connection := ConnectionDraining |}
| ef_drain_again p : fr_Kind f = MessageDrain -> d = DirectionPlatformToWorker ->
    cm_connection m = ConnectionDraining -> fr_Drain f = Some p -> dr_Revision p = cm_drainRevision m ->
    cm_drainReenvelopePending m = true ->
    effect m d f {| m with cm_drainReenvelopePending := false; cm_drainRevision := dr_Revision p;
                           cm_connection := ConnectionDraining |}
| ef_drained : fr_Kind f = MessageDrained -> d = DirectionWorkerToPlatform -> cm_connection m = ConnectionDraining ->
    ar_state (cm_attempt m) = AttemptIdle ->
    effect m d f {| m with cm_connection := ConnectionDrained |}
| ef_revoke p : fr_Kind f = MessageRevoke -> d = DirectionPlatformToWorker ->
    cm_connection m <> ConnectionUnattached -> cm_connection m <> ConnectionRevoked -> fr_Revoke f = Some p ->
    ar_state (cm_attempt m) ∈ [AttemptIdle; AttemptTerminalCommitted] -> successive m p ->
    effect m d f {| m with cm_revoke := p; cm_connection := ConnectionRevoking |}
| ef_revoke_fenced p : fr_Kind f = MessageRevoke -> d = DirectionPlatformToWorker ->
    cm_connection m <> ConnectionUnattached -> cm_connection m <> ConnectionRevoked -> fr_Revoke f = Some p ->
    ar_state (cm_attempt m) ∉ [AttemptIdle; AttemptTerminalCommitted] -> successive m p ->
    effect m d f {| m with cm_revoke := p; cm_attempt := fence_attempt (cm_attempt m);
                           cm_connection := ConnectionRevoking |}
| ef_revoked : fr_Kind f = MessageRevoked -> d = DirectionWorkerToPlatform -> cm_connection m = ConnectionRevoking ->
    effect m d f {| m with cm_connection := ConnectionRevoked |}
| ef_attempt binding sequence a : attemptPayload f = Some (binding, sequence) -> moved m d f a ->
    commitment_error m d (fr_Kind f) sequence (attemptFingerprint f) = None ->
    aq_sequence (attempt_sender m d) < sequence -> sequence = wrap_u64 (aq_sequence (attempt_sender m d) + 1) ->
    (ar_state (cm_attempt m) <> AttemptIdle -> sameAttemptBinding binding (ar_binding (cm_attempt m)) = true) ->
    bytes_equal (ab_CapabilityDigest binding) (cm_capabilityDigest m) = true ->
    effect m d f (clear_commitment (record_attempt (with_attempt m a) d sequence (attemptFingerprint f)) d sequence).

Lemma attempt_effect m d f now m1 :
  attempt_kind (fr_Kind f) = true -> acceptAttempt m d f now = Some (m1, None) -> effect m d f m1.
Proof.
  intros K H. assert (inert_kind (fr_Kind f) = true) as I by (by destruct (fr_Kind f)). unfold acceptAttempt in H. destruct (attemptPayload f) as [[b s] |] eqn:P; [| discriminate H].
  destruct (commitment_error _ _ _ _ _) eqn:C; [discriminate H |]. unwind H; subst; try (by apply ef_none).
  destruct (transition_moves _ _ _ _ _ _ P G4) as (a & Ha & ->).
  facts. eapply ef_attempt; eauto. naive_solver.
Qed.

Lemma apply_effect m d f now m1 : apply verify m d f now = Some (m1, None) -> effect m d f m1.
Proof.
  unfold apply. intros H. destruct (fr_Kind f) eqn:K; try (by apply attempt_effect in H; [| rewrite K]).
  - unfold acceptHello in H. unwind H. facts. by eapply ef_hello.
  - unfold acceptChallenge in H. unwind H. facts. by eapply ef_challenge.
  - unfold acceptAttach in H. unwind H. facts. by eapply ef_attach.
  - unfold acceptAttachAccepted in H. unwind H. facts. by eapply ef_attach_accepted.
  - unfold acceptReconnect in H. unwind H. facts. by eapply ef_reconnect.
  - unfold acceptReconnectAccepted in H. unwind H. facts. by eapply ef_reconnect_accepted.
  - unfold acceptManifest in H. unwind H; facts;
    [by eapply (ef_manifest_again m _ f m0) | by eapply (ef_manifest m _ f m0)].
  - unfold acceptHeartbeat in H. unwind H. subst. apply ef_none. by rewrite K.
  - unfold acceptDrain in H. unwind H; facts; [by eapply ef_drain | by eapply ef_drain_again].
  - unfold acceptDrained in H. unwind H. facts. by eapply ef_drained.
  - unfold acceptRevoke in H. unwind H. subst m1.
    destruct (negb _ && negb _) eqn:G2; facts; cbn in *;
      [apply (ef_revoke_fenced m _ f r) | apply (ef_revoke m _ f r)]; try done; [| member].
    rewrite !not_elem_of_cons, elem_of_nil. tauto.
  - unfold acceptRevoked in H. unwind H. facts. by eapply ef_revoked.
  - injection H as <-. apply ef_none. by rewrite K.
  - discriminate H.
Qed.

(** The attempt after a message of the sequence has been recorded. *)
Definition recorded (a : attemptRecord) (d : Direction) (sequence : Z) (fingerprint : string) : attemptRecord :=
  let a1 := if is_direction d DirectionPlatformToWorker
            then {| a with ar_platform := {| aq_sequence := sequence;
                      aq_fingerprints := <[sequence := fingerprint]> (aq_fingerprints (ar_platform a)) |} |}
            else {| a with ar_worker := {| aq_sequence := sequence;
                      aq_fingerprints := <[sequence := fingerprint]> (aq_fingerprints (ar_worker a)) |} |} in
  match ar_pendingWorkerTerminal a with
  | Some c => if is_direction d DirectionWorkerToPlatform && (tr_sequence c =? sequence)
              then {| a1 with ar_pendingWorkerTerminal := None |} else a1
  | None => a1
  end.

Lemma recorded_is m a d sequence fingerprint :
  clear_commitment (record_attempt (with_attempt m a) d sequence fingerprint) d sequence
  = with_attempt m (recorded a d sequence fingerprint).
Proof.
  unfold clear_commitment, record_attempt, recorded, attempt_sender, set_pending. cbn.
  destruct (is_direction d DirectionPlatformToWorker); cbn; destruct (ar_pendingWorkerTerminal a); cbn; try done; by case_match.
Qed.

(** ** The envelope *)

Lemma install_keeps m s c p m1 err :
  installReplayCommitment m s c p = (m1, err) -> exists q, m1 = set_pending m q.
Proof.
  unfold installReplayCommitment. intros H.
  assert (m = set_pending m (ar_pendingWorkerTerminal (cm_attempt m))) as Hm by (by destruct m as [? ? ? ? ? ? ? ? []]).
  repeat case_match; simplify_eq; eauto.
Qed.

Lemma effect_keeps m d f m1 :
  effect m d f m1 ->
  cm_config m1 = cm_config m /\ cm_platform m1 = cm_platform m /\ cm_worker m1 = cm_worker m.
Proof.
  destruct 1; try done.
  - match goal with H : installReplayCommitment _ _ _ _ = _ |- _ => apply install_keeps in H as [q ->] end. subst m2.
    unfold applyDiscardTombstone. by repeat case_match.
  - unfold clear_commitment. by repeat case_match.
Qed.

Lemma accept_inv m d f acceptance m' :
  Accept verify m d f acceptance = Some (m', None) ->
  FrameV1_Validate f = None /\ carries f /\ validDirection d = true /\
  (m' = m /\ fr_Sequence f = sq_sequence (sender_of m d) /\ sq_fingerprint (sender_of m d) = frameFingerprint f \/
   exists m1, effect m d f m1 /\
     m' = set_sender m1 d {| sq_sequence := fr_Sequence f; sq_ack := fr_Ack f; sq_fingerprint := frameFingerprint f |} /\
     fr_Sequence f = wrap_u64 (sq_sequence (sender_of m d) + 1) /\ sq_sequence (sender_of m d) <> max_u64 /\
     sq_ack (sender_of m d) <= fr_Ack f <= sq_sequence (peer_of m d)).
Proof.
  unfold Accept. intros H. destruct (out_of_scope m d f acceptance) eqn:S; [discriminate H |].
  assert (V : FrameV1_Validate f = None /\ validDirection d = true) by (unfold out_of_scope in S; b2p; tauto).
  destruct V as [V D]. split; [done |]. split; [by apply valid_frame_carries |]. split; [done |].
  unwind H; subst; facts; [left; naive_solver |].
  right. match goal with Ha : apply _ _ _ _ _ = _ |- _ => apply apply_effect in Ha; eexists; repeat split; eauto; lia end.
Qed.

Lemma sender_of_set m d s : sender_of (set_sender m d s) d = s.
Proof. unfold sender_of, set_sender. by destruct (is_direction d _). Qed.

Lemma valid_frame_sequence f : FrameV1_Validate f = None -> fr_Sequence f <> 0.
Proof.
  unfold FrameV1_Validate. intros H. destruct (validateFrameCommon f) eqn:C; [discriminate H |].
  unfold validateFrameCommon in C. peel C. b2p. tauto.
Qed.

(** C16. The last accepted frame of a direction can be sent again: the same frame is
    acknowledged without any effect, and a different frame at its sequence is a
    conflict, whatever its kind and at whatever time it arrives. *)
Theorem accept_replay m d f acceptance m' g acceptance' :
  Accept verify m d f acceptance = Some (m', None) ->
  out_of_scope m' d g acceptance' = false ->
  fr_MessageID g = MessageIDV1 d (fr_Sequence g) ->
  fr_Sequence g = fr_Sequence f ->
  Accept verify m' d g acceptance' =
    Some (m', if String.eqb (frameFingerprint f) (frameFingerprint g) then None else Some (protocolError ErrorConflict)).
Proof.
  intros H S I Q. apply accept_inv in H as (V & _ & _ & H). apply valid_frame_sequence in V.
  unfold Accept. rewrite S, I, String.eqb_refl. cbn [negb].
  assert (Hs : sq_sequence (sender_of m' d) = fr_Sequence f /\ sq_fingerprint (sender_of m' d) = frameFingerprint f).
  { destruct H as [(-> & ? & ?) | (m1 & _ & -> & _)]; [done |]. by rewrite sender_of_set. }
  destruct Hs as [-> ->]. rewrite Q, Z.eqb_refl. rewrite (proj2 (Z.eqb_neq _ _) V). cbn. by case_match.
Qed.
End Effects.

(** The hello of the sample, and the same hello again. *)
Lemma accept_replay_witness :
  exists m', Accept WorkerSample.verify WorkerSample.start WorkerSample.worker WorkerSample.hello WorkerSample.acceptance
             = Some (m', None) /\
    Accept WorkerSample.verify m' WorkerSample.worker WorkerSample.hello WorkerSample.acceptance = Some (m', None).
Proof.
  destruct (Accept WorkerSample.verify WorkerSample.start WorkerSample.worker WorkerSample.hello WorkerSample.acceptance)
    as [[m' [e |]] |] eqn:E; [vm_compute in E; discriminate E | | vm_compute in E; discriminate E].
  exists m'. split; [done |].
  rewrite (accept_replay WorkerSample.verify WorkerSample.start WorkerSample.worker WorkerSample.hello
    WorkerSample.acceptance m' WorkerSample.hello WorkerSample.acceptance E).
  - by rewrite String.eqb_refl.
  - assert (match Accept WorkerSample.verify WorkerSample.start WorkerSample.worker WorkerSample.hello WorkerSample.acceptance with
            | Some (m, _) => out_of_scope m WorkerSample.worker WorkerSample.hello WorkerSample.acceptance | None => true end = false)
      as O by (vm_compute; reflexivity). by rewrite E in O.
  - vm_compute. reflexivity.
  - reflexivity.
Defined.
