(* ===== verification/WorkerMachineRuns.v ===== *)
(** * Runs of the attached-worker protocol machine
      ([internal/attachedworkerprotocol]: [machine.go])

    A run is any sequence of frames offered in either direction, reconnects begun and
    committed attempts erased. It shows what holds of every machine a run reaches:
    what an attached connection rests on, and that revocation is final. *)

From stdpp Require Import gmap.
From S2P Require Import Prelude GoText Sha256 Json WorkerProtocol WorkerFrames WorkerReconnect WorkerTranscripts.
From S2P Require Import WorkerMachine WorkerSample WorkerMachineSafety.
#[local] Open Scope Z_scope.

(** The frames accepted, the last one first. *)
Definition history := list (Direction * FrameV1).

(** The machine [BeginReconnect] leaves when it succeeds. *)
Definition begun (m : ConformanceMachine) (next : AuthContextV1) : ConformanceMachine :=
  let config := cm_config m in
  {| m with cm_previousConnectionGeneration := au_ConnectionGeneration (mc_Auth (cm_config m));
            cm_reconnectWatermarks := currentWatermarks m; cm_reconnectAttempt := currentAttemptSummary m;
            cm_reconnectTarget := cm_connection m;
            cm_config := {| config with mc_Auth := cloneAuthContext next |};
            cm_connection := ConnectionUnattached; cm_platform := zero_sequence; cm_worker := zero_sequence;
            cm_hello := zero_hello; cm_challenge := zero_challenge; cm_reconnecting := true |}.

(** The authority of the next connection of the same worker. *)
Record renews m (next : AuthContextV1) : Prop := {
  rw_worker : au_WorkerID next = au_WorkerID (mc_Auth (cm_config m));
  rw_enrollment : au_EnrollmentGeneration next = au_EnrollmentGeneration (mc_Auth (cm_config m));
  rw_version : au_Version next = au_Version (mc_Auth (cm_config m));
  rw_last : au_ConnectionGeneration (mc_Auth (cm_config m)) <> max_u64;
  rw_generation : au_ConnectionGeneration next = wrap_u64 (au_ConnectionGeneration (mc_Auth (cm_config m)) + 1);
  rw_settled : cm_drainReenvelopePending m = false }.

Lemma begin_cases m next m' r :
  BeginReconnect m next = (m', r) ->
  m' = m /\ r = inl (protocolError ErrorUnauthorized) \/
  m' = begun m next /\ r = SnapshotForReconnect m' /\ AuthContextV1_Validate (cloneAuthContext next) = None /\
  cm_connection m ∈ [ConnectionReady; ConnectionDraining] /\ cm_reconnecting m = false /\
  renews m next.
Proof.
  unfold BeginReconnect. cbv zeta. destruct (_ || _) eqn:G; intros [= <- <-]; [by left |]. right.
  b2p. cbn in G. rewrite !elem_of_cons. repeat split; try tauto.
Qed.

Lemma accepts_last verify l d f : forall m acceptance m',
  accepts verify m (l ++ [(d, f)]) acceptance = Some m' ->
  exists m1, accepts verify m l acceptance = Some m1 /\ Accept verify m1 d f acceptance = Some (m', None).
Proof.
  induction l as [| [d' f'] l IH]; cbn; intros m acceptance m' H.
  - exists m. split; [done |]. repeat case_match; simplify_eq. done.
  - repeat case_match; simplify_eq. by apply IH.
Qed.

Section Runs.
Context (verify : string -> string -> string -> bool).
(** What is assumed of the frames offered to a machine. *)
Context (sent : ConformanceMachine -> FrameV1 -> Prop).

Implicit Types (m : ConformanceMachine) (d : Direction) (f : FrameV1) (h : history).

Inductive step m : history -> ConformanceMachine -> Prop :=
| st_accept d f acceptance m' : sent m f -> Accept verify m d f acceptance = Some (m', None) -> step m [(d, f)] m'
| st_refuse d f acceptance m' err : Accept verify m d f acceptance = Some (m', Some err) -> step m [] m'
| st_reconnect next : step m [] (fst (BeginReconnect m next))
| st_erase : step m [] (fst (EraseCommittedAttempt m)).

Inductive run m : history -> ConformanceMachine -> Prop :=
| run_start : run m [] m
| run_step h m1 l m2 : run m h m1 -> step m1 l m2 -> run m (l ++ h) m2.

Definition reached h m : Prop := exists config m0, NewConformanceMachine config = inr m0 /\ run m0 h m.

Lemma run_invariant (I : history -> ConformanceMachine -> Prop) m h m' :
  I [] m -> (forall h m l m', I h m -> step m l m' -> I (l ++ h) m') -> run m h m' -> I h m'.
Proof. intros H0 Hs. induction 1; eauto. Qed.

Lemma reached_invariant (I : history -> ConformanceMachine -> Prop) h m :
  (forall config, NewConformanceMachine config = inr (new_machine (cloneMachineConfig config)) ->
     I [] (new_machine (cloneMachineConfig config))) ->
  (forall h m l m', I h m -> step m l m' -> I (l ++ h) m') -> reached h m -> I h m.
Proof.
  intros H0 Hs (config & m0 & Hn & Hr). eapply run_invariant; eauto.
  assert (m0 = new_machine (cloneMachineConfig config)) as ->; [| by apply H0].
  unfold NewConformanceMachine in Hn. cbv zeta in Hn. by repeat case_match; simplify_eq.
Qed.

Inductive step_case m l : ConformanceMachine -> Prop :=
| sc_same : step_case m l m
| sc_effect d f m1 : l = [(d, f)] -> sent m f -> carries f -> effect verify m d f m1 ->
    fr_Sequence f = wrap_u64 (sq_sequence (sender_of m d) + 1) -> sq_sequence (sender_of m d) <> max_u64 ->
    sq_ack (sender_of m d) <= fr_Ack f <= sq_sequence (peer_of m d) -> validDirection d = true ->
    FrameV1_Validate f = None ->
    step_case m l (set_sender m1 d
      {| sq_sequence := fr_Sequence f; sq_ack := fr_Ack f; sq_fingerprint := frameFingerprint f |})
| sc_begun next : l = [] -> AuthContextV1_Validate (cloneAuthContext next) = None ->
    cm_connection m ∈ [ConnectionReady; ConnectionDraining] -> cm_reconnecting m = false -> renews m next ->
    step_case m l (begun m next)
| sc_erased : l = [] -> ar_state (cm_attempt m) = AttemptTerminalCommitted -> step_case m l (with_attempt m idle_attempt).

Lemma step_cases m l m' : step m l m' -> step_case m l m'.
Proof.
  destruct 1 as [d f acceptance m' S H | d f acceptance m' err H | next |].
  - apply accept_inv in H as (V & C & D & [(-> & _) | (m1 & E & -> & Q & Q' & A)]); [apply sc_same | by eapply sc_effect].
  - destruct (accept_settles verify m d f acceptance) as (m1 & e & E & He). rewrite H in E. injection E as -> <-.
    rewrite He by done. apply sc_same.
  - destruct (BeginReconnect m next) as [m' r] eqn:B.
    apply begin_cases in B as [[-> _] | (-> & _ & V & C & R & W)]; [apply sc_same | by apply sc_begun].
  - unfold EraseCommittedAttempt. destruct (negb _) eqn:G; [apply sc_same |]. b2p. by apply sc_erased.
Qed.

(** The state of the attempt and of the connection do not depend on the envelope. *)
Lemma set_sender_keeps m d s :
  cm_attempt (set_sender m d s) = cm_attempt m /\ cm_connection (set_sender m d s) = cm_connection m /\
  cm_config (set_sender m d s) = cm_config m /\ cm_capabilityDigest (set_sender m d s) = cm_capabilityDigest m /\
  cm_reconnecting (set_sender m d s) = cm_reconnecting m /\ cm_reconnectAttempt (set_sender m d s) = cm_reconnectAttempt m /\
  cm_reconnectClaim (set_sender m d s) = cm_reconnectClaim m /\ cm_reconnectTarget (set_sender m d s) = cm_reconnectTarget m.
Proof. unfold set_sender. by destruct (is_direction d _). Qed.

(** ** Revocation *)

(** A connection that is being or has been revoked, with no open attempt. *)
Definition ceased m : Prop :=
  cm_connection m ∈ [ConnectionRevoking; ConnectionRevoked] /\
  ar_state (cm_attempt m) ∈ [AttemptIdle; AttemptTerminalCommitted; AttemptFenced].

Lemma ceased_revoking m : ceased m -> revoking m = true.
Proof.
  intros [C _]. unfold revoking, in_state. b2p. states; tauto.
Qed.

Lemma recorded_state a d s fp : ar_state (recorded a d s fp) = ar_state a.
Proof. unfold recorded. by repeat case_match. Qed.

Lemma ceased_moved m d f a : ceased m -> moved m d f a -> ar_state a = ar_state (cm_attempt m).
Proof.
  intros C M. pose proof (ceased_revoking m C) as R. destruct C as [Cc C]. destruct M; subst; cbn; try done; states; congruence.
Qed.

Lemma ceased_effect m d f m1 :
  ceased m -> effect verify m d f m1 -> ceased m1 /\ ar_state (cm_attempt m1) = ar_state (cm_attempt m).
Proof.
  intros C E. pose proof C as [Cc Ca].
  destruct E as [| | | | | | | | | | | | | | | binding sequence a _ M];
    try (exfalso; clear Ca; states; congruence);
    try (by split; [split; [cbn; member |] |]).
  - done.
  - assert (ar_state (cm_attempt m) = AttemptFenced) as S; [| by split; [split; [left | right; right; left] |]].
    clear Cc. rewrite !not_elem_of_cons in *. states; naive_solver.
  - rewrite recorded_is. pose proof (ceased_moved m d f a C M) as S.
    split; [split; [done |] |]; cbn; rewrite recorded_state; by rewrite S.
Qed.

(** The attempt is as it was, or was committed and has been erased. *)
Definition only_erased (s s' : AttemptState) : Prop := s' = s \/ s = AttemptTerminalCommitted /\ s' = AttemptIdle.

Lemma ceased_step m l m' :
  ceased m -> step m l m' -> ceased m' /\ only_erased (ar_state (cm_attempt m)) (ar_state (cm_attempt m')).
Proof.
  intros C St. apply step_cases in St. destruct St as [| d f n _ _ _ E | next _ _ Cn | _ S].
  - by split; [| left].
  - apply (ceased_effect _ _ _ _ C) in E as [[Cc Ca] S].
    destruct (set_sender_keeps n d {| sq_sequence := fr_Sequence f; sq_ack := fr_Ack f;
      sq_fingerprint := frameFingerprint f |}) as (Ha & Hc & _).
    unfold ceased. rewrite Ha, Hc. rewrite S in *. by split; [| left].
  - exfalso. destruct C as [C _]. states; congruence.
  - split; [split; [apply C | left] | by right].
Qed.

(** What a revocation makes of an attempt. *)
Definition fenced (s : AttemptState) : AttemptState :=
  match s with AttemptIdle | AttemptTerminalCommitted => s | _ => AttemptFenced end.

Lemma revoked_ceases m d f n :
  fr_Kind f = MessageRevoke -> effect verify m d f n ->
  ceased n /\ ar_state (cm_attempt n) = fenced (ar_state (cm_attempt m)).
Proof.
  intros K E. destruct E as [I | | | | | | | | | | | | p _ _ _ _ _ S | p _ _ _ _ _ S | | binding sequence a P M]; try congruence.
  - by rewrite K in I.
  - split; [split; [left |] |]; cbn; [states; member |].
    states; by match goal with E : ar_state _ = _ |- _ => rewrite E end.
  - split; [split; [left | right; right; left] |]. cbn. rewrite !not_elem_of_cons in S.
    destruct (ar_state (cm_attempt m)); try done; tauto.
  - destruct M; congruence.
Qed.

(** C13. Revocation is final. Once a revocation has been accepted, whatever frames follow and
    whatever else is done with the machine, the connection stays revoking or revoked, and the
    attempt never moves again: one that was open is fenced and stays fenced, so it never
    commits; one that was committed stays committed until it is erased; and when there was none,
    none begins. *)
Theorem revocation_final m d f acceptance m1 h m2 :
  Accept verify m d f acceptance = Some (m1, None) ->
  fr_Kind f = MessageRevoke ->
  fr_Sequence f <> sq_sequence (sender_of m d) ->
  run m1 h m2 ->
  cm_connection m2 ∈ [ConnectionRevoking; ConnectionRevoked] /\
  (ar_state (cm_attempt m) ∉ [AttemptIdle; AttemptTerminalCommitted] -> ar_state (cm_attempt m2) = AttemptFenced) /\
  (ar_state (cm_attempt m) = AttemptTerminalCommitted ->
     ar_state (cm_attempt m2) ∈ [AttemptTerminalCommitted; AttemptIdle]) /\
  (ar_state (cm_attempt m) = AttemptIdle -> ar_state (cm_attempt m2) = AttemptIdle).
Proof.
  intros H K Q R.
  assert (ceased m1 /\ ar_state (cm_attempt m1) = fenced (ar_state (cm_attempt m))) as [C1 S1].
  { apply accept_inv in H as (_ & _ & _ & [(_ & Hs & _) | (n & E & -> & _)]); [done |].
    destruct (set_sender_keeps n d {| sq_sequence := fr_Sequence f; sq_ack := fr_Ack f;
      sq_fingerprint := frameFingerprint f |}) as (Ha & Hc & _).
    unfold ceased. rewrite Ha, Hc. by eapply revoked_ceases. }
  assert (ceased m2 /\ only_erased (ar_state (cm_attempt m1)) (ar_state (cm_attempt m2))) as [[Cc _] S2].
  { revert R. apply (run_invariant (fun _ m => ceased m /\ only_erased (ar_state (cm_attempt m1)) (ar_state (cm_attempt m))));
      [by split; [| left] |].
    intros _ n l n' [Cn Sn] St. apply (ceased_step _ _ _ Cn) in St as [Cn' Sn']. split; [done |].
    unfold only_erased in *. naive_solver congruence. }
  split; [done |]. unfold only_erased in S2. rewrite S1 in S2. rewrite !elem_of_cons, elem_of_nil.
  split_and!; destruct (ar_state (cm_attempt m)); cbn in S2; naive_solver congruence.
Qed.

(** ** Authentication *)

(** A frame that proves the worker's key for the connection of [m], and commits to
    the capabilities [m] holds. *)
Definition attach_proof m f : Prop :=
  VerifyAttachV1 verify (mc_Auth (cm_config m)) f = None /\
  exists p, fr_Attach f = Some p /\ bytes_equal (at_CapabilityDigest p) (cm_capabilityDigest m) = true.
Definition reconnect_proof m f : Prop :=
  VerifyReconnectV1 verify (mc_Auth (cm_config m)) f = None /\
  exists p, fr_Reconnect f = Some p /\ bytes_equal (rc_CapabilityDigest p) (cm_capabilityDigest m) = true.
Definition manifest_proof m f : Prop :=
  VerifyManifestV1 verify (mc_Auth (cm_config m)) f = None /\
  exists p, fr_Manifest f = Some p /\ bytes_equal (mn_Digest p) (cm_capabilityDigest m) = true.

Definition proved_by h m (proof : ConformanceMachine -> FrameV1 -> Prop) : Prop :=
  exists f, (DirectionWorkerToPlatform, f) ∈ h /\ proof m f.

(** How far the handshake of a connection has come. *)
Definition level (s : ConnectionState) : Z :=
  match s with
  | ConnectionAttachPending | ConnectionReconnectPending | ConnectionAttached => 1
  | ConnectionReady | ConnectionDraining | ConnectionDrained => 2
  | _ => 0
  end.

Definition authenticated h m : Prop :=
  (1 <= level (cm_connection m) -> proved_by h m attach_proof \/ proved_by h m reconnect_proof) /\
  (2 <= level (cm_connection m) -> proved_by h m manifest_proof).

Lemma bytes_equal_copied s : bytes_equal s (copied s) = true.
Proof.
  unfold bytes_equal, copied. destruct (String.eqb (content s) "") eqn:E; cbn; [done |]. apply String.eqb_refl.
Qed.

(** A proof stays one as long as the authority and the capabilities do. *)
Lemma proved_later h m l m' (proof : ConformanceMachine -> FrameV1 -> Prop) :
  (forall f, proof m f -> proof m' f) -> proved_by h m proof -> proved_by (l ++ h) m' proof.
Proof. intros Hp (f & Hf & P). exists f. split; [by apply elem_of_app; right | by apply Hp]. Qed.

Lemma authenticated_later h m l m' :
  cm_config m' = cm_config m -> cm_capabilityDigest m' = cm_capabilityDigest m ->
  level (cm_connection m') <= level (cm_connection m) ->
  authenticated h m -> authenticated (l ++ h) m'.
Proof.
  intros Hc Hd Hs [A B]. split; intros L.
  - destruct A as [A | A]; [lia | left | right]; revert A; apply proved_later; intros f;
      unfold attach_proof, reconnect_proof; by rewrite Hc, Hd.
  - specialize (B ltac:(lia)). revert B. apply proved_later. intros f. unfold manifest_proof. by rewrite Hc, Hd.
Qed.

Lemma proved_now h m d f (proof : ConformanceMachine -> FrameV1 -> Prop) :
  d = DirectionWorkerToPlatform -> proof m f -> proved_by ([(d, f)] ++ h) m proof.
Proof. intros -> P. exists f. split; [by left | done]. Qed.

Lemma reconnect_accepted_keeps m s c plan m1 summary :
  installReplayCommitment m s c plan = (m1, None) ->
  cm_config (applyDiscardTombstone (applyAttemptSummary m1 summary)) = cm_config m /\
  cm_capabilityDigest (applyDiscardTombstone (applyAttemptSummary m1 summary)) = cm_capabilityDigest m /\
  cm_reconnecting (applyDiscardTombstone (applyAttemptSummary m1 summary)) = cm_reconnecting m /\
  cm_reconnectAttempt (applyDiscardTombstone (applyAttemptSummary m1 summary)) = cm_reconnectAttempt m.
Proof.
  intros H. apply install_keeps in H as [q ->]. unfold applyDiscardTombstone. by repeat case_match.
Qed.

(** A manifest adds its proof to those of the attached connection. *)
Lemma manifest_authenticates h m d f p m1 :
  d = DirectionWorkerToPlatform -> cm_connection m = ConnectionAttached -> fr_Manifest f = Some p ->
  bytes_equal (mn_Digest p) (cm_capabilityDigest m) = true -> VerifyManifestV1 verify (mc_Auth (cm_config m)) f = None ->
  cm_config m1 = cm_config m -> cm_capabilityDigest m1 = cm_capabilityDigest m ->
  authenticated h m -> authenticated ([(d, f)] ++ h) m1.
Proof.
  intros D C P G V Hc Hd [A _]. split; intros _.
  - destruct A as [A | A]; [rewrite C; cbn; lia | left | right]; revert A; apply proved_later; intros g;
      unfold attach_proof, reconnect_proof; by rewrite Hc, Hd.
  - apply proved_now; [done |]. unfold manifest_proof. rewrite Hc, Hd. eauto.
Qed.

Lemma authenticated_effect h m d f m1 :
  authenticated h m -> effect verify m d f m1 -> authenticated ([(d, f)] ++ h) m1.
Proof.
  intros A E. destruct E as [| | | p K D C R P V | K D C | p K D C R P V | p m1 m2 K D C P _ I -> |
      p K D C R P G V | p K D C R P G V | | | | | | | binding sequence a _ M].
  all: try (by apply (authenticated_later h m); cbn; try done;
              match goal with H : cm_connection _ = _ |- _ => rewrite H end; cbn; lia).
  all: try (by apply (authenticated_later h m)).
  all: try (by split; cbn; lia).
  - split; cbn; [| lia]. intros _. left. apply proved_now; [done |]. split; [done |].
    exists p. split; [done | apply bytes_equal_copied].
  - split; cbn; [| lia]. intros _. right. apply proved_now; [done |]. split; [done |].
    exists p. split; [done | apply bytes_equal_copied].
  - apply (reconnect_accepted_keeps _ _ _ _ _ (ra_AuthoritativeAttempt p)) in I as (I1 & I2 & _).
    apply (authenticated_later h m); cbn; rewrite ?C; cbn; done.
  - by apply (manifest_authenticates h m _ f p).
  - by apply (manifest_authenticates h m _ f p).
  - rewrite recorded_is. by apply (authenticated_later h m).
Qed.

(** C12. A connection is ready, draining or drained only when the worker has proved its
    identity on it: it has sent an attach or a reconnect frame, and a manifest, whose
    signatures verify under the enrolled key for the tenant, worker, generations and
    channel of the connection, and both name the capability digest that attempts are
    held to. A reconnect starts over: nothing proved on an earlier connection counts. *)
Theorem ready_is_authenticated h m :
  reached h m ->
  cm_connection m ∈ [ConnectionReady; ConnectionDraining; ConnectionDrained] ->
  (proved_by h m attach_proof \/ proved_by h m reconnect_proof) /\ proved_by h m manifest_proof.
Proof.
  intros R S. assert (authenticated h m) as [A B].
  { revert R. apply reached_invariant; [by split; cbn; lia |]. intros h' n l n' A St.
    apply step_cases in St. destruct St as [| d f n1 -> _ _ E | next -> | ->].
    - by apply (authenticated_later h' n).
    - apply (authenticated_effect _ _ _ _ _ A) in E.
      apply (authenticated_later _ n1 []); [| | | done]; apply set_sender_keeps || by rewrite (proj1 (proj2 (set_sender_keeps _ _ _))).
    - split; cbn; lia.
    - by apply (authenticated_later h' n). }
  assert (level (cm_connection m) = 2) as L by (states; by rewrite H). split; [apply A | apply B]; lia.
Qed.

(** The run of a list of frames that are all accepted. *)
Lemma accepts_run l : forall m acceptance m',
  accepts verify m l acceptance = Some m' -> (forall m d f, (d, f) ∈ l -> sent m f) -> run m (rev l) m'.
Proof.
  induction l as [| [d f] l IH] using rev_ind; intros m acceptance m' H S; [injection H as <-; apply run_start |].
  rewrite rev_app_distr. apply accepts_last in H as (m1 & H & Ha).
  apply (run_step m (rev l) m1 [(d, f)]); [apply (IH m acceptance); [done |] |].
  - intros n d' f' Hin. apply (S n d'). apply elem_of_app. by left.
  - apply (st_accept m1 d f acceptance); [apply (S m1 d), elem_of_app; right; left | done].
Qed.
End Runs.

Section Sample.
Import WorkerSample.

Lemma ready_is_authenticated_witness :
  exists h m, reached verify (fun _ _ => True) h m /\ cm_connection m = ConnectionReady /\
    proved_by h m (manifest_proof verify).
Proof.
  destruct ready_after_handshake as (m & E & C). exists (rev handshake), m.
  assert (reached verify (fun _ _ => True) (rev handshake) m) as R.
  { exists config, start. split; [apply start_is |]. by apply (accepts_run _ _ _ _ acceptance). }
  split; [done |]. split; [done |].
  apply (ready_is_authenticated verify (fun _ _ => True) (rev handshake) m R). rewrite C. left.
Defined.

(** A revocation of the claimed attempt. *)
Lemma revocation_final_witness :
  exists m m1, accepts verify start claimed acceptance = Some m /\
    Accept verify m platform revoke acceptance = Some (m1, None) /\
    ar_state (cm_attempt m) = AttemptClaimed /\ ar_state (cm_attempt m1) = AttemptFenced.
Proof.
  destruct revoked_after_claim as (m & m1 & E & A & Q & S). exists m, m1. split; [exact E |]. split; [exact A |].
  split; [exact S |].
  apply (revocation_final verify (fun _ _ => True) m platform revoke acceptance m1 [] m1 A eq_refl Q (run_start _ _ m1)).
  rewrite S, !not_elem_of_cons. split_and!; [discriminate | discriminate | apply not_elem_of_nil].
Defined.
End Sample.
