(* ===== verification/WorkerMachineAttempts.v ===== *)
(** * The attempt record of the protocol machine
      ([internal/attachedworkerprotocol]: [machine.go], [reconciliation.go])

    Whatever frames a machine is offered, the summary of its attempt is one the
    protocol accepts, and a reconnect can be built from it. *)

From stdpp Require Import gmap.
From S2P Require Import Prelude GoText Sha256 Json WorkerProtocol WorkerFrames WorkerReconnect WorkerTranscripts.
From S2P Require Import WorkerMachine WorkerSample WorkerMachineSafety WorkerMachineRuns.
#[local] Open Scope Z_scope.

(** ** Copies *)

Lemma content_copied s : content (copied s) = content s.
Proof. unfold copied. destruct (String.eqb (content s) "") eqn:E; b2p; [by rewrite E | done]. Qed.

Lemma clonePreserving_id s : cloneBytesPreservingNil s = s.
Proof. by destruct s. Qed.

Lemma cloneBinding_id b : cloneBinding b = b.
Proof. destruct b. unfold cloneBinding. cbn. by rewrite !clonePreserving_id. Qed.

Lemma cloneSummary_id s : cloneAttemptSummary s = s.
Proof. destruct s. unfold cloneAttemptSummary. cbn. by rewrite cloneBinding_id, !clonePreserving_id. Qed.

(** ** Bindings *)

Definition alike (b c : AttemptBindingV1) : Prop :=
  ab_RunID b = ab_RunID c /\ ab_AttemptID b = ab_AttemptID c /\ ab_LeaseID b = ab_LeaseID c /\
  ab_LeaseGeneration b = ab_LeaseGeneration c /\ ab_FenceToken b = ab_FenceToken c /\
  ab_ExpiresAtUnixMicro b = ab_ExpiresAtUnixMicro c /\ content (ab_ContextDigest b) = content (ab_ContextDigest c) /\
  content (ab_CapabilityDigest b) = content (ab_CapabilityDigest c) /\
  content (ab_PolicyDigest b) = content (ab_PolicyDigest c).

Lemma same_binding_iff b c : sameAttemptBinding b c = true <-> alike b c.
Proof. unfold sameAttemptBinding, bytes_equal, alike. b2p. tauto. Qed.

#[global] Instance alike_equivalence : Equivalence alike.
Proof.
  split; unfold alike; [intros b | intros b c | intros b c e]; intuition congruence.
Qed.

Lemma alike_valid b c : alike b c -> AttemptBindingV1_Validate b = AttemptBindingV1_Validate c.
Proof.
  intros (H1 & H2 & H3 & H4 & H5 & H6 & H7 & H8 & H9). unfold AttemptBindingV1_Validate, validBytes.
  by rewrite H1, H2, H3, H4, H5, H6, H7, H8, H9.
Qed.

Lemma zero_not_valid b : attemptBindingIsZero b = true -> AttemptBindingV1_Validate b <> None.
Proof.
  unfold attemptBindingIsZero, AttemptBindingV1_Validate. intros Z H.
  assert (ab_RunID b = "") as E by (b2p; tauto). rewrite E in H. discriminate H.
Qed.

(** ** Sound summaries *)

(** What [AttemptSummaryV1.Validate] requires, the digest aside. *)
Record sound (s : AttemptSummaryV1) : Prop := {
  so_bounds : as_PlatformSequence s <= 64 /\ as_WorkerSequence s <= 64 /\ as_ProgressSequence s <= 32;
  so_idle : as_State s = AttemptIdle ->
    as_PlatformSequence s = 0 /\ as_WorkerSequence s = 0 /\ as_ProgressSequence s = 0 /\ as_CancelRevision s = 0 /\
    as_TerminalSequence s = 0 /\ attemptBindingIsZero (as_Binding s) = true;
  so_binding : as_State s <> AttemptIdle -> AttemptBindingV1_Validate (as_Binding s) = None;
  so_uncancelled : as_CancelRevision s = 0 -> as_CancelCode s = no_cancel;
  so_cancelled : as_CancelRevision s <> 0 -> as_CancelCode s = CancelRequested \/ as_CancelCode s = CancelFenced;
  so_open : as_TerminalSequence s = 0 ->
    as_TerminalStatus s = no_status /\ as_TerminalResult s = no_result /\ content (as_TerminalEvidenceDigest s) = "";
  so_terminal : as_TerminalSequence s <> 0 ->
    validTerminalResult (as_TerminalStatus s) (as_TerminalResult s) = true /\
    len (content (as_TerminalEvidenceDigest s)) = 32;
  so_fence : as_CancelCode s = CancelFenced -> as_TerminalSequence s <> 0 -> as_TerminalStatus s = TerminalCancelled;
  so_state : summary_state s = None }.

Lemma valid_sound s : AttemptSummaryV1_Validate s = None -> sound s.
Proof.
  unfold AttemptSummaryV1_Validate. rewrite !check_nil. intros (B & I & C & T & F & S & _).
  unfold summary_bounds in B. unfold summary_binding in I. unfold summary_cancel in C. unfold summary_terminal in T.
  unfold summary_fence in F. unfold MaxAttemptMessages, MaxProgressUpdates, validBytes, digest_size in *.
  split; try done.
  - peel B. b2p. tauto.
  - intros Hi. rewrite bool_decide_true in I by done. peel I. b2p. tauto.
  - intros Hi. rewrite bool_decide_false in I by done. peel I. b2p. tauto.
  - intros Hr. rewrite Hr in C. cbn in C. peel C. b2p. tauto.
  - intros Hr. apply Z.eqb_neq in Hr. rewrite Hr in C. peel C. b2p. tauto.
  - intros Ht. rewrite Ht in T. cbn in T. peel T. b2p. rewrite len_zero in *. tauto.
  - intros Ht. apply Z.eqb_neq in Ht. rewrite Ht in T. peel T. b2p. tauto.
  - intros Hc Ht. rewrite bool_decide_true in F by done. apply Z.eqb_neq in Ht. rewrite Ht in F. cbn in F.
    peel F. b2p. done.
Qed.

(** A sealed sound summary validates. *)
Lemma sound_valid s :
  sound s -> len (content (as_Digest s)) = 32 -> content (attemptSummaryDigestV1 s) = content (as_Digest s) ->
  AttemptSummaryV1_Validate s = None.
Proof.
  intros [B I V Cu Cc To Tt F S] L D. unfold AttemptSummaryV1_Validate. rewrite !check_nil, reject_nil.
  unfold summary_bounds, summary_binding, summary_cancel, summary_terminal, summary_fence.
  unfold MaxAttemptMessages, MaxProgressUpdates, validBytes, digest_size, bytes_equal.
  split; [rewrite reject_nil; split; [b2p; tauto | done] |].
  split.
  { case_bool_decide as Hi; rewrite ?reject_nil; [| by rewrite V].
    destruct (I Hi) as (H1 & H2 & H3 & H4 & H5 & H6). destruct (To H5) as (H7 & H8 & H9).
    rewrite H1, H2, H3, H4, H5, H6, H7, H8, H9, (Cu H4). by split. }
  split.
  { destruct (as_CancelRevision s =? 0) eqn:E; b2p; rewrite reject_nil; [by rewrite (Cu E) |].
    destruct (Cc E) as [-> | ->]; by split. }
  split.
  { destruct (as_TerminalSequence s =? 0) eqn:E; b2p; rewrite reject_nil;
      [by destruct (To E) as (-> & -> & ->) | by destruct (Tt E) as (-> & ->)]. }
  split.
  { rewrite reject_nil. split; [| done]. b2p.
    destruct (decide (as_CancelCode s = CancelFenced)); [| by do 2 left].
    destruct (decide (as_TerminalSequence s = 0)); [by left; right | right; by apply F]. }
  split; [done |]. split; [| done]. b2p. done.
Qed.

Lemma digest_length s : len (content (attemptSummaryDigestV1 s)) = 32.
Proof. unfold attemptSummaryDigestV1, len. cbn [content]. by rewrite sha256_length. Qed.

Lemma sealed_valid s : sound s -> AttemptSummaryV1_Validate (sealAttemptSummary s) = None.
Proof.
  intros H. apply sound_valid; [| by unfold sealAttemptSummary; cbn [as_Digest]; rewrite digest_length | done].
  destruct H as [B I V Cu Cc To Tt F S].
  unfold sealAttemptSummary. destruct (as_TerminalSequence s =? 0) eqn:E; b2p; case_bool_decide as Hi; cbn in *.
  - destruct (I Hi) as (H1 & H2 & H3 & H4 & H5 & H6). destruct (To H5) as (H7 & H8 & H9).
    split; cbn; try done; try lia.
    + intros _. repeat split; try done. revert H6. unfold attemptBindingIsZero. cbn. b2p. tauto.
  - split; cbn; try done; naive_solver.
  - by destruct (I Hi) as (_ & _ & _ & _ & ? & _).
  - split; cbn; done.
Qed.

(** ** Attempt messages keep the summary sound *)

Lemma valid_attempt b s : validateAttempt b s = None -> AttemptBindingV1_Validate b = None /\ s <> 0 /\ s <= 64.
Proof. unfold validateAttempt, MaxAttemptMessages. intros H. peel H. b2p. tauto. Qed.

Lemma valid_progress p : ProgressV1_Validate p = None ->
  validateAttempt (pr_Binding p) (pr_AttemptSequence p) = None /\ pr_ProgressSequence p <= 32.
Proof. unfold ProgressV1_Validate, MaxProgressUpdates. intros H. peel H. b2p. tauto. Qed.

Lemma valid_cancel p : CancelV1_Validate p = None ->
  validateAttempt (ca_Binding p) (ca_AttemptSequence p) = None /\
  (ca_Code p = CancelRequested \/ ca_Code p = CancelFenced).
Proof. unfold CancelV1_Validate. intros H. peel H. b2p. tauto. Qed.

Lemma valid_cancel_ack p : CancelAckV1_Validate p = None ->
  validateAttempt (ck_Binding p) (ck_AttemptSequence p) = None.
Proof. unfold CancelAckV1_Validate. intros H. peel H. b2p. tauto. Qed.

Lemma valid_terminal p : TerminalV1_Validate p = None <->
  validateAttempt (te_Binding p) (te_AttemptSequence p) = None /\ te_TerminalSequence p <> 0 /\
  validTerminalResult (te_Status p) (te_Result p) = true /\ len (content (te_EvidenceDigest p)) = 32.
Proof. unfold TerminalV1_Validate, validBytes, digest_size. rewrite reject_nil. b2p. tauto. Qed.

Lemma valid_terminal_ack p : TerminalAckV1_Validate p = None ->
  validateAttempt (ta_Binding p) (ta_AttemptSequence p) = None.
Proof. unfold TerminalAckV1_Validate. intros H. peel H. b2p. tauto. Qed.

Lemma payload_valid f b s :
  carries f -> attempt_kind (fr_Kind f) = true -> attemptPayload f = Some (b, s) ->
  AttemptBindingV1_Validate b = None /\ s <> 0 /\ s <= 64.
Proof.
  intros C K P. apply valid_attempt. unfold carries, attemptPayload in *.
  destruct (fr_Kind f); try discriminate K; destruct C as (p & E & V); rewrite E in P; injection P as <- <-; try exact V.
  - by apply valid_progress.
  - by apply valid_cancel.
  - by apply valid_cancel_ack.
  - by apply valid_terminal.
  - by apply valid_terminal_ack.
Qed.

Lemma recorded_summary a d s fp :
  attempt_summary (recorded a d s fp) =
  (let t := attempt_summary a in
   if is_direction d DirectionPlatformToWorker then {| t with as_PlatformSequence := s |}
   else {| t with as_WorkerSequence := s |}).
Proof.
  unfold recorded. cbv zeta. destruct (is_direction d DirectionPlatformToWorker); destruct (ar_pendingWorkerTerminal a);
    try case_match; done.
Qed.

Lemma moved_kind m d f a : moved m d f a -> attempt_kind (fr_Kind f) = true.
Proof. by destruct 1 as [? ? ? K | ? ? K | ? ? K | ? ? ? K | ? ? ? K | ? ? K | K | ? ? ? K | ? ? ? K | ? ? ? K | ? ? ? K]; rewrite K. Qed.

(** The payload of a frame of a known kind is the one the frame carries. *)
Lemma carried_progress f p :
  carries f -> fr_Kind f = MessageProgress -> fr_Progress f = Some p -> ProgressV1_Validate p = None.
Proof. unfold carries. intros C K P. rewrite K in C. destruct C as (q & E & V). congruence. Qed.
Lemma carried_cancel f p :
  carries f -> fr_Kind f = MessageCancel -> fr_Cancel f = Some p -> CancelV1_Validate p = None.
Proof. unfold carries. intros C K P. rewrite K in C. destruct C as (q & E & V). congruence. Qed.
Lemma carried_terminal f p :
  carries f -> fr_Kind f = MessageTerminal -> fr_Terminal f = Some p -> TerminalV1_Validate p = None.
Proof. unfold carries. intros C K P. rewrite K in C. destruct C as (q & E & V). congruence. Qed.

Lemma offered_payload f p b s :
  fr_Kind f = MessageLeaseOffer -> fr_LeaseOffer f = Some p -> attemptPayload f = Some (b, s) ->
  b = lo_Binding p /\ s = lo_AttemptSequence p.
Proof. unfold attemptPayload. intros -> ->. by intros [= <- <-]. Qed.

Lemma to_worker : is_direction DirectionPlatformToWorker DirectionPlatformToWorker = true.
Proof. done. Qed.
Lemma to_platform : is_direction DirectionWorkerToPlatform DirectionPlatformToWorker = false.
Proof. done. Qed.

(** The states of an attempt that has begun: what [sound] asks of them. *)
Lemma sound_begun s :
  as_State s <> AttemptIdle -> as_PlatformSequence s <= 64 /\ as_WorkerSequence s <= 64 /\ as_ProgressSequence s <= 32 ->
  AttemptBindingV1_Validate (as_Binding s) = None ->
  (as_CancelRevision s = 0 -> as_CancelCode s = no_cancel) ->
  (as_CancelRevision s <> 0 -> as_CancelCode s = CancelRequested \/ as_CancelCode s = CancelFenced) ->
  (as_TerminalSequence s = 0 ->
    as_TerminalStatus s = no_status /\ as_TerminalResult s = no_result /\ content (as_TerminalEvidenceDigest s) = "") ->
  (as_TerminalSequence s <> 0 ->
    validTerminalResult (as_TerminalStatus s) (as_TerminalResult s) = true /\
    len (content (as_TerminalEvidenceDigest s)) = 32) ->
  (as_CancelCode s = CancelFenced -> as_TerminalSequence s <> 0 -> as_TerminalStatus s = TerminalCancelled) ->
  summary_state s = None -> sound s.
Proof. intros. split; done. Qed.

(** [begun] discharges [sound_begun] from what the previous record satisfied. *)
Ltac begun :=
  apply sound_begun; cbn in *; try done; try lia; auto;
  unfold summary_state in *; cbn in *; repeat case_match; simplify_eq; try done; b2p; rewrite ?content_copied; try lia; try congruence; try tauto.

Lemma sound_moved m d f b s a fp :
  carries f -> attemptPayload f = Some (b, s) -> moved m d f a -> aq_sequence (attempt_sender m d) < s -> 0 < s ->
  sound (attempt_summary (cm_attempt m)) -> sound (attempt_summary (recorded a d s fp)).
Proof.
  intros C P M Q N S. destruct (payload_valid f b s C (moved_kind _ _ _ _ M) P) as (V & _ & L).
  rewrite recorded_summary. cbv zeta. unfold attempt_sender in Q.
  destruct S as [B I Vb Cu Cc To Tt F St]. unfold attempt_summary in *. cbn in *. rewrite ?cloneBinding_id in *.
  destruct M as [p a0 E K D Hp Cn Si Sq | a0 E K D Si | a0 E K D Si | p a0 E K D Hp Si Sq | p a0 E K D Hp Si Sq
    | a0 E K D Si | K D Si | p a0 E K D Hp Si Hr Hs Hc | p a0 E K D Hp Si Sq Hs Hc Hr | p a0 E K D Hp Si Sq Hs Hc
    | p a0 E K D Hp Si Hr Sq Hs Hc Hv]; rewrite D in *; clear D; try subst a0;
    rewrite ?to_worker, ?to_platform in *; unfold summary_state in St.
  - destruct (I Si) as (I1 & I2 & I3 & I4 & I5 & I6). destruct (offered_payload f p b s K Hp P) as [-> ->].
    apply sound_begun; cbn; try done; try lia; [by rewrite cloneBinding_id | unfold summary_state; cbn; by rewrite Sq].
  - rewrite Si in *. begun.
  - rewrite Si in *. begun.
  - apply carried_progress, valid_progress in Hp as [_ Hp]; [| done ..]. states; rewrite H in *; begun.
  - apply carried_cancel, valid_cancel in Hp as [_ Hp]; [| done ..]. rewrite Sq. states; rewrite H in *; begun.
  - rewrite Si in *. begun.
  - rewrite Si in *. begun.
  - states; rewrite H in *; begun.
  - apply carried_terminal, valid_terminal in Hp as (_ & _ & H1 & H2); [| done ..]. rewrite Sq.
    states; rewrite H in *; begun.
  - apply carried_terminal, valid_terminal in Hp as (_ & _ & H1 & H2); [| done ..]. rewrite Sq.
    assert (ar_cancelCode (cm_attempt m) = CancelFenced -> te_Status p = TerminalCancelled) as Hf.
    { intros E. apply Hs. intros E0. rewrite (Cu E0) in E. discriminate E. }
    clear Hc. states; rewrite H in *; begun.
  - rewrite Si in *. begun.
Qed.

(** ** Reconciliation keeps the summary sound *)

(** A terminal the protocol would accept, up to its place in the attempt. *)
Definition proper_terminal (t : TerminalV1) : Prop :=
  AttemptBindingV1_Validate (te_Binding t) = None /\ te_AttemptSequence t <= 64 /\ te_TerminalSequence t <> 0 /\
  validTerminalResult (te_Status t) (te_Result t) = true /\ len (content (te_EvidenceDigest t)) = 32.

Lemma proper_valid t : proper_terminal t -> te_AttemptSequence t <> 0 -> TerminalV1_Validate t = None.
Proof.
  intros (V & L & T & R & E) N. apply valid_terminal. repeat split; try done.
  unfold validateAttempt, MaxAttemptMessages. rewrite reject_nil. split; [| done]. b2p. tauto.
Qed.

Lemma valid_proper t : TerminalV1_Validate t = None -> proper_terminal t.
Proof. intros H. apply valid_terminal in H as (V & T & R & E). apply valid_attempt in V. unfold proper_terminal. tauto. Qed.

Lemma cloned_proper t t' :
  cloneTerminal (Some t) = Some t' -> te_Binding t' = te_Binding t /\ te_AttemptSequence t' = te_AttemptSequence t /\
  (proper_terminal t -> proper_terminal t').
Proof.
  intros [= <-]. cbn. rewrite cloneBinding_id. split; [done |]. split; [done |].
  unfold proper_terminal. cbn. rewrite content_copied. tauto.
Qed.

Lemma valid_snapshot s : ReconnectSnapshotV1_Validate s = None ->
  AttemptSummaryV1_Validate (rs_Attempt s) = None /\
  validatePendingTerminal (rs_PendingTerminalReplay s) (rs_Attempt s) = None.
Proof. unfold ReconnectSnapshotV1_Validate. rewrite reject_nil. intros [H _]. b2p. tauto. Qed.

Lemma valid_pending t s : validatePendingTerminal (Some t) s = None ->
  TerminalV1_Validate t = None /\ alike (te_Binding t) (as_Binding s).
Proof. cbn. rewrite reject_nil. intros [H _]. b2p. rewrite <- same_binding_iff. done. Qed.

(** The terminal a valid claim reports is proper, and is of the claim's attempt. *)
Lemma claim_terminal claim t :
  ReconnectSnapshotV1_Validate claim = None -> reconnectPendingTerminal claim = Some t ->
  proper_terminal t /\ alike (te_Binding t) (as_Binding (rs_Attempt claim)) /\ as_State (rs_Attempt claim) <> AttemptIdle.
Proof.
  intros V H. apply valid_snapshot in V as [S P]. apply valid_sound in S. unfold reconnectPendingTerminal in H.
  destruct (rs_PendingTerminalReplay claim) as [u |] eqn:Hu; cbn [notnil isnil negb] in H.
  - apply valid_pending in P as [Vu A]. destruct (cloned_proper u t H) as (B & _ & Hp). rewrite B.
    split; [by apply Hp, valid_proper |]. split; [done |]. intros Hi.
    destruct (so_idle _ S Hi) as (_ & _ & _ & _ & _ & Z). apply zero_not_valid in Z. apply Z.
    rewrite <- (alike_valid _ _ A). apply valid_proper in Vu. apply Vu.
  - destruct (as_TerminalSequence (rs_Attempt claim) =? 0) eqn:T; [discriminate H |]. b2p. injection H as <-. cbn.
    rewrite cloneBinding_id.
    assert (as_State (rs_Attempt claim) <> AttemptIdle) as N by (intros Hi; apply (so_idle _ S) in Hi; tauto).
    split; [| done]. unfold proper_terminal. cbn. rewrite content_copied.
    destruct (so_terminal _ S T) as [R E]. pose proof (so_bounds _ S). repeat split; try done; [by apply (so_binding _ S) | tauto].
Qed.

Lemma compatible_binding claim auth :
  reconnectClaimsCompatible claim auth = true -> as_State (rs_Attempt claim) <> AttemptIdle ->
  alike (as_Binding (rs_Attempt claim)) (as_Binding (rs_Attempt auth)) /\ as_State (rs_Attempt auth) <> AttemptIdle.
Proof.
  unfold reconnectClaimsCompatible. intros H N. repeat case_match; try discriminate H; b2p.
  - exfalso. destruct H2; congruence.
  - unfold attempts_conflict in *. b2p. rewrite <- same_binding_iff. tauto.
Qed.

Lemma build_inv auth claim n p :
  BuildReconnectAcceptedV1 auth claim n = inr p ->
  ReconnectSnapshotV1_Validate auth = None /\ ReconnectSnapshotV1_Validate claim = None /\
  reconnectClaimsCompatible claim auth = true.
Proof. unfold BuildReconnectAcceptedV1. intros H. case_match eqn:E; [discriminate H |]. b2p. tauto. Qed.

Lemma install_pending m s c plan m1 :
  installReplayCommitment m s c plan = (m1, None) ->
  exists q, m1 = set_pending m q /\
    (q = None \/ q = ar_pendingWorkerTerminal (cm_attempt m) \/
     exists t decision, reconnectPendingTerminal c = Some t /\ q = Some (replay_commitment t decision)).
Proof.
  unfold installReplayCommitment. intros H.
  assert (m = set_pending m (ar_pendingWorkerTerminal (cm_attempt m))) as Hm by (by destruct m as [? ? ? ? ? ? ? ? []]).
  repeat case_match; simplify_eq; eauto 10; exists (ar_pendingWorkerTerminal (cm_attempt m1)); eauto.
Qed.

(** A commitment to a terminal of the attempt. *)
Record held (c : terminalReplayCommitment) (a : attemptRecord) : Prop := {
  he_open : ar_state a <> AttemptIdle;
  he_sequence : tr_sequence c = te_AttemptSequence (tr_terminal c);
  he_proper : proper_terminal (tr_terminal c);
  he_binding : alike (te_Binding (tr_terminal c)) (ar_binding a) }.

(** What a machine keeps of its attempt, and of a claim it is about to answer. *)
Record steady (m : ConformanceMachine) : Prop := {
  st_sound : sound (attempt_summary (cm_attempt m));
  st_once : ar_cancelRevision (cm_attempt m) ∈ [0; 1];
  st_held : forall c, ar_pendingWorkerTerminal (cm_attempt m) = Some c -> held c (cm_attempt m);
  st_claim : cm_connection m = ConnectionReconnectPending ->
    forall c, ar_pendingWorkerTerminal (cm_attempt m) = Some c ->
    exists t, reconnectPendingTerminal (cm_reconnectClaim m) = Some t /\
      alike (te_Binding (tr_terminal c)) (te_Binding t);
  st_target : cm_reconnecting m = true -> cm_reconnectTarget m ∈ [ConnectionReady; ConnectionDraining] }.

Lemma idle_sound : sound (attempt_summary idle_attempt).
Proof. by split. Qed.

Lemma steady_idle m :
  (cm_reconnecting m = true -> cm_reconnectTarget m ∈ [ConnectionReady; ConnectionDraining]) ->
  cm_attempt m = idle_attempt -> steady m.
Proof. intros T E. split; rewrite ?E; [apply idle_sound | left | done | done | done]. Qed.

(** The attempt and the claim unchanged. *)
Lemma steady_same m m1 :
  cm_attempt m1 = cm_attempt m -> cm_reconnectClaim m1 = cm_reconnectClaim m ->
  (cm_connection m1 = ConnectionReconnectPending -> cm_connection m = ConnectionReconnectPending) ->
  (cm_reconnecting m1 = true -> cm_reconnecting m = true /\ cm_reconnectTarget m1 = cm_reconnectTarget m) ->
  steady m -> steady m1.
Proof.
  intros A C N R [S O H L T]. split; rewrite ?A; [done | done | done | |].
  - intros Hc. rewrite C. auto.
  - intros Hr. destruct (R Hr) as [Hr' ->]. auto.
Qed.

Lemma fence_sound a :
  ar_state a <> AttemptIdle -> ar_cancelRevision a ∈ [0; 1] ->
  sound (attempt_summary a) -> sound (attempt_summary (fence_attempt a)).
Proof.
  intros N O [B I V Cu Cc To Tt F St].
  assert ((if ar_cancelRevision a =? 0 then 1 else ar_cancelRevision a) = 1) as R by (states; by rewrite H).
  apply sound_begun; unfold summary_state; cbn; rewrite ?R; try done; [by apply V | by right].
Qed.

(** The claim of the worker, as the machine stores it. *)
Lemma stored_claim s t :
  reconnectPendingTerminal s = Some t ->
  exists t', reconnectPendingTerminal (cloneReconnectSnapshot s) = Some t' /\ te_Binding t' = te_Binding t.
Proof.
  unfold reconnectPendingTerminal. destruct s as [g w a [u |] dg]; cbn.
  - intros [= <-]. eexists. split; [done |]. cbn. by rewrite !cloneBinding_id.
  - destruct (as_TerminalSequence a =? 0); [done |]. intros [= <-]. eexists. split; [done |]. cbn. by rewrite !cloneBinding_id.
Qed.

Lemma claim_held m p c :
  incompatible_claim m (claimed_snapshot p) = false -> ar_pendingWorkerTerminal (cm_attempt m) = Some c ->
  exists t, reconnectPendingTerminal (cloneReconnectSnapshot (claimed_snapshot p)) = Some t /\
    alike (te_Binding (tr_terminal c)) (te_Binding t).
Proof.
  unfold incompatible_claim, SnapshotForReconnect. intros H P. destruct (negb (cm_reconnecting m)); [discriminate H |].
  apply negb_false_iff in H. unfold reconnectClaimsCompatible in H.
  destruct (_ || _); [discriminate H |]. cbv zeta in H.
  destruct (pending_mismatch _ _) eqn:E; [discriminate H |]. clear H.
  unfold sealReconnectSnapshot, pendingTerminalForSnapshot in E. cbn in E. rewrite P in E. cbn in E.
  destruct (reconnectPendingTerminal (claimed_snapshot p)) as [t |] eqn:T; [| discriminate E].
  destruct (stored_claim _ _ T) as (t' & Ht & Hb). exists t'. split; [done |]. rewrite Hb.
  apply negb_false_iff in E. unfold sameTerminal in E. b2p. rewrite same_binding_iff in E. cbn in E.
  rewrite !cloneBinding_id in E. tauto.
Qed.

(** ** Every effect keeps a machine steady *)

Lemma held_recorded c a d s fp :
  held c a -> held c (recorded a d s fp).
Proof. intros [O Q P B]. split; try done; unfold recorded; by repeat case_match. Qed.

Lemma recorded_pending a d s fp c :
  ar_pendingWorkerTerminal (recorded a d s fp) = Some c -> ar_pendingWorkerTerminal a = Some c.
Proof. unfold recorded. destruct (is_direction d DirectionPlatformToWorker), (ar_pendingWorkerTerminal a); cbn; try done; case_match; done. Qed.

Lemma recorded_revision a d s fp : ar_cancelRevision (recorded a d s fp) = ar_cancelRevision a.
Proof. unfold recorded. by repeat case_match. Qed.

(** A message changes neither the commitment nor, once there is an offer, the binding. *)
Lemma moved_keeps m d f a :
  moved m d f a ->
  ar_pendingWorkerTerminal a = ar_pendingWorkerTerminal (cm_attempt m) /\ ar_state a <> AttemptIdle /\
  (ar_state (cm_attempt m) <> AttemptIdle -> ar_binding a = ar_binding (cm_attempt m)) /\
  (ar_cancelRevision (cm_attempt m) ∈ [0; 1] -> ar_cancelRevision a ∈ [0; 1]).
Proof.
  destruct 1; subst; cbn; repeat split; try done; try (by intros; exfalso; congruence);
    try (by states; congruence); try (by case_match); try (by intros; match goal with H : _ = 1 |- _ => rewrite H end; right; left).
Qed.

Lemma steady_attempt m d f b s a :
  carries f -> attemptPayload f = Some (b, s) -> moved m d f a -> aq_sequence (attempt_sender m d) < s ->
  s = wrap_u64 (aq_sequence (attempt_sender m d) + 1) -> steady m ->
  steady (with_attempt m (recorded a d s (attemptFingerprint f))).
Proof.
  intros C P M Q W [S O H L T]. destruct (moved_keeps _ _ _ _ M) as (Kp & Ks & Kb & Ko).
  assert (0 < s) as N.
  { destruct (payload_valid f b s C (moved_kind _ _ _ _ M) P) as (_ & N & _).
    pose proof (wrap_u64_range (aq_sequence (attempt_sender m d) + 1)) as R. unfold u64 in R. lia. }
  assert (forall c, ar_pendingWorkerTerminal (recorded a d s (attemptFingerprint f)) = Some c ->
                    ar_pendingWorkerTerminal (cm_attempt m) = Some c) as Hp.
  { intros c Hc. apply recorded_pending in Hc. by rewrite <- Kp. }
  split; cbn.
  - by eapply sound_moved.
  - rewrite recorded_revision. auto.
  - intros c Hc. apply Hp in Hc. destruct (H c Hc) as [Ho Hs Hr Hb]. apply held_recorded. split; try done.
    by rewrite (Kb Ho).
  - intros Hc c Hq. apply (L Hc c). by apply Hp.
  - done.
Qed.

Lemma sound_summarized m s : sound s -> sound (attempt_summary (cm_attempt (applyAttemptSummary m s))).
Proof.
  intros [B I V Cu Cc To Tt F St].
  split; unfold summary_state in *; cbn in *; rewrite ?content_copied, ?cloneBinding_id; done.
Qed.

(** [applyDiscardTombstone] moves the worker's sequence forward. *)
Lemma sound_raised a w :
  sound (attempt_summary a) -> ar_state a <> AttemptIdle -> aq_sequence (ar_worker a) < w <= 64 ->
  sound (attempt_summary (let x := ar_worker a in {| a with ar_worker := {| x with aq_sequence := w |} |})).
Proof.
  intros [B I V Cu Cc To Tt F St] N L. apply sound_begun; cbn in *; try done; [lia | by apply V |].
  unfold summary_state in *. cbn in *. destruct (ar_state a); try done; peel St; b2p; rewrite reject_nil; b2p; (split; [lia | done]).
Qed.

(** The commitment after an answer is to a terminal of the attempt the answer restores. *)
Lemma installed_held m p m1 c :
  steady m -> cm_connection m = ConnectionReconnectPending -> unexpected_answer m p = false ->
  installReplayCommitment m (authoritative_snapshot m p) (cm_reconnectClaim m) (ra_ReplayPlan p) = (m1, None) ->
  ar_pendingWorkerTerminal (cm_attempt m1) = Some c ->
  held c (cm_attempt (applyAttemptSummary m1 (ra_AuthoritativeAttempt p))).
Proof.
  intros S Cn U I Hc. unfold unexpected_answer in U.
  destruct (BuildReconnectAcceptedV1 _ _ _) as [| expected] eqn:B; [discriminate U |]. clear U.
  apply build_inv in B as (_ & V & K).
  apply install_pending in I as (q & -> & Hq). cbn in Hc. subst q.
  assert (exists t, reconnectPendingTerminal (cm_reconnectClaim m) = Some t /\
    tr_sequence c = te_AttemptSequence (tr_terminal c) /\ proper_terminal (tr_terminal c) /\
    alike (te_Binding (tr_terminal c)) (te_Binding t)) as (t & Ht & Hs & Hp & Hb).
  { destruct Hq as [[=] | [Hq | (t & decision & Ht & [= ->])]].
    - destruct (st_claim m S Cn c (eq_sym Hq)) as (t & Ht & Hb). destruct (st_held m S c (eq_sym Hq)) as [_ Hs Hp _]. eauto 10.
    - exists t. destruct (claim_terminal _ _ V Ht) as [Hp _]. split; [done |]. cbn.
      rewrite cloneBinding_id. repeat split; try done; cbn; rewrite ?content_copied; apply Hp. }
  destruct (claim_terminal _ _ V Ht) as (_ & Hb' & N). apply (compatible_binding _ _ K) in N as [Hb'' N].
  cbn in Hb'', N. rewrite cloneBinding_id in Hb''. split; try done. cbn. rewrite cloneBinding_id. by rewrite Hb, Hb'.
Qed.

Lemma steady_reconnected m p m1 m2 :
  steady m -> cm_connection m = ConnectionReconnectPending -> ReconnectAcceptedV1_Validate p = None ->
  as_CancelRevision (ra_AuthoritativeAttempt p) ∈ [0; 1] -> unexpected_answer m p = false ->
  installReplayCommitment m (authoritative_snapshot m p) (cm_reconnectClaim m) (ra_ReplayPlan p) = (m1, None) ->
  m2 = applyDiscardTombstone (applyAttemptSummary m1 (ra_AuthoritativeAttempt p)) ->
  steady {| m2 with cm_connection := ConnectionAttached |}.
Proof.
  intros S Cn V O U I ->. pose proof (fun c => installed_held m p m1 c S Cn U I) as H.
  assert (sound (attempt_summary (cm_attempt (applyAttemptSummary m1 (ra_AuthoritativeAttempt p))))) as Sd.
  { apply sound_summarized, valid_sound. unfold ReconnectAcceptedV1_Validate in V. rewrite reject_nil in V. b2p. tauto. }
  assert (cm_reconnecting m1 = true -> cm_reconnectTarget m1 ∈ [ConnectionReady; ConnectionDraining]) as T.
  { apply install_keeps in I as [q ->]. apply S. }
  unfold applyDiscardTombstone. cbn. destruct (ar_pendingWorkerTerminal (cm_attempt m1)) as [c |] eqn:Hc.
  2: { split; cbn; rewrite ?Hc; done. }
  specialize (H c eq_refl). destruct (_ || _) eqn:G.
  { split; cbn; rewrite ?Hc; try done. intros c' [= <-]. by destruct H. }
  b2p. destruct G as [_ G]. split; cbn; rewrite ?Hc; try done; [| intros c' [= <-]; by destruct H].
  destruct H as [Ho Hs Hp Hb]. apply (sound_raised _ (tr_sequence c)) in Sd; [done | done |].
  cbn. rewrite Hs in G |- *. split; [exact G | apply Hp].
Qed.

(** A platform cancels an attempt once: the only revision it ever states is the first. *)
Definition cancels_once (_ : ConformanceMachine) (f : FrameV1) : Prop :=
  forall a, fr_ReconnectAccepted f = Some a -> as_CancelRevision (ra_AuthoritativeAttempt a) ∈ [0; 1].

Section Steady.
Context (verify : string -> string -> string -> bool).

Implicit Types (m : ConformanceMachine) (d : Direction) (f : FrameV1).

Lemma steady_effect m d f m1 : carries f -> cancels_once m f -> effect verify m d f m1 -> steady m -> steady m1.
Proof.
  intros C O E S. destruct E as [| | | | | p K D Cn R P V G | p m1 m2 K D Cn P U I E | | | | | | | | | b s a P M G Q W B].
  all: try (by apply (steady_same m); cbn; try done; congruence).
  - split; try apply S. cbn. intros _ c Hc. by eapply claim_held.
  - eapply steady_reconnected; eauto. unfold carries in C. rewrite K in C. destruct C as (q & Hq & V). congruence.
  - apply (steady_same m); cbn; try done. intros Hc. pose proof (st_target m S H2) as T. rewrite Hc in T. by states.
  - assert (ar_state (cm_attempt m) <> AttemptIdle) as N by (intros Hi; rewrite Hi, !not_elem_of_cons in *; tauto).
    pose proof (st_once m S) as Hr.
    split; cbn; try done; [apply fence_sound; try done; apply S | states; match goal with E : ar_cancelRevision _ = _ |- _ => rewrite E end; cbn; member | | apply S].
    intros c Hc. destruct (st_held m S c Hc). by split.
  - rewrite recorded_is. by eapply steady_attempt.
Qed.

(** ** The envelope and the authority *)

(** Each side acknowledges at most what the other has sent. *)
Record aligned m : Prop := {
  al_auth : AuthContextV1_Validate (mc_Auth (cm_config m)) = None;
  al_platform : u64 (sq_sequence (cm_platform m));
  al_worker : u64 (sq_sequence (cm_worker m));
  al_platform_ack : sq_ack (cm_platform m) <= sq_sequence (cm_worker m);
  al_worker_ack : sq_ack (cm_worker m) <= sq_sequence (cm_platform m) }.

Lemma aligned_sent m m1 d f :
  aligned m -> cm_config m1 = cm_config m -> cm_platform m1 = cm_platform m -> cm_worker m1 = cm_worker m ->
  fr_Sequence f = wrap_u64 (sq_sequence (sender_of m d) + 1) -> sq_sequence (sender_of m d) <> max_u64 ->
  fr_Ack f <= sq_sequence (peer_of m d) ->
  aligned (set_sender m1 d {| sq_sequence := fr_Sequence f; sq_ack := fr_Ack f; sq_fingerprint := frameFingerprint f |}).
Proof.
  intros [A P W Pa Wa] Hc Hp Hw Q N L. unfold sender_of, peer_of, set_sender in *.
  assert (u64 (fr_Sequence f)) as U by (rewrite Q; apply wrap_u64_range).
  destruct (is_direction d DirectionPlatformToWorker); rewrite wrap_u64_succ in Q by done;
    split; cbn; rewrite ?Hc, ?Hp, ?Hw; try done; lia.
Qed.

Lemma steady_reached h m : reached verify cancels_once h m -> steady m /\ aligned m.
Proof.
  apply (reached_invariant _ _ (fun _ m => steady m /\ aligned m)).
  - intros config H. split; [by apply steady_idle |]. unfold NewConformanceMachine in H. cbv zeta in H.
    destruct (_ || _) eqn:G; [discriminate H |]. b2p. split; cbn; try lia; try done; tauto.
  - intros _ n l n' [S A] St. apply step_cases in St.
    destruct St as [| d f m1 -> O C E Q N L _ | next -> V Cn R | -> Si].
    + done.
    + split; [| destruct L; apply effect_keeps in E as (Hc & Hp & Hw); by apply (aligned_sent n m1)].
      apply (steady_effect _ _ _ _ C O E) in S. revert S. destruct (set_sender_keeps m1 d {| sq_sequence := fr_Sequence f;
        sq_ack := fr_Ack f; sq_fingerprint := frameFingerprint f |}) as (Ha & Hc & _ & _ & Hr & _ & Hl & Ht).
      apply steady_same; rewrite ?Ha, ?Hc, ?Hr, ?Hl, ?Ht; auto.
    + split; [split; try apply S; cbn; [done | by intros _] |]. split; cbn; try done; lia.
    + split; [apply steady_idle; [apply S | done] |]. by destruct A.
Qed.

Lemma sealed_binding s : as_State s <> AttemptIdle -> as_Binding (sealAttemptSummary s) = as_Binding s.
Proof.
  intros N. unfold sealAttemptSummary. destruct (as_TerminalSequence s =? 0); cbn; by rewrite bool_decide_false.
Qed.

Lemma seal_digest s : content (reconnectSnapshotDigestV1 (sealReconnectSnapshot s)) = content (rs_Digest (sealReconnectSnapshot s)).
Proof. done. Qed.

Lemma valid_sealed_snapshot s :
  rs_PreviousConnectionGeneration s <> 0 -> ConnectionWatermarksV1_Validate (rs_Watermarks s) = None ->
  AttemptSummaryV1_Validate (rs_Attempt s) = None ->
  (forall t, rs_PendingTerminalReplay s = Some t -> proper_terminal t /\ te_AttemptSequence t <> 0 /\
     alike (te_Binding t) (as_Binding (rs_Attempt s))) ->
  ReconnectSnapshotV1_Validate (sealReconnectSnapshot s) = None.
Proof.
  intros G W A P. unfold ReconnectSnapshotV1_Validate, bytes_equal. rewrite seal_digest, String.eqb_refl, reject_nil.
  split; [| done]. unfold sealReconnectSnapshot. cbn [rs_PreviousConnectionGeneration rs_Watermarks rs_Attempt
    rs_PendingTerminalReplay rs_Digest]. rewrite cloneSummary_id, W, A. apply Z.eqb_neq in G. rewrite G. cbn [notnil isnil negb orb].
  apply orb_false_iff. split; [| done]. apply orb_false_iff. split.
  - apply notnil_false. destruct (rs_PendingTerminalReplay s) as [t |]; [| done].
    destruct (P t eq_refl) as (Hp & Hs & Hb). destruct (cloneTerminal (Some t)) as [u |] eqn:Hu; [| done].
    apply cloned_proper in Hu as (Eb & Es & Ep). unfold validatePendingTerminal. rewrite reject_nil. split; [| done].
    apply orb_false_iff. split; [apply notnil_false, proper_valid; [auto | by rewrite Es] |].
    apply negb_false_iff, same_binding_iff. by rewrite Eb.
  - unfold validBytes, reconnectSnapshotDigestV1, len, digest_size. cbn [content]. by rewrite sha256_length.
Qed.

(** C17. A reconnect can always be built. On every machine a run reaches, when
    [BeginReconnect] succeeds its snapshot validates: the attempt summary is one the
    protocol accepts in every state the attempt can be in, acknowledgements do not exceed
    what was sent, and a terminal held for replay is of the attempt. So
    [BuildReconnectV1] answers with a message for any valid negotiation. Two things are
    assumed of the peers: that a cancellation has a single revision, and that a worker
    does not report a terminal at sequence 0, which leaves a commitment that no snapshot
    can carry. *)
Theorem reconnect_snapshot_valid h m next m' snapshot negotiation :
  reached verify cancels_once h m ->
  (forall c, ar_pendingWorkerTerminal (cm_attempt m) = Some c -> tr_sequence c <> 0) ->
  BeginReconnect m next = (m', inr snapshot) ->
  ReconnectNegotiationV1_validate negotiation = None ->
  ReconnectSnapshotV1_Validate snapshot = None /\ exists r, BuildReconnectV1 snapshot negotiation = inr r.
Proof.
  intros R N B V. apply steady_reached in R as [S [A P W Pa Wa]].
  assert (ReconnectSnapshotV1_Validate snapshot = None) as Vs.
  { apply begin_cases in B as [[_ [=]] | (-> & E & _)]. unfold SnapshotForReconnect in E. cbn in E. injection E as ->.
    apply valid_sealed_snapshot; cbn [rs_PreviousConnectionGeneration rs_Watermarks rs_Attempt rs_PendingTerminalReplay].
    - unfold AuthContextV1_Validate in A. peel A. b2p. tauto.
    - unfold ConnectionWatermarksV1_Validate. rewrite reject_nil. split; [| done]. b2p. done.
    - apply sealed_valid, S.
    - intros t Ht. unfold pendingTerminalForSnapshot in Ht. cbn in Ht.
      destruct (ar_pendingWorkerTerminal (cm_attempt m)) as [c |] eqn:Hc; [| done].
      destruct (st_held m S c Hc) as [Ho Hs Hp Hb]. apply cloned_proper in Ht as (Eb & Es & Ep).
      rewrite Eb, Es, <- Hs. split; [by apply Ep |]. split; [by apply N |].
      change (alike (te_Binding (tr_terminal c)) (as_Binding (currentAttemptSummary m))).
      unfold currentAttemptSummary. rewrite sealed_binding by done. cbn. by rewrite cloneBinding_id. }
  split; [done |]. unfold BuildReconnectV1. rewrite Vs, V. cbn. eauto.
Qed.
End Steady.

Section Sample.
Import WorkerSample.

Lemma sample_cancels_once m d f : (d, f) ∈ claimed -> cancels_once m f.
Proof. intros H a Ha. unfold claimed, handshake in H. cbn in H. states; simplify_eq; discriminate Ha. Qed.

Lemma reconnect_snapshot_valid_witness :
  exists m m' snapshot, accepts verify start claimed acceptance = Some m /\
    BeginReconnect m next_auth = (m', inr snapshot) /\ ReconnectSnapshotV1_Validate snapshot = None.
Proof.
  destruct (accepted_with claimed reconnectable (true, true) claimed_reconnectable) as (m & E & C).
  unfold reconnectable in C. apply pair_equal_spec in C as [C Q]. exists m.
  destruct (BeginReconnect m next_auth) as [m' [e | snapshot]] eqn:B; [discriminate C |].
  exists m', snapshot. split; [exact E |]. split; [reflexivity |].
  apply (reconnect_snapshot_valid verify (rev claimed) m next_auth m' snapshot negotiation); [| | exact B |].
  - exists config, start. split; [apply start_is |]. apply (accepts_run _ _ _ _ acceptance); [exact E | apply sample_cancels_once].
  - intros c Hc. rewrite Hc in Q. discriminate Q.
  - vm_compute. reflexivity.
Defined.
End Sample.
