(* ===== verification/WorkerMachineCommits.v ===== *)
(** * What a committed attempt rests on
      ([internal/attachedworkerprotocol]: [machine.go], [reconciliation.go])

    The platform's own machine: a reconnect is answered with the state the machine had
    when the reconnect began. An attempt is then committed only on a terminal the worker
    sent and the platform acknowledged, and cancellation wins over other outcomes.  The
    lease an attempt was offered with is the one it keeps, whatever frames are offered. *)

From stdpp Require Import gmap.
From S2P Require Import Prelude GoText Sha256 Json WorkerProtocol WorkerFrames WorkerReconnect WorkerTranscripts.
From S2P Require Import WorkerMachine WorkerSample WorkerMachineSafety WorkerMachineRuns WorkerMachineAttempts.
#[local] Open Scope Z_scope.

(** The answer to a reconnect states the attempt the machine holds. *)
Definition authoritative (m : ConformanceMachine) (f : FrameV1) : Prop :=
  forall a, fr_ReconnectAccepted f = Some a ->
    sameAttemptSummary (ra_AuthoritativeAttempt a) (cm_reconnectAttempt m) = true.

(** ** Evidence *)

(** The worker has sent the outcome a summary states. *)
Definition reported (h : history) (s : AttemptSummaryV1) : Prop :=
  exists f t, (DirectionWorkerToPlatform, f) ∈ h /\ fr_Terminal f = Some t /\
    alike (te_Binding t) (as_Binding s) /\ te_Status t = as_TerminalStatus s /\ te_Result t = as_TerminalResult s /\
    content (te_EvidenceDigest t) = content (as_TerminalEvidenceDigest s).

(** The platform has acknowledged it. *)
Definition acknowledged (h : history) (s : AttemptSummaryV1) : Prop :=
  exists f k, (DirectionPlatformToWorker, f) ∈ h /\ fr_TerminalAck f = Some k /\
    alike (ta_Binding k) (as_Binding s) /\ ta_Status k = as_TerminalStatus s /\ ta_Result k = as_TerminalResult s /\
    content (ta_EvidenceDigest k) = content (as_TerminalEvidenceDigest s).

Record justified (h : history) (s : AttemptSummaryV1) : Prop := {
  ju_fence : as_CancelCode s = CancelFenced -> as_State s = AttemptFenced;
  ju_cancel : as_CancelRevision s <> 0 -> as_TerminalSequence s <> 0 -> as_TerminalStatus s = TerminalCancelled;
  ju_reported : as_TerminalSequence s <> 0 -> reported h s;
  ju_committed : as_State s = AttemptTerminalCommitted -> as_TerminalSequence s <> 0 /\ acknowledged h s }.

(** Summaries that agree on everything the evidence depends on. *)
Record agree (s s' : AttemptSummaryV1) : Prop := {
  ag_state : as_State s = as_State s';
  ag_binding : as_State s <> AttemptIdle -> alike (as_Binding s) (as_Binding s');
  ag_revision : as_CancelRevision s = as_CancelRevision s';
  ag_code : as_CancelCode s = as_CancelCode s';
  ag_sequence : as_TerminalSequence s = as_TerminalSequence s';
  ag_status : as_TerminalStatus s = as_TerminalStatus s';
  ag_result : as_TerminalResult s = as_TerminalResult s';
  ag_evidence : as_TerminalSequence s <> 0 ->
    content (as_TerminalEvidenceDigest s) = content (as_TerminalEvidenceDigest s') }.

Lemma justified_agree h s s' :
  agree s s' -> (as_State s = AttemptIdle -> as_TerminalSequence s = 0) -> justified h s -> justified h s'.
Proof.
  intros [As Ab Ar Ac Aq At Au Ae] I [F C R K].
  assert (as_TerminalSequence s <> 0 -> as_State s <> AttemptIdle) as N by (intros Hq Hi; auto).
  split; rewrite <- ?As, <- ?Ar, <- ?Ac, <- ?Aq, <- ?At; try done.
  - intros Hq. destruct (R Hq) as (f & t & Hf & Ht & Hb & Hs & Hr & He). exists f, t.
    rewrite <- At, <- Au, <- (Ae Hq). repeat split; try done; apply (transitivity Hb (Ab (N Hq))).
  - intros Hc. destruct (K Hc) as [Hq (f & k & Hf & Hk & Hb & Hs & Hr & He)]. split; [done |]. exists f, k.
    rewrite <- At, <- Au, <- (Ae Hq). repeat split; try done; apply (transitivity Hb (Ab (N Hq))).
Qed.

Lemma justified_later h l s : justified h s -> justified (l ++ h) s.
Proof.
  intros [F C R K]. split; try done.
  - intros Hq. destruct (R Hq) as (f & t & Hf & Ht). exists f, t. rewrite elem_of_app. tauto.
  - intros Hc. destruct (K Hc) as [Hq (f & k & Hf & Hk)]. split; [done |]. exists f, k. rewrite elem_of_app. tauto.
Qed.

(** A summary with no outcome yet. *)
Lemma justified_open h s :
  as_TerminalSequence s = 0 -> as_State s <> AttemptTerminalCommitted ->
  (as_CancelCode s = CancelFenced -> as_State s = AttemptFenced) -> justified h s.
Proof. intros T N F. by split. Qed.

Lemma agree_recorded a d s fp : agree (attempt_summary a) (attempt_summary (recorded a d s fp)).
Proof. rewrite recorded_summary. cbv zeta. by destruct (is_direction d DirectionPlatformToWorker). Qed.

Lemma agree_sealed s : agree s (sealAttemptSummary s).
Proof.
  unfold sealAttemptSummary. destruct (as_TerminalSequence s =? 0) eqn:T; b2p; case_bool_decide; split; cbn; try done.
Qed.

Lemma agree_same s s' : sameAttemptSummary s s' = true -> agree s' s.
Proof.
  unfold sameAttemptSummary, bytes_equal. intros H. b2p. rewrite same_binding_iff in H. destruct_and?.
  by split.
Qed.

Lemma agree_restored m s : agree s (attempt_summary (cm_attempt (applyDiscardTombstone (applyAttemptSummary m s)))).
Proof.
  unfold applyDiscardTombstone. repeat case_match; split; cbn; rewrite ?cloneBinding_id, ?content_copied; done.
Qed.

(** ** Attempt messages *)

Lemma reported_now h m d f b s p :
  attemptPayload f = Some (b, s) -> fr_Kind f = MessageTerminal -> d = DirectionWorkerToPlatform -> fr_Terminal f = Some p ->
  (ar_state (cm_attempt m) <> AttemptIdle -> sameAttemptBinding b (ar_binding (cm_attempt m)) = true) ->
  ar_state (cm_attempt m) ∈ [AttemptClaimed; AttemptCancelRequested; AttemptCancelAcked; AttemptFenced] ->
  forall t, alike (as_Binding t) (ar_binding (cm_attempt m)) -> as_TerminalStatus t = te_Status p ->
  as_TerminalResult t = te_Result p -> content (as_TerminalEvidenceDigest t) = content (te_EvidenceDigest p) ->
  reported ((d, f) :: h) t.
Proof.
  intros P K -> Hp B Si t Ht Es Er Ee. unfold attemptPayload in P. rewrite K, Hp in P. injection P as <- <-.
  exists f, p. split; [left |]. split; [done |]. rewrite Es, Er, Ee. split; [| done].
  rewrite Ht. apply same_binding_iff, B. states; congruence.
Qed.

Lemma justified_moved h m d f b s a :
  carries f -> attemptPayload f = Some (b, s) -> moved m d f a ->
  (ar_state (cm_attempt m) <> AttemptIdle -> sameAttemptBinding b (ar_binding (cm_attempt m)) = true) ->
  sound (attempt_summary (cm_attempt m)) -> justified h (attempt_summary (cm_attempt m)) ->
  justified ([(d, f)] ++ h) (attempt_summary a).
Proof.
  intros C P M B S J. apply (justified_later h [(d, f)]) in J. pose proof J as [F Cn R K].
  destruct M as [p a0 E Kd D Hp Co Si Sq | a0 E Kd D Si | a0 E Kd D Si | p a0 E Kd D Hp Si Sq | p a0 E Kd D Hp Si Sq
    | a0 E Kd D Si | Kd D Si | p a0 E Kd D Hp Si Hr Hs Hc | p a0 E Kd D Hp Si Sq Hs Hc Hr | p a0 E Kd D Hp Si Sq Hs Hc
    | p a0 E Kd D Hp Si Hr Sq Hs Hc Hv]; try subst a0; try done.
  - destruct (so_idle _ S Si) as (_ & _ & _ & Z & T & _). apply justified_open; cbn; [done | done |].
    intros Hc. apply F in Hc. cbn in Hc. congruence.
  - split; cbn in *; try done; intros Hc; apply F in Hc; congruence.
  - split; cbn in *; try done; intros Hc; apply F in Hc; congruence.
  - apply justified_open; cbn; [done | by case_match |]. intros ->. by rewrite bool_decide_true.
  - split; cbn in *; try done; intros Hc; apply F in Hc; congruence.
  - split; cbn in *; [done | by intros Hn _; apply Hs | | done].
    intros _. eapply (reported_now h m); eauto; cbn; by rewrite ?cloneBinding_id, ?content_copied.
  - split; cbn in *; [done | by intros Hn _; apply Hs | | ].
    + intros _. eapply (reported_now h m); eauto; cbn; by rewrite ?cloneBinding_id, ?content_copied.
    + intros Hi. clear Hc. states; congruence.
  - split; cbn in *; try done; [by intros Hf; apply F in Hf; congruence |]. intros _.
    pose proof (so_state _ S) as St. unfold summary_state in St. cbn in St. rewrite Si in St. peel St. b2p.
    split; [lia |]. exists f, p. split; [rewrite D; left |]. split; [done |].
    unfold attemptPayload in P. rewrite Kd, Hp in P. injection P as <- <-.
    cbn. rewrite cloneBinding_id, content_copied. split; [apply same_binding_iff, B; congruence |].
    unfold bytes_equal in Hv. b2p. done.
Qed.

(** An attempt begins on a ready connection. *)
Lemma begins_ready m d f a : moved m d f a -> ar_state (cm_attempt m) = AttemptIdle -> cm_connection m = ConnectionReady.
Proof. intros M Hi. destruct M; subst; try done; states; congruence. Qed.

(** ** Leases *)

Lemma compatible_open claim auth :
  reconnectClaimsCompatible claim auth = true -> as_State (rs_Attempt auth) <> AttemptIdle ->
  as_State (rs_Attempt claim) <> AttemptIdle.
Proof.
  unfold reconnectClaimsCompatible. intros H N. repeat case_match; try discriminate H; b2p; [congruence | tauto].
Qed.

Section Leases.
Context (verify : string -> string -> string -> bool) (sent : ConformanceMachine -> FrameV1 -> Prop).

Implicit Types (m : ConformanceMachine) (d : Direction) (f : FrameV1) (h : history).

(** While a connection is renewed, the attempt, the summary saved of it and the claim of the worker
    are of one lease. *)
Record leased m : Prop := {
  le_target : cm_reconnecting m = true -> cm_reconnectTarget m ∈ [ConnectionReady; ConnectionDraining];
  le_handshake : cm_reconnecting m = true -> level (cm_connection m) <= 1;
  le_pending : cm_connection m = ConnectionReconnectPending -> cm_reconnecting m = true;
  le_saved : cm_reconnecting m = true -> ar_state (cm_attempt m) <> AttemptIdle ->
    as_State (cm_reconnectAttempt m) <> AttemptIdle /\
    alike (as_Binding (cm_reconnectAttempt m)) (ar_binding (cm_attempt m));
  le_claim : cm_connection m = ConnectionReconnectPending ->
    as_State (rs_Attempt (cm_reconnectClaim m)) <> AttemptIdle ->
    as_State (cm_reconnectAttempt m) <> AttemptIdle /\
    alike (as_Binding (rs_Attempt (cm_reconnectClaim m))) (as_Binding (cm_reconnectAttempt m)) }.

(** The attempt unchanged, and no claim to answer. *)
Lemma leased_same m m1 :
  cm_attempt m1 = cm_attempt m -> cm_reconnectAttempt m1 = cm_reconnectAttempt m ->
  cm_reconnectTarget m1 = cm_reconnectTarget m -> cm_connection m1 <> ConnectionReconnectPending ->
  (cm_reconnecting m1 = true -> cm_reconnecting m = true /\ level (cm_connection m1) <= 1) ->
  leased m -> leased m1.
Proof.
  intros A R T C L [Lt Lh Lp Ls Lc]. split; rewrite ?A, ?R, ?T; try done.
  - intros Hr. by apply Lt, L.
  - intros Hr. by apply L.
  - intros Hr. by apply Ls, L.
Qed.

(** The claim a machine takes is of the lease it saved. *)
Lemma claim_leased m p :
  incompatible_claim m (claimed_snapshot p) = false ->
  let claim := rs_Attempt (cloneReconnectSnapshot (claimed_snapshot p)) in
  as_State claim <> AttemptIdle ->
  as_State (cm_reconnectAttempt m) <> AttemptIdle /\ alike (as_Binding claim) (as_Binding (cm_reconnectAttempt m)).
Proof.
  unfold incompatible_claim, SnapshotForReconnect. destruct (negb (cm_reconnecting m)); [done |].
  intros H%negb_false_iff. change (rs_Attempt (cloneReconnectSnapshot ?c)) with (cloneAttemptSummary (rs_Attempt c)).
  rewrite cloneSummary_id. cbv zeta. intros [Hb Hs]%(compatible_binding _ _ H).
  change (rs_Attempt (sealReconnectSnapshot ?c)) with (cloneAttemptSummary (rs_Attempt c)) in *.
  rewrite cloneSummary_id in *. done.
Qed.

(** An accepted answer restores an attempt of the lease the worker claimed. *)
Lemma answer_leased m p :
  leased m -> cm_connection m = ConnectionReconnectPending -> unexpected_answer m p = false ->
  as_State (ra_AuthoritativeAttempt p) <> AttemptIdle ->
  as_State (cm_reconnectAttempt m) <> AttemptIdle /\
  alike (as_Binding (cm_reconnectAttempt m)) (as_Binding (ra_AuthoritativeAttempt p)).
Proof.
  intros L Cn U N. unfold unexpected_answer in U.
  destruct (BuildReconnectAcceptedV1 _ _ _) as [| expected] eqn:B; [discriminate U |].
  apply build_inv in B as (_ & _ & K). pose proof (compatible_open _ _ K N) as Nc.
  destruct (compatible_binding _ _ K Nc) as [Hb _].
  change (rs_Attempt (authoritative_snapshot m p)) with (cloneAttemptSummary (ra_AuthoritativeAttempt p)) in Hb.
  rewrite cloneSummary_id in Hb.
  destruct (le_claim m L Cn Nc) as [Ns Hs]. split; [done |]. by rewrite <- Hs.
Qed.

Lemma restored_lease m s :
  ar_state (cm_attempt (applyDiscardTombstone (applyAttemptSummary m s))) = as_State s /\
  ar_binding (cm_attempt (applyDiscardTombstone (applyAttemptSummary m s))) = as_Binding s.
Proof. unfold applyDiscardTombstone. repeat case_match; cbn; by rewrite cloneBinding_id. Qed.

Lemma recorded_binding a d s fp : ar_binding (recorded a d s fp) = ar_binding a.
Proof. unfold recorded. by repeat case_match. Qed.

Lemma leased_effect m d f m1 : effect verify m d f m1 -> leased m -> leased m1.
Proof.
  intros E L. destruct E as [| | | | | p K D Cn R P V G | p m1 m2 K D Cn P U I E | | p K D Cn R | | | | |
    p K D C1 C2 P S | | b s a P M G Q W B].
  all: try (by apply (leased_same m); cbn; try done; intros Hr; pose proof (le_handshake m L Hr);
    first [split; [done | lia] | congruence | (split; [done |]);
           match goal with H : cm_connection _ = _ |- _ => rewrite H in *; cbn in *; lia end]).
  - done.
  - destruct L as [Lt Lh Lp Ls Lc]. split; cbn; try done. intros _. by apply claim_leased.
  - subst m2. destruct (reconnect_accepted_keeps _ _ _ _ _ (ra_AuthoritativeAttempt p) I) as (_ & _ & Kr & Ka).
    destruct (restored_lease m1 (ra_AuthoritativeAttempt p)) as [Rs Rb].
    split; cbn; try done; rewrite ?Kr, ?Ka, ?Rs, ?Rb; [| by intros _; apply answer_leased].
    intros Hr. apply install_keeps in I as [q ->]. pose proof (le_target m L Hr) as T.
    unfold applyDiscardTombstone. by repeat case_match.
  - apply (leased_same m); cbn; try done. intros Ht. pose proof (le_target m L R) as T. rewrite Ht in T. by states.
  - destruct L as [Lt Lh Lp Ls Lc]. split; cbn; try done. intros Hr _. apply Ls; [done |].
    intros Hi. rewrite Hi, !not_elem_of_cons in S. tauto.
  - rewrite recorded_is. destruct L as [Lt Lh Lp Ls Lc]. split; cbn; try done. intros Hr _.
    assert (ar_state (cm_attempt m) <> AttemptIdle) as Ho.
    { intros Hi. specialize (Lh Hr). rewrite (begins_ready _ _ _ _ M Hi) in Lh. cbn in Lh. lia. }
    destruct (moved_keeps _ _ _ _ M) as (_ & _ & Kb & _). rewrite recorded_binding, (Kb Ho). auto.
Qed.

Lemma leased_step m l m' : leased m -> step verify sent m l m' -> leased m'.
Proof.
  intros L St. apply step_cases in St. destruct St as [| d f m1 -> A C E Q N K _ | next -> V Cn R W | -> Si].
  - done.
  - apply (leased_effect _ _ _ _ E) in L. destruct (set_sender_keeps m1 d {| sq_sequence := fr_Sequence f;
      sq_ack := fr_Ack f; sq_fingerprint := frameFingerprint f |}) as (Ha & Hc & _ & _ & Hr & Hra & Hl & Ht).
    destruct L as [Lt Lh Lp Ls Lc]. split; rewrite ?Ha, ?Hc, ?Hr, ?Hra, ?Hl, ?Ht; done.
  - destruct (agree_sealed (attempt_summary (cm_attempt m))) as [Gs Gb _ _ _ _ _ _].
    split; try done. intros _ Ho.
    change (as_State (currentAttemptSummary m) <> AttemptIdle /\
      alike (as_Binding (currentAttemptSummary m)) (ar_binding (cm_attempt m))).
    unfold currentAttemptSummary. rewrite <- Gs. split; [done |]. rewrite <- (Gb Ho). cbn. by rewrite cloneBinding_id.
  - destruct L as [Lt Lh Lp Ls Lc]. by split.
Qed.

Lemma leased_reached h m : reached verify sent h m -> leased m.
Proof. apply (reached_invariant _ _ (fun _ m => leased m)); [by intros config _ | intros; by eapply leased_step]. Qed.

(** C23. The lease is stable: from the offer until the attempt is erased, through claims,
    cancellation, reconnects and revocation, the binding of an attempt (run, attempt,
    lease, generation, fence token, expiry and digests) never changes. Nothing is assumed of
    the frames that are offered: an answer to a reconnect that states another lease is
    refused. *)
Theorem binding_stable h m l m' :
  reached verify sent h m -> step verify sent m l m' ->
  ar_state (cm_attempt m) <> AttemptIdle -> ar_state (cm_attempt m') <> AttemptIdle ->
  sameAttemptBinding (ar_binding (cm_attempt m')) (ar_binding (cm_attempt m)) = true.
Proof.
  intros R St N N'. apply leased_reached in R. apply same_binding_iff. apply step_cases in St.
  destruct St as [| d f m1 -> A C E Q Nq L _ | next -> V Cn Rc | -> Si]; try done.
  destruct (set_sender_keeps m1 d {| sq_sequence := fr_Sequence f; sq_ack := fr_Ack f;
    sq_fingerprint := frameFingerprint f |}) as (Ha & _). rewrite Ha in *.
  destruct E as [| | | | | | p m1 m2 K D Cn P U I -> | | | | | | | | | b s a P M G Q' W B]; try done.
  - destruct (restored_lease m1 (ra_AuthoritativeAttempt p)) as [Rs Rb]. cbn in N' |- *. rewrite Rs in N'. rewrite Rb.
    destruct (answer_leased m p R Cn U N') as [_ Ha']. destruct (le_saved m R (le_pending m R Cn) N) as [_ Hs].
    by rewrite <- Ha'.
  - rewrite recorded_is. cbn. destruct (moved_keeps _ _ _ _ M) as (_ & _ & Kb & _). by rewrite recorded_binding, (Kb N).
Qed.
End Leases.

(** ** The platform's machine *)

Section Commits.
Context (verify : string -> string -> string -> bool).

Implicit Types (m : ConformanceMachine) (d : Direction) (f : FrameV1) (h : history).

(** The attempt and the one an answer would restore. *)
Record founded h m : Prop := {
  fo_steady : steady m;
  fo_attempt : justified h (attempt_summary (cm_attempt m));
  fo_restored : justified h (cm_reconnectAttempt m);
  fo_once : as_CancelRevision (cm_reconnectAttempt m) ∈ [0; 1];
  fo_idle : as_State (cm_reconnectAttempt m) = AttemptIdle -> as_TerminalSequence (cm_reconnectAttempt m) = 0;
  fo_handshake : cm_reconnecting m = true -> level (cm_connection m) <= 1;
  fo_pending : cm_connection m = ConnectionReconnectPending -> cm_reconnecting m = true;
  fo_binding : cm_reconnecting m = true -> ar_state (cm_attempt m) <> AttemptIdle ->
    as_State (cm_reconnectAttempt m) <> AttemptIdle /\
    alike (as_Binding (cm_reconnectAttempt m)) (ar_binding (cm_attempt m)) }.

Lemma answers_once h m f : founded h m -> authoritative m f -> cancels_once m f.
Proof.
  intros F A a Ha. destruct (agree_same _ _ (A a Ha)) as [_ _ R _ _ _ _ _]. rewrite <- R. apply F.
Qed.

(** The attempt unchanged. *)
Lemma founded_same h l m m1 :
  steady m1 -> cm_attempt m1 = cm_attempt m -> cm_reconnectAttempt m1 = cm_reconnectAttempt m ->
  (cm_reconnecting m1 = true -> cm_reconnecting m = true /\ level (cm_connection m1) <= 1) ->
  (cm_connection m1 = ConnectionReconnectPending -> cm_reconnecting m1 = true) ->
  founded h m -> founded (l ++ h) m1.
Proof.
  intros S A R L P [_ J Jr O I H Hp B]. split; rewrite ?A, ?R; try done; try by apply justified_later.
  - intros Hr. by apply L.
  - intros Hr Ho. apply B; [by apply L | done].
Qed.

Lemma founded_attempt h m d f b s a :
  carries f -> attemptPayload f = Some (b, s) -> moved m d f a ->
  (ar_state (cm_attempt m) <> AttemptIdle -> sameAttemptBinding b (ar_binding (cm_attempt m)) = true) ->
  steady (with_attempt m (recorded a d s (attemptFingerprint f))) ->
  founded h m -> founded ((d, f) :: h) (with_attempt m (recorded a d s (attemptFingerprint f))).
Proof.
  intros C P M B S1 [S J Jr O I H Hp Bi]. destruct (moved_keeps _ _ _ _ M) as (_ & N & Kb & _).
  split; cbn; try done; [| by apply (justified_later h [(d, f)]) |].
  - apply (justified_agree _ (attempt_summary a)); [apply agree_recorded | done |].
    eapply (justified_moved h m d f b s a); eauto. apply S.
  - intros Hr _. assert (ar_state (cm_attempt m) <> AttemptIdle) as Ho.
    { intros Hi. specialize (H Hr). rewrite (begins_ready _ _ _ _ M Hi) in H. cbn in H. lia. }
    destruct (Bi Hr Ho) as [Hn Ha]. split; [done |].
    assert (ar_binding (recorded a d s (attemptFingerprint f)) = ar_binding a) as -> by (unfold recorded; by repeat case_match).
    by rewrite (Kb Ho).
Qed.

Lemma agree_idle s s' :
  agree s s' -> (as_State s = AttemptIdle -> as_TerminalSequence s = 0) -> as_State s' = AttemptIdle -> as_TerminalSequence s' = 0.
Proof. intros [As _ _ _ Aq _ _ _] I. rewrite <- As, <- Aq. exact I. Qed.

Lemma founded_restored h m d f p m1 m2 :
  fr_ReconnectAccepted f = Some p -> authoritative m f -> cm_connection m = ConnectionReconnectPending ->
  installReplayCommitment m (authoritative_snapshot m p) (cm_reconnectClaim m) (ra_ReplayPlan p) = (m1, None) ->
  m2 = applyDiscardTombstone (applyAttemptSummary m1 (ra_AuthoritativeAttempt p)) ->
  steady {| m2 with cm_connection := ConnectionAttached |} ->
  founded h m -> founded ((d, f) :: h) {| m2 with cm_connection := ConnectionAttached |}.
Proof.
  intros Ep A Cn I -> S1 [S J Jr O Id H Hp Bi].
  destruct (reconnect_accepted_keeps _ _ _ _ _ (ra_AuthoritativeAttempt p) I) as (_ & _ & Kr & Ka).
  pose proof (agree_same _ _ (A p Ep)) as G. pose proof (agree_restored m1 (ra_AuthoritativeAttempt p)) as G'.
  apply (justified_later h [(d, f)]) in Jr.
  split; [exact S1 | ..]; cbn; rewrite ?Kr, ?Ka; try done.
  - apply (justified_agree _ _ _ G'); [by apply (agree_idle _ _ G) |]. by apply (justified_agree _ _ _ G).
  - intros _ Ho. destruct G as [Gs Gb _ _ _ _ _ _]. destruct G' as [Gs' Gb' _ _ _ _ _ _]. cbn in Gs', Gb'.
    assert (as_State (cm_reconnectAttempt m) <> AttemptIdle) as N by congruence. split; [done |].
    rewrite (Gb N). rewrite cloneBinding_id in Gb'. apply Gb'. congruence.
Qed.

Lemma founded_effect h m d f m1 :
  carries f -> authoritative m f -> effect verify m d f m1 -> founded h m -> founded ((d, f) :: h) m1.
Proof.
  intros C A E F. pose proof (steady_effect verify m d f m1 C (answers_once _ _ _ F A) E (fo_steady _ _ F)) as S.
  destruct E as [| | | | | p K D Cn R P V G | p m1 m2 K D Cn P U I E | | | | | | | | | b s a P M G Q W B].
  all: try (by apply (founded_same h [(d, f)] m); cbn; try done; intros Hr; pose proof (fo_handshake _ _ F Hr);
    first [split; [done | lia] | congruence | (split; [done |]); match goal with H : cm_connection _ = _ |- _ => rewrite H in *; cbn in *; lia end]).
  - apply (founded_same h [(d, f)] m); try done; [| apply F]. intros Hr. split; [done | by apply F].
  - by eapply founded_restored.
  - apply (founded_same h [(d, f)] m); cbn; try done. intros Ht.
    match goal with Hr : cm_reconnecting m = true |- _ => pose proof (st_target m (fo_steady _ _ F) Hr) as T end.
    rewrite Ht in T. by states.
  - destruct F as [Sm J Jr O Id Hh Hp Bi].
    split; [exact S | by apply justified_open | by apply (justified_later h [(d, f)]) | done | done | done | done |].
    intros Hr _. apply Bi; [done |]. intros Hi. rewrite Hi, !not_elem_of_cons in *. tauto.
  - rewrite recorded_is in S |- *. by eapply founded_attempt.
Qed.

(** A reconnect keeps what the machine holds, to restore it later. *)
Lemma founded_begun h m next :
  level (cm_connection m) = 2 -> steady (begun m next) -> founded h m -> founded h (begun m next).
Proof.
  intros L S1 [S J Jr O Id H Hp Bi]. pose proof (agree_sealed (attempt_summary (cm_attempt m))) as G.
  assert (as_State (attempt_summary (cm_attempt m)) = AttemptIdle -> as_TerminalSequence (attempt_summary (cm_attempt m)) = 0) as I.
  { intros Hi. apply (so_idle _ (st_sound m S)) in Hi. tauto. }
  split; [exact S1 | done | by apply (justified_agree _ _ _ G) | | by apply (agree_idle _ _ G) | done | done |].
  - destruct G as [_ _ Gr _ _ _ _ _]. change (as_CancelRevision (currentAttemptSummary m) ∈ [0; 1]).
    unfold currentAttemptSummary. rewrite <- Gr. apply (st_once m S).
  - intros _ Ho. destruct G as [Gs Gb _ _ _ _ _ _].
    change (as_State (currentAttemptSummary m) <> AttemptIdle /\
      alike (as_Binding (currentAttemptSummary m)) (ar_binding (cm_attempt m))).
    unfold currentAttemptSummary. rewrite <- Gs. split; [done |]. rewrite <- (Gb Ho). cbn. by rewrite cloneBinding_id.
Qed.

Lemma founded_step h m l m' : founded h m -> step verify authoritative m l m' -> founded (l ++ h) m'.
Proof.
  intros F St. apply step_cases in St. destruct St as [| d f m1 -> A C E Q N L _ | next -> V Cn R W | -> Si].
  - apply (founded_same h l m); try done; [apply F | | apply F]. intros Hr. split; [done | by apply F].
  - apply (founded_effect h _ _ _ _ C A E) in F. destruct (set_sender_keeps m1 d {| sq_sequence := fr_Sequence f;
      sq_ack := fr_Ack f; sq_fingerprint := frameFingerprint f |}) as (Ha & Hc & _ & _ & Hr & Hra & Hl & Ht).
    apply (founded_same _ [] m1); rewrite ?Ha, ?Hc, ?Hr, ?Hra; try done; [| | apply F].
    + apply (steady_same m1); rewrite ?Ha, ?Hc, ?Hr, ?Hl, ?Ht; auto. apply F.
    + intros Hr'. split; [done | by apply F].
  - apply founded_begun; [by states; rewrite H | | done].
    split; try apply F; cbn; [done | by intros _].
  - destruct F as [S J Jr O Id H Hp Bi].
    split; [apply steady_idle; [apply S | done] | by apply justified_open | done ..].
Qed.

Lemma founded_reached h m : reached verify authoritative h m -> founded h m.
Proof.
  apply (reached_invariant _ _ (fun h m => founded h m)); [| intros; by eapply founded_step].
  intros config _. split; [by apply steady_idle | by apply justified_open | by apply justified_open | left | done ..].
Qed.

(** C14. An attempt is committed only on evidence. On the platform's machine, when the
    attempt is committed the worker has sent a terminal message for its lease with
    exactly the status, result and evidence digest that are held, and the platform has
    acknowledged that same outcome. A fenced attempt is never committed, and a cancelled
    one only with a cancelled outcome. *)
Theorem commit_needs_evidence h m :
  reached verify authoritative h m ->
  ar_state (cm_attempt m) = AttemptTerminalCommitted ->
  reported h (attempt_summary (cm_attempt m)) /\ acknowledged h (attempt_summary (cm_attempt m)) /\
  ar_cancelCode (cm_attempt m) <> CancelFenced /\
  (ar_cancelRevision (cm_attempt m) <> 0 -> ar_terminalStatus (cm_attempt m) = TerminalCancelled).
Proof.
  intros R S. apply founded_reached in R as [_ [F C Rp K] _ _ _ _ _ _]. destruct (K S) as [Q A].
  split; [by apply Rp |]. split; [done |]. split; [| by intros Hr; apply C].
  intros Hf. apply F in Hf. cbn in Hf. congruence.
Qed.

End Commits.

Section Sample.
Import WorkerSample.

Lemma sample_authoritative m d f : (d, f) ∈ committed -> authoritative m f.
Proof. intros H a Ha. unfold committed, claimed, handshake in H. cbn in H. states; simplify_eq; discriminate Ha. Qed.

Lemma sample_reached l m :
  (forall x, x ∈ l -> x ∈ committed) -> accepts verify start l acceptance = Some m ->
  reached verify authoritative (rev l) m.
Proof.
  intros Hl E. exists config, start. split; [apply start_is |].
  apply (accepts_run _ _ _ _ acceptance); [exact E |]. intros n d f Hin. by apply (sample_authoritative n d), Hl.
Qed.

Lemma commit_needs_evidence_witness :
  exists m, accepts verify start committed acceptance = Some m /\ ar_state (cm_attempt m) = AttemptTerminalCommitted /\
    reported (rev committed) (attempt_summary (cm_attempt m)).
Proof.
  destruct committed_after_all as (m & E & S). exists m. split; [exact E |]. split; [exact S |].
  apply (commit_needs_evidence verify (rev committed) m); [by apply sample_reached | exact S].
Defined.

Lemma binding_stable_witness :
  exists m m', accepts verify start offered acceptance = Some m /\
    Accept verify m worker lease_claim acceptance = Some (m', None) /\
    sameAttemptBinding (ar_binding (cm_attempt m')) (ar_binding (cm_attempt m)) = true.
Proof.
  destruct (accepted_with offered claimable _ offered_claimable) as (m & E & C).
  unfold claimable in C. apply pair_equal_spec in C as [Si C]. exists m.
  destruct (Accept verify m worker lease_claim acceptance) as [[m' [e |]] |] eqn:A; try discriminate C.
  injection C as C. exists m'. split; [exact E |]. split; [reflexivity |].
  apply (binding_stable verify (fun _ _ => True) (rev offered) m [(worker, lease_claim)] m').
  - exists config, start. split; [apply start_is |]. apply (accepts_run _ _ _ _ acceptance); [exact E | done].
  - by apply (st_accept _ _ m worker lease_claim acceptance).
  - by rewrite Si.
  - by rewrite C.
Defined.
End Sample.
