(* ===== verification/WorkerSignatures.v ===== *)
(** * What a worker's signature binds
      ([internal/attachedworkerprotocol]: [crypto.go], [manifest.go])

    Canonical fields are read back in one way only, so a signature of one frame is not
    one of another kind, tenant, worker, generation, channel or position; and a frame
    that is signed verifies. *)

From S2P Require Import Prelude GoText Sha256 Json WorkerProtocol WorkerFrames WorkerReconnect WorkerTranscripts.
From S2P Require Import WorkerMachine WorkerSample.
#[local] Open Scope Z_scope.

(** ** Fixed-width integers *)

Lemma be_bytes_mod n x : be_bytes n (x mod 256 ^ Z.of_nat n) = be_bytes n x.
Proof.
  assert (forall k, (n <= k)%nat -> be_bytes n (x mod 256 ^ Z.of_nat k) = be_bytes n x) as H; [| by apply H].
  induction n as [| n IH]; intros k Hk; [done |]. cbn [be_bytes]. f_equal; [| apply IH; lia].
  assert (256 ^ Z.of_nat k = 256 ^ Z.of_nat n * (256 * 256 ^ (Z.of_nat k - Z.of_nat n - 1))) as ->.
  { rewrite <- Z.pow_succ_r by lia. rewrite <- Z.pow_add_r by lia. f_equal. lia. }
  rewrite Z.rem_mul_r by lia. rewrite Z.mul_comm, Z.div_add by lia. rewrite Z.div_small by (apply Z.mod_pos_bound; lia).
  rewrite Z.add_0_l, Z.rem_mul_r by lia. rewrite Z.mul_comm, Z.mod_add, Z.mod_mod by lia. done.
Qed.

Lemma be_bytes_inj n : forall x y,
  0 <= x < 256 ^ Z.of_nat n -> 0 <= y < 256 ^ Z.of_nat n -> be_bytes n x = be_bytes n y -> x = y.
Proof.
  induction n as [| n IH]; intros x y Hx Hy H; [cbn in *; lia |].
  cbn [be_bytes] in H. injection H as Hq Ht.
  assert (256 ^ Z.of_nat (S n) = 256 ^ Z.of_nat n * 256) as E by (rewrite Nat2Z.inj_succ, Z.pow_succ_r by lia; lia).
  assert (0 < 256 ^ Z.of_nat n) as P by lia. rewrite E in *.
  rewrite !Z.mod_small in Hq by (split; [apply Z.div_pos; lia | apply Z.div_lt_upper_bound; lia]).
  rewrite <- (be_bytes_mod n x), <- (be_bytes_mod n y) in Ht.
  apply IH in Ht; [| apply Z.mod_pos_bound; lia ..].
  rewrite (Z.div_mod x (256 ^ Z.of_nat n)), (Z.div_mod y (256 ^ Z.of_nat n)) by lia. by rewrite Hq, Ht.
Qed.

Lemma be_bytes_range n x : Forall (fun b => 0 <= b < 256) (be_bytes n x).
Proof. induction n; cbn; constructor; [apply Z.mod_pos_bound; lia | done]. Qed.

Lemma string_of_inj l l' :
  Forall (fun b => 0 <= b < 256) l -> Forall (fun b => 0 <= b < 256) l' -> string_of l = string_of l' -> l = l'.
Proof.
  intros H. revert l'. induction H as [| b l Hb _ IH]; intros l' H'; destruct H' as [| b' l' Hb' H']; cbn; try done.
  intros [= E El]. f_equal; [| by apply IH].
  apply (f_equal Ascii.N_of_ascii) in E. rewrite !Ascii.N_ascii_embedding in E by lia. lia.
Qed.

(** ** Canonical fields *)

Lemma app_split (a b x y : string) : String.length a = String.length b -> a +:+ x = b +:+ y -> a = b /\ x = y.
Proof.
  revert b. induction a as [| c a IH]; intros [| c' b] L; try discriminate L; cbn; [done |].
  intros [= -> H]. apply IH in H as [-> ->]; [done | by injection L].
Qed.

Lemma uint_split n x y r s :
  0 <= x < 256 ^ Z.of_nat n -> 0 <= y < 256 ^ Z.of_nat n ->
  string_of (be_bytes n x) +:+ r = string_of (be_bytes n y) +:+ s -> x = y /\ r = s.
Proof.
  intros Hx Hy H. apply app_split in H as [H ->]; [| by rewrite !length_string_of, !length_be_bytes].
  split; [| done]. apply string_of_inj in H; [| apply be_bytes_range ..]. by apply be_bytes_inj in H.
Qed.

(** What is appended for a field. *)
Definition canonical_field (v : string) : string := string_of (be_bytes 4 (wrap_u32 (len v))) +:+ v.

Lemma field_split v w r s :
  len v < 256 ^ 4 -> len w < 256 ^ 4 -> canonical_field v +:+ r = canonical_field w +:+ s -> v = w /\ r = s.
Proof.
  intros Hv Hw. unfold canonical_field. rewrite !string_app_assoc.
  pose proof (len_nonneg v). pose proof (len_nonneg w).
  rewrite !wrap_u32_small by (unfold u32, max_u32; lia). intros H1. apply uint_split in H1 as [L H1]; [| cbn; lia ..].
  apply app_split in H1; [done |]. unfold len in L. lia.
Qed.

(** ** Transcripts *)

(** The transcript of a frame, by its kind, and the body it digests. *)
Definition transcript_of (kind : MessageKind) (auth : AuthContextV1) (f : FrameV1) : ProtocolError + string :=
  match kind with
  | MessageAttach => AttachTranscriptV1 auth f
  | MessageReconnect => ReconnectTranscriptV1 auth f
  | MessageManifest => ManifestTranscriptV1 auth f
  | _ => unauthenticated
  end.
Definition body_of (kind : MessageKind) (f : FrameV1) : string :=
  match kind with
  | MessageAttach => from_option attach_body "" (fr_Attach f)
  | MessageReconnect => from_option reconnect_body "" (fr_Reconnect f)
  | MessageManifest => from_option (fun m => appendCanonicalField "" (content (mn_Digest m))) "" (fr_Manifest f)
  | _ => ""
  end.
Definition domain_of (kind : MessageKind) : string :=
  match kind with
  | MessageAttach => attachTranscriptDomainV1
  | MessageReconnect => reconnectTranscriptDomainV1
  | _ => manifestTranscriptDomainV1
  end.

Definition signable (kind : MessageKind) (f : FrameV1) : Prop :=
  match kind with
  | MessageAttach => exists m, fr_Attach f = Some m /\ validateAttachForTranscript m = None
  | MessageReconnect => exists m, fr_Reconnect f = Some m /\ validateReconnectForTranscript m = None
  | MessageManifest => exists m, fr_Manifest f = Some m /\ validateManifestForTranscript m = None
  | _ => False
  end.

Lemma transcript_inv kind auth f t :
  transcript_of kind auth f = inr t ->
  kind ∈ [MessageAttach; MessageReconnect; MessageManifest] /\
  validateSignedFrame auth DirectionWorkerToPlatform f kind = None /\
  hasExactlySignedPayload f kind = true /\ signable kind f /\
  t = signedTranscript (domain_of kind) auth DirectionWorkerToPlatform f (body_of kind f).
Proof.
  rewrite !elem_of_cons. unfold transcript_of, body_of, domain_of. destruct kind; try done.
  - unfold AttachTranscriptV1. intros H. repeat case_match; simplify_eq. b2p. cbn. naive_solver.
  - unfold ReconnectTranscriptV1. intros H. repeat case_match; simplify_eq. b2p. cbn. naive_solver.
  - unfold ManifestTranscriptV1. intros H. repeat case_match; simplify_eq. b2p. cbn. naive_solver.
Qed.

Definition uint (n : nat) (x : Z) : string := string_of (be_bytes n x).

Lemma transcript_is domain auth direction f body :
  signedTranscript domain auth direction f body =
  canonical_field domain +:+ (canonical_field (Direction_text direction) +:+
  (canonical_field (MessageKind_text (fr_Kind f)) +:+ (uint 4 (au_Version auth) +:+
  (canonical_field (au_TenantID auth) +:+ (canonical_field (au_OwnerUserID auth) +:+
  (canonical_field (au_WorkerID auth) +:+ (uint 8 (au_EnrollmentGeneration auth) +:+
  (uint 8 (au_ConnectionGeneration auth) +:+ (canonical_field (content (au_ChannelBinding auth)) +:+
  (canonical_field (fr_MessageID f) +:+ (uint 8 (fr_Sequence f) +:+ (uint 8 (fr_Ack f) +:+
   (canonical_field (sha256 body) +:+ ""))))))))))))).
Proof.
  unfold signedTranscript, appendCanonicalField, appendCanonicalUint32, appendCanonicalUint64, canonical_field, uint.
  cbv zeta. autorewrite with strapp. done.
Qed.

(** Lengths and widths of what is signed. *)
Record bounded (auth : AuthContextV1) (f : FrameV1) : Prop := {
  bo_tenant : len (au_TenantID auth) < 256 ^ 4;
  bo_owner : len (au_OwnerUserID auth) < 256 ^ 4;
  bo_worker : len (au_WorkerID auth) < 256 ^ 4;
  bo_channel : len (content (au_ChannelBinding auth)) < 256 ^ 4;
  bo_message : len (fr_MessageID f) < 256 ^ 4;
  bo_version : au_Version auth = 1 }.

Lemma opaque_bounded s : validOpaque s = true -> len s < 256 ^ 4.
Proof. unfold validOpaque, maxOpaqueBytes. intros H. apply andb_true_iff in H as [H _]. b2p. lia. Qed.

Lemma signed_bounded auth d f kind : validateSignedFrame auth d f kind = None -> bounded auth f /\ fr_Kind f = kind.
Proof.
  unfold validateSignedFrame. rewrite reject_nil. intros [H _]. b2p. destruct_and?.
  unfold AuthContextV1_Validate, validateFrameCommon, ProtocolVersionV1 in *. rewrite reject_nil in *.
  split; [| done]. destruct_and?. b2p. split; try (apply opaque_bounded; tauto); lia.
Qed.

(** The machine widths of the numbers that are signed. *)
Definition wide (auth : AuthContextV1) (f : FrameV1) : Prop :=
  u64 (au_EnrollmentGeneration auth) /\ u64 (au_ConnectionGeneration auth) /\ u64 (fr_Sequence f) /\ u64 (fr_Ack f).

(** What the position, the scope and the content of a signed frame are. *)
Definition signed_scope (kind : MessageKind) (auth : AuthContextV1) (f : FrameV1) :=
  (kind, (au_TenantID auth, au_OwnerUserID auth, au_WorkerID auth),
   (au_EnrollmentGeneration auth, au_ConnectionGeneration auth), content (au_ChannelBinding auth),
   (fr_MessageID f, fr_Sequence f, fr_Ack f), sha256 (body_of kind f)).

(** Fields and integers are taken off the front, their lengths and widths discharged. *)
Ltac take_fields H :=
  repeat (let E := fresh "E" in
          first [apply field_split in H as [E H]; [| solve [eauto with widths] ..]
                |apply uint_split in H as [E H]; [| solve [eauto with widths] ..]]).

Create HintDb widths.

Lemma u64_bytes x : u64 x -> 0 <= x < 256 ^ Z.of_nat 8.
Proof. unfold u64, max_u64. cbn. lia. Qed.
Lemma version_bytes x : x = 1 -> 0 <= x < 256 ^ Z.of_nat 4.
Proof. cbn in *. lia. Qed.
Lemma sha256_short s : len (sha256 s) < 256 ^ 4.
Proof. unfold len. rewrite sha256_length. lia. Qed.
Lemma direction_short : len (Direction_text DirectionWorkerToPlatform) < 256 ^ 4.
Proof. unfold len. cbn. lia. Qed.
#[local] Hint Resolve u64_bytes version_bytes sha256_short direction_short : widths.

Lemma signed_kind_short kind :
  kind ∈ [MessageAttach; MessageReconnect; MessageManifest] -> len (MessageKind_text kind) < 256 ^ 4 /\ len (domain_of kind) < 256 ^ 4.
Proof. rewrite !elem_of_cons, elem_of_nil. intros [-> | [-> | [-> | []]]]; unfold len; cbn; lia. Qed.

Lemma domain_of_inj kind kind' :
  kind ∈ [MessageAttach; MessageReconnect; MessageManifest] -> kind' ∈ [MessageAttach; MessageReconnect; MessageManifest] ->
  domain_of kind = domain_of kind' -> kind = kind'.
Proof.
  rewrite !elem_of_cons, !elem_of_nil. intros [-> | [-> | [-> | []]]] [-> | [-> | [-> | []]]]; done.
Qed.

(** C24. A signature is good for one frame only: when the transcripts of two frames are the same
    bytes, whatever their kinds and the contexts they are signed under, the frames have the same
    kind, tenant, owner, worker, enrollment and connection generation, channel binding, message
    id, sequence number, acknowledgement and body digest. So a signed attach is not a reconnect or a
    manifest, and none of them can be replayed in another scope, channel or position. *)
Theorem transcripts_bind_scope kind auth f kind' auth' f' t
    (W : wide auth f) (W' : wide auth' f')
    (T : transcript_of kind auth f = inr t) (T' : transcript_of kind' auth' f' = inr t) :
  signed_scope kind auth f = signed_scope kind' auth' f'.
Proof.
  apply transcript_inv in T as (K & V & _ & _ & ->). apply transcript_inv in T' as (K' & V' & _ & _ & E).
  apply signed_bounded in V as [[] F], V' as [[] F'].
  destruct (signed_kind_short kind K), (signed_kind_short kind' K').
  destruct W as (? & ? & ? & ?), W' as (? & ? & ? & ?).
  rewrite !transcript_is, F, F' in E. take_fields E.
  apply domain_of_inj in E0; [| done ..]. unfold signed_scope. congruence.
Qed.

(** ** Signing and verifying *)

Definition seed_size : Z := 32.

(** What is relied on of ed25519: [NewKeyFromSeed] makes a private key from 32 bytes, a
    signature has its fixed size, and what a key made from a seed signs verifies under
    its public key.  Nothing is said of 64 bytes that are no such key: their public half
    need not belong to their seed. *)
Record Ed25519Laws (newKeyFromSeed public : string -> string) (sign : string -> string -> string)
    (verify : string -> string -> string -> bool) : Prop := {
  el_key : forall seed, len seed = seed_size -> len (newKeyFromSeed seed) = private_key_size;
  el_size : forall k m, len k = private_key_size -> len (sign k m) = signature_size;
  el_verifies : forall seed m, len seed = seed_size ->
    verify (public (newKeyFromSeed seed)) m (sign (newKeyFromSeed seed) m) = true }.

Lemma single_payload f kind :
  hasExactlySignedPayload f kind = true -> fr_Kind f = kind /\ payload_kinds f = [kind].
Proof.
  unfold hasExactlySignedPayload. intros H. b2p. destruct H as [[Hk Hin] Hl]. split; [done |].
  destruct (payload_kinds f) as [| k [| k' l]]; cbn in Hl; [lia | | lia].
  apply list_elem_of_singleton in Hin. by subst.
Qed.

(** Payloads are present in the order of the list. *)
Ltac only_payload P :=
  unfold payload_kinds in P; cbn in P;
  repeat match type of P with
         | context [present _ ?p] =>
             let E := fresh "E" in destruct p eqn:E; cbn in P;
             [first [discriminate P | injection P as P] |]
         end.

Lemma single_payload_valid f kind :
  kind ∈ [MessageAttach; MessageReconnect; MessageManifest] ->
  hasExactlySignedPayload f kind = true -> validateFrameCommon f = None -> carries f -> FrameV1_Validate f = None.
Proof.
  rewrite !elem_of_cons, elem_of_nil. intros K H C V. apply single_payload in H as [Hk P].
  unfold FrameV1_Validate. rewrite C. cbn.
  destruct K as [-> | [-> | [-> | []]]]; only_payload P; unfold carries in V; rewrite Hk in V.
  all: destruct V as (p & Hp & V); simplify_eq.
  all: unfold frame_checks, payload_check.
  all: repeat match goal with E : ?p = _ |- context [?p] => rewrite E end; done.
Qed.

(** A signature is put in the payload of a frame and changes nothing that is signed. *)
Lemma signFrame_inv public sign key auth f transcript set f' :
  signFrame public sign key auth f transcript set = (f', None) ->
  len (content key) = private_key_size /\ public (content key) = content (au_IdentityPublicKey auth) /\
  exists encoded, transcript auth f = inr encoded /\ f' = set (sign (content key) encoded).
Proof.
  unfold signFrame. intros H. destruct (_ || _ || _) eqn:E in H; [done |].
  destruct (transcript auth f) eqn:T; [done |]. injection H as <-. b2p. naive_solver.
Qed.

Lemma verifyFrame_ok verify auth f transcript signature encoded :
  FrameV1_Validate f = None -> transcript auth f = inr encoded ->
  verify (content (au_IdentityPublicKey auth)) encoded (content signature) = true ->
  verifyFrame verify auth f transcript (Some signature) = None.
Proof. intros V T S. unfold verifyFrame. rewrite V, T, S. done. Qed.

Definition with_signature (kind : MessageKind) (f : FrameV1) (s : string) : FrameV1 :=
  match kind with
  | MessageAttach => {| f with fr_Attach := option_map (fun m => {| m with at_Signature := SBytes s |}) (fr_Attach f) |}
  | MessageReconnect => {| f with fr_Reconnect := option_map (fun m => {| m with rc_Signature := SBytes s |}) (fr_Reconnect f) |}
  | MessageManifest => {| f with fr_Manifest := option_map (fun m => {| m with mn_Signature := SBytes s |}) (fr_Manifest f) |}
  | _ => f
  end.

Lemma with_signature_payload kind f s : payload_kinds (with_signature kind f s) = payload_kinds f.
Proof.
  destruct kind; try done; unfold payload_kinds; cbn;
    [destruct (fr_Attach f) | destruct (fr_Reconnect f) | destruct (fr_Manifest f)]; done.
Qed.

Lemma with_signature_transcript kind auth f s : transcript_of kind auth (with_signature kind f s) = transcript_of kind auth f.
Proof.
  destruct kind; try done; cbn [transcript_of];
    unfold AttachTranscriptV1, ReconnectTranscriptV1, ManifestTranscriptV1, hasExactlySignedPayload;
    rewrite with_signature_payload; cbn;
    [destruct (fr_Attach f) | destruct (fr_Reconnect f) | destruct (fr_Manifest f)]; done.
Qed.

(** What is signed is valid in all but the signature; a reconnect carries the attempt of the
    worker, which signing does not look into. *)
Definition claims_valid (kind : MessageKind) (f : FrameV1) : Prop :=
  kind = MessageReconnect -> forall m, fr_Reconnect f = Some m ->
  ConnectionWatermarksV1_Validate (rc_PreviousWatermarks m) = None /\
  AttemptSummaryV1_Validate (rc_AttemptSummary m) = None /\
  validatePendingTerminal (rc_PendingTerminalReplay m) (rc_AttemptSummary m) = None.

Lemma with_signature_valid kind auth f s t :
  transcript_of kind auth f = inr t -> claims_valid kind f -> len s = signature_size ->
  FrameV1_Validate (with_signature kind f s) = None.
Proof.
  intros T R L. apply transcript_inv in T as (K & V & P & S & _).
  unfold validateSignedFrame in V. rewrite reject_nil in V. destruct V as [V _]. b2p. destruct_and?.
  apply (single_payload_valid _ kind); [done | | by destruct kind |].
  - unfold hasExactlySignedPayload. rewrite with_signature_payload. by destruct kind.
  - unfold carries. destruct kind; try done; cbn in *; destruct S as (m & E & S).
    all: match goal with E : fr_Kind _ = _ |- _ => rewrite E end; cbn; rewrite E; cbn; eexists; split; [done |].
    + unfold AttachV1_Validate, validBytes. cbn. unfold validateAttachForTranscript in S. by rewrite S, L.
    + destruct (R eq_refl m E) as (? & ? & ?). unfold validateReconnectForTranscript in S. peel S.
      unfold ReconnectV1_Validate, validBytes. cbn. rewrite reject_nil, L. b2p. done.
    + unfold validateManifestForTranscript in S. unfold ManifestV1_Validate, validBytes in *. cbn.
      rewrite reject_nil in *. rewrite L. b2p. naive_solver.
Qed.

Section Signed.
Context (public : string -> string) (sign : string -> string -> string) (verify : string -> string -> string -> bool).

(** Signing and verifying, by the kind of the frame. *)
Definition sign_of (kind : MessageKind) (key : slice) (auth : AuthContextV1) (frame : option FrameV1)
  : option FrameV1 * option ProtocolError :=
  match kind with
  | MessageAttach => SignAttachV1 public sign key auth frame
  | MessageReconnect => SignReconnectV1 public sign key auth frame
  | MessageManifest => SignManifestV1 public sign key auth frame
  | _ => (frame, Some (protocolError ErrorUnauthorized))
  end.
Definition verify_of (kind : MessageKind) (auth : AuthContextV1) (frame : FrameV1) : option ProtocolError :=
  match kind with
  | MessageAttach => VerifyAttachV1 verify auth frame
  | MessageReconnect => VerifyReconnectV1 verify auth frame
  | MessageManifest => VerifyManifestV1 verify auth frame
  | _ => Some (protocolError ErrorAuthentication)
  end.

Lemma sign_of_inv kind key auth f f' :
  sign_of kind key auth (Some f) = (Some f', None) ->
  exists set, signFrame public sign key auth f (transcript_of kind) set = (f', None) /\
    forall s, set s = with_signature kind f s.
Proof.
  destruct kind; try done; cbn [sign_of transcript_of];
    unfold SignAttachV1, SignReconnectV1, SignManifestV1, on_frame; destruct (hasExactlySignedPayload _ _); try done;
    cbn [negb with_signature]; [destruct (fr_Attach f) | destruct (fr_Reconnect f) | destruct (fr_Manifest f)]; try done;
    destruct (_ =? 0); try done; cbn [negb]; destruct (signFrame _ _ _ _ _ _ _) eqn:S; intros [= -> ->]; eauto.
Qed.

Lemma verify_of_ok kind auth f t s :
  transcript_of kind auth f = inr t -> claims_valid kind f -> len s = signature_size ->
  verify (content (au_IdentityPublicKey auth)) t s = true -> verify_of kind auth (with_signature kind f s) = None.
Proof.
  intros T R L S. pose proof (with_signature_valid _ _ _ s _ T R L) as V.
  pose proof (with_signature_transcript kind auth f s) as T'. rewrite T in T'.
  apply transcript_inv in T as (_ & _ & _ & P & _). destruct kind; try done; destruct P as (m & E & _);
    cbn [verify_of transcript_of] in *; unfold VerifyAttachV1, VerifyReconnectV1, VerifyManifestV1;
    (replace (option_map _ _) with (Some (SBytes s)) by (cbn; by rewrite E)); by eapply verifyFrame_ok.
Qed.
End Signed.

(** C25. What a worker signs, the platform verifies: an attach, reconnect or manifest frame that the
    signing function accepts comes back with its signature, differs from the frame given in nothing
    else, and is accepted by the verification of its kind under the same context. The private key is
    one that ed25519 made from a seed; signing itself compares only the key's public half with the
    enrolled key. For a reconnect the claimed watermarks, attempt and pending terminal are to be
    valid, which signing does not check. Of ed25519 only the sizes and that a signature made with
    such a key verifies are used. *)
Theorem signed_frame_verifies newKeyFromSeed public sign verify kind key seed auth f f'
    (laws : Ed25519Laws newKeyFromSeed public sign verify)
    (L : len seed = seed_size) (K : content key = newKeyFromSeed seed) (C : claims_valid kind f)
    (S : sign_of public sign kind key auth (Some f) = (Some f', None)) :
  verify_of verify kind auth f' = None /\ exists s, len s = signature_size /\ f' = with_signature kind f s.
Proof.
  apply sign_of_inv in S as (set & (Lk & P & t & T & ->)%signFrame_inv & ->). rewrite K in *.
  assert (len (sign (newKeyFromSeed seed) t) = signature_size) as Ls by by apply (el_size _ _ _ _ laws).
  split; [| eauto]. apply (verify_of_ok _ _ _ _ t); [done | done | done |]. rewrite <- P. by apply (el_verifies _ _ _ _ laws).
Qed.

(** ** Samples *)
Module SignatureSample.
Import WorkerSample.

(** Digests in the place of ed25519: the public key is the digest of the seed, kept behind it in the
    private key, and a signature is made with the seed's digest, not with what is kept. *)
Definition newKeyFromSeed (seed : string) : string := seed +:+ sha256 seed.
Definition public (key : string) : string := String.substring 32 32 key.
Definition tag (key message : string) : string := sha256 (key +:+ message) +:+ sha256 message.
Definition sign (key message : string) : string := tag (sha256 (String.substring 0 32 key)) message.
Definition verify (key message sig : string) : bool := String.eqb sig (tag key message).

Lemma substring_app a b : String.substring 0 (String.length a) (a +:+ b) = a.
Proof. induction a as [| c a IH]; [by destruct b |]. cbn [String.length]. rewrite string_app_cons. cbn [String.substring]. by rewrite IH. Qed.
Lemma substring_rest a b : String.substring (String.length a) (String.length b) (a +:+ b) = b.
Proof.
  induction a as [| c a IH]; [| cbn [String.length]; rewrite string_app_cons; apply IH].
  rewrite string_app_nil_l. induction b as [| c b IH]; [done |]. cbn [String.length String.substring] in *. by rewrite IH.
Qed.

Lemma laws : Ed25519Laws newKeyFromSeed public sign verify.
Proof.
  assert (forall k m, len (tag k m) = signature_size) as Hs.
  { intros k m. unfold tag, len, signature_size. rewrite string_length_app, !sha256_length. done. }
  split.
  - intros seed L. unfold newKeyFromSeed, len, seed_size, private_key_size in *. rewrite string_length_app, sha256_length. lia.
  - intros k m _. apply Hs.
  - intros seed m L. assert (String.length seed = 32%nat) as L' by (unfold len, seed_size in L; lia).
    unfold public, sign, newKeyFromSeed. pose proof (substring_app seed (sha256 seed)) as H1.
    pose proof (substring_rest seed (sha256 seed)) as H2. rewrite sha256_length, L' in H2. rewrite L' in H1.
    rewrite H1, H2. apply String.eqb_refl.
Qed.

Definition seed : string := bytes 32 "s".
Definition key : slice := SBytes (newKeyFromSeed seed).
Definition auth : AuthContextV1 := let a := WorkerSample.auth in {| a with au_IdentityPublicKey := SBytes (sha256 seed) |}.
Definition unsigned : FrameV1 :=
  let f := envelope worker 2 1 MessageAttach in
  {| f with fr_Attach := Some {| at_WorkerOffer := offer; at_PlatformOffer := offer; at_SelectedVersion := 1;
       at_WorkerNonce := b32 "n"; at_PlatformNonce := b32 "m"; at_CapabilityDigest := digest; at_Signature := SNil |} |}.
Definition transcript : string :=
  signedTranscript attachTranscriptDomainV1 auth DirectionWorkerToPlatform unsigned (body_of MessageAttach unsigned).
Definition signed : FrameV1 := with_signature MessageAttach unsigned (sign (content key) transcript).

Lemma unsigned_transcript : transcript_of MessageAttach auth unsigned = inr transcript.
Proof. reflexivity. Qed.
Lemma unsigned_signed : sign_of public sign MessageAttach key auth (Some unsigned) = (Some signed, None).
Proof. reflexivity. Qed.
Lemma sample_wide f : u64 (fr_Sequence f) -> u64 (fr_Ack f) -> wide auth f.
Proof. intros. split_and!; [unfold u64, max_u64; cbn; lia .. | done | done]. Qed.
End SignatureSample.

Lemma transcripts_bind_scope_witness :
  signed_scope MessageAttach SignatureSample.auth SignatureSample.unsigned
  = signed_scope MessageAttach SignatureSample.auth SignatureSample.signed.
Proof.
  apply (transcripts_bind_scope _ _ _ _ _ _ SignatureSample.transcript).
  - apply SignatureSample.sample_wide; unfold u64, max_u64; cbn; lia.
  - apply SignatureSample.sample_wide; unfold u64, max_u64; cbn; lia.
  - apply SignatureSample.unsigned_transcript.
  - unfold SignatureSample.signed. rewrite with_signature_transcript. apply SignatureSample.unsigned_transcript.
Defined.

Lemma signed_frame_verifies_witness :
  verify_of SignatureSample.verify MessageAttach SignatureSample.auth SignatureSample.signed = None /\
  exists s, len s = signature_size /\ SignatureSample.signed = with_signature MessageAttach SignatureSample.unsigned s.
Proof.
  apply (signed_frame_verifies SignatureSample.newKeyFromSeed SignatureSample.public SignatureSample.sign
    SignatureSample.verify MessageAttach SignatureSample.key SignatureSample.seed).
  - apply SignatureSample.laws.
  - vm_compute. reflexivity.
  - reflexivity.
  - discriminate.
  - apply SignatureSample.unsigned_signed.
Defined.
