(* ===== verification/WorkerRestore.v ===== *)
(** * Storing and restoring a machine
      ([internal/attachedworkerprotocol]: [durable.go])

    A machine that has been stored and restored cannot be told from the one that was
    stored: it answers every sequence of frames in the same way and is stored again as the
    same snapshot. It differs only where nothing looks: the empty lease of an idle
    attempt, and what a reconnect that is over has left behind. *)

From stdpp Require Import gmap.
From S2P Require Import Prelude GoText Sorting Sha256 Json WorkerProtocol WorkerFrames WorkerReconnect.
From S2P Require Import WorkerTranscripts WorkerMachine WorkerSnapshot WorkerReducers.
From S2P Require Import WorkerSample WorkerMachineSafety WorkerMachineRuns WorkerMachineAttempts.
#[local] Open Scope Z_scope.

Implicit Types (m : ConformanceMachine) (d : Direction) (f : FrameV1).

(** ** Machines that cannot be told apart *)

(** The lease of an idle attempt: its digests are empty, nil or not. *)
Definition emptied (b : AttemptBindingV1) : AttemptBindingV1 :=
  {| b with ab_ContextDigest := SBytes ""; ab_CapabilityDigest := SBytes ""; ab_PolicyDigest := SBytes "" |}.

Record like_attempt (a a' : attemptRecord) : Prop := {
  li_state : ar_state a' = ar_state a;
  li_platform : ar_platform a' = ar_platform a;
  li_worker : ar_worker a' = ar_worker a;
  li_progress : ar_progressSequence a' = ar_progressSequence a;
  li_revision : ar_cancelRevision a' = ar_cancelRevision a;
  li_code : ar_cancelCode a' = ar_cancelCode a;
  li_terminal : ar_terminalSequence a' = ar_terminalSequence a;
  li_status : ar_terminalStatus a' = ar_terminalStatus a;
  li_result : ar_terminalResult a' = ar_terminalResult a;
  li_evidence : ar_terminalEvidence a' = ar_terminalEvidence a;
  li_pending : ar_pendingWorkerTerminal a' = ar_pendingWorkerTerminal a;
  li_binding : ar_state a <> AttemptIdle -> ar_binding a' = ar_binding a;
  li_idle : ar_state a = AttemptIdle -> emptied (ar_binding a') = emptied (ar_binding a) }.

(** A reconnect is under way, or its drain has not been sent again. *)
Definition active m : bool := cm_reconnecting m || cm_drainReenvelopePending m.

(** The states in which neither of the two is looked at. *)
Definition closed (c : ConnectionState) : Prop :=
  match c with ConnectionDrained | ConnectionRevoking | ConnectionRevoked => True | _ => False end.

Record like m m' : Prop := {
  lk_config : cm_config m' = cm_config m;
  lk_connection : cm_connection m' = cm_connection m;
  lk_platform : cm_platform m' = cm_platform m;
  lk_worker : cm_worker m' = cm_worker m;
  lk_hello : cm_hello m' = cm_hello m;
  lk_challenge : cm_challenge m' = cm_challenge m;
  lk_capability : cm_capabilityDigest m' = cm_capabilityDigest m;
  lk_manifest : cm_manifest m' = cm_manifest m;
  lk_drain : cm_drainRevision m' = cm_drainRevision m;
  lk_revoke : cm_revoke m' = cm_revoke m;
  lk_attempt : like_attempt (cm_attempt m) (cm_attempt m');
  lk_active : active m' = active m;
  lk_flags : ~ closed (cm_connection m) ->
    cm_reconnecting m' = cm_reconnecting m /\ cm_drainReenvelopePending m' = cm_drainReenvelopePending m;
  lk_reconnect : active m = true ->
    cm_reconnectTarget m' = cm_reconnectTarget m /\
    cm_previousConnectionGeneration m' = cm_previousConnectionGeneration m /\
    cm_reconnectWatermarks m' = cm_reconnectWatermarks m /\ cm_reconnectAttempt m' = cm_reconnectAttempt m /\
    cm_reconnectClaim m' = cm_reconnectClaim m }.

Lemma like_attempt_refl a : like_attempt a a.
Proof. by split. Qed.

Lemma like_refl m : like m m.
Proof. by split. Qed.

(** The two flags of a reconnect and the state of the connection. *)
Record flagged m : Prop := {
  fl_pending : cm_connection m = ConnectionReconnectPending -> cm_reconnecting m = true;
  fl_reconnecting : cm_reconnecting m = true ->
    cm_connection m ∉ [ConnectionReady; ConnectionDraining; ConnectionDrained] /\ cm_drainReenvelopePending m = false;
  fl_target : cm_reconnecting m = true -> cm_reconnectTarget m ∈ [ConnectionReady; ConnectionDraining];
  fl_again : cm_drainReenvelopePending m = true -> cm_connection m = ConnectionDraining \/ closed (cm_connection m) }.

(** Two outcomes: the same error, and machines that cannot be told apart. *)
Definition tally (r r' : outcome) : Prop :=
  match r, r' with
  | Some (m1, e), Some (m1', e') => e' = e /\ like m1 m1'
  | None, None => True
  | _, _ => False
  end.

Section Tally.
Context (verify : string -> string -> string -> bool).

(** What every handler looks at is the same in both machines. *)
Ltac observe L :=
  unfold revoking, in_state, attempt_in, hasFeature, attempt_sender, commitment_error; cbv zeta;
  rewrite ?(lk_config _ _ L), ?(lk_connection _ _ L), ?(lk_hello _ _ L), ?(lk_challenge _ _ L), ?(lk_capability _ _ L),
    ?(lk_manifest _ _ L), ?(lk_drain _ _ L), ?(lk_revoke _ _ L),
    ?(li_state _ _ (lk_attempt _ _ L)), ?(li_platform _ _ (lk_attempt _ _ L)), ?(li_worker _ _ (lk_attempt _ _ L)),
    ?(li_progress _ _ (lk_attempt _ _ L)), ?(li_revision _ _ (lk_attempt _ _ L)), ?(li_code _ _ (lk_attempt _ _ L)),
    ?(li_terminal _ _ (lk_attempt _ _ L)), ?(li_status _ _ (lk_attempt _ _ L)), ?(li_result _ _ (lk_attempt _ _ L)),
    ?(li_evidence _ _ (lk_attempt _ _ L)), ?(li_pending _ _ (lk_attempt _ _ L)).

(** Both follow the same branch. *)
Ltac branch :=
  repeat match goal with
         | |- tally (if ?b then _ else _) (if ?b then _ else _) => destruct b eqn:?
         | |- tally (match ?x with _ => _ end) (match ?x with _ => _ end) => destruct x eqn:?
         end.

Ltac flags L :=
  intros _; apply (lk_flags _ _ L);
  match goal with H : cm_connection _ = _ |- _ => rewrite H end; exact id.

Ltac settled L :=
  cbn; try done; (split; [done |]); try done; facts; (split; cbn; try done; try apply L; try flags L; try (unfold active; cbn; congruence)).

Lemma hello_tally m m' d f : like m m' -> tally (acceptHello m d f) (acceptHello m' d f).
Proof. intros L. unfold acceptHello. observe L. branch; settled L. Qed.

Lemma challenge_tally m m' d f : like m m' -> tally (acceptChallenge m d f) (acceptChallenge m' d f).
Proof. intros L. unfold acceptChallenge. observe L. branch; settled L. Qed.

Lemma attach_tally m m' d f : like m m' -> tally (acceptAttach verify m d f) (acceptAttach verify m' d f).
Proof.
  intros L. unfold acceptAttach. observe L. destruct (bool_decide (cm_connection m = ConnectionChallenged)) eqn:C.
  - destruct (lk_flags _ _ L) as [E1 E2]; [apply bool_decide_eq_true in C; rewrite C; exact id |].
    rewrite E1. branch; settled L.
  - cbn [negb]. rewrite !orb_true_r. cbn. done.
Qed.

Lemma attach_accepted_tally m m' d f : like m m' -> tally (acceptAttachAccepted m d f) (acceptAttachAccepted m' d f).
Proof. intros L. unfold acceptAttachAccepted. observe L. branch; settled L. Qed.

Lemma heartbeat_tally m m' d f : like m m' -> tally (acceptHeartbeat m d f) (acceptHeartbeat m' d f).
Proof. intros L. unfold acceptHeartbeat. observe L. branch; settled L. Qed.

Lemma drained_tally m m' d f : like m m' -> tally (acceptDrained m d f) (acceptDrained m' d f).
Proof. intros L. unfold acceptDrained. observe L. branch; settled L. Qed.

Lemma revoked_tally m m' d f : like m m' -> tally (acceptRevoked m d f) (acceptRevoked m' d f).
Proof. intros L. unfold acceptRevoked. observe L. branch; settled L. Qed.

Lemma revoke_tally m m' d f : like m m' -> tally (acceptRevoke m d f) (acceptRevoke m' d f).
Proof.
  intros L. unfold acceptRevoke. observe L. branch; cbn; try done.
  observe L. cbn. split; [done |]. destruct (negb _ && negb _) eqn:G; (split; cbn; try done; try apply L; try (by intros [])).
  destruct (lk_attempt _ _ L). unfold fence_attempt. split; cbn; try done; [by rewrite li_revision0 |].
  intros _. apply li_binding0. intros Hi. rewrite Hi in G. by rewrite bool_decide_eq_true_2 in G.
Qed.

Lemma drain_tally m m' d f : like m m' -> tally (acceptDrain m d f) (acceptDrain m' d f).
Proof.
  intros L. unfold acceptDrain. observe L. branch; try done.
  - destruct (lk_flags _ _ L) as [E1 E2]; [rewrite Heqc; exact id |]. rewrite E2. branch; settled L.
  - destruct (lk_flags _ _ L) as [E1 E2]; [rewrite Heqc; exact id |]. rewrite E2.
    destruct (cm_drainReenvelopePending m) eqn:D; [| done].
    destruct (lk_reconnect _ _ L) as (T & P & W & A & C); [unfold active; by rewrite D, orb_true_r |]. rewrite T, P.
    branch; settled L.
Qed.

Lemma manifest_tally m m' d f : like m m' -> tally (acceptManifest verify m d f) (acceptManifest verify m' d f).
Proof.
  intros L. unfold acceptManifest. observe L. cbn. branch; try done. cbn in *.
  destruct (lk_flags _ _ L) as [E1 E2]; [facts; match goal with H : cm_connection _ = _ |- _ => rewrite H end; exact id |].
  rewrite E1. destruct (cm_reconnecting m) eqn:R.
  - destruct (lk_reconnect _ _ L) as (T & P & W & A & C); [unfold active; by rewrite R |]. rewrite T. settled L.
  - settled L. intros D. apply (lk_reconnect _ _ L). unfold active. cbn in D. by rewrite D, orb_true_r.
Qed.

Lemma incompatible_like m m' claim :
  like m m' -> ~ closed (cm_connection m) -> incompatible_claim m' claim = incompatible_claim m claim.
Proof.
  intros L N. destruct (lk_flags _ _ L N) as [E1 _]. unfold incompatible_claim, SnapshotForReconnect, pendingTerminalForSnapshot.
  rewrite E1, (li_pending _ _ (lk_attempt _ _ L)). destruct (cm_reconnecting m) eqn:R; [| done].
  destruct (lk_reconnect _ _ L) as (T & P & W & A & C); [unfold active; by rewrite R |]. by rewrite P, W, A.
Qed.

Lemma reconnect_tally m m' d f : like m m' -> tally (acceptReconnect verify m d f) (acceptReconnect verify m' d f).
Proof.
  intros L. unfold acceptReconnect. observe L. destruct (fr_Reconnect f) as [r |]; [| done].
  destruct (bool_decide (cm_connection m = ConnectionChallenged)) eqn:Cn; cycle 1.
  { cbn [negb]. rewrite !orb_true_r. cbn. done. }
  apply bool_decide_eq_true in Cn. destruct (lk_flags _ _ L) as [E1 E2]; [rewrite Cn; exact id |].
  rewrite E1, (incompatible_like _ _ _ L) by (rewrite Cn; exact id).
  destruct (cm_reconnecting m) eqn:R; [| cbn [negb]; rewrite !orb_true_r; done].
  destruct (lk_reconnect _ _ L) as (T & P & W & A & C); [unfold active; by rewrite R |]. rewrite P. branch; settled L.
Qed.

(** A commitment is installed in both or in neither. *)
Lemma install_like m m' s c p m1 e :
  like m m' -> installReplayCommitment m s c p = (m1, e) ->
  exists m1', installReplayCommitment m' s c p = (m1', e) /\ like m1 m1'.
Proof.
  intros L. assert (forall q, like (set_pending m q) (set_pending m' q)) as H.
  { intros q. destruct L as [? ? ? ? ? ? ? ? ? ? La]. split; try done. destruct La. by split. }
  unfold installReplayCommitment. rewrite (li_pending _ _ (lk_attempt _ _ L)).
  repeat case_match; intros [= <- <-]; eauto.
Qed.

Lemma summarized_like m m' s : like m m' -> like (applyAttemptSummary m s) (applyAttemptSummary m' s).
Proof.
  intros L. destruct L as [? ? ? ? ? ? ? ? ? ? La]. destruct La. unfold applyAttemptSummary.
  split; cbn; try done. split; cbn; try done; by rewrite ?li_platform0, ?li_worker0.
Qed.

Lemma discarded_like m m' : like m m' -> like (applyDiscardTombstone m) (applyDiscardTombstone m').
Proof.
  intros L. unfold applyDiscardTombstone. rewrite (li_pending _ _ (lk_attempt _ _ L)), (li_worker _ _ (lk_attempt _ _ L)).
  destruct (ar_pendingWorkerTerminal (cm_attempt m)); [| done]. case_match; [done |].
  destruct L as [? ? ? ? ? ? ? ? ? ? La]. destruct La. by split.
Qed.

Lemma discarded_connection m : cm_connection (applyDiscardTombstone m) = cm_connection m.
Proof. unfold applyDiscardTombstone. by repeat case_match. Qed.

Lemma attached_like m m' :
  like m m' -> ~ closed (cm_connection m) ->
  like {| m with cm_connection := ConnectionAttached |} {| m' with cm_connection := ConnectionAttached |}.
Proof. intros L N. destruct (lk_flags _ _ L N). destruct L. by split. Qed.

Lemma reconnect_accepted_tally m m' d f :
  flagged m -> like m m' -> tally (acceptReconnectAccepted m d f) (acceptReconnectAccepted m' d f).
Proof.
  intros F L. unfold acceptReconnectAccepted. observe L. destruct (fr_ReconnectAccepted f) as [a |]; [| done].
  destruct (bool_decide (cm_connection m = ConnectionReconnectPending)) eqn:Cn; cycle 1.
  { cbn [negb]. rewrite !orb_true_r. cbn. done. }
  apply bool_decide_eq_true in Cn. pose proof (fl_pending _ F Cn) as R.
  destruct (lk_reconnect _ _ L) as (T & P & W & A & C); [unfold active; by rewrite R |].
  assert (authoritative_snapshot m' a = authoritative_snapshot m a) as Ea by (unfold authoritative_snapshot; by rewrite P).
  assert (unexpected_answer m' a = unexpected_answer m a) as -> by (unfold unexpected_answer; by rewrite Ea, C).
  rewrite Ea, C. branch; [split; [reflexivity | exact L] |].
  destruct (installReplayCommitment m _ _ _) as [m1 e] eqn:I.
  destruct (install_like _ _ _ _ _ _ _ L I) as (m1' & -> & L1). destruct e; [by split |]. split; [done |].
  apply attached_like; [by apply discarded_like, summarized_like |].
  apply install_keeps in I as [q ->]. rewrite discarded_connection. cbn. rewrite Cn. exact id.
Qed.

Lemma with_attempt_like m m' a a' : like m m' -> like_attempt a a' -> like (with_attempt m a) (with_attempt m' a').
Proof. intros [] La. by split. Qed.

(** A transition of an attempt that is open. *)
Ltac moves L :=
  observe L; cbn [ar_cancelCode]; branch; try (split; [reflexivity | exact L]); try exact I;
  (split; [reflexivity |]); try exact L; (apply with_attempt_like; [exact L |]);
  pose proof (lk_attempt _ _ L) as La; destruct La; facts; (split; cbn; try done; try congruence);
  try (intros _; apply (lk_attempt _ _ L); intros Hi; rewrite Hi in *; intuition congruence).

Lemma transition_tally m m' d f b : like m m' -> tally (applyAttemptTransition m d f b) (applyAttemptTransition m' d f b).
Proof.
  intros L. unfold applyAttemptTransition. destruct (fr_Kind f); try (split; [reflexivity | exact L]).
  - unfold transitLeaseOffer. moves L.
  - unfold transitLeaseClaim, set_state. moves L.
  - unfold transitLeaseAccepted, set_state. moves L.
  - unfold transitProgress. moves L.
  - unfold transitCancel. moves L. by case_match.
  - unfold transitCancelAck, set_state. moves L.
  - unfold transitTerminal. moves L.
  - unfold transitTerminalAck, set_state. moves L.
Qed.

Lemma recorded_like a a' d s fp : like_attempt a a' -> like_attempt (recorded a d s fp) (recorded a' d s fp).
Proof.
  intros []. unfold recorded. rewrite li_pending0, li_platform0, li_worker0.
  destruct (is_direction d DirectionPlatformToWorker), (ar_pendingWorkerTerminal a); try (by split).
  all: case_match; by split.
Qed.

Lemma recorded_machine m d s fp :
  clear_commitment (record_attempt m d s fp) d s = with_attempt m (recorded (cm_attempt m) d s fp).
Proof. rewrite <- recorded_is. by destruct m. Qed.

Lemma attempt_tally m m' d f now : like m m' -> tally (acceptAttempt m d f now) (acceptAttempt m' d f now).
Proof.
  intros L. unfold acceptAttempt. destruct (attemptPayload f) as [[b s] |]; [| done].
  assert (commitment_error m' d (fr_Kind f) s (attemptFingerprint f) = commitment_error m d (fr_Kind f) s (attemptFingerprint f))
    as -> by (unfold commitment_error; by rewrite (li_pending _ _ (lk_attempt _ _ L))).
  assert (negb (attempt_in m' AttemptIdle) && negb (sameAttemptBinding b (ar_binding (cm_attempt m')))
          = negb (attempt_in m AttemptIdle) && negb (sameAttemptBinding b (ar_binding (cm_attempt m)))) as ->.
  { observe L. case_bool_decide as Hi; [done |]. by rewrite (li_binding _ _ (lk_attempt _ _ L) Hi). }
  observe L. branch; try (split; [reflexivity | exact L]).
  pose proof (transition_tally m m' d f b L) as T.
  destruct (applyAttemptTransition m d f b) as [[m1 e] |], (applyAttemptTransition m' d f b) as [[m1' e'] |]; try done.
  destruct T as [-> L1]. destruct e; [by split |]. split; [reflexivity |].
  rewrite !recorded_machine. apply with_attempt_like; [done |]. apply recorded_like, L1.
Qed.

Lemma apply_tally m m' d f now : flagged m -> like m m' -> tally (apply verify m d f now) (apply verify m' d f now).
Proof.
  intros F L. unfold apply. destruct (fr_Kind f); try (by apply attempt_tally); try (split; [reflexivity | exact L]).
  - by apply hello_tally.
  - by apply challenge_tally.
  - by apply attach_tally.
  - by apply attach_accepted_tally.
  - by apply reconnect_tally.
  - by apply reconnect_accepted_tally.
  - by apply manifest_tally.
  - by apply heartbeat_tally.
  - by apply drain_tally.
  - by apply drained_tally.
  - by apply revoke_tally.
  - by apply revoked_tally.
Qed.

(** Machines that are alike answer a frame in the same way and stay alike. *)
Lemma accept_tally m m' d f acceptance :
  flagged m -> like m m' -> tally (Accept verify m d f acceptance) (Accept verify m' d f acceptance).
Proof.
  intros F L. unfold Accept, sender_of, peer_of, out_of_scope. rewrite (lk_config _ _ L), (lk_platform _ _ L), (lk_worker _ _ L).
  cbv zeta. branch; try (split; [reflexivity | exact L]).
  pose proof (apply_tally m m' d f (ac_NowUnixMicro acceptance) F L) as T.
  destruct (apply verify m d f _) as [[m1 e] |], (apply verify m' d f _) as [[m1' e'] |]; try done.
  destruct T as [-> L1]. destruct e; [by split |]. split; [reflexivity |].
  unfold set_sender. destruct L1, (is_direction d DirectionPlatformToWorker); by split.
Qed.
End Tally.

(** ** Storing *)

Lemma seal_emptied s :
  as_State s = AttemptIdle -> sealAttemptSummary s = sealAttemptSummary {| s with as_Binding := emptied (as_Binding s) |}.
Proof.
  destruct s as [st b ? ? ? ? ? t ? ? ? ?]. cbn. intros ->. destruct b. unfold sealAttemptSummary. cbn [as_TerminalSequence].
  destruct (t =? 0); reflexivity.
Qed.

Lemma sealed_like a a' :
  like_attempt a a' -> sealAttemptSummary (attempt_summary a') = sealAttemptSummary (attempt_summary a).
Proof.
  destruct a, a'. intros []. cbn in *. subst. destruct (decide (ar_state = AttemptIdle)) as [-> | Hi].
  - rewrite seal_emptied by done. symmetry. rewrite seal_emptied by done. apply (f_equal sealAttemptSummary).
    unfold attempt_summary. cbn -[emptied]. rewrite !cloneBinding_id. by rewrite li_idle0.
  - by rewrite li_binding0.
Qed.

Lemma summary_like m m' : like m m' -> currentAttemptSummary m' = currentAttemptSummary m.
Proof. intros L. apply sealed_like, L. Qed.

Lemma snapshot_of_like m m' cd : like m m' -> snapshot_of m' cd = snapshot_of m cd.
Proof.
  intros L. unfold snapshot_of. rewrite (summary_like _ _ L).
  assert (snapshot_reconnect m' = snapshot_reconnect m) as ->.
  { unfold snapshot_reconnect. fold (active m) (active m'). rewrite (lk_active _ _ L).
    destruct (active m) eqn:A; [| done]. destruct (lk_reconnect _ _ L A) as (-> & -> & -> & -> & ->). done. }
  destruct L as [_ -> -> -> -> -> -> -> -> -> []]. by rewrite li_platform0, li_worker0, li_pending0.
Qed.

Lemma snapshot_like m m' : like m m' -> Snapshot m' = Snapshot m.
Proof. intros L. unfold Snapshot. rewrite (lk_config _ _ L). case_match; [done |]. by rewrite (snapshot_of_like _ _ _ L). Qed.

(** *** Copies of copies *)

Lemma copied_idem s : copied (copied s) = copied s.
Proof. unfold copied. destruct (String.eqb (content s) "") eqn:E; [done |]. cbn. by rewrite E. Qed.

Lemma copied_sha x : copied (SBytes (sha256 x)) = SBytes (sha256 x).
Proof.
  unfold copied. cbn [content]. destruct (String.eqb_spec (sha256 x) "") as [E |]; [| done].
  pose proof (sha256_length x) as H. by rewrite E in H.
Qed.

Lemma clone_hello_idem h : cloneHello (cloneHello h) = cloneHello h.
Proof. unfold cloneHello. cbn. by rewrite copied_idem. Qed.
Lemma clone_challenge_idem c : cloneChallenge (cloneChallenge c) = cloneChallenge c.
Proof. unfold cloneChallenge. cbn. by rewrite !copied_idem. Qed.
Lemma clone_manifest_idem c : cloneManifest (cloneManifest c) = cloneManifest c.
Proof. unfold cloneManifest. cbn. by rewrite copied_idem. Qed.
Lemma clone_config_idem c : cloneMachineConfig (cloneMachineConfig c) = cloneMachineConfig c.
Proof. unfold cloneMachineConfig, cloneAuthContext. cbn. by rewrite !copied_idem. Qed.
Lemma cloned_terminal_idem t : cloned_terminal (cloned_terminal t) = cloned_terminal t.
Proof. unfold cloned_terminal, cloneTerminal. cbn. by rewrite !cloneBinding_id, copied_idem. Qed.
Lemma clone_claim_idem s : cloneReconnectSnapshot (cloneReconnectSnapshot s) = cloneReconnectSnapshot s.
Proof.
  unfold cloneReconnectSnapshot. cbn. rewrite !cloneSummary_id, copied_idem. f_equal.
  destruct (rs_PendingTerminalReplay s) as [t |]; [| done]. cbn. by rewrite !cloneBinding_id, copied_idem.
Qed.
Lemma clone_direction_idem s : cloneAttemptDirectionSnapshot (snapshotAttemptDirection s) = snapshotAttemptDirection s.
Proof.
  unfold cloneAttemptDirectionSnapshot, snapshotAttemptDirection. cbn. f_equal. rewrite map_map.
  apply map_ext. intros q. cbn. by rewrite copied_idem.
Qed.

Lemma if_valid_clone {A} validate (clone : A -> A) v :
  (forall x, clone (clone x) = clone x) -> option_map clone (if_valid validate clone v) = if_valid validate clone v.
Proof. intros H. unfold if_valid. destruct (isnil _); [| done]. cbn. by rewrite H. Qed.

Lemma clone_envelope_idem s : clone_envelope (snapshotEnvelope s) = snapshotEnvelope s.
Proof. unfold clone_envelope, snapshotEnvelope. cbn. case_match; [by rewrite copied_idem | done]. Qed.
Lemma clone_commitment_idem p : option_map clone_pending (option_map snapshot_commitment p) = option_map snapshot_commitment p.
Proof.
  destruct p as [c |]; [| done]. unfold clone_pending, snapshot_commitment. cbn -[cloned_terminal].
  by rewrite copied_idem, cloned_terminal_idem.
Qed.
Lemma clone_reconnect_idem m : option_map clone_reconnect (snapshot_reconnect m) = snapshot_reconnect m.
Proof.
  unfold snapshot_reconnect. case_match; [| done]. cbn [option_map]. f_equal. unfold clone_reconnect. cbn [mr_Attempt mr_Claim].
  rewrite !cloneSummary_id, if_valid_clone by apply clone_claim_idem. done.
Qed.

Definition with_digest (s : MachineSnapshotV1) (digest : slice) : MachineSnapshotV1 := {| s with mz_Digest := digest |}.

(** What a machine is stored as is its own copy. *)
Lemma stored_clone m cd digest :
  copied cd = cd -> copied digest = digest ->
  cloneMachineSnapshot (with_digest (snapshot_of m cd) digest) = with_digest (snapshot_of m cd) digest.
Proof.
  intros Hc Hd. unfold cloneMachineSnapshot, with_digest, snapshot_of, clone_attempt.
  cbn [mz_ConfigurationDigest mz_Platform mz_Worker mz_Hello mz_Challenge mz_CapabilityDigest mz_Manifest mz_Attempt
       mz_Reconnect mz_Digest ms_Summary ms_Platform ms_Worker ms_PendingWorkerTerminal mz_Version mz_Connection
       mz_DrainRevision mz_Revoke].
  rewrite Hc, Hd, copied_idem, cloneSummary_id, !clone_direction_idem, !clone_envelope_idem, clone_commitment_idem,
    clone_reconnect_idem.
  by rewrite !if_valid_clone by auto using clone_hello_idem, clone_challenge_idem, clone_manifest_idem.
Qed.

Lemma snapshot_inv m s :
  Snapshot m = inr s ->
  exists cd, machineConfigDigestV1 (cm_config m) = inr (SBytes cd) /\ cd = sha256 (config_bytes (cloneMachineConfig (cm_config m))) /\
    validateMachineSnapshotContent (snapshot_of m (SBytes cd)) = None /\
    s = with_digest (snapshot_of m (SBytes cd)) (machineSnapshotDigestUnchecked (snapshot_of m (SBytes cd))).
Proof.
  unfold Snapshot. destruct (machineConfigDigestV1 (cm_config m)) as [e | cd] eqn:D; [done |].
  assert (cd = SBytes (sha256 (config_bytes (cloneMachineConfig (cm_config m))))) as ->.
  { unfold machineConfigDigestV1 in D. by repeat case_match; simplify_eq. }
  unfold MachineSnapshotDigestV1. cbv zeta.
  destruct (validateMachineSnapshotContent _) eqn:V; [done |]. cbn [notnil isnil negb]. intros [= <-].
  eexists. split; [done |]. split; [done |]. split; [done |].
  fold (with_digest (snapshot_of m (SBytes (sha256 (config_bytes (cloneMachineConfig (cm_config m))))))
         (machineSnapshotDigestUnchecked (snapshot_of m (SBytes (sha256 (config_bytes (cloneMachineConfig (cm_config m)))))))).
  apply stored_clone; apply copied_sha.
Qed.

(** What is stored is valid. *)
Lemma digested_valid s :
  validateMachineSnapshotContent s = None -> MachineSnapshotV1_Validate (with_digest s (machineSnapshotDigestUnchecked s)) = None.
Proof.
  intros V. unfold MachineSnapshotV1_Validate, bytes_equal, validBytes, len. cbn [mz_Digest with_digest].
  change (validateMachineSnapshotContent (with_digest s (machineSnapshotDigestUnchecked s))) with (validateMachineSnapshotContent s).
  change (machineSnapshotDigestUnchecked (with_digest s (machineSnapshotDigestUnchecked s))) with (machineSnapshotDigestUnchecked s).
  rewrite V, String.eqb_refl. cbn [machineSnapshotDigestUnchecked content]. rewrite sha256_length. done.
Qed.

(** ** Restoring *)

Lemma substring_all s : String.substring 0 (String.length s) s = s.
Proof. induction s as [| c s IH]; [done |]. cbn. by rewrite IH. Qed.

(** The array a stored fingerprint is copied into. *)
Lemma fingerprint_copied fp : String.length fp = 32%nat -> fingerprint_of (copied (SBytes fp)) = fp.
Proof.
  intros L. unfold copied. cbn [content]. destruct (String.eqb_spec fp "") as [-> |]; [done |].
  unfold fingerprint_of. cbn [content]. rewrite L, <- L, substring_all, L.
  change (String.substring 32 32 zero_fingerprint) with ""%string. apply string_app_nil_r.
Qed.

Lemma restored_envelope q :
  String.length (sq_fingerprint q) = 32%nat -> (sq_sequence q = 0 -> sq_fingerprint q = zero_fingerprint) ->
  restoreEnvelope (snapshotEnvelope q) = q.
Proof.
  intros L Z. destruct q as [n a fp]. cbn in *. unfold restoreEnvelope, snapshotEnvelope. cbn [es_Sequence es_Ack es_Fingerprint
    sq_sequence sq_ack sq_fingerprint]. f_equal. destruct (n =? 0) eqn:E; cbn [negb]; [| by apply fingerprint_copied].
  rewrite Z by lia. reflexivity.
Qed.

Lemma fold_left_map {A B C} (f : C -> B -> C) (g : A -> B) l : forall acc,
  fold_left f (map g l) acc = fold_left (fun acc x => f acc (g x)) l acc.
Proof. induction l as [| x l IH]; intros acc; [done |]. apply IH. Qed.

Lemma inserted_lookup (g : Z -> string) l : forall (acc : gmap Z string) i,
  fold_left (fun acc q => <[q := g q]> acc) l acc !! i = if decide (i ∈ l) then Some (g i) else acc !! i.
Proof.
  induction l as [| q l IH]; intros acc i; cbn [fold_left]; [by rewrite decide_False by apply not_elem_of_nil |].
  rewrite IH. destruct (decide (i ∈ l)) as [Hi | Hi]; [rewrite decide_True by (by right); done |].
  destruct (decide (i = q)) as [-> | N].
  - rewrite decide_True by left. apply lookup_insert_eq.
  - rewrite decide_False by (rewrite elem_of_cons; tauto). by apply lookup_insert_ne.
Qed.

Lemma restored_direction q :
  map_Forall (fun _ fp => String.length fp = 32%nat) (aq_fingerprints q) ->
  restoreAttemptDirection (snapshotAttemptDirection q) = q.
Proof.
  intros F. destruct q as [n fps]. unfold restoreAttemptDirection, snapshotAttemptDirection.
  cbn [ds_Sequence ds_Fingerprints aq_sequence aq_fingerprints] in *. f_equal.
  set (l := sort_by Z.ltb _).
  assert (forall i, i ∈ l <-> is_Some (fps !! i)) as E.
  { intros i. unfold l. rewrite sort_by_permutation, list_elem_of_fmap. setoid_rewrite elem_of_map_to_list'.
    split; [intros ([k v] & -> & H); eauto | intros [v H]; by exists (i, v)]. }
  revert E. generalize l. clear l. intros l E. rewrite fold_left_map. cbn [af_Sequence af_Fingerprint].
  apply map_eq. intros i.
  rewrite (inserted_lookup (fun q => fingerprint_of (copied (SBytes (default zero_fingerprint (fps !! q)))))).
  destruct (decide (i ∈ l)) as [Hi | Hi]; rewrite E in Hi.
  - destruct Hi as [v Hv]. rewrite Hv. cbn [default]. rewrite fingerprint_copied by by eapply F. done.
  - rewrite lookup_empty. symmetry. by apply eq_None_not_Some.
Qed.
