(* ===== verification/WorkerDurable.v ===== *)
(** * Stored machines carry on
      ([internal/attachedworkerprotocol]: [durable.go])

    What holds of every machine a run reaches, and makes its snapshot restore it: each
    part is absent or a valid copy, fingerprints have their length, and the parts agree
    with the configuration. *)

From stdpp Require Import gmap.
From S2P Require Import Prelude GoText Sorting Sha256 Json WorkerProtocol WorkerFrames WorkerReconnect.
From S2P Require Import WorkerTranscripts WorkerMachine WorkerSnapshot WorkerReducers.
From S2P Require Import WorkerSample WorkerMachineSafety WorkerMachineRuns WorkerMachineAttempts WorkerRestore.
#[local] Open Scope Z_scope.

Implicit Types (m : ConformanceMachine) (d : Direction) (f : FrameV1).

(** ** The flags of a reconnect *)

Lemma flagged_same m m1 :
  cm_reconnecting m1 = cm_reconnecting m -> cm_drainReenvelopePending m1 = cm_drainReenvelopePending m ->
  cm_reconnectTarget m1 = cm_reconnectTarget m -> cm_connection m1 = cm_connection m -> flagged m -> flagged m1.
Proof. intros R P T C []. split; by rewrite ?R, ?P, ?T, ?C. Qed.

(** A connection that is neither draining nor closed has no drain to send again. *)
Lemma flagged_settled m : flagged m -> cm_connection m <> ConnectionDraining -> ~ closed (cm_connection m) ->
  cm_drainReenvelopePending m = false.
Proof. intros F N C. destruct (cm_drainReenvelopePending m) eqn:P; [| done]. by destruct (fl_again m F P). Qed.

Lemma flagged_moved m m1 :
  cm_reconnecting m1 = cm_reconnecting m -> cm_drainReenvelopePending m1 = cm_drainReenvelopePending m ->
  cm_reconnectTarget m1 = cm_reconnectTarget m ->
  cm_connection m <> ConnectionDraining -> ~ closed (cm_connection m) ->
  cm_connection m1 ∉ [ConnectionReconnectPending; ConnectionReady; ConnectionDraining; ConnectionDrained] ->
  flagged m -> flagged m1.
Proof.
  intros R P T N C M F. pose proof (flagged_settled m F N C) as S. destruct F. rewrite !not_elem_of_cons in M.
  split; rewrite ?R, ?P, ?T, ?S; [naive_solver | | done | done].
  intros _. rewrite !not_elem_of_cons. naive_solver.
Qed.

Ltac open_state := rewrite !not_elem_of_cons; repeat split; try done; apply not_elem_of_nil.
Ltac not_open N := exfalso; apply N; rewrite !elem_of_cons; tauto.

Section Durable.
Context (verify : string -> string -> string -> bool).

Lemma reconnected_rest m s c plan m1 summary :
  installReplayCommitment m s c plan = (m1, None) ->
  exists a, applyDiscardTombstone (applyAttemptSummary m1 summary) = with_attempt m a.
Proof.
  intros I. apply install_keeps in I as [q ->]. unfold applyDiscardTombstone. repeat case_match; eauto.
Qed.

Lemma flagged_effect m d f m1 : effect verify m d f m1 -> flagged m -> flagged m1.
Proof.
  intros E F. assert (T := fl_reconnecting m F). assert (S := flagged_settled m F).
  destruct E as [| | | | | p K D Cn R P V G | p m1 m2 K D Cn P U I E | | | | | | | | | b s a P M G Q W B].
  all: try (by apply (flagged_same m)).
  all: try (apply (flagged_moved m); cbn; try done; try (match goal with H : cm_connection _ = _ |- _ => rewrite H end);
    first [by rewrite !not_elem_of_cons; repeat split; try done; apply not_elem_of_nil | done | exact id]; fail).
  - split; cbn; [done | | apply F | by rewrite S by (rewrite Cn; done || exact id)].
    intros _. split; [open_state | by apply T].
  - destruct (reconnected_rest _ _ _ _ _ (ra_AuthoritativeAttempt p) I) as [a Ha]. rewrite Ha in E. subst m2.
    apply (flagged_moved m); cbn; try done; [rewrite Cn; done || exact id .. | open_state].
  - split; cbn; try done. intros Hp. rewrite S in Hp by (rewrite H1; done || exact id). done.
  - pose proof (fl_target m F H2) as Ht. split; cbn; try done.
    + intros Hc. rewrite Hc in Ht. by states.
    + intros Hb%bool_decide_eq_true. by left.
  - split; cbn; try done; [| apply F | rewrite H4; done]. intros Hr. destruct (T Hr) as [N _]. rewrite H1 in N. not_open N.
  - split; cbn; try done; [| apply F]. intros Hr. destruct (T Hr) as [N _]. rewrite H1 in N. not_open N.
  - split; cbn; try done; [| apply F | by right]. intros Hr. destruct (T Hr) as [N _]. rewrite H1 in N. not_open N.
  - split; cbn; try done; [| apply F | by right]. intros Hr. split; [open_state | by apply T].
  - split; cbn; try done; [| apply F | by right]. intros Hr. split; [open_state | by apply T].
  - split; cbn; try done; [| apply F | by right]. intros Hr. split; [open_state | by apply T].
  - rewrite recorded_is. by apply (flagged_same m).
Qed.

Lemma flagged_step sent m l m' : step verify sent m l m' -> flagged m -> flagged m'.
Proof.
  intros St F. apply step_cases in St. destruct St as [| d f m1 -> O C E Q N L _ | next -> V Cn R W | -> Si].
  - done.
  - apply (flagged_effect _ _ _ _ E) in F. unfold set_sender. destruct (is_direction _ _); by apply (flagged_same m1).
  - split; cbn; try done; [| by rewrite (rw_settled _ _ W)]. intros _. split; [open_state | apply W].
  - by apply (flagged_same m).
Qed.

(** ** The parts of a machine *)

(** A part that has not been received, or the copy of a valid one. *)
Definition kept {A} (validate : A -> option ProtocolError) (clone : A -> A) (zero : A) (P : A -> Prop) (v : A) : Prop :=
  v = zero \/ validate v = None /\ clone v = v /\ P v.

Definition array (fp : string) : Prop := String.length fp = 32%nat.

Definition orderly (q : sequenceState) : Prop :=
  array (sq_fingerprint q) /\ (sq_sequence q = 0 -> sq_fingerprint q = zero_fingerprint).

Record tidy_attempt (a : attemptRecord) : Prop := {
  ty_platform : map_Forall (fun _ fp => array fp) (aq_fingerprints (ar_platform a));
  ty_worker : map_Forall (fun _ fp => array fp) (aq_fingerprints (ar_worker a));
  ty_evidence : copied (ar_terminalEvidence a) = ar_terminalEvidence a;
  ty_open : ar_terminalSequence a = 0 -> ar_terminalEvidence a = SNil;
  ty_pending : forall c, ar_pendingWorkerTerminal a = Some c ->
    array (tr_fingerprint c) /\ cloned_terminal (tr_terminal c) = tr_terminal c }.

(** The next generations after those of the connection. *)
Record tidy m : Prop := {
  td_cloned : cloneMachineConfig (cm_config m) = cm_config m;
  td_config : NewConformanceMachine (cm_config m) = inr (new_machine (cm_config m));
  td_platform : orderly (cm_platform m);
  td_worker : orderly (cm_worker m);
  td_hello : kept HelloV1_Validate cloneHello zero_hello
    (fun h => sameVersionOffer (he_Offer h) (mc_WorkerOffer (cm_config m)) = true) (cm_hello m);
  td_greeted : cm_connection m = ConnectionHello -> cm_hello m <> zero_hello;
  td_challenge : kept ChallengeV1_Validate cloneChallenge zero_challenge
    (fun c => sameVersionOffer (cl_WorkerOffer c) (mc_WorkerOffer (cm_config m)) = true /\
              sameVersionOffer (cl_PlatformOffer c) (mc_PlatformOffer (cm_config m)) = true /\
              cl_SelectedVersion c = au_Version (mc_Auth (cm_config m))) (cm_challenge m);
  td_capability : copied (cm_capabilityDigest m) = cm_capabilityDigest m;
  td_manifest : kept CapabilityManifestV1_Validate cloneManifest zero_manifest
    (fun c => mf_WorkerID c = au_WorkerID (mc_Auth (cm_config m)) /\
              mf_EnrollmentGeneration c = au_EnrollmentGeneration (mc_Auth (cm_config m)) /\
              sameVersionOffer (mf_ProtocolOffer c) (mc_WorkerOffer (cm_config m)) = true) (cm_manifest m);
  td_revoke : kept RevokeV1_Validate id (cm_revoke (new_machine (cm_config m)))
    (fun r => successive m r /\ revoking m = true) (cm_revoke m);
  td_claim : kept ReconnectSnapshotV1_Validate cloneReconnectSnapshot zero_snapshot (fun _ => True) (cm_reconnectClaim m);
  td_attempt : tidy_attempt (cm_attempt m);
  td_generation : active m = true -> cm_previousConnectionGeneration m <> max_u64 /\
    au_ConnectionGeneration (mc_Auth (cm_config m)) = wrap_u64 (cm_previousConnectionGeneration m + 1) }.

Lemma valid_clone_bytes s n : validBytes (copied s) n = validBytes s n.
Proof. unfold validBytes. by rewrite content_copied. Qed.
Lemma valid_clone_hello h : HelloV1_Validate (cloneHello h) = HelloV1_Validate h.
Proof. unfold HelloV1_Validate. cbn. by rewrite valid_clone_bytes. Qed.
Lemma valid_clone_challenge c : ChallengeV1_Validate (cloneChallenge c) = ChallengeV1_Validate c.
Proof. unfold ChallengeV1_Validate. cbn. by rewrite !valid_clone_bytes. Qed.
Lemma valid_clone_manifest c : CapabilityManifestV1_Validate (cloneManifest c) = CapabilityManifestV1_Validate c.
Proof. unfold CapabilityManifestV1_Validate. cbn. by rewrite valid_clone_bytes. Qed.
Lemma clone_sealed s : cloneReconnectSnapshot (sealReconnectSnapshot s) = sealReconnectSnapshot s.
Proof.
  unfold cloneReconnectSnapshot, sealReconnectSnapshot. cbn [rs_Attempt rs_PendingTerminalReplay rs_Digest
    rs_PreviousConnectionGeneration rs_Watermarks]. rewrite !cloneSummary_id.
  unfold reconnectSnapshotDigestV1. rewrite copied_sha. f_equal.
  destruct (rs_PendingTerminalReplay s) as [t |]; [| done]. cbn. by rewrite cloneBinding_id, copied_idem.
Qed.

Lemma valid_claimed p : ReconnectV1_Validate p = None -> ReconnectSnapshotV1_Validate (claimed_snapshot p) = None.
Proof.
  unfold ReconnectV1_Validate. rewrite reject_nil. intros [H _]. b2p. destruct H as (((((G & _) & W) & A) & P) & _).
  apply valid_sealed_snapshot; cbn; try done. intros t Ht. rewrite Ht in P. apply valid_pending in P as [Vt B].
  split; [by apply valid_proper |]. split; [| done]. apply valid_terminal in Vt as [Va _].
  by apply valid_attempt in Va as (_ & N & _).
Qed.

Lemma unrevoked m : tidy m -> revoking m = false -> cm_revoke m = cm_revoke (new_machine (cm_config m)).
Proof. intros T R. destruct (td_revoke m T) as [| (_ & _ & _ & H)]; [done | congruence]. Qed.

Lemma same_offer_refl o : sameVersionOffer o o = true.
Proof.
  unfold sameVersionOffer. rewrite bool_decide_true by done. cbn. induction (vo_Supported o) as [| v l IH]; [done |]. cbn.
  by rewrite Z.eqb_refl.
Qed.

Lemma same_offer_eq a b : sameVersionOffer a b = true -> a = b.
Proof.
  unfold sameVersionOffer. rewrite andb_true_iff, bool_decide_eq_true. destruct a as [wa la], b as [wb lb]. cbn.
  intros [-> H]. f_equal. revert lb H. induction la as [| v l IH]; intros [| u r]; cbn; try done.
  rewrite andb_true_iff, Z.eqb_eq. intros [-> H]. f_equal. by apply IH.
Qed.

Lemma kept_copy {A} validate (clone : A -> A) zero (P : A -> Prop) v :
  (forall x, validate (clone x) = validate x) -> (forall x, clone (clone x) = clone x) ->
  validate v = None -> P (clone v) -> kept validate clone zero P (clone v).
Proof. intros Hv Hc V Hp. right. by rewrite Hv, Hc. Qed.

(** *** The attempt *)

Lemma array_sha x : array (sha256 x).
Proof. apply sha256_length. Qed.

Lemma tidy_installed m s c plan m1 :
  installReplayCommitment m s c plan = (m1, None) -> tidy_attempt (cm_attempt m) -> tidy_attempt (cm_attempt m1).
Proof.
  intros I T. unfold installReplayCommitment in I.
  assert (forall q, (forall c, q = Some c -> array (tr_fingerprint c) /\ cloned_terminal (tr_terminal c) = tr_terminal c) ->
    tidy_attempt (cm_attempt (set_pending m q))) as S by (intros q Hq; destruct T; by split).
  assert (forall t r, array (tr_fingerprint (replay_commitment t r)) /\
    cloned_terminal (tr_terminal (replay_commitment t r)) = tr_terminal (replay_commitment t r)) as N.
  { intros t r. split; [apply array_sha | apply (cloned_terminal_idem t)]. }
  repeat case_match; simplify_eq; try done; apply S; intros ? [=]; subst; apply N.
Qed.

Lemma tidy_summarized m s :
  AttemptSummaryV1_Validate s = None -> tidy_attempt (cm_attempt m) -> tidy_attempt (cm_attempt (applyAttemptSummary m s)).
Proof.
  intros V%valid_sound [Tp Tw Te To Tn]. split; cbn; try done.
  - intros i fp [H _]%map_lookup_filter_Some. by eapply Tp.
  - intros i fp [H _]%map_lookup_filter_Some. by eapply Tw.
  - apply copied_idem.
  - intros Z. apply (so_open _ V) in Z as (_ & _ & Z). unfold copied. by rewrite Z.
Qed.

Lemma tidy_discarded m : tidy_attempt (cm_attempt m) -> tidy_attempt (cm_attempt (applyDiscardTombstone m)).
Proof.
  intros T. unfold applyDiscardTombstone. repeat case_match; try done. destruct T. split; try done.
  intros q. cbn -[cloned_terminal]. intros [= <-]. auto.
Qed.

Lemma tidy_moved m d f a : moved m d f a -> tidy_attempt (cm_attempt m) -> tidy_attempt a.
Proof.
  intros M [Tp Tw Te To Tn]. destruct M; subst; try (by split).
  - split; cbn; try done; [apply copied_idem | lia].
  - split; cbn; try done; [apply copied_idem | lia].
Qed.

Lemma tidy_recorded a d s fp : array fp -> tidy_attempt a -> tidy_attempt (recorded a d s fp).
Proof.
  intros L [Tp Tw Te To Tn]. unfold recorded.
  repeat case_match; split; cbn; try done; by apply map_Forall_insert_2.
Qed.

(** *** The rest *)

Lemma tidy_attempt_only m a : tidy_attempt a -> tidy m -> tidy (with_attempt m a).
Proof. intros Ha []. by split. Qed.

Lemma tidy_reconnected m s c plan p m1 n :
  cm_connection m = ConnectionReconnectPending -> ReconnectAcceptedV1_Validate p = None ->
  installReplayCommitment m s c plan = (m1, None) ->
  n = applyDiscardTombstone (applyAttemptSummary m1 (ra_AuthoritativeAttempt p)) ->
  tidy m -> tidy {| n with cm_connection := ConnectionAttached |}.
Proof.
  intros Cn V I E T. assert (tidy_attempt (cm_attempt n)) as A.
  { subst n. apply tidy_discarded, tidy_summarized; [| eapply tidy_installed; [exact I | apply T]].
    unfold ReconnectAcceptedV1_Validate in V. rewrite reject_nil in V. destruct V as [V _]. b2p. tauto. }
  destruct (reconnected_rest _ _ _ _ _ (ra_AuthoritativeAttempt p) I) as [a Ha]. rewrite Ha in E. subst n.
  assert (U : cm_revoke m = cm_revoke (new_machine (cm_config m))).
  { apply unrevoked; [done |]. unfold revoking, in_state. by rewrite Cn. }
  destruct T. split; cbn; try done. by left.
Qed.

Lemma tidy_effect m d f m1 : carries f -> flagged m -> effect verify m d f m1 -> tidy m -> tidy m1.
Proof.
  intros C F E T. pose proof (unrevoked m T) as U.
  destruct E as [| p K D Cn P Of | p K D Cn P Of Op Nc Vs | p K D Cn R P Sg | K D Cn | p K D Cn R P Sg G Gn Cd
    | p m1 m2 K D Cn P Un I E | p K D Cn R P Dg Sg Wi En Of | p K D Cn R P Dg Sg Wi En Of | p K D Cn Z P Np
    | p K D Cn P Rv Pe | K D Cn Id | p K D Cn Cr P Ai Su | p K D Cn Cr P Ai Su | K D Cn | b s a P M G Q W B Cb].
  all: try (unfold carries in C; rewrite K in C).
  all: try (unfold revoking, in_state in U; rewrite Cn in U; specialize (U eq_refl)).
  all: try done.
  all: try (destruct C as (q & Hq & V); rewrite P in Hq; injection Hq as <-).
  6: by eapply tidy_reconnected.
  14: rewrite recorded_is; apply tidy_attempt_only; [| done]; apply tidy_recorded; [apply array_sha | eapply tidy_moved; [exact M | apply T]].
  all: destruct T as [Tl Tc Tp Tw Th Tg Tch Tca Tm Tr Tcl Ta Tn]; split; cbn; try done; try (by left); try apply copied_idem.
  - apply kept_copy; auto using valid_clone_hello, clone_hello_idem.
  - intros _ Hz. apply (f_equal HelloV1_Validate) in Hz. rewrite valid_clone_hello, V in Hz. discriminate Hz.
  - apply kept_copy; auto using valid_clone_challenge, clone_challenge_idem. apply same_offer_eq in Of.
    destruct Th as [Hz | (_ & _ & Hh)]; [by destruct (Tg Cn) |]. cbn. by rewrite Of.
  - right. rewrite clone_claim_idem. unfold claimed_snapshot. rewrite clone_sealed. split; [by apply valid_claimed | done].
  - unfold ManifestV1_Validate in V. rewrite reject_nil in V. destruct V as [V _]. b2p.
    apply kept_copy; auto using valid_clone_manifest, clone_manifest_idem; tauto.
  - intros Ha. apply Tn. unfold active in *. by rewrite R.
  - intros Hh. pose proof (fl_target m F R) as Ht. rewrite Hh in Ht. by states.
  - unfold ManifestV1_Validate in V. rewrite reject_nil in V. destruct V as [V _]. b2p.
    apply kept_copy; auto using valid_clone_manifest, clone_manifest_idem; tauto.
  - intros _. apply Tn. unfold active. by rewrite R.
  - intros Ha. apply Tn. unfold active in *. cbn in Ha. rewrite orb_false_r in Ha. by rewrite Ha.
  - right. done.
  - right. done.
  - destruct Ta. by split.
  - destruct Tr as [| (Vr & Cr & Su & _)]; [by left | by right].
Qed.

Lemma tidy_sent m d f :
  FrameV1_Validate f = None -> tidy m ->
  tidy (set_sender m d {| sq_sequence := fr_Sequence f; sq_ack := fr_Ack f; sq_fingerprint := frameFingerprint f |}).
Proof.
  intros V T. assert (orderly {| sq_sequence := fr_Sequence f; sq_ack := fr_Ack f; sq_fingerprint := frameFingerprint f |}) as O.
  { split; [apply array_sha |]. intros Z. by apply valid_frame_sequence in V. }
  unfold set_sender. destruct T. case_match; by split.
Qed.

Lemma tidy_begun m next :
  AuthContextV1_Validate (cloneAuthContext next) = None -> cm_connection m ∈ [ConnectionReady; ConnectionDraining] ->
  renews m next -> tidy m -> tidy (begun m next).
Proof.
  intros V Cn [Rw Re Rv Rl Rg Rs] T. assert (U := unrevoked m T). destruct T as [Tl Tc Tp Tw Th Tg Tch Tca Tm Tr Tcl Ta Tn].
  assert (cloneAuthContext (cloneAuthContext next) = cloneAuthContext next) as Ca
    by (unfold cloneAuthContext; cbn; by rewrite !copied_idem).
  assert (cm_revoke m = cm_revoke (new_machine (cm_config m))) as Ur.
  { apply U. unfold revoking, in_state. states; match goal with H : cm_connection m = _ |- _ => by rewrite H end. }
  split; cbn; try done; try (by left).
  - unfold cloneMachineConfig. cbn. by rewrite Ca.
  - revert Tc. unfold NewConformanceMachine. destruct (cm_config m) as [auth wo po iv]. injection Tl as Hauth.
    unfold cloneMachineConfig. cbn [mc_Auth mc_WorkerOffer mc_PlatformOffer mc_ImplementedVersions] in *.
    rewrite Ca, V, Hauth. cbn [au_Version cloneAuthContext].
    rewrite Rv. destruct (notnil (AuthContextV1_Validate auth)); [done |]. cbn [orb notnil isnil negb].
    repeat case_match; done.
  - destruct Tm as [| (Vm & Cm & Wm & Em & Om)]; [by left | right]. cbn in *. rewrite Rw, Re. done.
Qed.

Lemma tidy_step sent m l m' : step verify sent m l m' -> flagged m -> tidy m -> tidy m'.
Proof.
  intros St F T. apply step_cases in St. destruct St as [| d f m1 -> O C E Q N L _ Vf | next -> V Cn R W | -> Si].
  - done.
  - apply tidy_sent; [done |]. by eapply tidy_effect.
  - by apply tidy_begun.
  - apply tidy_attempt_only; [| done]. by split.
Qed.

Lemma tidy_reached sent h m : reached verify sent h m -> flagged m /\ tidy m.
Proof.
  apply (reached_invariant _ _ (fun _ m => flagged m /\ tidy m)).
  - intros config H. split; [by split |]. split; try done; try (by left); [apply clone_config_idem |].
    change (cm_config (new_machine (cloneMachineConfig config))) with (cloneMachineConfig config).
    revert H. unfold NewConformanceMachine at 2. by rewrite clone_config_idem.
  - intros _ n l n' [F T] St. split; [by eapply flagged_step | by eapply tidy_step].
Qed.

(** ** The machine that is restored *)

Lemma kept_restored {A} validate (clone : A -> A) zero P v :
  validate zero <> None -> kept validate clone zero P v ->
  match if_valid validate clone v with None => zero | Some x => clone x end = v.
Proof.
  intros Z [-> | (V & C & _)]; unfold if_valid; [| by rewrite V; cbn; rewrite !C].
  by destruct (validate zero).
Qed.

Lemma seal_shape s :
  sealAttemptSummary s =
  {| s with as_Binding := if bool_decide (as_State s = AttemptIdle) then emptied (as_Binding s) else as_Binding s;
            as_TerminalEvidenceDigest := if as_TerminalSequence s =? 0 then SBytes "" else as_TerminalEvidenceDigest s;
            as_Digest := as_Digest (sealAttemptSummary s) |}.
Proof.
  destruct s as [st b ? ? ? ? ? t ? ? ? ?]. unfold sealAttemptSummary. cbn [as_TerminalSequence]. destruct (_ =? 0); cbn [as_State];
  destruct (bool_decide _); reflexivity.
Qed.

Lemma restored_attempt m a r :
  tidy_attempt a -> cm_attempt m = idle_attempt ->
  r = restore_attempt m {| ms_Summary := sealAttemptSummary (attempt_summary a);
        ms_Platform := snapshotAttemptDirection (ar_platform a); ms_Worker := snapshotAttemptDirection (ar_worker a);
        ms_PendingWorkerTerminal := option_map snapshot_commitment (ar_pendingWorkerTerminal a) |} ->
  exists b, r = with_attempt m b /\ like_attempt a b.
Proof.
  intros [Tp Tw Te To Tn] I ->. eexists. split; [reflexivity |].
  split; cbn [ar_state ar_binding ar_platform ar_worker ar_progressSequence ar_cancelRevision ar_cancelCode ar_terminalSequence
    ar_terminalStatus ar_terminalResult ar_terminalEvidence ar_pendingWorkerTerminal ms_Summary ms_Platform ms_Worker
    ms_PendingWorkerTerminal].
  1, 4, 5, 6, 7, 8, 9, 10, 12, 13: unfold applyAttemptSummary; rewrite seal_shape; generalize (as_Digest (sealAttemptSummary (attempt_summary a)));
    cbn; intros _; rewrite ?cloneBinding_id; try reflexivity.
  - destruct (_ =? 0) eqn:Z; [| by rewrite copied_idem]. symmetry. apply To. by apply Z.eqb_eq in Z.
  - intros N. by rewrite bool_decide_false.
  - intros N. by rewrite bool_decide_true.
  - by apply restored_direction.
  - by apply restored_direction.
  - destruct (ar_pendingWorkerTerminal a) as [c |] eqn:P; cbn [option_map]; [| by cbn; rewrite I].
    destruct (Tn c eq_refl) as [L C]. unfold restore_commitment, snapshot_commitment. cbn [ps_Kind ps_Sequence ps_Fingerprint
      ps_Decision ps_Terminal]. rewrite fingerprint_copied, !C by done. by destruct c.
Qed.

Lemma kept_parts m : tidy m ->
  restoreEnvelope (snapshotEnvelope (cm_platform m)) = cm_platform m /\
  restoreEnvelope (snapshotEnvelope (cm_worker m)) = cm_worker m /\
  match if_valid HelloV1_Validate cloneHello (cm_hello m) with None => zero_hello | Some h => cloneHello h end = cm_hello m /\
  match if_valid ChallengeV1_Validate cloneChallenge (cm_challenge m) with
  | None => zero_challenge | Some c => cloneChallenge c end = cm_challenge m /\
  match if_valid CapabilityManifestV1_Validate cloneManifest (cm_manifest m) with
  | None => zero_manifest | Some c => cloneManifest c end = cm_manifest m /\
  match if_valid RevokeV1_Validate id (cm_revoke m) with
  | None => cm_revoke (new_machine (cm_config m)) | Some r => r end = cm_revoke m /\
  match if_valid ReconnectSnapshotV1_Validate cloneReconnectSnapshot (cm_reconnectClaim m) with
  | None => zero_snapshot | Some c => cloneReconnectSnapshot c end = cm_reconnectClaim m.
Proof.
  intros [_ _ (Tp & Zp) (Tw & Zw) Th _ Tch _ Tm Tr Tcl _ _].
  split; [by apply restored_envelope |]. split; [by apply restored_envelope |].
  split; [by eapply kept_restored |]. split; [by eapply kept_restored |]. split; [by eapply kept_restored |].
  split; [by eapply (kept_restored _ id) | by eapply kept_restored].
Qed.

Lemma restored_like m cd digest :
  flagged m -> tidy m -> like m (restored_machine (new_machine (cm_config m)) (with_digest (snapshot_of m cd) digest)).
Proof.
  intros F T. unfold restored_machine.
  cbn [mz_Connection mz_Platform mz_Worker mz_Hello mz_Challenge mz_CapabilityDigest mz_Manifest mz_Attempt mz_DrainRevision
    mz_Revoke with_digest snapshot_of].
  unfold currentAttemptSummary.
  match goal with |- context [restore_attempt ?x ?y] =>
    destruct (restored_attempt x (cm_attempt m) _ (td_attempt m T) eq_refl eq_refl) as (b & -> & L) end.
  destruct (kept_parts m T) as (Hp & Hw & Hh & Hc & Hm & Hr & Hcl).
  unfold restore_reconnect, stored_in. cbn [mz_Reconnect mz_Connection with_digest snapshot_of].
  unfold snapshot_reconnect. fold (active m). destruct (active m) eqn:A; cbn -[if_valid zero_hello zero_challenge zero_manifest].
  all: change (cm_revoke (new_machine _)) with (cm_revoke (new_machine (cm_config m))) in Hr; cbn [new_machine cm_revoke] in Hr;
    rewrite Hp, Hw, Hh, Hc, Hm, Hr, ?Hcl, ?cloneSummary_id, copied_idem, (td_capability m T); split; try done; cbn.
  - unfold active at 1. cbn. by rewrite orb_negb_l, A.
  - intros N. case_bool_decide as Dr; cbn.
    + assert (cm_reconnecting m = false) as R.
      { destruct (cm_reconnecting m) eqn:R; [| done]. destruct (fl_reconnecting m F R) as [O _]. rewrite Dr in O. not_open O. }
      split; [done |]. unfold active in A. by rewrite R in A.
    + pose proof (flagged_settled m F Dr N) as P. split; [| done]. unfold active in A. by rewrite P, orb_false_r in A.
  - intros _. unfold active in A. by apply orb_false_iff in A as [-> ->].
  - by rewrite A.
Qed.

Lemma kept_stored {A} validate (clone : A -> A) zero P v x :
  validate zero <> None -> kept validate clone zero P v -> if_valid validate clone v = Some x -> x = v /\ P v.
Proof.
  intros Z [-> | (V & C & Hp)]; unfold if_valid; [by destruct (validate zero) |]. rewrite V. cbn. intros [= <-]. done.
Qed.

Lemma configured_generation config :
  cloneMachineConfig config = config -> NewConformanceMachine config = inr (new_machine config) ->
  au_ConnectionGeneration (mc_Auth config) <> 0.
Proof.
  intros C N. unfold NewConformanceMachine in N. rewrite C in N. destruct (_ || _) eqn:G; [discriminate N |]. b2p.
  destruct G as [[G _] _]. unfold AuthContextV1_Validate in G. rewrite reject_nil in G. destruct G as [G _]. b2p. tauto.
Qed.

(** What is stored agrees with the configuration it is restored under. *)
Lemma stored_configured m cd digest :
  tidy m -> validateMachineSnapshotContent (snapshot_of m cd) = None ->
  validateMachineSnapshotAgainstConfig (with_digest (snapshot_of m cd) digest) (cm_config m) = None.
Proof.
  intros T V. unfold validateMachineSnapshotContent in V. destruct (snapshot_parts _); [discriminate V |].
  destruct (snapshot_relations _) eqn:R; [discriminate V |]. clear V. unfold snapshot_relations in R.
  rewrite !reject_nil in R. destruct R as (Ra & Rm & _).
  apply negb_false_iff in Ra, Rm.
  destruct T as [Tl Tc _ _ Th _ Tch _ Tm Tr _ _ Tn].
  unfold validateMachineSnapshotAgainstConfig, challenge_unconfigured, manifest_unconfigured.
  cbn [mz_Hello mz_Challenge mz_Manifest mz_Revoke mz_Reconnect mz_CapabilityDigest with_digest snapshot_of] in *.
  rewrite !reject_nil. repeat split.
  - destruct (if_valid HelloV1_Validate _ _) as [h |] eqn:E; [| done].
    assert (HelloV1_Validate zero_hello <> None) as Z by done.
    destruct (kept_stored _ _ _ _ _ _ Z Th E) as [-> Hh]. by rewrite Hh.
  - destruct (if_valid ChallengeV1_Validate _ _) as [c |] eqn:E; [| done].
    assert (ChallengeV1_Validate zero_challenge <> None) as Z by done.
    destruct (kept_stored _ _ _ _ _ _ Z Tch E) as [-> (Hw & Hp & Hv)]. rewrite Hw, Hp, Hv, Z.eqb_refl. cbn in Ra |- *.
    destruct (if_valid HelloV1_Validate _ _); [| discriminate Ra]. apply andb_true_iff in Ra as [_ ->]. done.
  - destruct (if_valid CapabilityManifestV1_Validate _ _) as [c |] eqn:E; [| done].
    assert (CapabilityManifestV1_Validate zero_manifest <> None) as Z by done.
    destruct (kept_stored _ _ _ _ _ _ Z Tm E) as [-> (Hw & Hg & Ho)]. unfold manifest_matches in Rm.
    destruct (ManifestDigestV1 _); [discriminate Rm |]. by rewrite Hw, Hg, Ho, Rm, String.eqb_refl, Z.eqb_refl.
  - destruct (if_valid RevokeV1_Validate _ _) as [r |] eqn:E; [| done].
    assert (RevokeV1_Validate (cm_revoke (new_machine (cm_config m))) <> None) as Z by done.
    destruct (kept_stored _ _ _ _ _ _ Z Tr E) as [-> ((He & Hc & Ne & Nc) & _)]. rewrite Ne, Nc, !Z.eqb_refl. b2p. tauto.
  - unfold snapshot_reconnect. fold (active m). destruct (active m); [| done]. destruct (Tn eq_refl) as [Hm Hg].
    cbn [mr_PreviousConnectionGeneration]. pose proof (configured_generation _ Tl Tc). rewrite Hg in *. b2p. tauto.
Qed.

(** What a machine is stored as restores it. *)
Lemma stored_restores m s :
  flagged m -> tidy m -> Snapshot m = inr s -> exists m', RestoreConformanceMachine (cm_config m) s = inr m' /\ like m m'.
Proof.
  intros F T S. pose proof S as S'. apply snapshot_inv in S as (cd & D & _ & V & E).
  pose proof (restored_like m (SBytes cd) (machineSnapshotDigestUnchecked (snapshot_of m (SBytes cd))) F T) as L.
  rewrite <- E in L. eexists. split; [| exact L]. unfold RestoreConformanceMachine.
  assert (cloneMachineSnapshot s = s) as ->.
  { subst s. apply stored_clone; [| apply copied_sha]. unfold machineConfigDigestV1 in D. repeat case_match; simplify_eq. apply copied_sha. }
  assert (MachineSnapshotV1_Validate s = None) as -> by (subst s; by apply digested_valid).
  rewrite D, (td_config m T), (snapshot_like _ _ L), S'. cbn [notnil isnil negb].
  change (cm_config (new_machine (cm_config m))) with (cm_config m).
  assert (validateMachineSnapshotAgainstConfig s (cm_config m) = None) as -> by (subst s; by apply stored_configured).
  assert (mz_ConfigurationDigest s = SBytes cd) as -> by (by subst s).
  unfold bytes_equal. rewrite !String.eqb_refl. done.
Qed.

(** ** Carrying on *)

(** The answers to a list of frames, each with the context it arrives in, and the machine
    after the last of them. *)
Fixpoint answers m (l : list (Direction * FrameV1 * AcceptanceContextV1))
  : option (list (option ProtocolError) * ConformanceMachine) :=
  match l with
  | [] => Some ([], m)
  | (d, f, acceptance) :: r =>
      match Accept verify m d f acceptance with
      | None => None
      | Some (m, err) =>
          match answers m r with None => None | Some (errs, m) => Some (err :: errs, m) end
      end
  end.

Definition any_frame (_ : ConformanceMachine) (_ : FrameV1) : Prop := True.

Lemma flagged_accept m d f acceptance m1 e :
  Accept verify m d f acceptance = Some (m1, e) -> flagged m -> flagged m1.
Proof.
  intros A F. destruct e; eapply (flagged_step any_frame m); try done; [by eapply st_refuse | by eapply st_accept].
Qed.

Lemma alike_answers l : forall m m' errs n, flagged m -> like m m' -> answers m l = Some (errs, n) ->
  exists n', answers m' l = Some (errs, n') /\ like n n'.
Proof.
  induction l as [| [[d f] acceptance] l IH]; cbn; intros m m' errs n F L H; [injection H as <- <-; eauto |].
  pose proof (accept_tally verify m m' d f acceptance F L) as T.
  destruct (Accept verify m d f acceptance) as [[m1 e] |] eqn:A; [| discriminate H].
  destruct (Accept verify m' d f acceptance) as [[m1' e'] |]; [| done]. destruct T as [-> L1].
  destruct (answers m1 l) as [[es n1] |] eqn:B; [| discriminate H]. injection H as <- <-.
  destruct (IH m1 m1' es n1) as (n' & -> & Ln); [by eapply flagged_accept | done | done |]. eauto.
Qed.

(** A machine answers every list of frames. *)
Lemma answers_all l : forall m, exists errs n, answers m l = Some (errs, n).
Proof.
  induction l as [| [[d f] acceptance] l IH]; cbn; intros m; [eauto |].
  destruct (accept_settles verify m d f acceptance) as (m1 & e & -> & _). destruct (IH m1) as (errs & n & ->). eauto.
Qed.

(** C18. A stored machine carries on as if it had never been stored. Whatever frames,
    reconnects and erasures a machine has been through, its snapshot restores under its
    own configuration, to a machine that is stored as the same snapshot and has the same
    attempt; and any further frames, accepted or refused, get the same answers from both
    and leave both to be stored alike. *)
Theorem stored_machine_resumes sent h m s :
  reached verify sent h m -> Snapshot m = inr s ->
  exists m', RestoreConformanceMachine (cm_config m) s = inr m' /\ Snapshot m' = inr s /\
    AttemptBinding m' = AttemptBinding m /\
    forall frames, exists errs n n', answers m frames = Some (errs, n) /\ answers m' frames = Some (errs, n') /\
      Snapshot n' = Snapshot n.
Proof.
  intros R S. destruct (tidy_reached _ _ _ R) as [F T]. destruct (stored_restores m s F T S) as (m' & H & L).
  exists m'. split; [exact H |]. split; [by rewrite (snapshot_like _ _ L) |]. split.
  - unfold AttemptBinding. pose proof (lk_attempt _ _ L) as La. rewrite (li_state _ _ La). case_bool_decide; [done |].
    by rewrite (li_binding _ _ La).
  - intros frames. destruct (answers_all frames m) as (errs & n & A). destruct (alike_answers _ _ _ _ _ F L A) as (n' & A' & Ln).
    exists errs, n, n'. split; [exact A |]. split; [exact A' | by apply snapshot_like].
Qed.

(** C19. The durable reducer is the machine. Applying a frame to a stored snapshot, which
    restores a machine, offers it the frame and stores it again, gives what the machine
    itself gives: its error, or its snapshot after the frame. So a conversation held
    through stored snapshots, one frame at a time, is the conversation of one machine. *)
Theorem apply_frame_refines sent h m s d f now :
  reached verify sent h m -> Snapshot m = inr s ->
  ApplyMachineFrameV1 verify (cm_config m) s d f now =
  match Accept verify m d f (acceptance_at (mc_Auth (cm_config m)) now) with
  | None => None
  | Some (_, Some err) => Some (inl err)
  | Some (m1, None) => Some (Snapshot m1)
  end.
Proof.
  intros R S. destruct (tidy_reached _ _ _ R) as [F T]. destruct (stored_restores m s F T S) as (m' & H & L).
  unfold ApplyMachineFrameV1. rewrite H.
  pose proof (accept_tally verify m m' d f (acceptance_at (mc_Auth (cm_config m)) now) F L) as Ta.
  destruct (Accept verify m d f _) as [[m1 e] |], (Accept verify m' d f _) as [[m1' e'] |]; try done.
  destruct Ta as [-> L1]. destruct e; [reflexivity |]. by rewrite (snapshot_like _ _ L1).
Qed.
End Durable.

(** ** A machine that has just been made *)

Lemma fresh_content config cd :
  len cd = 32 -> validateMachineSnapshotContent (snapshot_of (new_machine config) (SBytes cd)) = None.
Proof.
  intros L. unfold validateMachineSnapshotContent.
  assert (snapshot_parts (snapshot_of (new_machine config) (SBytes cd)) = None) as ->.
  { unfold snapshot_parts. cbn [mz_Attempt ms_Summary snapshot_of]. unfold currentAttemptSummary.
    rewrite sealed_valid by apply idle_sound.
    rewrite seal_shape. generalize (as_Digest (sealAttemptSummary (attempt_summary (cm_attempt (new_machine config))))).
    intros digest. unfold validBytes. cbn [mz_ConfigurationDigest snapshot_of content]. rewrite L. reflexivity. }
  assert (snapshot_relations (snapshot_of (new_machine config) (SBytes cd)) = None) as ->.
  { unfold snapshot_relations. cbn [mz_Attempt ms_Summary snapshot_of]. unfold currentAttemptSummary.
    rewrite seal_shape. generalize (as_Digest (sealAttemptSummary (attempt_summary (cm_attempt (new_machine config))))). reflexivity. }
  unfold snapshot_state. cbn [mz_Attempt ms_Summary snapshot_of]. unfold currentAttemptSummary.
  rewrite seal_shape. generalize (as_Digest (sealAttemptSummary (attempt_summary (cm_attempt (new_machine config))))). reflexivity.
Qed.

(** A machine that has just been made can be stored. *)
Lemma fresh_storable config :
  cloneMachineConfig config = config -> NewConformanceMachine config = inr (new_machine config) ->
  exists s, Snapshot (new_machine config) = inr s.
Proof.
  intros C N. unfold Snapshot, machineConfigDigestV1. change (cm_config (new_machine config)) with config.
  unfold NewConformanceMachine in N. rewrite C in N |- *. destruct (_ || _); [discriminate N |].
  destruct (NegotiateOffers _ _ _); [discriminate N |]. destruct (negb _); [discriminate N |].
  unfold MachineSnapshotDigestV1. rewrite fresh_content; [eauto |]. unfold len. by rewrite sha256_length.
Qed.

Section Sample.
Import WorkerSample.

Lemma start_stored : reached verify any_frame [] start /\ exists s, Snapshot start = inr s.
Proof.
  split; [exists config, start; split; [exact start_is | apply run_start] |].
  apply fresh_storable; [apply clone_config_idem |]. pose proof start_is as H. unfold start, NewConformanceMachine in *.
  by rewrite clone_config_idem.
Qed.

Lemma stored_machine_resumes_witness :
  exists s m', Snapshot start = inr s /\ RestoreConformanceMachine (cm_config start) s = inr m' /\
    exists errs n n', answers verify start (map (fun p => (p, acceptance)) claimed) = Some (errs, n) /\
      answers verify m' (map (fun p => (p, acceptance)) claimed) = Some (errs, n').
Proof.
  destruct start_stored as (R & s & S). destruct (stored_machine_resumes verify any_frame [] start s R S) as (m' & H & _ & _ & A).
  exists s, m'. split; [exact S |]. split; [exact H |].
  destruct (A (map (fun p => (p, acceptance)) claimed)) as (errs & n & n' & A1 & A2 & _). exists errs, n, n'. by split.
Defined.

Lemma apply_frame_refines_witness :
  exists s, Snapshot start = inr s /\
    ApplyMachineFrameV1 verify (cm_config start) s worker hello 10 =
    match Accept verify start worker hello (acceptance_at (mc_Auth (cm_config start)) 10) with
    | None => None
    | Some (_, Some err) => Some (inl err)
    | Some (m1, None) => Some (Snapshot m1)
    end.
Proof.
  destruct start_stored as (R & s & S). exists s. split; [exact S |].
  exact (apply_frame_refines verify any_frame [] start s worker hello 10 R S).
Defined.
End Sample.
