(* ===== verification/WorkerStore.v ===== *)
(** * The stored machines of attached workers
      ([internal/attachedworkerprotocol]: [durable.go])

    The platform keeps a machine as a snapshot between frames. Its state is a
    configuration and a snapshot, its steps are the reducers of [durable.go]. Every
    snapshot a reducer gives can be restored and applied to again, and the frames the
    builders make are given again, exactly, when a builder is called twice. *)

From stdpp Require Import gmap.
From S2P Require Import Prelude GoText Sorting Sha256 Json WorkerProtocol WorkerFrames WorkerReconnect.
From S2P Require Import WorkerTranscripts WorkerMachine WorkerSnapshot WorkerReducers.
From S2P Require Import WorkerSample WorkerMachineSafety WorkerMachineRuns WorkerMachineAttempts WorkerRestore WorkerDurable.
#[local] Open Scope Z_scope.

Implicit Types (m : ConformanceMachine) (d : Direction) (f : FrameV1) (s : MachineSnapshotV1).

(** ** What a restored machine is *)

Lemma restore_inv config s m :
  RestoreConformanceMachine config s = inr m ->
  validateMachineSnapshotContent (cloneMachineSnapshot s) = None /\
  NewConformanceMachine config = inr (new_machine (cloneMachineConfig config)) /\
  validateMachineSnapshotAgainstConfig (cloneMachineSnapshot s) (cloneMachineConfig config) = None /\
  m = restored_machine (new_machine (cloneMachineConfig config)) (cloneMachineSnapshot s) /\
  exists post, Snapshot m = inr post /\ content (mz_Digest post) = content (mz_Digest s).
Proof.
  unfold RestoreConformanceMachine. cbv zeta. intros H.
  destruct (MachineSnapshotV1_Validate _) eqn:V; [discriminate H |]. cbn [notnil isnil negb] in H.
  destruct (machineConfigDigestV1 config) as [e | cd]; [discriminate H |]. destruct (negb _); [discriminate H |].
  destruct (NewConformanceMachine config) as [e | m0] eqn:N; [discriminate H |].
  assert (m0 = new_machine (cloneMachineConfig config)) as ->.
  { unfold NewConformanceMachine in N. cbv zeta in N. by repeat case_match; simplify_eq. }
  change (cm_config (new_machine (cloneMachineConfig config))) with (cloneMachineConfig config) in H.
  destruct (validateMachineSnapshotAgainstConfig _ _) eqn:A; [discriminate H |]. cbn [notnil isnil negb] in H.
  destruct (Snapshot _) as [e | post] eqn:S; [discriminate H |]. destruct (negb _) eqn:D; [discriminate H |].
  injection H as <-. split; [| split; [done |]; split; [done |]; split; [done |]].
  - unfold MachineSnapshotV1_Validate in V. rewrite reject_nil in V. destruct V as [V _]. b2p. tauto.
  - exists post. split; [done |]. unfold bytes_equal in D. b2p. rewrite D. cbn. apply content_copied.
Qed.

(** The snapshot's parts, as its checks find them. *)
Record checked s : Prop := {
  ck_platform : validateEnvelopeSnapshot (mz_Platform s) = None;
  ck_worker : validateEnvelopeSnapshot (mz_Worker s) = None;
  ck_summary : AttemptSummaryV1_Validate (ms_Summary (mz_Attempt s)) = None;
  ck_sent : validateAttemptDirectionSnapshot (ms_Platform (mz_Attempt s)) = None;
  ck_received : validateAttemptDirectionSnapshot (ms_Worker (mz_Attempt s)) = None;
  ck_hello : invalid_part HelloV1_Validate (mz_Hello s) = false;
  ck_challenge : invalid_part ChallengeV1_Validate (mz_Challenge s) = false;
  ck_manifest : invalid_part CapabilityManifestV1_Validate (mz_Manifest s) = false;
  ck_revoke : invalid_part RevokeV1_Validate (mz_Revoke s) = false;
  ck_pending : validatePendingTerminalSnapshot (ms_PendingWorkerTerminal (mz_Attempt s)) (mz_Attempt s) = None;
  ck_reconnect : forall r, mz_Reconnect s = Some r ->
    validateMachineReconnectState r (ms_PendingWorkerTerminal (mz_Attempt s)) = None;
  ck_state : snapshot_state s = None }.

Lemma content_checked s : validateMachineSnapshotContent s = None -> checked s.
Proof.
  unfold validateMachineSnapshotContent. destruct (snapshot_parts s) eqn:P; [done |]. destruct (snapshot_relations s) eqn:R; [done |].
  intros S. unfold snapshot_parts in P. unfold snapshot_relations in R. rewrite !reject_nil in P. rewrite !reject_nil in R.
  destruct P as (P & I & _), R as (_ & _ & _ & _ & Rp & Rr & _). b2p. split; try done; try tauto.
  intros r Hr. rewrite Hr in Rr. b2p. done.
Qed.

Lemma restored_array b : validBytes b digest_size = true -> array (fingerprint_of b).
Proof.
  unfold validBytes, digest_size, len, array. intros H. apply Z.eqb_eq in H.
  assert (String.length (content b) = 32%nat) as L by lia.
  unfold fingerprint_of. rewrite L. rewrite <- L at 1. rewrite substring_all.
  change (String.substring 32 32 zero_fingerprint) with ""%string. by rewrite string_app_nil_r.
Qed.

Lemma restored_orderly e : validateEnvelopeSnapshot e = None -> orderly (restoreEnvelope e).
Proof.
  unfold validateEnvelopeSnapshot, orderly, restoreEnvelope. cbn. destruct (es_Sequence e =? 0) eqn:Z; rewrite reject_nil; intros [H _]; b2p.
  - destruct H as [_ H]. unfold len in H. destruct (content (es_Fingerprint e)) eqn:C; [| cbn in H; lia].
    assert (fingerprint_of (es_Fingerprint e) = zero_fingerprint) as -> by (unfold fingerprint_of; by rewrite C). done.
  - split; [by apply restored_array | lia].
Qed.

Lemma ordered_arrays last l : forall previous, fingerprints_ordered last previous l = true ->
  Forall (fun item => validBytes (af_Fingerprint item) digest_size = true) l.
Proof.
  induction l as [| item l IH]; intros previous H; [constructor |]. cbn in H. destruct (_ || _) eqn:G; [discriminate H |]. b2p.
  constructor; [tauto | by eapply IH].
Qed.

Lemma restored_fingerprints q :
  validateAttemptDirectionSnapshot q = None ->
  map_Forall (fun _ fp => array fp) (aq_fingerprints (restoreAttemptDirection q)).
Proof.
  unfold validateAttemptDirectionSnapshot. rewrite !reject_nil. intros (_ & H & _). apply negb_false_iff, ordered_arrays in H.
  cbn. assert (map_Forall (fun _ fp => array fp) (∅ : gmap Z string)) as E by apply map_Forall_empty.
  revert E. generalize (∅ : gmap Z string) as acc. induction H as [| item l Hi _ IH]; cbn; [done |].
  intros acc E. apply IH, map_Forall_insert_2; [by apply restored_array | done].
Qed.

Lemma restored_tidy_attempt m a :
  cm_attempt m = idle_attempt -> AttemptSummaryV1_Validate (ms_Summary a) = None ->
  validateAttemptDirectionSnapshot (ms_Platform a) = None -> validateAttemptDirectionSnapshot (ms_Worker a) = None ->
  validatePendingTerminalSnapshot (ms_PendingWorkerTerminal a) a = None ->
  tidy_attempt (cm_attempt (restore_attempt m a)).
Proof.
  intros I S P W T. apply valid_sound in S. split; cbn -[restoreAttemptDirection cloned_terminal].
  - by apply restored_fingerprints.
  - by apply restored_fingerprints.
  - apply copied_idem.
  - intros Z. apply (so_open _ S) in Z as (_ & _ & Z). unfold copied. by rewrite Z.
  - intros c Hc. destruct (ms_PendingWorkerTerminal a) as [p |]; [| by rewrite I in Hc]. injection Hc as <-.
    unfold validatePendingTerminalSnapshot in T. rewrite !reject_nil in T. destruct T as [T _]. b2p.
    split; [apply restored_array; tauto | apply cloned_terminal_idem].
Qed.

Lemma restored_kept {A} validate (clone : A -> A) zero (P : A -> Prop) o :
  (forall v, validate (clone v) = validate v) -> (forall v, clone (clone v) = clone v) ->
  invalid_part validate o = false -> (forall v, o = Some v -> P (clone v)) ->
  kept validate clone zero P (match o with None => zero | Some v => clone v end).
Proof.
  intros Hv Hc I Hp. destruct o as [v |]; [| by left]. right. cbn in I. b2p. rewrite Hv, Hc. auto.
Qed.

Lemma against_config s config :
  validateMachineSnapshotAgainstConfig s config = None ->
  (forall h, mz_Hello s = Some h -> sameVersionOffer (he_Offer h) (mc_WorkerOffer config) = true) /\
  challenge_unconfigured s config = false /\ manifest_unconfigured s config = false /\
  (forall r, mz_Revoke s = Some r -> successive (new_machine config) r) /\
  (forall r, mz_Reconnect s = Some r -> mr_PreviousConnectionGeneration r <> max_u64 /\
     au_ConnectionGeneration (mc_Auth config) = wrap_u64 (mr_PreviousConnectionGeneration r + 1)).
Proof.
  unfold validateMachineSnapshotAgainstConfig. rewrite !reject_nil. intros (H & C & M & R & G & _).
  split; [intros h Hh; rewrite Hh in H; by b2p |]. split; [done |]. split; [done |].
  split; [intros r Hr; rewrite Hr in R | intros r Hr; rewrite Hr in G]; b2p.
  - unfold successive. cbn [cm_config new_machine]. tauto.
  - destruct G as [[_ G] E]. done.
Qed.

Lemma clone_snapshot_idem s : cloneMachineSnapshot (cloneMachineSnapshot s) = cloneMachineSnapshot s.
Proof.
  assert (forall q, cloneAttemptDirectionSnapshot (cloneAttemptDirectionSnapshot q) = cloneAttemptDirectionSnapshot q) as D.
  { intros q. unfold cloneAttemptDirectionSnapshot. cbn. f_equal. rewrite map_map. apply map_ext. intros i. cbn. by rewrite copied_idem. }
  assert (forall A (f : A -> A) o, (forall x, f (f x) = f x) -> option_map f (option_map f o) = option_map f o) as O.
  { intros A g [x |] H; cbn; [by rewrite H | done]. }
  unfold cloneMachineSnapshot, clone_attempt.
  cbn [mz_ConfigurationDigest mz_Platform mz_Worker mz_Hello mz_Challenge mz_CapabilityDigest mz_Manifest mz_Attempt
       mz_Reconnect mz_Digest ms_Summary ms_Platform ms_Worker ms_PendingWorkerTerminal mz_Version mz_Connection
       mz_DrainRevision mz_Revoke].
  rewrite !cloneSummary_id, !copied_idem, !D, !O; try done.
  - unfold clone_envelope. cbn. by rewrite !copied_idem.
  - intros r. unfold clone_reconnect. cbn [mr_Attempt mr_Claim]. rewrite !cloneSummary_id, O by apply clone_claim_idem. done.
  - intros p. unfold clone_pending. cbn -[cloned_terminal]. by rewrite copied_idem, cloned_terminal_idem.
  - apply clone_manifest_idem.
  - apply clone_challenge_idem.
  - apply clone_hello_idem.
Qed.

(** What a snapshot that is its own copy holds. *)
Lemma cloned_claim s r claim :
  cloneMachineSnapshot s = s -> mz_Reconnect s = Some r -> mr_Claim r = Some claim -> cloneReconnectSnapshot claim = claim.
Proof.
  intros C R K. apply (f_equal mz_Reconnect) in C. cbn in C. rewrite R in C. cbn in C. injection C as C.
  apply (f_equal mr_Claim) in C. cbn in C. rewrite K in C. by injection C.
Qed.

(** The parts that are restored from a snapshot. *)
Record restored_parts config s : Prop := {
  rt_hello : kept HelloV1_Validate cloneHello zero_hello
    (fun h => sameVersionOffer (he_Offer h) (mc_WorkerOffer config) = true)
    match mz_Hello s with None => zero_hello | Some h => cloneHello h end;
  rt_greeted : mz_Connection s = ConnectionHello ->
    match mz_Hello s with None => zero_hello | Some h => cloneHello h end <> zero_hello;
  rt_challenge : kept ChallengeV1_Validate cloneChallenge zero_challenge
    (fun c => sameVersionOffer (cl_WorkerOffer c) (mc_WorkerOffer config) = true /\
              sameVersionOffer (cl_PlatformOffer c) (mc_PlatformOffer config) = true /\
              cl_SelectedVersion c = au_Version (mc_Auth config))
    match mz_Challenge s with None => zero_challenge | Some c => cloneChallenge c end;
  rt_manifest : kept CapabilityManifestV1_Validate cloneManifest zero_manifest
    (fun c => mf_WorkerID c = au_WorkerID (mc_Auth config) /\
              mf_EnrollmentGeneration c = au_EnrollmentGeneration (mc_Auth config) /\
              sameVersionOffer (mf_ProtocolOffer c) (mc_WorkerOffer config) = true)
    match mz_Manifest s with None => zero_manifest | Some c => cloneManifest c end;
  rt_revoke : kept RevokeV1_Validate id (cm_revoke (new_machine config))
    (fun r => successive (new_machine config) r /\ (stored_in s ConnectionRevoking || stored_in s ConnectionRevoked) = true)
    match mz_Revoke s with None => cm_revoke (new_machine config) | Some r => r end }.

Lemma restored_parts_kept config s :
  checked s -> validateMachineSnapshotAgainstConfig s config = None -> restored_parts config s.
Proof.
  intros K (Ah & Ac & Am & Ar & _)%against_config. pose proof (ck_state s K) as St. unfold snapshot_state in St.
  rewrite reject_nil in St. destruct St as [Sr St]. split.
  - apply restored_kept; auto using valid_clone_hello, clone_hello_idem, ck_hello.
  - intros Hc. rewrite !reject_nil, Hc in St. destruct St as (_ & _ & St). pose proof (ck_hello s K) as V.
    destruct (mz_Hello s) as [h |]; [| discriminate St]. apply notnil_false in V. intros E.
    apply (f_equal HelloV1_Validate) in E. rewrite valid_clone_hello, V in E. discriminate E.
  - apply restored_kept; auto using valid_clone_challenge, clone_challenge_idem, ck_challenge.
    intros c Hc. unfold challenge_unconfigured in Ac. rewrite Hc in Ac. b2p. cbn. tauto.
  - apply restored_kept; auto using valid_clone_manifest, clone_manifest_idem, ck_manifest.
    intros c Hc. unfold manifest_unconfigured in Am. rewrite Hc in Am. destruct (ManifestDigestV1 c); [discriminate Am |].
    b2p. cbn. tauto.
  - destruct (mz_Revoke s) as [r |] eqn:R; [right | by left]. pose proof (ck_revoke s K) as V. rewrite R in V.
    apply notnil_false in V. split; [done |]. split; [done |]. split; [by apply Ar |].
    destruct (stored_in s ConnectionRevoking || stored_in s ConnectionRevoked); [done | discriminate Sr].
Qed.

Lemma restored_tidy config s :
  cloneMachineConfig config = config -> NewConformanceMachine config = inr (new_machine config) ->
  cloneMachineSnapshot s = s -> checked s ->
  validateMachineSnapshotAgainstConfig s config = None -> tidy (restored_machine (new_machine config) s).
Proof.
  intros C N Cs K A. destruct (restored_parts_kept config s K A) as [Kh Kg Kc Km Kr].
  apply against_config in A as (_ & _ & _ & _ & Ag). unfold restored_machine.
  match goal with |- context [restore_attempt ?x ?y] =>
    pose proof (restored_tidy_attempt x y eq_refl (ck_summary s K) (ck_sent s K) (ck_received s K) (ck_pending s K)) as T;
    change (restore_attempt x y) with (with_attempt x (cm_attempt (restore_attempt x y)));
    revert T; generalize (cm_attempt (restore_attempt x y)) end.
  intros a Ta. unfold restore_reconnect.
  destruct (mz_Reconnect s) as [r |] eqn:R; split; cbn; try done;
    auto using restored_orderly, ck_platform, ck_worker, copied_idem; try (by left).
  destruct (mr_Claim r) as [claim |] eqn:Hc; [right | by left]. rewrite (cloned_claim s r claim) by done.
  pose proof (ck_reconnect s K r R) as V. unfold validateMachineReconnectState in V. rewrite reject_nil, Hc, reject_nil in V.
  destruct V as (_ & V & _). b2p. rewrite (cloned_claim s r claim) by done. tauto.
Qed.

Lemma restored_flagged config s : checked s -> flagged (restored_machine (new_machine config) s).
Proof.
  intros K. pose proof (ck_state s K) as St. unfold snapshot_state in St. rewrite !reject_nil in St. destruct St as (_ & _ & _ & St).
  pose proof (ck_reconnect s K) as V. unfold restored_machine, restore_reconnect, stored_in.
  destruct (mz_Reconnect s) as [r |] eqn:R; split; cbn; try done.
  - by intros ->.
  - intros H. apply negb_true_iff, bool_decide_eq_false in H. split; [| by apply bool_decide_false].
    destruct (mz_Connection s); try done; open_state.
  - intros _. specialize (V r eq_refl). unfold validateMachineReconnectState in V. rewrite reject_nil in V. destruct V as [V _].
    b2p. rewrite !elem_of_cons. tauto.
  - intros H%bool_decide_eq_true. by left.
  - intros H. by rewrite H in St.
Qed.

(** A machine that has been restored carries on like any other. *)
Lemma restored_sound config s m :
  RestoreConformanceMachine config s = inr m ->
  flagged m /\ tidy m /\ cm_config m = cloneMachineConfig config.
Proof.
  intros (V & N & A & -> & _)%restore_inv. apply content_checked in V.
  split; [by apply restored_flagged |]. split.
  - apply restored_tidy; auto using clone_config_idem, clone_snapshot_idem.
    revert N. unfold NewConformanceMachine. by rewrite clone_config_idem.
  - unfold restored_machine, restore_reconnect. by case_match.
Qed.

(** Restoring depends on the configuration's content only. *)
Lemma restore_clone config s : RestoreConformanceMachine (cloneMachineConfig config) s = RestoreConformanceMachine config s.
Proof.
  unfold RestoreConformanceMachine, machineConfigDigestV1, NewConformanceMachine. by rewrite clone_config_idem.
Qed.

(** What is stored of a sound machine can be restored. *)
Lemma post_restores config m post :
  flagged m -> tidy m -> cm_config m = cloneMachineConfig config -> Snapshot m = inr post ->
  exists m', RestoreConformanceMachine config post = inr m' /\ like m m'.
Proof. intros F T C S. rewrite <- restore_clone, <- C. by apply stored_restores. Qed.

Lemma restore_cloned config s : RestoreConformanceMachine config (cloneMachineSnapshot s) = RestoreConformanceMachine config s.
Proof. unfold RestoreConformanceMachine. by rewrite clone_snapshot_idem. Qed.

(** ** The reducers *)

Section Store.
Context (verify : string -> string -> string -> bool).

(** A machine under a configuration that can be stored and restored. *)
Definition sound_under config m : Prop := flagged m /\ tidy m /\ cm_config m = cloneMachineConfig config.

Lemma accept_sound config m d f acceptance m1 :
  Accept verify m d f acceptance = Some (m1, None) -> sound_under config m -> sound_under config m1.
Proof.
  intros A (F & T & C). assert (step verify any_frame m [(d, f)] m1) as S by by eapply st_accept.
  split; [by eapply flagged_step |]. split; [by eapply tidy_step |]. rewrite <- C.
  apply accept_inv in A as (_ & _ & _ & [(-> & _) | (n & E & -> & _)]); [done |].
  apply effect_keeps in E as [E _]. unfold set_sender. by case_match.
Qed.

Lemma accept_all_sound config acceptance l : forall m m1,
  accept_all verify m l acceptance = Some (Some m1) -> sound_under config m -> sound_under config m1.
Proof.
  induction l as [| [d f] l IH]; cbn; intros m m1 H S; [by injection H as <- |].
  destruct (Accept verify m d f acceptance) as [[n [e |]] |] eqn:A; try discriminate H.
  by eapply IH; [| eapply accept_sound].
Qed.

Lemma sound_restores config m post :
  sound_under config m -> Snapshot m = inr post -> exists m', RestoreConformanceMachine config post = inr m'.
Proof. intros (F & T & C) S. destruct (post_restores config m post F T C S) as (m' & H & _). eauto. Qed.

Lemma offered_restores config m f now frame post :
  sound_under config m -> offer_and_store verify config m f now = Some (inr (frame, post)) ->
  exists m', RestoreConformanceMachine config post = inr m'.
Proof.
  intros S H. unfold offer_and_store in H. destruct (notnil _); [discriminate H |].
  destruct (Accept verify m _ f _) as [[m1 [e |]] |] eqn:A; try discriminate H.
  destruct (Snapshot m1) as [e | p] eqn:P; [discriminate H |]. injection H as <- <-.
  eapply sound_restores; [| exact P]. by eapply accept_sound.
Qed.

Lemma again_restores config s o frame post m :
  RestoreConformanceMachine config s = inr m -> sent_again o s = Some (inr (frame, post)) ->
  RestoreConformanceMachine config post = inr m.
Proof. intros R H. destruct o; [| discriminate H]. injection H as <- <-. by rewrite restore_cloned. Qed.

(** The machines the platform stores: a configuration and a snapshot, from the first
    attachment on, through every reducer. *)
Inductive durable : MachineConfig -> MachineSnapshotV1 -> Prop :=
| du_attach config attach accepted s :
    BuildInitialAttachSnapshotV1 verify config attach accepted = Some (inr s) -> durable config s
| du_frame config s d f now post : durable config s ->
    ApplyMachineFrameV1 verify config s d f now = Some (inr post) -> durable config post
| du_offer config s authority frame post : durable config s ->
    BuildLeaseOfferTransitionV1 verify config s authority = Some (inr (frame, post)) -> durable config post
| du_accept config s authority frame post : durable config s ->
    BuildLeaseAcceptedTransitionV1 verify config s authority = Some (inr (frame, post)) -> durable config post
| du_cancel config s authority frame post : durable config s ->
    BuildCancelTransitionV1 verify config s authority = Some (inr (frame, post)) -> durable config post
| du_acknowledge config s authority frame post : durable config s ->
    BuildTerminalAckTransitionV1 verify config s authority = Some (inr (frame, post)) -> durable config post
| du_drain config s authority frame post : durable config s ->
    BuildDrainTransitionV1 verify config s authority = Some (inr (frame, post)) -> durable config post
| du_retire config s post : durable config s -> RetireCommittedAttemptV1 config s = inr post -> durable config post
| du_retire_cancelled config s post : durable config s ->
    RetirePreClaimCancelledAttemptV1 config s = inr post -> durable config post
| du_reconnect config s next f frame post : durable config s ->
    BuildReconnectAcceptedSnapshotV1 verify config s next f = Some (inr (frame, post)) ->
    durable {| config with mc_Auth := next |} post.

Lemma apply_restores config s d f now post :
  ApplyMachineFrameV1 verify config s d f now = Some (inr post) -> exists m, RestoreConformanceMachine config post = inr m.
Proof.
  unfold ApplyMachineFrameV1. intros H. destruct (RestoreConformanceMachine config s) as [e | m] eqn:R; [discriminate H |].
  apply restored_sound in R. destruct (Accept verify m d f _) as [[m1 [e |]] |] eqn:A; try discriminate H. injection H as H.
  eapply sound_restores; [| exact H]. by eapply accept_sound.
Qed.

(** Each builder restores a machine, refuses, gives the last frame again, or offers the
    frame it has built. *)
Ltac build H :=
  let R := fresh "R" in
  let S := fresh "S" in
  match type of H with context [RestoreConformanceMachine ?c ?s] =>
    destruct (RestoreConformanceMachine c s) as [? | ?] eqn:R; [discriminate H |]; pose proof (restored_sound _ _ _ R) as S end;
  cbv zeta in H;
  repeat match type of H with context [if ?b then _ else _] =>
    lazymatch b with context [if _ then _ else _] => fail | _ => destruct b eqn:?; try discriminate H end end;
  first [eapply offered_restores; [exact S | exact H] | eexists; eapply again_restores; [exact R | exact H]].

Lemma built_restores config s frame post :
  (exists authority, BuildLeaseOfferTransitionV1 verify config s authority = Some (inr (frame, post))) \/
  (exists authority, BuildLeaseAcceptedTransitionV1 verify config s authority = Some (inr (frame, post))) \/
  (exists authority, BuildCancelTransitionV1 verify config s authority = Some (inr (frame, post))) \/
  (exists authority, BuildTerminalAckTransitionV1 verify config s authority = Some (inr (frame, post))) \/
  (exists authority, BuildDrainTransitionV1 verify config s authority = Some (inr (frame, post))) ->
  exists m, RestoreConformanceMachine config post = inr m.
Proof.
  intros [[a H] | [[a H] | [[a H] | [[a H] | [a H]]]]].
  - unfold BuildLeaseOfferTransitionV1 in H. build H.
  - unfold BuildLeaseAcceptedTransitionV1 in H. build H.
  - unfold BuildCancelTransitionV1 in H. build H.
  - unfold BuildTerminalAckTransitionV1 in H. build H.
  - unfold BuildDrainTransitionV1 in H. build H.
Qed.

Lemma idle_sound_under config m : sound_under config m -> sound_under config (with_attempt m idle_attempt).
Proof.
  intros (F & T & C). split; [by apply (flagged_same m) |]. split; [| exact C]. apply tidy_attempt_only; [by split | exact T].
Qed.

Lemma retired_restores config s post :
  RetireCommittedAttemptV1 config s = inr post \/ RetirePreClaimCancelledAttemptV1 config s = inr post ->
  exists m, RestoreConformanceMachine config post = inr m.
Proof.
  unfold RetireCommittedAttemptV1, RetirePreClaimCancelledAttemptV1, EraseCommittedAttempt.
  destruct (RestoreConformanceMachine config s) as [e | m] eqn:R; [by intros [[=] | [=]] |].
  pose proof (idle_sound_under config m (restored_sound _ _ _ R)) as S.
  assert (Snapshot (with_attempt m idle_attempt) = inr post -> exists m, RestoreConformanceMachine config post = inr m) as K
    by by apply sound_restores.
  change {| m with cm_attempt := idle_attempt |} with (with_attempt m idle_attempt).
  intros [H | H]; repeat (destruct (_ : bool); try discriminate H); apply K; destruct (Snapshot (with_attempt m idle_attempt)); congruence.
Qed.

Lemma new_sound config m : NewConformanceMachine config = inr m -> sound_under config m.
Proof.
  intros N. assert (reached verify any_frame [] m) as R by (exists config, m; split; [done | apply run_start]).
  destruct (tidy_reached _ _ _ _ R) as [F T]. split; [done |]. split; [done |].
  unfold NewConformanceMachine in N. cbv zeta in N. by repeat case_match; simplify_eq.
Qed.

Lemma attached_restores config attach accepted s :
  BuildInitialAttachSnapshotV1 verify config attach accepted = Some (inr s) -> exists m, RestoreConformanceMachine config s = inr m.
Proof.
  unfold BuildInitialAttachSnapshotV1. intros H. destruct (fr_Attach attach); [| discriminate H].
  destruct (_ || _); [discriminate H |]. destruct (NewConformanceMachine config) as [e | m] eqn:N; [discriminate H |].
  cbv zeta in H. destruct (accept_all _ _ _ _) as [[m1 |] |] eqn:A; try discriminate H. destruct (negb _); [discriminate H |].
  injection H as H. eapply sound_restores; [| exact H]. eapply accept_all_sound; [exact A |]. by apply new_sound.
Qed.

Lemma begun_sound config m next m1 r :
  BeginReconnect m next = (m1, inr r) -> sound_under config m -> sound_under {| config with mc_Auth := next |} m1.
Proof.
  intros B (F & T & C). assert (step verify any_frame m [] m1) as S.
  { replace m1 with (fst (BeginReconnect m next)) by by rewrite B. apply st_reconnect. }
  split; [by eapply flagged_step |]. split; [by eapply tidy_step |].
  apply begin_cases in B as [[_ [=]] | (-> & _)]. unfold begun. cbn. rewrite C. done.
Qed.

Lemma reconnected_restores config s next f frame post :
  BuildReconnectAcceptedSnapshotV1 verify config s next f = Some (inr (frame, post)) ->
  exists m, RestoreConformanceMachine {| config with mc_Auth := next |} post = inr m.
Proof.
  unfold BuildReconnectAcceptedSnapshotV1. intros H. destruct (fr_Reconnect f) as [p |]; [| discriminate H].
  destruct (negb _); [discriminate H |]. destruct (RestoreConformanceMachine config s) as [e | m] eqn:R; [discriminate H |].
  destruct (BeginReconnect m next) as [m1 [e | authoritative]] eqn:B; [discriminate H |]. cbv zeta in H.
  destruct (accept_all _ _ _ _) as [[m2 |] |] eqn:A; try discriminate H.
  destruct (BuildReconnectAcceptedV1 _ _ _); [discriminate H |].
  destruct (Accept verify m2 _ _ _) as [[m3 [e |]] |] eqn:A'; try discriminate H.
  destruct (Snapshot m3) as [e | q] eqn:S; [discriminate H |]. destruct (negb _); [discriminate H |]. injection H as _ <-.
  eapply sound_restores; [| exact S]. eapply accept_sound; [exact A' |]. eapply accept_all_sound; [exact A |].
  eapply begun_sound; [exact B | by apply (restored_sound config s)].
Qed.

(** C20. A stored machine is never lost. Whatever the platform has done with a worker's
    machine since it was attached - applied frames of either side, built its own, retired
    attempts, reconnected - the snapshot it has stored restores under the configuration it
    is stored with: no reducer ever gives a snapshot that the next one cannot read. *)
Theorem durable_restores config s : durable config s -> exists m, RestoreConformanceMachine config s = inr m.
Proof.
  intros H. induction H as [config attach accepted s H | config s d f now post _ _ H | config s a f post _ _ H
    | config s a f post _ _ H | config s a f post _ _ H | config s a f post _ _ H | config s a f post _ _ H
    | config s post _ _ H | config s post _ _ H | config s next f frame post _ _ H].
  - by eapply attached_restores.
  - by eapply apply_restores.
  - eapply (built_restores config s). left. by exists a.
  - eapply (built_restores config s). right. left. by exists a.
  - eapply (built_restores config s). right. right. left. by exists a.
  - eapply (built_restores config s). right. right. right. left. by exists a.
  - eapply (built_restores config s). right. right. right. right. by exists a.
  - by eapply retired_restores; left.
  - by eapply retired_restores; right.
  - by eapply reconnected_restores.
Qed.

(** ** Retries *)

(** An attempt message that is new is applied and recorded. *)
Lemma accept_fresh m d f acceptance m1 b q :
  Accept verify m d f acceptance = Some (m1, None) -> attempt_kind (fr_Kind f) = true -> attemptPayload f = Some (b, q) ->
  fr_Sequence f <> sq_sequence (sender_of m d) -> aq_sequence (attempt_sender m d) < q ->
  exists a, moved m d f a /\
    m1 = set_sender (with_attempt m (recorded a d q (attemptFingerprint f))) d
           {| sq_sequence := fr_Sequence f; sq_ack := fr_Ack f; sq_fingerprint := frameFingerprint f |}.
Proof.
  intros A K P N Q. unfold Accept in A. destruct (out_of_scope m d f acceptance); [discriminate A |]. cbv zeta in A.
  unwind A; facts; try (by destruct N).
  assert (acceptAttempt m d f (ac_NowUnixMicro acceptance) = Some (c, None)) as H'.
  { unfold apply in G2. by destruct (fr_Kind f). }
  unfold acceptAttempt in H'. rewrite P in H'. cbv zeta in H'. destruct (commitment_error _ _ _ _ _); [discriminate H' |].
  apply Z.leb_gt in Q. rewrite Q in H'. unwind H'.
  destruct (transition_moves _ _ _ _ _ _ P G6) as (a & Ha & ->). exists a. split; [done |]. subst c. by rewrite recorded_is.
Qed.

Lemma offered_inv config m f now frame post :
  sound_under config m -> offer_and_store verify config m f now = Some (inr (frame, post)) ->
  frame = f /\ FrameV1_Validate f = None /\ cloneMachineSnapshot post = post /\
  exists m1 m', Accept verify m DirectionPlatformToWorker f (acceptance_at (mc_Auth config) now) = Some (m1, None) /\
    RestoreConformanceMachine config post = inr m' /\ like m1 m'.
Proof.
  intros S H. unfold offer_and_store in H. destruct (FrameV1_Validate f) eqn:V; [discriminate H |]. cbn [notnil isnil negb] in H.
  destruct (Accept verify m _ f _) as [[m1 [e |]] |] eqn:A; try discriminate H.
  destruct (Snapshot m1) as [e | p] eqn:P; [discriminate H |]. injection H as <- <-. split; [done |]. split; [done |].
  destruct (accept_sound _ _ _ _ _ _ A S) as (F & T & C). destruct (post_restores config m1 p F T C P) as (m' & R & L).
  split; [| by exists m1, m'].
  apply snapshot_inv in P as (cd & _ & E & _ & ->). subst cd. apply stored_clone; apply copied_sha.
Qed.

Lemma restored_bound config s m :
  RestoreConformanceMachine config s = inr m -> aq_sequence (ar_platform (cm_attempt m)) <= 64.
Proof.
  intros (V & _ & _ & -> & _)%restore_inv. apply content_checked, ck_sent in V.
  unfold validateAttemptDirectionSnapshot, MaxAttemptMessages in V. rewrite reject_nil in V. destruct V as [V _]. b2p.
  unfold restored_machine, restore_reconnect. case_match; cbn in *; lia.
Qed.

Lemma next_sequence x : wrap_u64 (x + 1) <> x.
Proof. unfold wrap_u64, max_u64. intros H. rewrite Z.mod_eq in H; lia. Qed.

Lemma next_small x : x <= 64 -> x < wrap_u64 (x + 1).
Proof.
  intros H. pose proof (wrap_u64_range (x + 1)) as U. unfold u64 in U. destruct (Z_lt_le_dec x (-1)); [lia |].
  rewrite wrap_u64_small; unfold u64, max_u64; lia.
Qed.

Lemma recorded_to_worker a q fp :
  recorded a DirectionPlatformToWorker q fp =
  {| a with ar_platform := {| aq_sequence := q; aq_fingerprints := <[q := fp]> (aq_fingerprints (ar_platform a)) |} |}.
Proof. unfold recorded. by destruct (ar_pendingWorkerTerminal a). Qed.

(** The machine that has sent a message of the attempt has the message stored. *)
Lemma sent_stored config s m f now frame post b q :
  RestoreConformanceMachine config s = inr m -> offer_and_store verify config m f now = Some (inr (frame, post)) ->
  attempt_kind (fr_Kind f) = true -> attemptPayload f = Some (b, q) ->
  fr_Sequence f = wrap_u64 (sq_sequence (cm_platform m) + 1) -> q = next_attempt_sequence m ->
  frame = f /\ cloneMachineSnapshot post = post /\
  exists a m', moved m DirectionPlatformToWorker f a /\ RestoreConformanceMachine config post = inr m' /\
    cm_platform m' = {| sq_sequence := fr_Sequence f; sq_ack := fr_Ack f; sq_fingerprint := frameFingerprint f |} /\
    like_attempt (recorded a DirectionPlatformToWorker q (attemptFingerprint f)) (cm_attempt m') /\
    exactPersistedPlatformAttemptFrame m' f = Some f.
Proof.
  intros R H K P Q ->. pose proof (restored_sound _ _ _ R) as S.
  destruct (offered_inv _ _ _ _ _ _ S H) as (-> & V & Cl & m1 & m' & A & R' & L). split; [done |]. split; [done |].
  destruct (accept_fresh _ _ _ _ _ _ _ A K P) as (a & M & ->).
  { rewrite Q. apply next_sequence. }
  { apply next_small, (restored_bound config s m R). }
  exists a, m'. split; [done |]. split; [done |].
  assert (cm_platform m' = {| sq_sequence := fr_Sequence f; sq_ack := fr_Ack f; sq_fingerprint := frameFingerprint f |}) as Hp
    by by rewrite (lk_platform _ _ L).
  assert (like_attempt (recorded a DirectionPlatformToWorker (next_attempt_sequence m) (attemptFingerprint f)) (cm_attempt m')) as La
    by exact (lk_attempt _ _ L).
  split; [done |]. split; [done |].
  unfold exactPersistedPlatformAttemptFrame, attemptSequence. rewrite V, Hp, P, (li_platform _ _ La).
  apply valid_frame_sequence, Z.eqb_neq in V. rewrite V. cbn [notnil isnil negb orb sq_fingerprint snd default].
  rewrite String.eqb_refl, recorded_to_worker. cbn [ar_platform aq_fingerprints negb]. rewrite lookup_insert_eq, String.eqb_refl. done.
Qed.

Lemma again_inv config s o frame post m :
  RestoreConformanceMachine config s = inr m -> sent_again o s = Some (inr (frame, post)) ->
  RestoreConformanceMachine config post = inr m /\ sent_again o post = Some (inr (frame, post)).
Proof.
  intros R H. split; [by eapply again_restores |]. destruct o; [| discriminate H]. injection H as <- <-. cbn.
  by rewrite clone_snapshot_idem.
Qed.

Ltac split_if H G := match type of H with context [if ?b then _ else _] => destruct b eqn:G end.

(** A machine that has just sent a frame can send another. *)
Lemma not_exhausted config post m n a fp :
  RestoreConformanceMachine config post = inr m ->
  cm_platform m = {| sq_sequence := n; sq_ack := a; sq_fingerprint := fp |} -> n <> max_u64 ->
  platform_exhausted m = false /\ attempt_exhausted m = false.
Proof.
  intros R P N. unfold platform_exhausted, attempt_exhausted. rewrite P. apply restored_bound in R.
  split; apply Z.eqb_neq; [done |]. unfold max_u64. lia.
Qed.

Lemma cancel_again config s authority frame post :
  BuildCancelTransitionV1 verify config s authority = Some (inr (frame, post)) -> fr_Sequence frame <> max_u64 ->
  BuildCancelTransitionV1 verify config post authority = Some (inr (frame, post)).
Proof.
  unfold BuildCancelTransitionV1. intros H N. destruct (RestoreConformanceMachine config s) as [e | m] eqn:R; [discriminate H |].
  cbv zeta in H. split_if H G; [discriminate H |]. split_if H Cz.
  - split_if H G'; [discriminate H |]. destruct (again_inv _ _ _ _ _ _ R H) as [-> A]. cbv zeta. by rewrite G, Cz, G'.
  - edestruct sent_stored as (E & Cl & a & m' & M & R' & Hp & La & X); [exact R | exact H | reflexivity | reflexivity.. |]. subst frame.
    destruct (not_exhausted _ _ _ _ _ _ R' Hp N) as [E1 E2]. rewrite R'. cbv zeta.
    destruct M as [| | | | p a -> Hk Hd Hc St Rv | | | | | |]; try discriminate. injection Hc as <-.
    rewrite recorded_to_worker in La. destruct La. cbn in *.
    do 2 apply orb_false_iff in G as [G _]. rewrite G, E1, E2, li_revision, li_code, Rv, bool_decide_true by done. cbn.
    assert (exactPersistedCancelFrame config m' = exactPersistedPlatformAttemptFrame m'
      (cancel_frame (next_envelope (mc_Auth config) m MessageCancel) m (next_attempt_sequence m) (cu_Revision authority) (cu_Code authority))) as ->.
    { unfold exactPersistedCancelFrame, cancel_frame, last_envelope, next_envelope. rewrite Hp, li_platform, li_revision, li_code, li_binding by by case_match.
      done. }
    rewrite X. cbn [sent_again]. by rewrite Cl, ?Rv.
Qed.

Lemma lease_accepted_again config s authority frame post :
  BuildLeaseAcceptedTransitionV1 verify config s authority = Some (inr (frame, post)) -> fr_Sequence frame <> max_u64 ->
  BuildLeaseAcceptedTransitionV1 verify config post authority = Some (inr (frame, post)).
Proof.
  unfold BuildLeaseAcceptedTransitionV1. intros H N. destruct (RestoreConformanceMachine config s) as [e | m] eqn:R; [discriminate H |].
  cbv zeta in H. split_if H G; [discriminate H |]. split_if H Cz.
  - destruct (again_inv _ _ _ _ _ _ R H) as [-> A]. by rewrite G, Cz.
  - edestruct sent_stored as (E & Cl & a & m' & M & R' & Hp & La & X); [exact R | exact H | reflexivity | reflexivity.. |]. subst frame.
    destruct (not_exhausted _ _ _ _ _ _ R' Hp N) as [E1 E2]. rewrite R'. cbv zeta.
    destruct M as [| | a -> Hk Hd St | | | | | | | |]; try discriminate. rewrite recorded_to_worker in La. destruct La. cbn in *.
    do 2 apply orb_false_iff in G as [G _]. unfold attempt_in. rewrite G, E1, E2, li_state, bool_decide_true by done. cbn.
    assert (exactPersistedLeaseAcceptedFrame config m' = exactPersistedPlatformAttemptFrame m'
      (lease_accepted_frame (next_envelope (mc_Auth config) m MessageLeaseAccepted) m (next_attempt_sequence m))) as ->.
    { unfold exactPersistedLeaseAcceptedFrame, lease_accepted_frame, last_envelope, next_envelope. by rewrite Hp, li_platform, li_binding. }
    rewrite X. cbn [sent_again]. by rewrite Cl.
Qed.

Lemma terminal_ack_again config s authority frame post :
  BuildTerminalAckTransitionV1 verify config s authority = Some (inr (frame, post)) -> fr_Sequence frame <> max_u64 ->
  BuildTerminalAckTransitionV1 verify config post authority = Some (inr (frame, post)).
Proof.
  unfold BuildTerminalAckTransitionV1. intros H N. destruct (RestoreConformanceMachine config s) as [e | m] eqn:R; [discriminate H |].
  cbv zeta in H. split_if H G; [discriminate H |]. split_if H Cz.
  - destruct (again_inv _ _ _ _ _ _ R H) as [-> A]. by rewrite G, Cz.
  - edestruct sent_stored as (E & Cl & a & m' & M & R' & Hp & La & X); [exact R | exact H | reflexivity | reflexivity.. |]. subst frame.
    destruct (not_exhausted _ _ _ _ _ _ R' Hp N) as [E1 E2]. rewrite R'. cbv zeta.
    destruct M as [| | | | | | | | | | p a -> Hk Hd Hc St Rv Sq Ts Tr Te]; try discriminate. rewrite recorded_to_worker in La. destruct La. cbn in *.
    do 2 apply orb_false_iff in G as [G _]. unfold attempt_in. rewrite G, E1, E2, li_state, bool_decide_true by done. cbn.
    assert (exactPersistedTerminalAckFrame config m' = exactPersistedPlatformAttemptFrame m'
      (terminal_ack_frame (next_envelope (mc_Auth config) m MessageTerminalAck) m (next_attempt_sequence m))) as ->.
    { unfold exactPersistedTerminalAckFrame, terminal_ack_frame, last_envelope, next_envelope.
      by rewrite Hp, li_platform, li_binding, li_terminal, li_status, li_result, li_evidence. }
    rewrite X. cbn [sent_again]. by rewrite Cl.
Qed.

(** The drain that has been delivered on this connection. *)
Definition delivered config (authority : DrainAuthorityV1) : DrainAuthorityV1 :=
  {| authority with du_DeliveredConnectionGeneration := au_ConnectionGeneration (mc_Auth config) |}.

Lemma drained_effect m d f n p :
  effect verify m d f n -> fr_Kind f = MessageDrain -> fr_Drain f = Some p ->
  cm_connection n = ConnectionDraining /\ cm_drainRevision n = dr_Revision p.
Proof.
  intros E K P. destruct E as [I | | | | | | | | | q Kq Dq Cq Zq Pq | q Kq Dq Cq Pq | | | | | b s a Pa M]; try congruence.
  - by rewrite K in I.
  - rewrite P in Pq. injection Pq as <-. done.
  - rewrite P in Pq. injection Pq as <-. done.
  - destruct M; congruence.
Qed.

Lemma drain_again config s authority frame post :
  BuildDrainTransitionV1 verify config s authority = Some (inr (frame, post)) -> fr_Sequence frame <> max_u64 ->
  BuildDrainTransitionV1 verify config post (delivered config authority) = Some (inr (frame, post)).
Proof.
  unfold BuildDrainTransitionV1. intros H N. destruct (RestoreConformanceMachine config s) as [e | m] eqn:R; [discriminate H |].
  cbv zeta in H. split_if H G; [discriminate H |]. split_if H Cz.
  - split_if H G'; [discriminate H |]. destruct (again_inv _ _ _ _ _ _ R H) as [-> A]. cbn -[exactPersistedDrainFrame sent_again].
    apply andb_true_iff in Cz as [Cz _]. by rewrite G, Cz, G', Z.eqb_refl.
  - split_if H G'; [discriminate H |].
    destruct (offered_inv _ _ _ _ _ _ (restored_sound _ _ _ R) H) as (E & V & Cl & m1 & m' & A & R' & L). subst frame.
    apply accept_inv in A as (_ & _ & _ & [(_ & Q & _) | (n & Ef & -> & _)]); [by destruct (next_sequence _ Q) |].
    destruct (drained_effect _ _ _ _ _ Ef eq_refl eq_refl) as [Nc Nr]. rewrite R'. cbv zeta.
    assert (cm_connection m' = ConnectionDraining) as Hc by by rewrite (lk_connection _ _ L).
    assert (cm_drainRevision m' = du_Revision authority) as Hr by by rewrite (lk_drain _ _ L).
    pose proof (lk_platform _ _ L) as Hp. cbn [set_sender cm_platform] in Hp.
    destruct (not_exhausted _ _ _ _ _ _ R' Hp N) as [E1 _].
    apply orb_false_iff in G as [G _]. cbn [delivered du_Revision du_NowUnixMicro du_DeliveredConnectionGeneration].
    unfold in_state. rewrite G, E1, Hc, Hr, !Z.eqb_refl, bool_decide_true by done. cbn -[exactPersistedDrainFrame sent_again].
    assert (exactPersistedDrainFrame config m' = Some (drain_frame (next_envelope (mc_Auth config) m MessageDrain) (du_Revision authority))) as ->.
    { unfold exactPersistedDrainFrame.
      assert (drain_frame (last_envelope (mc_Auth config) m' MessageDrain) (cm_drainRevision m')
        = drain_frame (next_envelope (mc_Auth config) m MessageDrain) (du_Revision authority)) as ->.
      { unfold drain_frame, last_envelope, next_envelope. by rewrite Hp, Hr. }
      rewrite Hp, V. apply valid_frame_sequence, Z.eqb_neq in V. rewrite V. cbn [notnil isnil negb orb sq_fingerprint].
      by rewrite String.eqb_refl. }
    cbn [sent_again]. by rewrite Cl.
Qed.

(** C21. A frame the platform builds is given again, exactly, on a retry. When a builder
    has given a frame and the snapshot it leaves, the same call on that snapshot gives the
    same frame and the same snapshot, so that a lost answer or a crash after the store
    neither changes what was sent nor sends it twice. It holds of the acceptance of a
    claim, of a cancellation, of the acknowledgement of a terminal, and of a drain that is
    recorded as delivered on the connection, as long as the envelope has a sequence left. *)
Theorem retries_exact config s frame post :
  fr_Sequence frame <> max_u64 ->
  (forall authority, BuildLeaseAcceptedTransitionV1 verify config s authority = Some (inr (frame, post)) ->
     BuildLeaseAcceptedTransitionV1 verify config post authority = Some (inr (frame, post))) /\
  (forall authority, BuildCancelTransitionV1 verify config s authority = Some (inr (frame, post)) ->
     BuildCancelTransitionV1 verify config post authority = Some (inr (frame, post))) /\
  (forall authority, BuildTerminalAckTransitionV1 verify config s authority = Some (inr (frame, post)) ->
     BuildTerminalAckTransitionV1 verify config post authority = Some (inr (frame, post))) /\
  (forall authority, BuildDrainTransitionV1 verify config s authority = Some (inr (frame, post)) ->
     BuildDrainTransitionV1 verify config post (delivered config authority) = Some (inr (frame, post))).
Proof.
  intros N. repeat split; intros authority H.
  - by eapply lease_accepted_again.
  - by eapply cancel_again.
  - by eapply terminal_ack_again.
  - by eapply drain_again.
Qed.
End Store.

(** ** A sample *)

Module StoreSample.
Import WorkerSample.

(** The machine of a worker that has claimed its lease. *)
Definition claiming := Eval vm_compute in
  match option_map Snapshot (accepts verify start (handshake ++ [(platform, lease_offer); (worker, lease_claim)]) acceptance) with
  | Some (inr s) => Some s
  | _ => None
  end.
Definition accepting : LeaseAcceptedAuthorityV1 := {| lu_NowUnixMicro := 10 |}.

Definition accepted_at (s : option MachineSnapshotV1) : option Z :=
  match option_map (fun s => BuildLeaseAcceptedTransitionV1 verify config s accepting) s with
  | Some (Some (inr (frame, _))) => Some (fr_Sequence frame)
  | _ => None
  end.

Lemma claim_accepted : accepted_at claiming = Some 4.
Proof. vm_cast_no_check (eq_refl (Some 4)). Qed.

Definition attached : bool :=
  match BuildInitialAttachSnapshotV1 verify config attach attach_accepted with Some (inr _) => true | _ => false end.

Lemma is_attached : attached = true.
Proof. vm_cast_no_check (eq_refl true). Qed.
End StoreSample.

Lemma retries_exact_witness :
  exists s frame post, fr_Sequence frame = 4 /\
    BuildLeaseAcceptedTransitionV1 WorkerSample.verify WorkerSample.config s StoreSample.accepting = Some (inr (frame, post)) /\
    BuildLeaseAcceptedTransitionV1 WorkerSample.verify WorkerSample.config post StoreSample.accepting = Some (inr (frame, post)).
Proof.
  pose proof StoreSample.claim_accepted as H. unfold StoreSample.accepted_at in H.
  destruct StoreSample.claiming as [s |]; [| discriminate H]. cbn [option_map] in H.
  destruct (BuildLeaseAcceptedTransitionV1 _ _ s _) as [[e | [frame post]] |] eqn:B; try discriminate H. injection H as H.
  exists s, frame, post. split; [exact H |]. split; [exact B |].
  assert (fr_Sequence frame <> max_u64) as N by (rewrite H; discriminate).
  exact (proj1 (retries_exact WorkerSample.verify WorkerSample.config s frame post N) StoreSample.accepting B).
Defined.

Lemma durable_restores_witness :
  exists s m, durable WorkerSample.verify WorkerSample.config s /\ RestoreConformanceMachine WorkerSample.config s = inr m.
Proof.
  pose proof StoreSample.is_attached as H. unfold StoreSample.attached in H.
  destruct (BuildInitialAttachSnapshotV1 _ _ _ _) as [[e | s] |] eqn:B; try discriminate H.
  pose proof (du_attach _ _ _ _ _ B) as D. destruct (durable_restores _ _ _ D) as [m R]. exists s, m. by split.
Defined.
