(* ===== verification/WorkerReplay.v ===== *)
(** * Replaying the answer to a reconnect
      ([internal/attachedworkerprotocol]: [durable.go])

    The platform builds the answer to a reconnect once and gives it again, from the
    snapshot alone, when the worker repeats its request. *)

From stdpp Require Import gmap.
From S2P Require Import Prelude GoText Sorting Sha256 Json WorkerProtocol WorkerFrames WorkerReconnect.
From S2P Require Import WorkerTranscripts WorkerMachine WorkerSnapshot WorkerReducers.
From S2P Require Import WorkerSample WorkerMachineSafety WorkerMachineRuns WorkerMachineAttempts WorkerRestore WorkerDurable.
From S2P Require Import WorkerStore.
#[local] Open Scope Z_scope.

Implicit Types (m : ConformanceMachine) (d : Direction) (f : FrameV1) (s : MachineSnapshotV1).

Section Replay.
Context (verify : string -> string -> string -> bool).

(** ** The handshake of a reconnect *)

Lemma hello_effect m d f n p :
  effect verify m d f n -> fr_Kind f = MessageHello -> fr_Hello f = Some p ->
  n = {| m with cm_hello := cloneHello p; cm_connection := ConnectionHello |}.
Proof.
  intros E K P. destruct E as [I | q Kq Dq Cq Pq | | | | | | | | | | | | | | b s a Pa M]; try congruence.
  - by rewrite K in I.
  - destruct M; congruence.
Qed.

Lemma challenge_effect m d f n p :
  effect verify m d f n -> fr_Kind f = MessageChallenge -> fr_Challenge f = Some p ->
  n = {| m with cm_challenge := cloneChallenge p; cm_connection := ConnectionChallenged |}.
Proof.
  intros E K P. destruct E as [I | | q Kq Dq Cq Pq | | | | | | | | | | | | | b s a Pa M]; try congruence.
  - by rewrite K in I.
  - destruct M; congruence.
Qed.

Lemma reconnect_effect m d f n p :
  effect verify m d f n -> fr_Kind f = MessageReconnect -> fr_Reconnect f = Some p ->
  VerifyReconnectV1 verify (mc_Auth (cm_config m)) f = None /\
  n = {| m with cm_capabilityDigest := copied (rc_CapabilityDigest p);
                cm_reconnectClaim := cloneReconnectSnapshot (claimed_snapshot p);
                cm_connection := ConnectionReconnectPending |}.
Proof.
  intros E K P. destruct E as [I | | | | | q Kq Dq Cq Rq Pq Vq | | | | | | | | | | b s a Pa M]; try congruence.
  - by rewrite K in I.
  - rewrite P in Pq. injection Pq as <-. done.
  - destruct M; congruence.
Qed.

Lemma answer_effect m d f n :
  effect verify m d f n -> fr_Kind f = MessageReconnectAccepted ->
  cm_connection m = ConnectionReconnectPending /\
  exists a, n = {| m with cm_attempt := a; cm_connection := ConnectionAttached |}.
Proof.
  intros E K. destruct E as [I | | | | | | p m1 m2 Kq Dq Cq Pq Uq Iq E | | | | | | | | | b s a Pa M]; try congruence.
  - by rewrite K in I.
  - destruct (reconnected_rest _ _ _ _ _ (ra_AuthoritativeAttempt p) Iq) as [a Ha]. rewrite Ha in E. subst m2.
    split; [done | by exists a].
  - destruct M; congruence.
Qed.

(** A frame whose sequence is new, accepted. *)
Lemma accept_new m d f acceptance m1 :
  Accept verify m d f acceptance = Some (m1, None) -> fr_Sequence f <> sq_sequence (sender_of m d) ->
  exists n, effect verify m d f n /\
    m1 = set_sender n d {| sq_sequence := fr_Sequence f; sq_ack := fr_Ack f; sq_fingerprint := frameFingerprint f |}.
Proof. intros A N. apply accept_inv in A as (_ & _ & _ & [(_ & Q & _) | (n & E & -> & _)]); [done | eauto]. Qed.

Definition envelope_state f : sequenceState :=
  {| sq_sequence := fr_Sequence f; sq_ack := fr_Ack f; sq_fingerprint := frameFingerprint f |}.

(** The machine that has answered a reconnect. *)
Definition answered m (next : AuthContextV1) f (p : ReconnectV1) accepted (a : attemptRecord) : ConformanceMachine :=
  let b := begun m next in
  {| b with cm_connection := ConnectionAttached; cm_platform := envelope_state accepted; cm_worker := envelope_state f;
            cm_hello := cloneHello {| he_Offer := rc_WorkerOffer p; he_WorkerNonce := copied (rc_WorkerNonce p) |};
            cm_challenge := cloneChallenge {| cl_WorkerOffer := rc_WorkerOffer p; cl_PlatformOffer := rc_PlatformOffer p;
              cl_SelectedVersion := rc_SelectedVersion p; cl_WorkerNonce := copied (rc_WorkerNonce p);
              cl_PlatformNonce := copied (rc_PlatformNonce p) |};
            cm_capabilityDigest := copied (rc_CapabilityDigest p); cm_attempt := a;
            cm_reconnectClaim := cloneReconnectSnapshot (claimed_snapshot p) |}.

(** What the platform held when the reconnect began. *)
Definition authority_of m : ReconnectSnapshotV1 :=
  sealReconnectSnapshot
    {| rs_PreviousConnectionGeneration := au_ConnectionGeneration (mc_Auth (cm_config m));
       rs_Watermarks := currentWatermarks m; rs_Attempt := currentAttemptSummary m;
       rs_PendingTerminalReplay := pendingTerminalForSnapshot m; rs_Digest := SNil |}.

Lemma accept_all_cons d f l acceptance m m' :
  accept_all verify m ((d, f) :: l) acceptance = Some (Some m') ->
  exists m1, Accept verify m d f acceptance = Some (m1, None) /\ accept_all verify m1 l acceptance = Some (Some m').
Proof. cbn. destruct (Accept verify m d f acceptance) as [[m1 [e |]] |]; try discriminate. eauto. Qed.

Lemma handshake_trace m next f p m2 :
  fr_Reconnect f = Some p -> fr_Kind f = MessageReconnect ->
  accept_all verify (begun m next)
    [(DirectionWorkerToPlatform, hello_frame next (rc_WorkerOffer p) (rc_WorkerNonce p));
     (DirectionPlatformToWorker, challenge_frame next (rc_WorkerOffer p) (rc_PlatformOffer p) (rc_SelectedVersion p)
        (rc_WorkerNonce p) (rc_PlatformNonce p)); (DirectionWorkerToPlatform, f)] (handshake_acceptance next) = Some (Some m2) ->
  sq_sequence (cm_platform m2) = 1 /\
  (cm_connection m2 = ConnectionReconnectPending -> VerifyReconnectV1 verify (cloneAuthContext next) f = None /\
  forall a accepted, set_sender {| m2 with cm_attempt := a; cm_connection := ConnectionAttached |} DirectionPlatformToWorker
    (envelope_state accepted) = answered m next f p accepted a).
Proof.
  intros P K H. apply accept_all_cons in H as (n1 & A1 & H). apply accept_new in A1 as (e1 & E1 & ->); [| done].
  eapply hello_effect in E1; [| reflexivity..]. subst e1.
  apply accept_all_cons in H as (n2 & A2 & H). apply accept_new in A2 as (e2 & E2 & ->); [| done].
  eapply challenge_effect in E2; [| reflexivity..]. subst e2.
  apply accept_all_cons in H as (n3 & A3 & H). injection H as ->.
  apply accept_inv in A3 as (_ & _ & _ & [(-> & _) | (n & E3 & -> & _)]); [by split |].
  eapply reconnect_effect in E3 as [V ->]; [| exact K | exact P]. split; [reflexivity |]. intros _. split; [exact V | reflexivity].
Qed.

(** Everything a reconnect that succeeded has gone through. *)
Record reconnected config s next f accepted post m p payload a : Prop := {
  rd_restored : RestoreConformanceMachine config s = inr m;
  rd_kind : fr_Kind f = MessageReconnect;
  rd_payload : fr_Reconnect f = Some p;
  rd_built : BuildReconnectAcceptedV1 (authority_of m) (claimed_snapshot p) (reconnect_negotiation p) = inr payload;
  rd_accepted : accepted = reconnect_accepted_frame next payload;
  rd_verified : VerifyReconnectV1 verify (cloneAuthContext next) f = None;
  rd_frame : FrameV1_Validate accepted = None;
  rd_scope : out_of_scope (answered m next f p accepted a) DirectionPlatformToWorker accepted (handshake_acceptance next) = false;
  rd_stored : Snapshot (answered m next f p accepted a) = inr post;
  rd_sound : sound_under {| config with mc_Auth := next |} (answered m next f p accepted a) }.

Lemma reconnect_trace config s next f accepted post :
  BuildReconnectAcceptedSnapshotV1 verify config s next f = Some (inr (accepted, post)) ->
  exists m p payload a, reconnected config s next f accepted post m p payload a.
Proof.
  unfold BuildReconnectAcceptedSnapshotV1. intros H. destruct (fr_Reconnect f) as [p |] eqn:P; [| discriminate H].
  destruct (negb _) eqn:K; [discriminate H |]. apply negb_false_iff, bool_decide_eq_true in K.
  destruct (RestoreConformanceMachine config s) as [e | m] eqn:R; [discriminate H |].
  destruct (BeginReconnect m next) as [m1 [e | authoritative]] eqn:B; [discriminate H |]. cbv zeta in H.
  pose proof (begun_sound verify config m next m1 authoritative B (restored_sound _ _ _ R)) as S1.
  apply begin_cases in B as [[_ [=]] | (-> & E & _)]. injection E as ->.
  destruct (accept_all _ _ _ _) as [[m2 |] |] eqn:A; try discriminate H.
  destruct (BuildReconnectAcceptedV1 _ _ _) as [e | payload] eqn:Bp; [discriminate H |].
  destruct (Accept verify m2 _ _ _) as [[m3 [e |]] |] eqn:A'; try discriminate H.
  destruct (Snapshot m3) as [e | q] eqn:S; [discriminate H |]. destruct (negb _); [discriminate H |]. injection H as <- <-.
  pose proof (accept_all_sound verify _ _ _ _ _ A S1) as S2. pose proof (accept_sound verify _ _ _ _ _ _ A' S2) as S3.
  assert (out_of_scope m2 DirectionPlatformToWorker (reconnect_accepted_frame next payload) (handshake_acceptance next) = false) as O.
  { unfold Accept in A'. by destruct (out_of_scope m2 _ _ _). }
  assert (FrameV1_Validate (reconnect_accepted_frame next payload) = None) as V by (apply accept_inv in A'; tauto).
  destruct (handshake_trace _ _ _ _ _ P K A) as [Q T].
  apply accept_new in A' as (n & En & ->); [| change (2 <> sq_sequence (cm_platform m2)); lia].
  apply answer_effect in En as [Cn (a & ->)]; [| done]. destruct (T Cn) as [Vr Ta]. fold (envelope_state (reconnect_accepted_frame next payload)) in *.
  rewrite Ta in S, S3. exists m, p, payload, a. split; try done.
  unfold out_of_scope in *. destruct S2 as (_ & _ & C2), S3 as (_ & _ & C3). by rewrite C2 in O; rewrite C3.
Qed.

(** ** The answer again *)

Lemma verify_clone auth f : VerifyReconnectV1 verify (cloneAuthContext auth) f = VerifyReconnectV1 verify auth f.
Proof.
  unfold VerifyReconnectV1, verifyFrame, ReconnectTranscriptV1, validateSignedFrame, signedTranscript, AuthContextV1_Validate.
  cbn [au_TenantID au_OwnerUserID au_WorkerID au_IdentityPublicKey au_EnrollmentGeneration au_ConnectionGeneration au_Version
    au_ChannelBinding cloneAuthContext]. by rewrite !content_copied.
Qed.

Lemma build_pending authoritative claim n payload :
  BuildReconnectAcceptedV1 authoritative claim n = inr payload ->
  ra_AuthoritativePendingTerminalReplay payload = cloneTerminal (rs_PendingTerminalReplay authoritative).
Proof.
  unfold BuildReconnectAcceptedV1. intros H. cbv zeta in H. destruct (_ || _); [discriminate H |]. destruct (_ && _); [discriminate H |].
  by injection H as <-.
Qed.

Lemma pending_stored config s m :
  RestoreConformanceMachine config s = inr m ->
  (pendingTerminalForSnapshot m = None <-> ms_PendingWorkerTerminal (mz_Attempt s) = None).
Proof.
  intros (_ & _ & _ & -> & _)%restore_inv.
  assert (ar_pendingWorkerTerminal (cm_attempt (restored_machine (new_machine (cloneMachineConfig config)) (cloneMachineSnapshot s)))
    = option_map (fun p => restore_commitment (clone_pending p)) (ms_PendingWorkerTerminal (mz_Attempt s))) as E.
  { unfold restored_machine, restore_reconnect. case_match; cbn; by destruct (ms_PendingWorkerTerminal (mz_Attempt s)). }
  unfold pendingTerminalForSnapshot. rewrite E. by destruct (ms_PendingWorkerTerminal (mz_Attempt s)).
Qed.

Lemma same_negotiation p :
  negotiationMatchesChallenge (rc_WorkerOffer p) (rc_PlatformOffer p) (rc_SelectedVersion p) (rc_WorkerNonce p)
    (rc_PlatformNonce p) (cloneChallenge {| cl_WorkerOffer := rc_WorkerOffer p; cl_PlatformOffer := rc_PlatformOffer p;
      cl_SelectedVersion := rc_SelectedVersion p; cl_WorkerNonce := copied (rc_WorkerNonce p);
      cl_PlatformNonce := copied (rc_PlatformNonce p) |}) = true.
Proof.
  unfold negotiationMatchesChallenge. cbn. rewrite !same_offer_refl, Z.eqb_refl. unfold bytes_equal.
  by rewrite !content_copied, !String.eqb_refl.
Qed.

(** What is stored of the machine that has answered is what a replay looks for. *)
Lemma answered_stored m next f p accepted a post :
  ReconnectSnapshotV1_Validate (claimed_snapshot p) = None ->
  Snapshot (answered m next f p accepted a) = inr post ->
  stored_in post ConnectionAttached = true /\
  exists r, mz_Reconnect post = Some r /\ mr_Claim r = Some (claimed_snapshot p) /\
    replay_mismatch post (claimed_snapshot p) (claimed_snapshot p) p = false /\
    replay_authoritative r = sealReconnectSnapshot
      {| rs_PreviousConnectionGeneration := au_ConnectionGeneration (mc_Auth (cm_config m));
         rs_Watermarks := currentWatermarks m; rs_Attempt := currentAttemptSummary m;
         rs_PendingTerminalReplay := None; rs_Digest := SNil |}.
Proof.
  intros V S. apply snapshot_inv in S as (cd & _ & _ & C & E).
  apply content_checked, ck_state in C. unfold snapshot_state in C. rewrite !reject_nil in C. destruct C as (_ & _ & _ & C).
  change (mz_Connection (snapshot_of (answered m next f p accepted a) (SBytes cd))) with ConnectionAttached in C.
  cbv iota in C. rewrite reject_nil in C. destruct C as [C _]. b2p.
  destruct C as [[[[h Hh] [c Hc]] _] _].
  assert (cloneReconnectSnapshot (claimed_snapshot p) = claimed_snapshot p) as Cl by apply clone_sealed.
  assert (mz_Challenge post = Some c) as Hc' by by subst post.
  assert (mz_Hello post = Some h) as Hh' by by subst post.
  assert (c = cloneChallenge (cm_challenge (answered m next f p accepted a))) as Ec.
  { cbn [mz_Challenge snapshot_of] in Hc. unfold if_valid in Hc. destruct (isnil _); [by injection Hc | discriminate Hc]. }
  cbn [answered cm_challenge] in Ec. rewrite clone_challenge_idem in Ec.
  split; [by subst post |]. eexists. split; [by subst post |]. cbn [mr_Claim answered cm_reconnectClaim].
  split; [| split].
  - rewrite Cl. unfold if_valid. by rewrite V, Cl.
  - unfold replay_mismatch. rewrite V, Hc', Hh', Ec, same_negotiation. unfold bytes_equal. rewrite String.eqb_refl. cbn [notnil isnil negb orb].
    subst post. cbn [mz_CapabilityDigest with_digest snapshot_of answered cm_capabilityDigest].
    by rewrite !content_copied, String.eqb_refl.
  - unfold replay_authoritative. cbn [mr_PreviousConnectionGeneration mr_Watermarks mr_Attempt answered begun
      cm_previousConnectionGeneration cm_reconnectWatermarks cm_reconnectAttempt]. by rewrite cloneSummary_id.
Qed.

(** The answer, offered again to the machine that has given it, changes nothing. *)
Lemma answer_offered_again m f acceptance :
  out_of_scope m DirectionPlatformToWorker f acceptance = false -> fr_MessageID f = MessageIDV1 DirectionPlatformToWorker (fr_Sequence f) ->
  FrameV1_Validate f = None -> cm_platform m = envelope_state f ->
  Accept verify m DirectionPlatformToWorker f acceptance = Some (m, None).
Proof.
  intros O I V P. unfold Accept. rewrite O, I, String.eqb_refl. unfold sender_of, is_direction. rewrite bool_decide_true, P by done.
  apply valid_frame_sequence, Z.eqb_neq in V. cbn [envelope_state sq_sequence sq_fingerprint negb]. by rewrite Z.eqb_refl, V, String.eqb_refl.
Qed.

(** C22. The answer to a reconnect can be given again, unless a terminal was held. After a
    reconnect has been answered, [ReplayReconnectAcceptedV1] on the stored snapshot and
    the same request returns the same frame exactly when the machine held no terminal for
    replay before the reconnect began. When it held one, the rebuilt answer leaves the
    terminal out and is not the answer that was given, though the retry is an exact one. *)
Theorem replay_exact_iff config s next f accepted post :
  BuildReconnectAcceptedSnapshotV1 verify config s next f = Some (inr (accepted, post)) ->
  (ReplayReconnectAcceptedV1 verify {| config with mc_Auth := next |} post f = Some (inr accepted) <->
   ms_PendingWorkerTerminal (mz_Attempt s) = None).
Proof.
  intros H. destruct (reconnect_trace _ _ _ _ _ _ H) as (m & p & payload & a & [R K P B Ea Vr Vf O St (F & T & C)]).
  pose proof (build_inv _ _ _ _ B) as (_ & Vc & _). pose proof (build_pending _ _ _ _ B) as Pp.
  destruct (answered_stored _ _ _ _ _ _ _ Vc St) as (Sa & r & Hr & Hc & Mm & Au).
  destruct (post_restores _ _ _ F T C St) as (m' & R' & L).
  rewrite <- (pending_stored _ _ _ R). unfold ReplayReconnectAcceptedV1. rewrite R', Hr, P, Sa, Hc, K.
  cbn [mc_Auth]. cbv zeta. change (default zero_snapshot (Some (claimed_snapshot p))) with (claimed_snapshot p).
  rewrite <- verify_clone, Vr, Mm, bool_decide_true by done. cbn [notnil isnil negb orb].
  rewrite Au. split.
  - intros E. match type of E with context [BuildReconnectAcceptedV1 ?x ?y ?z] =>
      remember (BuildReconnectAcceptedV1 x y z) as rebuilt eqn:B' end.
    destruct rebuilt as [e | payload']; [discriminate E |]. symmetry in B'. apply build_pending in B'.
    assert (payload' = payload) as ->.
    { destruct (Accept verify m' _ _ _) as [[m2 [e |]] |]; try discriminate E. destruct (Snapshot m2); [discriminate E |].
      destruct (negb _); [discriminate E |]. subst accepted. by injection E. }
    rewrite Pp in B'. unfold authority_of in B'. cbn [rs_PendingTerminalReplay sealReconnectSnapshot cloneTerminal] in B'.
    by destruct (pendingTerminalForSnapshot m).
  - intros N. unfold authority_of in B. rewrite N in B. rewrite B, <- Ea.
    rewrite (answer_offered_again m' accepted), (snapshot_like _ _ L), St.
    + unfold bytes_equal. by rewrite String.eqb_refl.
    + unfold out_of_scope in *. by rewrite (lk_config _ _ L).
    + by rewrite Ea.
    + done.
    + by rewrite (lk_platform _ _ L).
Qed.
End Replay.

(** ** A sample *)

Module ReplaySample.
Import WorkerSample.

(** The worker has sent a terminal the platform has not received when the connection is
    lost; it reconnects, and the connection is lost again before the terminal is replayed. *)
Definition machine_after (l : list (Direction * FrameV1)) : ConformanceMachine :=
  default start (accepts verify start l acceptance).
Definition third_auth : AuthContextV1 :=
  {| next_auth with au_ConnectionGeneration := 3; au_ChannelBinding := b32 "e" |}.
Definition under (auth : AuthContextV1) : MachineConfig := {| config with mc_Auth := auth |}.

Definition stored m : MachineSnapshotV1 :=
  match Snapshot m with inr s => s | inl _ => snapshot_of m SNil end.

(** The reconnect frame of a worker. *)
Definition reconnect_of m (auth : AuthContextV1) : FrameV1 :=
  let f := envelope_of auth worker 2 1 MessageReconnect in
  match BeginReconnect m auth with
  | (_, inr s) => match BuildReconnectV1 s negotiation with
                  | inr r => {| f with fr_Reconnect := Some {| r with rc_Signature := signature |} |}
                  | inl _ => f
                  end
  | _ => f
  end.
Definition manifest_of (auth : AuthContextV1) : FrameV1 :=
  let f := envelope_of auth worker 3 2 MessageManifest in
  {| f with fr_Manifest := Some {| mn_Manifest := manifest; mn_Digest := digest; mn_Signature := signature |} |}.

Definition first_stored := Eval vm_compute in stored (machine_after claimed).
Definition first_request :=
  Eval vm_compute in reconnect_of (machine_after (claimed ++ [(worker, terminal)])) next_auth.
Definition built : result (FrameV1 * MachineSnapshotV1) :=
  BuildReconnectAcceptedSnapshotV1 verify config first_stored next_auth first_request.
Definition first_answer :=
  Eval vm_compute in match built with Some (inr r) => fst r | _ => first_request end.
Definition first_post :=
  Eval vm_compute in match built with Some (inr r) => snd r | _ => first_stored end.

(** The platform's machine and the worker's after the first reconnect. *)
Definition second_stored :=
  Eval vm_compute in match ApplyMachineFrameV1 verify (under next_auth) first_post worker (manifest_of next_auth) 10 with
                     | Some (inr s) => s | _ => first_stored end.
Definition second_request :=
  Eval vm_compute in
    match accept_all verify (fst (BeginReconnect (machine_after (claimed ++ [(worker, terminal)])) next_auth))
            [(worker, hello_frame next_auth offer (b32 "n")); (platform, challenge_frame next_auth offer offer 1 (b32 "n") (b32 "m"));
             (worker, first_request); (platform, first_answer); (worker, manifest_of next_auth)]
            (handshake_acceptance next_auth) with
    | Some (Some m) => reconnect_of m third_auth
    | _ => first_request
    end.

Definition is_answered (r : result (FrameV1 * MachineSnapshotV1)) : bool :=
  match r with Some (inr _) => true | _ => false end.

Lemma is_answered_inv r : is_answered r = true -> exists accepted post, r = Some (inr (accepted, post)).
Proof. destruct r as [[e | [accepted post]] |]; try discriminate. eauto. Qed.

Lemma first_answered : is_answered (BuildReconnectAcceptedSnapshotV1 verify config first_stored next_auth first_request) = true.
Proof. vm_cast_no_check (eq_refl true). Qed.
Lemma second_answered :
  is_answered (BuildReconnectAcceptedSnapshotV1 verify (under next_auth) second_stored third_auth second_request) = true.
Proof. vm_cast_no_check (eq_refl true). Qed.
End ReplaySample.

(** The first answer is given again; the second, built while a terminal is held, is not. *)
Lemma replay_exact_iff_witness :
  (exists accepted post,
     BuildReconnectAcceptedSnapshotV1 WorkerSample.verify WorkerSample.config ReplaySample.first_stored WorkerSample.next_auth
       ReplaySample.first_request = Some (inr (accepted, post)) /\
     ReplayReconnectAcceptedV1 WorkerSample.verify (ReplaySample.under WorkerSample.next_auth) post ReplaySample.first_request
       = Some (inr accepted)) /\
  (exists accepted post,
     BuildReconnectAcceptedSnapshotV1 WorkerSample.verify (ReplaySample.under WorkerSample.next_auth) ReplaySample.second_stored
       ReplaySample.third_auth ReplaySample.second_request = Some (inr (accepted, post)) /\
     ReplayReconnectAcceptedV1 WorkerSample.verify (ReplaySample.under ReplaySample.third_auth) post ReplaySample.second_request
       <> Some (inr accepted)).
Proof.
  split.
  - destruct (ReplaySample.is_answered_inv _ ReplaySample.first_answered) as (accepted & post & H). exists accepted, post. split; [exact H |].
    exact (proj2 (replay_exact_iff _ _ _ _ _ _ _ H) eq_refl).
  - destruct (ReplaySample.is_answered_inv _ ReplaySample.second_answered) as (accepted & post & H). exists accepted, post. split; [exact H |].
    intros E. pose proof (proj1 (replay_exact_iff _ _ _ _ _ _ _ H) E) as N. discriminate N.
Defined.
